(* ===== verification/_CoqProject ===== *)
-Q . S2P
Prelude.v
Bytes.v
CowHeap.v
AllocBuffer.v
MmapBuffer.v
WrappedBuffer.v
BufferIter.v
Net.v
ReadBuffer.v
WriteBuffer.v
LogServer.v
Sha256.v
Crypto.v
BitcoinWire.v
CombinedVersion.v
Logger.v
Blacklist.v
BitcoinHandler.v
BitcoinPeer.v
PeerSession.v
TorHandler.v
CtrlMsg.v
EasyMsg.v
CommandHandler.v
CVector.v
IoBuf.v
LogFormat.v
FileIo.v
ClientLib.v
LogTools.v
ClientReader.v
Verbatim.v
LogPath.v
LogReader.v
Printing.v
Console.v
BcWatch.v
Schedule.v
GetAddr.v
GetAddrRun.v
ControlPath.v
AddrMap.v
KillDupes.v
Descriptors.v
Config.v
LogServerMain.v
ConnectorMain.v
ConnectorParts.v
Programs.v
Cycle.v
GetAddrMain.v
ClientMains.v
