(* ===== verification/Prelude.v ===== *)
(** * Coinscope: a verification of the connector, the log pipeline and their clients

    ** The program

    Coinscope watches the bitcoin network. The connector (connector/) keeps many
    connections to bitcoin peers and obeys clients that connect to its control
    socket; everything that happens on a connection is sent as binary records to
    the log server (logserver/), which passes them on to any number of readers.
    Both are single-threaded programs around libev: an object per descriptor,
    whose callbacks run when the descriptor becomes readable or writable or a
    timer fires, on buffers that are shared copy-on-write (shared/). Around them
    are the programs that read the log (logclient/), repair and check log files
    (tools/), and use the control socket (clients/), most of all getaddr, which
    follows the log and asks every peer for addresses.

    A program with effects is a function of type [prog S A]: from a state to a
    value and the new state ([Ret]), to an exception and the state it leaves
    ([Raise]), or to undefined behaviour ([Fault]: an access out of bounds,
    through a dead or null pointer, a failed assert). Machine integers are [Z]
    with their wrap-around written out ([u8], [u32], [u64], [s32]); memory is a
    list of byte values. What the kernel answers is a script in the state: the
    bytes, ends and errors that recv will give, how much each write will take.
    Configuration, clock, the random device, OpenSSL's digests, inet_pton and
    strerror are parameters.

    ** Files and sources

    - Prelude: outcomes, the [prog] monad, lists indexed by [Z].
    - Bytes: integers as bytes and network.hpp's byte orders.
    - CowHeap, AllocBuffer, MmapBuffer, WrappedBuffer: the heap with reference
      counts, and alloc_buffer, mmap_buffer and wrapped_buffer on it
      (shared/src/alloc_buffer.cpp, mmap_buffer.cpp, wrapped_buffer.cpp).
      BufferIter: the iterators of the three classes, once for all of them
      against the interface [Owner], which each class implements.
    - Net: sockets, libev watchers, and the buffers the handlers use as the
      byte strings that WrappedBuffer shows them to be.
    - ReadBuffer, WriteBuffer: read_buffer and write_buffer and the read and
      write loops that all handlers share. The class [HasReader] is the
      interface a handler gives the read loop; [feed] is the loop's contract: a
      machine that takes the peer's bytes one at a time.
    - LogServer: collector, input_cxn and output_cxn of logserver/ and the
      accept handler template.
    - Sha256: the standard's function, for witnesses only. Crypto: sha256 of
      shared/src/crypto.cpp over OpenSSL's interface (the class [Digest] is its
      documented behaviour) and the nonce generators of crypto.hpp, with the
      engines mt19937 and mt19937_64.
    - BitcoinWire: bitcoin.cpp and the layouts of bitcoin.hpp. CombinedVersion:
      the struct combined_version with its pointers, and get_version on it.
    - Logger: g_log, its store and log_buffer (logger.cpp, logger.hpp).
    - Blacklist: blacklist.hpp and load_blacklist of connector/src/main.cpp.
    - BitcoinHandler: handler, connect_handler and accept_handler of
      connector/src/bitcoin_handler.cpp. The state of a callback is the handler,
      whether g_active_handlers owns it, and the globals; [on_active] runs a
      callback on the handler of an id. BitcoinPeer and PeerSession are the
      theorems about them.
    - TorHandler: tor_connect_handler of the same file.
    - CtrlMsg: command_structures.hpp and the client API of
      shared/src/connector.cpp, a message being its bytes. EasyMsg: the same
      API as objects on the heap whose buffers share memory (connector.hpp), and
      registered_msg of command_handler.cpp.
    - CommandHandler: ctrl::handler and ctrl::accept_handler of
      connector/src/command_handler.cpp, on top of the bitcoin handlers.
    - CVector, IoBuf: the containers cvector.hpp and iobuf.cpp.
    - LogFormat: the records of the log as the log server sends them, for the
      programs that read it. FileIo: a file with a script of what its calls do.
    - LogTools: logtruncate, logchecker and logfixer of tools/src/.
    - ClientReader: the loop of a client that reads the log server through a
      blocking socket. LogReader: the lines that bcwatch, getaddr and the
      console have in common, a length and then a record, for any client.
    - Verbatim: logclient/verbatim.cpp with its log rotation. LogPath: Logger,
      LogServer and Verbatim put together, the way a log record takes.
    - Printing: type_to_str and the printed form of addresses (logger.cpp).
      Console: logclient/src/console.cpp and console_from_file.cpp.
    - ClientLib: clients/lib.hpp (address order and hash, blocking writes, the
      list of connections), and the disconnect command of kill_dupes.cpp.
    - BcWatch: clients/bcwatch.cpp, both watchers.
    - Schedule: next_getaddr of clients/getaddr.cpp over any time zone.
      GetAddr: clients/getaddr.cpp, its handlers, rounds and callbacks.
      GetAddrRun: the program as events in any order, and its theorems.
    - ControlPath: getaddr, the control socket and the connector put together.
      AddrMap: std::map keyed by addresses, where their comparison is an order
      (class KeyOrder). KillDupes: clients/kill_dupes.cpp and its effect on the
      connector.
    - Descriptors: netwrap.hpp and network.cpp on a kernel with a limited table
      of descriptors. Config: drop_perms, load_config and startup_setup of
      config.cpp, with the real, effective and saved ids of a process and calls
      that may be refused. LogServerMain: main of logserver/src/main.cpp. ConnectorMain: connector/src/main.cpp
      with log_watcher and hup_watcher, and external_addr of
      bitcoin_handler.cpp. ConnectorParts: user_agent and get_randping with
      their static variables, and the destructors of the accept handlers. The
      main functions are modelled up to the event loop.
    - Programs: clients/get_nodes.cpp and connect.cpp, and the listeners that
      main of getaddr.cpp reads. Cycle: clients/cycle.cpp and its effect on the
      connector. GetAddrMain: main of getaddr.cpp. ClientMains: how the other
      clients start, and where their sockets lead.

    ** What the theorems show

    - Buffers: every operation of wrapped_buffer returns and acts on independent
      byte strings, whatever is shared underneath (wrapped_buffer_refines), and
      after any operations and then the destructors in any order nothing is left
      of the heap (no_leak); a loop from
      begin() to end() visits every element once (iterators_exact). The objects
      of the client API are values although they share memory
      (easy_messages_are_values).
    - Loops: read and write rounds end, move exactly the bytes they say, and keep
      the order (read_round, write_round).
    - Log pipeline: what the connector logs is what ends in verbatim's files,
      through any interleaving with other connections (log_path). Its parts: what
      the connector logs arrives as framed records in order (log_stream); what the
      log server completes on its inputs is what each interested consumer is sent (consumer_stream), its callbacks keep the
      server's invariant (server_callbacks_safe) and none is forgotten
      (no_lost_wakeup).
    - Connections: what a connection does depends on the byte stream and not on
      its segments (reads_see_a_stream); both handshakes, ping and the block
      height (outbound_handshake, inbound_handshake, ping_answered,
      height_moves_slowly); a connection with bytes to send waits for its socket
      after every sequence of callbacks (peer_never_sleeps, a step relation from
      the constructor on); the Tor negotiation closes or hands over its
      descriptor exactly once (tor_descriptor).
    - Control: commands reach exactly their targets (send_delivers), list all
      connections (get_cxn_lists), registered messages are kept
      (register_keeps_message), replies are not stuck (client_never_sleeps).
    - Clients and connector together: both sides of a registration agree on its
      id (registration_agrees), what getaddr decides to send reaches exactly the
      peers it names (push_delivers), after kill_dupes exactly the
      newest connection of every address is left (newest_left), and cycle closes
      the connections of exactly the peers it could reach (cycle_replaces),
      however the control socket cuts the commands and whatever the connector
      has done meanwhile.
    - Formats: round trips of varints, envelopes, versions, wire addresses and
      control messages; get_version with its object and accessors builds the
      bytes the handlers send (build_version_exact).
    - Hashes and nonces: sha256 is the digest and leaks nothing when OpenSSL does
      what it documents and no call fails, and what it does when one fails
      (sha256_exact); the nonces fit their types
      (nonces_in_range), and the engines give the values the C++ standard states
      for their 10000th call.
    - Set-up: the log server serves on each socket exactly the records of its
      name (log_server_set_up), every client gets connected to the sockets it
      needs (clients_meet_servers) or opens nothing (unreadable_config), getaddr
      reaches its loop with its invariant (getaddr_set_up), the connector listens, loads the blacklist and
      logs (connector_set_up). A daemon started by root that goes on keeps none of
      root's ids, although its groups; one whose call is refused is still root and
      ends (drop_perms_exact, startup_drops_root). An accept handler gives its descriptor back
      (accept_handlers_release), the ping intervals come from one generator and
      the first configuration (randpings_fixed), the agent from the current one
      (user_agent_reads_again).
    - Readers of the log: every complete record is kept, printed or handed over
      once and in order (verbatim_keeps, watcher_delivers, and consoles_print for
      the records that can be printed);
      the tools recover and judge files (logtruncate_recovers, logchecker_exact).
    - getaddr: its invariant over any sequence of events with input in the
      documented format (getaddr_keeps), every address that is not connected is
      tried again (getaddr_reconnects), no peer is asked more than 24 times a
      round whatever happens (getaddr_bounded), what an addr message adds
      (harvest_exact), the next round is found in every time zone
      (next_getaddr_found).
    - Containers and client library: any number of cvectors, copied, moved,
      assigned and swapped, are lists within what their callers must respect
      (cvector_refines); get_all_cxn_complete.
    - Defects: theorems that state what the code does where that is not what it
      is meant to do (early_message_wedges,
      log_watcher_leaks, connector_record_aborts, and among the unnumbered ones
      broadcast_disconnect_faults, reregister_drops_other, easy_connect_not_understood,
      connect_request_extra_byte, partial_greeting_repeats,
      empty_version_stalls, closed_connection_announces, zero_length_stalls,
      alloc_realloc_u32_overflows, set_address_erases_services,
      cvector_defects, sockaddr_cmp_cycles, logtruncate_faults,
      client_log_rejected, logfixer_overruns, get_nodes_undefined,
      get_nodes_garbles, connector_record_unprintable,
      moved_version_loses_suffix, easy_targets_overrun).

    ** Bounds and fuel

    Loops over a socket have as fuel one more than the bytes that can still
    arrive ([stream]) or the writes the kernel will answer; the theorems that say
    a loop returns prove that this is enough, because every turn but the last
    takes a byte or an answer. Loops over data recurse on the data. Sizes are
    bounded where the code's types bound them (2^32 for lengths on the wire) and
    by 2^62 for memory.

    The loop of next_getaddr has four days as fuel, which is enough for every
    schedule with an hour and a minute and every time zone less than a day from
    UTC; node_pages has the bytes it needs.
    Times are in microseconds, where the sources have doubles.

    ** Not modelled

    What does not type-check against command_structures.hpp, because a wire_addr
    is used as a sockaddr_in: the conversion in the callbacks that collect the
    connections (kill_dupes.cpp:91, cycle.cpp:139, getaddr.cpp:566) and
    connect_msg of cycle.cpp are parameters. The options parsed by
    boost::program_options and the look-ups of libconfig, whose values are fields
    and parameters. OpenSSL, localtime and mktime and the event loop itself, which
    are parameters with their documented behaviour, scripts or sequences of
    events. Members of cvector that do not
    compile when they are used (erase, shrink_to_fit, move assignment, the
    constructor from a pointer), and get_bytes and is_type of logtruncate.cpp,
    which nothing calls. The scripts in
    Perl and Python. *)

From stdpp Require Export base tactics list numbers gmap strings.
From Stdlib Require Export ZArith Lia.

Declare Scope prog_scope.
Delimit Scope prog_scope with prog.

#[global] Open Scope Z_scope.
#[global] Open Scope prog_scope.

(** ** Outcomes: exceptions and undefined behaviour as values *)

(** The exceptions the sources throw. [BadAlloc] is what [new] throws. *)
Inductive exn :=
  | RuntimeError (what : string)
  | InvalidArgument (what : string)
  | OutOfRange (what : string)
  | NetworkError (what : string) (err : Z)
  | BadAlloc.

(** Ways a run leaves the defined part of the language: an access outside an
    object, through a dead or a null pointer, a read of memory that nothing has
    written, or a failed [assert]. *)
Inductive fault :=
  | OutOfBounds
  | UseAfterFree
  | NullDeref
  | Uninitialised
  | AssertFailed.

#[global] Instance exn_eq_dec : EqDecision exn.
Proof. solve_decision. Defined.
#[global] Instance fault_eq_dec : EqDecision fault.
Proof. solve_decision. Defined.

(** A statement run in state [S] returns a value, throws (the state keeps what
    was done before the throw), or faults. *)
Inductive out (S A : Type) :=
  | Ret (a : A) (s : S)
  | Raise (e : exn) (s : S)
  | Fault (f : fault).
Arguments Ret {S A} a s.
Arguments Raise {S A} e s.
Arguments Fault {S A} f.

Definition prog (S A : Type) : Type := S -> out S A.

Definition ret {S A} (a : A) : prog S A := fun s => Ret a s.
Definition raise {S A} (e : exn) : prog S A := fun s => Raise e s.
Definition crash {S A} (f : fault) : prog S A := fun _ => Fault f.
Definition get {S} : prog S S := fun s => Ret s s.
Definition put {S} (s : S) : prog S unit := fun _ => Ret tt s.
Definition modify {S} (f : S -> S) : prog S unit := fun s => Ret tt (f s).

Definition bind {S A B} (c : prog S A) (k : A -> prog S B) : prog S B :=
  fun s => match c s with
           | Ret a s' => k a s'
           | Raise e s' => Raise e s'
           | Fault f => Fault f
           end.

(** [assert(b)] of <cassert>. *)
Definition assert {S} (b : bool) : prog S unit :=
  if b then ret tt else crash AssertFailed.

(** A value that must be present: a dereference. *)
Definition deref {S A} (f : fault) (o : option A) : prog S A :=
  match o with Some a => ret a | None => crash f end.

Notation "'let!' x := c 'in' k" := (bind c (fun x => k))
  (at level 10, x name, c at level 100, k at level 200,
   format "'[v' 'let!'  x  :=  c  'in' '/' k ']'") : prog_scope.
Notation "'do!' c 'in' k" := (bind c (fun _ => k))
  (at level 10, c at level 100, k at level 200,
   format "'[v' 'do!'  c  'in' '/' k ']'") : prog_scope.

Lemma bind_ret {S A B} (c : prog S A) (k : A -> prog S B) s a s' :
  c s = Ret a s' -> bind c k s = k a s'.
Proof. unfold bind. by intros ->. Qed.

Lemma bind_raise {S A B} (c : prog S A) (k : A -> prog S B) s e s' :
  c s = Raise e s' -> bind c k s = Raise e s'.
Proof. unfold bind. by intros ->. Qed.

(** Inverting a run that returned. *)
Lemma bind_Ret_inv {S A B} (c : prog S A) (k : A -> prog S B) s b s' :
  bind c k s = Ret b s' -> exists a s1, c s = Ret a s1 /\ k a s1 = Ret b s'.
Proof. unfold bind. destruct (c s); naive_solver. Qed.

(** A program on a part of the state, run on the whole. *)
Definition zoom {S T A} (g : S -> T) (p : T -> S -> S) (c : prog T A) : prog S A :=
  fun s => match c (g s) with
           | Ret a t => Ret a (p t s)
           | Raise e t => Raise e (p t s)
           | Fault f => Fault f
           end.

Lemma zoom_ret {S T A} (g : S -> T) p (c : prog T A) s a t :
  c (g s) = Ret a t -> zoom g p c s = Ret a (p t s).
Proof. unfold zoom. by intros ->. Qed.

(** [keeps f c]: when [c] returns, the observation [f] of the state is what it
    was before. *)
Definition keeps {S T A} (f : S -> T) (c : prog S A) : Prop := forall s a s', c s = Ret a s' -> f s' = f s.

Create HintDb keeps.

Section KeepsRules.
Context {S T : Type} (f : S -> T).

Lemma keeps_ret {A} (a : A) : keeps f (ret a).
Proof. by intros s a' s' [= _ <-]. Qed.
Lemma keeps_get : keeps f get.
Proof. by intros s a' s' [= _ <-]. Qed.
Lemma keeps_crash {A} x : keeps f (crash (A := A) x).
Proof. done. Qed.
Lemma keeps_assert b : keeps f (assert b).
Proof. destruct b; [apply keeps_ret|apply keeps_crash]. Qed.
Lemma keeps_deref {A} x (o : option A) : keeps f (deref x o).
Proof. destruct o; [apply keeps_ret|apply keeps_crash]. Qed.
Lemma keeps_modify u : (forall s, f (u s) = f s) -> keeps f (modify u).
Proof. intros Hu s a s' [= _ <-]. apply Hu. Qed.
Lemma keeps_bind {A B} (c : prog S A) (k : A -> prog S B) :
  keeps f c -> (forall a, keeps f (k a)) -> keeps f (bind c k).
Proof. intros Hc Hk s b s' (a&s1&H1&H2)%bind_Ret_inv. rewrite (Hk a _ _ _ H2). by eapply Hc. Qed.
Lemma keeps_if {A} (b : bool) (c d : prog S A) : keeps f c -> keeps f d -> keeps f (if b then c else d).
Proof. by destruct b. Qed.
Lemma keeps_zoom {U A} (g : S -> U) p (c : prog U A) : (forall u s, f (p u s) = f s) -> keeps f (zoom g p c).
Proof. intros Hp s a s' H. unfold zoom in H. destruct (c (g s)); [|done..]. injection H as _ <-. apply Hp. Qed.
End KeepsRules.

#[export] Hint Resolve keeps_ret keeps_get keeps_crash keeps_assert keeps_deref keeps_if : keeps.
#[export] Hint Extern 3 (keeps _ (bind _ _)) => (apply keeps_bind; [|intros ?]) : keeps.

(** [keeps_tac] goes through the statements and branches of a program. *)
Ltac keeps_tac :=
  repeat first
    [ solve [auto with keeps]
    | apply keeps_bind; [|intros ?]
    | apply keeps_modify; done
    | progress case_match ].

(** [run_step H] replaces the first statement of the goal's program by the
    result [H] gives for it. *)
Ltac run_step H :=
  first [ erewrite bind_ret; [|eapply H] | erewrite bind_raise; [|eapply H] ].

(** ** Lists indexed by machine integers *)

Definition zlen {A} (l : list A) : Z := Z.of_nat (length l).
Definition ztake {A} (n : Z) (l : list A) : list A := take (Z.to_nat n) l.
Definition zdrop {A} (n : Z) (l : list A) : list A := drop (Z.to_nat n) l.
Definition zrep {A} (n : Z) (x : A) : list A := replicate (Z.to_nat n) x.

(** [n] bytes from offset [off]. *)
Definition slice {A} (off n : Z) (l : list A) : list A := ztake n (zdrop off l).

(** Memory after the bytes [d] were stored at offset [off]. *)
Definition splice {A} (off : Z) (d l : list A) : list A :=
  ztake off l ++ d ++ zdrop (off + zlen d) l.

(** Memory grown with [x] or cut to exactly [n] elements. *)
Definition resize {A} (n : Z) (x : A) (l : list A) : list A :=
  ztake n l ++ zrep (n - zlen l) x.

Create Rewrite HintDb zlist.

Lemma zlen_nonneg {A} (l : list A) : 0 <= zlen l.
Proof. unfold zlen. lia. Qed.

Lemma zlen_nil {A} : zlen (@nil A) = 0.
Proof. done. Qed.

Lemma zlen_cons {A} (x : A) l : zlen (x :: l) = 1 + zlen l.
Proof. unfold zlen. simpl. lia. Qed.

Lemma zlen_app {A} (l1 l2 : list A) : zlen (l1 ++ l2) = zlen l1 + zlen l2.
Proof. unfold zlen. rewrite length_app. lia. Qed.

Lemma zlen_ztake {A} n (l : list A) : zlen (ztake n l) = Z.max 0 (Z.min n (zlen l)).
Proof. unfold zlen, ztake. rewrite length_take. lia. Qed.

Lemma zlen_zdrop {A} n (l : list A) : zlen (zdrop n l) = Z.max 0 (zlen l - Z.max 0 n).
Proof. unfold zlen, zdrop. rewrite length_drop. lia. Qed.

Lemma zlen_zrep {A} n (x : A) : zlen (zrep n x) = Z.max 0 n.
Proof. unfold zlen, zrep. rewrite length_replicate. lia. Qed.

Lemma zlen_rev {A} (l : list A) : zlen (rev l) = zlen l.
Proof. unfold zlen. by rewrite length_rev. Qed.

Lemma zlen_map {A B} (f : A -> B) l : zlen (map f l) = zlen l.
Proof. unfold zlen. by rewrite length_map. Qed.

Lemma zlen_slice {A} off n (l : list A) :
  0 <= off -> 0 <= n -> off + n <= zlen l -> zlen (slice off n l) = n.
Proof. unfold slice. intros. rewrite zlen_ztake, zlen_zdrop. lia. Qed.

Lemma zlen_splice {A} off (d l : list A) :
  0 <= off -> off + zlen d <= zlen l -> zlen (splice off d l) = zlen l.
Proof.
  unfold splice. intros. rewrite !zlen_app, zlen_ztake, zlen_zdrop.
  pose proof (zlen_nonneg d). lia.
Qed.

Lemma zlen_resize {A} n (x : A) l : 0 <= n -> zlen (resize n x l) = n.
Proof.
  unfold resize. intros. rewrite zlen_app, zlen_ztake, zlen_zrep.
  pose proof (zlen_nonneg l). lia.
Qed.

#[export] Hint Rewrite @zlen_nil @zlen_cons @zlen_app @zlen_ztake @zlen_zdrop
  @zlen_zrep @zlen_rev @zlen_map : zlist.
#[export] Hint Rewrite @zlen_slice @zlen_splice @zlen_resize using lia : zlist.

Lemma zlen_0_nil {A} (l : list A) : zlen l = 0 -> l = [].
Proof. destruct l; [done|]. unfold zlen. simpl. lia. Qed.

Lemma ztake_all {A} n (l : list A) : zlen l <= n -> ztake n l = l.
Proof. intros. unfold ztake. apply take_ge. unfold zlen in *. lia. Qed.

Lemma ztake_neg {A} n (l : list A) : n <= 0 -> ztake n l = [].
Proof. intros. unfold ztake. by replace (Z.to_nat n) with 0%nat by lia. Qed.

Lemma zdrop_all {A} n (l : list A) : zlen l <= n -> zdrop n l = [].
Proof. intros. unfold zdrop. apply drop_ge. unfold zlen in *. lia. Qed.

Lemma zdrop_neg {A} n (l : list A) : n <= 0 -> zdrop n l = l.
Proof. intros. unfold zdrop. by replace (Z.to_nat n) with 0%nat by lia. Qed.

Lemma zrep_neg {A} n (x : A) : n <= 0 -> zrep n x = [].
Proof. intros. unfold zrep. by replace (Z.to_nat n) with 0%nat by lia. Qed.

Lemma ztake_zdrop {A} n (l : list A) : ztake n l ++ zdrop n l = l.
Proof. apply take_drop. Qed.

Lemma ztake_app_l {A} n (l1 l2 : list A) : n <= zlen l1 -> ztake n (l1 ++ l2) = ztake n l1.
Proof. intros. unfold ztake. apply take_app_le. unfold zlen in *. lia. Qed.

Lemma ztake_app_r {A} n (l1 l2 : list A) :
  zlen l1 <= n -> ztake n (l1 ++ l2) = l1 ++ ztake (n - zlen l1) l2.
Proof.
  intros. unfold ztake. rewrite take_app. f_equal.
  - apply take_ge. unfold zlen in *. lia.
  - f_equal. unfold zlen in *. lia.
Qed.

Lemma ztake_app_exact {A} n (l1 l2 : list A) : n = zlen l1 -> ztake n (l1 ++ l2) = l1.
Proof. intros ->. rewrite ztake_app_l by lia. apply ztake_all. lia. Qed.

Lemma zdrop_app_l {A} n (l1 l2 : list A) :
  n <= zlen l1 -> zdrop n (l1 ++ l2) = zdrop n l1 ++ l2.
Proof. intros. unfold zdrop. apply drop_app_le. unfold zlen in *. lia. Qed.

Lemma zdrop_app_r {A} n (l1 l2 : list A) :
  zlen l1 <= n -> zdrop n (l1 ++ l2) = zdrop (n - zlen l1) l2.
Proof.
  intros. unfold zdrop. rewrite drop_app_ge by (unfold zlen in *; lia).
  f_equal. unfold zlen in *. lia.
Qed.

Lemma zdrop_app_exact {A} n (l1 l2 : list A) : n = zlen l1 -> zdrop n (l1 ++ l2) = l2.
Proof. intros ->. rewrite zdrop_app_r by lia. apply zdrop_neg. lia. Qed.

Lemma ztake_ztake {A} n m (l : list A) : ztake n (ztake m l) = ztake (Z.min n m) l.
Proof. unfold ztake. rewrite take_take. f_equal. lia. Qed.

Lemma zdrop_zdrop {A} n m (l : list A) :
  0 <= n -> 0 <= m -> zdrop n (zdrop m l) = zdrop (m + n) l.
Proof. intros. unfold zdrop. rewrite drop_drop. f_equal. lia. Qed.

Lemma ztake_add {A} n m (l : list A) :
  0 <= n -> 0 <= m -> ztake (n + m) l = ztake n l ++ slice n m l.
Proof.
  intros. unfold slice, ztake, zdrop. rewrite Z2Nat.inj_add by lia.
  by rewrite take_take_drop.
Qed.

Lemma slice_full {A} n (l : list A) : zlen l <= n -> slice 0 n l = l.
Proof. intros. unfold slice. rewrite zdrop_neg by lia. by apply ztake_all. Qed.

Lemma slice_0 {A} n (l : list A) : slice 0 n l = ztake n l.
Proof. unfold slice. by rewrite zdrop_neg by lia. Qed.

Lemma slice_app_mid {A} off n (l1 d l2 : list A) :
  off = zlen l1 -> n = zlen d -> slice off n (l1 ++ d ++ l2) = d.
Proof.
  intros -> ->. unfold slice. rewrite zdrop_app_exact by done. by apply ztake_app_exact.
Qed.

Lemma slice_app_r {A} off n (l1 l2 : list A) :
  zlen l1 <= off -> slice off n (l1 ++ l2) = slice (off - zlen l1) n l2.
Proof. intros. unfold slice. by rewrite zdrop_app_r. Qed.

Lemma slice_app_l {A} off n (l1 l2 : list A) :
  0 <= off -> 0 <= n -> off + n <= zlen l1 -> slice off n (l1 ++ l2) = slice off n l1.
Proof.
  intros. unfold slice. rewrite zdrop_app_l by lia.
  apply ztake_app_l. rewrite zlen_zdrop. lia.
Qed.

Lemma splice_same {A} off (d l : list A) :
  0 <= off -> off + zlen d <= zlen l -> slice off (zlen d) (splice off d l) = d.
Proof.
  intros. unfold splice. apply slice_app_mid; [|done]. rewrite zlen_ztake.
  pose proof (zlen_nonneg d). lia.
Qed.

Lemma splice_take {A} off (d l : list A) :
  0 <= off <= zlen l -> ztake (off + zlen d) (splice off d l) = ztake off l ++ d.
Proof.
  intros. unfold splice. rewrite app_assoc. apply ztake_app_exact.
  rewrite zlen_app, zlen_ztake. lia.
Qed.

Lemma splice_before {A} off n (d l : list A) :
  0 <= n <= off -> off <= zlen l -> ztake n (splice off d l) = ztake n l.
Proof.
  intros. unfold splice. rewrite ztake_app_l by (rewrite zlen_ztake; lia).
  rewrite ztake_ztake. f_equal. lia.
Qed.

Lemma splice_all {A} (d l : list A) : zlen d = zlen l -> splice 0 d l = d.
Proof.
  intros. unfold splice. rewrite ztake_neg, zdrop_all by lia. apply app_nil_r.
Qed.

Lemma splice_nil {A} off (l : list A) : splice off [] l = l.
Proof. unfold splice. change (zlen []) with 0. rewrite Z.add_0_r. apply ztake_zdrop. Qed.

(** Two writes next to each other are one. *)
Lemma splice_splice {A} off (d e l : list A) :
  0 <= off -> off + zlen d + zlen e <= zlen l -> splice (off + zlen d) e (splice off d l) = splice off (d ++ e) l.
Proof.
  intros Hoff Hl. pose proof (zlen_nonneg d). pose proof (zlen_nonneg e). unfold splice at 1.
  rewrite splice_take by lia. unfold splice. rewrite zlen_app, <- !app_assoc. do 3 f_equal.
  rewrite zdrop_app_r by (rewrite zlen_ztake; lia). rewrite zdrop_app_r by (rewrite zlen_ztake; lia).
  rewrite zdrop_zdrop by (rewrite ?zlen_ztake; lia). f_equal. rewrite zlen_ztake. lia.
Qed.

Lemma zlen_concat_all {A} n (ls : list (list A)) : Forall (fun d => zlen d = n) ls -> zlen (concat ls) = zlen ls * n.
Proof. induction 1 as [|d ls Hd HF IH]; [done|]. simpl. rewrite zlen_app, zlen_cons. lia. Qed.

Lemma resize_same {A} (x : A) l : resize (zlen l) x l = l.
Proof.
  unfold resize. rewrite ztake_all, zrep_neg by lia. apply app_nil_r.
Qed.

Lemma resize_nil {A} n (x : A) : resize n x [] = zrep n x.
Proof. unfold resize, ztake. by rewrite take_nil, zlen_nil, Z.sub_0_r. Qed.

Lemma resize_take {A} n k (x : A) l :
  0 <= k <= n -> k <= zlen l -> ztake k (resize n x l) = ztake k l.
Proof.
  intros. unfold resize. rewrite ztake_app_l by (rewrite zlen_ztake; lia).
  rewrite ztake_ztake. f_equal. lia.
Qed.

(** Copying the common prefix into zeroed memory is resizing. *)
Lemma splice_resize {A} n (x : A) l :
  0 <= n -> splice 0 (ztake (Z.min n (zlen l)) l) (zrep n x) = resize n x l.
Proof.
  intros. pose proof (zlen_nonneg l). unfold splice, resize.
  rewrite ztake_neg by lia. simpl. f_equal.
  - destruct (Z.le_ge_cases n (zlen l)).
    + by rewrite Z.min_l.
    + by rewrite Z.min_r, !ztake_all by lia.
  - rewrite zlen_ztake. unfold zdrop, zrep. rewrite drop_replicate. f_equal. lia.
Qed.

(** ** Booleans of Z comparisons, used by every guard *)

Ltac zb :=
  repeat match goal with
  | H : (_ =? _) = true |- _ => apply Z.eqb_eq in H
  | H : (_ =? _) = false |- _ => apply Z.eqb_neq in H
  | H : (_ <? _) = true |- _ => apply Z.ltb_lt in H
  | H : (_ <? _) = false |- _ => apply Z.ltb_ge in H
  | H : (_ <=? _) = true |- _ => apply Z.leb_le in H
  | H : (_ <=? _) = false |- _ => apply Z.leb_gt in H
  end.

(** [zcase] splits on the first integer comparison of the goal. *)
Ltac zcase :=
  match goal with
  | |- context [?a =? ?b] => destruct (Z.eqb_spec a b)
  | |- context [?a <? ?b] => destruct (Z.ltb_spec a b)
  | |- context [?a <=? ?b] => destruct (Z.leb_spec a b)
  end.

(** Arithmetic on list lengths. *)
Ltac zlia :=
  repeat match goal with
  | l : list _ |- _ =>
      lazymatch goal with
      | _ : 0 <= zlen l |- _ => fail
      | _ => pose proof (zlen_nonneg l)
      end
  end;
  autorewrite with zlist in *; lia.
