(* ===== verification/Bytes.v ===== *)
(** * Machine integers and byte order (shared/includes/network.hpp)

    A byte is an integer in [0, 256) and memory is a list of bytes. The host is
    little endian, as bitcoin.hpp and bitcoin.cpp assume ("all numbers little
    endian (x86)"): a [uintN_t] variable occupies the bytes [le_bytes n v].
    [hton] and [ntoh] are the overloads of network.hpp, which swap bytes on such
    a host. *)

From S2P Require Import Prelude.

(** ** Wrap-around of the widths the sources use *)

Definition u8 (x : Z) : Z := x mod 2 ^ 8.
Definition u16 (x : Z) : Z := x mod 2 ^ 16.
Definition u32 (x : Z) : Z := x mod 2 ^ 32.
Definition u64 (x : Z) : Z := x mod 2 ^ 64.
(** The [int32_t] with the same representation. *)
Definition s32 (x : Z) : Z := (x + 2 ^ 31) mod 2 ^ 32 - 2 ^ 31.
Definition s64 (x : Z) : Z := (x + 2 ^ 63) mod 2 ^ 64 - 2 ^ 63.

Definition is_byte (b : Z) : Prop := 0 <= b < 256.

(** ** Representation of integers in memory *)

Fixpoint le_bytes (n : nat) (v : Z) : list Z :=
  match n with
  | O => []
  | S n => v mod 256 :: le_bytes n (v / 256)
  end.

Fixpoint le_val (bs : list Z) : Z :=
  match bs with
  | [] => 0
  | b :: bs => b + 256 * le_val bs
  end.

Definition be_bytes (n : nat) (v : Z) : list Z := rev (le_bytes n v).
Definition be_val (bs : list Z) : Z := le_val (rev bs).

(** Reverse the bytes of an [n]-byte integer. *)
Definition bswap (n : nat) (v : Z) : Z := le_val (rev (le_bytes n v)).

(** ** network.hpp *)

Definition hton32 (x : Z) : Z := bswap 4 x.
Definition hton16 (x : Z) : Z := bswap 2 x.
Definition hton64 (x : Z) : Z := bswap 8 x.
Definition ntoh32 (x : Z) : Z := bswap 4 x.
Definition ntoh16 (x : Z) : Z := bswap 2 x.
Definition ntoh64 (x : Z) : Z := bswap 8 x.
(** The [int32_t] overloads convert back to a signed value. *)
Definition hton_s32 (x : Z) : Z := s32 (bswap 4 (u32 x)).
Definition ntoh_s32 (x : Z) : Z := s32 (bswap 4 (u32 x)).

(** ** Lemmas *)

Lemma length_le_bytes n v : length (le_bytes n v) = n.
Proof. revert v. induction n; intros; simpl; auto. Qed.

Lemma zlen_le_bytes n v : zlen (le_bytes n v) = Z.of_nat n.
Proof. unfold zlen. by rewrite length_le_bytes. Qed.

Lemma zlen_be_bytes n v : zlen (be_bytes n v) = Z.of_nat n.
Proof. unfold be_bytes. rewrite zlen_rev. apply zlen_le_bytes. Qed.

#[export] Hint Rewrite zlen_le_bytes zlen_be_bytes : zlist.

Lemma le_bytes_are_bytes n v : Forall is_byte (le_bytes n v).
Proof.
  revert v. induction n; intros; simpl; constructor; auto.
  unfold is_byte. apply Z.mod_pos_bound. lia.
Qed.

Lemma be_bytes_are_bytes n v : Forall is_byte (be_bytes n v).
Proof. apply Forall_rev. apply le_bytes_are_bytes. Qed.

#[export] Hint Resolve le_bytes_are_bytes be_bytes_are_bytes : core.

Lemma pow256_succ n : 256 ^ Z.of_nat (S n) = 256 * 256 ^ Z.of_nat n.
Proof. rewrite Nat2Z.inj_succ, Z.pow_succ_r; lia. Qed.

Lemma pow256_pos n : 0 < 256 ^ Z.of_nat n.
Proof. apply Z.pow_pos_nonneg; lia. Qed.

Lemma le_val_bytes n v : le_val (le_bytes n v) = v mod 256 ^ Z.of_nat n.
Proof.
  revert v. induction n; intros v; simpl le_bytes.
  - simpl. by rewrite Z.mod_1_r.
  - simpl le_val. rewrite IHn, pow256_succ, Z.rem_mul_r.
    all: pose proof (pow256_pos n); lia.
Qed.

Lemma le_val_bytes_small n v :
  0 <= v < 256 ^ Z.of_nat n -> le_val (le_bytes n v) = v.
Proof. intros. rewrite le_val_bytes. by apply Z.mod_small. Qed.

Lemma le_val_bound bs : Forall is_byte bs -> 0 <= le_val bs < 256 ^ zlen bs.
Proof.
  unfold zlen. induction 1 as [|b bs Hb Hbs IH]; [simpl; lia|].
  simpl le_val. simpl length. rewrite pow256_succ. unfold is_byte in Hb. lia.
Qed.

Lemma le_bytes_val bs : Forall is_byte bs -> le_bytes (length bs) (le_val bs) = bs.
Proof.
  induction 1 as [|b bs Hb Hbs IH]; [done|].
  simpl. unfold is_byte in Hb. f_equal.
  - rewrite Z.mul_comm, Z_mod_plus_full. apply Z.mod_small. lia.
  - rewrite Z.mul_comm, Z_div_plus_full by lia. rewrite Z.div_small by lia. exact IH.
Qed.

Lemma le_bytes_val_len n bs :
  Forall is_byte bs -> length bs = n -> le_bytes n (le_val bs) = bs.
Proof. intros ? <-. by apply le_bytes_val. Qed.

Lemma be_val_bytes n v : be_val (be_bytes n v) = v mod 256 ^ Z.of_nat n.
Proof. unfold be_val, be_bytes. rewrite rev_involutive. apply le_val_bytes. Qed.

Lemma be_val_bytes_small n v :
  0 <= v < 256 ^ Z.of_nat n -> be_val (be_bytes n v) = v.
Proof. intros. rewrite be_val_bytes. by apply Z.mod_small. Qed.

Lemma be_val_bound bs : Forall is_byte bs -> 0 <= be_val bs < 256 ^ zlen bs.
Proof.
  intros. unfold be_val. rewrite <- (zlen_rev bs). apply le_val_bound.
  by apply Forall_rev.
Qed.

(** A swapped integer lies in memory in the opposite byte order. *)
Lemma bytes_bswap n v : le_bytes n (bswap n v) = be_bytes n v.
Proof.
  unfold bswap. apply le_bytes_val_len.
  - auto.
  - unfold be_bytes. rewrite length_rev. apply length_le_bytes.
Qed.

(** Reading [n] bytes and swapping reads them in the opposite order. *)
Lemma bswap_val n bs :
  Forall is_byte bs -> length bs = n -> bswap n (le_val bs) = be_val bs.
Proof. intros. unfold bswap, be_val. by rewrite le_bytes_val_len. Qed.

Lemma bswap_involutive n v : bswap n (bswap n v) = v mod 256 ^ Z.of_nat n.
Proof.
  unfold bswap at 1. rewrite bytes_bswap. unfold be_bytes.
  rewrite rev_involutive. apply le_val_bytes.
Qed.

Lemma bswap_bound n v : 0 <= bswap n v < 256 ^ Z.of_nat n.
Proof.
  unfold bswap. pose proof (le_val_bound (rev (le_bytes n v))) as H.
  rewrite zlen_rev, zlen_le_bytes in H. apply H, Forall_rev, le_bytes_are_bytes.
Qed.

Lemma le_bytes_mod n v : le_bytes n (v mod 256 ^ Z.of_nat n) = le_bytes n v.
Proof.
  rewrite <- le_val_bytes. apply le_bytes_val_len; [auto|apply length_le_bytes].
Qed.

Lemma be_bytes_mod n v : be_bytes n (v mod 256 ^ Z.of_nat n) = be_bytes n v.
Proof. unfold be_bytes. by rewrite le_bytes_mod. Qed.

Lemma be_bytes_u32 v : be_bytes 4 (u32 v) = be_bytes 4 v.
Proof. apply (be_bytes_mod 4). Qed.

Lemma u64_small v : 0 <= v < 2 ^ 64 -> u64 v = v.
Proof. intros. unfold u64. by apply Z.mod_small. Qed.

Lemma u32_small v : 0 <= v < 2 ^ 32 -> u32 v = v.
Proof. intros. unfold u32. by apply Z.mod_small. Qed.

Lemma u32_range v : 0 <= u32 v < 2 ^ 32.
Proof. unfold u32. apply Z.mod_pos_bound. lia. Qed.

Lemma s32_small v : - 2 ^ 31 <= v < 2 ^ 31 -> s32 v = v.
Proof. intros. unfold s32. rewrite Z.mod_small; lia. Qed.

Lemma s32_range v : - 2 ^ 31 <= s32 v < 2 ^ 31.
Proof. unfold s32. pose proof (Z.mod_pos_bound (v + 2 ^ 31) (2 ^ 32)). lia. Qed.

Lemma s64_small v : - 2 ^ 63 <= v < 2 ^ 63 -> s64 v = v.
Proof. intros. unfold s64. rewrite Z.mod_small; lia. Qed.

Lemma s32_u32 v : s32 (u32 v) = s32 v.
Proof. unfold s32, u32. f_equal. by rewrite Zplus_mod_idemp_l. Qed.

#[global] Arguments le_bytes : simpl never.
#[global] Arguments be_bytes : simpl never.

(** network.hpp converts both ways: for every value of the width, ntoh after
    hton is the identity, and the converted integer lies in memory most
    significant byte first, whatever the host order of its argument. *)
Theorem network_order x :
  0 <= x ->
  (x < 2 ^ 16 -> ntoh16 (hton16 x) = x /\ le_bytes 2 (hton16 x) = be_bytes 2 x) /\
  (x < 2 ^ 32 -> ntoh32 (hton32 x) = x /\ le_bytes 4 (hton32 x) = be_bytes 4 x) /\
  (x < 2 ^ 64 -> ntoh64 (hton64 x) = x /\ le_bytes 8 (hton64 x) = be_bytes 8 x).
Proof.
  intros Hx. unfold ntoh16, hton16, ntoh32, hton32, ntoh64, hton64.
  rewrite !bytes_bswap, !bswap_involutive.
  split_and!; intros; (split; [apply Z.mod_small; simpl; lia|done]).
Qed.

Lemma network_order_witness :
  ntoh16 (hton16 258) = 258 /\ le_bytes 2 (hton16 258) = [1; 2].
Proof. apply (network_order 258); [lia|reflexivity]. Defined.

(** ** Strings *)

(** The characters before the NUL, as strcpy and strncpy see them. *)
Fixpoint c_string (s : list Z) : list Z :=
  match s with
  | [] => []
  | x :: s => if x =? 0 then [] else x :: c_string s
  end.
