(* ===== verification/CowHeap.v ===== *)
(** * The heap under the copy-on-write buffers

    alloc_buffer, mmap_buffer and wrapped_buffer are reference-counted: several
    buffer objects point to one block and to one counter cell. This file is the
    heap they share: blocks, counter cells, the live buffer objects, and the
    invariant [WF] that ties counters to sharers. The invariant's preservation
    is proved here for the elementary heap transitions (a fresh owner, a new
    sharer, a departing sharer or last owner, a private overwrite, an exchange);
    AllocBuffer and MmapBuffer compose them. *)

From S2P Require Import Prelude Bytes.

(** ** Objects *)

(** The data members of alloc_buffer<T> and mmap_buffer<T>: both classes have
    the same three. Pointers are addresses, [None] is nullptr. *)
Record cow := Cow {
  allocated_ : Z;
  buffer_ : option Z;
  refcount_ : option Z
}.

(** The data members of wrapped_buffer<T>: pointers to buffer objects. *)
Record wrapped := Wrapped {
  mbuffer_ : option Z;
  abuffer_ : option Z
}.

#[global] Instance cow_eq_dec : EqDecision cow.
Proof. solve_decision. Defined.
#[global] Instance wrapped_eq_dec : EqDecision wrapped.
Proof. solve_decision. Defined.

Definition cow_null : cow := Cow 0 None None.

(** [blocks] are malloc'ed or mapped regions, [counts] the cells [refcount_]
    points to, [objs] the live buffer objects and [wraps] the live wrapped
    buffers. Requests above [limit] bytes fail; [garbage] is what fresh malloc
    memory holds. *)
Record world := World {
  blocks : gmap Z (list Z);
  counts : gmap Z Z;
  objs : gmap Z cow;
  wraps : gmap Z wrapped;
  next : Z;
  limit : Z;
  garbage : Z
}.

Definition with_blocks (m : gmap Z (list Z)) (w : world) : world :=
  World m (counts w) (objs w) (wraps w) (next w) (limit w) (garbage w).
Definition with_counts (m : gmap Z Z) (w : world) : world :=
  World (blocks w) m (objs w) (wraps w) (next w) (limit w) (garbage w).
Definition with_objs (m : gmap Z cow) (w : world) : world :=
  World (blocks w) (counts w) m (wraps w) (next w) (limit w) (garbage w).
Definition with_wraps (m : gmap Z wrapped) (w : world) : world :=
  World (blocks w) (counts w) (objs w) m (next w) (limit w) (garbage w).
Definition with_next (n : Z) (w : world) : world :=
  World (blocks w) (counts w) (objs w) (wraps w) n (limit w) (garbage w).

(** ** Primitive operations of the language and its library *)

Definition fresh : prog world Z :=
  fun w => Ret (next w) (with_next (next w + 1) w).

(** malloc: [None] is a null result. *)
Definition malloc (n : Z) : prog world (option Z) := fun w =>
  if limit w <? n then Ret None w
  else Ret (Some (next w))
         (with_next (next w + 1) (with_blocks (<[next w := zrep n (garbage w)]> (blocks w)) w)).

(** mmap of anonymous memory: zero-filled; [None] is MAP_FAILED. *)
Definition mmap (n : Z) : prog world (option Z) := fun w =>
  if limit w <? n then Ret None w
  else Ret (Some (next w))
         (with_next (next w + 1) (with_blocks (<[next w := zrep n 0]> (blocks w)) w)).

Definition load_block (b : Z) : prog world (list Z) := fun w =>
  match blocks w !! b with Some bs => Ret bs w | None => Fault UseAfterFree end.

Definition store_block (b : Z) (bs : list Z) : prog world unit := fun w =>
  match blocks w !! b with
  | Some _ => Ret tt (with_blocks (<[b := bs]> (blocks w)) w)
  | None => Fault UseAfterFree
  end.

(** free and munmap of a whole block. *)
Definition free (b : option Z) : prog world unit := fun w =>
  match b with
  | None => Ret tt w
  | Some b => match blocks w !! b with
              | Some _ => Ret tt (with_blocks (delete b (blocks w)) w)
              | None => Fault UseAfterFree
              end
  end.

(** realloc of the C library (glibc): a null pointer makes it a malloc, size 0
    frees the block and returns null, a refused request returns null and keeps
    the block, otherwise the contents move to a block of the new size. *)
Definition libc_realloc (b : option Z) (n : Z) : prog world (option Z) :=
  match b with
  | None => malloc n
  | Some b0 =>
      if n =? 0 then do! free (Some b0) in ret None
      else
        let! bs := load_block b0 in
        let! nb := malloc n in
        match nb with
        | None => ret None
        | Some b1 =>
            let! w := get in
            do! store_block b1 (resize n (garbage w) bs) in
            do! free (Some b0) in
            ret (Some b1)
        end
  end.

(** mremap with MREMAP_MAYMOVE: the grown part is zero-filled. *)
Definition mremap (b : Z) (n : Z) : prog world (option Z) :=
  let! bs := load_block b in
  let! nb := mmap n in
  match nb with
  | None => ret None
  | Some b1 =>
      do! store_block b1 (resize n 0 bs) in
      do! free (Some b) in
      ret (Some b1)
  end.

(** memcpy / memset into block [b] at byte offset [off]. *)
Definition copy_into (b off : Z) (d : list Z) : prog world unit :=
  let! bs := load_block b in
  if (0 <=? off) && (off + zlen d <=? zlen bs) then store_block b (splice off d bs)
  else crash OutOfBounds.

(** The first [n] bytes of block [b]. *)
Definition copy_from (b n : Z) : prog world (list Z) :=
  let! bs := load_block b in
  if n <=? zlen bs then ret (ztake n bs) else crash OutOfBounds.

(** Reading [n] bytes at offset [off]. *)
Definition load_at (b off n : Z) : prog world (list Z) :=
  let! bs := load_block b in
  if (0 <=? off) && (off + n <=? zlen bs) then ret (slice off n bs) else crash OutOfBounds.

(** [new size_type(1)], reads and writes of a counter, [delete refcount_]. *)
Definition new_count : prog world Z := fun w =>
  Ret (next w) (with_next (next w + 1) (with_counts (<[next w := 1]> (counts w)) w)).

Definition load_count (r : Z) : prog world Z := fun w =>
  match counts w !! r with Some v => Ret v w | None => Fault UseAfterFree end.

Definition store_count (r v : Z) : prog world unit := fun w =>
  match counts w !! r with
  | Some _ => Ret tt (with_counts (<[r := v]> (counts w)) w)
  | None => Fault UseAfterFree
  end.

Definition del_count (r : Z) : prog world unit := fun w =>
  match counts w !! r with
  | Some _ => Ret tt (with_counts (delete r (counts w)) w)
  | None => Fault UseAfterFree
  end.

Definition new_obj (c : cow) : prog world Z := fun w =>
  Ret (next w) (with_next (next w + 1) (with_objs (<[next w := c]> (objs w)) w)).

Definition get_obj (o : Z) : prog world cow := fun w =>
  match objs w !! o with Some c => Ret c w | None => Fault UseAfterFree end.

Definition set_obj (o : Z) (c : cow) : prog world unit := fun w =>
  match objs w !! o with
  | Some _ => Ret tt (with_objs (<[o := c]> (objs w)) w)
  | None => Fault UseAfterFree
  end.

Definition del_obj (o : Z) : prog world unit := fun w =>
  Ret tt (with_objs (delete o (objs w)) w).

(** A local object: [dtor] runs when [body] returns and when it throws. *)
Definition scoped {A} (dtor : prog world unit) (body : prog world A) : prog world A :=
  fun w => match body w with
           | Ret a w' => match dtor w' with
                         | Ret _ w'' => Ret a w''
                         | Raise e w'' => Raise e w''
                         | Fault f => Fault f
                         end
           | Raise e w' => match dtor w' with
                           | Ret _ w'' => Raise e w''
                           | Raise e' w'' => Raise e' w''
                           | Fault f => Fault f
                           end
           | Fault f => Fault f
           end.

(** ** The invariant *)

(** How many live objects share counter [r]. *)
Definition refs (m : gmap Z cow) (r : Z) : Z :=
  Z.of_nat (size (filter (fun kv => refcount_ kv.2 = Some r) m)).

(** The bytes object [o] sees. *)
Definition content (w : world) (o : Z) : option (list Z) :=
  match objs w !! o with
  | Some c => match buffer_ c with Some b => blocks w !! b | None => None end
  | None => None
  end.

Record WF (w : world) : Prop := {
  (** an object is null or owns a block of exactly [allocated_] bytes *)
  wf_obj : forall o c, objs w !! o = Some c ->
    c = cow_null \/
    exists b r bs, c = Cow (zlen bs) (Some b) (Some r) /\
                   blocks w !! b = Some bs /\ is_Some (counts w !! r);
  (** a counter holds the number of its sharers, which is not zero and has not
      wrapped *)
  wf_count : forall r v, counts w !! r = Some v -> v = refs (objs w) r /\ 0 < v < 2 ^ 64;
  (** sharing the block and sharing the counter are the same thing *)
  wf_pair : forall o1 o2 c1 c2 b1 b2, objs w !! o1 = Some c1 -> objs w !! o2 = Some c2 ->
    buffer_ c1 = Some b1 -> buffer_ c2 = Some b2 ->
    (b1 = b2 <-> refcount_ c1 = refcount_ c2);
  (** no block without an owner: nothing leaks *)
  wf_owned : forall b, is_Some (blocks w !! b) ->
    exists o c, objs w !! o = Some c /\ buffer_ c = Some b;
  (** addresses are handed out once *)
  wf_fresh : forall a, next w <= a ->
    blocks w !! a = None /\ counts w !! a = None /\ objs w !! a = None
}.

(** What an operation on object [o] leaves alone. *)
Definition frame (o : Z) (w w' : world) : Prop :=
  limit w' = limit w /\ wraps w' = wraps w /\ next w <= next w' /\
  forall o', o' <> o -> objs w' !! o' = objs w !! o' /\ content w' o' = content w o'.

(** ** Counting sharers *)

Definition ind (c : option cow) (r : Z) : Z :=
  match c with Some c => if decide (refcount_ c = Some r) then 1 else 0 | None => 0 end.

Lemma refs_empty r : refs ∅ r = 0.
Proof. done. Qed.

Lemma refs_insert_None (m : gmap Z cow) o c r :
  m !! o = None -> refs (<[o := c]> m) r = refs m r + ind (Some c) r.
Proof.
  intros Ho. unfold refs, ind. case_decide as Hd.
  - rewrite map_filter_insert_True by done.
    rewrite map_size_insert_None; [lia|]. rewrite map_lookup_filter, Ho. done.
  - rewrite map_filter_insert_False by done. rewrite delete_id by done. lia.
Qed.

Lemma refs_delete (m : gmap Z cow) o r :
  refs (delete o m) r = refs m r - ind (m !! o) r.
Proof.
  destruct (m !! o) as [c|] eqn:Ho.
  - rewrite <- (insert_delete_id m o c Ho) at 2.
    rewrite refs_insert_None by apply lookup_delete_eq. lia.
  - rewrite delete_id by done. simpl. lia.
Qed.

Lemma refs_insert (m : gmap Z cow) o c r :
  refs (<[o := c]> m) r = refs m r - ind (m !! o) r + ind (Some c) r.
Proof.
  rewrite <- insert_delete_eq. rewrite refs_insert_None by apply lookup_delete_eq.
  rewrite refs_delete. lia.
Qed.

Lemma refs_nonneg m r : 0 <= refs m r.
Proof. unfold refs. lia. Qed.

Lemma refs_two m o1 o2 c1 c2 r :
  o1 <> o2 -> m !! o1 = Some c1 -> m !! o2 = Some c2 ->
  refcount_ c1 = Some r -> refcount_ c2 = Some r -> 2 <= refs m r.
Proof.
  intros Hne H1 H2 Hr1 Hr2.
  pose proof (refs_delete m o1 r) as E1.
  pose proof (refs_delete (delete o1 m) o2 r) as E2.
  rewrite lookup_delete_ne in E2 by done. rewrite H2 in E2. rewrite H1 in E1.
  pose proof (refs_nonneg (delete o2 (delete o1 m)) r).
  unfold ind in *. repeat case_decide; try done. lia.
Qed.

Lemma refs_zero_none m r o c :
  refs m r = 0 -> m !! o = Some c -> refcount_ c <> Some r.
Proof.
  intros H0 Ho Hr. pose proof (refs_delete m o r) as E. rewrite Ho in E.
  pose proof (refs_nonneg (delete o m) r). unfold ind in E. case_decide; [lia|done].
Qed.

(** ** Consequences of the invariant *)

Section Facts.
Context (w : world) (HW : WF w).

Lemma obj_inv o c b :
  objs w !! o = Some c -> buffer_ c = Some b ->
  exists r bs v, c = Cow (zlen bs) (Some b) (Some r) /\ blocks w !! b = Some bs /\
                 counts w !! r = Some v /\ v = refs (objs w) r /\ 0 < v < 2 ^ 64.
Proof.
  intros Ho Hb. destruct (wf_obj w HW o c Ho) as [->|(b' & r & bs & -> & Hbl & [v Hv])].
  - done.
  - simpl in Hb. simplify_eq. exists r, bs, v. destruct (wf_count w HW r v Hv). auto.
Qed.

Lemma obj_count_inv o c r :
  objs w !! o = Some c -> refcount_ c = Some r ->
  exists b bs v, c = Cow (zlen bs) (Some b) (Some r) /\ blocks w !! b = Some bs /\
                 counts w !! r = Some v /\ v = refs (objs w) r /\ 0 < v < 2 ^ 64.
Proof.
  intros Ho Hr. destruct (wf_obj w HW o c Ho) as [->|(b & r' & bs & -> & Hbl & [v Hv])].
  - done.
  - simpl in Hr. simplify_eq. exists b, bs, v. destruct (wf_count w HW r v Hv). auto.
Qed.

Lemma count_used r o c :
  counts w !! r = None -> objs w !! o = Some c -> refcount_ c <> Some r.
Proof.
  intros Hn Ho Hr. destruct (obj_count_inv o c r Ho Hr) as (?&?&?&?&?&?&?). congruence.
Qed.

Lemma block_used b o c :
  blocks w !! b = None -> objs w !! o = Some c -> buffer_ c <> Some b.
Proof.
  intros Hn Ho Hb. destruct (obj_inv o c b Ho Hb) as (?&?&?&?&?&?&?). congruence.
Qed.

Lemma fresh_refs r : counts w !! r = None -> refs (objs w) r = 0.
Proof.
  intros Hn. unfold refs. rewrite map_empty_filter_2; [done|].
  intros o c Ho Hr. by eapply count_used in Hr.
Qed.

(** The owner of a counter that stands at one shares its block with nobody. *)
Lemma sole_owner o c b r o' c' :
  objs w !! o = Some c -> c = Cow (allocated_ c) (Some b) (Some r) ->
  counts w !! r = Some 1 ->
  objs w !! o' = Some c' -> o' <> o ->
  buffer_ c' <> Some b /\ refcount_ c' <> Some r.
Proof.
  intros Ho Hc H1 Ho' Hne.
  assert (refcount_ c' <> Some r) as Hr.
  { intros Hr. destruct (wf_count w HW r 1 H1) as [Hv _].
    assert (refcount_ c = Some r) by (rewrite Hc; done).
    assert (2 <= refs (objs w) r) by (by apply (refs_two (objs w) o o' c c' r)). lia. }
  split; [|done]. intros Hb. apply Hr.
  assert (buffer_ c = Some b) as Hcb by (rewrite Hc; done).
  transitivity (refcount_ c); [|rewrite Hc; done].
  symmetry. by apply (wf_pair w HW o o' c c' b b).
Qed.

Lemma content_frame o b :
  content w o <> None -> content w o = blocks w !! b ->
  exists c, objs w !! o = Some c.
Proof. unfold content. destruct (objs w !! o); naive_solver. Qed.
End Facts.

(** ** Elementary transitions preserve the invariant *)

(** A new object [o] that alone owns a new block. *)
Lemma wf_add_owner w b r o bs W N L G :
  WF w -> blocks w !! b = None -> counts w !! r = None -> objs w !! o = None ->
  next w <= N -> b < N -> r < N -> o < N ->
  WF (World (<[b := bs]> (blocks w)) (<[r := 1]> (counts w))
        (<[o := Cow (zlen bs) (Some b) (Some r)]> (objs w)) W N L G).
Proof.
  intros HW Hb Hr Ho HN HbN HrN HoN. split; simpl.
  - intros o' c'. rewrite lookup_insert_Some. intros [[<- <-]|[Hne Ho']].
    + right. exists b, r, bs. rewrite !lookup_insert_eq. eauto.
    + destruct (wf_obj w HW o' c' Ho') as [->|(b'&r'&bs'&->&Hb'&Hr')]; [by left|].
      right. exists b', r', bs'. rewrite !lookup_insert_ne by congruence || naive_solver.
      destruct Hr' as [v' Hr']. split_and!; eauto.
      all: rewrite ?lookup_insert_ne by congruence; eauto.
  - intros r' v. rewrite lookup_insert_Some. rewrite refs_insert_None by done.
    intros [[<- <-]|[Hne Hv]].
    + rewrite (fresh_refs w HW) by done. simpl. case_decide; [lia|done].
    + destruct (wf_count w HW r' v Hv). simpl. case_decide; [congruence|lia].
  - intros o1 o2 c1 c2 b1 b2.
    rewrite !lookup_insert_Some. intros [[<- <-]|[Hn1 H1]] [[<- <-]|[Hn2 H2]]; simpl.
    + intros. simplify_eq. tauto.
    + intros [= <-] Hb2. pose proof (block_used w HW b o2 c2).
      pose proof (count_used w HW r o2 c2). split; intros; [subst; naive_solver|].
      exfalso. naive_solver.
    + intros Hb1 [= <-]. pose proof (block_used w HW b o1 c1).
      pose proof (count_used w HW r o1 c1). split; intros; [subst; naive_solver|].
      exfalso. naive_solver.
    + by apply (wf_pair w HW o1 o2).
  - intros b'. rewrite lookup_insert_is_Some. intros [<-|[Hne Hb']].
    + exists o, (Cow (zlen bs) (Some b) (Some r)). by rewrite lookup_insert_eq.
    + destruct (wf_owned w HW b' Hb') as (o'&c'&Ho'&Hc').
      exists o', c'. rewrite lookup_insert_ne by congruence. done.
  - intros a Ha. destruct (wf_fresh w HW a) as (?&?&?); [lia|].
    rewrite !lookup_insert_ne by lia. done.
Qed.

(** A new object that shares [p]'s block. *)
Lemma wf_add_sharer w p c r v o W N L G :
  WF w -> objs w !! p = Some c -> refcount_ c = Some r -> counts w !! r = Some v ->
  v + 1 < 2 ^ 64 -> objs w !! o = None -> next w <= N -> o < N ->
  WF (World (blocks w) (<[r := v + 1]> (counts w)) (<[o := c]> (objs w)) W N L G).
Proof.
  intros HW Hp Hcr Hv Hov Ho HN HoN.
  destruct (obj_count_inv w HW p c r Hp Hcr) as (b&bs&v'&Hc&Hb&Hv'&Hvr&Hpos).
  assert (v' = v) as -> by congruence. split; simpl.
  - intros o' c'. rewrite lookup_insert_Some. intros [[<- <-]|[Hne Ho']].
    + right. exists b, r, bs. rewrite lookup_insert_eq. eauto.
    + destruct (wf_obj w HW o' c' Ho') as [->|(b'&r'&bs'&->&Hb'&Hr')]; [by left|].
      right. exists b', r', bs'. split_and!; eauto. apply lookup_insert_is_Some.
      destruct (decide (r = r')); auto.
  - intros r' v'. rewrite lookup_insert_Some, refs_insert_None by done. simpl.
    rewrite Hcr. intros [[<- <-]|[Hne Hv'']].
    + case_decide; [lia|done].
    + destruct (wf_count w HW r' v' Hv''). case_decide; [congruence|lia].
  - intros o1 o2 c1 c2 b1 b2.
    rewrite !lookup_insert_Some. intros [[<- <-]|[Hn1 H1]] [[<- <-]|[Hn2 H2]].
    + intros. simplify_eq. tauto.
    + by apply (wf_pair w HW p o2).
    + by apply (wf_pair w HW o1 p).
    + by apply (wf_pair w HW o1 o2).
  - intros b' Hb'. destruct (wf_owned w HW b' Hb') as (o'&c'&Ho'&Hc').
    exists o', c'. rewrite lookup_insert_ne by congruence. done.
  - intros a Ha. destruct (wf_fresh w HW a) as (?&?&?); [lia|].
    rewrite !lookup_insert_ne by (lia || congruence). done.
Qed.

(** A new null object. *)
Lemma wf_add_null w o W N L G :
  WF w -> objs w !! o = None -> next w <= N -> o < N ->
  WF (World (blocks w) (counts w) (<[o := cow_null]> (objs w)) W N L G).
Proof.
  intros HW Ho HN HoN. split; simpl.
  - intros o' c'. rewrite lookup_insert_Some. intros [[<- <-]|[Hne Ho']]; [by left|].
    apply (wf_obj w HW o' c' Ho').
  - intros r v Hv. rewrite refs_insert_None by done. simpl.
    destruct (wf_count w HW r v Hv). lia.
  - intros o1 o2 c1 c2 b1 b2.
    rewrite !lookup_insert_Some. intros [[<- <-]|[Hn1 H1]] [[<- <-]|[Hn2 H2]]; try done.
    by apply (wf_pair w HW o1 o2).
  - intros b' Hb'. destruct (wf_owned w HW b' Hb') as (o'&c'&Ho'&Hc').
    exists o', c'. rewrite lookup_insert_ne by congruence. done.
  - intros a Ha. destruct (wf_fresh w HW a) as (?&?&?); [lia|].
    rewrite lookup_insert_ne by lia. done.
Qed.

(** A sharer among several leaves. *)
Lemma wf_drop_sharer w o c r v :
  WF w -> objs w !! o = Some c -> refcount_ c = Some r -> counts w !! r = Some v -> 1 < v ->
  WF (with_counts (<[r := v - 1]> (counts w)) (with_objs (delete o (objs w)) w)).
Proof.
  intros HW Ho Hcr Hv Hgt.
  destruct (obj_count_inv w HW o c r Ho Hcr) as (b&bs&v'&Hc&Hb&Hv'&Hvr&Hpos).
  assert (v' = v) as -> by congruence. split; simpl.
  - intros o' c'. rewrite lookup_delete_Some. intros [Hne Ho'].
    destruct (wf_obj w HW o' c' Ho') as [->|(b'&r'&bs'&->&Hb'&Hr')]; [by left|].
    right. exists b', r', bs'. split_and!; eauto. apply lookup_insert_is_Some.
    destruct (decide (r = r')); auto.
  - intros r' v'. rewrite lookup_insert_Some, refs_delete, Ho. simpl. rewrite Hcr.
    intros [[<- <-]|[Hne Hv'']].
    + case_decide; [lia|done].
    + destruct (wf_count w HW r' v' Hv''). case_decide; [congruence|lia].
  - intros o1 o2 c1 c2 b1 b2. rewrite !lookup_delete_Some. intros [_ H1] [_ H2].
    by apply (wf_pair w HW o1 o2).
  - intros b' Hb'. destruct (wf_owned w HW b' Hb') as (o'&c'&Ho'&Hc').
    destruct (decide (o' = o)) as [->|Hne].
    + (* another sharer of the counter keeps the block *)
      assert (exists o2 c2, o2 <> o /\ objs w !! o2 = Some c2 /\ refcount_ c2 = Some r)
        as (o2&c2&Hne2&Ho2&Hr2).
      { assert (0 < refs (delete o (objs w)) r) as Hpos'.
        { rewrite refs_delete, Ho. simpl. rewrite Hcr. case_decide; [lia|done]. }
        unfold refs in Hpos'.
        destruct (map_choose (filter (fun kv => refcount_ kv.2 = Some r) (delete o (objs w))))
          as (o2 & c2 & Hf).
        { intros E. rewrite E in Hpos'. rewrite map_size_empty in Hpos'. lia. }
        apply map_lookup_filter_Some in Hf as [Hd Hr2].
        exists o2, c2. revert Hd. rewrite lookup_delete_Some. intros [??]. auto. }
      destruct (obj_count_inv w HW o2 c2 r Ho2 Hr2) as (b2&bs2&v2&->&Hb2&_).
      exists o2, (Cow (zlen bs2) (Some b2) (Some r)). rewrite lookup_delete_ne by done.
      split; [done|]. simpl. f_equal.
      apply (wf_pair w HW o2 o _ c' b2 b' Ho2 Ho'); [done|done|].
      simplify_eq. done.
    + exists o', c'. rewrite lookup_delete_ne by done. done.
  - intros a Ha. destruct (wf_fresh w HW a) as (?&?&?); [done|].
    rewrite lookup_insert_ne, lookup_delete_None by congruence. auto.
Qed.

(** The last owner leaves with its block and its counter. *)
Lemma wf_drop_last w o c b r :
  WF w -> objs w !! o = Some c -> c = Cow (allocated_ c) (Some b) (Some r) ->
  counts w !! r = Some 1 ->
  WF (with_blocks (delete b (blocks w))
       (with_counts (delete r (counts w)) (with_objs (delete o (objs w)) w))).
Proof.
  intros HW Ho Hc H1.
  assert (refcount_ c = Some r) as Hcr by (rewrite Hc; done). split; simpl.
  - intros o' c'. rewrite lookup_delete_Some. intros [Hne Ho'].
    destruct (sole_owner w HW o c b r o' c') as [Hnb Hnr]; try done.
    destruct (wf_obj w HW o' c' Ho') as [->|(b'&r'&bs'&->&Hb'&Hr')]; [by left|].
    simpl in *. right. exists b', r', bs'.
    rewrite !lookup_delete_ne by congruence. auto.
  - intros r' v. rewrite lookup_delete_Some, refs_delete, Ho. simpl. rewrite Hcr.
    intros [Hne Hv]. destruct (wf_count w HW r' v Hv). case_decide; [congruence|lia].
  - intros o1 o2 c1 c2 b1 b2. rewrite !lookup_delete_Some. intros [_ H1'] [_ H2'].
    by apply (wf_pair w HW o1 o2).
  - intros b'. rewrite lookup_delete_is_Some. intros [Hne Hb'].
    destruct (wf_owned w HW b' Hb') as (o'&c'&Ho'&Hc').
    assert (o' <> o). { intros ->. rewrite Ho in Ho'. simplify_eq. rewrite Hc in Hc'. simpl in *. congruence. }
    exists o', c'. rewrite lookup_delete_ne by done. done.
  - intros a Ha. destruct (wf_fresh w HW a) as (?&?&?); [done|].
    rewrite !lookup_delete_None. auto.
Qed.

(** A null object leaves. *)
Lemma wf_drop_null w o :
  WF w -> objs w !! o = Some cow_null -> WF (with_objs (delete o (objs w)) w).
Proof.
  intros HW Ho. split; simpl.
  - intros o' c'. rewrite lookup_delete_Some. intros [_ Ho']. by apply (wf_obj w HW o').
  - intros r v Hv. rewrite refs_delete, Ho. simpl. destruct (wf_count w HW r v Hv). lia.
  - intros o1 o2 c1 c2 b1 b2. rewrite !lookup_delete_Some. intros [_ H1] [_ H2].
    by apply (wf_pair w HW o1 o2).
  - intros b Hb. destruct (wf_owned w HW b Hb) as (o'&c'&Ho'&Hc').
    exists o', c'. rewrite lookup_delete_ne; [done|]. intros ->. simplify_eq.
  - intros a Ha. destruct (wf_fresh w HW a) as (?&?&?); [done|].
    rewrite lookup_delete_None. auto.
Qed.

(** A sole owner's block is replaced, in place or by a new one. *)
Lemma wf_private w o c b r b' bs' W N L G :
  WF w -> objs w !! o = Some c -> c = Cow (allocated_ c) (Some b) (Some r) ->
  counts w !! r = Some 1 -> b' = b \/ blocks w !! b' = None -> next w <= N -> b' < N ->
  WF (World (<[b' := bs']> (delete b (blocks w))) (counts w)
        (<[o := Cow (zlen bs') (Some b') (Some r)]> (objs w)) W N L G).
Proof.
  intros HW Ho Hc H1 Hb' HN HbN.
  rewrite <- (insert_delete_id (counts w) r 1 H1), <- (insert_delete_eq (objs w)).
  apply (wf_add_owner _ b' r o bs' W N L G (wf_drop_last w o c b r HW Ho Hc H1)); simpl.
  - destruct Hb' as [->|Hb']; [apply lookup_delete_eq|]. rewrite lookup_delete_None. auto.
  - apply lookup_delete_eq.
  - apply lookup_delete_eq.
  - done.
  - done.
  - destruct (decide (r < N)); [done|]. destruct (wf_fresh w HW r) as (_&?&_); [lia|congruence].
  - destruct (decide (o < N)); [done|]. destruct (wf_fresh w HW o) as (_&_&?); [lia|congruence].
Qed.

(** A sharer gets a block and a counter of its own. *)
Lemma wf_detach w o c r v b' r' bs' W N L G :
  WF w -> objs w !! o = Some c -> refcount_ c = Some r -> counts w !! r = Some v -> 1 < v ->
  blocks w !! b' = None -> counts w !! r' = None -> next w <= N -> b' < N -> r' < N ->
  WF (World (<[b' := bs']> (blocks w)) (<[r' := 1]> (<[r := v - 1]> (counts w)))
        (<[o := Cow (zlen bs') (Some b') (Some r')]> (objs w)) W N L G).
Proof.
  intros HW Ho Hcr Hv Hgt Hb' Hr' HN HbN HrN. rewrite <- (insert_delete_eq (objs w)).
  apply (wf_add_owner _ b' r' o bs' W N L G (wf_drop_sharer w o c r v HW Ho Hcr Hv Hgt)); simpl.
  - done.
  - rewrite lookup_insert_ne by congruence. done.
  - apply lookup_delete_eq.
  - done.
  - done.
  - done.
  - destruct (decide (o < N)); [done|]. destruct (wf_fresh w HW o) as (_&_&?); [lia|congruence].
Qed.

(** Two objects exchange their members. *)
Definition exchange (o p : Z) (m : gmap Z cow) : gmap Z cow :=
  match m !! o, m !! p with
  | Some co, Some cp => <[p := co]> (<[o := cp]> m)
  | _, _ => m
  end.

Lemma exchange_lookup o p m q :
  is_Some (m !! o) -> is_Some (m !! p) ->
  exchange o p m !! q = if decide (q = o) then m !! p
                        else if decide (q = p) then m !! o else m !! q.
Proof.
  intros [co Ho] [cp Hp]. unfold exchange. rewrite Ho, Hp.
  destruct (decide (q = p)) as [->|Hqp].
  - rewrite lookup_insert_eq. case_decide; [congruence|done].
  - rewrite lookup_insert_ne by done. case_decide as Hd.
    + subst. by rewrite lookup_insert_eq.
    + by rewrite lookup_insert_ne.
Qed.

Lemma exchange_refs o p m r :
  is_Some (m !! o) -> is_Some (m !! p) -> refs (exchange o p m) r = refs m r.
Proof.
  intros [co Ho] [cp Hp]. unfold exchange. rewrite Ho, Hp, !refs_insert, Ho.
  destruct (decide (o = p)) as [->|Hne].
  - rewrite lookup_insert_eq. replace cp with co by congruence. lia.
  - rewrite lookup_insert_ne, Hp by done. lia.
Qed.

Lemma wf_exchange w o p :
  WF w -> is_Some (objs w !! o) -> is_Some (objs w !! p) ->
  WF (with_objs (exchange o p (objs w)) w).
Proof.
  intros HW Ho Hp.
  assert (forall q c, exchange o p (objs w) !! q = Some c ->
            exists q', objs w !! q' = Some c) as Hback.
  { intros q c. rewrite exchange_lookup by done. repeat case_decide; eauto. }
  split; simpl.
  - intros q c Hq. apply Hback in Hq as [q' Hq']. by apply (wf_obj w HW q').
  - intros r v Hv. rewrite exchange_refs by done. by apply (wf_count w HW).
  - intros o1 o2 c1 c2 b1 b2 H1 H2. apply Hback in H1 as [q1 H1]. apply Hback in H2 as [q2 H2].
    by apply (wf_pair w HW q1 q2).
  - intros b Hb. destruct (wf_owned w HW b Hb) as (q&c&Hq&Hc).
    exists (if decide (q = o) then p else if decide (q = p) then o else q), c.
    rewrite exchange_lookup by done. repeat case_decide; naive_solver.
  - intros a Ha. destruct (wf_fresh w HW a) as (?&?&Hn); [done|].
    rewrite exchange_lookup by done. destruct Ho as [? Ho], Hp as [? Hp].
    repeat case_decide; subst; try congruence. done.
Qed.

(** The contents of an object whose block no transition touched. *)
Lemma content_same w w' o :
  objs w' !! o = objs w !! o ->
  (forall c b, objs w !! o = Some c -> buffer_ c = Some b -> blocks w' !! b = blocks w !! b) ->
  content w' o = content w o.
Proof.
  intros Ho Hb. unfold content. rewrite Ho. destruct (objs w !! o) as [c|] eqn:E; [|done].
  destruct (buffer_ c) eqn:Eb; [|done]. eauto.
Qed.

Lemma content_obj w o c b :
  objs w !! o = Some c -> buffer_ c = Some b -> content w o = blocks w !! b.
Proof. intros Ho Hb. unfold content. by rewrite Ho, Hb. Qed.

Lemma frame_refl o w : frame o w w.
Proof. split_and!; auto. lia. Qed.

Lemma frame_trans o w1 w2 w3 : frame o w1 w2 -> frame o w2 w3 -> frame o w1 w3.
Proof.
  intros (?&?&?&Hf1) (?&?&?&Hf2). split_and!; [congruence|congruence|lia|]. intros o' Hne.
  destruct (Hf1 o' Hne), (Hf2 o' Hne). split; congruence.
Qed.

(** A fresh block disturbs nobody's contents. *)
Lemma fresh_block_other w b o c b' (bs : list Z) :
  WF w -> blocks w !! b = None -> objs w !! o = Some c -> buffer_ c = Some b' ->
  <[b := bs]> (blocks w) !! b' = blocks w !! b'.
Proof.
  intros HW Hb Ho Hc. apply lookup_insert_ne. intros ->. by eapply block_used in Hc.
Qed.

(** ** Exclusive pointers *)

(** [b] is the block of [o] and of nobody else: what [ptr()] hands out. *)
Definition exclusive (w : world) (o b : Z) (bs : list Z) : Prop :=
  exists r, objs w !! o = Some (Cow (zlen bs) (Some b) (Some r)) /\
            counts w !! r = Some 1 /\ blocks w !! b = Some bs.

Lemma exclusive_content w o b bs : exclusive w o b bs -> content w o = Some bs.
Proof. intros (r&Ho&_&Hb). unfold content. by rewrite Ho. Qed.

(** memcpy or memset through an exclusive pointer changes that object only. *)
Lemma copy_into_exclusive w o b bs off d :
  WF w -> exclusive w o b bs -> 0 <= off -> off + zlen d <= zlen bs ->
  exists w', copy_into b off d w = Ret tt w' /\ WF w' /\ frame o w w' /\
             exclusive w' o b (splice off d bs).
Proof.
  intros HW (r&Ho&H1&Hb) Hoff Hlen.
  assert (zlen (splice off d bs) = zlen bs) as Hz by (by apply zlen_splice).
  exists (with_blocks (<[b := splice off d bs]> (blocks w)) w). split_and!.
  - unfold copy_into, load_block, store_block, bind. rewrite Hb.
    rewrite (proj2 (Z.leb_le 0 off)), (proj2 (Z.leb_le _ (zlen bs))) by lia. simpl.
    by rewrite Hb.
  - pose proof (wf_private w o _ b r b (splice off d bs) (wraps w) (next w) (limit w) (garbage w)
                  HW Ho eq_refl H1 (or_introl eq_refl)) as Hp.
    rewrite insert_delete_eq in Hp. rewrite Hz, (insert_id (objs w)) in Hp by done.
    apply Hp; [lia|]. destruct (decide (b < next w)); [done|].
    destruct (wf_fresh w HW b) as (?&_); [lia|congruence].
  - split_and!; [done|done|simpl; lia|]. intros o' Hne. split; [done|]. apply content_same; [done|].
    intros c' b' Ho' Hb'. simpl. apply lookup_insert_ne. intros <-.
    destruct (sole_owner w HW o _ b r o' c' Ho eq_refl H1 Ho' Hne). done.
  - exists r. simpl. rewrite lookup_insert_eq, Hz. auto.
Qed.

(** ** Replacing an object's block through a temporary

    The copy-on-write branch of both [realloc]s builds a temporary, fills it,
    and runs [*this = tmp]: a copy of the temporary is swapped with [*this] and
    destroyed with the old members, then the temporary is. *)

(** Objects other than [o] and [p] are left alone. *)
Definition frame2 (o p : Z) (w w' : world) : Prop :=
  limit w' = limit w /\ wraps w' = wraps w /\ next w <= next w' /\
  forall q, q <> o -> q <> p -> objs w' !! q = objs w !! q /\ content w' q = content w q.

Section Replace.
Context (copy : Z -> prog world Z) (dtor : Z -> prog world unit) (ptr : Z -> prog world Z).
Hypothesis copy_ok : forall w p c, WF w -> objs w !! p = Some c ->
  refs (objs w) (default 0 (refcount_ c)) + 1 < 2 ^ 64 ->
  exists o w', copy p w = Ret o w' /\ WF w' /\ frame o w w' /\ objs w !! o = None /\
               objs w' !! o = Some c /\ content w' o = content w p.
Hypothesis dtor_ok : forall w o, WF w -> is_Some (objs w !! o) ->
  exists w', dtor o w = Ret tt w' /\ WF w' /\ frame o w w' /\ objs w' !! o = None.
Hypothesis ptr_ok : forall w o bs, WF w -> content w o = Some bs -> zlen bs <= limit w ->
  exists b w', ptr o w = Ret b w' /\ WF w' /\ frame o w w' /\ exclusive w' o b bs.

(** The common text of both [operator=]. *)
Definition assign_via (o other : Z) : prog world unit :=
  let! co := get_obj o in
  let! cp := get_obj other in
  do! set_obj o cp in
  do! set_obj other co in
  dtor other.

Lemma assign_via_spec w o p co cp :
  WF w -> o <> p -> objs w !! o = Some co -> objs w !! p = Some cp ->
  exists w', assign_via o p w = Ret tt w' /\ WF w' /\ frame2 o p w w' /\
             objs w' !! o = Some cp /\ content w' o = content w p /\ objs w' !! p = None.
Proof.
  intros HW Hne Ho Hp.
  set (w1 := with_objs (exchange o p (objs w)) w).
  assert (WF w1) as HW1 by (apply wf_exchange; eauto).
  assert (objs w1 !! p = Some co) as Hp1.
  { simpl. rewrite exchange_lookup by eauto. repeat case_decide; congruence. }
  assert (objs w1 !! o = Some cp) as Ho1.
  { simpl. rewrite exchange_lookup by eauto. case_decide; congruence. }
  destruct (dtor_ok w1 p HW1 (ltac:(eauto))) as (w2&Hd&HW2&(Hl&Hw&Hn&Hf)&Hp2).
  exists w2. destruct (Hf o Hne) as [Hfo Hfc]. split_and!; try done.
  - unfold assign_via, bind, get_obj, set_obj. rewrite Ho, Hp, Ho. simpl.
    rewrite lookup_insert_ne, Hp by done. rewrite <- Hd. f_equal.
    unfold w1, with_objs, exchange. simpl. by rewrite Ho, Hp.
  - split_and!; [done|done|unfold w1 in Hn; simpl in Hn; lia|]. intros q Hqo Hqp. destruct (Hf q Hqp) as [Hq Hqc]. rewrite Hq, Hqc.
    assert (objs w1 !! q = objs w !! q) as E.
    { simpl. rewrite exchange_lookup by eauto. repeat case_decide; congruence. }
    split; [done|]. by apply content_same.
  - by rewrite Hfo.
  - rewrite Hfc. unfold content. rewrite Ho1, Hp. done.
Qed.

(** Fill [tmp] from [o]'s block and assign it to [o]. *)
Definition replace_from (o tmp : Z) (c : cow) (m : Z) : prog world unit :=
  let! p := ptr tmp in
  let! b := deref NullDeref (buffer_ c) in
  let! bs := copy_from b m in
  do! copy_into p 0 bs in
  let! other := copy tmp in
  assign_via o other.

Lemma replace_from_spec w o tmp c b bs ts :
  WF w -> o <> tmp -> objs w !! o = Some c -> buffer_ c = Some b -> blocks w !! b = Some bs ->
  content w tmp = Some ts -> zlen ts <= limit w ->
  exists w', scoped (dtor tmp) (replace_from o tmp c (Z.min (zlen ts) (zlen bs))) w = Ret tt w' /\
    WF w' /\ frame2 o tmp w w' /\ objs w' !! tmp = None /\
    content w' o = Some (splice 0 (ztake (Z.min (zlen ts) (zlen bs)) bs) ts) /\
    (exists c', objs w' !! o = Some c' /\ allocated_ c' = zlen ts).
Proof.
  intros HW Hne Ho Hcb Hb Htmp Hlim. set (m := Z.min (zlen ts) (zlen bs)).
  pose proof (zlen_nonneg bs). pose proof (zlen_nonneg ts).
  destruct (ptr_ok w tmp ts HW Htmp Hlim) as (p&w1&Hp&HW1&(Hl1&Hw1&Hn1&Hf1)&Hx1).
  destruct (Hf1 o Hne) as [Ho1 Hco1].
  assert (blocks w1 !! b = Some bs) as Hb1.
  { rewrite <- (content_obj w1 o c b), Hco1, (content_obj w o c b) by congruence. done. }
  assert (zlen (ztake m bs) = m) as Hm by (rewrite zlen_ztake; lia).
  destruct (copy_into_exclusive w1 tmp p ts 0 (ztake m bs) HW1 Hx1) as (w2&Hc&HW2&(Hl2&Hw2&Hn2&Hf2)&Hx2);
    [lia|lia|].
  destruct Hx2 as (r2&Ht2&Hr2&Hpb2).
  destruct (wf_count w2 HW2 r2 1 Hr2) as [Hrefs _].
  destruct (copy_ok w2 tmp _ HW2 Ht2) as (q&w3&Hq&HW3&(Hl3&Hw3&Hn3&Hf3)&Hqn&Hqo&Hqc); [simpl; lia|].
  assert (q <> o) as Hqne.
  { intros ->. destruct (Hf2 o Hne) as [E _]. rewrite E, Ho1, Ho in Hqn. done. }
  assert (q <> tmp) as Hqt by congruence.
  assert (objs w3 !! o = Some c) as Ho3.
  { destruct (Hf3 o ltac:(congruence)) as [-> _]. destruct (Hf2 o Hne) as [-> _]. congruence. }
  destruct (assign_via_spec w3 o q c _ HW3 ltac:(congruence) Ho3 Hqo)
    as (w4&Ha&HW4&(Hl4&Hw4&Hn4&Hf4)&Ho4&Hc4&Hq4).
  assert (is_Some (objs w4 !! tmp)) as Ht4.
  { destruct (Hf4 tmp) as [-> _]; [congruence|congruence|].
    destruct (Hf3 tmp) as [-> _]; [congruence|]. eauto. }
  destruct (dtor_ok w4 tmp HW4 Ht4) as (w5&Hd&HW5&(Hl5&Hw5&Hn5&Hf5)&Ht5).
  exists w5. split_and!.
  - unfold scoped, replace_from. run_step Hp. rewrite Hcb. unfold deref.
    rewrite (bind_ret _ _ w1 b w1) by done.
    erewrite (bind_ret (copy_from b m) _ w1 (ztake m bs) w1).
    2: { unfold copy_from, bind, load_block. rewrite Hb1.
         by rewrite (proj2 (Z.leb_le m (zlen bs))) by lia. }
    run_step Hc. run_step Hq. rewrite Ha, Hd. done.
  - done.
  - split_and!; [congruence|congruence|lia|]. intros x Hxo Hxt.
    destruct (Hf5 x Hxt) as [-> ->]. destruct (Hf1 x Hxt) as [<- <-].
    destruct (Hf2 x Hxt) as [<- <-]. destruct (decide (x = q)) as [->|Hxq].
    + rewrite Hqn. split; [congruence|]. unfold content. by rewrite Hq4, Hqn.
    + destruct (Hf4 x Hxo Hxq) as [-> ->]. by destruct (Hf3 x Hxq) as [-> ->].
  - done.
  - destruct (Hf5 o Hne) as [_ ->]. rewrite Hc4, Hqc. unfold content. rewrite Ht2. done.
  - destruct (Hf5 o Hne) as [-> _]. rewrite Ho4. eexists; split; [done|]. simpl.
    apply zlen_splice; lia.
Qed.
End Replace.

(** ** What a copy-on-write class promises

    wrapped_buffer is a client of alloc_buffer and of mmap_buffer; its theorems
    use these laws only. [cap n] is the number of bytes a buffer of [n]
    elements occupies. *)
Class CowClass (cap : Z -> Z) := {
  c_ctor : Z -> prog world Z;
  c_copy : Z -> prog world Z;
  c_dtor : Z -> prog world unit;
  c_realloc : Z -> Z -> prog world unit;
  c_ptr : Z -> prog world Z;
  (** construction allocates zeroed bytes in an object of its own *)
  law_ctor : forall w n, WF w -> 0 < n < 2 ^ 63 -> cap n <= limit w ->
    exists o w', c_ctor n w = Ret o w' /\ WF w' /\ frame o w w' /\ objs w !! o = None /\
                 content w' o = Some (zrep (cap n) 0);
  (** copying shares, and the copy reads the same *)
  law_copy : forall w p c, WF w -> objs w !! p = Some c ->
    refs (objs w) (default 0 (refcount_ c)) + 1 < 2 ^ 64 ->
    exists o w', c_copy p w = Ret o w' /\ WF w' /\ frame o w w' /\ objs w !! o = None /\
                 objs w' !! o = Some c /\ content w' o = content w p;
  (** destruction removes the object and nothing anyone else can see *)
  law_dtor : forall w o, WF w -> is_Some (objs w !! o) ->
    exists w', c_dtor o w = Ret tt w' /\ WF w' /\ frame o w w' /\ objs w' !! o = None;
  (** [ptr()] keeps the contents and makes the object their sole owner *)
  law_ptr : forall w o bs, WF w -> content w o = Some bs -> zlen bs <= limit w ->
    exists b w', c_ptr o w = Ret b w' /\ WF w' /\ frame o w w' /\ exclusive w' o b bs;
  (** [realloc] keeps the common prefix and zeroes what it adds *)
  law_realloc : forall w o c, WF w -> objs w !! o = Some c ->
    forall n, 0 < n < 2 ^ 63 -> cap n <= limit w ->
    exists w', c_realloc o n w = Ret tt w' /\ WF w' /\ frame o w w' /\
               content w' o = Some (resize (cap n) 0 (default [] (content w o)))
}.

(** The heap without allocations. *)
Definition world0 (n lim garb : Z) : world := World ∅ ∅ ∅ ∅ n lim garb.

Lemma world0_WF n lim garb : WF (world0 n lim garb).
Proof. split; intros; simpl in *; simplify_map_eq; try done; naive_solver. Qed.
