(* ===== verification/AllocBuffer.v ===== *)
(** * alloc_buffer<T> (shared/src/alloc_buffer.cpp, shared/includes/alloc_buffer.hpp)

    A reference-counted copy-on-write buffer over malloc. [sz] is
    sizeof(POD_T): 1 for alloc_buffer<uint8_t>, 4 for alloc_buffer<uint32_t>,
    the two instantiations at the end of alloc_buffer.cpp. Objects are addresses
    in the heap of CowHeap. *)

From S2P Require Import Prelude Bytes CowHeap.

(** ** Operations *)

(** alloc_buffer() *)
Definition alloc_ctor0 : prog world Z := new_obj cow_null.

(** alloc_buffer(size_type initial_elements) *)
Definition alloc_ctor (sz n : Z) : prog world Z :=
  let allocated := u64 (n * sz) in
  if n =? 0 then new_obj (Cow allocated None None)
  else
    let! r := new_count in
    let! b := malloc allocated in
    match b with
    | None =>
        do! del_count r in
        raise (RuntimeError " failure: ")
    | Some b =>
        do! copy_into b 0 (zrep allocated 0) in
        new_obj (Cow allocated (Some b) (Some r))
    end.

(** alloc_buffer(const alloc_buffer &copy) *)
Definition alloc_copy (p : Z) : prog world Z :=
  let! c := get_obj p in
  do! match refcount_ c with
      | Some r => let! v := load_count r in store_count r (u64 (v + 1))
      | None => ret tt
      end in
  new_obj c.

(** alloc_buffer(alloc_buffer &&moved) *)
Definition alloc_move (p : Z) : prog world Z :=
  let! c := get_obj p in
  let! o := new_obj c in
  do! set_obj p cow_null in
  ret o.

(** ~alloc_buffer() *)
Definition alloc_dtor (o : Z) : prog world unit :=
  let! c := get_obj o in
  do! match refcount_ c with
      | Some r =>
          let! v := load_count r in
          do! store_count r (u64 (v - 1)) in
          if u64 (v - 1) =? 0 then
            do! del_count r in
            free (buffer_ c)
          else ret tt
      | None => ret tt
      end in
  del_obj o.

(** operator=(alloc_buffer other): swap with the by-value parameter, which is
    destroyed when the call returns. *)
Definition alloc_assign (o other : Z) : prog world unit :=
  let! co := get_obj o in
  let! cp := get_obj other in
  do! set_obj o cp in
  do! set_obj other co in
  alloc_dtor other.

(** pointer ptr() *)
Definition alloc_ptr (o : Z) : prog world Z :=
  let! c := get_obj o in
  match buffer_ c with
  | None => raise (RuntimeError "Invalid buffer")
  | Some b =>
      let! r := deref NullDeref (refcount_ c) in
      let! v := load_count r in
      if 1 <? v then
        let! nb := malloc (allocated_ c) in
        match nb with
        | None => raise (RuntimeError "realloc failure: ")
        | Some b' =>
            let! bs := copy_from b (allocated_ c) in
            do! copy_into b' 0 bs in
            do! store_count r (u64 (v - 1)) in
            let! r' := new_count in
            do! set_obj o (Cow (allocated_ c) (Some b') (Some r')) in
            ret b'
        end
      else ret b
  end.

(** const_ptr(): the block, without a copy *)
Definition alloc_const_ptr (o : Z) : prog world Z :=
  let! c := get_obj o in
  match buffer_ c with
  | Some b => ret b
  | None => raise (RuntimeError "Invalid buffer")
  end.

Definition alloc_allocated (o : Z) : prog world Z :=
  let! c := get_obj o in ret (allocated_ c).

Definition alloc_use_count (o : Z) : prog world Z :=
  let! c := get_obj o in
  match refcount_ c with Some r => load_count r | None => ret 0 end.

(** void realloc(size_type new_elt_cnt). Pointer arithmetic on [newbuf] and on
    [tmp.ptr()] is in elements of [sz] bytes, the lengths given to memset and
    memcpy in bytes. *)
Definition alloc_realloc (sz o n : Z) : prog world unit :=
  let size := u64 (n * sz) in
  let! c := get_obj o in
  if size =? allocated_ c then ret tt
  else
    let! r := match refcount_ c with
              | Some r => ret r
              | None => let! r := new_count in
                        do! set_obj o (Cow (allocated_ c) (buffer_ c) (Some r)) in
                        ret r
              end in
    let! v := load_count r in
    do! if v =? 1 then
          let! nb := libc_realloc (buffer_ c) size in
          match nb with
          | None => raise (RuntimeError "realloc failure: ")
          | Some b =>
              do! if allocated_ c <? size
                  then copy_into b (allocated_ c * sz) (zrep (size - allocated_ c) 0)
                  else ret tt in
              set_obj o (Cow size (Some b) (Some r))
          end
        else
          let! tmp := alloc_ctor sz n in
          scoped (alloc_dtor tmp)
            (let! ta := alloc_allocated tmp in
             let m := Z.min ta (allocated_ c) in
             do! if m <? ta then
                   let! p := alloc_ptr tmp in
                   copy_into p (m * sz) (zrep (ta - m) 0)
                 else ret tt in
             let! p := alloc_ptr tmp in
             let! b := deref NullDeref (buffer_ c) in
             let! bs := copy_from b m in
             do! copy_into p 0 bs in
             let! other := alloc_copy tmp in
             alloc_assign o other) in
    let! c' := get_obj o in
    assert (allocated_ c' =? size).

(** ** alloc_buffer<uint8_t> keeps the promises of a copy-on-write class *)

(** The whole of a fresh block is overwritten. *)
Lemma copy_into_fresh w b l d :
  blocks w !! b = Some l -> zlen d = zlen l ->
  copy_into b 0 d w = Ret tt (with_blocks (<[b := d]> (blocks w)) w).
Proof.
  intros Hb Hd. unfold copy_into, bind, load_block, store_block. rewrite Hb.
  rewrite (proj2 (Z.leb_le _ (zlen l))) by lia. simpl. by rewrite Hb, splice_all.
Qed.

Lemma alloc_ctor_spec w n :
  WF w -> 0 < n < 2 ^ 63 -> n <= limit w ->
  exists o w', alloc_ctor 1 n w = Ret o w' /\ WF w' /\ frame o w w' /\ objs w !! o = None /\
               content w' o = Some (zrep n 0).
Proof.
  intros HW Hn Hl. destruct (wf_fresh w HW (next w)) as (Hfb&Hfc&Hfo); [lia|].
  destruct (wf_fresh w HW (next w + 1)) as (Hfb1&_&_); [lia|].
  destruct (wf_fresh w HW (next w + 1 + 1)) as (_&_&Hfo2); [lia|].
  exists (next w + 1 + 1),
    (World (<[next w + 1 := zrep n 0]> (blocks w)) (<[next w := 1]> (counts w))
       (<[next w + 1 + 1 := Cow n (Some (next w + 1)) (Some (next w))]> (objs w))
       (wraps w) (next w + 1 + 1 + 1) (limit w) (garbage w)).
  split_and!.
  - unfold alloc_ctor. rewrite Z.mul_1_r, u64_small by lia.
    rewrite (proj2 (Z.eqb_neq n 0)) by lia. unfold bind at 1, new_count.
    unfold bind at 1, malloc. simpl. rewrite (proj2 (Z.ltb_ge _ n)) by lia.
    erewrite bind_ret; cycle 1.
    { apply copy_into_fresh with (l := zrep n (garbage w)); [apply lookup_insert_eq|].
      by rewrite !zlen_zrep. }
    unfold new_obj, with_next, with_blocks, with_objs, with_counts. simpl.
    by rewrite insert_insert_eq.
  - replace n with (zlen (zrep n 0)) at 2 by (rewrite zlen_zrep; lia).
    apply wf_add_owner; auto; lia.
  - split_and!; [done|done|simpl; lia|]. intros o' Hne. simpl.
    rewrite lookup_insert_ne by done. split; [done|]. apply content_same; simpl.
    + by rewrite lookup_insert_ne.
    + intros c b Ho Hb. by eapply fresh_block_other.
  - done.
  - unfold content. simpl. rewrite lookup_insert_eq. simpl. by rewrite lookup_insert_eq.
Qed.

Lemma alloc_copy_spec w p c :
  WF w -> objs w !! p = Some c -> refs (objs w) (default 0 (refcount_ c)) + 1 < 2 ^ 64 ->
  exists o w', alloc_copy p w = Ret o w' /\ WF w' /\ frame o w w' /\ objs w !! o = None /\
               objs w' !! o = Some c /\ content w' o = content w p.
Proof.
  intros HW Hp Hlt. destruct (wf_fresh w HW (next w)) as (_&_&Hfo); [lia|].
  destruct (wf_obj w HW p c Hp) as [->|(b&r&bs&->&Hb&[v Hv])].
  - exists (next w), (with_next (next w + 1) (with_objs (<[next w := cow_null]> (objs w)) w)).
    split_and!.
    + unfold alloc_copy, bind, get_obj. rewrite Hp. done.
    + apply (wf_add_null w (next w)); auto; lia.
    + split_and!; [done|done|simpl; lia|]. intros o' Hne. simpl.
      rewrite lookup_insert_ne by done. split; [done|]. apply content_same; [|done].
      simpl. by rewrite lookup_insert_ne.
    + done.
    + simpl. by rewrite lookup_insert_eq.
    + unfold content. simpl. by rewrite lookup_insert_eq, Hp.
  - simpl in Hlt. destruct (wf_count w HW r v Hv) as [Hvr Hpos].
    exists (next w), (World (blocks w) (<[r := v + 1]> (counts w))
      (<[next w := Cow (zlen bs) (Some b) (Some r)]> (objs w)) (wraps w) (next w + 1)
      (limit w) (garbage w)).
    split_and!.
    + unfold alloc_copy, bind, get_obj, load_count, store_count. rewrite Hp. simpl.
      rewrite Hv, Hv, u64_small by lia. done.
    + by apply (wf_add_sharer w p (Cow (zlen bs) (Some b) (Some r)) r v); auto; lia.
    + split_and!; [done|done|simpl; lia|]. intros o' Hne. simpl.
      rewrite lookup_insert_ne by done. split; [done|]. apply content_same; [|done].
      simpl. by rewrite lookup_insert_ne.
    + done.
    + simpl. by rewrite lookup_insert_eq.
    + unfold content. simpl. by rewrite lookup_insert_eq, Hp.
Qed.

Lemma alloc_dtor_spec w o :
  WF w -> is_Some (objs w !! o) ->
  exists w', alloc_dtor o w = Ret tt w' /\ WF w' /\ frame o w w' /\ objs w' !! o = None.
Proof.
  intros HW [c Ho]. unfold alloc_dtor. erewrite bind_ret by (unfold get_obj; by rewrite Ho).
  destruct (wf_obj w HW o c Ho) as [->|(b&r&bs&->&Hb&[v Hv])]; simpl.
  - eexists. split_and!; [done|by apply wf_drop_null| |apply lookup_delete_eq].
    split_and!; [done|done|simpl; lia|]. intros o' Hne. simpl. rewrite lookup_delete_ne by done.
    split; [done|]. apply content_same; simpl; [by rewrite lookup_delete_ne|done].
  - destruct (wf_count w HW r v Hv) as [Hvr Hpos].
    unfold bind, load_count, store_count, del_count. rewrite Hv, Hv, u64_small by lia.
    destruct (Z.eqb_spec (v - 1) 0) as [E|E]; simpl.
    + rewrite lookup_insert_eq. simpl. rewrite Hb. unfold del_obj. simpl.
      assert (v = 1) as -> by lia.
      eexists. split_and!; [done| | |apply lookup_delete_eq].
      * pose proof (wf_drop_last w o _ b r HW Ho eq_refl Hv) as HD.
        unfold with_blocks, with_counts, with_objs in *. simpl in *.
        by rewrite delete_insert_eq.
      * split_and!; [done|done|simpl; lia|]. intros o' Hne. simpl. rewrite lookup_delete_ne by done.
        split; [done|]. apply content_same; simpl; [by rewrite lookup_delete_ne|].
        intros c' b' Ho' Hb'. apply lookup_delete_ne. intros <-.
        destruct (sole_owner w HW o _ b r o' c' Ho eq_refl Hv Ho' Hne). done.
    + eexists. split_and!; [done| | |apply lookup_delete_eq].
      * apply (wf_drop_sharer w o _ r v HW Ho eq_refl Hv). lia.
      * split_and!; [done|done|simpl; lia|]. intros o' Hne. simpl. rewrite lookup_delete_ne by done.
        split; [done|]. apply content_same; simpl; [by rewrite lookup_delete_ne|done].
Qed.

Lemma alloc_ptr_spec w o bs :
  WF w -> content w o = Some bs -> zlen bs <= limit w ->
  exists b w', alloc_ptr o w = Ret b w' /\ WF w' /\ frame o w w' /\ exclusive w' o b bs.
Proof.
  intros HW Hc Hl. unfold content in Hc. destruct (objs w !! o) as [c|] eqn:Ho; [|done].
  destruct (buffer_ c) as [b|] eqn:Hcb; [|done].
  destruct (obj_inv w HW o c b Ho Hcb) as (r&bs'&v&->&Hb&Hv&Hvr&Hpos).
  assert (bs' = bs) as -> by congruence.
  unfold alloc_ptr. erewrite bind_ret by (unfold get_obj; by rewrite Ho). simpl.
  erewrite bind_ret by done. erewrite bind_ret by (unfold load_count; by rewrite Hv).
  destruct (Z.ltb_spec 1 v) as [Hgt|Hle].
  - destruct (wf_fresh w HW (next w)) as (Hfb&_&_); [lia|].
    destruct (wf_fresh w HW (next w + 1)) as (_&Hfc&_); [lia|].
    eexists (next w), (World (<[next w := bs]> (blocks w))
      (<[next w + 1 := 1]> (<[r := v - 1]> (counts w)))
      (<[o := Cow (zlen bs) (Some (next w)) (Some (next w + 1))]> (objs w))
      (wraps w) (next w + 1 + 1) (limit w) (garbage w)).
    split_and!.
    + unfold bind at 1, malloc. rewrite (proj2 (Z.ltb_ge (limit w) (zlen bs))) by lia. simpl.
      erewrite (bind_ret (copy_from b (zlen bs)) _ _ bs); cycle 1.
      { unfold copy_from, bind, load_block. simpl. rewrite lookup_insert_ne, Hb by congruence.
        rewrite (proj2 (Z.leb_le (zlen bs) (zlen bs))), ztake_all by lia. done. }
      erewrite bind_ret; cycle 1.
      { apply copy_into_fresh with (l := zrep (zlen bs) (garbage w)); [apply lookup_insert_eq|].
        rewrite zlen_zrep. pose proof (zlen_nonneg bs). lia. }
      simpl. rewrite insert_insert_eq. unfold bind, store_count, new_count, set_obj. simpl.
      rewrite Hv. simpl. rewrite Ho, u64_small by lia. done.
    + eapply (wf_detach w o _ r v (next w) (next w + 1) bs); eauto; lia.
    + split_and!; [done|done|simpl; lia|]. intros o' Hne. simpl. rewrite lookup_insert_ne by done.
      split; [done|]. apply content_same; simpl; [by rewrite lookup_insert_ne|].
      intros c' b' Ho' Hb'. by eapply fresh_block_other.
    + exists (next w + 1). simpl. by rewrite !lookup_insert_eq.
  - exists b, w. split_and!; [done|done|apply frame_refl|].
    exists r. assert (v = 1) as -> by lia. auto.
Qed.

(** The fast path: the sole owner's block is reallocated. *)
Lemma alloc_realloc_fast w o n b r bs :
  WF w -> objs w !! o = Some (Cow (zlen bs) (Some b) (Some r)) ->
  counts w !! r = Some 1 -> blocks w !! b = Some bs ->
  0 < n -> n <> zlen bs -> n <= limit w ->
  exists w', (let! nb := libc_realloc (Some b) n in
              match nb with
              | None => raise (RuntimeError "realloc failure: ")
              | Some b' =>
                  do! if zlen bs <? n
                      then copy_into b' (zlen bs * 1) (zrep (n - zlen bs) 0)
                      else ret tt in
                  set_obj o (Cow n (Some b') (Some r))
              end) w = Ret tt w' /\ WF w' /\ frame o w w' /\
             content w' o = Some (resize n 0 bs) /\
             objs w' !! o = Some (Cow n (Some (next w)) (Some r)).
Proof.
  intros HW Ho H1 Hb Hn Hne Hl. destruct (wf_fresh w HW (next w)) as (Hfb&_&_); [lia|].
  pose proof (zlen_nonneg bs).
  exists (World (<[next w := resize n 0 bs]> (delete b (blocks w))) (counts w)
    (<[o := Cow n (Some (next w)) (Some r)]> (objs w)) (wraps w) (next w + 1) (limit w) (garbage w)).
  assert (b <> next w) as Hbn by congruence.
  split_and!.
  - erewrite (bind_ret _ _ w (Some (next w))); cycle 1.
    { unfold libc_realloc. rewrite (proj2 (Z.eqb_neq n 0)) by lia.
      unfold bind, load_block, malloc, get, store_block, free. rewrite Hb.
      rewrite (proj2 (Z.ltb_ge (limit w) n)) by lia. simpl. rewrite lookup_insert_eq. simpl.
      rewrite lookup_insert_ne, lookup_insert_ne, Hb by done. done. }
    simpl. rewrite insert_insert_eq, delete_insert_ne by done.
    set (w1 := with_blocks _ _).
    assert ((if zlen bs <? n then copy_into (next w) (zlen bs * 1) (zrep (n - zlen bs) 0)
             else ret tt) w1
            = Ret tt (with_blocks (<[next w := resize n 0 bs]> (delete b (blocks w))) w1)) as E.
    { assert (zlen (ztake n bs) = Z.min n (zlen bs)) by (rewrite zlen_ztake; lia).
      destruct (Z.ltb_spec (zlen bs) n).
      - unfold copy_into, bind, load_block, store_block, w1. simpl. rewrite lookup_insert_eq.
        rewrite zlen_resize, zlen_zrep by lia.
        rewrite (proj2 (Z.leb_le 0 _)), (proj2 (Z.leb_le _ n)) by lia. simpl.
        rewrite lookup_insert_eq. rewrite insert_insert_eq.
        unfold with_blocks. simpl. do 3 f_equal. unfold splice, resize.
        rewrite ztake_app_exact by lia. rewrite zdrop_all; [by rewrite app_nil_r|].
        rewrite zlen_app, !zlen_zrep. lia.
      - unfold ret, w1, with_blocks. simpl. do 3 f_equal. unfold resize.
        by rewrite !zrep_neg by lia. }
    run_step E. unfold set_obj. simpl. rewrite Ho. done.
  - replace n with (zlen (resize n 0 bs)) at 2 by (rewrite zlen_resize; lia).
    eapply (wf_private w o _ b r); eauto; lia.
  - split_and!; [done|done|simpl; lia|]. intros o' Hne'. simpl. rewrite lookup_insert_ne by done.
    split; [done|]. apply content_same; simpl; [by rewrite lookup_insert_ne|].
    intros c' b' Ho' Hb'. destruct (sole_owner w HW o _ b r o' c' Ho eq_refl H1 Ho' Hne').
    pose proof (block_used w HW (next w) o' c' Hfb Ho').
    rewrite lookup_insert_ne, lookup_delete_ne by congruence. done.
  - unfold content. simpl. rewrite lookup_insert_eq. simpl. by rewrite lookup_insert_eq.
  - simpl. by rewrite lookup_insert_eq.
Qed.

(** [realloc] of a null buffer allocates. *)
Lemma alloc_realloc_null w o n :
  WF w -> objs w !! o = Some cow_null -> 0 < n < 2 ^ 63 -> n <= limit w ->
  exists w', alloc_realloc 1 o n w = Ret tt w' /\ WF w' /\ frame o w w' /\
             content w' o = Some (zrep n 0).
Proof.
  intros HW Ho Hn Hl. destruct (wf_fresh w HW (next w)) as (_&Hfc&_); [lia|].
  destruct (wf_fresh w HW (next w + 1)) as (Hfb&_&_); [lia|].
  exists (World (<[next w + 1 := zrep n 0]> (blocks w)) (<[next w := 1]> (counts w))
    (<[o := Cow n (Some (next w + 1)) (Some (next w))]> (objs w)) (wraps w)
    (next w + 1 + 1) (limit w) (garbage w)).
  split_and!.
  - unfold alloc_realloc. rewrite Z.mul_1_r, u64_small by lia.
    erewrite bind_ret by (unfold get_obj; by rewrite Ho). simpl.
    rewrite (proj2 (Z.eqb_neq n 0)) by lia. unfold bind, new_count, set_obj, ret, load_count.
    simpl. rewrite Ho. simpl. rewrite lookup_insert_eq. simpl.
    unfold malloc, copy_into, bind, load_block, store_block. simpl.
    rewrite (proj2 (Z.ltb_ge (limit w) n)) by lia. rewrite (proj2 (Z.ltb_lt 0 n)) by lia. simpl.
    rewrite lookup_insert_eq, !zlen_zrep.
    rewrite (proj2 (Z.leb_le _ (Z.max 0 n))) by lia. simpl. rewrite !lookup_insert_eq. simpl.
    unfold get_obj. simpl. repeat (rewrite lookup_insert_eq; simpl). rewrite Z.eqb_refl.
    unfold assert, ret, with_blocks, with_counts, with_objs, with_next. simpl.
    rewrite !insert_insert_eq. do 3 f_equal. rewrite splice_all; [|rewrite !zlen_zrep; lia].
    by rewrite Z.sub_0_r.
  - rewrite <- (insert_delete_eq (objs w)).
    replace n with (zlen (zrep n 0)) at 2 by (rewrite zlen_zrep; lia).
    apply (wf_add_owner _ (next w + 1) (next w) o (zrep n 0) _ _ _ _ (wf_drop_null w o HW Ho));
      simpl; auto; try lia.
    + apply lookup_delete_eq.
    + destruct (decide (o < next w)); [lia|]. destruct (wf_fresh w HW o) as (_&_&?); [lia|congruence].
  - split_and!; [done|done|simpl; lia|]. intros o' Hne. simpl. rewrite lookup_insert_ne by done.
    split; [done|]. apply content_same; simpl; [by rewrite lookup_insert_ne|].
    intros c' b' Ho' Hb'. by eapply fresh_block_other.
  - unfold content. simpl. rewrite lookup_insert_eq. simpl. by rewrite lookup_insert_eq.
Qed.

(** Zeroing the tail of the zeroed temporary changes nothing. *)
Lemma alloc_tmp_memset w tmp n m :
  WF w -> content w tmp = Some (zrep n 0) -> 0 <= m <= n -> n <= limit w ->
  exists w', (if m <? n then let! p := alloc_ptr tmp in copy_into p (m * 1) (zrep (n - m) 0)
              else ret tt) w = Ret tt w' /\ WF w' /\ frame tmp w w' /\
             content w' tmp = Some (zrep n 0).
Proof.
  intros HW Hc Hm Hl. destruct (Z.ltb_spec m n).
  - destruct (alloc_ptr_spec w tmp _ HW Hc) as (p&w1&Hp&HW1&Hf1&Hx1); [rewrite zlen_zrep; lia|].
    destruct (copy_into_exclusive w1 tmp p _ (m * 1) (zrep (n - m) 0) HW1 Hx1)
      as (w2&Hi&HW2&Hf2&Hx2); [lia|rewrite !zlen_zrep; lia|].
    exists w2. split_and!; [by run_step Hp|done|by eapply frame_trans|].
    rewrite (exclusive_content _ _ _ _ Hx2). f_equal. unfold splice, zdrop, ztake, zrep, zlen.
    rewrite take_replicate, drop_replicate, length_replicate, <- !replicate_add. f_equal. lia.
  - exists w. split_and!; [done|done|apply frame_refl|done].
Qed.

Lemma alloc_realloc_spec w o c :
  WF w -> objs w !! o = Some c -> forall n, 0 < n < 2 ^ 63 -> n <= limit w ->
  exists w', alloc_realloc 1 o n w = Ret tt w' /\ WF w' /\ frame o w w' /\
             content w' o = Some (resize n 0 (default [] (content w o))).
Proof.
  intros HW Ho n Hn Hl.
  destruct (wf_obj w HW o c Ho) as [->|(b&r&bs&->&Hb&[v Hv])].
  { destruct (alloc_realloc_null w o n) as (w'&?&?&?&Hc); auto. exists w'. split_and!; auto.
    rewrite Hc. unfold content. rewrite Ho. simpl. by rewrite resize_nil. }
  assert (content w o = Some bs) as Hco by (unfold content; by rewrite Ho). rewrite Hco.
  pose proof (zlen_nonneg bs). destruct (wf_count w HW r v Hv) as [Hvr Hpos].
  unfold alloc_realloc. rewrite Z.mul_1_r, u64_small by lia.
  erewrite bind_ret by (unfold get_obj; by rewrite Ho). cbn [allocated_ refcount_ buffer_].
  destruct (Z.eqb_spec n (zlen bs)) as [->|Hne].
  { exists w. split_and!; [done|done|apply frame_refl|]. simpl. by rewrite resize_same. }
  erewrite bind_ret by done. erewrite bind_ret by (unfold load_count; by rewrite Hv).
  destruct (Z.eqb_spec v 1) as [->|Hv1].
  - destruct (alloc_realloc_fast w o n b r bs) as (w'&Hr&HW'&Hf&Hc&Ho'); auto; [lia|].
    exists w'. split_and!; auto. run_step Hr.
    erewrite bind_ret by (unfold get_obj; by rewrite Ho'). simpl. by rewrite Z.eqb_refl.
  - destruct (alloc_ctor_spec w n HW Hn Hl) as (tmp&w1&Hk&HW1&(Hl1&Hw1&Hn1&Hf1)&Htn&Ht1).
    assert (o <> tmp) as Hot by congruence. destruct (Hf1 o Hot) as [Ho1 Hco1].
    set (m := Z.min n (zlen bs)).
    destruct (alloc_tmp_memset w1 tmp n m) as (w2&Hms&HW2&(Hl2&Hw2&Hn2&Hf2)&Ht2); [done|done|lia|lia|].
    destruct (Hf2 o Hot) as [Ho2 Hco2].
    assert (objs w2 !! o = Some (Cow (zlen bs) (Some b) (Some r))) as Ho2' by congruence.
    assert (blocks w2 !! b = Some bs) as Hb2.
    { rewrite <- (content_obj w2 o _ b Ho2' eq_refl). congruence. }
    assert (zlen (zrep n 0) = n) as Hz by (rewrite zlen_zrep; lia).
    destruct (replace_from_spec alloc_copy alloc_dtor alloc_ptr alloc_copy_spec alloc_dtor_spec
      alloc_ptr_spec w2 o tmp _ b bs (zrep n 0) HW2 Hot Ho2' eq_refl Hb2 Ht2 ltac:(lia))
      as (w3&Hr&HW3&(Hl3&Hw3&Hn3&Hf3)&Htmp3&Hc3&(c'&Ho3&Ha3)).
    rewrite Hz in Ha3, Hc3, Hr. fold m in Hr, Hc3.
    assert (exists c1, objs w1 !! tmp = Some c1 /\ allocated_ c1 = n) as (c1&Hc1&Ha1).
    { unfold content in Ht1. destruct (objs w1 !! tmp) as [c1|] eqn:E; [|done].
      destruct (buffer_ c1) as [b1|] eqn:E1; [|done].
      destruct (obj_inv w1 HW1 tmp c1 b1 E E1) as (?&bs1&?&->&Hb1&_).
      eexists; split; [done|]. simpl. simpl in *. congruence. }
    exists w3. split_and!.
    + erewrite (bind_ret (bind (alloc_ctor 1 n) _) _ w tt w3); cycle 1.
      { run_step Hk. rewrite <- Hr. unfold scoped.
        erewrite (bind_ret (alloc_allocated tmp) _ w1 n w1).
        2: { unfold alloc_allocated, bind, get_obj. rewrite Hc1. by rewrite <- Ha1. }
        cbv zeta. fold m. rewrite (bind_ret _ _ w1 tt w2 Hms). done. }
      erewrite bind_ret by (unfold get_obj; by rewrite Ho3). simpl. rewrite Ha3.
      by rewrite Z.eqb_refl.
    + done.
    + split_and!; [congruence|congruence|lia|]. intros q Hq.
      destruct (decide (q = tmp)) as [->|Hqt].
      * rewrite Htmp3, Htn. split; [done|]. unfold content. by rewrite Htmp3, Htn.
      * destruct (Hf3 q Hq Hqt) as [-> ->]. destruct (Hf2 q Hqt) as [-> ->].
        by destruct (Hf1 q Hqt) as [-> ->].
    + rewrite Hc3. simpl. f_equal. unfold m. by apply splice_resize; lia.
Qed.

#[global] Instance alloc_cow : CowClass (fun n => n) := {
  c_ctor := alloc_ctor 1;
  c_copy := alloc_copy;
  c_dtor := alloc_dtor;
  c_realloc := alloc_realloc 1;
  c_ptr := alloc_ptr;
  law_ctor := alloc_ctor_spec;
  law_copy := alloc_copy_spec;
  law_dtor := alloc_dtor_spec;
  law_ptr := alloc_ptr_spec;
  law_realloc := alloc_realloc_spec
}.

(** ** realloc(0) *)

(** A defect of realloc(0): on an alloc_buffer that owns its block alone the
    C library frees the block and returns null, which the code takes for a
    failure: it throws with [buffer_] still pointing at the freed block, and the
    destructor then frees it again. *)
Theorem alloc_realloc_zero_dangles w o bs b r :
  WF w -> objs w !! o = Some (Cow (zlen bs) (Some b) (Some r)) ->
  counts w !! r = Some 1 -> blocks w !! b = Some bs -> bs <> [] ->
  exists e w', alloc_realloc 1 o 0 w = Raise e w' /\ alloc_dtor o w' = Fault UseAfterFree.
Proof.
  intros HW Ho Hr Hb Hne. assert (zlen bs <> 0) by (intros E; by apply zlen_0_nil in E).
  eexists _, (with_blocks (delete b (blocks w)) w). split.
  - unfold alloc_realloc. change (u64 (0 * 1)) with 0.
    erewrite bind_ret by (unfold get_obj; by rewrite Ho). cbn [allocated_ refcount_ buffer_].
    rewrite (proj2 (Z.eqb_neq 0 (zlen bs))) by lia. erewrite bind_ret by done.
    erewrite bind_ret by (unfold load_count; by rewrite Hr). simpl.
    unfold bind, free. rewrite Hb. reflexivity.
  - unfold alloc_dtor, bind, get_obj, load_count, store_count, del_count. simpl. rewrite Ho. simpl.
    rewrite Hr. simpl. rewrite Hr. simpl. rewrite lookup_insert_eq. simpl. by rewrite lookup_delete_eq.
Qed.

Lemma alloc_realloc_zero_dangles_witness :
  exists o w e w', alloc_ctor 1 3 (world0 1 100 165) = Ret o w /\
    alloc_realloc 1 o 0 w = Raise e w' /\ alloc_dtor o w' = Fault UseAfterFree.
Proof.
  destruct (alloc_ctor_spec (world0 1 100 165) 3 (world0_WF _ _ _))
    as (o&w&Hc&HW&_&_&_); [lia|simpl; lia|].
  vm_compute in Hc. injection Hc as <- <-.
  destruct (alloc_realloc_zero_dangles _ 3 [0; 0; 0] 2 1 HW) as (e&w'&?&?);
    [reflexivity|reflexivity|reflexivity|done|].
  exists 3. eexists. exists e, w'. split; [vm_compute; reflexivity|auto].
Defined.

(** A defect of alloc_buffer<uint32_t>: [memset(newbuf + allocated_, ...)]
    scales the byte count [allocated_] by the element size, so growing a buffer
    of 32-bit elements writes beyond its block, for every old and new size. *)
Theorem alloc_realloc_u32_overflows w o n bs b r :
  WF w -> objs w !! o = Some (Cow (zlen bs) (Some b) (Some r)) ->
  counts w !! r = Some 1 -> blocks w !! b = Some bs -> bs <> [] ->
  zlen bs < n * 4 < 2 ^ 64 -> n * 4 <= limit w ->
  alloc_realloc 4 o n w = Fault OutOfBounds.
Proof.
  intros HW Ho Hr Hb Hne Hn Hl. assert (0 < zlen bs).
  { pose proof (zlen_nonneg bs). destruct (Z.eq_dec (zlen bs) 0) as [E|]; [|lia].
    by apply zlen_0_nil in E. }
  destruct (wf_fresh w HW (next w)) as (Hfb&_&_); [lia|].
  unfold alloc_realloc. rewrite u64_small by lia.
  erewrite bind_ret by (unfold get_obj; by rewrite Ho). simpl.
  rewrite (proj2 (Z.eqb_neq (n * 4) (zlen bs))) by lia. erewrite bind_ret by done.
  erewrite bind_ret by (unfold load_count; by rewrite Hr). simpl.
  unfold libc_realloc, bind, load_block, malloc, get, store_block, free, copy_into.
  rewrite (proj2 (Z.eqb_neq (n * 4) 0)), Hb by lia.
  rewrite (proj2 (Z.ltb_ge (limit w) (n * 4))) by lia. simpl. rewrite lookup_insert_eq. simpl.
  rewrite lookup_insert_ne, lookup_insert_ne, Hb by congruence. simpl.
  rewrite (proj2 (Z.ltb_lt (zlen bs) (n * 4))) by lia.
  unfold bind, load_block. simpl. rewrite lookup_delete_ne, lookup_insert_eq by congruence.
  rewrite zlen_resize, zlen_zrep by lia.
  rewrite (proj2 (Z.leb_gt (zlen bs * 4 + _) (n * 4))) by lia. rewrite andb_false_r. done.
Qed.

Lemma alloc_realloc_u32_overflows_witness :
  exists o w, alloc_ctor 4 1 (world0 1 100 165) = Ret o w /\
    alloc_realloc 4 o 2 w = Fault OutOfBounds.
Proof.
  destruct (alloc_ctor_spec (world0 1 100 165) 4 (world0_WF _ _ _))
    as (o&w&Hc&HW&_&_&_); [lia|simpl; lia|].
  vm_compute in Hc. injection Hc as <- <-.
  exists 3. eexists. split; [vm_compute; reflexivity|].
  apply (alloc_realloc_u32_overflows _ 3 2 [0; 0; 0; 0] 2 1 HW);
    first [reflexivity|done|vm_compute; intuition congruence].
Defined.
