(* ===== verification/MmapBuffer.v ===== *)
(** * mmap_buffer<T> (shared/src/mmap_buffer.cpp, shared/includes/mmap_buffer.hpp)

    The page-granular copy-on-write buffer. [page] is sysconf(_SC_PAGESIZE),
    [sz] is sizeof(POD_T). *)

From S2P Require Import Prelude Bytes CowHeap AllocBuffer.

(** The address mmap returns on failure. *)
Definition MAP_FAILED : Z := -1.

(** ** Operations *)

Definition round_to_page (page size : Z) : Z :=
  let lower := size / page in
  let size := if u64 (lower * page) <? size then u64 ((lower + 1) * page) else size in
  if size =? 0 then page else size.

(** mmap_buffer() *)
Definition mmap_ctor0 : prog world Z := new_obj cow_null.

(** mmap_buffer(size_type initial_elements) *)
Definition mmap_ctor (page sz n : Z) : prog world Z :=
  if 0 <? n then
    let allocated := round_to_page page (u64 (n * sz)) in
    let! r := new_count in
    let! b := mmap allocated in
    match b with
    | None =>
        do! del_count r in
        raise (RuntimeError "mmap failure: ")
    | Some b => new_obj (Cow allocated (Some b) (Some r))
    end
  else new_obj cow_null.

(** mmap_buffer(const mmap_buffer &copy) *)
Definition mmap_copy (p : Z) : prog world Z :=
  let! c := get_obj p in
  do! match refcount_ c with
      | Some r => let! v := load_count r in store_count r (u64 (v + 1))
      | None => ret tt
      end in
  new_obj c.

(** mmap_buffer(mmap_buffer &&moved) *)
Definition mmap_move (p : Z) : prog world Z :=
  let! c := get_obj p in
  let! o := new_obj c in
  do! set_obj p cow_null in
  ret o.

(** ~mmap_buffer() *)
Definition mmap_dtor (o : Z) : prog world unit :=
  let! c := get_obj o in
  do! match refcount_ c with
      | Some r =>
          let! v := load_count r in
          do! store_count r (u64 (v - 1)) in
          if u64 (v - 1) =? 0 then
            do! del_count r in
            free (buffer_ c)
          else ret tt
      | None => ret tt
      end in
  del_obj o.

(** operator=(mmap_buffer other) *)
Definition mmap_assign (o other : Z) : prog world unit :=
  let! co := get_obj o in
  let! cp := get_obj other in
  do! set_obj o cp in
  do! set_obj other co in
  mmap_dtor other.

(** pointer ptr() *)
Definition mmap_ptr (o : Z) : prog world Z :=
  let! c := get_obj o in
  match buffer_ c with
  | None => raise (RuntimeError "Invalid buffer")
  | Some b =>
      let! r := deref NullDeref (refcount_ c) in
      let! v := load_count r in
      if 1 <? v then
        let! nb := mmap (allocated_ c) in
        match nb with
        | None => raise (RuntimeError "mmap failure: ")
        | Some b' =>
            let! bs := copy_from b (allocated_ c) in
            do! copy_into b' 0 bs in
            do! store_count r (u64 (v - 1)) in
            let! r' := new_count in
            do! set_obj o (Cow (allocated_ c) (Some b') (Some r')) in
            ret b'
        end
      else ret b
  end.

Definition mmap_const_ptr (o : Z) : prog world Z :=
  let! c := get_obj o in
  match buffer_ c with
  | Some b => ret b
  | None => raise (RuntimeError "Invalid buffer")
  end.

Definition mmap_allocated (o : Z) : prog world Z :=
  let! c := get_obj o in ret (allocated_ c).

Definition mmap_use_count (o : Z) : prog world Z :=
  let! c := get_obj o in
  match refcount_ c with Some r => load_count r | None => ret 0 end.

(** void realloc(size_type new_elt_cnt). A refused mmap leaves MAP_FAILED in
    [buffer_], as the assignment precedes the test. *)
Definition mmap_realloc (page sz o n : Z) : prog world unit :=
  let size := round_to_page page (u64 (n * sz)) in
  do! assert (u64 (n * sz) <=? size) in
  let! c := get_obj o in
  if size =? allocated_ c then ret tt
  else
    let! sole := match refcount_ c with
                 | None => ret true
                 | Some r => let! v := load_count r in ret (v =? 1)
                 end in
    do! if (sole : bool) then
          match refcount_ c with
          | None =>
              let! nb := mmap size in
              match nb with
              | None =>
                  do! set_obj o (Cow (allocated_ c) (Some MAP_FAILED) None) in
                  raise (RuntimeError "mmap failure in realloc: ")
              | Some b =>
                  let! r := new_count in
                  set_obj o (Cow size (Some b) (Some r))
              end
          | Some r =>
              let! b0 := deref NullDeref (buffer_ c) in
              let! nb := mremap b0 size in
              match nb with
              | None => raise (RuntimeError "mremap failure: ")
              | Some b => set_obj o (Cow size (Some b) (Some r))
              end
          end
        else
          let! tmp := mmap_ctor page sz n in
          scoped (mmap_dtor tmp)
            (let! ta := mmap_allocated tmp in
             let m := Z.min ta (allocated_ c) in
             let! p := mmap_ptr tmp in
             let! b := deref NullDeref (buffer_ c) in
             let! bs := copy_from b m in
             do! copy_into p 0 bs in
             let! other := mmap_copy tmp in
             mmap_assign o other) in
    let! c' := get_obj o in
    assert (allocated_ c' =? size).

(** ** Rounding *)

Lemma round_to_page_spec page size :
  0 < page <= 2 ^ 62 -> 0 <= size < 2 ^ 63 ->
  size <= round_to_page page size < size + page + 1 /\
  0 < round_to_page page size /\ (page | round_to_page page size).
Proof.
  intros Hp Hs. unfold round_to_page.
  pose proof (Z.mod_pos_bound size page ltac:(lia)) as Hm.
  pose proof (Z.div_mod size page ltac:(lia)) as Hd.
  assert (0 <= size / page) by (apply Z.div_pos; lia).
  assert (size / page * page <= size) by lia.
  rewrite u64_small by lia.
  destruct (Z.ltb_spec (size / page * page) size).
  - rewrite u64_small by lia. zcase; [lia|].
    split; [lia|]. split; [lia|]. exists (size / page + 1). lia.
  - zcase; [subst; split; [lia|split; [lia|exists 1; lia]]|].
    split; [lia|]. split; [lia|]. exists (size / page). lia.
Qed.

(** ** mmap_buffer<uint8_t> keeps the promises of a copy-on-write class *)

(** The two classes have the same copy constructor and, with free for munmap,
    the same destructor. *)
Lemma mmap_copy_spec w p c :
  WF w -> objs w !! p = Some c -> refs (objs w) (default 0 (refcount_ c)) + 1 < 2 ^ 64 ->
  exists o w', mmap_copy p w = Ret o w' /\ WF w' /\ frame o w w' /\ objs w !! o = None /\
               objs w' !! o = Some c /\ content w' o = content w p.
Proof. exact (alloc_copy_spec w p c). Qed.

Lemma mmap_dtor_spec w o :
  WF w -> is_Some (objs w !! o) ->
  exists w', mmap_dtor o w = Ret tt w' /\ WF w' /\ frame o w w' /\ objs w' !! o = None.
Proof. exact (alloc_dtor_spec w o). Qed.

Lemma mmap_ptr_spec w o bs :
  WF w -> content w o = Some bs -> zlen bs <= limit w ->
  exists b w', mmap_ptr o w = Ret b w' /\ WF w' /\ frame o w w' /\ exclusive w' o b bs.
Proof.
  intros HW Hc Hl. unfold content in Hc. destruct (objs w !! o) as [c|] eqn:Ho; [|done].
  destruct (buffer_ c) as [b|] eqn:Hcb; [|done].
  destruct (obj_inv w HW o c b Ho Hcb) as (r&bs'&v&->&Hb&Hv&Hvr&Hpos).
  assert (bs' = bs) as -> by congruence.
  unfold mmap_ptr. erewrite bind_ret by (unfold get_obj; by rewrite Ho). simpl.
  erewrite bind_ret by done. erewrite bind_ret by (unfold load_count; by rewrite Hv).
  destruct (Z.ltb_spec 1 v) as [Hgt|Hle].
  - destruct (wf_fresh w HW (next w)) as (Hfb&_&_); [lia|].
    destruct (wf_fresh w HW (next w + 1)) as (_&Hfc&_); [lia|].
    eexists (next w), (World (<[next w := bs]> (blocks w))
      (<[next w + 1 := 1]> (<[r := v - 1]> (counts w)))
      (<[o := Cow (zlen bs) (Some (next w)) (Some (next w + 1))]> (objs w))
      (wraps w) (next w + 1 + 1) (limit w) (garbage w)).
    split_and!.
    + unfold bind at 1, mmap. rewrite (proj2 (Z.ltb_ge (limit w) (zlen bs))) by lia. simpl.
      erewrite (bind_ret (copy_from b (zlen bs)) _ _ bs); cycle 1.
      { unfold copy_from, bind, load_block. simpl. rewrite lookup_insert_ne, Hb by congruence.
        rewrite (proj2 (Z.leb_le (zlen bs) (zlen bs))), ztake_all by lia. done. }
      erewrite bind_ret; cycle 1.
      { apply copy_into_fresh with (l := zrep (zlen bs) 0); [apply lookup_insert_eq|].
        rewrite zlen_zrep. pose proof (zlen_nonneg bs). lia. }
      simpl. rewrite insert_insert_eq. unfold bind, store_count, new_count, set_obj. simpl.
      rewrite Hv. simpl. rewrite Ho, u64_small by lia. done.
    + eapply (wf_detach w o _ r v (next w) (next w + 1) bs); eauto; lia.
    + split_and!; [done|done|simpl; lia|]. intros o' Hne. simpl. rewrite lookup_insert_ne by done.
      split; [done|]. apply content_same; simpl; [by rewrite lookup_insert_ne|].
      intros c' b' Ho' Hb'. by eapply fresh_block_other.
    + exists (next w + 1). simpl. by rewrite !lookup_insert_eq.
  - exists b, w. split_and!; [done|done|apply frame_refl|].
    exists r. assert (v = 1) as -> by lia. auto.
Qed.

Section Mmap.
Context (page : Z) (Hpage : 0 < page <= 2 ^ 62).

Lemma mmap_ctor_spec w n :
  WF w -> 0 < n < 2 ^ 63 -> round_to_page page n <= limit w ->
  exists o w', mmap_ctor page 1 n w = Ret o w' /\ WF w' /\ frame o w w' /\
               objs w !! o = None /\ content w' o = Some (zrep (round_to_page page n) 0).
Proof.
  intros HW Hn Hl. set (a := round_to_page page n) in *.
  destruct (round_to_page_spec page n) as (Ha&Ha0&_); [lia|lia|]. fold a in Ha, Ha0.
  destruct (wf_fresh w HW (next w)) as (_&Hfc&_); [lia|].
  destruct (wf_fresh w HW (next w + 1)) as (Hfb1&_&_); [lia|].
  destruct (wf_fresh w HW (next w + 1 + 1)) as (_&_&Hfo2); [lia|].
  exists (next w + 1 + 1),
    (World (<[next w + 1 := zrep a 0]> (blocks w)) (<[next w := 1]> (counts w))
       (<[next w + 1 + 1 := Cow a (Some (next w + 1)) (Some (next w))]> (objs w))
       (wraps w) (next w + 1 + 1 + 1) (limit w) (garbage w)).
  split_and!.
  - unfold mmap_ctor. rewrite Z.mul_1_r, u64_small by lia. fold a.
    rewrite (proj2 (Z.ltb_lt 0 n)) by lia. unfold bind, new_count, mmap. simpl.
    rewrite (proj2 (Z.ltb_ge _ a)) by lia. done.
  - replace a with (zlen (zrep a 0)) at 2 by (rewrite zlen_zrep; lia).
    apply wf_add_owner; auto; lia.
  - split_and!; [done|done|simpl; lia|]. intros o' Hne. simpl.
    rewrite lookup_insert_ne by done. split; [done|]. apply content_same; simpl.
    + by rewrite lookup_insert_ne.
    + intros c b Ho Hb. by eapply fresh_block_other.
  - done.
  - unfold content. simpl. rewrite lookup_insert_eq. simpl. by rewrite lookup_insert_eq.
Qed.

(** A sole owner's mapping is moved by mremap. *)
Lemma mmap_realloc_sole w o n b r bs :
  WF w -> objs w !! o = Some (Cow (zlen bs) (Some b) (Some r)) ->
  counts w !! r = Some 1 -> blocks w !! b = Some bs -> 0 <= n -> n <= limit w ->
  exists w', (let! b0 := deref NullDeref (Some b) in
              let! nb := mremap b0 n in
              match nb with
              | None => raise (RuntimeError "mremap failure: ")
              | Some b' => set_obj o (Cow n (Some b') (Some r))
              end) w = Ret tt w' /\ WF w' /\ frame o w w' /\
             content w' o = Some (resize n 0 bs) /\
             objs w' !! o = Some (Cow n (Some (next w)) (Some r)).
Proof.
  intros HW Ho H1 Hb Hn Hl. destruct (wf_fresh w HW (next w)) as (Hfb&_&_); [lia|].
  assert (b <> next w) as Hbn by congruence.
  exists (World (<[next w := resize n 0 bs]> (delete b (blocks w))) (counts w)
    (<[o := Cow n (Some (next w)) (Some r)]> (objs w)) (wraps w) (next w + 1) (limit w) (garbage w)).
  split_and!.
  - unfold deref. erewrite bind_ret by done.
    unfold mremap, bind, load_block, mmap, store_block, free. rewrite Hb.
    rewrite (proj2 (Z.ltb_ge (limit w) n)) by lia. simpl. rewrite lookup_insert_eq. simpl.
    rewrite lookup_insert_ne, lookup_insert_ne, Hb by done. unfold set_obj. simpl.
    rewrite Ho, insert_insert_eq, delete_insert_ne by done. done.
  - replace n with (zlen (resize n 0 bs)) at 2 by (rewrite zlen_resize; lia).
    eapply (wf_private w o _ b r); eauto; lia.
  - split_and!; [done|done|simpl; lia|]. intros o' Hne'. simpl. rewrite lookup_insert_ne by done.
    split; [done|]. apply content_same; simpl; [by rewrite lookup_insert_ne|].
    intros c' b' Ho' Hb'. destruct (sole_owner w HW o _ b r o' c' Ho eq_refl H1 Ho' Hne').
    pose proof (block_used w HW (next w) o' c' Hfb Ho').
    rewrite lookup_insert_ne, lookup_delete_ne by congruence. done.
  - unfold content. simpl. rewrite lookup_insert_eq. simpl. by rewrite lookup_insert_eq.
  - simpl. by rewrite lookup_insert_eq.
Qed.

(** A null buffer gets a fresh mapping. *)
Lemma mmap_realloc_null w o n :
  WF w -> objs w !! o = Some cow_null -> 0 <= n -> n <= limit w ->
  exists w', (let! nb := mmap n in
              match nb with
              | None =>
                  do! set_obj o (Cow 0 (Some MAP_FAILED) None) in
                  raise (RuntimeError "mmap failure in realloc: ")
              | Some b =>
                  let! r := new_count in
                  set_obj o (Cow n (Some b) (Some r))
              end) w = Ret tt w' /\ WF w' /\ frame o w w' /\
             content w' o = Some (zrep n 0) /\
             objs w' !! o = Some (Cow n (Some (next w)) (Some (next w + 1))).
Proof.
  intros HW Ho Hn Hl. destruct (wf_fresh w HW (next w)) as (Hfb&_&_); [lia|].
  destruct (wf_fresh w HW (next w + 1)) as (_&Hfc&_); [lia|].
  exists (World (<[next w := zrep n 0]> (blocks w)) (<[next w + 1 := 1]> (counts w))
    (<[o := Cow n (Some (next w)) (Some (next w + 1))]> (objs w)) (wraps w)
    (next w + 1 + 1) (limit w) (garbage w)).
  split_and!.
  - unfold bind, mmap. rewrite (proj2 (Z.ltb_ge (limit w) n)) by lia. simpl.
    unfold set_obj. simpl. by rewrite Ho.
  - rewrite <- (insert_delete_eq (objs w)).
    replace n with (zlen (zrep n 0)) at 2 by (rewrite zlen_zrep; lia).
    apply (wf_add_owner _ (next w) (next w + 1) o (zrep n 0) _ _ _ _ (wf_drop_null w o HW Ho));
      simpl; auto; try lia.
    + apply lookup_delete_eq.
    + destruct (decide (o < next w)); [lia|].
      destruct (wf_fresh w HW o) as (_&_&?); [lia|congruence].
  - split_and!; [done|done|simpl; lia|]. intros o' Hne. simpl. rewrite lookup_insert_ne by done.
    split; [done|]. apply content_same; simpl; [by rewrite lookup_insert_ne|].
    intros c' b' Ho' Hb'. by eapply fresh_block_other.
  - unfold content. simpl. rewrite lookup_insert_eq. simpl. by rewrite lookup_insert_eq.
  - simpl. by rewrite lookup_insert_eq.
Qed.

Lemma mmap_realloc_spec w o c :
  WF w -> objs w !! o = Some c -> forall n, 0 < n < 2 ^ 63 -> round_to_page page n <= limit w ->
  exists w', mmap_realloc page 1 o n w = Ret tt w' /\ WF w' /\ frame o w w' /\
             content w' o =
               Some (resize (round_to_page page n) 0 (default [] (content w o))).
Proof.
  intros HW Ho n Hn Hl. set (a := round_to_page page n) in *.
  destruct (round_to_page_spec page n) as (Ha&Ha0&_); [lia|lia|]. fold a in Ha, Ha0.
  unfold mmap_realloc. rewrite Z.mul_1_r, u64_small by lia. fold a.
  rewrite (proj2 (Z.leb_le n a)) by lia. erewrite bind_ret by done.
  erewrite bind_ret by (unfold get_obj; by rewrite Ho).
  destruct (wf_obj w HW o c Ho) as [->|(b&r&bs&->&Hb&[v Hv])]; cbn [allocated_ refcount_ buffer_ cow_null].
  { rewrite (proj2 (Z.eqb_neq a 0)) by lia. erewrite bind_ret by done.
    destruct (mmap_realloc_null w o a) as (w'&Hr&HW'&Hf&Hc&Ho'); auto; [lia|].
    exists w'. split_and!; auto.
    - run_step Hr. erewrite bind_ret by (unfold get_obj; by rewrite Ho'). simpl.
      by rewrite Z.eqb_refl.
    - rewrite Hc. unfold content. rewrite Ho. simpl. by rewrite resize_nil. }
  assert (content w o = Some bs) as Hco by (unfold content; by rewrite Ho). rewrite Hco.
  pose proof (zlen_nonneg bs). destruct (wf_count w HW r v Hv) as [Hvr Hpos].
  destruct (Z.eqb_spec a (zlen bs)) as [E|Hne].
  { exists w. split_and!; [done|done|apply frame_refl|]. simpl. rewrite E.
    by rewrite resize_same. }
  erewrite bind_ret by (unfold bind, load_count; by rewrite Hv).
  destruct (Z.eqb_spec v 1) as [->|Hv1].
  - destruct (mmap_realloc_sole w o a b r bs) as (w'&Hr&HW'&Hf&Hc&Ho'); auto; [lia|].
    exists w'. split_and!; auto. run_step Hr.
    erewrite bind_ret by (unfold get_obj; by rewrite Ho'). simpl. by rewrite Z.eqb_refl.
  - destruct (mmap_ctor_spec w n HW Hn Hl) as (tmp&w1&Hk&HW1&(Hl1&Hw1&Hn1&Hf1)&Htn&Ht1).
    fold a in Ht1. assert (o <> tmp) as Hot by congruence.
    destruct (Hf1 o Hot) as [Ho1 Hco1].
    assert (objs w1 !! o = Some (Cow (zlen bs) (Some b) (Some r))) as Ho1' by congruence.
    assert (blocks w1 !! b = Some bs) as Hb1.
    { rewrite <- (content_obj w1 o _ b Ho1' eq_refl). congruence. }
    assert (zlen (zrep a 0) = a) as Hz by (rewrite zlen_zrep; lia).
    destruct (replace_from_spec mmap_copy mmap_dtor mmap_ptr mmap_copy_spec mmap_dtor_spec
      mmap_ptr_spec w1 o tmp _ b bs (zrep a 0) HW1 Hot Ho1' eq_refl Hb1 Ht1 ltac:(lia))
      as (w3&Hr&HW3&(Hl3&Hw3&Hn3&Hf3)&Htmp3&Hc3&(c'&Ho3&Ha3)).
    rewrite Hz in Ha3, Hc3, Hr.
    assert (exists c1, objs w1 !! tmp = Some c1 /\ allocated_ c1 = a) as (c1&Hc1&Ha1).
    { unfold content in Ht1. destruct (objs w1 !! tmp) as [c1|] eqn:E; [|done].
      destruct (buffer_ c1) as [b1|] eqn:E1; [|done].
      destruct (obj_inv w1 HW1 tmp c1 b1 E E1) as (?&bs1&?&->&Hb1'&_).
      eexists; split; [done|]. simpl. simpl in *. congruence. }
    exists w3. split_and!.
    + erewrite (bind_ret (bind (mmap_ctor page 1 n) _) _ w tt w3); cycle 1.
      { run_step Hk. rewrite <- Hr. unfold scoped.
        erewrite (bind_ret (mmap_allocated tmp) _ w1 a w1).
        2: { unfold mmap_allocated, bind, get_obj. rewrite Hc1. by rewrite <- Ha1. }
        done. }
      erewrite bind_ret by (unfold get_obj; by rewrite Ho3). simpl. rewrite Ha3.
      by rewrite Z.eqb_refl.
    + done.
    + split_and!; [congruence|congruence|lia|]. intros q Hq.
      destruct (decide (q = tmp)) as [->|Hqt].
      * rewrite Htmp3, Htn. split; [done|]. unfold content. by rewrite Htmp3, Htn.
      * destruct (Hf3 q Hq Hqt) as [-> ->]. by destruct (Hf1 q Hqt) as [-> ->].
    + rewrite Hc3. simpl. f_equal. by apply splice_resize; lia.
Qed.

#[global] Instance mmap_cow : CowClass (round_to_page page) := {
  c_ctor := mmap_ctor page 1;
  c_copy := mmap_copy;
  c_dtor := mmap_dtor;
  c_realloc := mmap_realloc page 1;
  c_ptr := mmap_ptr;
  law_ctor := mmap_ctor_spec;
  law_copy := mmap_copy_spec;
  law_dtor := mmap_dtor_spec;
  law_ptr := mmap_ptr_spec;
  law_realloc := mmap_realloc_spec
}.
End Mmap.
