(* ===== verification/WrappedBuffer.v ===== *)
(** * wrapped_buffer<T> (shared/src/wrapped_buffer.cpp, shared/includes/wrapped_buffer.hpp)

    An alloc_buffer for small sizes, an mmap_buffer above [MMAP_THRESHOLD].
    The operations run on the heap of CowHeap. The abstract specification is a
    map from buffers to independent byte strings: although copies share memory,
    no operation on one buffer is visible through another. The other files use
    that specification: there a wrapped_buffer<uint8_t> is the list of its
    bytes. *)

From S2P Require Import Prelude Bytes CowHeap AllocBuffer MmapBuffer.

Definition MMAP_THRESHOLD : Z := 50000.

(** ** Operations *)

Definition new_wrap (v : wrapped) : prog world Z := fun w =>
  Ret (next w) (with_next (next w + 1) (with_wraps (<[next w := v]> (wraps w)) w)).

Definition get_wrap (x : Z) : prog world wrapped := fun w =>
  match wraps w !! x with Some v => Ret v w | None => Fault UseAfterFree end.

Definition set_wrap (x : Z) (v : wrapped) : prog world unit := fun w =>
  match wraps w !! x with
  | Some _ => Ret tt (with_wraps (<[x := v]> (wraps w)) w)
  | None => Fault UseAfterFree
  end.

Definition del_wrap (x : Z) : prog world unit := fun w =>
  Ret tt (with_wraps (delete x (wraps w)) w).

(** [delete p] of a buffer object: nothing on a null pointer. *)
Definition delete_obj (dtor : Z -> prog world unit) (p : option Z) : prog world unit :=
  match p with Some o => dtor o | None => ret tt end.

(** wrapped_buffer() *)
Definition wrapped_ctor0 : prog world Z := new_wrap (Wrapped None None).

(** wrapped_buffer(size_type initial_elements) *)
Definition wrapped_ctor (page sz n : Z) : prog world Z :=
  if n =? 0 then new_wrap (Wrapped None None)
  else
    let size := u64 (n * sz) in
    if MMAP_THRESHOLD <? size then
      let! m := mmap_ctor page sz n in
      new_wrap (Wrapped (Some m) None)
    else
      let! a := alloc_ctor sz n in
      new_wrap (Wrapped None (Some a)).

(** wrapped_buffer(const wrapped_buffer &copy) *)
Definition wrapped_copy (y : Z) : prog world Z :=
  let! v := get_wrap y in
  match mbuffer_ v, abuffer_ v with
  | Some m, _ => let! m' := mmap_copy m in new_wrap (Wrapped (Some m') None)
  | None, Some a => let! a' := alloc_copy a in new_wrap (Wrapped None (Some a'))
  | None, None => new_wrap (Wrapped None None)
  end.

(** wrapped_buffer(wrapped_buffer &&moved) *)
Definition wrapped_move (y : Z) : prog world Z :=
  let! v := get_wrap y in
  let! x := new_wrap v in
  do! set_wrap y (Wrapped None None) in
  ret x.

(** ~wrapped_buffer() *)
Definition wrapped_dtor (x : Z) : prog world unit :=
  let! v := get_wrap x in
  do! delete_obj mmap_dtor (mbuffer_ v) in
  do! delete_obj alloc_dtor (abuffer_ v) in
  del_wrap x.

(** operator=(wrapped_buffer other) *)
Definition wrapped_assign (x other : Z) : prog world unit :=
  let! vx := get_wrap x in
  let! vo := get_wrap other in
  do! set_wrap x vo in
  do! set_wrap other vx in
  wrapped_dtor other.

(** pointer ptr() *)
Definition wrapped_ptr (x : Z) : prog world Z :=
  let! v := get_wrap x in
  match mbuffer_ v, abuffer_ v with
  | Some m, _ => mmap_ptr m
  | None, Some a => alloc_ptr a
  | None, None => raise (RuntimeError "bad buffer")
  end.

(** const_pointer const_ptr() const *)
Definition wrapped_const_ptr (x : Z) : prog world Z :=
  let! v := get_wrap x in
  match mbuffer_ v, abuffer_ v with
  | Some m, _ => mmap_const_ptr m
  | None, Some a => alloc_const_ptr a
  | None, None => raise (RuntimeError "Invalid buffer")
  end.

(** size_type allocated() const *)
Definition wrapped_allocated (x : Z) : prog world Z :=
  let! v := get_wrap x in
  match mbuffer_ v, abuffer_ v with
  | Some m, _ => mmap_allocated m
  | None, Some a => alloc_allocated a
  | None, None => ret 0
  end.

(** long use_count() const *)
Definition wrapped_use_count (x : Z) : prog world Z :=
  let! v := get_wrap x in
  match mbuffer_ v, abuffer_ v with
  | Some m, _ => mmap_use_count m
  | None, Some a => alloc_use_count a
  | None, None => ret 0
  end.

(** void realloc(size_type new_elt_cnt) *)
Definition wrapped_realloc (page sz x n : Z) : prog world unit :=
  let size := u64 (n * sz) in
  let! v := get_wrap x in
  if MMAP_THRESHOLD <? size then
    match mbuffer_ v, abuffer_ v with
    | Some m, _ => mmap_realloc page sz m n
    | None, Some a =>
        let! m := mmap_ctor page sz n in
        do! set_wrap x (Wrapped (Some m) (Some a)) in
        let! ma := mmap_allocated m in
        let! aa := alloc_allocated a in
        let to_copy := Z.min ma aa in
        let! p := mmap_ptr m in
        let! q := alloc_const_ptr a in
        let! bs := copy_from q to_copy in
        do! copy_into p 0 bs in
        do! alloc_dtor a in
        set_wrap x (Wrapped (Some m) None)
    | None, None =>
        let! m := mmap_ctor page sz n in
        set_wrap x (Wrapped (Some m) None)
    end
  else
    match mbuffer_ v, abuffer_ v with
    | Some m, _ =>
        let! a := alloc_ctor sz n in
        do! set_wrap x (Wrapped (Some m) (Some a)) in
        let! ma := mmap_allocated m in
        let! aa := alloc_allocated a in
        let to_copy := Z.min ma aa in
        let! p := alloc_ptr a in
        let! q := mmap_const_ptr m in
        let! bs := copy_from q to_copy in
        do! copy_into p 0 bs in
        do! mmap_dtor m in
        set_wrap x (Wrapped None (Some a))
    | None, Some a => alloc_realloc sz a n
    | None, None =>
        let! a := alloc_ctor sz n in
        set_wrap x (Wrapped None (Some a))
    end.

(** memcpy(x.ptr() + off, d, |d|) *)
Definition wrapped_write (x off : Z) (d : list Z) : prog world unit :=
  let! p := wrapped_ptr x in
  copy_into p off d.

(** The bytes behind x.const_ptr(). *)
Definition wrapped_read (x : Z) : prog world (list Z) :=
  let! p := wrapped_const_ptr x in
  load_block p.

(** ** The abstract view *)

(** The buffer object a wrapped_buffer holds. *)
Definition held (v : wrapped) : option Z :=
  match mbuffer_ v with Some m => Some m | None => abuffer_ v end.

(** Its bytes; none when it holds nothing. *)
Definition wbytes (w : world) (v : wrapped) : list Z :=
  match held v with Some o => default [] (content w o) | None => [] end.

(** The abstract state: every live wrapped_buffer with its bytes. *)
Definition views (w : world) : gmap Z (list Z) := wbytes w <$> wraps w.

Record WWF (w : world) : Prop := {
  wwf_heap : WF w;
  (** a wrapped_buffer holds at most one object, which is live and not null *)
  wwf_held : forall x v, wraps w !! x = Some v ->
    (mbuffer_ v = None \/ abuffer_ v = None) /\
    (forall o, held v = Some o -> is_Some (content w o));
  (** no object is held twice *)
  wwf_unique : forall x y vx vy o, wraps w !! x = Some vx -> wraps w !! y = Some vy ->
    held vx = Some o -> held vy = Some o -> x = y;
  (** and none is lost *)
  wwf_all : forall o, is_Some (objs w !! o) ->
    exists x v, wraps w !! x = Some v /\ held v = Some o;
  wwf_fresh : forall a, next w <= a -> wraps w !! a = None
}.

(** ** Re-establishing the invariant after an operation on one buffer *)

(** The object buffer [x] holds before the operation. *)
Definition held_at (w : world) (x : Z) : option Z :=
  match wraps w !! x with Some v => held v | None => None end.

(** Only the objects [ho] (held before) and [hn] (held after) were touched. *)
Record touched (w w' : world) (ho hn : option Z) : Prop := {
  t_others : forall q, ho <> Some q -> hn <> Some q ->
    objs w' !! q = objs w !! q /\ content w' q = content w q;
  t_gone : forall q, ho = Some q -> hn <> Some q -> objs w' !! q = None;
  t_new : forall q, hn = Some q -> ho <> Some q -> objs w !! q = None;
  t_next : next w <= next w'
}.

Lemma content_obj_some w o : is_Some (content w o) -> is_Some (objs w !! o).
Proof. unfold content. destruct (objs w !! o); [done|]. intros [? [=]]. Qed.

(** Another live buffer's object is not among the touched ones. *)
Lemma other_held w w' x y vy o hn :
  WWF w -> wraps w !! y = Some vy -> y <> x -> held vy = Some o ->
  touched w w' (held_at w x) hn ->
  objs w' !! o = objs w !! o /\ content w' o = content w o.
Proof.
  intros HW Hy Hne Hho HT.
  assert (is_Some (content w o)) as Hco by (by apply (wwf_held w HW y vy)).
  assert (held_at w x <> Some o) as Hx.
  { unfold held_at. destruct (wraps w !! x) as [vx|] eqn:Hx; [|done]. intros Hx'.
    by apply Hne, (wwf_unique w HW y x vy vx o). }
  apply (t_others _ _ _ _ HT); [done|]. intros Hn.
  pose proof (t_new _ _ _ _ HT o Hn Hx). apply content_obj_some in Hco as [? ?]. congruence.
Qed.

Lemma wbytes_other w w' x y vy hn :
  WWF w -> wraps w !! y = Some vy -> y <> x -> touched w w' (held_at w x) hn ->
  wbytes w' vy = wbytes w vy.
Proof.
  intros HW Hy Hne HT. unfold wbytes. destruct (held vy) as [o|] eqn:Ho; [|done].
  by destruct (other_held w w' x y vy o hn HW Hy Hne Ho HT) as [_ ->].
Qed.

Lemma wwf_insert w w' x v' bs :
  WWF w -> WF w' -> wraps w' = <[x := v']> (wraps w) -> x < next w' ->
  (mbuffer_ v' = None \/ abuffer_ v' = None) ->
  (held v' = None -> bs = []) -> (forall o, held v' = Some o -> content w' o = Some bs) ->
  touched w w' (held_at w x) (held v') ->
  WWF w' /\ views w' = <[x := bs]> (views w).
Proof.
  intros HW HW' Hwr Hx Hone Hnil Hsome HT. split.
  - split; [done| | | |].
    + intros y vy. rewrite Hwr, lookup_insert_Some. intros [[<- <-]|[Hne Hy]].
      * split; [done|]. intros o Ho. rewrite (Hsome o Ho). eauto.
      * destruct (wwf_held w HW y vy Hy) as [? Hc]. split; [done|]. intros o Ho.
        destruct (other_held w w' x y vy o _ HW Hy (not_eq_sym Hne) Ho HT) as [_ ->]. auto.
    + intros y z vy vz o. rewrite Hwr, !lookup_insert_Some.
      assert (forall y vy, wraps w !! y = Some vy -> x <> y -> held vy = Some o ->
                held v' <> Some o) as Hdis.
      { intros y' vy' Hy' Hne' Hho Hn.
        destruct (other_held w w' x y' vy' o _ HW Hy' (not_eq_sym Hne') Hho HT) as [Ho1 Ho2].
        destruct (wwf_held w HW y' vy' Hy') as [_ Hc]. specialize (Hc o Hho).
        destruct (decide (held_at w x = Some o)) as [E|E].
        - unfold held_at in E. destruct (wraps w !! x) as [vx|] eqn:Ex; [|done].
          by apply Hne', (wwf_unique w HW x y' vx vy' o).
        - pose proof (t_new _ _ _ _ HT o Hn E). apply content_obj_some in Hc as [? ?]. congruence. }
      intros [[<- <-]|[Hny Hy]] [[<- <-]|[Hnz Hz]] Hoy Hoz; [done| | |].
      * by destruct (Hdis z vz Hz Hnz Hoz).
      * by destruct (Hdis y vy Hy Hny Hoy).
      * by apply (wwf_unique w HW y z vy vz o).
    + intros o Ho. destruct (decide (held v' = Some o)) as [E|E].
      { exists x, v'. by rewrite Hwr, lookup_insert_eq. }
      destruct (decide (held_at w x = Some o)) as [E'|E'].
      { rewrite (t_gone _ _ _ _ HT o E' E) in Ho. by destruct Ho. }
      destruct (t_others _ _ _ _ HT o E' E) as [Eo _]. rewrite Eo in Ho.
      destruct (wwf_all w HW o Ho) as (y&vy&Hy&Hh). exists y, vy. split; [|done].
      rewrite Hwr, lookup_insert_ne; [done|]. intros <-. apply E'. unfold held_at. by rewrite Hy.
    + intros a Ha. pose proof (t_next _ _ _ _ HT). rewrite Hwr, lookup_insert_ne by lia.
      apply (wwf_fresh w HW). lia.
  - unfold views. rewrite Hwr, fmap_insert.
    assert (wbytes w' v' = bs) as ->.
    { unfold wbytes. destruct (held v') as [o|]; [by rewrite (Hsome o)|]. by rewrite Hnil. }
    apply map_eq. intros y. destruct (decide (x = y)) as [<-|Hne]; [by rewrite !lookup_insert_eq|].
    rewrite !lookup_insert_ne, !lookup_fmap by done.
    destruct (wraps w !! y) as [vy|] eqn:Hy; [|done]. simpl. f_equal.
    by apply (wbytes_other w w' x y vy (held v')).
Qed.

Lemma wwf_delete w w' x :
  WWF w -> WF w' -> wraps w' = delete x (wraps w) ->
  touched w w' (held_at w x) None ->
  WWF w' /\ views w' = delete x (views w).
Proof.
  intros HW HW' Hwr HT. split.
  - split; [done| | | |].
    + intros y vy. rewrite Hwr, lookup_delete_Some. intros [Hne Hy].
      destruct (wwf_held w HW y vy Hy) as [? Hc]. split; [done|]. intros o Ho.
      destruct (other_held w w' x y vy o _ HW Hy (not_eq_sym Hne) Ho HT) as [_ ->]. auto.
    + intros y z vy vz o. rewrite Hwr, !lookup_delete_Some. intros [_ Hy] [_ Hz].
      by apply (wwf_unique w HW).
    + intros o Ho. destruct (decide (held_at w x = Some o)) as [E'|E'].
      { rewrite (t_gone _ _ _ _ HT o E') in Ho by done. by destruct Ho. }
      destruct (t_others _ _ _ _ HT o E') as [Eo _]; [done|]. rewrite Eo in Ho.
      destruct (wwf_all w HW o Ho) as (y&vy&Hy&Hh). exists y, vy. split; [|done].
      rewrite Hwr, lookup_delete_ne; [done|]. intros <-. apply E'. unfold held_at. by rewrite Hy.
    + intros a Ha. pose proof (t_next _ _ _ _ HT). rewrite Hwr, lookup_delete_None. right.
      apply (wwf_fresh w HW). lia.
  - unfold views. rewrite Hwr, fmap_delete. apply map_eq. intros y.
    destruct (decide (x = y)) as [<-|Hne]; [by rewrite !lookup_delete_eq|].
    rewrite !lookup_delete_ne, !lookup_fmap by done.
    destruct (wraps w !! y) as [vy|] eqn:Hy; [|done]. simpl. f_equal.
    by apply (wbytes_other w w' x y vy None).
Qed.

(** The heap invariant does not look at the wrapped buffers. *)
Lemma wf_wraps w m n : WF w -> next w <= n -> WF (with_next n (with_wraps m w)).
Proof.
  intros HW Hn. destruct HW as [H1 H2 H3 H4 H5]. split; simpl; auto.
  intros a Ha. apply H5. lia.
Qed.

(** ** Counting: a block has no more sharers than there are buffers *)

Lemma size_list_to_set_le (l : list Z) : (size (list_to_set l : gset Z) <= length l)%nat.
Proof.
  induction l as [|x l IH]; [done|]. simpl. rewrite size_union_alt, size_singleton.
  assert (size ((list_to_set l : gset Z) ∖ {[x]}) <= size (list_to_set l : gset Z))%nat.
  { apply subseteq_size, subseteq_difference_l. done. }
  lia.
Qed.

Lemma objs_le_wraps w : WWF w -> (size (objs w) <= size (wraps w))%nat.
Proof.
  intros HW.
  set (os := omap (fun kv : Z * wrapped => held kv.2) (map_to_list (wraps w))).
  assert (dom (objs w) ⊆ (list_to_set os : gset Z)) as Hsub.
  { intros o Ho. apply elem_of_dom in Ho. destruct (wwf_all w HW o Ho) as (x&v&Hx&Hh).
    apply elem_of_list_to_set. unfold os. apply list_elem_of_omap.
    exists (x, v). split; [by apply elem_of_map_to_list|done]. }
  apply subseteq_size in Hsub. rewrite size_dom in Hsub.
  etransitivity; [exact Hsub|]. etransitivity; [apply size_list_to_set_le|].
  unfold os. rewrite <- length_map_to_list. clear. generalize (map_to_list (wraps w)).
  intros l. induction l as [|[x v] l IH]; [done|].
  unfold omap in *. cbn [list_omap snd length]. destruct (held v); cbn [length]; lia.
Qed.

Lemma refs_le_wraps w r : WWF w -> refs (objs w) r <= Z.of_nat (size (wraps w)).
Proof.
  intros HW. pose proof (objs_le_wraps w HW). unfold refs.
  pose proof (map_size_filter (fun kv => refcount_ kv.2 = Some r) (objs w)). lia.
Qed.

(** ** The operations refine the abstract map *)

(** How the spec reserves memory: [n] bytes, whole pages above the threshold. *)
Definition wcap (page n : Z) : Z :=
  if MMAP_THRESHOLD <? n then round_to_page page n else n.

(** A new object held by a new buffer. *)
Lemma new_holder w (c : prog world Z) (mk : Z -> wrapped) bs :
  WWF w ->
  (exists o w1, c w = Ret o w1 /\ WF w1 /\ frame o w w1 /\ objs w !! o = None /\
                content w1 o = Some bs) ->
  (forall o, held (mk o) = Some o /\ (mbuffer_ (mk o) = None \/ abuffer_ (mk o) = None)) ->
  exists x w', (let! o := c in new_wrap (mk o)) w = Ret x w' /\ WWF w' /\ limit w' = limit w /\
               wraps w !! x = None /\ views w' = <[x := bs]> (views w).
Proof.
  intros HW (o&w1&Hc&HW1&(Hl&Hwr&Hn&Hf)&Ho&Hco) Hmk. destruct (Hmk o) as [Hh Hone].
  set (w2 := with_next (next w1 + 1) (with_wraps (<[next w1 := mk o]> (wraps w1)) w1)).
  assert (wraps w !! next w1 = None) as Hfresh by (apply (wwf_fresh w HW); done).
  destruct (wwf_insert w w2 (next w1) (mk o) bs) as [HW2 Hv]; [done| | | |done| | | |].
  - apply wf_wraps; [done|lia].
  - simpl. by rewrite Hwr.
  - simpl. lia.
  - rewrite Hh. done.
  - rewrite Hh. intros ? [= <-]. done.
  - rewrite Hh. unfold held_at. rewrite Hfresh. split; simpl; [|done|congruence|lia].
    intros q _ Hq. apply Hf. congruence.
  - exists (next w1), w2. split_and!; auto. by run_step Hc.
Qed.

(** An operation on the object [x] holds, which keeps holding it. *)
Lemma same_holder w w' x v o bs :
  WWF w -> wraps w !! x = Some v -> held v = Some o -> WF w' -> frame o w w' ->
  content w' o = Some bs -> WWF w' /\ views w' = <[x := bs]> (views w).
Proof.
  intros HW Hx Hh HW' (Hl&Hwr&Hn&Hf) Hc.
  assert (x < next w) as Hxn.
  { destruct (decide (x < next w)); [done|]. rewrite (wwf_fresh w HW x) in Hx by lia. done. }
  apply (wwf_insert w w' x v bs); auto.
  - by rewrite Hwr, insert_id.
  - lia.
  - by apply (wwf_held w HW x).
  - congruence.
  - intros ? [= <-]%(eq_trans (eq_sym Hh)). done.
  - unfold held_at. rewrite Hx, Hh. split; [|congruence|congruence|done].
    intros q Hq _. apply Hf. congruence.
Qed.

Section Refinement.
Context (page : Z) (Hpage : 0 < page <= 2 ^ 62).
Let A := alloc_cow.
Let M := mmap_cow page Hpage.

Lemma wrapped_ctor_spec w n :
  WWF w -> 0 < n < 2 ^ 63 -> wcap page n <= limit w ->
  exists x w', wrapped_ctor page 1 n w = Ret x w' /\ WWF w' /\ limit w' = limit w /\
               wraps w !! x = None /\ views w' = <[x := zrep (wcap page n) 0]> (views w).
Proof.
  intros HW Hn Hl. unfold wrapped_ctor. rewrite (proj2 (Z.eqb_neq n 0)) by lia.
  rewrite Z.mul_1_r, u64_small by lia. unfold wcap in *. pose proof (wwf_heap w HW).
  destruct (Z.ltb_spec MMAP_THRESHOLD n).
  - apply (new_holder w (mmap_ctor page 1 n) (fun m => Wrapped (Some m) None)); [done| |auto].
    by apply (law_ctor (CowClass := M)).
  - apply (new_holder w (alloc_ctor 1 n) (fun a => Wrapped None (Some a))); [done| |auto].
    by apply (law_ctor (CowClass := A)).
Qed.

Lemma wrapped_copy_spec w y v :
  WWF w -> wraps w !! y = Some v -> Z.of_nat (size (wraps w)) + 1 < 2 ^ 64 ->
  exists x w', wrapped_copy y w = Ret x w' /\ WWF w' /\ limit w' = limit w /\
               wraps w !! x = None /\ views w' = <[x := wbytes w v]> (views w).
Proof.
  intros HW Hy Hsz. unfold wrapped_copy. erewrite bind_ret by (unfold get_wrap; by rewrite Hy).
  destruct (wwf_held w HW y v Hy) as [Hone Hlive]. pose proof (wwf_heap w HW) as HF.
  unfold wbytes, held in *. destruct v as [[m|] [a|]]; simpl in *; [by destruct Hone| | |].
  - destruct (Hlive m eq_refl) as [bs Hbs]. destruct (content_obj_some w m) as [c Hc]; [eauto|].
    apply (new_holder w (mmap_copy m) (fun m => Wrapped (Some m) None)); [done| |auto].
    destruct (law_copy (CowClass := M) w m c HF Hc) as (o&w'&?&?&?&?&_&E).
    { pose proof (refs_le_wraps w (default 0 (refcount_ c)) HW). lia. }
    exists o, w'. rewrite E, Hbs. auto.
  - destruct (Hlive a eq_refl) as [bs Hbs]. destruct (content_obj_some w a) as [c Hc]; [eauto|].
    apply (new_holder w (alloc_copy a) (fun a => Wrapped None (Some a))); [done| |auto].
    destruct (law_copy (CowClass := A) w a c HF Hc) as (o&w'&?&?&?&?&_&E).
    { pose proof (refs_le_wraps w (default 0 (refcount_ c)) HW). lia. }
    exists o, w'. rewrite E, Hbs. auto.
  - exists (next w), (with_next (next w + 1) (with_wraps (<[next w := Wrapped None None]> (wraps w)) w)).
    assert (wraps w !! next w = None) as Hf by (apply (wwf_fresh w HW); lia).
    destruct (wwf_insert w (with_next (next w + 1)
      (with_wraps (<[next w := Wrapped None None]> (wraps w)) w)) (next w) (Wrapped None None) [])
      as [? ?]; simpl; auto.
    + by apply wf_wraps; [|lia].
    + lia.
    + done.
    + unfold held_at. rewrite Hf. split; simpl; [auto|done|done|lia].
Qed.

Lemma wrapped_dtor_spec w x v :
  WWF w -> wraps w !! x = Some v ->
  exists w', wrapped_dtor x w = Ret tt w' /\ WWF w' /\ limit w' = limit w /\
             views w' = delete x (views w).
Proof.
  intros HW Hx. unfold wrapped_dtor. erewrite bind_ret by (unfold get_wrap; by rewrite Hx).
  destruct (wwf_held w HW x v Hx) as [Hone Hlive]. pose proof (wwf_heap w HW) as HF.
  assert (forall o w1, held v = Some o -> WF w1 -> frame o w w1 -> objs w1 !! o = None ->
    WWF (with_wraps (delete x (wraps w1)) w1) /\
    views (with_wraps (delete x (wraps w1)) w1) = delete x (views w)) as Hfin.
  { intros o w1 Hh HW1 (Hl&Hwr&Hn&Hf) Ho. apply wwf_delete; auto.
    - by apply (wf_wraps w1 _ (next w1)).
    - simpl. by rewrite Hwr.
    - unfold held_at. rewrite Hx, Hh. split; simpl; [|congruence|done|done].
      intros q Hq _. apply Hf. congruence. }
  unfold held in *. destruct v as [[m|] [a|]]; simpl in *; [by destruct Hone| | |].
  - destruct (law_dtor (CowClass := M) w m HF) as (w1&Hd&HW1&Hf&Hg).
    { apply content_obj_some. auto. }
    destruct (Hfin m w1) as [? ?]; auto. exists (with_wraps (delete x (wraps w1)) w1).
    split_and!; auto; [|by destruct Hf]. run_step Hd. done.
  - destruct (law_dtor (CowClass := A) w a HF) as (w1&Hd&HW1&Hf&Hg).
    { apply content_obj_some. auto. }
    destruct (Hfin a w1) as [? ?]; auto. exists (with_wraps (delete x (wraps w1)) w1).
    split_and!; auto; [|by destruct Hf]. erewrite bind_ret by done. run_step Hd. done.
  - exists (with_wraps (delete x (wraps w)) w).
    destruct (wwf_delete w (with_wraps (delete x (wraps w)) w) x) as [? ?]; auto.
    + by apply (wf_wraps w _ (next w)).
    + unfold held_at. rewrite Hx. simpl. split; simpl; [auto|done|done|lia].
Qed.
(** ptr(): the sole owner's block, whatever was shared before. *)
Lemma wrapped_ptr_spec w x v o bs :
  WWF w -> wraps w !! x = Some v -> held v = Some o -> content w o = Some bs ->
  zlen bs <= limit w ->
  exists b w', wrapped_ptr x w = Ret b w' /\ WF w' /\ frame o w w' /\ exclusive w' o b bs.
Proof.
  intros HW Hx Hh Hc Hl. unfold wrapped_ptr.
  erewrite bind_ret by (unfold get_wrap; by rewrite Hx). pose proof (wwf_heap w HW).
  unfold held in Hh. destruct v as [[m|] [a|]]; simpl in *; simplify_eq.
  - by apply (law_ptr (CowClass := M)).
  - by apply (law_ptr (CowClass := M)).
  - by apply (law_ptr (CowClass := A)).
Qed.

Lemma wrapped_write_spec w x v o bs off d :
  WWF w -> wraps w !! x = Some v -> held v = Some o -> content w o = Some bs ->
  zlen bs <= limit w -> 0 <= off -> off + zlen d <= zlen bs ->
  exists w', wrapped_write x off d w = Ret tt w' /\ WWF w' /\ limit w' = limit w /\
             views w' = <[x := splice off d bs]> (views w).
Proof.
  intros HW Hx Hh Hc Hl Hoff Hd.
  destruct (wrapped_ptr_spec w x v o bs HW Hx Hh Hc Hl) as (b&w1&Hp&HW1&Hf1&Hx1).
  destruct (copy_into_exclusive w1 o b bs off d HW1 Hx1 Hoff Hd) as (w2&Hi&HW2&Hf2&Hx2).
  pose proof (frame_trans _ _ _ _ Hf1 Hf2) as Hf.
  destruct (same_holder w w2 x v o (splice off d bs)) as [? ?]; auto.
  { by apply exclusive_content in Hx2. }
  exists w2. split_and!; auto; [|by destruct Hf]. unfold wrapped_write. by run_step Hp.
Qed.

Lemma wrapped_read_spec w x v o bs :
  WWF w -> wraps w !! x = Some v -> held v = Some o -> content w o = Some bs ->
  wrapped_read x w = Ret bs w.
Proof.
  intros HW Hx Hh Hc. unfold wrapped_read, wrapped_const_ptr, bind, get_wrap. rewrite Hx.
  assert (exists b, alloc_const_ptr o w = Ret b w /\ blocks w !! b = Some bs) as (b&Hb&Hbs).
  { unfold content in Hc. unfold alloc_const_ptr, bind, get_obj.
    destruct (objs w !! o) as [c|]; [|done]. destruct (buffer_ c) as [b|]; [|done]. eauto. }
  unfold held in Hh. destruct v as [[m|] [a|]]; simpl in *; simplify_eq.
  all: first [rewrite Hb | change (mmap_const_ptr o) with (alloc_const_ptr o); rewrite Hb].
  all: unfold load_block; by rewrite Hbs.
Qed.

(** Moving the bytes to a buffer of the other kind: [d] was just constructed,
    [o] is the object held so far. *)
Lemma switch_tail capD (D : CowClass capD) capS (S : CowClass capS)
    w w1 x v o d bs cd (both fin : wrapped) :
  WWF w -> wraps w !! x = Some v -> held v = Some o -> content w o = Some bs ->
  WF w1 -> frame d w w1 -> objs w !! d = None -> content w1 d = Some (zrep cd 0) ->
  0 <= cd <= limit w -> held fin = Some d -> (mbuffer_ fin = None \/ abuffer_ fin = None) ->
  exists w', (let! p := c_ptr (CowClass := D) d in
              let! q := alloc_const_ptr o in
              let! bs := copy_from q (Z.min cd (zlen bs)) in
              do! copy_into p 0 bs in
              do! c_dtor (CowClass := S) o in
              set_wrap x fin) (with_wraps (<[x := both]> (wraps w1)) w1) = Ret tt w' /\
    WWF w' /\ limit w' = limit w /\ views w' = <[x := resize cd 0 bs]> (views w).
Proof.
  intros HW Hx Hh Hc HW1 (Hl1&Hwr1&Hn1&Hf1) Hd Hcd Hlim Hfin Hone.
  assert (o <> d) as Hod.
  { intros ->. destruct (content_obj_some w d) as [? ?]; [eauto|congruence]. }
  set (w1' := with_wraps (<[x := both]> (wraps w1)) w1).
  assert (WF w1') as HW1' by (by apply (wf_wraps w1 _ (next w1))).
  assert (zlen (zrep cd 0) = cd) as Hz by (rewrite zlen_zrep; lia).
  pose proof (zlen_nonneg bs).
  destruct (law_ptr (CowClass := D) w1' d (zrep cd 0) HW1' Hcd) as (p&w2&Hp&HW2&(Hl2&Hwr2&Hn2&Hf2)&Hx2).
  { simpl. lia. }
  set (m := Z.min cd (zlen bs)).
  destruct (copy_into_exclusive w2 d p (zrep cd 0) 0 (ztake m bs) HW2 Hx2)
    as (w3&Hi&HW3&(Hl3&Hwr3&Hn3&Hf3)&Hx3); [lia|rewrite zlen_ztake; lia|].
  assert (content w2 o = Some bs) as Hc2.
  { destruct (Hf2 o Hod) as [_ ->]. destruct (Hf1 o Hod) as [_ E]. by rewrite <- Hc, <- E. }
  assert (content w3 o = Some bs) as Hc3 by (destruct (Hf3 o Hod) as [_ ->]; done).
  destruct (law_dtor (CowClass := S) w3 o HW3) as (w4&Hdt&HW4&(Hl4&Hwr4&Hn4&Hf4)&Hg4).
  { apply content_obj_some. eauto. }
  assert (wraps w4 = <[x := both]> (wraps w)) as Hwr.
  { rewrite Hwr4, Hwr3, Hwr2. simpl. by rewrite Hwr1. }
  assert (x < next w) as Hxn.
  { destruct (decide (x < next w)); [done|]. rewrite (wwf_fresh w HW x) in Hx by lia. done. }
  simpl in Hl2, Hn2.
  destruct (wwf_insert w (with_wraps (<[x := fin]> (wraps w4)) w4) x fin (resize cd 0 bs))
    as [? ?]; auto.
  - by apply (wf_wraps w4 _ (next w4)).
  - simpl. by rewrite Hwr, insert_insert_eq.
  - simpl. lia.
  - congruence.
  - rewrite Hfin. intros ? [= <-].
    change (content w4 d = Some (resize cd 0 bs)).
    destruct (Hf4 d (not_eq_sym Hod)) as [_ ->]. rewrite (exclusive_content _ _ _ _ Hx3).
    f_equal. unfold m. by apply splice_resize; lia.
  - rewrite Hfin. unfold held_at. rewrite Hx, Hh. split; simpl; [|congruence|congruence|lia].
    intros q Hqo Hqd. assert (q <> o /\ q <> d) as [Eo Ed] by (split; congruence).
    destruct (Hf4 q Eo) as [-> E4]. destruct (Hf3 q Ed) as [-> E3].
    destruct (Hf2 q Ed) as [E2 E2']. destruct (Hf1 q Ed) as [E1 E1'].
    split; [rewrite E2; exact E1|]. change (content w4 q = content w q).
    rewrite E4, E3, E2'. exact E1'.
  - exists (with_wraps (<[x := fin]> (wraps w4)) w4). split_and!; auto; [|simpl; congruence].
    run_step Hp.
    assert (exists b, alloc_const_ptr o w2 = Ret b w2 /\ blocks w2 !! b = Some bs) as (b&Hb&Hbs).
    { unfold content in Hc2. unfold alloc_const_ptr, bind, get_obj.
      destruct (objs w2 !! o) as [c|]; [|done]. destruct (buffer_ c) as [b|]; [|done]. eauto. }
    run_step Hb. erewrite (bind_ret (copy_from b m) _ w2 (ztake m bs) w2).
    2: { unfold copy_from, bind, load_block. rewrite Hbs.
         by rewrite (proj2 (Z.leb_le m (zlen bs))) by lia. }
    run_step Hi. run_step Hdt. unfold set_wrap. by rewrite Hwr, lookup_insert_eq.
Qed.
Lemma allocated_spec w o bs :
  WF w -> content w o = Some bs -> alloc_allocated o w = Ret (zlen bs) w.
Proof.
  intros HW Hc. unfold content in Hc. destruct (objs w !! o) as [c|] eqn:Ho; [|done].
  destruct (buffer_ c) as [b|] eqn:Hb; [|done].
  destruct (obj_inv w HW o c b Ho Hb) as (?&bs'&?&->&Hbl&_).
  unfold alloc_allocated, bind, get_obj. rewrite Ho. simpl in *. by simplify_eq.
Qed.

(** A buffer that held nothing gets a new object. *)
Lemma null_holder w x v (c : prog world Z) (mk : Z -> wrapped) bs :
  WWF w -> wraps w !! x = Some v -> held v = None ->
  (exists o w1, c w = Ret o w1 /\ WF w1 /\ frame o w w1 /\ objs w !! o = None /\
                content w1 o = Some bs) ->
  (forall o, held (mk o) = Some o /\ (mbuffer_ (mk o) = None \/ abuffer_ (mk o) = None)) ->
  exists w', (let! o := c in set_wrap x (mk o)) w = Ret tt w' /\ WWF w' /\
             limit w' = limit w /\ views w' = <[x := bs]> (views w).
Proof.
  intros HW Hx Hh (o&w1&Hc&HW1&(Hl&Hwr&Hn&Hf)&Ho&Hco) Hmk. destruct (Hmk o) as [Hho Hone].
  assert (x < next w) as Hxn.
  { destruct (decide (x < next w)); [done|]. rewrite (wwf_fresh w HW x) in Hx by lia. done. }
  destruct (wwf_insert w (with_wraps (<[x := mk o]> (wraps w1)) w1) x (mk o) bs) as [? ?]; auto.
  - by apply (wf_wraps w1 _ (next w1)).
  - simpl. by rewrite Hwr.
  - simpl. lia.
  - congruence.
  - rewrite Hho. intros ? [= <-]. done.
  - rewrite Hho. unfold held_at. rewrite Hx, Hh. split; simpl; [|done|congruence|lia].
    intros q _ Hq. apply Hf. congruence.
  - eexists. split_and!; eauto. run_step Hc. unfold set_wrap. by rewrite Hwr, Hx.
Qed.

Lemma wrapped_realloc_spec w x v n :
  WWF w -> wraps w !! x = Some v -> 0 < n < 2 ^ 63 -> wcap page n <= limit w ->
  exists w', wrapped_realloc page 1 x n w = Ret tt w' /\ WWF w' /\ limit w' = limit w /\
             views w' = <[x := resize (wcap page n) 0 (wbytes w v)]> (views w).
Proof.
  intros HW Hx Hn Hl. unfold wrapped_realloc. rewrite Z.mul_1_r, u64_small by lia.
  erewrite bind_ret by (unfold get_wrap; by rewrite Hx). unfold wcap in *.
  pose proof (wwf_heap w HW) as HF. destruct (wwf_held w HW x v Hx) as [Hone Hlive].
  unfold wbytes. destruct (held v) as [o|] eqn:Hh.
  - destruct (Hlive o eq_refl) as [bs Hbs]. rewrite Hbs. simpl default.
    destruct (content_obj_some w o) as [c Ho]; [eauto|].
    destruct (round_to_page_spec page n) as (Ha&Ha0&_); [lia|lia|].
    unfold held in Hh. destruct v as [[m|] [a|]]; simpl in *; simplify_eq; [by destruct Hone| |];
      destruct (Z.ltb_spec MMAP_THRESHOLD n).
    + destruct (law_realloc (CowClass := M) w o c HF Ho n Hn Hl) as (w'&Hr&HW'&Hf&Hc).
      rewrite Hbs in Hc. destruct (same_holder w w' x _ o _ HW Hx eq_refl HW' Hf Hc) as [? ?].
      exists w'. split_and!; auto. by destruct Hf.
    + destruct (law_ctor (CowClass := A) w n HF Hn Hl) as (d&w1&Hk&HW1&Hf&Hd&Hcd).
      assert (o <> d) as Hod by congruence. destruct Hf as (?&Hwr&?&Hf).
      run_step Hk. erewrite bind_ret by (unfold set_wrap; by rewrite Hwr, Hx).
      erewrite (bind_ret (mmap_allocated o)).
      2: { apply allocated_spec; [by apply (wf_wraps w1 _ (next w1))|].
           destruct (Hf o Hod) as [_ E]. by rewrite <- Hbs, <- E. }
      erewrite (bind_ret (alloc_allocated d)).
      2: { apply allocated_spec; [by apply (wf_wraps w1 _ (next w1))|exact Hcd]. }
      cbv zeta. rewrite zlen_zrep, Z.max_r, Z.min_comm by lia.
      rewrite <- Hwr. by eapply (switch_tail _ A _ M w w1 x _ o d bs n _ (Wrapped None (Some d)));
        eauto; [split_and!|lia].
    + destruct (law_ctor (CowClass := M) w n HF Hn Hl) as (d&w1&Hk&HW1&Hf&Hd&Hcd).
      assert (o <> d) as Hod by congruence. destruct Hf as (?&Hwr&?&Hf).
      run_step Hk. erewrite bind_ret by (unfold set_wrap; by rewrite Hwr, Hx).
      erewrite (bind_ret (mmap_allocated d)).
      2: { apply allocated_spec; [by apply (wf_wraps w1 _ (next w1))|exact Hcd]. }
      erewrite (bind_ret (alloc_allocated o)).
      2: { apply allocated_spec; [by apply (wf_wraps w1 _ (next w1))|].
           destruct (Hf o Hod) as [_ E]. by rewrite <- Hbs, <- E. }
      cbv zeta. rewrite zlen_zrep, Z.max_r by lia.
      rewrite <- Hwr. by eapply (switch_tail _ M _ A w w1 x _ o d bs (round_to_page page n) _ (Wrapped (Some d) None));
        eauto; [split_and!|lia].
    + destruct (law_realloc (CowClass := A) w o c HF Ho n Hn Hl) as (w'&Hr&HW'&Hf&Hc).
      rewrite Hbs in Hc. destruct (same_holder w w' x _ o _ HW Hx eq_refl HW' Hf Hc) as [? ?].
      exists w'. split_and!; auto. by destruct Hf.
  - rewrite resize_nil. pose proof Hh as Hh0. unfold held in Hh.
    destruct v as [[m|] [a|]]; simpl in *; try done. destruct (Z.ltb_spec MMAP_THRESHOLD n).
    + apply (null_holder w x _ (mmap_ctor page 1 n) (fun m => Wrapped (Some m) None)
        _ HW Hx Hh0); [|auto]. by apply (law_ctor (CowClass := M)).
    + apply (null_holder w x _ (alloc_ctor 1 n) (fun a => Wrapped None (Some a))
        _ HW Hx Hh0); [|auto]. by apply (law_ctor (CowClass := A)).
Qed.

(** x = y: a copy of y is swapped in, x's old bytes leave with it. *)
Lemma wrapped_assign_spec w x y vx vy :
  WWF w -> wraps w !! x = Some vx -> wraps w !! y = Some vy ->
  Z.of_nat (size (wraps w)) + 1 < 2 ^ 64 ->
  exists w', (let! c := wrapped_copy y in wrapped_assign x c) w = Ret tt w' /\ WWF w' /\
             limit w' = limit w /\ views w' = <[x := wbytes w vy]> (views w).
Proof.
  intros HW Hx Hy Hsz.
  destruct (wrapped_copy_spec w y vy HW Hy Hsz) as (c&w1&Hk&HW1&Hl1&Hc&Hv1).
  assert (x <> c) as Hxc by congruence.
  assert (is_Some (wraps w1 !! x) /\ is_Some (wraps w1 !! c)) as [[vx1 Hx1] [vc Hc1]].
  { split; apply (fmap_is_Some (wbytes w1)); rewrite <- lookup_fmap; fold (views w1); rewrite Hv1.
    - rewrite lookup_insert_ne by done. unfold views. rewrite lookup_fmap, Hx. eauto.
    - rewrite lookup_insert_eq. eauto. }
  set (w2 := with_wraps (<[c := vx1]> (<[x := vc]> (wraps w1))) w1).
  assert (forall z v, wraps w2 !! z = Some v ->
    exists z', wraps w1 !! z' = Some v /\ z' = (if decide (z = c) then x else if decide (z = x) then c else z)) as Hback.
  { intros z v. simpl. rewrite !lookup_insert_Some. intros [[<- <-]|[? [[<- <-]|[? ?]]]];
      eexists; (split; [eassumption|]); repeat case_decide; congruence. }
  assert (WWF w2) as HW2.
  { destruct HW1 as [Ha Hb Hcu Hd He]. split.
    - by apply (wf_wraps w1 _ (next w1)).
    - intros z v (z'&Hz&_)%Hback. by apply Hb in Hz.
    - intros z1 z2 v1 v2 o (z1'&H1&E1)%Hback (z2'&H2&E2)%Hback Ho1 Ho2.
      assert (z1' = z2') as -> by (by eapply Hcu). repeat case_decide; congruence.
    - intros o Ho. destruct (Hd o Ho) as (z&v&Hz&Hh).
      exists (if decide (z = c) then x else if decide (z = x) then c else z), v. split; [|done].
      simpl. repeat case_decide; subst.
      + rewrite lookup_insert_ne, lookup_insert_eq by done. congruence.
      + rewrite lookup_insert_eq. congruence.
      + by rewrite !lookup_insert_ne.
    - intros a Ha'. simpl. pose proof (He a Ha').
      rewrite !lookup_insert_ne by congruence. done. }
  destruct (wrapped_dtor_spec w2 c vx1 HW2) as (w3&Hd&HW3&Hl3&Hv3).
  { simpl. by rewrite lookup_insert_eq. }
  exists w3. split_and!; [|done|by rewrite Hl3|].
  - run_step Hk. unfold wrapped_assign, bind, get_wrap, set_wrap. rewrite Hx1, Hc1, Hx1. simpl.
    rewrite lookup_insert_ne, Hc1 by done. exact Hd.
  - assert (wbytes w1 vc = wbytes w vy) as Hbc.
    { assert (views w1 !! c = Some (wbytes w1 vc)) as E by (unfold views; by rewrite lookup_fmap, Hc1).
      rewrite Hv1, lookup_insert_eq in E. congruence. }
    rewrite Hv3. unfold views at 1. simpl. rewrite !fmap_insert.
    change (wbytes w2) with (wbytes w1). rewrite Hbc, delete_insert_eq.
    fold (views w1). rewrite Hv1, insert_insert_ne by congruence. rewrite delete_insert_id; [done|].
    rewrite lookup_insert_ne by congruence. unfold views. by rewrite lookup_fmap, Hc.
Qed.
End Refinement.

(** ** Refinement: wrapped_buffers are independent byte strings *)

(** What a client does with wrapped_buffers. *)
Inductive wop :=
  | New (n : Z)                         (* wrapped_buffer<uint8_t>(n) *)
  | CopyOf (y : Z)                      (* wrapped_buffer<uint8_t>(y) *)
  | Assign (x y : Z)                    (* x = y *)
  | Realloc (x n : Z)                   (* x.realloc(n) *)
  | Write (x off : Z) (d : list Z)      (* memcpy(x.ptr() + off, d, |d|) *)
  | Destroy (x : Z).                    (* ~wrapped_buffer() *)

(** The operation on the heap. Constructors return the new buffer. *)
Definition wop_exec (page : Z) (op : wop) : prog world Z :=
  match op with
  | New n => wrapped_ctor page 1 n
  | CopyOf y => wrapped_copy y
  | Assign x y => do! (let! c := wrapped_copy y in wrapped_assign x c) in ret x
  | Realloc x n => do! wrapped_realloc page 1 x n in ret x
  | Write x off d => do! wrapped_write x off d in ret x
  | Destroy x => do! wrapped_dtor x in ret x
  end.

(** The operation on the abstract map, [i] being the buffer returned. *)
Definition wop_spec (page : Z) (op : wop) (i : Z) (m : gmap Z (list Z)) : gmap Z (list Z) :=
  match op with
  | New n => <[i := zrep (wcap page n) 0]> m
  | CopyOf y => <[i := default [] (m !! y)]> m
  | Assign x y => <[x := default [] (m !! y)]> m
  | Realloc x n => <[x := resize (wcap page n) 0 (default [] (m !! x))]> m
  | Write x off d => <[x := splice off d (default [] (m !! x))]> m
  | Destroy x => delete x m
  end.

(** Its precondition, on the abstract state: live operands, sizes the allocator
    can serve, writes inside the buffer. *)
Definition wop_ok (page lim : Z) (op : wop) (m : gmap Z (list Z)) : Prop :=
  match op with
  | New n => 0 < n < 2 ^ 63 /\ wcap page n <= lim
  | CopyOf y => is_Some (m !! y) /\ Z.of_nat (size m) + 1 < 2 ^ 64
  | Assign x y => is_Some (m !! x) /\ is_Some (m !! y) /\ Z.of_nat (size m) + 1 < 2 ^ 64
  | Realloc x n => is_Some (m !! x) /\ 0 < n < 2 ^ 63 /\ wcap page n <= lim
  | Write x off d => exists bs, m !! x = Some bs /\ bs <> [] /\ zlen bs <= lim /\
                                0 <= off /\ off + zlen d <= zlen bs
  | Destroy x => is_Some (m !! x)
  end.

(** Whether the operation makes a buffer. *)
Definition wop_creates (op : wop) : bool :=
  match op with New _ | CopyOf _ => true | _ => false end.

Lemma views_lookup w x bs :
  views w !! x = Some bs -> exists v, wraps w !! x = Some v /\ bs = wbytes w v.
Proof. unfold views. rewrite lookup_fmap. destruct (wraps w !! x); naive_solver. Qed.

Lemma wbytes_held w x v :
  WWF w -> wraps w !! x = Some v -> wbytes w v <> [] ->
  exists o, held v = Some o /\ content w o = Some (wbytes w v).
Proof.
  intros HW Hx Hne. destruct (wwf_held w HW x v Hx) as [_ Hl]. unfold wbytes in *.
  destruct (held v) as [o|]; [|done]. exists o. split; [done|].
  by destruct (Hl o eq_refl) as [bs ->].
Qed.

(** One operation. *)
Lemma wop_run page op w :
  0 < page <= 2 ^ 62 -> WWF w -> wop_ok page (limit w) op (views w) ->
  exists i w', wop_exec page op w = Ret i w' /\ WWF w' /\ limit w' = limit w /\
    views w' = wop_spec page op i (views w) /\
    (wop_creates op = true -> views w !! i = None).
Proof.
  intros Hp HW Hok. assert (size (views w) = size (wraps w)) as Hsz by apply map_size_fmap.
  assert (forall i, wraps w !! i = None -> views w !! i = None) as Hnone.
  { intros i Hi. unfold views. by rewrite lookup_fmap, Hi. }
  destruct op as [n|y|x y|x n|x off d|x]; simpl in *.
  - destruct Hok as [Hn Hl]. destruct (wrapped_ctor_spec page Hp w n HW Hn Hl) as (i&w'&?&?&?&?&?).
    exists i, w'. split_and!; auto.
  - destruct Hok as [[bs Hy] Hs]. rewrite Hsz in Hs. apply views_lookup in Hy as Hv.
    destruct Hv as (v&Hv&->). destruct (wrapped_copy_spec page Hp w y v HW Hv Hs) as (i&w'&?&?&?&?&?).
    exists i, w'. rewrite Hy. split_and!; auto.
  - destruct Hok as ([bx Hx]&[bs Hy]&Hs). rewrite Hsz in Hs.
    apply views_lookup in Hx as (vx&Hvx&->). apply views_lookup in Hy as Hv. destruct Hv as (vy&Hvy&->).
    destruct (wrapped_assign_spec page Hp w x y vx vy HW Hvx Hvy Hs) as (w'&Hr&?&?&?).
    exists x, w'. rewrite Hy. split_and!; [by run_step Hr|done|done|done|done].
  - destruct Hok as ([bs Hx]&Hn&Hl). apply views_lookup in Hx as Hv. destruct Hv as (v&Hv&->).
    destruct (wrapped_realloc_spec page Hp w x v n HW Hv Hn Hl) as (w'&Hr&?&?&?).
    exists x, w'. rewrite Hx. split_and!; [by run_step Hr|done|done|done|done].
  - destruct Hok as (bs&Hx&Hne&Hl&Hoff&Hd). apply views_lookup in Hx as Hv. destruct Hv as (v&Hv&->).
    destruct (wbytes_held w x v HW Hv Hne) as (o&Hh&Hc).
    destruct (wrapped_write_spec page Hp w x v o _ off d HW Hv Hh Hc Hl Hoff Hd) as (w'&Hr&?&?&?).
    exists x, w'. rewrite Hx. split_and!; [by run_step Hr|done|done|done|done].
  - destruct Hok as [bs Hx]. apply views_lookup in Hx as (v&Hv&->).
    destruct (wrapped_dtor_spec page Hp w x v HW Hv) as (w'&Hr&?&?&?).
    exists x, w'. split_and!; [by run_step Hr|done|done|done|done].
Qed.

(** C2. Refinement of the copy-on-write buffers: every operation a client can
    make on live wrapped_buffer<uint8_t>s returns, keeps the heap invariant
    (counters equal sharers, no object held twice or lost), and changes the map
    from buffers to bytes exactly as the abstract operation does: an operation
    on one buffer is never visible through another that shares its memory. *)
Theorem wrapped_buffer_refines page op w :
  0 < page <= 2 ^ 62 -> WWF w -> wop_ok page (limit w) op (views w) ->
  exists i w', wop_exec page op w = Ret i w' /\ WWF w' /\ limit w' = limit w /\
    views w' = wop_spec page op i (views w) /\
    (wop_creates op = true -> views w !! i = None).
Proof. apply wop_run. Qed.

Lemma world0_WWF n lim garb : WWF (world0 n lim garb).
Proof. split; [split|..]; intros; simpl in *; simplify_map_eq; try done; naive_solver. Qed.

Lemma wrapped_buffer_refines_witness :
  exists i w', wop_exec 4096 (New 3) (world0 1 100 165) = Ret i w' /\ WWF w' /\
    views w' = {[ i := [0; 0; 0] ]}.
Proof.
  destruct (wrapped_buffer_refines 4096 (New 3) (world0 1 100 165)) as (i&w'&He&HW&_&Hv&_).
  - lia.
  - apply world0_WWF.
  - simpl. unfold wcap, MMAP_THRESHOLD. simpl. lia.
  - exists i, w'. split_and!; [done|done|]. rewrite Hv. reflexivity.
Defined.

(** Create a buffer, share it, write through the copy, read the original, and
    destroy both. *)
Definition sharing_run : prog world (list Z) :=
  let! x := wop_exec 4096 (New 3) in
  let! y := wop_exec 4096 (CopyOf x) in
  do! wop_exec 4096 (Write y 1 [7]) in
  let! bs := wrapped_read x in
  do! wop_exec 4096 (Destroy x) in
  do! wop_exec 4096 (Destroy y) in
  ret bs.

Example sharing_run_isolates :
  exists n, sharing_run (world0 1 100 165) = Ret [0; 0; 0] (world0 n 100 165).
Proof. eexists. vm_compute. reflexivity. Qed.

(** A sequence of operations, each within its precondition. *)
Fixpoint wops_exec (page : Z) (ops : list wop) : prog world unit :=
  match ops with
  | [] => ret tt
  | op :: ops => let! _ := wop_exec page op in wops_exec page ops
  end.
Fixpoint wops_ok (page : Z) (ops : list wop) (w : world) : Prop :=
  match ops with
  | [] => True
  | op :: ops => wop_ok page (limit w) op (views w) /\ forall i w', wop_exec page op w = Ret i w' -> wops_ok page ops w'
  end.

(** The destructors of the buffers [xs], one after the other. *)
Fixpoint destroy_all (xs : list Z) : prog world unit :=
  match xs with
  | [] => ret tt
  | x :: xs => do! wrapped_dtor x in destroy_all xs
  end.

Lemma wops_run page ops : forall w,
  0 < page <= 2 ^ 62 -> WWF w -> wops_ok page ops w -> exists w', wops_exec page ops w = Ret tt w' /\ WWF w'.
Proof.
  induction ops as [|op ops IH]; intros w Hp HW; simpl; [intros _; by exists w|]. intros [Hok Hops].
  destruct (wop_run page op w Hp HW Hok) as (i&w1&Hr&HW1&_). run_step Hr. apply IH; [done..|]. by eapply Hops.
Qed.

Lemma destroy_all_run page xs : forall w,
  0 < page <= 2 ^ 62 -> WWF w -> NoDup xs -> (forall x, x ∈ xs <-> is_Some (wraps w !! x)) ->
  exists w', destroy_all xs w = Ret tt w' /\ WWF w' /\ wraps w' = ∅.
Proof.
  induction xs as [|x xs IH]; intros w Hp HW Hnd Hxs; simpl.
  - exists w. split_and!; try done. apply map_eq. intros y. rewrite lookup_empty. apply eq_None_not_Some. intros Hy%Hxs. by apply elem_of_nil in Hy.
  - apply NoDup_cons in Hnd as [Hx Hnd]. destruct (proj1 (Hxs x)) as [v Hv]; [left|].
    destruct (wrapped_dtor_spec page Hp w x v HW Hv) as (w1&Hr&HW1&_&Hvw). run_step Hr. apply IH; [done..|]. intros y.
    assert (is_Some (wraps w1 !! y) <-> is_Some (views w1 !! y)) as -> by (unfold views; by rewrite lookup_fmap, fmap_is_Some).
    rewrite Hvw. destruct (decide (x = y)) as [<-|Hne]; [rewrite lookup_delete_eq; split; [done|by intros []]|].
    rewrite lookup_delete_ne by done. unfold views. rewrite lookup_fmap, fmap_is_Some, <- Hxs, elem_of_cons. naive_solver.
Qed.

(** Objects, counters and blocks are there for the buffers only. *)
Lemma empty_heap w : WWF w -> wraps w = ∅ -> blocks w = ∅ /\ counts w = ∅ /\ objs w = ∅.
Proof.
  intros HW Hwr. assert (objs w = ∅) as Ho.
  { apply map_eq. intros o. rewrite lookup_empty. destruct (objs w !! o) eqn:E; [|done].
    destruct (wwf_all w HW o ltac:(eauto)) as (x&v&Hx&_). rewrite Hwr in Hx. done. }
  pose proof (wwf_heap w HW) as HF. split_and!; [| |done].
  - apply map_eq. intros b. rewrite lookup_empty. destruct (blocks w !! b) eqn:E; [|done].
    destruct (wf_owned w HF b ltac:(eauto)) as (o&c&Hc&_). rewrite Ho in Hc. done.
  - apply map_eq. intros r. rewrite lookup_empty. destruct (counts w !! r) as [v|] eqn:E; [|done].
    destruct (wf_count w HF r v E) as [Hv Hpos]. rewrite Ho, refs_empty in Hv. lia.
Qed.

(** C17. Nothing leaks and nothing is freed twice: after any sequence of
    operations on wrapped_buffers (constructors, copies, assignments, realloc,
    writes, destructors) from an empty heap, within their preconditions, the
    destructors of the buffers that are left, in any order, all return, and then
    no block, counter or buffer object is left in the heap. *)
Theorem no_leak page ops n lim garb :
  0 < page <= 2 ^ 62 -> wops_ok page ops (world0 n lim garb) ->
  exists w, wops_exec page ops (world0 n lim garb) = Ret tt w /\
    forall xs, NoDup xs -> (forall x, x ∈ xs <-> is_Some (wraps w !! x)) ->
      exists w', destroy_all xs w = Ret tt w' /\ wraps w' = ∅ /\ blocks w' = ∅ /\ counts w' = ∅ /\ objs w' = ∅.
Proof.
  intros Hp Hok. destruct (wops_run page ops _ Hp (world0_WWF n lim garb) Hok) as (w&Hr&HW). exists w. split; [done|].
  intros xs Hnd Hxs. destruct (destroy_all_run page xs w Hp HW Hnd Hxs) as (w'&Hd&HW'&He). exists w'. split; [done|]. split; [done|].
  by apply empty_heap.
Qed.

(** A buffer that is shared, the copy written to, another one assigned to it. *)
Definition demo_ops : list wop := [New 3; CopyOf 3; Write 5 1 [7]; New 30; Assign 3 11].

Lemma demo_ops_ok : wops_ok 4096 demo_ops (world0 0 1000 165).
Proof.
  split; [vm_compute; repeat split; congruence|]. intros i w Hr. vm_compute in Hr. injection Hr as <- <-.
  split; [split; [eexists; vm_compute; reflexivity|vm_compute; congruence]|]. intros i w Hr. vm_compute in Hr. injection Hr as <- <-.
  split; [eexists; split_and!; [vm_compute; reflexivity|discriminate|vm_compute; congruence..]|]. intros i w Hr. vm_compute in Hr. injection Hr as <- <-.
  split; [vm_compute; repeat split; congruence|]. intros i w Hr. vm_compute in Hr. injection Hr as <- <-.
  split; [|done]. split_and!; [eexists; vm_compute; reflexivity..|vm_compute; congruence].
Qed.

Lemma no_leak_witness :
  exists w, wops_exec 4096 demo_ops (world0 0 1000 165) = Ret tt w /\
    exists w', destroy_all [11; 3; 5] w = Ret tt w' /\ blocks w' = ∅ /\ counts w' = ∅ /\ objs w' = ∅.
Proof.
  destruct (no_leak 4096 demo_ops 0 1000 165) as (w&Hr&Hd); [lia|exact demo_ops_ok|].
  exists w. split; [exact Hr|]. destruct (Hd [11; 3; 5]) as (w'&Hw&_&H1&H2&H3).
  - apply (bool_decide_unpack _). vm_compute. exact I.
  - clear Hd. vm_compute in Hr. injection Hr as <-. intros x. rewrite <- elem_of_dom.
    match goal with |- _ <-> x ∈ dom (wraps ?w) => assert (dom (wraps w) = {[11; 3; 5]}) as -> by (vm_compute; reflexivity) end. set_solver.
  - exists w'. split; [exact Hw|]. split; [exact H1|]. split; [exact H2|exact H3].
Defined.
