(* ===== verification/BufferIter.v ===== *)
(** * Iterators of the copy-on-write buffers

    struct iterator, begin, end, cbegin and cend of alloc_buffer.hpp,
    mmap_buffer.hpp and wrapped_buffer.hpp. The three structs have the same text
    over different owners: the operations are defined once over what they use of
    the owner ([owner_ops]), and the three structs are its instances. The class
    [Owner] is what the theorems need of an owner. *)

From S2P Require Import Prelude Bytes CowHeap AllocBuffer MmapBuffer WrappedBuffer.

(** ** Owners *)

(** What an iterator calls: operator bool, ptr() and allocated(). *)
Record owner_ops := OwnerOps {
  op_bool : Z -> prog world bool;
  op_ptr : Z -> prog world Z;
  op_allocated : Z -> prog world Z }.

(** explicit operator bool() const *)
Definition alloc_bool (o : Z) : prog world bool :=
  let! c := get_obj o in ret (bool_decide (is_Some (buffer_ c))).
Definition mmap_bool (o : Z) : prog world bool :=
  let! c := get_obj o in ret (bool_decide (is_Some (buffer_ c))).
Definition wrapped_bool (x : Z) : prog world bool :=
  let! v := get_wrap x in ret (bool_decide (is_Some (mbuffer_ v)) || bool_decide (is_Some (abuffer_ v))).

Definition alloc_ops : owner_ops := OwnerOps alloc_bool alloc_ptr alloc_allocated.
Definition mmap_ops : owner_ops := OwnerOps mmap_bool mmap_ptr mmap_allocated.
Definition wrapped_ops : owner_ops := OwnerOps wrapped_bool wrapped_ptr wrapped_allocated.

(** ** struct iterator *)

Record iterator := Iterator { owner_ : Z; pos_ : Z }.

#[global] Instance iterator_eq_dec : EqDecision iterator.
Proof. solve_decision. Defined.

Section Ops.
Context (own : owner_ops) (sz : Z).

(** iterator(owner, pos) *)
Definition iter_ctor (owner pos : Z) : prog world iterator :=
  let! b := op_bool own owner in
  if b then ret (Iterator owner pos) else raise (InvalidArgument "bad owner").

(** operator++(), the prefix form *)
Definition iter_inc (it : iterator) : iterator := Iterator (owner_ it) (u64 (pos_ it + 1)).

(** operator+(const iterator &) *)
Definition iter_add (it x : iterator) : prog world iterator := iter_ctor (owner_ it) (u64 (pos_ it + pos_ x)).

(** operator+(size_type), operator-(size_type) *)
Definition iter_plus (it : iterator) (x : Z) : prog world iterator := iter_ctor (owner_ it) (u64 (pos_ it + x)).
Definition iter_minus (it : iterator) (x : Z) : prog world iterator := iter_ctor (owner_ it) (u64 (pos_ it - x)).

(** operator-(const iterator &): the owners are not compared. *)
Definition iter_diff (it x : iterator) : Z := s64 (s64 (pos_ it) - s64 (pos_ x)).

(** operator++(int): the old value and the new one *)
Definition iter_post_inc (it : iterator) : iterator * iterator := (it, iter_inc it).

(** operator--() *)
Definition iter_dec (it : iterator) : prog world iterator :=
  do! assert (0 <? pos_ it) in ret (Iterator (owner_ it) (pos_ it - 1)).

(** operator--(int) *)
Definition iter_post_dec (it : iterator) : prog world (iterator * iterator) :=
  let! it' := iter_dec it in ret (it, it').

(** operator->: block and byte offset. ptr() unshares the buffer. *)
Definition iter_arrow (it : iterator) : prog world (Z * Z) :=
  let! b := op_ptr own (owner_ it) in ret (b, pos_ it * sz).

(** *it as a value, and as the target of an assignment *)
Definition iter_load (it : iterator) : prog world (list Z) :=
  let! p := iter_arrow it in
  let! bs := load_block (fst p) in
  if (0 <=? snd p) && (snd p + sz <=? zlen bs) then ret (slice (snd p) sz bs) else crash OutOfBounds.
Definition iter_store (it : iterator) (d : list Z) : prog world unit :=
  let! p := iter_arrow it in copy_into (fst p) (snd p) d.

(** operator== and operator!= *)
Definition iter_eq (it other : iterator) : bool := (owner_ other =? owner_ it) && (pos_ other =? pos_ it).
Definition iter_neq (it other : iterator) : bool := negb (iter_eq other it).

(** begin() and end() *)
Definition iter_begin (o : Z) : prog world iterator := iter_ctor o 0.
Definition iter_end (o : Z) : prog world iterator :=
  let! n := op_allocated own o in iter_ctor o (n / sz).
End Ops.

(** The three structs. *)
Record iterator_class := IteratorClass {
  it_ctor : Z -> Z -> prog world iterator;
  it_inc : iterator -> iterator;
  it_add : iterator -> iterator -> prog world iterator;
  it_plus : iterator -> Z -> prog world iterator;
  it_minus : iterator -> Z -> prog world iterator;
  it_diff : iterator -> iterator -> Z;
  it_post_inc : iterator -> iterator * iterator;
  it_dec : iterator -> prog world iterator;
  it_post_dec : iterator -> prog world (iterator * iterator);
  it_load : iterator -> prog world (list Z);
  it_store : iterator -> list Z -> prog world unit;
  it_eq : iterator -> iterator -> bool;
  it_neq : iterator -> iterator -> bool }.

Definition iterator_of (own : owner_ops) (sz : Z) : iterator_class :=
  IteratorClass (iter_ctor own) iter_inc (iter_add own) (iter_plus own) (iter_minus own) iter_diff iter_post_inc
    iter_dec iter_post_dec (iter_load own sz) (iter_store own sz) iter_eq iter_neq.

Definition alloc_iterator (sz : Z) : iterator_class := iterator_of alloc_ops sz.
Definition mmap_iterator (sz : Z) : iterator_class := iterator_of mmap_ops sz.
Definition wrapped_iterator (sz : Z) : iterator_class := iterator_of wrapped_ops sz.

Definition alloc_begin (o : Z) : prog world iterator := iter_begin alloc_ops o.
Definition alloc_end (sz o : Z) : prog world iterator := iter_end alloc_ops sz o.
Definition mmap_begin (o : Z) : prog world iterator := iter_begin mmap_ops o.
Definition mmap_end (sz o : Z) : prog world iterator := iter_end mmap_ops sz o.
Definition wrapped_begin (x : Z) : prog world iterator := iter_begin wrapped_ops x.
Definition wrapped_end (sz x : Z) : prog world iterator := iter_end wrapped_ops sz x.

(** ** const_iterator: plain pointers, as block and element index *)

Definition alloc_cbegin (o : Z) : prog world (Z * Z) :=
  let! c := get_obj o in
  match buffer_ c with Some b => ret (b, 0) | None => raise (RuntimeError "Invalid buffer") end.
Definition alloc_cend (sz o : Z) : prog world (Z * Z) :=
  let! c := get_obj o in
  match buffer_ c with Some b => ret (b, allocated_ c / sz) | None => raise (RuntimeError "Invalid buffer") end.
Definition mmap_cbegin (o : Z) : prog world (Z * Z) :=
  let! c := get_obj o in
  match buffer_ c with Some b => ret (b, 0) | None => raise (RuntimeError "Invalid buffer") end.
Definition mmap_cend (sz o : Z) : prog world (Z * Z) :=
  let! c := get_obj o in
  match buffer_ c with Some b => ret (b, allocated_ c / sz) | None => raise (RuntimeError "Invalid buffer") end.
Definition wrapped_cbegin (x : Z) : prog world (Z * Z) :=
  let! v := get_wrap x in
  match mbuffer_ v, abuffer_ v with
  | Some m, _ => mmap_cbegin m
  | None, Some a => alloc_cbegin a
  | None, None => raise (RuntimeError "Invalid buffer")
  end.
Definition wrapped_cend (sz x : Z) : prog world (Z * Z) :=
  let! v := get_wrap x in
  match mbuffer_ v, abuffer_ v with
  | Some m, _ => mmap_cend sz m
  | None, Some a => alloc_cend sz a
  | None, None => raise (RuntimeError "Invalid buffer")
  end.

(** ** Algorithms over iterators *)

Section Algorithms.
Context (own : owner_ops) (sz : Z).

(** [for (; it != last; ++it) *it = v...], the values in turn *)
Fixpoint fill (it last : iterator) (vs : list (list Z)) : prog world iterator :=
  match vs with
  | [] => ret it
  | d :: vs =>
      if iter_neq it last then do! iter_store own sz it d in fill (iter_inc it) last vs else ret it
  end.

(** [for (; it != last; ++it)], the values read *)
Fixpoint read_all (fuel : nat) (it last : iterator) : prog world (list (list Z)) :=
  match fuel with
  | O => ret []
  | S fuel =>
      if iter_neq it last then
        let! d := iter_load own sz it in
        let! ds := read_all fuel (iter_inc it) last in ret (d :: ds)
      else ret []
  end.
End Algorithms.

(** ** What the theorems need of an owner *)

Class Owner (own : owner_ops) := {
  (** the heap invariant, and the bytes an object sees *)
  valid : world -> Prop;
  bytes_of : world -> Z -> option (list Z);
  owner_bool w x bs : valid w -> bytes_of w x = Some bs -> op_bool own x w = Ret true w;
  owner_null w x : op_bool own x w = Ret false w -> bytes_of w x = None;
  owner_allocated w x bs : valid w -> bytes_of w x = Some bs -> op_allocated own x w = Ret (zlen bs) w;
  (** ptr() gives the bytes, and writing through it is seen by nobody else *)
  owner_write w x bs off d : valid w -> bytes_of w x = Some bs -> zlen bs <= limit w ->
    0 <= off -> off + zlen d <= zlen bs ->
    exists b w1 w2, op_ptr own x w = Ret b w1 /\ blocks w1 !! b = Some bs /\ copy_into b off d w1 = Ret tt w2 /\
      valid w2 /\ limit w2 = limit w /\ bytes_of w2 x = Some (splice off d bs) /\
      forall y, y <> x -> bytes_of w2 y = bytes_of w y }.

(** Both reference-counted classes. *)
Lemma cow_write {cap} `{C : !CowClass cap} w o bs off d :
  WF w -> content w o = Some bs -> zlen bs <= limit w -> 0 <= off -> off + zlen d <= zlen bs ->
  exists b w1 w2, c_ptr o w = Ret b w1 /\ blocks w1 !! b = Some bs /\ copy_into b off d w1 = Ret tt w2 /\
    WF w2 /\ frame o w w2 /\ content w2 o = Some (splice off d bs).
Proof.
  intros HW Hc Hl Hoff Hd. destruct (law_ptr w o bs HW Hc Hl) as (b&w1&Hp&HW1&Hf1&Hx1).
  destruct (copy_into_exclusive w1 o b bs off d HW1 Hx1 Hoff Hd) as (w2&Hi&HW2&Hf2&Hx2).
  exists b, w1, w2. split_and!; [done| |done|done|by eapply frame_trans|by eapply exclusive_content].
  by destruct Hx1 as (r&_&_&?).
Qed.

Lemma cow_bool w o bs : content w o = Some bs -> alloc_bool o w = Ret true w.
Proof.
  unfold content, alloc_bool, bind, get_obj. destruct (objs w !! o) as [c|]; [|done]. destruct (buffer_ c) eqn:E; [|done].
  done.
Qed.

Lemma cow_null_bool w o : alloc_bool o w = Ret false w -> content w o = None.
Proof.
  unfold content, alloc_bool, bind, get_obj. destruct (objs w !! o) as [c|]; [|done]. destruct (buffer_ c) eqn:E; [|done].
  done.
Qed.

Lemma cow_allocated w o bs : WF w -> content w o = Some bs -> alloc_allocated o w = Ret (zlen bs) w.
Proof.
  intros HW Hc. unfold content in Hc. unfold alloc_allocated, bind, get_obj, ret. destruct (objs w !! o) as [c|] eqn:Ho; [|done].
  destruct (buffer_ c) as [b|] eqn:Hb; [|done]. destruct (obj_inv w HW o c b Ho Hb) as (r&bs'&v&->&Hbs&_). simpl. by simplify_eq.
Qed.

#[global] Program Instance alloc_owner : Owner alloc_ops := {
  valid := WF; bytes_of := content;
  owner_bool w x bs _ := cow_bool w x bs;
  owner_null := cow_null_bool;
  owner_allocated := cow_allocated }.
Next Obligation.
  intros w x bs off d HW Hc Hl Ho Hd. destruct (cow_write (C := alloc_cow) w x bs off d) as (b&w1&w2&?&?&?&?&(?&_&_&Hf)&?); try done.
  exists b, w1, w2. split_and!; try done. intros y Hy. by apply Hf.
Qed.

#[global] Program Instance mmap_owner (page : Z) (Hpage : 0 < page <= 2 ^ 62) : Owner mmap_ops := {
  valid := WF; bytes_of := content;
  owner_bool w x bs _ := cow_bool w x bs;
  owner_null := cow_null_bool;
  owner_allocated := cow_allocated }.
Next Obligation.
  intros page Hpage w x bs off d HW Hc Hl Ho Hd.
  destruct (cow_write (C := mmap_cow page Hpage) w x bs off d) as (b&w1&w2&?&?&?&?&(?&_&_&Hf)&?); try done.
  exists b, w1, w2. split_and!; try done. intros y Hy. by apply Hf.
Qed.

(** A wrapped_buffer sees the bytes of the object it holds. *)
Definition wrapped_bytes (w : world) (x : Z) : option (list Z) :=
  match held_at w x with Some o => content w o | None => None end.

Lemma wrapped_bytes_inv w x bs :
  wrapped_bytes w x = Some bs -> exists v o, wraps w !! x = Some v /\ held v = Some o /\ content w o = Some bs.
Proof.
  unfold wrapped_bytes, held_at. destruct (wraps w !! x) as [v|]; [|done]. destruct (held v) as [o|] eqn:Hh; [|done]. eauto.
Qed.

(** An operation on the object that [x] holds is not seen through [y]. *)
Lemma wrapped_bytes_frame w w' x v o y :
  WWF w -> wraps w !! x = Some v -> held v = Some o -> frame o w w' -> y <> x -> wrapped_bytes w' y = wrapped_bytes w y.
Proof.
  intros HW Hx Hh (_&Hwr&_&Hf) Hne. unfold wrapped_bytes, held_at. rewrite Hwr.
  destruct (wraps w !! y) as [vy|] eqn:Hy; [|done]. destruct (held vy) as [oy|] eqn:Hhy; [|done].
  apply Hf. intros ->. apply Hne. by eapply (wwf_unique w HW y x vy v o).
Qed.

#[global] Program Instance wrapped_owner (page : Z) (Hpage : 0 < page <= 2 ^ 62) : Owner wrapped_ops := {
  valid := WWF; bytes_of := wrapped_bytes }.
Next Obligation.
  intros _ _ w x bs HW (v&o&Hx&Hh&_)%wrapped_bytes_inv. simpl. unfold wrapped_bool, bind, get_wrap. rewrite Hx. unfold held in Hh.
  by destruct v as [[m|] [a|]].
Qed.
Next Obligation.
  intros _ _ w x. simpl. unfold wrapped_bool, bind, get_wrap, wrapped_bytes, held_at. destruct (wraps w !! x) as [[[m|] [a|]]|]; done.
Qed.
Next Obligation.
  intros _ _ w x bs HW (v&o&Hx&Hh&Hc)%wrapped_bytes_inv. simpl. unfold wrapped_allocated. erewrite bind_ret by (unfold get_wrap; by rewrite Hx).
  pose proof (cow_allocated w o bs (wwf_heap w HW) Hc) as Ha. unfold held in Hh.
  destruct v as [[m|] [a|]]; simpl in *; simplify_eq; exact Ha.
Qed.
Next Obligation.
  intros page Hpage w x bs off d HW (v&o&Hx&Hh&Hc)%wrapped_bytes_inv Hl Hoff Hd. simpl.
  destruct (wrapped_ptr_spec page Hpage w x v o bs HW Hx Hh Hc Hl) as (b&w1&Hp&HW1&Hf1&Hx1).
  destruct (copy_into_exclusive w1 o b bs off d HW1 Hx1 Hoff Hd) as (w2&Hi&HW2&Hf2&Hx2).
  pose proof (frame_trans _ _ _ _ Hf1 Hf2) as Hf. apply exclusive_content in Hx2 as Hc2.
  destruct (same_holder w w2 x v o (splice off d bs)) as [HWW _]; auto.
  exists b, w1, w2. split_and!; try done.
  - by destruct Hx1 as (r&_&_&?).
  - by destruct Hf.
  - unfold wrapped_bytes, held_at. destruct Hf as (_&->&_). by rewrite Hx, Hh.
  - intros y Hy. by eapply wrapped_bytes_frame.
Qed.

(** ** Iterators over any owner *)

Section Laws.
Context {own : owner_ops} `{W : !Owner own} (sz : Z) (Hsz : 0 < sz).

(** Writing through an iterator changes one element of one buffer. *)
Lemma iter_store_spec w x i bs d :
  valid w -> bytes_of w x = Some bs -> zlen bs <= limit w -> zlen d = sz -> 0 <= i -> (i + 1) * sz <= zlen bs ->
  exists w', iter_store own sz (Iterator x i) d w = Ret tt w' /\ valid w' /\ limit w' = limit w /\
    bytes_of w' x = Some (splice (i * sz) d bs) /\ forall y, y <> x -> bytes_of w' y = bytes_of w y.
Proof.
  intros HV Hb Hl Hd Hi Hle. destruct (owner_write w x bs (i * sz) d) as (b&w1&w2&Hp&_&Hc&HV2&Hl2&Hb2&Hf); try done; [lia|lia|].
  exists w2. split_and!; try done. unfold iter_store, iter_arrow, bind. simpl. by rewrite Hp.
Qed.

(** Reading unshares, but changes no contents. *)
Lemma iter_load_spec w x i bs :
  valid w -> bytes_of w x = Some bs -> zlen bs <= limit w -> 0 <= i -> (i + 1) * sz <= zlen bs ->
  exists w', iter_load own sz (Iterator x i) w = Ret (slice (i * sz) sz bs) w' /\ valid w' /\ limit w' = limit w /\
    forall y, bytes_of w' y = bytes_of w y.
Proof.
  intros HV Hb Hl Hi Hle.
  destruct (owner_write w x bs 0 []) as (b&w1&w2&Hp&Hblk&Hc&HV2&Hl2&Hb2&Hf); try done; [apply zlen_nonneg|].
  assert (w2 = w1) as ->.
  { unfold copy_into, bind, load_block, store_block in Hc. rewrite Hblk in Hc.
    destruct (_ && _); [|done]. rewrite Hblk in Hc. injection Hc as <-. destruct w1. unfold with_blocks. simpl in *.
    f_equal. rewrite splice_nil. by apply insert_id. }
  exists w1. split_and!; try done.
  - unfold iter_load, iter_arrow, bind, load_block. simpl. rewrite Hp. simpl. rewrite Hblk.
    destruct (Z.leb_spec 0 (i * sz)); [|lia]. destruct (Z.leb_spec (i * sz + sz) (zlen bs)); [done|lia].
  - intros y. destruct (decide (y = x)) as [->|Hne]; [|by apply Hf]. rewrite Hb2, Hb. done.
Qed.

Lemma begin_end_spec w x bs :
  valid w -> bytes_of w x = Some bs ->
  iter_begin own x w = Ret (Iterator x 0) w /\ iter_end own sz x w = Ret (Iterator x (zlen bs / sz)) w.
Proof.
  intros HV Hb. unfold iter_begin, iter_end, iter_ctor. erewrite (bind_ret (op_allocated own x)) by (by eapply owner_allocated).
  by erewrite !bind_ret by (by eapply owner_bool).
Qed.

Lemma iter_neq_spec x i n : iter_neq (Iterator x i) (Iterator x n) = negb (i =? n).
Proof. unfold iter_neq, iter_eq. simpl. by rewrite Z.eqb_refl. Qed.

Lemma fill_spec vs w x i bs :
  valid w -> bytes_of w x = Some bs -> zlen bs <= limit w -> zlen bs < 2 ^ 63 -> Forall (fun d => zlen d = sz) vs ->
  0 <= i -> (i + zlen vs) * sz <= zlen bs ->
  exists w', fill own sz (Iterator x i) (Iterator x (i + zlen vs)) vs w = Ret (Iterator x (i + zlen vs)) w' /\
    valid w' /\ limit w' = limit w /\ bytes_of w' x = Some (splice (i * sz) (concat vs) bs) /\
    forall y, y <> x -> bytes_of w' y = bytes_of w y.
Proof.
  intros HV Hb Hl H63 HF. revert w i bs HV Hb Hl H63. induction HF as [|d vs Hd HF IH]; intros w i bs HV Hb Hl H63 Hi Hle.
  - change (zlen []) with 0. rewrite Z.add_0_r. exists w. split_and!; try done. change (concat []) with (@nil Z). by rewrite splice_nil.
  - rewrite zlen_cons in *. pose proof (zlen_nonneg vs). simpl. rewrite iter_neq_spec.
    destruct (Z.eqb_spec i (i + (1 + zlen vs))); [lia|]. simpl.
    destruct (iter_store_spec w x i bs d) as (w1&Hr1&HV1&Hl1&Hb1&Hf1); try done; [nia|]. run_step Hr1.
    assert (zlen (splice (i * sz) d bs) = zlen bs) as Hz by (apply zlen_splice; nia).
    unfold iter_inc. simpl. rewrite u64_small by nia.
    destruct (IH w1 (i + 1) (splice (i * sz) d bs)) as (w2&Hr2&HV2&Hl2&Hb2&Hf2); try done; [lia|lia|lia|rewrite Hz; nia|].
    replace (i + (1 + zlen vs)) with (i + 1 + zlen vs) by lia. exists w2. split_and!; try done; [congruence| |].
    + rewrite Hb2. f_equal. replace ((i + 1) * sz) with (i * sz + zlen d) by lia. apply splice_splice; [nia|].
      rewrite (zlen_concat_all sz) by done. nia.
    + intros y Hy. by rewrite Hf2, Hf1.
Qed.

Lemma read_all_spec vs w x i pre post :
  valid w -> bytes_of w x = Some (pre ++ concat vs ++ post) -> zlen (pre ++ concat vs ++ post) <= limit w ->
  zlen (pre ++ concat vs ++ post) < 2 ^ 63 -> Forall (fun d => zlen d = sz) vs -> 0 <= i -> zlen pre = i * sz ->
  exists w', read_all own sz (S (length vs)) (Iterator x i) (Iterator x (i + zlen vs)) w = Ret vs w' /\
    valid w' /\ limit w' = limit w /\ forall y, bytes_of w' y = bytes_of w y.
Proof.
  intros HV Hb Hl H63 HF. revert w i pre HV Hb Hl H63. induction HF as [|d vs Hd HF IH]; intros w i pre HV Hb Hl H63 Hi Hpre.
  - change (zlen []) with 0. rewrite Z.add_0_r. exists w. split_and!; try done.
    change (read_all own sz 1 (Iterator x i) (Iterator x i) w = Ret [] w). simpl. by rewrite iter_neq_spec, Z.eqb_refl.
  - rewrite zlen_cons. pose proof (zlen_nonneg vs). pose proof (zlen_nonneg post).
    change (concat (d :: vs)) with (d ++ concat vs) in *. rewrite <- app_assoc in *.
    change (length (d :: vs)) with (S (length vs)). remember (S (length vs)) as fuel eqn:Hfuel. simpl. rewrite iter_neq_spec.
    destruct (Z.eqb_spec i (i + (1 + zlen vs))); [lia|]. simpl.
    pose proof (zlen_concat_all sz vs HF) as Hcz. rewrite !zlen_app in *.
    destruct (iter_load_spec w x i (pre ++ d ++ concat vs ++ post)) as (w1&Hr1&HV1&Hl1&Hf1); try done; [rewrite !zlen_app; lia|rewrite !zlen_app; nia|].
    run_step Hr1. rewrite slice_app_mid by lia. unfold iter_inc. simpl. rewrite u64_small by nia.
    destruct (IH w1 (i + 1) (pre ++ d)) as (w2&Hr2&HV2&Hl2&Hf2); try done; rewrite <- ?app_assoc; rewrite ?Hf1, ?zlen_app; try done; try lia.
    replace (i + (1 + zlen vs)) with (i + 1 + zlen vs) by lia. run_step Hr2. exists w2. split_and!; try done; [congruence|].
    intros y. by rewrite Hf2, Hf1.
Qed.
End Laws.

(** ** Properties *)

(** C18. Iterators of the three buffers, whoever shares their memory: from
    begin() to end() there are allocated/sizeof elements, assigning to each in
    turn changes exactly the elements of that buffer and of no other, and
    reading them gives the values assigned and changes no contents. *)
Theorem iterators_exact {own} `{W : !Owner own} sz w x bs vs :
  0 < sz -> valid w -> bytes_of w x = Some bs -> zlen bs <= limit w -> zlen bs < 2 ^ 63 ->
  Forall (fun d => zlen d = sz) vs -> zlen vs = zlen bs / sz ->
  exists it e w1 w2, iter_begin own x w = Ret it w /\ iter_end own sz x w = Ret e w /\ iter_diff e it = zlen vs /\
    fill own sz it e vs w = Ret e w1 /\ valid w1 /\
    bytes_of w1 x = Some (concat vs ++ zdrop (zlen (concat vs)) bs) /\
    (forall y, y <> x -> bytes_of w1 y = bytes_of w y) /\
    read_all own sz (S (length vs)) it e w1 = Ret vs w2 /\ (forall y, bytes_of w2 y = bytes_of w1 y).
Proof.
  intros Hsz HV Hb Hl H63 HF Hn. destruct (begin_end_spec sz w x bs HV Hb) as [Hbeg Hend].
  pose proof (zlen_nonneg vs). pose proof (zlen_concat_all sz vs HF) as Hcz.
  assert (zlen vs * sz <= zlen bs) as Hle by (rewrite Hn, Z.mul_comm; by apply Z.mul_div_le).
  destruct (fill_spec sz Hsz vs w x 0 bs) as (w1&Hr1&HV1&Hl1&Hb1&Hf1); try done.
  assert (splice (0 * sz) (concat vs) bs = concat vs ++ zdrop (zlen (concat vs)) bs) as Hsp.
  { unfold splice. rewrite (ztake_neg (0 * sz)) by lia. done. }
  rewrite Hsp in Hb1. assert (zlen (concat vs ++ zdrop (zlen (concat vs)) bs) = zlen bs) as Hz by (rewrite zlen_app, zlen_zdrop; lia).
  destruct (read_all_spec sz Hsz vs w1 x 0 [] (zdrop (zlen (concat vs)) bs)) as (w2&Hr2&_&_&Hf2); try done; [simpl; lia|simpl; lia|].
  exists (Iterator x 0), (Iterator x (zlen bs / sz)), w1, w2. rewrite <- Hn in *. split_and!; try done.
  unfold iter_diff. simpl. rewrite (s64_small 0), Z.sub_0_r, (s64_small (zlen vs)), s64_small; nia.
Qed.

(** A buffer of four elements and a copy of it. *)
Definition two_buffers : prog world (Z * Z) :=
  let! x := wrapped_ctor 4096 1 4 in let! y := wrapped_copy x in ret (x, y).
Definition two_world : world :=
  match two_buffers (world0 0 100000 7) with Ret _ w => w | _ => world0 0 0 0 end.

Lemma two_world_WWF : WWF two_world.
Proof.
  destruct (wrapped_ctor_spec 4096 ltac:(lia) (world0 0 100000 7) 4 (world0_WWF _ _ _)) as (x&w1&Hr1&HW1&_&_&_); [lia|vm_compute; congruence|].
  vm_compute in Hr1. injection Hr1 as <- <-.
  edestruct (wrapped_copy_spec 4096 ltac:(lia) _ 3 (Wrapped None (Some 2)) HW1) as (y&w2&Hr2&HW2&_); [reflexivity|vm_compute; congruence|].
  vm_compute in Hr2. injection Hr2 as <- <-. exact HW2.
Qed.

Lemma iterators_exact_witness :
  exists it e w1, wrapped_begin 3 two_world = Ret it two_world /\ wrapped_end 1 3 two_world = Ret e two_world /\
    fill wrapped_ops 1 it e [[1]; [2]; [3]; [4]] two_world = Ret e w1 /\
    wrapped_bytes w1 3 = Some [1; 2; 3; 4] /\ wrapped_bytes w1 5 = Some [0; 0; 0; 0].
Proof.
  destruct (iterators_exact (W := wrapped_owner 4096 ltac:(lia)) 1 two_world 3 [0; 0; 0; 0] [[1]; [2]; [3]; [4]])
    as (it&e&w1&w2&Hb&He&_&Hf&_&Hx&Ho&_).
  - lia.
  - exact two_world_WWF.
  - vm_compute. reflexivity.
  - vm_compute. congruence.
  - vm_compute. reflexivity.
  - repeat constructor.
  - reflexivity.
  - exists it, e, w1. split; [exact Hb|]. split; [exact He|]. split; [exact Hf|]. split; [exact Hx|].
    pose proof (Ho 5 ltac:(lia)) as H5. simpl in H5. rewrite H5. vm_compute. reflexivity.
Defined.

(** An empty buffer has no begin(): where other containers give an empty range,
    begin() and end() throw. *)
Theorem empty_begin_throws own sz o w n :
  op_bool own o w = Ret false w -> op_allocated own o w = Ret n w ->
  iter_begin own o w = Raise (InvalidArgument "bad owner") w /\
  iter_end own sz o w = Raise (InvalidArgument "bad owner") w.
Proof.
  intros Hb Ha. unfold iter_begin, iter_end, iter_ctor. erewrite (bind_ret (op_allocated own o)) by exact Ha.
  by erewrite !bind_ret by exact Hb.
Qed.

Lemma empty_begin_throws_witness :
  wrapped_begin 0 (World ∅ ∅ ∅ {[0 := Wrapped None None]} 1 0 0) =
    Raise (InvalidArgument "bad owner") (World ∅ ∅ ∅ {[0 := Wrapped None None]} 1 0 0).
Proof.
  apply (empty_begin_throws wrapped_ops 1 0 _ 0); vm_compute; reflexivity.
Defined.

(** end() may not be dereferenced: there is no element there. *)
Theorem end_deref_faults {own} `{W : !Owner own} sz w x bs d :
  0 < sz -> valid w -> bytes_of w x = Some bs -> zlen bs <= limit w -> zlen d = sz ->
  exists e, iter_end own sz x w = Ret e w /\ iter_store own sz e d w = Fault OutOfBounds.
Proof.
  intros Hsz HV Hb Hl Hd. destruct (begin_end_spec sz w x bs HV Hb) as [_ Hend]. eexists. split; [exact Hend|].
  destruct (owner_write w x bs 0 []) as (b&w1&w2&Hp&Hblk&_); try done; [apply zlen_nonneg|].
  unfold iter_store, iter_arrow, bind, copy_into, bind, load_block. simpl. rewrite Hp. simpl. rewrite Hblk.
  destruct (Z.leb_spec (zlen bs / sz * sz + zlen d) (zlen bs)) as [Hle|]; [|by rewrite andb_false_r].
  pose proof (Z.div_mod (zlen bs) sz). pose proof (Z.mod_pos_bound (zlen bs) sz). nia.
Qed.

Lemma end_deref_faults_witness :
  exists e, wrapped_end 1 3 two_world = Ret e two_world /\ iter_store wrapped_ops 1 e [9] two_world = Fault OutOfBounds.
Proof.
  apply (end_deref_faults (W := wrapped_owner 4096 ltac:(lia)) 1 two_world 3 [0; 0; 0; 0] [9]).
  - lia.
  - exact two_world_WWF.
  - vm_compute. reflexivity.
  - vm_compute. congruence.
  - reflexivity.
Defined.
