(* ===== verification/Net.v ===== *)
(** * The environment of the event handlers

    What the kernel and libev give to the handlers: [errno] values, a
    non-blocking socket as the script of results its [recv]/[write] calls will
    give, the [ev::io] watcher, and the value of a wrapped_buffer<uint8_t>. The
    handlers never observe the sharing of a buffer (the theorem
    [wrapped_buffer_refines]), so from here on a buffer is the list of its
    bytes. Allocation is assumed to succeed. *)

From S2P Require Import Prelude.
From S2P Require Import Bytes.
From S2P Require Import MmapBuffer.
From S2P Require Import WrappedBuffer.

(** ** errno *)

Definition EINTR : Z := 4.
Definition EAGAIN : Z := 11.
Definition EWOULDBLOCK : Z := 11.
Definition ECONNABORTED : Z := 103.
Definition ECONNRESET : Z := 104.
Definition EALREADY : Z := 114.
Definition EINPROGRESS : Z := 115.

(** ** Sockets *)

(** The next results of [recv]: bytes that arrived, an orderly shutdown, or an
    error. A script that has run out stands for a socket with nothing to read
    now. *)
Inductive recv_event :=
  | RData (bs : list Z)
  | REof
  | RErr (errno : Z).

(** The next results of [write]: the number of bytes the kernel takes at most,
    or an error. A script that has run out stands for a full send buffer. *)
Inductive write_event :=
  | WAccept (n : Z)
  | WErr (errno : Z).

(** [tx] is everything the kernel took so far; [errno] is the thread's. *)
Record sock := Sock {
  rx : list recv_event;
  wx : list write_event;
  tx : list Z;
  errno : Z }.

Definition recv (n : Z) : prog sock (Z * list Z) := fun k =>
  match rx k with
  | [] => Ret (-1, []) (Sock [] (wx k) (tx k) EAGAIN)
  | RData bs :: r =>
      let rest := if zlen bs <=? n then r else RData (zdrop n bs) :: r in
      Ret (zlen (ztake n bs), ztake n bs) (Sock rest (wx k) (tx k) (errno k))
  | REof :: r => Ret (0, []) (Sock r (wx k) (tx k) (errno k))
  | RErr e :: r => Ret (-1, []) (Sock r (wx k) (tx k) e)
  end.

(** Linux transfers at most 0x7ffff000 bytes in one call, so the result fits
    the [int] the callers keep it in. *)
Definition MAX_RW : Z := 2147479552.

Definition write (bs : list Z) : prog sock Z := fun k =>
  match wx k with
  | [] => Ret (-1) (Sock (rx k) [] (tx k) EAGAIN)
  | WAccept n :: r =>
      let took := ztake (Z.min n MAX_RW) bs in
      Ret (zlen took) (Sock (rx k) r (tx k ++ took) (errno k))
  | WErr e :: r => Ret (-1) (Sock (rx k) r (tx k) e)
  end.

(** The bytes a reader gets before the socket blocks, ends or fails, and what
    comes next. *)
Fixpoint avail (r : list recv_event) : list Z :=
  match r with
  | RData bs :: r' => bs ++ avail r'
  | _ => []
  end.

Fixpoint after (r : list recv_event) : list recv_event :=
  match r with
  | RData bs :: r' => after r'
  | _ => r
  end.

(** [recv] never gives an empty segment: that would be an orderly shutdown. *)
Fixpoint segs_ok (r : list recv_event) : bool :=
  match r with
  | RData bs :: r' => (0 <? zlen bs) && segs_ok r'
  | _ :: r' => segs_ok r'
  | [] => true
  end.

(** ** libev *)

(** The event masks of ev++.h. *)
Definition ev_NONE : Z := 0.
Definition ev_READ : Z := 1.
Definition ev_WRITE : Z := 2.

(** An [ev::io]: descriptor, requested events, whether the loop watches it. *)
Record evio := EvIo { fd : Z; io_ev : Z; io_on : bool }.

Definition io_start (w : evio) : evio := EvIo (fd w) (io_ev w) true.
Definition io_stop (w : evio) : evio := EvIo (fd w) (io_ev w) false.
(** ev::io::set keeps the watcher's activity. *)
Definition io_set_events (e : Z) (w : evio) : evio := EvIo (fd w) e (io_on w).
Definition io_set_fd (f : Z) (w : evio) : evio := EvIo f (io_ev w) (io_on w).

Definition has (mask bits : Z) : bool := negb (Z.land mask bits =? 0).

Lemma has_lor e b : b <> 0 -> has (Z.lor e b) b = true.
Proof.
  intros Hb. unfold has. rewrite Z.land_lor_distr_l, Z.land_diag. apply negb_true_iff, Z.eqb_neq.
  intros [_ ?]%Z.lor_eq_0_iff. done.
Qed.

(** ** Buffers by value *)

Section Vbuf.
Context (page : Z).

Definition vb_new (n : Z) : list Z := zrep (wcap page n) 0.
Definition vb_realloc (n : Z) (b : list Z) : list Z := resize (wcap page n) 0 b.

(** What the operations on shared buffers do to the buffer they name. *)
Lemma vb_ops_refine i x n m bs :
  m !! x = Some bs ->
  wop_spec page (New n) i m = <[i := vb_new n]> m /\
  wop_spec page (Realloc x n) i m = <[x := vb_realloc n bs]> m.
Proof. simpl. by intros ->. Qed.

Hypothesis Hpage : 0 < page <= 2 ^ 62.

Lemma wcap_bounds n : 0 <= n < 2 ^ 63 -> n <= wcap page n.
Proof.
  intros. unfold wcap, MMAP_THRESHOLD. zcase; [|lia].
  destruct (round_to_page_spec page n) as (?&?&?); lia.
Qed.

Lemma zlen_vb_realloc n b : 0 <= n < 2 ^ 63 -> zlen (vb_realloc n b) = wcap page n.
Proof. intros. unfold vb_realloc. pose proof (wcap_bounds n). apply zlen_resize. lia. Qed.

Lemma vb_realloc_keeps n k b :
  0 <= k <= n -> n < 2 ^ 63 -> k <= zlen b -> ztake k (vb_realloc n b) = ztake k b.
Proof. intros. unfold vb_realloc. pose proof (wcap_bounds n). apply resize_take; lia. Qed.

End Vbuf.

(** ** Lemmas on sockets *)

Lemma avail_after r : avail (after r) = [].
Proof. induction r as [|[]]; simpl; auto. Qed.

Lemma after_after r : after (after r) = after r.
Proof. induction r as [|[]]; simpl; auto. Qed.

Lemma avail_chunks cs tail :
  avail (map RData cs ++ tail) = concat cs ++ avail tail.
Proof. induction cs; simpl; [done|]. by rewrite IHcs, app_assoc. Qed.

Lemma after_chunks cs tail : after (map RData cs ++ tail) = after tail.
Proof. by induction cs. Qed.

(** A [recv] on a socket that has bytes takes a nonempty prefix of them. *)
Lemma recv_data n k :
  0 < n -> segs_ok (rx k) = true -> avail (rx k) <> [] ->
  exists bs r', recv n k = Ret (zlen bs, bs) (Sock r' (wx k) (tx k) (errno k)) /\
    0 < zlen bs <= n /\ avail (rx k) = bs ++ avail r' /\ after (rx k) = after r' /\
    segs_ok r' = true.
Proof.
  intros Hn Hok Hav. unfold recv. destruct (rx k) as [|[bs| |e] r]; simpl in *; try done.
  apply andb_prop in Hok as [Hb Hr]. zb.
  eexists _, _. split; [done|]. rewrite zlen_ztake.
  destruct (Z.leb_spec (zlen bs) n).
  - rewrite ztake_all by lia. split_and!; [lia|lia|done..].
  - simpl. rewrite app_assoc, ztake_zdrop, zlen_zdrop.
    split_and!; [lia|lia|done|done|]. apply andb_true_intro. split; [|done].
    apply Z.ltb_lt. lia.
Qed.

(** A [recv] on a socket that has none. *)
Lemma recv_none n k :
  avail (rx k) = [] -> segs_ok (rx k) = true ->
  recv n k = match rx k with
             | REof :: r => Ret (0, []) (Sock r (wx k) (tx k) (errno k))
             | RErr e :: r => Ret (-1, []) (Sock r (wx k) (tx k) e)
             | _ => Ret (-1, []) (Sock (rx k) (wx k) (tx k) EAGAIN)
             end.
Proof.
  intros Hav Hok. unfold recv. destruct (rx k) as [|[[|b bs]| |e] r]; simpl in *; try done.
Qed.
