(* ===== verification/ReadBuffer.v ===== *)
(** * read_buffer: accumulating reads of framed data

    The class of shared/src/read_buffer.cpp over a scripted socket, the read
    loop the three event handlers share, and the theorem that any framed
    protocol driven by it sees a byte stream: how the stream was cut into
    segments is invisible. *)

From S2P Require Import Prelude.
From S2P Require Import WrappedBuffer.
From S2P Require Import Net.

Definition RECV_CHUNK : Z := 4096.

Record read_buffer := ReadBuffer {
  cursor_ : Z;
  to_read_ : Z;
  buffer_ : list Z;
  recv_buffer_ : list Z;
  rb_loc_ : Z;
  rb_size_ : Z }.

(** The reader and the descriptor it is used on. *)
Record reader := Reader { rb : read_buffer; sk : sock }.

Section Ops.
Context (page : Z).

(** The bytes of a fresh recv_buffer_ are never read ([rb_size_] is 0). *)
Definition read_buffer_ctor (to_read : Z) : read_buffer :=
  ReadBuffer 0 to_read (vb_new page (Z.max to_read 1024)) (zrep RECV_CHUNK 0) 0 0.

(** do_read(fd, size): the bytes read (or the result of a failed [recv]) and
    whether nothing is left to read. *)
Definition do_read_size (size : Z) : prog reader (Z * bool) := fun s =>
  let r := rb s in
  if to_read_ r <? size then Raise (InvalidArgument "size too large for do_read") s
  else
  let buf := vb_realloc page (cursor_ r + size) (buffer_ r) in
  if zlen buf <? cursor_ r + size then Fault AssertFailed
  else
  let empty := rb_size_ r <=? rb_loc_ r in
  match (if empty then recv RECV_CHUNK (sk s) else Ret (0, []) (sk s)) with
  | Ret (recv_ret, bs) k =>
      let loc := if empty then 0 else rb_loc_ r in
      let sz := if empty then (if 0 <? recv_ret then recv_ret else 0) else rb_size_ r in
      let rbuf := if empty then splice 0 bs (recv_buffer_ r) else recv_buffer_ r in
      if sz <=? loc then
        Ret (recv_ret, to_read_ r =? 0)
            (Reader (ReadBuffer (cursor_ r) (to_read_ r) buf rbuf loc sz) k)
      else
        let rd := Z.min size (sz - loc) in
        let left := to_read_ r - rd in
        Ret (rd, left =? 0)
            (Reader (ReadBuffer (cursor_ r + rd) left
                       (splice (cursor_ r) (slice loc rd rbuf) buf) rbuf (loc + rd) sz) k)
  | Raise e k => Raise e s
  | Fault f => Fault f
  end.

Definition do_read : prog reader (Z * bool) := fun s => do_read_size (to_read_ (rb s)) s.

Definition set_to_read (x : Z) : prog reader unit :=
  modify (fun s => let r := rb s in
    Reader (ReadBuffer (cursor_ r) x (buffer_ r) (recv_buffer_ r) (rb_loc_ r) (rb_size_ r)) (sk s)).

Definition set_cursor (loc : Z) : prog reader unit := fun s =>
  let r := rb s in
  if loc <? zlen (buffer_ r) then
    Ret tt (Reader (ReadBuffer loc (to_read_ r) (buffer_ r) (recv_buffer_ r)
                      (rb_loc_ r) (rb_size_ r)) (sk s))
  else Fault AssertFailed.

Definition to_read (s : reader) : Z := to_read_ (rb s).
Definition cursor (s : reader) : Z := cursor_ (rb s).
Definition hungry (s : reader) : bool := 0 <? to_read s.
Definition extract_buffer (s : reader) : list Z := buffer_ (rb s).

(** ** The loop of the handlers *)

(** How a round of reads ended: all bytes asked for are there, the socket
    would block, the peer closed, or the socket failed. *)
Inductive fill_end := Full | Blocked | Eof | Failed (errno : Z).

(** The inner loop: read while there is progress and something to read.
    [transient] says which errors only end the round. *)
Fixpoint fill (transient : Z -> bool) (fuel : nat) : prog reader fill_end := fun s =>
  if negb (hungry s) then Ret Full s else
  match fuel with
  | O => Ret Blocked s
  | S fuel =>
      (let! res := do_read in fun s =>
       let r := fst res in
       if (r <? 0) && negb (transient (errno (sk s))) then Ret (Failed (errno (sk s))) s
       else if r =? 0 then Ret Eof s
       else if r <? 0 then Ret (if hungry s then Blocked else Full) s
       else fill transient fuel s) s
  end.

End Ops.

(** ** What the buffer holds *)

(** Bytes read for the current item; bytes received and not yet read. *)
Definition consumed (s : reader) : list Z := ztake (cursor s) (extract_buffer s).
Definition pending (s : reader) : list Z :=
  slice (rb_loc_ (rb s)) (rb_size_ (rb s) - rb_loc_ (rb s)) (recv_buffer_ (rb s)).

(** Everything a reader will get before the socket blocks, ends or fails. *)
Definition stream (s : reader) : list Z := pending s ++ avail (rx (sk s)).

Record RWF (s : reader) : Prop := {
  rwf_cursor : 0 <= cursor s <= zlen (extract_buffer s);
  rwf_left : 0 <= to_read s;
  rwf_size : cursor s + to_read s < 2 ^ 62;
  rwf_recv : zlen (recv_buffer_ (rb s)) = RECV_CHUNK;
  rwf_loc : 0 <= rb_loc_ (rb s) <= rb_size_ (rb s);
  rwf_rsize : rb_size_ (rb s) <= RECV_CHUNK;
  rwf_segs : segs_ok (rx (sk s)) = true }.

Lemma zlen_pending s : RWF s -> zlen (pending s) = rb_size_ (rb s) - rb_loc_ (rb s).
Proof. intros []. unfold pending. apply zlen_slice; lia. Qed.

Lemma zlen_consumed s : RWF s -> zlen (consumed s) = cursor s.
Proof. intros []. unfold consumed. rewrite zlen_ztake. lia. Qed.

Section Spec.
Context (page : Z) (Hpage : 0 < page <= 2 ^ 62).

Lemma read_buffer_ctor_RWF n k :
  0 <= n < 2 ^ 62 -> segs_ok (rx k) = true -> RWF (Reader (read_buffer_ctor page n) k).
Proof.
  intros. split; unfold cursor, to_read, extract_buffer; simpl; try done; try lia.
  unfold vb_new. rewrite zlen_zrep. lia.
Qed.

(** Storing the bytes read keeps what was read before. *)
Lemma store_consumed c size (d b : list Z) :
  0 <= c <= zlen b -> zlen d <= size -> c + size < 2 ^ 62 ->
  let b' := splice c d (vb_realloc page (c + size) b) in
  ztake (c + zlen d) b' = ztake c b ++ d /\ c + zlen d <= zlen b'.
Proof.
  intros Hc Hd Hs b'. pose proof (zlen_nonneg d).
  pose proof (wcap_bounds page Hpage (c + size)).
  assert (zlen (vb_realloc page (c + size) b) = wcap page (c + size)) as Hl
    by (apply zlen_vb_realloc; lia).
  subst b'. rewrite splice_take by lia. rewrite vb_realloc_keeps by lia.
  split; [done|]. rewrite zlen_splice; lia.
Qed.

(** The state after [size] bytes at most were taken from [loc..sz) of the
    receive buffer [rbuf]. *)
Definition taken (s : reader) (loc sz : Z) (rbuf : list Z) (k : sock) : reader :=
  let r := rb s in
  let rd := Z.min (to_read_ r) (sz - loc) in
  Reader (ReadBuffer (cursor_ r + rd) (to_read_ r - rd)
            (splice (cursor_ r) (slice loc rd rbuf)
               (vb_realloc page (cursor_ r + to_read_ r) (buffer_ r))) rbuf (loc + rd) sz) k.

(** What one [do_read] that makes progress does to the reader. *)
Definition moved (d : list Z) (s s' : reader) : Prop :=
  RWF s' /\ 0 < zlen d <= to_read s /\ stream s = d ++ stream s' /\
  consumed s' = consumed s ++ d /\ to_read s' = to_read s - zlen d /\
  cursor s' = cursor s + zlen d /\
  after (rx (sk s')) = after (rx (sk s)) /\ wx (sk s') = wx (sk s) /\ tx (sk s') = tx (sk s).

Lemma taken_moved s loc sz rbuf k :
  RWF s -> 0 < to_read s ->
  zlen rbuf = RECV_CHUNK -> 0 <= loc < sz -> sz <= RECV_CHUNK ->
  slice loc (sz - loc) rbuf ++ avail (rx k) = stream s ->
  after (rx k) = after (rx (sk s)) -> wx k = wx (sk s) -> tx k = tx (sk s) ->
  segs_ok (rx k) = true ->
  exists d, zlen d = Z.min (to_read s) (sz - loc) /\ moved d s (taken s loc sz rbuf k).
Proof.
  intros [Hc Hl Hsz Hrc Hloc Hrs Hseg] Hn Hrb Hlo Hszc Hstr Haf Hwx Htx Hsg.
  set (rd := Z.min (to_read s) (sz - loc)).
  assert (zlen (slice loc rd rbuf) = rd) as Hrd by (apply zlen_slice; lia).
  exists (slice loc rd rbuf). split; [done|].
  destruct (store_consumed (cursor s) (to_read s) (slice loc rd rbuf) (extract_buffer s))
    as [Hco Hle]; [lia..|]. rewrite Hrd in *. unfold moved. rewrite !Hrd.
  split_and!; try done; try lia.
  - unfold taken, to_read, cursor, extract_buffer in *.
    split; unfold to_read, cursor, extract_buffer; simpl; fold rd; done || lia.
  - rewrite <- Hstr. unfold stream, pending, taken. simpl. fold (to_read s). fold rd.
    rewrite app_assoc. f_equal.
    unfold slice. replace (sz - loc) with (rd + (sz - (loc + rd))) by lia.
    rewrite ztake_add by lia. unfold slice. by rewrite zdrop_zdrop by lia.
Qed.

(** With bytes to hand, [do_read] moves a nonempty prefix of the stream into
    the item. *)
Lemma do_read_progress s :
  RWF s -> 0 < to_read s -> stream s <> [] ->
  exists d s', do_read page s = Ret (zlen d, to_read s' =? 0) s' /\ moved d s s'.
Proof.
  intros HW Hn Hst. pose proof (zlen_pending s HW) as Hpl. pose proof HW as [Hc Hl Hsz Hrc Hloc Hrs Hseg].
  unfold do_read, do_read_size. unfold to_read, cursor, extract_buffer in *.
  rewrite Z.ltb_irrefl. rewrite zlen_vb_realloc by (auto; lia).
  pose proof (wcap_bounds page Hpage (cursor_ (rb s) + to_read_ (rb s))).
  destruct (Z.ltb_spec (wcap page (cursor_ (rb s) + to_read_ (rb s))) (cursor_ (rb s) + to_read_ (rb s))); [lia|].
  destruct (Z.leb_spec (rb_size_ (rb s)) (rb_loc_ (rb s))) as [He|He].
  - assert (pending s = []) as Hp0 by (apply zlen_0_nil; lia).
    assert (stream s = avail (rx (sk s))) as Hse by (unfold stream; by rewrite Hp0).
    destruct (recv_data RECV_CHUNK (sk s)) as (bs&r'&Hrv&Hb&Hav&Haf&Hsg); [done|done|congruence|].
    rewrite Hrv. destruct (Z.ltb_spec 0 (zlen bs)); [|lia].
    destruct (Z.leb_spec (zlen bs) 0); [lia|].
    destruct (taken_moved s 0 (zlen bs) (splice 0 bs (recv_buffer_ (rb s)))
      (Sock r' (wx (sk s)) (tx (sk s)) (errno (sk s)))) as (d&Hd&Hm);
      [done|done|rewrite zlen_splice; lia|lia|lia| |done|done|done|done|].
    { rewrite Hse, Hav, Z.sub_0_r, splice_same by lia. done. }
    eexists d, _. split; [|exact Hm]. by rewrite Hd.
  - destruct (Z.leb_spec (rb_size_ (rb s)) (rb_loc_ (rb s))); [lia|].
    destruct (taken_moved s (rb_loc_ (rb s)) (rb_size_ (rb s)) (recv_buffer_ (rb s)) (sk s))
      as (d&Hd&Hm); [done|done|done|lia|lia|done..|].
    eexists d, _. split; [|exact Hm]. by rewrite Hd.
Qed.

(** Without, it reports what [recv] said and only resizes the buffer. *)
Definition idle (s s' : reader) : Prop :=
  RWF s' /\ pending s' = [] /\ consumed s' = consumed s /\ to_read s' = to_read s /\
  cursor s' = cursor s /\ wx (sk s') = wx (sk s) /\ tx (sk s') = tx (sk s).

(** The outcome of a [recv] that gives no bytes. *)
Definition no_data (k : sock) : Z * sock :=
  match rx k with
  | REof :: r => (0, Sock r (wx k) (tx k) (errno k))
  | RErr e :: r => (-1, Sock r (wx k) (tx k) e)
  | _ => (-1, Sock (rx k) (wx k) (tx k) EAGAIN)
  end.

Lemma do_read_idle s :
  RWF s -> 0 < to_read s -> stream s = [] ->
  exists s', do_read page s = Ret (fst (no_data (sk s)), false) s' /\ idle s s' /\
             sk s' = snd (no_data (sk s)).
Proof.
  intros HW Hn Hst. pose proof (zlen_pending s HW) as Hpl. pose proof HW as [Hc Hl Hsz Hrc Hloc Hrs Hseg].
  apply app_eq_nil in Hst as [Hp Hav]. rewrite Hp in Hpl. change (zlen []) with 0 in Hpl.
  unfold do_read, do_read_size. unfold to_read, cursor, extract_buffer in *.
  rewrite Z.ltb_irrefl. rewrite zlen_vb_realloc by (auto; lia).
  pose proof (wcap_bounds page Hpage (cursor_ (rb s) + to_read_ (rb s))).
  destruct (Z.ltb_spec (wcap page (cursor_ (rb s) + to_read_ (rb s))) (cursor_ (rb s) + to_read_ (rb s))); [lia|].
  destruct (Z.leb_spec (rb_size_ (rb s)) (rb_loc_ (rb s))) as [He|He]; [|lia].
  assert (recv RECV_CHUNK (sk s) = Ret (fst (no_data (sk s)), []) (snd (no_data (sk s)))) as ->.
  { rewrite recv_none by done. unfold no_data. by destruct (rx (sk s)) as [|[]]. }
  assert ((0 <? fst (no_data (sk s))) = false) as -> by (unfold no_data; by destruct (rx (sk s)) as [|[]]).
  destruct (Z.eqb_spec (to_read_ (rb s)) 0); [lia|]. eexists. split; [reflexivity|].
  assert (splice 0 [] (recv_buffer_ (rb s)) = recv_buffer_ (rb s)) as Hsp by done.
  split; [|done]. unfold idle, consumed, pending, to_read, cursor, extract_buffer; simpl.
  rewrite vb_realloc_keeps by lia. split_and!; try done.
  - split; unfold to_read, cursor, extract_buffer; simpl; try done; try lia.
    + rewrite zlen_vb_realloc by lia. lia.
    + unfold no_data. destruct (rx (sk s)) as [|[]]; simpl in *; done.
  - unfold no_data. by destruct (rx (sk s)) as [|[]].
  - unfold no_data. by destruct (rx (sk s)) as [|[]].
Qed.

(** ** The inner loop *)

(** How a round ends when the stream has no more bytes. *)
Definition round_end (transient : Z -> bool) (k : sock) : fill_end :=
  match after (rx k) with
  | REof :: _ => Eof
  | RErr e :: _ => if transient e then Blocked else Failed e
  | _ => Blocked
  end.

(** Enough bytes in the stream: the item is completed and exactly they are
    taken from it. *)
Lemma fill_full transient fuel s :
  RWF s -> to_read s <= zlen (stream s) -> (length (stream s) < fuel)%nat ->
  exists s', fill page transient fuel s = Ret Full s' /\ RWF s' /\
    to_read s' = 0 /\ consumed s' = consumed s ++ ztake (to_read s) (stream s) /\
    stream s' = zdrop (to_read s) (stream s) /\
    after (rx (sk s')) = after (rx (sk s)) /\ wx (sk s') = wx (sk s) /\ tx (sk s') = tx (sk s).
Proof.
  revert s. induction fuel as [|fuel IH]; intros s HW Hle Hf; [lia|]. simpl.
  unfold hungry. destruct (Z.ltb_spec 0 (to_read s)) as [Hn|Hn]; simpl.
  - destruct (do_read_progress s) as (d&s1&Hr&HW1&Hd&Hs&Hc&Ht&_&Ha&Hw&Hx); [done|done| |].
    { intros H0. rewrite H0 in Hle. change (zlen []) with 0 in Hle. lia. }
    run_step Hr. simpl. destruct (Z.ltb_spec (zlen d) 0); [lia|]. destruct (Z.eqb_spec (zlen d) 0); [lia|].
    simpl. rewrite Hs, zlen_app in Hle. rewrite Hs, length_app in Hf. assert (0 < length d)%nat by (unfold zlen in Hd; lia).
    destruct (IH s1) as (s'&Hr'&HW'&Ht'&Hc'&Hs'&Ha'&Hw'&Hx'); [done|lia|lia|].
    exists s'. split; [done|]. rewrite Hc', Hs', Ht, Hs, Hc, <- app_assoc.
    rewrite ztake_app_r, zdrop_app_r by lia. split_and!; try done; congruence.
  - destruct HW. assert (to_read s = 0) as H0 by lia. exists s. rewrite H0.
    rewrite ztake_neg, zdrop_neg, app_nil_r by lia. done.
Qed.

(** Too few: they are all taken and the round ends as the socket says. *)
Lemma fill_short transient fuel s :
  RWF s -> zlen (stream s) < to_read s -> (length (stream s) < fuel)%nat ->
  transient EAGAIN = true ->
  exists s', fill page transient fuel s = Ret (round_end transient (sk s)) s' /\ RWF s' /\
    to_read s' = to_read s - zlen (stream s) /\ consumed s' = consumed s ++ stream s /\
    pending s' = [] /\ rx (sk s') = tail (after (rx (sk s))) /\
    wx (sk s') = wx (sk s) /\ tx (sk s') = tx (sk s).
Proof.
  intros HW Hle Hf Htr. revert s HW Hle Hf. induction fuel as [|fuel IH]; intros s HW Hle Hf; [lia|]. simpl.
  unfold hungry at 1. pose proof (zlen_nonneg (stream s)).
  destruct (Z.ltb_spec 0 (to_read s)) as [Hn|Hn]; simpl; [|lia].
  destruct (decide (stream s = [])) as [H0|H0].
  - destruct (do_read_idle s) as (s1&Hr&(HW1&Hp&Hc&Ht&_&Hw&Hx)&Hk); [done..|]. run_step Hr.
    apply app_eq_nil in H0 as [Hp0 Hav].
    assert (hungry s1 = true) as Hhu by (apply Z.ltb_lt; lia). unfold round_end.
    rewrite Hhu. unfold no_data in *. unfold stream. rewrite Hp0, Hav, !app_nil_r.
    change (zlen []) with 0. rewrite Z.sub_0_r.
    pose proof (rwf_segs s HW) as Hsg. destruct (rx (sk s)) as [|[[|]| |e] r] eqn:Hrx; simpl in *; try done.
    + rewrite Hk. simpl. rewrite Htr. simpl. exists s1. rewrite Hk. done.
    + exists s1. rewrite Hk. done.
    + rewrite Hk. simpl. exists s1. rewrite Hk. by destruct (transient e).
  - destruct (do_read_progress s) as (d&s1&Hr&HW1&Hd&Hs&Hc&Ht&_&Ha&Hw&Hx); [done..|].
    run_step Hr. simpl. destruct (Z.ltb_spec (zlen d) 0); [lia|]. destruct (Z.eqb_spec (zlen d) 0); [lia|].
    simpl. rewrite Hs, zlen_app in Hle. rewrite Hs, length_app in Hf. assert (0 < length d)%nat by (unfold zlen in Hd; lia).
    destruct (IH s1) as (s'&Hr'&HW'&Ht'&Hc'&Hs'&Ha'&Hw'&Hx'); [done|lia|lia|].
    exists s'. unfold round_end in *. rewrite Ha in *. split; [done|]. rewrite Hs, Hc', Hc, zlen_app, <- app_assoc.
    split_and!; try done; try congruence. lia.
Qed.
End Spec.

(** ** Between items *)

(** Ask for [n] bytes of a new item, or of the same one. *)
Definition restart (n : Z) (s : reader) : reader :=
  let r := rb s in
  Reader (ReadBuffer 0 n (buffer_ r) (recv_buffer_ r) (rb_loc_ r) (rb_size_ r)) (sk s).
Definition extend (n : Z) (s : reader) : reader :=
  let r := rb s in
  Reader (ReadBuffer (cursor_ r) n (buffer_ r) (recv_buffer_ r) (rb_loc_ r) (rb_size_ r)) (sk s).

Lemma set_cursor_0 s :
  0 < zlen (extract_buffer s) -> set_cursor 0 s = Ret tt (restart (to_read s) s).
Proof. unfold set_cursor, extract_buffer. intros. zcase; [done|lia]. Qed.

Lemma restart_ok n s :
  RWF s -> 0 <= n < 2 ^ 62 -> RWF (restart n s) /\ consumed (restart n s) = [].
Proof. intros [] ?. split; [|by apply ztake_neg]. split; unfold cursor, to_read, extract_buffer in *; simpl; done || lia. Qed.

Lemma extend_ok n s :
  RWF s -> 0 <= n -> cursor s + n < 2 ^ 62 -> RWF (extend n s) /\ consumed (extend n s) = consumed s.
Proof.
  intros [] ? ?. split; [|done].
  split; unfold cursor, to_read, extract_buffer in *; simpl; try done; try lia.
Qed.

Lemma consumed_fits s : RWF s -> zlen (consumed s) <= zlen (extract_buffer s).
Proof. intros HW. rewrite zlen_consumed by done. destruct HW. lia. Qed.

(** ** Framed protocols *)

(** A state that contains a reader. *)
Class HasReader (S : Type) := {
  rdr : S -> reader;
  set_rdr : reader -> S -> S;
  rdr_set r s : rdr (set_rdr r s) = r }.

(** The outer loop of the handlers' read callbacks: complete an item, act on
    it, go on while more is wanted. *)
Fixpoint read_loop {S} `{HasReader S} (page : Z) (transient : Z -> bool) (on_full : prog S unit)
    (fuel : nat) : prog S fill_end := fun s =>
  if negb (hungry (rdr s)) then Ret Full s else
  match fuel with
  | O => Ret Blocked s
  | S fuel =>
      (let! e := zoom rdr set_rdr (fill page transient (1 + length (stream (rdr s)))) in
       match e with
       | Full => do! on_full in read_loop page transient on_full fuel
       | _ => ret e
       end) s
  end.

(** A handler that wants nothing reads nothing. *)
Lemma read_loop_stalled {S} `{HasReader S} page transient on_full fuel s :
  to_read (rdr s) <= 0 -> read_loop page transient on_full fuel s = Ret Full s.
Proof. intros Ht. destruct fuel; simpl; unfold hungry; by destruct (Z.ltb_spec 0 (to_read (rdr s))); [lia|]. Qed.

Section Framing.
(** A protocol, one byte at a time: its state [M], the bytes [acc] of the item
    being read, the number [need] of bytes still missing. [full] acts on a
    completed item; [None] is undefined behaviour. *)
Context {M : Type} (full : M -> list Z -> option (M * list Z * Z)).

Definition config : Type := M * list Z * Z.

Definition feed1 (c : config) (b : Z) : option config :=
  let '(m, acc, need) := c in
  if need <=? 0 then Some c
  else if need =? 1 then full m (acc ++ [b]) else Some (m, acc ++ [b], need - 1).

Fixpoint feed (c : config) (bs : list Z) : option config :=
  match bs with
  | [] => Some c
  | b :: bs => match feed1 c b with Some c' => feed c' bs | None => None end
  end.

Lemma feed_app c bs1 bs2 :
  feed c (bs1 ++ bs2) = match feed c bs1 with Some c' => feed c' bs2 | None => None end.
Proof. revert c. induction bs1 as [|b bs1 IH]; intros c; simpl; [done|]. by destruct (feed1 c b). Qed.

Lemma feed_stalled m acc need bs : need <= 0 -> feed (m, acc, need) bs = Some (m, acc, need).
Proof. intros. induction bs; simpl; [done|]. by destruct (Z.leb_spec need 0); [|lia]. Qed.

Lemma feed_short m acc need bs :
  zlen bs < need -> feed (m, acc, need) bs = Some (m, acc ++ bs, need - zlen bs).
Proof.
  revert acc need. induction bs as [|b bs IH]; intros acc need Hl.
  - simpl. by rewrite app_nil_r, zlen_nil, Z.sub_0_r.
  - rewrite zlen_cons in *. pose proof (zlen_nonneg bs). simpl.
    destruct (Z.leb_spec need 0); [lia|]. destruct (Z.eqb_spec need 1); [lia|].
    rewrite IH by lia. rewrite <- app_assoc. do 2 f_equal. lia.
Qed.

Lemma feed_full m acc bs :
  0 < zlen bs -> feed (m, acc, zlen bs) bs = full m (acc ++ bs).
Proof.
  intros Hl. destruct (list_eq_nil_dec bs) as [->|Hne]; [done|].
  destruct (exists_last Hne) as (bs'&b&->). rewrite zlen_app, feed_app.
  pose proof (zlen_nonneg bs'). rewrite zlen_cons, zlen_nil.
  rewrite feed_short by lia. simpl. destruct (Z.leb_spec (zlen bs' + (1 + 0) - zlen bs') 0); [lia|].
  destruct (Z.eqb_spec (zlen bs' + (1 + 0) - zlen bs') 1); [|lia]. rewrite <- app_assoc.
  by destruct (full _ _).
Qed.

(** A handler that implements the protocol: [R] relates its state to the
    protocol's, [P] is what holds of an item being read, and [on_full] acts as
    [full] does. *)
Context {S : Type} `{HasReader S} (page : Z) (Hpage : 0 < page <= 2 ^ 62).
Context (transient : Z -> bool) (Htr : transient EAGAIN = true) (on_full : prog S unit).
Context (R : S -> M -> Prop) (P : config -> Prop).
Context (R_reader : forall s m r, R s m -> R (set_rdr r s) m).
Context (P_more : forall m acc need bs,
  P (m, acc, need) -> zlen bs <= need -> P (m, acc ++ bs, need - zlen bs)).

(** The reader [s] is at configuration [c]. *)
Definition at_config (s : S) (c : config) : Prop :=
  let '(m, acc, need) := c in
  R s m /\ RWF (rdr s) /\ P c /\ consumed (rdr s) = acc /\ to_read (rdr s) = need.

Context (on_full_ok : forall s m acc c,
  at_config s (m, acc, 0) -> acc <> [] -> full m acc = Some c ->
  exists s', on_full s = Ret tt s' /\ at_config s' c /\
             stream (rdr s') = stream (rdr s) /\ sk (rdr s') = sk (rdr s)).

(** The read loop consumes the stream as the protocol does. *)
Lemma read_loop_feeds fuel s c m acc need :
  at_config s c -> (length (stream (rdr s)) < fuel)%nat ->
  feed c (stream (rdr s)) = Some (m, acc, need) ->
  exists s', read_loop page transient on_full fuel s =
             Ret (if 0 <? need then round_end transient (sk (rdr s)) else Full) s' /\
    at_config s' (m, acc, need) /\
    (0 < need -> pending (rdr s') = [] /\ rx (sk (rdr s')) = tail (after (rx (sk (rdr s))))) /\
    wx (sk (rdr s')) = wx (sk (rdr s)) /\ tx (sk (rdr s')) = tx (sk (rdr s)).
Proof.
  revert s c. induction fuel as [|fuel IH]; intros s [[m0 acc0] need0] Hat Hf Hfeed; [lia|].
  pose proof Hat as (HR&HW&HP&Hc&Ht). pose proof (zlen_nonneg (stream (rdr s))).
  simpl. unfold hungry. rewrite Ht. destruct (Z.ltb_spec 0 need0) as [Hn|Hn]; simpl.
  - destruct (Z.le_gt_cases need0 (zlen (stream (rdr s)))) as [Hle|Hgt].
    + destruct (fill_full page Hpage transient (Datatypes.S (length (stream (rdr s)))) (rdr s))
        as (r'&Hr&HW'&Ht'&Hc'&Hs'&Ha&Hw&Hx); [done|lia|lia|].
      erewrite bind_ret by (eapply zoom_ret, Hr). simpl.
      rewrite <- (ztake_zdrop need0 (stream (rdr s))), feed_app in Hfeed. rewrite Ht in *.
      assert (zlen (ztake need0 (stream (rdr s))) = need0) as Hz by (rewrite zlen_ztake; lia).
      rewrite <- Hz in Hfeed at 1. rewrite feed_full in Hfeed by lia.
      destruct (full m0 _) as [c1|] eqn:Hfull; [|done].
      destruct (on_full_ok (set_rdr r' s) m0 (acc0 ++ ztake need0 (stream (rdr s))) c1)
        as (s1&Hr1&Hat1&Hs1&Hk1); [| |done|].
      { unfold at_config. rewrite rdr_set. split_and!; auto; [|by rewrite Hc', Hc].
        pose proof (P_more m0 acc0 need0 (ztake need0 (stream (rdr s))) HP) as Hm.
        rewrite Hz, Z.sub_diag in Hm. apply Hm. lia. }
      { intros [_ Hnil]%app_eq_nil. rewrite Hnil in Hz. change (zlen []) with 0 in Hz. lia. }
      run_step Hr1. rewrite rdr_set in Hs1, Hk1. rewrite Hs' in Hs1.
      destruct (IH s1 c1) as (s2&Hr2&Hat2&Hp2&Hw2&Hx2); [done| |by rewrite Hs1|].
      { rewrite Hs1. unfold zdrop. rewrite length_drop. unfold zlen in Hle. lia. }
      exists s2. rewrite Hk1 in *. unfold round_end in *. rewrite Ha in *. rewrite Hw, Hx in *. done.
    + rewrite feed_short in Hfeed by lia. simplify_eq.
      destruct (fill_short page Hpage transient (Datatypes.S (length (stream (rdr s)))) (rdr s))
        as (r'&Hr&HW'&Ht'&Hc'&Hp'&Ha&Hw&Hx); [done|lia|lia|done|].
      erewrite bind_ret by (eapply zoom_ret, Hr). destruct (Z.ltb_spec 0 (to_read (rdr s) - zlen (stream (rdr s)))); [|lia].
      exists (set_rdr r' s). unfold at_config. rewrite rdr_set. split_and!; auto; [|by apply P_more; [|lia]].
      unfold round_end. by destruct (after (rx (sk (rdr s)))) as [|[| |e]]; try destruct (transient e).
  - rewrite feed_stalled in Hfeed by lia. simplify_eq.
    exists s. destruct (Z.ltb_spec 0 (to_read (rdr s))); [lia|]. split_and!; auto. lia.
Qed.
End Framing.

(** One round of reads returns, and moves exactly the bytes that are asked
    for and there: the item grows by the first [to_read] bytes of the stream (by
    all of them if there are fewer), the rest stays unread, nothing is lost,
    repeated or reordered, and the round is [Full] exactly when nothing is
    missing. *)
Theorem read_round page transient s :
  0 < page <= 2 ^ 62 -> RWF s -> transient EAGAIN = true ->
  exists e s', fill page transient (1 + length (stream s)) s = Ret e s' /\ RWF s' /\
    consumed s' = consumed s ++ ztake (to_read s) (stream s) /\
    to_read s' = Z.max 0 (to_read s - zlen (stream s)) /\
    (e = Full <-> to_read s <= zlen (stream s)) /\
    (e = Full -> stream s' = zdrop (to_read s) (stream s)).
Proof.
  intros Hp HW Ht. pose proof (rwf_left s HW).
  destruct (Z.le_gt_cases (to_read s) (zlen (stream s))) as [Hle|Hgt].
  - destruct (fill_full page Hp transient (1 + length (stream s)) s) as (s'&?&?&?&?&?&_); [done|lia|lia|].
    exists Full, s'. split_and!; auto; [lia|by split].
  - destruct (fill_short page Hp transient (1 + length (stream s)) s) as (s'&?&?&?&?&_); [done|lia|lia|done|].
    eexists _, s'. split_and!; eauto.
    + by rewrite ztake_all by lia.
    + lia.
    + unfold round_end. destruct (after (rx (sk s))) as [|[| |e]]; try destruct (transient e); split; (done || lia).
    + unfold round_end. destruct (after (rx (sk s))) as [|[| |e]]; try destruct (transient e); done.
Qed.

Lemma read_round_witness :
  exists e s', fill 4096 (fun e => e =? EAGAIN) 4
      (Reader (read_buffer_ctor 4096 2) (Sock [RData [1]; RData [2; 3]] [] [] 0)) = Ret e s' /\
    consumed s' = [1; 2] /\ e = Full.
Proof.
  destruct (read_round 4096 (fun e => e =? EAGAIN)
    (Reader (read_buffer_ctor 4096 2) (Sock [RData [1]; RData [2; 3]] [] [] 0)))
    as (e&s'&Hr&_&Hc&_&He&_); [lia| |reflexivity|].
  { apply read_buffer_ctor_RWF; [lia|reflexivity]. }
  exists e, s'. split; [exact Hr|]. split; [rewrite Hc; reflexivity|]. apply He. vm_compute. discriminate.
Defined.
