(* ===== verification/WriteBuffer.v ===== *)
(** * write_buffer: the queue of bytes a handler has to send

    The class of shared/src/write_buffer.cpp over a scripted socket, the write
    loop the handlers share, its invariant and the theorem that the bytes the
    kernel takes are the bytes appended, in order. *)

From S2P Require Import Prelude.
From S2P Require Import WrappedBuffer.
From S2P Require Import Net.

(** buffer_container *)
Record chunk := Chunk { c_cursor : Z; c_writable : Z; c_buffer : list Z }.

Record write_buffer := WriteBuffer { to_write_ : Z; buffers_ : list chunk }.

(** The queue and the descriptor it is written to. *)
Record writer := Writer { wb : write_buffer; wsk : sock }.

Definition write_buffer_ctor : write_buffer := WriteBuffer 0 [].

(** buffer_container(wrapped_buffer<uint8_t>, len) *)
Definition chunk_of_buffer (b : list Z) (len : Z) : prog write_buffer chunk :=
  do! assert (len <=? zlen b) in ret (Chunk 0 len b).

(** buffer_container(ptr, len): [bs] are the [len] bytes at [ptr]; ptr() of the
    empty wrapped_buffer that [len] 0 makes throws. *)
Definition chunk_of_bytes (page : Z) (bs : list Z) : prog write_buffer chunk :=
  if zlen bs =? 0 then raise (RuntimeError "bad buffer")
  else ret (Chunk 0 (zlen bs) (splice 0 bs (vb_new page (zlen bs)))).

Definition append_bytes (page : Z) (bs : list Z) : prog write_buffer unit :=
  let! c := chunk_of_bytes page bs in
  modify (fun w => WriteBuffer (to_write_ w + zlen bs) (buffers_ w ++ [c])).

Definition append_buffer (b : list Z) (len : Z) : prog write_buffer unit :=
  do! assert (len <=? zlen b) in
  let! c := chunk_of_buffer b len in
  modify (fun w => WriteBuffer (to_write_ w + len) (buffers_ w ++ [c])).

(** to_write() *)
Definition to_write : prog write_buffer Z := fun w =>
  if (to_write_ w =? 0) || negb (zlen (buffers_ w) =? 0) then Ret (to_write_ w) w
  else Fault AssertFailed.

(** do_write(fd, size): [size] is only checked to be nonzero. *)
Definition do_write_size (size : Z) : prog writer (Z * bool) := fun s =>
  let w := wb s in
  if size =? 0 then Fault AssertFailed else
  match buffers_ w with
  | [] => Fault AssertFailed
  | c :: cs =>
      let min_write := Z.min (to_write_ w) (c_writable c - c_cursor c) in
      if zlen (c_buffer c) =? 0 then Raise (RuntimeError "Invalid buffer") s else
      if zlen (c_buffer c) <? c_cursor c + min_write then Fault OutOfBounds else
      match write (slice (c_cursor c) min_write (c_buffer c)) (wsk s) with
      | Ret n k =>
          let cur := if 0 <? n then c_cursor c + n else c_cursor c in
          let left := if 0 <? n then to_write_ w - n else to_write_ w in
          let bufs := if cur =? c_writable c then cs
                      else Chunk cur (c_writable c) (c_buffer c) :: cs in
          if (left =? 0) || negb (zlen bufs =? 0) then
            Ret (n, left =? 0) (Writer (WriteBuffer left bufs) k)
          else Fault AssertFailed
      | Raise e k => Raise e s
      | Fault f => Fault f
      end
  end.

Definition do_write : prog writer (Z * bool) := fun s => do_write_size (to_write_ (wb s)) s.

(** ** The loop of the handlers *)

(** How a round of writes ended: everything is out, the socket would block,
    [write] took nothing, or it failed. *)
Inductive drain_end := Drained | WouldBlock | TookNothing | WFailed (errno : Z).

Fixpoint drain (transient : Z -> bool) (fuel : nat) : prog writer drain_end := fun s =>
  match to_write (wb s) with
  | Ret 0 _ => Ret Drained s
  | Ret _ _ =>
      match fuel with
      | O => Ret WouldBlock s
      | S fuel =>
          (let! res := do_write in fun s =>
           let r := fst res in
           if (r <? 0) && negb (transient (errno (wsk s))) then Ret (WFailed (errno (wsk s))) s
           else if r =? 0 then Ret TookNothing s
           else if r <? 0 then Ret WouldBlock s
           else drain transient fuel s) s
      end
  | Raise e _ => Raise e s
  | Fault f => Fault f
  end.

(** ** Invariant *)

(** The bytes of a chunk still to be sent. *)
Definition chunk_left (c : chunk) : list Z :=
  slice (c_cursor c) (c_writable c - c_cursor c) (c_buffer c).

Definition unsent (w : write_buffer) : list Z := concat (map chunk_left (buffers_ w)).

Definition chunk_ok (c : chunk) : Prop :=
  0 <= c_cursor c < c_writable c /\ c_writable c <= zlen (c_buffer c).

(** No chunk is spent, and the debugging counter is right. *)
Record QWF (w : write_buffer) : Prop := {
  qwf_chunks : Forall chunk_ok (buffers_ w);
  qwf_count : to_write_ w = zlen (unsent w) }.

Lemma zlen_chunk_left c : chunk_ok c -> zlen (chunk_left c) = c_writable c - c_cursor c.
Proof. intros [? ?]. apply zlen_slice; lia. Qed.

Lemma write_buffer_ctor_QWF : QWF write_buffer_ctor.
Proof. split; [constructor|done]. Qed.

Lemma unsent_snoc t bs c : unsent (WriteBuffer t (bs ++ [c])) = concat (map chunk_left bs) ++ chunk_left c.
Proof. unfold unsent. simpl. rewrite map_app, concat_app. simpl. by rewrite app_nil_r. Qed.

Lemma push_QWF w c n :
  QWF w -> chunk_ok c -> n = zlen (chunk_left c) ->
  QWF (WriteBuffer (to_write_ w + n) (buffers_ w ++ [c])) /\
  unsent (WriteBuffer (to_write_ w + n) (buffers_ w ++ [c])) = unsent w ++ chunk_left c.
Proof.
  intros [Hc Ht] Hok ->. split; [|apply unsent_snoc]. split; simpl.
  - apply Forall_app. by split; [|constructor].
  - rewrite unsent_snoc, zlen_app, Ht. done.
Qed.

Section Spec.
Context (page : Z) (Hpage : 0 < page <= 2 ^ 62).

Lemma append_bytes_spec w bs :
  QWF w -> 0 < zlen bs < 2 ^ 62 ->
  exists w', append_bytes page bs w = Ret tt w' /\ QWF w' /\ unsent w' = unsent w ++ bs.
Proof.
  intros HW Hn. unfold append_bytes, chunk_of_bytes. destruct (Z.eqb_spec (zlen bs) 0); [lia|].
  erewrite bind_ret by done. pose proof (wcap_bounds page Hpage (zlen bs)).
  assert (zlen (vb_new page (zlen bs)) = wcap page (zlen bs)) as Hv by (unfold vb_new; rewrite zlen_zrep; lia).
  set (c := Chunk 0 (zlen bs) (splice 0 bs (vb_new page (zlen bs)))).
  assert (chunk_left c = bs) as Hl.
  { unfold chunk_left, c. simpl. rewrite Z.sub_0_r. apply splice_same; lia. }
  assert (chunk_ok c) as Hok.
  { split; simpl; [lia|]. rewrite zlen_splice; lia. }
  destruct (push_QWF w c (zlen bs) HW Hok) as [HW' Hu]; [by rewrite Hl|].
  eexists. split; [reflexivity|]. split; [exact HW'|]. by rewrite Hu, Hl.
Qed.

Lemma append_bytes_empty w : append_bytes page [] w = Raise (RuntimeError "bad buffer") w.
Proof. done. Qed.

Lemma append_buffer_spec w b len :
  QWF w -> 0 < len <= zlen b ->
  exists w', append_buffer b len w = Ret tt w' /\ QWF w' /\ unsent w' = unsent w ++ ztake len b.
Proof.
  intros HW Hn. unfold append_buffer, chunk_of_buffer, assert. destruct (Z.leb_spec len (zlen b)); [|lia].
  erewrite bind_ret by done. erewrite bind_ret by done.
  assert (chunk_ok (Chunk 0 len b)) as Hok by (split; simpl; lia).
  assert (chunk_left (Chunk 0 len b) = ztake len b) as Hl
    by (unfold chunk_left; simpl; by rewrite slice_0, Z.sub_0_r).
  destruct (push_QWF w _ len HW Hok) as [HW' Hu]; [rewrite Hl, zlen_ztake; lia|].
  eexists. split; [reflexivity|]. split; [exact HW'|]. by rewrite Hu, Hl.
Qed.
End Spec.

Lemma to_write_ok w : QWF w -> to_write w = Ret (zlen (unsent w)) w.
Proof.
  intros [Hc Ht]. unfold to_write. rewrite <- Ht.
  destruct (buffers_ w) as [|c cs] eqn:Hb.
  - unfold unsent in Ht. rewrite Hb in Ht. simpl in Ht. rewrite Ht. done.
  - rewrite zlen_cons. pose proof (zlen_nonneg cs).
    destruct (Z.eqb_spec (1 + zlen cs) 0); [lia|]. by rewrite orb_true_r.
Qed.

(** The front of the queue after [n] of its bytes were taken. *)
Lemma advance_ok c cs n :
  chunk_ok c -> Forall chunk_ok cs -> 0 <= n <= zlen (chunk_left c) ->
  let bufs := if c_cursor c + n =? c_writable c then cs
              else Chunk (c_cursor c + n) (c_writable c) (c_buffer c) :: cs in
  Forall chunk_ok bufs /\
  concat (map chunk_left bufs) = zdrop n (chunk_left c) ++ concat (map chunk_left cs) /\
  (bufs = [] -> cs = [] /\ n = zlen (chunk_left c)).
Proof.
  intros Hok Hcs Hn. pose proof (zlen_chunk_left c Hok) as Hl. destruct Hok as [? ?].
  destruct (Z.eqb_spec (c_cursor c + n) (c_writable c)); simpl.
  - rewrite (zdrop_all n) by lia. split_and!; auto. intros ->. split; [done|lia].
  - split_and!; [|f_equal|done].
    + constructor; [|done]. split; simpl; lia.
    + unfold chunk_left, slice. simpl.
      replace (c_writable c - c_cursor c) with (n + (c_writable c - (c_cursor c + n))) by lia.
      rewrite ztake_add by lia. rewrite zdrop_app_exact by (rewrite zlen_ztake, zlen_zdrop; lia).
      unfold slice. by rewrite zdrop_zdrop by lia.
Qed.

(** The result of [write] on a nonempty string. *)
Lemma write_spec bs k :
  bs <> [] ->
  exists r k', write bs k = Ret r k' /\ r <= zlen bs /\
    tx k' = tx k ++ ztake (Z.max 0 r) bs /\ rx k' = rx k /\ wx k' = tail (wx k) /\
    match wx k with
    | WErr e :: _ => r = -1 /\ errno k' = e
    | [] => r = -1 /\ errno k' = EAGAIN
    | WAccept n :: _ => 0 <= r /\ (0 < n -> 0 < r)
    end.
Proof.
  intros Hne. assert (0 < zlen bs) as Hb by (destruct bs; [done|rewrite zlen_cons; pose proof (zlen_nonneg bs); lia]).
  unfold write. destruct (wx k) as [|[n|e] r]; eexists _, _; (split; [done|]); simpl;
    try (split_and!; done || lia || by rewrite app_nil_r).
  rewrite zlen_ztake. unfold MAX_RW in *. split_and!; [lia| |done|done|lia|lia]. f_equal.
  destruct (Z.le_gt_cases (Z.min n 2147479552) (zlen bs)).
  - destruct (Z.le_gt_cases n 0); [by rewrite !ztake_neg by lia|]. f_equal. lia.
  - by rewrite !ztake_all by lia.
Qed.

(** One write with work to do: what the kernel took moves from the front of
    the queue to the wire. *)
Lemma do_write_spec s :
  QWF (wb s) -> unsent (wb s) <> [] ->
  exists r s', do_write s = Ret (r, to_write_ (wb s') =? 0) s' /\ QWF (wb s') /\
    tx (wsk s') ++ unsent (wb s') = tx (wsk s) ++ unsent (wb s) /\
    rx (wsk s') = rx (wsk s) /\ wx (wsk s') = tail (wx (wsk s)) /\
    zlen (unsent (wb s')) = zlen (unsent (wb s)) - Z.max 0 r /\
    match wx (wsk s) with
    | WErr e :: _ => r = -1 /\ errno (wsk s') = e
    | [] => r = -1 /\ errno (wsk s') = EAGAIN
    | WAccept n :: _ => 0 <= r /\ (0 < n -> 0 < r)
    end.
Proof.
  intros [Hc Ht] Hne. unfold do_write, do_write_size. destruct s as [[t bufs] k].
  unfold unsent in *. simpl in *. destruct bufs as [|c cs]; [done|]. simpl in *.
  apply Forall_cons in Hc as [Hok Hcs].
  pose proof (zlen_chunk_left c Hok) as Hcl. pose proof Hok as [Hc1 Hc2]. rewrite zlen_app in Ht.
  pose proof (zlen_nonneg (concat (map chunk_left cs))).
  destruct (Z.eqb_spec t 0) as [|Ht0]; [lia|]. destruct (Z.eqb_spec (zlen (c_buffer c)) 0) as [|Hb0]; [lia|].
  replace (Z.min t (c_writable c - c_cursor c)) with (c_writable c - c_cursor c) by lia.
  destruct (Z.ltb_spec (zlen (c_buffer c)) (c_cursor c + (c_writable c - c_cursor c))); [lia|].
  fold (chunk_left c). destruct (write_spec (chunk_left c) k) as (r&k'&Hw&Hr&Htx&Hrx&Hwx&Hcase).
  { intros Hz. rewrite Hz in Hcl. change (zlen []) with 0 in Hcl. lia. }
  rewrite Hw. set (n := Z.max 0 r).
  replace (if 0 <? r then c_cursor c + r else c_cursor c) with (c_cursor c + n) by (zcase; lia).
  replace (if 0 <? r then t - r else t) with (t - n) by (zcase; lia).
  destruct (advance_ok c cs n Hok Hcs) as (Hf&Hcat&Hnil); [lia|].
  set (bufs' := if c_cursor c + n =? c_writable c then cs else _) in *.
  assert (zlen (concat (map chunk_left bufs')) = t - n) as Hlen.
  { rewrite Hcat, zlen_app, zlen_zdrop. lia. }
  replace ((t - n =? 0) || negb (zlen bufs' =? 0)) with true.
  2: { symmetry. apply orb_true_iff. assert (bufs' = [] \/ bufs' <> []) as [Hz|Hz] by (destruct bufs'; auto).
       - left. destruct (Hnil Hz) as [-> ?]. simpl in *. change (zlen []) with 0 in *. apply Z.eqb_eq. lia.
       - right. apply negb_true_iff, Z.eqb_neq. intros ?%zlen_0_nil. done. }
  exists r, (Writer (WriteBuffer (t - n) bufs') k'). split; [reflexivity|]. unfold unsent. simpl. rewrite !zlen_app. split_and!; auto; [by split|..].
  - rewrite Hcat, Htx, <- app_assoc. f_equal. by rewrite app_assoc, ztake_zdrop.
  - lia.
Qed.

(** A round of writes. *)
Lemma drain_spec transient fuel s :
  QWF (wb s) -> transient EAGAIN = true -> (length (wx (wsk s)) < fuel)%nat ->
  exists e s', drain transient fuel s = Ret e s' /\ QWF (wb s') /\
    tx (wsk s') ++ unsent (wb s') = tx (wsk s) ++ unsent (wb s) /\
    rx (wsk s') = rx (wsk s) /\ (e = Drained <-> unsent (wb s') = []) /\
    (forall n, e = WFailed n -> transient n = false) /\
    (unsent (wb s) = [] -> e = Drained).
Proof.
  intros HW Htr. revert s HW. induction fuel as [|fuel IH]; intros s HW Hf; [lia|]. simpl.
  rewrite to_write_ok by done. destruct (decide (unsent (wb s) = [])) as [H0|H0].
  - replace (zlen (unsent (wb s))) with 0 by by rewrite H0. eexists _, s. split_and!; try done; by split.
  - assert (zlen (unsent (wb s)) <> 0) as Hnz by (by intros ?%zlen_0_nil).
    destruct (do_write_spec s HW H0) as (r&s1&Hr&HW1&Hcons&Hrx&Hwx&Hlen&Hcase).
    assert (unsent (wb s1) = [] -> 0 < r) as Hpos.
    { intros Hu. rewrite Hu in Hlen. change (zlen []) with 0 in Hlen. pose proof (zlen_nonneg (unsent (wb s))). lia. }
    replace (match zlen (unsent (wb s)) with 0 => _ | _ => _ end)
      with ((let! res := do_write in fun s => let r := fst res in
       if (r <? 0) && negb (transient (errno (wsk s))) then Ret (WFailed (errno (wsk s))) s
       else if r =? 0 then Ret TookNothing s else if r <? 0 then Ret WouldBlock s else drain transient fuel s) s)
      by (destruct (zlen (unsent (wb s))); done).
    run_step Hr. simpl. destruct (Z.ltb_spec r 0) as [Hneg|Hneg]; simpl.
    + destruct (transient (errno (wsk s1))) eqn:Et; simpl; destruct (Z.eqb_spec r 0); try lia;
        eexists _, s1; split_and!; try done; try congruence; split; try done; intros ?%Hpos; lia.
    + destruct (Z.eqb_spec r 0).
      * eexists _, s1. split_and!; try done. split; [done|]. intros ?%Hpos; lia.
      * destruct (IH s1) as (e&s'&Hr'&HW'&Hc'&Hrx'&He&Hfa&_); [done| |].
        { rewrite Hwx. destruct (wx (wsk s)) as [|[]]; simpl in *; lia. }
        exists e, s'. split_and!; try done; congruence.
Qed.

(** Answers of the kernel that do not end the connection, and a first one that
    takes something. *)
Definition soft (transient : Z -> bool) (x : write_event) : bool := match x with WErr e => transient e | WAccept _ => true end.
Definition takes_some (ws : list write_event) : bool := match ws with WAccept m :: _ => 0 <? m | _ => false end.

(** With such answers a round does not fail, and it gets on. *)
Lemma drain_soft transient fuel s e s' :
  QWF (wb s) -> transient EAGAIN = true -> Forall (fun x => soft transient x = true) (wx (wsk s)) ->
  drain transient fuel s = Ret e s' ->
  (forall n, e <> WFailed n) /\ zlen (unsent (wb s')) <= zlen (unsent (wb s)) /\
  ((0 < fuel)%nat -> unsent (wb s) <> [] -> takes_some (wx (wsk s)) = true -> zlen (unsent (wb s')) < zlen (unsent (wb s))).
Proof.
  intros HW Htr. revert s HW. induction fuel as [|fuel IH]; intros s HW HF H; simpl in H; rewrite to_write_ok in H by done.
  { assert (s' = s /\ forall n, e <> WFailed n) as [-> He] by (destruct (zlen (unsent (wb s))); by injection H as <- <-). split_and!; [done|lia|intros; lia]. }
  destruct (decide (unsent (wb s) = [])) as [H0|H0].
  { replace (zlen (unsent (wb s))) with 0 in H by by rewrite H0. injection H as <- <-. split_and!; [done|lia|done]. }
  assert (zlen (unsent (wb s)) <> 0) as Hnz by (by intros ?%zlen_0_nil).
  destruct (do_write_spec s HW H0) as (r&s1&Hr&HW1&_&_&Hwx&Hlen&Hcase).
  assert (soft transient (WErr (errno (wsk s1))) = true \/ 0 <= r) as Hsoft.
  { destruct (wx (wsk s)) as [|[n|n] ws]; [left; destruct Hcase as [_ ->]; done|right; apply Hcase|left; destruct Hcase as [_ ->]; by apply Forall_cons in HF as [? _]]. }
  assert (takes_some (wx (wsk s)) = true -> 0 < r) as Htk by (destruct (wx (wsk s)) as [|[n|n] ws]; simpl; [done|intros ?%Z.ltb_lt; by apply Hcase|done]).
  replace (match zlen (unsent (wb s)) with 0 => _ | _ => _ end)
    with ((let! res := do_write in fun s => let r := fst res in
     if (r <? 0) && negb (transient (errno (wsk s))) then Ret (WFailed (errno (wsk s))) s
     else if r =? 0 then Ret TookNothing s else if r <? 0 then Ret WouldBlock s else drain transient fuel s) s) in H
    by (destruct (zlen (unsent (wb s))); done).
  erewrite bind_ret in H by exact Hr. cbv beta zeta in H. simpl fst in H. destruct (Z.ltb_spec r 0) as [Hneg|Hneg]; cbn [andb] in H.
  - destruct Hsoft as [Hs|]; [|lia]. simpl in Hs. rewrite Hs in H. cbn [negb] in H. destruct (Z.eqb_spec r 0); [lia|]. injection H as <- <-.
    split_and!; [done|lia|]. intros _ _ ?%Htk. lia.
  - destruct (Z.eqb_spec r 0).
    + injection H as <- <-. split_and!; [done|lia|]. intros _ _ ?%Htk. lia.
    + destruct (IH s1) as (He&Hl&_); [done| |done|]. { rewrite Hwx. destruct (wx (wsk s)); [done|by apply Forall_cons in HF as [_ ?]]. }
      split_and!; [done|lia|intros; lia].
Qed.

(** A write that fails ends the round at once. *)
Lemma drain_fails transient fuel s e :
  QWF (wb s) -> unsent (wb s) <> [] -> (exists r, wx (wsk s) = WErr e :: r) -> transient e = false ->
  exists s', drain transient (S fuel) s = Ret (WFailed e) s'.
Proof.
  intros HW Hne [r Hwx] Ht. destruct (do_write_spec s HW Hne) as (n&s1&Hr&_&_&_&_&_&Hcase).
  rewrite Hwx in Hcase. destruct Hcase as [-> He]. exists s1. simpl. rewrite to_write_ok by done.
  assert (zlen (unsent (wb s)) <> 0) as Hnz by (by intros ?%zlen_0_nil).
  destruct (zlen (unsent (wb s))); [done|..]; (run_step Hr; simpl; by rewrite He, Ht).
Qed.

(** A round of writes returns within as many calls as the kernel answers,
    never trips an assertion or reads outside a buffer, keeps the queue's
    invariant, and what is on the wire followed by what is still queued is
    unchanged: bytes leave in the order they were appended, none is lost or sent
    twice. The round reports completion exactly when the queue is empty. *)
Theorem write_round transient s :
  QWF (wb s) -> transient EAGAIN = true ->
  exists e s', drain transient (1 + length (wx (wsk s))) s = Ret e s' /\ QWF (wb s') /\
    tx (wsk s') ++ unsent (wb s') = tx (wsk s) ++ unsent (wb s) /\
    (e = Drained <-> unsent (wb s') = []).
Proof.
  intros HW Ht. destruct (drain_spec transient (1 + length (wx (wsk s))) s) as (e&s'&?&?&?&_&?&_); [done|done|lia|]. eauto 8.
Qed.

Definition two_appends : write_buffer :=
  match (do! append_bytes 4096 [1; 2; 3] in append_buffer [4; 5; 6] 2) write_buffer_ctor with
  | Ret _ w => w
  | _ => write_buffer_ctor
  end.

Lemma write_round_witness :
  exists e s', drain (fun e => e =? EAGAIN) 4 (Writer two_appends (Sock [] [WAccept 2; WAccept 9; WAccept 1] [] 0))
               = Ret e s' /\ tx (wsk s') = [1; 2; 3; 4] /\ unsent (wb s') = [5].
Proof.
  destruct (write_round (fun e => e =? EAGAIN) (Writer two_appends (Sock [] [WAccept 2; WAccept 9; WAccept 1] [] 0)))
    as (e&s'&Hr&_&_&_); [|reflexivity|].
  { change two_appends with (WriteBuffer 5 [Chunk 0 3 [1; 2; 3]; Chunk 0 2 [4; 5; 6]]).
    split; [repeat constructor; vm_compute; congruence|reflexivity]. }
  exists e, s'. split; [exact Hr|]. vm_compute in Hr. inversion Hr. split; reflexivity.
Defined.
