(* ===== verification/LogServer.v ===== *)
(** * The log server: collector, input and output connections

    logserver/src/collector.cpp, input_cxn.cpp and output_cxn.cpp with the
    accept handlers of shared/includes/accept_handler.hpp. The objects the
    sources reach by pointer live in maps of the server state; a handler that
    deletes itself leaves its map. *)

From S2P Require Import Prelude.
From S2P Require Import Bytes.
From S2P Require Import Net.
From S2P Require Import ReadBuffer.
From S2P Require Import WriteBuffer.

(** ** State *)

(** struct sized_buffer; [sb_len] is the usable length. *)
Record sized_buffer := SizedBuffer { sb_buffer : list Z; sb_len : Z; sb_source : Z }.

Definition no_buffer : sized_buffer := SizedBuffer [] 0 0.

(** struct sized_buffer_queue; the head of the list is the deque's front. *)
Record sized_buffer_queue := SBQueue { queue : list sized_buffer; total_size : Z }.

Definition empty_queue : sized_buffer_queue := SBQueue [] 0.

(** output_cxn::handler, with the kernel's side of its descriptor *)
Record out_handler := OutHandler {
  interests : Z;
  o_events : Z;
  write_queue : write_buffer;
  o_io : evio;
  o_sock : sock }.

Definition RECV_HEADER : Z := 1.
Definition RECV_LOG : Z := 2.

(** input_cxn::handler *)
Record in_handler := InHandler {
  read_queue : reader;
  i_state : Z;
  i_io : evio;
  i_id : Z }.

(** The server: the collector's queues by consumer, the live handlers by
    address, the static tables, the clock and the descriptors closed so far. *)
Record server := Server {
  queues : gmap Z sized_buffer_queue;
  outs : gmap Z out_handler;
  ins : gmap Z in_handler;
  g_interests : gmap Z Z;
  taken_ids : gset Z;
  now : Z;
  closed : list Z }.

Definition with_queues q s := Server q (outs s) (ins s) (g_interests s) (taken_ids s) (now s) (closed s).
Definition with_outs o s := Server (queues s) o (ins s) (g_interests s) (taken_ids s) (now s) (closed s).
Definition with_ins i s := Server (queues s) (outs s) i (g_interests s) (taken_ids s) (now s) (closed s).
Definition with_closed c s := Server (queues s) (outs s) (ins s) (g_interests s) (taken_ids s) (now s) c.

Definition out_at (h : Z) : prog server out_handler := fun s => deref UseAfterFree (outs s !! h) s.
Definition in_at (h : Z) : prog server in_handler := fun s => deref UseAfterFree (ins s !! h) s.
Definition set_out (h : Z) (o : out_handler) : prog server unit := modify (fun s => with_outs (<[h := o]> (outs s)) s).
Definition set_in (h : Z) (i : in_handler) : prog server unit := modify (fun s => with_ins (<[h := i]> (ins s)) s).
Definition close (f : Z) : prog server unit := modify (fun s => with_closed (closed s ++ [f]) s).

(** The errors a handler takes for "try again". *)
Definition again (e : Z) : bool := (e =? EWOULDBLOCK) || (e =? EAGAIN) || (e =? EINTR).

(** ** accept_handler *)

(** handle_accept_error of both connection classes: stop and close the
    listening watcher [a]. *)
Definition out_handle_accept_error (a : evio) : prog server evio :=
  do! close (fd a) in ret (io_stop a).
Definition in_handle_accept_error (a : evio) : prog server evio :=
  do! close (fd a) in ret (io_stop a).

(** accept_handler<T>::io_cb; [r] is the descriptor accepted or the errno. *)
Definition accept_io_cb (handle_accept : Z -> prog server unit)
    (handle_accept_error : evio -> prog server evio) (a : evio) (r : Z + Z) : prog server evio :=
  match r with
  | inr e => if again e then ret a else handle_accept_error a
  | inl client => do! handle_accept client in ret a
  end.

(** ** output_cxn::handler, first part *)

Definition interested (o : out_handler) (x : Z) : bool := has x (interests o).

Definition with_oio (w : evio) (o : out_handler) : out_handler :=
  OutHandler (interests o) (o_events o) (write_queue o) w (o_sock o).

Definition set_events (events : Z) (o : out_handler) : out_handler :=
  if events =? o_events o then o
  else OutHandler (interests o) events (write_queue o)
         (io_start (io_set_events events (o_io o))) (o_sock o).

(** ** collector *)

Definition add_consumer (h : Z) : prog server unit :=
  modify (fun s => match queues s !! h with
                   | Some _ => s
                   | None => with_queues (<[h := empty_queue]> (queues s)) s
                   end).

Definition retire_consumer (h : Z) : prog server unit :=
  modify (fun s => with_queues (delete h (queues s)) s).

(** output_cxn::handler::~handler and the [delete] that runs it *)
Definition out_delete (h : Z) : prog server unit :=
  let! o := out_at h in
  do! retire_consumer h in
  do! (if 0 <=? fd (o_io o) then
         do! set_out h (with_oio (io_stop (o_io o)) o) in close (fd (o_io o))
       else ret tt) in
  modify (fun s => with_outs (delete h (outs s)) s).

(** data.const_ptr()[0] *)
Definition first_byte (data : list Z) : prog server Z :=
  match data with
  | [] => raise (RuntimeError "Invalid buffer")
  | x :: _ => ret x
  end.

(** One turn of the loop of collector::append on the consumer [h]; the result
    is whether it has to be disconnected. *)
Definition append_to (max_size : Z) (data : list Z) (p : sized_buffer) (h : Z) : prog server bool :=
  let! o := out_at h in
  let! x := first_byte data in
  if interested o x then
    let! s := get in
    let! q := deref UseAfterFree (queues s !! h) in
    let q' := SBQueue (p :: queue q) (total_size q + sb_len p) in
    do! modify (fun s => with_queues (<[h := q']> (queues s)) s) in
    do! set_out h (set_events (Z.lor (o_events o) ev_WRITE) o) in
    ret (max_size <? total_size q')
  else ret false.

Fixpoint append_each (max_size : Z) (data : list Z) (p : sized_buffer) (hs : list Z) : prog server (list Z) :=
  match hs with
  | [] => ret []
  | h :: hs =>
      let! m := append_to max_size data p h in
      let! ms := append_each max_size data p hs in
      ret (if m then h :: ms else ms)
  end.

Fixpoint delete_each (hs : list Z) : prog server unit :=
  match hs with
  | [] => ret tt
  | h :: hs => do! out_delete h in delete_each hs
  end.

(** collector::append; consumers over the limit are deleted after the loop. *)
Definition collector_append (max_size : Z) (data : list Z) (len source_id : Z) : prog server unit :=
  let! s := get in
  let! morose := append_each max_size data (SizedBuffer data len source_id) (map fst (map_to_list (queues s))) in
  delete_each morose.

(** collector::pop: the oldest entry of [h]'s queue *)
Definition collector_pop (h : Z) : prog server sized_buffer := fun s =>
  match queues s !! h with
  | None => Ret no_buffer s
  | Some q =>
      match last (queue q) with
      | None => Ret no_buffer s
      | Some rv =>
          Ret rv (with_queues (<[h := SBQueue (removelast (queue q)) (total_size q - sb_len rv)]> (queues s)) s)
      end
  end.

(** ** output_cxn::handler *)

Definition set_interest (a interest : Z) : prog server unit :=
  modify (fun s => Server (queues s) (outs s) (ins s)
    (if interest =? 0 then delete a (g_interests s) else <[a := interest]> (g_interests s))
    (taken_ids s) (now s) (closed s)).

Definition get_interests (a : Z) (s : server) : Z := default 0 (g_interests s !! a).

(** output_cxn::handler::handler at the address [h] *)
Definition out_ctor (h f ints : Z) (k : sock) : prog server unit :=
  do! set_out h (OutHandler ints ev_NONE write_buffer_ctor (io_start (EvIo f ev_NONE false)) k) in
  add_consumer h.

(** output_cxn::handler::handle_accept *)
Definition out_handle_accept (a h f : Z) (k : sock) : prog server unit :=
  let! s := get in out_ctor h f (get_interests a s) k.

Definition out_suicide (h : Z) : prog server unit :=
  let! o := out_at h in
  if 0 <=? fd (o_io o) then
    do! close (fd (o_io o)) in
    do! set_out h (with_oio (io_set_fd (-1) (io_stop (o_io o))) o) in
    out_delete h
  else ret tt.


Definition with_wq (w : write_buffer) (o : out_handler) : out_handler :=
  OutHandler (interests o) (o_events o) w (o_io o) (o_sock o).

(** The loop of io_cb on the handler's queue and socket. *)
Definition out_drain (o : out_handler) : out out_handler drain_end :=
  match drain again (1 + length (wx (o_sock o))) (Writer (write_queue o) (o_sock o)) with
  | Ret e w => Ret e (OutHandler (interests o) (o_events o) (wb w) (o_io o) (wsk w))
  | Raise e w => Raise e o
  | Fault f => Fault f
  end.

(** The append of one entry: its length plus four, its source, its bytes. *)
Definition append_entry (page : Z) (p : sized_buffer) : prog write_buffer unit :=
  do! append_bytes page (le_bytes 4 (hton32 (u32 (sb_len p + 4)))) in
  do! append_bytes page (le_bytes 4 (hton32 (sb_source p))) in
  append_buffer (sb_buffer p) (sb_len p).

Definition out_io_cb (page h revents : Z) : prog server unit :=
  if has revents ev_WRITE then
    let! o := out_at h in
    match out_drain o with
    | Ret (WFailed _) o' => do! set_out h o' in out_suicide h
    | Ret TookNothing o' => do! set_out h o' in out_suicide h
    | Ret WouldBlock o' => set_out h o'
    | Ret Drained o' =>
        do! set_out h o' in
        let! p := collector_pop h in
        if sb_len p =? 0 then
          set_out h (OutHandler (interests o') ev_NONE (write_queue o')
                       (io_stop (io_set_events ev_NONE (o_io o'))) (o_sock o'))
        else
          match append_entry page p (write_queue o') with
          | Ret _ w => set_out h (with_wq w o')
          | Raise e w => do! set_out h (with_wq w o') in raise e
          | Fault f => crash f
          end
    | Raise e o' => do! set_out h o' in raise e
    | Fault f => crash f
    end
  else ret tt.

(** ** input_cxn::handler *)

(** The loop that looks for a free id; sleep(1) lets a second pass. *)
Fixpoint pick_id (fuel : nat) : prog server Z := fun s =>
  let id := u32 (now s) in
  if bool_decide (id ∈ taken_ids s) then
    match fuel with
    | O => Ret id s
    | S fuel => pick_id fuel (Server (queues s) (outs s) (ins s) (g_interests s) (taken_ids s) (now s + 1) (closed s))
    end
  else Ret id (Server (queues s) (outs s) (ins s) (g_interests s) ({[id]} ∪ taken_ids s) (now s) (closed s)).

(** input_cxn::handler::handler at the address [h] *)
Definition in_ctor (page h f : Z) (k : sock) : prog server unit :=
  let! s := get in
  let! id := pick_id (1 + size (taken_ids s)) in
  set_in h (InHandler (Reader (read_buffer_ctor page 4) k) RECV_HEADER
              (io_start (EvIo f ev_READ false)) id).

(** input_cxn::handler::handle_accept *)
Definition in_handle_accept (page h f : Z) (k : sock) : prog server unit := in_ctor page h f k.

(** io_cb works on the handler and, through the collector, on the server. *)
Record in_state := InState { this : in_handler; srv : server }.

#[export] Instance in_reader : HasReader in_state := {|
  rdr s := read_queue (this s);
  set_rdr r s := InState (InHandler r (i_state (this s)) (i_io (this s)) (i_id (this s))) (srv s);
  rdr_set r s := eq_refl |}.

Definition set_i_state (x : Z) : prog in_state unit :=
  modify (fun s => InState (InHandler (read_queue (this s)) x (i_io (this s)) (i_id (this s))) (srv s)).

Definition with_rdr {A} (c : prog reader A) : prog in_state A := zoom rdr set_rdr c.

(** What io_cb does with a completed item. *)
Definition in_full (max_size : Z) : prog in_state unit :=
  let! s := get in
  if i_state (this s) =? RECV_HEADER then
    do! with_rdr (set_cursor 0) in
    do! (if 4 <=? zlen (extract_buffer (rdr s)) then ret tt else crash OutOfBounds) in
    do! with_rdr (set_to_read (ntoh32 (le_val (ztake 4 (extract_buffer (rdr s)))))) in
    set_i_state RECV_LOG
  else
    do! zoom srv (fun v s => InState (this s) v)
          (collector_append max_size (extract_buffer (rdr s)) (cursor (rdr s)) (i_id (this s))) in
    do! with_rdr (set_cursor 0) in
    do! with_rdr (set_to_read 4) in
    set_i_state RECV_HEADER.

(** input_cxn::handler::~handler and the [delete] that runs it *)
Definition in_delete (h : Z) : prog server unit :=
  let! i := in_at h in
  do! (if 0 <=? fd (i_io i) then
         do! set_in h (InHandler (read_queue i) (i_state i) (io_stop (i_io i)) (i_id i)) in close (fd (i_io i))
       else ret tt) in
  modify (fun s => with_ins (delete h (ins s)) s).

(** input_cxn::handler::suicide *)
Definition in_suicide (h : Z) : prog server unit :=
  let! i := in_at h in
  do! close (fd (i_io i)) in
  do! set_in h (InHandler (read_queue i) (i_state i) (io_set_fd (-1) (io_stop (i_io i))) (i_id i)) in
  in_delete h.

Definition in_io_cb (page max_size h revents : Z) : prog server unit := fun s =>
  if has revents ev_READ then
    match ins s !! h with
    | None => Fault UseAfterFree
    | Some i =>
        match read_loop page again (in_full max_size) (1 + length (stream (read_queue i))) (InState i s) with
        | Ret e t =>
            let s' := with_ins (<[h := this t]> (ins (srv t))) (srv t) in
            match e with
            | Eof | Failed _ => in_suicide h s'
            | _ => Ret tt s'
            end
        | Raise e t => Raise e (with_ins (<[h := this t]> (ins (srv t))) (srv t))
        | Fault f => Fault f
        end
    end
  else Ret tt s.

(** ** Invariant *)

Definition sizes (l : list sized_buffer) : Z := foldr (fun p n => sb_len p + n) 0 l.

Definition sb_ok (p : sized_buffer) : Prop :=
  0 < sb_len p <= zlen (sb_buffer p) /\ 0 <= sb_source p < 2 ^ 32.

(** A consumer and its queue: the byte count is right and within the limit, and
    whenever there is something to send, the loop watches for writability. *)
Record OWF (max_size : Z) (q : sized_buffer_queue) (o : out_handler) : Prop := {
  owf_total : total_size q = sizes (queue q);
  owf_max : total_size q <= max_size;
  owf_entries : Forall sb_ok (queue q);
  owf_wq : QWF (write_queue o);
  owf_fd : 0 <= fd (o_io o);
  owf_ev : io_ev (o_io o) = o_events o;
  owf_on : has (o_events o) ev_WRITE = true -> io_on (o_io o) = true;
  owf_wake : queue q <> [] \/ unsent (write_queue o) <> [] -> has (o_events o) ev_WRITE = true }.

(** The collector has a queue for exactly the live consumers. *)
Definition SWF (max_size : Z) (s : server) : Prop := forall h,
  match queues s !! h, outs s !! h with
  | Some q, Some o => OWF max_size q o
  | None, None => True
  | _, _ => False
  end.

(** ** Abstract view *)

(** A consumer: what it wants, the entries waiting (oldest first), and the
    bytes on its wire or in its write queue. *)
Record consumer := Consumer { c_int : Z; c_backlog : list (Z * list Z); c_out : list Z }.

Definition entry (p : sized_buffer) : Z * list Z := (sb_source p, ztake (sb_len p) (sb_buffer p)).

Definition cview (q : sized_buffer_queue) (o : out_handler) : consumer :=
  Consumer (interests o) (rev (map entry (queue q))) (tx (o_sock o) ++ unsent (write_queue o)).

Definition view (s : server) : gmap Z consumer := map_zip_with cview (queues s) (outs s).

Definition backlog_size (c : consumer) : Z := foldr (fun e n => zlen (snd e) + n) 0 (c_backlog c).

(** What a record [rec] from [src] does to a consumer; one that would exceed
    the limit is disconnected. *)
Definition deliver (max_size src : Z) (rec : list Z) (c : consumer) : option consumer :=
  if has (default 0 (head rec)) (c_int c) then
    let c' := Consumer (c_int c) (c_backlog c ++ [(src, rec)]) (c_out c) in
    if max_size <? backlog_size c' then None else Some c'
  else Some c.

(** The parts of the server no collector operation changes. *)
Definition rest_eq (s s' : server) : Prop :=
  ins s' = ins s /\ g_interests s' = g_interests s /\ taken_ids s' = taken_ids s /\ now s' = now s.

Lemma rest_eq_trans s1 s2 s3 : rest_eq s1 s2 -> rest_eq s2 s3 -> rest_eq s1 s3.
Proof. intros (?&?&?&?) (?&?&?&?). split_and!; congruence. Qed.

Lemma sizes_app l1 l2 : sizes (l1 ++ l2) = sizes l1 + sizes l2.
Proof. induction l1; simpl; lia. Qed.

Lemma backlog_size_view q o :
  Forall sb_ok (queue q) -> backlog_size (cview q o) = sizes (queue q).
Proof.
  unfold backlog_size, cview. simpl. intros HF.
  assert (forall l n, foldr (fun e n => zlen (snd e) + n) n (map entry l) =
                      foldr (fun e n => zlen (snd e) + n) 0 (map entry l) + n) as Hn.
  { intros l n. induction l; simpl; lia. }
  induction HF as [|p l [? ?] HF IH]; simpl; [done|]. rewrite foldr_app. simpl.
  rewrite <- map_rev in *. rewrite Hn, IH, zlen_ztake. lia.
Qed.

(** ** collector::append *)

Section Append.
Context (max_size : Z) (data : list Z) (x : Z) (p : sized_buffer).
Context (Hx : head data = Some x).

Definition bump_q (q : sized_buffer_queue) (o : out_handler) : sized_buffer_queue :=
  if interested o x then SBQueue (p :: queue q) (total_size q + sb_len p) else q.
Definition bump_o (o : out_handler) : out_handler :=
  if interested o x then set_events (Z.lor (o_events o) ev_WRITE) o else o.
Definition over (q : sized_buffer_queue) (o : out_handler) : bool :=
  interested o x && (max_size <? total_size q + sb_len p).

Lemma append_to_spec h q o s :
  queues s !! h = Some q -> outs s !! h = Some o ->
  append_to max_size data p h s =
  Ret (over q o) (with_outs (<[h := bump_o o]> (outs s)) (with_queues (<[h := bump_q q o]> (queues s)) s)).
Proof.
  intros Hq Ho. unfold append_to, out_at, bump_q, bump_o, over. erewrite bind_ret by (by rewrite Ho).
  unfold first_byte. destruct data as [|y d]; [done|]. simpl in Hx. simplify_eq.
  erewrite bind_ret by done. destruct (interested o x); simpl.
  - unfold bind, get, deref. rewrite Hq. done.
  - unfold ret. f_equal. destruct s. unfold with_outs, with_queues. simpl in *. f_equal; by rewrite insert_id.
Qed.

Lemma append_each_spec hs s :
  NoDup hs -> (forall h, h ∈ hs -> exists q o, queues s !! h = Some q /\ outs s !! h = Some o) ->
  exists ms s', append_each max_size data p hs s = Ret ms s' /\ rest_eq s s' /\ NoDup ms /\
    (forall h, h ∈ ms -> h ∈ hs) /\
    (forall h, h ∉ hs -> queues s' !! h = queues s !! h /\ outs s' !! h = outs s !! h) /\
    (forall h q o, h ∈ hs -> queues s !! h = Some q -> outs s !! h = Some o ->
       queues s' !! h = Some (bump_q q o) /\ outs s' !! h = Some (bump_o o) /\
       (h ∈ ms <-> over q o = true)).
Proof.
  revert s. induction hs as [|h hs IH]; intros s Hnd Hall.
  - exists [], s. split_and!; try done; try constructor. all: set_solver.
  - apply NoDup_cons in Hnd as [Hh Hnd]. destruct (Hall h) as (q&o&Hq&Ho); [set_solver|].
    simpl. run_step append_to_spec; [|done..].
    set (s1 := with_outs _ _).
    destruct (IH s1) as (ms&s'&Hr&Hre&Hndm&Hsub&Hout&Hin); [done| |].
    { intros h' Hh'. assert (h' <> h) by set_solver. subst s1. simpl. rewrite !lookup_insert_ne by done. apply Hall. set_solver. }
    run_step Hr. destruct (Hout h Hh) as [Hqh Hoh]. subst s1. simpl in Hqh, Hoh.
    rewrite lookup_insert_eq in Hqh. rewrite lookup_insert_eq in Hoh.
    eexists _, s'. split; [reflexivity|]. split_and!.
    + eapply rest_eq_trans; [|exact Hre]. done.
    + destruct (over q o); [|done]. constructor; [|done]. intros ?%Hsub. done.
    + intros h' Hh'. destruct (over q o); set_solver.
    + intros h' Hh'. destruct (Hout h') as [-> ->]; [set_solver|]. simpl. rewrite !lookup_insert_ne by set_solver. done.
    + intros h' q' o' Hh' Hq' Ho'. destruct (decide (h' = h)) as [->|Hne].
      * simplify_eq. split_and!; [done..|]. destruct (over q o) eqn:E; [set_solver|].
        split; [|done]. intros ?%Hsub. done.
      * destruct (Hin h' q' o') as (?&?&?); [set_solver|simpl; by rewrite lookup_insert_ne..|].
        split_and!; try done. rewrite <- H1. destruct (over q o); set_solver.
Qed.
End Append.

Lemma out_delete_spec h o s :
  outs s !! h = Some o ->
  exists s', out_delete h s = Ret tt s' /\ rest_eq s s' /\
    queues s' = delete h (queues s) /\ outs s' = delete h (outs s).
Proof.
  intros Ho. unfold out_delete, out_at. erewrite bind_ret by (by rewrite Ho).
  erewrite bind_ret by done. destruct (0 <=? fd (o_io o)).
  - erewrite bind_ret by done. eexists. split; [reflexivity|]. simpl. split_and!; try done.
    by rewrite delete_insert_eq.
  - erewrite bind_ret by done. eexists. by split; [reflexivity|].
Qed.

Lemma delete_each_spec hs s :
  NoDup hs -> (forall h, h ∈ hs -> is_Some (outs s !! h)) ->
  exists s', delete_each hs s = Ret tt s' /\ rest_eq s s' /\
    (forall h, h ∈ hs -> queues s' !! h = None /\ outs s' !! h = None) /\
    (forall h, h ∉ hs -> queues s' !! h = queues s !! h /\ outs s' !! h = outs s !! h).
Proof.
  revert s. induction hs as [|h hs IH]; intros s Hnd Hall.
  - exists s. split_and!; try done. set_solver.
  - apply NoDup_cons in Hnd as [Hh Hnd]. destruct (Hall h) as [o Ho]; [set_solver|].
    destruct (out_delete_spec h o s Ho) as (s1&Hr1&Hre1&Hq1&Ho1). simpl. run_step Hr1.
    destruct (IH s1 Hnd) as (s'&Hr&Hre&Hin&Hout).
    { intros h' Hh'. rewrite Ho1, lookup_delete_ne by set_solver. apply Hall. set_solver. }
    exists s'. split_and!; [done|by eapply rest_eq_trans| |].
    + intros h' Hh'. destruct (decide (h' = h)) as [->|]; [|apply Hin; set_solver].
      destruct (Hout h Hh) as [-> ->]. rewrite Hq1, Ho1. by rewrite !lookup_delete_eq.
    + intros h' Hh'. destruct (Hout h') as [-> ->]; [set_solver|].
      rewrite Hq1, Ho1, !lookup_delete_ne by set_solver. done.
Qed.

(** The loop of append runs over the consumers, in the map's order. *)
Lemma keys_NoDup {A} (m : gmap Z A) : NoDup (map fst (map_to_list m)).
Proof. apply NoDup_fst_map_to_list. Qed.

Lemma keys_elem {A} (m : gmap Z A) h : h ∈ map fst (map_to_list m) <-> is_Some (m !! h).
Proof.
  split.
  - intros ([k v]&->&Hkv)%list_elem_of_fmap. apply elem_of_map_to_list in Hkv. eauto.
  - intros [v Hv]. apply list_elem_of_fmap. exists (h, v). split; [done|]. by apply elem_of_map_to_list.
Qed.

Lemma SWF_queue max_size s h q :
  SWF max_size s -> queues s !! h = Some q -> exists o, outs s !! h = Some o /\ OWF max_size q o.
Proof. intros HW Hq. specialize (HW h). rewrite Hq in HW. destruct (outs s !! h); [eauto|done]. Qed.

Lemma set_events_same e o :
  interests (set_events e o) = interests o /\ write_queue (set_events e o) = write_queue o /\
  o_sock (set_events e o) = o_sock o /\ fd (o_io (set_events e o)) = fd (o_io o).
Proof. unfold set_events. by destruct (e =? o_events o). Qed.

Lemma set_events_ev e o :
  io_ev (o_io o) = o_events o -> (has (o_events o) ev_WRITE = true -> io_on (o_io o) = true) ->
  o_events (set_events e o) = e /\ io_ev (o_io (set_events e o)) = e /\
  (has e ev_WRITE = true -> io_on (o_io (set_events e o)) = true).
Proof. unfold set_events. destruct (Z.eqb_spec e (o_events o)) as [->|]; done. Qed.

Lemma bump_deliver max_size x p q o :
  OWF max_size q o -> sb_ok p -> head (sb_buffer p) = Some x ->
  deliver max_size (sb_source p) (ztake (sb_len p) (sb_buffer p)) (cview q o) =
    (if over max_size x p q o then None else Some (cview (bump_q x p q o) (bump_o x o))) /\
  (over max_size x p q o = false -> OWF max_size (bump_q x p q o) (bump_o x o)).
Proof.
  intros HO Hp Hx. pose proof (backlog_size_view (SBQueue (p :: queue q) (total_size q + sb_len p)) o) as Hb.
  destruct HO as [Ht Hm He Hq Hf Hev Hon Hwk]. destruct (set_events_same (Z.lor (o_events o) ev_WRITE) o) as (E1&E2&E3&E4).
  destruct (set_events_ev (Z.lor (o_events o) ev_WRITE) o Hev Hon) as (E5&E6&E7).
  unfold deliver, over, bump_q, bump_o, interested. simpl.
  assert (default 0 (head (ztake (sb_len p) (sb_buffer p))) = x) as ->.
  { destruct (sb_buffer p) as [|y b]; [done|]. simpl in Hx. simplify_eq. destruct Hp as [[? ?] ?].
    unfold ztake. destruct (Z.to_nat (sb_len p)) eqn:E; [lia|]. done. }
  destruct (has x (interests o)); simpl; [|split; [done|]; intros _; by split].
  unfold cview in *. simpl in *. unfold entry at 2 in Hb. rewrite Hb by by constructor.
  rewrite Ht, (Z.add_comm (sizes _)). unfold cview. simpl. rewrite E1, E2, E3.
  split; [by destruct (max_size <? _)|]. intros ?. zb. split; simpl; rewrite ?E2, ?E4, ?E5, ?E6; try done; try lia; try (intros; by apply has_lor).
  by constructor.
Qed.

(** Appending a record delivers it to every interested consumer. *)
Lemma collector_append_spec max_size data len src s :
  SWF max_size s -> 0 < len <= zlen data -> 0 <= src < 2 ^ 32 ->
  exists s', collector_append max_size data len src s = Ret tt s' /\ SWF max_size s' /\
    view s' = omap (deliver max_size src (ztake len data)) (view s) /\ rest_eq s s'.
Proof.
  intros HW Hl Hs. unfold collector_append. erewrite bind_ret by done.
  assert (exists x, head data = Some x) as [x Hx].
  { destruct data; [change (zlen []) with 0 in Hl; lia|eauto]. }
  set (p := SizedBuffer data len src).
  assert (sb_ok p) as Hp by by split.
  destruct (append_each_spec max_size data x p Hx (map fst (map_to_list (queues s))) s)
    as (ms&s1&Hr1&Hre1&Hnd&Hsub&Hno&Hyes).
  { apply keys_NoDup. }
  { intros h [q Hq]%keys_elem. destruct (SWF_queue max_size s h q HW Hq) as (o&?&?). eauto. }
  run_step Hr1. destruct (delete_each_spec ms s1 Hnd) as (s'&Hr2&Hre2&Hin&Hout).
  { intros h Hh%Hsub. pose proof Hh as [q Hq]%keys_elem. destruct (SWF_queue max_size s h q HW Hq) as (o&Ho&_).
    destruct (Hyes h q o Hh Hq Ho) as (_&->&_). eauto. }
  assert (forall h, match queues s !! h, outs s !! h with
            | Some q, Some o => OWF max_size q o /\
                (if over max_size x p q o then queues s' !! h = None /\ outs s' !! h = None
                else queues s' !! h = Some (bump_q x p q o) /\ outs s' !! h = Some (bump_o x o))
            | None, None => queues s' !! h = None /\ outs s' !! h = None
            | _, _ => False end) as Hall.
  { intros h. pose proof (HW h) as Hh. destruct (queues s !! h) as [q|] eqn:Hq, (outs s !! h) as [o|] eqn:Ho; try done.
    - split; [done|]. destruct (Hyes h q o) as (Eq&Eo&Em); [apply keys_elem; eauto|done..|].
      destruct (over max_size x p q o); [apply Hin; by apply Em|].
      destruct (Hout h) as [-> ->]; [by intros ?%Em|done].
    - assert (h ∉ map fst (map_to_list (queues s))) as Hk by (intros [? ?]%keys_elem; congruence).
      destruct (Hout h) as [-> ->]; [by intros ?%Hsub|]. destruct (Hno h Hk) as [-> ->]. done. }
  exists s'. split_and!; [done| | |by eapply rest_eq_trans].
  - intros h. specialize (Hall h). destruct (queues s !! h) as [q|], (outs s !! h) as [o|]; try done.
    + destruct Hall as [HO Hall]. destruct (bump_deliver max_size x p q o HO Hp Hx) as [_ HO'].
      destruct (over max_size x p q o); destruct Hall as [-> ->]; auto.
    + by destruct Hall as [-> ->].
  - apply map_eq. intros h. rewrite lookup_omap. unfold view. rewrite !map_lookup_zip_with. specialize (Hall h).
    destruct (queues s !! h) as [q|], (outs s !! h) as [o|]; try done; simpl.
    + destruct Hall as [HO Hall]. destruct (bump_deliver max_size x p q o HO Hp Hx) as [Hdl _]. unfold p in Hdl at 1 2 3. simpl in Hdl. rewrite Hdl.
      destruct (over max_size x p q o); by destruct Hall as [-> ->].
    + by destruct Hall as [-> ->].
Qed.

(** ** input_cxn as a framed protocol *)

Section Input.
Context (page max_size id : Z) (Hpage : 0 < page <= 2 ^ 62) (Hid : 0 <= id < 2 ^ 32).

(** The protocol: a length, then that many bytes of a record, which is
    delivered to the consumers. *)
Definition log_full (m : Z * gmap Z consumer) (acc : list Z) : option (config (M := Z * gmap Z consumer)) :=
  if fst m =? RECV_HEADER then Some ((RECV_LOG, snd m), [], ntoh32 (le_val acc))
  else Some ((RECV_HEADER, omap (deliver max_size id acc) (snd m)), [], 4).

Definition log_item (c : config (M := Z * gmap Z consumer)) : Prop :=
  let '(m, acc, need) := c in
  0 <= need /\ zlen acc + need < 2 ^ 32 /\ (fst m = RECV_HEADER -> zlen acc + need = 4).

(** The handler and the server behind it. *)
Definition log_rel (s0 : server) (w : evio) (s : in_state) (m : Z * gmap Z consumer) : Prop :=
  i_state (this s) = fst m /\ i_id (this s) = id /\ i_io (this s) = w /\ SWF max_size (srv s) /\
  view (srv s) = snd m /\ rest_eq s0 (srv s).

Lemma log_rel_reader s0 w s m r : log_rel s0 w s m -> log_rel s0 w (set_rdr r s) m.
Proof. done. Qed.

Lemma in_full_ok s0 w s m acc c :
  at_config (log_rel s0 w) log_item s (m, acc, 0) -> acc <> [] -> log_full m acc = Some c ->
  exists s', in_full max_size s = Ret tt s' /\ at_config (log_rel s0 w) log_item s' c /\
             stream (rdr s') = stream (rdr s) /\ sk (rdr s') = sk (rdr s).
Proof.
  intros ((Hst&Hi&Hio&HS&Hv&Hre)&HW&(_&Hlen&Hhd)&Hc&Ht) Hne Hfull. rewrite Z.add_0_r in *.
  pose proof (consumed_fits _ HW) as Hfit. rewrite Hc in Hfit.
  assert (0 < zlen acc) as Hpos by (destruct acc; [done|rewrite zlen_cons; pose proof (zlen_nonneg acc); lia]).
  unfold in_full. erewrite bind_ret by done. rewrite Hst. unfold log_full in Hfull.
  destruct (Z.eqb_spec (fst m) RECV_HEADER) as [E|E]; simplify_eq.
  - specialize (Hhd E). unfold with_rdr. erewrite bind_ret by (eapply zoom_ret, set_cursor_0; lia).
    destruct (Z.leb_spec 4 (zlen (extract_buffer (rdr s)))); [|lia].
    erewrite bind_ret by done. erewrite bind_ret by (by eapply zoom_ret).
    assert (ztake 4 (extract_buffer (rdr s)) = consumed (rdr s)) as ->.
    { unfold consumed. f_equal. pose proof (zlen_consumed _ HW). lia. }
    pose proof (bswap_bound 4 (le_val (consumed (rdr s)))) as Hb. change (256 ^ Z.of_nat 4) with (2 ^ 32) in Hb.
    destruct (restart_ok (ntoh32 (le_val (consumed (rdr s)))) (rdr s) HW) as [HW' Hc']; [unfold ntoh32; lia|].
    eexists. split; [reflexivity|]. split; [|done]. split_and!; try done; unfold ntoh32; try lia.
    unfold log_item. change (zlen []) with 0. change (read_queue (this s)) with (rdr s). split_and!; [lia..|done].
  - edestruct (collector_append_spec max_size (extract_buffer (rdr s)) (cursor (rdr s)) id (srv s))
      as (v&Hr&HS'&Hv'&Hre'); [done|pose proof (zlen_consumed _ HW); lia|done|].
    rewrite Hi. erewrite bind_ret by (eapply zoom_ret, Hr). unfold with_rdr.
    erewrite bind_ret by (eapply zoom_ret, set_cursor_0; change (0 < zlen (extract_buffer (rdr s))); lia).
    erewrite bind_ret by (by eapply zoom_ret).
    destruct (restart_ok 4 (rdr s) HW) as [HW' Hc']; [lia|].
    eexists. split; [reflexivity|]. split; [|done]. split_and!; try done.
    unfold log_rel. simpl. split_and!; [done|done|done|done|by rewrite Hv', <- Hv|by eapply rest_eq_trans].
Qed.

Lemma log_item_more m acc need bs :
  log_item (m, acc, need) -> zlen bs <= need -> log_item (m, acc ++ bs, need - zlen bs).
Proof. intros (?&?&?) ?. unfold log_item. rewrite zlen_app. split_and!; lia. Qed.

Lemma log_feed_total c bs : exists c', feed log_full c bs = Some c'.
Proof.
  revert c. induction bs as [|b bs IH]; intros [[m acc] need]; simpl; [eauto|].
  unfold log_full. destruct (need <=? 0); [eauto|]. destruct (need =? 1); [|eauto].
  destruct (fst m =? RECV_HEADER); eauto.
Qed.

(** A record as a client sends it. *)
Definition frame (r : list Z) : list Z := be_bytes 4 (zlen r) ++ r.

Definition deliver_all (v : gmap Z consumer) (rs : list (list Z)) : gmap Z consumer :=
  foldl (fun v r => omap (deliver max_size id r) v) v rs.

Lemma feed_frame v r :
  0 < zlen r < 2 ^ 32 ->
  feed log_full ((RECV_HEADER, v), [], 4) (frame r) =
  Some ((RECV_HEADER, omap (deliver max_size id r) v), [], 4).
Proof.
  intros Hr. unfold frame. rewrite feed_app.
  rewrite <- (zlen_be_bytes 4 (zlen r)) at 1. rewrite feed_full by (rewrite zlen_be_bytes; lia).
  change (log_full (RECV_HEADER, v) ([] ++ be_bytes 4 (zlen r)))
    with (Some ((RECV_LOG, v), @nil Z, ntoh32 (le_val (be_bytes 4 (zlen r))))).
  replace (ntoh32 (le_val (be_bytes 4 (zlen r)))) with (zlen r).
  - rewrite feed_full by lia. done.
  - unfold ntoh32. rewrite bswap_val; [|apply be_bytes_are_bytes|done].
    rewrite be_val_bytes_small; [done|]. simpl. lia.
Qed.

Lemma feed_frames rs v :
  Forall (fun r => 0 < zlen r < 2 ^ 32) rs ->
  feed log_full ((RECV_HEADER, v), [], 4) (concat (map frame rs)) = Some ((RECV_HEADER, deliver_all v rs), [], 4).
Proof.
  intros HF. revert v. induction HF as [|r rs Hr HF IH]; intros v; [done|].
  change (concat (map frame (r :: rs))) with (frame r ++ concat (map frame rs)).
  rewrite feed_app, feed_frame by done. apply IH.
Qed.
End Input.

(** The invariant of an input handler. *)
Definition IWF (i : in_handler) : Prop :=
  RWF (read_queue i) /\ log_item ((i_state i, ∅), consumed (read_queue i), to_read (read_queue i)) /\
  0 <= i_id i < 2 ^ 32.

(** What is left of the handler [h] after a read event. *)
Definition in_after (e : fill_end) (h : Z) (s s' : server) (f : Z) (i' : in_handler) : Prop :=
  match e with
  | Eof | Failed _ => ins s' = delete h (ins s) /\ last (closed s') = Some f
  | _ => ins s' = <[h := i']> (ins s)
  end.

Lemma in_io_cb_spec page max_size h revents s i st v acc need :
  0 < page <= 2 ^ 62 -> SWF max_size s -> ins s !! h = Some i -> IWF i -> has revents ev_READ = true ->
  feed (log_full max_size (i_id i)) ((i_state i, view s), consumed (read_queue i), to_read (read_queue i))
       (stream (read_queue i)) = Some ((st, v), acc, need) ->
  exists s' i', in_io_cb page max_size h revents s = Ret tt s' /\ SWF max_size s' /\ view s' = v /\
    in_after (if 0 <? need then round_end again (sk (read_queue i)) else Full) h s s' (fd (i_io i)) i' /\
    IWF i' /\ i_state i' = st /\ i_id i' = i_id i /\
    consumed (read_queue i') = acc /\ to_read (read_queue i') = need /\ taken_ids s' = taken_ids s /\
    (0 < need -> pending (read_queue i') = [] /\ rx (sk (read_queue i')) = tail (after (rx (sk (read_queue i))))).
Proof.
  intros Hp HS Hi (HW&HI&Hid) Hev Hfeed. unfold in_io_cb. rewrite Hev, Hi.
  destruct (read_loop_feeds (log_full max_size (i_id i)) page Hp again eq_refl (in_full max_size)
    (log_rel max_size (i_id i) s (i_io i)) log_item (log_rel_reader max_size (i_id i) s (i_io i)) log_item_more
    (in_full_ok max_size (i_id i) Hid s (i_io i)) (1 + length (stream (read_queue i))) (InState i s)
    ((i_state i, view s), consumed (read_queue i), to_read (read_queue i)) (st, v) acc need) as (t&Hr&((Hst&Hid'&Hio&HS'&Hv'&Hre)&HW'&HI'&Hc'&Ht')&Hpend&_).
  { by split_and!. }
  { simpl. lia. }
  { exact Hfeed. }
  simpl in Hr. simpl. rewrite Hr. destruct Hre as (Hins&_&Hids&_).
  assert (IWF (this t)) as HI2.
  { split_and!; [done| |rewrite Hid'; lia..]. simpl in Hst, Hc', Ht'. rewrite Hst, Hc', Ht'. exact HI'. }
  destruct (if 0 <? need then round_end again (sk (read_queue i)) else Full) as [| | |e] eqn:He;
    eexists _, (this t); (split; [first [reflexivity | unfold in_suicide, in_delete, in_at, set_in, bind; simpl; rewrite !lookup_insert_eq; simpl; rewrite ?insert_insert_eq, lookup_insert_eq; reflexivity]|]);
    (split; [exact HS'|]); (split; [exact Hv'|]); (split; [|by split_and!]); simpl; rewrite ?Hins; try done.
  all: rewrite delete_insert_eq, Hio; split; [done|apply last_snoc].
Qed.

(** ** Output *)

(** An entry as a client of the log server receives it. *)
Definition encode (e : Z * list Z) : list Z :=
  be_bytes 4 (zlen (snd e) + 4) ++ be_bytes 4 (fst e) ++ snd e.

(** Everything a consumer was and will be sent for what it was delivered. *)
Definition wire (c : consumer) : list Z := c_out c ++ concat (map encode (c_backlog c)).

Lemma bytes_hton32 v : le_bytes 4 (hton32 v) = be_bytes 4 v.
Proof. apply bytes_bswap. Qed.

Lemma append_entry_spec page w p :
  0 < page <= 2 ^ 62 -> QWF w -> sb_ok p -> sb_len p + 4 < 2 ^ 32 ->
  exists w', append_entry page p w = Ret tt w' /\ QWF w' /\ unsent w' = unsent w ++ encode (entry p).
Proof.
  intros Hp HW [Hl Hs] Hm. unfold append_entry.
  rewrite !bytes_hton32, be_bytes_u32. unfold encode, entry. simpl snd. simpl fst.
  replace (zlen (ztake (sb_len p) (sb_buffer p))) with (sb_len p) by (rewrite zlen_ztake; lia).
  destruct (append_bytes_spec page Hp w (be_bytes 4 (sb_len p + 4)) HW) as (w1&Hr1&HW1&Hu1); [rewrite zlen_be_bytes; lia|].
  run_step Hr1. destruct (append_bytes_spec page Hp w1 (be_bytes 4 (sb_source p)) HW1) as (w2&Hr2&HW2&Hu2); [rewrite zlen_be_bytes; lia|].
  run_step Hr2. destruct (append_buffer_spec w2 (sb_buffer p) (sb_len p) HW2) as (w3&Hr3&HW3&Hu3); [lia|].
  exists w3. split_and!; [done..|]. by rewrite Hu3, Hu2, Hu1, <- !app_assoc.
Qed.

Lemma out_drain_spec o :
  QWF (write_queue o) ->
  exists e w k, out_drain o = Ret e (OutHandler (interests o) (o_events o) w (o_io o) k) /\ QWF w /\
    tx k ++ unsent w = tx (o_sock o) ++ unsent (write_queue o) /\ (e = Drained <-> unsent w = []) /\
    (unsent (write_queue o) = [] -> e = Drained).
Proof.
  intros HW. unfold out_drain.
  destruct (drain_spec again (1 + length (wx (o_sock o))) (Writer (write_queue o) (o_sock o)))
    as (e&s'&Hr&HW'&Hc&_&He&_&Hd); [done|done|simpl; lia|].
  rewrite Hr. eauto 10.
Qed.

Lemma SWF_out max_size s h o :
  SWF max_size s -> outs s !! h = Some o -> exists q, queues s !! h = Some q /\ OWF max_size q o.
Proof. intros HW Ho. specialize (HW h). rewrite Ho in HW. destruct (queues s !! h); [eauto|done]. Qed.

(** Replacing a consumer's queue and handler. *)
Lemma SWF_set max_size s s' h q o :
  SWF max_size s -> OWF max_size q o ->
  queues s' = <[h := q]> (queues s) -> outs s' = <[h := o]> (outs s) ->
  SWF max_size s' /\ view s' = <[h := cview q o]> (view s).
Proof.
  intros HW HO Hq Ho. split.
  - intros h'. rewrite Hq, Ho. destruct (decide (h' = h)) as [->|]; [by rewrite !lookup_insert_eq|].
    rewrite !lookup_insert_ne by done. apply HW.
  - unfold view. rewrite Hq, Ho. by rewrite map_insert_zip_with.
Qed.

Lemma SWF_delete max_size s s' h :
  SWF max_size s -> queues s' = delete h (queues s) -> outs s' = delete h (outs s) ->
  SWF max_size s' /\ view s' = delete h (view s).
Proof.
  intros HW Hq Ho. split.
  - intros h'. rewrite Hq, Ho. destruct (decide (h' = h)) as [->|]; [by rewrite !lookup_delete_eq|].
    rewrite !lookup_delete_ne by done. apply HW.
  - unfold view. rewrite Hq, Ho. apply map_eq. intros h'. rewrite map_lookup_zip_with.
    destruct (decide (h' = h)) as [->|]; [by rewrite !lookup_delete_eq|].
    rewrite !lookup_delete_ne by done. by rewrite map_lookup_zip_with.
Qed.

Lemma out_suicide_spec h o s :
  outs s !! h = Some o -> 0 <= fd (o_io o) ->
  exists s', out_suicide h s = Ret tt s' /\ rest_eq s s' /\
    queues s' = delete h (queues s) /\ outs s' = delete h (outs s) /\
    closed s' = closed s ++ [fd (o_io o)].
Proof.
  intros Ho Hf. unfold out_suicide, out_at. erewrite bind_ret by (by rewrite Ho).
  destruct (Z.leb_spec 0 (fd (o_io o))); [|lia]. erewrite bind_ret by done. erewrite bind_ret by done.
  unfold out_delete, out_at. erewrite bind_ret by (simpl; by rewrite lookup_insert_eq).
  erewrite bind_ret by done. simpl. eexists. split; [reflexivity|]. simpl. by rewrite delete_insert_eq.
Qed.

Lemma view_lookup s h q o :
  queues s !! h = Some q -> outs s !! h = Some o -> view s !! h = Some (cview q o).
Proof. intros Hq Ho. unfold view. by rewrite map_lookup_zip_with, Hq, Ho. Qed.

(** What a write event leaves of a consumer: it is gone, with its descriptor
    closed, or it is still owed the same bytes. *)
Definition out_after (h f : Z) (s s' : server) : Prop :=
  (view s' = delete h (view s) /\ closed s' = closed s ++ [f]) \/
  (exists c c', view s !! h = Some c /\ view s' = <[h := c']> (view s) /\
     wire c' = wire c /\ c_int c' = c_int c /\ closed s' = closed s).

(** The outcome when the consumer stays: new queue [q'] and handler [o']. *)
Lemma out_stays max_size h f s s' q o q' o' :
  SWF max_size s -> queues s !! h = Some q -> outs s !! h = Some o -> OWF max_size q' o' ->
  queues s' = <[h := q']> (queues s) -> outs s' = <[h := o']> (outs s) -> closed s' = closed s ->
  interests o' = interests o -> wire (cview q' o') = wire (cview q o) ->
  SWF max_size s' /\ out_after h f s s'.
Proof.
  intros HW Hq Ho HO Hq' Ho' Hc Hi Hw. destruct (SWF_set max_size s s' h q' o') as [HW' Hv]; [done..|].
  split; [done|]. right. exists (cview q o), (cview q' o'). split_and!; try done. by apply view_lookup.
Qed.

(** The entry collector::pop takes is the oldest. *)
Lemma collector_pop_spec h s q :
  queues s !! h = Some q ->
  (queue q = [] /\ collector_pop h s = Ret no_buffer s) \/
  (exists l p, queue q = l ++ [p] /\
     collector_pop h s = Ret p (with_queues (<[h := SBQueue l (total_size q - sb_len p)]> (queues s)) s)).
Proof.
  intros Hq. unfold collector_pop. rewrite Hq. destruct (list_eq_nil_dec (queue q)) as [->|Hne]; [by left|right].
  destruct (exists_last Hne) as (l&p&Hl). exists l, p. rewrite Hl. split; [done|].
  by rewrite last_snoc, removelast_last.
Qed.

Lemma wire_pop l p (o o' : out_handler) t t' :
  interests o' = interests o ->
  tx (o_sock o') ++ unsent (write_queue o') = (tx (o_sock o) ++ unsent (write_queue o)) ++ encode (entry p) ->
  wire (cview (SBQueue l t) o') = wire (cview (SBQueue (l ++ [p]) t') o).
Proof.
  intros Hi Ho. unfold wire, cview. simpl. rewrite Ho. rewrite map_app, rev_app_distr. simpl.
  by rewrite <- !app_assoc.
Qed.

Lemma out_io_cb_spec page max_size h revents s o :
  0 < page <= 2 ^ 62 -> max_size + 4 < 2 ^ 32 -> SWF max_size s -> outs s !! h = Some o ->
  has revents ev_WRITE = true ->
  exists s', out_io_cb page h revents s = Ret tt s' /\ rest_eq s s' /\ SWF max_size s' /\
             out_after h (fd (o_io o)) s s'.
Proof.
  intros Hp Hm HW Ho Hev. destruct (SWF_out max_size s h o HW Ho) as (q&Hq&HO).
  pose proof HO as [Htot Hmax Hent HQ Hfd Hioev Hon Hwk].
  destruct (out_drain_spec o HQ) as (e&w&k&Hdr&HQ'&Hcons&He&Hd0).
  unfold out_io_cb. rewrite Hev. unfold out_at. erewrite bind_ret by (by rewrite Ho). rewrite Hdr.
  set (o1 := OutHandler (interests o) (o_events o) w (o_io o) k).
  assert (with_queues (queues s) s = s) as Hid by by destruct s.
  assert (exists s', (do! set_out h o1 in out_suicide h) s = Ret tt s' /\ rest_eq s s' /\ SWF max_size s' /\
             out_after h (fd (o_io o)) s s') as Hsuicide.
  { erewrite bind_ret by done. destruct (out_suicide_spec h o1 (with_outs (<[h := o1]> (outs s)) s))
      as (s'&Hr&Hre&Hq'&Ho'&Hc'); [simpl; by rewrite lookup_insert_eq|done|].
    simpl in Ho', Hq', Hc'. rewrite delete_insert_eq in Ho'.
    destruct (SWF_delete max_size s s' h HW Hq' Ho') as [HW' Hv']. exists s'. split_and!; try done. by left. }
  destruct e; try exact Hsuicide.
  - assert (unsent w = []) as Hnil by by apply He. rewrite Hnil, app_nil_r in Hcons.
    erewrite bind_ret by done.
    destruct (collector_pop_spec h (with_outs (<[h := o1]> (outs s)) s) q Hq) as [[Hempty Hpop]|(l&p&Hl&Hpop)].
    + run_step Hpop. simpl. eexists. split; [reflexivity|].
      split; [done|].
      apply (out_stays max_size h _ s _ q o q (OutHandler (interests o) ev_NONE w (io_stop (io_set_events ev_NONE (o_io o))) k));
        try done; simpl; [|by rewrite insert_id|by rewrite insert_insert_eq|].
      * split; try done; simpl. intros [?|?]; [done|]. by rewrite Hnil in *.
      * unfold wire, cview. simpl. by rewrite Hempty, Hnil, Hcons, app_nil_r.
    + run_step Hpop. rewrite Hl in Hent. apply Forall_app in Hent as [Hent Hp1]. assert (sb_ok p) as Hok by by apply Forall_singleton.
      rewrite Hl, sizes_app in Htot. simpl in Htot.
      assert (0 <= sizes l) as Hsl. { clear -Hent. induction Hent as [|? ? [? ?]]; simpl; lia. }
      pose proof Hok as [[? ?] ?]. destruct (Z.eqb_spec (sb_len p) 0); [lia|].
      destruct (append_entry_spec page (write_queue o1) p Hp HQ' Hok) as (w'&Hr'&HQ2&Hu'); [lia|].
      rewrite Hr'. eexists. split; [reflexivity|].
      split; [done|].
      apply (out_stays max_size h _ s _ q o (SBQueue l (total_size q - sb_len p)) (with_wq w' o1));
        try done; simpl; [|by rewrite insert_insert_eq|].
      * split; simpl; try done; try lia.
        intros _. apply Hwk. left. rewrite Hl. by destruct l.
      * destruct q as [ql qt]. simpl in Hl. rewrite Hl. apply wire_pop; [done|]. simpl. rewrite Hu'. simpl.
        by rewrite Hnil, <- Hcons.
  - eexists. split; [reflexivity|].
    split; [done|]. apply (out_stays max_size h _ s _ q o q o1); try done; simpl; [|by rewrite insert_id|].
    + split; try done; simpl. intros _. apply Hwk.
      destruct (list_eq_nil_dec (queue q)); [right|by left]. by intros ?%Hd0.
    + unfold wire, cview. simpl. by rewrite Hcons.
Qed.

(** ** input_cxn::handler::handler finds a free id *)

Lemma taken_seq_size (T : gset Z) n0 (j : nat) :
  (forall k, (k < j)%nat -> u32 (n0 + Z.of_nat k) ∈ T) -> Z.of_nat j <= 2 ^ 32 -> (j <= size T)%nat.
Proof.
  intros HT Hj. set (l := map (fun k => u32 (n0 + Z.of_nat k)) (seq 0 j)).
  assert (NoDup l) as Hnd.
  { apply NoDup_fmap_2_strong; [|apply NoDup_seq]. intros a b Ha Hb Heq.
    apply elem_of_seq in Ha, Hb. unfold u32 in Heq.
    assert ((n0 + Z.of_nat a - (n0 + Z.of_nat b)) mod 2 ^ 32 = 0) as Hz by (rewrite Zminus_mod, Heq, Z.sub_diag; done).
    apply Z.mod_divide in Hz as [q Hq]; [|done].
    assert (q = 0) by nia. subst q. lia. }
  assert (list_to_set l ⊆ T) as Hsub.
  { intros x. rewrite elem_of_list_to_set. intros (k&->&Hk)%list_elem_of_fmap. apply elem_of_seq in Hk. apply HT. lia. }
  apply subseteq_size in Hsub. rewrite size_list_to_set in Hsub by done.
  unfold l in Hsub. by rewrite length_map, length_seq in Hsub.
Qed.

Lemma pick_id_loop fuel s n0 (j : nat) :
  (fuel + j = 1 + size (taken_ids s))%nat -> Z.of_nat (size (taken_ids s)) + 1 < 2 ^ 32 ->
  now s = n0 + Z.of_nat j -> (forall k, (k < j)%nat -> u32 (n0 + Z.of_nat k) ∈ taken_ids s) ->
  exists id t, pick_id fuel s =
    Ret id (Server (queues s) (outs s) (ins s) (g_interests s) ({[id]} ∪ taken_ids s) t (closed s)) /\
    (id ∉ taken_ids s) /\ 0 <= id < 2 ^ 32.
Proof.
  revert s j. induction fuel as [|fuel IH]; intros s j Hf Hsz Hnow HT.
  - pose proof (taken_seq_size _ n0 j HT). lia.
  - simpl. destruct (bool_decide_reflect (u32 (now s) ∈ taken_ids s)) as [Hin|Hin].
    + edestruct (IH (Server (queues s) (outs s) (ins s) (g_interests s) (taken_ids s) (now s + 1) (closed s)) (S j))
        as (id&t&Hr&?&?); simpl; [lia|done|lia| |].
      { intros k Hk. destruct (decide (k = j)) as [->|]; [|apply HT; lia]. by rewrite <- Hnow. }
      eauto 6.
    + eexists _, _. split; [reflexivity|]. split; [done|apply u32_range].
Qed.

Lemma in_ctor_spec page h f k s :
  Z.of_nat (size (taken_ids s)) + 1 < 2 ^ 32 ->
  exists id t, in_ctor page h f k s =
    Ret tt (Server (queues s) (outs s)
      (<[h := InHandler (Reader (read_buffer_ctor page 4) k) RECV_HEADER (io_start (EvIo f ev_READ false)) id]> (ins s))
      (g_interests s) ({[id]} ∪ taken_ids s) t (closed s)) /\ (id ∉ taken_ids s) /\ 0 <= id < 2 ^ 32.
Proof.
  intros Hs. unfold in_ctor. erewrite bind_ret by done.
  destruct (pick_id_loop (1 + size (taken_ids s)) s (now s) 0) as (id&t&Hr&?&?); [lia|done|lia|lia|].
  run_step Hr. eauto.
Qed.

(** ** The server as a transition system *)

(** The records an input handler completes on a run of bytes. *)
Definition parse_full (m : Z * list (list Z)) (acc : list Z) : option (config (M := Z * list (list Z))) :=
  if fst m =? RECV_HEADER then Some ((RECV_LOG, snd m), [], ntoh32 (le_val acc))
  else Some ((RECV_HEADER, snd m ++ [acc]), [], 4).

Definition parsed (i : in_handler) : list (list Z) :=
  match feed parse_full ((i_state i, []), consumed (read_queue i), to_read (read_queue i)) (stream (read_queue i)) with
  | Some ((_, rs), _, _) => rs
  | None => []
  end.

(** Delivering the records is what the protocol does. *)
Lemma feed_parse max_size id st v rs acc need bs :
  exists st' rs' acc' need',
    feed parse_full ((st, rs), acc, need) bs = Some ((st', rs ++ rs'), acc', need') /\
    feed (log_full max_size id) ((st, v), acc, need) bs = Some ((st', deliver_all max_size id v rs'), acc', need').
Proof.
  revert st v rs acc need. induction bs as [|b bs IH]; intros st v rs acc need; simpl.
  - exists st, [], acc, need. by rewrite app_nil_r.
  - destruct (need <=? 0).
    { apply IH. }
    destruct (need =? 1); [|apply IH].
    change (parse_full (st, rs) (acc ++ [b])) with
      (if st =? RECV_HEADER then Some ((RECV_LOG, rs), @nil Z, ntoh32 (le_val (acc ++ [b])))
       else Some ((RECV_HEADER, rs ++ [acc ++ [b]]), [], 4)).
    change (log_full max_size id (st, v) (acc ++ [b])) with
      (if st =? RECV_HEADER then Some ((RECV_LOG, v), @nil Z, ntoh32 (le_val (acc ++ [b])))
       else Some ((RECV_HEADER, omap (deliver max_size id (acc ++ [b])) v), [], 4)).
    destruct (st =? RECV_HEADER); [apply IH|].
    destruct (IH RECV_HEADER (omap (deliver max_size id (acc ++ [b])) v) (rs ++ [acc ++ [b]]) [] 4)
      as (st'&rs'&acc'&need'&H1&H2).
    exists st', ((acc ++ [b]) :: rs'), acc', need'. split; [|exact H2]. by rewrite H1, <- app_assoc.
Qed.

Definition arrive (new : list recv_event) (i : in_handler) : in_handler :=
  let r := read_queue i in
  InHandler (Reader (rb r) (Sock (rx (sk r) ++ new) (wx (sk r)) (tx (sk r)) (errno (sk r))))
            (i_state i) (i_io i) (i_id i).

Definition writable (ws : list write_event) (o : out_handler) : out_handler :=
  OutHandler (interests o) (o_events o) (write_queue o) (o_io o)
             (Sock (rx (o_sock o)) ws (tx (o_sock o)) (errno (o_sock o))).

(** One callback of the event loop; the label is what the input connections
    completed: source id and record. *)
Inductive sstep (page max_size : Z) (s : server) : list (Z * list Z) -> server -> Prop :=
  | step_in h i new s' :
      ins s !! h = Some i -> segs_ok new = true ->
      in_io_cb page max_size h ev_READ (with_ins (<[h := arrive new i]> (ins s)) s) = Ret tt s' ->
      sstep page max_size s (map (pair (i_id i)) (parsed (arrive new i))) s'
  | step_out h o ws s' :
      outs s !! h = Some o ->
      out_io_cb page h ev_WRITE (with_outs (<[h := writable ws o]> (outs s)) s) = Ret tt s' ->
      sstep page max_size s [] s'
  | step_accept_out a h f s' :
      outs s !! h = None -> 0 <= f -> out_handle_accept a h f (Sock [] [] [] 0) s = Ret tt s' ->
      sstep page max_size s [] s'
  | step_accept_in h f s' :
      ins s !! h = None -> Z.of_nat (size (taken_ids s)) + 1 < 2 ^ 32 ->
      in_handle_accept page h f (Sock [] [] [] 0) s = Ret tt s' ->
      sstep page max_size s [] s'.

(** Runs during which the consumer [h] stays connected. *)
Inductive sruns (page max_size h : Z) : server -> list (Z * list Z) -> server -> Prop :=
  | sruns_refl s : sruns page max_size h s [] s
  | sruns_step s1 l1 s2 l2 s3 :
      sstep page max_size s1 l1 s2 -> is_Some (view s2 !! h) -> sruns page max_size h s2 l2 s3 ->
      sruns page max_size h s1 (l1 ++ l2) s3.

Definition server_inv (max_size : Z) (s : server) : Prop :=
  SWF max_size s /\ map_Forall (fun _ i => IWF i) (ins s).

Lemma segs_ok_app r1 r2 : segs_ok (r1 ++ r2) = segs_ok r1 && segs_ok r2.
Proof. induction r1 as [|[]]; simpl; rewrite ?IHr1, ?andb_assoc; done. Qed.

Lemma arrive_IWF new i : IWF i -> segs_ok new = true -> IWF (arrive new i).
Proof.
  intros ([? ? ? ? ? ? Hs]&HI&Hid) Hn. split; [|by split].
  split; try done. simpl. by rewrite segs_ok_app, Hs, Hn.
Qed.

(** Changing what the kernel will answer changes nothing a consumer is owed. *)
Lemma writable_SWF max_size s h o ws :
  SWF max_size s -> outs s !! h = Some o ->
  let s1 := with_outs (<[h := writable ws o]> (outs s)) s in SWF max_size s1 /\ view s1 = view s.
Proof.
  intros HW Ho. destruct (SWF_out max_size s h o HW Ho) as (q&Hq&HO).
  destruct (SWF_set max_size s (with_outs (<[h := writable ws o]> (outs s)) s) h q (writable ws o)) as [HW' Hv];
    [done|by destruct HO|simpl; by rewrite insert_id|done|].
  split; [done|]. rewrite Hv. apply insert_id. by rewrite (view_lookup s h q o).
Qed.

(** A new consumer. *)
Lemma accept_out_spec max_size a h f s :
  0 <= max_size -> SWF max_size s -> outs s !! h = None -> 0 <= f ->
  exists s', out_handle_accept a h f (Sock [] [] [] 0) s = Ret tt s' /\ rest_eq s s' /\ SWF max_size s' /\
    view s' = <[h := Consumer (get_interests a s) [] []]> (view s).
Proof.
  intros Hm HW Ho Hf. pose proof (HW h) as Hh. rewrite Ho in Hh. destruct (queues s !! h) as [q|] eqn:Hq; [done|].
  unfold out_handle_accept, out_ctor. erewrite bind_ret by done. erewrite bind_ret by done.
  unfold add_consumer, modify. simpl. rewrite Hq. eexists. split; [reflexivity|]. split; [done|].
  apply (SWF_set max_size s _ h empty_queue
    (OutHandler (get_interests a s) ev_NONE write_buffer_ctor (io_start (EvIo f ev_NONE false)) (Sock [] [] [] 0)));
    [done| |done|done].
  split; try done. by intros [?|?].
Qed.

(** Delivery and what a consumer is owed. *)
Lemma deliver_wire max_size src rec c c' :
  deliver max_size src rec c = Some c' ->
  c_int c' = c_int c /\
  wire c' = wire c ++ (if has (default 0 (head rec)) (c_int c) then encode (src, rec) else []).
Proof.
  unfold deliver. destruct (has _ _); [|intros; simplify_eq; by rewrite app_nil_r].
  destruct (max_size <? _); intros; simplify_eq. unfold wire. simpl.
  rewrite map_app, concat_app. simpl. by rewrite app_nil_r, app_assoc.
Qed.

(** The entries a consumer with interests [ints] gets out of [l]. *)
Definition wanted (ints : Z) (l : list (Z * list Z)) : list (Z * list Z) :=
  filter (fun e => has (default 0 (head (snd e))) ints = true) l.

Lemma wanted_app ints l1 l2 : wanted ints (l1 ++ l2) = wanted ints l1 ++ wanted ints l2.
Proof. apply filter_app. Qed.

Lemma deliver_all_wire max_size src rs v h c' :
  deliver_all max_size src v rs !! h = Some c' ->
  exists c, v !! h = Some c /\ c_int c' = c_int c /\
    wire c' = wire c ++ concat (map encode (wanted (c_int c) (map (pair src) rs))).
Proof.
  unfold deliver_all. revert v. induction rs as [|r rs IH]; intros v; simpl.
  - intros Hv. exists c'. by rewrite app_nil_r.
  - intros (c1&H1&Hi1&Hw1)%IH. rewrite lookup_omap in H1. apply bind_Some in H1 as (c&Hc&Hd).
    apply deliver_wire in Hd as [Hi Hw]. exists c. split_and!; [done|congruence|].
    rewrite Hw1, Hw, Hi, <- app_assoc. f_equal. unfold wanted. rewrite filter_cons. simpl.
    destruct (has (default 0 (head r)) (c_int c)); [|by rewrite decide_False].
    by rewrite decide_True.
Qed.

Section Server.
Context (page max_size : Z) (Hpage : 0 < page <= 2 ^ 62) (Hmax : 0 <= max_size /\ max_size + 4 < 2 ^ 32).

Lemma in_event_ok s h i new :
  server_inv max_size s -> ins s !! h = Some i -> segs_ok new = true ->
  exists s', in_io_cb page max_size h ev_READ (with_ins (<[h := arrive new i]> (ins s)) s) = Ret tt s' /\
    server_inv max_size s' /\
    view s' = deliver_all max_size (i_id i) (view s) (parsed (arrive new i)).
Proof.
  intros [HW HI] Hi Hn. set (i1 := arrive new i). set (s1 := with_ins _ s).
  assert (IWF i1) as HI1 by (apply arrive_IWF; [by apply (HI h)|done]).
  destruct (feed_parse max_size (i_id i) (i_state i1) (view s) [] (consumed (read_queue i1)) (to_read (read_queue i1))
    (stream (read_queue i1))) as (st&rs&acc&need&Hp&Hf).
  destruct (in_io_cb_spec page max_size h ev_READ s1 i1 st (deliver_all max_size (i_id i) (view s) rs) acc need)
    as (s'&i'&Hr&HW'&Hv&Haft&HI'&_); [done|done|simpl; by rewrite lookup_insert_eq|done|done|done|].
  exists s'. split; [done|]. split.
  - split; [done|]. unfold in_after in Haft. simpl in Haft. rewrite insert_insert_eq, delete_insert_eq in Haft.
    destruct (if 0 <? need then _ else _);
      [rewrite Haft|rewrite Haft|destruct Haft as [-> _]|destruct Haft as [-> _]];
      solve [by apply map_Forall_insert_2 | by apply map_Forall_delete].
  - unfold parsed. fold i1. by rewrite Hp.
Qed.

Lemma out_event_ok s h o ws :
  server_inv max_size s -> outs s !! h = Some o ->
  exists s', out_io_cb page h ev_WRITE (with_outs (<[h := writable ws o]> (outs s)) s) = Ret tt s' /\
    server_inv max_size s' /\
    forall h' c', view s' !! h' = Some c' ->
      exists c, view s !! h' = Some c /\ c_int c' = c_int c /\ wire c' = wire c.
Proof.
  intros [HW HI] Ho. destruct (writable_SWF max_size s h o ws HW Ho) as [HW1 Hv1]. simpl in HW1, Hv1.
  destruct (out_io_cb_spec page max_size h ev_WRITE _ (writable ws o) Hpage (proj2 Hmax) HW1)
    as (s'&Hr&(Hins&_)&HW'&Haft); [simpl; by rewrite lookup_insert_eq|done|].
  exists s'. split; [done|]. split; [split; [done|by rewrite Hins]|]. intros h' c' Hc'. rewrite <- Hv1.
  destruct Haft as [[Hv _]|(c&c2&Hc&Hv&Hw&Hi&_)]; rewrite Hv in Hc'.
  - apply lookup_delete_Some in Hc' as [_ Hc']. eauto.
  - destruct (decide (h' = h)) as [->|]; [rewrite lookup_insert_eq in Hc'; simplify_eq; eauto|].
    rewrite lookup_insert_ne in Hc' by done. eauto.
Qed.

Lemma accept_in_ok s h f :
  server_inv max_size s -> Z.of_nat (size (taken_ids s)) + 1 < 2 ^ 32 ->
  exists s', in_handle_accept page h f (Sock [] [] [] 0) s = Ret tt s' /\ server_inv max_size s' /\ view s' = view s.
Proof.
  intros [HW HI] Hs. destruct (in_ctor_spec page h f (Sock [] [] [] 0) s Hs) as (id&t&Hr&_&Hid).
  eexists. split; [exact Hr|]. split; [|done]. split; [done|]. apply map_Forall_insert_2; [|done].
  split; [by apply read_buffer_ctor_RWF|]. done.
Qed.

Lemma sstep_ok s l s' :
  sstep page max_size s l s' -> server_inv max_size s ->
  server_inv max_size s' /\
  forall h c c', view s !! h = Some c -> view s' !! h = Some c' ->
    c_int c' = c_int c /\ wire c' = wire c ++ concat (map encode (wanted (c_int c) l)).
Proof.
  intros Hst HI. destruct Hst as [h i new s' Hi Hn Hr|h o ws s' Ho Hr|a h f s' Ho Hf Hr|h f s' Hi Hs Hr].
  - destruct (in_event_ok s h i new HI Hi Hn) as (s2&Hr2&HI2&Hv). assert (s2 = s') as -> by congruence. split; [done|].
    intros h' c c' Hc Hc'. rewrite Hv in Hc'. apply deliver_all_wire in Hc' as (c0&?&?&?). by simplify_eq.
  - destruct (out_event_ok s h o ws HI Ho) as (s2&Hr2&HI2&Hv). assert (s2 = s') as -> by congruence. split; [done|].
    intros h' c c' Hc (c0&?&?&?)%Hv. simplify_eq. by rewrite app_nil_r.
  - destruct HI as [HW HI]. destruct (accept_out_spec max_size a h f s) as (s2&Hr2&(Hins&_)&HW2&Hv); [lia|done..|].
    assert (s2 = s') as -> by congruence. split; [by split; [|rewrite Hins]|]. intros h' c c' Hc Hc'. rewrite Hv in Hc'.
    destruct (decide (h' = h)) as [->|]; [|rewrite lookup_insert_ne in Hc' by done; simplify_eq; by rewrite app_nil_r].
    unfold view in Hc. rewrite map_lookup_zip_with, Ho in Hc. by destruct (queues s !! h).
  - destruct (accept_in_ok s h f HI Hs) as (s2&Hr2&HI2&Hv). assert (s2 = s') as -> by congruence. split; [done|].
    intros h' c c' Hc Hc'. rewrite Hv in Hc'. simplify_eq. by rewrite app_nil_r.
Qed.

Lemma sruns_ok h s l s' :
  sruns page max_size h s l s' -> server_inv max_size s -> forall c, view s !! h = Some c ->
  server_inv max_size s' /\ exists c', view s' !! h = Some c' /\ c_int c' = c_int c /\
    wire c' = wire c ++ concat (map encode (wanted (c_int c) l)).
Proof.
  induction 1 as [s|s1 l1 s2 l2 s3 Hst [c2 Hc2] Hrs IH]; intros HI c Hc.
  - split; [done|]. exists c. by rewrite app_nil_r.
  - destruct (sstep_ok s1 l1 s2 Hst HI) as [HI2 Hw]. destruct (Hw h c c2 Hc Hc2) as [Hi Hw2].
    destruct (IH HI2 c2 Hc2) as (HI3&c'&Hc'&Hi'&Hw'). split; [done|]. exists c'. split_and!; [done|congruence|].
    rewrite Hw', Hw2, Hi, wanted_app, map_app, concat_app. by rewrite app_assoc.
Qed.
End Server.

(** ** A run used by the witnesses *)

Definition run_to {A} (r : out server A) : server :=
  match r with
  | Ret _ s | Raise _ s => s
  | Fault _ => Server ∅ ∅ ∅ ∅ ∅ 0 []
  end.

(** An accept handler at address 10 for everything, a consumer at 1, a producer
    at 2 that sends one record in two pieces. *)
Definition demo0 : server := Server ∅ ∅ ∅ {[10 := 255]} ∅ 1000 [].
Definition demo1 : server := run_to (out_handle_accept 10 1 5 (Sock [] [] [] 0) demo0).
Definition demo2 : server := run_to (in_handle_accept 4096 2 6 (Sock [] [] [] 0) demo1).
Definition demo_rx : list recv_event := [RData [0; 0; 0; 2; 8]; RData [65]].
Definition demo_in : in_handler :=
  InHandler (Reader (read_buffer_ctor 4096 4) (Sock [] [] [] 0)) RECV_HEADER (io_start (EvIo 6 ev_READ false)) 1000.
Definition demo3 : server :=
  run_to (in_io_cb 4096 100 2 ev_READ (with_ins (<[2 := arrive demo_rx demo_in]> (ins demo2)) demo2)).
Definition demo_out : out_handler :=
  OutHandler 255 ev_WRITE write_buffer_ctor (EvIo 5 ev_WRITE true) (Sock [] [] [] 0).

Lemma demo0_inv max_size : server_inv max_size demo0.
Proof. split; [|apply map_Forall_empty]. intros h. simpl. by rewrite !lookup_empty. Qed.

Lemma demo1_inv : server_inv 100 demo1.
Proof.
  destruct (demo0_inv 100) as [HW HI].
  destruct (accept_out_spec 100 10 1 5 demo0) as (s'&Hr&(Hins&_)&HW'&_); [lia|done|done|lia|].
  assert (demo1 = s') as -> by (unfold demo1; by rewrite Hr). by split; [|rewrite Hins].
Qed.

Lemma demo2_inv : server_inv 100 demo2.
Proof.
  destruct (accept_in_ok 4096 100 demo1 2 6 demo1_inv) as (s'&Hr&HI&_); [done|].
  assert (demo2 = s') as -> by (unfold demo2; by rewrite Hr). done.
Qed.

Lemma demo3_inv : server_inv 100 demo3.
Proof.
  destruct (in_event_ok 4096 100 ltac:(lia) demo2 2 demo_in demo_rx demo2_inv) as (s'&Hr&HI&_); [done..|].
  assert (demo3 = s') as -> by (unfold demo3; by rewrite Hr). done.
Qed.

(** ** Properties *)

(** C3. End to end: while a consumer stays connected, the bytes it was sent, has
    queued and has waiting are, in order and complete, the entries for exactly
    the records of its interest class that the input connections completed since,
    whatever the interleaving of connections, the segmentation of the input and
    the sizes the kernel accepts on output; what it has received is a prefix. *)
Theorem consumer_stream page max_size h s l s' c o' :
  0 < page <= 2 ^ 62 -> 0 <= max_size /\ max_size + 4 < 2 ^ 32 -> server_inv max_size s ->
  view s !! h = Some c -> sruns page max_size h s l s' -> outs s' !! h = Some o' ->
  exists c', view s' !! h = Some c' /\
    wire c' = wire c ++ concat (map encode (wanted (c_int c) l)) /\
    tx (o_sock o') `prefix_of` wire c ++ concat (map encode (wanted (c_int c) l)).
Proof.
  intros Hp Hm HI Hc Hrs Ho'. destruct (sruns_ok page max_size Hp Hm h s l s' Hrs HI c Hc) as (_&c'&Hc'&_&Hw).
  exists c'. split_and!; [done..|]. rewrite <- Hw. unfold view in Hc'. rewrite map_lookup_zip_with, Ho' in Hc'.
  destruct (queues s' !! h) as [q|]; [|done]. simpl in Hc'. simplify_eq. unfold wire, cview. simpl.
  rewrite <- app_assoc. by apply prefix_app_r.
Qed.

Lemma consumer_stream_witness :
  exists c', view demo3 !! 1 = Some c' /\ wire c' = [0; 0; 0; 6; 0; 0; 3; 232; 8; 65].
Proof.
  destruct (consumer_stream 4096 100 1 demo1 [(1000, [8; 65])] demo3 (Consumer 255 [] []) demo_out) as (c'&Hc'&Hw&_).
  - lia.
  - lia.
  - exact demo1_inv.
  - reflexivity.
  - apply (sruns_step _ _ _ demo1 [] demo2 [(1000, [8; 65])] demo3).
    + apply (step_accept_in _ _ _ 2 6); [reflexivity|vm_compute; reflexivity|reflexivity].
    + exists (Consumer 255 [] []). reflexivity.
    + apply (sruns_step _ _ _ demo2 [(1000, [8; 65])] demo3 [] demo3); [|eexists; vm_compute; reflexivity|constructor].
      assert ([(1000, [8; 65])] = map (pair (i_id demo_in)) (parsed (arrive demo_rx demo_in))) as ->
        by (vm_compute; reflexivity).
      apply (step_in _ _ _ 2 demo_in demo_rx); vm_compute; reflexivity.
  - vm_compute. reflexivity.
  - exists c'. split; [exact Hc'|]. rewrite Hw. vm_compute. reflexivity.
Defined.

(** C16. No event breaks the server: from a state in its invariant (a queue for
    exactly the live consumers, byte counts right and within logger.max_buffer,
    buffers and queues well formed) every read, write and accept callback
    returns, without undefined behaviour, an assertion or an exception, in a
    state that satisfies it again. *)
Theorem server_callbacks_safe page max_size s :
  0 < page <= 2 ^ 62 -> 0 <= max_size /\ max_size + 4 < 2 ^ 32 -> server_inv max_size s ->
  (forall h i new, ins s !! h = Some i -> segs_ok new = true ->
     exists s', in_io_cb page max_size h ev_READ (with_ins (<[h := arrive new i]> (ins s)) s) = Ret tt s' /\
                server_inv max_size s') /\
  (forall h o ws, outs s !! h = Some o ->
     exists s', out_io_cb page h ev_WRITE (with_outs (<[h := writable ws o]> (outs s)) s) = Ret tt s' /\
                server_inv max_size s') /\
  (forall a h f, outs s !! h = None -> 0 <= f ->
     exists s', out_handle_accept a h f (Sock [] [] [] 0) s = Ret tt s' /\ server_inv max_size s') /\
  (forall h f, Z.of_nat (size (taken_ids s)) + 1 < 2 ^ 32 ->
     exists s', in_handle_accept page h f (Sock [] [] [] 0) s = Ret tt s' /\ server_inv max_size s').
Proof.
  intros Hp Hm HI. split_and!.
  - intros h i new Hi Hn. destruct (in_event_ok page max_size Hp s h i new HI Hi Hn) as (s'&?&?&_). eauto.
  - intros h o ws Ho. destruct (out_event_ok page max_size Hp Hm s h o ws HI Ho) as (s'&?&?&_). eauto.
  - intros a h f Ho Hf. destruct HI as [HW HI].
    destruct (accept_out_spec max_size a h f s) as (s'&?&(Hins&_)&?&_); [lia|done..|].
    exists s'. split; [done|]. by split; [|rewrite Hins].
  - intros h f Hs. destruct (accept_in_ok page max_size s h f HI Hs) as (s'&?&?&_). eauto.
Qed.

Lemma server_callbacks_safe_witness :
  exists s', out_io_cb 4096 1 ev_WRITE (with_outs (<[1 := writable [WAccept 3] demo_out]> (outs demo3)) demo3) = Ret tt s' /\
             server_inv 100 s'.
Proof.
  destruct (server_callbacks_safe 4096 100 demo3) as (_&Hout&_); [lia|lia|exact demo3_inv|].
  apply Hout. vm_compute. reflexivity.
Defined.

(** A client's records, each sent as a four byte big-endian length and its
    bytes, are delivered to the consumers one by one in order, however the stream
    was cut into segments, and the handler is ready for the next record. *)
Theorem client_records_delivered page max_size h s i rs cs :
  0 < page <= 2 ^ 62 -> server_inv max_size s -> ins s !! h = Some i ->
  i_state i = RECV_HEADER -> to_read (read_queue i) = 4 -> stream (read_queue i) = [] ->
  rx (sk (read_queue i)) = [] -> Forall (fun r => 0 < zlen r < 2 ^ 32) rs ->
  Forall (fun c => 0 < zlen c) cs -> concat cs = concat (map frame rs) ->
  exists s' i', in_io_cb page max_size h ev_READ (with_ins (<[h := arrive (map RData cs) i]> (ins s)) s) = Ret tt s' /\
    view s' = deliver_all max_size (i_id i) (view s) rs /\ ins s' !! h = Some i' /\
    i_state i' = RECV_HEADER /\ to_read (read_queue i') = 4.
Proof.
  intros Hp [HW HI] Hi Hst Ht Hs Hrx Hrs Hcs Hcat. set (i1 := arrive (map RData cs) i).
  assert (segs_ok (map RData cs) = true) as Hseg.
  { clear -Hcs. induction Hcs; simpl; [done|]. apply andb_true_intro. split; [by apply Z.ltb_lt|done]. }
  assert (IWF i1) as HI1 by (apply arrive_IWF; [by apply (HI h)|done]).
  assert (stream (read_queue i1) = concat (map frame rs)) as Hs1.
  { apply app_eq_nil in Hs as [Hp0 _]. change (stream (read_queue i1))
      with (pending (read_queue i) ++ avail (rx (sk (read_queue i)) ++ map RData cs)).
    rewrite Hp0, Hrx, <- (app_nil_r (map RData cs)). simpl. rewrite avail_chunks. simpl. by rewrite app_nil_r. }
  assert (consumed (read_queue i1) = []) as Hc1.
  { pose proof HI1 as (HR&(_&_&Hh)&_). apply zlen_0_nil.
    assert (zlen (consumed (read_queue i1)) + to_read (read_queue i) = 4) by (apply Hh; exact Hst). lia. }
  destruct (in_io_cb_spec page max_size h ev_READ (with_ins (<[h := i1]> (ins s)) s) i1 RECV_HEADER
    (deliver_all max_size (i_id i) (view s) rs) [] 4) as (s'&i'&Hr&HW'&Hv&Haft&_&Hst'&_&_&Ht'&_).
  { done. } { done. } { simpl. by rewrite lookup_insert_eq. } { done. } { done. }
  { rewrite Hs1, Hc1. change (to_read (read_queue i1)) with (to_read (read_queue i)). simpl. rewrite Hst, Ht. by apply feed_frames. }
  exists s', i'. split_and!; [done..| |done|done].
  unfold round_end in Haft. simpl in Haft. rewrite Hrx in Haft. simpl in Haft.
  rewrite <- (app_nil_r (map RData cs)), after_chunks in Haft. simpl in Haft. rewrite Haft. by rewrite lookup_insert_eq.
Qed.

Lemma client_records_delivered_witness :
  exists s' i', in_io_cb 4096 100 2 ev_READ (with_ins (<[2 := arrive demo_rx demo_in]> (ins demo2)) demo2) = Ret tt s' /\
    view s' = deliver_all 100 1000 (view demo2) [[8; 65]] /\ ins s' !! 2 = Some i'.
Proof.
  destruct (client_records_delivered 4096 100 2 demo2 demo_in [[8; 65]] [[0; 0; 0; 2; 8]; [65]])
    as (s'&i'&Hr&Hv&Hi&_).
  - lia.
  - exact demo2_inv.
  - vm_compute. reflexivity.
  - reflexivity.
  - reflexivity.
  - reflexivity.
  - reflexivity.
  - repeat constructor; vm_compute; congruence.
  - repeat constructor; vm_compute; congruence.
  - vm_compute. reflexivity.
  - exists s', i'. split; [exact Hr|]. split; [exact Hv|exact Hi].
Defined.

(** No wake-up is lost: after any run, a consumer that is still owed bytes
    (queued in its write buffer or waiting in the collector) has an active
    watcher that waits for its socket to become writable. *)
Theorem no_lost_wakeup page max_size h s l s' c q o :
  0 < page <= 2 ^ 62 -> 0 <= max_size /\ max_size + 4 < 2 ^ 32 -> server_inv max_size s ->
  view s !! h = Some c -> sruns page max_size h s l s' ->
  queues s' !! h = Some q -> outs s' !! h = Some o ->
  tx (o_sock o) <> wire (cview q o) ->
  io_on (o_io o) = true /\ has (io_ev (o_io o)) ev_WRITE = true.
Proof.
  intros Hp Hm HI Hc Hrs Hq Ho Hne. destruct (sruns_ok page max_size Hp Hm h s l s' Hrs HI c Hc) as [[HW _] _].
  destruct (SWF_out max_size s' h o HW Ho) as (q'&Hq'&[_ _ _ _ _ Hev Hon Hwk]). simplify_eq.
  assert (has (o_events o) ev_WRITE = true) as Hw; [|rewrite Hev; auto]. apply Hwk.
  destruct (list_eq_nil_dec (queue q)) as [H0|]; [right|by left]. intros H1. apply Hne.
  unfold wire, cview. simpl. by rewrite H0, H1, !app_nil_r.
Qed.

Lemma no_lost_wakeup_witness :
  io_on (o_io demo_out) = true /\ has (io_ev (o_io demo_out)) ev_WRITE = true.
Proof.
  apply (no_lost_wakeup 4096 100 1 demo3 [] demo3 (Consumer 255 [(1000, [8; 65])] [])
    (SBQueue [SizedBuffer [8; 65] 2 1000] 2) demo_out).
  - lia.
  - lia.
  - exact demo3_inv.
  - vm_compute. reflexivity.
  - constructor.
  - vm_compute. reflexivity.
  - vm_compute. reflexivity.
  - vm_compute. congruence.
Defined.

(** The search for a connection id ends within as many seconds as there are
    ids taken, and the id was not taken: two input connections never share one. *)
Theorem input_id_fresh page h f k s :
  Z.of_nat (size (taken_ids s)) + 1 < 2 ^ 32 ->
  exists i s', in_ctor page h f k s = Ret tt s' /\ ins s' !! h = Some i /\
    (i_id i ∉ taken_ids s) /\ taken_ids s' = {[i_id i]} ∪ taken_ids s.
Proof.
  intros Hs. destruct (in_ctor_spec page h f k s Hs) as (id&t&Hr&Hid&_).
  eexists _, _. split; [exact Hr|]. simpl. by rewrite lookup_insert_eq.
Qed.

Lemma input_id_fresh_witness :
  exists i s', in_ctor 4096 2 6 (Sock [] [] [] 0) (Server ∅ ∅ ∅ ∅ {[1000]} 1000 []) = Ret tt s' /\
    ins s' !! 2 = Some i /\ i_id i = 1001.
Proof.
  destruct (input_id_fresh 4096 2 6 (Sock [] [] [] 0) (Server ∅ ∅ ∅ ∅ {[1000]} 1000 [])) as (i&s'&Hr&Hi&_&_).
  - vm_compute. reflexivity.
  - exists i, s'. split; [exact Hr|]. split; [exact Hi|]. vm_compute in Hr. inversion Hr as [Hs]. rewrite <- Hs in Hi.
    vm_compute in Hi. inversion Hi. reflexivity.
Defined.

(** A length of zero stops an input connection for good: the handler is left
    waiting for no bytes, and from then on a read event returns without reading
    the socket, whatever arrives, so the records after it are never delivered. *)
Theorem zero_length_stalls page max_size h s i new :
  ins s !! h = Some i -> to_read (read_queue i) = 0 ->
  in_io_cb page max_size h ev_READ (with_ins (<[h := arrive new i]> (ins s)) s) =
    Ret tt (with_ins (<[h := arrive new i]> (ins s)) s) /\
  feed (log_full max_size (i_id i)) ((RECV_HEADER, view s), [], 4) [0; 0; 0; 0] =
    Some ((RECV_LOG, view s), [], 0).
Proof.
  intros Hi Ht. split; [|reflexivity]. unfold in_io_cb. change (has ev_READ ev_READ) with true. cbv iota.
  simpl ins. rewrite lookup_insert_eq, read_loop_stalled.
  - simpl. unfold with_ins. simpl. by rewrite insert_insert_eq.
  - change (to_read (read_queue i) <= 0). lia.
Qed.

(** The state after the four zero bytes arrived. *)
Definition stalled : server :=
  run_to (in_io_cb 4096 100 2 ev_READ (with_ins (<[2 := arrive [RData [0; 0; 0; 0]] demo_in]> (ins demo2)) demo2)).

Lemma zero_length_stalls_witness :
  exists i, ins stalled !! 2 = Some i /\
    in_io_cb 4096 100 2 ev_READ (with_ins (<[2 := arrive demo_rx i]> (ins stalled)) stalled) =
    Ret tt (with_ins (<[2 := arrive demo_rx i]> (ins stalled)) stalled).
Proof.
  assert (exists i, ins stalled !! 2 = Some i /\ to_read (read_queue i) = 0) as (i&Hi&Ht).
  { eexists. split; [vm_compute; reflexivity|reflexivity]. }
  exists i. split; [exact Hi|]. exact (proj1 (zero_length_stalls 4096 100 2 stalled i demo_rx Hi Ht)).
Defined.
