(* ===== verification/Sha256.v ===== *)
(** * SHA-256, as FIPS 180-4 defines it

    The code gets its digests from OpenSSL's EVP_sha256 (shared/src/crypto.cpp);
    the models take the digest function as a parameter. This executable
    definition of the standard instantiates it. *)

From S2P Require Import Prelude.
From S2P Require Import Bytes.

Definition rotr (n x : Z) : Z := Z.lor (Z.shiftr x n) (u32 (Z.shiftl x (32 - n))).
Definition ch (x y z : Z) : Z := Z.lxor (Z.land x y) (Z.land (Z.lxor x 4294967295) z).
Definition maj (x y z : Z) : Z := Z.lxor (Z.lxor (Z.land x y) (Z.land x z)) (Z.land y z).
Definition bsig0 (x : Z) : Z := Z.lxor (Z.lxor (rotr 2 x) (rotr 13 x)) (rotr 22 x).
Definition bsig1 (x : Z) : Z := Z.lxor (Z.lxor (rotr 6 x) (rotr 11 x)) (rotr 25 x).
Definition ssig0 (x : Z) : Z := Z.lxor (Z.lxor (rotr 7 x) (rotr 18 x)) (Z.shiftr x 3).
Definition ssig1 (x : Z) : Z := Z.lxor (Z.lxor (rotr 17 x) (rotr 19 x)) (Z.shiftr x 10).

(** The first primes, by trial division. *)
Definition is_prime (n : Z) : bool := forallb (fun d => negb (n mod d =? 0)) (seqZ 2 (Z.sqrt n - 1)).
Definition primes : list Z := List.filter is_prime (seqZ 2 310).

(** The integer cube root of [x], bit by bit from [2 ^ k] down. *)
Fixpoint cube_root (k : nat) (r x : Z) : Z :=
  match k with
  | O => r
  | S k => let r' := r + 2 ^ Z.of_nat k in cube_root k (if r' ^ 3 <=? x then r' else r) x
  end.

(** The first 32 bits of the fractional parts of the cube roots of the first 64
    primes, and of the square roots of the first eight. *)
Definition round_constants : list Z :=
  Eval vm_compute in map (fun p => u32 (cube_root 36 0 (p * 2 ^ 96))) primes.
Definition initial_hash : list Z :=
  Eval vm_compute in map (fun p => u32 (Z.sqrt (p * 2 ^ 64))) (take 8 primes).

(** The message schedule, newest word first. *)
Fixpoint schedule (fuel : nat) (w : list Z) : list Z :=
  match fuel with
  | O => w
  | S fuel =>
      let at_ i := nth i w 0 in
      schedule fuel (u32 (ssig1 (at_ 1%nat) + at_ 6%nat + ssig0 (at_ 14%nat) + at_ 15%nat) :: w)
  end.

Definition round (h : list Z) (kw : Z * Z) : list Z :=
  match h with
  | [a; b; c; d; e; f; g; hh] =>
      let t1 := hh + bsig1 e + ch e f g + fst kw + snd kw in
      let t2 := bsig0 a + maj a b c in
      [u32 (t1 + t2); a; b; c; u32 (d + t1); e; f; g]
  | _ => h
  end.

Fixpoint words (n : nat) (bs : list Z) : list Z :=
  match n with
  | O => []
  | S n => be_val (take 4 bs) :: words n (drop 4 bs)
  end.

Definition compress (h block : list Z) : list Z :=
  let w := rev (schedule 48 (rev (words 16 block))) in
  zip_with (fun x y => u32 (x + y)) h (foldl round h (zip round_constants w)).

Fixpoint blocks (fuel : nat) (h bs : list Z) : list Z :=
  match fuel with
  | O => h
  | S fuel => if zlen bs <? 64 then h else blocks fuel (compress h (take 64 bs)) (drop 64 bs)
  end.

Definition pad (m : list Z) : list Z :=
  m ++ [128] ++ zrep ((55 - zlen m) mod 64) 0 ++ be_bytes 8 (8 * zlen m).

Definition sha256 (m : list Z) : list Z :=
  let p := pad m in
  concat (map (be_bytes 4) (blocks (1 + length p) initial_hash p)).

Example sha256_abc :
  sha256 [97; 98; 99] = concat (map (be_bytes 4)
    [0xba7816bf; 0x8f01cfea; 0x414140de; 0x5dae2223; 0xb00361a3; 0x96177a9c; 0xb410ff61; 0xf20015ad]).
Proof. vm_compute. reflexivity. Qed.

Lemma length_round h kw : length (round h kw) = length h.
Proof. by do 9 (destruct h as [|? h]; [done|]). Qed.

Lemma length_compress h b : length h = 8%nat -> length (compress h b) = 8%nat.
Proof.
  intros Hh. unfold compress. rewrite length_zip_with.
  assert (forall l h', length (foldl round h' l) = length h') as ->; [|lia].
  intros l. induction l as [|kw l IH]; intros h'; simpl; [done|]. by rewrite IH, length_round.
Qed.

Lemma length_blocks fuel h bs : length h = 8%nat -> length (blocks fuel h bs) = 8%nat.
Proof.
  revert h bs. induction fuel as [|fuel IH]; intros h bs Hh; simpl; [done|].
  destruct (zlen bs <? 64); [done|]. by apply IH, length_compress.
Qed.

(** A digest is 32 bytes. *)
Lemma sha256_digest m : zlen (sha256 m) = 32 /\ Forall is_byte (sha256 m).
Proof.
  unfold sha256. pose proof (length_blocks (1 + length (pad m)) initial_hash (pad m) eq_refl) as Hl.
  remember (blocks _ _ _) as h eqn:E. clear E. split.
  - do 9 (destruct h as [|? h]; [try done|]); done.
  - apply Forall_concat, Forall_forall. intros b (x&->&_)%list_elem_of_fmap. apply be_bytes_are_bytes.
Qed.
