(* ===== verification/Crypto.v ===== *)
(** * Hashes and nonces (shared/src/crypto.cpp, shared/includes/crypto.hpp)

    sha256 over the message digest interface of OpenSSL, which is a parameter
    with its documented behaviour as the class [Digest], and the two nonce generators: a random device
    seeds an engine of the standard library, mt19937 or mt19937_64, which are
    modelled as the standard defines them. *)

From S2P Require Import Prelude.
From S2P Require Import Bytes.
From S2P Require Import Sha256.

(** ** sha256 *)

(** The calls of OpenSSL that the code makes, over OpenSSL's own state. A context
    is a pointer, [None] the null pointer; the digest is EVP_sha256(). The three
    calls on a context return 1 or 0, EVP_DigestFinal_ex also the bytes it has
    written to its argument. [live] are the contexts that were not freed. *)
Record openssl := OpenSsl {
  ossl : Type;
  live : ossl -> gset Z;
  EVP_MD_CTX_new : prog ossl (option Z);
  EVP_MD_size : Z;
  EVP_DigestInit_ex : option Z -> prog ossl Z;
  EVP_DigestUpdate : option Z -> list Z -> prog ossl Z;
  EVP_DigestFinal_ex : option Z -> prog ossl (Z * list Z);
  EVP_MD_CTX_free : option Z -> prog ossl unit }.

(** Its documented behaviour. Nothing is documented for a null context but that
    it can be freed, and nothing about the output of a call that returns 0 but
    that it stays within its bounds. *)
Class Digest (L : openssl) (H : list Z -> list Z) : Prop := {
  ctx_new s : exists r s', EVP_MD_CTX_new L s = Ret r s' /\
    match r with None => live L s' = live L s | Some c => (c ∉ live L s) /\ live L s' = {[c]} ∪ live L s end;
  ctx_init s c : c ∈ live L s -> exists k s', EVP_DigestInit_ex L (Some c) s = Ret k s' /\ live L s' = live L s;
  ctx_update s c d : c ∈ live L s -> exists k s', EVP_DigestUpdate L (Some c) d s = Ret k s' /\ live L s' = live L s;
  ctx_final s c : c ∈ live L s -> exists k o s', EVP_DigestFinal_ex L (Some c) s = Ret (k, o) s' /\ live L s' = live L s /\ zlen o <= EVP_MD_size L;
  ctx_free s c : c ∈ live L s -> exists s', EVP_MD_CTX_free L (Some c) s = Ret tt s' /\ live L s' = (live L s ∖ {[c]});
  digest_once s c d s1 s2 o s3 : c ∈ live L s ->
    EVP_DigestInit_ex L (Some c) s = Ret 1 s1 -> EVP_DigestUpdate L (Some c) d s1 = Ret 1 s2 -> EVP_DigestFinal_ex L (Some c) s2 = Ret (1, o) s3 ->
    o = H d;
  digest_size d : zlen (H d) = EVP_MD_size L }.

(** OpenSSL, and the memory that operator new will return, [None] when there is
    none. *)
Record crypto (L : openssl) := Crypto { ssl : ossl L; new_mem : option (list Z) }.
Arguments Crypto {L}. Arguments ssl {L}. Arguments new_mem {L}.

Section Hash.
Context (L : openssl).

Definition on_ssl {A} (c : prog (ossl L) A) : prog (crypto L) A := zoom ssl (fun o s => Crypto o (new_mem s)) c.

(** new unsigned char[EVP_MD_size(md)], not initialised *)
Definition new_bytes : prog (crypto L) (list Z) := fun s =>
  match new_mem s with Some m => Ret m s | None => Raise BadAlloc s end.

(** sha256(const uint8_t *data, size_t len) on the memory [data] points to; the
    results of the three calls are not looked at *)
Definition sha256_ptr (data : list Z) (len : Z) : prog (crypto L) (list Z) :=
  let! mdctx := on_ssl (EVP_MD_CTX_new L) in
  let! rv := new_bytes in
  let! _ := on_ssl (EVP_DigestInit_ex L mdctx) in
  let! _ := (if zlen data <? len then crash OutOfBounds else on_ssl (EVP_DigestUpdate L mdctx (ztake len data))) in
  let! r := on_ssl (EVP_DigestFinal_ex L mdctx) in
  let! rv := (if zlen rv <? zlen (snd r) then crash OutOfBounds else ret (splice 0 (snd r) rv)) in
  do! on_ssl (EVP_MD_CTX_free L mdctx) in
  ret rv.

(** The overloads *)
Definition sha256_array (data : list Z) (len : Z) : prog (crypto L) (list Z) := sha256_ptr data len.
Definition sha256_vector (data : list Z) : prog (crypto L) (list Z) := sha256_ptr data (zlen data).
End Hash.

(** ** mersenne_twister_engine *)

Record mt_params := MtParams {
  mt_w : Z; mt_n : Z; mt_m : Z; mt_r : Z; mt_a : Z; mt_u : Z; mt_d : Z; mt_s : Z; mt_b : Z; mt_t : Z; mt_c : Z; mt_l : Z; mt_f : Z }.

Definition mt19937 : mt_params := MtParams 32 624 397 31 2567483615 11 4294967295 7 2636928640 15 4022730752 18 1812433253.
Definition mt19937_64 : mt_params :=
  MtParams 64 312 156 31 13043109905998158313 29 6148914691236517205 17 8202884508482404352 37 18444473444759240704 43 6364136223846793005.

Section Engine.
Context (P : mt_params).

Definition word (x : Z) : Z := x mod 2 ^ mt_w P.

(** The words of the initial state from the [i]-th on, [x] being the one before. *)
Fixpoint seed_from (k : nat) (i x : Z) : list Z :=
  match k with
  | O => []
  | S k => let y := word (mt_f P * Z.lxor x (Z.shiftr x (mt_w P - 2)) + i mod mt_n P) in y :: seed_from k (i + 1) y
  end.

(** The constructor from a value. *)
Definition mt_seed (value : Z) : list Z := word value :: seed_from (Z.to_nat (mt_n P - 1)) 1 (word value).

(** One step: the next word of the sequence. *)
Definition mt_next (x : list Z) : Z :=
  let upper := Z.shiftl (Z.shiftr (nth 0 x 0) (mt_r P)) (mt_r P) in
  let lower := nth 1 x 0 mod 2 ^ mt_r P in
  let y := Z.lor upper lower in
  Z.lxor (nth (Z.to_nat (mt_m P)) x 0) (Z.lxor (Z.shiftr y 1) (if Z.odd y then mt_a P else 0)).

Definition mt_temper (x : Z) : Z :=
  let x := Z.lxor x (Z.land (Z.shiftr x (mt_u P)) (mt_d P)) in
  let x := Z.lxor x (Z.land (word (Z.shiftl x (mt_s P))) (mt_b P)) in
  let x := Z.lxor x (Z.land (word (Z.shiftl x (mt_t P))) (mt_c P)) in
  Z.lxor x (Z.shiftr x (mt_l P)).

(** operator() *)
Definition mt_call : prog (list Z) Z := fun x =>
  let y := mt_next x in Ret (mt_temper y) (tail x ++ [y]).
End Engine.

(** ** The generators *)

(** randmaker64 and randmaker32: the engine; the device is only used for the seed. *)
Record randmaker := Randmaker { rm_engine : mt_params; gen : list Z }.

(** The constructors; [rd] is what the random device returns, an unsigned int. *)
Definition randmaker64 (rd : Z) : randmaker := Randmaker mt19937_64 (mt_seed mt19937_64 (u32 rd)).
Definition randmaker32 (rd : Z) : randmaker := Randmaker mt19937 (mt_seed mt19937 (u32 rd)).

(** operator() *)
Definition rm_call : prog randmaker Z := fun r => zoom gen (fun g r => Randmaker (rm_engine r) g) (mt_call (rm_engine r)) r.

(** [k] calls in a row. *)
Fixpoint draws (k : nat) (r : randmaker) : list Z :=
  match k with
  | O => []
  | S k => match rm_call r with Ret v r' => v :: draws k r' | _ => [] end
  end.

(** The values the standard gives for the 10000th call of the default engines. *)
Fixpoint skip_calls (P : mt_params) (k : nat) (x : list Z) : list Z :=
  match k with O => x | S k => skip_calls P k (tail x ++ [mt_next P x]) end.

Example mt19937_conforms : mt_temper mt19937 (mt_next mt19937 (skip_calls mt19937 (Z.to_nat 9999) (mt_seed mt19937 5489))) = 4123659995.
Proof. vm_compute. reflexivity. Qed.

Example mt19937_64_conforms :
  mt_temper mt19937_64 (mt_next mt19937_64 (skip_calls mt19937_64 (Z.to_nat 9999) (mt_seed mt19937_64 5489))) = 9981545732273789042.
Proof. vm_compute. reflexivity. Qed.

(** ** sha256, proved *)

Section HashProofs.
Context (L : openssl) (H : list Z -> list Z) `{D : !Digest L H}.

Lemma on_ssl_ret {A} (c : prog (ossl L) A) a s o : c (ssl s) = Ret a o -> on_ssl L c s = Ret a (Crypto o (new_mem s)).
Proof. intros Hc. unfold on_ssl, zoom. by rewrite Hc. Qed.

(** C34. sha256 with a context from EVP_MD_CTX_new and memory for the result
    always returns and frees the context. The three calls on the context get the
    [len] bytes; when all of them return 1 the result is their digest. When one
    fails sha256 returns all the same, what the last call has written over
    memory that was not initialised. Without memory for the result it throws and
    the context is never freed. *)
Theorem sha256_exact data len (s : crypto L) c o :
  0 <= len <= zlen data -> EVP_MD_CTX_new L (ssl s) = Ret (Some c) o ->
  match new_mem s with
  | Some mem =>
      zlen mem = EVP_MD_size L ->
      exists k1 o1 k2 o2 k3 out o3 s',
        EVP_DigestInit_ex L (Some c) o = Ret k1 o1 /\ EVP_DigestUpdate L (Some c) (ztake len data) o1 = Ret k2 o2 /\
        EVP_DigestFinal_ex L (Some c) o2 = Ret (k3, out) o3 /\
        sha256_ptr L data len s = Ret (splice 0 out mem) s' /\ live L (ssl s') = live L (ssl s) /\
        (k1 = 1 -> k2 = 1 -> k3 = 1 -> splice 0 out mem = H (ztake len data))
  | None => exists s', sha256_ptr L data len s = Raise BadAlloc s' /\ (c ∉ live L (ssl s)) /\ live L (ssl s') = {[c]} ∪ live L (ssl s)
  end.
Proof using D.
  intros Hl Hn. destruct (ctx_new (ssl s)) as (r&o'&Hn'&Hlive). rewrite Hn in Hn'. injection Hn' as <- <-. destruct Hlive as [Hc Hlive].
  unfold sha256_ptr. erewrite bind_ret by (apply on_ssl_ret; exact Hn). unfold new_bytes. destruct (new_mem s) as [mem|] eqn:Hm.
  - intros Hz. assert (c ∈ live L o) as H0 by (rewrite Hlive; set_solver). destruct (ctx_init o c H0) as (k1&o1&E1&L1).
    assert (c ∈ live L o1) as H1 by (by rewrite L1). destruct (ctx_update o1 c (ztake len data) H1) as (k2&o2&E2&L2).
    assert (c ∈ live L o2) as H2 by (by rewrite L2). destruct (ctx_final o2 c H2) as (k3&out&o3&E3&L3&Hout).
    assert (c ∈ live L o3) as H3 by (by rewrite L3). destruct (ctx_free o3 c H3) as (o4&E4&L4).
    exists k1, o1, k2, o2, k3, out, o3, (Crypto o4 (Some mem)). split_and!; [done..| | |].
    + erewrite bind_ret by (cbn [new_mem]; reflexivity). erewrite bind_ret by (apply on_ssl_ret; exact E1).
      rewrite (proj2 (Z.ltb_ge (zlen data) len)) by lia. erewrite bind_ret by (apply on_ssl_ret; exact E2).
      erewrite bind_ret by (apply on_ssl_ret; exact E3). cbn [snd]. rewrite (proj2 (Z.ltb_ge (zlen mem) (zlen out))) by lia.
      erewrite bind_ret by reflexivity. by erewrite bind_ret by (apply on_ssl_ret; exact E4).
    + cbn [ssl]. rewrite L4, L3, L2, L1, Hlive. set_solver.
    + intros -> -> ->. rewrite (digest_once o c _ o1 o2 out o3 H0 E1 E2 E3). apply splice_all. rewrite (digest_size (H := H)). lia.
  - exists (Crypto o None). split; [by erewrite bind_raise by (cbn [new_mem]; reflexivity)|]. done.
Qed.
End HashProofs.

(** An OpenSSL with the digest of FIPS 180-4: contexts collect the bytes; it has
    memory for contexts below [n]. *)
Definition fips (n : Z) : openssl :=
  let call c (f : list Z -> list Z) : prog (gmap Z (list Z)) Z := fun m =>
    match c with Some c => match m !! c with Some x => Ret 1 (<[c := f x]> m) | None => Fault UseAfterFree end | None => Ret 0 m end in
  OpenSsl (gmap Z (list Z)) dom
    (fun m => let c := fresh (dom m) in if c <? n then Ret (Some c) (<[c := []]> m) else Ret None m)
    32
    (fun c => call c (fun _ => []))
    (fun c d => call c (fun x => x ++ d))
    (fun c m => match c with Some c => match m !! c with Some x => Ret (1, sha256 x) m | None => Fault UseAfterFree end | None => Ret (0, []) m end)
    (fun c m => match c with Some c => Ret tt (delete c m) | None => Ret tt m end).

#[export] Instance fips_digest n : Digest (fips n) sha256.
Proof.
  split; cbn [fips live EVP_MD_CTX_new EVP_MD_size EVP_DigestInit_ex EVP_DigestUpdate EVP_DigestFinal_ex EVP_MD_CTX_free ossl]; cbv zeta.
  - intros m. destruct (_ <? n); eexists _, _; (split; [reflexivity|]); [|done]. split; [apply is_fresh|by rewrite dom_insert_L].
  - intros m c [x Hx]%elem_of_dom. rewrite Hx. eexists _, _. split; [reflexivity|]. rewrite dom_insert_lookup_L; [done|by rewrite Hx].
  - intros m c d [x Hx]%elem_of_dom. rewrite Hx. eexists _, _. split; [reflexivity|]. rewrite dom_insert_lookup_L; [done|by rewrite Hx].
  - intros m c [x Hx]%elem_of_dom. rewrite Hx. eexists _, _, _. split; [reflexivity|]. split; [done|]. by rewrite (proj1 (sha256_digest x)).
  - intros m c _. eexists. split; [reflexivity|]. by rewrite dom_delete_L.
  - intros m c d m1 m2 o m3 [x Hx]%elem_of_dom. rewrite Hx. intros [= <-]. rewrite lookup_insert_eq. intros [= <-]. rewrite lookup_insert_eq. by intros [= <- _].
  - intros d. apply sha256_digest.
Qed.

Lemma sha256_exact_witness :
  exists s', sha256_ptr (fips 5) [97; 98; 99; 7] 3 (Crypto (L := fips 5) ∅ (Some (zrep 32 170))) = Ret (sha256 [97; 98; 99]) s' /\ live (fips 5) (ssl s') = ∅.
Proof.
  destruct (sha256_exact (fips 5) sha256 [97; 98; 99; 7] 3 (Crypto (L := fips 5) ∅ (Some (zrep 32 170))) 0 {[0 := []]})
    as (k1&o1&k2&o2&k3&out&o3&s'&E1&E2&E3&Hr&Hlive&Hd).
  - vm_compute. split; congruence.
  - vm_compute. reflexivity.
  - reflexivity.
  - exists s'. vm_compute in E1. injection E1 as <- <-. vm_compute in E2. injection E2 as <- <-. vm_compute in E3. injection E3 as <- _ _.
    split; [|exact Hlive]. rewrite Hr. rewrite (Hd eq_refl eq_refl eq_refl). reflexivity.
Defined.

(** ** The engines, proved *)

Lemma bounded_bits x n : 0 <= n -> 0 <= x -> x < 2 ^ n <-> forall i, n <= i -> Z.testbit x i = false.
Proof. apply Z.bounded_iff_bits_nonneg. Qed.

Lemma high_bit x n i : 0 <= n <= i -> 0 <= x < 2 ^ n -> Z.testbit x i = false.
Proof. intros Hi Hx. by apply (proj1 (bounded_bits x n ltac:(lia) ltac:(lia))); [lia|lia]. Qed.

Lemma lxor_bound n x y : 0 <= n -> 0 <= x < 2 ^ n -> 0 <= y < 2 ^ n -> 0 <= Z.lxor x y < 2 ^ n.
Proof.
  intros Hn Hx Hy. assert (0 <= Z.lxor x y) as H0 by (apply Z.lxor_nonneg; lia). split; [done|]. apply bounded_bits; [done|done|].
  intros i Hi. by rewrite Z.lxor_spec, (high_bit x n i), (high_bit y n i) by lia.
Qed.

Lemma lor_bound n x y : 0 <= n -> 0 <= x < 2 ^ n -> 0 <= y < 2 ^ n -> 0 <= Z.lor x y < 2 ^ n.
Proof.
  intros Hn Hx Hy. assert (0 <= Z.lor x y) as H0 by (apply Z.lor_nonneg; lia). split; [done|]. apply bounded_bits; [done|done|].
  intros i Hi. by rewrite Z.lor_spec, (high_bit x n i), (high_bit y n i) by lia.
Qed.

Lemma land_bound n x y : 0 <= n -> 0 <= x < 2 ^ n -> 0 <= Z.land x y < 2 ^ n.
Proof.
  intros Hn Hx. assert (0 <= Z.land x y) as H0 by (apply Z.land_nonneg; lia). split; [done|]. apply bounded_bits; [done|done|].
  intros i Hi. by rewrite Z.land_spec, (high_bit x n i) by lia.
Qed.

Lemma shiftr_bound n x k : 0 <= k -> 0 <= x < 2 ^ n -> 0 <= Z.shiftr x k < 2 ^ n.
Proof.
  intros Hk Hx. rewrite Z.shiftr_div_pow2 by done. pose proof (Z.pow_pos_nonneg 2 k ltac:(lia) Hk).
  split; [apply Z.div_pos; lia|]. apply Z.le_lt_trans with x; [|lia]. apply Z.div_le_upper_bound; [lia|nia].
Qed.

(** The parameters of the engines that the proofs use. *)
Record params_ok (P : mt_params) : Prop := {
  pk_w : 0 < mt_w P; pk_n : 1 < mt_n P; pk_m : 0 <= mt_m P < mt_n P; pk_r : 0 <= mt_r P <= mt_w P; pk_a : 0 <= mt_a P < 2 ^ mt_w P;
  pk_u : 0 < mt_u P; pk_s : 0 < mt_s P; pk_t : 0 < mt_t P; pk_l : 0 < mt_l P }.

Lemma mt19937_ok : params_ok mt19937.
Proof. split; vm_compute; try split; congruence. Qed.
Lemma mt19937_64_ok : params_ok mt19937_64.
Proof. split; vm_compute; try split; congruence. Qed.

Section EngineProofs.
Context (P : mt_params) (HP : params_ok P).

Definition is_word (x : Z) : Prop := 0 <= x < 2 ^ mt_w P.

Lemma word_ok x : is_word (word P x).
Proof using HP. apply Z.mod_pos_bound, Z.pow_pos_nonneg; [lia|]. destruct HP. lia. Qed.

Lemma seed_from_ok k i x : Forall is_word (seed_from P k i x) /\ length (seed_from P k i x) = k.
Proof using HP.
  revert i x. induction k as [|k IH]; intros i x; cbn [seed_from]; [by split; [constructor|]|]. cbv zeta.
  destruct (IH (i + 1) (word P (mt_f P * Z.lxor x (Z.shiftr x (mt_w P - 2)) + i mod mt_n P))) as [H1 H2].
  split; [constructor; [apply word_ok|done]|]. simpl. by rewrite H2.
Qed.

(** The states: as many words as the engine has. *)
Definition engine_ok (x : list Z) : Prop := Forall is_word x /\ zlen x = mt_n P.

Lemma mt_seed_ok v : engine_ok (mt_seed P v).
Proof using HP.
  destruct (seed_from_ok (Z.to_nat (mt_n P - 1)) 1 (word P v)) as [H1 H2]. split; [constructor; [apply word_ok|done]|].
  unfold mt_seed. rewrite zlen_cons. unfold zlen. rewrite H2. destruct HP. lia.
Qed.

Lemma nth_word x k : Forall is_word x -> is_word (nth k x 0).
Proof using HP.
  intros Hx. assert (is_word 0) as H0 by (split; [lia|apply Z.pow_pos_nonneg; destruct HP; lia]).
  revert k. induction Hx; intros [|k]; simpl; auto.
Qed.

Lemma mt_next_ok x : Forall is_word x -> is_word (mt_next P x).
Proof using HP.
  intros Hx. pose proof (nth_word x 0 Hx) as [H0 H0']. pose proof (nth_word x 1 Hx) as H1. pose proof (nth_word x (Z.to_nat (mt_m P)) Hx) as Hm.
  destruct HP. assert (0 <= mt_w P) as Hw by lia. unfold mt_next, is_word. cbv zeta.
  assert (2 ^ mt_r P <= 2 ^ mt_w P) by (apply Z.pow_le_mono_r; lia). pose proof (Z.pow_pos_nonneg 2 (mt_r P) ltac:(lia) ltac:(lia)).
  pose proof (Z.mod_pos_bound (nth 1 x 0) (2 ^ mt_r P) ltac:(lia)).
  assert (0 <= Z.shiftl (Z.shiftr (nth 0 x 0) (mt_r P)) (mt_r P) < 2 ^ mt_w P) as Hu.
  { rewrite Z.shiftl_mul_pow2, Z.shiftr_div_pow2 by lia. pose proof (Z.mul_div_le (nth 0 x 0) (2 ^ mt_r P) ltac:(lia)).
    pose proof (Z.div_pos (nth 0 x 0) (2 ^ mt_r P) ltac:(lia) ltac:(lia)). nia. }
  assert (0 <= Z.lor (Z.shiftl (Z.shiftr (nth 0 x 0) (mt_r P)) (mt_r P)) (nth 1 x 0 mod 2 ^ mt_r P) < 2 ^ mt_w P) as Hy by (apply lor_bound; lia).
  apply lxor_bound; [done|done|]. apply lxor_bound; [done|apply shiftr_bound; [lia|done]|]. destruct (Z.odd _); [done|lia].
Qed.

Lemma mt_temper_ok x : is_word x -> is_word (mt_temper P x).
Proof using HP.
  intros Hx. pose proof word_ok as Hword. destruct HP. unfold is_word in *. assert (0 <= mt_w P) as Hw by lia. unfold mt_temper. cbv zeta.
  set (x1 := Z.lxor x _). assert (0 <= x1 < 2 ^ mt_w P) as H1 by (apply lxor_bound; [done|done|apply land_bound; [done|apply shiftr_bound; [lia|done]]]).
  set (x2 := Z.lxor x1 _). assert (0 <= x2 < 2 ^ mt_w P) as H2 by (apply lxor_bound; [done|done|apply land_bound; [done|apply Hword]]).
  set (x3 := Z.lxor x2 _). assert (0 <= x3 < 2 ^ mt_w P) as H3 by (apply lxor_bound; [done|done|apply land_bound; [done|apply Hword]]).
  apply lxor_bound; [done|done|apply shiftr_bound; [lia|done]].
Qed.

Lemma mt_call_ok x : engine_ok x -> exists x', mt_call P x = Ret (mt_temper P (mt_next P x)) x' /\ engine_ok x' /\ is_word (mt_temper P (mt_next P x)).
Proof using HP.
  intros [Hx Hl]. eexists. split; [reflexivity|]. pose proof (mt_next_ok x Hx) as Hn. split; [|by apply mt_temper_ok].
  destruct x as [|a x]; [destruct HP; change (@zlen Z []) with 0 in Hl; lia|]. cbn [tail]. apply Forall_cons in Hx as [_ Hx]. split.
  - apply Forall_app. split; [done|]. constructor; [done|constructor].
  - rewrite zlen_cons in Hl. rewrite zlen_app. change (zlen [mt_next P (a :: x)]) with 1. lia.
Qed.
End EngineProofs.

(** *** Tempering loses nothing *)

Lemma xorb_same a b c : xorb a c = xorb b c -> a = b.
Proof. by destruct a, b, c. Qed.

(** x ^= (x >> k) & d can be undone, from the highest bit down. *)
Lemma xorshift_r_inj w k d x y :
  0 < k -> 0 <= w -> 0 <= x < 2 ^ w -> 0 <= y < 2 ^ w ->
  Z.lxor x (Z.land (Z.shiftr x k) d) = Z.lxor y (Z.land (Z.shiftr y k) d) -> x = y.
Proof.
  intros Hk Hw Hx Hy E. assert (forall n i, 0 <= i -> w - i <= Z.of_nat n -> Z.testbit x i = Z.testbit y i) as H.
  { induction n as [|n IH]; intros i Hi Hn; [rewrite (high_bit x w i), (high_bit y w i) by lia; done|].
    pose proof (f_equal (fun z => Z.testbit z i) E) as Eb. cbv beta in Eb. rewrite !Z.lxor_spec, !Z.land_spec, !Z.shiftr_spec in Eb by done.
    rewrite (IH (i + k)) in Eb by lia. by apply xorb_same in Eb. }
  apply Z.bits_inj'. intros i Hi. apply (H (Z.to_nat w)); lia.
Qed.

(** x ^= (x << k) & b, from the lowest bit up. *)
Lemma xorshift_l_inj w k b x y :
  0 < k -> 0 <= w -> 0 <= x < 2 ^ w -> 0 <= y < 2 ^ w ->
  Z.lxor x (Z.land (Z.shiftl x k mod 2 ^ w) b) = Z.lxor y (Z.land (Z.shiftl y k mod 2 ^ w) b) -> x = y.
Proof.
  intros Hk Hw Hx Hy E. assert (forall n i, 0 <= i < Z.of_nat n -> Z.testbit x i = Z.testbit y i) as H.
  { induction n as [|n IH]; intros i Hi; [lia|]. destruct (decide (w <= i)) as [Hge|Hlt].
    { rewrite (high_bit x w i), (high_bit y w i) by lia. done. }
    pose proof (f_equal (fun z => Z.testbit z i) E) as Eb. cbv beta in Eb.
    rewrite !Z.lxor_spec, !Z.land_spec in Eb. rewrite !Z.mod_pow2_bits_low in Eb by lia. rewrite !Z.shiftl_spec in Eb by lia.
    destruct (decide (i - k < 0)) as [Hneg|Hpos]; [rewrite (Z.testbit_neg_r x (i - k)), (Z.testbit_neg_r y (i - k)) in Eb by lia|rewrite (IH (i - k)) in Eb by lia]; by apply xorb_same in Eb. }
  apply Z.bits_inj'. intros i Hi. apply (H (Z.to_nat (i + 1))); lia.
Qed.

Lemma mt_temper_inj P (HP : params_ok P) x y : is_word P x -> is_word P y -> mt_temper P x = mt_temper P y -> x = y.
Proof.
  intros Hx Hy. pose proof (word_ok P HP) as Hword. destruct HP. unfold is_word in *. assert (0 <= mt_w P) as Hw by lia. unfold mt_temper. cbv zeta.
  assert (forall z, 0 <= z < 2 ^ mt_w P -> 0 <= Z.lxor z (Z.land (Z.shiftr z (mt_u P)) (mt_d P)) < 2 ^ mt_w P) as B1
    by (intros; apply lxor_bound; [done|done|apply land_bound; [done|apply shiftr_bound; [lia|done]]]).
  assert (forall z k b, 0 <= z < 2 ^ mt_w P -> 0 <= Z.lxor z (Z.land (word P (Z.shiftl z k)) b) < 2 ^ mt_w P) as B2
    by (intros; apply lxor_bound; [done|done|apply land_bound; [done|apply Hword]]).
  intros E. rewrite <- (Z.land_m1_r (Z.shiftr _ (mt_l P))), <- (Z.land_m1_r (Z.shiftr (Z.lxor _ (Z.land (word P (Z.shiftl (Z.lxor _ (Z.land (word P (Z.shiftl (Z.lxor y _) _)) _)) _)) _)) (mt_l P))) in E.
  apply (xorshift_r_inj (mt_w P)) in E; [|lia|done|auto|auto]. apply (xorshift_l_inj (mt_w P)) in E; [|lia|done|auto|auto].
  apply (xorshift_l_inj (mt_w P)) in E; [|lia|done|auto|auto]. by apply (xorshift_r_inj (mt_w P)) in E; [|lia|done|..].
Qed.

(** *** Properties *)

(** The nonces fit their types: every call of the generators returns, a 64-bit or
    a 32-bit number, and different words of the engine give different nonces. *)
Theorem nonces_in_range rd k :
  (length (draws k (randmaker64 rd)) = k /\ Forall (fun v => 0 <= v < 2 ^ 64) (draws k (randmaker64 rd))) /\
  (length (draws k (randmaker32 rd)) = k /\ Forall (fun v => 0 <= v < 2 ^ 32) (draws k (randmaker32 rd))) /\
  (forall x y, is_word mt19937_64 x -> is_word mt19937_64 y -> mt_temper mt19937_64 x = mt_temper mt19937_64 y -> x = y) /\
  (forall x y, is_word mt19937 x -> is_word mt19937 y -> mt_temper mt19937 x = mt_temper mt19937 y -> x = y).
Proof.
  assert (forall P (HP : params_ok P) x, engine_ok P x ->
    length (draws k (Randmaker P x)) = k /\ Forall (fun v => 0 <= v < 2 ^ mt_w P) (draws k (Randmaker P x))) as H.
  { intros P HP. induction k as [|n IH]; intros x Hx; cbn [draws]; [by split; [|constructor]|].
    destruct (mt_call_ok P HP x Hx) as (x'&Hc&Hx'&Hv). unfold rm_call, zoom. cbn [gen rm_engine]. rewrite Hc.
    destruct (IH x' Hx') as [H1 H2]. split; [simpl; by rewrite H1|by constructor]. }
  split_and!; [apply (H mt19937_64 mt19937_64_ok), mt_seed_ok, mt19937_64_ok..|apply (H mt19937 mt19937_ok), mt_seed_ok, mt19937_ok|
    apply (H mt19937 mt19937_ok), mt_seed_ok, mt19937_ok|apply mt_temper_inj, mt19937_64_ok|apply mt_temper_inj, mt19937_ok].
Qed.
