(* ===== verification/BitcoinWire.v ===== *)
(** * Bitcoin messages on the wire

    shared/src/bitcoin.cpp and the structures of shared/includes/bitcoin.hpp:
    variable length integers and strings, network addresses, version messages
    and message envelopes, as the byte strings the code lays out in memory. A
    structure is the list of its bytes; fields are at the offsets of the packed
    layout. [sha256] (OpenSSL), the clock, the random nonces and the
    configuration are parameters. *)

From S2P Require Import Prelude.
From S2P Require Import Bytes.
From S2P Require Import Sha256.

(** ** struct sockaddr_storage *)

Definition AF_INET : Z := 2.
Definition AF_INET6 : Z := 10.
Definition SOCKADDR_STORAGE : Z := 128.

(** Fields of the 128 bytes of a sockaddr_storage, and of the sockaddr_in or
    sockaddr_in6 it holds; ports and addresses stay in network byte order. *)
Definition ss_family (ss : list Z) : Z := le_val (slice 0 2 ss).
Definition ss_port (ss : list Z) : list Z := slice 2 2 ss.
Definition sin_addr (ss : list Z) : list Z := slice 4 4 ss.
Definition sin6_addr (ss : list Z) : list Z := slice 8 16 ss.

Definition MAX_VERSION : Z := 70002.
Definition SERVICES : Z := 1.

(** ** Variable length integers *)

Definition get_varint_size (b0 : Z) : Z :=
  if b0 <? 253 then 1
  else if b0 =? 253 then 3
  else if b0 =? 254 then 5
  else 9.

(** get_varint: the value and its size; [None] when the buffer is too short. *)
Definition get_varint (buf : list Z) : option (Z * Z) :=
  match buf with
  | [] => None
  | b0 :: _ =>
      let size := get_varint_size b0 in
      if zlen buf <? size then None
      else if size =? 1 then Some (b0, size)
      else Some (le_val (slice 1 (size - 1) buf), size)
  end.

(** to_varint: the bytes it writes *)
Definition to_varint (val : Z) : list Z :=
  if val <? 253 then [u8 val]
  else if val <=? 65535 then 253 :: le_bytes 2 val
  else if val <=? 4294967295 then 254 :: le_bytes 4 val
  else 255 :: le_bytes 8 val.

Definition var_string (input : list Z) : list Z := to_varint (zlen input) ++ input.

(** struct inv_vector: 36 bytes *)
Definition get_inv (v : list (list Z)) : list Z := to_varint (zlen v) ++ concat v.

(** ** Addresses *)

(** set_address on the 26 bytes at [dest]: the bzero runs from the start of the
    structure, over the services just stored. *)
Definition set_address (dest src : list Z) : list Z :=
  let d := splice 0 (le_bytes 8 SERVICES) dest in
  let d := splice 0 (zrep (26 - 8 - 2) 0) d in
  if ss_family src =? AF_INET then
    let d := splice 18 [255] d in
    let d := splice 19 [255] d in
    let d := splice 20 (sin_addr src) d in
    splice 24 (ss_port src) d
  else if ss_family src =? AF_INET6 then
    let d := splice 8 (sin6_addr src) d in
    splice 24 (ss_port src) d
  else d.

(** ** Version messages *)

Definition VERSION_PREFIX : Z := 80.
Definition VERSION_SUFFIX : Z := 5.

(** get_version over the memory [mem] the allocation returned; the result is
    the message and g_last_block. *)
Definition get_version (cfg_height now nonce : Z) (mem user_agent from_addr recv_addr : list Z)
    (g_last_block : Z) : list Z * Z :=
  let agent := var_string user_agent in
  let n := zlen agent in
  let rv := splice 0 (le_bytes 4 MAX_VERSION) mem in
  let rv := splice 4 (le_bytes 8 SERVICES) rv in
  let rv := splice 12 (le_bytes 8 now) rv in
  let rv := splice 20 (set_address (slice 20 26 rv) recv_addr) rv in
  let rv := splice 46 (set_address (slice 46 26 rv) from_addr) rv in
  let rv := splice 72 (le_bytes 8 nonce) rv in
  let rv := splice 80 agent rv in
  let height := if g_last_block =? 0 then s32 cfg_height else g_last_block in
  let rv := splice (80 + n) (le_bytes 4 height) rv in
  let rv := splice (84 + n) [1] rv in
  (rv, height).

(** ** Message envelopes *)

Definition PACKED_MESSAGE : Z := 24.

Definition msg_magic (m : list Z) : Z := le_val (slice 0 4 m).
Definition msg_command (m : list Z) : list Z := slice 4 12 m.
Definition msg_length (m : list Z) : Z := u32 (le_val (slice 16 4 m)).
Definition msg_checksum (m : list Z) : Z := le_val (slice 20 4 m).
Definition msg_payload (m : list Z) : list Z := zdrop PACKED_MESSAGE m.

(** strncpy: what the [n] bytes of the destination hold afterwards *)
Definition strncpy (n : Z) (src : list Z) : list Z := resize n 0 (c_string src).

Section Hash.
Context (sha256 : list Z -> list Z).

Definition compute_checksum (payload : list Z) : Z := le_val (slice 0 4 (sha256 (sha256 payload))).

(** get_message over the memory [mem] that operator new returned. *)
Definition get_message_in (mem : list Z) (magic : Z) (command payload : list Z) : list Z :=
  let len := zlen payload in
  let rv := splice 0 (le_bytes 4 magic) mem in
  let rv := splice 4 (zrep 12 0) rv in
  let rv := splice 4 (strncpy 12 command) rv in
  let rv := splice 16 (le_bytes 4 len) rv in
  if negb (msg_length rv =? 0) then
    let rv := splice PACKED_MESSAGE payload rv in
    splice 20 (le_bytes 4 (compute_checksum payload)) rv
  else splice 20 (le_bytes 4 3806393949) rv.

(** The message does not depend on that memory (get_message_any_mem). *)
Definition get_message (magic : Z) (command payload : list Z) : list Z :=
  get_message_in (zrep (PACKED_MESSAGE + zlen payload) 0) magic command payload.
End Hash.

(** ** Lemmas *)

Lemma zlen_to_varint v : 1 <= zlen (to_varint v) <= 9.
Proof.
  unfold to_varint. repeat zcase; rewrite ?zlen_cons, ?zlen_le_bytes; change (zlen []) with 0; lia.
Qed.

Lemma msg_length_range m : 0 <= msg_length m < 2 ^ 32.
Proof. apply u32_range. Qed.

(** A stored field read back, and the fields around it. *)
Lemma slice_splice_same {A} off n (d l : list A) :
  0 <= off -> n = zlen d -> off + n <= zlen l -> slice off n (splice off d l) = d.
Proof. intros ? -> ?. by apply splice_same. Qed.

Lemma slice_splice_before {A} off n k (d l : list A) :
  0 <= off -> 0 <= n -> off + n <= k <= zlen l -> slice off n (splice k d l) = slice off n l.
Proof.
  intros. unfold splice. rewrite slice_app_l by (rewrite ?zlen_ztake; lia).
  unfold slice. rewrite <- (ztake_zdrop k l) at 2. rewrite zdrop_app_l by (rewrite zlen_ztake; lia).
  rewrite ztake_app_l; [done|]. rewrite zlen_zdrop, zlen_ztake. lia.
Qed.

Lemma slice_splice_after {A} off n k (d l : list A) :
  0 <= k -> k + zlen d <= off -> off <= zlen l -> slice off n (splice k d l) = slice off n l.
Proof.
  intros. pose proof (zlen_nonneg d). unfold splice. rewrite app_assoc.
  rewrite slice_app_r by (rewrite zlen_app, zlen_ztake; lia).
  unfold slice. rewrite zdrop_zdrop by (rewrite ?zlen_app, ?zlen_ztake; lia). f_equal. f_equal.
  rewrite zlen_app, zlen_ztake. lia.
Qed.

Lemma ss_fields src :
  zlen src = SOCKADDR_STORAGE ->
  zlen (ss_port src) = 2 /\ zlen (sin_addr src) = 4 /\ zlen (sin6_addr src) = 16.
Proof. unfold SOCKADDR_STORAGE. intros. split_and!; apply zlen_slice; lia. Qed.

Lemma splice_len {A} off (d l : list A) n :
  zlen l = n -> 0 <= off -> off + zlen d <= n -> zlen (splice off d l) = n.
Proof. intros <- ? ?. by apply zlen_splice. Qed.

Ltac splice_lens :=
  repeat (apply splice_len; [|lia|rewrite ?zlen_zrep, ?zlen_le_bytes, ?zlen_cons, ?zlen_nil; lia]).

Lemma zlen_set_address d src :
  zlen d = 26 -> zlen src = SOCKADDR_STORAGE -> zlen (set_address d src) = 26.
Proof.
  intros Hd (?&?&?)%ss_fields. unfold set_address. repeat zcase; by splice_lens.
Qed.

(** A list of known length as its elements: [explode H] for [H : zlen l = 26]. *)
Lemma len_S {A} (l : list A) n : zlen l = Z.pos (Pos.succ n) -> exists x l', l = x :: l' /\ zlen l' = Z.pos n.
Proof.
  destruct l as [|x l]; [done|]. rewrite zlen_cons. intros. exists x, l. split; [done|lia].
Qed.
Lemma len_1 {A} (l : list A) : zlen l = 1 -> exists x, l = [x].
Proof. destruct l as [|x [|y l]]; rewrite ?zlen_cons; [done|eauto|]. pose proof (zlen_nonneg l). lia. Qed.

Ltac explode H :=
  let l' := fresh "l" in
  first [ apply len_1 in H as [? ->]
        | match type of H with zlen ?l = Z.pos ?p =>
            let q := eval vm_compute in (Pos.pred p) in
            apply (len_S _ q) in H as (?&l'&->&H); explode H
          end ].

(** The two address forms, byte by byte. *)
Lemma set_address_ipv4 d src :
  zlen d = 26 -> zlen src = SOCKADDR_STORAGE -> ss_family src = AF_INET ->
  set_address d src = zrep 16 0 ++ slice 16 2 d ++ [255; 255] ++ sin_addr src ++ ss_port src.
Proof.
  intros Hd (Hp&Ha&_)%ss_fields Hf. unfold set_address. rewrite Hf. simpl Z.eqb. cbv iota.
  revert Hp Ha. generalize (ss_port src), (sin_addr src). intros p a Hp Ha.
  explode Hd. explode Hp. explode Ha. reflexivity.
Qed.

Lemma set_address_ipv6 d src :
  zlen d = 26 -> zlen src = SOCKADDR_STORAGE -> ss_family src = AF_INET6 ->
  set_address d src = zrep 8 0 ++ sin6_addr src ++ ss_port src.
Proof.
  intros Hd (Hp&_&Ha)%ss_fields Hf. unfold set_address. rewrite Hf. simpl Z.eqb. cbv iota.
  revert Hp Ha. generalize (ss_port src), (sin6_addr src). intros p a Hp Ha.
  explode Hd. explode Hp. explode Ha. reflexivity.
Qed.

(** Any other family leaves the last ten bytes as they were. *)
Lemma set_address_other d src :
  zlen d = 26 -> ss_family src <> AF_INET -> ss_family src <> AF_INET6 ->
  set_address d src = zrep 16 0 ++ slice 16 10 d.
Proof.
  intros Hd H4 H6. unfold set_address. do 2 (zcase; [done|]). explode Hd. reflexivity.
Qed.

(** Storing fields from the front on. *)
Lemma store_next off (d l pre : list Z) n :
  ztake off l = pre /\ zlen l = n -> 0 <= off -> off + zlen d <= n ->
  ztake (off + zlen d) (splice off d l) = pre ++ d /\ zlen (splice off d l) = n.
Proof.
  intros [<- <-] ? ?. pose proof (zlen_nonneg d). split; [apply splice_take; lia|by apply zlen_splice].
Qed.

(** The version message, field by field. [j1] and [j2] are what the
    allocation held where the addresses go. *)
Lemma get_version_layout cfg_height now nonce mem ua from recv g :
  let n := zlen (var_string ua) in
  zlen mem = VERSION_PREFIX + n + VERSION_SUFFIX ->
  zlen from = SOCKADDR_STORAGE -> zlen recv = SOCKADDR_STORAGE ->
  let height := if g =? 0 then s32 cfg_height else g in
  exists j1 j2, zlen j1 = 26 /\ zlen j2 = 26 /\
    get_version cfg_height now nonce mem ua from recv g =
    (le_bytes 4 MAX_VERSION ++ le_bytes 8 SERVICES ++ le_bytes 8 now ++ set_address j1 recv ++
     set_address j2 from ++ le_bytes 8 nonce ++ var_string ua ++ le_bytes 4 height ++ [1], height).
Proof.
  intros n Hm Hf Hr height. unfold VERSION_PREFIX, VERSION_SUFFIX in Hm. pose proof (zlen_nonneg (var_string ua)).
  unfold get_version. fold n height. set (N := 80 + n + 5) in *.
  assert (ztake 0 mem = [] /\ zlen mem = N) as H0 by (split; [by apply ztake_neg|done]).
  apply (store_next 0 (le_bytes 4 MAX_VERSION)) in H0 as H1; [|lia|rewrite zlen_le_bytes; lia].
  apply (store_next 4 (le_bytes 8 SERVICES)) in H1 as H2; [|lia|rewrite zlen_le_bytes; lia].
  apply (store_next 12 (le_bytes 8 now)) in H2 as H3; [|lia|rewrite zlen_le_bytes; lia].
  set (rv3 := splice 12 _ _) in *. set (j1 := slice 20 26 rv3).
  assert (zlen j1 = 26) as Hj1 by (apply zlen_slice; lia).
  pose proof (zlen_set_address j1 recv Hj1 Hr) as Ha1.
  apply (store_next 20 (set_address j1 recv)) in H3 as H4; [|lia|lia].
  set (rv4 := splice 20 _ _) in *. set (j2 := slice 46 26 rv4).
  assert (zlen j2 = 26) as Hj2 by (apply zlen_slice; lia).
  pose proof (zlen_set_address j2 from Hj2 Hf) as Ha2.
  rewrite Ha1 in H4. apply (store_next 46 (set_address j2 from)) in H4 as H5; [|lia|lia].
  rewrite Ha2 in H5. apply (store_next 72 (le_bytes 8 nonce)) in H5 as H6; [|lia|rewrite zlen_le_bytes; lia].
  apply (store_next 80 (var_string ua)) in H6 as H7; [|lia|lia]. fold n in H7.
  apply (store_next (80 + n) (le_bytes 4 height)) in H7 as H8; [|lia|rewrite zlen_le_bytes; lia].
  rewrite zlen_le_bytes in H8. replace (80 + n + Z.of_nat 4) with (84 + n) in H8 by lia.
  apply (store_next (84 + n) [1]) in H8 as [H9 HN]; [|lia|rewrite zlen_cons, zlen_nil; lia].
  exists j1, j2. split_and!; [done..|]. f_equal.
  rewrite ztake_all in H9 by (rewrite HN, zlen_cons, zlen_nil; lia). rewrite H9. simpl app.
  by rewrite <- !app_assoc.
Qed.
Section Envelope.
Context (hash : list Z -> list Z).

(** The stores lay the fields out one after the other. *)
Lemma get_message_layout mem magic cmd payload :
  zlen mem = PACKED_MESSAGE + zlen payload -> zlen payload < 2 ^ 32 ->
  get_message_in hash mem magic cmd payload =
    le_bytes 4 magic ++ strncpy 12 cmd ++ le_bytes 4 (zlen payload) ++
    le_bytes 4 (if zlen payload =? 0 then 3806393949 else compute_checksum hash payload) ++ payload.
Proof.
  intros Hm Hp. pose proof (zlen_nonneg payload). unfold PACKED_MESSAGE in Hm. unfold get_message_in, PACKED_MESSAGE.
  assert (zlen (strncpy 12 cmd) = 12) as Hc by (by apply zlen_resize).
  assert (zlen (zrep 12 0) = 12) as Hz by done.
  rewrite <- (ztake_zdrop 24 mem). assert (zlen (ztake 24 mem) = 24) as Hh by (rewrite zlen_ztake; lia).
  assert (zlen (zdrop 24 mem) = zlen payload) as Ht by (rewrite zlen_zdrop; lia).
  revert Hh Ht Hc. generalize (ztake 24 mem), (zdrop 24 mem), (strncpy 12 cmd). intros h r f Hh Ht Hc.
  assert (zlen (le_bytes 4 magic) = 4) as Hg by apply zlen_le_bytes.
  assert (zlen (le_bytes 4 (zlen payload)) = 4) as Hl by apply zlen_le_bytes.
  assert (le_val (le_bytes 4 (zlen payload)) = zlen payload) as Hv by (by apply le_val_bytes_small).
  revert Hg Hl Hv. generalize (le_bytes 4 magic), (le_bytes 4 (zlen payload)). intros g l Hg Hl Hv.
  explode Hh. explode Hg. explode Hl. explode Hc. cbv zeta.
  match goal with |- (if negb (msg_length ?m =? 0) then _ else _) = _ => let m' := eval cbv -[app] in m in change m with m'; cbn [app] end.
  match type of Hv with le_val ?l = _ => match goal with |- context [msg_length ?m] => change (msg_length m) with (u32 (le_val l)) end end.
  rewrite Hv, u32_small by lia.
  destruct (Z.eqb_spec (zlen payload) 0) as [E|E]; cbn [negb].
  - assert (r = []) as -> by (apply zlen_0_nil; lia). assert (payload = []) as -> by (by apply zlen_0_nil). reflexivity.
  - assert (zlen (le_bytes 4 (compute_checksum hash payload)) = 4) as Hk by apply zlen_le_bytes.
    revert Hk. generalize (le_bytes 4 (compute_checksum hash payload)). intros k Hk. explode Hk.
    match goal with |- splice 20 _ (splice 24 _ ?m) = _ => assert (splice 24 payload m = ztake 24 m ++ payload) as -> end; [|reflexivity].
    unfold splice. rewrite (zdrop_all (24 + zlen payload)); [by rewrite app_nil_r|]. rewrite !zlen_cons. lia.
Qed.

Lemma get_message_any_mem mem magic cmd payload :
  zlen mem = PACKED_MESSAGE + zlen payload -> zlen payload < 2 ^ 32 ->
  get_message_in hash mem magic cmd payload = get_message hash magic cmd payload.
Proof.
  intros Hm Hp. unfold get_message. rewrite !get_message_layout; try done. rewrite zlen_zrep. pose proof (zlen_nonneg payload). unfold PACKED_MESSAGE. lia.
Qed.

(** The fields of an envelope. *)
Lemma get_message_fields magic cmd payload :
  0 <= magic < 2 ^ 32 -> zlen payload < 2 ^ 32 ->
  let m := get_message hash magic cmd payload in
  zlen m = PACKED_MESSAGE + zlen payload /\ msg_magic m = magic /\ msg_command m = strncpy 12 cmd /\
  msg_length m = zlen payload /\ msg_payload m = payload /\
  slice 20 4 m = le_bytes 4 (if zlen payload =? 0 then 3806393949 else compute_checksum hash payload).
Proof.
  intros Hm Hp m. pose proof (zlen_nonneg payload). unfold m, get_message.
  rewrite get_message_layout by (done || (rewrite zlen_zrep; unfold PACKED_MESSAGE; lia)).
  assert (zlen (strncpy 12 cmd) = 12) as Hc by (by apply zlen_resize).
  set (x := if zlen payload =? 0 then 3806393949 else compute_checksum hash payload).
  set (f := strncpy 12 cmd) in *.
  unfold msg_magic, msg_command, msg_length, msg_payload, PACKED_MESSAGE.
  split_and!.
  - rewrite !zlen_app, !zlen_le_bytes. lia.
  - rewrite slice_0, ztake_app_exact by (by rewrite zlen_le_bytes). by apply le_val_bytes_small.
  - apply slice_app_mid; rewrite ?zlen_le_bytes; done.
  - rewrite app_assoc. rewrite slice_app_mid by (rewrite ?zlen_app, ?zlen_le_bytes; lia).
    rewrite le_val_bytes_small by done. by apply u32_small.
  - rewrite !app_assoc. apply zdrop_app_exact. rewrite !zlen_app, !zlen_le_bytes. lia.
  - do 2 rewrite app_assoc. apply slice_app_mid; rewrite ?zlen_app, ?zlen_le_bytes; lia.
Qed.

(** A command reads back as a C string, cut to its field. *)
Lemma c_string_strncpy n s : 0 <= n -> c_string (strncpy n s) = ztake n (c_string s).
Proof.
  intros Hn. unfold strncpy, resize. assert (forall z, c_string (zrep z 0) = []) as Hz.
  { intros z. unfold zrep. by destruct (Z.to_nat z). }
  assert (forall l, Forall (fun x => x <> 0) l -> forall r, c_string (l ++ r) = l ++ c_string r) as Happ.
  { induction 1 as [|x l Hx _ IH]; intros r; simpl; [done|]. destruct (Z.eqb_spec x 0); [done|]. by rewrite IH. }
  assert (Forall (fun x => x <> 0) (c_string s)) as Hs.
  { induction s as [|x s IH]; simpl; [done|]. destruct (Z.eqb_spec x 0); constructor; done. }
  rewrite Happ by (by apply Forall_take). by rewrite Hz, app_nil_r.
Qed.
End Envelope.

Lemma varint_decodes v rest :
  0 <= v < 2 ^ 64 ->
  get_varint (to_varint v ++ rest) = Some (v, zlen (to_varint v)) /\
  zlen (to_varint v) = (if v <? 253 then 1 else if v <? 2 ^ 16 then 3 else if v <? 2 ^ 32 then 5 else 9).
Proof.
  intros Hv. pose proof (zlen_nonneg rest). unfold to_varint.
  assert (forall b n, 253 <= b <= 255 -> Z.of_nat n = get_varint_size b - 1 -> 0 <= v < 256 ^ Z.of_nat n ->
            get_varint ((b :: le_bytes n v) ++ rest) = Some (v, zlen (b :: le_bytes n v))) as Hbig.
  { intros b n Hb Hn Hs. unfold get_varint. simpl app. cbv beta iota zeta.
    assert (get_varint_size b = zlen (b :: le_bytes n v)) as -> by (rewrite zlen_cons, zlen_le_bytes; lia).
    change (b :: le_bytes n v ++ rest) with ((b :: le_bytes n v) ++ rest). rewrite zlen_app, zlen_cons, zlen_le_bytes.
    destruct (Z.ltb_spec (1 + Z.of_nat n + zlen rest) (1 + Z.of_nat n)); [lia|].
    unfold get_varint_size in Hn. destruct (Z.eqb_spec (1 + Z.of_nat n) 1).
    { revert Hn. repeat zcase; lia. }
    do 2 f_equal. change ((b :: le_bytes n v) ++ rest) with ([b] ++ le_bytes n v ++ rest).
    rewrite slice_app_mid; [by apply le_val_bytes_small|done|rewrite zlen_le_bytes; lia]. }
  destruct (Z.ltb_spec v 253).
  { unfold get_varint, u8. rewrite Z.mod_small by lia. simpl app. cbv beta iota zeta.
    assert (get_varint_size v = 1) as -> by (unfold get_varint_size; repeat zcase; lia).
    rewrite zlen_cons. destruct (Z.ltb_spec (1 + zlen rest) 1); [lia|]. done. }
  destruct (Z.leb_spec v 65535).
  { rewrite Hbig; [|lia|done|simpl; lia]. destruct (Z.ltb_spec v (2 ^ 16)); [done|lia]. }
  destruct (Z.leb_spec v 4294967295).
  { rewrite Hbig; [|lia|done|simpl; lia]. destruct (Z.ltb_spec v (2 ^ 16)), (Z.ltb_spec v (2 ^ 32)); done || lia. }
  rewrite Hbig; [|lia|done|simpl; lia]. destruct (Z.ltb_spec v (2 ^ 16)), (Z.ltb_spec v (2 ^ 32)); done || lia.
Qed.

(** ** Properties *)

(** Variable length integers round trip, in the shortest encoding: decoding
    what to_varint wrote, with anything after it, gives the value back and the
    number of bytes written, for every 64 bit value. *)
Theorem varint_roundtrip v rest :
  0 <= v < 2 ^ 64 ->
  get_varint (to_varint v ++ rest) = Some (v, zlen (to_varint v)) /\
  zlen (to_varint v) = (if v <? 253 then 1 else if v <? 2 ^ 16 then 3 else if v <? 2 ^ 32 then 5 else 9).
Proof. apply varint_decodes. Qed.

Lemma varint_roundtrip_witness : get_varint (to_varint 70000 ++ [7]) = Some (70000, 5).
Proof. exact (proj1 (varint_roundtrip 70000 [7] ltac:(lia))). Defined.

(** Strings round trip: the length decodes to the string's and the string
    follows it. *)
Theorem var_string_roundtrip s rest :
  zlen s < 2 ^ 64 ->
  exists k, get_varint (var_string s ++ rest) = Some (zlen s, k) /\ slice k (zlen s) (var_string s ++ rest) = s.
Proof.
  intros Hs. pose proof (zlen_nonneg s). exists (zlen (to_varint (zlen s))). unfold var_string. rewrite <- app_assoc. split.
  - apply varint_decodes. lia.
  - by apply slice_app_mid.
Qed.

Lemma var_string_roundtrip_witness :
  exists k, get_varint (var_string [47; 65; 47] ++ [9; 9]) = Some (3, k) /\
            slice k 3 (var_string [47; 65; 47] ++ [9; 9]) = [47; 65; 47].
Proof. exact (var_string_roundtrip [47; 65; 47] [9; 9] ltac:(vm_compute; reflexivity)). Defined.



(** The checksum hard-coded for an empty payload is the one a receiver
    computes: the first four bytes of the double SHA-256 digest of nothing. *)
Theorem empty_payload_checksum magic cmd :
  0 <= magic < 2 ^ 32 -> msg_checksum (get_message sha256 magic cmd []) = compute_checksum sha256 [].
Proof.
  intros Hm. destruct (get_message_fields sha256 magic cmd [] Hm) as (_&_&_&_&_&Hc); [done|].
  unfold msg_checksum. rewrite Hc. vm_compute. reflexivity.
Qed.

(** A version message announces the height: five bytes before the end of the
    message is g_last_block (the configured start height while it is unset), for
    any user agent and addresses, so a peer that runs the same code reads it back. *)
Theorem version_height hash magic cfg now nonce mem ua from recv g :
  0 <= magic < 2 ^ 32 -> - 2 ^ 31 <= g < 2 ^ 31 -> zlen ua < 2 ^ 31 ->
  zlen mem = VERSION_PREFIX + zlen (var_string ua) + VERSION_SUFFIX ->
  zlen from = SOCKADDR_STORAGE -> zlen recv = SOCKADDR_STORAGE ->
  let v := get_version cfg now nonce mem ua from recv g in
  let m := get_message hash magic [118; 101; 114; 115; 105; 111; 110] (fst v) in
  zlen m = PACKED_MESSAGE + msg_length m /\
  s32 (le_val (slice (PACKED_MESSAGE + msg_length m - 5) 4 m)) = snd v /\
  snd v = (if g =? 0 then s32 cfg else g).
Proof.
  intros Hmg Hg Hua Hmem Hf Hr v m.
  destruct (get_version_layout cfg now nonce mem ua from recv g Hmem Hf Hr) as (j1&j2&Hj1&Hj2&Hv).
  fold v in Hv. set (h := if g =? 0 then s32 cfg else g) in *.
  pose proof (zlen_set_address j1 recv Hj1 Hr). pose proof (zlen_set_address j2 from Hj2 Hf).
  assert (exists pre, fst v = pre ++ le_bytes 4 h ++ [1] /\ zlen (fst v) = zlen pre + 5 /\ zlen pre < 2 ^ 31 + 89) as (pre&Hpre&Hlen&Hsm).
  { exists (le_bytes 4 MAX_VERSION ++ le_bytes 8 SERVICES ++ le_bytes 8 now ++ set_address j1 recv ++
            set_address j2 from ++ le_bytes 8 nonce ++ var_string ua).
    rewrite Hv. unfold fst. split; [by rewrite <- !app_assoc|].
    rewrite !zlen_app, !zlen_le_bytes. change (zlen [1]) with 1. pose proof (zlen_to_varint (zlen ua)).
    unfold var_string. rewrite zlen_app. lia. }
  destruct (get_message_fields hash magic [118; 101; 114; 115; 105; 111; 110] (fst v) Hmg) as (Hz&_&_&Hl&Hp&_); [lia|].
  fold m in Hz, Hl, Hp. rewrite Hl. split_and!; [done| |by rewrite Hv].
  rewrite <- (ztake_zdrop PACKED_MESSAGE m). fold (msg_payload m). rewrite Hp.
  assert (zlen (ztake PACKED_MESSAGE m) = 24) as H24 by (rewrite zlen_ztake, Hz; pose proof (zlen_nonneg pre); unfold PACKED_MESSAGE; lia).
  rewrite slice_app_r by (rewrite H24; unfold PACKED_MESSAGE; pose proof (zlen_nonneg pre); lia). rewrite Hpre at 2. rewrite H24.
  rewrite slice_app_mid; [|unfold PACKED_MESSAGE; lia|done].
  rewrite le_val_bytes. change (256 ^ Z.of_nat 4) with (2 ^ 32). fold (u32 h). rewrite s32_u32, Hv. simpl. unfold h. zcase.
  - unfold s32. rewrite Z.sub_add, Z.mod_mod by done. done.
  - by apply s32_small.
Qed.

Lemma version_height_witness :
  let v := get_version 300000 0 7 (zrep 90 0) [47; 65; 47; 66] (zrep 128 0) (zrep 128 0) 0 in
  let m := get_message sha256 1 [118; 101; 114; 115; 105; 111; 110] (fst v) in
  s32 (le_val (slice (PACKED_MESSAGE + msg_length m - 5) 4 m)) = 300000.
Proof.
  destruct (version_height sha256 1 300000 0 7 (zrep 90 0) [47; 65; 47; 66] (zrep 128 0) (zrep 128 0) 0) as (_&H&Hv);
    [lia|lia|vm_compute; reflexivity..|]. simpl. etransitivity; [exact H|]. rewrite Hv. reflexivity.
Defined.

(** set_address erases the service bits it has just stored: the eight bytes
    bzero was meant to skip are the first ones, so every address is announced
    with no services, and the two bytes before the IPv4 marker keep whatever the
    memory held. *)
Theorem set_address_erases_services d src :
  zlen d = 26 -> zlen src = SOCKADDR_STORAGE -> ss_family src = AF_INET ->
  le_val (slice 0 8 (set_address d src)) = 0 /\ 0 <> SERVICES /\
  slice 16 2 (set_address d src) = slice 16 2 d /\
  slice 18 2 (set_address d src) = [255; 255] /\ slice 20 4 (set_address d src) = sin_addr src /\
  slice 24 2 (set_address d src) = ss_port src.
Proof.
  intros Hd Hs Hf. rewrite (set_address_ipv4 d src Hd Hs Hf). apply ss_fields in Hs as (Hp&Ha&_).
  assert (zlen (slice 16 2 d) = 2) as Hg by (apply zlen_slice; lia).
  revert Hp Ha Hg. generalize (ss_port src), (sin_addr src), (slice 16 2 d). intros p a g Hp Ha Hg.
  explode Hp. explode Ha. explode Hg. split_and!; done.
Qed.

Lemma set_address_erases_services_witness :
  le_val (slice 0 8 (set_address (zrep 26 170) ([2; 0; 32; 141; 10; 0; 0; 1] ++ zrep 120 0))) = 0 /\
  slice 16 2 (set_address (zrep 26 170) ([2; 0; 32; 141; 10; 0; 0; 1] ++ zrep 120 0)) = [170; 170].
Proof.
  destruct (set_address_erases_services (zrep 26 170) ([2; 0; 32; 141; 10; 0; 0; 1] ++ zrep 120 0)) as (H1&_&H2&_);
    [reflexivity..|]. split; [exact H1|]. rewrite H2. reflexivity.
Defined.
