(* ===== verification/CombinedVersion.v ===== *)
(** * struct combined_version (shared/includes/bitcoin.hpp)

    The version message under construction: one allocation that starts with the
    packed prefix, and a pointer to the packed suffix inside it. The accessors,
    the constructors and get_version written with them, on the heap of CowHeap;
    BitcoinWire has the message as the bytes that are laid out. *)

From S2P Require Import Prelude Bytes CowHeap.
From S2P Require Import BitcoinWire.

(** [prefix] is what the unique_ptr points to; [suffix] a block and an offset. *)
Record combined_version := CombinedVersion { cv_size : Z; prefix : option Z; suffix : option (Z * Z) }.

(** combined_version(size_t agent_length) *)
Definition cv_ctor (agent_length : Z) : prog world combined_version :=
  let size := u64 (VERSION_PREFIX + agent_length + VERSION_SUFFIX) in
  let! b := malloc size in
  match b with
  | None => raise BadAlloc
  | Some b => ret (CombinedVersion size (Some b) (Some (b, VERSION_PREFIX + agent_length)))
  end.

(** combined_version(combined_version &&other): the new object and what is left
    of [other]. *)
Definition cv_move (other : combined_version) : combined_version * combined_version :=
  let this := CombinedVersion (cv_size other) None (suffix other) in
  let '(this, other) := (CombinedVersion (cv_size this) (prefix other) (suffix this),
                         CombinedVersion (cv_size other) (prefix this) (suffix other)) in
  let other := CombinedVersion 0 (prefix other) (suffix other) in
  (CombinedVersion (cv_size this) (prefix this) None, other).

(** The destructor: that of unique_ptr. *)
Definition cv_dtor (v : combined_version) : prog world unit := free (prefix v).

Definition as_buffer (v : combined_version) : option Z := prefix v.

(** Reading and writing at an offset of a pointer. *)
Definition field (v : combined_version) (off n : Z) : prog world (list Z) :=
  let! b := deref NullDeref (prefix v) in load_at b off n.
Definition put_field (v : combined_version) (off : Z) (d : list Z) : prog world unit :=
  let! b := deref NullDeref (prefix v) in copy_into b off d.
Definition sfield (v : combined_version) (off n : Z) : prog world (list Z) :=
  let! p := deref NullDeref (suffix v) in load_at (fst p) (snd p + off) n.
Definition put_sfield (v : combined_version) (off : Z) (d : list Z) : prog world unit :=
  let! p := deref NullDeref (suffix v) in copy_into (fst p) (snd p + off) d.

(** ** The accessors *)

Definition version (v : combined_version) : prog world Z := let! f := field v 0 4 in ret (le_val f).
Definition services (v : combined_version) : prog world Z := let! f := field v 4 8 in ret (le_val f).
Definition timestamp (v : combined_version) : prog world Z := let! f := field v 12 8 in ret (s64 (le_val f)).
Definition addr_recv (v : combined_version) : prog world (list Z) := field v 20 26.
Definition addr_from (v : combined_version) : prog world (list Z) := field v 46 26.
Definition nonce (v : combined_version) : prog world Z := let! f := field v 72 8 in ret (le_val f).
Definition user_agent (v : combined_version) : prog world (Z * Z) :=
  let! b := deref NullDeref (prefix v) in ret (b, VERSION_PREFIX).
Definition start_height (v : combined_version) : prog world Z := let! f := sfield v 0 4 in ret (s32 (le_val f)).
Definition relay (v : combined_version) : prog world bool := let! f := sfield v 4 1 in ret (negb (le_val f =? 0)).

Definition set_version (v : combined_version) (x : Z) : prog world unit := put_field v 0 (le_bytes 4 x).
Definition set_services (v : combined_version) (x : Z) : prog world unit := put_field v 4 (le_bytes 8 x).
Definition set_timestamp (v : combined_version) (x : Z) : prog world unit := put_field v 12 (le_bytes 8 x).
Definition set_addr_recv (v : combined_version) (x : list Z) : prog world unit := put_field v 20 (ztake 26 x).
Definition set_addr_from (v : combined_version) (x : list Z) : prog world unit := put_field v 46 (ztake 26 x).
Definition set_nonce (v : combined_version) (x : Z) : prog world unit := put_field v 72 (le_bytes 8 x).

(** user_agent(const char *s, size_t len): byte by byte *)
Fixpoint put_agent (v : combined_version) (i : Z) (s : list Z) : prog world unit :=
  match s with
  | [] => ret tt
  | c :: s => do! put_field v (VERSION_PREFIX + i) [c] in put_agent v (i + 1) s
  end.
Definition set_user_agent (v : combined_version) (s : list Z) : prog world unit := put_agent v 0 s.

Definition set_start_height (v : combined_version) (x : Z) : prog world unit := put_sfield v 0 (le_bytes 4 x).
Definition set_relay (v : combined_version) (x : bool) : prog world unit := put_sfield v 4 [if x then 1 else 0].

(** get_version: the object and g_last_block *)
Definition build_version (cfg_height time nonce64 : Z) (ua from_addr recv_addr : list Z) (g_last_block : Z)
    : prog world (combined_version * Z) :=
  let bitcoin_agent := var_string ua in
  let! rv := cv_ctor (zlen bitcoin_agent) in
  do! set_version rv MAX_VERSION in
  do! set_services rv SERVICES in
  do! set_timestamp rv time in
  do! (let! d := field rv 20 26 in put_field rv 20 (set_address d recv_addr)) in
  do! (let! d := field rv 46 26 in put_field rv 46 (set_address d from_addr)) in
  do! set_nonce rv nonce64 in
  do! (let! p := user_agent rv in copy_into (fst p) (snd p) bitcoin_agent) in
  let g_last_block := if g_last_block =? 0 then s32 cfg_height else g_last_block in
  do! set_start_height rv g_last_block in
  do! set_relay rv true in
  ret (rv, g_last_block).

(** ** Lemmas *)

(** The heap in which the block [b] holds [bs]. *)
Definition at_block (b : Z) (bs : list Z) (w : world) : world := with_blocks (<[b := bs]> (blocks w)) w.

Lemma copy_into_at b bs w off d :
  0 <= off -> off + zlen d <= zlen bs -> copy_into b off d (at_block b bs w) = Ret tt (at_block b (splice off d bs) w).
Proof.
  intros. unfold copy_into, bind, load_block, store_block, at_block. simpl. rewrite lookup_insert_eq.
  rewrite (proj2 (Z.leb_le 0 off)), (proj2 (Z.leb_le _ (zlen bs))) by lia. simpl.
  rewrite lookup_insert_eq. unfold with_blocks. simpl. by rewrite insert_insert_eq.
Qed.

Lemma load_at_ok b bs w off n :
  0 <= off -> off + n <= zlen bs -> load_at b off n (at_block b bs w) = Ret (slice off n bs) (at_block b bs w).
Proof.
  intros. unfold load_at, bind, load_block, at_block. simpl. rewrite lookup_insert_eq.
  by rewrite (proj2 (Z.leb_le 0 off)), (proj2 (Z.leb_le _ (zlen bs))) by lia.
Qed.

Section Object.
Context (b : Z) (n : Z) (w : world) (Hn : 0 <= n).
Let v : combined_version := CombinedVersion (VERSION_PREFIX + n + VERSION_SUFFIX) (Some b) (Some (b, VERSION_PREFIX + n)).

Lemma put_field_at bs off d :
  0 <= off -> off + zlen d <= zlen bs -> put_field v off d (at_block b bs w) = Ret tt (at_block b (splice off d bs) w).
Proof. intros. unfold put_field. erewrite bind_ret by done. by apply copy_into_at. Qed.

Lemma field_at bs off m :
  0 <= off -> off + m <= zlen bs -> field v off m (at_block b bs w) = Ret (slice off m bs) (at_block b bs w).
Proof. intros. unfold field. erewrite bind_ret by done. by apply load_at_ok. Qed.

Lemma put_sfield_at bs off d :
  0 <= off -> VERSION_PREFIX + n + off + zlen d <= zlen bs ->
  put_sfield v off d (at_block b bs w) = Ret tt (at_block b (splice (VERSION_PREFIX + n + off) d bs) w).
Proof. intros. unfold put_sfield. erewrite bind_ret by done. apply copy_into_at; simpl; unfold VERSION_PREFIX in *; lia. Qed.

Lemma sfield_at bs off m :
  0 <= off -> VERSION_PREFIX + n + off + m <= zlen bs ->
  sfield v off m (at_block b bs w) = Ret (slice (VERSION_PREFIX + n + off) m bs) (at_block b bs w).
Proof. intros. unfold sfield. erewrite bind_ret by done. apply load_at_ok; simpl; unfold VERSION_PREFIX in *; lia. Qed.

(** The byte-wise copy of the agent is one store. *)
Lemma put_agent_at s i bs :
  0 <= i -> VERSION_PREFIX + i + zlen s <= zlen bs ->
  put_agent v i s (at_block b bs w) = Ret tt (at_block b (splice (VERSION_PREFIX + i) s bs) w).
Proof.
  revert i bs. unfold VERSION_PREFIX. induction s as [|c s IH]; intros i bs Hi Hl; simpl; [by rewrite splice_nil|].
  rewrite zlen_cons in Hl. pose proof (zlen_nonneg s).
  assert (zlen [c] = 1) as H1 by done. run_step put_field_at; [|unfold VERSION_PREFIX; lia|unfold VERSION_PREFIX; lia].
  rewrite IH; [|lia|rewrite zlen_splice; unfold VERSION_PREFIX; lia]. unfold VERSION_PREFIX. do 2 f_equal.
  replace (80 + (i + 1)) with (80 + i + zlen [c]) by lia. by rewrite splice_splice by lia.
Qed.
End Object.

(** Give the memory the goal runs on a name; [H] bounds its length. *)
Ltac name_mem H :=
  match goal with
  | |- _ (at_block _ ?l _) = _ => let rv := fresh "rv" in set (rv := l); assert (zlen rv = _) by (apply H; lia); clearbody rv
  end.

(** get_version stores what BitcoinWire's bytes are made of. *)
Lemma build_version_run cfg time nonce64 ua from recv g w :
  let n := zlen (var_string ua) in
  zlen ua < 2 ^ 31 -> zlen from = SOCKADDR_STORAGE -> zlen recv = SOCKADDR_STORAGE ->
  VERSION_PREFIX + n + VERSION_SUFFIX <= limit w ->
  let mem := zrep (VERSION_PREFIX + n + VERSION_SUFFIX) (garbage w) in
  let '(bytes, height) := get_version cfg time nonce64 mem ua from recv g in
  build_version cfg time nonce64 ua from recv g w =
    Ret (CombinedVersion (VERSION_PREFIX + n + VERSION_SUFFIX) (Some (next w)) (Some (next w, VERSION_PREFIX + n)), height)
        (at_block (next w) bytes (with_next (next w + 1) w)).
Proof.
  intros n Hua Hf Hr Hl mem. pose proof (zlen_nonneg ua). pose proof (zlen_to_varint (zlen ua)).
  assert (0 <= n < 2 ^ 32) as Hn by (unfold n, var_string; rewrite zlen_app; lia).
  unfold VERSION_PREFIX, VERSION_SUFFIX in *. unfold get_version. fold n.
  assert (zlen mem = 80 + n + 5) as Hmem by (unfold mem; rewrite zlen_zrep; lia).
  assert (forall off (d l : list Z), 0 <= off -> off + zlen d <= 80 + n + 5 -> zlen l = 80 + n + 5 -> zlen (splice off d l) = 80 + n + 5) as Hlen.
  { intros off d l ? ? Hll. rewrite zlen_splice; lia. }
  assert (forall l src, zlen l = 80 + n + 5 -> zlen src = SOCKADDR_STORAGE ->
    zlen (set_address (slice 20 26 l) src) = 26 /\ zlen (set_address (slice 46 26 l) src) = 26) as Haddr.
  { intros l src ? ?. split; apply zlen_set_address; try done; apply zlen_slice; lia. }
  unfold build_version. fold n.
  set (w1 := with_next (next w + 1) w). set (v := CombinedVersion (80 + n + 5) (Some (next w)) (Some (next w, 80 + n))).
  assert (cv_ctor n w = Ret v (at_block (next w) mem w1)) as Hctor.
  { unfold cv_ctor, VERSION_PREFIX, VERSION_SUFFIX. rewrite u64_small by lia. unfold bind, malloc.
    by rewrite (proj2 (Z.ltb_ge _ (80 + n + 5))) by lia. }
  run_step Hctor. unfold set_version, set_services, set_timestamp, set_nonce, set_start_height, set_relay.
  repeat match goal with
    | |- context [le_bytes ?k ?x] => let d := fresh "d" in
        set (d := le_bytes k x); assert (zlen d = Z.of_nat k) by apply zlen_le_bytes; clearbody d
    end.
  assert (zlen (var_string ua) = n) as Hag by done. assert (zlen [1] = 1) as Hone by done.
  do 3 (run_step (put_field_at (next w) n w1); [name_mem Hlen|lia|lia]).
  erewrite bind_ret; cycle 1.
  { erewrite bind_ret by (apply field_at; lia). destruct (Haddr rv1 recv) as [Ha _]; [done|done|]. apply (put_field_at (next w) n w1); lia. }
  destruct (Haddr rv1 recv) as [Ha _]; [done|done|]. name_mem Hlen. clear Ha.
  erewrite bind_ret; cycle 1.
  { erewrite bind_ret by (apply field_at; lia). destruct (Haddr rv2 from) as [_ Ha]; [done|done|]. apply (put_field_at (next w) n w1); lia. }
  destruct (Haddr rv2 from) as [_ Ha]; [done|done|]. name_mem Hlen. clear Ha.
  run_step (put_field_at (next w) n w1); [name_mem Hlen|lia|lia].
  erewrite bind_ret; cycle 1.
  { erewrite bind_ret by done. apply copy_into_at; simpl; unfold VERSION_PREFIX; lia. }
  simpl snd. unfold VERSION_PREFIX. name_mem Hlen.
  run_step (put_sfield_at (next w) n w1 (proj1 Hn)); [unfold VERSION_PREFIX; rewrite Z.add_0_r; name_mem Hlen|lia|unfold VERSION_PREFIX; lia].
  run_step (put_sfield_at (next w) n w1 (proj1 Hn)); [|lia|unfold VERSION_PREFIX; lia].
  unfold VERSION_PREFIX. by replace (80 + n + 4) with (84 + n) by lia.
Qed.

Lemma slice_part (bytes : list Z) off n pre d :
  (exists post, bytes = pre ++ d ++ post) -> off = zlen pre -> n = zlen d -> slice off n bytes = d.
Proof. intros [post ->] -> ->. by apply slice_app_mid. Qed.

(** ** Properties *)

(** C33. get_version as it is written, object, accessors and all, builds exactly
    the bytes the handlers send, given memory for the object, an agent below 2 GB
    and values in the ranges of their types: the block behind as_buffer() holds them, size
    is their number, and each of the nine accessors reads back what was stored:
    the numbers, the two addresses as set_address writes them over what the
    memory held, each in its place, and at user_agent() the agent with its
    length. *)
Theorem build_version_exact cfg time nonce64 ua from recv g w :
  zlen ua < 2 ^ 31 -> zlen from = SOCKADDR_STORAGE -> zlen recv = SOCKADDR_STORAGE ->
  VERSION_PREFIX + zlen (var_string ua) + VERSION_SUFFIX <= limit w ->
  0 <= time < 2 ^ 63 -> 0 <= nonce64 < 2 ^ 64 -> - 2 ^ 31 <= g < 2 ^ 31 ->
  let mem := zrep (VERSION_PREFIX + zlen (var_string ua) + VERSION_SUFFIX) (garbage w) in
  let r := get_version cfg time nonce64 mem ua from recv g in
  exists v w' b, build_version cfg time nonce64 ua from recv g w = Ret (v, snd r) w' /\
    as_buffer v = Some b /\ blocks w' !! b = Some (fst r) /\ cv_size v = zlen (fst r) /\
    version v w' = Ret MAX_VERSION w' /\ services v w' = Ret SERVICES w' /\ timestamp v w' = Ret time w' /\
    nonce v w' = Ret nonce64 w' /\ start_height v w' = Ret (snd r) w' /\ relay v w' = Ret true w' /\
    (exists d, zlen d = 26 /\ addr_recv v w' = Ret (set_address d recv) w') /\
    (exists d, zlen d = 26 /\ addr_from v w' = Ret (set_address d from) w') /\
    (let! p := user_agent v in load_at (fst p) (snd p) (zlen (var_string ua))) w' = Ret (var_string ua) w'.
Proof.
  intros Hua Hf Hr Hl Ht Hno Hg mem. set (n := zlen (var_string ua)) in *.
  pose proof (zlen_nonneg (var_string ua)). unfold VERSION_PREFIX, VERSION_SUFFIX in *.
  assert (zlen mem = 80 + n + 5) as Hmem by (unfold mem; rewrite zlen_zrep; lia).
  pose proof (build_version_run cfg time nonce64 ua from recv g w Hua Hf Hr Hl) as Hrun.
  destruct (get_version_layout cfg time nonce64 mem ua from recv g Hmem Hf Hr) as (j1&j2&Hj1&Hj2&Hv).
  unfold VERSION_PREFIX, VERSION_SUFFIX in Hrun. fold n mem in Hrun. rewrite Hv in Hrun |- *. cbn [fst snd].
  set (h := if g =? 0 then s32 cfg else g) in *.
  assert (- 2 ^ 31 <= h < 2 ^ 31) as Hh by (unfold h; zcase; [apply s32_range|done]).
  pose proof (zlen_set_address j1 recv Hj1 Hr) as Hz1. pose proof (zlen_set_address j2 from Hj2 Hf) as Hz2.
  set (bytes := le_bytes 4 MAX_VERSION ++ _) in *.
  assert (zlen bytes = 80 + n + 5) as Hbz.
  { unfold bytes. rewrite !zlen_app, !zlen_le_bytes. change (zlen [1]) with 1. fold n. lia. }
  eexists _, _, (next w). split; [exact Hrun|]. split; [done|]. split; [apply lookup_insert_eq|]. split; [done|].
  unfold version, services, timestamp, nonce, start_height, relay, addr_recv, addr_from, user_agent.
  split_and!; try (erewrite bind_ret by (first [apply field_at; lia | apply sfield_at; unfold VERSION_PREFIX; lia])).
  - by rewrite (slice_part bytes 0 4 [] (le_bytes 4 MAX_VERSION)) by (done || by eexists).
  - by rewrite (slice_part bytes 4 8 (le_bytes 4 MAX_VERSION) (le_bytes 8 SERVICES)) by (done || by eexists).
  - rewrite (slice_part bytes 12 8 (le_bytes 4 MAX_VERSION ++ le_bytes 8 SERVICES) (le_bytes 8 time));
      [|eexists; unfold bytes; by rewrite <- !app_assoc|by rewrite zlen_app, !zlen_le_bytes|by rewrite zlen_le_bytes].
    rewrite le_val_bytes_small by (change (256 ^ Z.of_nat 8) with (2 ^ 64); lia). by rewrite s64_small by lia.
  - rewrite (slice_part bytes 72 8 (le_bytes 4 MAX_VERSION ++ le_bytes 8 SERVICES ++ le_bytes 8 time ++ set_address j1 recv ++ set_address j2 from) (le_bytes 8 nonce64));
      [|eexists; unfold bytes; by rewrite <- !app_assoc|rewrite !zlen_app, !zlen_le_bytes; lia|by rewrite zlen_le_bytes].
    by rewrite le_val_bytes_small by (change (256 ^ Z.of_nat 8) with (2 ^ 64); lia).
  - rewrite (slice_part bytes _ 4 (le_bytes 4 MAX_VERSION ++ le_bytes 8 SERVICES ++ le_bytes 8 time ++ set_address j1 recv ++ set_address j2 from ++
      le_bytes 8 nonce64 ++ var_string ua) (le_bytes 4 h));
      [|eexists; unfold bytes; by rewrite <- !app_assoc|rewrite !zlen_app, !zlen_le_bytes; unfold VERSION_PREFIX; fold n; lia|by rewrite zlen_le_bytes].
    rewrite le_val_bytes. change (256 ^ Z.of_nat 4) with (2 ^ 32). fold (u32 h). by rewrite s32_u32, s32_small.
  - rewrite (slice_part bytes _ 1 (le_bytes 4 MAX_VERSION ++ le_bytes 8 SERVICES ++ le_bytes 8 time ++ set_address j1 recv ++ set_address j2 from ++
      le_bytes 8 nonce64 ++ var_string ua ++ le_bytes 4 h) [1]);
      [done|exists []; unfold bytes; by rewrite <- !app_assoc|rewrite !zlen_app, !zlen_le_bytes; unfold VERSION_PREFIX; fold n; lia|done].
  - exists j1. split; [done|]. rewrite field_at by lia.
    by rewrite (slice_part bytes 20 26 (le_bytes 4 MAX_VERSION ++ le_bytes 8 SERVICES ++ le_bytes 8 time) (set_address j1 recv))
      by (done || (eexists; unfold bytes; by rewrite <- !app_assoc) || by rewrite !zlen_app, !zlen_le_bytes).
  - exists j2. split; [done|]. rewrite field_at by lia.
    rewrite (slice_part bytes 46 26 (le_bytes 4 MAX_VERSION ++ le_bytes 8 SERVICES ++ le_bytes 8 time ++ set_address j1 recv) (set_address j2 from)); [done|..].
    + eexists; unfold bytes; by rewrite <- !app_assoc.
    + rewrite !zlen_app, !zlen_le_bytes, Hz1. done.
    + done.
  - erewrite bind_ret by (by erewrite bind_ret by reflexivity). cbn [fst snd]. rewrite load_at_ok by (unfold VERSION_PREFIX; lia). unfold VERSION_PREFIX.
    by rewrite (slice_part bytes 80 n (le_bytes 4 MAX_VERSION ++ le_bytes 8 SERVICES ++ le_bytes 8 time ++ set_address j1 recv ++ set_address j2 from ++
      le_bytes 8 nonce64) (var_string ua)) by (done || (eexists; unfold bytes; by rewrite <- !app_assoc) || (rewrite !zlen_app, !zlen_le_bytes; lia)).
Qed.

Lemma build_version_exact_witness :
  exists v w' b, build_version 300000 1700000000 7 [47; 65; 47] (zrep 128 0) (zrep 128 0) 0 (world0 0 1000 170) = Ret (v, 300000) w' /\
    as_buffer v = Some b /\ version v w' = Ret 70002 w' /\ start_height v w' = Ret 300000 w'.
Proof.
  pose proof (build_version_exact 300000 1700000000 7 [47; 65; 47] (zrep 128 0) (zrep 128 0) 0 (world0 0 1000 170)
    ltac:(vm_compute; reflexivity) eq_refl eq_refl ltac:(vm_compute; congruence) ltac:(lia) ltac:(lia) ltac:(lia)) as H.
  destruct H as (v&w'&b&Hr&Hb&_&_&Hv&_&_&_&Hs&_). exists v, w', b. split; [exact Hr|]. split; [exact Hb|]. split; [exact Hv|exact Hs].
Defined.

(** The move constructor clears the wrong pointer: the new object has the memory
    but no suffix, so start_height and relay dereference a null pointer, while
    the object moved from still points into memory that is not its own and that
    the new object's destructor frees. *)
Theorem moved_version_loses_suffix v b off w bs :
  prefix v = Some b -> suffix v = Some (b, off) -> blocks w !! b = Some bs ->
  let '(v', old) := cv_move v in
  as_buffer v' = Some b /\ cv_size v' = cv_size v /\
  start_height v' w = Fault NullDeref /\ relay v' w = Fault NullDeref /\
  (forall x, set_start_height v' x w = Fault NullDeref) /\
  start_height old w = start_height v w /\
  exists w', cv_dtor v' w = Ret tt w' /\ start_height old w' = Fault UseAfterFree.
Proof.
  intros Hp Hs Hb. unfold cv_move. simpl. rewrite Hp. split_and!; try done.
  eexists. split; [unfold cv_dtor, free; simpl; by rewrite Hb|].
  unfold start_height, sfield, load_at, bind, load_block. simpl. rewrite Hs. simpl. by rewrite lookup_delete_eq.
Qed.

Lemma moved_version_loses_suffix_witness :
  exists w', cv_dtor (fst (cv_move (CombinedVersion 86 (Some 0) (Some (0, 81))))) (World {[0 := zrep 86 0]} ∅ ∅ ∅ 1 0 0) = Ret tt w' /\
    start_height (snd (cv_move (CombinedVersion 86 (Some 0) (Some (0, 81))))) w' = Fault UseAfterFree.
Proof.
  destruct (moved_version_loses_suffix (CombinedVersion 86 (Some 0) (Some (0, 81))) 0 81
    (World {[0 := zrep 86 0]} ∅ ∅ ∅ 1 0 0) (zrep 86 0)) as (_&_&_&_&_&_&H).
  - reflexivity.
  - reflexivity.
  - vm_compute. reflexivity.
  - exact H.
Defined.
