(* ===== verification/Logger.v ===== *)
(** * The connector's log

    shared/src/logger.cpp and the templates of shared/includes/logger.hpp: the
    store in which BITCOIN and BITCOIN_MSG records are batched, the buffer that
    is written to the log server, and the three forms of g_log. *)

From S2P Require Import Prelude.
From S2P Require Import Bytes.
From S2P Require Import WrappedBuffer.
From S2P Require Import Net.
From S2P Require Import WriteBuffer.
From S2P Require Import BitcoinWire.

(** enum log_type *)
Definition DEBUG : Z := 2.
Definition CTRL : Z := 4.
Definition ERROR : Z := 8.
Definition BITCOIN : Z := 16.
Definition BITCOIN_MSG : Z := 32.

(** Update types of BITCOIN records *)
Definition CONNECT_SUCCESS : Z := 1.
Definition ACCEPT_SUCCESS : Z := 2.
Definition ORDERLY_DISCONNECT : Z := 4.
Definition WRITE_DISCONNECT : Z := 8.
Definition UNEXPECTED_ERROR : Z := 16.
Definition CONNECT_FAILURE : Z := 32.
Definition PEER_RESET : Z := 64.
Definition CONNECTOR_DISCONNECT : Z := 128.

(** class log_buffer, with the kernel's side of its descriptor *)
Record log_buffer := LogBuffer { lb_queue : write_buffer; lb_io : evio; lb_sock : sock }.

Definition store_size : Z := 4096.

(** The globals g_log_buffer, g_log_cursor and g_log_store; what went to the
    console; descriptors closed. *)
Record logger := Logger {
  g_log_buffer : option log_buffer;
  g_log_cursor : Z;
  g_log_store : list Z;
  console : list (list Z);
  log_closed : list Z }.

Section Ops.
Context (page now : Z).

(** log_buffer::log_buffer *)
Definition log_buffer_ctor (f : Z) (k : sock) : log_buffer :=
  LogBuffer write_buffer_ctor (io_start (EvIo f ev_WRITE false)) k.

(** log_buffer::append *)
Definition log_buffer_append (ptr : list Z) (len : Z) : prog log_buffer unit := fun b =>
  match to_write (lb_queue b) with
  | Ret n _ =>
      match append_buffer ptr len (lb_queue b) with
      | Ret _ q => Ret tt (LogBuffer q (if n =? 0 then io_set_events ev_WRITE (lb_io b) else lb_io b) (lb_sock b))
      | Raise e q => Raise e (LogBuffer q (lb_io b) (lb_sock b))
      | Fault f => Fault f
      end
  | Raise e _ => Raise e b
  | Fault f => Fault f
  end.

Definition with_lb (b : option log_buffer) (l : logger) : logger :=
  Logger b (g_log_cursor l) (g_log_store l) (console l) (log_closed l).

(** append_buf; without a log buffer the bytes are dropped. *)
Definition append_buf (buf : list Z) (len : Z) : prog logger unit := fun l =>
  match g_log_buffer l with
  | Some b =>
      match log_buffer_append buf len b with
      | Ret _ b' => Ret tt (with_lb (Some b') l)
      | Raise e b' => Raise e (with_lb (Some b') l)
      | Fault f => Fault f
      end
  | None => Ret tt (Logger None (g_log_cursor l) (g_log_store l) (console l ++ [[]]) (log_closed l))
  end.

Definition set_store (cursor : Z) (store : list Z) : prog logger unit :=
  modify (fun l => Logger (g_log_buffer l) cursor store (console l) (log_closed l)).

(** Make room for [n] bytes in the store, flushing what it holds. *)
Definition reserve (n : Z) : prog logger unit :=
  let! l := get in
  if zlen (g_log_store l) - g_log_cursor l <? n then
    do! (if 0 <? g_log_cursor l then append_buf (g_log_store l) (g_log_cursor l) else ret tt) in
    set_store 0 (vb_new page (Z.max store_size n))
  else ret tt.

(** Store the fields one after the other from the cursor on. *)
Fixpoint put_fields (fs : list (list Z)) : prog logger unit :=
  match fs with
  | [] => ret tt
  | f :: fs =>
      let! l := get in
      if zlen (g_log_store l) <? g_log_cursor l + zlen f then crash OutOfBounds
      else
        do! set_store (g_log_cursor l + zlen f) (splice (g_log_cursor l) f (g_log_store l)) in
        put_fields fs
  end.

(** g_log<BITCOIN> *)
Definition g_log_bitcoin (update_type handle_id : Z) (remote local text : list Z) : prog logger unit :=
  let len := 1 + 8 + 4 + 4 + 2 * SOCKADDR_STORAGE + 4 + zlen text in
  do! reserve (len + 4) in
  put_fields [le_bytes 4 (hton32 len); [BITCOIN]; le_bytes 8 (hton64 now); le_bytes 4 (hton32 handle_id);
              le_bytes 4 (hton32 update_type); remote; local; le_bytes 4 (hton32 (zlen text)); text].

(** g_log<BITCOIN_MSG>; [m] is the memory at the message. *)
Definition g_log_bitcoin_msg (id : Z) (is_sender : bool) (m : list Z) : prog logger unit :=
  let len := 1 + 8 + 4 + 1 + PACKED_MESSAGE + msg_length m in
  if zlen m <? PACKED_MESSAGE + msg_length m then crash OutOfBounds
  else
  do! reserve (len + 4) in
  put_fields [le_bytes 4 (hton32 len); [BITCOIN_MSG]; le_bytes 8 (hton64 now); le_bytes 4 (hton32 id);
              [if is_sender then 1 else 0]; ztake (PACKED_MESSAGE + msg_length m) m].

(** g_log_inner on the printed arguments: blanks between, a NUL at the end. *)
Fixpoint g_log_inner (parts : list (list Z)) (wbuf : list Z) (len : Z) : list Z * Z :=
  match parts with
  | [] => (wbuf, len)
  | [s] =>
      let str := s ++ [0] in
      let wbuf := if zlen wbuf <? len + zlen str then vb_realloc page (len + zlen str) wbuf else wbuf in
      (splice len str wbuf, len + zlen str)
  | s :: rest =>
      let str := s ++ [32] in
      let wbuf := if zlen wbuf <? len + zlen str then vb_realloc page (len + zlen str) wbuf else wbuf in
      g_log_inner rest (splice len str wbuf) (len + zlen str)
  end.

(** g_log<N>(string, args...): the store is flushed first, to keep the order. *)
Definition g_log_text (N : Z) (parts : list (list Z)) : prog logger unit :=
  let wbuf := splice 5 (le_bytes 8 (hton64 now)) (splice 4 [N] (vb_new page 128)) in
  let '(wbuf, len) := g_log_inner parts wbuf 13 in
  let! l := get in
  match g_log_buffer l with
  | Some _ =>
      let wbuf := splice 0 (le_bytes 4 (hton32 (u32 (len - 4)))) wbuf in
      do! (if 0 <? g_log_cursor l then
             do! append_buf (g_log_store l) (g_log_cursor l) in
             set_store 0 (vb_new page 4096)
           else ret tt) in
      append_buf wbuf len
  | None => modify (fun l => Logger None (g_log_cursor l) (g_log_store l)
                               (console l ++ [slice 13 (len - 13) wbuf]) (log_closed l))
  end.

Definition log_again (e : Z) : bool := (e =? EWOULDBLOCK) || (e =? EAGAIN) || (e =? EINTR).

(** log_buffer::io_cb. On a failed write the descriptor is closed here and again
    by the destructor that [delete this] runs. *)
Definition log_io_cb : prog logger unit := fun l =>
  match g_log_buffer l with
  | None => Fault UseAfterFree
  | Some b =>
      match drain log_again (1 + length (wx (lb_sock b))) (Writer (lb_queue b) (lb_sock b)) with
      | Ret (WFailed _) w =>
          Ret tt (Logger None (g_log_cursor l) (g_log_store l) (console l)
                    (log_closed l ++ [fd (lb_io b)] ++ [fd (lb_io b)]))
      | Ret Drained w =>
          Ret tt (with_lb (Some (LogBuffer (wb w) (io_set_events ev_NONE (lb_io b)) (wsk w))) l)
      | Ret _ w => Ret tt (with_lb (Some (LogBuffer (wb w) (lb_io b) (wsk w))) l)
      | Raise e w => Raise e (with_lb (Some (LogBuffer (wb w) (lb_io b) (wsk w))) l)
      | Fault f => Fault f
      end
  end.

(** ** Log events *)

(** One call of g_log. *)
Inductive log_event :=
  | LText (N : Z) (parts : list (list Z))
  | LConn (update_type handle_id : Z) (remote local text : list Z)
  | LMsg (id : Z) (is_sender : bool) (m : list Z).

Definition log_exec (e : log_event) : prog logger unit :=
  match e with
  | LText N parts => g_log_text N parts
  | LConn u h r l t => g_log_bitcoin u h r l t
  | LMsg id snd m => g_log_bitcoin_msg id snd m
  end.

Fixpoint log_all (es : list log_event) : prog logger unit :=
  match es with
  | [] => ret tt
  | e :: es => do! log_exec e in log_all es
  end.

(** The text of an event. *)
Fixpoint joined (parts : list (list Z)) : list Z :=
  match parts with
  | [] => []
  | [s] => s ++ [0]
  | s :: rest => s ++ [32] ++ joined rest
  end.

(** The record a log client is meant to see, without its length prefix. *)
Definition record_of (e : log_event) : list Z :=
  match e with
  | LText N parts => [N] ++ be_bytes 8 now ++ joined parts
  | LConn u h r l t =>
      [BITCOIN] ++ be_bytes 8 now ++ be_bytes 4 h ++ be_bytes 4 u ++ r ++ l ++ be_bytes 4 (zlen t) ++ t
  | LMsg id snd m =>
      [BITCOIN_MSG] ++ be_bytes 8 now ++ be_bytes 4 id ++ [if snd then 1 else 0] ++
      ztake (PACKED_MESSAGE + msg_length m) m
  end.

Definition event_ok (e : log_event) : Prop :=
  match e with
  | LText N parts => parts <> [] /\ zlen (joined parts) < 2 ^ 31
  | LConn u h r l t => zlen r = SOCKADDR_STORAGE /\ zlen l = SOCKADDR_STORAGE /\ zlen t < 2 ^ 31
  | LMsg id snd m => PACKED_MESSAGE + msg_length m <= zlen m /\ 0 <= msg_length m < 2 ^ 32 - 64
  end.

(** The length-prefixed form. *)
Definition framed (r : list Z) : list Z := be_bytes 4 (zlen r) ++ r.

(** ** Invariant *)

(** What the log server has got, will get from the write queue, and is still
    in the store. *)
Definition log_wire (l : logger) : list Z :=
  match g_log_buffer l with
  | Some b => tx (lb_sock b) ++ unsent (lb_queue b) ++ ztake (g_log_cursor l) (g_log_store l)
  | None => []
  end.

Record LWF (l : logger) : Prop := {
  lwf_queue : forall b, g_log_buffer l = Some b -> QWF (lb_queue b);
  lwf_cursor : 0 <= g_log_cursor l <= zlen (g_log_store l) }.

End Ops.

(** ** Lemmas *)

Section Spec.
Context (page now : Z) (Hpage : 0 < page <= 2 ^ 62).

(** Appending to the log buffer appends to the stream. *)
Lemma append_buf_spec l b buf len :
  LWF l -> g_log_buffer l = Some b -> 0 < len <= zlen buf ->
  exists b', append_buf buf len l = Ret tt (with_lb (Some b') l) /\ QWF (lb_queue b') /\
    tx (lb_sock b') ++ unsent (lb_queue b') = (tx (lb_sock b) ++ unsent (lb_queue b)) ++ ztake len buf.
Proof.
  intros [HQ _] Hb Hl. specialize (HQ b Hb). unfold append_buf, log_buffer_append. rewrite Hb.
  rewrite to_write_ok by done. destruct (append_buffer_spec (lb_queue b) buf len HQ Hl) as (q&Hr&HQ'&Hu).
  rewrite Hr. eexists. split; [reflexivity|]. split; [done|]. simpl. by rewrite Hu, app_assoc.
Qed.

(** Flushing the store moves its bytes to the write queue. *)
Lemma flush_spec l b store :
  LWF l -> g_log_buffer l = Some b -> 0 <= zlen store ->
  exists b' l', (do! (if 0 <? g_log_cursor l then append_buf (g_log_store l) (g_log_cursor l) else ret tt) in
                 set_store 0 store) l = Ret tt l' /\
    LWF l' /\ g_log_buffer l' = Some b' /\ log_wire l' = log_wire l /\
    g_log_store l' = store /\ g_log_cursor l' = 0.
Proof.
  intros HW Hb Hs. pose proof HW as [HQ Hc]. destruct (Z.ltb_spec 0 (g_log_cursor l)).
  - destruct (append_buf_spec l b (g_log_store l) (g_log_cursor l) HW Hb) as (b'&Hr&HQ'&Hu); [lia|].
    run_step Hr. eexists b', _. split; [reflexivity|]. simpl. split_and!; try done.
    + split; simpl; [intros ? [= <-]; done|lia].
    + unfold log_wire. simpl. rewrite Hb, (ztake_neg 0) by lia. rewrite app_nil_r, Hu. by rewrite <- app_assoc.
  - erewrite bind_ret by done. eexists b, _. split; [reflexivity|]. simpl. split_and!; try done.
    unfold log_wire. simpl. rewrite Hb. by rewrite !ztake_neg by lia.
Qed.

Lemma reserve_spec l b n :
  LWF l -> g_log_buffer l = Some b -> 0 < n < 2 ^ 62 ->
  exists b' l', reserve page n l = Ret tt l' /\ LWF l' /\ g_log_buffer l' = Some b' /\
    log_wire l' = log_wire l /\ n <= zlen (g_log_store l') - g_log_cursor l'.
Proof.
  intros HW Hb Hn. unfold reserve. erewrite bind_ret by done. zcase; [|by eauto 10].
  destruct (flush_spec l b (vb_new page (Z.max store_size n)) HW Hb) as (b'&l'&Hr&HW'&Hb'&Hw&Hst&Hcu); [apply zlen_nonneg|].
  exists b', l'. split_and!; try done. rewrite Hst, Hcu. unfold vb_new. rewrite zlen_zrep. unfold store_size.
  pose proof (wcap_bounds page Hpage (Z.max 4096 n)). lia.
Qed.

Lemma put_fields_spec fs l b :
  LWF l -> g_log_buffer l = Some b -> zlen (concat fs) <= zlen (g_log_store l) - g_log_cursor l ->
  exists l', put_fields fs l = Ret tt l' /\ LWF l' /\ g_log_buffer l' = Some b /\
             log_wire l' = log_wire l ++ concat fs.
Proof.
  revert l. induction fs as [|f fs IH]; intros l HW Hb Hz; simpl in *.
  - exists l. by rewrite app_nil_r.
  - rewrite zlen_app in Hz. pose proof (zlen_nonneg f). pose proof (zlen_nonneg (concat fs)).
    pose proof HW as [HQ Hc]. erewrite bind_ret by done. zcase; [lia|]. erewrite bind_ret by done.
    assert (zlen (splice (g_log_cursor l) f (g_log_store l)) = zlen (g_log_store l)) as Hl by (apply zlen_splice; lia).
    edestruct IH as (l'&Hr&HW'&Hb'&Hw); cycle 3.
    { exists l'. split; [exact Hr|]. split_and!; [done..|]. rewrite Hw. unfold log_wire. simpl. rewrite Hb.
      rewrite splice_take by lia. by rewrite <- !app_assoc. }
    + split; simpl; [done|rewrite Hl; lia].
    + done.
    + simpl. rewrite Hl. lia.
Qed.

Lemma g_log_inner_spec parts wbuf len :
  parts <> [] -> 0 <= len <= zlen wbuf -> len + zlen (joined parts) < 2 ^ 62 ->
  let '(w, n) := g_log_inner page parts wbuf len in
  n = len + zlen (joined parts) /\ n <= zlen w /\ ztake n w = ztake len wbuf ++ joined parts.
Proof.
  assert (forall wbuf len str, 0 <= len <= zlen wbuf -> len + zlen str < 2 ^ 62 ->
    let w := splice len str (if zlen wbuf <? len + zlen str then vb_realloc page (len + zlen str) wbuf else wbuf) in
    ztake (len + zlen str) w = ztake len wbuf ++ str /\ len + zlen str <= zlen w) as Hput.
  { intros wb0 len0 str Hl Hs. pose proof (zlen_nonneg str). cbv zeta.
    pose proof (wcap_bounds page Hpage (len0 + zlen str)). zcase.
    - pose proof (zlen_vb_realloc page Hpage (len0 + zlen str) wb0).
      rewrite splice_take by lia. rewrite vb_realloc_keeps by lia. split; [done|]. rewrite zlen_splice; lia.
    - rewrite splice_take by lia. split; [done|]. rewrite zlen_splice; lia. }
  revert wbuf len. induction parts as [|s [|s' rest] IH]; intros wbuf len Hne Hl Hs; [done| |].
  - simpl. destruct (Hput wbuf len (s ++ [0]) Hl Hs) as [H1 H2]. done.
  - change (joined (s :: s' :: rest)) with (s ++ [32] ++ joined (s' :: rest)) in *.
    rewrite app_assoc, zlen_app in *. pose proof (zlen_nonneg (joined (s' :: rest))). pose proof (zlen_nonneg (s ++ [32])).
    destruct (Hput wbuf len (s ++ [32]) Hl) as [H1 H2]; [lia|].
    set (w1 := splice len (s ++ [32]) _) in *.
    change (g_log_inner page (s :: s' :: rest) wbuf len) with (g_log_inner page (s' :: rest) w1 (len + zlen (s ++ [32]))).
    specialize (IH w1 (len + zlen (s ++ [32]))). destruct (g_log_inner page (s' :: rest) w1 (len + zlen (s ++ [32]))) as [w n].
    destruct IH as (Hn&Hle&Ht); [done|lia|lia|]. split_and!; [lia|done|]. rewrite Ht, H1. by rewrite <- app_assoc.
Qed.

(** One event: its record, framed, is appended to the stream. *)
Lemma text_spec N parts l b :
  LWF l -> g_log_buffer l = Some b -> event_ok (LText N parts) ->
  exists b' l', g_log_text page now N parts l = Ret tt l' /\ LWF l' /\ g_log_buffer l' = Some b' /\
    log_wire l' = log_wire l ++ framed (record_of now (LText N parts)).
Proof.
  intros HW Hb [Hne Hlen]. unfold g_log_text.
  set (w0 := splice 5 (le_bytes 8 (hton64 now)) (splice 4 [N] (vb_new page 128))).
  assert (vb_new page 128 = zrep 128 0) as Hv by done.
  assert (ztake 13 w0 = [0; 0; 0; 0] ++ [N] ++ be_bytes 8 now /\ zlen w0 = 128) as [Hw0 Hl0].
  { unfold w0. rewrite Hv. unfold hton64. rewrite bytes_bswap.
    destruct (store_next 4 [N] (zrep 128 0) [0; 0; 0; 0] 128) as [H1 H2]; [done|lia|done|].
    destruct (store_next 5 (be_bytes 8 now) _ _ 128 (conj H1 H2)) as [H3 H4]; [lia|by rewrite zlen_be_bytes|].
    rewrite zlen_be_bytes in H3. split; [|done]. etransitivity; [exact H3|]. by rewrite <- app_assoc. }
  pose proof (g_log_inner_spec parts w0 13 Hne) as Hin.
  destruct (g_log_inner page parts w0 13) as [w n]. destruct Hin as (Hn&Hnw&Hwn); [lia|lia|].
  pose proof (zlen_nonneg (joined parts)). erewrite bind_ret by done. rewrite Hb.
  assert (exists b1 l1, (if 0 <? g_log_cursor l then do! append_buf (g_log_store l) (g_log_cursor l) in set_store 0 (vb_new page 4096)
             else ret tt) l = Ret tt l1 /\ LWF l1 /\ g_log_buffer l1 = Some b1 /\ log_wire l1 = log_wire l /\ g_log_cursor l1 = 0)
    as (b1&l1&Hr1&HW1&Hb1&Hw1&Hc1).
  { destruct (flush_spec l b (vb_new page 4096) HW Hb) as (b1&l1&Hr1&?&?&?&?&?); [apply zlen_nonneg|].
    destruct (Z.ltb_spec 0 (g_log_cursor l)); [eauto 10|]. exists b, l. destruct HW as [? ?]. split_and!; try done; lia. }
  run_step Hr1. set (w2 := splice 0 _ w).
  destruct (append_buf_spec l1 b1 w2 n HW1 Hb1) as (b2&Hr2&HQ2&Hu2).
  { unfold w2. rewrite zlen_splice; rewrite ?zlen_le_bytes; lia. }
  exists b2, (with_lb (Some b2) l1). split_and!; [done| |done|].
  - split; simpl; [intros ? [= <-]; done|]. apply HW1.
  - rewrite <- Hw1. unfold log_wire. cbn [with_lb g_log_buffer g_log_cursor g_log_store]. rewrite Hb1, Hc1, (ztake_neg 0) by lia. rewrite !app_nil_r, Hu2. f_equal.
    set (body := N :: be_bytes 8 now ++ joined parts).
    assert (w = [0; 0; 0; 0] ++ body ++ zdrop n w) as Hw.
    { rewrite <- (ztake_zdrop n w) at 1. rewrite Hwn, Hw0. by rewrite <- !app_assoc. }
    assert (w2 = be_bytes 4 (n - 4) ++ body ++ zdrop n w) as ->.
    { unfold w2, splice, hton32. rewrite bytes_bswap, be_bytes_u32, zlen_be_bytes, (ztake_neg 0) by lia.
      rewrite Hw at 1. by rewrite (zdrop_app_exact (0 + Z.of_nat 4)). }
    assert (zlen body = n - 4) as Hr by (unfold body; rewrite zlen_cons, zlen_app, zlen_be_bytes; lia).
    change (record_of now (LText N parts)) with body. unfold framed.
    rewrite Hr, app_assoc. apply ztake_app_exact. rewrite zlen_app, zlen_be_bytes, Hr. lia.
Qed.

(** The two batched forms. *)
Lemma fields_spec l b fs n :
  LWF l -> g_log_buffer l = Some b -> 0 < n < 2 ^ 62 -> zlen (concat fs) = n ->
  exists b' l', (do! reserve page n in put_fields fs) l = Ret tt l' /\ LWF l' /\ g_log_buffer l' = Some b' /\
    log_wire l' = log_wire l ++ concat fs.
Proof.
  intros HW Hb Hn Hz. destruct (reserve_spec l b n HW Hb Hn) as (b1&l1&Hr1&HW1&Hb1&Hw1&Hroom). run_step Hr1.
  destruct (put_fields_spec fs l1 b1 HW1 Hb1) as (l2&Hr2&HW2&Hb2&Hw2); [lia|].
  exists b1, l2. by rewrite Hw2, Hw1.
Qed.

Lemma batched_spec l b r0 fs :
  LWF l -> g_log_buffer l = Some b -> zlen r0 < 2 ^ 61 ->
  concat fs = be_bytes 4 (zlen r0) ++ r0 ->
  exists b' l', (do! reserve page (zlen r0 + 4) in put_fields fs) l = Ret tt l' /\ LWF l' /\ g_log_buffer l' = Some b' /\
    log_wire l' = log_wire l ++ framed r0.
Proof.
  intros HW Hb Hz Hf. pose proof (zlen_nonneg r0). unfold framed. rewrite <- Hf. eapply fields_spec; [done|done|lia|].
  rewrite Hf, zlen_app, zlen_be_bytes. lia.
Qed.

(** The batched forms store exactly their framed record. *)
Lemma batched_form e l :
  event_ok e ->
  match e with
  | LText _ _ => True
  | _ => exists fs, log_exec page now e l = (do! reserve page (zlen (record_of now e) + 4) in put_fields fs) l /\
                    concat fs = be_bytes 4 (zlen (record_of now e)) ++ record_of now e /\
                    zlen (record_of now e) < 2 ^ 61
  end.
Proof.
  intros Hok. destruct e as [N parts|u h r lo t|id snd m]; [done| |].
  - destruct Hok as (Hr&Hlo&Ht). pose proof (zlen_nonneg t). unfold log_exec, g_log_bitcoin, SOCKADDR_STORAGE in *.
    unfold hton32, hton64. rewrite !bytes_bswap. set (r0 := record_of now (LConn u h r lo t)).
    assert (zlen r0 = 1 + 8 + 4 + 4 + 2 * 128 + 4 + zlen t) as Hz.
    { unfold r0, record_of. rewrite !zlen_app, !zlen_be_bytes, Hr, Hlo. change (zlen [BITCOIN]) with 1. lia. }
    rewrite <- Hz. eexists. split; [reflexivity|]. split; [cbn [concat]; by rewrite app_nil_r|lia].
  - destruct Hok as (Hm&Hl). unfold log_exec, g_log_bitcoin_msg, PACKED_MESSAGE in *. zcase; [lia|].
    unfold hton32, hton64. rewrite !bytes_bswap. set (r0 := record_of now (LMsg id snd m)).
    assert (zlen r0 = 1 + 8 + 4 + 1 + 24 + msg_length m) as Hz.
    { unfold r0, record_of, PACKED_MESSAGE. rewrite !zlen_app, !zlen_be_bytes, zlen_ztake.
      change (zlen [BITCOIN_MSG]) with 1. destruct snd; rewrite zlen_cons, zlen_nil; lia. }
    rewrite <- Hz. eexists. split; [reflexivity|]. split; [cbn [concat]; by rewrite app_nil_r|lia].
Qed.

Lemma exec_spec e l b :
  LWF l -> g_log_buffer l = Some b -> event_ok e ->
  exists b' l', log_exec page now e l = Ret tt l' /\ LWF l' /\ g_log_buffer l' = Some b' /\
    log_wire l' = log_wire l ++ framed (record_of now e).
Proof.
  intros HW Hb Hok. pose proof (batched_form e l Hok) as Hf.
  destruct e; [by eapply text_spec|..]; destruct Hf as (fs&->&Hf&Hz); by eapply batched_spec.
Qed.

(** Without a log buffer an event still returns. *)
Lemma append_buf_none buf len l :
  g_log_buffer l = None -> exists l', append_buf buf len l = Ret tt l' /\ g_log_buffer l' = None /\
    g_log_cursor l' = g_log_cursor l /\ g_log_store l' = g_log_store l.
Proof. intros Hb. unfold append_buf. rewrite Hb. eauto. Qed.

Lemma put_fields_none fs l :
  LWF l -> g_log_buffer l = None -> zlen (concat fs) <= zlen (g_log_store l) - g_log_cursor l ->
  exists l', put_fields fs l = Ret tt l' /\ LWF l' /\ g_log_buffer l' = None.
Proof.
  revert l. induction fs as [|f fs IH]; intros l [HQ Hc] Hb Hz; simpl in *; [by eexists|].
  rewrite zlen_app in Hz. pose proof (zlen_nonneg f). pose proof (zlen_nonneg (concat fs)).
  erewrite bind_ret by done. zcase; [lia|]. erewrite bind_ret by done.
  assert (zlen (splice (g_log_cursor l) f (g_log_store l)) = zlen (g_log_store l)) as Hl by (apply zlen_splice; lia).
  apply IH; [split; simpl; [by rewrite Hb|lia]|done|simpl; lia].
Qed.

Lemma batched_none l r0 fs :
  LWF l -> g_log_buffer l = None -> zlen r0 < 2 ^ 61 -> concat fs = be_bytes 4 (zlen r0) ++ r0 ->
  exists l', (do! reserve page (zlen r0 + 4) in put_fields fs) l = Ret tt l' /\ LWF l' /\ g_log_buffer l' = None.
Proof.
  intros HW Hb Hz Hf. pose proof (zlen_nonneg r0). set (n := zlen r0 + 4).
  assert (exists l1, reserve page n l = Ret tt l1 /\ LWF l1 /\ g_log_buffer l1 = None /\
            n <= zlen (g_log_store l1) - g_log_cursor l1) as (l1&Hr&HW1&Hb1&Hroom).
  { unfold reserve. erewrite bind_ret by done. zcase; [|by eauto].
    assert (exists l1, (if 0 <? g_log_cursor l then append_buf (g_log_store l) (g_log_cursor l) else ret tt) l = Ret tt l1 /\
              g_log_buffer l1 = None) as (l1&Hr&Hb1).
    { destruct (0 <? g_log_cursor l); [|by eexists].
      destruct (append_buf_none (g_log_store l) (g_log_cursor l) l Hb) as (l1&?&?&_). eauto. }
    run_step Hr. eexists. split; [reflexivity|]. simpl. unfold vb_new. rewrite zlen_zrep.
    pose proof (wcap_bounds page Hpage (Z.max store_size n)). unfold store_size in *.
    split_and!; [|done|lia]. split; simpl; [by rewrite Hb1|rewrite zlen_zrep; lia]. }
  run_step Hr. apply put_fields_none; [done|done|]. rewrite Hf, zlen_app, zlen_be_bytes. lia.
Qed.

Lemma exec_none e l :
  LWF l -> g_log_buffer l = None -> event_ok e ->
  exists l', log_exec page now e l = Ret tt l' /\ LWF l' /\ g_log_buffer l' = None.
Proof.
  intros HW Hb Hok. pose proof (batched_form e l Hok) as Hf.
  destruct e as [N parts| |]; [|destruct Hf as (fs&->&Hf&Hz); by eapply batched_none..].
  unfold log_exec, g_log_text. destruct (g_log_inner page parts _ 13) as [w n].
  erewrite bind_ret by done. rewrite Hb. eexists. split; [reflexivity|]. destruct HW. by split.
Qed.
End Spec.

(** ** Runs: events and write callbacks in any order *)

Inductive log_step := Event (now : Z) (e : log_event) | Writable (ws : list write_event).

Definition give_writes (ws : list write_event) (l : logger) : logger :=
  match g_log_buffer l with
  | Some b => with_lb (Some (LogBuffer (lb_queue b) (lb_io b)
                (Sock (rx (lb_sock b)) ws (tx (lb_sock b)) (errno (lb_sock b))))) l
  | None => l
  end.

(** libev only calls back a live log_buffer. *)
Definition step_exec (page : Z) (st : log_step) : prog logger unit := fun l =>
  match st with
  | Event now e => log_exec page now e l
  | Writable ws => match g_log_buffer l with Some _ => log_io_cb (give_writes ws l) | None => Ret tt l end
  end.

Fixpoint steps_exec (page : Z) (sts : list log_step) : prog logger unit :=
  match sts with
  | [] => ret tt
  | st :: sts => do! step_exec page st in steps_exec page sts
  end.

Definition step_ok (st : log_step) : Prop :=
  match st with Event _ e => event_ok e | Writable _ => True end.

Definition step_bytes (st : log_step) : list Z :=
  match st with Event now e => framed (record_of now e) | Writable _ => [] end.

Lemma log_io_cb_spec ws l b :
  LWF l -> g_log_buffer l = Some b ->
  exists l', log_io_cb (give_writes ws l) = Ret tt l' /\ LWF l' /\
    (g_log_buffer l' = None \/ log_wire l' = log_wire l /\ is_Some (g_log_buffer l')).
Proof.
  intros [HQ Hc] Hb. specialize (HQ b Hb). unfold log_io_cb, give_writes. rewrite Hb. cbn [with_lb g_log_buffer lb_queue lb_sock lb_io].
  set (k := Sock (rx (lb_sock b)) ws (tx (lb_sock b)) (errno (lb_sock b))).
  destruct (drain_spec log_again (1 + length (wx k)) (Writer (lb_queue b) k)) as (e&w&Hr&HQ'&Hcons&_); [done|done|simpl; lia|].
  rewrite Hr.
  assert (forall io, let l' := with_lb (Some (LogBuffer (wb w) io (wsk w))) l in LWF l' /\ log_wire l' = log_wire l) as Hstay.
  { intros io. split; [split; simpl; [intros ? [= <-]; done|done]|]. unfold log_wire. simpl. rewrite Hb, !app_assoc. f_equal. exact Hcons. }
  destruct e; eexists; (split; [reflexivity|]).
  1,2,3: destruct (Hstay (lb_io b)) as [? ?], (Hstay (io_set_events ev_NONE (lb_io b))) as [? ?]; simpl; eauto 8.
  split; [by split|by left].
Qed.

Lemma step_spec page st l :
  0 < page <= 2 ^ 62 -> LWF l -> step_ok st ->
  exists l', step_exec page st l = Ret tt l' /\ LWF l' /\
    (g_log_buffer l' = None \/ log_wire l' = log_wire l ++ step_bytes st /\ is_Some (g_log_buffer l) /\ is_Some (g_log_buffer l')).
Proof.
  intros Hp HW Hok. destruct (g_log_buffer l) as [b|] eqn:Hb.
  - destruct st as [now e|ws]; simpl.
    + destruct (exec_spec page now Hp e l b HW Hb Hok) as (b'&l'&?&?&?&?). exists l'. split_and!; eauto 8.
    + rewrite Hb. destruct (log_io_cb_spec ws l b HW Hb) as (l'&?&?&[?|[? ?]]); exists l'; rewrite ?app_nil_r; split_and!; eauto 8.
  - destruct st as [now e|ws]; simpl.
    + destruct (exec_none page now Hp e l HW Hb Hok) as (l'&?&?&?). eauto 8.
    + rewrite Hb. eauto 8.
Qed.

Lemma steps_spec page sts l :
  0 < page <= 2 ^ 62 -> LWF l -> Forall step_ok sts ->
  exists l', steps_exec page sts l = Ret tt l' /\ LWF l' /\
    (g_log_buffer l' = None \/ log_wire l' = log_wire l ++ concat (map step_bytes sts) /\ is_Some (g_log_buffer l)).
Proof.
  intros Hp HW HF. revert l HW. induction HF as [|st sts Hok HF IH]; intros l HW.
  - exists l. simpl. rewrite app_nil_r. split_and!; [done..|]. destruct (g_log_buffer l); [right; by split|by left].
  - destruct (step_spec page st l Hp HW Hok) as (l1&Hr1&HW1&Hcase). simpl. run_step Hr1.
    destruct (IH l1 HW1) as (l'&Hr&HW'&[Hn|[Hw Hs1]]); exists l'; (split_and!; [done|done|]); [by left|].
    destruct Hcase as [Hn|(Hw1&Hs&_)]; [rewrite Hn in Hs1; by destruct Hs1|].
    right. by rewrite Hw, Hw1, <- app_assoc.
Qed.

(** C15. The log stream: over any interleaving of g_log calls of all three forms
    and write callbacks, every call returns, and as long as the connection to
    the log server stands, what it has received followed by what is queued and
    what is in the store is exactly the length-prefixed records of the calls, in
    call order: batching never reorders, splits or drops a record. *)
Theorem log_stream page sts l :
  0 < page <= 2 ^ 62 -> LWF l -> Forall step_ok sts ->
  exists l', steps_exec page sts l = Ret tt l' /\ LWF l' /\
    (is_Some (g_log_buffer l') -> log_wire l' = log_wire l ++ concat (map step_bytes sts)).
Proof.
  intros Hp HW HF. destruct (steps_spec page sts l Hp HW HF) as (l'&Hr&HW'&Hcase).
  exists l'. split_and!; [done..|]. intros [b Hb]. destruct Hcase as [Hn|[? _]]; [congruence|done].
Qed.

Definition demo_log : logger := Logger (Some (log_buffer_ctor 3 (Sock [] [] [] 0))) 0 (vb_new 4096 4096) [] [].

Lemma demo_log_LWF : LWF demo_log.
Proof. split; [intros b [= <-]; apply write_buffer_ctor_QWF|vm_compute; split; congruence]. Qed.

Lemma log_stream_witness :
  exists l', steps_exec 4096 [Event 1 (LConn CONNECT_SUCCESS 7 (zrep 128 0) (zrep 128 0) []);
                              Event 2 (LText DEBUG [[104; 105]]); Writable [WAccept 300]] demo_log = Ret tt l' /\
    log_wire l' = framed (record_of 1 (LConn CONNECT_SUCCESS 7 (zrep 128 0) (zrep 128 0) [])) ++
                  framed (record_of 2 (LText DEBUG [[104; 105]])).
Proof.
  destruct (log_stream 4096 [Event 1 (LConn CONNECT_SUCCESS 7 (zrep 128 0) (zrep 128 0) []);
                             Event 2 (LText DEBUG [[104; 105]]); Writable [WAccept 300]] demo_log) as (l'&Hr&_&Hw).
  - lia.
  - exact demo_log_LWF.
  - repeat constructor; try (vm_compute; congruence).
  - exists l'. split; [exact Hr|]. rewrite Hw; [reflexivity|].
    vm_compute in Hr. inversion Hr. eexists. reflexivity.
Defined.

(** When a write to the log server fails, log_buffer::io_cb closes the
    descriptor and then deletes the buffer, whose destructor closes it again. *)
Theorem log_failure_closes_twice l b e ws :
  g_log_buffer l = Some b -> LWF l -> unsent (lb_queue b) <> [] -> log_again e = false ->
  exists l', log_io_cb (give_writes (WErr e :: ws) l) = Ret tt l' /\ g_log_buffer l' = None /\
    log_closed l' = log_closed l ++ [fd (lb_io b); fd (lb_io b)].
Proof.
  intros Hb [HQ _] Hne He. specialize (HQ b Hb). unfold log_io_cb, give_writes. rewrite Hb.
  cbn [with_lb g_log_buffer lb_queue lb_sock lb_io].
  set (k := Sock (rx (lb_sock b)) (WErr e :: ws) (tx (lb_sock b)) (errno (lb_sock b))).
  destruct (drain_fails log_again (length (wx k)) (Writer (lb_queue b) k) e) as (w&Hr); [done|done|by exists ws|done|].
  change (1 + length (wx k))%nat with (S (length (wx k))). rewrite Hr. eexists. split; [reflexivity|]. done.
Qed.

Lemma log_failure_closes_twice_witness :
  exists l', log_io_cb (give_writes [WErr 32] (Logger (Some (LogBuffer (WriteBuffer 1 [Chunk 0 1 [65]]) (EvIo 3 ev_WRITE true)
               (Sock [] [] [] 0))) 0 (vb_new 4096 4096) [] [])) = Ret tt l' /\ log_closed l' = [3; 3].
Proof.
  destruct (log_failure_closes_twice (Logger (Some (LogBuffer (WriteBuffer 1 [Chunk 0 1 [65]]) (EvIo 3 ev_WRITE true)
               (Sock [] [] [] 0))) 0 (vb_new 4096 4096) [] []) (LogBuffer (WriteBuffer 1 [Chunk 0 1 [65]]) (EvIo 3 ev_WRITE true)
               (Sock [] [] [] 0)) 32 []) as (l'&Hr&_&Hc).
  - reflexivity.
  - split; [intros b [= <-]; split; [repeat constructor; vm_compute; congruence|reflexivity]|vm_compute; split; congruence].
  - vm_compute. congruence.
  - reflexivity.
  - exists l'. split; [exact Hr|exact Hc].
Defined.

(** BITCOIN records do not have the layout logger.hpp gives them: the two
    addresses are stored as 128 byte sockaddr_storage, so the text length is at
    offset 273 of the record, while bitcoin_log_format, with its 16 byte
    sockaddr_in, puts it at offset 49, inside the remote address. *)
Theorem bitcoin_record_layout now u h r l t :
  zlen r = SOCKADDR_STORAGE -> zlen l = SOCKADDR_STORAGE ->
  slice 273 4 (record_of now (LConn u h r l t)) = be_bytes 4 (zlen t) /\
  slice 49 4 (record_of now (LConn u h r l t)) = slice 32 4 r.
Proof.
  unfold SOCKADDR_STORAGE. intros Hr Hl. unfold record_of. split.
  - do 5 rewrite app_assoc. apply slice_app_mid; rewrite ?zlen_app, ?zlen_be_bytes, ?Hr, ?Hl; done.
  - do 3 rewrite app_assoc.
    rewrite slice_app_r; rewrite ?zlen_app, ?zlen_be_bytes; change (zlen [BITCOIN]) with 1; [|lia].
    apply slice_app_l; lia.
Qed.

Lemma bitcoin_record_layout_witness :
  slice 273 4 (record_of 5 (LConn CONNECT_FAILURE 0 (zrep 128 9) (zrep 128 0) [66; 0])) = [0; 0; 0; 2] /\
  slice 49 4 (record_of 5 (LConn CONNECT_FAILURE 0 (zrep 128 9) (zrep 128 0) [66; 0])) = [9; 9; 9; 9].
Proof. exact (bitcoin_record_layout 5 CONNECT_FAILURE 0 (zrep 128 9) (zrep 128 0) [66; 0] eq_refl eq_refl). Defined.
