(* ===== verification/Blacklist.v ===== *)
(** * The blacklist of addresses

    connector/includes/blacklist.hpp and load_blacklist of connector/src/main.cpp:
    the equality and hash of the set of blacklisted addresses, loading it from
    the lines of a file, and membership. std::hash and inet_pton are
    parameters. *)

From S2P Require Import Prelude.
From S2P Require Import Bytes.
From S2P Require Import BitcoinWire.

(** struct sockaddr_storage_eq *)
Definition sockaddr_storage_eq (lhs rhs : list Z) : bool :=
  if negb (ss_family lhs =? ss_family rhs) then false
  else if ss_family lhs =? AF_INET then bool_decide (sin_addr lhs = sin_addr rhs)
  else if ss_family lhs =? AF_INET6 then bool_decide (sin6_addr lhs = sin6_addr rhs)
  else false.

(** struct sockaddr_storage_hashfunc; [hash] is std::hash on the integer types *)
Definition sockaddr_storage_hash (hash : Z -> Z) (h : list Z) : Z :=
  let K := 0x9e3779b0 in
  let seed := u64 (hash (ss_family h) + K) in
  let mix seed v := u64 (hash v + K + Z.shiftl seed 6 + Z.shiftr seed 2) in
  if ss_family h =? AF_INET then Z.lxor seed (mix seed (le_val (sin_addr h)))
  else if ss_family h =? AF_INET6 then
    let a := le_val (slice 0 8 (sin6_addr h)) in
    let b := le_val (slice 8 8 (sin6_addr h)) in
    let seed := Z.lxor seed (mix seed a) in
    Z.lxor seed (mix seed b)
  else seed.

(** ipaddr_set: count and insert *)
Definition count (set : list (list Z)) (a : list Z) : bool := existsb (sockaddr_storage_eq a) set.
Definition insert_addr (a : list Z) (set : list (list Z)) : list (list Z) := if count set a then set else a :: set.

(** load_blacklist on the lines of the file; [pton4], [pton6] are
    inet_pton(AF_INET), inet_pton(AF_INET6). The entry is reused from line to
    line; invalid lines are returned for the log. *)
Fixpoint load_lines (pton4 pton6 : list Z -> option (list Z)) (entry : list Z) (set : list (list Z))
    (lines : list (list Z)) : list (list Z) * list (list Z) :=
  match lines with
  | [] => (set, [])
  | line :: lines =>
      match pton4 line with
      | Some a =>
          let entry := splice 0 (le_bytes 2 AF_INET) (splice 4 a entry) in
          load_lines pton4 pton6 entry (insert_addr entry set) lines
      | None =>
          match pton6 line with
          | Some a =>
              let entry := splice 0 (le_bytes 2 AF_INET6) (splice 8 a entry) in
              load_lines pton4 pton6 entry (insert_addr entry set) lines
          | None =>
              let '(set, bad) := load_lines pton4 pton6 entry set lines in (set, line :: bad)
          end
      end
  end.

Definition load_blacklist (pton4 pton6 : list Z -> option (list Z)) (lines : list (list Z)) :=
  load_lines pton4 pton6 (zrep SOCKADDR_STORAGE 0) [] lines.

(** ** Lemmas *)

Lemma count_insert a b set :
  sockaddr_storage_eq b b = true ->
  count (insert_addr b set) a = sockaddr_storage_eq a b || count set a.
Proof.
  intros Hb. unfold insert_addr. destruct (count set b) eqn:E; [|done].
  destruct (sockaddr_storage_eq a b) eqn:Eab; [|done]. simpl. unfold count in *.
  apply existsb_exists in E as (x&Hx&Hbx). apply existsb_exists. exists x. split; [done|].
  revert Eab Hbx. unfold sockaddr_storage_eq. repeat zcase; simpl; try done; try congruence.
  all: intros ?%bool_decide_eq_true ?%bool_decide_eq_true; apply bool_decide_eq_true; congruence.
Qed.

Section Load.
Context (pton4 pton6 : list Z -> option (list Z)).
(** inet_pton writes an address of its family. *)
Hypothesis pton4_len : forall l a, pton4 l = Some a -> zlen a = 4.
Hypothesis pton6_len : forall l a, pton6 l = Some a -> zlen a = 16.

(** The address a line names, if any. *)
Definition names (line a : list Z) : bool :=
  match pton4 line with
  | Some x => (ss_family a =? AF_INET) && bool_decide (sin_addr a = x)
  | None =>
      match pton6 line with
      | Some x => (ss_family a =? AF_INET6) && bool_decide (sin6_addr a = x)
      | None => false
      end
  end.

(** The entry after a line was stored in it. *)
Lemma entry4 e x :
  zlen e = SOCKADDR_STORAGE -> zlen x = 4 ->
  let e' := splice 0 (le_bytes 2 AF_INET) (splice 4 x e) in
  zlen e' = SOCKADDR_STORAGE /\ ss_family e' = AF_INET /\ sin_addr e' = x.
Proof.
  unfold SOCKADDR_STORAGE. intros He Hx. simpl. assert (zlen (splice 4 x e) = 128) as H1 by (apply splice_len; lia).
  split_and!; [by apply splice_len; rewrite ?zlen_le_bytes|..].
  - unfold ss_family. rewrite slice_splice_same by (rewrite ?zlen_le_bytes; lia). reflexivity.
  - unfold sin_addr. rewrite slice_splice_after by (rewrite ?zlen_le_bytes; lia). apply slice_splice_same; lia.
Qed.

Lemma entry6 e x :
  zlen e = SOCKADDR_STORAGE -> zlen x = 16 ->
  let e' := splice 0 (le_bytes 2 AF_INET6) (splice 8 x e) in
  zlen e' = SOCKADDR_STORAGE /\ ss_family e' = AF_INET6 /\ sin6_addr e' = x.
Proof.
  unfold SOCKADDR_STORAGE. intros He Hx. simpl. assert (zlen (splice 8 x e) = 128) as H1 by (apply splice_len; lia).
  split_and!; [by apply splice_len; rewrite ?zlen_le_bytes|..].
  - unfold ss_family. rewrite slice_splice_same by (rewrite ?zlen_le_bytes; lia). reflexivity.
  - unfold sin6_addr. rewrite slice_splice_after by (rewrite ?zlen_le_bytes; lia). apply slice_splice_same; lia.
Qed.

Lemma load_lines_spec lines : forall e set a,
  zlen e = SOCKADDR_STORAGE ->
  count (fst (load_lines pton4 pton6 e set lines)) a = count set a || existsb (fun l => names l a) lines.
Proof.
  induction lines as [|line lines IH]; intros e set a He; simpl; [by rewrite orb_false_r|].
  unfold names at 1. destruct (pton4 line) as [x|] eqn:E4; [|destruct (pton6 line) as [x|] eqn:E6].
  - destruct (entry4 e x He (pton4_len _ _ E4)) as (He'&Hf&Ha). set (e' := splice 0 _ _) in *.
    rewrite IH by done. rewrite count_insert by (unfold sockaddr_storage_eq; rewrite Hf; simpl; by apply bool_decide_eq_true).
    assert (sockaddr_storage_eq a e' = (ss_family a =? AF_INET) && bool_decide (sin_addr a = x)) as ->.
    { unfold sockaddr_storage_eq. rewrite Hf, Ha. destruct (Z.eqb_spec (ss_family a) AF_INET); done. }
    by rewrite (orb_comm _ (count set a)), orb_assoc.
  - destruct (entry6 e x He (pton6_len _ _ E6)) as (He'&Hf&Ha). set (e' := splice 0 _ _) in *.
    rewrite IH by done. rewrite count_insert by (unfold sockaddr_storage_eq; rewrite Hf; simpl; by apply bool_decide_eq_true).
    assert (sockaddr_storage_eq a e' = (ss_family a =? AF_INET6) && bool_decide (sin6_addr a = x)) as ->.
    { unfold sockaddr_storage_eq. rewrite Hf, Ha. destruct (Z.eqb_spec (ss_family a) AF_INET6) as [->|]; done. }
    by rewrite (orb_comm _ (count set a)), orb_assoc.
  - specialize (IH e set a He). destruct (load_lines pton4 pton6 e set lines) as [s bad]. simpl in *. by rewrite IH.
Qed.
End Load.

(** ** Properties *)

(** After loading, an address is blacklisted exactly when some line of the
    file names it, whatever its port and the other lines, although one entry is
    reused for all of them. *)
Theorem blacklist_exact pton4 pton6 lines a :
  (forall l x, pton4 l = Some x -> zlen x = 4) -> (forall l x, pton6 l = Some x -> zlen x = 16) ->
  count (fst (load_blacklist pton4 pton6 lines)) a = existsb (fun l => names pton4 pton6 l a) lines.
Proof.
  intros H4 H6. unfold load_blacklist. rewrite load_lines_spec by (done || by rewrite zlen_zrep). done.
Qed.

Lemma blacklist_exact_witness :
  count (fst (load_blacklist (fun l => if zlen l =? 4 then Some l else None) (fun l => if zlen l =? 16 then Some l else None)
           [zrep 16 7; [10; 0; 0; 1]; [1]])) ([2; 0; 32; 141; 10; 0; 0; 1] ++ zrep 120 0) = true.
Proof.
  rewrite (blacklist_exact (fun l => if zlen l =? 4 then Some l else None) (fun l => if zlen l =? 16 then Some l else None)).
  - vm_compute. reflexivity.
  - intros l x. destruct (Z.eqb_spec (zlen l) 4); congruence.
  - intros l x. destruct (Z.eqb_spec (zlen l) 16); congruence.
Defined.

(** The hash agrees with the equality: equal addresses have the same hash,
    so the unordered set finds every blacklisted address, whatever std::hash is. *)
Theorem blacklist_hash_consistent hash lhs rhs :
  sockaddr_storage_eq lhs rhs = true -> sockaddr_storage_hash hash lhs = sockaddr_storage_hash hash rhs.
Proof.
  unfold sockaddr_storage_eq, sockaddr_storage_hash. destruct (Z.eqb_spec (ss_family lhs) (ss_family rhs)) as [->|]; simpl; [|done].
  repeat zcase; try done; intros H%bool_decide_eq_true; by rewrite H.
Qed.

Lemma blacklist_hash_consistent_witness :
  sockaddr_storage_hash (fun x => x) ([2; 0; 1; 1; 10; 0; 0; 1] ++ zrep 120 0) =
  sockaddr_storage_hash (fun x => x) ([2; 0; 9; 9; 10; 0; 0; 1] ++ zrep 120 0).
Proof. apply blacklist_hash_consistent. vm_compute. reflexivity. Defined.
