(* ===== verification/BitcoinHandler.v ===== *)
(** * Connections to bitcoin peers

    bitcoin::handler, connect_handler and accept_handler of
    connector/src/bitcoin_handler.cpp: the handshake and message state machine of
    a connection, its read and write callbacks, the ping timers, and how
    connections are made, accepted and retired.

    The state of a callback is the handler it runs on, whether that handler is
    still in g_active_handlers, and the globals. Calls of g_log are collected as
    the log events of [Logger]. Times are integer ticks. *)

From stdpp Require Import pretty.
From S2P Require Import Prelude.
From S2P Require Import Bytes.
From S2P Require Import WrappedBuffer.
From S2P Require Import Net.
From S2P Require Import ReadBuffer.
From S2P Require Import WriteBuffer.
From S2P Require Import BitcoinWire.
From S2P Require Import Logger.
From S2P Require Import Blacklist.

(** ** States of a connection *)

Definition RECV_MASK : Z := 0x0000ffff.
Definition RECV_HEADER : Z := 0x1.
Definition RECV_PAYLOAD : Z := 0x2.
Definition RECV_VERSION_INIT : Z := 0x4.
Definition RECV_VERSION_INIT_HDR : Z := 0x8.
Definition RECV_VERSION_REPLY_HDR : Z := 0x10.
Definition RECV_VERSION_REPLY : Z := 0x20.

Definition SEND_MASK : Z := 0xffff0000.
Definition SEND_MESSAGE : Z := 0x10000.
Definition SEND_VERSION_INIT : Z := 0x20000.
Definition SEND_VERSION_REPLY : Z := 0x40000.

(** class handler; the timers are the delays they were last started with. *)
Record handler := Handler {
  h_read : reader;
  h_write : write_buffer;
  remote_addr : list Z;
  local_addr : list Z;
  timestamp : Z;
  h_state : Z;
  io_events : Z;
  h_io : evio;
  timer : option Z;
  last_activity : Z;
  active_ping_timer : option Z;
  h_id : Z }.

(** The globals of the connector. *)
Record globals := Globals {
  g_active_handlers : gmap Z handler;
  g_inactive_handlers : list handler;
  id_pool : Z;
  g_ping_iv : Z;
  g_active_ping_iv : Z;
  g_last_block : Z;
  g_log : list log_event;
  g_closed : list Z }.

(** A callback on [this]; [active] says whether g_active_handlers owns it. *)
Record hstate := HState { this : handler; active : bool; glob : globals }.

#[export] Instance hstate_reader : HasReader hstate := {|
  rdr s := h_read (this s);
  set_rdr r s :=
    let h := this s in
    HState (Handler r (h_write h) (remote_addr h) (local_addr h) (timestamp h) (h_state h) (io_events h)
              (h_io h) (timer h) (last_activity h) (active_ping_timer h) (h_id h)) (active s) (glob s);
  rdr_set r s := eq_refl |}.

(** g_log copies the message, so a log event holds just its bytes. *)

(** ** Field updates *)

Definition upd (f : handler -> handler) : prog hstate unit :=
  modify (fun s => HState (f (this s)) (active s) (glob s)).
Definition with_state x h := Handler (h_read h) (h_write h) (remote_addr h) (local_addr h) (timestamp h) x
  (io_events h) (h_io h) (timer h) (last_activity h) (active_ping_timer h) (h_id h).
Definition with_write w h := Handler (h_read h) w (remote_addr h) (local_addr h) (timestamp h) (h_state h)
  (io_events h) (h_io h) (timer h) (last_activity h) (active_ping_timer h) (h_id h).
Definition with_io e w h := Handler (h_read h) (h_write h) (remote_addr h) (local_addr h) (timestamp h) (h_state h)
  e w (timer h) (last_activity h) (active_ping_timer h) (h_id h).
Definition with_timers t a h := Handler (h_read h) (h_write h) (remote_addr h) (local_addr h) (timestamp h) (h_state h)
  (io_events h) (h_io h) t (last_activity h) a (h_id h).
Definition with_activity t h := Handler (h_read h) (h_write h) (remote_addr h) (local_addr h) (timestamp h) (h_state h)
  (io_events h) (h_io h) (timer h) t (active_ping_timer h) (h_id h).

Definition updg (f : globals -> globals) : prog hstate unit :=
  modify (fun s => HState (this s) (active s) (f (glob s))).
Definition with_log l g := Globals (g_active_handlers g) (g_inactive_handlers g) (id_pool g) (g_ping_iv g)
  (g_active_ping_iv g) (g_last_block g) l (g_closed g).
Definition with_last_block b g := Globals (g_active_handlers g) (g_inactive_handlers g) (id_pool g) (g_ping_iv g)
  (g_active_ping_iv g) b (g_log g) (g_closed g).
Definition with_ivs p a g := Globals (g_active_handlers g) (g_inactive_handlers g) (id_pool g) p
  a (g_last_block g) (g_log g) (g_closed g).
Definition with_closed c g := Globals (g_active_handlers g) (g_inactive_handlers g) (id_pool g) (g_ping_iv g)
  (g_active_ping_iv g) (g_last_block g) (g_log g) c.
Definition with_handlers a i g := Globals a i (id_pool g) (g_ping_iv g)
  (g_active_ping_iv g) (g_last_block g) (g_log g) (g_closed g).
Definition with_pool n g := Globals (g_active_handlers g) (g_inactive_handlers g) n (g_ping_iv g)
  (g_active_ping_iv g) (g_last_block g) (g_log g) (g_closed g).

Definition log (e : log_event) : prog hstate unit := updg (fun g => with_log (g_log g ++ [e]) g).
Definition close (f : Z) : prog hstate unit := updg (fun g => with_closed (g_closed g ++ [f]) g).

(** The configuration and the sources of time, randomness and digests. *)
Record env := Env {
  page : Z;
  now : Z;
  magic : Z;
  user_agent : list Z;
  external_addr : list Z;
  start_height : Z;
  ping_frequency : Z;
  active_ping_mean : Z;
  randping : Z;
  nonce : Z;
  junk : Z -> list Z;
  sha : list Z -> list Z }.

(** Text as bytes, C strings, strerror. *)
Definition text (s : string) : list Z := map (fun a => Z.of_N (Ascii.N_of_ascii a)) (String.list_ascii_of_string s).
Definition cstring (s : string) : list Z := text s ++ [0].

(** An integer as operator<< prints it. *)
Definition number (n : Z) : list Z := text (pretty n).

(** The characters from [off] to the first NUL; [None] when the memory ends first. *)
Fixpoint until_nul (bs : list Z) : option (list Z) :=
  match bs with
  | [] => None
  | b :: bs => if b =? 0 then Some [] else option_map (cons b) (until_nul bs)
  end.
Definition c_str_at (off : Z) (mem : list Z) : option (list Z) := until_nul (zdrop off mem).

(** strcmp(p, s) == 0 and strncmp(p, s, n) == 0 for a literal without its NUL *)
Definition streq (p : list Z) (s : string) : bool := bool_decide (ztake (zlen (text s) + 1) p = cstring s).
Definition strneq (p : list Z) (s : string) : bool := bool_decide (ztake (zlen (text s)) p = text s).

Section Handler.
Context (E : env) (strerror : Z -> list Z).

Definition io_set (e : Z) : prog hstate unit :=
  upd (fun h => if e =? io_events h then h else with_io e (io_set_events e (h_io h)) h).

(** append_for_write(const packed_message *m); [m] is the memory at [m]. *)
Definition append_for_write (m : list Z) : prog hstate unit :=
  let! s := get in
  do! (if zlen m <? PACKED_MESSAGE + msg_length m then crash OutOfBounds else ret tt) in
  do! log (LMsg (h_id (this s)) true (ztake (PACKED_MESSAGE + msg_length m) m)) in
  do! zoom (fun s => h_write (this s)) (fun w s => HState (with_write w (this s)) (active s) (glob s))
        (append_bytes (page E) (ztake (PACKED_MESSAGE + msg_length m) m)) in
  do! (if negb (has (h_state (this s)) SEND_MASK) then
         io_set (Z.lor ev_WRITE (if has (h_state (this s)) RECV_MASK then ev_READ else ev_NONE))
       else ret tt) in
  upd (fun h => with_state (Z.lor (h_state h) SEND_MESSAGE) h).

(** append_for_write(wrapped_buffer<uint8_t> buf) *)
Definition append_for_write_buf (buf : list Z) : prog hstate unit :=
  let! s := get in
  do! log (LMsg (h_id (this s)) true (ztake (PACKED_MESSAGE + msg_length buf) buf)) in
  do! zoom (fun s => h_write (this s)) (fun w s => HState (with_write w (this s)) (active s) (glob s))
        (append_buffer buf (PACKED_MESSAGE + msg_length buf)) in
  do! (if negb (has (h_state (this s)) SEND_MASK) then
         io_set (Z.lor ev_WRITE (if has (h_state (this s)) RECV_MASK then ev_READ else ev_NONE))
       else ret tt) in
  upd (fun h => with_state (Z.lor (h_state h) SEND_MESSAGE) h).

(** handler::start_pingers *)
Definition start_pingers : prog hstate unit :=
  do! updg (fun g => if (g_ping_iv g <? 0) || (g_active_ping_iv g <? 0)
                     then with_ivs (Z.max 0 (ping_frequency E)) (Z.max 0 (active_ping_mean E)) g else g) in
  let! s := get in
  do! (if 0 <? g_ping_iv (glob s)
       then upd (fun h => with_timers (Some (g_ping_iv (glob s))) (active_ping_timer h) h) else ret tt) in
  if 0 <? g_active_ping_iv (glob s)
  then upd (fun h => with_timers (timer h) (Some (Z.max 0 (randping E))) h) else ret tt.

(** handler::handle_message_recv; [msg] is the memory of the read buffer. *)
Definition handle_message_recv (msg : list Z) : prog hstate unit :=
  let! s := get in
  do! (if zlen msg <? PACKED_MESSAGE + msg_length msg then crash OutOfBounds else ret tt) in
  do! log (LMsg (h_id (this s)) false (ztake (PACKED_MESSAGE + msg_length msg) msg)) in
  let command := zdrop 4 msg in
  if streq command "ping" then
    let n := PACKED_MESSAGE + msg_length msg in
    let pong := splice 5 (text "o") (splice 0 (ztake n msg) (vb_new (page E) n)) in
    append_for_write_buf pong
  else if streq command "getblocks" then
    append_for_write (get_message (sha E) (magic E) (text "inv") (get_inv []))
  else if strneq command "ver" then
    let c := nth 3 command 0 in
    if c =? 97 then start_pingers
    else if c =? 115 then
      let given_block := s32 (le_val (slice (PACKED_MESSAGE + msg_length msg - 5) 4 msg)) in
      updg (fun g => if (g_last_block g <? given_block) && (given_block - g_last_block g <=? 10)
                     then with_last_block given_block g else g)
    else
      match c_str_at 4 msg with
      | Some str => log (LText DEBUG [text "Unexpected command"; str])
      | None => crash OutOfBounds
      end
  else ret tt.

(** handler::suicide: the handlers retired before are deleted. *)
Definition suicide : prog hstate unit :=
  do! upd (fun h => with_timers None (active_ping_timer h) h) in
  let! s := get in
  do! close (fd (h_io (this s))) in
  do! upd (fun h => with_io (io_events h) (io_set_fd (-1) (io_stop (h_io h))) h) in
  if active s then
    modify (fun s => HState (this s) false (with_handlers (g_active_handlers (glob s)) [] (glob s)))
  else ret tt.

(** handler::~handler: of a handler that suicide has not seen, the descriptor is
    closed and the entry erased. *)
Definition delete_handler : prog hstate unit :=
  let! s := get in
  if 0 <=? fd (h_io (this s)) then
    do! upd (fun h => with_timers None None h) in
    do! close (fd (h_io (this s))) in
    do! upd (fun h => with_io (io_events h) (io_set_fd (-1) (io_stop (h_io h))) h) in
    modify (fun s => HState (this s) false (glob s))
  else ret tt.

(** handler::disconnect *)
Definition disconnect : prog hstate unit :=
  let! s := get in
  do! log (LConn CONNECTOR_DISCONNECT (h_id (this s)) (remote_addr (this s)) (local_addr (this s)) []) in
  suicide.

Definition log_conn (update : Z) (t : list Z) : prog hstate unit :=
  let! s := get in
  log (LConn update (h_id (this s)) (remote_addr (this s)) (local_addr (this s)) t).

Definition on_rdr {A} (c : prog reader A) : prog hstate A := zoom rdr set_rdr c.

Definition set_recv (r : Z) : prog hstate unit :=
  upd (fun h => with_state (Z.lor (Z.land (h_state h) SEND_MASK) r) h).

(** Ready for the next message. *)
Definition next_header : prog hstate unit :=
  do! on_rdr (set_cursor 0) in on_rdr (set_to_read PACKED_MESSAGE).

(** The version message we send, from [from] to [recv]. *)
Definition version_message (from recv : list Z) : prog hstate (list Z) :=
  let! s := get in
  let v := get_version (start_height E) (now E) (nonce E)
             (junk E (VERSION_PREFIX + zlen (var_string (user_agent E)) + VERSION_SUFFIX))
             (user_agent E) from recv (g_last_block (glob s)) in
  do! updg (with_last_block (snd v)) in
  ret (get_message (sha E) (magic E) (text "version") (fst v)).

(** What do_read does with a completed item. *)
Definition read_full : prog hstate unit :=
  let! s := get in
  let readbuf := extract_buffer (rdr s) in
  do! assert (PACKED_MESSAGE <=? zlen readbuf) in
  let len := msg_length readbuf in
  do! (if negb (has (h_state (this s)) (Z.lor RECV_HEADER (Z.lor RECV_VERSION_INIT_HDR RECV_VERSION_REPLY_HDR)))
       then assert (PACKED_MESSAGE + len <=? zlen readbuf) else ret tt) in
  let st := Z.land (h_state (this s)) RECV_MASK in
  if st =? RECV_HEADER then
    do! on_rdr (set_to_read len) in
    let! s := get in
    if negb (hungry (rdr s)) then
      do! handle_message_recv readbuf in next_header
    else set_recv RECV_PAYLOAD
  else if st =? RECV_PAYLOAD then
    do! handle_message_recv readbuf in
    do! next_header in
    set_recv RECV_HEADER
  else if st =? RECV_VERSION_INIT_HDR then
    do! on_rdr (set_to_read len) in
    set_recv RECV_VERSION_INIT
  else if st =? RECV_VERSION_INIT then
    do! handle_message_recv readbuf in
    do! set_recv RECV_HEADER in
    next_header
  else if st =? RECV_VERSION_REPLY_HDR then
    do! on_rdr (set_to_read len) in
    set_recv RECV_VERSION_REPLY
  else if st =? RECV_VERSION_REPLY then
    do! handle_message_recv readbuf in
    do! next_header in
    let! s := get in
    let! vmsg := version_message (remote_addr (this s)) (external_addr E) in
    do! append_for_write vmsg in
    do! append_for_write (get_message (sha E) (magic E) (text "verack") []) in
    do! start_pingers in
    upd (with_state (Z.lor SEND_VERSION_REPLY RECV_HEADER))
  else ret tt.

Definition transient (e : Z) : bool := (e =? EWOULDBLOCK) || (e =? EAGAIN) || (e =? EINTR).

(** handler::do_read *)
Definition do_read : prog hstate unit :=
  let! s := get in
  do! assert (0 <=? fd (h_io (this s))) in
  let! e := read_loop (page E) transient read_full (1 + length (stream (rdr s))) in
  match e with
  | Failed err =>
      do! (if err =? ECONNRESET then log_conn PEER_RESET []
           else log_conn UNEXPECTED_ERROR (strerror err ++ [0])) in
      suicide
  | Eof => do! log_conn ORDERLY_DISCONNECT [] in suicide
  | _ => ret tt
  end.

Definition EBADF : Z := 9.

(** The write loop of do_write on the handler's queue and descriptor; a write
    on a closed descriptor fails. *)
Definition drain_handler : prog hstate drain_end := fun s =>
  let h := this s in
  let k := sk (h_read h) in
  let k := if fd (h_io h) <? 0 then Sock (rx k) (WErr EBADF :: wx k) (tx k) (errno k) else k in
  match drain transient (1 + length (wx k)) (Writer (h_write h) k) with
  | Ret e w => Ret e (HState (with_write (wb w) (this (set_rdr (Reader (rb (h_read h)) (wsk w)) s))) (active s) (glob s))
  | Raise e w => Raise e s
  | Fault f => Fault f
  end.

(** handler::do_write *)
Definition do_write : prog hstate unit :=
  let! e := drain_handler in
  match e with
  | WFailed err => do! log_conn WRITE_DISCONNECT (strerror err ++ [0]) in suicide
  | Drained =>
      let! s := get in
      do! (if Z.land (h_state (this s)) SEND_MASK =? SEND_VERSION_INIT then
             do! upd (with_state RECV_VERSION_INIT_HDR) in
             do! assert (to_read (rdr s) =? 0) in
             on_rdr (set_to_read PACKED_MESSAGE)
           else ret tt) in
      upd (fun h => with_state (Z.land (h_state h) RECV_MASK) h)
  | _ => ret tt
  end.

(** handler::io_cb *)
Definition io_cb (revents : Z) : prog hstate unit :=
  let! s := get in
  if fd (h_io (this s)) =? -1 then
    if active s then
      do! log (LText DEBUG [text "Handler "; number (h_id (this s)); text " has invalid file descriptor but is in active set"]) in
      modify (fun s => HState (this s) false (glob s))
    else ret tt
  else
    do! (if has (h_state (this s)) RECV_MASK && has revents ev_READ then do_read else ret tt) in
    do! (if has revents ev_WRITE then do_write else ret tt) in
    let! s := get in
    let events := Z.lor (if has (h_state (this s)) SEND_MASK then ev_WRITE else 0)
                        (if has (h_state (this s)) RECV_MASK then ev_READ else 0) in
    do! io_set events in
    upd (with_activity (now E)).

(** handler::pinger_cb *)
Definition pinger_cb : prog hstate unit :=
  let! s := get in
  let after := last_activity (this s) - now E + g_ping_iv (glob s) in
  if after <? 0 then
    do! append_for_write (get_message (sha E) (magic E) (text "ping") (le_bytes 8 (nonce E))) in
    upd (fun h => with_timers (Some (g_ping_iv (glob s))) (active_ping_timer h) h)
  else upd (fun h => with_timers (Some after) (active_ping_timer h) h).

(** handler::active_pinger_cb: [payload] is its static buffer of
    1 + 4 + sizeof(full_packed_net_addr) = 35 bytes, returned with the call's
    changes. *)
Definition active_pinger_cb (payload : list Z) : prog hstate (list Z) :=
  let payload :=
    if nth 0 payload 0 =? 0 then
      let p := splice 0 (to_varint 1) payload in
      splice 5 (set_address (slice 5 26 p) (external_addr E)) p
    else payload in
  let payload := splice 1 (le_bytes 4 (now E)) payload in
  do! append_for_write (get_message (sha E) (magic E) (text "addr") payload) in
  do! upd (fun h => with_timers (timer h) (Some (Z.max 5 (randping E))) h) in
  ret payload.

(** ** Making handlers *)

(** handler::handler on the descriptor [f] *)
Definition handler_ctor (f a_state : Z) (remote local : list Z) (k : sock) : prog globals handler := fun g =>
  let id := id_pool g in
  let h0 := Handler (Reader (read_buffer_ctor (page E) 0) k) write_buffer_ctor remote local (u32 (now E)) a_state 0
              (EvIo (-1) ev_NONE false) None (u32 (now E)) None id in
  let body : prog hstate unit :=
    do! (if a_state =? SEND_VERSION_INIT then
           do! upd (with_io ev_WRITE (EvIo f ev_WRITE false)) in
           let! m := version_message (external_addr E) remote in
           do! log (LMsg id true (ztake (PACKED_MESSAGE + msg_length m) m)) in
           do! zoom (fun s => h_write (this s)) (fun w s => HState (with_write w (this s)) (active s) (glob s))
                 (append_bytes (page E) (ztake (PACKED_MESSAGE + msg_length m) m)) in
           log_conn CONNECT_SUCCESS []
         else if a_state =? RECV_VERSION_REPLY_HDR then
           do! upd (with_io ev_READ (EvIo f ev_READ false)) in
           do! on_rdr (set_to_read PACKED_MESSAGE) in
           log_conn ACCEPT_SUCCESS []
         else ret tt) in
    let! s := get in
    do! assert (0 <? fd (h_io (this s))) in
    upd (fun h => with_io (io_events h) (io_start (h_io h)) h) in
  match body (HState h0 false (with_pool (u32 (id + 1)) g)) with
  | Ret _ s => Ret (this s) (glob s)
  | Raise e s => Raise e (glob s)
  | Fault x => Fault x
  end.

(** g_active_handlers.insert(make_pair(h->get_id(), move(h))). If the id is
    taken the new handler is destroyed, its destructor erases the old entry of
    the id, and that one's destructor erases it once more. *)
Definition insert_handler (h : handler) : prog globals unit :=
  fun g => match g_active_handlers g !! h_id h with
           | Some _ => Fault UseAfterFree
           | None => Ret tt (with_handlers (<[h_id h := h]> (g_active_handlers g)) (g_inactive_handlers g) g)
           end.

(** Run a callback of the active handler [id]. *)
Definition on_active {A} (id : Z) (c : prog hstate A) : prog globals A := fun g =>
  match g_active_handlers g !! id with
  | None => Fault UseAfterFree
  | Some h =>
      let back s :=
        let g := glob s in
        if active s then with_handlers (<[id := this s]> (g_active_handlers g)) (g_inactive_handlers g) g
        else with_handlers (g_active_handlers g) (g_inactive_handlers g ++ [this s]) g in
      match c (HState h true (with_handlers (delete id (g_active_handlers g)) (g_inactive_handlers g) g)) with
      | Ret a s => Ret a (back s)
      | Raise e s => Raise e (back s)
      | Fault f => Fault f
      end
  end.
End Handler.

(** ** connect_handler and accept_handler *)

Record connect_handler := ConnectHandler { c_remote : list Z; c_io : evio }.

(** The objects by address, g_inactive_connection_handlers and g_blacklist. *)
Record net := Net {
  gl : globals;
  conns : gmap Z connect_handler;
  g_inactive_connection_handlers : list Z;
  g_blacklist : list (list Z) }.

Definition on_gl {A} (c : prog globals A) : prog net A :=
  zoom gl (fun g n => Net g (conns n) (g_inactive_connection_handlers n) (g_blacklist n)) c.
Definition set_conn (p : Z) (c : connect_handler) : prog net unit :=
  modify (fun n => Net (gl n) (<[p := c]> (conns n)) (g_inactive_connection_handlers n) (g_blacklist n)).
Definition conn_at (p : Z) : prog net connect_handler := fun n => deref UseAfterFree (conns n !! p) n.
Definition net_log (e : log_event) : prog net unit := on_gl (modify (fun g => with_log (g_log g ++ [e]) g)).
Definition net_close (f : Z) : prog net unit := on_gl (modify (fun g => with_closed (g_closed g ++ [f]) g)).

(** connect_handler::~connect_handler *)
Definition delete_conn (p : Z) : prog net unit :=
  let! c := conn_at p in
  do! assert (negb (io_on (c_io c))) in
  modify (fun n => Net (gl n) (delete p (conns n)) (g_inactive_connection_handlers n) (g_blacklist n)).

Fixpoint delete_conns (ps : list Z) : prog net unit :=
  match ps with
  | [] => ret tt
  | p :: ps => do! delete_conn p in delete_conns ps
  end.

(** The clean-up loop over g_inactive_connection_handlers and clear(). *)
Definition reap_conns : prog net unit :=
  let! n := get in
  do! delete_conns (g_inactive_connection_handlers n) in
  modify (fun n => Net (gl n) (conns n) [] (g_blacklist n)).

Definition mark_inactive (p : Z) : prog net unit :=
  modify (fun n => Net (gl n) (conns n) (g_inactive_connection_handlers n ++ [p]) (g_blacklist n)).

Section Connect.
Context (E : env) (strerror : Z -> list Z).

(** connect_handler::setup_handler; [sockname] is getsockname's result. *)
Definition setup_handler (remote : list Z) (f : Z) (k : sock) (sockname : list Z + Z) : prog net unit :=
  let! local := match sockname with
                | inl a => ret a
                | inr e => do! net_log (LText ERROR [strerror e]) in ret (zrep SOCKADDR_STORAGE 0)
                end in
  let! h := on_gl (handler_ctor E f SEND_VERSION_INIT remote local k) in
  on_gl (insert_handler h).

(** The record of a failed connection: local is zero but for the family. *)
Definition log_connect_failure (remote err : list Z) : prog net unit :=
  net_log (LConn CONNECT_FAILURE 0 remote (splice 0 (slice 0 2 remote) (zrep SOCKADDR_STORAGE 0)) (err ++ [0])).

(** connect_handler::connect_handler at the address [p]; [r] is connect's
    result: success or errno. *)
Definition connect_ctor (p f : Z) (remote : list Z) (k : sock) (r : unit + Z) (sockname : list Z + Z) : prog net unit :=
  do! set_conn p (ConnectHandler remote (EvIo (-1) ev_NONE false)) in
  do! reap_conns in
  let! n := get in
  let! err :=
    (if count (g_blacklist n) remote then ret (Some (text "BLACKLISTED"))
     else match r with
          | inl _ =>
              do! net_log (LText DEBUG [text "No need to do non-blocking connect, setup was instant"]) in
              do! setup_handler remote f k sockname in
              do! mark_inactive p in
              ret None
          | inr e =>
              if (e =? EINPROGRESS) || (e =? EALREADY) then
                do! set_conn p (ConnectHandler remote (io_start (EvIo f ev_WRITE false))) in
                ret None
              else ret (Some (strerror e))
          end) in
  match err with
  | Some err =>
      do! net_close f in
      do! log_connect_failure remote err in
      mark_inactive p
  | None => ret tt
  end.

(** connect_handler::io_cb *)
Definition connect_io_cb (p : Z) (k : sock) (r : unit + Z) (sockname : list Z + Z) : prog net unit :=
  let! c := conn_at p in
  let! is_inactive :=
    match r with
    | inl _ =>
        do! setup_handler (c_remote c) (fd (c_io c)) k sockname in
        do! set_conn p (ConnectHandler (c_remote c) (io_set_fd (-1) (io_stop (c_io c)))) in
        ret true
    | inr e =>
        if (e =? EALREADY) || (e =? EINPROGRESS) then ret false
        else
          do! net_close (fd (c_io c)) in
          do! set_conn p (ConnectHandler (c_remote c) (io_set_fd (-1) (io_stop (c_io c)))) in
          do! log_connect_failure (c_remote c) (strerror e) in
          ret true
    end in
  if is_inactive then do! reap_conns in mark_inactive p else ret tt.

Definition accept_quiet (e : Z) : bool :=
  (e =? EWOULDBLOCK) || (e =? EAGAIN) || (e =? ECONNABORTED) || (e =? EINTR).

(** accept_handler::io_cb; [r] is the client and its address, or the errno. *)
Definition accept_io_cb (r : (Z * list Z * sock) + Z) (sockname : list Z + Z) (addr_text : list Z) : prog net unit :=
  match r with
  | inr e =>
      if accept_quiet e then ret tt
      else net_log (LText ERROR [text "accept failure: " ++ strerror e; text "(bitcoin_handler)"; number e])
  | inl (client, addr, k) =>
      let! n := get in
      if count (g_blacklist n) addr then
        do! net_log (LText ERROR [text "Blacklisted ip address attempted to connect"; addr_text]) in
        net_close client
      else
        let! local := match sockname with
                      | inl a => ret a
                      | inr e => do! net_log (LText ERROR [strerror e]) in ret (zrep SOCKADDR_STORAGE 0)
                      end in
        let! h := on_gl (handler_ctor E client RECV_VERSION_REPLY_HDR addr local k) in
        do! on_gl (insert_handler h) in
        on_gl (modify (fun g => with_handlers (g_active_handlers g) [] g))
  end.
End Connect.

(** ** Reading is independent of the reader's buffers

    [blind c]: the program [c] neither looks at nor changes the reader. *)

Definition out_map {S A} (f : S -> S) (o : out S A) : out S A :=
  match o with
  | Ret a s => Ret a (f s)
  | Raise e s => Raise e (f s)
  | Fault x => Fault x
  end.

Definition blind {A} (c : prog hstate A) : Prop := forall r s, c (set_rdr r s) = out_map (set_rdr r) (c s).

Create HintDb blind.

Lemma blind_ret {A} (a : A) : blind (ret a).
Proof. done. Qed.
Lemma blind_crash {A} f : blind (crash (A := A) f).
Proof. done. Qed.
Lemma blind_assert b : blind (assert b).
Proof. by destruct b. Qed.
Lemma blind_updg f : blind (updg f).
Proof. done. Qed.
Lemma blind_bind {A B} (c : prog hstate A) (k : A -> prog hstate B) :
  blind c -> (forall a, blind (k a)) -> blind (bind c k).
Proof. intros Hc Hk r s. unfold bind. rewrite (Hc r s). destruct (c s); simpl; [apply Hk|done..]. Qed.
Lemma blind_get {B} (k : hstate -> prog hstate B) :
  (forall s r, k (set_rdr r s) = k s) -> (forall s, blind (k s)) -> blind (bind get k).
Proof. intros He Hk r s. unfold bind, get. rewrite He. apply Hk. Qed.
Lemma blind_if {A} (b : bool) (c d : prog hstate A) : blind c -> blind d -> blind (if b then c else d).
Proof. by destruct b. Qed.

Definition set_h (r : reader) (h : handler) : handler :=
  Handler r (h_write h) (remote_addr h) (local_addr h) (timestamp h) (h_state h) (io_events h)
    (h_io h) (timer h) (last_activity h) (active_ping_timer h) (h_id h).
Lemma blind_upd f : (forall r h, f (set_h r h) = set_h r (f h)) -> blind (upd f).
Proof. intros Hf r s. unfold upd, modify. simpl. f_equal. f_equal. apply Hf. Qed.

Lemma blind_write {A} (c : prog write_buffer A) :
  blind (zoom (fun s => h_write (this s)) (fun w s => HState (with_write w (this s)) (active s) (glob s)) c).
Proof. intros r s. unfold zoom. simpl. by destruct (c (h_write (this s))). Qed.

#[export] Hint Resolve blind_ret blind_crash blind_assert blind_updg blind_write blind_if : blind.
#[export] Hint Extern 1 (blind (upd _)) => (apply blind_upd; reflexivity) : blind.
#[export] Hint Extern 2 (blind (bind get _)) => (apply blind_get; [reflexivity|intros ?]) : blind.
#[export] Hint Extern 3 (blind (bind _ _)) => (apply blind_bind; [|intros ?]) : blind.

Lemma blind_io_set e : blind (io_set e).
Proof. apply blind_upd. intros r h. simpl. by destruct (e =? io_events h). Qed.
#[export] Hint Resolve blind_io_set : blind.

Section Blind.
Context (E : env).

Lemma blind_log e : blind (log e).
Proof. apply blind_updg. Qed.
Hint Resolve blind_log : blind.

Lemma blind_append m : blind (append_for_write E m).
Proof. unfold append_for_write. auto 20 with blind. Qed.
Lemma blind_append_buf m : blind (append_for_write_buf m).
Proof. unfold append_for_write_buf. auto 20 with blind. Qed.
Lemma blind_pingers : blind (start_pingers E).
Proof. unfold start_pingers. auto 20 with blind. Qed.
Lemma blind_set_recv r : blind (set_recv r).
Proof. unfold set_recv. auto with blind. Qed.
Lemma blind_version f r : blind (version_message E f r).
Proof. unfold version_message. auto 20 with blind. Qed.
Hint Resolve blind_append blind_append_buf blind_pingers blind_set_recv blind_version : blind.

Lemma blind_handle msg : blind (handle_message_recv E msg).
Proof.
  unfold handle_message_recv. apply blind_get; [reflexivity|intros s].
  repeat (apply blind_bind; [auto with blind|intros ?]). repeat apply blind_if; auto with blind.
  destruct (c_str_at 4 msg); auto with blind.
Qed.
End Blind.
