(* ===== verification/BitcoinPeer.v ===== *)
(** * What a bitcoin connection does with the bytes of its peer

    Theorems about the handlers of [BitcoinHandler]: the read callback as a
    protocol machine on the byte stream, the replies it queues, the block height
    it learns, the events it waits for, and what a connection's end leaves. *)

From S2P Require Import Prelude.
From S2P Require Import Bytes.
From S2P Require Import WrappedBuffer.
From S2P Require Import Net.
From S2P Require Import ReadBuffer.
From S2P Require Import WriteBuffer.
From S2P Require Import Sha256.
From S2P Require Import BitcoinWire.
From S2P Require Import Logger.
From S2P Require Import Blacklist.
From S2P Require Import BitcoinHandler.

(** ** The protocol machine *)

(** What is asked of the reader after an item: more bytes of it, a new one, or
    nothing. *)
Inductive ask := More (n : Z) | Anew (n : Z) | Nothing.

Definition asked (a : ask) (r : reader) : reader :=
  match a with More n => extend n r | Anew n => restart n r | Nothing => r end.

Definition is_hdr (st : Z) : bool :=
  (st =? RECV_HEADER) || (st =? RECV_VERSION_INIT_HDR) || (st =? RECV_VERSION_REPLY_HDR).

Section Machine.
Context (E : env).

(** Acting on the item [item], apart from the reader. *)
Definition dispatch (item : list Z) : prog hstate ask :=
  let! s := get in
  let len := msg_length item in
  let st := Z.land (h_state (this s)) RECV_MASK in
  if st =? RECV_HEADER then
    if len =? 0 then do! handle_message_recv E item in ret (Anew PACKED_MESSAGE)
    else do! set_recv RECV_PAYLOAD in ret (More len)
  else if st =? RECV_PAYLOAD then
    do! handle_message_recv E item in do! set_recv RECV_HEADER in ret (Anew PACKED_MESSAGE)
  else if st =? RECV_VERSION_INIT_HDR then do! set_recv RECV_VERSION_INIT in ret (More len)
  else if st =? RECV_VERSION_INIT then
    do! handle_message_recv E item in do! set_recv RECV_HEADER in ret (Anew PACKED_MESSAGE)
  else if st =? RECV_VERSION_REPLY_HDR then do! set_recv RECV_VERSION_REPLY in ret (More len)
  else if st =? RECV_VERSION_REPLY then
    do! handle_message_recv E item in
    let! s := get in
    let! vmsg := version_message E (remote_addr (this s)) (external_addr E) in
    do! append_for_write E vmsg in
    do! append_for_write E (get_message (sha E) (magic E) (text "verack") []) in
    do! start_pingers E in
    do! upd (with_state (Z.lor SEND_VERSION_REPLY RECV_HEADER)) in
    ret (Anew PACKED_MESSAGE)
  else ret Nothing.

Lemma blind_dispatch item : blind (dispatch item).
Proof.
  unfold dispatch. apply blind_get; [reflexivity|intros s].
  repeat apply blind_if; repeat first
    [ apply blind_handle | apply blind_append | apply blind_pingers | apply blind_set_recv | apply blind_version
    | apply blind_get; [reflexivity|intros ?] | apply blind_bind; [|intros ?] | auto with blind; fail ].
Qed.

(** A blind step followed by a change of the reader. *)
Lemma blind_then {A B} (c : prog hstate A) (k : A -> prog hstate B) r s a s' :
  blind c -> c s = Ret a s' -> bind c k (set_rdr r s) = k a (set_rdr r s').
Proof. intros Hb Hc. unfold bind. by rewrite (Hb r s), Hc. Qed.

Lemma set_set r1 r2 s : set_rdr r1 (set_rdr r2 s) = set_rdr r1 s.
Proof. done. Qed.
Lemma set_same s : set_rdr (rdr s) s = s.
Proof. by destruct s as [[]]. Qed.

Lemma rdr_blind {A} (c : prog hstate A) s a s' : blind c -> c s = Ret a s' -> rdr s' = rdr s.
Proof.
  intros Hb Hc. pose proof (Hb (rdr s) s) as H. rewrite set_same, Hc in H. simpl in H. injection H as H.
  by rewrite H.
Qed.

Lemma next_header_spec s :
  0 < zlen (extract_buffer (rdr s)) -> next_header s = Ret tt (set_rdr (restart PACKED_MESSAGE (rdr s)) s).
Proof.
  intros Hb. unfold next_header, on_rdr. erewrite bind_ret by (by eapply zoom_ret, set_cursor_0). done.
Qed.

(** The state flags that [read_full] asserts about. *)
Lemma hdr_flags st :
  (Z.land st RECV_MASK = RECV_PAYLOAD \/ Z.land st RECV_MASK = RECV_VERSION_INIT \/ Z.land st RECV_MASK = RECV_VERSION_REPLY \/
   Z.land st RECV_MASK = 0) ->
  has st (Z.lor RECV_HEADER (Z.lor RECV_VERSION_INIT_HDR RECV_VERSION_REPLY_HDR)) = false.
Proof.
  intros H. unfold has. apply negb_false_iff, Z.eqb_eq.
  change (Z.lor RECV_HEADER (Z.lor RECV_VERSION_INIT_HDR RECV_VERSION_REPLY_HDR)) with (Z.land RECV_MASK 25).
  rewrite Z.land_assoc. by destruct H as [->|[->|[->| ->]]].
Qed.

(** Two of its branches, as programs followed by the reader's change. *)
Lemma full_header buf s a s' :
  (if msg_length buf =? 0 then do! handle_message_recv E buf in ret (Anew PACKED_MESSAGE)
   else do! set_recv RECV_PAYLOAD in ret (More (msg_length buf))) s = Ret a s' ->
  0 <= msg_length buf -> to_read (rdr s) = 0 ->
  (forall s1, rdr s1 = rdr s -> next_header s1 = Ret tt (set_rdr (restart PACKED_MESSAGE (rdr s)) s1)) ->
  (do! on_rdr (set_to_read (msg_length buf)) in
   let! s := get in
   if negb (hungry (rdr s)) then do! handle_message_recv E buf in next_header else set_recv RECV_PAYLOAD) s =
  Ret tt (set_rdr (asked a (rdr s)) s').
Proof.
  intros Hd Hl Ht Hnext. erewrite bind_ret by (unfold on_rdr; by eapply zoom_ret). erewrite bind_ret by done.
  change (rdr (set_rdr _ s)) with (extend (msg_length buf) (rdr s)).
  change (set_rdr _ s) with (set_rdr (extend (msg_length buf) (rdr s)) s).
  unfold hungry. change (to_read (extend (msg_length buf) (rdr s))) with (msg_length buf).
  destruct (Z.eqb_spec (msg_length buf) 0) as [H0|H0].
  - rewrite H0. change (negb (0 <? 0)) with true. cbv iota. assert (extend 0 (rdr s) = rdr s) as ->.
    { unfold extend, to_read in *. destruct (rdr s) as [[] ?]. simpl in *. by subst. }
    rewrite set_same. apply bind_Ret_inv in Hd as ([]&s1&Hh&[= <- <-]). run_step Hh. apply Hnext.
    apply (rdr_blind _ _ _ _ (blind_handle E buf) Hh).
  - destruct (Z.ltb_spec 0 (msg_length buf)); [|lia]. injection Hd as <- <-. done.
Qed.

Lemma full_reply buf s a s' :
  (do! handle_message_recv E buf in
   let! s := get in
   let! vmsg := version_message E (remote_addr (this s)) (external_addr E) in
   do! append_for_write E vmsg in
   do! append_for_write E (get_message (sha E) (magic E) (text "verack") []) in
   do! start_pingers E in
   do! upd (with_state (Z.lor SEND_VERSION_REPLY RECV_HEADER)) in
   ret (Anew PACKED_MESSAGE)) s = Ret a s' ->
  (forall s1, rdr s1 = rdr s -> next_header s1 = Ret tt (set_rdr (restart PACKED_MESSAGE (rdr s)) s1)) ->
  (do! handle_message_recv E buf in
   do! next_header in
   let! s := get in
   let! vmsg := version_message E (remote_addr (this s)) (external_addr E) in
   do! append_for_write E vmsg in
   do! append_for_write E (get_message (sha E) (magic E) (text "verack") []) in
   do! start_pingers E in
   upd (with_state (Z.lor SEND_VERSION_REPLY RECV_HEADER))) s = Ret tt (set_rdr (asked a (rdr s)) s').
Proof.
  intros Hd Hnext. apply bind_Ret_inv in Hd as ([]&s1&Hh&Hd). run_step Hh.
  pose proof (rdr_blind _ _ _ _ (blind_handle E buf) Hh) as H1. erewrite bind_ret by (by apply Hnext).
  erewrite bind_ret in Hd by done. erewrite bind_ret by done.
  apply bind_Ret_inv in Hd as (v&s2&H2&Hd). erewrite blind_then; [|apply blind_version|exact H2].
  apply bind_Ret_inv in Hd as ([]&s3&H3&Hd). erewrite blind_then; [|apply blind_append|exact H3].
  apply bind_Ret_inv in Hd as ([]&s4&H4&Hd). erewrite blind_then; [|apply blind_append|exact H4].
  apply bind_Ret_inv in Hd as ([]&s5&H5&Hd). erewrite blind_then; [|apply blind_pingers|exact H5].
  injection Hd as <- <-. done.
Qed.

(** [read_full] is [dispatch] on the buffer and then what is asked of the
    reader. *)
Lemma read_full_dispatch s a s' :
  dispatch (extract_buffer (rdr s)) s = Ret a s' ->
  PACKED_MESSAGE <= zlen (extract_buffer (rdr s)) -> 0 <= msg_length (extract_buffer (rdr s)) -> to_read (rdr s) = 0 ->
  (is_hdr (Z.land (h_state (this s)) RECV_MASK) = false ->
   PACKED_MESSAGE + msg_length (extract_buffer (rdr s)) <= zlen (extract_buffer (rdr s))) ->
  read_full E s = Ret tt (set_rdr (asked a (rdr s)) s').
Proof.
  intros Hd Hz Hl Ht Hp. unfold read_full. erewrite bind_ret by done.
  set (buf := extract_buffer (rdr s)) in *. unfold assert.
  destruct (Z.leb_spec PACKED_MESSAGE (zlen buf)); [|lia]. erewrite bind_ret by done.
  assert ((if negb (has (h_state (this s)) (Z.lor RECV_HEADER (Z.lor RECV_VERSION_INIT_HDR RECV_VERSION_REPLY_HDR)))
           then if PACKED_MESSAGE + msg_length buf <=? zlen buf then ret tt else crash AssertFailed else ret tt) s = Ret tt s) as Has.
  { destruct (negb _) eqn:Hn; [|done]. destruct (is_hdr (Z.land (h_state (this s)) RECV_MASK)) eqn:Hh.
    - exfalso. revert Hn Hh. unfold has, is_hdr. rewrite negb_involutive. intros Hn Hh. zb.
      assert (Z.land (Z.land (h_state (this s)) RECV_MASK) (Z.lor RECV_HEADER (Z.lor RECV_VERSION_INIT_HDR RECV_VERSION_REPLY_HDR)) = 0) as H0
        by (rewrite <- Z.land_assoc; exact Hn).
      apply orb_true_iff in Hh as [[Hh|Hh]%orb_true_iff|Hh]; zb; rewrite Hh in H0; done.
    - destruct (Z.leb_spec (PACKED_MESSAGE + msg_length buf) (zlen buf)); [done|]. specialize (Hp eq_refl). lia. }
  run_step Has. unfold dispatch in Hd. erewrite bind_ret in Hd by done. clear Has Hp.
  assert (forall s1, rdr s1 = rdr s -> next_header s1 = Ret tt (set_rdr (restart PACKED_MESSAGE (rdr s)) s1)) as Hnext.
  { intros s1 H1. rewrite next_header_spec; rewrite H1; [done|]. unfold buf, PACKED_MESSAGE in *. lia. }
  revert Hd. cbv zeta. fold buf. generalize (Z.land (h_state (this s)) RECV_MASK). intros st Hd.
  destruct (st =? RECV_HEADER); [by apply full_header|].
  destruct (st =? RECV_PAYLOAD).
  { apply bind_Ret_inv in Hd as ([]&s1&Hh&[= <- <-]). run_step Hh.
    pose proof (rdr_blind _ _ _ _ (blind_handle E buf) Hh) as H1. by erewrite bind_ret by (by apply Hnext). }
  destruct (st =? RECV_VERSION_INIT_HDR); [by injection Hd as <- <-|].
  destruct (st =? RECV_VERSION_INIT).
  { apply bind_Ret_inv in Hd as ([]&s1&Hh&[= <- <-]). run_step Hh.
    pose proof (rdr_blind _ _ _ _ (blind_handle E buf) Hh) as H1. erewrite bind_ret by done. by rewrite Hnext. }
  destruct (st =? RECV_VERSION_REPLY_HDR); [by injection Hd as <- <-|].
  destruct (st =? RECV_VERSION_REPLY); [by apply full_reply|].
  injection Hd as <- <-. change (asked Nothing (rdr s)) with (rdr s). by rewrite set_same.
Qed.

(** ** The item is all that matters of the buffer *)

Lemma until_nul_app bs t str : until_nul bs = Some str -> until_nul (bs ++ t) = Some str.
Proof.
  revert str. induction bs as [|b bs IH]; intros str; simpl; [done|]. destruct (b =? 0); [done|].
  destruct (until_nul bs) as [r|]; [|done]. simpl. by rewrite (IH r).
Qed.

Lemma msg_length_app m t : PACKED_MESSAGE <= zlen m -> msg_length (m ++ t) = msg_length m.
Proof. unfold PACKED_MESSAGE. intros. unfold msg_length. by rewrite slice_app_l by lia. Qed.

Lemma streq_app p t x : zlen (text x) + 1 <= zlen p -> streq (p ++ t) x = streq p x.
Proof. intros. unfold streq. by rewrite ztake_app_l. Qed.
Lemma strneq_app p t x : zlen (text x) <= zlen p -> strneq (p ++ t) x = strneq p x.
Proof. intros. unfold strneq. by rewrite ztake_app_l. Qed.

Lemma handle_prefix item t s s' :
  zlen item = PACKED_MESSAGE + msg_length item ->
  handle_message_recv E item s = Ret tt s' -> handle_message_recv E (item ++ t) s = Ret tt s'.
Proof.
  intros Hz. pose proof (msg_length_range item). assert (PACKED_MESSAGE <= zlen item) as H24 by lia.
  unfold PACKED_MESSAGE in *. unfold handle_message_recv. rewrite msg_length_app by done. unfold PACKED_MESSAGE.
  rewrite <- Hz. rewrite zlen_app, (ztake_app_exact (zlen item)) by done. rewrite (ztake_all (zlen item)) by lia.
  erewrite !(bind_ret get) by done. pose proof (zlen_nonneg t).
  destruct (Z.ltb_spec (zlen item) (zlen item)); [lia|]. destruct (Z.ltb_spec (zlen item + zlen t) (zlen item)); [lia|].
  erewrite !(bind_ret (ret tt)) by done. erewrite !(bind_ret (log _)) by done.
  rewrite zdrop_app_l by lia.
  rewrite !streq_app by (rewrite zlen_zdrop; vm_compute (zlen (text _)); lia).
  rewrite strneq_app by (rewrite zlen_zdrop; vm_compute (zlen (text _)); lia).
  destruct (streq (zdrop 4 item) "ping"); [done|]. destruct (streq (zdrop 4 item) "getblocks"); [done|].
  destruct (strneq (zdrop 4 item) "ver"); [|done].
  rewrite app_nth1 by (unfold zdrop, zlen in *; rewrite length_drop; lia).
  destruct (_ =? 97); [done|]. destruct (_ =? 115).
  - by rewrite slice_app_l by lia.
  - unfold c_str_at. rewrite zdrop_app_l by lia. destruct (until_nul (zdrop 4 item)) as [str|] eqn:Hu; [|done].
    by rewrite (until_nul_app _ t _ Hu).
Qed.

(** An item that is complete for the state [st]. *)
Definition complete (st : Z) (item : list Z) : Prop :=
  if is_hdr st then zlen item = PACKED_MESSAGE else zlen item = PACKED_MESSAGE + msg_length item.

Lemma dispatch_prefix item t s a s' :
  complete (Z.land (h_state (this s)) RECV_MASK) item ->
  dispatch item s = Ret a s' -> dispatch (item ++ t) s = Ret a s'.
Proof.
  unfold complete, is_hdr, dispatch. intros Hz. erewrite !(bind_ret get) by done. cbv zeta.
  revert Hz. generalize (Z.land (h_state (this s)) RECV_MASK). intros st Hz.
  assert (PACKED_MESSAGE <= zlen item) as H24.
  { pose proof (msg_length_range item). destruct (_ || _); lia. }
  rewrite msg_length_app by done.
  assert (forall c : prog hstate ask, zlen item = PACKED_MESSAGE + msg_length item ->
    (do! handle_message_recv E item in c) s = Ret a s' -> (do! handle_message_recv E (item ++ t) in c) s = Ret a s') as Hh.
  { intros c Hc Hd. apply bind_Ret_inv in Hd as ([]&s1&H1&H2). by erewrite bind_ret by (by apply handle_prefix). }
  revert Hz. destruct (Z.eqb_spec st RECV_HEADER); simpl.
  { intros Hz. destruct (Z.eqb_spec (msg_length item) 0); [|done]. apply Hh. lia. }
  destruct (Z.eqb_spec st RECV_PAYLOAD) as [->|]; [simpl; apply Hh|].
  destruct (Z.eqb_spec st RECV_VERSION_INIT_HDR); [done|].
  destruct (Z.eqb_spec st RECV_VERSION_INIT) as [->|]; [simpl; apply Hh|].
  destruct (Z.eqb_spec st RECV_VERSION_REPLY_HDR); [done|].
  destruct (Z.eqb_spec st RECV_VERSION_REPLY) as [->|]; [simpl; apply Hh|done].
Qed.
End Machine.

(** ** Flags *)

(** The receive flags of a connection. *)
Definition mode (s : hstate) : Z := Z.land (h_state (this s)) RECV_MASK.

Lemma recv_of_set x r : Z.land r RECV_MASK = r -> Z.land (Z.lor (Z.land x SEND_MASK) r) RECV_MASK = r.
Proof. intros Hr. rewrite Z.land_lor_distr_l, <- Z.land_assoc. change (Z.land SEND_MASK RECV_MASK) with 0. by rewrite Z.land_0_r, Hr. Qed.

Lemma recv_of_send x : Z.land (Z.lor x SEND_MESSAGE) RECV_MASK = Z.land x RECV_MASK.
Proof. rewrite Z.land_lor_distr_l. change (Z.land SEND_MESSAGE RECV_MASK) with 0. apply Z.lor_0_r. Qed.

Section KeepsRules.
Context {T : Type} (f : hstate -> T).

Lemma keeps_upd u : (forall h a g, f (HState (u h) a g) = f (HState h a g)) -> keeps f (upd u).
Proof. intros Hf [h a g] x s' [= _ <-]. apply Hf. Qed.
Lemma keeps_updg u : (forall h a g, f (HState h a (u g)) = f (HState h a g)) -> keeps f (updg u).
Proof. intros Hf [h a g] x s' [= _ <-]. apply Hf. Qed.
Lemma keeps_write {A} (c : prog write_buffer A) :
  (forall w h a g, f (HState (with_write w h) a g) = f (HState h a g)) ->
  keeps f (zoom (fun s => h_write (this s)) (fun w s => HState (with_write w (this s)) (active s) (glob s)) c).
Proof. intros Hf [h a g] x s' H. unfold zoom in H. destruct (c _); [|done..]. injection H as _ <-. apply Hf. Qed.
End KeepsRules.

#[export] Hint Extern 1 (keeps _ (upd _)) =>
  (apply keeps_upd; intros; first [reflexivity | apply recv_of_send]) : keeps.
#[export] Hint Extern 1 (keeps _ (updg _)) =>
  (apply keeps_updg; intros; first [reflexivity | destruct (_ || _); reflexivity | destruct (_ && _); reflexivity]) : keeps.
#[export] Hint Extern 1 (keeps _ (zoom _ _ _)) => (apply keeps_write; reflexivity) : keeps.
#[export] Hint Extern 1 (keeps _ (log _)) => (apply keeps_updg; reflexivity) : keeps.
#[export] Hint Extern 1 (keeps _ (io_set _)) =>
  (apply keeps_upd; intros; destruct (_ =? _); reflexivity) : keeps.

Section Keeps.
Context (E : env).

Lemma keeps_append m : keeps mode (append_for_write E m).
Proof. unfold append_for_write. auto 20 with keeps. Qed.
Lemma keeps_append_buf m : keeps mode (append_for_write_buf m).
Proof. unfold append_for_write_buf. auto 20 with keeps. Qed.
Lemma keeps_pingers : keeps mode (start_pingers E).
Proof. unfold start_pingers. auto 20 with keeps. Qed.
Hint Resolve keeps_append keeps_append_buf keeps_pingers : keeps.

Lemma keeps_handle msg : keeps mode (handle_message_recv E msg).
Proof.
  unfold handle_message_recv. repeat (apply keeps_bind; [auto with keeps|intros ?]).
  repeat apply keeps_if; auto with keeps.
  destruct (c_str_at 4 msg); auto with keeps.
Qed.

(** Queueing a message changes nothing of the globals but the log. *)
Definition height (s : hstate) : Z := g_last_block (glob s).

Lemma height_append m : keeps height (append_for_write E m).
Proof. unfold append_for_write. auto 20 with keeps. Qed.
Lemma height_append_buf m : keeps height (append_for_write_buf m).
Proof. unfold append_for_write_buf. auto 20 with keeps. Qed.
Lemma height_pingers : keeps height (start_pingers E).
Proof. unfold start_pingers. auto 20 with keeps. Qed.
End Keeps.

(** ** The read callback as a protocol machine *)

(** The connection without its reader. *)
Definition no_reader : reader := Reader (ReadBuffer 0 0 [] [] 0 0) (Sock [] [] [] 0).
Definition rest (s : hstate) : hstate := set_rdr no_reader s.

Definition receiving (st : Z) : bool :=
  is_hdr st || (st =? RECV_PAYLOAD) || (st =? RECV_VERSION_INIT) || (st =? RECV_VERSION_REPLY).

(** What the machine does with a completed item. *)
Definition peer_full (E : env) (m : hstate) (item : list Z) : option (config (M := hstate)) :=
  match dispatch E item m with
  | Ret (More n) m' => Some (m', item, n)
  | Ret (Anew n) m' => Some (m', [], n)
  | Ret Nothing m' => Some (m', item, 0)
  | _ => None
  end.

(** An item being read: a header, or a header and its payload. *)
Definition peer_item (c : config (M := hstate)) : Prop :=
  let '(m, acc, need) := c in
  0 <= need /\ receiving (mode m) = true /\
  (if is_hdr (mode m) then zlen acc + need = PACKED_MESSAGE
   else PACKED_MESSAGE <= zlen acc /\ zlen acc + need = PACKED_MESSAGE + msg_length acc).

Definition peer_rel (s m : hstate) : Prop := rest s = m.

Lemma peer_rel_reader s m r : peer_rel s m -> peer_rel (set_rdr r s) m.
Proof. done. Qed.

Lemma peer_item_more m acc need bs :
  peer_item (m, acc, need) -> zlen bs <= need -> peer_item (m, acc ++ bs, need - zlen bs).
Proof.
  intros (Hn&Hr&Hi) Hb. unfold peer_item. pose proof (zlen_nonneg bs). rewrite zlen_app.
  destruct (is_hdr (mode m)); [split_and!; try done; lia|]. destruct Hi as [H24 Hi].
  rewrite msg_length_app by done. split_and!; try done; lia.
Qed.

Section Peer.
Context (E : env).

(** After an item the machine is ready for another. *)
Lemma dispatch_item m item a m' :
  peer_item (m, item, 0) -> dispatch E item m = Ret a m' ->
  match a with
  | More n => peer_item (m', item, n) /\ 0 <= n < 2 ^ 32
  | Anew n => peer_item (m', [], n) /\ n = PACKED_MESSAGE
  | Nothing => False
  end.
Proof.
  intros (_&Hr&Hi) Hd. unfold dispatch in Hd. erewrite (bind_ret get) in Hd by done. cbv zeta in Hd.
  fold (mode m) in Hd. pose proof (msg_length_range item).
  assert (forall m' r, mode m' = r -> is_hdr r = true -> peer_item (m', [], PACKED_MESSAGE) /\ PACKED_MESSAGE = PACKED_MESSAGE) as Hnew.
  { intros m1 r Hm1 Hh. split; [|done]. unfold peer_item, receiving. rewrite Hm1, Hh. by split_and!; [vm_compute|..]. }
  assert (forall m1 r, mode m1 = r -> is_hdr r = false -> receiving r = true -> zlen item = PACKED_MESSAGE ->
    peer_item (m1, item, msg_length item) /\ 0 <= msg_length item < 2 ^ 32) as Hmore.
  { intros m1 r Hm1 Hh Hrr Hz. split; [|done]. unfold peer_item. rewrite Hm1, Hh, Hrr. split_and!; try done; lia. }
  assert (forall r s1, Z.land r RECV_MASK = r -> forall s2 b, (do! set_recv r in ret b) s1 = Ret a s2 -> mode s2 = r /\ a = b) as Hset.
  { intros r s1 Hrr s2 b [= <- <-]. split; [|done]. unfold mode. simpl. by apply recv_of_set. }
  revert Hr Hi Hd. destruct (Z.eqb_spec (mode m) RECV_HEADER) as [Hm|].
  { rewrite Hm. intros _ Hz Hd. destruct (Z.eqb_spec (msg_length item) 0).
    - apply bind_Ret_inv in Hd as ([]&s1&Hh&[= <- <-]). apply (Hnew _ RECV_HEADER); [|done].
      by rewrite (keeps_handle E item _ _ _ Hh).
    - apply Hset in Hd as [Hm' ->]; [|done]. apply (Hmore _ RECV_PAYLOAD); try done. simpl in Hz. lia. }
  destruct (Z.eqb_spec (mode m) RECV_PAYLOAD) as [Hm|].
  { intros _ _ Hd. apply bind_Ret_inv in Hd as ([]&s1&_&Hd). apply Hset in Hd as [Hm' ->]; [|done]. by apply (Hnew _ RECV_HEADER). }
  destruct (Z.eqb_spec (mode m) RECV_VERSION_INIT_HDR) as [Hm|].
  { rewrite Hm. intros _ Hz Hd. apply Hset in Hd as [Hm' ->]; [|done]. apply (Hmore _ RECV_VERSION_INIT); try done. simpl in Hz. lia. }
  destruct (Z.eqb_spec (mode m) RECV_VERSION_INIT) as [Hm|].
  { intros _ _ Hd. apply bind_Ret_inv in Hd as ([]&s1&_&Hd). apply Hset in Hd as [Hm' ->]; [|done]. by apply (Hnew _ RECV_HEADER). }
  destruct (Z.eqb_spec (mode m) RECV_VERSION_REPLY_HDR) as [Hm|].
  { rewrite Hm. intros _ Hz Hd. apply Hset in Hd as [Hm' ->]; [|done]. apply (Hmore _ RECV_VERSION_REPLY); try done. simpl in Hz. lia. }
  destruct (Z.eqb_spec (mode m) RECV_VERSION_REPLY) as [Hm|].
  { intros _ _ Hd. apply bind_Ret_inv in Hd as ([]&s1&_&Hd). erewrite (bind_ret get) in Hd by done.
    apply bind_Ret_inv in Hd as (v&s2&_&Hd). apply bind_Ret_inv in Hd as ([]&s3&_&Hd).
    apply bind_Ret_inv in Hd as ([]&s4&_&Hd). apply bind_Ret_inv in Hd as ([]&s5&_&[= <- <-]). by apply (Hnew _ RECV_HEADER). }
  unfold receiving, is_hdr. intros Hr. exfalso. revert Hr. repeat (zcase; [done|]). simpl. done.
Qed.

Lemma read_full_ok s m item c :
  at_config peer_rel peer_item s (m, item, 0) -> item <> [] -> peer_full E m item = Some c ->
  exists s', read_full E s = Ret tt s' /\ at_config peer_rel peer_item s' c /\
             stream (rdr s') = stream (rdr s) /\ sk (rdr s') = sk (rdr s).
Proof.
  intros (HR&HW&HP&Hc&Ht) _ Hf. unfold peer_full in Hf.
  destruct (dispatch E item m) as [a m'| |] eqn:Hd; [|done..]. pose proof (dispatch_item m item a m' HP Hd) as Hitem.
  assert (s = set_rdr (rdr s) m) as Hs by (rewrite <- HR; unfold rest; by rewrite set_set, set_same).
  assert (mode s = mode m) as Hmd by (by rewrite Hs).
  destruct HP as (_&Hr&Hi). rewrite !Z.add_0_r in Hi.
  assert (complete (mode s) item) as Hcomp by (unfold complete; rewrite Hmd; destruct (is_hdr (mode m)); [done|by destruct Hi]).
  assert (PACKED_MESSAGE <= zlen item) as H24 by (pose proof (msg_length_range item); destruct (is_hdr (mode m)); [|destruct Hi]; lia).
  assert (extract_buffer (rdr s) = item ++ zdrop (cursor (rdr s)) (extract_buffer (rdr s))) as Hbuf.
  { rewrite <- Hc. unfold consumed. by rewrite ztake_zdrop. }
  assert (dispatch E item s = Ret a (set_rdr (rdr s) m')) as Hds by (rewrite Hs at 1; by rewrite (blind_dispatch E item (rdr s) m), Hd).
  apply (dispatch_prefix E item (zdrop (cursor (rdr s)) (extract_buffer (rdr s)))) in Hds; [|exact Hcomp]. rewrite <- Hbuf in Hds.
  pose proof (consumed_fits _ HW) as Hfit. rewrite Hc in Hfit.
  assert (msg_length (extract_buffer (rdr s)) = msg_length item) as Hml by (rewrite Hbuf; by apply msg_length_app).
  pose proof (msg_length_range item) as Hrange.
  apply read_full_dispatch in Hds as Hrf; [|lia|lia|done|].
  2: { fold (mode s). rewrite Hmd, Hml. intros Hh. rewrite Hh in Hi. destruct Hi. lia. }
  rewrite set_set in Hrf. eexists. split; [exact Hrf|].
  assert (rest m' = m') as Hrest.
  { unfold rest. pose proof (rdr_blind _ _ _ _ (blind_dispatch E item) Hd) as Hrd. rewrite <- HR in Hrd.
    change (rdr (rest s)) with no_reader in Hrd. rewrite <- Hrd. apply set_same. }
  assert (zlen item = cursor (rdr s)) as Hcur by (rewrite <- Hc; by apply zlen_consumed).
  destruct a as [n|n|]; [| |done]; destruct Hitem as [Hit Hn]; simplify_eq.
  - destruct (extend_ok n (rdr s) HW) as [HW' Hc']; [lia|destruct (is_hdr (mode m)); [|destruct Hi]; unfold PACKED_MESSAGE in *; lia|].
    split; [|done]. unfold at_config. rewrite rdr_set. split_and!; try done. 
  - destruct (restart_ok PACKED_MESSAGE (rdr s) HW) as [HW' Hc']; [done|].
    split; [|done]. unfold at_config. rewrite rdr_set. split_and!; done.
Qed.
End Peer.

(** ** Queueing messages *)

(** The environment the connector runs in. *)
Record env_ok (E : env) : Prop := {
  ok_page : 0 < page E <= 2 ^ 62;
  ok_magic : 0 <= magic E < 2 ^ 32;
  ok_agent : zlen (user_agent E) < 2 ^ 16;
  ok_external : zlen (external_addr E) = SOCKADDR_STORAGE;
  ok_junk : forall n, 0 <= n -> zlen (junk E n) = n }.

(** The handler after [m] was queued with the queue then [w]. *)
Definition queued (w : write_buffer) (h : handler) : handler :=
  let h1 := with_write w h in
  let h2 := if has (h_state h) SEND_MASK then h1
            else let e := Z.lor ev_WRITE (if has (h_state h) RECV_MASK then ev_READ else ev_NONE) in
                 if e =? io_events h then h1 else with_io e (io_set_events e (h_io h)) h1 in
  with_state (Z.lor (h_state h) SEND_MESSAGE) h2.

Lemma queued_fields w h :
  has (h_state h) SEND_MASK = false -> Z.land (h_state h) RECV_MASK <> 0 ->
  h_write (queued w h) = w /\ h_state (queued w h) = Z.lor (h_state h) SEND_MESSAGE /\
  io_events (queued w h) = Z.lor ev_WRITE ev_READ.
Proof.
  intros Hs Hr. unfold queued. rewrite Hs. assert (has (h_state h) RECV_MASK = true) as ->
    by (unfold has; by apply negb_true_iff, Z.eqb_neq).
  by destruct (Z.eqb_spec (Z.lor ev_WRITE ev_READ) (io_events h)).
Qed.

Lemma send_of_set x r : has (Z.lor (Z.land (Z.lor x SEND_MESSAGE) SEND_MASK) r) SEND_MESSAGE = true.
Proof.
  unfold has. apply negb_true_iff, Z.eqb_neq. rewrite Z.land_lor_distr_l, <- Z.land_assoc.
  change (Z.land SEND_MASK SEND_MESSAGE) with SEND_MESSAGE. intros [H _]%Z.lor_eq_0_iff.
  rewrite Z.land_lor_distr_l in H. by apply Z.lor_eq_0_iff in H as [_ H].
Qed.

(** A whole message: header and payload, nothing else. *)
Definition whole (m : list Z) : Prop := zlen m = PACKED_MESSAGE + msg_length m.

Lemma append_spec E m s :
  0 < page E <= 2 ^ 62 -> QWF (h_write (this s)) -> whole m ->
  exists w, append_for_write E m s =
    Ret tt (HState (queued w (this s)) (active s)
              (with_log (BitcoinHandler.g_log (glob s) ++ [LMsg (h_id (this s)) true m]) (glob s))) /\
    QWF w /\ unsent w = unsent (h_write (this s)) ++ m.
Proof.
  intros Hp HQ Hw. pose proof (msg_length_range m) as Hr. unfold append_for_write.
  erewrite (bind_ret get) by done. destruct (Z.ltb_spec (zlen m) (PACKED_MESSAGE + msg_length m)); [unfold whole in Hw; lia|].
  erewrite (bind_ret (ret tt)) by done. rewrite <- Hw, ztake_all by lia. erewrite (bind_ret (log _)) by done.
  destruct (append_bytes_spec (page E) Hp (h_write (this s)) m HQ) as (w&Hr1&HQ'&Hu); [unfold whole, PACKED_MESSAGE in Hw; lia|].
  erewrite bind_ret by (eapply zoom_ret, Hr1). exists w. split; [|done].
  unfold queued, io_set, upd, modify, bind, ret. simpl. destruct (has (h_state (this s)) SEND_MASK); simpl; [done|].
  by destruct (_ =? _).
Qed.

Lemma append_wrapped_spec m s :
  QWF (h_write (this s)) -> whole m ->
  exists w, append_for_write_buf m s =
    Ret tt (HState (queued w (this s)) (active s)
              (with_log (BitcoinHandler.g_log (glob s) ++ [LMsg (h_id (this s)) true m]) (glob s))) /\
    QWF w /\ unsent w = unsent (h_write (this s)) ++ m.
Proof.
  intros HQ Hw. pose proof (msg_length_range m) as Hr. unfold append_for_write_buf.
  erewrite (bind_ret get) by done. rewrite <- Hw, ztake_all by lia. erewrite (bind_ret (log _)) by done.
  destruct (append_buffer_spec (h_write (this s)) m (zlen m) HQ) as (w&Hr1&HQ'&Hu); [unfold whole, PACKED_MESSAGE in Hw; lia|].
  erewrite bind_ret by (eapply zoom_ret, Hr1). exists w. rewrite ztake_all in Hu by lia. split; [|done].
  unfold queued, io_set, upd, modify, bind, ret. simpl. destruct (has (h_state (this s)) SEND_MASK); simpl; [done|].
  by destruct (_ =? _).
Qed.

(** Messages we build are whole. *)
Lemma get_message_whole hash mg cmd p : 0 <= mg < 2 ^ 32 -> zlen p < 2 ^ 32 -> whole (get_message hash mg cmd p).
Proof. intros Hm Hp. destruct (get_message_fields hash mg cmd p Hm Hp) as (Hz&_&_&Hl&_). unfold whole. by rewrite Hl. Qed.

(** The pong for a ping. *)
Definition pong_of (msg : list Z) : list Z := splice 5 (text "o") msg.

Lemma pong_whole msg : whole msg -> whole (pong_of msg) /\ zlen (pong_of msg) = zlen msg.
Proof.
  intros Hw. pose proof (msg_length_range msg). unfold whole, PACKED_MESSAGE in *.
  assert (zlen (pong_of msg) = zlen msg) as Hz by (apply zlen_splice; change (zlen (text "o")) with 1; lia).
  split; [|done]. unfold PACKED_MESSAGE. rewrite Hz, Hw. f_equal. unfold msg_length, pong_of.
  rewrite slice_splice_after by (change (zlen (text "o")) with 1; lia). done.
Qed.

Section Handling.
Context (E : env) (HE : env_ok E).

Lemma handle_prologue msg s (k : prog hstate unit) :
  whole msg ->
  (let! s0 := get in
   do! (if zlen msg <? PACKED_MESSAGE + msg_length msg then crash OutOfBounds else ret tt) in
   do! log (LMsg (h_id (this s0)) false (ztake (PACKED_MESSAGE + msg_length msg) msg)) in k) s =
  k (HState (this s) (active s) (with_log (BitcoinHandler.g_log (glob s) ++ [LMsg (h_id (this s)) false msg]) (glob s))).
Proof.
  intros Hw. erewrite (bind_ret get) by done. rewrite <- Hw. rewrite Z.ltb_irrefl. erewrite (bind_ret (ret tt)) by done.
  by rewrite ztake_all by lia.
Qed.

(** A ping is answered with itself, renamed. *)
Lemma handle_ping msg s :
  whole msg -> QWF (h_write (this s)) -> streq (zdrop 4 msg) "ping" = true ->
  exists w, handle_message_recv E msg s =
    Ret tt (HState (queued w (this s)) (active s)
      (with_log (BitcoinHandler.g_log (glob s) ++ [LMsg (h_id (this s)) false msg; LMsg (h_id (this s)) true (pong_of msg)]) (glob s))) /\
    QWF w /\ unsent w = unsent (h_write (this s)) ++ pong_of msg.
Proof.
  intros Hw HQ Hp. unfold handle_message_recv. rewrite handle_prologue by done. rewrite Hp.
  destruct (pong_whole msg Hw) as [Hpw Hpz]. pose proof (msg_length_range msg) as Hr. unfold whole in Hw.
  set (n := PACKED_MESSAGE + msg_length msg) in *. rewrite <- Hw.
  assert (exists t, splice 5 (text "o") (splice 0 (ztake (zlen msg) msg) (vb_new (page E) (zlen msg))) = pong_of msg ++ t) as [t Ht].
  { rewrite ztake_all by lia. exists (zdrop (zlen msg) (vb_new (page E) (zlen msg))).
    unfold pong_of, splice. rewrite (ztake_neg 0) by lia. simpl app. unfold n, PACKED_MESSAGE in Hw.
    rewrite ztake_app_l by lia. rewrite zdrop_app_l by (change (zlen (text "o")) with 1; lia). by rewrite <- !app_assoc. }
  rewrite Ht. set (s1 := HState _ _ _).
  unfold append_for_write_buf. erewrite (bind_ret get) by done.
  assert (PACKED_MESSAGE <= zlen (pong_of msg)) as H24 by (rewrite Hpz; unfold n in Hw; lia).
  rewrite msg_length_app by done. rewrite <- Hpw. rewrite ztake_app_exact by done. erewrite (bind_ret (log _)) by done.
  destruct (append_buffer_spec (h_write (this s)) (pong_of msg ++ t) (zlen (pong_of msg)) HQ) as (w&Hr1&HQ'&Hu).
  { rewrite zlen_app. pose proof (zlen_nonneg t). unfold PACKED_MESSAGE in *. lia. }
  erewrite bind_ret by (eapply zoom_ret, Hr1). exists w. rewrite ztake_app_exact in Hu by done. split; [|done].
  unfold queued, io_set, upd, modify, bind, ret, s1, with_log. simpl. rewrite <- app_assoc.
  destruct (has (h_state (this s)) SEND_MASK); simpl; [done|]. by destruct (_ =? _).
Qed.
End Handling.

(** ** One message, byte by byte *)

Lemma feed_message E m msg :
  mode m = RECV_HEADER -> whole msg ->
  feed (peer_full E) (m, [], PACKED_MESSAGE) msg =
  if msg_length msg =? 0 then peer_full E m msg
  else peer_full E (HState (with_state (Z.lor (Z.land (h_state (this m)) SEND_MASK) RECV_PAYLOAD) (this m)) (active m) (glob m)) msg.
Proof.
  intros Hm Hw. pose proof (msg_length_range msg) as Hr. unfold whole, PACKED_MESSAGE in *.
  destruct (Z.eqb_spec (msg_length msg) 0) as [H0|H0].
  - replace 24 with (zlen msg) by lia. by rewrite feed_full by lia.
  - rewrite <- (ztake_zdrop 24 msg) at 1. rewrite feed_app.
    assert (zlen (ztake 24 msg) = 24) as Hz by (rewrite zlen_ztake; lia).
    rewrite <- Hz at 1. rewrite feed_full by lia. simpl app.
    assert (msg_length (ztake 24 msg) = msg_length msg) as Hl.
    { unfold msg_length. rewrite <- (ztake_zdrop 24 msg) at 2. by rewrite slice_app_l by lia. }
    unfold peer_full at 1, dispatch. unfold mode in Hm. erewrite (bind_ret get) by done. cbv zeta. rewrite Hm.
    change (RECV_HEADER =? RECV_HEADER) with true. cbv iota. rewrite Hl. destruct (Z.eqb_spec (msg_length msg) 0); [done|].
    erewrite (bind_ret (set_recv _)) by done. unfold ret at 1. cbv iota.
    replace (msg_length msg) with (zlen (zdrop 24 msg)) by (rewrite zlen_zdrop; lia).
    rewrite feed_full by (rewrite zlen_zdrop; lia). by rewrite ztake_zdrop.
Qed.

(** The read callback when the peer's bytes are consumed without trouble. *)
Lemma do_read_feeds E strerror s m acc need :
  0 < page E <= 2 ^ 62 -> 0 <= fd (h_io (this s)) -> RWF (rdr s) ->
  peer_item (rest s, consumed (rdr s), to_read (rdr s)) ->
  feed (peer_full E) (rest s, consumed (rdr s), to_read (rdr s)) (stream (rdr s)) = Some (m, acc, need) ->
  after (rx (sk (rdr s))) = [] ->
  exists s', do_read E strerror s = Ret tt s' /\ rest s' = m /\ RWF (rdr s') /\ peer_item (rest s', acc, need) /\
    consumed (rdr s') = acc /\ to_read (rdr s') = need.
Proof.
  intros Hp Hfd HW HP Hf Ha. unfold do_read. erewrite (bind_ret get) by done. unfold assert.
  destruct (Z.leb_spec 0 (fd (h_io (this s)))); [|lia]. erewrite (bind_ret (ret tt)) by done.
  destruct (read_loop_feeds (peer_full E) (page E) Hp transient eq_refl (read_full E) peer_rel peer_item
    peer_rel_reader peer_item_more (read_full_ok E) (1 + length (stream (rdr s))) s
    (rest s, consumed (rdr s), to_read (rdr s)) m acc need) as (s'&Hr&(HR&HW'&HP'&Hc'&Ht')&_).
  { by split_and!. } { lia. } { exact Hf. }
  run_step Hr. exists s'. unfold peer_rel in HR. rewrite HR.
  split_and!; try done. unfold round_end. rewrite Ha. by destruct (0 <? need).
Qed.

(** ** Properties *)

(** C7. A connection sees a byte stream: two runs of the read callback on
    connections that differ only in how the same pending bytes are cut into
    segments end with the same handler state, the same queued replies, the same
    log and globals, and the same partial message. *)
Theorem reads_see_a_stream E strerror s1 s2 c :
  0 < page E <= 2 ^ 62 -> 0 <= fd (h_io (this s1)) -> RWF (rdr s1) -> RWF (rdr s2) ->
  rest s1 = rest s2 -> consumed (rdr s1) = consumed (rdr s2) -> to_read (rdr s1) = to_read (rdr s2) ->
  stream (rdr s1) = stream (rdr s2) -> after (rx (sk (rdr s1))) = [] -> after (rx (sk (rdr s2))) = [] ->
  peer_item (rest s1, consumed (rdr s1), to_read (rdr s1)) ->
  feed (peer_full E) (rest s1, consumed (rdr s1), to_read (rdr s1)) (stream (rdr s1)) = Some c ->
  exists t1 t2, do_read E strerror s1 = Ret tt t1 /\ do_read E strerror s2 = Ret tt t2 /\
    rest t1 = rest t2 /\ consumed (rdr t1) = consumed (rdr t2) /\ to_read (rdr t1) = to_read (rdr t2).
Proof.
  intros Hp Hfd HW1 HW2 HR Hc Ht Hs Ha1 Ha2 HP Hf. destruct c as [[m acc] need].
  destruct (do_read_feeds E strerror s1 m acc need) as (t1&Hr1&HR1&_&_&Hc1&Ht1); [done..|].
  destruct (do_read_feeds E strerror s2 m acc need) as (t2&Hr2&HR2&_&_&Hc2&Ht2).
  { done. } { change (0 <= fd (h_io (this (rest s2)))). rewrite <- HR. done. } { done. }
  { by rewrite <- HR, <- Hc, <- Ht. } { by rewrite <- HR, <- Hc, <- Ht, <- Hs. } { done. }
  exists t1, t2. split_and!; congruence.
Qed.

(** The connections of the witnesses: message headers are asked for. *)
Definition demo_env : env :=
  Env 4096 1000 3652501241 (text "/coinscope/") (le_bytes 2 AF_INET ++ zrep 126 0) 300000 0 0 0 7 (fun n => zrep n 170) sha256.

Definition demo_peer (rx : list recv_event) : hstate :=
  HState (Handler (Reader (read_buffer_ctor 4096 24) (Sock rx [] [] 0)) write_buffer_ctor (zrep 128 0) (zrep 128 0)
            1000 RECV_HEADER ev_READ (EvIo 5 ev_READ true) None 1000 None 3) true
    (Globals ∅ [] 4 0 0 300000 [] []).

Definition demo_ping : list Z := get_message sha256 3652501241 (text "ping") [1; 2; 3; 4; 5; 6; 7; 8].

Lemma demo_peer_RWF rx : segs_ok rx = true -> RWF (rdr (demo_peer rx)).
Proof. intros Hs. apply read_buffer_ctor_RWF; [lia|done]. Qed.

Lemma demo_peer_item rx : peer_item (rest (demo_peer rx), [], 24).
Proof. vm_compute. repeat split; congruence. Qed.

Lemma reads_see_a_stream_witness :
  exists t1 t2, do_read demo_env (fun _ => []) (demo_peer [RData demo_ping]) = Ret tt t1 /\
    do_read demo_env (fun _ => []) (demo_peer [RData (ztake 7 demo_ping); RData (zdrop 7 demo_ping)]) = Ret tt t2 /\
    unsent (h_write (this t1)) = unsent (h_write (this t2)).
Proof.
  assert (exists c, feed (peer_full demo_env) (rest (demo_peer [RData demo_ping]), [], 24) demo_ping = Some c) as [c Hc]
    by (eexists; vm_compute; reflexivity).
  destruct (reads_see_a_stream demo_env (fun _ => []) (demo_peer [RData demo_ping])
    (demo_peer [RData (ztake 7 demo_ping); RData (zdrop 7 demo_ping)]) c) as (t1&t2&H1&H2&HR&_).
  - vm_compute. split; congruence.
  - vm_compute. congruence.
  - apply demo_peer_RWF. vm_compute. reflexivity.
  - apply demo_peer_RWF. vm_compute. reflexivity.
  - reflexivity.
  - reflexivity.
  - reflexivity.
  - vm_compute. reflexivity.
  - reflexivity.
  - reflexivity.
  - apply demo_peer_item.
  - exact Hc.
  - exists t1, t2. split; [exact H1|]. split; [exact H2|].
    change (unsent (h_write (this (rest t1))) = unsent (h_write (this (rest t2)))). by rewrite HR.
Defined.

(** Every ping is answered: a complete ping, in any segmentation, leaves in
    the write queue the same message with the command changed to pong, byte for
    byte, marks the connection as sending, waits for the socket to become
    writable, and is ready for the next message. *)
Theorem ping_answered E strerror s msg :
  env_ok E -> 0 <= fd (h_io (this s)) -> RWF (rdr s) -> QWF (h_write (this s)) ->
  mode s = RECV_HEADER -> consumed (rdr s) = [] -> to_read (rdr s) = PACKED_MESSAGE ->
  stream (rdr s) = msg -> after (rx (sk (rdr s))) = [] ->
  whole msg -> streq (zdrop 4 msg) "ping" = true -> has (h_state (this s)) SEND_MASK = false ->
  exists s', do_read E strerror s = Ret tt s' /\
    unsent (h_write (this s')) = unsent (h_write (this s)) ++ pong_of msg /\
    has (h_state (this s')) SEND_MESSAGE = true /\ io_events (this s') = Z.lor ev_WRITE ev_READ /\
    mode s' = RECV_HEADER /\ to_read (rdr s') = PACKED_MESSAGE /\ consumed (rdr s') = [].
Proof.
  intros HE Hfd HW HQ Hm Hc Ht Hs Ha Hw Hp Hsend.
  pose proof (feed_message E (rest s) msg Hm Hw) as Hf.
  set (m := if msg_length msg =? 0 then rest s else
    HState (with_state (Z.lor (Z.land (h_state (this (rest s))) SEND_MASK) RECV_PAYLOAD) (this (rest s))) (active (rest s)) (glob (rest s))) in *.
  assert (feed (peer_full E) (rest s, [], PACKED_MESSAGE) msg = peer_full E m msg) as Hf' by (rewrite Hf; unfold m; by destruct (_ =? 0)).
  assert (mode m = RECV_HEADER /\ msg_length msg = 0 \/ mode m = RECV_PAYLOAD) as Hmode.
  { unfold m. destruct (Z.eqb_spec (msg_length msg) 0); [by left|right]. unfold mode. simpl. by apply recv_of_set. }
  assert (has (h_state (this m)) SEND_MASK = false /\ h_write (this m) = h_write (this s)) as [Hms Hmw].
  { unfold m. destruct (_ =? 0); [done|]. split; [|done]. unfold has in *. simpl. apply negb_false_iff in Hsend. zb.
    rewrite Z.land_lor_distr_l, <- Z.land_assoc, Z.land_diag, Hsend. done. }
  destruct (handle_ping E msg m Hw) as (w&Hh&HQ'&Hu); [by rewrite Hmw|done|].
  assert (exists m', peer_full E m msg = Some (m', [], PACKED_MESSAGE) /\ unsent (h_write (this m')) = unsent (h_write (this s)) ++ pong_of msg /\
    has (h_state (this m')) SEND_MESSAGE = true /\ io_events (this m') = Z.lor ev_WRITE ev_READ /\ mode m' = RECV_HEADER) as (m'&Hpf&Hu'&Hsd&Hio&Hmd).
  { assert (Z.land (h_state (this m)) RECV_MASK <> 0) as Hnz by (fold (mode m); destruct Hmode as [[-> _]| ->]; done).
    destruct (queued_fields w (this m) Hms Hnz) as (Q1&Q2&Q3).
    unfold peer_full, dispatch. erewrite (bind_ret get) by done. cbv zeta. fold (mode m).
    destruct Hmode as [[Hmd H0]|Hmd]; rewrite Hmd.
    - rewrite H0. change (RECV_HEADER =? RECV_HEADER) with true. change (0 =? 0) with true. cbv iota. run_step Hh. eexists. split; [reflexivity|]. cbn [this].
      rewrite Q1, Q2, Hu, Hmw. split_and!; [done|by apply has_lor|done|]. unfold mode. cbn [this]. rewrite Q2, recv_of_send. exact Hmd.
    - change (RECV_PAYLOAD =? RECV_HEADER) with false. change (RECV_PAYLOAD =? RECV_PAYLOAD) with true. cbv iota.
      run_step Hh. erewrite (bind_ret (set_recv _)) by done. eexists. split; [reflexivity|].
      cbn [this h_write h_state io_events with_state active glob]. rewrite Q1, Q2, Hu, Hmw. split_and!; [done|apply send_of_set|done|]. unfold mode. simpl. by apply recv_of_set. }
  destruct (do_read_feeds E strerror s m' [] PACKED_MESSAGE) as (s'&Hr&HR&_&_&Hc'&Ht').
  { apply HE. } { done. } { done. }
  { rewrite Hc, Ht. unfold peer_item. change (mode (rest s)) with (mode s). rewrite Hm. vm_compute. repeat split; congruence. }
  { rewrite Hc, Ht, Hs, Hf'. exact Hpf. } { done. }
  exists s'. split; [done|]. rewrite <- HR in *. split_and!; done.
Qed.

Lemma ping_answered_witness :
  exists s', do_read demo_env (fun _ => []) (demo_peer [RData (ztake 30 demo_ping); RData (zdrop 30 demo_ping)]) = Ret tt s' /\
    unsent (h_write (this s')) = pong_of demo_ping.
Proof.
  destruct (ping_answered demo_env (fun _ => []) (demo_peer [RData (ztake 30 demo_ping); RData (zdrop 30 demo_ping)]) demo_ping)
    as (s'&Hr&Hu&_).
  - split; try (vm_compute; split; congruence); try (vm_compute; congruence). intros n Hn. simpl. rewrite zlen_zrep. lia.
  - vm_compute. congruence.
  - apply demo_peer_RWF. vm_compute. reflexivity.
  - apply write_buffer_ctor_QWF.
  - reflexivity.
  - reflexivity.
  - reflexivity.
  - vm_compute. reflexivity.
  - reflexivity.
  - vm_compute. reflexivity.
  - vm_compute. reflexivity.
  - reflexivity.
  - exists s'. split; [exact Hr|exact Hu].
Defined.

(** The block height follows the peers only forward and slowly: whatever
    message arrives, g_last_block stays or grows by at most ten, and it moves
    only for a version message, to the height that message announces. *)
Theorem height_moves_slowly E msg s s' :
  handle_message_recv E msg s = Ret tt s' ->
  height s <= height s' <= height s + 10 /\
  (height s' <> height s ->
   strneq (zdrop 4 msg) "ver" = true /\ nth 3 (zdrop 4 msg) 0 = 115 /\
   height s' = s32 (le_val (slice (PACKED_MESSAGE + msg_length msg - 5) 4 msg))).
Proof.
  intros H. unfold handle_message_recv in H. erewrite (bind_ret get) in H by done.
  apply bind_Ret_inv in H as ([]&s1&H1&H). assert (s1 = s) as -> by (destruct (zlen msg <? _); [done|by injection H1]).
  erewrite (bind_ret (log _)) in H by done.
  assert (forall P : Prop, height s' = height s -> height s <= height s' <= height s + 10 /\ (height s' <> height s -> P)) as Hsame
    by (intros P ->; split; [lia|done]).
  destruct (streq _ "ping"); [apply Hsame; by apply height_append_buf in H|].
  destruct (streq _ "getblocks"); [apply Hsame; by apply height_append in H|].
  destruct (strneq (zdrop 4 msg) "ver"); [|apply Hsame; by injection H as <-].
  destruct (Z.eqb_spec (nth 3 (zdrop 4 msg) 0) 97); [apply Hsame; by apply height_pingers in H|].
  destruct (Z.eqb_spec (nth 3 (zdrop 4 msg) 0) 115) as [Hc|].
  - injection H as <-. unfold height. simpl.
    destruct (Z.ltb_spec (g_last_block (glob s)) (s32 (le_val (slice (PACKED_MESSAGE + msg_length msg - 5) 4 msg)))); simpl; [|split; [lia|done]].
    destruct (Z.leb_spec (s32 (le_val (slice (PACKED_MESSAGE + msg_length msg - 5) 4 msg)) - g_last_block (glob s)) 10); simpl; [|split; [lia|done]].
    split; [lia|]. done.
  - apply Hsame. destruct (c_str_at 4 msg); [|done]. by injection H as <-.
Qed.

Definition demo_version (h : Z) : list Z :=
  get_message sha256 3652501241 (text "version")
    (fst (get_version h 0 7 (zrep 90 0) [47; 65; 47; 66] (zrep 128 0) (zrep 128 0) 0)).

Lemma height_moves_slowly_witness :
  exists s', handle_message_recv demo_env (demo_version 300007) (demo_peer []) = Ret tt s' /\ height s' = 300007 /\
             300000 <= height s' <= 300000 + 10.
Proof.
  assert (exists s', handle_message_recv demo_env (demo_version 300007) (demo_peer []) = Ret tt s' /\ height s' = 300007) as (s'&Hr&Hh)
    by (eexists; split; vm_compute; reflexivity).
  exists s'. split; [exact Hr|]. split; [exact Hh|].
  exact (proj1 (height_moves_slowly demo_env (demo_version 300007) (demo_peer []) s' Hr)).
Defined.
