(* ===== verification/PeerSession.v ===== *)
(** * The life of a bitcoin connection

    The callbacks of [BitcoinHandler] as steps of one connection, from its
    constructor on: the events it waits for, the handshakes, and the ways a
    connection gets stuck or ends. *)

From S2P Require Import Prelude.
From S2P Require Import Bytes.
From S2P Require Import WrappedBuffer.
From S2P Require Import Net.
From S2P Require Import ReadBuffer.
From S2P Require Import WriteBuffer.
From S2P Require Import Sha256.
From S2P Require Import BitcoinWire.
From S2P Require Import Logger.
From S2P Require Import Blacklist.
From S2P Require Import BitcoinHandler.
From S2P Require Import BitcoinPeer.

(** ** Steps *)

(** What the kernel has for the connection when a callback runs. *)
Definition give (rxs : list recv_event) (ws : list write_event) (s : hstate) : hstate :=
  let k := sk (rdr s) in set_rdr (Reader (rb (rdr s)) (Sock rxs ws (tx k) (errno k))) s.

(** A callback, a message to be sent, or a disconnect command; the clock, the
    nonces and the configuration may differ from step to step. *)
Inductive pstep : hstate -> hstate -> Prop :=
  | P_io E strerror rxs ws rev s s' : io_cb E strerror rev (give rxs ws s) = Ret tt s' -> pstep s s'
  | P_send E m s s' : append_for_write E m s = Ret tt s' -> pstep s s'
  | P_ping E s s' : pinger_cb E s = Ret tt s' -> pstep s s'
  | P_addr E p p' s s' : active_pinger_cb E p s = Ret p' s' -> pstep s s'
  | P_disconnect s s' : disconnect s = Ret tt s' -> pstep s s'.

(** ** A connection with something to send is awake *)

(** The watcher waits for what io_events says; while something is to be sent
    that includes writability; the watcher of an open descriptor is started. *)
Record awake (h : handler) : Prop := {
  aw_events : io_ev (h_io h) = io_events h;
  aw_write : has (h_state h) SEND_MASK = true -> has (io_events h) ev_WRITE = true;
  aw_queue : to_write_ (h_write h) <> 0 -> has (h_state h) SEND_MASK = true;
  aw_open : fd (h_io h) <> -1 -> io_on (h_io h) = true }.

(** [hpres P c]: when [c] returns, [P] still holds of the handler. *)
Definition hpres (P : handler -> Prop) {A} (c : prog hstate A) : Prop :=
  forall s a s', P (this s) -> c s = Ret a s' -> P (this s').

Create HintDb hpres.

Section Rules.
Context (P : handler -> Prop).

Lemma hpres_ret {A} (a : A) : hpres P (ret a).
Proof. by intros s a' s' ? [= _ <-]. Qed.
Lemma hpres_get : hpres P get.
Proof. by intros s a' s' ? [= _ <-]. Qed.
Lemma hpres_crash {A} x : hpres P (crash (A := A) x).
Proof. done. Qed.
Lemma hpres_assert b : hpres P (assert b).
Proof. destruct b; [apply hpres_ret|apply hpres_crash]. Qed.
Lemma hpres_bind {A B} (c : prog hstate A) (k : A -> prog hstate B) :
  hpres P c -> (forall a, hpres P (k a)) -> hpres P (bind c k).
Proof. intros Hc Hk s b s' HP (a&s1&H1&H2)%bind_Ret_inv. eapply Hk, H2. by eapply Hc. Qed.
Lemma hpres_if {A} (b : bool) (c d : prog hstate A) : hpres P c -> hpres P d -> hpres P (if b then c else d).
Proof. by destruct b. Qed.
Lemma hpres_upd u : (forall h, P h -> P (u h)) -> hpres P (upd u).
Proof. intros Hf s x s' HP [= _ <-]. by apply Hf. Qed.
Lemma hpres_updg u : hpres P (updg u).
Proof. by intros s x s' HP [= _ <-]. Qed.
End Rules.

#[export] Hint Resolve hpres_ret hpres_get hpres_crash hpres_assert hpres_if hpres_updg : hpres.
#[export] Hint Extern 3 (hpres _ (bind _ _)) => (apply hpres_bind; [|intros ?]) : hpres.
#[export] Hint Extern 1 (hpres _ (log _)) => (apply hpres_updg) : hpres.
#[export] Hint Extern 1 (hpres _ (close _)) => (apply hpres_updg) : hpres.

(** A property of the handler that the reader has no part in. *)
Definition readerless (P : handler -> Prop) : Prop := forall r h, P h -> P (set_h r h).

Lemma hpres_on_rdr P {A} (c : prog reader A) : readerless P -> hpres P (on_rdr c).
Proof. intros HR s a s' HP H. unfold on_rdr, zoom in H. destruct (c _); [|done..]. injection H as _ <-. by apply HR. Qed.

Lemma hpres_read_loop P page transient on_full fuel :
  readerless P -> hpres P on_full -> hpres P (read_loop page transient on_full fuel).
Proof.
  intros HR Hf. induction fuel as [|fuel IH]; intros s a s' HP H; simpl in H; destruct (negb _).
  - by injection H as _ <-.
  - by injection H as _ <-.
  - by injection H as _ <-.
  - apply bind_Ret_inv in H as (e&s1&H1&H2). assert (P (this s1)) as HP1 by exact (hpres_on_rdr P _ HR s _ s1 HP H1).
    destruct e; try (by injection H2 as _ <-). apply bind_Ret_inv in H2 as ([]&s2&H2&H3).
    eapply IH, H3. by eapply Hf.
Qed.

(** Queueing a message, whatever it is. *)
Lemma append_queues E m s s' : append_for_write E m s = Ret tt s' -> exists w, this s' = queued w (this s) /\ active s' = active s.
Proof.
  intros H. unfold append_for_write in H. erewrite (bind_ret get) in H by done.
  apply bind_Ret_inv in H as ([]&s1&H1&H). assert (s1 = s) as -> by (destruct (zlen m <? _); [done|by injection H1]).
  erewrite (bind_ret (log _)) in H by done. apply bind_Ret_inv in H as ([]&s2&H2&H). unfold zoom in H2.
  destruct (append_bytes _ _ _) as [[] w| |]; [|done..]. injection H2 as <-. exists w.
  revert H. unfold queued, io_set, upd, modify, bind, ret. simpl.
  destruct (has (h_state (this s)) SEND_MASK); simpl; [by intros [= <-]|]. destruct (_ =? _); by intros [= <-].
Qed.

Lemma append_buf_queues m s s' : append_for_write_buf m s = Ret tt s' -> exists w, this s' = queued w (this s) /\ active s' = active s.
Proof.
  intros H. unfold append_for_write_buf in H. erewrite (bind_ret get) in H by done.
  erewrite (bind_ret (log _)) in H by done. apply bind_Ret_inv in H as ([]&s2&H2&H). unfold zoom in H2.
  destruct (append_buffer _ _ _) as [[] w| |]; [|done..]. injection H2 as <-. exists w.
  revert H. unfold queued, io_set, upd, modify, bind, ret. simpl.
  destruct (has (h_state (this s)) SEND_MASK); simpl; [by intros [= <-]|]. destruct (_ =? _); by intros [= <-].
Qed.

(** Flags under the updates of the state. *)
Lemma send_of_or x : has (Z.lor x SEND_MESSAGE) SEND_MASK = true.
Proof.
  unfold has. apply negb_true_iff, Z.eqb_neq. rewrite Z.land_lor_distr_l. by intros [_ ?]%Z.lor_eq_0_iff.
Qed.
Lemma send_of_recv x : has (Z.land x RECV_MASK) SEND_MASK = false.
Proof. unfold has. by rewrite <- Z.land_assoc, Z.land_0_r. Qed.
Lemma send_of_set_recv x r : Z.land r SEND_MASK = 0 -> has (Z.lor (Z.land x SEND_MASK) r) SEND_MASK = has x SEND_MASK.
Proof. intros Hr. unfold has. by rewrite Z.land_lor_distr_l, <- Z.land_assoc, Z.land_diag, Hr, Z.lor_0_r. Qed.

Lemma queued_awake w h : awake h -> awake (queued w h) /\ has (io_events (queued w h)) ev_WRITE = true.
Proof.
  intros [He Hw Hq Ho]. unfold queued.
  assert (has (Z.lor ev_WRITE (if has (h_state h) RECV_MASK then ev_READ else ev_NONE)) ev_WRITE = true) as Hnew by (by destruct (has _ RECV_MASK)).
  destruct (has (h_state h) SEND_MASK) eqn:Hs.
  - split; [|by apply Hw]. split; simpl; [done|intros; by apply Hw|intros; apply send_of_or|done].
  - destruct (Z.eqb_spec (Z.lor ev_WRITE (if has (h_state h) RECV_MASK then ev_READ else ev_NONE)) (io_events h)) as [E|];
      (split; [split; simpl; auto using send_of_or; congruence|simpl; congruence]).
Qed.

Section Awake.
Context (E : env).

Lemma awake_readerless : readerless awake.
Proof. intros r h []. by split. Qed.

Lemma awake_append m : hpres awake (append_for_write E m).
Proof. intros s [] s' HA (w&->&_)%append_queues. by apply queued_awake. Qed.
Lemma awake_append_buf m : hpres awake (append_for_write_buf m).
Proof. intros s [] s' HA (w&->&_)%append_buf_queues. by apply queued_awake. Qed.
Lemma awake_timers t a : forall h, awake h -> awake (with_timers t a h).
Proof. intros h []. by split. Qed.
Lemma awake_pingers : hpres awake (start_pingers E).
Proof.
  unfold start_pingers. apply hpres_bind; [auto with hpres|intros _]. apply hpres_bind; [auto with hpres|intros s].
  apply hpres_bind; [|intros _]; apply hpres_if; auto with hpres; apply hpres_upd; intros h []; by split.
Qed.
Lemma awake_set_recv r : Z.land r SEND_MASK = 0 -> hpres awake (set_recv r).
Proof.
  intros Hr. apply hpres_upd. intros h [He Hw Hq Ho]. split; simpl; [done|..|done].
  - by rewrite send_of_set_recv.
  - by rewrite send_of_set_recv.
Qed.
Lemma awake_on_rdr {A} (c : prog reader A) : hpres awake (on_rdr c).
Proof. apply hpres_on_rdr, awake_readerless. Qed.
Lemma awake_version f r : hpres awake (version_message E f r).
Proof. unfold version_message. auto 20 with hpres. Qed.
Hint Resolve awake_append awake_append_buf awake_pingers awake_on_rdr awake_version : hpres.
Hint Extern 1 (hpres awake (set_recv _)) => (apply awake_set_recv; reflexivity) : hpres.

Lemma awake_handle msg : hpres awake (handle_message_recv E msg).
Proof.
  unfold handle_message_recv. repeat (apply hpres_bind; [auto with hpres|intros ?]).
  repeat apply hpres_if; auto with hpres. destruct (c_str_at 4 msg); auto with hpres.
Qed.
Lemma awake_next : hpres awake next_header.
Proof. unfold next_header. auto with hpres. Qed.
Hint Resolve awake_handle awake_next : hpres.

(** The reply to a handshake marks the connection as sending. *)
Lemma awake_reply buf :
  hpres awake
    (do! handle_message_recv E buf in
     do! next_header in
     let! s := get in
     let! vmsg := version_message E (remote_addr (this s)) (external_addr E) in
     do! append_for_write E vmsg in
     do! append_for_write E (get_message (sha E) (magic E) (text "verack") []) in
     do! start_pingers E in
     upd (with_state (Z.lor SEND_VERSION_REPLY RECV_HEADER))).
Proof.
  apply hpres_bind; [auto with hpres|intros _]. apply hpres_bind; [auto with hpres|intros _].
  apply hpres_bind; [auto with hpres|intros s0]. apply hpres_bind; [auto with hpres|intros v].
  apply hpres_bind; [auto with hpres|intros _].
  intros s a s' HA H. apply bind_Ret_inv in H as ([]&s1&H1&H). apply bind_Ret_inv in H as ([]&s2&H2&H).
  injection H as _ <-. apply append_queues in H1 as (w&Hq&_). destruct (queued_awake w (this s) HA) as [HA1 Hw1].
  rewrite <- Hq in HA1, Hw1. pose proof (awake_pingers _ _ _ HA1 H2) as [He Hw Hqu Ho].
  assert (io_events (this s2) = io_events (this s1)) as Hio.
  { assert (keeps (fun s => io_events (this s)) (start_pingers E)) as Hk by (unfold start_pingers; auto 20 with keeps).
    apply (Hk _ _ _ H2). }
  split; simpl; [done| |done|done]. intros _. by rewrite Hio.
Qed.

Lemma awake_full : hpres awake (read_full E).
Proof.
  unfold read_full. apply hpres_bind; [auto with hpres|intros s]. apply hpres_bind; [auto with hpres|intros _].
  apply hpres_bind; [auto with hpres|intros _]. cbv zeta.
  repeat apply hpres_if; try (auto 20 with hpres; fail). apply awake_reply.
Qed.

Lemma awake_suicide : hpres awake suicide.
Proof.
  unfold suicide. apply hpres_bind; [apply hpres_upd; intros; by apply awake_timers|intros _].
  apply hpres_bind; [auto with hpres|intros s0]. apply hpres_bind; [auto with hpres|intros _].
  apply hpres_bind; [apply hpres_upd; intros h []; by split|intros _]. apply hpres_if; [|auto with hpres].
  by intros s a s' HA [= _ <-].
Qed.
Lemma awake_log_conn u t : hpres awake (log_conn u t).
Proof. unfold log_conn. auto with hpres. Qed.
Hint Resolve awake_suicide awake_log_conn : hpres.

Context (strerror : Z -> list Z).

Lemma awake_do_read : hpres awake (do_read E strerror).
Proof.
  unfold do_read. apply hpres_bind; [auto with hpres|intros s]. apply hpres_bind; [auto with hpres|intros _].
  apply hpres_bind; [apply hpres_read_loop; [apply awake_readerless|apply awake_full]|intros e]. destruct e; auto 20 with hpres.
Qed.
End Awake.

(** A round of writes empties the queue, or leaves one that was not empty. *)
Lemma drain_count transient fuel s e s' :
  drain transient fuel s = Ret e s' ->
  (e = Drained -> to_write_ (wb s') = 0) /\ (to_write_ (wb s) = 0 -> to_write_ (wb s') = 0).
Proof.
  revert s. induction fuel as [|fuel IH]; intros s H; simpl in H; unfold to_write in H;
    destruct (_ || _); try done; destruct (to_write_ (wb s)) eqn:Ht; try (injection H as <- <-; split; [done|lia]); try done.
  all: apply bind_Ret_inv in H as ([r b]&s1&H1&H); simpl in H; split; [|done]; intros ->;
    destruct (_ && _); [done|]; destruct (r =? 0); [done|]; destruct (r <? 0); [done|]; by apply IH in H as [H _]; apply H.
Qed.

(** What a round of writes leaves of the handler. *)
Lemma drain_handler_keeps s e s' :
  drain_handler s = Ret e s' ->
  exists r w, this s' = with_write w (set_h r (this s)) /\ active s' = active s /\ glob s' = glob s /\
    (e = Drained -> to_write_ w = 0) /\ (to_write_ (h_write (this s)) = 0 -> to_write_ w = 0) /\ rb r = rb (h_read (this s)).
Proof.
  unfold drain_handler. cbv zeta. generalize (if fd (h_io (this s)) <? 0 then Sock (rx (sk (h_read (this s))))
    (WErr EBADF :: wx (sk (h_read (this s)))) (tx (sk (h_read (this s)))) (errno (sk (h_read (this s)))) else sk (h_read (this s))).
  intros k H. destruct (drain transient (1 + length (wx k)) (Writer (h_write (this s)) k)) as [e' w| |] eqn:Hd; [|done..].
  injection H as <- <-. apply drain_count in Hd as [H1 H2]. simpl in *.
  eexists (Reader _ _), (wb w). split_and!; try done.
Qed.

Lemma awake_drained w r h : awake h -> (to_write_ (h_write h) = 0 -> to_write_ w = 0) -> awake (with_write w (set_h r h)).
Proof. intros [He Hw Hq Ho] H0. split; simpl; auto. Qed.

Lemma awake_idle x r h : awake h -> to_write_ (h_write h) = 0 -> awake (with_state (Z.land x RECV_MASK) (set_h r h)).
Proof. intros [He Hw Hq Ho] H0. split; simpl; [done|by rewrite send_of_recv|by rewrite H0|done]. Qed.

Section Callbacks.
Context (E : env) (strerror : Z -> list Z).

(** After the queue is empty only receive flags are left. *)
Lemma do_write_drained s s1 s' :
  drain_handler s = Ret Drained s1 -> do_write strerror s = Ret tt s' ->
  exists r, this s' = with_state (Z.land (if Z.land (h_state (this s1)) SEND_MASK =? SEND_VERSION_INIT
                                          then RECV_VERSION_INIT_HDR else h_state (this s1)) RECV_MASK) (set_h r (this s1)) /\
    active s' = active s1 /\ glob s' = glob s1 /\
    ((Z.land (h_state (this s1)) SEND_MASK =? SEND_VERSION_INIT) = false -> r = h_read (this s1)).
Proof.
  intros Hd H. unfold do_write in H. erewrite bind_ret in H by exact Hd. cbv beta iota in H. erewrite (bind_ret get) in H by done.
  apply bind_Ret_inv in H as ([]&s2&H2&H). injection H as <-. simpl. destruct (_ =? SEND_VERSION_INIT).
  - apply bind_Ret_inv in H2 as ([]&s3&H3&H2). injection H3 as <-. apply bind_Ret_inv in H2 as ([]&s4&H4&H2).
    unfold assert in H4. destruct (_ =? 0); [|done]. injection H4 as <-. injection H2 as <-. by eexists.
  - injection H2 as <-. exists (h_read (this s1)). by destruct (this s1).
Qed.

Lemma awake_do_write : hpres awake (do_write strerror).
Proof.
  intros s [] s' HA H. assert (exists e s1, drain_handler s = Ret e s1) as (e&s1&H1)
    by (unfold do_write in H; apply bind_Ret_inv in H as (e&s1&H1&_); eauto).
  pose proof (drain_handler_keeps _ _ _ H1) as (r&w&Ht&_&_&Hd&Hk&_). pose proof (awake_drained w r (this s) HA Hk) as HA1. rewrite <- Ht in HA1.
  destruct e.
  1: { destruct (do_write_drained _ _ _ H1 H) as (r'&->&_). apply awake_idle; [done|]. rewrite Ht. by apply Hd. }
  all: unfold do_write in H; erewrite bind_ret in H by exact H1; try by injection H as <-.
  apply bind_Ret_inv in H as ([]&s2&H2&H). eapply awake_suicide, H. by eapply awake_log_conn, H2.
Qed.

(** The events a state asks for. *)
Definition wanted (st : Z) : Z :=
  Z.lor (if has st SEND_MASK then ev_WRITE else 0) (if has st RECV_MASK then ev_READ else 0).

Lemma wanted_write st : has st SEND_MASK = true -> has (wanted st) ev_WRITE = true.
Proof. unfold wanted. intros ->. by destruct (has st RECV_MASK). Qed.

(** The end of io_cb. *)
Definition settle (h : handler) : handler :=
  let e := wanted (h_state h) in
  with_activity (now E) (if e =? io_events h then h else with_io e (io_set_events e (h_io h)) h).

Lemma settle_run s :
  (let! s := get in
   do! io_set (Z.lor (if has (h_state (this s)) SEND_MASK then ev_WRITE else 0) (if has (h_state (this s)) RECV_MASK then ev_READ else 0)) in
   upd (with_activity (now E))) s = Ret tt (HState (settle (this s)) (active s) (glob s)).
Proof. done. Qed.

Lemma settle_fields h :
  h_write (settle h) = h_write h /\ h_state (settle h) = h_state h /\ h_read (settle h) = h_read h /\
  fd (h_io (settle h)) = fd (h_io h) /\ (io_ev (h_io h) = io_events h -> io_ev (h_io (settle h)) = wanted (h_state h)) /\
  active_ping_timer (settle h) = active_ping_timer h /\ h_id (settle h) = h_id h.
Proof. unfold settle. destruct (Z.eqb_spec (wanted (h_state h)) (io_events h)); split_and!; simpl; congruence. Qed.

Lemma settle_awake h : awake h -> awake (settle h).
Proof.
  intros [He Hw Hq Ho]. unfold settle. destruct (Z.eqb_spec (wanted (h_state h)) (io_events h)); split; simpl; auto using wanted_write.
Qed.

Lemma awake_io_cb rev : hpres awake (io_cb E strerror rev).
Proof.
  unfold io_cb. apply hpres_bind; [apply hpres_get|intros s]. apply hpres_if.
  { apply hpres_if; auto with hpres. apply hpres_bind; [auto with hpres|intros _]. by intros ? ? ? ? [= _ <-]. }
  apply hpres_bind; [apply hpres_if; auto using awake_do_read with hpres|intros _].
  apply hpres_bind; [apply hpres_if; auto using awake_do_write with hpres|intros _].
  intros s1 a s' HA H. rewrite settle_run in H. injection H as _ <-. by apply settle_awake.
Qed.

(** After a callback on an open descriptor the watcher waits for exactly what
    the state asks for. *)
Lemma io_cb_watches rev s s' :
  awake (this s) -> fd (h_io (this s)) <> -1 -> io_cb E strerror rev s = Ret tt s' ->
  io_ev (h_io (this s')) = wanted (h_state (this s')).
Proof.
  intros HA Hfd H. unfold io_cb in H. erewrite (bind_ret get) in H by done. destruct (Z.eqb_spec (fd (h_io (this s))) (-1)); [done|].
  apply bind_Ret_inv in H as ([]&s1&H1&H). apply bind_Ret_inv in H as ([]&s2&H2&H). rewrite settle_run in H.
  assert (awake (this s1)) as HA1 by (destruct (_ && _); [by eapply awake_do_read|by injection H1 as <-]).
  assert (awake (this s2)) as HA2 by (destruct (has rev ev_WRITE); [by eapply awake_do_write|by injection H2 as <-]).
  injection H as <-. destruct (settle_fields (this s2)) as (_&Hs&_&_&Hio&_). cbn [this]. rewrite Hs. apply Hio, HA2.
Qed.

Lemma awake_pinger : hpres awake (pinger_cb E).
Proof.
  unfold pinger_cb. apply hpres_bind; [auto with hpres|intros s]. apply hpres_if;
    [apply hpres_bind; [apply awake_append|intros _]|]; apply hpres_upd; intros h []; by split.
Qed.

Lemma awake_active_pinger p : hpres awake (active_pinger_cb E p).
Proof.
  unfold active_pinger_cb. cbv zeta. apply hpres_bind; [apply awake_append|intros _].
  apply hpres_bind; [|auto with hpres]. apply hpres_upd; intros h []; by split.
Qed.

Lemma awake_disconnect : hpres awake disconnect.
Proof. unfold disconnect. auto using awake_suicide with hpres. Qed.

Lemma ctor_awake f st remote local k g h g' : handler_ctor E f st remote local k g = Ret h g' -> awake h /\ 0 < fd (h_io h).
Proof.
  unfold handler_ctor. set (s0 := HState _ _ _). set (body := bind _ _). intros H.
  destruct (body s0) as [u s| |] eqn:Hb; [|done..]. injection H as <- _. unfold body in Hb.
  apply bind_Ret_inv in Hb as (u1&s1&H1&Hb). erewrite (bind_ret get) in Hb by done.
  apply bind_Ret_inv in Hb as (u2&s2&H2&Hb). unfold assert in H2. destruct (Z.ltb_spec 0 (fd (h_io (this s1)))); [|done].
  injection H2 as _ <-. injection Hb as _ <-. simpl. split; [|done]. clear body.
  destruct (Z.eqb_spec st SEND_VERSION_INIT) as [->|]; [|destruct (Z.eqb_spec st RECV_VERSION_REPLY_HDR) as [->|]].
  - apply bind_Ret_inv in H1 as ([]&t1&[= <-]&H1). apply bind_Ret_inv in H1 as (m&t2&H2&H1). injection H2 as _ <-.
    erewrite (bind_ret (log _)) in H1 by done. apply bind_Ret_inv in H1 as ([]&t3&H3&H1). unfold zoom in H3. simpl in H3.
    destruct (append_bytes _ _ _) as [? w| |]; [|done..]. injection H3 as _ <-. injection H1 as _ <-. by split.
  - apply bind_Ret_inv in H1 as ([]&t1&[= <-]&H1). injection H1 as _ <-. by split.
  - injection H1 as _ <-. simpl in *. lia.
Qed.
End Callbacks.

Lemma pstep_awake s s' : pstep s s' -> awake (this s) -> awake (this s').
Proof.
  intros [E se rxs ws rev t t' H|E m t t' H|E t t' H|E p p' t t' H|t t' H] HA.
  - eapply (awake_io_cb E se rev), H. by apply awake_readerless.
  - by eapply awake_append.
  - by eapply awake_pinger.
  - by eapply awake_active_pinger.
  - by eapply awake_disconnect.
Qed.

Lemma psteps_awake s s' : rtc pstep s s' -> awake (this s) -> awake (this s').
Proof. induction 1; eauto using pstep_awake. Qed.

(** ** Version messages *)

(** The payload of a version message from [from] to [recv]. *)
Definition version_payload (E : env) (from recv : list Z) (height : Z) (j1 j2 : list Z) : list Z :=
  le_bytes 4 MAX_VERSION ++ le_bytes 8 SERVICES ++ le_bytes 8 (now E) ++ set_address j1 recv ++
  set_address j2 from ++ le_bytes 8 (nonce E) ++ var_string (user_agent E) ++ le_bytes 4 height ++ [1].

(** The height we announce, and know from then on. *)
Definition announced (E : env) (g : globals) : Z := if g_last_block g =? 0 then s32 (start_height E) else g_last_block g.

Lemma version_spec E from recv s :
  env_ok E -> zlen from = SOCKADDR_STORAGE -> zlen recv = SOCKADDR_STORAGE ->
  exists j1 j2, zlen j1 = 26 /\ zlen j2 = 26 /\
    let V := get_message (sha E) (magic E) (text "version") (version_payload E from recv (announced E (glob s)) j1 j2) in
    version_message E from recv s = Ret V (HState (this s) (active s) (with_last_block (announced E (glob s)) (glob s))) /\ whole V.
Proof.
  intros HE Hf Hr. destruct HE as [Hp Hm Ha He Hj].
  destruct (get_version_layout (start_height E) (now E) (nonce E)
    (junk E (VERSION_PREFIX + zlen (var_string (user_agent E)) + VERSION_SUFFIX)) (user_agent E) from recv (g_last_block (glob s)))
    as (j1&j2&H1&H2&Hv); [|done|done|].
  { apply Hj. pose proof (zlen_nonneg (var_string (user_agent E))). unfold VERSION_PREFIX, VERSION_SUFFIX. lia. }
  exists j1, j2. split_and!; [done..|]. unfold version_message. erewrite (bind_ret get) by done. cbv zeta. rewrite Hv. split; [done|].
  apply get_message_whole; [done|]. unfold version_payload, var_string.
  rewrite !zlen_app, !zlen_le_bytes, !zlen_set_address, zlen_cons, zlen_nil by done. pose proof (zlen_to_varint (zlen (user_agent E))). lia.
Qed.

(** ** Writing out *)

Lemma drain_handler_spec s :
  QWF (h_write (this s)) -> 0 <= fd (h_io (this s)) ->
  exists e w k, drain_handler s = Ret e (HState (with_write w (set_h (Reader (rb (rdr s)) k) (this s))) (active s) (glob s)) /\
    QWF w /\ tx k ++ unsent w = tx (sk (rdr s)) ++ unsent (h_write (this s)) /\ (e = Drained <-> unsent w = []) /\
    (forall n, e = WFailed n -> transient n = false).
Proof.
  intros HQ Hfd. unfold drain_handler. destruct (Z.ltb_spec (fd (h_io (this s))) 0); [lia|].
  destruct (drain_spec transient (1 + length (wx (sk (h_read (this s))))) (Writer (h_write (this s)) (sk (h_read (this s)))))
    as (e&w&Hr&HQ'&Hc&_&Hd&Hf&_); [done|done|simpl; lia|].
  rewrite Hr. exists e, (wb w), (wsk w). split_and!; try done; apply Hd.
Qed.

(** do_write: the bytes that leave the queue are on the wire, in order; when
    all are out only the receive flags are left. *)
Lemma peer_write_spec strerror s :
  QWF (h_write (this s)) -> 0 <= fd (h_io (this s)) ->
  (Z.land (h_state (this s)) SEND_MASK = SEND_VERSION_INIT -> to_read (rdr s) = 0) ->
  exists s', do_write strerror s = Ret tt s' /\ QWF (h_write (this s')) /\
    tx (sk (rdr s')) ++ unsent (h_write (this s')) = tx (sk (rdr s)) ++ unsent (h_write (this s)) /\
    (unsent (h_write (this s')) = [] ->
     (if Z.land (h_state (this s)) SEND_MASK =? SEND_VERSION_INIT
      then h_state (this s') = RECV_VERSION_INIT_HDR /\ rdr s' = extend PACKED_MESSAGE (Reader (rb (rdr s)) (sk (rdr s')))
      else h_state (this s') = Z.land (h_state (this s)) RECV_MASK /\ rb (rdr s') = rb (rdr s)) /\ fd (h_io (this s')) = fd (h_io (this s))).
Proof.
  intros HQ Hfd Ht. destruct (drain_handler_spec s HQ Hfd) as (e&w&k&Hd&HQ'&Hc&He&_). unfold do_write.
  erewrite bind_ret by exact Hd. assert (unsent w = [] -> e = Drained) as Hdr by apply He. clear He. destruct e.
  - erewrite (bind_ret get) by done. cbn [this h_state with_write set_h].
    destruct (Z.eqb_spec (Z.land (h_state (this s)) SEND_MASK) SEND_VERSION_INIT) as [Hi|].
    + erewrite bind_ret.
      2: { erewrite (bind_ret (upd _)) by done. erewrite (bind_ret (assert _)); [reflexivity|].
           change (to_read (rdr _)) with (to_read (rdr s)). by rewrite Ht. }
      eexists. split; [reflexivity|]. simpl. split_and!; try done.
    + eexists. split; [reflexivity|]. simpl. split_and!; try done.
  - eexists. split; [reflexivity|]. simpl. split_and!; try done. by intros ?%Hdr.
  - eexists. split; [reflexivity|]. simpl. split_and!; try done. by intros ?%Hdr.
  - cbn. destruct (active s); (eexists; split; [reflexivity|]; simpl; split_and!; try done; by intros ?%Hdr).
Qed.

Lemma io_cb_write E strerror s s1 :
  fd (h_io (this s)) <> -1 -> has (h_state (this s)) RECV_MASK = false -> do_write strerror s = Ret tt s1 ->
  io_cb E strerror ev_WRITE s = Ret tt (HState (settle E (this s1)) (active s1) (glob s1)).
Proof.
  intros Hfd Hr H. unfold io_cb. erewrite (bind_ret get) by done. destruct (Z.eqb_spec (fd (h_io (this s))) (-1)); [done|].
  rewrite Hr. cbv [andb]. erewrite (bind_ret (ret tt)) by done. change (has ev_WRITE ev_WRITE) with true. cbv iota.
  erewrite bind_ret by exact H. apply settle_run.
Qed.

(** ** Stuck connections *)

(** A connection that waits for nothing from its peer and never will; [r] is what
    it has read. *)
Definition deaf (r : read_buffer) (h : handler) : Prop := (h_state h = 0 \/ h_state h = SEND_MESSAGE) /\ rb (h_read h) = r.

Lemma deaf_mask r h : deaf r h -> has (h_state h) RECV_MASK = false /\ (Z.land (h_state h) SEND_MASK =? SEND_VERSION_INIT) = false.
Proof. by intros [[-> | ->] _]. Qed.

Lemma queued_deaf r w h : deaf r h -> deaf r (queued w h).
Proof.
  intros [Hd <-]. split; [right|unfold queued; by repeat case_match].
  change (Z.lor (h_state h) SEND_MESSAGE = SEND_MESSAGE). by destruct Hd as [-> | ->].
Qed.

Lemma deaf_append r E m : hpres (deaf r) (append_for_write E m).
Proof. intros s [] s' HA (w&->&_)%append_queues. by apply queued_deaf. Qed.

Lemma deaf_suicide r : hpres (deaf r) suicide.
Proof.
  unfold suicide. apply hpres_bind; [by apply hpres_upd|intros _]. apply hpres_bind; [auto with hpres|intros s0].
  apply hpres_bind; [auto with hpres|intros _]. apply hpres_bind; [by apply hpres_upd|intros _]. apply hpres_if; [|auto with hpres].
  by intros s a s' HA [= _ <-].
Qed.

Lemma deaf_do_write rd strerror : hpres (deaf rd) (do_write strerror).
Proof.
  intros s [] s' HA H. assert (exists e s1, drain_handler s = Ret e s1) as (e&s1&H1)
    by (unfold do_write in H; apply bind_Ret_inv in H as (e&s1&H1&_); eauto).
  pose proof (drain_handler_keeps _ _ _ H1) as (r&w&Ht&_&_&_&_&Hr). assert (deaf rd (this s1)) as HA1 by (rewrite Ht; destruct HA as [? <-]; split; [done|exact Hr]).
  destruct e.
  1: { destruct (do_write_drained _ _ _ _ H1 H) as (r'&->&_&_&Hr'). destruct (deaf_mask _ _ HA1) as [_ Hm]. rewrite Hm, (Hr' Hm). simpl.
       destruct HA1 as [[-> | ->] H2]; (split; [by left|exact H2]). }
  all: unfold do_write in H; erewrite bind_ret in H by exact H1; try by injection H as <-.
  apply bind_Ret_inv in H as ([]&s2&H2&H). eapply deaf_suicide, H. injection H2 as <-. done.
Qed.

Lemma deaf_io_cb rd E strerror rev : hpres (deaf rd) (io_cb E strerror rev).
Proof.
  intros s a s' HD H. unfold io_cb in H. erewrite (bind_ret get) in H by done. destruct (_ =? -1).
  { destruct (active s); by injection H as _ <-. }
  destruct (deaf_mask _ _ HD) as [Hr _]. rewrite Hr in H. cbv [andb] in H. erewrite (bind_ret (ret tt)) in H by done.
  apply bind_Ret_inv in H as ([]&s2&H2&H). rewrite settle_run in H. injection H as _ <-.
  assert (deaf rd (this s2)) as HD2 by (destruct (has rev ev_WRITE); [by eapply deaf_do_write|by injection H2 as <-]).
  unfold deaf. cbn [this]. destruct (settle_fields E (this s2)) as (_&->&->&_). done.
Qed.

Lemma pstep_deaf r s s' : pstep s s' -> deaf r (this s) -> deaf r (this s').
Proof.
  intros [E se rxs ws rev t t' H|E m t t' H|E t t' H|E p p' t t' H|t t' H] HD.
  - eapply (deaf_io_cb r E se rev), H. done.
  - by eapply deaf_append.
  - unfold pinger_cb in H. erewrite (bind_ret get) in H by done. destruct (_ <? 0); [|by injection H as <-].
    apply bind_Ret_inv in H as ([]&t1&H1&H). injection H as <-. exact (deaf_append _ _ _ _ _ _ HD H1).
  - unfold active_pinger_cb in H. apply bind_Ret_inv in H as ([]&t1&H1&H). injection H as <- <-. exact (deaf_append _ _ _ _ _ _ HD H1).
  - unfold disconnect in H. erewrite (bind_ret get) in H by done. erewrite (bind_ret (log _)) in H by done. by eapply deaf_suicide, H.
Qed.

(** ** Properties *)

(** C8. A connection that has bytes to send waits for its socket: from the
    constructor on, after any sequence of read, write and timer callbacks,
    messages to send and disconnect commands, if the write queue of an open
    connection is not empty then its watcher is started and waits for
    writability; and the watcher's events are those recorded in io_events. *)
Theorem peer_never_sleeps E f st remote local k g h g' s :
  handler_ctor E f st remote local k g = Ret h g' -> rtc pstep (HState h true g') s ->
  io_ev (h_io (this s)) = io_events (this s) /\
  (to_write_ (h_write (this s)) <> 0 -> fd (h_io (this s)) <> -1 ->
   io_on (h_io (this s)) = true /\ has (io_ev (h_io (this s))) ev_WRITE = true).
Proof.
  intros Hc Hs. apply ctor_awake in Hc as [HA _]. apply psteps_awake in Hs as [He Hw Hq Ho]; [|done].
  split; [done|]. intros Hn Hf. split; [by apply Ho|]. rewrite He. by apply Hw, Hq.
Qed.

Definition demo_globals : globals := Globals ∅ [] 4 0 0 300000 [] [].
Definition demo_outbound : out globals handler :=
  handler_ctor demo_env 5 SEND_VERSION_INIT (zrep 128 0) (zrep 128 0) (Sock [] [] [] 0) demo_globals.
Definition demo_start : hstate :=
  match demo_outbound with Ret h g => HState h true g | _ => HState (this (demo_peer [])) true demo_globals end.

Lemma peer_never_sleeps_witness :
  to_write_ (h_write (this demo_start)) <> 0 /\ has (io_ev (h_io (this demo_start))) ev_WRITE = true.
Proof.
  destruct (peer_never_sleeps demo_env 5 SEND_VERSION_INIT (zrep 128 0) (zrep 128 0) (Sock [] [] [] 0) demo_globals
    (this demo_start) (glob demo_start) demo_start) as [_ H].
  - vm_compute. reflexivity.
  - apply rtc_refl.
  - assert (to_write_ (h_write (this demo_start)) <> 0) as Hn by (vm_compute; congruence).
    split; [exact Hn|]. apply H; [exact Hn|vm_compute; congruence].
Defined.

(** C38. A message sent before our version message is out disables the
    connection: with both still queued, a write callback that empties the queue
    leaves it open, with no receive flag and no event to wait for; and whatever
    callbacks, messages and commands follow, until something closes it and after
    that, it never waits for its peer and not a byte the peer sends is read: its
    state has no receive flag and its read buffer stays as it is. *)
Theorem early_message_wedges E strerror m s rxs ws :
  0 < page E <= 2 ^ 62 -> QWF (h_write (this s)) -> 0 <= fd (h_io (this s)) -> awake (this s) -> whole m ->
  h_state (this s) = SEND_VERSION_INIT ->
  exists s1 s2, append_for_write E m s = Ret tt s1 /\ io_cb E strerror ev_WRITE (give rxs ws s1) = Ret tt s2 /\
    (unsent (h_write (this s2)) = [] ->
     fd (h_io (this s2)) = fd (h_io (this s)) /\ io_ev (h_io (this s2)) = 0 /\
     forall s3, rtc pstep s2 s3 -> deaf (rb (rdr s2)) (this s3)).
Proof.
  intros Hp HQ Hfd HA Hm Hst. destruct (append_spec E m s Hp HQ Hm) as (w&H1&HQ1&_). eexists. set (s1 := HState _ _ _) in *.
  assert (h_state (this s1) = Z.lor SEND_VERSION_INIT SEND_MESSAGE) as Hst1
    by (change (Z.lor (h_state (this s)) SEND_MESSAGE = Z.lor SEND_VERSION_INIT SEND_MESSAGE); by rewrite Hst).
  assert (awake (this s1)) as HA1 by by apply queued_awake.
  assert (fd (h_io (this s1)) = fd (h_io (this s))) as Hf1 by (unfold s1, queued; simpl; by repeat case_match).
  assert (h_write (this s1) = w) as Hw1 by (unfold s1, queued; simpl; by repeat case_match).
  destruct (peer_write_spec strerror (give rxs ws s1)) as (s2&H2&HQ2&_&Hd).
  { change (QWF (h_write (this s1))). by rewrite Hw1. } { change (0 <= fd (h_io (this s1))). lia. }
  { change (Z.land (h_state (this s1)) SEND_MASK = SEND_VERSION_INIT -> to_read (rdr (give rxs ws s1)) = 0). by rewrite Hst1. }
  change (h_state (this (give rxs ws s1))) with (h_state (this s1)) in Hd. rewrite Hst1 in Hd.
  eexists. split; [exact H1|]. split; [apply io_cb_write; [change (fd (h_io (this s1)) <> -1); lia|change (has (h_state (this s1)) RECV_MASK = false); by rewrite Hst1|exact H2]|].
  destruct (settle_fields E (this s2)) as (Hs1&Hs2&_&Hs3&Hs4&_). cbn [this]. rewrite Hs1, Hs3. intros Hu.
  destruct (Hd Hu) as ([H0 _]&Hf2). change (fd (h_io (this (give rxs ws s1)))) with (fd (h_io (this s1))) in Hf2.
  change (h_state (this s2) = 0) in H0. rewrite Hs4, H0; [|eapply awake_do_write, H2; by apply awake_readerless].
  split_and!; [congruence|done|]. intros s3 Hs.
  unfold rdr, hstate_reader in *. cbn [this] in *. assert (deaf (rb (h_read (settle E (this s2)))) (settle E (this s2))) as HD by (split; [left; congruence|done]).
  revert HD Hs. generalize (rb (h_read (settle E (this s2)))). generalize (settle E (this s2)). intros h r HD Hs.
  change h with (this (HState h (active s2) (glob s2))) in HD. revert HD. clear -Hs. induction Hs; eauto using pstep_deaf.
Qed.

Definition demo_verack : list Z := get_message sha256 3652501241 (text "verack") [].

Lemma early_message_wedges_witness :
  exists s1 s2, append_for_write demo_env demo_verack demo_start = Ret tt s1 /\
    io_cb demo_env (fun _ => []) ev_WRITE (give [] [WAccept 1000; WAccept 1000] s1) = Ret tt s2 /\
    unsent (h_write (this s2)) = [] /\ io_ev (h_io (this s2)) = 0 /\ deaf (rb (rdr s2)) (this s2).
Proof.
  destruct (early_message_wedges demo_env (fun _ => []) demo_verack demo_start [] [WAccept 1000; WAccept 1000]) as (s1&s2&H1&H2&H).
  - split; vm_compute; congruence.
  - vm_compute. split; [repeat constructor; vm_compute; congruence|reflexivity].
  - vm_compute. congruence.
  - apply (ctor_awake demo_env 5 SEND_VERSION_INIT (zrep 128 0) (zrep 128 0) (Sock [] [] [] 0) demo_globals _ (glob demo_start)).
    vm_compute. reflexivity.
  - vm_compute. reflexivity.
  - vm_compute. reflexivity.
  - assert (unsent (h_write (this s2)) = []) as Hu.
    { vm_compute in H1. injection H1 as <-. vm_compute in H2. injection H2 as <-. vm_compute. reflexivity. }
    destruct (H Hu) as (_&He&Hd). exists s1, s2. split_and!; [exact H1|exact H2|exact Hu|exact He|]. apply Hd, rtc_refl.
Defined.

(** The message we greet with. *)
Definition version_of (E : env) (from recv : list Z) (height : Z) (j1 j2 : list Z) : list Z :=
  get_message (sha E) (magic E) (text "version") (version_payload E from recv height j1 j2).

Lemma outbound_ctor E f remote local k g :
  env_ok E -> 0 < f -> zlen remote = SOCKADDR_STORAGE ->
  exists h g' j1 j2, zlen j1 = 26 /\ zlen j2 = 26 /\
    handler_ctor E f SEND_VERSION_INIT remote local k g = Ret h g' /\
    QWF (h_write h) /\ unsent (h_write h) = version_of E (external_addr E) remote (announced E g) j1 j2 /\
    h_state h = SEND_VERSION_INIT /\ h_read h = Reader (read_buffer_ctor (page E) 0) k /\ fd (h_io h) = f /\ h_id h = id_pool g /\
    io_ev (h_io h) = ev_WRITE /\ whole (version_of E (external_addr E) remote (announced E g) j1 j2).
Proof.
  intros HE Hf Hr. unfold handler_ctor. change (SEND_VERSION_INIT =? SEND_VERSION_INIT) with true. cbv iota.
  set (h0 := Handler _ _ _ _ _ _ _ _ _ _ _ _). set (s1 := HState (with_io ev_WRITE (EvIo f ev_WRITE false) h0) false (with_pool (u32 (id_pool g + 1)) g)).
  destruct (version_spec E (external_addr E) remote s1 HE) as (j1&j2&H1&H2&Hv&HV); [apply HE|done|].
  change (announced E (glob s1)) with (announced E g) in *.
  fold (version_of E (external_addr E) remote (announced E g) j1 j2) in *. set (V := version_of _ _ _ _ _ _) in *.
  pose proof (msg_length_range V) as Hml.
  destruct (append_bytes_spec (page E) (ok_page E HE) write_buffer_ctor V write_buffer_ctor_QWF) as (w&Ha&HQ&Hu);
    [unfold whole, PACKED_MESSAGE in HV; lia|].
  unfold whole in HV. set (body := bind _ _).
  assert (exists s4, body (HState h0 false (with_pool (u32 (id_pool g + 1)) g)) = Ret tt s4 /\
    this s4 = with_io ev_WRITE (io_start (EvIo f ev_WRITE false)) (with_write w h0)) as (s4&Hb&Ht).
  { unfold body. erewrite bind_ret.
    2: { erewrite (bind_ret (upd _)) by done. fold s1. erewrite bind_ret by exact Hv. erewrite (bind_ret (log _)) by done.
         rewrite <- HV, ztake_all by lia. erewrite bind_ret by (eapply zoom_ret; exact Ha). reflexivity. }
    erewrite (bind_ret get) by done. erewrite (bind_ret (assert _)) by (simpl; by destruct (Z.ltb_spec 0 f); [|lia]).
    eexists. split; reflexivity. }
  exists (this s4), (glob s4), j1, j2. split_and!; [done|done|by rewrite Hb|..]; rewrite ?Ht; simpl; try done.
Qed.

(** The loop: the write callback runs, with what the kernel then takes, as often
    as the watcher waits for writability and at most once for each of [wss]. *)
Fixpoint write_callbacks (E : env) (strerror : Z -> list Z) (wss : list (list write_event)) : prog hstate unit := fun s =>
  match wss with
  | [] => Ret tt s
  | ws :: wss =>
      if io_on (h_io (this s)) && has (io_ev (h_io (this s))) ev_WRITE
      then (do! io_cb E strerror ev_WRITE in write_callbacks E strerror wss) (give [] ws s)
      else Ret tt s
  end.

(** A connection that is greeting its peer with [V], on the descriptor [f]: what
    is out and what is queued make up [V]; while something is queued it waits
    for writability, after that for the header of the peer's version message. *)
Record greeting (V : list Z) (f : Z) (s : hstate) : Prop := {
  gr_wf : QWF (h_write (this s));
  gr_awake : awake (this s);
  gr_fd : fd (h_io (this s)) = f;
  gr_bytes : tx (sk (rdr s)) ++ unsent (h_write (this s)) = V;
  gr_read : consumed (rdr s) = [];
  gr_state : if bool_decide (unsent (h_write (this s)) = [])
    then h_state (this s) = RECV_VERSION_INIT_HDR /\ to_read (rdr s) = PACKED_MESSAGE /\ io_ev (h_io (this s)) = ev_READ
    else h_state (this s) = SEND_VERSION_INIT /\ to_read (rdr s) = 0 /\ cursor (rdr s) = 0 /\ io_ev (h_io (this s)) = ev_WRITE }.

(** One write callback of it. *)
Lemma greeting_round E strerror V f s ws :
  greeting V f s -> 0 < f -> unsent (h_write (this s)) <> [] -> Forall (fun x => soft transient x = true) ws ->
  exists s', io_cb E strerror ev_WRITE (give [] ws s) = Ret tt s' /\ greeting V f s' /\
    zlen (unsent (h_write (this s'))) <= zlen (unsent (h_write (this s))) /\
    (takes_some ws = true -> zlen (unsent (h_write (this s'))) < zlen (unsent (h_write (this s)))).
Proof.
  intros [HQ HA Hf Hb Hcons Hst] Hpos Hne HF. rewrite bool_decide_eq_false_2 in Hst by done. destruct Hst as (Hst&Ht&Hcu&Hev).
  set (s0 := give [] ws s). assert (0 <= fd (h_io (this s0))) as Hfd0 by (change (0 <= fd (h_io (this s))); lia).
  assert (awake (this s0)) as HA0 by by apply awake_readerless.
  destruct (drain_handler_spec s0) as (e&w&k&Hd&HQ'&Hc&He&_); [exact HQ|done|].
  assert (Hsoft : (forall n, e <> WFailed n) /\ zlen (unsent w) <= zlen (unsent (h_write (this s))) /\
    (takes_some ws = true -> zlen (unsent w) < zlen (unsent (h_write (this s))))).
  { unfold drain_handler in Hd. destruct (Z.ltb_spec (fd (h_io (this s0))) 0); [lia|].
    destruct (drain transient _ _) as [e0 w0| |] eqn:Hdr; [|done..]. assert (e0 = e /\ wb w0 = w) as [-> <-] by (injection Hd; intros; by subst).
    apply drain_soft in Hdr as (Hn&Hle&Hlt); [|exact HQ|done|exact HF]. split_and!; [done|exact Hle|]. intros. apply Hlt; [lia|exact Hne|done]. }
  destruct Hsoft as (Hnf&Hle&Hlt).
  destruct (peer_write_spec strerror s0) as (s1&Hw&HQ1&Htx&Hdone); [exact HQ|done|intros _; exact Ht|].
  assert (h_write (this s1) = w /\ fd (h_io (this s1)) = f /\
    (unsent w <> [] -> h_state (this s1) = SEND_VERSION_INIT /\ rb (rdr s1) = rb (rdr s))) as (E1&E2&E3).
  { unfold do_write in Hw. erewrite bind_ret in Hw by exact Hd. destruct e; [| | |by destruct (Hnf errno)].
    - erewrite (bind_ret get) in Hw by done. apply bind_Ret_inv in Hw as ([]&s2&H2&H). injection H as <-.
      cbn [this h_state with_write set_h] in H2. change (h_state (this s0)) with (h_state (this s)) in H2. rewrite Hst in H2.
      change (Z.land SEND_VERSION_INIT SEND_MASK =? SEND_VERSION_INIT) with true in H2. cbv iota in H2.
      apply bind_Ret_inv in H2 as ([]&s3&[= <-]&H2). apply bind_Ret_inv in H2 as ([]&s4&H4&H2). unfold assert in H4. destruct (_ =? 0); [|done].
      injection H4 as <-. injection H2 as <-. split_and!; [done|exact Hf|]. intros Hn. exfalso. by apply Hn, He.
    - injection Hw as <-. split_and!; [done|exact Hf|]. intros _. split; [exact Hst|done].
    - injection Hw as <-. split_and!; [done|exact Hf|]. intros _. split; [exact Hst|done]. }
  assert (awake (this s1)) as HA1 by (by eapply awake_do_write, Hw). destruct (settle_fields E (this s1)) as (Hs1&Hs2&Hs3&Hs4&Hs5&_).
  assert (io_ev (h_io (settle E (this s1))) = wanted (h_state (this s1))) as Hio by apply Hs5, HA1.
  eexists. split; [apply io_cb_write; [change (fd (h_io (this s)) <> -1); lia|change (has (h_state (this s)) RECV_MASK = false); by rewrite Hst|exact Hw]|].
  cbn [this]. rewrite Hs1, E1. split; [|done]. unfold rdr, hstate_reader in *. cbn [this] in *.
  assert (consumed (h_read (settle E (this s1))) = [] /\ (if bool_decide (unsent w = [])
    then h_state (this s1) = RECV_VERSION_INIT_HDR /\ to_read (h_read (this s1)) = PACKED_MESSAGE
    else h_state (this s1) = SEND_VERSION_INIT /\ to_read (h_read (this s1)) = 0 /\ cursor (h_read (this s1)) = 0)) as [Hcn Hcase].
  { rewrite Hs3. destruct (bool_decide_reflect (unsent w = [])) as [Hu|Hu].
    - rewrite E1 in Hdone. destruct (Hdone Hu) as [Hcase _]. change (h_state (this s0)) with (h_state (this s)) in Hcase. rewrite Hst in Hcase.
      destruct Hcase as [Hst' Hrd']. rewrite Hrd'. split; [|done]. unfold consumed in *. simpl. unfold cursor in *. simpl in *. rewrite Hcu. by apply ztake_neg.
    - destruct (E3 Hu) as [-> Er]. unfold consumed, to_read, extract_buffer, cursor in *. rewrite !Er. done. }
  split; unfold rdr, hstate_reader; cbn [this].
  - by rewrite Hs1, E1.
  - by apply settle_awake.
  - by rewrite Hs4.
  - rewrite Hs1, Hs3, Htx. change (h_write (this s0)) with (h_write (this s)). exact Hb.
  - done.
  - rewrite Hs1, E1, Hs2, Hs3, Hio. destruct (bool_decide _); [destruct Hcase as [-> ?]|destruct Hcase as (->&?&?)]; done.
Qed.

Lemma greeting_rounds E strerror V f wss : forall s,
  greeting V f s -> 0 < f -> Forall (Forall (fun x => soft transient x = true)) wss ->
  exists s', write_callbacks E strerror wss s = Ret tt s' /\ greeting V f s' /\
    (zlen (unsent (h_write (this s))) <= zlen (List.filter takes_some wss) -> unsent (h_write (this s')) = []).
Proof.
  induction wss as [|ws wss IH]; intros s HG Hf HF; cbn [write_callbacks].
  { exists s. split_and!; try done. simpl. intros Hz. apply zlen_0_nil. pose proof (zlen_nonneg (unsent (h_write (this s)))). change (zlen []) with 0 in Hz. lia. }
  apply Forall_cons in HF as [HF1 HF]. pose proof (gr_state _ _ _ HG) as Hst. pose proof (aw_open _ (gr_awake _ _ _ HG)) as Hon.
  rewrite (gr_fd _ _ _ HG) in Hon. rewrite Hon by lia. cbn [andb]. destruct (bool_decide_reflect (unsent (h_write (this s)) = [])) as [Hu|Hu].
  - destruct Hst as (_&_&->). exists s. by split_and!.
  - destruct Hst as (_&_&_&->). change (has ev_WRITE ev_WRITE) with true. cbv iota.
    destruct (greeting_round E strerror V f s ws HG Hf Hu HF1) as (s1&Hr&HG1&Hle&Hlt). run_step Hr.
    destruct (IH s1 HG1 Hf HF) as (s'&Hr'&HG'&Hdone). exists s'. split_and!; [done..|]. intros Hz. apply Hdone. simpl in Hz.
    destruct (takes_some ws); [specialize (Hlt eq_refl); rewrite zlen_cons in Hz|]; lia.
Qed.

(** C21. The handshake we start: a new outbound connection has exactly our version
    message to send, addressed to the peer. However often the write callback
    runs and whatever amounts the kernel takes each time, as long as no write
    fails, the bytes on the wire and those still queued make up that message;
    while some are queued the connection is still greeting and waits for
    writability, so that a message taken in parts goes on; as soon as the last
    one is out it asks for the 24 byte header of the peer's version message and
    waits for it to arrive. And that comes about: as many callbacks in which the
    kernel takes something as the message has bytes are enough. *)
Theorem outbound_handshake E strerror f remote local k g wss :
  env_ok E -> 0 < f -> zlen remote = SOCKADDR_STORAGE -> tx k = [] -> Forall (Forall (fun x => soft transient x = true)) wss ->
  exists h g' s' j1 j2, handler_ctor E f SEND_VERSION_INIT remote local k g = Ret h g' /\ zlen j1 = 26 /\ zlen j2 = 26 /\
    let V := version_of E (external_addr E) remote (announced E g) j1 j2 in
    write_callbacks E strerror wss (HState h true g') = Ret tt s' /\
    tx (sk (rdr s')) ++ unsent (h_write (this s')) = V /\ fd (h_io (this s')) = f /\ io_on (h_io (this s')) = true /\
    (unsent (h_write (this s')) <> [] -> h_state (this s') = SEND_VERSION_INIT /\ io_ev (h_io (this s')) = ev_WRITE) /\
    (unsent (h_write (this s')) = [] ->
     h_state (this s') = RECV_VERSION_INIT_HDR /\ to_read (rdr s') = PACKED_MESSAGE /\ consumed (rdr s') = [] /\
     io_ev (h_io (this s')) = ev_READ) /\
    (zlen V <= zlen (List.filter takes_some wss) -> unsent (h_write (this s')) = []).
Proof.
  intros HE Hf Hr Hk HF. destruct (outbound_ctor E f remote local k g HE Hf Hr) as (h&g'&j1&j2&H1&H2&Hc&HQ&Hu&Hst&Hrd&Hfd&_&Hev&Hwh).
  pose proof (ctor_awake _ _ _ _ _ _ _ _ _ Hc) as [HA _]. set (V := version_of _ _ _ _ _ _) in *.
  assert (V <> []) as HV.
  { intros E0. unfold whole in Hwh. rewrite E0 in Hwh. pose proof (msg_length_range []). unfold PACKED_MESSAGE in Hwh. change (zlen []) with 0 in Hwh. lia. }
  assert (greeting V f (HState h true g')) as HG.
  { split; unfold rdr, hstate_reader; cbn [this]; try done.
    - rewrite Hrd, Hu. simpl. by rewrite Hk.
    - rewrite Hrd. by apply ztake_neg.
    - rewrite Hu, bool_decide_eq_false_2 by done. rewrite Hrd. by split_and!. }
  destruct (greeting_rounds E strerror V f wss _ HG Hf HF) as (s'&Hw&[HQ' HA' Hf' Hb' Hc' Hst']&Hdone).
  exists h, g', s', j1, j2. split; [exact Hc|]. split; [done|]. split; [done|]. cbv zeta. fold V. split_and!; [exact Hw|exact Hb'|exact Hf'|apply HA'; lia|..].
  - intros Hn. rewrite bool_decide_eq_false_2 in Hst' by done. by destruct Hst' as (?&_&_&?).
  - intros Hn. rewrite bool_decide_eq_true_2 in Hst' by done. by destruct Hst' as (?&?&?).
  - intros Hz. apply Hdone. cbn [this]. by rewrite Hu.
Qed.

Lemma demo_env_ok : env_ok demo_env.
Proof. split; try (vm_compute; split; congruence); try (vm_compute; congruence). intros n Hn. simpl. rewrite zlen_zrep. lia. Qed.

(** In three parts, the socket full in between. *)
Definition demo_parts : list (list write_event) := [[WAccept 50]; [WErr EAGAIN]; [WAccept 20; WAccept 500]].

Lemma outbound_handshake_witness :
  exists h g' s', handler_ctor demo_env 5 SEND_VERSION_INIT (zrep 128 0) (zrep 128 0) (Sock [] [] [] 0) demo_globals = Ret h g' /\
    write_callbacks demo_env (fun _ => []) demo_parts (HState h true g') = Ret tt s' /\
    h_state (this s') = RECV_VERSION_INIT_HDR /\ zlen (tx (sk (rdr s'))) = 121.
Proof.
  destruct (outbound_handshake demo_env (fun _ => []) 5 (zrep 128 0) (zrep 128 0) (Sock [] [] [] 0) demo_globals demo_parts)
    as (h&g'&s'&j1&j2&Hc&_&_&Hio&_&_&_&_&Hd&_).
  - apply demo_env_ok.
  - reflexivity.
  - reflexivity.
  - reflexivity.
  - repeat constructor.
  - assert (unsent (h_write (this s')) = [] /\ zlen (tx (sk (rdr s'))) = 121) as [Hu Hz].
    { vm_compute in Hc. injection Hc as <- <-. vm_compute in Hio. injection Hio as <-. split; vm_compute; reflexivity. }
    destruct (Hd Hu) as (Hst&_). exists h, g', s'. split_and!; [exact Hc|exact Hio|exact Hst|exact Hz].
Defined.

Lemma ztake_of {A} n m (l : list A) p : ztake m l = p -> n <= m -> ztake n l = ztake n p.
Proof. intros <- Hn. rewrite ztake_ztake. f_equal. lia. Qed.

Lemma nth_ztake (i : nat) m (l p : list Z) : ztake m l = p -> (i < length p)%nat -> nth i l 0 = nth i p 0.
Proof.
  intros <- Hi. unfold ztake in *. rewrite length_take in Hi. symmetry. rewrite <- (take_drop (Z.to_nat m) l) at 2.
  rewrite app_nth1 by (rewrite length_take; lia). done.
Qed.

(** A version message changes nothing of the connection. *)
Lemma handle_version E msg s :
  whole msg -> streq (zdrop 4 msg) "version" = true ->
  exists g, handle_message_recv E msg s = Ret tt (HState (this s) (active s) g).
Proof.
  intros Hw Hv. unfold handle_message_recv. rewrite handle_prologue by done. unfold streq in *. apply bool_decide_eq_true in Hv.
  assert (forall x, zlen (text x) + 1 >= 4 -> ztake 4 (cstring x) <> ztake 4 (cstring "version") ->
    ztake (zlen (text x) + 1) (zdrop 4 msg) <> cstring x) as Hne.
  { intros x Hx Hn Hg. apply Hn. rewrite <- (ztake_of 4 _ _ _ Hv) by (vm_compute; congruence). symmetry.
    apply (ztake_of 4 _ _ _ Hg). lia. }
  rewrite (bool_decide_eq_false_2 (_ = cstring "ping")) by (apply Hne; vm_compute; congruence).
  rewrite (bool_decide_eq_false_2 (_ = cstring "getblocks")) by (apply Hne; vm_compute; congruence).
  unfold strneq. rewrite bool_decide_eq_true_2 by (rewrite (ztake_of _ _ _ _ Hv) by (vm_compute; congruence); reflexivity).
  rewrite (nth_ztake 3 _ _ _ Hv) by (vm_compute; lia). change (nth 3 (cstring "version") 0) with 115.
  eexists. reflexivity.
Qed.

Lemma start_pingers_spec E s : exists t a g, start_pingers E s = Ret tt (HState (with_timers t a (this s)) (active s) g).
Proof.
  unfold start_pingers. erewrite (bind_ret (updg _)) by done. erewrite (bind_ret get) by done. cbn [glob].
  assert (forall s, s = HState (with_timers (timer (this s)) (active_ping_timer (this s)) (this s)) (active s) (glob s)) as Hid
    by (intros [[] ? ?]; reflexivity).
  destruct (0 <? _), (0 <? _); (eexists _, _, _; unfold bind; simpl; try reflexivity; rewrite (Hid (HState _ _ _)); reflexivity).
Qed.

(** Decide the tests of a known receive state. *)
Ltac state_is c :=
  repeat match goal with |- context [c =? ?b] => let v := eval vm_compute in (c =? b) in change (c =? b) with v end; cbv iota.

Definition verack_of (E : env) : list Z := get_message (sha E) (magic E) (text "verack") [].

Lemma queued_keeps w h : h_write (queued w h) = w /\ remote_addr (queued w h) = remote_addr h /\ h_read (queued w h) = h_read h.
Proof. unfold queued. by repeat case_match. Qed.

(** Acting on the version message of a peer that connected to us. *)
Lemma dispatch_reply E msg m :
  env_ok E -> QWF (h_write (this m)) -> whole msg -> streq (zdrop 4 msg) "version" = true ->
  mode m = RECV_VERSION_REPLY -> zlen (remote_addr (this m)) = SOCKADDR_STORAGE ->
  exists m' height j1 j2, zlen j1 = 26 /\ zlen j2 = 26 /\
    dispatch E msg m = Ret (Anew PACKED_MESSAGE) m' /\ QWF (h_write (this m')) /\
    unsent (h_write (this m')) = unsent (h_write (this m)) ++
      version_of E (remote_addr (this m)) (external_addr E) height j1 j2 ++ verack_of E /\
    h_state (this m') = Z.lor SEND_VERSION_REPLY RECV_HEADER.
Proof.
  intros HE HQ Hw Hv Hm Hr. unfold dispatch. erewrite (bind_ret get) by done. cbv zeta. fold (mode m). rewrite Hm. state_is RECV_VERSION_REPLY.
  destruct (handle_version E msg m Hw Hv) as [g1 H1]. erewrite bind_ret by exact H1. erewrite (bind_ret get) by done. cbn [this].
  destruct (version_spec E (remote_addr (this m)) (external_addr E) (HState (this m) (active m) g1) HE Hr) as (j1&j2&Hj1&Hj2&H2&HV); [apply HE|].
  erewrite bind_ret by exact H2. set (V := get_message _ _ _ _) in *.
  destruct (append_spec E V (HState (this m) (active m) (with_last_block (announced E g1) g1)) (ok_page E HE) HQ HV) as (w1&H3&HQ1&Hu1).
  erewrite bind_ret by exact H3. set (s3 := HState _ _ _).
  assert (QWF (h_write (this s3)) /\ unsent (h_write (this s3)) = unsent (h_write (this m)) ++ V) as [HQ3 Hu3]
    by (unfold s3; cbn [this]; by destruct (queued_keeps w1 (this m)) as (->&_)).
  destruct (append_spec E (verack_of E) s3 (ok_page E HE) HQ3) as (w2&H4&HQ2&Hu2); [by apply get_message_whole; [apply HE|]|].
  erewrite bind_ret by exact H4. set (s4 := HState _ _ _).
  assert (h_write (this s4) = w2) as Hw4 by (unfold s4; cbn [this]; by destruct (queued_keeps w2 (this s3))).
  destruct (start_pingers_spec E s4) as (t&a&g2&H5). erewrite bind_ret by exact H5.
  eexists _, (announced E g1), j1, j2. split; [done|]. split; [done|]. split; [reflexivity|].
  cbn [this h_write h_state with_state with_timers]. rewrite Hw4. split_and!; [done| |done]. rewrite Hu2, Hu3, <- app_assoc. done.
Qed.

(** C20. The handshake a peer starts: its version message, in any segmentation,
    is answered with our version message followed by a verack, after what was
    queued before, and the connection then reads messages. The answer names the
    addresses the wrong way round: its sender field holds the peer's address and
    its receiver field our own. *)
Theorem inbound_handshake E strerror s msg :
  env_ok E -> 0 <= fd (h_io (this s)) -> RWF (rdr s) -> QWF (h_write (this s)) ->
  mode s = RECV_VERSION_REPLY_HDR -> consumed (rdr s) = [] -> to_read (rdr s) = PACKED_MESSAGE ->
  stream (rdr s) = msg -> after (rx (sk (rdr s))) = [] -> zlen (remote_addr (this s)) = SOCKADDR_STORAGE ->
  whole msg -> 0 < msg_length msg -> streq (zdrop 4 msg) "version" = true ->
  exists s' height j1 j2, do_read E strerror s = Ret tt s' /\ zlen j1 = 26 /\ zlen j2 = 26 /\
    unsent (h_write (this s')) = unsent (h_write (this s)) ++
      version_of E (remote_addr (this s)) (external_addr E) height j1 j2 ++ verack_of E /\
    h_state (this s') = Z.lor SEND_VERSION_REPLY RECV_HEADER /\ to_read (rdr s') = PACKED_MESSAGE /\ consumed (rdr s') = [].
Proof.
  intros HE Hfd HW HQ Hm Hc Ht Hs Ha Hr Hw Hl Hv.
  set (m1 := HState (with_state (Z.lor (Z.land (h_state (this s)) SEND_MASK) RECV_VERSION_REPLY) (this (rest s))) (active s) (glob s)).
  assert (mode m1 = RECV_VERSION_REPLY) as Hm1 by (by apply recv_of_set).
  destruct (dispatch_reply E msg m1 HE HQ Hw Hv Hm1 Hr) as (m'&height&j1&j2&Hj1&Hj2&Hd&_&Hu&Hst).
  assert (feed (peer_full E) (rest s, [], PACKED_MESSAGE) msg = Some (m', [], PACKED_MESSAGE)) as Hf.
  { unfold whole, PACKED_MESSAGE in Hw. rewrite <- (ztake_zdrop 24 msg) at 1. rewrite feed_app.
    assert (zlen (ztake 24 msg) = PACKED_MESSAGE) as Hz by (unfold PACKED_MESSAGE; rewrite zlen_ztake; lia).
    rewrite <- Hz at 1. rewrite feed_full by (rewrite Hz; done). simpl app.
    assert (msg_length (ztake 24 msg) = msg_length msg) as Hml.
    { unfold msg_length. rewrite <- (ztake_zdrop 24 msg) at 2. rewrite slice_app_l by (unfold PACKED_MESSAGE in Hz; lia). done. }
    assert (peer_full E (rest s) (ztake 24 msg) = Some (m1, ztake 24 msg, msg_length msg)) as ->.
    { unfold peer_full, dispatch. erewrite (bind_ret get) by done. cbv zeta. change (Z.land (h_state (this (rest s))) RECV_MASK) with (mode s).
      rewrite Hm, Hml. state_is RECV_VERSION_REPLY_HDR. reflexivity. }
    replace (msg_length msg) with (zlen (zdrop 24 msg)) by (rewrite zlen_zdrop; lia).
    rewrite feed_full by (rewrite zlen_zdrop; lia). rewrite ztake_zdrop. unfold peer_full. by rewrite Hd. }
  destruct (do_read_feeds E strerror s m' [] PACKED_MESSAGE) as (s'&Hrd&HR&_&_&Hc'&Ht').
  { apply HE. } { done. } { done. }
  { rewrite Hc, Ht. unfold peer_item. change (mode (rest s)) with (mode s). rewrite Hm. vm_compute. repeat split; congruence. }
  { by rewrite Hc, Ht, Hs. } { done. }
  exists s', height, j1, j2. rewrite <- HR in Hu, Hst. split_and!; done.
Qed.

Lemma inbound_handshake_witness :
  exists s' height j1 j2, do_read demo_env (fun _ => []) (HState (with_state RECV_VERSION_REPLY_HDR
      (this (demo_peer [RData (ztake 11 (demo_version 5)); RData (zdrop 11 (demo_version 5))]))) true demo_globals) = Ret tt s' /\
    unsent (h_write (this s')) = version_of demo_env (zrep 128 0) (external_addr demo_env) height j1 j2 ++ verack_of demo_env.
Proof.
  destruct (inbound_handshake demo_env (fun _ => []) (HState (with_state RECV_VERSION_REPLY_HDR
      (this (demo_peer [RData (ztake 11 (demo_version 5)); RData (zdrop 11 (demo_version 5))]))) true demo_globals) (demo_version 5))
    as (s'&height&j1&j2&Hr&_&_&Hu&_).
  - apply demo_env_ok.
  - vm_compute. congruence.
  - apply demo_peer_RWF. vm_compute. reflexivity.
  - apply write_buffer_ctor_QWF.
  - reflexivity.
  - reflexivity.
  - reflexivity.
  - vm_compute. reflexivity.
  - reflexivity.
  - reflexivity.
  - vm_compute. reflexivity.
  - vm_compute. reflexivity.
  - vm_compute. reflexivity.
  - exists s', height, j1, j2. split; [exact Hr|exact Hu].
Defined.

(** A peer that answers our version message with a header that announces no
    payload silences the connection: the handler then wants no bytes and its
    read callback never takes any from the socket again. *)
Theorem empty_version_stalls E strerror s hdr :
  env_ok E -> 0 <= fd (h_io (this s)) -> RWF (rdr s) -> mode s = RECV_VERSION_INIT_HDR ->
  consumed (rdr s) = [] -> to_read (rdr s) = PACKED_MESSAGE -> stream (rdr s) = hdr -> after (rx (sk (rdr s))) = [] ->
  whole hdr -> msg_length hdr = 0 ->
  exists s', do_read E strerror s = Ret tt s' /\ mode s' = RECV_VERSION_INIT /\ to_read (rdr s') = 0 /\
    forall E' rxs ws, do_read E' strerror (give rxs ws s') = Ret tt (give rxs ws s').
Proof.
  intros HE Hfd HW Hm Hc Ht Hs Ha Hw Hl.
  set (m1 := HState (with_state (Z.lor (Z.land (h_state (this s)) SEND_MASK) RECV_VERSION_INIT) (this (rest s))) (active s) (glob s)).
  assert (feed (peer_full E) (rest s, [], PACKED_MESSAGE) hdr = Some (m1, hdr, 0)) as Hf.
  { unfold whole in Hw. rewrite Hl, Z.add_0_r in Hw. rewrite <- Hw at 1. rewrite feed_full by (rewrite Hw; done). simpl app.
    unfold peer_full, dispatch. erewrite (bind_ret get) by done. cbv zeta. change (Z.land (h_state (this (rest s))) RECV_MASK) with (mode s).
    rewrite Hm, Hl. state_is RECV_VERSION_INIT_HDR. reflexivity. }
  destruct (do_read_feeds E strerror s m1 hdr 0) as (s'&Hr&HR&_&_&_&Ht').
  { apply HE. } { done. } { done. }
  { rewrite Hc, Ht. unfold peer_item. change (mode (rest s)) with (mode s). rewrite Hm. vm_compute. repeat split; congruence. }
  { by rewrite Hc, Ht, Hs. } { done. }
  exists s'. split; [done|]. assert (h_state (this s') = Z.lor (Z.land (h_state (this s)) SEND_MASK) RECV_VERSION_INIT /\
    fd (h_io (this s')) = fd (h_io (this s))) as [Hst Hfd'] by (change (h_state (this s')) with (h_state (this (rest s')));
    change (fd (h_io (this s'))) with (fd (h_io (this (rest s')))); by rewrite HR).
  split_and!; [unfold mode; rewrite Hst; by apply recv_of_set|done|]. intros E' rxs ws. unfold do_read.
  erewrite (bind_ret get) by done. erewrite (bind_ret (assert _)).
  2: { change (fd (h_io (this (give rxs ws s')))) with (fd (h_io (this s'))). unfold assert. by destruct (Z.leb_spec 0 (fd (h_io (this s')))); [|lia]. }
  erewrite bind_ret by (apply read_loop_stalled; change (to_read (rdr s') <= 0); lia). reflexivity.
Qed.

Definition demo_empty_version : list Z := get_message sha256 3652501241 (text "version") [].

Lemma empty_version_stalls_witness :
  exists s', do_read demo_env (fun _ => []) (HState (with_state RECV_VERSION_INIT_HDR (this (demo_peer [RData demo_empty_version]))) true demo_globals)
      = Ret tt s' /\ to_read (rdr s') = 0 /\
    do_read demo_env (fun _ => []) (give [RData demo_ping] [] s') = Ret tt (give [RData demo_ping] [] s').
Proof.
  destruct (empty_version_stalls demo_env (fun _ => [])
    (HState (with_state RECV_VERSION_INIT_HDR (this (demo_peer [RData demo_empty_version]))) true demo_globals) demo_empty_version)
    as (s'&Hr&_&Ht&Hn).
  - apply demo_env_ok.
  - vm_compute. congruence.
  - apply demo_peer_RWF. vm_compute. reflexivity.
  - reflexivity.
  - reflexivity.
  - reflexivity.
  - vm_compute. reflexivity.
  - reflexivity.
  - vm_compute. reflexivity.
  - vm_compute. reflexivity.
  - exists s'. split_and!; [exact Hr|exact Ht|apply Hn].
Defined.

(** The message of active_pinger_cb. *)
Definition addr_message (E : env) (payload : list Z) : list Z := get_message (sha E) (magic E) (text "addr") payload.

(** A closed connection goes on announcing: a disconnect leaves the timer of
    the address announcements armed, and when it fires the handler queues and
    logs an addr message, after the record that the connection was closed. The
    message's payload has 35 bytes, where one address entry makes 31. *)
Theorem closed_connection_announces E s t p :
  env_ok E -> QWF (h_write (this s)) -> active_ping_timer (this s) = Some t -> zlen p = 35 ->
  exists s1 s2 p2, disconnect s = Ret tt s1 /\ fd (h_io (this s1)) = -1 /\ active_ping_timer (this s1) = Some t /\
    active_pinger_cb E p s1 = Ret p2 s2 /\ zlen p2 = 35 /\
    BitcoinHandler.g_log (glob s2) = BitcoinHandler.g_log (glob s) ++
      [LConn CONNECTOR_DISCONNECT (h_id (this s)) (remote_addr (this s)) (local_addr (this s)) []; LMsg (h_id (this s)) true (addr_message E p2)].
Proof.
  intros HE HQ Ha Hp.
  assert (exists s1, disconnect s = Ret tt s1 /\ fd (h_io (this s1)) = -1 /\ active_ping_timer (this s1) = Some t /\ h_write (this s1) = h_write (this s) /\
    h_id (this s1) = h_id (this s) /\ BitcoinHandler.g_log (glob s1) = BitcoinHandler.g_log (glob s) ++
      [LConn CONNECTOR_DISCONNECT (h_id (this s)) (remote_addr (this s)) (local_addr (this s)) []]) as (s1&H1&Hf&Ha1&Hw1&Hi1&Hl1).
  { unfold disconnect, suicide, bind. simpl. destruct (active s); (eexists; split; [reflexivity|]; done). }
  set (p1 := if nth 0 p 0 =? 0 then splice 5 (set_address (slice 5 26 (splice 0 (to_varint 1) p)) (external_addr E)) (splice 0 (to_varint 1) p) else p).
  set (p2 := splice 1 (le_bytes 4 (now E)) p1).
  assert (zlen p1 = 35) as Hp1.
  { unfold p1. destruct (_ =? 0); [|done]. assert (zlen (splice 0 (to_varint 1) p) = 35) as Hz by (by apply splice_len).
    apply splice_len; [done|lia|]. rewrite zlen_set_address; [lia|apply zlen_slice; lia|apply HE]. }
  assert (zlen p2 = 35) as Hp2 by (apply splice_len; [done|lia|rewrite zlen_le_bytes; lia]).
  destruct (append_spec E (addr_message E p2) s1 (ok_page E HE)) as (w&H2&_); [by rewrite Hw1|apply get_message_whole; [apply HE|lia]|].
  exists s1. eexists. exists p2. split_and!; [done..| |done|].
  - unfold active_pinger_cb. fold p1 p2. cbv zeta. erewrite bind_ret by exact H2. reflexivity.
  - cbn [glob]. rewrite Hi1. simpl. rewrite Hl1, <- app_assoc. reflexivity.
Qed.

Lemma closed_connection_announces_witness :
  exists s1 s2 p2, disconnect (HState (with_timers None (Some 5) (this (demo_peer []))) true demo_globals) = Ret tt s1 /\
    fd (h_io (this s1)) = -1 /\ active_pinger_cb demo_env (zrep 35 0) s1 = Ret p2 s2 /\ zlen p2 = 35.
Proof.
  destruct (closed_connection_announces demo_env (HState (with_timers None (Some 5) (this (demo_peer []))) true demo_globals) 5 (zrep 35 0))
    as (s1&s2&p2&H1&H2&_&H3&H4&_).
  - apply demo_env_ok.
  - apply write_buffer_ctor_QWF.
  - reflexivity.
  - reflexivity.
  - exists s1, s2, p2. split_and!; [exact H1|exact H2|exact H3|exact H4].
Defined.

(** A handler's descriptor is closed once: suicide closes it, and the destructor
    that runs when the retired handlers are cleared does nothing more. *)
Theorem retired_closes_once s :
  exists s1, suicide s = Ret tt s1 /\ delete_handler s1 = Ret tt s1 /\ active s1 = false /\
    g_closed (glob s1) = g_closed (glob s) ++ [fd (h_io (this s))].
Proof.
  unfold suicide, bind. simpl. destruct (active s) eqn:Ha; eexists; (split; [reflexivity|]); by split_and!.
Qed.
