(* ===== verification/TorHandler.v ===== *)
(** * Connections to onion addresses

    tor_connect_handler of connector/src/bitcoin_handler.cpp: the SOCKS5
    negotiation with the Tor proxy as a state machine driven by its io callback,
    and the theorems about what reaches the proxy and what becomes of the
    descriptor. The memory of a buffer that the code does not initialise is the
    argument [junk]. *)

From S2P Require Import Prelude.
From S2P Require Import Bytes.
From S2P Require Import WrappedBuffer.
From S2P Require Import Net.
From S2P Require Import ReadBuffer.
From S2P Require Import WriteBuffer.
From S2P Require Import Sha256.
From S2P Require Import BitcoinWire.
From S2P Require Import Logger.
From S2P Require Import Blacklist.
From S2P Require Import BitcoinHandler.

(** ** State *)

Inductive tor_state :=
  | TOR_CONNECT_PROXY | TOR_SEND_GREETING | TOR_RECV_GREETING | TOR_SEND_CONNECT | TOR_RECV_CONNECT | TOR_HANDSHAKE_DONE.

(** class tor_connect_handler, with the kernel's side of its descriptor. *)
Record tor := Tor {
  t_remote : list Z;
  t_io : evio;
  fd_ : Z;
  state_ : tor_state;
  onion_host_ : list Z;
  onion_port_ : Z;
  written_ : Z;
  to_write_ : Z;
  t_sock : sock }.

(** The handlers by address, the globals, g_inactive_tor_handlers. *)
Record tornet := TorNet { tgl : globals; tors : gmap Z tor; g_inactive_tor_handlers : list Z }.

Definition on_tgl {A} (c : prog globals A) : prog tornet A :=
  zoom tgl (fun g n => TorNet g (tors n) (g_inactive_tor_handlers n)) c.
Definition tor_log (e : log_event) : prog tornet unit := on_tgl (modify (fun g => with_log (g_log g ++ [e]) g)).
Definition tor_close (f : Z) : prog tornet unit := on_tgl (modify (fun g => with_closed (g_closed g ++ [f]) g)).
Definition tor_at (p : Z) : prog tornet tor := fun n => deref UseAfterFree (tors n !! p) n.
Definition set_tor (p : Z) (t : tor) : prog tornet unit :=
  modify (fun n => TorNet (tgl n) (<[p := t]> (tors n)) (g_inactive_tor_handlers n)).
Definition upd_tor (p : Z) (f : tor -> tor) : prog tornet unit := let! t := tor_at p in set_tor p (f t).
Definition retire (p : Z) : prog tornet unit :=
  modify (fun n => TorNet (tgl n) (tors n)
                     (if bool_decide (p ∈ g_inactive_tor_handlers n) then g_inactive_tor_handlers n else p :: g_inactive_tor_handlers n)).

Definition with_tor_io w t := Tor (t_remote t) w (fd_ t) (state_ t) (onion_host_ t) (onion_port_ t) (written_ t) (to_write_ t) (t_sock t).
Definition with_tor_state x t := Tor (t_remote t) (t_io t) (fd_ t) x (onion_host_ t) (onion_port_ t) (written_ t) (to_write_ t) (t_sock t).
Definition with_tor_fd x t := Tor (t_remote t) (t_io t) x (state_ t) (onion_host_ t) (onion_port_ t) (written_ t) (to_write_ t) (t_sock t).
Definition with_counts a b t := Tor (t_remote t) (t_io t) (fd_ t) (state_ t) (onion_host_ t) (onion_port_ t) a b (t_sock t).
Definition with_tor_sock k t := Tor (t_remote t) (t_io t) (fd_ t) (state_ t) (onion_host_ t) (onion_port_ t) (written_ t) (to_write_ t) k.

(** io.set(fd, events) on the handler's watcher *)
Definition watch (e : Z) (t : tor) : tor := with_tor_io (EvIo (fd_ t) e (io_on (t_io t))) t.

(** ** Construction *)

Definition hex_digit (n : Z) : Z := if n <? 10 then 48 + n else 87 + n.
Definition hex2 (b : Z) : list Z := [hex_digit (Z.shiftr b 4); hex_digit (Z.land b 15)].

(** snprintf(onion_host_, sizeof(onion_host_) - 1, "%s", str) into the zeroed field *)
Definition print_host (str : list Z) : list Z := resize 64 0 (ztake 62 str).

Definition onion_of_addr (addr : list Z) : list Z := print_host (concat (map hex2 (sin6_addr addr)) ++ text ".onion").
Definition onion_of_name (hostname : list Z) : list Z := print_host (hostname ++ text ".onion").

Section Tor.
Context (E : env) (strerror : Z -> list Z) (junk : Z -> list Z).

(** create_tor_proxy_socket: [s] is the new descriptor or socket's errno, [c]
    connect's result. *)
Definition create_tor_proxy_socket (s : Z + Z) (c : unit + Z) : prog tornet (Z + list Z) :=
  match s with
  | inr e => ret (inr (text "socket failure: " ++ strerror e))
  | inl f =>
      match c with
      | inl _ => ret (inl f)
      | inr e => if (e =? EINPROGRESS) || (e =? EALREADY) then ret (inl f)
                 else do! tor_close f in ret (inr (text "tor proxy connect failed"))
      end
  end.

(** tor_connect_handler::~tor_connect_handler *)
Definition delete_tor (p : Z) : prog tornet unit :=
  let! t := tor_at p in
  do! (if (0 <=? fd (t_io t)) && ((0 <=? fd_ t) && negb (fd (t_io t) =? fd_ t)) then tor_close (fd_ t) else ret tt) in
  modify (fun n => TorNet (tgl n) (delete p (tors n)) (g_inactive_tor_handlers n)).

Fixpoint delete_tors (ps : list Z) : prog tornet unit :=
  match ps with
  | [] => ret tt
  | p :: ps => do! delete_tor p in delete_tors ps
  end.

(** The constructors at the address [p]; they differ in the host only. *)
Definition tor_ctor (host remote : list Z) (p : Z) (k : sock) (s : Z + Z) (c : unit + Z) : prog tornet unit :=
  do! set_tor p (Tor remote (EvIo (-1) ev_NONE false) (-1) TOR_CONNECT_PROXY host (be_val (ss_port remote)) 0 0 k) in
  let! n := get in
  do! delete_tors (g_inactive_tor_handlers n) in
  do! modify (fun n => TorNet (tgl n) (tors n) []) in
  let! r := create_tor_proxy_socket s c in
  match r with
  | inl f => upd_tor p (fun t => with_tor_io (io_start (EvIo f ev_WRITE false)) (with_tor_state TOR_SEND_GREETING (with_tor_fd f t)))
  | inr what =>
      do! tor_log (LText ERROR [text "Tor proxy connection failed"; what]) in
      do! tor_log (LConn CONNECT_FAILURE 0 remote (splice 0 (le_bytes 2 AF_INET6) (zrep SOCKADDR_STORAGE 0)) (what ++ [0])) in
      retire p
  end.

Definition tor_connect_addr (remote : list Z) := tor_ctor (onion_of_addr remote) remote.
Definition tor_connect_name (remote hostname : list Z) := tor_ctor (onion_of_name hostname) remote.

(** ** The negotiation *)

(** tor_connect_handler::advance *)
Definition advance (p : Z) : prog tornet unit :=
  do! upd_tor p (fun t => with_tor_io (io_stop (t_io t)) t) in
  let! t := tor_at p in
  do! (if 0 <=? fd_ t then do! tor_close (fd_ t) in upd_tor p (with_tor_fd (-1)) else ret tt) in
  do! upd_tor p (with_tor_state TOR_CONNECT_PROXY) in
  retire p.

Definition tor_again (e : Z) : bool := (e =? EAGAIN) || (e =? EWOULDBLOCK).

Inductive send_end := Sent | Partial | SendFailed (err : Z).

(** The write loop of send_greeting and send_connect; a write that takes
    nothing is repeated. *)
Fixpoint send_loop (fuel : nat) (buf : list Z) : prog tor send_end := fun t =>
  if to_write_ t <=? written_ t then Ret Sent t else
  match fuel with
  | O => Ret Partial t
  | S fuel =>
      if zlen buf <? to_write_ t then Fault OutOfBounds else
      match write (slice (written_ t) (to_write_ t - written_ t) buf) (t_sock t) with
      | Ret rv k =>
          if 0 <? rv then send_loop fuel buf (with_tor_sock k (with_counts (written_ t + rv) (to_write_ t) t))
          else if (rv <? 0) && negb (tor_again (errno k)) then Ret (SendFailed (errno k)) (with_tor_sock k t)
          else if rv <? 0 then Ret Partial (with_tor_sock k t)
          else send_loop fuel buf (with_tor_sock k t)
      | Raise e k => Raise e t
      | Fault f => Fault f
      end
  end.

Definition on_tor {A} (p : Z) (c : prog tor A) : prog tornet A :=
  let! t := tor_at p in
  match c t with
  | Ret a t' => do! set_tor p t' in ret a
  | Raise e t' => do! set_tor p t' in raise e
  | Fault f => crash f
  end.

(** Send [buf] and go on to [next], expecting [want] bytes. *)
Definition send_then (p : Z) (buf : list Z) (what : string) (next : tor_state) (want : Z) : prog tornet unit :=
  do! upd_tor p (fun t => with_counts 0 (zlen buf) t) in
  let! t := tor_at p in
  let! e := on_tor p (send_loop (1 + length (wx (t_sock t))) buf) in
  match e with
  | SendFailed err => do! tor_log (LText ERROR [text what; strerror err]) in advance p
  | _ =>
      let! t := tor_at p in
      if to_write_ t <=? written_ t
      then upd_tor p (fun t => with_counts 0 want (watch ev_READ (with_tor_state next t)))
      else ret tt
  end.

Definition greeting : list Z := [5; 1; 0].

Definition send_greeting (p : Z) : prog tornet unit := send_then p greeting "Tor greeting write failed" TOR_RECV_GREETING 2.

(** The request: [hostlen] is a byte, and the buffer has one byte more than is
    written to it. *)
Definition connect_request (t : tor) : option (list Z) :=
  match until_nul (onion_host_ t) with
  | None => None
  | Some host =>
      let hostlen := u8 (zlen host) in
      let buf := junk (6 + hostlen + 2) in
      let buf := splice 0 [5; 1; 0; 3; hostlen] buf in
      let buf := splice 5 (ztake hostlen host) buf in
      let buf := splice (5 + hostlen) [Z.land (Z.shiftr (onion_port_ t) 8) 255] buf in
      Some (splice (6 + hostlen) [Z.land (onion_port_ t) 255] buf)
  end.

Definition send_connect (p : Z) : prog tornet unit :=
  let! t := tor_at p in
  match connect_request t with
  | None => crash OutOfBounds
  | Some buf => send_then p buf "Tor connect write failed" TOR_RECV_CONNECT 4
  end.

(** read(fd_, buf, n) into an uninitialised buffer *)
Definition read_reply (p n : Z) : prog tornet (Z * list Z) :=
  on_tor p (fun t => match recv n (t_sock t) with
                     | Ret (rv, bs) k => Ret (rv, splice 0 bs (junk n)) (with_tor_sock k t)
                     | Raise e k => Raise e t
                     | Fault f => Fault f
                     end).

Definition granted (buf : list Z) : bool := (nth 0 buf 0 =? 5) && (nth 1 buf 0 =? 0).

(** tor_connect_handler::recv_greeting *)
Definition recv_greeting (p : Z) : prog tornet unit :=
  let! r := read_reply p 2 in
  let '(rv, buf) := r in
  let! t := tor_at p in
  if 0 <? rv then
    if granted buf then upd_tor p (fun t => watch ev_WRITE (with_tor_state TOR_SEND_CONNECT t))
    else do! tor_log (LText ERROR [text "Tor SOCKS5 greeting rejected"; number (nth 0 buf 0); number (nth 1 buf 0)]) in advance p
  else if rv =? 0 then do! tor_log (LText ERROR [text "Tor disconnected during greeting"]) in advance p
  else if negb (tor_again (errno (t_sock t))) then
    do! tor_log (LText ERROR [text "Tor greeting read error"; strerror (errno (t_sock t))]) in advance p
  else ret tt.

(** tor_connect_handler::recv_connect *)
Definition recv_connect (p : Z) (sockname : list Z + Z) : prog tornet unit :=
  let! r := read_reply p 256 in
  let '(rv, buf) := r in
  let! t := tor_at p in
  if 0 <? rv then
    if granted buf then
      do! upd_tor p (fun t => with_tor_io (io_stop (t_io t)) (with_tor_state TOR_HANDSHAKE_DONE t)) in
      let! local := match sockname with
                    | inl a => ret a
                    | inr e => do! tor_log (LText ERROR [strerror e]) in ret (zrep SOCKADDR_STORAGE 0)
                    end in
      let! h := on_tgl (handler_ctor E (fd_ t) SEND_VERSION_INIT (t_remote t) local (t_sock t)) in
      do! on_tgl (insert_handler h) in
      do! upd_tor p (with_tor_fd (-1)) in
      advance p
    else do! tor_log (LText ERROR [text "Tor connect rejected, REP:"; number (nth 1 buf 0)]) in advance p
  else if rv =? 0 then do! tor_log (LText ERROR [text "Tor disconnected during connect reply"]) in advance p
  else if negb (tor_again (errno (t_sock t))) then
    do! tor_log (LText ERROR [text "Tor connect read error"; strerror (errno (t_sock t))]) in advance p
  else ret tt.

(** tor_connect_handler::io_cb; [so] is what getsockopt returned and the value
    of [err] after it. *)
Definition tor_io_cb (p revents : Z) (so : Z * Z) (sockname : list Z + Z) : prog tornet unit :=
  let! t := tor_at p in
  match state_ t with
  | TOR_CONNECT_PROXY =>
      let '(rv, err) := so in
      if (rv =? 0) && (err =? 0) then upd_tor p (fun t => watch ev_WRITE (with_tor_state TOR_SEND_GREETING t))
      else if negb (err =? 0) then
        do! tor_log (LText ERROR [text "Tor proxy connect error"; strerror err]) in advance p
      else upd_tor p (watch ev_WRITE)
  | TOR_SEND_GREETING => if has revents ev_WRITE then send_greeting p else ret tt
  | TOR_RECV_GREETING => if has revents ev_READ then recv_greeting p else ret tt
  | TOR_SEND_CONNECT => if has revents ev_WRITE then send_connect p else ret tt
  | TOR_RECV_CONNECT => if has revents ev_READ then recv_connect p sockname else ret tt
  | TOR_HANDSHAKE_DONE => ret tt
  end.
End Tor.

(** ** Running on the handler at [p] *)

Definition net_of (g : globals) (m : gmap Z tor) (l : list Z) (p : Z) (t : tor) : tornet := TorNet g (<[p := t]> m) l.

Lemma net_of_lookup n p t : tors n !! p = Some t -> n = net_of (tgl n) (tors n) (g_inactive_tor_handlers n) p t.
Proof. destruct n. simpl. intros. unfold net_of. by rewrite insert_id. Qed.

Section Run.
Context (g : globals) (m : gmap Z tor) (l : list Z) (p : Z) (t : tor).

Lemma tor_at_run : tor_at p (net_of g m l p t) = Ret t (net_of g m l p t).
Proof. unfold tor_at, net_of. simpl. by rewrite lookup_insert_eq. Qed.

Lemma set_tor_run t' : set_tor p t' (net_of g m l p t) = Ret tt (net_of g m l p t').
Proof. unfold set_tor, net_of, modify. simpl. by rewrite insert_insert_eq. Qed.

Lemma upd_tor_run f : upd_tor p f (net_of g m l p t) = Ret tt (net_of g m l p (f t)).
Proof. unfold upd_tor. erewrite bind_ret by apply tor_at_run. apply set_tor_run. Qed.

Lemma on_tor_run {A} (c : prog tor A) a t' : c t = Ret a t' -> on_tor p c (net_of g m l p t) = Ret a (net_of g m l p t').
Proof. intros Hc. unfold on_tor. erewrite bind_ret by apply tor_at_run. rewrite Hc. by erewrite bind_ret by apply set_tor_run. Qed.

Lemma on_tgl_run {A} (c : prog globals A) a g' : c g = Ret a g' -> on_tgl c (net_of g m l p t) = Ret a (net_of g' m l p t).
Proof. intros Hc. unfold on_tgl. by erewrite zoom_ret by exact Hc. Qed.

Lemma tor_log_run e : tor_log e (net_of g m l p t) = Ret tt (net_of (with_log (g_log g ++ [e]) g) m l p t).
Proof. done. Qed.

Lemma tor_close_run f : tor_close f (net_of g m l p t) = Ret tt (net_of (with_closed (g_closed g ++ [f]) g) m l p t).
Proof. done. Qed.

(** The handler when it is done with. *)
Definition retired (t : tor) : tor :=
  with_tor_state TOR_CONNECT_PROXY (with_tor_fd (if 0 <=? fd_ t then -1 else fd_ t) (with_tor_io (io_stop (t_io t)) t)).
Definition closing (t : tor) (g : globals) : globals := if 0 <=? fd_ t then with_closed (g_closed g ++ [fd_ t]) g else g.
Definition with_inactive (p : Z) (l : list Z) : list Z := if bool_decide (p ∈ l) then l else p :: l.

Lemma advance_run : advance p (net_of g m l p t) = Ret tt (net_of (closing t g) m (with_inactive p l) p (retired t)).
Proof.
  unfold advance. erewrite bind_ret by apply upd_tor_run. unfold retired, closing.
  unfold tor_at, upd_tor, set_tor, tor_close, on_tgl, retire, with_inactive, net_of, bind, zoom, modify, ret. simpl. unfold tor_at, deref.
  rewrite lookup_insert_eq. simpl. destruct (0 <=? fd_ t); simpl; rewrite ?lookup_insert_eq; simpl; rewrite ?insert_insert_eq, ?lookup_insert_eq; simpl; rewrite ?insert_insert_eq; done.
Qed.
End Run.

(** ** Sending *)

(** The handler after [w] bytes in all were written and the socket became [k]. *)
Definition sent (w : Z) (k : sock) (t : tor) : tor := with_tor_sock k (with_counts w (to_write_ t) t).

Lemma send_loop_spec fuel buf t :
  0 <= written_ t <= to_write_ t -> to_write_ t = zlen buf -> (length (wx (t_sock t)) < fuel)%nat ->
  exists e w k, send_loop fuel buf t = Ret e (sent w k t) /\ written_ t <= w <= to_write_ t /\
    tx k = tx (t_sock t) ++ slice (written_ t) (w - written_ t) buf /\ rx k = rx (t_sock t) /\
    (e = Sent <-> w = to_write_ t).
Proof.
  revert t. induction fuel as [|fuel IH]; intros t Hw Hb Hf; [lia|]. simpl.
  destruct (Z.leb_spec (to_write_ t) (written_ t)) as [Hle|Hlt].
  { exists Sent, (written_ t), (t_sock t). split_and!; [unfold sent; by destruct t|lia|lia| |done|split; [intros; lia|done]].
    unfold slice. by rewrite ztake_neg, app_nil_r by lia. }
  destruct (Z.ltb_spec (zlen buf) (to_write_ t)); [lia|].
  set (bs := slice (written_ t) (to_write_ t - written_ t) buf).
  assert (zlen bs = to_write_ t - written_ t) as Hz by (apply zlen_slice; lia).
  destruct (write_spec bs (t_sock t)) as (r&k&Hr&Hrb&Htx&Hrx&Hwx&Hcase); [intros H0; rewrite H0 in Hz; change (zlen []) with 0 in Hz; lia|].
  rewrite Hr. assert (0 < length (wx (t_sock t)) -> (length (wx k) < fuel))%nat as Hlen.
  { rewrite Hwx. destruct (wx (t_sock t)); simpl in *; lia. }
  destruct (Z.ltb_spec 0 r) as [Hpos|Hneg].
  - set (t1 := with_tor_sock k (with_counts (written_ t + r) (to_write_ t) t)).
    destruct (IH t1) as (e&w&k'&H1&Hw1&Htx1&Hrx1&He); simpl; [lia|done|apply Hlen; destruct (wx (t_sock t)); simpl; [destruct Hcase; lia|lia]|].
    exists e, w, k'. split_and!; [rewrite H1; done|simpl in *; lia|simpl in *; lia| |simpl in *; congruence|apply He].
    rewrite Htx1. simpl. rewrite Htx, <- app_assoc. f_equal. rewrite Z.max_r by lia. unfold bs, slice.
    rewrite ztake_ztake, Z.min_l by lia. replace (w - written_ t) with (r + (w - (written_ t + r))) by (simpl in Hw1; lia).
    rewrite ztake_add by (simpl in Hw1; lia). unfold slice. by rewrite zdrop_zdrop by lia.
  - assert (tx k = tx (t_sock t)) as Htk by (rewrite Htx, ztake_neg, app_nil_r by lia; done).
    assert (forall e, e <> Sent -> exists e0 w k0, Ret e (with_tor_sock k t) = Ret e0 (sent w k0 t) /\ written_ t <= w <= to_write_ t /\
      tx k0 = tx (t_sock t) ++ slice (written_ t) (w - written_ t) buf /\ rx k0 = rx (t_sock t) /\ (e0 = Sent <-> w = to_write_ t)) as Hsame.
    { intros e Hne. exists e, (written_ t), k. split_and!; [unfold sent; by destruct t|lia|lia| |done|split; [done|lia]].
      unfold slice. by rewrite ztake_neg, app_nil_r by lia. }
    destruct (Z.ltb_spec r 0); simpl; [destruct (tor_again (errno k)); simpl; by apply Hsame|].
    set (t1 := with_tor_sock k t). destruct (IH t1) as (e&w&k'&H1&Hw1&Htx1&Hrx1&He); simpl; [lia|done|apply Hlen; destruct (wx (t_sock t)); simpl; [destruct Hcase; lia|lia]|].
    exists e, w, k'. split_and!; [rewrite H1; done|simpl in *; lia|simpl in *; lia| |simpl in *; congruence|apply He].
    rewrite Htx1. simpl. by rewrite Htk.
Qed.

(** send_then: everything is out and the reply is awaited; or part of it is;
    or the handler retires. *)
Lemma send_then_spec strerror g m l p t buf what next want :
  exists w k, 0 <= w <= zlen buf /\ tx k = tx (t_sock t) ++ ztake w buf /\ rx k = rx (t_sock t) /\
  let t' := with_tor_sock k (with_counts w (zlen buf) t) in
  (w = zlen buf /\ send_then strerror p buf what next want (net_of g m l p t) =
     Ret tt (net_of g m l p (with_counts 0 want (watch ev_READ (with_tor_state next t')))) \/
   w < zlen buf /\ (send_then strerror p buf what next want (net_of g m l p t) = Ret tt (net_of g m l p t') \/
     exists e, send_then strerror p buf what next want (net_of g m l p t) =
       Ret tt (net_of (closing t (with_log (g_log g ++ [e]) g)) m (with_inactive p l) p (retired t')))).
Proof.
  pose proof (zlen_nonneg buf). set (t0 := with_counts 0 (zlen buf) t).
  destruct (send_loop_spec (1 + length (wx (t_sock t0))) buf t0) as (e&w&k&Hs&Hw&Htx&Hrx&He); [simpl; lia|done|lia|].
  simpl in Hw, Htx, Hrx, He. rewrite Z.sub_0_r, slice_0 in Htx. exists w, k. split_and!; [lia|lia|done|done|]. cbv zeta.
  unfold send_then. erewrite bind_ret by apply upd_tor_run. fold t0. erewrite bind_ret by apply tor_at_run.
  erewrite bind_ret by (apply on_tor_run; exact Hs). change (sent w k t0) with (with_tor_sock k (with_counts w (zlen buf) t)).
  set (t' := with_tor_sock k (with_counts w (zlen buf) t)).
  destruct e as [| |err].
  - left. assert (w = zlen buf) as -> by (by apply He). split; [done|]. erewrite bind_ret by apply tor_at_run. change (to_write_ t') with (zlen buf). change (written_ t') with (zlen buf).
    rewrite Z.leb_refl. by rewrite upd_tor_run.
  - right. assert (w <> zlen buf) as Hne by (intros ?; by apply He in H0). split; [lia|]. left. erewrite bind_ret by apply tor_at_run.
    change (to_write_ t') with (zlen buf). change (written_ t') with w. by destruct (Z.leb_spec (zlen buf) w); [lia|].
  - right. assert (w <> zlen buf) as Hne by (intros ?; by apply He in H0). split; [lia|]. right. eexists.
    erewrite bind_ret by apply tor_log_run. rewrite advance_run. reflexivity.
Qed.

(** ** Who owns the descriptor *)

(** A negotiation under way. *)
Definition live (t : tor) : Prop := 0 <= fd_ t /\ fd (t_io t) = fd_ t /\ io_on (t_io t) = true.

(** The same closed descriptors and active handlers. *)
Definition same_fds (g g' : globals) : Prop := g_closed g' = g_closed g /\ g_active_handlers g' = g_active_handlers g.

(** What a callback may do with the descriptor [f]: go on, close it, or hand it
    to a new connection. *)
Inductive fate (p f : Z) (g : globals) (n' : tornet) : Prop :=
  | Goes_on t' : tors n' !! p = Some t' -> live t' -> fd_ t' = f -> same_fds g (tgl n') -> fate p f g n'
  | Closed t' : tors n' !! p = Some t' -> fd_ t' = -1 -> io_on (t_io t') = false -> p ∈ g_inactive_tor_handlers n' ->
      g_closed (tgl n') = g_closed g ++ [f] -> g_active_handlers (tgl n') = g_active_handlers g -> fate p f g n'
  | Handed_over t' h : tors n' !! p = Some t' -> fd_ t' = -1 -> io_on (t_io t') = false -> p ∈ g_inactive_tor_handlers n' ->
      g_closed (tgl n') = g_closed g -> fd (h_io h) = f -> g_active_handlers g !! h_id h = None ->
      g_active_handlers (tgl n') = <[h_id h := h]> (g_active_handlers g) -> fate p f g n'.

Lemma in_with_inactive p l : p ∈ with_inactive p l.
Proof. unfold with_inactive. destruct (bool_decide_reflect (p ∈ l)); set_solver. Qed.

Lemma closed_fate g g0 m l p t t0 :
  0 <= fd_ t -> fd_ t0 = fd_ t -> same_fds g0 g ->
  fate p (fd_ t) g0 (net_of (closing t g) m (with_inactive p l) p (retired t0)).
Proof.
  intros Hf Hft [Hc Ha]. assert (closing t g = with_closed (g_closed g ++ [fd_ t]) g) as -> by (unfold closing; by destruct (Z.leb_spec 0 (fd_ t)); [|lia]).
  apply Closed with (retired t0); [unfold net_of; simpl; by rewrite lookup_insert_eq| |done|apply in_with_inactive|simpl; congruence|done].
  unfold retired. simpl. rewrite Hft. by destruct (Z.leb_spec 0 (fd_ t)); [|lia].
Qed.

Lemma advance_closes g g0 m l p t : 0 <= fd_ t -> same_fds g0 g ->
  forall n', advance p (net_of g m l p t) = Ret tt n' -> fate p (fd_ t) g0 n'.
Proof. intros Hf Hs n' H. rewrite advance_run in H. injection H as <-. by apply closed_fate. Qed.

(** A complaint in the log and out. *)
Lemma gives_up g m l p t t0 e :
  0 <= fd_ t0 -> fd_ t = fd_ t0 -> forall n', (do! tor_log e in advance p) (net_of g m l p t) = Ret tt n' -> fate p (fd_ t0) g n'.
Proof.
  intros Hf Hft n' H. erewrite bind_ret in H by apply tor_log_run. rewrite <- Hft. eapply advance_closes; [| |exact H]; [lia|done].
Qed.

Lemma goes_on g m l p t f : live t -> fd_ t = f -> fate p f g (net_of g m l p t).
Proof. intros. apply Goes_on with t; [|done..]. unfold net_of. simpl. by rewrite lookup_insert_eq. Qed.

Lemma live_fields t t' : live t -> fd_ t' = fd_ t -> fd (t_io t') = fd_ t -> io_on (t_io t') = io_on (t_io t) -> live t'.
Proof. unfold live. intros (?&?&?) -> -> ->. done. Qed.

Lemma send_then_fate strerror g m l p t buf what next want n' :
  live t -> send_then strerror p buf what next want (net_of g m l p t) = Ret tt n' -> fate p (fd_ t) g n'.
Proof.
  intros HL H. pose proof HL as (H0&H1&H2).
  destruct (send_then_spec strerror g m l p t buf what next want) as (w&k&_&_&_&[(_&Hr)|(_&[Hr|[e Hr]])]);
    rewrite Hr in H; injection H as <-; [apply goes_on; [by eapply live_fields|done]..|].
  by apply closed_fate.
Qed.

Lemma ctor_fds E f remote local k g h g' :
  handler_ctor E f SEND_VERSION_INIT remote local k g = Ret h g' -> fd (h_io h) = f /\ same_fds g g'.
Proof.
  unfold handler_ctor. set (s0 := HState _ _ _). set (body := bind _ _). intros H.
  destruct (body s0) as [u s| |] eqn:Hb; [|done..]. injection H as <- <-. unfold body in Hb.
  apply bind_Ret_inv in Hb as (u1&s1&H1&Hb). erewrite (bind_ret get) in Hb by done.
  apply bind_Ret_inv in Hb as (u2&s2&H2&Hb). unfold assert in H2. destruct (Z.ltb_spec 0 (fd (h_io (this s1)))); [|done].
  injection H2 as _ <-. injection Hb as _ <-. simpl. clear body. change (SEND_VERSION_INIT =? SEND_VERSION_INIT) with true in H1.
  apply bind_Ret_inv in H1 as ([]&t1&[= <-]&H1). apply bind_Ret_inv in H1 as (m&t2&H2&H1). injection H2 as _ <-.
  erewrite (bind_ret (log _)) in H1 by done. apply bind_Ret_inv in H1 as ([]&t3&H3&H1). unfold zoom in H3. simpl in H3.
  destruct (append_bytes _ _ _) as [? w| |]; [|done..]. injection H3 as _ <-. injection H1 as _ <-. done.
Qed.

Lemma read_reply_run junk g m l p t n :
  exists rv buf k, read_reply junk p n (net_of g m l p t) = Ret (rv, buf) (net_of g m l p (with_tor_sock k t)).
Proof.
  destruct (recv n (t_sock t)) as [[rv bs] k|e k|f] eqn:Hr;
    [|exfalso; unfold recv in Hr; destruct (rx (t_sock t)) as [|[]]; done..].
  exists rv, (splice 0 bs (junk n)), k. apply on_tor_run. by rewrite Hr.
Qed.

Lemma recv_greeting_fate strerror junk g m l p t n' :
  live t -> recv_greeting strerror junk p (net_of g m l p t) = Ret tt n' -> fate p (fd_ t) g n'.
Proof.
  intros HL H. pose proof HL as (H0&H1&H2). destruct (read_reply_run junk g m l p t 2) as (rv&buf&k&Hr). unfold recv_greeting in H.
  erewrite bind_ret in H by exact Hr. cbv beta iota in H. erewrite bind_ret in H by apply tor_at_run.
  destruct (0 <? rv).
  { destruct (granted buf); [|by eapply gives_up in H; [..|done]]. rewrite upd_tor_run in H. injection H as <-.
    apply goes_on; [by eapply live_fields|done]. }
  destruct (rv =? 0); [by eapply gives_up in H; [..|done]|].
  destruct (negb _); [by eapply gives_up in H; [..|done]|]. injection H as <-. apply goes_on; [by eapply live_fields|done].
Qed.

Lemma recv_connect_fate E strerror junk g m l p t sn n' :
  live t -> recv_connect E strerror junk p sn (net_of g m l p t) = Ret tt n' -> fate p (fd_ t) g n'.
Proof.
  intros HL H. pose proof HL as (H0&H1&H2). destruct (read_reply_run junk g m l p t 256) as (rv&buf&k&Hr). unfold recv_connect in H.
  erewrite bind_ret in H by exact Hr. cbv beta iota in H. erewrite bind_ret in H by apply tor_at_run.
  destruct (0 <? rv).
  { destruct (granted buf); [|by eapply gives_up in H; [..|done]]. erewrite bind_ret in H by apply upd_tor_run.
    cbv beta in H. set (t1 := with_tor_io _ _) in H. apply bind_Ret_inv in H as (local&n1&Hl&H).
    assert (exists g1, n1 = net_of g1 m l p t1 /\ same_fds g g1) as (g1&->&Hs1).
    { destruct sn; [injection Hl as _ <-; by exists g|]. erewrite bind_ret in Hl by apply tor_log_run. injection Hl as _ <-. by eexists. }
    apply bind_Ret_inv in H as (h&n2&Hh&H). unfold on_tgl, zoom in Hh. simpl in Hh.
    destruct (handler_ctor _ _ _ _ _ _ _) as [h' g2| |] eqn:Hc; [|done..]. injection Hh as <- <-.
    apply ctor_fds in Hc as [Hfd Hs2]. apply bind_Ret_inv in H as ([]&n3&Hi&H). unfold on_tgl, zoom in Hi. simpl in Hi.
    unfold insert_handler in Hi. destruct (g_active_handlers g2 !! h_id h') eqn:Hn; [done|]. injection Hi as <-.
    fold (net_of (with_handlers (<[h_id h' := h']> (g_active_handlers g2)) (g_inactive_handlers g2) g2) m l p t1) in H.
    erewrite bind_ret in H by apply upd_tor_run. rewrite advance_run in H. injection H as <-.
    destruct Hs1 as [Hc1 Ha1], Hs2 as [Hc2 Ha2].
    eapply Handed_over with (h := h'); [unfold net_of; simpl; by rewrite lookup_insert_eq|done|done|apply in_with_inactive|..]; simpl; try congruence. }
  destruct (rv =? 0); [by eapply gives_up in H; [..|done]|].
  destruct (negb _); [by eapply gives_up in H; [..|done]|]. injection H as <-. apply goes_on; [by eapply live_fields|done].
Qed.

(** ** Properties *)

(** C22. The descriptor of a negotiation has one owner: whatever the proxy sends
    and however writes and reads end, a callback leaves the negotiation under
    way on the same descriptor, or closes it exactly once and retires the
    handler with its watcher stopped, or hands it, unclosed, to one new active
    connection and retires the handler without it. *)
Theorem tor_descriptor E strerror junk p rev so sn n n' t :
  tors n !! p = Some t -> live t -> tor_io_cb E strerror junk p rev so sn n = Ret tt n' ->
  fate p (fd_ t) (tgl n) n'.
Proof.
  intros Ht HL H. rewrite (net_of_lookup n p t Ht) in H. unfold tor_io_cb in H. erewrite bind_ret in H by apply tor_at_run.
  pose proof HL as (H0&H1&H2). assert (forall r : prog tornet unit, r = ret tt -> forall n1, r (net_of (tgl n) (tors n) (g_inactive_tor_handlers n) p t) = Ret tt n1 -> fate p (fd_ t) (tgl n) n1) as Hnop.
  { intros r -> n1 [= <-]. by apply goes_on. }
  destruct (state_ t).
  - destruct so as [rv err]. destruct (_ && _); [rewrite upd_tor_run in H; injection H as <-; apply goes_on; [by eapply live_fields|done]|].
    destruct (negb _); [by eapply gives_up in H; [..|done]|]. rewrite upd_tor_run in H. injection H as <-. apply goes_on; [by eapply live_fields|done].
  - destruct (has rev ev_WRITE); [|by eapply Hnop]. by eapply send_then_fate.
  - destruct (has rev ev_READ); [|by eapply Hnop]. by eapply recv_greeting_fate.
  - destruct (has rev ev_WRITE); [|by eapply Hnop]. unfold send_connect in H. erewrite bind_ret in H by apply tor_at_run.
    destruct (connect_request junk t); [|done]. by eapply send_then_fate.
  - destruct (has rev ev_READ); [|by eapply Hnop]. by eapply recv_connect_fate.
  - by eapply Hnop.
Qed.

Definition demo_tor (st : tor_state) (k : sock) : tor :=
  Tor (le_bytes 2 AF_INET6 ++ [32; 141] ++ zrep 124 0) (EvIo 9 ev_WRITE true) 9 st (onion_of_name (zrep 56 97)) 8333 0 0 k.
Definition demo_tornet (t : tor) : tornet := TorNet (Globals ∅ [] 4 0 0 300000 [] []) {[ 7 := t ]} [].
Definition demo_env : env :=
  Env 4096 1000 3652501241 (text "/coinscope/") (le_bytes 2 AF_INET ++ zrep 126 0) 300000 0 0 0 7 (fun n => zrep n 170) sha256.

Definition net_after (o : out tornet unit) (n : tornet) : tornet := match o with Ret _ n' => n' | _ => n end.
Definition demo_granted : tornet := demo_tornet (demo_tor TOR_RECV_CONNECT (Sock [RData [5; 0; 0; 1; 0; 0; 0; 0; 0; 0]] [] [] 0)).

Lemma tor_descriptor_witness :
  let n' := net_after (tor_io_cb demo_env (fun _ => []) (fun n => zrep n 170) 7 ev_READ (0, 0) (inl (zrep 128 0)) demo_granted) demo_granted in
  fate 7 9 (tgl demo_granted) n' /\ g_closed (tgl n') = [] /\ dom (g_active_handlers (tgl n')) = {[ 4 ]}.
Proof.
  intros n'. split; [|split; vm_compute; reflexivity].
  apply (tor_descriptor demo_env (fun _ => []) (fun n => zrep n 170) 7 ev_READ (0, 0) (inl (zrep 128 0)) demo_granted n'
    (demo_tor TOR_RECV_CONNECT (Sock [RData [5; 0; 0; 1; 0; 0; 0; 0; 0; 0]] [] [] 0))).
  - reflexivity.
  - vm_compute. split_and!; congruence.
  - vm_compute. reflexivity.
Defined.

(** ** The request *)

(** A SOCKS5 CONNECT request for a domain name (RFC 1928). *)
Definition socks5_connect (host : list Z) (port : Z) : list Z := [5; 1; 0; 3; zlen host] ++ host ++ be_bytes 2 port.

Lemma be_bytes_2 v : 0 <= v < 65536 -> be_bytes 2 v = [Z.land (Z.shiftr v 8) 255; Z.land v 255].
Proof.
  intros Hv. change (be_bytes 2 v) with ([(v / 256) mod 256] ++ [v mod 256]). change 255 with (Z.ones 8).
  rewrite !Z.land_ones, Z.shiftr_div_pow2 by lia. done.
Qed.

Lemma connect_request_bytes junk t host :
  until_nul (onion_host_ t) = Some host -> zlen host < 256 -> 0 <= onion_port_ t < 65536 -> (forall n, 0 <= n -> zlen (junk n) = n) ->
  exists x, connect_request junk t = Some (socks5_connect host (onion_port_ t) ++ [x]).
Proof.
  intros Hh Hz Hp Hj. unfold connect_request. rewrite Hh. cbv zeta. pose proof (zlen_nonneg host).
  assert (u8 (zlen host) = zlen host) as -> by (unfold u8; apply Z.mod_small; lia). rewrite (ztake_all (zlen host) host) by lia.
  set (j := junk (6 + zlen host + 2)). assert (zlen j = 8 + zlen host) as Hlj by (unfold j; rewrite Hj; lia).
  set (n := zlen host) in *. set (hi := Z.land (Z.shiftr (onion_port_ t) 8) 255). set (lo := Z.land (onion_port_ t) 255).
  assert (ztake 0 j = [] /\ zlen j = 8 + n) as S0 by (split; [by apply ztake_neg|done]).
  apply (store_next 0 [5; 1; 0; 3; n]) in S0 as S1; [|lia|change (zlen [5; 1; 0; 3; n]) with 5; lia]. change (0 + zlen [5; 1; 0; 3; n]) with 5 in S1.
  apply (store_next 5 host) in S1 as S2; [|lia|fold n; lia]. fold n in S2.
  apply (store_next (5 + n) [hi]) in S2 as S3; [|lia|change (zlen [hi]) with 1; lia]. change (zlen [hi]) with 1 in S3.
  replace (5 + n + 1) with (6 + n) in S3 by lia. apply (store_next (6 + n) [lo]) in S3 as [S4 Hlen]; [|lia|change (zlen [lo]) with 1; lia].
  change (zlen [lo]) with 1 in S4. set (b := splice (6 + n) _ _) in *.
  assert (zlen (zdrop (6 + n + 1) b) = 1) as H1 by (rewrite zlen_zdrop, Hlen; lia). apply len_1 in H1 as [x Hx].
  exists x. f_equal. transitivity (ztake (6 + n + 1) b ++ zdrop (6 + n + 1) b); [by rewrite ztake_zdrop|]. rewrite S4, Hx. unfold socks5_connect. rewrite be_bytes_2 by done.
  fold n hi lo. by rewrite <- !app_assoc.
Qed.

(** The proxy is sent one byte too many: a callback that sends the connect
    request of an onion host puts on the wire a prefix of the SOCKS5 request
    followed by one byte of uninitialised memory, and waits for the reply only
    when that byte, too, is out; the proxy takes it for the first byte of the
    connection. *)
Theorem connect_request_extra_byte E strerror junk p so sn n t host :
  tors n !! p = Some t -> state_ t = TOR_SEND_CONNECT -> until_nul (onion_host_ t) = Some host -> zlen host < 256 ->
  0 <= onion_port_ t < 65536 -> (forall k, 0 <= k -> zlen (junk k) = k) ->
  exists x n' t' w, tor_io_cb E strerror junk p ev_WRITE so sn n = Ret tt n' /\ tors n' !! p = Some t' /\
    0 <= w <= zlen (socks5_connect host (onion_port_ t)) + 1 /\
    tx (t_sock t') = tx (t_sock t) ++ ztake w (socks5_connect host (onion_port_ t) ++ [x]) /\
    (state_ t' = TOR_RECV_CONNECT <-> w = zlen (socks5_connect host (onion_port_ t)) + 1).
Proof.
  intros Ht Hst Hh Hz Hp Hj. destruct (connect_request_bytes junk t host Hh Hz Hp Hj) as [x Hx]. exists x.
  rewrite (net_of_lookup n p t Ht). unfold tor_io_cb. erewrite bind_ret by apply tor_at_run. rewrite Hst.
  change (has ev_WRITE ev_WRITE) with true. cbv iota. unfold send_connect. erewrite bind_ret by apply tor_at_run. rewrite Hx.
  set (buf := socks5_connect host (onion_port_ t) ++ [x]).
  assert (zlen buf = zlen (socks5_connect host (onion_port_ t)) + 1) as Hzb by (unfold buf; rewrite zlen_app; done). rewrite <- Hzb.
  destruct (send_then_spec strerror (tgl n) (tors n) (g_inactive_tor_handlers n) p t buf "Tor connect write failed" TOR_RECV_CONNECT 4)
    as (w&k&Hw&Htx&_&[(Hwe&Hr)|(Hwl&[Hr|[e Hr]])]); rewrite Hr; (eexists _, _, w; split; [reflexivity|]; split;
      [unfold net_of; simpl; by rewrite lookup_insert_eq|]); simpl; split_and!; try done; try lia; (split; [try done|try lia; try done]).
  by rewrite Hst.
Qed.

Lemma connect_request_extra_byte_witness :
  exists x n' t', tor_io_cb demo_env (fun _ => []) (fun n => zrep n 170) 7 ev_WRITE (0, 0) (inl [])
      (demo_tornet (demo_tor TOR_SEND_CONNECT (Sock [] [WAccept 100] [] 0))) = Ret tt n' /\ tors n' !! 7 = Some t' /\
    tx (t_sock t') = socks5_connect (zrep 56 97 ++ text ".onion") 8333 ++ [x].
Proof.
  destruct (connect_request_extra_byte demo_env (fun _ => []) (fun n => zrep n 170) 7 (0, 0) (inl [])
    (demo_tornet (demo_tor TOR_SEND_CONNECT (Sock [] [WAccept 100] [] 0))) (demo_tor TOR_SEND_CONNECT (Sock [] [WAccept 100] [] 0))
    (zrep 56 97 ++ text ".onion")) as (x&n'&t'&w&Hr&Ht&Hw&Htx&Hst).
  - reflexivity.
  - reflexivity.
  - vm_compute. reflexivity.
  - vm_compute. reflexivity.
  - vm_compute. split; congruence.
  - intros k Hk. rewrite zlen_zrep. lia.
  - assert (state_ t' = TOR_RECV_CONNECT) as Hs.
    { vm_compute in Hr. injection Hr as <-. vm_compute in Ht. injection Ht as <-. reflexivity. }
    apply Hst in Hs. exists x, n', t'. split; [exact Hr|]. split; [exact Ht|]. rewrite Htx, Hs. vm_compute. reflexivity.
Defined.

(** ** Sending again *)

(** What the kernel will say to the handler at [p] next. *)
Definition tor_give (rxs : list recv_event) (ws : list write_event) (p : Z) (n : tornet) : tornet :=
  match tors n !! p with
  | Some t => TorNet (tgl n) (<[p := with_tor_sock (Sock rxs ws (tx (t_sock t)) (errno (t_sock t))) t]> (tors n)) (g_inactive_tor_handlers n)
  | None => n
  end.

Lemma tor_give_run rxs ws g m l p t :
  tor_give rxs ws p (net_of g m l p t) = net_of g m l p (with_tor_sock (Sock rxs ws (tx (t_sock t)) (errno (t_sock t))) t).
Proof. unfold tor_give, net_of. simpl. by rewrite lookup_insert_eq, insert_insert_eq. Qed.

(** A greeting the kernel takes in two parts is sent wrong: the callback
    after a partial write starts from the first byte again, so the proxy
    receives the part it already has a second time. *)
Theorem partial_greeting_repeats E strerror junk p so sn n t k :
  tors n !! p = Some t -> state_ t = TOR_SEND_GREETING -> 0 < k < 3 ->
  exists n1 n2 t2,
    tor_io_cb E strerror junk p ev_WRITE so sn (tor_give [] [WAccept k] p n) = Ret tt n1 /\
    tor_io_cb E strerror junk p ev_WRITE so sn (tor_give [] [WAccept 3] p n1) = Ret tt n2 /\
    tors n2 !! p = Some t2 /\ state_ t2 = TOR_RECV_GREETING /\
    tx (t_sock t2) = tx (t_sock t) ++ ztake k greeting ++ greeting.
Proof.
  intros Ht Hst Hk. rewrite (net_of_lookup n p t Ht), tor_give_run. unfold tor_io_cb.
  erewrite bind_ret by apply tor_at_run. cbn [state_ with_tor_sock]. rewrite Hst. change (has ev_WRITE ev_WRITE) with true. cbv iota.
  set (t0 := with_tor_sock _ t).
  assert (exists k1, send_greeting strerror p (net_of (tgl n) (tors n) (g_inactive_tor_handlers n) p t0) =
    Ret tt (net_of (tgl n) (tors n) (g_inactive_tor_handlers n) p (with_tor_sock k1 (with_counts k 3 t0))) /\ tx k1 = tx (t_sock t) ++ ztake k greeting) as (k1&H1&Hk1).
  { unfold send_greeting, send_then. erewrite bind_ret by apply upd_tor_run. erewrite bind_ret by apply tor_at_run.
    assert (k = 1 \/ k = 2) as [-> | ->] by lia; (eexists; split;
      [erewrite bind_ret by (apply on_tor_run; reflexivity); cbv beta iota; erewrite bind_ret by apply tor_at_run; reflexivity|reflexivity]). }
  eexists. eexists. eexists. split; [exact H1|]. rewrite tor_give_run. erewrite bind_ret by apply tor_at_run.
  cbn [state_ with_tor_sock with_counts t0]. rewrite Hst. set (t1 := with_tor_sock (Sock _ _ _ _) _).
  assert (send_greeting strerror p (net_of (tgl n) (tors n) (g_inactive_tor_handlers n) p t1) =
    Ret tt (net_of (tgl n) (tors n) (g_inactive_tor_handlers n) p (with_counts 0 2 (watch ev_READ (with_tor_state TOR_RECV_GREETING
      (with_tor_sock (Sock [] [] (tx k1 ++ greeting) (errno k1)) (with_counts 3 3 t1))))))) as ->.
  { unfold send_greeting, send_then. erewrite bind_ret by apply upd_tor_run. erewrite bind_ret by apply tor_at_run.
    erewrite bind_ret by (apply on_tor_run; reflexivity). cbv beta iota. erewrite bind_ret by apply tor_at_run.
    match goal with |- (if ?b then _ else _) _ = _ => change b with true end; cbv iota. rewrite upd_tor_run. reflexivity. }
  split; [reflexivity|]. split; [unfold net_of; simpl; by rewrite lookup_insert_eq|]. simpl. split; [done|]. by rewrite Hk1, <- app_assoc.
Qed.

Lemma partial_greeting_repeats_witness :
  exists n1 n2 t2,
    tor_io_cb demo_env (fun _ => []) (fun n => zrep n 170) 7 ev_WRITE (0, 0) (inl []) (tor_give [] [WAccept 1] 7 (demo_tornet (demo_tor TOR_SEND_GREETING (Sock [] [] [] 0)))) = Ret tt n1 /\
    tor_io_cb demo_env (fun _ => []) (fun n => zrep n 170) 7 ev_WRITE (0, 0) (inl []) (tor_give [] [WAccept 3] 7 n1) = Ret tt n2 /\
    tors n2 !! 7 = Some t2 /\ tx (t_sock t2) = [5; 5; 1; 0].
Proof.
  destruct (partial_greeting_repeats demo_env (fun _ => []) (fun n => zrep n 170) 7 (0, 0) (inl [])
    (demo_tornet (demo_tor TOR_SEND_GREETING (Sock [] [] [] 0))) (demo_tor TOR_SEND_GREETING (Sock [] [] [] 0)) 1) as (n1&n2&t2&H1&H2&H3&_&H4).
  - reflexivity.
  - reflexivity.
  - lia.
  - exists n1, n2, t2. split_and!; [exact H1|exact H2|exact H3|exact H4].
Defined.

(** ** Host names *)

Lemma until_nul_name s r : Forall (fun b => b <> 0) s -> until_nul (s ++ 0 :: r) = Some s.
Proof. induction 1 as [|b s Hb _ IH]; simpl; [done|]. destruct (Z.eqb_spec b 0); [done|]. by rewrite IH. Qed.

(** The host field holds the longest onion names: the C string in it is the
    name with .onion appended, up to 56 characters of name, which is what a
    version 3 address has; a longer name is cut to 62 characters in all, and the
    field always ends in a NUL. *)
Theorem onion_name_fits hostname :
  Forall (fun b => b <> 0) hostname ->
  zlen (onion_of_name hostname) = 64 /\
  until_nul (onion_of_name hostname) = Some (ztake 62 (hostname ++ text ".onion")) /\
  (zlen hostname <= 56 -> until_nul (onion_of_name hostname) = Some (hostname ++ text ".onion")).
Proof.
  intros Hn. unfold onion_of_name, print_host. set (s := ztake 62 (hostname ++ text ".onion")).
  assert (Forall (fun b => b <> 0) s) as Hs.
  { unfold s, ztake. apply Forall_take, Forall_app. split; [done|]. repeat constructor; vm_compute; congruence. }
  assert (zlen s <= 62) as Hz by (unfold s; rewrite zlen_ztake; lia).
  assert (until_nul (resize 64 0 s) = Some s) as Hu.
  { unfold resize. rewrite ztake_all by lia. unfold zrep. pose proof (zlen_nonneg s).
    replace (Z.to_nat (64 - zlen s)) with (S (Z.to_nat (63 - zlen s))) by lia. simpl. by apply until_nul_name. }
  split; [apply zlen_resize; lia|]. split; [done|]. intros Hl. rewrite Hu. unfold s.
  rewrite ztake_all; [done|]. rewrite zlen_app. change (zlen (text ".onion")) with 6. lia.
Qed.

Lemma onion_name_fits_witness : until_nul (onion_of_name (zrep 56 97)) = Some (zrep 56 97 ++ text ".onion").
Proof. apply onion_name_fits; [repeat constructor; vm_compute; congruence|vm_compute; congruence]. Defined.
