(* ===== verification/CtrlMsg.v ===== *)
(** * Control messages

    The wire structures of shared/includes/command_structures.hpp and the client
    API of shared/src/connector.cpp (namespace ctrl::easy): building control
    messages and reading them back. A message is the memory of its
    wrapped_buffer; integers are big-endian on the wire. *)

From S2P Require Import Prelude.
From S2P Require Import Bytes.
From S2P Require Import WrappedBuffer.
From S2P Require Import Net.
From S2P Require Import BitcoinWire.

(** ** Structures *)

Definition COMMAND_GET_CXN : Z := 1.
Definition COMMAND_DISCONNECT : Z := 2.
Definition COMMAND_SEND_MSG : Z := 3.
Definition BROADCAST_TARGET : Z := 4294967295.

Definition BITCOIN_PACKED_MESSAGE : Z := 1.
Definition COMMAND : Z := 2.
Definition REGISTER : Z := 3.
Definition CONNECT : Z := 4.

Definition ADDR_FAMILY_IPV4 : Z := 4.
Definition ADDR_FAMILY_IPV6 : Z := 6.
Definition ADDR_FAMILY_ONION : Z := 10.

(** Sizes of the packed structures wire_addr, message, connect_payload,
    connection_info, command_msg and of sockaddr_in. *)
Definition WIRE_ADDR : Z := 19.
Definition MESSAGE : Z := 6.
Definition CONNECT_PAYLOAD : Z := 38.
Definition CONNECTION_INFO : Z := 42.
Definition COMMAND_MSG : Z := 9.
Definition SOCKADDR_IN : Z := 16.

(** struct message *)
Definition ctrl_version (m : list Z) : Z := nth 0 m 0.
Definition ctrl_length (m : list Z) : Z := ntoh32 (le_val (slice 1 4 m)).
Definition ctrl_type (m : list Z) : Z := nth 5 m 0.
Definition ctrl_payload (m : list Z) : list Z := zdrop MESSAGE m.

Section Easy.
Context (page : Z).

(** message(type, payload, payload_length) on the [payload_length] bytes at
    [payload]; both constructors. *)
Definition message_ctor (type : Z) (payload : list Z) : list Z :=
  let b := vb_new page (MESSAGE + zlen payload) in
  let b := splice 0 [0] b in
  let b := splice 1 (le_bytes 4 (ntoh32 (u32 (zlen payload)))) b in
  let b := splice 5 [u8 type] b in
  splice 6 payload b.

(** message::serialize: the buffer and how much of it is the message *)
Definition serialize (b : list Z) : list Z * Z := (b, ctrl_length b + MESSAGE).

Inductive easy_message :=
  | Bitcoin_msg (b : list Z) | Command_msg (b : list Z) | Register_msg (b : list Z) | Connect_msg (b : list Z).

(** message::deserialize *)
Definition deserialize (b : list Z) : easy_message + exn :=
  if ctrl_type b =? BITCOIN_PACKED_MESSAGE then inl (Bitcoin_msg b)
  else if ctrl_type b =? COMMAND then inl (Command_msg b)
  else if ctrl_type b =? REGISTER then inl (Register_msg b)
  else if ctrl_type b =? CONNECT then inl (Connect_msg b)
  else inr (RuntimeError "Unknown type").

(** message::type *)
Definition get_type (b : list Z) : Z := ctrl_type b.
Definition set_type (t : Z) (b : list Z) : list Z := splice 5 [u8 t] b.

Definition register_msg : list Z := message_ctor REGISTER [].
Definition bitcoin_msg (payload : list Z) : list Z := message_ctor BITCOIN_PACKED_MESSAGE payload.

(** bitcoin_msg::payload *)
Definition get_payload (b : list Z) : list Z := ctrl_payload b.
Definition set_payload (new_payload b : list Z) : list Z :=
  let b := if zlen new_payload =? ctrl_length b then b else vb_realloc page (zlen new_payload + MESSAGE) b in
  let b := splice 6 new_payload b in
  splice 1 (le_bytes 4 (ntoh32 (u32 (zlen new_payload)))) b.

(** connect_msg on two struct sockaddr_in *)
Definition connect_msg (remote local : list Z) : list Z :=
  let b := message_ctor CONNECT (zrep (SOCKADDR_IN * 2) 0) in
  let b := splice 6 remote b in
  splice (6 + SOCKADDR_IN) local b.

Definition get_remote_addr (b : list Z) : list Z := slice 6 SOCKADDR_IN b.
Definition set_remote_addr (a b : list Z) : list Z := splice 6 a b.
(** The offset is the size of a pointer. *)
Definition get_local_addr (b : list Z) : list Z := slice (6 + 8) SOCKADDR_IN b.
Definition set_local_addr (a b : list Z) : list Z := splice (6 + SOCKADDR_IN) a b.

(** cmsg->targets[i] = hton(targets[i]) from [i] on *)
Fixpoint put_targets (i : Z) (targets : list Z) (b : list Z) : list Z :=
  match targets with
  | [] => b
  | t :: targets => put_targets (i + 1) targets (splice (15 + 4 * i) (le_bytes 4 (hton32 t)) b)
  end.

(** command_msg(command, message_id, targets); both constructors *)
Definition command_msg (command message_id : Z) (targets : list Z) : list Z :=
  let b := vb_new page (MESSAGE + COMMAND_MSG + 4 * zlen targets) in
  let b := splice 0 [0] b in
  let b := splice 5 [COMMAND] b in
  let b := splice 1 (le_bytes 4 (hton32 (u32 (COMMAND_MSG + 4 * zlen targets)))) b in
  let b := splice 6 [u8 command] b in
  let b := splice 7 (le_bytes 4 (hton32 message_id)) b in
  let b := put_targets 0 targets b in
  splice 11 (le_bytes 4 (hton32 (u32 (zlen targets)))) b.

Definition get_command (b : list Z) : Z := nth 6 b 0.
Definition set_command (c : Z) (b : list Z) : list Z := splice 6 [u8 c] b.
Definition get_message_id (b : list Z) : Z := ntoh32 (le_val (slice 7 4 b)).
Definition set_message_id (i : Z) (b : list Z) : list Z := splice 7 (le_bytes 4 (hton32 i)) b.
Definition target_cnt (b : list Z) : Z := ntoh32 (le_val (slice 11 4 b)).

Fixpoint read_targets (n : nat) (i : Z) (b : list Z) : list Z :=
  match n with
  | O => []
  | S n => ntoh32 (le_val (slice (15 + 4 * i) 4 b)) :: read_targets n (i + 1) b
  end.
Definition get_targets (b : list Z) : list Z := read_targets (Z.to_nat (target_cnt b)) 0 b.

(** command_msg::targets(targets, cnt): in place when the count is the same *)
Definition set_targets (targets : list Z) (b : list Z) : list Z :=
  if zlen targets =? target_cnt b then put_targets 0 targets b
  else command_msg (get_command b) (get_message_id b) targets.
End Easy.

(** ** Layout *)

Lemma ntoh_field v : 0 <= v < 2 ^ 32 -> ntoh32 (le_val (le_bytes 4 (hton32 v))) = v.
Proof.
  intros Hv. pose proof (bswap_bound 4 v). unfold hton32, ntoh32. rewrite le_val_bytes_small by done.
  rewrite bswap_involutive. apply Z.mod_small. done.
Qed.

Lemma hton_bytes v : le_bytes 4 (hton32 v) = be_bytes 4 v.
Proof. apply bytes_bswap. Qed.

(** Storing several fields, then reading the prefix. *)
Lemma put_targets_spec ts : forall i b n,
  0 <= i -> zlen b = n -> 15 + 4 * (i + zlen ts) <= n ->
  zlen (put_targets i ts b) = n /\ ztake (15 + 4 * (i + zlen ts)) (put_targets i ts b) =
    ztake (15 + 4 * i) b ++ concat (map (be_bytes 4) ts).
Proof.
  induction ts as [|t ts IH]; intros i b n Hi Hb Hn; cbn [put_targets].
  - cbn [map concat]. rewrite zlen_nil, app_nil_r, Z.add_0_r. done.
  - rewrite zlen_cons in *. pose proof (zlen_nonneg ts).
    assert (zlen (splice (15 + 4 * i) (le_bytes 4 (hton32 t)) b) = n) as Hs by (apply splice_len; [done|lia|rewrite zlen_le_bytes; lia]).
    destruct (IH (i + 1) _ n ltac:(lia) Hs ltac:(lia)) as [Hz Ht]. split; [done|].
    replace (i + (1 + zlen ts)) with (i + 1 + zlen ts) by lia. rewrite Ht. change (concat (map (be_bytes 4) (t :: ts))) with (be_bytes 4 t ++ concat (map (be_bytes 4) ts)).
    rewrite app_assoc. f_equal.
    replace (15 + 4 * (i + 1)) with (15 + 4 * i + zlen (le_bytes 4 (hton32 t))) by (rewrite zlen_le_bytes; lia).
    rewrite splice_take by (rewrite ?zlen_le_bytes; lia). by rewrite hton_bytes.
Qed.

(** What the constructor of a command message lays out. *)
Definition command_bytes (command message_id : Z) (targets : list Z) : list Z :=
  [0] ++ be_bytes 4 (COMMAND_MSG + 4 * zlen targets) ++ [COMMAND] ++
  [u8 command] ++ be_bytes 4 message_id ++ be_bytes 4 (zlen targets) ++ concat (map (be_bytes 4) targets).

Lemma zlen_targets ts : zlen (concat (map (be_bytes 4) ts)) = 4 * zlen ts.
Proof.
  induction ts as [|t ts IH]; [done|]. cbn [map concat]. rewrite zlen_app, IH, zlen_be_bytes, zlen_cons. lia.
Qed.

Lemma zlen_command_bytes c i ts : zlen (command_bytes c i ts) = MESSAGE + COMMAND_MSG + 4 * zlen ts.
Proof. unfold command_bytes. rewrite !zlen_app, !zlen_be_bytes, zlen_targets, !zlen_cons, !zlen_nil. unfold MESSAGE, COMMAND_MSG. lia. Qed.

(** Overwriting a field of a known prefix. *)
Lemma splice_within {A} (pre d d' post l : list A) off :
  ztake (zlen (pre ++ d ++ post)) l = pre ++ d ++ post -> off = zlen pre -> zlen d' = zlen d ->
  ztake (zlen (pre ++ d ++ post)) (splice off d' l) = pre ++ d' ++ post.
Proof.
  intros Hl -> Hd. set (n := zlen (pre ++ d ++ post)) in *. pose proof (zlen_nonneg pre). pose proof (zlen_nonneg d). pose proof (zlen_nonneg post).
  assert (n = zlen pre + zlen d + zlen post) as Hn by (unfold n; rewrite !zlen_app; lia).
  rewrite <- (ztake_zdrop n l), Hl. unfold splice. rewrite <- !app_assoc. rewrite (ztake_app_exact (zlen pre)) by done.
  rewrite zdrop_app_r by lia. rewrite Hd. replace (zlen pre + zlen d - zlen pre) with (zlen d) by lia.
  rewrite zdrop_app_exact by done. rewrite !app_assoc. apply ztake_app_exact. rewrite !zlen_app. lia.
Qed.

Section Layout.
Context (page : Z) (Hpage : 0 < page <= 2 ^ 62).

Lemma zlen_vb_new n : 0 <= n < 2 ^ 62 -> n <= zlen (vb_new page n).
Proof. intros Hn. pose proof (wcap_bounds page Hpage n). unfold vb_new. rewrite zlen_zrep. lia. Qed.

Lemma message_bytes type payload :
  zlen payload < 2 ^ 32 -> 0 <= type < 256 ->
  exists rest, message_ctor page type payload = [0] ++ be_bytes 4 (zlen payload) ++ [type] ++ payload ++ rest.
Proof.
  intros Hp Ht. pose proof (zlen_nonneg payload). unfold message_ctor. cbv zeta.
  pose proof (zlen_vb_new (MESSAGE + zlen payload)) as Hv. unfold MESSAGE in *. specialize (Hv ltac:(lia)).
  set (b := vb_new page (6 + zlen payload)) in *. set (n := zlen b) in *.
  assert (ztake 0 b = [] /\ zlen b = n) as S0 by (split; [by apply ztake_neg|done]).
  apply (store_next 0 [0]) in S0 as S1; [|lia|change (zlen [0]) with 1; lia]. change (0 + zlen [0]) with 1 in S1.
  apply (store_next 1 (le_bytes 4 (ntoh32 (u32 (zlen payload))))) in S1 as S2; [|lia|rewrite zlen_le_bytes; lia].
  rewrite zlen_le_bytes in S2. change (1 + Z.of_nat 4) with 5 in S2.
  apply (store_next 5 [u8 type]) in S2 as S3; [|lia|change (zlen [u8 type]) with 1; lia]. change (5 + zlen [u8 type]) with 6 in S3.
  apply (store_next 6 payload) in S3 as [S4 Hlen]; [|lia|lia]. set (r := splice 6 payload _) in *.
  exists (zdrop (6 + zlen payload) r). rewrite <- (ztake_zdrop (6 + zlen payload) r) at 1. rewrite S4.
  assert (u8 type = type) as -> by (by apply Z.mod_small). change ntoh32 with hton32. rewrite hton_bytes, u32_small by lia.
  rewrite app_nil_l, <- !app_assoc. done.
Qed.

Lemma command_msg_bytes c i ts :
  0 <= i < 2 ^ 32 -> zlen ts < 2 ^ 28 ->
  exists rest, command_msg page c i ts = command_bytes c i ts ++ rest.
Proof.
  intros Hi Hts. pose proof (zlen_nonneg ts). unfold command_msg. cbv zeta.
  pose proof (zlen_vb_new (MESSAGE + COMMAND_MSG + 4 * zlen ts)) as Hv. unfold MESSAGE, COMMAND_MSG in *. specialize (Hv ltac:(lia)).
  set (b := vb_new page (6 + 9 + 4 * zlen ts)) in *. set (n := zlen b) in *.
  assert (ztake 15 (zrep 15 0 ++ zdrop 15 b) = zrep 15 0) as S0 by (by apply ztake_app_exact).
  assert (b = zrep 15 0 ++ zdrop 15 b) as Hb.
  { unfold b, vb_new. pose proof (wcap_bounds page Hpage (6 + 9 + 4 * zlen ts)). unfold zrep, zdrop.
    rewrite drop_replicate, <- replicate_add. f_equal. lia. }
  set (len := le_bytes 4 (hton32 (u32 (9 + 4 * zlen ts)))). set (idb := le_bytes 4 (hton32 i)). set (cnt := le_bytes 4 (hton32 (u32 (zlen ts)))).
  assert (zlen len = 4 /\ zlen idb = 4 /\ zlen cnt = 4) as (Hl1&Hl2&Hl3) by (unfold len, idb, cnt; rewrite !zlen_le_bytes; done).
  set (b5 := splice 7 idb _).
  assert (ztake 15 b5 = [0] ++ len ++ [COMMAND] ++ [u8 c] ++ idb ++ zrep 4 0 /\ zlen b5 = n) as [P5 N5].
  { unfold b5. split.
    - rewrite Hb. clearbody len idb. clear -Hl1 Hl2. explode Hl1. explode Hl2. reflexivity.
    - clearbody len idb. splice_lens. apply splice_len; [done|lia|change (zlen [0]) with 1; lia]. }
  destruct (put_targets_spec ts 0 b5 n) as [N6 P6]; [lia|done|lia|]. rewrite Z.add_0_l, Z.mul_0_r, Z.add_0_r, P5 in P6.
  set (b6 := put_targets 0 ts b5) in *.
  pose proof (splice_within ([0] ++ len ++ [COMMAND] ++ [u8 c] ++ idb) (zrep 4 0) cnt (concat (map (be_bytes 4) ts)) b6 11) as P7.
  assert (zlen (([0] ++ len ++ [COMMAND] ++ [u8 c] ++ idb) ++ zrep 4 0 ++ concat (map (be_bytes 4) ts)) = 15 + 4 * zlen ts) as Hz.
  { rewrite !zlen_app, zlen_targets, !zlen_cons, !zlen_nil, zlen_zrep. lia. }
  rewrite Hz in P7. specialize (P7 ltac:(rewrite P6, <- !app_assoc; reflexivity)).
  specialize (P7 ltac:(rewrite !zlen_app, !zlen_cons, !zlen_nil; lia) ltac:(rewrite zlen_zrep; lia)).
  exists (zdrop (15 + 4 * zlen ts) (splice 11 cnt b6)). rewrite <- (ztake_zdrop (15 + 4 * zlen ts) (splice 11 cnt b6)) at 1. f_equal. rewrite P7.
  unfold command_bytes, len, idb, cnt, COMMAND_MSG. rewrite !hton_bytes, !u32_small by lia. by rewrite <- !app_assoc.
Qed.
End Layout.

(** ** Reading back *)

Lemma ntoh_be v : 0 <= v < 2 ^ 32 -> ntoh32 (le_val (be_bytes 4 v)) = v.
Proof. intros. rewrite <- hton_bytes. by apply ntoh_field. Qed.

Definition is_u32 (v : Z) : Prop := 0 <= v < 2 ^ 32.

Lemma read_targets_spec ts : forall k pre rest,
  Forall is_u32 ts -> zlen pre = 15 + 4 * k ->
  read_targets (length ts) k (pre ++ concat (map (be_bytes 4) ts) ++ rest) = ts.
Proof.
  induction ts as [|t ts IH]; intros k pre rest Hf Hk; [done|]. apply Forall_cons in Hf as [Ht Hf]. cbn [length read_targets].
  change (concat (map (be_bytes 4) (t :: ts))) with (be_bytes 4 t ++ concat (map (be_bytes 4) ts)). f_equal.
  - rewrite <- app_assoc. rewrite slice_app_mid by (rewrite ?zlen_be_bytes; lia). by apply ntoh_be.
  - rewrite <- app_assoc, app_assoc. apply IH; [done|]. rewrite zlen_app, zlen_be_bytes. lia.
Qed.

(** The fields of a command message in memory that goes on with [rest]. *)
Lemma command_fields c i ts rest :
  0 <= c < 256 -> is_u32 i -> Forall is_u32 ts -> zlen ts < 2 ^ 28 ->
  let b := command_bytes c i ts ++ rest in
  ctrl_version b = 0 /\ ctrl_type b = COMMAND /\ ctrl_length b = COMMAND_MSG + 4 * zlen ts /\ get_command b = c /\
  get_message_id b = i /\ target_cnt b = zlen ts /\ get_targets b = ts.
Proof.
  intros Hc Hi Hf Hts b. pose proof (zlen_nonneg ts).
  assert (target_cnt b = zlen ts) as Ht by (apply (ntoh_be (zlen ts)); lia).
  split_and!; try done.
  - apply (ntoh_be (COMMAND_MSG + 4 * zlen ts)). unfold COMMAND_MSG. lia.
  - change (u8 c = c). by apply Z.mod_small.
  - apply (ntoh_be i Hi).
  - unfold get_targets. rewrite Ht. unfold zlen. rewrite Nat2Z.id.
    unfold b, command_bytes. rewrite !app_assoc. rewrite <- (app_assoc _ (concat _) rest).
    apply read_targets_spec; [done|]. rewrite !zlen_app, !zlen_be_bytes. done.
Qed.

(** ** Properties *)

(** C35. Command messages round trip: the command, message id and targets given to
    the constructor are what the accessors return, the message is recognised as
    a command message, and what serialize names as its bytes is exactly the
    packed big-endian structure. *)
Theorem command_roundtrip page c i ts :
  0 < page <= 2 ^ 62 -> 0 <= c < 256 -> is_u32 i -> Forall is_u32 ts -> zlen ts < 2 ^ 28 ->
  let b := command_msg page c i ts in
  deserialize b = inl (Command_msg b) /\ get_command b = c /\ get_message_id b = i /\ get_targets b = ts /\
  ztake (snd (serialize b)) (fst (serialize b)) = command_bytes c i ts.
Proof.
  intros Hp Hc Hi Hf Hts b. destruct (command_msg_bytes page Hp c i ts Hi Hts) as [rest Hb].
  destruct (command_fields c i ts rest Hc Hi Hf Hts) as (_&Hty&Hl&Hcm&Hid&_&Htg). fold b in Hb. rewrite <- Hb in *.
  unfold deserialize, serialize. rewrite Hty. split_and!; try done. simpl fst. simpl snd. rewrite Hl, Hb. apply ztake_app_exact.
  rewrite zlen_command_bytes. lia.
Qed.

Lemma command_roundtrip_witness : get_targets (command_msg 4096 COMMAND_SEND_MSG 7 [1; 70000]) = [1; 70000].
Proof. apply (command_roundtrip 4096 COMMAND_SEND_MSG 7 [1; 70000]); [lia|vm_compute; split; congruence..|repeat constructor; vm_compute; congruence|reflexivity]. Defined.

(** Changing the targets keeps the rest: after targets(ts') a command message
    has the new targets, in place or in a new buffer, and the command and
    message id it had. *)
Theorem set_targets_keeps page c i ts ts' :
  0 < page <= 2 ^ 62 -> 0 <= c < 256 -> is_u32 i -> Forall is_u32 ts -> zlen ts < 2 ^ 28 -> Forall is_u32 ts' -> zlen ts' < 2 ^ 28 ->
  let b := set_targets page ts' (command_msg page c i ts) in
  get_targets b = ts' /\ get_command b = c /\ get_message_id b = i /\ ztake (snd (serialize b)) (fst (serialize b)) = command_bytes c i ts'.
Proof.
  intros Hp Hc Hi Hf Hts Hf' Hts' b. destruct (command_msg_bytes page Hp c i ts Hi Hts) as [rest Hb].
  destruct (command_fields c i ts rest Hc Hi Hf Hts) as (_&_&_&Hcm&Hid&Htc&_). rewrite <- Hb in *.
  assert (exists rest', b = command_bytes c i ts' ++ rest') as [rest' Hb'].
  { unfold b, set_targets. rewrite Htc, Hcm, Hid. destruct (Z.eqb_spec (zlen ts') (zlen ts)) as [He|]; [|by apply command_msg_bytes].
    set (m := command_msg page c i ts) in *. pose proof (zlen_nonneg ts). pose proof (zlen_nonneg rest).
    assert (zlen m = 15 + 4 * zlen ts + zlen rest) as Hm by (rewrite Hb, zlen_app, zlen_command_bytes; unfold MESSAGE, COMMAND_MSG; lia).
    destruct (put_targets_spec ts' 0 m (zlen m)) as [Hz Ht]; [lia|done|lia|].
    exists (zdrop (15 + 4 * (0 + zlen ts')) (put_targets 0 ts' m)). rewrite <- (ztake_zdrop (15 + 4 * (0 + zlen ts')) (put_targets 0 ts' m)) at 1.
    f_equal. rewrite Ht, Hb. change (15 + 4 * 0) with 15. unfold command_bytes. by rewrite He, !app_assoc. }
  destruct (command_fields c i ts' rest' Hc Hi Hf' Hts') as (_&_&Hl&Hcm'&Hid'&_&Htg). rewrite <- Hb' in *.
  split_and!; try done. unfold serialize. simpl fst. simpl snd. rewrite Hl, Hb'. apply ztake_app_exact. rewrite zlen_command_bytes. lia.
Qed.

Lemma set_targets_keeps_witness :
  get_targets (set_targets 4096 [9] (command_msg 4096 COMMAND_SEND_MSG 7 [1; 70000])) = [9] /\
  get_message_id (set_targets 4096 [9; 8] (command_msg 4096 COMMAND_SEND_MSG 7 [1; 70000])) = 7.
Proof.
  assert (Forall is_u32 [1; 70000]) as H1 by (repeat constructor; vm_compute; congruence).
  assert (Forall is_u32 [9]) as H2 by (repeat constructor; vm_compute; congruence).
  assert (Forall is_u32 [9; 8]) as H3 by (repeat constructor; vm_compute; congruence).
  assert (is_u32 7) as H4 by (vm_compute; split; congruence). assert (0 <= COMMAND_SEND_MSG < 256) as H5 by (vm_compute; split; congruence).
  split.
  - exact (proj1 (set_targets_keeps 4096 COMMAND_SEND_MSG 7 [1; 70000] [9] ltac:(lia) H5 H4 H1 ltac:(reflexivity) H2 ltac:(reflexivity))).
  - exact (proj1 (proj2 (proj2 (set_targets_keeps 4096 COMMAND_SEND_MSG 7 [1; 70000] [9; 8] ltac:(lia) H5 H4 H1 ltac:(reflexivity) H3 ltac:(reflexivity))))).
Defined.

(** bitcoin_msg carries its payload: payload() of a message, built or after a
    new payload was stored over a shorter or longer one, begins with the bytes
    given, and serialize covers exactly header and payload. *)
Theorem bitcoin_msg_payload page p q :
  0 < page <= 2 ^ 62 -> zlen p < 2 ^ 32 -> zlen q < 2 ^ 32 ->
  let whole p b := ctrl_type b = BITCOIN_PACKED_MESSAGE /\ ctrl_length b = zlen p /\ ztake (zlen p) (get_payload b) = p /\
                   snd (serialize b) = MESSAGE + zlen p in
  whole p (bitcoin_msg page p) /\ whole q (set_payload page q (bitcoin_msg page p)).
Proof.
  intros Hp Hpl Hql whole. pose proof (zlen_nonneg p). pose proof (zlen_nonneg q).
  assert (forall p b rest, zlen p < 2 ^ 32 -> b = [0] ++ be_bytes 4 (zlen p) ++ [BITCOIN_PACKED_MESSAGE] ++ p ++ rest -> whole p b) as Hw.
  { intros p0 b rest Hz ->. pose proof (zlen_nonneg p0).
    assert (ctrl_length ([0] ++ be_bytes 4 (zlen p0) ++ [BITCOIN_PACKED_MESSAGE] ++ p0 ++ rest) = zlen p0) as Hl by (apply (ntoh_be (zlen p0)); lia).
    unfold whole, serialize. cbn [snd]. rewrite Hl. split_and!; [done|done| |lia].
    change (ztake (zlen p0) (p0 ++ rest) = p0). by apply ztake_app_exact. }
  destruct (message_bytes page Hp BITCOIN_PACKED_MESSAGE p Hpl) as [rest Hb]; [done|]. fold (bitcoin_msg page p) in Hb.
  split; [by eapply Hw|]. destruct (Hw p _ rest Hpl Hb) as (_&Hl&_). set (b := bitcoin_msg page p) in *.
  unfold set_payload. rewrite Hl. cbv zeta. set (b1 := if zlen q =? zlen p then b else _).
  assert (ztake 6 b1 = [0] ++ be_bytes 4 (zlen p) ++ [BITCOIN_PACKED_MESSAGE] /\ 6 + zlen q <= zlen b1) as [Hh Hz].
  { unfold b1. assert (zlen b = 6 + zlen p + zlen rest) as Hzb by (rewrite Hb, !zlen_app, zlen_be_bytes, !zlen_cons, !zlen_nil; lia). pose proof (zlen_nonneg rest).
    destruct (Z.eqb_spec (zlen q) (zlen p)); [split; [by rewrite Hb|lia]|].
    pose proof (wcap_bounds page Hp (zlen q + MESSAGE) ltac:(unfold MESSAGE; lia)) as Hwc. unfold MESSAGE in *.
    split; [|rewrite zlen_vb_realloc by lia; lia]. unfold vb_realloc. rewrite resize_take by lia. by rewrite Hb. }
  set (b2 := splice 6 q b1). assert (ztake (6 + zlen q) b2 = ([0] ++ be_bytes 4 (zlen p) ++ [BITCOIN_PACKED_MESSAGE]) ++ q) as H2.
  { unfold b2. rewrite splice_take by lia. by rewrite Hh. }
  pose proof (splice_within [0] (be_bytes 4 (zlen p)) (le_bytes 4 (ntoh32 (u32 (zlen q)))) ([BITCOIN_PACKED_MESSAGE] ++ q) b2 1) as H3.
  assert (zlen ([0] ++ be_bytes 4 (zlen p) ++ [BITCOIN_PACKED_MESSAGE] ++ q) = 6 + zlen q) as Hn by (rewrite !zlen_app, zlen_be_bytes, !zlen_cons, !zlen_nil; lia).
  rewrite Hn in H3. specialize (H3 ltac:(rewrite H2, <- !app_assoc; reflexivity) ltac:(reflexivity) ltac:(by rewrite zlen_le_bytes, zlen_be_bytes)).
  apply Hw with (zdrop (6 + zlen q) (splice 1 (le_bytes 4 (ntoh32 (u32 (zlen q)))) b2)); [done|].
  rewrite <- (ztake_zdrop (6 + zlen q) (splice 1 _ b2)) at 1. rewrite H3. change ntoh32 with hton32. rewrite hton_bytes, u32_small by lia.
  by rewrite <- !app_assoc.
Qed.

Lemma bitcoin_msg_payload_witness : ztake 2 (get_payload (set_payload 4096 [8; 9] (bitcoin_msg 4096 [1; 2; 3]))) = [8; 9].
Proof. destruct (bitcoin_msg_payload 4096 [1; 2; 3] [8; 9]) as (_&_&_&H&_); [lia|reflexivity|reflexivity|]. exact H. Defined.

(** The local address of a connect message is read from the wrong place:
    local_addr() returns the last eight bytes of the remote address followed by
    the first eight of the local one, because the offset is the size of a
    pointer; the remote address is read back as given. *)
Theorem connect_local_addr_wrong page remote local :
  0 < page <= 2 ^ 62 -> zlen remote = SOCKADDR_IN -> zlen local = SOCKADDR_IN ->
  get_remote_addr (connect_msg page remote local) = remote /\
  get_local_addr (connect_msg page remote local) = zdrop 8 remote ++ ztake 8 local.
Proof.
  intros Hp Hr Hl. unfold connect_msg. destruct (message_bytes page Hp CONNECT (zrep (SOCKADDR_IN * 2) 0)) as [rest ->]; [done|done|].
  unfold SOCKADDR_IN in Hr, Hl. explode Hr. explode Hl. split; reflexivity.
Qed.

Lemma connect_local_addr_wrong_witness :
  get_local_addr (connect_msg 4096 (zrep 16 1) (zrep 16 2)) = zrep 8 1 ++ zrep 8 2.
Proof. apply (connect_local_addr_wrong 4096 (zrep 16 1) (zrep 16 2)); [lia|reflexivity|reflexivity]. Defined.
