(* ===== verification/EasyMsg.v ===== *)
(** * ctrl::easy message objects (shared/src/connector.cpp, shared/includes/connector.hpp)

    CtrlMsg has a control message as the bytes of its buffer. Here the messages
    are objects: each has a wrapped_buffer, copies of a message share its memory
    until one of them is changed, and the member functions go through ptr() and
    const_ptr() on the heap of CowHeap. An object is named by its buffer. *)

From S2P Require Import Prelude Bytes CowHeap WrappedBuffer Net.
From S2P Require Import CtrlMsg.

(** Assignments through one pointer, in order. *)
Fixpoint stores (p : Z) (l : list (Z * list Z)) : prog world unit :=
  match l with
  | [] => ret tt
  | (off, d) :: l => do! copy_into p off d in stores p l
  end.

(** The body of a constructor: the member is destroyed when it throws. *)
Definition ctor_body (x : Z) (body : prog world unit) : prog world Z := fun w =>
  match body w with
  | Ret _ w' => Ret x w'
  | Raise e w' => match wrapped_dtor x w' with Ret _ w'' => Raise e w'' | Raise e' w'' => Raise e' w'' | Fault f => Fault f end
  | Fault f => Fault f
  end.

Section Objects.
Context (page : Z).

(** ** class message *)

(** message(type, payload, payload_length); both constructors *)
Definition easy_message_ctor (type : Z) (payload : list Z) : prog world Z :=
  let! x := wrapped_ctor page 1 (u64 (MESSAGE + zlen payload)) in
  ctor_body x
    (let! p := wrapped_ptr x in
     stores p [(0, [0]); (1, le_bytes 4 (ntoh32 (u32 (zlen payload)))); (5, [u8 type]); (6, payload)]).

(** message(const wrapped_buffer<uint8_t> &) *)
Definition easy_contents (contents : Z) : prog world Z := wrapped_copy contents.

(** buffer = other.buffer: the parameter of the buffer's operator= is a copy. *)
Definition easy_buffer_assign (x other : Z) : prog world unit :=
  let! c := wrapped_copy other in wrapped_assign x c.

(** How the objects of a class are copied. *)
Record copying := Copying {
  from_contents : Z -> prog world Z; move_ctor : Z -> prog world Z; copy_ctor : Z -> prog world Z;
  assign : Z -> Z -> prog world unit }.

(** The base class: the constructors copy the other's buffer, that from a
    temporary too. *)
Definition message_copying : copying := Copying easy_contents wrapped_copy wrapped_copy easy_buffer_assign.
(** The derived classes hand the buffer to message(const wrapped_buffer &). *)
Definition register_copying : copying := Copying easy_contents easy_contents easy_contents easy_buffer_assign.
Definition bitcoin_copying : copying := Copying easy_contents easy_contents easy_contents easy_buffer_assign.
Definition connect_copying : copying := Copying easy_contents easy_contents easy_contents easy_buffer_assign.
Definition command_copying : copying := Copying easy_contents easy_contents easy_contents easy_buffer_assign.

Inductive easy_class := Message | RegisterMsg | BitcoinMsg | ConnectMsg | CommandMsg.

Definition copying_of (k : easy_class) : copying :=
  match k with
  | Message => message_copying | RegisterMsg => register_copying | BitcoinMsg => bitcoin_copying
  | ConnectMsg => connect_copying | CommandMsg => command_copying
  end.

(** A field through const_ptr() *)
Definition easy_field (x off n : Z) : prog world (list Z) :=
  let! p := wrapped_const_ptr x in load_at p off n.

(** message::serialize *)
Definition easy_serialize (x : Z) : prog world (Z * Z) :=
  let! f := easy_field x 1 4 in
  let! c := wrapped_copy x in
  ret (c, ntoh32 (le_val f) + MESSAGE).

(** message::deserialize *)
Definition easy_deserialize (buffer : Z) : prog world (easy_class * Z) :=
  let! f := easy_field buffer 5 1 in
  let t := le_val f in
  if t =? BITCOIN_PACKED_MESSAGE then let! x := from_contents bitcoin_copying buffer in ret (BitcoinMsg, x)
  else if t =? COMMAND then let! x := from_contents command_copying buffer in ret (CommandMsg, x)
  else if t =? REGISTER then let! x := from_contents register_copying buffer in ret (RegisterMsg, x)
  else if t =? CONNECT then let! x := from_contents connect_copying buffer in ret (ConnectMsg, x)
  else raise (RuntimeError "Unknown type").

(** message::type *)
Definition easy_type (x : Z) : prog world Z := let! f := easy_field x 5 1 in ret (le_val f).
Definition easy_set_type (x t : Z) : prog world unit := let! p := wrapped_ptr x in stores p [(5, [u8 t])].

(** ** The derived classes *)

Definition easy_register : prog world Z := easy_message_ctor REGISTER [].
Definition easy_bitcoin (payload : list Z) : prog world Z := easy_message_ctor BITCOIN_PACKED_MESSAGE payload.

(** bitcoin_msg::payload(new_payload, length) *)
Definition easy_set_payload (x : Z) (new_payload : list Z) : prog world unit :=
  let! f := easy_field x 1 4 in
  do! (if negb (zlen new_payload =? ntoh32 (le_val f)) then wrapped_realloc page 1 x (u64 (zlen new_payload + MESSAGE)) else ret tt) in
  let! p := wrapped_ptr x in
  stores p [(6, new_payload); (1, le_bytes 4 (ntoh32 (u32 (zlen new_payload))))].

Definition easy_connect (remote local : list Z) : prog world Z :=
  let! x := easy_message_ctor CONNECT (zrep (SOCKADDR_IN * 2) 0) in
  ctor_body x (let! p := wrapped_ptr x in stores p [(6, remote); (6 + SOCKADDR_IN, local)]).

Definition easy_remote_addr (x : Z) : prog world (list Z) := easy_field x 6 SOCKADDR_IN.
Definition easy_set_remote_addr (x : Z) (a : list Z) : prog world unit := let! p := wrapped_ptr x in stores p [(6, a)].
(** The offset is the size of a pointer. *)
Definition easy_local_addr (x : Z) : prog world (list Z) := easy_field x (6 + 8) SOCKADDR_IN.
Definition easy_set_local_addr (x : Z) (a : list Z) : prog world unit :=
  let! p := wrapped_ptr x in stores p [(6 + SOCKADDR_IN, a)].

(** cmsg->targets[i] = hton(targets[i]) from [i] on *)
Fixpoint target_stores (i : Z) (targets : list Z) : list (Z * list Z) :=
  match targets with
  | [] => []
  | t :: targets => (15 + 4 * i, le_bytes 4 (hton32 t)) :: target_stores (i + 1) targets
  end.

(** command_msg(command, message_id, targets): the buffer is copied from a
    temporary, which is destroyed before the body runs. *)
Definition easy_command (command message_id : Z) (targets : list Z) : prog world Z :=
  let! t := wrapped_ctor page 1 (u64 (MESSAGE + COMMAND_MSG + 4 * zlen targets)) in
  let! x := scoped (wrapped_dtor t) (easy_contents t) in
  ctor_body x
    (let! p := wrapped_ptr x in
     stores p ([(0, [0]); (5, [COMMAND]); (1, le_bytes 4 (hton32 (u32 (COMMAND_MSG + 4 * zlen targets))));
                (6, [u8 command]); (7, le_bytes 4 (hton32 message_id))] ++
               target_stores 0 targets ++ [(11, le_bytes 4 (hton32 (u32 (zlen targets))))])).

Definition easy_get_command (x : Z) : prog world Z := let! f := easy_field x 6 1 in ret (le_val f).
Definition easy_set_command (x c : Z) : prog world unit := let! p := wrapped_ptr x in stores p [(6, [u8 c])].
Definition easy_message_id (x : Z) : prog world Z := let! f := easy_field x 7 4 in ret (ntoh32 (le_val f)).
Definition easy_set_message_id (x i : Z) : prog world unit := let! p := wrapped_ptr x in stores p [(7, le_bytes 4 (hton32 i))].

(** command_msg::targets() *)
Fixpoint load_targets (p : Z) (n : nat) (i : Z) : prog world (list Z) :=
  match n with
  | O => ret []
  | S n => let! f := load_at p (15 + 4 * i) 4 in
           let! ts := load_targets p n (i + 1) in
           ret (ntoh32 (le_val f) :: ts)
  end.
Definition easy_targets (x : Z) : prog world (list Z) :=
  let! p := wrapped_const_ptr x in
  let! f := load_at p 11 4 in
  load_targets p (Z.to_nat (ntoh32 (le_val f))) 0.

(** ** class registered_msg (connector/src/command_handler.cpp)

    The constructor from a message, on the [length] bytes of its payload. *)
Definition registered_ctor (payload : list Z) : prog world Z :=
  let! x := wrapped_ctor page 1 (zlen payload) in
  ctor_body x (let! p := wrapped_ptr x in stores p [(0, payload)]).
Definition registered_move (other : Z) : prog world Z := wrapped_move other.
Definition get_buffer (x : Z) : prog world Z := wrapped_copy x.

(** command_msg::targets(targets, cnt) *)
Definition easy_set_targets (x : Z) (targets : list Z) : prog world unit :=
  let! p := wrapped_ptr x in
  let! f := load_at p 11 4 in
  if zlen targets =? ntoh32 (le_val f) then stores p (target_stores 0 targets)
  else
    let! c := load_at p 6 1 in
    let! i := load_at p 7 4 in
    let! newobj := easy_command (le_val c) (ntoh32 (le_val i)) targets in
    scoped (wrapped_dtor newobj) (assign command_copying x newobj).
End Objects.

(** ** Lemmas *)

Definition apply_stores (l : list (Z * list Z)) (b : list Z) : list Z := fold_left (fun b s => splice (fst s) (snd s) b) l b.
Definition inside (n : Z) (s : Z * list Z) : Prop := 0 <= fst s /\ fst s + zlen (snd s) <= n.

Lemma zlen_apply_stores l b : Forall (inside (zlen b)) l -> zlen (apply_stores l b) = zlen b.
Proof.
  revert b. induction l as [|[off d] l IH]; intros b H; simpl; [done|]. inversion_clear H as [|? ? [H1 H2] Hl]. simpl in *.
  assert (zlen (splice off d b) = zlen b) as Hz by (apply zlen_splice; lia). rewrite IH, Hz; [done|by rewrite Hz].
Qed.

Lemma apply_target_stores i ts b : apply_stores (target_stores i ts) b = put_targets i ts b.
Proof. revert i b. induction ts as [|t ts IH]; intros i b; simpl; [done|]. apply IH. Qed.

Lemma target_stores_inside i ts n : 0 <= i -> 15 + 4 * (i + zlen ts) <= n -> Forall (inside n) (target_stores i ts).
Proof.
  revert i. induction ts as [|t ts IH]; intros i Hi Hn; simpl; constructor; rewrite zlen_cons in Hn; pose proof (zlen_nonneg ts).
  - split; simpl; rewrite ?zlen_le_bytes; lia.
  - apply IH; lia.
Qed.

Lemma stores_exclusive o p l w bs :
  WF w -> exclusive w o p bs -> Forall (inside (zlen bs)) l ->
  exists w', stores p l w = Ret tt w' /\ WF w' /\ frame o w w' /\ exclusive w' o p (apply_stores l bs).
Proof.
  revert w bs. induction l as [|[off d] l IH]; intros w bs HW Hx H; simpl.
  { exists w. split_and!; [done|done|apply frame_refl|done]. }
  inversion_clear H as [|? ? [H1 H2] Hl]. simpl in *.
  destruct (copy_into_exclusive w o p bs off d HW Hx H1 H2) as (w1&Hc&HW1&Hf1&Hx1). run_step Hc.
  assert (zlen (splice off d bs) = zlen bs) as Hz by (apply zlen_splice; lia).
  destruct (IH w1 (splice off d bs) HW1 Hx1) as (w2&Hs&HW2&Hf2&Hx2); [by rewrite Hz|].
  exists w2. split_and!; [done|done|by eapply frame_trans|done].
Qed.

Lemma load_at_block w b bs off n :
  blocks w !! b = Some bs -> 0 <= off -> off + n <= zlen bs -> load_at b off n w = Ret (slice off n bs) w.
Proof.
  intros Hb ? ?. unfold load_at, bind, load_block. rewrite Hb.
  by rewrite (proj2 (Z.leb_le 0 off)), (proj2 (Z.leb_le _ (zlen bs))) by lia.
Qed.

Lemma slice_byte off (b : list Z) : 0 <= off < zlen b -> le_val (slice off 1 b) = nth (Z.to_nat off) b 0.
Proof.
  intros Hz. unfold slice, ztake, zdrop. change (Z.to_nat 1) with 1%nat.
  assert (Z.to_nat off < length b)%nat as H by (unfold zlen in Hz; lia). revert H. clear Hz. generalize (Z.to_nat off) as n.
  induction b as [|c b IH]; intros n Hn; simpl in Hn; [lia|]. destruct n as [|n].
  - change (drop 0 (c :: b)) with (c :: b). change (take 1 (c :: b)) with [c]. cbn. lia.
  - apply IH. lia.
Qed.

Lemma zlen_one {A} (a : A) : zlen [a] = 1.
Proof. done. Qed.

(** The stores of a list lie inside the buffer. *)
Ltac fits :=
  repeat (apply Forall_cons; split; [split; cbn [fst snd]; rewrite ?zlen_le_bytes, ?zlen_one, ?zlen_zrep; lia|]); constructor.

(** A world and what its buffers hold. *)
Record holds (lim : Z) (m : gmap Z (list Z)) (w : world) : Prop := {
  h_wwf : WWF w; h_limit : limit w = lim; h_views : views w = m }.

Section Proofs.
Context (page : Z) (Hpage : 0 < page <= 2 ^ 62) (lim : Z).
Implicit Types (m : gmap Z (list Z)) (w : world).

Lemma wop_holds op m w :
  holds lim m w -> wop_ok page lim op m ->
  exists i w', wop_exec page op w = Ret i w' /\ holds lim (wop_spec page op i m) w' /\ (wop_creates op = true -> m !! i = None).
Proof.
  intros [HW Hl <-] Hok. rewrite <- Hl in Hok. destruct (wop_run page op w Hpage HW Hok) as (i&w'&Hr&HW'&Hl'&Hv&Hc).
  exists i, w'. split_and!; [done|split; congruence|done].
Qed.

Lemma ctor_holds n m w :
  holds lim m w -> 0 < n < 2 ^ 63 -> wcap page n <= lim ->
  exists x w', wrapped_ctor page 1 n w = Ret x w' /\ m !! x = None /\ holds lim (<[x := vb_new page n]> m) w'.
Proof. intros Hh Hn Hc. destruct (wop_holds (New n) m w Hh) as (x&w'&Hr&Hh'&Hf); [done|]. exists x, w'. split_and!; [done|by apply Hf|done]. Qed.

Lemma copy_holds y bs m w :
  holds lim m w -> m !! y = Some bs -> Z.of_nat (size m) + 1 < 2 ^ 64 ->
  exists x w', wrapped_copy y w = Ret x w' /\ m !! x = None /\ holds lim (<[x := bs]> m) w'.
Proof.
  intros Hh Hy Hs. destruct (wop_holds (CopyOf y) m w Hh) as (x&w'&Hr&Hh'&Hf); [split; [by eexists|done]|].
  exists x, w'. simpl in Hh'. rewrite Hy in Hh'. split_and!; [done|by apply Hf|done].
Qed.

Lemma dtor_holds x m w : holds lim m w -> is_Some (m !! x) -> exists w', wrapped_dtor x w = Ret tt w' /\ holds lim (delete x m) w'.
Proof.
  intros Hh Hx. destruct (wop_holds (Destroy x) m w Hh Hx) as (i&w'&Hr&Hh'&_). exists w'. split; [|done].
  simpl in Hr. by apply bind_Ret_inv in Hr as ([]&w1&Hd&[= _ <-]).
Qed.

Lemma assign_holds x y bs m w :
  holds lim m w -> is_Some (m !! x) -> m !! y = Some bs -> Z.of_nat (size m) + 1 < 2 ^ 64 ->
  exists w', easy_buffer_assign x y w = Ret tt w' /\ holds lim (<[x := bs]> m) w'.
Proof.
  intros Hh Hx Hy Hs. destruct (wop_holds (Assign x y) m w Hh) as (i&w'&Hr&Hh'&_); [split_and!; [done|by eexists|done]|].
  simpl in *. rewrite Hy in Hh'. exists w'. split; [|done]. by apply bind_Ret_inv in Hr as ([]&w1&Hd&[= _ <-]).
Qed.

Lemma realloc_holds x n bs m w :
  holds lim m w -> m !! x = Some bs -> 0 < n < 2 ^ 63 -> wcap page n <= lim ->
  exists w', wrapped_realloc page 1 x n w = Ret tt w' /\ holds lim (<[x := vb_realloc page n bs]> m) w'.
Proof.
  intros Hh Hx Hn Hl. destruct (wop_holds (Realloc x n) m w Hh) as (i&w'&Hr&Hh'&_); [split_and!; [by eexists|lia..]|].
  simpl in *. rewrite Hx in Hh'. exists w'. split; [|done]. by apply bind_Ret_inv in Hr as ([]&w1&Hd&[= _ <-]).
Qed.

(** ptr() and what can be done through it. *)
Lemma ptr_holds x bs m w :
  holds lim m w -> m !! x = Some bs -> 0 < zlen bs <= lim ->
  exists p w1, wrapped_ptr x w = Ret p w1 /\ holds lim m w1 /\ blocks w1 !! p = Some bs /\
    forall l, Forall (inside (zlen bs)) l -> exists w2, stores p l w1 = Ret tt w2 /\ holds lim (<[x := apply_stores l bs]> m) w2.
Proof.
  intros [HW Hl <-] Hx Hz. destruct (views_lookup w x bs Hx) as (v&Hv&->).
  destruct (wbytes_held w x v HW Hv) as (o&Hh&Hc). { intros E. rewrite E in Hz. change (@zlen Z []) with 0 in Hz. lia. }
  destruct (wrapped_ptr_spec page Hpage w x v o _ HW Hv Hh Hc) as (p&w1&Hp&HW1&Hf1&Hx1); [lia|].
  destruct (same_holder w w1 x v o (wbytes w v)) as [HWW1 Hv1]; [done..|by apply exclusive_content in Hx1|].
  rewrite insert_id in Hv1 by done. exists p, w1. split_and!; [done|split; [done|destruct Hf1 as [-> _]; done|done]| |].
  { by destruct Hx1 as (r&_&_&?). }
  intros l Hf. destruct (stores_exclusive o p l w1 _ HW1 Hx1 Hf) as (w2&Hs&HW2&Hf2&Hx2).
  pose proof (frame_trans _ _ _ _ Hf1 Hf2) as Hf12.
  destruct (same_holder w w2 x v o (apply_stores l (wbytes w v))) as [HWW2 Hv2]; [done..|by apply exclusive_content in Hx2|].
  exists w2. split; [done|]. split; [done|destruct Hf12 as [-> _]; done|done].
Qed.

Lemma edit_holds x l bs m w :
  holds lim m w -> m !! x = Some bs -> 0 < zlen bs <= lim -> Forall (inside (zlen bs)) l ->
  exists w', (let! p := wrapped_ptr x in stores p l) w = Ret tt w' /\ holds lim (<[x := apply_stores l bs]> m) w'.
Proof.
  intros Hh Hx Hz Hf. destruct (ptr_holds x bs m w Hh Hx Hz) as (p&w1&Hp&_&_&Hs). destruct (Hs l Hf) as (w2&Hr&Hh2).
  exists w2. split; [by run_step Hp|done].
Qed.

(** const_ptr() and what can be read through it. *)
Lemma const_ptr_holds x bs m w :
  holds lim m w -> m !! x = Some bs -> 0 < zlen bs -> exists p, wrapped_const_ptr x w = Ret p w /\ blocks w !! p = Some bs.
Proof.
  intros [HW Hl <-] Hx Hz. destruct (views_lookup w x bs Hx) as (v&Hv&->).
  destruct (wbytes_held w x v HW Hv) as (o&Hh&Hc). { intros E. rewrite E in Hz. done. }
  pose proof (wrapped_read_spec w x v o _ HW Hv Hh Hc) as Hr. unfold wrapped_read in Hr.
  apply bind_Ret_inv in Hr as (p&w1&Hp&Hb). unfold load_block in Hb.
  assert (w1 = w) as ->; [|exists p; split; [done|]; destruct (blocks w !! p); congruence].
  by destruct (blocks w1 !! p); [injection Hb|].
Qed.

Lemma field_holds x off n bs m w :
  holds lim m w -> m !! x = Some bs -> 0 <= off -> 0 < n -> off + n <= zlen bs -> easy_field x off n w = Ret (slice off n bs) w.
Proof.
  intros Hh Hx Ho Hn Hb. destruct (const_ptr_holds x bs m w Hh Hx) as (p&Hp&Hbs); [lia|].
  unfold easy_field. run_step Hp. by apply load_at_block.
Qed.
End Proofs.

(** ** Messages are values *)

(** What a client does with message objects. *)
Inductive eop :=
  | Build (type : Z) (payload : list Z)             (* message, register_msg, bitcoin_msg *)
  | BuildConnect (remote local : list Z)            (* connect_msg *)
  | BuildCommand (command message_id : Z) (targets : list Z) (* command_msg *)
  | FromBuffer (k : easy_class) (y : Z)             (* k(y's buffer) *)
  | MoveOf (k : easy_class) (y : Z)                 (* k(std::move(y)) *)
  | CopyOfMsg (k : easy_class) (y : Z)              (* k(y) *)
  | AssignMsg (k : easy_class) (x y : Z)            (* x = y *)
  | DestroyMsg (x : Z)
  | Serialize (x : Z)
  | SetType (x t : Z)
  | SetPayload (x : Z) (d : list Z)
  | SetRemote (x : Z) (a : list Z)
  | SetLocal (x : Z) (a : list Z)
  | SetCommand (x c : Z)
  | SetId (x i : Z)
  | SetTargets (x : Z) (ts : list Z).

(** The operation on the heap; it returns the new object, or the one changed. *)
Definition eop_exec (page : Z) (op : eop) : prog world Z :=
  match op with
  | Build t d => easy_message_ctor page t d
  | BuildConnect r l => easy_connect page r l
  | BuildCommand c i ts => easy_command page c i ts
  | FromBuffer k y => from_contents (copying_of k) y
  | MoveOf k y => move_ctor (copying_of k) y
  | CopyOfMsg k y => copy_ctor (copying_of k) y
  | AssignMsg k x y => do! assign (copying_of k) x y in ret x
  | DestroyMsg x => do! wrapped_dtor x in ret x
  | Serialize x => let! r := easy_serialize x in ret (fst r)
  | SetType x t => do! easy_set_type x t in ret x
  | SetPayload x d => do! easy_set_payload page x d in ret x
  | SetRemote x a => do! easy_set_remote_addr x a in ret x
  | SetLocal x a => do! easy_set_local_addr x a in ret x
  | SetCommand x c => do! easy_set_command x c in ret x
  | SetId x i => do! easy_set_message_id x i in ret x
  | SetTargets x ts => do! easy_set_targets page x ts in ret x
  end.

(** The operation on values: the functions of CtrlMsg, on one message. *)
Definition eop_spec (page : Z) (op : eop) (i : Z) (m : gmap Z (list Z)) : gmap Z (list Z) :=
  let val y := default [] (m !! y) in
  match op with
  | Build t d => <[i := message_ctor page t d]> m
  | BuildConnect r l => <[i := connect_msg page r l]> m
  | BuildCommand c id ts => <[i := command_msg page c id ts]> m
  | FromBuffer _ y | MoveOf _ y | CopyOfMsg _ y | Serialize y => <[i := val y]> m
  | AssignMsg _ x y => <[x := val y]> m
  | DestroyMsg x => delete x m
  | SetType x t => <[x := set_type t (val x)]> m
  | SetPayload x d => <[x := set_payload page d (val x)]> m
  | SetRemote x a => <[x := set_remote_addr a (val x)]> m
  | SetLocal x a => <[x := set_local_addr a (val x)]> m
  | SetCommand x c => <[x := set_command c (val x)]> m
  | SetId x id => <[x := set_message_id id (val x)]> m
  | SetTargets x ts => <[x := set_targets page ts (val x)]> m
  end.

(** A new message of [n] bytes can be had. *)
Definition room (page lim n : Z) (m : gmap Z (list Z)) : Prop :=
  n < 2 ^ 62 /\ wcap page n <= lim /\ Z.of_nat (size m) + 4 < 2 ^ 64.

(** Live operands of the class the function belongs to, and memory. *)
Definition eop_ok (page lim : Z) (op : eop) (m : gmap Z (list Z)) : Prop :=
  let live x n := exists b, m !! x = Some b /\ n <= zlen b <= lim in
  match op with
  | Build _ d => room page lim (MESSAGE + zlen d) m
  | BuildConnect r l => room page lim (MESSAGE + SOCKADDR_IN * 2) m /\ zlen r = SOCKADDR_IN /\ zlen l = SOCKADDR_IN
  | BuildCommand _ _ ts => room page lim (MESSAGE + COMMAND_MSG + 4 * zlen ts) m
  | FromBuffer _ y | MoveOf _ y | CopyOfMsg _ y => is_Some (m !! y) /\ room page lim 0 m
  | AssignMsg _ x y => is_Some (m !! x) /\ is_Some (m !! y) /\ room page lim 0 m
  | DestroyMsg x => is_Some (m !! x)
  | Serialize x => live x MESSAGE /\ room page lim 0 m
  | SetType x _ => live x MESSAGE
  | SetPayload x d => live x MESSAGE /\ room page lim (zlen d + MESSAGE) m /\
      (zlen d = ctrl_length (default [] (m !! x)) -> live x (MESSAGE + zlen d))
  | SetRemote x a | SetLocal x a => live x (MESSAGE + SOCKADDR_IN * 2) /\ zlen a = SOCKADDR_IN
  | SetCommand x _ | SetId x _ => live x (MESSAGE + COMMAND_MSG)
  | SetTargets x ts => live x (MESSAGE + COMMAND_MSG) /\ room page lim (MESSAGE + COMMAND_MSG + 4 * zlen ts) m /\
      (zlen ts = target_cnt (default [] (m !! x)) -> live x (MESSAGE + COMMAND_MSG + 4 * zlen ts))
  end.

Section Values.
Context (page : Z) (Hpage : 0 < page <= 2 ^ 62) (lim : Z).
Implicit Types (m : gmap Z (list Z)) (w : world).

(** A constructor: the buffer, then the body on it. *)
Lemma build_holds n l m w :
  holds lim m w -> 0 < n -> room page lim n m -> Forall (inside n) l ->
  exists x w', (let! x := wrapped_ctor page 1 n in ctor_body x (let! p := wrapped_ptr x in stores p l)) w = Ret x w' /\
    m !! x = None /\ holds lim (<[x := apply_stores l (vb_new page n)]> m) w'.
Proof.
  intros Hh Hn (H1&H2&H3) Hl. destruct (ctor_holds page Hpage lim n m w Hh) as (x&w1&Hc&Hf&Hh1); [lia|done|].
  pose proof (wcap_bounds page Hpage n ltac:(lia)) as Hw. assert (zlen (vb_new page n) = wcap page n) as Hz by (unfold vb_new; rewrite zlen_zrep; lia).
  destruct (edit_holds page Hpage lim x l (vb_new page n) _ w1 Hh1) as (w2&Hr&Hh2); [apply lookup_insert_eq|lia| |].
  { eapply Forall_impl; [exact Hl|]. intros s [? ?]. split; lia. }
  exists x, w2. rewrite insert_insert_eq in Hh2. split_and!; [|done|done]. run_step Hc. unfold ctor_body. by rewrite Hr.
Qed.

Lemma message_holds t d m w :
  holds lim m w -> room page lim (MESSAGE + zlen d) m ->
  exists x w', easy_message_ctor page t d w = Ret x w' /\ m !! x = None /\ holds lim (<[x := message_ctor page t d]> m) w'.
Proof.
  intros Hh Hr. pose proof (zlen_nonneg d). pose proof Hr as (?&_). unfold MESSAGE in *. unfold easy_message_ctor, MESSAGE. rewrite u64_small by lia.
  apply (build_holds (6 + zlen d) [(0, [0]); (1, le_bytes 4 (ntoh32 (u32 (zlen d)))); (5, [u8 t]); (6, d)]); [done|lia|done|].
  fits.
Qed.

Lemma connect_holds r l m w :
  holds lim m w -> eop_ok page lim (BuildConnect r l) m ->
  exists x w', easy_connect page r l w = Ret x w' /\ m !! x = None /\ holds lim (<[x := connect_msg page r l]> m) w'.
Proof.
  intros Hh (Hroom&Hr&Hl). unfold SOCKADDR_IN in *.
  destruct (message_holds CONNECT (zrep 32 0) m w Hh Hroom) as (x&w1&Hc&Hf&Hh1). set (b := message_ctor page CONNECT (zrep 32 0)) in *.
  assert (zlen b = wcap page 38) as Hz.
  { unfold b, message_ctor, MESSAGE. change (zlen (zrep 32 0)) with 32. pose proof (wcap_bounds page Hpage 38 ltac:(lia)).
    assert (zlen (vb_new page 38) = wcap page 38) as Hv by (unfold vb_new; rewrite zlen_zrep; lia).
    rewrite <- Hv. apply (zlen_apply_stores [(0, [0]); (1, le_bytes 4 (ntoh32 (u32 32))); (5, [u8 CONNECT]); (6, zrep 32 0)]). fits. }
  pose proof (wcap_bounds page Hpage 38 ltac:(lia)). destruct Hroom as (_&Hcap&_). change (MESSAGE + 16 * 2) with 38 in Hcap.
  destruct (edit_holds page Hpage lim x [(6, r); (6 + 16, l)] b _ w1 Hh1) as (w2&He&Hh2); [apply lookup_insert_eq|unfold MESSAGE in *; lia| |].
  { fits. }
  rewrite insert_insert_eq in Hh2. exists x, w2. split_and!; [|done|done]. unfold easy_connect, SOCKADDR_IN. run_step Hc. unfold ctor_body. by rewrite He.
Qed.

(** The two buffers of command_msg's constructor. *)
Lemma temporary_holds n m w :
  holds lim m w -> 0 < n -> room page lim n m ->
  exists t x w', (let! t := wrapped_ctor page 1 n in let! x := scoped (wrapped_dtor t) (easy_contents t) in ret (t, x)) w = Ret (t, x) w' /\
    m !! x = None /\ holds lim (<[x := vb_new page n]> m) w'.
Proof.
  intros Hh Hn (H1&H2&H3). destruct (ctor_holds page Hpage lim n m w Hh) as (t&w1&Hc&Hf&Hh1); [lia|done|].
  destruct (copy_holds page Hpage lim t (vb_new page n) _ w1 Hh1) as (x&w2&Hk&Hfx&Hh2); [apply lookup_insert_eq| |].
  { rewrite map_size_insert_None by done. lia. }
  apply lookup_insert_None in Hfx as [Hx Hne].
  destruct (dtor_holds page Hpage lim t _ w2 Hh2) as (w3&Hd&Hh3); [rewrite lookup_insert_ne, lookup_insert_eq by done; by eexists|].
  rewrite delete_insert_ne, delete_insert_id in Hh3 by done.
  exists t, x, w3. split_and!; [|done|done]. run_step Hc. erewrite bind_ret; [reflexivity|]. unfold scoped, easy_contents. by rewrite Hk, Hd.
Qed.

Lemma command_holds c i ts m w :
  holds lim m w -> room page lim (MESSAGE + COMMAND_MSG + 4 * zlen ts) m ->
  exists x w', easy_command page c i ts w = Ret x w' /\ m !! x = None /\ holds lim (<[x := command_msg page c i ts]> m) w'.
Proof.
  intros Hh Hr. pose proof (zlen_nonneg ts). pose proof Hr as (?&Hcap&_). unfold MESSAGE, COMMAND_MSG in *. set (n := 6 + 9 + 4 * zlen ts) in *.
  destruct (temporary_holds n m w Hh) as (t&x&w1&Ht&Hf&Hh1); [lia|done|].
  pose proof (wcap_bounds page Hpage n ltac:(lia)). assert (zlen (vb_new page n) = wcap page n) as Hz by (unfold vb_new; rewrite zlen_zrep; lia).
  set (l := [(0, [0]); (5, [COMMAND]); (1, le_bytes 4 (hton32 (u32 (9 + 4 * zlen ts)))); (6, [u8 c]); (7, le_bytes 4 (hton32 i))] ++
    target_stores 0 ts ++ [(11, le_bytes 4 (hton32 (u32 (zlen ts))))]).
  destruct (edit_holds page Hpage lim x l (vb_new page n) _ w1 Hh1) as (w2&He&Hh2); [apply lookup_insert_eq|lia| |].
  { apply Forall_app. split; [|apply Forall_app; split; [apply target_stores_inside; lia|]]; fits. }
  rewrite insert_insert_eq in Hh2.
  assert (apply_stores l (vb_new page n) = command_msg page c i ts) as Hl.
  { unfold l, apply_stores. rewrite !fold_left_app. fold (apply_stores (target_stores 0 ts)). by rewrite apply_target_stores. }
  rewrite Hl in Hh2. exists x, w2. split_and!; [|done|done]. unfold easy_command, MESSAGE, COMMAND_MSG. rewrite u64_small by lia. fold n l.
  apply bind_Ret_inv in Ht as (t'&w0&Hc&Ht). apply bind_Ret_inv in Ht as (x'&w0'&Hs&[= -> -> ->]). run_step Hc. run_step Hs.
  unfold ctor_body. by rewrite He.
Qed.

Lemma set_payload_holds x d m w :
  holds lim m w -> eop_ok page lim (SetPayload x d) m ->
  exists w', easy_set_payload page x d w = Ret tt w' /\ holds lim (<[x := set_payload page d (default [] (m !! x))]> m) w'.
Proof.
  intros Hh ((b&Hx&Hb)&(Hn&Hcap&_)&Hsame). pose proof (zlen_nonneg d). unfold MESSAGE in *. rewrite Hx in *. cbn [default] in *. unfold id in *.
  assert (exists b' w1, b' = (if zlen d =? ctrl_length b then b else vb_realloc page (zlen d + 6) b) /\ 6 + zlen d <= zlen b' <= lim /\
    holds lim (<[x := b']> m) w1 /\
    (if negb (zlen d =? ntoh32 (le_val (slice 1 4 b))) then wrapped_realloc page 1 x (u64 (zlen d + 6)) else ret tt) w = Ret tt w1) as (b'&w1&Eb&Hz&Hh1&Hr).
  { fold (ctrl_length b). destruct (Z.eqb_spec (zlen d) (ctrl_length b)) as [E|E]; simpl.
    - destruct (Hsame E) as (b0&[= <-]&?). exists b, w. split_and!; [done|lia|lia|by rewrite insert_id|done].
    - rewrite u64_small by lia. destruct (realloc_holds page Hpage lim x (zlen d + 6) b m w Hh Hx) as (w1&Hr&Hh1); [lia|done|].
      pose proof (wcap_bounds page Hpage (zlen d + 6) ltac:(lia)). exists (vb_realloc page (zlen d + 6) b), w1.
      rewrite zlen_vb_realloc by (done || lia). split_and!; [done|lia|lia|done|done]. }
  destruct (edit_holds page Hpage lim x [(6, d); (1, le_bytes 4 (ntoh32 (u32 (zlen d))))] b' _ w1 Hh1) as (w2&He&Hh2); [apply lookup_insert_eq|lia| |].
  { fits. }
  rewrite insert_insert_eq in Hh2. exists w2. split; [|unfold set_payload, MESSAGE; rewrite <- Eb; exact Hh2].
  unfold easy_set_payload, MESSAGE. erewrite bind_ret by (apply (field_holds lim x 1 4 b m w Hh Hx); lia). run_step Hr. exact He.
Qed.

Lemma set_targets_holds x ts m w :
  holds lim m w -> eop_ok page lim (SetTargets x ts) m ->
  exists w', easy_set_targets page x ts w = Ret tt w' /\ holds lim (<[x := set_targets page ts (default [] (m !! x))]> m) w'.
Proof.
  intros Hh ((b&Hx&Hb)&Hroom&Hsame). pose proof (zlen_nonneg ts). rewrite Hx in *. cbn [default] in *. unfold id in *.
  assert (0 < zlen b <= lim) as Hb' by (unfold MESSAGE, COMMAND_MSG in *; lia).
  destruct (ptr_holds page Hpage lim x b m w Hh Hx Hb') as (p&w1&Hp&Hh1&Hbs&Hst). unfold easy_set_targets. run_step Hp.
  assert (forall off n, 0 <= off -> off + n <= 15 -> load_at p off n w1 = Ret (slice off n b) w1) as Hld.
  { intros. apply load_at_block; unfold MESSAGE, COMMAND_MSG in *; [done|lia|lia]. }
  erewrite bind_ret by (apply Hld; lia). fold (target_cnt b). unfold set_targets. destruct (Z.eqb_spec (zlen ts) (target_cnt b)) as [E|E].
  { destruct (Hsame E) as (b0&[= <-]&Hz). destruct (Hst (target_stores 0 ts)) as (w2&Hs&Hh2); [|].
    { apply target_stores_inside; unfold MESSAGE, COMMAND_MSG in *; lia. }
    rewrite apply_target_stores in Hh2. by exists w2. }
  erewrite bind_ret by (apply Hld; lia). erewrite bind_ret by (apply Hld; lia).
  assert (le_val (slice 6 1 b) = get_command b) as ->.
  { apply (slice_byte 6). unfold MESSAGE, COMMAND_MSG in *. lia. }
  fold (get_message_id b). set (newval := command_msg page (get_command b) (get_message_id b) ts).
  destruct (command_holds (get_command b) (get_message_id b) ts m w1 Hh1 Hroom) as (y&w2&Hc&Hf&Hh2). fold newval in Hh2. run_step Hc.
  assert (x <> y) as Hne by congruence. destruct Hroom as (_&_&Hsz).
  destruct (assign_holds page Hpage lim x y newval _ w2 Hh2) as (w3&Ha&Hh3).
  { rewrite lookup_insert_ne by done. by eexists. } { apply lookup_insert_eq. } { rewrite map_size_insert_None by done. lia. }
  destruct (dtor_holds page Hpage lim y _ w3 Hh3) as (w4&Hd&Hh4); [rewrite lookup_insert_ne, lookup_insert_eq by done; by eexists|].
  rewrite delete_insert_ne, delete_insert_id in Hh4 by done.
  exists w4. split; [|done]. unfold scoped. cbn [assign command_copying]. by rewrite Ha, Hd.
Qed.
End Values.

(** C12. Message objects are values, although copies share memory: every
    constructor, copy, move, assignment, destruction and setter returns, and
    changes the bytes of the messages as the functions on byte strings do, those
    of the object named and of no other; a new object is really new. *)
Theorem easy_messages_are_values page op lim m w :
  0 < page <= 2 ^ 62 -> holds lim m w -> eop_ok page lim op m ->
  exists i w', eop_exec page op w = Ret i w' /\ holds lim (eop_spec page op i m) w' /\
    match op with
    | Build _ _ | BuildConnect _ _ | BuildCommand _ _ _ | FromBuffer _ _ | MoveOf _ _ | CopyOfMsg _ _ | Serialize _ => m !! i = None
    | _ => True
    end.
Proof.
  intros Hp Hh Hok.
  assert (forall y bs, m !! y = Some bs -> room page lim 0 m -> exists i w', wrapped_copy y w = Ret i w' /\ m !! i = None /\ holds lim (<[i := bs]> m) w') as Hcopy.
  { intros y bs Hy (_&_&Hs). apply (copy_holds page Hp lim y bs m w Hh Hy). lia. }
  assert (forall x n l, (exists b, m !! x = Some b /\ n <= zlen b <= lim) -> 0 < n -> Forall (inside n) l -> exists i w',
    (do! (let! p := wrapped_ptr x in stores p l) in ret x) w = Ret i w' /\ holds lim (<[x := apply_stores l (default [] (m !! x))]> m) w' /\ True) as Hedit.
  { intros x n l (b&Hx&Hb) Hn Hl. rewrite Hx. destruct (edit_holds page Hp lim x l b m w Hh Hx) as (w'&Hr&Hh'); [lia| |].
    { eapply Forall_impl; [exact Hl|]. intros s [? ?]. split; lia. }
    exists x, w'. split_and!; [by run_step Hr|done|done]. }
  destruct op as [t d|r l|c id ts|k y|k y|k y|k x y|x|x|x t|x d|x a|x a|x c|x id|x ts]; unfold eop_exec, eop_spec, eop_ok in *; cbv zeta in *.
  - destruct (message_holds page Hp lim t d m w Hh Hok) as (x&w'&?&?&?). by exists x, w'.
  - destruct (connect_holds page Hp lim r l m w Hh Hok) as (x&w'&?&?&?). by exists x, w'.
  - destruct (command_holds page Hp lim c id ts m w Hh Hok) as (x&w'&?&?&?). by exists x, w'.
  - destruct Hok as [[bs Hy] Hr]. rewrite Hy. destruct (Hcopy y bs Hy Hr) as (i&w'&?&?&?). exists i, w'. by destruct k.
  - destruct Hok as [[bs Hy] Hr]. rewrite Hy. destruct (Hcopy y bs Hy Hr) as (i&w'&?&?&?). exists i, w'. by destruct k.
  - destruct Hok as [[bs Hy] Hr]. rewrite Hy. destruct (Hcopy y bs Hy Hr) as (i&w'&?&?&?). exists i, w'. by destruct k.
  - destruct Hok as (Hx&[bs Hy]&_&_&Hs). rewrite Hy. destruct (assign_holds page Hp lim x y bs m w Hh Hx Hy) as (w'&Hr&Hh'); [lia|].
    exists x, w'. split_and!; [|done|done]. assert (assign (copying_of k) = easy_buffer_assign) as -> by (by destruct k). by run_step Hr.
  - destruct (dtor_holds page Hp lim x m w Hh Hok) as (w'&Hr&?). exists x, w'. split_and!; [by run_step Hr|done|done].
  - destruct Hok as [(b&Hx&Hb) Hr]. rewrite Hx. destruct (Hcopy x b Hx Hr) as (i&w'&Hc&?&?). exists i, w'. split_and!; [|done|done].
    assert (easy_serialize x w = Ret (i, ctrl_length b + MESSAGE) w') as Hs; [|by run_step Hs].
    unfold easy_serialize. erewrite bind_ret by (apply (field_holds lim x 1 4 b m w Hh Hx); unfold MESSAGE in *; lia). by run_step Hc.
  - apply (Hedit x MESSAGE [(5, [u8 t])] Hok); [done|]. unfold MESSAGE. fits.
  - destruct (set_payload_holds page Hp lim x d m w Hh Hok) as (w'&Hr&?). exists x, w'. split_and!; [by run_step Hr|done|done].
  - destruct Hok as [Hx Ha]. unfold MESSAGE, SOCKADDR_IN in *. apply (Hedit x (6 + 16 * 2) [(6, a)] Hx); [done|]. fits.
  - destruct Hok as [Hx Ha]. unfold MESSAGE, SOCKADDR_IN in *. apply (Hedit x (6 + 16 * 2) [(6 + 16, a)] Hx); [done|]. fits.
  - apply (Hedit x (MESSAGE + COMMAND_MSG) [(6, [u8 c])] Hok); [done|]. unfold MESSAGE, COMMAND_MSG. fits.
  - apply (Hedit x (MESSAGE + COMMAND_MSG) [(7, le_bytes 4 (hton32 id))] Hok); [done|]. unfold MESSAGE, COMMAND_MSG. fits.
  - destruct (set_targets_holds page Hp lim x ts m w Hh Hok) as (w'&Hr&?). exists x, w'. split_and!; [by run_step Hr|done|done].
Qed.

(** The targets of a copy are changed; the original keeps its own. *)
Lemma easy_messages_are_values_witness :
  exists x y w', (let! x := eop_exec 4096 (BuildCommand 3 1 [7]) in
                  let! y := eop_exec 4096 (CopyOfMsg CommandMsg x) in
                  do! eop_exec 4096 (SetTargets y [8; 9]) in ret (x, y)) (world0 1 1000 170) = Ret (x, y) w' /\
    holds 1000 {[ x := command_msg 4096 3 1 [7]; y := command_msg 4096 3 1 [8; 9] ]} w'.
Proof.
  assert (holds 1000 ∅ (world0 1 1000 170)) as H0 by (split; [apply world0_WWF|reflexivity|reflexivity]).
  destruct (easy_messages_are_values 4096 (BuildCommand 3 1 [7]) 1000 ∅ (world0 1 1000 170)) as (x&w1&H1&Hh1&_); [lia|exact H0| |].
  { vm_compute. repeat split; congruence. }
  unfold eop_spec in Hh1. set (b := command_msg 4096 3 1 [7]) in *.
  assert (size (<[x := b]> (∅ : gmap Z (list Z))) = 1%nat) as Hs1 by (by rewrite map_size_insert_None).
  destruct (easy_messages_are_values 4096 (CopyOfMsg CommandMsg x) 1000 _ w1 ltac:(lia) Hh1) as (y&w2&H2&Hh2&Hy).
  { split; [rewrite lookup_insert_eq; by eexists|]. unfold room. rewrite Hs1. vm_compute. repeat split; congruence. }
  unfold eop_spec in Hh2. cbv zeta in Hh2. rewrite lookup_insert_eq in Hh2. cbn [default] in Hh2. unfold Datatypes.id in Hh2.
  assert (size (<[y := b]> (<[x := b]> (∅ : gmap Z (list Z)))) = 2%nat) as Hs2 by (by rewrite map_size_insert_None, Hs1).
  destruct (easy_messages_are_values 4096 (SetTargets y [8; 9]) 1000 _ w2 ltac:(lia) Hh2) as (z&w3&H3&Hh3&_).
  { unfold eop_ok. cbv zeta. rewrite lookup_insert_eq. split; [exists b; split; [reflexivity|vm_compute; split; congruence]|].
    split; [unfold room; rewrite Hs2; vm_compute; repeat split; congruence|]. vm_compute. discriminate. }
  exists x, y, w3. split; [run_step H1; run_step H2; by run_step H3|].
  unfold eop_spec in Hh3. cbv zeta in Hh3. rewrite lookup_insert_eq, insert_insert_eq in Hh3.
  apply lookup_insert_None in Hy as [_ Hne]. rewrite (insert_insert_ne _ y x) in Hh3 by congruence. exact Hh3.
Defined.

(** ** Reading *)

Lemma load_targets_ok p bs n i w :
  blocks w !! p = Some bs -> 0 <= i -> 15 + 4 * (i + Z.of_nat n) <= zlen bs -> load_targets p n i w = Ret (read_targets n i bs) w.
Proof.
  intros Hb. revert i. induction n as [|n IH]; intros i Hi Hn; simpl; [done|].
  erewrite bind_ret by (apply load_at_block; [done|lia..]). by erewrite bind_ret by (apply IH; lia).
Qed.

Lemma load_targets_short p bs n i w :
  blocks w !! p = Some bs -> 0 <= i -> zlen bs < 15 + 4 * (i + Z.of_nat n) -> 15 + 4 * i <= zlen bs ->
  load_targets p n i w = Fault OutOfBounds.
Proof.
  intros Hb. revert i. induction n as [|n IH]; intros i Hi Hn Hz; simpl; [lia|].
  destruct (decide (15 + 4 * i + 4 <= zlen bs)) as [Hle|Hgt].
  - erewrite bind_ret by (apply load_at_block; [done|lia..]). unfold bind. by rewrite IH by lia.
  - unfold bind, load_at, load_block, bind. rewrite Hb.
    by rewrite (proj2 (Z.leb_le 0 _)), (proj2 (Z.leb_gt _ (zlen bs))) by lia.
Qed.

(** The getters read, without changing anything, what the functions on byte
    strings give. *)
Theorem easy_reads_exact lim m w x b :
  holds lim m w -> m !! x = Some b -> MESSAGE + COMMAND_MSG + 4 * target_cnt b <= zlen b ->
  easy_type x w = Ret (get_type b) w /\ easy_get_command x w = Ret (get_command b) w /\
  easy_message_id x w = Ret (get_message_id b) w /\ easy_targets x w = Ret (get_targets b) w.
Proof.
  intros Hh Hx Hz. assert (0 <= target_cnt b) as Ht by (unfold target_cnt, ntoh32; apply bswap_bound). unfold MESSAGE, COMMAND_MSG in *.
  split_and!.
  - unfold easy_type. erewrite bind_ret by (apply (field_holds lim x 5 1 b m w Hh Hx); lia). by rewrite slice_byte by lia.
  - unfold easy_get_command. erewrite bind_ret by (apply (field_holds lim x 6 1 b m w Hh Hx); lia). by rewrite slice_byte by lia.
  - unfold easy_message_id. by erewrite bind_ret by (apply (field_holds lim x 7 4 b m w Hh Hx); lia).
  - destruct (const_ptr_holds lim x b m w Hh Hx) as (p&Hp&Hb); [lia|]. unfold easy_targets. run_step Hp.
    erewrite bind_ret by (apply load_at_block; [done|lia..]). fold (target_cnt b). apply load_targets_ok; [done|lia|lia].
Qed.

Lemma easy_reads_exact_witness :
  exists x w, easy_command 4096 3 1 [7; 8] (world0 1 1000 170) = Ret x w /\ easy_targets x w = Ret [7; 8] w.
Proof.
  destruct (command_holds 4096 ltac:(lia) 1000 3 1 [7; 8] ∅ (world0 1 1000 170)) as (x&w&Hr&_&Hh).
  { split; [apply world0_WWF|reflexivity|reflexivity]. } { vm_compute. repeat split; congruence. }
  exists x, w. split; [exact Hr|].
  destruct (easy_reads_exact 1000 _ w x (command_msg 4096 3 1 [7; 8]) Hh) as (_&_&_&Ht); [apply lookup_insert_eq|vm_compute; congruence|exact Ht].
Defined.

(** A target count that is larger than the memory is believed. *)
Theorem easy_targets_overrun lim m w x b :
  holds lim m w -> m !! x = Some b -> MESSAGE + COMMAND_MSG <= zlen b < MESSAGE + COMMAND_MSG + 4 * target_cnt b ->
  easy_targets x w = Fault OutOfBounds.
Proof.
  intros Hh Hx Hz. unfold MESSAGE, COMMAND_MSG in *. destruct (const_ptr_holds lim x b m w Hh Hx) as (p&Hp&Hb); [lia|].
  unfold easy_targets. run_step Hp. erewrite bind_ret by (apply load_at_block; [done|lia..]). fold (target_cnt b).
  apply (load_targets_short p b); [done|lia|lia|lia].
Qed.

Lemma easy_targets_overrun_witness :
  exists x w, easy_message_ctor 4096 COMMAND [3; 0; 0; 0; 1; 0; 0; 1; 0] (world0 1 1000 170) = Ret x w /\ easy_targets x w = Fault OutOfBounds.
Proof.
  destruct (message_holds 4096 ltac:(lia) 1000 COMMAND [3; 0; 0; 0; 1; 0; 0; 1; 0] ∅ (world0 1 1000 170)) as (x&w&Hr&_&Hh).
  { split; [apply world0_WWF|reflexivity|reflexivity]. } { vm_compute. repeat split; congruence. }
  exists x, w. split; [exact Hr|].
  apply (easy_targets_overrun 1000 _ w x (message_ctor 4096 COMMAND [3; 0; 0; 0; 1; 0; 0; 1; 0]) Hh); [apply lookup_insert_eq|vm_compute; split; congruence].
Defined.

(** ** Registered messages *)

(** A registered message is a copy of the payload, and every use of it starts
    from those bytes: the buffer that get_buffer hands out shares memory with
    it, but what is stored through one is not seen through the other. *)
Theorem registered_is_kept page lim m w payload :
  0 < page <= 2 ^ 62 -> holds lim m w -> 0 < zlen payload -> room page lim (zlen payload) m ->
  exists x w1 y w2, registered_ctor page payload w = Ret x w1 /\ get_buffer x w1 = Ret y w2 /\ x <> y /\
    let value := splice 0 payload (vb_new page (zlen payload)) in
    holds lim (<[y := value]> (<[x := value]> m)) w2 /\
    forall off d, 0 <= off -> off + zlen d <= zlen value ->
    exists w3, wrapped_write y off d w2 = Ret tt w3 /\ holds lim (<[y := splice off d value]> (<[x := value]> m)) w3.
Proof.
  intros Hp Hh Hz Hr. pose proof Hr as (H1&Hcap&Hsz).
  destruct (build_holds page Hp lim (zlen payload) [(0, payload)] m w Hh Hz Hr) as (x&w1&Hc&Hf&Hh1); [fits|].
  change (apply_stores [(0, payload)] (vb_new page (zlen payload))) with (splice 0 payload (vb_new page (zlen payload))) in Hh1.
  set (value := splice 0 payload (vb_new page (zlen payload))) in *.
  destruct (copy_holds page Hp lim x value _ w1 Hh1) as (y&w2&Hk&Hy&Hh2); [apply lookup_insert_eq|rewrite map_size_insert_None by done; lia|].
  apply lookup_insert_None in Hy as [_ Hne]. exists x, w1, y, w2.
  split; [done|]. split; [done|]. split; [done|]. cbv zeta. fold value. split; [done|]. intros off d Ho Hd.
  assert (zlen value = wcap page (zlen payload)) as Hv.
  { pose proof (wcap_bounds page Hp (zlen payload) ltac:(lia)). assert (zlen (vb_new page (zlen payload)) = wcap page (zlen payload)) as E by (unfold vb_new; rewrite zlen_zrep; lia).
    unfold value. rewrite zlen_splice; lia. }
  pose proof (wcap_bounds page Hp (zlen payload) ltac:(lia)).
  destruct (edit_holds page Hp lim y [(off, d)] value _ w2 Hh2) as (w3&He&Hh3); [apply lookup_insert_eq|lia|fits|].
  rewrite insert_insert_eq in Hh3. exists w3. split; [|done]. unfold wrapped_write.
  apply bind_Ret_inv in He as (p&w4&Hptr&Hs). run_step Hptr. cbn [stores] in Hs. apply bind_Ret_inv in Hs as (u&w5&Hs&[= <-]). by destruct u.
Qed.

Lemma registered_is_kept_witness :
  exists x w1 y w2, registered_ctor 4096 [1; 2; 3] (world0 1 1000 170) = Ret x w1 /\ get_buffer x w1 = Ret y w2 /\ x <> y.
Proof.
  destruct (registered_is_kept 4096 1000 ∅ (world0 1 1000 170) [1; 2; 3]) as (x&w1&y&w2&H1&H2&H3&_).
  - lia.
  - split; [apply world0_WWF|reflexivity|reflexivity].
  - reflexivity.
  - vm_compute. repeat split; congruence.
  - exists x, w1, y, w2. split; [exact H1|]. split; [exact H2|exact H3].
Defined.
