(* ===== verification/CommandHandler.v ===== *)
(** * The control interface of the connector

    ctrl::handler and ctrl::accept_handler of connector/src/command_handler.cpp:
    clients register messages, ask for the connections, have messages sent to
    them, disconnect them and start new ones. The handlers of [BitcoinHandler]
    and [TorHandler] are what the commands act on; calls of g_log go to their
    log. What the kernel answers to new sockets, and the random numbers, are
    scripts in the state. *)

From stdpp Require Import pretty sorting.
From S2P Require Import Prelude.
From S2P Require Import Bytes.
From S2P Require Import WrappedBuffer.
From S2P Require Import Net.
From S2P Require Import ReadBuffer.
From S2P Require Import WriteBuffer.
From S2P Require Import Sha256.
From S2P Require Import BitcoinWire.
From S2P Require Import Logger.
From S2P Require Import Blacklist.
From S2P Require Import BitcoinHandler.
From S2P Require Import BitcoinPeer.
From S2P Require Import PeerSession.
From S2P Require Import TorHandler.
From S2P Require Import CtrlMsg.

(** ** Addresses on the wire *)

(** sockaddr_to_wire *)
Definition sockaddr_to_wire (ss : list Z) : list Z :=
  let wa := zrep WIRE_ADDR 0 in
  if ss_family ss =? AF_INET then
    splice 17 (ss_port ss) (splice 1 (sin_addr ss) (splice 0 [ADDR_FAMILY_IPV4] wa))
  else if ss_family ss =? AF_INET6 then
    splice 17 (ss_port ss) (splice 1 (sin6_addr ss) (splice 0 [ADDR_FAMILY_IPV6] wa))
  else wa.

(** wire_to_sockaddr *)
Definition wire_to_sockaddr (wa : list Z) : list Z :=
  let ss := zrep SOCKADDR_STORAGE 0 in
  let family := nth 0 wa 0 in
  if family =? ADDR_FAMILY_IPV4 then
    splice 2 (slice 17 2 wa) (splice 4 (slice 1 4 wa) (splice 0 (le_bytes 2 AF_INET) ss))
  else if (family =? ADDR_FAMILY_IPV6) || (family =? ADDR_FAMILY_ONION) then
    splice 2 (slice 17 2 wa) (splice 8 (slice 1 16 wa) (splice 0 (le_bytes 2 AF_INET6) ss))
  else ss.

(** ** State *)

(** class ctrl::handler; its state constants have the values of the bitcoin
    handler's RECV_HEADER, RECV_PAYLOAD, SEND_MESSAGE and masks. *)
Record ctrl_handler := CtrlHandler {
  ch_read : reader;
  ch_write : write_buffer;
  ch_state : Z;
  ch_id : Z;
  ch_regid : Z;
  ch_io : evio }.

(** What happens when a socket is made and connected: the address of the new
    handler object, socket's, connect's and getsockname's results, and what the
    peer will do. *)
Record dial := Dial { d_addr : Z; d_sock : Z + Z; d_connect : unit + Z; d_name : list Z + Z; d_kernel : sock }.

Record world := World {
  wnet : net;
  wtors : gmap Z tor;
  winactive_tors : list Z;
  g_messages : gmap Z (gmap Z (list Z));
  g_message_ids : Z;
  c_active : gmap Z ctrl_handler;
  c_inactive : gmap Z ctrl_handler;
  c_id_pool : Z;
  g_active_descriptors : Z;
  dials : list dial;
  nonces : list Z }.

(** A callback on [self]; [listed] says whether it is in g_active_handlers. *)
Record cstate := CState { self : ctrl_handler; listed : bool; wld : world }.

#[export] Instance cstate_reader : HasReader cstate := {|
  rdr s := ch_read (self s);
  set_rdr r s :=
    let h := self s in CState (CtrlHandler r (ch_write h) (ch_state h) (ch_id h) (ch_regid h) (ch_io h)) (listed s) (wld s);
  rdr_set r s := eq_refl |}.

Definition cupd (f : ctrl_handler -> ctrl_handler) : prog cstate unit := modify (fun s => CState (f (self s)) (listed s) (wld s)).
Definition with_cstate x h := CtrlHandler (ch_read h) (ch_write h) x (ch_id h) (ch_regid h) (ch_io h).
Definition with_cwrite w h := CtrlHandler (ch_read h) w (ch_state h) (ch_id h) (ch_regid h) (ch_io h).
Definition with_regid x h := CtrlHandler (ch_read h) (ch_write h) (ch_state h) (ch_id h) x (ch_io h).
Definition with_cio w h := CtrlHandler (ch_read h) (ch_write h) (ch_state h) (ch_id h) (ch_regid h) w.

Definition with_net n w := World n (wtors w) (winactive_tors w) (g_messages w) (g_message_ids w) (c_active w) (c_inactive w)
  (c_id_pool w) (g_active_descriptors w) (dials w) (nonces w).
Definition with_tors t i w := World (wnet w) t i (g_messages w) (g_message_ids w) (c_active w) (c_inactive w)
  (c_id_pool w) (g_active_descriptors w) (dials w) (nonces w).
Definition with_messages m w := World (wnet w) (wtors w) (winactive_tors w) m (g_message_ids w) (c_active w) (c_inactive w)
  (c_id_pool w) (g_active_descriptors w) (dials w) (nonces w).
Definition with_ids i w := World (wnet w) (wtors w) (winactive_tors w) (g_messages w) i (c_active w) (c_inactive w)
  (c_id_pool w) (g_active_descriptors w) (dials w) (nonces w).
Definition with_ctrls a i p w := World (wnet w) (wtors w) (winactive_tors w) (g_messages w) (g_message_ids w) a i
  p (g_active_descriptors w) (dials w) (nonces w).
Definition with_descriptors d w := World (wnet w) (wtors w) (winactive_tors w) (g_messages w) (g_message_ids w) (c_active w) (c_inactive w)
  (c_id_pool w) d (dials w) (nonces w).
Definition with_scripts d n w := World (wnet w) (wtors w) (winactive_tors w) (g_messages w) (g_message_ids w) (c_active w) (c_inactive w)
  (c_id_pool w) (g_active_descriptors w) d n.

Definition set_gl (g : globals) (w : world) : world :=
  let n := wnet w in with_net (Net g (conns n) (g_inactive_connection_handlers n) (g_blacklist n)) w.
Definition wgl (w : world) : globals := gl (wnet w).

Definition on_world {A} (c : prog world A) : prog cstate A := zoom wld (fun w s => CState (self s) (listed s) w) c.
Definition on_wgl {A} (c : prog globals A) : prog world A := zoom wgl set_gl c.
Definition on_wnet {A} (c : prog net A) : prog world A := zoom wnet with_net c.
Definition on_wtors {A} (c : prog tornet A) : prog world A :=
  zoom (fun w => TorNet (wgl w) (wtors w) (winactive_tors w))
       (fun t w => with_tors (tors t) (g_inactive_tor_handlers t) (set_gl (tgl t) w)) c.

Definition glog (e : log_event) : prog globals unit := modify (fun g => with_log (g_log g ++ [e]) g).
Definition wlog (e : log_event) : prog world unit := on_wgl (glog e).
Definition clog (e : log_event) : prog cstate unit := on_world (wlog e).

Definition next_dial : prog world dial := fun w =>
  match dials w with
  | d :: ds => Ret d (with_scripts ds (nonces w) w)
  | [] => Ret (Dial 0 (inr 24) (inl tt) (inr 9) (Sock [] [] [] 0)) w
  end.
Definition nonce_gen32 : prog world Z := fun w =>
  match nonces w with
  | n :: ns => Ret (u32 n) (with_scripts (dials w) ns w)
  | [] => Ret 0 w
  end.

(** Memory at [off]; reading outside is undefined. *)
Definition field {S} (off n : Z) (mem : list Z) : prog S (list Z) :=
  if zlen mem <? off + n then crash OutOfBounds else ret (slice off n mem).
Definition field32 {S} (off : Z) (mem : list Z) : prog S Z := let! b := field off 4 mem in ret (ntoh32 (le_val b)).

(** ** What is printed *)

Definition msg_text (m : list Z) : list Z :=
  text "MSG { length => " ++ number (ctrl_length m) ++ text ", type => " ++ number (ctrl_type m) ++ text ", payload => ommitted" ++ text "}".

(** ostringstream oss("Unknown message: "); oss << msg: the output starts over
    the initial string. *)
Definition unknown_text (m : list Z) : list Z :=
  let t := msg_text m in t ++ zdrop (zlen t) (text "Unknown message: ").

Fixpoint strip_zeros (ds : list Z) : list Z :=
  match ds with
  | [] => []
  | [d] => [d]
  | d :: ds => if d =? 0 then strip_zeros ds else d :: ds
  end.
Definition hex32 (n : Z) : list Z :=
  map hex_digit (strip_zeros (map (fun i => Z.land (Z.shiftr n (4 * i)) 15) [7; 6; 5; 4; 3; 2; 1; 0])).

(** operator<< for a bitcoin message; [None] when its command runs out of the memory. *)
Definition packed_text (m : list Z) : option (list Z) :=
  match c_str_at 4 m with
  | None => None
  | Some command =>
      Some (text "MSG { length => " ++ number (msg_length m) ++ text ", magic => 0x" ++ hex32 (msg_magic m) ++
            text ", command => " ++ command ++ text ", checksum => 0x" ++ hex32 (msg_checksum m) ++ text ", payload => ommitted" ++ text "}")
  end.

(** ** Commands *)

(** The ids of an ordered map. *)
Definition ids {A} (m : gmap Z A) : list Z := merge_sort Z.le ((map_to_list m).*1).

(** for_each over the active handlers: the iterator is moved on after the call,
    from an element that must still be there. *)
Fixpoint each_active (f : Z -> prog globals unit) (l : list Z) : prog globals unit :=
  match l with
  | [] => ret tt
  | i :: l =>
      do! f i in
      let! g := get in
      match BitcoinHandler.g_active_handlers g !! i with
      | Some _ => each_active f l
      | None => crash UseAfterFree
      end
  end.

(** The loop over the targets from [i] on; [mem] is the memory at the command. *)
Fixpoint each_target (f : Z -> prog globals unit) (message_id : Z) (mem : list Z) (n : nat) (i : Z) : prog globals unit :=
  match n with
  | O => ret tt
  | S n =>
      let! target := field32 (COMMAND_MSG + 4 * i) mem in
      let! g := get in
      do! match BitcoinHandler.g_active_handlers g !! target with
          | Some _ => f target
          | None => glog (LText DEBUG [text "Attempting to send command message"; number message_id; text "to non-existant target"; number target])
          end in
      each_target f message_id mem n (i + 1)
  end.

Definition foreach_handlers (mem : list Z) (f : Z -> prog globals unit) : prog globals unit :=
  let! cnt := field32 5 mem in
  let! b := (if cnt =? 1 then let! t := field COMMAND_MSG 4 mem in ret (le_val t =? BROADCAST_TARGET) else ret false) in
  let! g := get in
  if b then each_active f (ids (BitcoinHandler.g_active_handlers g))
  else
    let size := Z.of_nat (size (BitcoinHandler.g_active_handlers g)) in
    do! (if size <? cnt then glog (LText DEBUG [text "Target count larger than all cxn"; number cnt; number size]) else ret tt) in
    let! id := (if 0 <? cnt then field32 1 mem else ret 0) in
    each_target f id mem (Z.to_nat cnt) 0.

(** struct connection_info of an active handler *)
Definition connection_info (i : Z) (h : handler) : list Z :=
  le_bytes 4 (hton32 i) ++ sockaddr_to_wire (remote_addr h) ++ sockaddr_to_wire (local_addr h).

Definition connection_infos (g : globals) : list Z :=
  concat (map (fun i => match BitcoinHandler.g_active_handlers g !! i with Some h => connection_info i h | None => [] end)
              (ids (BitcoinHandler.g_active_handlers g))).

Section Ctrl.
Context (E : env) (strerror : Z -> list Z).

Definition csend (c : prog write_buffer unit) : prog cstate unit :=
  do! zoom (fun s => ch_write (self s)) (fun w s => CState (with_cwrite w (self s)) (listed s) (wld s)) c in
  cupd (fun h => with_cstate (Z.lor (ch_state h) SEND_MESSAGE) h).

(** handler::handle_message_recv; [mem] is the memory at the command. *)
Definition ctrl_handle_message_recv (mem : list Z) : prog cstate unit :=
  let! c := field 0 1 mem in
  let command := le_val c in
  let! s := get in
  let me := ch_id (self s) in
  if command =? COMMAND_GET_CXN then
    do! clog (LText CTRL [text "All connections requested"; number (ch_regid (self s))]) in
    let n := Z.of_nat (size (BitcoinHandler.g_active_handlers (wgl (wld s)))) in
    let buffer := vb_new (page E) (4 + n * CONNECTION_INFO) in
    let buffer := splice 0 (le_bytes 4 (hton32 (u32 (CONNECTION_INFO * n)))) buffer in
    let buffer := splice 4 (connection_infos (wgl (wld s))) buffer in
    csend (append_buffer buffer (4 + n * CONNECTION_INFO))
  else if command =? COMMAND_SEND_MSG then
    let! message_id := field32 1 mem in
    let mine := default ∅ (g_messages (wld s) !! me) in
    do! on_world (modify (fun w => with_messages (<[me := mine]> (g_messages w)) w)) in
    match mine !! message_id with
    | None => clog (LText ERROR [text "invalid message id"; number message_id])
    | Some packed => on_world (on_wgl (foreach_handlers mem (fun i => on_active i (append_for_write_buf packed))))
    end
  else if command =? COMMAND_DISCONNECT then
    do! clog (LText DEBUG [text "disconnect command received"]) in
    on_world (on_wgl (foreach_handlers mem (fun i => on_active i disconnect)))
  else clog (LText CTRL [text "UNKNOWN COMMAND_MSG COMMAND: "; [command]]).

(** The next message. *)
Definition next_message : prog cstate unit :=
  do! zoom rdr set_rdr (set_cursor 0) in zoom rdr set_rdr (set_to_read MESSAGE).

(** handler::receive_header *)
Definition receive_header : prog cstate unit :=
  let! s := get in
  let msg := extract_buffer (rdr s) in
  do! field 0 MESSAGE msg in
  do! zoom rdr set_rdr (set_to_read (ctrl_length msg)) in
  do! (if negb (ctrl_version msg =? 0) then clog (LText DEBUG [text "Warning: Unsupported version"; number (ctrl_version msg)]) else ret tt) in
  if ctrl_length msg =? 0 then
    do! (if ctrl_type msg =? REGISTER then
           let oldid := ch_regid (self s) in
           let! regid := on_world nonce_gen32 in
           do! cupd (with_regid regid) in
           do! clog (LText CTRL [text "UNREGISTERING"; number oldid]) in
           do! clog (LText CTRL [text "REGISTERING"; number regid]) in
           do! csend (append_bytes (page E) (le_bytes 4 (hton32 regid))) in
           on_world (modify (fun w => with_messages (delete oldid (g_messages w)) w))
         else clog (LText CTRL [unknown_text msg])) in
    next_message
  else cupd (fun h => with_cstate (Z.lor (Z.land (ch_state h) SEND_MASK) RECV_PAYLOAD) h).

(** Registering the message of a client. *)
Definition register_payload (msg : list Z) : prog cstate unit :=
  let! s := get in
  let me := ch_id (self s) in
  let regid := ch_regid (self s) in
  let len := ctrl_length msg in
  let payload := ctrl_payload msg in
  let! netid :=
    (if (len <? PACKED_MESSAGE) || negb (len =? PACKED_MESSAGE + msg_length payload) then
       do! clog (LText ERROR [text "Attempted to register invalid message"]) in ret 0
     else
       let! bytes := field MESSAGE len msg in
       let id := g_message_ids (wld s) in
       let mine := default ∅ (g_messages (wld s) !! me) in
       let registered := splice 0 bytes (vb_new (page E) len) in
       let fresh := match mine !! id with Some _ => false | None => true end in
       do! on_world (modify (fun w => with_ids (u32 (id + 1))
             (with_messages (<[me := if fresh then <[id := registered]> mine else mine]> (g_messages w)) w))) in
       match packed_text payload with
       | None => crash OutOfBounds
       | Some t =>
           do! clog (LText CTRL [text "Registering message "; number regid; t]) in
           if fresh then
             do! clog (LText CTRL [text "message registered"; number regid; number id]) in ret (hton32 id)
           else
             do! clog (LText ERROR [text "Duplicate id generated, surprising"]) in ret 0
       end) in
  csend (append_bytes (page E) (le_bytes 4 netid)).

(** Connecting where a client asks. *)
Definition connect_payload (msg : list Z) : prog cstate unit :=
  let! s := get in
  let payload := ctrl_payload msg in
  let! f := field 0 1 payload in
  let family := le_val f in
  do! clog (LText CTRL [text "Attempting to connect to family"; number family; text "for"; number (ch_regid (self s))]) in
  let! wa := (if (family =? ADDR_FAMILY_IPV4) || (family =? ADDR_FAMILY_IPV6) || (family =? ADDR_FAMILY_ONION)
              then field 0 WIRE_ADDR payload else ret (resize WIRE_ADDR 0 f)) in
  let remote := wire_to_sockaddr wa in
  let! d := on_world next_dial in
  if family =? ADDR_FAMILY_ONION then
    let extra_len := u32 (ctrl_length msg - CONNECT_PAYLOAD) in
    if 0 <? extra_len then
      let! bytes := field CONNECT_PAYLOAD (Z.min extra_len 63) payload in
      let hostname := match until_nul bytes with Some h => h | None => bytes end in
      on_world (on_wtors (tor_connect_name strerror remote hostname (d_addr d) (d_kernel d) (d_sock d) (d_connect d)))
    else on_world (on_wtors (tor_connect_addr strerror remote (d_addr d) (d_kernel d) (d_sock d) (d_connect d)))
  else
    match d_sock d with
    | inr e => clog (LText ERROR [text "socket failure: " ++ strerror e; text "(command_handler CONNECT)"])
    | inl fd => on_world (on_wnet (connect_ctor E strerror (d_addr d) fd remote (d_kernel d) (d_connect d) (d_name d)))
    end.

(** handler::receive_payload *)
Definition receive_payload : prog cstate unit :=
  let! s := get in
  let msg := extract_buffer (rdr s) in
  do! field 0 MESSAGE msg in
  do! (if negb (ctrl_version msg =? 0) then clog (LText DEBUG [text "Warning: unsupported version. Attempting to receive payload"]) else ret tt) in
  do! (if ctrl_type msg =? BITCOIN_PACKED_MESSAGE then register_payload msg
       else if ctrl_type msg =? COMMAND then
         do! ctrl_handle_message_recv (ctrl_payload msg) in
         cupd (fun h => with_cstate (Z.land (ch_state h) SEND_MASK) h)
       else if ctrl_type msg =? CONNECT then connect_payload msg
       else clog (LText CTRL [text "unknown payload type"; number (ch_regid (self s)); msg_text msg])) in
  do! next_message in
  cupd (fun h => with_cstate (Z.lor (Z.land (ch_state h) SEND_MASK) RECV_HEADER) h).

(** ** Callbacks *)

(** handler::suicide *)
Definition ctrl_suicide : prog cstate unit :=
  let! s := get in
  do! on_world (modify (fun w => with_descriptors (g_active_descriptors w - 1) w)) in
  do! on_world (on_wgl (modify (fun g => with_closed (g_closed g ++ [fd (ch_io (self s))]) g))) in
  do! cupd (fun h => with_cio (io_set_fd (-1) (io_stop (ch_io h))) h) in
  modify (fun s => CState (self s) false (wld s)).

Definition ctrl_again (e : Z) : bool := (e =? EWOULDBLOCK) || (e =? EAGAIN).

(** What do_read does with a completed item. *)
Definition ctrl_full : prog cstate unit :=
  let! s := get in
  let st := Z.land (ch_state (self s)) RECV_MASK in
  if st =? RECV_HEADER then receive_header
  else if st =? RECV_PAYLOAD then receive_payload
  else ret tt.

(** handler::do_read *)
Definition ctrl_do_read : prog cstate unit :=
  let! s := get in
  let! e := read_loop (page E) ctrl_again ctrl_full (1 + length (stream (rdr s))) in
  match e with
  | Failed err => do! clog (LText ERROR [strerror err; text "(command_handler)"]) in ctrl_suicide
  | Eof => do! clog (LText CTRL [text "Orderly disconnect"; number (ch_id (self s))]) in ctrl_suicide
  | _ => ret tt
  end.

Definition ctrl_drain : prog cstate drain_end := fun s =>
  let h := self s in
  let k := sk (ch_read h) in
  let k := if fd (ch_io h) <? 0 then Sock (rx k) (WErr EBADF :: wx k) (tx k) (errno k) else k in
  match drain ctrl_again (1 + length (wx k)) (Writer (ch_write h) k) with
  | Ret e w => Ret e (CState (with_cwrite (wb w) (self (set_rdr (Reader (rb (ch_read h)) (wsk w)) s))) (listed s) (wld s))
  | Raise e w => Raise e s
  | Fault f => Fault f
  end.

(** handler::do_write *)
Definition ctrl_do_write : prog cstate unit :=
  let! e := ctrl_drain in
  match e with
  | WFailed err => do! clog (LText ERROR [strerror err; text "(command_handler)"]) in ctrl_suicide
  | Drained => cupd (fun h => with_cstate (Z.land (ch_state h) RECV_MASK) h)
  | _ => ret tt
  end.

(** handler::io_cb *)
Definition ctrl_io_cb (revents : Z) : prog cstate unit :=
  let! s := get in
  let old_state := ch_state (self s) in
  do! (if has old_state RECV_MASK && has revents ev_READ then ctrl_do_read else ret tt) in
  let! s := get in
  do! assert (negb (to_read (rdr s) =? 0)) in
  do! assert (has (ch_state (self s)) RECV_MASK) in
  do! (if has revents ev_WRITE then ctrl_do_write else ret tt) in
  let! s := get in
  let st := ch_state (self s) in
  if st =? old_state then ret tt
  else cupd (fun h => with_cio (io_set_events (Z.lor (if has st SEND_MASK then ev_WRITE else 0) (if has st RECV_MASK then ev_READ else 0)) (ch_io h)) h).

(** ** Clients come and go *)

(** handler::handler *)
Definition ctrl_ctor (f id regid : Z) (k : sock) : ctrl_handler :=
  CtrlHandler (Reader (read_buffer_ctor (page E) MESSAGE) k) write_buffer_ctor RECV_HEADER id regid (io_start (EvIo f ev_READ false)).

(** handler::~handler *)
Definition delete_ctrl (h : ctrl_handler) : prog world unit :=
  do! modify (fun w => with_messages (delete (ch_id h) (g_messages w)) w) in
  if 0 <=? fd (ch_io h) then
    do! modify (fun w => with_descriptors (g_active_descriptors w - 1) w) in
    on_wgl (modify (fun g => with_closed (g_closed g ++ [fd (ch_io h)]) g))
  else ret tt.

Fixpoint delete_ctrls (hs : list ctrl_handler) : prog world unit :=
  match hs with
  | [] => ret tt
  | h :: hs => do! delete_ctrl h in delete_ctrls hs
  end.

(** accept_handler::io_cb; [r] is the client and its socket, or the errno. *)
Definition ctrl_accept_io_cb (r : (Z * sock) + Z) : prog world unit :=
  match r with
  | inr e =>
      if accept_quiet e then ret tt
      else
        let! w := get in
        wlog (LText ERROR [text "accept failure: " ++ strerror e; text "Number active handlers: "; number (g_active_descriptors w); text " (command_handler)"])
  | inl (client, k) =>
      do! modify (fun w => with_descriptors (g_active_descriptors w + 1) w) in
      let! regid := nonce_gen32 in
      let! w := get in
      let id := c_id_pool w in
      let h := ctrl_ctor client id regid k in
      do! modify (fun w => with_ctrls (match c_active w !! id with Some _ => c_active w | None => <[id := h]> (c_active w) end) (c_inactive w) (u32 (id + 1)) w) in
      let! w := get in
      do! delete_ctrls (map snd (map_to_list (c_inactive w))) in
      modify (fun w => with_ctrls (c_active w) ∅ (c_id_pool w) w)
  end.

(** Run a callback of the active client handler [id]. *)
Definition on_client {A} (id : Z) (c : prog cstate A) : prog world A := fun w =>
  match c_active w !! id with
  | None => Fault UseAfterFree
  | Some h =>
      let back s :=
        let w := wld s in
        if listed s then with_ctrls (<[id := self s]> (c_active w)) (c_inactive w) (c_id_pool w) w
        else with_ctrls (c_active w) (<[id := self s]> (c_inactive w)) (c_id_pool w) w in
      match c (CState h true (with_ctrls (delete id (c_active w)) (c_inactive w) (c_id_pool w) w)) with
      | Ret a s => Ret a (back s)
      | Raise e s => Raise e (back s)
      | Fault f => Fault f
      end
  end.
End Ctrl.

(** ** Addresses *)

Lemma zlen_sockaddr_to_wire ss : zlen ss = SOCKADDR_STORAGE -> zlen (sockaddr_to_wire ss) = WIRE_ADDR.
Proof.
  intros (Hp&H4&H6)%ss_fields. unfold sockaddr_to_wire, WIRE_ADDR.
  revert Hp H4 H6. generalize (ss_port ss), (sin_addr ss), (sin6_addr ss). intros p a b Hp H4 H6.
  explode Hp. explode H4. explode H6. by repeat case_match.
Qed.

(** Addresses survive the wire: an IPv4 or IPv6 socket address sent as a
    wire_addr of 19 bytes comes back with the same family, port and address, so
    it is the same entry for the blacklist. *)
Theorem wire_addr_roundtrip ss :
  zlen ss = SOCKADDR_STORAGE -> ss_family ss = AF_INET \/ ss_family ss = AF_INET6 ->
  let back := wire_to_sockaddr (sockaddr_to_wire ss) in
  zlen (sockaddr_to_wire ss) = WIRE_ADDR /\ zlen back = SOCKADDR_STORAGE /\ ss_family back = ss_family ss /\ ss_port back = ss_port ss /\
  sockaddr_storage_eq ss back = true.
Proof.
  intros Hz Hf. split; [by apply zlen_sockaddr_to_wire|]. apply ss_fields in Hz as (Hp&H4&H6). unfold sockaddr_storage_eq.
  destruct Hf as [Hf|Hf]; unfold sockaddr_to_wire; rewrite Hf; change (AF_INET6 =? AF_INET) with false;
    change (AF_INET =? AF_INET) with true; change (AF_INET6 =? AF_INET6) with true; cbv iota.
  - revert Hp H4. generalize (ss_port ss), (sin_addr ss). intros p a Hp H4. explode Hp. explode H4.
    split_and!; try reflexivity. cbn -[bool_decide]. by rewrite bool_decide_eq_true_2.
  - revert Hp H6. generalize (ss_port ss), (sin6_addr ss). intros p a Hp H6. explode Hp. explode H6.
    split_and!; try reflexivity. cbn -[bool_decide]. by rewrite bool_decide_eq_true_2.
Qed.

Lemma wire_addr_roundtrip_witness :
  let ss := le_bytes 2 AF_INET ++ [32; 141; 10; 0; 0; 1] ++ zrep 120 0 in ss_port (wire_to_sockaddr (sockaddr_to_wire ss)) = [32; 141].
Proof.
  intros ss. destruct (wire_addr_roundtrip ss) as (_&_&_&H&_); [reflexivity|left; reflexivity|]. exact H.
Defined.

(** ** Ordered ids *)

Lemma ids_perm {A} (m : gmap Z A) : Permutation (ids m) ((map_to_list m).*1).
Proof. apply merge_sort_Permutation. Qed.

Lemma in_ids {A} (m : gmap Z A) i : i ∈ ids m <-> is_Some (m !! i).
Proof.
  rewrite (ids_perm m). split.
  - intros ([j x]&->&Hx)%list_elem_of_fmap. apply elem_of_map_to_list in Hx. by exists x.
  - intros [x Hx]. apply list_elem_of_fmap. exists (i, x). split; [done|]. by apply elem_of_map_to_list.
Qed.

Lemma ids_nodup {A} (m : gmap Z A) : NoDup (ids m).
Proof. rewrite (ids_perm m). apply NoDup_fst_map_to_list. Qed.

Lemma ids_sorted {A} (m : gmap Z A) : StronglySorted Z.le (ids m).
Proof. apply (StronglySorted_merge_sort Z.le). Qed.

Lemma length_ids {A} (m : gmap Z A) : length (ids m) = size m.
Proof. rewrite (Permutation_length (ids_perm m)), length_fmap. apply length_map_to_list. Qed.

(** ** Sending to targets *)

Lemma field_app {S} off n (pre d rest : list Z) (s : S) :
  off = zlen pre -> n = zlen d -> field off n (pre ++ d ++ rest) s = Ret d s.
Proof.
  intros -> ->. unfold field. rewrite !zlen_app. pose proof (zlen_nonneg rest).
  destruct (Z.ltb_spec (zlen pre + (zlen d + zlen rest)) (zlen pre + zlen d)); [lia|]. by rewrite slice_app_mid.
Qed.

Lemma field32_app {S} off v (pre rest : list Z) (s : S) :
  off = zlen pre -> is_u32 v -> field32 off (pre ++ be_bytes 4 v ++ rest) s = Ret v s.
Proof. intros Ho Hv. unfold field32. erewrite bind_ret by (by apply field_app; [|rewrite zlen_be_bytes]). unfold ret. by rewrite ntoh_be. Qed.

(** The queue after a message in a larger buffer was appended. *)
Lemma append_buf_prefix m t s :
  QWF (h_write (this s)) -> whole m ->
  exists w, append_for_write_buf (m ++ t) s =
    Ret tt (HState (queued w (this s)) (active s)
              (with_log (BitcoinHandler.g_log (glob s) ++ [LMsg (h_id (this s)) true m]) (glob s))) /\
    QWF w /\ unsent w = unsent (h_write (this s)) ++ m.
Proof.
  intros HQ Hw. pose proof (msg_length_range m) as Hr. assert (PACKED_MESSAGE <= zlen m) as H24 by (unfold whole in Hw; lia).
  unfold append_for_write_buf. erewrite (bind_ret get) by done. rewrite msg_length_app by done. unfold whole in Hw. rewrite <- Hw.
  rewrite ztake_app_exact by done. erewrite (bind_ret (log _)) by done.
  destruct (append_buffer_spec (h_write (this s)) (m ++ t) (zlen m) HQ) as (w&Hr1&HQ'&Hu).
  { rewrite zlen_app. pose proof (zlen_nonneg t). unfold PACKED_MESSAGE in *. lia. }
  erewrite bind_ret by (eapply zoom_ret, Hr1). exists w. rewrite ztake_app_exact in Hu by done. split; [|done].
  unfold queued, io_set, upd, modify, bind, ret. simpl. destruct (has (h_state (this s)) SEND_MASK); simpl; [done|].
  by destruct (_ =? _).
Qed.

Definition copies (n : nat) (m : list Z) : list Z := concat (replicate n m).

Lemma copies_add a b m : copies (a + b) m = copies a m ++ copies b m.
Proof. unfold copies. by rewrite replicate_add, concat_app. Qed.

(** From [g] to [g'] every active connection got the message once for each time
    it is in [ts], after what it had queued. *)
Definition delivered (m : list Z) (ts : list Z) (g g' : globals) : Prop :=
  (forall i, match BitcoinHandler.g_active_handlers g !! i, BitcoinHandler.g_active_handlers g' !! i with
             | Some h, Some h' => QWF (h_write h') /\ unsent (h_write h') = unsent (h_write h) ++ copies (count_occ Z.eq_dec ts i) m
             | None, None => True
             | _, _ => False
             end) /\ g_closed g' = g_closed g.

Definition peers_ok (g : globals) : Prop := forall i h, BitcoinHandler.g_active_handlers g !! i = Some h -> QWF (h_write h).

Lemma delivered_ok m ts g g' : delivered m ts g g' -> peers_ok g'.
Proof. intros [Hd _] i h Hi. specialize (Hd i). rewrite Hi in Hd. destruct (BitcoinHandler.g_active_handlers g !! i); [apply Hd|done]. Qed.

Lemma delivered_nil m g g' : peers_ok g -> BitcoinHandler.g_active_handlers g' = BitcoinHandler.g_active_handlers g -> g_closed g' = g_closed g -> delivered m [] g g'.
Proof. intros Hok Ha Hc. split; [|done]. intros i. rewrite Ha. destruct (_ !! i) eqn:Hi; [|done]. split; [by eapply Hok|]. by rewrite app_nil_r. Qed.

Lemma delivered_trans m ts1 ts2 g1 g2 g3 : delivered m ts1 g1 g2 -> delivered m ts2 g2 g3 -> delivered m (ts1 ++ ts2) g1 g3.
Proof.
  intros [H1 C1] [H2 C2]. split; [|congruence]. intros i. specialize (H1 i). specialize (H2 i).
  destruct (BitcoinHandler.g_active_handlers g1 !! i), (BitcoinHandler.g_active_handlers g2 !! i), (BitcoinHandler.g_active_handlers g3 !! i); try done.
  destruct H1 as [_ H1], H2 as [HQ H2]. split; [done|]. rewrite H2, H1, count_occ_app, copies_add. by rewrite app_assoc.
Qed.

Lemma send_one m t g i h :
  whole m -> peers_ok g -> BitcoinHandler.g_active_handlers g !! i = Some h ->
  exists g', on_active i (append_for_write_buf (m ++ t)) g = Ret tt g' /\ delivered m [i] g g'.
Proof.
  intros Hm Hok Hi. unfold on_active. rewrite Hi. set (s := HState _ _ _).
  destruct (append_buf_prefix m t s) as (w&Hr&HQ&Hu); [by eapply Hok|done|]. rewrite Hr. simpl. eexists. split; [reflexivity|].
  split; [|done]. intros j. simpl. rewrite insert_delete_eq. destruct (decide (j = i)) as [->|Hne].
  - rewrite Hi, lookup_insert_eq. assert (h_write (queued w h) = w) as -> by (unfold queued; by repeat case_match).
    split; [done|]. destruct (Z.eq_dec i i); [|done]. unfold copies. simpl. by rewrite app_nil_r.
  - rewrite lookup_insert_ne by done. destruct (_ !! j) eqn:Hj; [|done]. split; [by eapply Hok|].
    destruct (Z.eq_dec i j); [congruence|]. by rewrite app_nil_r.
Qed.

Lemma send_targets m t mid : forall ts k pre rest g,
  whole m -> peers_ok g -> Forall is_u32 ts -> zlen pre = COMMAND_MSG + 4 * k ->
  exists g', each_target (fun i => on_active i (append_for_write_buf (m ++ t))) mid (pre ++ concat (map (be_bytes 4) ts) ++ rest) (length ts) k g
    = Ret tt g' /\ delivered m ts g g'.
Proof.
  induction ts as [|x ts IH]; intros k pre rest g Hm Hok Hf Hk; [by exists g; split; [|apply delivered_nil]|].
  apply Forall_cons in Hf as [Hx Hf]. cbn [length each_target].
  change (concat (map (be_bytes 4) (x :: ts))) with (be_bytes 4 x ++ concat (map (be_bytes 4) ts)). rewrite <- app_assoc.
  erewrite bind_ret by (by apply field32_app). erewrite (bind_ret get) by done.
  assert (exists g1, (match BitcoinHandler.g_active_handlers g !! x with
     | Some _ => on_active x (append_for_write_buf (m ++ t))
     | None => glog (LText DEBUG [text "Attempting to send command message"; number mid; text "to non-existant target"; number x])
     end) g = Ret tt g1 /\ delivered m [x] g g1) as (g1&H1&Hd1).
  { destruct (_ !! x) eqn:Hi; [by apply send_one with h|]. eexists. split; [reflexivity|]. split; [|done]. intros j. simpl.
    destruct (BitcoinHandler.g_active_handlers g !! j) eqn:Hj; [|done]. split; [by eapply Hok|]. destruct (Z.eq_dec x j); [congruence|]. by rewrite app_nil_r. }
  erewrite bind_ret by exact H1. rewrite app_assoc.
  destruct (IH (k + 1) (pre ++ be_bytes 4 x) rest g1) as (g2&H2&Hd2); [done|by eapply delivered_ok|done|rewrite zlen_app, zlen_be_bytes; lia|].
  exists g2. split; [exact H2|]. change (x :: ts) with ([x] ++ ts). by eapply delivered_trans.
Qed.

Lemma send_active m t : forall l g,
  whole m -> peers_ok g -> Forall (fun i => is_Some (BitcoinHandler.g_active_handlers g !! i)) l ->
  exists g', each_active (fun i => on_active i (append_for_write_buf (m ++ t))) l g = Ret tt g' /\ delivered m l g g'.
Proof.
  induction l as [|x l IH]; intros g Hm Hok Hf; [by exists g; split; [|apply delivered_nil]|].
  apply Forall_cons in Hf as [[h Hh] Hf]. cbn [each_active]. destruct (send_one m t g x h Hm Hok Hh) as (g1&H1&Hd1).
  erewrite bind_ret by exact H1. erewrite (bind_ret get) by done. pose proof Hd1 as [Hd _].
  assert (forall i, is_Some (BitcoinHandler.g_active_handlers g !! i) -> is_Some (BitcoinHandler.g_active_handlers g1 !! i)) as Hsome.
  { intros i [hi Hi]. specialize (Hd i). rewrite Hi in Hd. destruct (BitcoinHandler.g_active_handlers g1 !! i); [by eexists|done]. }
  destruct (Hsome x) as [h1 ->]; [by exists h|].
  destruct (IH g1) as (g2&H2&Hd2); [done|by eapply delivered_ok|eapply Forall_impl; [exact Hf|]; auto|].
  exists g2. split; [exact H2|]. change (x :: l) with ([x] ++ l). by eapply delivered_trans.
Qed.

(** The memory at a command with what follows it. *)
Definition command_mem (c id : Z) (ts rest : list Z) : list Z :=
  [c] ++ be_bytes 4 id ++ be_bytes 4 (zlen ts) ++ concat (map (be_bytes 4) ts) ++ rest.

(** Who a command with these targets is for. *)
Definition recipients (g : globals) (ts : list Z) : list Z :=
  if bool_decide (ts = [BROADCAST_TARGET]) then ids (BitcoinHandler.g_active_handlers g) else ts.

Lemma command_mem_fields c id ts rest {S} (s : S) :
  0 <= c < 256 -> is_u32 id -> zlen ts < 2 ^ 32 ->
  field 0 1 (command_mem c id ts rest) s = Ret [c] s /\ field32 1 (command_mem c id ts rest) s = Ret id s /\
  field32 5 (command_mem c id ts rest) s = Ret (zlen ts) s.
Proof.
  intros Hc Hi Ht. pose proof (zlen_nonneg ts). unfold command_mem. split_and!.
  - apply (field_app 0 1 [] [c]); done.
  - apply (field32_app 1 id [c]); done.
  - rewrite app_assoc. apply field32_app; [by rewrite zlen_app, zlen_be_bytes|]. unfold is_u32. lia.
Qed.

(** foreach_handlers finds the recipients. *)
Lemma foreach_run c id ts rest f g :
  0 <= c < 256 -> is_u32 id -> zlen ts < 2 ^ 32 -> Forall is_u32 ts ->
  exists g1, BitcoinHandler.g_active_handlers g1 = BitcoinHandler.g_active_handlers g /\ g_closed g1 = g_closed g /\
    foreach_handlers (command_mem c id ts rest) f g =
    if bool_decide (ts = [BROADCAST_TARGET]) then each_active f (ids (BitcoinHandler.g_active_handlers g)) g
    else each_target f (if 0 <? zlen ts then id else 0) (command_mem c id ts rest) (length ts) 0 g1.
Proof.
  intros Hc Hi Ht Hf. destruct (command_mem_fields c id ts rest g Hc Hi Ht) as (_&H1&H5). unfold foreach_handlers.
  erewrite bind_ret by exact H5.
  assert ((if zlen ts =? 1 then let! t := field COMMAND_MSG 4 (command_mem c id ts rest) in ret (le_val t =? BROADCAST_TARGET) else ret false) g
    = Ret (bool_decide (ts = [BROADCAST_TARGET])) g) as Hb.
  { destruct (Z.eqb_spec (zlen ts) 1) as [H|H].
    - destruct ts as [|x [|y ts]]; [done| |rewrite !zlen_cons in H; pose proof (zlen_nonneg ts); lia]. apply Forall_cons in Hf as [Hx _].
      erewrite bind_ret.
      2: { unfold command_mem. change (concat (map (be_bytes 4) [x])) with (be_bytes 4 x ++ []). rewrite app_nil_r. do 2 rewrite app_assoc.
           apply field_app; rewrite ?zlen_app, !zlen_be_bytes; done. }
      unfold ret. f_equal. destruct (bool_decide_reflect ([x] = [BROADCAST_TARGET])) as [[= ->]|Hne]; [done|]. apply Z.eqb_neq. intros He. apply Hne. f_equal.
      transitivity (ntoh32 (le_val (be_bytes 4 x))); [by rewrite ntoh_be|]. rewrite He. done.
    - unfold ret. f_equal. rewrite bool_decide_eq_false_2; [done|]. intros ->. done. }
  erewrite bind_ret by exact Hb. erewrite (bind_ret get) by done.
  destruct (bool_decide (ts = [BROADCAST_TARGET])); [by exists g|]. cbv zeta.
  set (sz := Z.of_nat _). set (warn := if sz <? zlen ts then _ else _).
  assert (exists g1, warn g = Ret tt g1 /\ BitcoinHandler.g_active_handlers g1 = BitcoinHandler.g_active_handlers g /\ g_closed g1 = g_closed g) as (g1&Hw&Ha&Hcl)
    by (unfold warn; destruct (sz <? zlen ts); eexists; split; done).
  exists g1. split_and!; [done..|]. erewrite bind_ret by exact Hw.
  destruct (command_mem_fields c id ts rest g1 Hc Hi Ht) as (_&H1'&_).
  assert (Z.to_nat (zlen ts) = length ts) as -> by (unfold zlen; lia).
  erewrite (bind_ret (if 0 <? zlen ts then _ else _)); [reflexivity|]. by destruct (0 <? zlen ts).
Qed.

(** A send command, handled. *)
Lemma send_run E s id ts rest mine m t :
  g_messages (wld s) !! ch_id (self s) = Some mine -> mine !! id = Some (m ++ t) -> whole m ->
  is_u32 id -> Forall is_u32 ts -> zlen ts < 2 ^ 32 -> peers_ok (wgl (wld s)) ->
  exists s', ctrl_handle_message_recv E (command_mem COMMAND_SEND_MSG id ts rest) s = Ret tt s' /\ self s' = self s /\
    delivered m (recipients (wgl (wld s)) ts) (wgl (wld s)) (wgl (wld s')).
Proof.
  intros Hmine Hmsg Hm Hi Hf Hz Hok. assert (0 <= COMMAND_SEND_MSG < 256) as Hc by done. unfold ctrl_handle_message_recv.
  destruct (command_mem_fields COMMAND_SEND_MSG id ts rest s Hc Hi Hz) as (H0&H1&_).
  erewrite bind_ret by exact H0. erewrite (bind_ret get) by done. change (le_val [COMMAND_SEND_MSG]) with COMMAND_SEND_MSG. cbv zeta.
  change (COMMAND_SEND_MSG =? COMMAND_GET_CXN) with false. change (COMMAND_SEND_MSG =? COMMAND_SEND_MSG) with true. cbv iota.
  erewrite bind_ret by exact H1. rewrite Hmine. cbn [default]. change (Datatypes.id mine) with mine. rewrite Hmsg.
  erewrite bind_ret by (unfold on_world; by eapply zoom_ret). set (w1 := with_messages _ _).
  assert (exists g', foreach_handlers (command_mem COMMAND_SEND_MSG id ts rest) (fun i => on_active i (append_for_write_buf (m ++ t))) (wgl w1) = Ret tt g' /\
    delivered m (recipients (wgl (wld s)) ts) (wgl (wld s)) g') as (g'&Hg&Hd).
  { change (wgl w1) with (wgl (wld s)). set (g := wgl (wld s)) in *.
    destruct (foreach_run COMMAND_SEND_MSG id ts rest (fun i => on_active i (append_for_write_buf (m ++ t))) g Hc Hi Hz Hf) as (g1&Ha&Hcl&->).
    unfold recipients. destruct (bool_decide _).
    - apply send_active; [done|done|]. apply Forall_forall. intros i Hin. by apply in_ids.
    - unfold command_mem. rewrite !app_assoc. rewrite <- (app_assoc _ (concat _) rest).
      destruct (send_targets m t (if 0 <? zlen ts then id else 0) ts 0 (([COMMAND_SEND_MSG] ++ be_bytes 4 id) ++ be_bytes 4 (zlen ts)) rest g1) as (g2&H2&Hd2).
      { done. } { intros i h. rewrite Ha. apply Hok. } { done. } { by rewrite !zlen_app, !zlen_be_bytes. }
      exists g2. split; [exact H2|]. change ts with ([] ++ ts). eapply delivered_trans; [|exact Hd2]. by apply delivered_nil. }
  eexists. split; [unfold on_world, on_wgl; eapply zoom_ret, zoom_ret; exact Hg|]. done.
Qed.


(** The world of the witnesses: two connections, one client, one registered
    message. *)
Definition demo_conn (i : Z) : handler :=
  Handler (Reader (read_buffer_ctor 4096 24) (Sock [] [] [] 0)) write_buffer_ctor (le_bytes 2 AF_INET ++ zrep 126 i) (zrep 128 0)
    1000 RECV_HEADER ev_READ (EvIo (10 + i) ev_READ true) None 1000 None i.
Definition demo_world : world :=
  World (Net (Globals {[ 3 := demo_conn 3; 8 := demo_conn 8 ]} [] 9 0 0 300000 [] []) ∅ [] []) ∅ []
    {[ 0 := {[ 1 := demo_ping ]} ]} 2 ∅ ∅ 1 1 [] [77].
Definition demo_client : ctrl_handler := ctrl_ctor BitcoinPeer.demo_env 4 0 5 (Sock [] [] [] 0).
Definition demo_state : cstate := CState demo_client true demo_world.

Lemma demo_peers_ok : peers_ok (wgl demo_world).
Proof.
  intros i h Hi. change (({[ 3 := demo_conn 3; 8 := demo_conn 8 ]} : gmap Z handler) !! i = Some h) in Hi.
  apply lookup_insert_Some in Hi as [[_ <-]|[_ Hi]]; [apply write_buffer_ctor_QWF|].
  apply lookup_singleton_Some in Hi as [_ <-]. apply write_buffer_ctor_QWF.
Qed.


(** ** The list of connections *)

Lemma zlen_connection_info i h :
  zlen (remote_addr h) = SOCKADDR_STORAGE -> zlen (local_addr h) = SOCKADDR_STORAGE -> zlen (connection_info i h) = CONNECTION_INFO.
Proof. intros. unfold connection_info. rewrite !zlen_app, zlen_le_bytes, !zlen_sockaddr_to_wire by done. done. Qed.

Definition addrs_ok (g : globals) : Prop :=
  forall i h, BitcoinHandler.g_active_handlers g !! i = Some h -> zlen (remote_addr h) = SOCKADDR_STORAGE /\ zlen (local_addr h) = SOCKADDR_STORAGE.

Lemma zlen_connection_infos g : addrs_ok g -> zlen (connection_infos g) = CONNECTION_INFO * Z.of_nat (size (BitcoinHandler.g_active_handlers g)).
Proof.
  intros Ha. unfold connection_infos. rewrite <- length_ids.
  assert (Forall (fun i => is_Some (BitcoinHandler.g_active_handlers g !! i)) (ids (BitcoinHandler.g_active_handlers g))) as Hf.
  { apply Forall_forall. intros i. by rewrite in_ids. }
  induction Hf as [|i l [h Hi] _ IH]; [done|]. cbn [map concat length]. rewrite zlen_app, IH, Hi.
  destruct (Ha i h Hi). rewrite zlen_connection_info by done. lia.
Qed.

(** The connections are listed completely: the reply to COMMAND_GET_CXN is
    its length, big-endian, and then one 42 byte record for each active
    connection, in increasing order of id, with its id and its addresses as
    wire addresses. *)
Theorem get_cxn_lists E s mem :
  0 < page E <= 2 ^ 62 -> QWF (ch_write (self s)) -> addrs_ok (wgl (wld s)) ->
  Z.of_nat (size (BitcoinHandler.g_active_handlers (wgl (wld s)))) < 2 ^ 26 ->
  let l := ids (BitcoinHandler.g_active_handlers (wgl (wld s))) in
  exists s', ctrl_handle_message_recv E (COMMAND_GET_CXN :: mem) s = Ret tt s' /\
    unsent (ch_write (self s')) = unsent (ch_write (self s)) ++ be_bytes 4 (CONNECTION_INFO * zlen l) ++ connection_infos (wgl (wld s)) /\
    zlen (connection_infos (wgl (wld s))) = CONNECTION_INFO * zlen l /\ StronglySorted Z.le l /\
    (forall i, i ∈ l <-> is_Some (BitcoinHandler.g_active_handlers (wgl (wld s)) !! i)) /\
    has (ch_state (self s')) SEND_MASK = true.
Proof.
  intros Hp HQ Ha Hn l. unfold ctrl_handle_message_recv.
  erewrite bind_ret by (apply (field_app 0 1 [] [COMMAND_GET_CXN] mem); done). erewrite (bind_ret get) by done.
  change (le_val [COMMAND_GET_CXN]) with COMMAND_GET_CXN. cbv zeta. change (COMMAND_GET_CXN =? COMMAND_GET_CXN) with true. cbv iota.
  erewrite bind_ret by reflexivity. set (n := Z.of_nat (size (BitcoinHandler.g_active_handlers (wgl (wld s))))) in *.
  assert (zlen l = n) as Hl by (unfold zlen, l, n; by rewrite length_ids). pose proof (zlen_nonneg l).
  pose proof (zlen_connection_infos _ Ha) as Hz. fold n in Hz. set (infos := connection_infos (wgl (wld s))) in *. unfold CONNECTION_INFO in *.
  set (b := vb_new (page E) (4 + n * 42)). pose proof (zlen_vb_new (page E) Hp (4 + n * 42) ltac:(lia)) as Hb. fold b in Hb.
  assert (ztake 0 b = [] /\ zlen b = zlen b) as S0 by (split; [by apply ztake_neg|done]).
  apply (store_next 0 (le_bytes 4 (hton32 (u32 (42 * n))))) in S0 as S1; [|lia|rewrite zlen_le_bytes; lia]. rewrite zlen_le_bytes in S1. change (0 + Z.of_nat 4) with 4 in S1.
  apply (store_next 4 infos) in S1 as [S2 Hlen]; [|lia|lia]. set (b2 := splice 4 infos _) in *.
  destruct (append_buffer_spec (ch_write (self s)) b2 (4 + n * 42) HQ) as (w&Hw&HQ'&Hu); [lia|].
  eexists. split; [unfold csend; erewrite bind_ret by (eapply zoom_ret; exact Hw); reflexivity|]. simpl. split_and!.
  - rewrite Hu. f_equal. replace (4 + n * 42) with (4 + zlen infos) by lia. rewrite S2, app_nil_l, hton_bytes, u32_small by lia. by rewrite Hl.
  - by rewrite Hl.
  - apply ids_sorted.
  - intros i. apply in_ids.
  - unfold has. apply negb_true_iff, Z.eqb_neq. rewrite Z.land_lor_distr_l. by intros [_ ?]%Z.lor_eq_0_iff.
Qed.

Lemma get_cxn_lists_witness :
  exists s', ctrl_handle_message_recv BitcoinPeer.demo_env [COMMAND_GET_CXN] demo_state = Ret tt s' /\
    unsent (ch_write (self s')) = [0; 0; 0; 84] ++ connection_info 3 (demo_conn 3) ++ connection_info 8 (demo_conn 8).
Proof.
  destruct (get_cxn_lists BitcoinPeer.demo_env demo_state []) as (s'&Hr&Hu&_).
  - split; vm_compute; congruence.
  - apply write_buffer_ctor_QWF.
  - intros i h Hi. change (({[ 3 := demo_conn 3; 8 := demo_conn 8 ]} : gmap Z handler) !! i = Some h) in Hi.
    apply lookup_insert_Some in Hi as [[_ <-]|[_ Hi]]; [split; reflexivity|]. apply lookup_singleton_Some in Hi as [_ <-]. split; reflexivity.
  - vm_compute. reflexivity.
  - exists s'. split; [exact Hr|]. rewrite Hu. vm_compute. reflexivity.
Defined.

(** ** Registering messages *)

(** The client's messages. *)
Definition messages_of (i : Z) (w : world) : gmap Z (list Z) := default ∅ (g_messages w !! i).

Lemma csend_bytes E bs s :
  0 < page E <= 2 ^ 62 -> QWF (ch_write (self s)) -> 0 < zlen bs < 2 ^ 62 ->
  exists w, csend (append_bytes (page E) bs) s =
    Ret tt (CState (with_cstate (Z.lor (ch_state (self s)) SEND_MESSAGE) (with_cwrite w (self s))) (listed s) (wld s)) /\
    QWF w /\ unsent w = unsent (ch_write (self s)) ++ bs.
Proof.
  intros Hp HQ Hb. destruct (append_bytes_spec (page E) Hp (ch_write (self s)) bs HQ Hb) as (w&Hw&HQ'&Hu).
  exists w. split; [|done]. unfold csend. by erewrite bind_ret by (eapply zoom_ret; exact Hw).
Qed.

(** A registration, handled. *)
Lemma register_run E s msg :
  0 < page E <= 2 ^ 62 -> QWF (ch_write (self s)) -> MESSAGE + ctrl_length msg <= zlen msg -> 0 <= ctrl_length msg < 2 ^ 32 ->
  0 <= g_message_ids (wld s) < 2 ^ 32 -> packed_text (ctrl_payload msg) <> None ->
  messages_of (ch_id (self s)) (wld s) !! g_message_ids (wld s) = None ->
  let m := slice MESSAGE (ctrl_length msg) msg in
  let ok := (PACKED_MESSAGE <=? ctrl_length msg) && (ctrl_length msg =? PACKED_MESSAGE + msg_length (ctrl_payload msg)) in
  exists s', register_payload E msg s = Ret tt s' /\
    unsent (ch_write (self s')) = unsent (ch_write (self s)) ++ be_bytes 4 (if ok then g_message_ids (wld s) else 0) /\
    (if ok then exists t, messages_of (ch_id (self s)) (wld s') = <[g_message_ids (wld s) := m ++ t]> (messages_of (ch_id (self s)) (wld s)) /\ whole m
     else g_messages (wld s') = g_messages (wld s)) /\
    (forall i, i <> ch_id (self s) -> g_messages (wld s') !! i = g_messages (wld s) !! i) /\
    QWF (ch_write (self s')) /\ ch_read (self s') = ch_read (self s) /\ ch_id (self s') = ch_id (self s) /\
    BitcoinHandler.g_active_handlers (wgl (wld s')) = BitcoinHandler.g_active_handlers (wgl (wld s)).
Proof.
  intros Hp HQ Hz Hl Hid Ht Hfresh m ok. unfold register_payload. erewrite (bind_ret get) by done. cbv zeta.
  set (id := g_message_ids (wld s)) in *. set (me := ch_id (self s)) in *.
  assert ((ctrl_length msg <? PACKED_MESSAGE) || negb (ctrl_length msg =? PACKED_MESSAGE + msg_length (ctrl_payload msg)) = negb ok) as ->.
  { unfold ok. rewrite Z.ltb_antisym. by destruct (PACKED_MESSAGE <=? ctrl_length msg), (ctrl_length msg =? _). }
  destruct ok eqn:Hok; cbn [negb].
  - unfold ok in Hok. apply andb_true_iff in Hok as [H24 Hlen]. zb.
    assert (zlen m = ctrl_length msg) as Hzm by (apply zlen_slice; unfold MESSAGE in *; lia).
    assert (whole m) as Hwm.
    { unfold whole. rewrite Hzm, Hlen. f_equal. unfold msg_length, m, ctrl_payload. f_equal. f_equal.
      transitivity (slice 16 4 (ztake (ctrl_length msg) (zdrop MESSAGE msg) ++ zdrop (ctrl_length msg) (zdrop MESSAGE msg))); [by rewrite ztake_zdrop|].
      apply slice_app_l; [lia|lia|]. fold (slice MESSAGE (ctrl_length msg) msg). fold m. unfold PACKED_MESSAGE in *. lia. }
    destruct (packed_text (ctrl_payload msg)) as [txt|] eqn:Htxt; [|done].
    change (default ∅ (g_messages (wld s) !! me)) with (messages_of me (wld s)). rewrite Hfresh.
    set (reg := splice 0 m (vb_new (page E) (ctrl_length msg))).
    set (w1 := with_ids (u32 (id + 1)) (with_messages (<[me := <[id := reg]> (messages_of me (wld s))]> (g_messages (wld s))) (wld s))).
    assert (exists s1, (let! bytes := field MESSAGE (ctrl_length msg) msg in
       do! on_world (modify (fun w => with_ids (u32 (id + 1)) (with_messages (<[me := <[id := splice 0 bytes (vb_new (page E) (ctrl_length msg))]> (messages_of me (wld s))]> (g_messages w)) w))) in
       do! clog (LText CTRL [text "Registering message "; number (ch_regid (self s)); txt]) in
       do! clog (LText CTRL [text "message registered"; number (ch_regid (self s)); number id]) in ret (hton32 id)) s = Ret (hton32 id) s1 /\
       self s1 = self s /\ g_messages (wld s1) = g_messages w1 /\
       BitcoinHandler.g_active_handlers (wgl (wld s1)) = BitcoinHandler.g_active_handlers (wgl (wld s))) as (s1&H1&Hs1&Hm1&Hact).
    { erewrite bind_ret; [|unfold field; destruct (Z.ltb_spec (zlen msg) (MESSAGE + ctrl_length msg)); [lia|reflexivity]].
      eexists. split; [reflexivity|]. done. }
    erewrite bind_ret by exact H1.
    destruct (csend_bytes E (le_bytes 4 (hton32 id)) s1 Hp) as (wq&H2&HQ'&Hu); [by rewrite Hs1|by rewrite zlen_le_bytes|].
    eexists. split; [exact H2|]. cbn [self ch_write with_cstate with_cwrite wld]. rewrite Hu, Hs1, hton_bytes, Hm1. split; [done|]. split_and!; [| |done..].
    + exists (zdrop (zlen m) (vb_new (page E) (ctrl_length msg))). split; [|done]. unfold messages_of at 1. cbn [wld]. rewrite Hm1.
      unfold w1. simpl. rewrite lookup_insert_eq. reflexivity.
    + intros i Hi. unfold w1. simpl. by rewrite lookup_insert_ne.
  - erewrite bind_ret by (erewrite bind_ret by reflexivity; reflexivity). set (s1 := CState _ _ _).
    destruct (csend_bytes E (le_bytes 4 0) s1 Hp HQ) as (wq&H2&HQ'&Hu); [by rewrite zlen_le_bytes|].
    eexists. split; [exact H2|]. cbn [self ch_write with_cstate with_cwrite wld]. rewrite Hu. split_and!; done.
Qed.

(** Registering a message keeps it: a well-formed bitcoin message sent by a
    client is stored under the next id, byte for byte, the client is sent that
    id, and its other messages and those of other clients stay; a message whose
    lengths do not agree changes nothing and is answered with id 0. *)
Theorem register_keeps_message E s msg :
  0 < page E <= 2 ^ 62 -> QWF (ch_write (self s)) -> MESSAGE + ctrl_length msg <= zlen msg -> 0 <= ctrl_length msg < 2 ^ 32 ->
  0 <= g_message_ids (wld s) < 2 ^ 32 -> packed_text (ctrl_payload msg) <> None ->
  messages_of (ch_id (self s)) (wld s) !! g_message_ids (wld s) = None ->
  let m := slice MESSAGE (ctrl_length msg) msg in
  let ok := (PACKED_MESSAGE <=? ctrl_length msg) && (ctrl_length msg =? PACKED_MESSAGE + msg_length (ctrl_payload msg)) in
  exists s', register_payload E msg s = Ret tt s' /\
    unsent (ch_write (self s')) = unsent (ch_write (self s)) ++ be_bytes 4 (if ok then g_message_ids (wld s) else 0) /\
    (if ok then exists t, messages_of (ch_id (self s)) (wld s') = <[g_message_ids (wld s) := m ++ t]> (messages_of (ch_id (self s)) (wld s)) /\ whole m
     else g_messages (wld s') = g_messages (wld s)) /\
    (forall i, i <> ch_id (self s) -> g_messages (wld s') !! i = g_messages (wld s) !! i).
Proof.
  intros Hp HQ Hz Hl Hid Ht Hfresh m ok. destruct (register_run E s msg Hp HQ Hz Hl Hid Ht Hfresh) as (s'&H1&H2&H3&H4&_). by exists s'.
Qed.

Definition demo_register : list Z := [0] ++ be_bytes 4 (zlen demo_ping) ++ [BITCOIN_PACKED_MESSAGE] ++ demo_ping.

Lemma register_keeps_message_witness :
  exists s', register_payload BitcoinPeer.demo_env demo_register demo_state = Ret tt s' /\
    unsent (ch_write (self s')) = [0; 0; 0; 2] /\ exists t, messages_of 0 (wld s') !! 2 = Some (demo_ping ++ t).
Proof.
  destruct (register_keeps_message BitcoinPeer.demo_env demo_state demo_register) as (s'&Hr&Hu&Hm&_).
  - split; vm_compute; congruence.
  - apply write_buffer_ctor_QWF.
  - vm_compute. congruence.
  - vm_compute. split; congruence.
  - vm_compute. split; congruence.
  - vm_compute. congruence.
  - reflexivity.
  - exists s'. split; [exact Hr|]. split; [rewrite Hu; vm_compute; reflexivity|].
    assert (((PACKED_MESSAGE <=? ctrl_length demo_register) && (ctrl_length demo_register =? PACKED_MESSAGE + msg_length (ctrl_payload demo_register))) = true) as Hb
      by (vm_compute; reflexivity).
    rewrite Hb in Hm. destruct Hm as (t&Hm&_). exists t. change (ch_id (self demo_state)) with 0 in Hm. rewrite Hm.
    change (g_message_ids (wld demo_state)) with 2. rewrite lookup_insert_eq.
    assert (slice MESSAGE (ctrl_length demo_register) demo_register = demo_ping) as Hs by (vm_compute; reflexivity). rewrite Hs. reflexivity.
Defined.

(** Registering anew drops the wrong messages: the messages are kept under
    the handler's id, but a client that registers again has those kept under its
    old random registration id erased. Its own stay, and those of an unrelated
    client whose id happens to be that number are lost. *)
Theorem reregister_drops_other E s msg other :
  0 < page E <= 2 ^ 62 -> QWF (ch_write (self s)) -> extract_buffer (rdr s) = msg -> MESSAGE <= zlen msg ->
  ctrl_length msg = 0 -> ctrl_type msg = REGISTER -> ch_regid (self s) = other -> other <> ch_id (self s) ->
  exists s' regid, receive_header E s = Ret tt s' /\ ch_regid (self s') = regid /\
    unsent (ch_write (self s')) = unsent (ch_write (self s)) ++ be_bytes 4 regid /\
    messages_of (ch_id (self s)) (wld s') = messages_of (ch_id (self s)) (wld s) /\ messages_of other (wld s') = ∅.
Proof.
  intros Hp HQ He Hz Hl Hty Hreg Hne. unfold receive_header. erewrite (bind_ret get) by done. cbv zeta. rewrite He.
  erewrite bind_ret; [|unfold field; destruct (Z.ltb_spec (zlen msg) (0 + MESSAGE)); [lia|reflexivity]].
  rewrite Hl. set (r1 := Reader (ReadBuffer (cursor_ (rb (rdr s))) 0 (buffer_ (rb (rdr s))) (recv_buffer_ (rb (rdr s))) (rb_loc_ (rb (rdr s))) (rb_size_ (rb (rdr s)))) (sk (rdr s))).
  assert (0 < zlen (extract_buffer r1)) as Hpos by (change (extract_buffer r1) with (extract_buffer (rdr s)); rewrite He; unfold MESSAGE in Hz; lia).
  erewrite bind_ret by (eapply (zoom_ret rdr set_rdr _ s tt r1); reflexivity).
  set (c1 := if negb (ctrl_version msg =? 0) then _ else _).
  assert (exists s1, c1 (set_rdr r1 s) = Ret tt s1 /\ self s1 = self (set_rdr r1 s) /\ g_messages (wld s1) = g_messages (wld s)) as (s1&H1&Hs1&Hm1)
    by (unfold c1; destruct (negb _); eexists; split; reflexivity || done).
  erewrite bind_ret by exact H1. change (0 =? 0) with true. rewrite Hty. change (REGISTER =? REGISTER) with true. cbv iota.
  assert (exists regid w1, nonce_gen32 (wld s1) = Ret regid w1 /\ g_messages w1 = g_messages (wld s)) as (regid&w1&Hn&Hw1)
    by (unfold nonce_gen32; destruct (nonces (wld s1)); eexists _, _; split; reflexivity || done).
  set (s2 := CState (with_regid regid (self s1)) (listed s1) (set_gl (with_log (BitcoinHandler.g_log (wgl w1) ++ [LText CTRL [text "UNREGISTERING"; number (ch_regid (self s))]] ++ [LText CTRL [text "REGISTERING"; number regid]]) (wgl w1)) w1)).
  destruct (csend_bytes E (le_bytes 4 (hton32 regid)) s2 Hp) as (wq&H2&_&Hu); [change (QWF (ch_write (self s1))); by rewrite Hs1|by rewrite zlen_le_bytes|].
  eexists _, regid. split.
  { erewrite bind_ret.
    2: { erewrite bind_ret by (unfold on_world; eapply zoom_ret; exact Hn). erewrite (bind_ret (cupd _)) by reflexivity.
         erewrite (bind_ret (clog _)) by reflexivity. erewrite (bind_ret (clog _)) by reflexivity.
         erewrite bind_ret; [reflexivity|]. etransitivity; [|exact H2]. f_equal. unfold s2. cbn. unfold set_gl, wgl, with_net, with_log. cbn. by rewrite <- app_assoc. }
    unfold next_message. erewrite bind_ret.
    2: { eapply zoom_ret, set_cursor_0. change (0 < zlen (extract_buffer (ch_read (self s1)))). rewrite Hs1. exact Hpos. }
    reflexivity. }
  cbn. rewrite Hu. cbn. rewrite Hs1, hton_bytes. unfold messages_of. cbn. rewrite Hw1, Hreg. split_and!; try done.
  - by rewrite lookup_delete_ne.
  - by rewrite lookup_delete_eq.
Qed.

Lemma reregister_drops_other_witness :
  let s := CState (ctrl_ctor BitcoinPeer.demo_env 4 9 0 (Sock [] [] [] 0)) true demo_world in
  let s := set_rdr (Reader (ReadBuffer 6 0 (register_msg 4096) [] 0 0) (Sock [] [] [] 0)) s in
  exists s' regid, receive_header BitcoinPeer.demo_env s = Ret tt s' /\ ch_regid (self s') = regid /\
    messages_of 0 demo_world !! 1 = Some demo_ping /\ messages_of 0 (wld s') = ∅.
Proof.
  intros s0 s. destruct (reregister_drops_other BitcoinPeer.demo_env s (register_msg 4096) 0) as (s'&regid&Hr&Hg&_&_&Hm).
  - split; vm_compute; congruence.
  - apply write_buffer_ctor_QWF.
  - reflexivity.
  - vm_compute. congruence.
  - vm_compute. reflexivity.
  - vm_compute. reflexivity.
  - reflexivity.
  - vm_compute. congruence.
  - exists s', regid. split_and!; [exact Hr|exact Hg|reflexivity|exact Hm].
Defined.

(** ** Disconnecting *)

Lemma disconnect_one g i h :
  BitcoinHandler.g_active_handlers g !! i = Some h ->
  exists g', on_active i disconnect g = Ret tt g' /\ BitcoinHandler.g_active_handlers g' = delete i (BitcoinHandler.g_active_handlers g).
Proof. intros Hi. unfold on_active. rewrite Hi. eexists. split; reflexivity. Qed.

(** Disconnecting everyone is undefined behaviour: with any connection
    active, a disconnect command for the broadcast target erases the connection
    that for_each's iterator points to and then moves that iterator on. *)
Theorem broadcast_disconnect_faults E s id rest :
  is_u32 id -> BitcoinHandler.g_active_handlers (wgl (wld s)) <> ∅ ->
  ctrl_handle_message_recv E (command_mem COMMAND_DISCONNECT id [BROADCAST_TARGET] rest) s = Fault UseAfterFree.
Proof.
  intros Hi Hne. assert (0 <= COMMAND_DISCONNECT < 256) as Hc by done. assert (zlen [BROADCAST_TARGET] < 2 ^ 32) as Hz by done.
  assert (Forall is_u32 [BROADCAST_TARGET]) as Hf by (repeat constructor; done).
  destruct (command_mem_fields COMMAND_DISCONNECT id [BROADCAST_TARGET] rest s Hc Hi Hz) as (H0&_). unfold ctrl_handle_message_recv.
  erewrite bind_ret by exact H0. erewrite (bind_ret get) by done. change (le_val [COMMAND_DISCONNECT]) with COMMAND_DISCONNECT. cbv zeta.
  change (COMMAND_DISCONNECT =? COMMAND_GET_CXN) with false. change (COMMAND_DISCONNECT =? COMMAND_SEND_MSG) with false.
  change (COMMAND_DISCONNECT =? COMMAND_DISCONNECT) with true. cbv iota. erewrite (bind_ret (clog _)) by reflexivity. set (s1 := CState _ _ _).
  assert (foreach_handlers (command_mem COMMAND_DISCONNECT id [BROADCAST_TARGET] rest) (fun i => on_active i disconnect) (wgl (wld s1)) = Fault UseAfterFree) as Hfault.
  { destruct (foreach_run COMMAND_DISCONNECT id [BROADCAST_TARGET] rest (fun i => on_active i disconnect) (wgl (wld s1)) Hc Hi Hz Hf) as (g1&_&_&->).
    rewrite bool_decide_eq_true_2 by done. change (BitcoinHandler.g_active_handlers (wgl (wld s1))) with (BitcoinHandler.g_active_handlers (wgl (wld s))).
    destruct (ids (BitcoinHandler.g_active_handlers (wgl (wld s)))) as [|i l] eqn:Hids.
    { exfalso. apply Hne. apply map_empty. intros i. destruct (_ !! i) eqn:Hi'; [|done].
      assert (i ∈ ids (BitcoinHandler.g_active_handlers (wgl (wld s)))) as Hin by (apply in_ids; by eexists). rewrite Hids in Hin. by apply elem_of_nil in Hin. }
    assert (is_Some (BitcoinHandler.g_active_handlers (wgl (wld s)) !! i)) as [h Hh] by (apply in_ids; rewrite Hids; left).
    cbn [each_active]. destruct (disconnect_one (wgl (wld s1)) i h) as (g'&Hd&Ha); [done|]. erewrite bind_ret by exact Hd.
    erewrite (bind_ret get) by done. by rewrite Ha, lookup_delete_eq. }
  unfold on_world, on_wgl, zoom. by rewrite Hfault.
Qed.

Lemma broadcast_disconnect_faults_witness :
  ctrl_handle_message_recv BitcoinPeer.demo_env (command_mem COMMAND_DISCONNECT 0 [BROADCAST_TARGET] []) demo_state = Fault UseAfterFree.
Proof.
  apply (broadcast_disconnect_faults BitcoinPeer.demo_env demo_state 0 []); [vm_compute; split; congruence|].
  intros H. apply (f_equal (lookup 3)) in H. vm_compute in H. congruence.
Defined.

(** The target count is not checked against the message: a command that
    announces targets but ends before the first makes the handler read outside
    its buffer. *)
Theorem target_count_unchecked E s id n tail :
  is_u32 id -> 1 <= n < 2 ^ 32 -> zlen tail < 4 ->
  ctrl_handle_message_recv E ([COMMAND_DISCONNECT] ++ be_bytes 4 id ++ be_bytes 4 n ++ tail) s = Fault OutOfBounds.
Proof.
  intros Hi Hn Ht. unfold ctrl_handle_message_recv.
  erewrite bind_ret by (apply (field_app 0 1 [] [COMMAND_DISCONNECT]); done). erewrite (bind_ret get) by done.
  change (le_val [COMMAND_DISCONNECT]) with COMMAND_DISCONNECT. cbv zeta.
  change (COMMAND_DISCONNECT =? COMMAND_GET_CXN) with false. change (COMMAND_DISCONNECT =? COMMAND_SEND_MSG) with false.
  change (COMMAND_DISCONNECT =? COMMAND_DISCONNECT) with true. cbv iota. erewrite (bind_ret (clog _)) by reflexivity. set (s1 := CState _ _ _).
  set (mem := [COMMAND_DISCONNECT] ++ be_bytes 4 id ++ be_bytes 4 n ++ tail). set (g := wgl (wld s1)).
  assert (zlen mem < 13) as Hz by (unfold mem; rewrite !zlen_app, !zlen_be_bytes; change (zlen [COMMAND_DISCONNECT]) with 1; lia).
  assert (foreach_handlers mem (fun i => on_active i disconnect) g = Fault OutOfBounds) as Hfault.
  { unfold foreach_handlers. erewrite bind_ret.
    2: { unfold mem. rewrite app_assoc. apply field32_app; [by rewrite zlen_app, zlen_be_bytes|unfold is_u32; lia]. }
    assert (forall T (g0 : T), field COMMAND_MSG 4 mem g0 = Fault OutOfBounds) as Hoob.
    { intros. unfold field, COMMAND_MSG. by destruct (Z.ltb_spec (zlen mem) (9 + 4)); [|lia]. }
    destruct (Z.eqb_spec n 1); [unfold bind; by rewrite Hoob|]. erewrite (bind_ret (ret false)) by done. erewrite (bind_ret get) by done. cbv zeta.
    set (sz := Z.of_nat _). set (warn := if sz <? n then _ else _).
    assert (exists g1, warn g = Ret tt g1) as [g1 Hw] by (unfold warn; destruct (sz <? n); by eexists). erewrite bind_ret by exact Hw.
    destruct (Z.ltb_spec 0 n); [|lia].
    erewrite bind_ret by (unfold mem; apply (field32_app 1 id [COMMAND_DISCONNECT]); done).
    replace (Z.to_nat n) with (S (Z.to_nat (n - 1))) by lia. cbn [each_target]. change (COMMAND_MSG + 4 * 0) with COMMAND_MSG.
    unfold field32, bind. by rewrite Hoob. }
  unfold on_world, on_wgl, zoom. fold g. by rewrite Hfault.
Qed.

Lemma target_count_unchecked_witness :
  ctrl_handle_message_recv BitcoinPeer.demo_env ([COMMAND_DISCONNECT] ++ be_bytes 4 0 ++ be_bytes 4 2 ++ []) demo_state = Fault OutOfBounds.
Proof. apply (target_count_unchecked BitcoinPeer.demo_env demo_state 0 2 []); [vm_compute; split; congruence|vm_compute; split; congruence|reflexivity]. Defined.

(** A short connect request for an onion host over-reads: when the payload
    is shorter than a connect_payload the length of the host name wraps around,
    and 63 bytes are copied from beyond the message. *)
Theorem short_onion_overreads E strerror s msg :
  0 <= ctrl_length msg < CONNECT_PAYLOAD -> zlen msg = MESSAGE + ctrl_length msg -> WIRE_ADDR <= ctrl_length msg ->
  nth 0 (ctrl_payload msg) 0 = ADDR_FAMILY_ONION ->
  connect_payload E strerror msg s = Fault OutOfBounds.
Proof.
  intros Hl Hz Hw Hf. unfold connect_payload. erewrite (bind_ret get) by done. cbv zeta.
  assert (zlen (ctrl_payload msg) = ctrl_length msg) as Hzp by (unfold ctrl_payload, MESSAGE in *; rewrite zlen_zdrop; lia).
  unfold WIRE_ADDR, CONNECT_PAYLOAD in *. destruct (ctrl_payload msg) as [|b p] eqn:Hp; [change (zlen []) with 0 in Hzp; lia|]. simpl in Hf. subst b.
  erewrite bind_ret by (apply (field_app 0 1 [] [ADDR_FAMILY_ONION] p); done).
  change (le_val [ADDR_FAMILY_ONION]) with ADDR_FAMILY_ONION. erewrite (bind_ret (clog _)) by reflexivity.
  change ((ADDR_FAMILY_ONION =? ADDR_FAMILY_IPV4) || (ADDR_FAMILY_ONION =? ADDR_FAMILY_IPV6) || (ADDR_FAMILY_ONION =? ADDR_FAMILY_ONION)) with true. cbv iota.
  erewrite bind_ret; [|unfold field; destruct (Z.ltb_spec (zlen (ADDR_FAMILY_ONION :: p)) (0 + 19)); [lia|reflexivity]].
  set (s1 := CState _ _ _). assert (exists d s2, on_world next_dial s1 = Ret d s2) as (d&s2&Hd)
    by (unfold on_world, zoom, next_dial; destruct (dials (wld s1)); eexists _, _; reflexivity).
  erewrite bind_ret by exact Hd. change (ADDR_FAMILY_ONION =? ADDR_FAMILY_ONION) with true. cbv iota.
  assert (u32 (ctrl_length msg - 38) = 2 ^ 32 + ctrl_length msg - 38) as ->.
  { unfold u32. symmetry. apply (Z.mod_unique _ _ (-1)); lia. }
  destruct (Z.ltb_spec 0 (2 ^ 32 + ctrl_length msg - 38)); [|lia]. unfold bind, field.
  destruct (Z.ltb_spec (zlen (ADDR_FAMILY_ONION :: p)) (38 + Z.min (2 ^ 32 + ctrl_length msg - 38) 63)); [done|lia].
Qed.

Lemma short_onion_overreads_witness :
  connect_payload BitcoinPeer.demo_env (fun _ => []) ([0] ++ be_bytes 4 19 ++ [CONNECT] ++ [ADDR_FAMILY_ONION] ++ zrep 18 0) demo_state = Fault OutOfBounds.
Proof. apply (short_onion_overreads BitcoinPeer.demo_env (fun _ => []) demo_state); [vm_compute; split; congruence|reflexivity|vm_compute; congruence|reflexivity]. Defined.

(** The client library and the connector disagree on connect requests: the
    payload that connect_msg builds for an IPv4 peer is read by the connector as
    a wire address of an unknown family, so that instead of the peer an empty
    socket address is connected to. *)
Theorem easy_connect_not_understood page remote local :
  0 < page <= 2 ^ 62 -> zlen remote = SOCKADDR_IN -> zlen local = SOCKADDR_IN -> slice 0 2 remote = le_bytes 2 AF_INET ->
  wire_to_sockaddr (ctrl_payload (connect_msg page remote local)) = zrep SOCKADDR_STORAGE 0 /\
  ctrl_length (connect_msg page remote local) < CONNECT_PAYLOAD.
Proof.
  intros Hp Hr Hl Hf. unfold connect_msg. destruct (message_bytes page Hp CONNECT (zrep (SOCKADDR_IN * 2) 0)) as [rest ->]; [done|done|].
  unfold SOCKADDR_IN in Hr, Hl. explode Hr. explode Hl. injection Hf as -> ->. split; reflexivity.
Qed.

Lemma easy_connect_not_understood_witness :
  wire_to_sockaddr (ctrl_payload (connect_msg 4096 ([2; 0; 32; 141; 10; 0; 0; 1] ++ zrep 8 0) (zrep 16 0))) = zrep SOCKADDR_STORAGE 0.
Proof. apply (easy_connect_not_understood 4096 ([2; 0; 32; 141; 10; 0; 0; 1] ++ zrep 8 0) (zrep 16 0)); [lia|reflexivity|reflexivity|reflexivity]. Defined.

(** ** Waiting for clients *)

(** While a callback runs: the events are still [e], and a queue that is not
    empty is flagged. *)
Definition flagged (e : Z) (h : ctrl_handler) : Prop :=
  io_ev (ch_io h) = e /\ (WriteBuffer.to_write_ (ch_write h) <> 0 -> has (ch_state h) SEND_MASK = true).

(** [cpres e c]: when [c] returns the client's handler is still [flagged e]. *)
Definition cpres (e : Z) {A} (c : prog cstate A) : Prop := forall s a s', flagged e (self s) -> c s = Ret a s' -> flagged e (self s').

Create HintDb cpres.

Section Rules.
Context (e : Z).

Lemma cpres_ret {A} (a : A) : cpres e (ret a).
Proof. by intros s a' s' ? [= _ <-]. Qed.
Lemma cpres_get : cpres e get.
Proof. by intros s a' s' ? [= _ <-]. Qed.
Lemma cpres_crash {A} x : cpres e (crash (A := A) x).
Proof. done. Qed.
Lemma cpres_bind {A B} (c : prog cstate A) (k : A -> prog cstate B) : cpres e c -> (forall a, cpres e (k a)) -> cpres e (bind c k).
Proof. intros Hc Hk s b s' HP (a&s1&H1&H2)%bind_Ret_inv. eapply Hk, H2. by eapply Hc. Qed.
Lemma cpres_if {A} (b : bool) (c d : prog cstate A) : cpres e c -> cpres e d -> cpres e (if b then c else d).
Proof. by destruct b. Qed.
Lemma cpres_cupd u : (forall h, flagged e h -> flagged e (u h)) -> cpres e (cupd u).
Proof. intros Hf s x s' HP [= _ <-]. by apply Hf. Qed.
Lemma cpres_world {A} (c : prog world A) : cpres e (on_world c).
Proof. intros s a s' HP H. unfold on_world, zoom in H. destruct (c _); [|done..]. by injection H as _ <-. Qed.
Lemma cpres_clog ev : cpres e (clog ev).
Proof. apply cpres_world. Qed.
Lemma cpres_rdr {A} (c : prog reader A) : cpres e (zoom rdr set_rdr c).
Proof. intros s a s' HP H. unfold zoom in H. destruct (c _); [|done..]. by injection H as _ <-. Qed.
Lemma cpres_field off n mem : cpres e (field off n mem).
Proof. unfold field. apply cpres_if; [apply cpres_crash|apply cpres_ret]. Qed.
Lemma cpres_send c : cpres e (csend c).
Proof.
  intros s a s' [He _] H. unfold csend in H. apply bind_Ret_inv in H as ([]&s1&H1&H). injection H as _ <-. unfold zoom in H1.
  destruct (c _) as [[] w| |]; [|done..]. injection H1 as <-. split; [done|]. intros _. apply send_of_or.
Qed.
End Rules.

#[export] Hint Resolve cpres_ret cpres_get cpres_crash cpres_if cpres_world cpres_clog cpres_rdr cpres_field cpres_send : cpres.
#[export] Hint Extern 3 (cpres _ (bind _ _)) => (apply cpres_bind; [|intros ?]) : cpres.

Section Waiting.
Context (E : env) (strerror : Z -> list Z) (e : Z).

Lemma cpres_read_loop page transient on_full fuel : cpres e on_full -> cpres e (read_loop page transient on_full fuel).
Proof.
  intros Hf. induction fuel as [|fuel IH]; intros s a s' HP H; simpl in H; destruct (negb _); try (by injection H as _ <-).
  apply bind_Ret_inv in H as (r&s1&H1&H2). assert (flagged e (self s1)) as HP1 by exact (cpres_rdr e _ s _ s1 HP H1).
  destruct r; try (by injection H2 as _ <-). apply bind_Ret_inv in H2 as ([]&s2&H2&H3). eapply IH, H3. by eapply Hf.
Qed.

Lemma cpres_next : cpres e next_message.
Proof. unfold next_message. auto with cpres. Qed.
Lemma cpres_regid x : cpres e (cupd (with_regid x)).
Proof. by apply cpres_cupd. Qed.
Lemma cpres_recv r : Z.land r SEND_MASK = 0 -> cpres e (cupd (fun h => with_cstate (Z.lor (Z.land (ch_state h) SEND_MASK) r) h)).
Proof. intros Hr. apply cpres_cupd. intros h [He Hq]. split; [done|]. simpl. by rewrite send_of_set_recv. Qed.
Lemma cpres_mask : cpres e (cupd (fun h => with_cstate (Z.land (ch_state h) SEND_MASK) h)).
Proof. apply cpres_cupd. intros h [He Hq]. split; [done|]. simpl. intros Hn. specialize (Hq Hn). unfold has in *. by rewrite <- Z.land_assoc, Z.land_diag. Qed.
Hint Resolve cpres_next cpres_regid cpres_mask : cpres.
Hint Extern 1 (cpres _ (cupd _)) => (apply cpres_recv; reflexivity) : cpres.

Lemma cpres_header : cpres e (receive_header E).
Proof. unfold receive_header. cbv zeta. auto 30 with cpres. Qed.

Lemma cpres_handle mem : cpres e (ctrl_handle_message_recv E mem).
Proof.
  unfold ctrl_handle_message_recv. apply cpres_bind; [auto with cpres|intros c]. apply cpres_bind; [auto with cpres|intros s]. cbv zeta.
  apply cpres_if; [auto 20 with cpres|]. apply cpres_if; [|auto 20 with cpres].
  apply cpres_bind; [unfold field32; auto with cpres|intros mid]. apply cpres_bind; [auto with cpres|intros _]. case_match; auto with cpres.
Qed.

Lemma cpres_register msg : cpres e (register_payload E msg).
Proof.
  unfold register_payload. apply cpres_bind; [auto with cpres|intros s]. cbv zeta. apply cpres_bind; [|auto with cpres].
  apply cpres_if; [auto with cpres|]. apply cpres_bind; [auto with cpres|intros b]. apply cpres_bind; [auto with cpres|intros _].
  destruct (packed_text _); auto 20 with cpres.
Qed.

Lemma cpres_connect msg : cpres e (connect_payload E strerror msg).
Proof.
  unfold connect_payload. apply cpres_bind; [auto with cpres|intros s]. cbv zeta. do 4 (apply cpres_bind; [auto with cpres|intros ?]).
  apply cpres_if; [apply cpres_if; auto 20 with cpres|]. destruct (d_sock _); auto with cpres.
Qed.

Lemma cpres_payload : cpres e (receive_payload E strerror).
Proof.
  unfold receive_payload. apply cpres_bind; [auto with cpres|intros s]. cbv zeta. do 2 (apply cpres_bind; [auto with cpres|intros ?]).
  apply cpres_bind; [|auto 20 with cpres]. repeat apply cpres_if; auto using cpres_register, cpres_connect with cpres.
  apply cpres_bind; [apply cpres_handle|auto with cpres].
Qed.

Lemma cpres_full : cpres e (ctrl_full E strerror).
Proof. unfold ctrl_full. apply cpres_bind; [auto with cpres|intros s]. repeat apply cpres_if; auto using cpres_header, cpres_payload with cpres. Qed.

Lemma cpres_suicide : cpres e ctrl_suicide.
Proof.
  unfold ctrl_suicide. repeat (apply cpres_bind; [auto with cpres; try (by apply cpres_cupd)|intros ?]). by intros ? ? ? ? [= _ <-].
Qed.

Lemma cpres_do_read : cpres e (ctrl_do_read E strerror).
Proof.
  unfold ctrl_do_read. apply cpres_bind; [auto with cpres|intros s]. apply cpres_bind; [apply cpres_read_loop, cpres_full|intros r].
  destruct r; auto using cpres_suicide with cpres.
Qed.

Lemma cpres_do_write : cpres e (ctrl_do_write strerror).
Proof.
  intros s a s' [He Hq] H. unfold ctrl_do_write in H. apply bind_Ret_inv in H as (r&s1&H1&H). unfold ctrl_drain in H1. cbv zeta in H1.
  destruct (drain ctrl_again _ _) as [r' w| |] eqn:Hd; [|done..]. injection H1 as <- <-. apply drain_count in Hd as [Hd1 Hd2].
  set (s1 := CState _ _ _) in H. assert (flagged e (self s1)) as HP1 by (split; [done|]; simpl; intros Hn; apply Hq; intros H0; apply Hn; by apply Hd2).
  destruct r' as [| | |err].
  - injection H as _ <-. split; [done|]. simpl. intros Hn. by rewrite Hd1 in Hn.
  - by injection H as _ <-.
  - by injection H as _ <-.
  - apply bind_Ret_inv in H as ([]&s2&H2&H). eapply cpres_suicide, H. by eapply cpres_clog.
Qed.
End Waiting.

(** A client's handler between callbacks. *)
Definition attentive (h : ctrl_handler) : Prop := flagged (wanted (ch_state h)) h.

(** What the kernel has for the client. *)
Definition cgive (rxs : list recv_event) (ws : list write_event) (s : cstate) : cstate :=
  let k := sk (rdr s) in set_rdr (Reader (rb (rdr s)) (Sock rxs ws (tx k) (errno k))) s.

Inductive cstep : cstate -> cstate -> Prop :=
  | C_io E strerror rxs ws rev s s' : ctrl_io_cb E strerror rev (cgive rxs ws s) = Ret tt s' -> cstep s s'
  | C_world s w : cstep s (CState (self s) (listed s) w).

Lemma cstep_attentive s s' : cstep s s' -> attentive (self s) -> attentive (self s').
Proof.
  intros [E se rxs ws rev t t' H|t w] HA; [|done]. unfold ctrl_io_cb in H. erewrite (bind_ret get) in H by done. cbv zeta in H.
  change (ch_state (self (cgive rxs ws t))) with (ch_state (self t)) in H. unfold attentive in HA. set (old := ch_state (self t)) in *.
  change (flagged (wanted old) (self (cgive rxs ws t))) in HA. apply bind_Ret_inv in H as ([]&s1&H1&H).
  assert (flagged (wanted old) (self s1)) as HA1 by (destruct (_ && _); [by eapply cpres_do_read|by injection H1 as <-]).
  erewrite (bind_ret get) in H by done. apply bind_Ret_inv in H as ([]&s2&H2&H). assert (s2 = s1) as -> by (unfold assert in H2; destruct (negb _); [by injection H2|done]).
  apply bind_Ret_inv in H as ([]&s3&H3&H). assert (s3 = s1) as -> by (unfold assert in H3; destruct (has (ch_state (self s1)) RECV_MASK); [by injection H3|done]).
  apply bind_Ret_inv in H as ([]&s4&H4&H). assert (flagged (wanted old) (self s4)) as HA4 by (destruct (has rev ev_WRITE); [by eapply cpres_do_write|by injection H4 as <-]).
  erewrite (bind_ret get) in H by done. destruct (Z.eqb_spec (ch_state (self s4)) old) as [He|He].
  - injection H as <-. unfold attentive. by rewrite He.
  - injection H as <-. destruct HA4 as [_ Hq]. split; [done|exact Hq].
Qed.

(** A client's replies do not get stuck: from its acceptance on, after any
    callbacks and whatever else happens in the connector between them, the
    watcher of a client waits for exactly what the handler's state asks for, and
    as long as a reply is queued that includes writability. *)
Theorem client_never_sleeps E f id regid k w s :
  rtc cstep (CState (ctrl_ctor E f id regid k) true w) s ->
  io_ev (ch_io (self s)) = wanted (ch_state (self s)) /\
  (WriteBuffer.to_write_ (ch_write (self s)) <> 0 -> has (io_ev (ch_io (self s))) ev_WRITE = true).
Proof.
  intros Hs. assert (attentive (self s)) as [He Hq].
  { assert (attentive (self (CState (ctrl_ctor E f id regid k) true w))) as H0 by done.
    revert H0. induction Hs; eauto using cstep_attentive. }
  split; [done|]. intros Hn. rewrite He. by apply wanted_write, Hq.
Qed.

Lemma client_never_sleeps_witness :
  exists s', ctrl_io_cb BitcoinPeer.demo_env (fun _ => []) ev_READ (cgive [RData (register_msg 4096)] [] demo_state) = Ret tt s' /\
    has (io_ev (ch_io (self s'))) ev_WRITE = true.
Proof.
  assert (exists s', ctrl_io_cb BitcoinPeer.demo_env (fun _ => []) ev_READ (cgive [RData (register_msg 4096)] [] demo_state) = Ret tt s' /\
    WriteBuffer.to_write_ (ch_write (self s')) <> 0) as (s'&Hr&Hn) by (eexists; split; [vm_compute; reflexivity|vm_compute; congruence]).
  exists s'. split; [exact Hr|].
  refine (proj2 (client_never_sleeps BitcoinPeer.demo_env 4 0 5 (Sock [] [] [] 0) demo_world s' _) Hn).
  apply rtc_once. exact (C_io _ _ _ _ _ _ _ Hr).
Defined.
