(* ===== verification/CVector.v ===== *)
(** * cvector and iobuf

    The vector of shared/includes/cvector.hpp, written for elements that need
    no construction, and the byte buffer of shared/src/iobuf.cpp built on it.
    A cell of memory that [new T[n]] gave and nobody wrote is [None]. Three
    members cannot be instantiated and are left out: the constructor from a
    pointer (it initialises a number with a member function), shrink_to_fit
    (its copy has the arguments in the wrong order) and erase (it assigns
    through a pointer to const). *)

From S2P Require Import Prelude.
From S2P Require Import Bytes.

Section CVector.
(** The element type, its zero [T()], and the largest array that [new T[n]]
    gives; more throws std::bad_alloc. *)
Context {T : Type} (zero : T) (limit : Z).

#[local] Abbreviation cell := (option T).

(** [container] is null after a move. *)
Record cvector := CVector { container : option (list cell); allocated : Z; size_ : Z }.

Definition new_array {S} (n : Z) : prog S (list cell) :=
  if n <=? limit then ret (zrep n None) else raise BadAlloc.

(** Reading [n] cells from the start of an array (std::copy's source). *)
Definition read_cells {S} (c : option (list cell)) (n : Z) : prog S (list cell) :=
  if n =? 0 then ret []
  else let! c := deref NullDeref c in
       if zlen c <? n then crash OutOfBounds else ret (ztake n c).

(** Writing cells into an array from offset [off] on (std::copy's target). *)
Definition write_cells {S} (off : Z) (d : list cell) (c : option (list cell)) : prog S (option (list cell)) :=
  if zlen d =? 0 then ret c
  else let! c := deref NullDeref c in
       if zlen c <? off + zlen d then crash OutOfBounds else ret (Some (splice off d c)).

(** ** Construction *)

Definition cvector_ctor {S} (initial_capacity : Z) : prog S cvector :=
  let! c := new_array initial_capacity in
  ret (CVector (Some c) initial_capacity 0).

Definition cvector_copy {S} (other : cvector) : prog S cvector :=
  let! c := new_array (allocated other) in
  let! d := read_cells (container other) (size_ other) in
  let! c := write_cells 0 d (Some c) in
  ret (CVector c (allocated other) (size_ other)).

(** The move constructor; the state is the vector moved from. *)
Definition cvector_move : prog cvector cvector := fun other =>
  Ret (CVector (container other) (allocated other) (size_ other)) (CVector None 0 0).

Definition swap : prog (cvector * cvector) unit := modify (fun p => (snd p, fst p)).

(** operator=(cvector other): swap with the copy that was passed. *)
Definition cvector_assign (other : cvector) : prog cvector unit := fun v =>
  match cvector_copy other v with
  | Ret tmp v =>
      match swap (v, tmp) with
      | Ret _ (v, _) => Ret tt v
      | Raise e (v, _) => Raise e v
      | Fault f => Fault f
      end
  | Raise e v => Raise e v
  | Fault f => Fault f
  end.

(** ** Elements *)

(** container[pos], read and written through the reference. *)
Definition at_pos (pos : Z) : prog cvector cell := fun v =>
  (let! c := deref NullDeref (container v) in
   deref OutOfBounds (if pos <? 0 then None else c !! Z.to_nat pos)) v.

Definition set_pos (pos : Z) (x : T) : prog cvector unit := fun v =>
  (let! c := write_cells pos [Some x] (container v) in
   put (CVector c (allocated v) (size_ v))) v.

Definition front : prog cvector cell := at_pos 0.

Definition back : prog cvector cell := fun v =>
  if 0 <? size_ v then at_pos (size_ v - 1) v
  else Raise (OutOfRange "Invalid operation with size zero") v.

(** ** Size and capacity *)

(** [return size_], converted to bool *)
Definition empty (v : cvector) : bool := negb (size_ v =? 0).
Definition size (v : cvector) : Z := size_ v.
Definition max_size : Z := 2 ^ 64 - 1.
Definition capacity (v : cvector) : Z := allocated v.

Definition set_size (n : Z) : prog cvector unit :=
  modify (fun v => CVector (container v) (allocated v) n).

Definition reserve (new_cap : Z) : prog cvector unit := fun v =>
  if allocated v <? new_cap then
    (let! tmp := new_array new_cap in
     let! d := read_cells (container v) (size_ v) in
     let! tmp := write_cells 0 d (Some tmp) in
     put (CVector tmp new_cap (size_ v))) v
  else Ret tt v.

Definition clear : prog cvector unit := set_size 0.

(** A [const T&] argument: a value elsewhere, or an element of the vector. *)
Inductive vref := Val (x : T) | Elem (i : Z).

(** The value of the reference after [reserve] may have freed the array [old]. *)
Definition load (old : Z) (r : vref) : prog cvector cell := fun v =>
  match r with
  | Val x => Ret (Some x) v
  | Elem i => if allocated v =? old then at_pos i v else Fault UseAfterFree
  end.

Definition store_cell (pos : Z) (x : cell) : prog cvector unit := fun v =>
  (let! c := write_cells pos [x] (container v) in
   put (CVector c (allocated v) (size_ v))) v.

Definition push_back (value : vref) : prog cvector unit :=
  let! v := get in
  do! (match container v with
       | None => let! c := new_array 16 in put (CVector (Some c) 16 (size_ v))
       | Some _ => ret tt
       end) in
  let! v := get in
  do! (if size_ v =? allocated v then reserve (u64 (allocated v * 2)) else ret tt) in
  let! x := load (allocated v) value in
  do! set_size (u64 (size_ v + 1)) in
  store_cell (size_ v) x.

Definition pop_back : prog cvector unit :=
  modify (fun v => CVector (container v) (allocated v) (u64 (size_ v - 1))).

Definition lazy_resize (count : Z) : prog cvector unit :=
  let! v := get in
  do! (if size_ v <? count then reserve count else ret tt) in
  set_size count.

(** The loop of resize: from [cur] to [end()]. *)
Fixpoint fill_loop (old : Z) (value : vref) (cur : Z) (todo : nat) : prog cvector unit :=
  match todo with
  | O => ret tt
  | S todo =>
      let! x := load old value in
      do! store_cell cur x in
      fill_loop old value (cur + 1) todo
  end.

Definition resize_with (count : Z) (value : vref) : prog cvector unit :=
  let! v := get in
  if size_ v <? count then
    do! reserve count in
    do! set_size count in
    fill_loop (allocated v) value (size_ v) (Z.to_nat (count - size_ v))
  else set_size count.

Definition resize_to (count : Z) : prog cvector unit :=
  let! v := get in
  if size_ v <? count then resize_with count (Val zero) else set_size count.

(** ** What the vector promises *)

(** The representation: the array has the length the vector believes, and
    holds the elements. *)
Record CWF (v : cvector) : Prop := {
  cwf_size : 0 <= size_ v <= allocated v;
  cwf_limit : allocated v <= limit;
  cwf_array : match container v with Some c => zlen c = allocated v | None => allocated v = 0 end }.

(** A vector that can grow: it never owns an array of length 0. *)
Definition roomy (v : cvector) : Prop := container v = None \/ 0 < allocated v.

Definition cells (v : cvector) : list cell := default [] (container v).
Definition elems (v : cvector) : list cell := ztake (size_ v) (cells v).

(** What a vector is for its users: its elements and its capacity, which is 0
    for a vector without an array. *)
Definition avec : Type := list cell * Z.
Definition abs (v : cvector) : avec := (elems v, allocated v).

(** The operations of one vector; arguments may be references to its elements. *)
Inductive cop :=
  | PushBack (value : vref) | PopBack | Clear | Reserve (n : Z) | LazyResize (n : Z)
  | ResizeWith (n : Z) (value : vref) | ResizeTo (n : Z) | SetPos (i : Z) (x : T) | AtPos (i : Z)
  | Front | Back | IsEmpty | Size | Capacity.

Inductive cres := Done | Cell (c : cell) | Flag (b : bool) | Num (n : Z).

Definition run_cop (o : cop) : prog cvector cres :=
  match o with
  | PushBack value => do! push_back value in ret Done
  | PopBack => do! pop_back in ret Done
  | Clear => do! clear in ret Done
  | Reserve n => do! reserve n in ret Done
  | LazyResize n => do! lazy_resize n in ret Done
  | ResizeWith n value => do! resize_with n value in ret Done
  | ResizeTo n => do! resize_to n in ret Done
  | SetPos i x => do! set_pos i x in ret Done
  | AtPos i => let! c := at_pos i in ret (Cell c)
  | Front => let! c := front in ret (Cell c)
  | Back => let! c := back in ret (Cell c)
  | IsEmpty => let! v := get in ret (Flag (empty v))
  | Size => let! v := get in ret (Num (size v))
  | Capacity => let! v := get in ret (Num (capacity v))
  end.

(** The operations on lists. The capacity doubles when it is used up, starting
    with 16, or grows to what is asked for. *)
Definition doubled (n cap : Z) : Z :=
  let cap := if cap =? 0 then 16 else cap in if n =? cap then cap * 2 else cap.
Definition widened (m n cap : Z) : Z := if n <? m then Z.max cap m else cap.

Definition value_of (value : vref) (l : list cell) : option cell :=
  match value with Val x => Some (Some x) | Elem i => l !! Z.to_nat i end.

(** Growing with lazy_resize leaves the new cells as they are in memory. empty()
    says whether there are elements. *)
Definition cop_spec (o : cop) (a : avec) (r : cres) (a' : avec) : Prop :=
  let (l, cap) := a in
  match o with
  | PushBack value => exists x, value_of value l = Some x /\ a' = (l ++ [x], doubled (zlen l) cap) /\ r = Done
  | PopBack => a' = (ztake (zlen l - 1) l, cap) /\ r = Done
  | Clear => a' = ([], cap) /\ r = Done
  | Reserve n => a' = (l, Z.max cap n) /\ r = Done
  | LazyResize n => exists l', a' = (l', widened n (zlen l) cap) /\ zlen l' = n /\ ztake (zlen l) l' = ztake n l /\ r = Done
  | ResizeWith n value => exists x, value_of value l = Some x /\ a' = (resize n x l, widened n (zlen l) cap) /\ r = Done
  | ResizeTo n => a' = (resize n (Some zero) l, widened n (zlen l) cap) /\ r = Done
  | SetPos i x => a' = (splice i [Some x] l, cap) /\ r = Done
  | AtPos i => a' = a /\ exists c, l !! Z.to_nat i = Some c /\ r = Cell c
  | Front => a' = a /\ exists c, head l = Some c /\ r = Cell c
  | Back => a' = a /\ exists c, last l = Some c /\ r = Cell c
  | IsEmpty => a' = a /\ r = Flag (negb (zlen l =? 0))
  | Size => a' = a /\ r = Num (zlen l)
  | Capacity => a' = a /\ r = Num cap
  end.

(** What a caller must respect, for a vector of [n] elements with room for
    [cap]: elements exist, memory suffices, and an argument that refers to an
    element is used only while the array stays. *)
Definition allowed (o : cop) (n cap : Z) : bool :=
  match o with
  | PushBack (Val _) => n <? limit / 2
  | PushBack (Elem i) => (0 <=? i) && (i <? n) && (n <? cap)
  | PopBack | Front | Back => 0 <? n
  | Reserve m | LazyResize m | ResizeWith m (Val _) | ResizeTo m => (0 <=? m) && (m <=? limit)
  | ResizeWith m (Elem i) => (0 <=? i) && (i <? n) && (0 <=? m) && (m <=? cap)
  | SetPos i _ | AtPos i => (0 <=? i) && (i <? n)
  | Clear | IsEmpty | Size | Capacity => true
  end.

(** Elements and capacity afterwards. *)
Definition cop_after (o : cop) (n cap : Z) : Z * Z :=
  match o with
  | PushBack _ => (n + 1, doubled n cap)
  | PopBack => (n - 1, cap)
  | Clear => (0, cap)
  | Reserve m => (n, Z.max cap m)
  | LazyResize m | ResizeWith m _ | ResizeTo m => (m, widened m n cap)
  | _ => (n, cap)
  end.

(** ** Several vectors *)

(** The constructors and what they do to the other vector; destructors. *)
Inductive vop :=
  | New (a n : Z) | Copied (a b : Z) | Moved (a b : Z) | Assigned (a b : Z) | Swapped (a b : Z) | Destroyed (a : Z)
  | On (a : Z) (o : cop).

#[local] Abbreviation vectors := (gmap Z cvector).

Definition vector_at (a : Z) : prog vectors cvector := fun w => deref UseAfterFree (w !! a) w.
Definition set_vector (a : Z) (v : cvector) : prog vectors unit := modify (<[a := v]>).

(** A member function of the vector [a]. *)
Definition on_vector {A} (a : Z) (c : prog cvector A) : prog vectors A := fun w =>
  match w !! a with
  | None => Fault UseAfterFree
  | Some v => match c v with
              | Ret r v => Ret r (<[a := v]> w)
              | Raise e v => Raise e (<[a := v]> w)
              | Fault f => Fault f
              end
  end.

Definition run_vop (o : vop) : prog vectors cres :=
  match o with
  | New a n => let! v := cvector_ctor n in do! set_vector a v in ret Done
  | Copied a b => let! other := vector_at b in let! v := cvector_copy other in do! set_vector a v in ret Done
  | Moved a b => let! v := on_vector b cvector_move in do! set_vector a v in ret Done
  | Assigned a b => let! other := vector_at b in do! on_vector a (cvector_assign other) in ret Done
  | Swapped a b =>
      let! x := vector_at a in
      let! y := vector_at b in
      match swap (x, y) with
      | Ret _ (x, y) => do! set_vector b y in do! set_vector a x in ret Done
      | Raise e _ => raise e
      | Fault f => crash f
      end
  | Destroyed a => let! _ := vector_at a in do! modify (delete a) in ret Done
  | On a o => on_vector a (run_cop o)
  end.

Definition vop_spec (o : vop) (m : gmap Z avec) (r : cres) (m' : gmap Z avec) : Prop :=
  match o with
  | New a n => m' = <[a := ([], n)]> m /\ r = Done
  | Copied a b | Assigned a b => exists x, m !! b = Some x /\ m' = <[a := x]> m /\ r = Done
  | Moved a b => exists x, m !! b = Some x /\ m' = <[a := x]> (<[b := ([], 0)]> m) /\ r = Done
  | Swapped a b => exists x y, m !! a = Some x /\ m !! b = Some y /\ m' = <[a := y]> (<[b := x]> m) /\ r = Done
  | Destroyed a => m' = delete a m /\ r = Done
  | On a o => exists x x', m !! a = Some x /\ cop_spec o x r x' /\ m' = <[a := x']> m
  end.

(** New objects are new, used ones exist; a vector without an array (moved
    from) is not copied. *)
#[local] Abbreviation shapes := (gmap Z (Z * Z)).
Definition has_array (sh : shapes) (a : Z) : bool := match sh !! a with Some (_, cap) => 0 <? cap | None => false end.
Definition exists_in (sh : shapes) (a : Z) : bool := match sh !! a with Some _ => true | None => false end.

Definition vallowed (o : vop) (sh : shapes) : bool :=
  match o with
  | New a n => negb (exists_in sh a) && (0 <? n) && (n <=? limit)
  | Copied a b => negb (exists_in sh a) && has_array sh b
  | Moved a b => negb (exists_in sh a) && exists_in sh b
  | Assigned a b => exists_in sh a && has_array sh b
  | Swapped a b => exists_in sh a && exists_in sh b
  | Destroyed a => exists_in sh a
  | On a o => match sh !! a with Some (n, cap) => allowed o n cap | None => false end
  end.

Definition vafter (o : vop) (sh : shapes) : shapes :=
  let at_ a := default (0, 0) (sh !! a) in
  match o with
  | New a n => <[a := (0, n)]> sh
  | Copied a b | Assigned a b => <[a := at_ b]> sh
  | Moved a b => <[a := at_ b]> (<[b := (0, 0)]> sh)
  | Swapped a b => <[a := at_ b]> (<[b := at_ a]> sh)
  | Destroyed a => delete a sh
  | On a o => let (n, cap) := at_ a in <[a := cop_after o n cap]> sh
  end.

Fixpoint run_vops (os : list vop) : prog vectors (list cres) :=
  match os with
  | [] => ret []
  | o :: os => let! r := run_vop o in let! rs := run_vops os in ret (r :: rs)
  end.

Fixpoint vallowed_all (os : list vop) (sh : shapes) : bool :=
  match os with
  | [] => true
  | o :: os => vallowed o sh && vallowed_all os (vafter o sh)
  end.

Fixpoint vops_spec (os : list vop) (m : gmap Z avec) (rs : list cres) (m' : gmap Z avec) : Prop :=
  match os, rs with
  | [], [] => m' = m
  | o :: os, r :: rs => exists m1, vop_spec o m r m1 /\ vops_spec os m1 rs m'
  | _, _ => False
  end.

(** ** Every operation keeps the representation and acts on the elements *)

Hypothesis Hlimit : 16 <= limit < 2 ^ 62.

Lemma zlen_cells v : CWF v -> zlen (cells v) = allocated v.
Proof. intros [_ _ Ha]. unfold cells. by destruct (container v). Qed.

Lemma zlen_elems v : CWF v -> zlen (elems v) = size_ v.
Proof. intros HW. unfold elems. rewrite zlen_ztake, zlen_cells by done. destruct HW. lia. Qed.

Lemma read_elems {S} v (s : S) : CWF v -> read_cells (container v) (size_ v) s = Ret (elems v) s.
Proof.
  intros HW. pose proof (zlen_cells v HW) as Hl. destruct HW as [Hs _ Ha].
  unfold read_cells, elems, cells in *. zcase; [by rewrite ztake_neg by lia|].
  destruct (container v) as [c|]; simpl in *; [|lia].
  unfold bind, deref, ret. destruct (Z.ltb_spec (zlen c) (size_ v)); [lia|done].
Qed.

Lemma write_cells_some {S} off d c (s : S) :
  0 <= off -> off + zlen d <= zlen c -> write_cells off d (Some c) s = Ret (Some (splice off d c)) s.
Proof.
  intros. unfold write_cells. destruct (Z.eqb_spec (zlen d) 0) as [Hd|Hd].
  - apply zlen_0_nil in Hd as ->. unfold splice. rewrite zlen_nil, Z.add_0_r. simpl. by rewrite ztake_zdrop.
  - simpl. unfold bind, ret, deref. destruct (Z.ltb_spec (zlen c) (off + zlen d)); [lia|done].
Qed.

(** reserve: at least [n] cells, the same elements. *)
Lemma vreserve_spec n v :
  CWF v -> 0 <= n <= limit -> roomy v ->
  exists c, reserve n v = Ret tt (CVector c (Z.max (allocated v) n) (size_ v)) /\
    let v' := CVector c (Z.max (allocated v) n) (size_ v) in CWF v' /\ roomy v' /\ elems v' = elems v.
Proof.
  intros HW Hn Hr. pose proof (zlen_elems v HW) as Hle. pose proof HW as [Hs Hl Ha].
  unfold reserve. destruct (Z.ltb_spec (allocated v) n) as [Hgt|Hgt].
  - unfold new_array. destruct (Z.leb_spec n limit); [|lia].
    erewrite bind_ret by done. run_step @read_elems; [|done].
    run_step @write_cells_some; [|lia|rewrite zlen_zrep; lia].
    assert (zlen (splice 0 (elems v) (zrep n None)) = n) as Hz
      by (rewrite zlen_splice; rewrite ?zlen_zrep; lia).
    rewrite Z.max_r by lia. eexists. split; [reflexivity|]. simpl. split_and!.
    + split; simpl; [lia|lia|done].
    + right. simpl. lia.
    + unfold elems at 1, cells. simpl. rewrite <- Hle at 1.
      rewrite <- (Z.add_0_l (zlen (elems v))), splice_take by (rewrite zlen_zrep; lia). done.
  - rewrite Z.max_l by lia. exists (container v). destruct v. done.
Qed.

(** Writing one cell of the array. *)
Lemma store_cell_spec i x v :
  CWF v -> 0 <= i < allocated v ->
  exists c, store_cell i x v = Ret tt (CVector (Some c) (allocated v) (size_ v)) /\
    c = splice i [x] (cells v) /\ CWF (CVector (Some c) (allocated v) (size_ v)).
Proof.
  intros HW Hi. pose proof (zlen_cells v HW) as Hl. pose proof HW as [Hs Hlim Ha].
  unfold store_cell, cells in *. destruct (container v) as [c|]; simpl in *; [|lia].
  run_step @write_cells_some; [|lia|change (zlen [x]) with 1; lia].
  eexists. split; [done|]. split; [done|]. split; simpl; [lia|lia|].
  rewrite zlen_splice; [done|lia|change (zlen [x]) with 1; lia].
Qed.

Lemma set_pos_store i x v : set_pos i x v = store_cell i (Some x) v.
Proof. done. Qed.

(** A cell beyond the elements extends them; one among them replaces it. *)
Lemma ztake_splice1 {A} i n (x : A) l :
  0 <= i < n -> n <= zlen l -> ztake n (splice i [x] l) = splice i [x] (ztake n l).
Proof.
  intros Hi Hn. unfold splice. change (zlen [x]) with 1.
  rewrite ztake_app_r by (rewrite zlen_ztake; lia). rewrite zlen_ztake, Z.max_r, Z.min_l by lia.
  rewrite ztake_ztake, Z.min_l by lia. f_equal.
  rewrite ztake_app_r by (change (zlen [x]) with 1; lia). change (zlen [x]) with 1. f_equal.
  unfold ztake, zdrop. rewrite take_drop_commute. repeat f_equal; lia.
Qed.

Lemma ztake_splice_last {A} n (x : A) l :
  0 <= n < zlen l -> ztake (n + 1) (splice n [x] l) = ztake n l ++ [x].
Proof. intros. change 1 with (zlen [x]). by apply splice_take; lia. Qed.

(** The elements after one of them was stored. *)
Lemma elems_store i x v :
  CWF v -> 0 <= i < size_ v ->
  elems (CVector (Some (splice i [x] (cells v))) (allocated v) (size_ v)) = splice i [x] (elems v).
Proof. intros HW Hi. pose proof (zlen_cells v HW). destruct HW. apply ztake_splice1; lia. Qed.

Lemma set_size_wf n v : CWF v -> 0 <= n <= allocated v -> CWF (CVector (container v) (allocated v) n).
Proof. intros [] ?. by split. Qed.

Lemma at_pos_spec i v :
  CWF v -> 0 <= i < size_ v -> exists r, at_pos i v = Ret r v /\ elems v !! Z.to_nat i = Some r.
Proof.
  intros HW Hi. pose proof (zlen_cells v HW) as Hl. pose proof HW as [Hs _ Ha].
  unfold at_pos, elems, cells, ztake in *. destruct (container v) as [c|]; simpl in *; [|lia].
  erewrite bind_ret by done. destruct (Z.ltb_spec i 0); [lia|].
  destruct (lookup_lt_is_Some_2 c (Z.to_nat i)) as [r Hr]; [unfold zlen in Hl; lia|].
  exists r. rewrite Hr. split; [done|]. rewrite lookup_take_lt by lia. done.
Qed.

(** The last two statements of push_back, with room for an element. *)
Lemma push_store_spec x v :
  CWF v -> size_ v < allocated v ->
  exists v', (do! set_size (u64 (size_ v + 1)) in store_cell (size_ v) x) v = Ret tt v' /\
    CWF v' /\ roomy v' /\ elems v' = elems v ++ [x] /\ allocated v' = allocated v.
Proof.
  intros HW Hlt. pose proof (zlen_cells v HW) as Hl. pose proof HW as [Hs Hlim _].
  unfold set_size. erewrite bind_ret by done. rewrite u64_small by lia.
  destruct (store_cell_spec (size_ v) x (CVector (container v) (allocated v) (size_ v + 1)))
    as (c&->&->&HW'); [apply set_size_wf; [done|lia]|simpl; lia|].
  eexists. split; [done|]. split; [done|]. split; [right; simpl; lia|]. split; [|done].
  unfold elems, cells in *. simpl. apply ztake_splice_last. lia.
Qed.

(** The argument [value] is [x]; when it refers to an element, that is read from
    the array [old]. *)
Definition denotes (old : Z) (value : vref) (x : cell) (v : cvector) : Prop :=
  match value with
  | Val y => x = Some y
  | Elem i => allocated v = old /\ 0 <= i < size_ v /\ elems v !! Z.to_nat i = Some x
  end.

Lemma load_spec old value x v : CWF v -> denotes old value x v -> load old value v = Ret x v.
Proof.
  intros HW. destruct value as [y|i]; simpl; [by intros ->|]. intros (<-&Hi&Hx). rewrite Z.eqb_refl.
  destruct (at_pos_spec i v HW Hi) as (r&->&Hr). congruence.
Qed.

Lemma push_back_spec value x v :
  CWF v -> roomy v -> size_ v < limit / 2 \/ size_ v < allocated v ->
  denotes (allocated v) value x v -> (is_Some (value_of value []) \/ size_ v < allocated v) ->
  exists v', push_back value v = Ret tt v' /\ CWF v' /\ roomy v' /\ elems v' = elems v ++ [x] /\
    allocated v' = doubled (size_ v) (allocated v).
Proof.
  intros HW Hr Hlt Hd Hval. pose proof HW as [Hs Hlim Ha].
  assert (2 * (limit / 2) <= limit) by (apply Z.mul_div_le; lia).
  unfold push_back. erewrite bind_ret by done. destruct (container v) as [c|] eqn:Hc.
  - erewrite bind_ret by done. erewrite bind_ret by done.
    destruct Hr as [?|Hpos]; [congruence|]. unfold doubled. destruct (Z.eqb_spec (allocated v) 0); [lia|]. zcase.
    + rewrite u64_small by lia.
      destruct (vreserve_spec (allocated v * 2) v) as (c'&Hres&HW'&_&He); [done|lia|by right|].
      run_step Hres. destruct value as [y|i]; [|destruct Hval as [[? ?]|]; [done|lia]]. simpl in Hd. subst x.
      erewrite bind_ret by done. set (v1 := CVector c' _ _) in *. change (size_ v) with (size_ v1). rewrite <- He.
      destruct (push_store_spec (Some y) v1) as (v'&?&?&?&?&Hal); [done|simpl; lia|]. exists v'. split_and!; try done. rewrite Hal. simpl. lia.
    + erewrite bind_ret by done. erewrite bind_ret by (by apply load_spec).
      destruct (push_store_spec x v) as (v'&?&?&?&?&Hal); [done|lia|]. exists v'. by split_and!.
  - assert (size_ v = 0 /\ allocated v = 0) as [Hs0 Ha0] by lia.
    destruct value as [y|i]; [|simpl in Hd; lia]. simpl in Hd. subst x.
    assert (doubled (size_ v) (allocated v) = 16) as -> by by rewrite Hs0, Ha0.
    unfold new_array. destruct (Z.leb_spec 16 limit); [|lia].
    set (v1 := CVector (Some (zrep 16 None)) 16 (size_ v)).
    assert (CWF v1) as HW1 by (split; simpl; [lia|lia|by rewrite zlen_zrep]).
    assert (elems v1 = elems v) as <-.
    { transitivity (@nil cell); [|symmetry]; apply zlen_0_nil; rewrite zlen_elems by done; simpl; lia. }
    erewrite (bind_ret _ _ v tt v1) by done. erewrite bind_ret by done.
    simpl size_. simpl allocated. destruct (Z.eqb_spec (size_ v) 16); [lia|].
    do 2 erewrite bind_ret by done. apply (push_store_spec (Some y) v1); [done|]. simpl. lia.
Qed.

(** Cutting, or growing to cells that are there. *)
Lemma set_size_spec n v :
  CWF v -> roomy v -> 0 <= n <= allocated v ->
  let v' := CVector (container v) (allocated v) n in
  set_size n v = Ret tt v' /\ CWF v' /\ roomy v' /\ zlen (elems v') = n /\
  ztake (zlen (elems v)) (elems v') = ztake n (elems v) /\ (n <= size_ v -> elems v' = ztake n (elems v)).
Proof.
  intros HW Hr Hn v'. assert (CWF v') as HW' by (apply set_size_wf; done).
  pose proof HW as [Hs _ _]. pose proof (zlen_elems v HW). pose proof (zlen_elems v' HW').
  split_and!; [done|done|done|done| |].
  - subst v'. unfold elems, cells in *. simpl in *. rewrite !ztake_ztake. f_equal. lia.
  - intros. subst v'. unfold elems, cells in *. simpl in *. rewrite !ztake_ztake. f_equal. lia.
Qed.

Lemma lazy_resize_spec n v :
  CWF v -> roomy v -> 0 <= n <= limit ->
  exists v', lazy_resize n v = Ret tt v' /\ CWF v' /\ roomy v' /\ zlen (elems v') = n /\
    ztake (zlen (elems v)) (elems v') = ztake n (elems v) /\ allocated v' = widened n (size_ v) (allocated v).
Proof.
  intros HW Hr Hn. unfold lazy_resize, widened. erewrite bind_ret by done. pose proof HW as [Hs _ _]. zcase.
  - destruct (vreserve_spec n v) as (c&Hres&HW'&Hr'&He); [done..|]. run_step Hres.
    destruct (set_size_spec n (CVector c (Z.max (allocated v) n) (size_ v))) as (->&?&?&?&?&_); [done|done|simpl; lia|].
    rewrite <- He. eexists. by split_and!.
  - erewrite bind_ret by done. destruct (set_size_spec n v) as (->&?&?&?&?&_); [done|done|lia|]. eexists. by split_and!.
Qed.

(** The loop of resize fills the cells up to the new end. *)
Lemma fill_loop_spec old value x todo v cur :
  CWF v -> 0 <= cur -> cur + Z.of_nat todo = size_ v ->
  denotes old value x v -> match value with Val _ => True | Elem i => i < cur end ->
  exists v', fill_loop old value cur todo v = Ret tt v' /\ CWF v' /\
    allocated v' = allocated v /\ size_ v' = size_ v /\ (roomy v -> roomy v') /\
    elems v' = ztake cur (elems v) ++ replicate todo x.
Proof.
  revert v cur. induction todo as [|todo IH]; intros v cur HW Hc Hle Hd Hi; simpl.
  - exists v. split_and!; try done. rewrite app_nil_r, ztake_all; [done|].
    rewrite zlen_elems by done. lia.
  - pose proof HW as [Hs _ _]. pose proof (zlen_cells v HW). pose proof (zlen_elems v HW). erewrite bind_ret by (by apply load_spec).
    destruct (store_cell_spec cur x v) as (c&Hst&->&HW'); [done|lia|]. run_step Hst.
    set (v1 := CVector (Some (splice cur [x] (cells v))) (allocated v) (size_ v)) in *.
    assert (elems v1 = splice cur [x] (elems v)) as He by (apply elems_store; [done|lia]).
    destruct (IH v1 (cur + 1)) as (v'&Hf&HW1&Ha1&Hs1&Hr1&He1); [done|lia|simpl; lia| |destruct value; lia|].
    { destruct value as [y|i]; [done|]. simpl in Hd |- *. destruct Hd as (?&?&Hx). split_and!; [done|lia|lia|]. rewrite He. unfold splice, ztake.
      rewrite lookup_app_l by (rewrite length_take; unfold zlen in *; lia). by rewrite lookup_take_lt by lia. }
    exists v'. split; [exact Hf|]. split_and!; try done; [by intros [|]; apply Hr1; right; simpl; lia|].
    rewrite He1, He. rewrite ztake_splice_last by lia. by rewrite <- app_assoc.
Qed.

Lemma resize_with_spec n value x v :
  CWF v -> roomy v -> 0 <= n <= limit ->
  denotes (allocated v) value x v -> (is_Some (value_of value []) \/ n <= allocated v) ->
  exists v', resize_with n value v = Ret tt v' /\ CWF v' /\ roomy v' /\ elems v' = resize n x (elems v) /\
    allocated v' = widened n (size_ v) (allocated v).
Proof.
  intros HW Hr Hn Hd Hval. unfold resize_with, widened. erewrite bind_ret by done. pose proof HW as [Hs _ _].
  pose proof (zlen_elems v HW) as Hle. zcase.
  - destruct (vreserve_spec n v) as (c&Hres&HW'&Hr'&He); [done..|]. run_step Hres.
    destruct (set_size_spec n (CVector c (Z.max (allocated v) n) (size_ v))) as (Hss&HW2&Hr2&Hz&Htk&_); [done|done|simpl; lia|].
    run_step Hss. rewrite He in Htk. cbn [container allocated] in *. set (v2 := CVector c (Z.max (allocated v) n) n) in *.
    destruct (fill_loop_spec (allocated v) value x (Z.to_nat (n - size_ v)) v2 (size_ v)) as (v'&Hf&HW3&Hal&_&Hr3&He3); [done|lia|simpl; lia|..].
    { destruct value as [y|i]; [done|]. simpl in Hd. destruct Hval as [[? ?]|Hna]; [done|]. destruct Hd as (_&Hi&Hx). simpl. split_and!; [lia|lia|lia|].
      assert (ztake (zlen (elems v)) (elems v2) = elems v) as E by (rewrite Htk; apply ztake_all; lia). rewrite <- E in Hx. unfold ztake in Hx.
      apply lookup_take_Some in Hx as [Hx _]. exact Hx. }
    { destruct value as [y|i]; [done|]. simpl in Hd. lia. }
    exists v'. split; [exact Hf|]. split; [exact HW3|]. split; [exact (Hr3 Hr2)|]. split; [|by rewrite Hal]. rewrite He3. unfold resize, zrep. rewrite Hle in Htk |- *.
    simpl in Htk. by rewrite Htk.
  - destruct (set_size_spec n v) as (->&?&?&?&_&He); [done|done|lia|]. eexists. split_and!; [done..| |done].
    rewrite He by lia. unfold resize. rewrite zrep_neg by lia. by rewrite app_nil_r.
Qed.

(** One operation, within what [allowed] asks for. *)
Lemma run_cop_spec o v :
  CWF v -> roomy v -> allowed o (zlen (elems v)) (allocated v) = true ->
  exists r v', run_cop o v = Ret r v' /\ CWF v' /\ roomy v' /\
    cop_spec o (abs v) r (abs v') /\ (zlen (elems v'), allocated v') = cop_after o (zlen (elems v)) (allocated v).
Proof.
  intros HW Hr Hall. pose proof (zlen_elems v HW) as Hle. pose proof HW as [Hs Hlim _]. unfold abs.
  destruct o as [value| | |n|n|n value|n|i x|i| | | | |]; cbn [run_cop cop_spec cop_after].
  - assert (exists x, value_of value (elems v) = Some x /\ denotes (allocated v) value x v /\ (size_ v < limit / 2 \/ size_ v < allocated v) /\
      (is_Some (value_of value []) \/ size_ v < allocated v)) as (x&Hx&Hd&H1&H2).
    { destruct value as [y|i]; simpl in Hall |- *; [exists (Some y); zb; split_and!; eauto; lia|]. rewrite !andb_true_iff in Hall. zb.
      destruct (at_pos_spec i v) as (r&_&Hx); [done|lia|]. exists r. rewrite Hle in *. split_and!; [done|done|lia|lia|done|by right; lia|by right; lia]. }
    destruct (push_back_spec value x v) as (v'&Hp&?&?&He&Hal); [done..|]. run_step Hp.
    exists Done, v'. rewrite He, Hal, zlen_app, Hle. split_and!; eauto.
  - simpl in Hall. zb. destruct (set_size_spec (size_ v - 1) v) as (_&?&?&Hz&_&He); [done|done|lia|].
    unfold pop_back. erewrite bind_ret by done. rewrite u64_small by lia. simpl in Hz. rewrite Hle.
    eexists Done, _. split_and!; try done; [rewrite He by lia; done|]. cbn [allocated]. by rewrite Hz.
  - destruct (set_size_spec 0 v) as (Hp&?&?&Hz&_&He); [done|done|lia|]. unfold clear. run_step Hp. simpl in Hz.
    eexists Done, _. by split_and!.
  - simpl in Hall. apply andb_prop in Hall as [? ?]. zb. destruct (vreserve_spec n v) as (c&Hp&?&?&He); [done|lia|done|]. run_step Hp.
    eexists Done, _. rewrite He. by split_and!.
  - simpl in Hall. apply andb_prop in Hall as [? ?]. zb. destruct (lazy_resize_spec n v) as (v'&Hp&?&?&Hz&He&Hal); [done|done|lia|]. run_step Hp.
    eexists Done, _. rewrite Hal, Hz, Hle. rewrite Hle in He. split_and!; try done. by exists (elems v').
  - assert (exists x, value_of value (elems v) = Some x /\ denotes (allocated v) value x v /\ 0 <= n <= limit /\
      (is_Some (value_of value []) \/ n <= allocated v)) as (x&Hx&Hd&H1&H2).
    { destruct value as [y|i]; simpl in Hall |- *; rewrite !andb_true_iff in Hall; [exists (Some y); zb; split_and!; eauto; lia|]. zb.
      destruct (at_pos_spec i v) as (r&_&Hx); [done|lia|]. exists r. rewrite Hle in *. split_and!; [done|done|lia|lia|done|lia|lia|by right; lia]. }
    destruct (resize_with_spec n value x v) as (v'&Hp&?&?&He&Hal); [done..|]. run_step Hp.
    eexists Done, _. rewrite He, Hal, zlen_resize, Hle by lia. split_and!; eauto.
  - simpl in Hall. apply andb_prop in Hall as [? ?]. zb. assert (resize_to n v = resize_with n (Val zero) v) as Heq.
    { unfold resize_to, resize_with, bind, get. destruct (size_ v <? n) eqn:Hc; rewrite ?Hc; [|done]. done. }
    destruct (resize_with_spec n (Val zero) (Some zero) v) as (v'&Hp&?&?&He&Hal); [done|done|lia|done|left; by eexists|]. rewrite <- Heq in Hp. run_step Hp.
    eexists Done, _. rewrite He, Hal, zlen_resize, Hle by lia. by split_and!.
  - simpl in Hall. apply andb_prop in Hall as [? ?]. zb.
    destruct (store_cell_spec i (Some x) v) as (c&Hp&->&HW'); [done|lia|]. rewrite <- set_pos_store in Hp.
    run_step Hp. pose proof (zlen_cells v HW).
    eexists Done, _. split; [reflexivity|]. rewrite elems_store by (done || lia).
    rewrite zlen_splice by (rewrite ?zlen_cons, ?zlen_nil; lia). split_and!; try done. right. simpl. lia.
  - simpl in Hall. apply andb_prop in Hall as [? ?]. zb. destruct (at_pos_spec i v) as (r&Hp&He); [done|lia|]. run_step Hp.
    exists (Cell r), v. split_and!; eauto.
  - simpl in Hall. zb. destruct (at_pos_spec 0 v) as (r&Hp&He); [done|lia|]. unfold front. run_step Hp.
    exists (Cell r), v. split_and!; try done. exists r. split; [|done]. by destruct (elems v).
  - simpl in Hall. zb. destruct (at_pos_spec (size_ v - 1) v) as (r&Hp&He); [done|lia|].
    assert (back v = Ret r v) as Hb by (unfold back; by destruct (Z.ltb_spec 0 (size_ v)); [|lia]). run_step Hb.
    exists (Cell r), v. split_and!; try done. exists r. split; [|done]. rewrite last_lookup. rewrite <- He. f_equal. unfold zlen in Hle. lia.
  - erewrite bind_ret by done. exists (Flag (empty v)), v. unfold empty. by rewrite Hle.
  - erewrite bind_ret by done. exists (Num (size v)), v. unfold size. by rewrite Hle.
  - erewrite bind_ret by done. by exists (Num (capacity v)), v.
Qed.

Lemma cvector_ctor_spec {S} n (s : S) :
  0 < n <= limit -> exists v, cvector_ctor n s = Ret v s /\ CWF v /\ roomy v /\ elems v = [] /\ allocated v = n.
Proof.
  intros Hn. unfold cvector_ctor, new_array. destruct (Z.leb_spec n limit); [|lia].
  erewrite bind_ret by done. eexists. split; [done|]. split_and!; [|right; simpl; lia|by apply ztake_neg|done].
  split; simpl; [lia|lia|]. rewrite zlen_zrep. lia.
Qed.

(** ** Several vectors *)

Definition VWF (w : vectors) : Prop := forall a v, w !! a = Some v -> CWF v /\ roomy v.
Definition abs_all (w : vectors) : gmap Z avec := abs <$> w.
Definition shape (m : gmap Z avec) : shapes := (fun x => (zlen x.1, x.2)) <$> m.

Lemma VWF_insert a v w : VWF w -> CWF v -> roomy v -> VWF (<[a := v]> w).
Proof. intros Hw Hv Hr b x [[_ <-]|[_ Hx]]%lookup_insert_Some; [done|by apply (Hw b)]. Qed.

Lemma abs_insert a v w : abs_all (<[a := v]> w) = <[a := abs v]> (abs_all w).
Proof. apply fmap_insert. Qed.

Lemma shape_insert a x m : shape (<[a := x]> m) = <[a := (zlen x.1, x.2)]> (shape m).
Proof. apply (fmap_insert (fun x : avec => (zlen x.1, x.2))). Qed.

Lemma shape_at w a : shape (abs_all w) !! a = (fun v => (zlen (elems v), allocated v)) <$> w !! a.
Proof. unfold shape, abs_all. rewrite !lookup_fmap. by destruct (w !! a). Qed.

Lemma exists_in_spec w a : exists_in (shape (abs_all w)) a = true -> exists v, w !! a = Some v.
Proof. unfold exists_in. rewrite shape_at. destruct (w !! a) as [v|]; [by exists v|done]. Qed.

Lemma has_array_spec w a : has_array (shape (abs_all w)) a = true -> exists v, w !! a = Some v /\ 0 < allocated v.
Proof. unfold has_array. rewrite shape_at. destruct (w !! a) as [v|]; [|done]. simpl. intros ?%Z.ltb_lt. by exists v. Qed.

Lemma cvector_copy_spec {S} v (s : S) :
  CWF v -> 0 < allocated v -> exists v', cvector_copy v s = Ret v' s /\ CWF v' /\ roomy v' /\ abs v' = abs v.
Proof.
  intros HW Hal. pose proof (zlen_elems v HW) as Hle. pose proof HW as [Hs Hl Ha].
  unfold cvector_copy, new_array. destruct (Z.leb_spec (allocated v) limit); [|lia].
  erewrite bind_ret by done. run_step @read_elems; [|done].
  run_step @write_cells_some; [|lia|rewrite zlen_zrep; lia].
  assert (zlen (splice 0 (elems v) (zrep (allocated v) None)) = allocated v) as Hz
    by (rewrite zlen_splice; rewrite ?zlen_zrep; lia).
  eexists. split; [reflexivity|]. split_and!; [by split|right; simpl; lia|].
  unfold abs. simpl. f_equal. unfold elems at 1, cells. simpl. rewrite <- Hle at 1.
  rewrite <- (Z.add_0_l (zlen (elems v))), splice_take by (rewrite zlen_zrep; lia). done.
Qed.

Lemma moved_ok : CWF (CVector None 0 0) /\ roomy (CVector None 0 0).
Proof. split; [split; simpl; lia|by left]. Qed.

Lemma run_vop_spec o w :
  VWF w -> vallowed o (shape (abs_all w)) = true ->
  exists r w', run_vop o w = Ret r w' /\ VWF w' /\ vop_spec o (abs_all w) r (abs_all w') /\
    shape (abs_all w') = vafter o (shape (abs_all w)).
Proof.
  intros Hw Hall. assert (forall a, abs_all w !! a = abs <$> w !! a) as Habs by (intros; apply lookup_fmap).
  destruct o as [a n|a b|a b|a b|a b|a|a o]; cbn [run_vop vop_spec vafter vallowed] in *; rewrite ?andb_true_iff in Hall.
  - destruct Hall as [[_ H1] H2]. zb. destruct (cvector_ctor_spec n w) as (v&Hv&HW&Hr&He&Hal); [lia|]. run_step Hv.
    eexists Done, _. split; [reflexivity|]. split; [by apply VWF_insert|]. assert (abs v = ([], n)) as E by (unfold abs; by rewrite He, Hal). by rewrite abs_insert, shape_insert, E.
  - destruct Hall as [_ (other&Hb&Hal)%has_array_spec]. destruct (Hw b other Hb) as [HW Hr]. destruct (cvector_copy_spec other w HW Hal) as (v&Hv&?&?&E).
    erewrite (bind_ret (vector_at b)) by (unfold vector_at; by rewrite Hb). run_step Hv. eexists Done, _. split; [reflexivity|].
    split; [by apply VWF_insert|]. rewrite abs_insert, shape_insert, E, shape_at, Hb. split; [|done]. exists (abs other). by rewrite Habs, Hb.
  - destruct Hall as [_ (other&Hb)%exists_in_spec]. destruct (Hw b other Hb) as [HW Hr]. destruct moved_ok as [M1 M2].
    assert (on_vector b cvector_move w = Ret (CVector (container other) (allocated other) (size_ other)) (<[b := CVector None 0 0]> w)) as Hv by (unfold on_vector; by rewrite Hb).
    run_step Hv. eexists Done, _. split; [reflexivity|]. destruct other as [c al sz]. split; [by do 2 (apply VWF_insert; [|done|done])|].
    rewrite !abs_insert, !shape_insert, shape_at, Hb. split; [|done]. exists (abs (CVector c al sz)). by rewrite Habs, Hb.
  - destruct Hall as [(v0&Ha)%exists_in_spec (other&Hb&Hal)%has_array_spec]. destruct (Hw b other Hb) as [HW Hr].
    destruct (cvector_copy_spec other v0 HW Hal) as (v&Hv&?&?&E). erewrite (bind_ret (vector_at b)) by (unfold vector_at; by rewrite Hb).
    assert (on_vector a (cvector_assign other) w = Ret tt (<[a := v]> w)) as Hs by (unfold on_vector, cvector_assign; by rewrite Ha, Hv).
    run_step Hs. eexists Done, _. split; [reflexivity|].
    split; [by apply VWF_insert|]. rewrite abs_insert, shape_insert, E, shape_at, Hb. split; [|done]. exists (abs other). by rewrite Habs, Hb.
  - destruct Hall as [(x&Ha)%exists_in_spec (y&Hb)%exists_in_spec]. destruct (Hw a x Ha), (Hw b y Hb).
    erewrite (bind_ret (vector_at a)) by (unfold vector_at; by rewrite Ha). erewrite (bind_ret (vector_at b)) by (unfold vector_at; by rewrite Hb).
    eexists Done, _. split; [reflexivity|]. split; [by do 2 (apply VWF_insert; [|done|done])|].
    rewrite !abs_insert, !shape_insert, !shape_at, Ha, Hb. split; [|done]. exists (abs x), (abs y). by rewrite !Habs, Ha, Hb.
  - apply exists_in_spec in Hall as [v Ha]. erewrite (bind_ret (vector_at a)) by (unfold vector_at; by rewrite Ha).
    eexists Done, _. split; [reflexivity|]. split; [intros b x [_ Hx]%lookup_delete_Some; by apply (Hw b)|].
    unfold abs_all, shape. by rewrite !fmap_delete.
  - rewrite shape_at in *. destruct (w !! a) as [v|] eqn:Ha; [|done]. simpl in Hall |- *. destruct (Hw a v Ha) as [HW Hr].
    destruct (run_cop_spec o v HW Hr Hall) as (r&v'&Hp&HW'&Hr'&Hsp&Hsh). exists r, (<[a := v']> w). split; [unfold on_vector; by rewrite Ha, Hp|].
    split; [by apply VWF_insert|]. rewrite abs_insert, shape_insert. split; [|by rewrite <- Hsh].
    exists (abs v), (abs v'). by rewrite Habs, Ha.
Qed.

Lemma run_vops_spec os w :
  VWF w -> vallowed_all os (shape (abs_all w)) = true ->
  exists rs w', run_vops os w = Ret rs w' /\ VWF w' /\ vops_spec os (abs_all w) rs (abs_all w').
Proof.
  revert w. induction os as [|o os IH]; intros w HW Hall; simpl; [by exists [], w|].
  simpl in Hall. apply andb_prop in Hall as [Ho Hos]. destruct (run_vop_spec o w HW Ho) as (r&w1&Hp&HW1&Hsp&Hsh). run_step Hp.
  destruct (IH w1) as (rs&w2&Hps&HW2&Hsps); [done|by rewrite Hsh|]. run_step Hps.
  exists (r :: rs), w2. split_and!; try done. by exists (abs_all w1).
Qed.
End CVector.

(** C32. cvectors implement lists: every sequence of constructions (by capacity,
    by copy, by move), copy assignments, swaps, destructions and the other member
    functions that compile, on any number of vectors, returns, keeps every array
    as long as its vector believes, and gives the elements, the capacities and
    the results of the same operations on lists. The callers' part is [vallowed]:
    front(), back(), pop_back() and operator[] only on elements that exist;
    capacities and sizes that memory can hold; an argument that refers to an
    element of the vector only while the array is not replaced; no capacity of 0
    and no copy of a vector that was moved from. lazy_resize keeps the elements
    it does not cut off and says nothing of the new ones; empty() answers whether
    there are elements. *)
Theorem cvector_refines {T} (zero : T) limit os :
  16 <= limit < 2 ^ 62 -> vallowed_all limit os ∅ = true ->
  exists rs w, run_vops zero limit os ∅ = Ret rs w /\ VWF limit w /\ vops_spec zero os ∅ rs (abs_all w).
Proof.
  intros Hl Hall. destruct (run_vops_spec zero limit Hl os ∅) as (rs&w&Hp&HW&Hsp); [done|done|].
  by exists rs, w.
Qed.

(** A vector is filled, copied and moved; the copy gets one of its own elements;
    empty() is true of a vector with elements. *)
Definition demo_vops : list (vop (T := Z)) :=
  [New 1 1; On 1 (PushBack (Val 5)); On 1 (PushBack (Val 6)); On 1 (ResizeTo 4); Copied 2 1; On 2 Back; On 2 PopBack; On 2 (SetPos 0 7);
   On 2 (PushBack (Elem 0)); Moved 3 1; Swapped 1 2; On 1 IsEmpty; Assigned 3 1; On 3 Front].

Lemma cvector_refines_witness :
  exists rs w, run_vops 0 1000 demo_vops ∅ = Ret rs w /\ VWF 1000 w /\
    rs = [Done; Done; Done; Done; Done; Cell (Some 0); Done; Done; Done; Done; Done; Flag true; Done; Cell (Some 7)] /\
    elems <$> w !! 3 = Some [Some 7; Some 6; Some 0; Some 7].
Proof.
  destruct (cvector_refines 0 1000 demo_vops) as (rs&w&Hr&HW&_).
  - lia.
  - vm_compute. reflexivity.
  - exists rs, w. split; [exact Hr|]. split; [exact HW|]. vm_compute in Hr. injection Hr as <- <-. split; reflexivity.
Defined.

(** What cvector.hpp does where a vector is expected to behave: empty() is
    true exactly for vectors that have elements; a vector that owns an array of
    length 0 (built with capacity 0, or copied from a vector that was moved
    from) faults on its first push_back, because doubling 0 does not grow it;
    push_back of one of the vector's own elements reads freed memory when the
    array is full; and pop_back of an empty vector leaves a size of 2^64 - 1. *)
Theorem cvector_defects {T} (limit : Z) (v : cvector (T := T)) :
  (0 <= size_ v -> (empty v = true <-> 0 < size v)) /\
  (forall c r, container v = Some c -> allocated v = 0 -> zlen c = 0 -> size_ v = 0 ->
     push_back limit (Val r) v = Fault OutOfBounds) /\
  (forall v' other, 0 <= limit -> cvector_move v = Ret v' other ->
     cvector_copy limit other tt = Ret (CVector (Some []) 0 0) tt) /\
  (forall i, CWF limit v -> 0 < size_ v -> size_ v = allocated v -> allocated v * 2 <= limit < 2 ^ 62 ->
     push_back limit (Elem i) v = Fault UseAfterFree) /\
  (size_ v = 0 -> pop_back v = Ret tt (CVector (container v) (allocated v) max_size)).
Proof.
  split_and!.
  - intros Hs. unfold empty, size. zcase; simpl; split; intros; try done; lia.
  - intros c r Hc Ha Hz Hs. unfold push_back. erewrite bind_ret by done. rewrite Hc.
    assert (reserve limit (u64 (0 * 2)) v = Ret tt v) as Hres by (unfold reserve; by rewrite Ha).
    do 2 erewrite bind_ret by done. rewrite Hs, Ha, Z.eqb_refl. run_step Hres.
    do 2 erewrite bind_ret by done. unfold store_cell, write_cells, bind, deref.
    apply zlen_0_nil in Hz as ->. simpl. by rewrite Hc.
  - intros v' other Hl Hm. injection Hm as _ <-. unfold cvector_copy, new_array. simpl.
    destruct (Z.leb_spec 0 limit); [done|lia].
  - intros i HW Hs He Hl. unfold push_back. erewrite bind_ret by done.
    assert (exists c, container v = Some c) as [c Hc].
    { destruct HW as [_ _ Ha]. destruct (container v); [by eexists|lia]. }
    assert (roomy v) as Hr by (right; lia). rewrite Hc.
    do 2 erewrite bind_ret by done. rewrite He, Z.eqb_refl. rewrite u64_small by lia.
    destruct (vreserve_spec limit (allocated v * 2) v) as (c'&Hres&_); [done|lia|done|].
    run_step Hres. unfold bind, load. simpl. destruct (Z.eqb_spec (Z.max (allocated v) (allocated v * 2)) (allocated v)); [lia|done].
  - intros Hs. unfold pop_back, modify. by rewrite Hs.
Qed.
