(* ===== verification/IoBuf.v ===== *)
(** * iobuf: a byte buffer with a position

    shared/includes/iobuf.hpp and shared/src/iobuf.cpp, on [CVector]. *)

From S2P Require Import Prelude.
From S2P Require Import Bytes.
From S2P Require Import CVector.

Section IoBuf.
Context (limit : Z).

Record iobuf := IoBuf { buffer : cvector (T := Z); loc : Z }.

Definition iobuf_ctor {S} : prog S iobuf :=
  let! b := cvector_ctor limit 16 in ret (IoBuf b 0).

Definition on_buffer {A} (c : prog cvector A) : prog iobuf A :=
  zoom buffer (fun b s => IoBuf b (loc s)) c.

(** What the pointers of raw_buffer() and offset_buffer() point to. *)
Definition raw_buffer (s : iobuf) : list (option Z) := cells (buffer s).
Definition offset_buffer (s : iobuf) : list (option Z) := zdrop (loc s) (cells (buffer s)).
Definition location (s : iobuf) : Z := loc s.
Definition end_ (s : iobuf) : Z := size (buffer s).

Definition seek (new_loc : Z) : prog iobuf unit :=
  let! s := get in
  do! assert (new_loc <=? size (buffer s)) in
  put (IoBuf (buffer s) new_loc).

(** The buffer goes out, cut or grown to [k_bytes]; a new one takes its place. *)
Definition extract (k_bytes : Z) : prog iobuf (cvector (T := Z)) :=
  let! retbuf := cvector_ctor limit 16 in
  let! s := get in
  do! put (IoBuf retbuf 0) in
  fun s1 => match lazy_resize limit k_bytes (buffer s) with
            | Ret _ r => Ret r s1
            | Raise e _ => Raise e s1
            | Fault f => Fault f
            end.

Definition grow (x : Z) : prog iobuf unit :=
  let! s := get in
  if size (buffer s) <? x then on_buffer (lazy_resize limit x) else ret tt.

Definition shrink (x : Z) : prog iobuf unit :=
  let! s := get in
  if x <? size (buffer s) then on_buffer (lazy_resize limit x) else ret tt.

(** iobuf_spec::append: the bytes at [ptr] are copied to the position. *)
Definition append (ptr : list Z) : prog iobuf unit :=
  let! s := get in
  do! grow (u64 (location s + zlen ptr)) in
  let! s := get in
  let! c := write_cells (loc s) (map Some ptr) (container (buffer s)) in
  put (IoBuf (CVector c (allocated (buffer s)) (size_ (buffer s))) (loc s)).

(** ** The bytes of a buffer *)

Definition contents (s : iobuf) : list (option Z) := elems (buffer s).

Record IWF (s : iobuf) : Prop := {
  iwf_buffer : CWF limit (buffer s);
  iwf_roomy : roomy (buffer s);
  iwf_loc : 0 <= loc s <= zlen (contents s) }.

Hypothesis Hlimit : 16 <= limit < 2 ^ 62.

Lemma iobuf_ctor_spec {S} (u : S) :
  exists s, iobuf_ctor u = Ret s u /\ IWF s /\ contents s = [] /\ loc s = 0.
Proof.
  destruct (cvector_ctor_spec (T := Z) limit 16 u) as (v&Hv&HW&Hr&He&_); [lia|].
  unfold iobuf_ctor. run_step Hv. eexists. split; [done|]. split; [|done].
  split; simpl; [done|done|]. unfold contents. simpl. by rewrite He.
Qed.

(** grow: at least [x] bytes, the old ones kept. *)
Lemma grow_spec x s :
  IWF s -> 0 <= x <= limit ->
  exists s', grow x s = Ret tt s' /\ IWF s' /\ loc s' = loc s /\
    zlen (contents s') = Z.max x (zlen (contents s)) /\
    ztake (zlen (contents s)) (contents s') = contents s.
Proof.
  intros [HW Hr Hl] Hx. unfold grow. erewrite bind_ret by done.
  unfold contents in *. pose proof (zlen_elems limit _ HW) as Hz. unfold size. zcase.
  - destruct (lazy_resize_spec limit x (buffer s)) as (b&Hb&HW'&Hr'&Hz'&Ht&_); [done|done|lia|].
    unfold on_buffer, zoom. rewrite Hb. eexists. split; [done|]. simpl.
    split_and!; [split; simpl; try done; unfold contents; simpl; lia|done|lia|].
    rewrite Ht. apply ztake_all. lia.
  - exists s. split; [done|]. split_and!; [done|done|lia|]. by apply ztake_all.
Qed.

Lemma iobuf_append_spec ptr s :
  IWF s -> loc s + zlen ptr <= limit ->
  exists s', append ptr s = Ret tt s' /\ IWF s' /\ loc s' = loc s /\
    contents s' = splice (loc s) (map Some ptr) (contents s).
Proof.
  intros HI Hl. pose proof HI as [_ _ Hloc]. pose proof (zlen_nonneg ptr).
  unfold append, location. erewrite bind_ret by done. rewrite u64_small by lia.
  destruct (grow_spec (loc s + zlen ptr) s) as (s1&Hg&HI1&Hl1&Hz1&Ht1); [done|lia|]. run_step Hg.
  erewrite bind_ret by done. pose proof HI1 as [HW1 Hr1 _]. unfold contents in *.
  pose proof (zlen_elems limit _ HW1) as Hze. pose proof HW1 as [Hs1 Hlm1 Ha1]. rewrite Hl1.
  destruct (container (buffer s1)) as [c|] eqn:Hc; rewrite ?Hc in Ha1.
  - run_step @write_cells_some; [|lia|rewrite zlen_map; lia].
    eexists. split; [done|]. simpl.
    assert (zlen (splice (loc s) (map Some ptr) c) = zlen c) as Hzc by (apply zlen_splice; rewrite ?zlen_map; lia).
    assert (elems (CVector (Some (splice (loc s) (map Some ptr) c)) (allocated (buffer s1)) (size_ (buffer s1))) =
            splice (loc s) (map Some ptr) (elems (buffer s))) as He.
    { unfold elems at 1, cells. simpl. rewrite <- Hze, Hz1.
      assert (elems (buffer s1) = ztake (size_ (buffer s1)) c) as He1 by (unfold elems, cells; by rewrite Hc).
      unfold splice. rewrite zlen_map.
      assert (zlen (ztake (loc s) c) = loc s) as Hzt by (rewrite zlen_ztake; lia).
      rewrite ztake_app_r, Hzt by lia.
      rewrite ztake_app_r by (rewrite zlen_map; lia). rewrite zlen_map. f_equal; [|f_equal].
      - rewrite <- Ht1, ztake_ztake, He1, ztake_ztake. f_equal. lia.
      - rewrite He1 in Ht1. remember (zlen (elems (buffer s))) as n. rewrite <- Ht1.
        rewrite ztake_ztake. unfold ztake, zdrop. rewrite !skipn_firstn_comm. f_equal. lia. }
    rewrite He. split_and!; [|done|done]. split; simpl.
    + split; simpl; [lia|lia|congruence].
    + destruct Hr1; [congruence|by right].
    + unfold contents. simpl. rewrite He. unfold splice. rewrite !zlen_app, zlen_map, zlen_ztake, zlen_zdrop. lia.
  - assert (ptr = []) as -> by (apply zlen_0_nil; lia).
    erewrite bind_ret by done. eexists. split; [done|]. simpl. change (zlen []) with 0 in *.
    assert (elems (buffer s) = []) as Hn by (apply zlen_0_nil; lia).
    assert (elems (CVector (T := Z) None (allocated (buffer s1)) (size_ (buffer s1))) = []) as Hn1
      by (unfold elems, cells; simpl; unfold ztake; apply take_nil).
    rewrite Hn. split_and!; [|done|rewrite Hn1; unfold splice, ztake, zdrop; by rewrite take_nil, drop_nil].
    split; simpl; [split; simpl; lia || done|by left|unfold contents; simpl; rewrite Hn1; change (zlen []) with 0; lia].
Qed.

(** A message built piece by piece: each piece is appended and the position
    moved behind it. *)
Fixpoint write_pieces (ps : list (list Z)) : prog iobuf unit :=
  match ps with
  | [] => ret tt
  | p :: ps =>
      do! append p in
      let! s := get in
      do! seek (location s + zlen p) in
      write_pieces ps
  end.

Lemma write_pieces_spec ps s :
  IWF s -> loc s = zlen (contents s) -> loc s + zlen (concat ps) <= limit ->
  exists s', write_pieces ps s = Ret tt s' /\ IWF s' /\ contents s' = contents s ++ map Some (concat ps) /\
    loc s' = zlen (contents s').
Proof.
  revert s. induction ps as [|p ps IH]; intros s HI Hl Hb; cbn [write_pieces concat] in *.
  - exists s. by rewrite app_nil_r.
  - rewrite zlen_app in Hb. pose proof (zlen_nonneg (concat ps)). pose proof (zlen_nonneg p).
    destruct (iobuf_append_spec p s) as (s1&Ha&HI1&Hl1&Hc1); [done|lia|]. run_step Ha. erewrite bind_ret by done.
    assert (contents s1 = contents s ++ map Some p) as Hc1'.
    { rewrite Hc1. unfold splice. rewrite zlen_map, ztake_all, zdrop_all by lia. by rewrite app_nil_r. }
    assert (zlen (contents s1) = loc s + zlen p) as Hz1 by (rewrite Hc1', zlen_app, zlen_map; lia).
    pose proof HI1 as [HW1 Hr1 _].
    unfold seek, location, size. rewrite Hl1.
    pose proof (zlen_elems limit _ HW1) as Hze. unfold contents in Hz1.
    assert ((do! assert (loc s + zlen p <=? size_ (buffer s1)) in put (IoBuf (buffer s1) (loc s + zlen p))) s1
            = Ret tt (IoBuf (buffer s1) (loc s + zlen p))) as Hs.
    { unfold assert. destruct (Z.leb_spec (loc s + zlen p) (size_ (buffer s1))); [done|lia]. }
    erewrite bind_ret; [|erewrite bind_ret by done; exact Hs].
    destruct (IH (IoBuf (buffer s1) (loc s + zlen p))) as (s'&Hw&HI'&Hc'&Hl').
    { pose proof (iwf_loc s HI). split; simpl; try done. unfold contents in Hz1 |- *. simpl. lia. }
    { unfold contents in Hz1 |- *. simpl. lia. }
    { simpl. lia. }
    exists s'. split; [exact Hw|]. split; [done|]. split; [|done].
    rewrite Hc'. change (contents (IoBuf (buffer s1) (loc s + zlen p))) with (contents s1).
    by rewrite Hc1', map_app, app_assoc.
Qed.
End IoBuf.

(** A message written into a new iobuf piece by piece (append, then seek
    behind the piece) comes out of extract(end()) byte for byte in order, and
    the buffer is left empty at position 0; append itself does not move the
    position, so a second append without seek overwrites the first. *)
Theorem iobuf_writes limit ps :
  16 <= limit < 2 ^ 62 -> zlen (concat ps) <= limit ->
  exists s0 s1 r s2,
    iobuf_ctor limit tt = Ret s0 tt /\ write_pieces limit ps s0 = Ret tt s1 /\
    extract limit (end_ s1) s1 = Ret r s2 /\
    elems r = map Some (concat ps) /\ contents s2 = [] /\ loc s2 = 0 /\
    (forall a b, zlen a = zlen b -> zlen b <= limit ->
       exists s3, (do! append limit a in append limit b) s0 = Ret tt s3 /\ contents s3 = map Some b).
Proof.
  intros Hl Hb. destruct (iobuf_ctor_spec limit Hl tt) as (s0&Hc&HI&He&H0).
  destruct (write_pieces_spec limit Hl ps s0) as (s1&Hw&HI1&He1&_); [done|by rewrite He|lia|].
  destruct HI1 as [HW1 Hr1 _]. rewrite He in He1. unfold contents in He1. simpl in He1.
  pose proof (zlen_elems limit _ HW1) as Hz1. rewrite He1, zlen_map in Hz1.
  destruct (lazy_resize_spec limit (end_ s1) (buffer s1)) as (r&Hr&HWr&_&Hzr&Htr&_);
    [done|done|unfold end_, size; destruct HW1; lia|].
  destruct (cvector_ctor_spec (T := Z) limit 16 s1) as (v&Hv&HWv&Hrv&Hev&_); [lia|].
  exists s0, s1, r, (IoBuf v 0). split; [done|]. split; [done|]. split.
  { unfold extract. run_step Hv. do 2 erewrite bind_ret by done. by rewrite Hr. }
  split.
  { rewrite He1 in Htr. unfold end_, size in *. rewrite zlen_map in Htr.
    rewrite ztake_all in Htr by lia. rewrite Htr. apply ztake_all. rewrite zlen_map. lia. }
  split; [exact Hev|]. split; [done|]. intros a b Hab Hbl.
  destruct (iobuf_append_spec limit Hl a s0) as (s3&Ha&HI3&Hl3&Hc3); [done|lia|].
  destruct (iobuf_append_spec limit Hl b s3) as (s4&Hb4&HI4&Hl4&Hc4); [done|lia|].
  exists s4. run_step Ha. split; [done|]. rewrite Hc4, Hl3, H0, Hc3, H0, He. unfold splice.
  rewrite !ztake_neg by lia. simpl. rewrite zlen_map. unfold zdrop at 2. rewrite drop_nil, app_nil_r.
  rewrite zdrop_all by (rewrite zlen_map; lia). apply app_nil_r.
Qed.

Lemma iobuf_writes_witness :
  exists s0 s1 r s2,
    iobuf_ctor 100 tt = Ret s0 tt /\ write_pieces 100 [[1; 2]; []; [3]] s0 = Ret tt s1 /\
    extract 100 (end_ s1) s1 = Ret r s2 /\ elems r = [Some 1; Some 2; Some 3].
Proof.
  destruct (iobuf_writes 100 [[1; 2]; []; [3]]) as (s0&s1&r&s2&?&?&?&?&_); [lia|vm_compute; discriminate|].
  exists s0, s1, r, s2. by split_and!.
Defined.
