(* ===== verification/LogFormat.v ===== *)
(** * Files and streams of log records

    "All logs preceded by a 32 bit network order length prefix" (logger.hpp):
    the grammar that the log server's consumers, the log files they write and
    the tools that read these files share, as a function that cuts a byte
    string into whole records and an incomplete rest. *)

From S2P Require Import Prelude.
From S2P Require Import Bytes.
From S2P Require Import LogServer.
From S2P Require Import Logger.

(** The two members of enum log_type that only text records have. *)
Definition CONNECTOR : Z := 64.
Definition CLIENT : Z := 128.

(** struct log_format: source_id, type, timestamp, rest. *)
Definition LOG_HEADER : Z := 13.
Definition log_source (r : list Z) : Z := ntoh32 (le_val (slice 0 4 r)).
Definition log_kind (r : list Z) : Z := le_val (slice 4 1 r).
Definition log_timestamp (r : list Z) : Z := ntoh64 (le_val (slice 5 8 r)).
Definition log_rest (r : list Z) : list Z := zdrop LOG_HEADER r.

(** The first record of a byte string, if it is whole, and what follows. *)
Definition cut_record (bs : list Z) : option (list Z * list Z) :=
  if zlen bs <? 4 then None
  else let n := be_val (ztake 4 bs) in
       if zlen bs <? 4 + n then None else Some (slice 4 n bs, zdrop (4 + n) bs).

Fixpoint split_records (fuel : nat) (bs : list Z) : list (list Z) * list Z :=
  match fuel with
  | O => ([], bs)
  | S fuel =>
      match cut_record bs with
      | Some (r, bs') => let '(rs, tail) := split_records fuel bs' in (r :: rs, tail)
      | None => ([], bs)
      end
  end.

(** Every record takes at least the four bytes of its length. *)
Definition split_log (bs : list Z) : list (list Z) * list Z := split_records (length bs) bs.

Definition frames (rs : list (list Z)) : list Z := concat (map frame rs).

#[global] Arguments frames : simpl never.

Definition fits (r : list Z) : Prop := zlen r < 2 ^ 32.

Lemma frames_cons r rs : frames (r :: rs) = frame r ++ frames rs.
Proof. done. Qed.

Lemma frames_app rs1 rs2 : frames (rs1 ++ rs2) = frames rs1 ++ frames rs2.
Proof. unfold frames. by rewrite map_app, concat_app. Qed.

Lemma zlen_frame r : zlen (frame r) = 4 + zlen r.
Proof. unfold frame. rewrite zlen_app, zlen_be_bytes. lia. Qed.

Lemma frames_bytes rs : Forall (Forall is_byte) rs -> Forall is_byte (frames rs).
Proof.
  induction 1 as [|r rs Hr HB IH]; [constructor|]. rewrite frames_cons. unfold frame.
  apply Forall_app_2; [apply Forall_app_2; [apply be_bytes_are_bytes|done]|done].
Qed.

Lemma frame_prefix r : fits r -> be_val (ztake 4 (frame r)) = zlen r.
Proof.
  intros Hr. unfold frame. rewrite ztake_app_exact by (by rewrite zlen_be_bytes).
  apply be_val_bytes_small. pose proof (zlen_nonneg r). unfold fits in Hr. simpl. lia.
Qed.

Lemma cut_frame r bs : fits r -> cut_record (frame r ++ bs) = Some (r, bs).
Proof.
  intros Hr. unfold cut_record. pose proof (zlen_nonneg r). pose proof (zlen_nonneg bs).
  rewrite zlen_app, zlen_frame, ztake_app_l by (rewrite zlen_frame; lia). rewrite frame_prefix by done.
  destruct (Z.ltb_spec (4 + zlen r + zlen bs) 4); [lia|].
  destruct (Z.ltb_spec (4 + zlen r + zlen bs) (4 + zlen r)); [lia|]. f_equal. f_equal.
  - unfold frame. rewrite <- app_assoc. apply slice_app_mid; [by rewrite zlen_be_bytes|done].
  - apply zdrop_app_exact. by rewrite zlen_frame.
Qed.

(** A strict prefix of a framed record is not a whole record. *)
Lemma cut_partial r bs rest : fits r -> frame r = bs ++ rest -> rest <> [] -> cut_record bs = None.
Proof.
  intros Hr Hf Hne. assert (0 < zlen rest) by (destruct rest; [done|rewrite zlen_cons; pose proof (zlen_nonneg rest); lia]).
  pose proof (zlen_frame r) as Hz. rewrite Hf, zlen_app in Hz. unfold cut_record.
  destruct (Z.ltb_spec (zlen bs) 4); [done|].
  pose proof (frame_prefix r Hr) as Hp. rewrite Hf, ztake_app_l in Hp by lia. rewrite Hp.
  destruct (Z.ltb_spec (zlen bs) (4 + zlen r)); [done|lia].
Qed.

Lemma split_records_frames fuel rs tail :
  Forall fits rs -> cut_record tail = None -> (length rs <= fuel)%nat ->
  split_records fuel (frames rs ++ tail) = (rs, tail).
Proof.
  intros HF Ht. revert fuel. induction HF as [|r rs Hr HF IH]; intros fuel Hf.
  - destruct fuel; simpl; [done|]. by rewrite Ht.
  - destruct fuel as [|fuel]; [simpl in Hf; lia|].
    rewrite frames_cons, <- app_assoc. cbn [split_records]. rewrite cut_frame by done. rewrite IH by (simpl in Hf; lia). done.
Qed.

(** Cutting is unambiguous. *)
Lemma split_log_frames rs tail :
  Forall fits rs -> cut_record tail = None -> split_log (frames rs ++ tail) = (rs, tail).
Proof.
  intros HF Ht. apply split_records_frames; [done..|]. rewrite length_app.
  transitivity (length (frames rs)); [|lia]. clear.
  induction rs as [|r rs IH]; [done|]. rewrite frames_cons, length_app. simpl.
  pose proof (zlen_frame r). pose proof (zlen_nonneg r). unfold zlen in *. lia.
Qed.

Lemma cut_inv bs r bs' :
  Forall is_byte bs -> cut_record bs = Some (r, bs') ->
  bs = frame r ++ bs' /\ fits r /\ Forall is_byte bs' /\ (length bs' + 4 <= length bs)%nat.
Proof.
  intros HB. unfold cut_record. zcase; [done|].
  assert (Forall is_byte (ztake 4 bs)) as HB4 by (by apply Forall_take).
  pose proof (be_val_bound _ HB4) as Hb. rewrite zlen_ztake, Z.max_r, Z.min_l in Hb by lia.
  change (256 ^ 4) with (2 ^ 32) in Hb.
  zcase; [done|]. intros [= <- <-].
  assert (zlen (slice 4 (be_val (ztake 4 bs)) bs) = be_val (ztake 4 bs)) as Hz by (apply zlen_slice; lia).
  split_and!.
  - rewrite <- (ztake_zdrop (4 + be_val (ztake 4 bs)) bs) at 1. f_equal. rewrite ztake_add by lia.
    unfold frame. rewrite Hz. f_equal. unfold be_bytes, be_val.
    rewrite le_bytes_val_len; [by rewrite rev_involutive|by apply Forall_rev|].
    rewrite length_rev. unfold ztake. rewrite length_take. unfold zlen in *. lia.
  - unfold fits. lia.
  - by apply Forall_drop.
  - unfold zdrop. rewrite length_drop. unfold zlen in *. lia.
Qed.

(** Every byte string is whole records and an incomplete rest. *)
Lemma split_log_inv bs :
  Forall is_byte bs ->
  let '(rs, tail) := split_log bs in
  bs = frames rs ++ tail /\ Forall fits rs /\ cut_record tail = None.
Proof.
  intros HB. unfold split_log. assert (length bs <= length bs)%nat as Hf by lia.
  revert HB Hf. generalize (length bs) at 2 3 as fuel. intros fuel. revert bs.
  induction fuel as [|fuel IH]; intros bs HB Hf; simpl.
  - assert (bs = []) as -> by (destruct bs; [done|simpl in Hf; lia]). done.
  - destruct (cut_record bs) as [[r bs']|] eqn:Hc; [|done].
    destruct (cut_inv bs r bs' HB Hc) as (->&Hr&HB'&Hl).
    specialize (IH bs' HB'). destruct (split_records fuel bs') as [rs tail].
    destruct IH as (->&HF&Ht); [lia|]. rewrite frames_cons, <- app_assoc. split_and!; [done|by constructor|done].
Qed.

(** Cutting a log anywhere leaves the records before the cut. *)
Lemma split_log_cut n rs :
  Forall fits rs -> 0 <= n ->
  exists k tail, ztake n (frames rs) = frames (take k rs) ++ tail /\ cut_record tail = None /\
    (k <= length rs)%nat /\ (zlen (frames rs) <= n -> k = length rs) /\
    (forall j, zlen (frames (take j rs)) <= n -> (j <= k)%nat \/ take j rs = take k rs).
Proof.
  intros HF. revert n. induction HF as [|r rs Hr HF IH]; intros n Hn.
  - exists 0%nat, []. change (frames []) with (@nil Z). unfold ztake. rewrite take_nil. split_and!; try done.
    intros j _. right. by destruct j.
  - rewrite frames_cons. destruct (Z.le_gt_cases (zlen (frame r)) n) as [Hle|Hgt].
    + rewrite ztake_app_r by lia. destruct (IH (n - zlen (frame r))) as (k&tail&->&Ht&Hk&Ha&Hm); [lia|].
      exists (S k), tail. simpl take. rewrite frames_cons, <- app_assoc. split_and!; try done.
      * simpl. lia.
      * intros Hz. rewrite zlen_app in Hz. simpl. f_equal. apply Ha. lia.
      * intros [|j] Hj; [left; lia|]. simpl in Hj |- *. rewrite frames_cons, zlen_app in Hj.
        destruct (Hm j) as [?|?]; [lia|left; lia|right; congruence].
    + rewrite ztake_app_l by lia. exists 0%nat, (ztake n (frame r)). split_and!.
      * done.
      * apply (cut_partial r _ (zdrop n (frame r))); [done|by rewrite ztake_zdrop|].
        intros E. apply (f_equal zlen) in E. rewrite zlen_zdrop in E. change (zlen []) with 0 in E. lia.
      * lia.
      * intros Hz. rewrite zlen_app in Hz. pose proof (zlen_nonneg (frames rs)). lia.
      * intros [|j] Hj; [by left|]. simpl in Hj. rewrite frames_cons, zlen_app in Hj.
        pose proof (zlen_nonneg (frames (take j rs))). lia.
Qed.

(** What a consumer of the log server gets is a log: an entry is the framed
    record with the id of its source in front. *)
Definition sourced (e : Z * list Z) : list Z := be_bytes 4 (fst e) ++ snd e.

Lemma encode_frame e : encode e = frame (sourced e).
Proof.
  unfold encode, frame, sourced. rewrite zlen_app, zlen_be_bytes. do 2 f_equal. lia.
Qed.

Lemma encode_frames l : concat (map encode l) = frames (map sourced l).
Proof.
  unfold frames. rewrite map_map. f_equal. apply map_ext. apply encode_frame.
Qed.

(** What the connector writes to the log server is a log. *)
Lemma framed_frame r : framed r = frame r.
Proof. done. Qed.

(** [field_at]: a field of a concatenation, found behind the fields before it. *)
Ltac field_at :=
  unfold slice; repeat (rewrite zdrop_app_r; [|autorewrite with zlist; lia]);
  rewrite zdrop_neg by (autorewrite with zlist; lia);
  first [apply ztake_app_exact|idtac]; autorewrite with zlist; first [done|lia].
