(* ===== verification/FileIo.v ===== *)
(** * Regular files

    What the log tools use of the kernel: a descriptor of a regular file with
    its position, read and lseek. *)

From S2P Require Import Prelude.
From S2P Require Import Net.

Definition EINVAL : Z := 22.

(** The next results of [read] when they are not what is asked for: at most [n]
    bytes (a signal came in between), or an error. *)
Inductive read_event :=
  | Short (n : Z)
  | ReadErr (errno : Z).

Record file := File {
  f_data : list Z;
  f_pos : Z;
  f_script : list read_event;
  f_errno : Z }.

(** The bytes after the position. *)
Definition f_rest (f : file) : list Z := zdrop (f_pos f) (f_data f).

Definition fread (n : Z) : prog file (Z * list Z) := fun f =>
  let give k r := let bs := ztake k (f_rest f) in
                  Ret (zlen bs, bs) (File (f_data f) (f_pos f + zlen bs) r (f_errno f)) in
  match f_script f with
  | ReadErr e :: r => Ret (-1, []) (File (f_data f) (f_pos f) r e)
  | Short k :: r => give (Z.min n k) r
  | [] => give (Z.min n MAX_RW) []
  end.

(** lseek(fd, off, SEEK_CUR) moves past the end too, up to the largest offset
    the file system has. *)
Definition lseek_cur (max_off off : Z) : prog file Z := fun f =>
  let new := f_pos f + off in
  if (0 <=? new) && (new <=? max_off) then Ret new (File (f_data f) new (f_script f) (f_errno f))
  else Ret (-1) (File (f_data f) (f_pos f) (f_script f) EINVAL).

(** A read of a file that is not interrupted. *)
Lemma fread_plain n data pos e :
  0 <= n <= MAX_RW ->
  fread n (File data pos [] e) =
    Ret (Z.min n (zlen (zdrop pos data)), ztake n (zdrop pos data))
        (File data (pos + Z.min n (zlen (zdrop pos data))) [] e).
Proof.
  intros Hn. unfold fread, f_rest. simpl. rewrite Z.min_l by lia.
  pose proof (zlen_nonneg (zdrop pos data)). rewrite zlen_ztake. by rewrite Z.max_r by lia.
Qed.

Lemma lseek_in max_off off data pos r e :
  0 <= pos + off <= max_off ->
  lseek_cur max_off off (File data pos r e) = Ret (pos + off) (File data (pos + off) r e).
Proof.
  intros. unfold lseek_cur. simpl. destruct (Z.leb_spec 0 (pos + off)); [|lia].
  destruct (Z.leb_spec (pos + off) max_off); [done|lia].
Qed.

Lemma lseek_out max_off off data pos r e :
  max_off < pos + off -> lseek_cur max_off off (File data pos r e) = Ret (-1) (File data pos r EINVAL).
Proof.
  intros. unfold lseek_cur. simpl. destruct (Z.leb_spec (pos + off) max_off); [lia|]. by rewrite andb_false_r.
Qed.

Lemma fread_short n k data pos r e :
  0 <= Z.min n k ->
  fread n (File data pos (Short k :: r) e) =
    Ret (Z.min (Z.min n k) (zlen (zdrop pos data)), ztake (Z.min n k) (zdrop pos data))
        (File data (pos + Z.min (Z.min n k) (zlen (zdrop pos data))) r e).
Proof.
  intros Hn. unfold fread, f_rest. simpl.
  pose proof (zlen_nonneg (zdrop pos data)). rewrite zlen_ztake. by rewrite Z.max_r by lia.
Qed.
