(* ===== verification/ClientLib.v ===== *)
(** * The clients' library

    clients/lib.hpp: comparing and classifying addresses, writing to a blocking
    descriptor, and asking the connector for its connections; and the request
    that kill_dupes.cpp and cycle.cpp build to close one. *)

From S2P Require Import Prelude.
From S2P Require Import Bytes.
From S2P Require Import WrappedBuffer.
From S2P Require Import Net.
From S2P Require Import BitcoinWire.
From S2P Require Import WriteBuffer.
From S2P Require Import BitcoinHandler.
From S2P Require Import CtrlMsg.
From S2P Require Import CommandHandler.

(** ** Addresses *)

(** The two fields of a sockaddr_in that count, as the integers they are in
    memory (network byte order read on a little-endian host). *)
Record sockaddr_in := SockaddrIn { s_addr : Z; sin_port : Z }.

#[global] Instance sockaddr_in_eq_dec : EqDecision sockaddr_in.
Proof. solve_decision. Defined.

#[global] Instance sockaddr_in_countable : Countable sockaddr_in.
Proof.
  apply (inj_countable' (fun a => (s_addr a, sin_port a)) (fun p => SockaddrIn (fst p) (snd p))).
  by intros [].
Defined.

(** sockaddr_cmp: the difference of the addresses as an int, then of the ports.
    addr_cmp of kill_dupes.cpp and cycle.cpp is the same. *)
Definition sockaddr_cmp (lhs rhs : sockaddr_in) : bool :=
  let t := s32 (u32 (s_addr lhs - s_addr rhs)) in
  let t := if t =? 0 then sin_port lhs - sin_port rhs else t in
  t <? 0.

Definition is_private (ip : Z) : bool :=
  (Z.land 255 ip =? 10) || (Z.land 255 ip =? 127) ||
  (Z.land 65535 ip =? Z.lor 192 (Z.shiftl 168 8)) ||
  (Z.land 61695 ip =? Z.lor 172 (Z.shiftl 16 8)).

(** std::hash of the two widths is the library's. *)
Definition sockaddr_hash (hash32 hash16 : Z -> Z) (a : sockaddr_in) : Z :=
  u64 (hash32 (s_addr a) + hash16 (sin_port a)).

Definition sockaddr_keyeq (a b : sockaddr_in) : bool :=
  (s_addr a =? s_addr b) && (sin_port a =? sin_port b).

(** ** do_write *)

(** Every turn uses one answer of the kernel; a blocking descriptor has one
    for each call, so running out of them is the EAGAIN the assertion excludes. *)
Fixpoint do_write_loop (fuel : nat) (ptr : list Z) (so_far : Z) : prog sock unit :=
  match fuel with
  | O => crash AssertFailed
  | S fuel =>
      let! r := write (zdrop so_far ptr) in
      let! k := get in
      if r <? 0 then
        if (errno k =? EAGAIN) || (errno k =? EWOULDBLOCK) then crash AssertFailed
        else if negb (errno k =? EINTR) then raise (RuntimeError "write")
        else if so_far <? zlen ptr then do_write_loop fuel ptr so_far else ret tt
      else
        if so_far + r <? zlen ptr then do_write_loop fuel ptr (so_far + r) else ret tt
  end.

Definition do_write (ptr : list Z) : prog sock unit := fun k =>
  do_write_loop (S (length (wx k))) ptr 0 k.

(** The kernel's answers take [n] bytes: it accepts them in pieces, with signals
    in between. *)
Fixpoint takes (ws : list write_event) (n : Z) : bool :=
  match ws with
  | [] => false
  | WAccept m :: ws => (0 <=? m) && ((n <=? Z.min m MAX_RW) || takes ws (n - Z.min m MAX_RW))
  | WErr e :: ws => (e =? EINTR) && ((n <=? 0) || takes ws n)
  end.

(** ** Receiving from a blocking descriptor *)

(** recv(..., MSG_WAITALL): [n] bytes, or less when the connection ends or
    fails first. A script that has run out is a connection that was closed. *)
Fixpoint gather (n : Z) (r : list recv_event) : list Z * list recv_event * option Z :=
  match r with
  | [] => ([], [], None)
  | REof :: r' => ([], r', None)
  | RErr e :: r' => ([], r', Some e)
  | RData bs :: r' =>
      if n <=? zlen bs then (ztake n bs, (if n <? zlen bs then RData (zdrop n bs) :: r' else r'), None)
      else let '(d, r'', e) := gather (n - zlen bs) r' in (bs ++ d, r'', e)
  end.

Definition recv_waitall (n : Z) : prog sock (Z * list Z) := fun k =>
  let '(d, r', e) := gather n (rx k) in
  let k' := Sock r' (wx k) (tx k) (default (errno k) e) in
  if (zlen d =? 0) && bool_decide (is_Some e) then Ret (-1, []) k' else Ret (zlen d, d) k'.

(** ** Asking for the connections *)

(** The message get_all_cxn_prefix sends, and the length of the answer. *)
Definition get_all_cxn_request : list Z :=
  let msg := zrep (MESSAGE + COMMAND_MSG) 0 in
  let msg := splice 0 [0] msg in
  let msg := splice 1 (le_bytes 4 (hton32 COMMAND_MSG)) msg in
  let msg := splice 5 [COMMAND] msg in
  splice 6 [COMMAND_GET_CXN] msg.

Definition get_all_cxn_prefix : prog sock Z :=
  do! do_write get_all_cxn_request in
  let! rv := recv_waitall 4 in
  if fst rv =? 0 then ret 0
  else if negb (fst rv =? 4) then raise (RuntimeError "recv")
  else ret (ntoh32 (le_val (snd rv))).

Section GetAll.
(** The state of the callback. *)
Context {S : Type}.

Definition on_sock {A} (c : prog sock A) : prog (S * sock) A := zoom snd (fun k s => (fst s, k)) c.
Definition on_fst (c : prog S unit) : prog (S * sock) unit := zoom fst (fun x s => (x, snd s)) c.

(** One record at a time, each given to the callback with its number. *)
Fixpoint cxn_loop (callback : list Z -> Z -> prog S unit) (fuel : nat) (len i : Z) : prog (S * sock) unit :=
  match fuel with
  | O => ret tt
  | Datatypes.S fuel =>
      if 0 <? len then
        let! rv := on_sock (recv_waitall CONNECTION_INFO) in
        if negb (fst rv =? CONNECTION_INFO) then raise (RuntimeError "recv")
        else
          do! on_fst (callback (snd rv) i) in
          cxn_loop callback fuel (len - CONNECTION_INFO) (i + 1)
      else ret tt
  end.

(** get_all_cxn(sock, callback). The assertion divides in floating point: it
    holds when the length is a multiple of the record size. *)
Definition get_all_cxn (callback : list Z -> Z -> prog S unit) : prog (S * sock) Z :=
  let! len := on_sock get_all_cxn_prefix in
  do! assert (len mod CONNECTION_INFO =? 0) in
  let addresses := len / CONNECTION_INFO in
  if addresses =? 0 then ret 0
  else
    do! cxn_loop callback (Datatypes.S (Z.to_nat addresses)) len 0 in
    ret addresses.

(** get_all_cxn<Cgen, C>(sock, callgen): the callback is made for the number of
    connections. *)
Definition get_all_cxn_gen (callgen : Z -> prog S (list Z -> Z -> prog S unit)) : prog (S * sock) Z :=
  let! len := on_sock get_all_cxn_prefix in
  do! assert (len mod CONNECTION_INFO =? 0) in
  let addresses := len / CONNECTION_INFO in
  if addresses =? 0 then ret 0
  else
    let! callback := zoom fst (fun x s => (x, snd s)) (callgen addresses) in
    do! cxn_loop callback (Datatypes.S (Z.to_nat addresses)) len 0 in
    ret addresses.
End GetAll.

(** ** disconnect_msg of kill_dupes.cpp and cycle.cpp *)

(** [nw_handle_id] is the id as it lies in a connection_info. *)
Definition disconnect_msg (page : Z) (nw_handle_id : list Z) : list Z * Z :=
  let payload_sz := COMMAND_MSG + 4 in
  let b := vb_new page (MESSAGE + payload_sz) in
  let b := splice 0 [0] b in
  let b := splice 1 (le_bytes 4 (hton32 payload_sz)) b in
  let b := splice 5 [COMMAND] b in
  let b := splice 6 [COMMAND_DISCONNECT] b in
  let b := splice 7 (le_bytes 4 0) b in
  let b := splice 11 (le_bytes 4 (hton32 1)) b in
  let b := splice 15 nw_handle_id b in
  (b, MESSAGE + payload_sz).

(** ** Properties *)

Lemma do_write_loop_spec fuel ptr so_far k :
  (length (wx k) < fuel)%nat -> 0 <= so_far <= zlen ptr -> takes (wx k) (zlen ptr - so_far) = true ->
  exists k', do_write_loop fuel ptr so_far k = Ret tt k' /\ tx k' = tx k ++ zdrop so_far ptr /\ rx k' = rx k.
Proof.
  revert so_far k. induction fuel as [|fuel IH]; intros so_far k Hf Hs Ht; [lia|].
  destruct k as [r [|[m|e] ws] t en]; simpl in Hf, Ht; [done|..].
  - apply andb_prop in Ht as [Hm Ht]. zb. set (q := Z.min m MAX_RW) in *. assert (0 <= q) by (unfold q, MAX_RW; lia).
    cbn [do_write_loop]. set (took := ztake q (zdrop so_far ptr)).
    assert (zlen took = Z.min q (zlen ptr - so_far)) as Hz by (unfold took; rewrite zlen_ztake, zlen_zdrop; lia).
    assert (write (zdrop so_far ptr) (Sock r (WAccept m :: ws) t en) = Ret (zlen took) (Sock r ws (t ++ took) en)) as Hw by done.
    run_step Hw. erewrite bind_ret by done. destruct (Z.ltb_spec (zlen took) 0); [lia|].
    destruct (Z.ltb_spec (so_far + zlen took) (zlen ptr)) as [Hlt|Hge].
    + assert (zlen took = q) as Hq by lia. rewrite Hq. destruct (Z.leb_spec (zlen ptr - so_far) q); [lia|]. simpl in Ht.
      destruct (IH (so_far + q) (Sock r ws (t ++ took) en)) as (k'&Hr&Hx&Hrx); [simpl; lia|lia| |].
      { simpl. replace (zlen ptr - (so_far + q)) with (zlen ptr - so_far - q) by lia. done. }
      exists k'. split; [exact Hr|]. split; [|done]. rewrite Hx. simpl. rewrite <- app_assoc. f_equal. unfold took.
      rewrite <- (ztake_zdrop q (zdrop so_far ptr)) at 2. f_equal. by rewrite zdrop_zdrop by lia.
    + eexists. split; [done|]. simpl. split; [|done]. f_equal. unfold took. apply ztake_all. rewrite zlen_zdrop. lia.
  - apply andb_prop in Ht as [He Ht]. zb. subst e. cbn [do_write_loop].
    do 2 erewrite bind_ret by done. change (-1 <? 0) with true. cbn [errno].
    change ((EINTR =? EAGAIN) || (EINTR =? EWOULDBLOCK)) with false. change (negb (EINTR =? EINTR)) with false. cbn match.
    destruct (Z.ltb_spec so_far (zlen ptr)) as [Hlt|Hge].
    + destruct (Z.leb_spec (zlen ptr - so_far) 0); [lia|]. simpl in Ht.
      destruct (IH so_far (Sock r ws t EINTR)) as (k'&Hr&Hx&Hrx); [simpl; lia|lia|done|]. eauto.
    + eexists. split; [done|]. simpl. split; [|done]. by rewrite zdrop_all, app_nil_r by lia.
Qed.

Lemma write_loop_spec ptr k :
  takes (wx k) (zlen ptr) = true ->
  exists k', do_write ptr k = Ret tt k' /\ tx k' = tx k ++ ptr /\ rx k' = rx k.
Proof.
  intros Ht. destruct (do_write_loop_spec (S (length (wx k))) ptr 0 k) as (k'&Hr&Hx&Hrx).
  - lia.
  - pose proof (zlen_nonneg ptr). lia.
  - by rewrite Z.sub_0_r.
  - exists k'. by rewrite zdrop_neg in Hx by lia.
Qed.

Lemma ztake_len_drop {A} n (l : list A) : ztake n l ++ zdrop (zlen (ztake n l)) l = l.
Proof.
  unfold ztake, zdrop, zlen. rewrite Nat2Z.id, length_take.
  destruct (Nat.le_ge_cases (Z.to_nat n) (length l)).
  - rewrite Nat.min_l by done. apply take_drop.
  - rewrite Nat.min_r, take_ge, drop_ge by done. apply app_nil_r.
Qed.

(** A do_write that returns has written everything. *)
Lemma do_write_loop_sent fuel ptr so_far k k' :
  0 <= so_far -> do_write_loop fuel ptr so_far k = Ret tt k' -> tx k' = tx k ++ zdrop so_far ptr.
Proof.
  revert so_far k. induction fuel as [|fuel IH]; intros so_far k Hso Hw; [done|].
  cbn [do_write_loop] in Hw. apply bind_Ret_inv in Hw as (r&k1&H1&Hw). apply bind_Ret_inv in Hw as (k2&k3&H2&Hw).
  injection H2 as <- <-. unfold write in H1. destruct (wx k) as [|[m|e] ws].
  - injection H1 as <- <-. done.
  - injection H1 as <- <-. set (took := ztake (Z.min m MAX_RW) (zdrop so_far ptr)) in *.
    pose proof (zlen_nonneg took). destruct (Z.ltb_spec (zlen took) 0); [lia|].
    assert (took ++ zdrop (zlen took) (zdrop so_far ptr) = zdrop so_far ptr) as Hsplit by apply ztake_len_drop.
    rewrite zdrop_zdrop in Hsplit by lia. destruct (Z.ltb_spec (so_far + zlen took) (zlen ptr)).
    + apply IH in Hw; [|lia]. rewrite Hw. simpl. by rewrite <- app_assoc, Hsplit.
    + injection Hw as <-. simpl. rewrite <- Hsplit, (zdrop_all (so_far + zlen took)) by lia. by rewrite app_nil_r.
  - injection H1 as <- <-. cbn [errno] in Hw. change (-1 <? 0) with true in Hw. cbn match in Hw.
    destruct (_ || _); [done|]. destruct (negb _); [done|].
    destruct (Z.ltb_spec so_far (zlen ptr)).
    + by apply IH in Hw.
    + injection Hw as <-. simpl. by rewrite zdrop_all, app_nil_r by lia.
Qed.

Lemma do_write_sent ptr k k' : do_write ptr k = Ret tt k' -> tx k' = tx k ++ ptr.
Proof. intros Hw. apply do_write_loop_sent in Hw; [|lia]. by rewrite zdrop_neg in Hw by lia. Qed.

(** Receiving bytes that come in any segments. *)
Lemma gather_spec n r :
  0 < n <= zlen (avail r) ->
  exists r', gather n r = (ztake n (avail r), r', None) /\ avail r' = zdrop n (avail r).
Proof.
  revert n. induction r as [|[bs| |e] r IH]; intros n Hn; simpl in *; try (change (zlen []) with 0 in Hn; lia).
  rewrite zlen_app in Hn. destruct (Z.leb_spec n (zlen bs)) as [Hle|Hgt].
  - eexists. rewrite ztake_app_l, zdrop_app_l by lia. split; [done|].
    destruct (Z.ltb_spec n (zlen bs)); [done|]. by rewrite zdrop_all by lia.
  - destruct (IH (n - zlen bs)) as (r'&->&Ha); [lia|]. exists r'.
    by rewrite ztake_app_r, zdrop_app_r by lia.
Qed.

Lemma recv_waitall_spec n k :
  0 < n <= zlen (avail (rx k)) ->
  exists k', recv_waitall n k = Ret (n, ztake n (avail (rx k))) k' /\
    avail (rx k') = zdrop n (avail (rx k)) /\ wx k' = wx k /\ tx k' = tx k.
Proof.
  intros Hn. unfold recv_waitall. destruct (gather_spec n (rx k) Hn) as (r'&->&Ha).
  assert (zlen (ztake n (avail (rx k))) = n) as -> by (rewrite zlen_ztake; lia).
  destruct (Z.eqb_spec n 0); [lia|]. eexists. split; [done|]. done.
Qed.

Lemma get_all_cxn_request_bytes : get_all_cxn_request = command_bytes COMMAND_GET_CXN 0 [].
Proof. vm_compute. reflexivity. Qed.

(** The request goes out and the length comes back. *)
Lemma get_all_cxn_prefix_spec k len rest :
  takes (wx k) (MESSAGE + COMMAND_MSG) = true -> 0 <= len < 2 ^ 32 -> avail (rx k) = be_bytes 4 len ++ rest ->
  exists k', get_all_cxn_prefix k = Ret len k' /\ tx k' = tx k ++ command_bytes COMMAND_GET_CXN 0 [] /\ avail (rx k') = rest.
Proof.
  intros Ht Hl Ha. unfold get_all_cxn_prefix.
  destruct (write_loop_spec get_all_cxn_request k) as (k1&Hw&Hx&Hr); [exact Ht|]. run_step Hw.
  assert (zlen (avail (rx k)) = 4 + zlen rest) as Hz by (rewrite Ha, zlen_app, zlen_be_bytes; lia).
  pose proof (zlen_nonneg rest). rewrite <- Hr in Hz, Ha.
  destruct (recv_waitall_spec 4 k1) as (k2&Hv&Ha2&_&Hx2); [lia|]. run_step Hv. simpl fst. cbn match.
  exists k2. rewrite Ha, ztake_app_exact by (by rewrite zlen_be_bytes).
  split; [|by rewrite Hx2, Hx, Ha2, Ha, zdrop_app_exact, get_all_cxn_request_bytes by (by rewrite zlen_be_bytes)].
  change (4 =? 0) with false. change (negb (4 =? 4)) with false. cbn match. unfold ret. f_equal. cbn [snd].
  unfold ntoh32. rewrite bswap_val; [|apply be_bytes_are_bytes|done]. apply be_val_bytes_small. simpl. lia.
Qed.

(** The callback on a list of records. *)
Fixpoint each_record {S} (callback : list Z -> Z -> prog S unit) (l : list (list Z)) (i : Z) : prog S unit :=
  match l with
  | [] => ret tt
  | x :: l => do! callback x i in each_record callback l (i + 1)
  end.

Lemma cxn_loop_spec {S} (callback : list Z -> Z -> prog S unit) l fuel i (s s' : S) k rest :
  Forall (fun x => zlen x = CONNECTION_INFO) l -> (length l < fuel)%nat ->
  avail (rx k) = concat l ++ rest -> each_record callback l i s = Ret tt s' ->
  exists k', cxn_loop callback fuel (CONNECTION_INFO * zlen l) i (s, k) = Ret tt (s', k') /\
    avail (rx k') = rest /\ tx k' = tx k /\ wx k' = wx k.
Proof.
  intros HF. revert fuel i s k. induction HF as [|x l Hx HF IH]; intros fuel i s k Hf Ha He;
    (destruct fuel as [|fuel]; [simpl in Hf; lia|]); cbn [cxn_loop].
  - simpl in He. injection He as ->. eexists. split; [done|]. done.
  - simpl in He. apply bind_Ret_inv in He as ([]&s1&Hc&He). cbn [concat] in Ha. rewrite <- app_assoc in Ha.
    rewrite zlen_cons. pose proof (zlen_nonneg l). unfold CONNECTION_INFO in *.
    destruct (Z.ltb_spec 0 (42 * (1 + zlen l))); [|lia].
    destruct (recv_waitall_spec 42 k) as (k1&Hv&Ha1&Hw1&Hx1).
    { rewrite Ha, zlen_app. pose proof (zlen_nonneg (concat l ++ rest)). lia. }
    erewrite bind_ret by (unfold on_sock; eapply zoom_ret, Hv). cbn [fst snd]. rewrite Z.eqb_refl. cbn [negb].
    rewrite Ha in *. rewrite (ztake_app_exact 42), (zdrop_app_exact 42) in * by lia.
    erewrite bind_ret by (unfold on_fst; eapply zoom_ret; exact Hc). cbn [fst snd].
    destruct (IH fuel (i + 1) s1 k1) as (k'&Hr&Ha'&Hx'&Hw'); [simpl in Hf; lia|done|done|].
    exists k'. split; [|split_and!; [done|congruence..]]. rewrite <- Hr. f_equal. lia.
Qed.

(** Once the length has come, the records follow. *)
Lemma get_all_cxn_run {S} (callback : list Z -> Z -> prog S unit) l (s s' : S) k k1 rest :
  Forall (fun x => zlen x = CONNECTION_INFO) l -> get_all_cxn_prefix k = Ret (CONNECTION_INFO * zlen l) k1 ->
  avail (rx k1) = concat l ++ rest -> each_record callback l 0 s = Ret tt s' ->
  exists k', get_all_cxn callback (s, k) = Ret (zlen l) (s', k') /\ avail (rx k') = rest /\ tx k' = tx k1 /\ wx k' = wx k1.
Proof.
  intros HF Hp Ha He. unfold get_all_cxn. pose proof (zlen_nonneg l). unfold CONNECTION_INFO in *.
  erewrite bind_ret by (unfold on_sock; eapply zoom_ret; exact Hp). cbn [fst].
  rewrite Z.mul_comm, Z_mod_mult, Z_div_mult by lia. erewrite bind_ret by done. cbv zeta.
  destruct (Z.eqb_spec (zlen l) 0) as [E|E].
  - apply zlen_0_nil in E as E0. subst l. simpl in He. injection He as <-. exists k1. by rewrite Ha.
  - destruct (cxn_loop_spec callback l (Datatypes.S (Z.to_nat (zlen l))) 0 s s' k1 rest) as (k2&Hr&Ha2&Hx2&Hw2);
      [done|unfold zlen; lia|done|done|].
    unfold CONNECTION_INFO in Hr. rewrite Z.mul_comm in Hr. run_step Hr. by exists k2.
Qed.

(** The records of the active connections, in order of id. *)
Definition info_list (g : globals) : list (list Z) :=
  map (fun i => match BitcoinHandler.g_active_handlers g !! i with Some h => connection_info i h | None => [] end)
      (ids (BitcoinHandler.g_active_handlers g)).

Lemma info_list_sizes g : addrs_ok g -> Forall (fun x => zlen x = CONNECTION_INFO) (info_list g).
Proof.
  intros Ha. unfold info_list. apply Forall_map, Forall_forall. intros i Hi%in_ids. destruct Hi as [h Hi].
  unfold compose. rewrite Hi. destruct (Ha i h Hi). by apply zlen_connection_info.
Qed.

(** Client and connector agree on the list of connections: what get_all_cxn
    sends is the command COMMAND_GET_CXN, and when the connector's answer (see
    get_cxn_lists) arrives in any segments the callback is called once for
    every active connection, in order of id, with its record and its number,
    and the number of connections is returned; nothing more is read. *)
Theorem get_all_cxn_complete {S} (callback : list Z -> Z -> prog S unit) g (s s' : S) k rest :
  addrs_ok g -> Z.of_nat (size (BitcoinHandler.g_active_handlers g)) < 2 ^ 26 ->
  takes (wx k) (MESSAGE + COMMAND_MSG) = true ->
  avail (rx k) = be_bytes 4 (CONNECTION_INFO * zlen (ids (BitcoinHandler.g_active_handlers g))) ++ connection_infos g ++ rest ->
  each_record callback (info_list g) 0 s = Ret tt s' ->
  exists k', get_all_cxn callback (s, k) = Ret (zlen (info_list g)) (s', k') /\
    tx k' = tx k ++ command_bytes COMMAND_GET_CXN 0 [] /\ avail (rx k') = rest.
Proof.
  intros Hg Hn Ht Ha He.
  assert (zlen (info_list g) = zlen (ids (BitcoinHandler.g_active_handlers g))) as Hz by (apply zlen_map).
  assert (zlen (ids (BitcoinHandler.g_active_handlers g)) < 2 ^ 26) as Hl by (unfold zlen; by rewrite length_ids).
  rewrite <- Hz in Ha, Hl. pose proof (zlen_nonneg (info_list g)).
  destruct (get_all_cxn_prefix_spec k (CONNECTION_INFO * zlen (info_list g)) (connection_infos g ++ rest)) as (k1&Hp&Hx&Ha1);
    [done|unfold CONNECTION_INFO; lia|done|].
  destruct (get_all_cxn_run callback (info_list g) s s' k k1 rest) as (k'&Hr&Ha'&Hx'&_); [by apply info_list_sizes|done|done|done|].
  exists k'. by rewrite Hx', Hx.
Qed.

Definition demo_wire (g : globals) : sock :=
  Sock [RData [0; 0]; RData (zdrop 2 (be_bytes 4 (CONNECTION_INFO * zlen (ids (BitcoinHandler.g_active_handlers g))) ++ connection_infos g))]
       [WAccept 7; WErr EINTR; WAccept 100] [] 0.

Lemma get_all_cxn_complete_witness :
  exists k', get_all_cxn (fun x i => modify (fun l => l ++ [(i, x)])) ([], demo_wire (wgl demo_world)) =
    Ret 2 ([(0, connection_info 3 (demo_conn 3)); (1, connection_info 8 (demo_conn 8))], k').
Proof.
  destruct (get_all_cxn_complete (fun x i => modify (fun l => l ++ [(i, x)])) (wgl demo_world) []
    [(0, connection_info 3 (demo_conn 3)); (1, connection_info 8 (demo_conn 8))] (demo_wire (wgl demo_world)) [])
    as (k'&Hr&_).
  - intros i h Hi. change (({[ 3 := demo_conn 3; 8 := demo_conn 8 ]} : gmap Z handler) !! i = Some h) in Hi.
    apply lookup_insert_Some in Hi as [[_ <-]|[_ Hi]]; [split; reflexivity|]. apply lookup_singleton_Some in Hi as [_ <-]. split; reflexivity.
  - vm_compute. reflexivity.
  - reflexivity.
  - vm_compute. reflexivity.
  - vm_compute. reflexivity.
  - exists k'. exact Hr.
Defined.

(** do_write on a blocking descriptor: whatever pieces the kernel takes, with
    interrupts in between, all bytes go out once and in order; and an error that
    is not an interrupt is thrown, after what was taken before it. *)
Theorem do_write_all ptr k :
  (takes (wx k) (zlen ptr) = true ->
   exists k', do_write ptr k = Ret tt k' /\ tx k' = tx k ++ ptr) /\
  (forall m e ws, wx k = [WAccept m; WErr e] ++ ws -> 0 <= m < zlen ptr -> m <= MAX_RW ->
   e <> EINTR -> e <> EAGAIN ->
   exists k', do_write ptr k = Raise (RuntimeError "write") k' /\ tx k' = tx k ++ ztake m ptr).
Proof.
  split.
  - intros Ht. destruct (write_loop_spec ptr k Ht) as (k'&?&?&_). eauto.
  - intros m e ws Hw Hm Hx He Ha. destruct k as [r w t en]. simpl in Hw. subst w.
    unfold do_write. cbn [wx length app do_write_loop].
    assert (write (zdrop 0 ptr) (Sock r (WAccept m :: WErr e :: ws) t en) =
            Ret m (Sock r (WErr e :: ws) (t ++ ztake m ptr) en)) as H1.
    { unfold write. cbn [wx rx tx errno]. rewrite zdrop_neg, Z.min_l by lia. f_equal. rewrite zlen_ztake. lia. }
    run_step H1. erewrite bind_ret by done. destruct (Z.ltb_spec m 0); [lia|].
    destruct (Z.ltb_spec (0 + m) (zlen ptr)); [|lia]. do 2 erewrite bind_ret by done.
    change (-1 <? 0) with true. cbn [errno]. unfold EWOULDBLOCK in *. unfold EAGAIN in *.
    rewrite (proj2 (Z.eqb_neq e 11)), (proj2 (Z.eqb_neq e EINTR)) by done. simpl. eexists. split; done.
Qed.

(** The dotted quad of a network-order address on a little-endian host. *)
Definition quad (a b c d : Z) : Z := a + 256 * b + 65536 * c + 16777216 * d.

(** The masks only look at the first two bytes. *)
Lemma is_private_low ip : is_private ip = is_private (ip mod 2 ^ 16).
Proof.
  assert (forall m, Z.land m 65535 = m -> Z.land m ip = Z.land m (ip mod 2 ^ 16)) as Hm.
  { intros m Hm. rewrite <- Z.land_ones by lia. change (Z.ones 16) with 65535.
    rewrite (Z.land_comm ip), Z.land_assoc. by rewrite Hm. }
  unfold is_private. by rewrite !Hm by done.
Qed.

Definition private_quad (a b : Z) : bool :=
  (a =? 10) || (a =? 127) || ((a =? 192) && (b =? 168)) || ((a =? 172) && (16 <=? b) && (b <=? 31)).

Definition bytes256 : list Z := map Z.of_nat (seq 0 256).

Lemma private_table : forallb (fun a => forallb (fun b => Bool.eqb (is_private (a + 256 * b)) (private_quad a b)) bytes256) bytes256 = true.
Proof. vm_compute. reflexivity. Qed.

Lemma in_bytes256 a : 0 <= a < 256 -> In a bytes256.
Proof. intros. apply in_map_iff. exists (Z.to_nat a). split; [lia|]. apply in_seq. lia. Qed.

(** is_private recognises exactly the addresses 10.0.0.0/8, 127.0.0.0/8,
    192.168.0.0/16 and 172.16.0.0/12. *)
Theorem is_private_exact a b c d :
  0 <= a < 256 -> 0 <= b < 256 -> 0 <= c < 256 -> 0 <= d < 256 ->
  is_private (quad a b c d) = true <-> a = 10 \/ a = 127 \/ (a = 192 /\ b = 168) \/ (a = 172 /\ 16 <= b <= 31).
Proof.
  intros Ha Hb Hc Hd. rewrite is_private_low.
  replace (quad a b c d mod 2 ^ 16) with (a + 256 * b).
  - pose proof private_table as Ht. rewrite forallb_forall in Ht. specialize (Ht a (in_bytes256 a Ha)).
    rewrite forallb_forall in Ht. specialize (Ht b (in_bytes256 b Hb)). apply Bool.eqb_prop in Ht. rewrite Ht.
    unfold private_quad. rewrite !orb_true_iff, !andb_true_iff, !Z.eqb_eq, !Z.leb_le. lia.
  - unfold quad. replace (a + 256 * b + 65536 * c + 16777216 * d) with ((a + 256 * b) + (c + 256 * d) * 2 ^ 16) by lia.
    rewrite Z_mod_plus_full, Z.mod_small; lia.
Qed.

Lemma is_private_exact_witness : is_private (quad 172 31 5 6) = true /\ is_private (quad 172 32 5 6) <> true.
Proof.
  split.
  - apply is_private_exact; lia.
  - intros H. apply is_private_exact in H; lia.
Defined.

(** sockaddr_cmp is not the strict weak order that std::set and std::map
    need: the difference of two addresses is taken modulo 2^32, so every address
    is below one that is below one that is below the first. (On addresses less
    than 2^31 apart it is the order by address and port.) *)
Theorem sockaddr_cmp_cycles a :
  0 <= s_addr a < 2 ^ 32 ->
  (exists b c, 0 <= s_addr b < 2 ^ 32 /\ 0 <= s_addr c < 2 ^ 32 /\
     sockaddr_cmp a b = true /\ sockaddr_cmp b c = true /\ sockaddr_cmp c a = true) /\
  (forall b, 0 <= s_addr b < 2 ^ 32 -> -2 ^ 31 < s_addr a - s_addr b < 2 ^ 31 ->
     sockaddr_cmp a b = true <-> s_addr a < s_addr b \/ (s_addr a = s_addr b /\ sin_port a < sin_port b)).
Proof.
  intros Ha.
  assert (forall x y d, 0 < d < 2 ^ 31 -> s_addr y = u32 (s_addr x + d) -> sockaddr_cmp x y = true) as Hstep.
  { intros x y d Hd Hy. unfold sockaddr_cmp. rewrite s32_u32, Hy.
    replace (s32 (s_addr x - u32 (s_addr x + d))) with (- d); [zcase; [lia|]; by apply Z.ltb_lt; lia|].
    rewrite <- s32_u32. unfold u32 at 1 2. rewrite Zminus_mod_idemp_r.
    replace (s_addr x - (s_addr x + d)) with (- d) by lia. fold (u32 (- d)). rewrite s32_u32. symmetry. apply s32_small. lia. }
  split.
  - set (t := 1431655765). set (b := SockaddrIn (u32 (s_addr a + t)) 0). set (c := SockaddrIn (u32 (s_addr b + t)) 0).
    exists b, c. split; [apply u32_range|]. split; [apply u32_range|].
    split; [by apply (Hstep a b t)|]. split; [by apply (Hstep b c t)|]. apply (Hstep c a (t + 1)); [done|].
    unfold c, b, u32. simpl s_addr. rewrite Zplus_mod_idemp_l, <- Z.add_assoc, Zplus_mod_idemp_l.
    replace (s_addr a + t + (t + (t + 1))) with (s_addr a + 1 * 2 ^ 32) by (unfold t; lia).
    rewrite Z_mod_plus_full, Z.mod_small by lia. done.
  - intros b Hb Hd. unfold sockaddr_cmp. rewrite s32_u32, s32_small by lia.
    destruct (Z.eqb_spec (s_addr a - s_addr b) 0); rewrite Z.ltb_lt; lia.
Qed.

Lemma sockaddr_cmp_cycles_witness :
  exists b c, sockaddr_cmp (SockaddrIn (quad 8 8 8 8) 0) b = true /\ sockaddr_cmp b c = true /\
    sockaddr_cmp c (SockaddrIn (quad 8 8 8 8) 0) = true.
Proof.
  destruct (sockaddr_cmp_cycles (SockaddrIn (quad 8 8 8 8) 0)) as [(b&c&_&_&H) _]; [vm_compute; split; congruence|].
  by exists b, c.
Defined.

(** sockaddr_keyeq agrees with sockaddr_hash, whatever the library hashes with,
    as unordered_map needs it. *)
Lemma sockaddr_hash_keyeq h32 h16 a b :
  sockaddr_keyeq a b = true -> sockaddr_hash h32 h16 a = sockaddr_hash h32 h16 b /\ a = b.
Proof.
  unfold sockaddr_keyeq. intros [H1 H2]%andb_prop. zb. destruct a, b; simpl in *; subst. done.
Qed.

(** The bytes of disconnect_msg are those of the API's command message. *)
Lemma disconnect_msg_bytes page nw :
  0 < page <= 2 ^ 62 -> zlen nw = 4 ->
  let '(b, n) := disconnect_msg page nw in
  ztake n b = [0] ++ be_bytes 4 (COMMAND_MSG + 4) ++ [COMMAND; COMMAND_DISCONNECT] ++ be_bytes 4 0 ++ be_bytes 4 1 ++ nw.
Proof.
  intros Hp Hn. unfold disconnect_msg. cbv zeta. destruct nw as [|a [|b [|c [|d [|e nw]]]]]; try done.
  exfalso. unfold zlen in Hn. simpl in Hn. lia.
Qed.
