(* ===== verification/LogTools.v ===== *)
(** * The log tools

    tools/src/logtruncate.cpp, logchecker.cpp and logfixer.cpp, on files of
    length-prefixed records ([LogFormat]). *)

From S2P Require Import Prelude.
From S2P Require Import Bytes.
From S2P Require Import Net.
From S2P Require Import LogServer.
From S2P Require Import Logger.
From S2P Require Import LogFormat.
From S2P Require Import FileIo.
From S2P Require Import ClientLib.

Definition EXIT_SUCCESS : Z := 0.
Definition EXIT_FAILURE : Z := 1.

(** ** logtruncate: drop the incomplete record a crash left at the end *)

Section LogTruncate.
(** The largest offset of the file system. *)
Context (max_off : Z).

(** The loop that reads a length; [None] is a read error. It stores at
    [buf + remaining - 4]. *)
Fixpoint trunc_read_len (fuel : nat) (netlen : list Z) (remaining : Z) : prog file (option (list Z * Z)) :=
  match fuel with
  | O => ret (Some (netlen, remaining))
  | S fuel =>
      let! res := fread remaining in
      let rd := fst res in
      if 0 <? rd then
        let off := remaining - 4 in
        if (off <? 0) || (4 <? off + rd) then crash OutOfBounds
        else
          let netlen := splice off (snd res) netlen in
          let remaining := remaining - rd in
          if 0 <? remaining then trunc_read_len fuel netlen remaining
          else ret (Some (netlen, remaining))
      else if rd =? 0 then ret (Some (netlen, remaining))
      else ret None
  end.

(** How the scan ends: with the length of the records found, or a failed read. *)
Inductive trunc_end := TDone (size : Z) | TFailure.

(** The outer loop. [4 + ntoh(netlen)] is computed in 32 bits. An lseek that
    fails with another error than EINVAL is only reported. *)
Fixpoint trunc_scan (actual : Z) (fuel : nat) (size : Z) : prog file trunc_end :=
  match fuel with
  | O => ret (TDone size)
  | S fuel =>
      let! r := trunc_read_len 5 (zrep 4 0) 4 in
      match r with
      | None => ret TFailure
      | Some (netlen, remaining) =>
          if 0 <? remaining then ret (TDone size)
          else
            let len := ntoh32 (le_val netlen) in
            let! sought := lseek_cur max_off len in
            let! f := get in
            if (sought <? 0) && (f_errno f =? EINVAL) then ret (TDone size)
            else if actual <? sought then ret (TDone size)
            else
              let size := size + u32 (4 + len) in
              do! assert (sought =? size) in
              trunc_scan actual fuel size
      end
  end.

(** main from the stat on; [opened] and [can_truncate] are what open and
    truncate answer. A file that cannot be opened fails at the first read. *)
Definition logtruncate_main (opened can_truncate : bool) : prog file Z :=
  let! f := get in
  let actual := zlen (f_data f) in
  if opened then
    let! e := trunc_scan actual (1 + length (f_data f)) 0 in
    match e with
    | TFailure => ret EXIT_FAILURE
    | TDone size =>
        if (size <? actual) && can_truncate then
          let! f := get in
          do! put (File (ztake size (f_data f)) (f_pos f) (f_script f) (f_errno f)) in
          ret EXIT_SUCCESS
        else ret EXIT_SUCCESS
    end
  else ret EXIT_FAILURE.

(** *** The scan finds the whole records *)

Lemma read_len_whole data pos e :
  4 <= zlen (zdrop pos data) ->
  trunc_read_len 5 (zrep 4 0) 4 (File data pos [] e) =
    Ret (Some (ztake 4 (zdrop pos data), 0)) (File data (pos + 4) [] e).
Proof.
  intros Hl. cbn [trunc_read_len]. erewrite bind_ret by (apply fread_plain; unfold MAX_RW; lia).
  cbn [fst snd]. rewrite Z.min_l by lia. cbv zeta. change (4 - 4) with 0. cbn match.
  assert (splice 0 (ztake 4 (zdrop pos data)) (zrep 4 0) = ztake 4 (zdrop pos data)) as ->; [|done].
  apply splice_all. rewrite zlen_ztake, zlen_zrep. lia.
Qed.

Lemma read_len_short data pos e :
  0 <= pos -> zlen (zdrop pos data) < 4 ->
  exists nl rem f', trunc_read_len 5 (zrep 4 0) 4 (File data pos [] e) = Ret (Some (nl, rem)) f' /\
    0 < rem /\ f_data f' = data.
Proof.
  intros Hp0 Hl. pose proof (zlen_nonneg (zdrop pos data)) as Hn. cbn [trunc_read_len].
  erewrite bind_ret by (apply fread_plain; unfold MAX_RW; lia). cbn [fst snd]. rewrite Z.min_r by lia.
  destruct (Z.ltb_spec 0 (zlen (zdrop pos data))) as [Hp|Hp].
  - cbv zeta. change (4 - 4) with 0. destruct (Z.ltb_spec 4 (0 + zlen (zdrop pos data))); [lia|].
    change ((0 <? 0) || false) with false. cbn match.
    destruct (Z.ltb_spec 0 (4 - zlen (zdrop pos data))); [|lia].
    erewrite bind_ret by (apply fread_plain; unfold MAX_RW; lia). cbn [fst snd].
    assert (zdrop (pos + zlen (zdrop pos data)) data = []) as Hd.
    { apply zdrop_all. rewrite zlen_zdrop in *. lia. }
    rewrite Hd. change (zlen []) with 0. rewrite Z.min_r by lia. simpl. eexists _, _, _. split; [done|]. simpl. split; [lia|done].
  - assert (zlen (zdrop pos data) = 0) as -> by lia. simpl. eexists _, _, _. split; [done|]. simpl. split; [lia|done].
Qed.


Lemma trunc_scan_spec fuel data pos e :
  Forall is_byte data -> zlen data < 2 ^ 32 -> zlen data <= max_off -> 0 <= pos <= zlen data ->
  (length (zdrop pos data) < fuel)%nat ->
  exists f', trunc_scan (zlen data) fuel pos (File data pos [] e) =
    Ret (TDone (pos + zlen (frames (fst (split_log (zdrop pos data)))))) f' /\ f_data f' = data.
Proof.
  intros HB Hd Hm. revert pos e. induction fuel as [|fuel IH]; intros pos e Hp Hf; [lia|].
  assert (Forall is_byte (zdrop pos data)) as HBr by (by apply Forall_drop).
  pose proof (split_log_inv _ HBr) as Hinv. cbn [trunc_scan].
  destruct (Z.le_gt_cases 4 (zlen (zdrop pos data))) as [Hl|Hl].
  - erewrite bind_ret by (by apply read_len_whole). cbn match. change (0 <? 0) with false. cbv zeta. cbn match.
    assert (ntoh32 (le_val (ztake 4 (zdrop pos data))) = be_val (ztake 4 (zdrop pos data))) as ->.
    { apply bswap_val; [by apply Forall_take|]. unfold ztake. rewrite length_take. unfold zlen in Hl. lia. }
    set (len := be_val (ztake 4 (zdrop pos data))).
    assert (0 <= len < 2 ^ 32) as Hlen.
    { unfold len. pose proof (be_val_bound (ztake 4 (zdrop pos data))) as Hb.
      rewrite zlen_ztake, Z.max_r, Z.min_l in Hb by lia. apply Hb. by apply Forall_take. }
    assert (cut_record (zdrop pos data) =
      if zlen (zdrop pos data) <? 4 + len then None else Some (slice 4 len (zdrop pos data), zdrop (4 + len) (zdrop pos data))) as Hcut.
    { unfold cut_record. destruct (Z.ltb_spec (zlen (zdrop pos data)) 4); [lia|done]. }
    rewrite zlen_zdrop in Hcut, Hl.
    assert (zlen data < pos + 4 + len -> fst (split_log (zdrop pos data)) = []) as Hnone.
    { intros Hgt. destruct (Z.ltb_spec (Z.max 0 (zlen data - Z.max 0 pos)) (4 + len)); [|lia].
      unfold split_log. destruct (length (zdrop pos data)); [done|]. cbn [split_records]. by rewrite Hcut. }
    destruct (Z.le_gt_cases (pos + 4 + len) max_off) as [Hin|Hout].
    + erewrite bind_ret by (apply lseek_in; lia). erewrite bind_ret by done. destruct (Z.ltb_spec (pos + 4 + len) 0); [lia|]. cbn [andb].
      destruct (Z.ltb_spec (zlen data) (pos + 4 + len)) as [Hbig|Hfit].
      * rewrite Hnone by done. change (zlen (frames [])) with 0. rewrite Z.add_0_r. eexists. split; [done|done].
      * rewrite u32_small by lia. destruct (Z.eqb_spec (pos + 4 + len) (pos + (4 + len))); [|lia].
        erewrite bind_ret by done. replace (pos + 4 + len) with (pos + (4 + len)) by lia.
        destruct (Z.ltb_spec (Z.max 0 (zlen data - Z.max 0 pos)) (4 + len)); [lia|].
        destruct (cut_inv _ _ _ HBr Hcut) as (Heq&Hfits&_&Hshort).
        assert (zdrop (4 + len) (zdrop pos data) = zdrop (pos + (4 + len)) data) as Hdd by (apply zdrop_zdrop; lia).
        rewrite Hdd in *.
        destruct (IH (pos + (4 + len)) e) as (f'&Hr&Hfd); [lia|lia|]. exists f'. split; [|done]. rewrite Hr. do 2 f_equal.
        destruct (split_log (zdrop (pos + (4 + len)) data)) as [rs tail] eqn:Hs2.
        pose proof (split_log_inv (zdrop (pos + (4 + len)) data)) as Hi2. rewrite Hs2 in Hi2.
        destruct Hi2 as (Ht2&HF2&Hc2); [by apply Forall_drop|].
        rewrite Heq, Ht2, app_assoc, <- frames_cons.
        rewrite split_log_frames by (try done; by constructor). simpl fst.
        rewrite frames_cons, zlen_app, zlen_frame, zlen_slice by (rewrite ?zlen_zdrop; lia). lia.
    + erewrite bind_ret by (apply lseek_out; lia). erewrite bind_ret by done. simpl. rewrite Hnone by lia. change (zlen (frames [])) with 0. rewrite Z.add_0_r.
      eexists. split; [done|done].
  - destruct (read_len_short data pos e (proj1 Hp) Hl) as (nl&rem&f'&Hr&Hrem&Hfd). run_step Hr. cbn match.
    destruct (Z.ltb_spec 0 rem); [|lia]. exists f'. split; [|done]. unfold ret. do 2 f_equal.
    assert (fst (split_log (zdrop pos data)) = []) as ->; [|change (zlen (frames [])) with 0; lia].
    unfold split_log. destruct (length (zdrop pos data)); [done|]. cbn [split_records]. unfold cut_record.
    destruct (Z.ltb_spec (zlen (zdrop pos data)) 4); [done|lia].
Qed.

(** The whole tool on a file that is read without interruptions. *)
Lemma logtruncate_spec data e :
  Forall is_byte data -> zlen data < 2 ^ 32 -> zlen data <= max_off ->
  exists f', logtruncate_main true true (File data 0 [] e) = Ret EXIT_SUCCESS f' /\
    f_data f' = frames (fst (split_log data)).
Proof.
  intros HB Hd Hm. unfold logtruncate_main. erewrite bind_ret by done. cbn [f_data].
  pose proof (zlen_nonneg data).
  destruct (trunc_scan_spec (1 + length data) data 0 e) as (f'&Hr&Hf); [done|done|done|lia|unfold zdrop; rewrite length_drop; lia|].
  run_step Hr. cbn match. rewrite zdrop_neg in * by lia. rewrite Z.add_0_l.
  pose proof (split_log_inv data HB) as Hi. destruct (split_log data) as [rs tail]. destruct Hi as (Heq&_&_). cbn [fst].
  rewrite andb_true_r. destruct (Z.ltb_spec (zlen (frames rs)) (zlen data)) as [Hlt|Hge].
  - erewrite bind_ret by done. erewrite bind_ret by done. eexists. split; [done|]. simpl. rewrite Hf, Heq.
    by apply ztake_app_exact.
  - exists f'. split; [done|]. rewrite Hf, Heq in *. rewrite zlen_app in Hge.
    assert (tail = []) as -> by (apply zlen_0_nil; pose proof (zlen_nonneg tail); lia). apply app_nil_r.
Qed.
End LogTruncate.

(** C30. logtruncate on a log of which only the first [n] bytes reached the disk:
    it succeeds and leaves exactly the records that are complete, in order, as
    many as the prefix holds; a log that is complete is left as it is. (The
    file is smaller than 4 GB; larger files are the next theorem.) *)
Theorem logtruncate_recovers max_off rs n e :
  Forall (Forall is_byte) rs -> Forall fits rs -> 0 <= n ->
  zlen (frames rs) < 2 ^ 32 -> 2 ^ 32 <= max_off ->
  exists k f', logtruncate_main max_off true true (File (ztake n (frames rs)) 0 [] e) = Ret EXIT_SUCCESS f' /\
    f_data f' = frames (take k rs) /\
    (zlen (frames rs) <= n -> f_data f' = frames rs) /\
    (forall j, zlen (frames (take j rs)) <= n -> zlen (frames (take j rs)) <= zlen (f_data f')).
Proof.
  intros HB HF Hn Hz Hm. assert (Forall is_byte (frames rs)) as HBf.
  { by apply frames_bytes. }
  assert (zlen (ztake n (frames rs)) <= zlen (frames rs)) as Hle by (rewrite zlen_ztake; pose proof (zlen_nonneg (frames rs)); lia).
  destruct (logtruncate_spec max_off (ztake n (frames rs)) e) as (f'&Hr&Hf); [by apply Forall_take|lia|lia|].
  destruct (split_log_cut n rs HF Hn) as (k&tail&Heq&Ht&Hk&Hall&Hmax). rewrite Heq in Hf.
  rewrite split_log_frames in Hf by (done || by apply Forall_take). simpl in Hf.
  exists k, f'. split; [done|]. split; [done|]. rewrite Hf. split.
  - intros Hge. rewrite (Hall Hge). f_equal. apply take_ge. lia.
  - intros j Hj. destruct (Hmax j Hj) as [Hjk| ->]; [|lia].
    replace (take k rs) with (take j rs ++ take (k - j) (drop j rs)).
    + rewrite frames_app, zlen_app. pose proof (zlen_nonneg (frames (take (k - j) (drop j rs)))). lia.
    + rewrite take_take_drop. f_equal. lia.
Qed.

Lemma logtruncate_recovers_witness :
  exists k f', logtruncate_main (2 ^ 40) true true (File (ztake 12 (frames [[65; 66]; [67]; [68; 69; 70]])) 0 [] 0)
    = Ret EXIT_SUCCESS f' /\ f_data f' = frames (take k [[65; 66]; [67]; [68; 69; 70]]) /\
    zlen (frames [[65; 66]; [67]]) <= zlen (f_data f').
Proof.
  destruct (logtruncate_recovers (2 ^ 40) [[65; 66]; [67]; [68; 69; 70]] 12 0) as (k&f'&Hr&Hf&_&Hj).
  - repeat constructor; unfold is_byte; lia.
  - repeat constructor; vm_compute; reflexivity.
  - lia.
  - vm_compute. reflexivity.
  - lia.
  - exists k, f'. split; [exact Hr|]. split; [exact Hf|]. apply (Hj 2%nat). vm_compute. discriminate.
Defined.

(** Two defects of logtruncate: a read of the length that a signal cuts short
    is continued before the start of the variable ([buf + remaining - 4] for
    [buf + 4 - remaining]); and the length of a record is added up in 32 bits,
    so a record of 2^32 - 4 bytes or more that is really there fails the
    assertion. *)
Theorem logtruncate_faults max_off data e k fuel size :
  (0 < k < 4 -> 4 <= zlen data -> 0 < zlen data ->
   logtruncate_main max_off true true (File data 0 [Short k] e) = Fault OutOfBounds) /\
  (Forall is_byte data -> 4 <= zlen data -> 2 ^ 32 - 4 <= be_val (ztake 4 data) -> size = 0 ->
   4 + be_val (ztake 4 data) <= zlen data <= max_off ->
   trunc_scan max_off (zlen data) (S fuel) size (File data 0 [] e) = Fault AssertFailed).
Proof.
  split.
  - intros Hk Hl _. unfold logtruncate_main. erewrite bind_ret by done. cbn [f_data trunc_scan Nat.add].
    assert (trunc_read_len 5 (zrep 4 0) 4 (File data 0 [Short k] e) = Fault OutOfBounds) as Hr.
    { cbn [trunc_read_len]. erewrite bind_ret by (apply fread_short; lia). cbn [fst snd].
      rewrite zdrop_neg, (Z.min_r 4), Z.min_l by lia. cbv zeta.
      destruct (Z.ltb_spec 0 k); [|lia]. change (4 - 4) with 0. destruct (Z.ltb_spec 4 (0 + k)); [lia|].
      change ((0 <? 0) || false) with false. cbn match. destruct (Z.ltb_spec 0 (4 - k)); [|lia].
      erewrite bind_ret by (apply fread_plain; unfold MAX_RW; lia). cbn [fst snd].
      assert (zlen (zdrop (0 + k) data) = zlen data - k) as -> by (rewrite zlen_zdrop; lia).
      rewrite Z.min_l by lia. destruct (Z.ltb_spec 0 (4 - k)); [|lia].
      destruct (Z.ltb_spec (4 - k - 4) 0); [done|lia]. }
    unfold bind. by rewrite Hr.
  - intros HB Hl Hbig -> Hfit. cbn [trunc_scan].
    pose proof (be_val_bound (ztake 4 data)) as Hb. rewrite zlen_ztake, Z.max_r, Z.min_l in Hb by lia.
    specialize (Hb (Forall_take _ _ _ HB)).
    erewrite bind_ret by (apply read_len_whole; rewrite zlen_zdrop; lia). rewrite zdrop_neg by lia.
    cbn match. change (0 <? 0) with false. cbv zeta. cbn match.
    assert (ntoh32 (le_val (ztake 4 data)) = be_val (ztake 4 data)) as ->.
    { apply bswap_val; [by apply Forall_take|]. unfold ztake. rewrite length_take. unfold zlen in Hl. lia. }
    erewrite bind_ret by (apply lseek_in; lia). erewrite bind_ret by done.
    destruct (Z.ltb_spec (0 + 4 + be_val (ztake 4 data)) 0); [lia|]. cbn [andb].
    destruct (Z.ltb_spec (zlen data) (0 + 4 + be_val (ztake 4 data))); [lia|].
    assert (u32 (4 + be_val (ztake 4 data)) < 2 ^ 32) by apply u32_range.
    change (256 ^ 4) with (2 ^ 32) in Hb.
    destruct (Z.eqb_spec (0 + 4 + be_val (ztake 4 data)) (0 + u32 (4 + be_val (ztake 4 data)))); [lia|done].
Qed.

(** ** logchecker: validate the records of a log *)

(** The offset of bitcoin_msg_log_format's msg.command. *)
Definition MSG_COMMAND : Z := 22.

Definition isprint (c : Z) : bool := (32 <=? c) && (c <=? 126).

(** The program's state: the descriptor, the buffer and the static
    last_timestamp of validate_record. *)
Record checker := Checker { k_file : file; k_buf : list Z; last_timestamp : Z }.

Section LogChecker.
Context (page : Z).

(** [n] bytes at [off] of the buffer *)
Definition k_load (off n : Z) : prog checker (list Z) := fun s =>
  if zlen (k_buf s) <? off + n then Fault OutOfBounds else Ret (slice off n (k_buf s)) s.

(** [for(s = command; *s && isprint( *s); ++s)] and whether it stopped at a
    byte that is not 0; [None] when it runs out of the buffer. *)
Fixpoint command_invalid (l : list Z) : option bool :=
  match l with
  | [] => None
  | c :: l => if c =? 0 then Some false else if isprint c then command_invalid l else Some true
  end.

Definition known_type (t : Z) : bool :=
  (t =? DEBUG) || (t =? CTRL) || (t =? ERROR) || (t =? BITCOIN) || (t =? BITCOIN_MSG) || (t =? CONNECTOR).

(** The jump that is reported: backwards by more than the two minutes that are
    added, or ahead by more than 86300*3 seconds. *)
Definition bad_time (last timestamp : Z) : bool :=
  negb (last =? 0) && ((timestamp <? last) || (86300 * 3 <? u64 (timestamp - last))).

Definition validate_record : prog checker Z :=
  let! t := k_load 4 1 in
  let ty := le_val t in
  let rv := if known_type ty then 0 else 1 in
  let! ts := k_load 5 8 in
  let timestamp := u64 (ntoh64 (le_val ts) + 120) in
  let! s := get in
  let rv := if bad_time (last_timestamp s) timestamp then Z.lor rv 2 else rv in
  do! put (Checker (k_file s) (k_buf s) (u64 (timestamp - 120))) in
  if ty =? BITCOIN_MSG then
    let! bad := deref OutOfBounds (command_invalid (zdrop MSG_COMMAND (k_buf s))) in
    ret (if bad : bool then Z.lor rv 4 else rv)
  else ret rv.

(** The loop that reads [remaining] bytes to [cursor]; [None] is a read error. *)
Fixpoint check_fill (fuel : nat) (cursor remaining : Z) : prog checker (option (Z * Z)) :=
  match fuel with
  | O => ret (Some (cursor, remaining))
  | S fuel =>
      let! res := zoom k_file (fun f s => Checker f (k_buf s) (last_timestamp s)) (fread remaining) in
      let rd := fst res in
      if 0 <? rd then
        let! s := get in
        if zlen (k_buf s) <? cursor + rd then crash OutOfBounds
        else
          do! put (Checker (k_file s) (splice cursor (snd res) (k_buf s)) (last_timestamp s)) in
          if 0 <? remaining - rd then check_fill fuel (cursor + rd) (remaining - rd)
          else ret (Some (cursor + rd, remaining - rd))
      else if rd =? 0 then ret (Some (cursor, remaining))
      else ret None
  end.

(** buf.realloc(n); of 0 bytes it throws. *)
Definition k_realloc (n : Z) : prog checker unit := fun s =>
  if n =? 0 then Raise (RuntimeError "realloc failure") s
  else Ret tt (Checker (k_file s) (vb_realloc page n (k_buf s)) (last_timestamp s)).

(** The loop of main; the result is the exit code. *)
Fixpoint check_loop (fuel : nat) (reading_len : bool) (remaining : Z) : prog checker Z :=
  match fuel with
  | O => ret EXIT_SUCCESS
  | S fuel =>
      let! r := check_fill (S (Z.to_nat remaining)) 0 remaining in
      match r with
      | None => ret EXIT_FAILURE
      | Some (cursor, left_over) =>
          if 0 <? left_over then ret EXIT_SUCCESS
          else if reading_len then
            let! b := k_load 0 4 in
            let n := ntoh32 (le_val b) in
            do! k_realloc n in
            check_loop fuel false n
          else
            let! v := validate_record in
            if negb (Z.land v 3 =? 0) then ret 1
            else check_loop fuel true 4
      end
  end.

(** main on the file [data]: two turns for each record, two more to end. *)
Definition logchecker_main (data : list Z) : out checker Z :=
  check_loop (2 + 2 * length data) true 4 (Checker (File data 0 [] 0) (vb_new page 4) 0).

(** *** What it checks *)

(** The verdict on one record, after records with timestamp [last]. *)
Definition record_passes (last : Z) (r : list Z) : bool :=
  known_type (log_kind r) && negb (bad_time last (u64 (log_timestamp r + 120))).

Fixpoint log_passes (last : Z) (rs : list (list Z)) : bool :=
  match rs with
  | [] => true
  | r :: rs => record_passes last r && log_passes (log_timestamp r) rs
  end.

(** A record that holds its own header and, if it is of type BITCOIN_MSG, a
    command that ends (or breaks off with a byte that is not printable). *)
Definition checkable (r : list Z) : Prop :=
  LOG_HEADER <= zlen r < 2 ^ 32 /\ Forall is_byte r /\
  (log_kind r = BITCOIN_MSG -> is_Some (command_invalid (zdrop MSG_COMMAND r))).

Hypothesis Hpage : 0 < page <= 2 ^ 62.

Lemma command_invalid_app l x : is_Some (command_invalid l) -> command_invalid (l ++ x) = command_invalid l.
Proof. induction l as [|c l IH]; simpl; [by intros []|]. destruct (c =? 0); [done|]. by destruct (isprint c). Qed.

(** Reading [n] bytes that are there. *)
Lemma check_fill_spec fuel c n data pos e buf last :
  0 <= pos -> 0 < n -> 0 <= c -> c + n <= zlen buf -> n <= zlen (zdrop pos data) -> n <= Z.of_nat fuel ->
  exists buf', check_fill fuel c n (Checker (File data pos [] e) buf last) =
    Ret (Some (c + n, 0)) (Checker (File data (pos + n) [] e) buf' last) /\
    ztake (c + n) buf' = ztake c buf ++ ztake n (zdrop pos data) /\ zlen buf' = zlen buf.
Proof.
  revert c n pos buf. induction fuel as [|fuel IH]; intros c n pos buf Hp Hn Hc Hb Hr Hf; [lia|].
  cbn [check_fill]. set (s := Checker _ _ _).
  assert (exists k, 0 < k <= n /\ fread n (File data pos [] e) =
    Ret (k, ztake k (zdrop pos data)) (File data (pos + k) [] e)) as (k&Hk&Hrd).
  { exists (Z.min n MAX_RW). unfold fread, f_rest, MAX_RW. simpl. split; [lia|]. rewrite zlen_ztake.
    rewrite Z.max_r, (Z.min_l _ (zlen (zdrop pos data))) by lia. done. }
  erewrite bind_ret by (eapply zoom_ret, Hrd). cbn [fst snd k_buf last_timestamp s].
  destruct (Z.ltb_spec 0 k); [|lia]. erewrite bind_ret by done. cbn [k_file k_buf last_timestamp].
  destruct (Z.ltb_spec (zlen buf) (c + k)); [lia|]. erewrite bind_ret by done.
  assert (zlen (ztake k (zdrop pos data)) = k) as Hzk by (rewrite zlen_ztake; lia).
  assert (zlen (splice c (ztake k (zdrop pos data)) buf) = zlen buf) as Hzs by (apply zlen_splice; lia).
  assert (ztake (c + k) (splice c (ztake k (zdrop pos data)) buf) = ztake c buf ++ ztake k (zdrop pos data)) as Ht.
  { rewrite <- Hzk at 1. apply splice_take. lia. }
  destruct (Z.ltb_spec 0 (n - k)).
  - destruct (IH (c + k) (n - k) (pos + k) (splice c (ztake k (zdrop pos data)) buf)) as (buf'&Hr'&Ht'&Hz');
      [lia|lia|lia|lia|rewrite zlen_zdrop in *; lia|lia|].
    exists buf'. split_and!; [| |lia].
    + rewrite Hr'. by rewrite <- !Z.add_assoc, !Zplus_minus.
    + replace (c + n) with (c + k + (n - k)) by lia. rewrite Ht', Ht, <- app_assoc. f_equal.
      rewrite <- (zdrop_zdrop k pos) by lia. change (ztake (n - k) (zdrop k (zdrop pos data))) with (slice k (n - k) (zdrop pos data)).
      rewrite <- ztake_add by lia. f_equal. lia.
  - assert (k = n) as -> by lia. eexists. split; [|done]. unfold ret. by rewrite Z.sub_diag.
Qed.

(** Reading bytes that are not all there. *)
Lemma check_fill_short fuel c n data pos e buf last :
  0 <= pos -> 0 < n -> 0 <= c -> c + n <= zlen buf -> zlen (zdrop pos data) < n -> n < Z.of_nat fuel ->
  exists c' n' s', check_fill fuel c n (Checker (File data pos [] e) buf last) = Ret (Some (c', n')) s' /\ 0 < n'.
Proof.
  revert c n pos buf. induction fuel as [|fuel IH]; intros c n pos buf Hp Hn Hc Hb Hr Hf; [lia|].
  cbn [check_fill]. set (k := Z.min (Z.min n MAX_RW) (zlen (zdrop pos data))).
  pose proof (zlen_nonneg (zdrop pos data)).
  assert (fread n (File data pos [] e) = Ret (k, ztake (Z.min n MAX_RW) (zdrop pos data)) (File data (pos + k) [] e)) as Hrd.
  { unfold fread, f_rest. simpl. rewrite zlen_ztake. unfold k, MAX_RW in *. rewrite Z.max_r by lia. done. }
  erewrite bind_ret by (eapply zoom_ret, Hrd). cbn [fst snd k_buf last_timestamp].
  assert (0 <= k < n) as Hk by (unfold k, MAX_RW; lia).
  destruct (Z.ltb_spec 0 k).
  - erewrite bind_ret by done. cbn [k_file k_buf last_timestamp].
    destruct (Z.ltb_spec (zlen buf) (c + k)); [lia|]. erewrite bind_ret by done.
    destruct (Z.ltb_spec 0 (n - k)); [|lia].
    apply IH; [lia|lia|lia| |rewrite zlen_zdrop in *; lia|lia].
    rewrite zlen_splice; [lia|lia|]. rewrite zlen_ztake. unfold k in *. lia.
  - destruct (Z.eqb_spec k 0); [|lia]. eexists _, _, _. split; [done|lia].
Qed.

Lemma slice_ztake {A} off m n (l : list A) :
  0 <= off -> 0 <= m -> off + m <= n -> slice off m (ztake n l) = slice off m l.
Proof.
  intros. unfold slice, ztake, zdrop. rewrite skipn_firstn_comm, take_take. f_equal. lia.
Qed.

Lemma k_load_spec off m n f buf last :
  0 <= off -> 0 <= m -> off + m <= n -> n <= zlen buf ->
  k_load off m (Checker f buf last) = Ret (slice off m (ztake n buf)) (Checker f buf last).
Proof.
  intros. unfold k_load. simpl. destruct (Z.ltb_spec (zlen buf) (off + m)); [lia|]. by rewrite slice_ztake by lia.
Qed.

Lemma log_timestamp_range r : 0 <= log_timestamp r < 2 ^ 64.
Proof. unfold log_timestamp, ntoh64. apply (bswap_bound 8). Qed.

(** validate_record says yes to what the specification lets pass. *)
Lemma validate_record_spec f buf last r :
  checkable r -> zlen r <= zlen buf -> ztake (zlen r) buf = r ->
  exists v, validate_record (Checker f buf last) = Ret v (Checker f buf (log_timestamp r)) /\
    (Z.land v 3 =? 0) = record_passes last r.
Proof.
  unfold LOG_HEADER. intros ((Hl&_)&HB&Hcmd) Hz Hb. unfold validate_record, LOG_HEADER in *.
  erewrite bind_ret by (apply (k_load_spec 4 1 (zlen r)); lia). rewrite Hb.
  change (le_val (slice 4 1 r)) with (log_kind r). cbv zeta.
  erewrite bind_ret by (apply (k_load_spec 5 8 (zlen r)); lia). rewrite Hb.
  change (ntoh64 (le_val (slice 5 8 r))) with (log_timestamp r).
  do 2 erewrite bind_ret by done. cbn [k_file k_buf last_timestamp].
  assert (u64 (u64 (log_timestamp r + 120) - 120) = log_timestamp r) as ->.
  { unfold u64. rewrite Zminus_mod_idemp_l. replace (log_timestamp r + 120 - 120) with (log_timestamp r) by lia.
    apply Z.mod_small, log_timestamp_range. }
  unfold record_passes. destruct (Z.eqb_spec (log_kind r) BITCOIN_MSG) as [E|E].
  - assert (exists bad, command_invalid (zdrop MSG_COMMAND buf) = Some bad) as [bad Hbad].
    { destruct (Hcmd E) as [bad Hbad]. exists bad. rewrite <- (ztake_zdrop (zlen r) buf), Hb.
      destruct (Z.le_gt_cases MSG_COMMAND (zlen r)) as [Hle|Hgt].
      - rewrite zdrop_app_l by done. rewrite command_invalid_app by done. done.
      - rewrite zdrop_all in Hbad by lia. done. }
    rewrite Hbad. erewrite bind_ret by done. eexists. split; [done|].
    destruct (known_type (log_kind r)), (bad_time _ _), bad; reflexivity.
  - eexists. split; [done|]. destruct (known_type (log_kind r)), (bad_time _ _); reflexivity.
Qed.

(** The loop at the start of a record: the length, then the record. *)
Lemma check_read_len fuel data pos e buf last bs :
  0 <= pos -> 4 <= zlen buf -> Forall is_byte bs -> zdrop pos data = bs -> 4 <= zlen bs ->
  exists buf', check_loop (S fuel) true 4 (Checker (File data pos [] e) buf last) =
    (do! k_realloc (be_val (ztake 4 bs)) in check_loop fuel false (be_val (ztake 4 bs)))
      (Checker (File data (pos + 4) [] e) buf' last) /\ 4 <= zlen buf'.
Proof.
  intros Hp Hb HB Hd Hl. cbn [check_loop].
  destruct (check_fill_spec (S (Z.to_nat 4)) 0 4 data pos e buf last) as (buf'&Hr&Ht&Hz); [lia|lia|lia|lia|rewrite Hd; lia|lia|].
  run_step Hr. cbn match. change (0 <? 0) with false. cbn match. rewrite (ztake_neg 0) in Ht by lia. simpl app in Ht.
  erewrite bind_ret by (apply (k_load_spec 0 4 4); lia). rewrite Z.add_0_l in Ht. rewrite Ht, Hd.
  rewrite slice_full by (rewrite zlen_ztake; lia). cbv zeta.
  assert (ntoh32 (le_val (ztake 4 bs)) = be_val (ztake 4 bs)) as ->.
  { apply bswap_val; [by apply Forall_take|]. unfold ztake. rewrite length_take. unfold zlen in Hl. lia. }
  exists buf'. split; [done|lia].
Qed.

Lemma check_loop_spec rs tail fuel data pos e buf last :
  Forall checkable rs -> cut_record tail = None -> Forall is_byte tail ->
  zdrop pos data = frames rs ++ tail -> 0 <= pos -> 4 <= zlen buf -> (2 * length rs + 2 <= fuel)%nat ->
  exists s', check_loop fuel true 4 (Checker (File data pos [] e) buf last) =
    Ret (if log_passes last rs then EXIT_SUCCESS else 1) s'.
Proof.
  intros HC Ht HBt. revert fuel pos buf last. induction HC as [|r rs Hr HC IH]; intros fuel pos buf last Hd Hp Hb Hf.
  - simpl in Hd. destruct fuel as [|[|fuel]]; [simpl in Hf; lia..|]. cbn [log_passes].
    destruct (Z.le_gt_cases 4 (zlen tail)) as [Hl|Hl].
    + destruct (check_read_len (S fuel) data pos e buf last tail) as (buf'&->&Hb'); [done..|].
      assert (0 <= be_val (ztake 4 tail) < 2 ^ 32) as Hbv.
      { pose proof (be_val_bound (ztake 4 tail) (Forall_take _ _ _ HBt)) as H0.
        rewrite zlen_ztake, Z.max_r, Z.min_l in H0 by lia. exact H0. }
      unfold cut_record in Ht. destruct (Z.ltb_spec (zlen tail) 4); [lia|].
      destruct (Z.ltb_spec (zlen tail) (4 + be_val (ztake 4 tail))); [|done].
      set (n := be_val (ztake 4 tail)) in *. unfold k_realloc. destruct (Z.eqb_spec n 0); [lia|].
      erewrite bind_ret; [|by destruct (Z.eqb_spec n 0); [lia|]]. cbn [k_file k_buf last_timestamp check_loop].
      destruct (check_fill_short (S (Z.to_nat n)) 0 n data (pos + 4) e (vb_realloc page n buf') last) as (c'&n'&s'&Hs&Hn').
      * lia.
      * lia.
      * lia.
      * rewrite zlen_vb_realloc by (done || lia). pose proof (wcap_bounds page Hpage n). lia.
      * rewrite <- zdrop_zdrop, Hd, zlen_zdrop by lia. lia.
      * lia.
      * run_step Hs. cbn match. destruct (Z.ltb_spec 0 n'); [|lia]. eexists. done.
    + cbn [check_loop]. destruct (check_fill_short (S (Z.to_nat 4)) 0 4 data pos e buf last) as (c'&n'&s'&Hs&Hn');
        [lia|lia|lia|lia|rewrite Hd; lia|lia|].
      run_step Hs. cbn match. destruct (Z.ltb_spec 0 n'); [|lia]. eexists. done.
  - pose proof Hr as ((Hlo&Hhi)&HBr&_). unfold LOG_HEADER in Hlo. rewrite frames_cons, <- app_assoc in Hd.
    destruct fuel as [|[|fuel]]; [simpl in Hf; lia..|].
    assert (Forall fits rs) as HFits by (eapply Forall_impl; [exact HC|]; by intros ? ((_&?)&_)).
    assert (Forall is_byte (frames rs)) as HBrs.
    { apply frames_bytes. eapply Forall_impl; [exact HC|]. by intros ? (_&?&_). }
    assert (ztake 4 (frame r ++ frames rs ++ tail) = be_bytes 4 (zlen r)) as Ht4.
    { unfold frame. rewrite <- app_assoc. apply ztake_app_exact. by rewrite zlen_be_bytes. }
    destruct (check_read_len (S fuel) data pos e buf last (frame r ++ frames rs ++ tail)) as (buf'&->&Hb').
    { done. } { done. }
    { apply Forall_app_2; [unfold frame; apply Forall_app_2; [apply be_bytes_are_bytes|done]|by apply Forall_app_2]. }
    { done. } { rewrite zlen_app, zlen_frame. pose proof (zlen_nonneg (frames rs ++ tail)). lia. }
    rewrite Ht4, be_val_bytes_small by (simpl; lia). unfold k_realloc.
    erewrite bind_ret; [|by destruct (Z.eqb_spec (zlen r) 0); [lia|]]. cbn [k_file k_buf last_timestamp check_loop].
    assert (zdrop (pos + 4) data = r ++ frames rs ++ tail) as Hd4.
    { rewrite <- zdrop_zdrop, Hd by lia. unfold frame. rewrite <- app_assoc. apply zdrop_app_exact. by rewrite zlen_be_bytes. }
    pose proof (wcap_bounds page Hpage (zlen r)).
    destruct (check_fill_spec (S (Z.to_nat (zlen r))) 0 (zlen r) data (pos + 4) e (vb_realloc page (zlen r) buf') last)
      as (b2&Hr2&Ht2&Hz2); [lia|lia|lia|rewrite zlen_vb_realloc by (done || lia); lia| |lia|].
    { rewrite Hd4, zlen_app. pose proof (zlen_nonneg (frames rs ++ tail)). lia. }
    rewrite zlen_vb_realloc in Hz2 by (done || lia).
    run_step Hr2. cbn match. change (0 <? 0) with false. cbn match.
    rewrite (ztake_neg 0), Z.add_0_l in Ht2 by lia. rewrite Hd4, ztake_app_exact in Ht2 by done.
    destruct (validate_record_spec (File data (pos + 4 + zlen r) [] e) b2 last r) as (v&Hv&Hvp); [done|lia|done|].
    run_step Hv. rewrite Hvp. cbn [log_passes]. destruct (record_passes last r); cbn [negb andb]; [|by eexists].
    apply IH; [|lia|lia|simpl in Hf; lia].
    rewrite <- zdrop_zdrop, Hd4 by lia. by apply zdrop_app_exact.
Qed.
End LogChecker.

Lemma length_frames rs : (length rs <= length (frames rs))%nat.
Proof.
  induction rs as [|r rs IH]; [done|]. rewrite frames_cons, length_app. simpl.
  pose proof (zlen_frame r). pose proof (zlen_nonneg r). unfold zlen in *. lia.
Qed.

Lemma logchecker_spec page rs tail :
  0 < page <= 2 ^ 62 -> Forall checkable rs -> cut_record tail = None -> Forall is_byte tail ->
  exists s', logchecker_main page (frames rs ++ tail) = Ret (if log_passes 0 rs then EXIT_SUCCESS else 1) s'.
Proof.
  intros Hp HC Ht HB. unfold logchecker_main. apply (check_loop_spec page Hp rs tail); try done.
  rewrite length_app. pose proof (length_frames rs). lia.
Qed.


(** A record as the log server's client [src] logged it at time [now]. *)
Definition logged (x : Z * Z * log_event) : list Z :=
  let '(src, now, e) := x in sourced (src, record_of now e).

(** What the clients of the log server log: events in the ranges of their
    types, with commands that end. *)
Definition loggable (x : Z * Z * log_event) : Prop :=
  let '(src, now, e) := x in
  0 <= now < 2 ^ 63 /\ event_ok e /\ Forall is_byte (record_of now e) /\
  match e with
  | LText N _ => known_type N = true /\ N <> BITCOIN_MSG /\ N < 256
  | LConn _ _ _ _ _ => True
  | LMsg _ _ m => is_Some (command_invalid (slice 4 (BitcoinWire.PACKED_MESSAGE + BitcoinWire.msg_length m - 4) m))
  end.

(** Times that only go back by jitter, and do not jump ahead. *)
Fixpoint steady (last : Z) (l : list (Z * Z * log_event)) : bool :=
  match l with
  | [] => true
  | (_, now, _) :: l =>
      ((last =? 0) || ((last - 120 <=? now) && (now + 120 - last <=? 258900))) && steady now l
  end.

Definition type_of (e : log_event) : Z :=
  match e with LText N _ => N | LConn _ _ _ _ _ => BITCOIN | LMsg _ _ _ => BITCOIN_MSG end.

Lemma record_of_header now e : exists body, record_of now e = [type_of e] ++ be_bytes 8 now ++ body.
Proof. destruct e; simpl; eauto. Qed.

Lemma logged_fields src now e :
  0 <= now < 2 ^ 64 ->
  log_kind (logged (src, now, e)) = type_of e /\ log_timestamp (logged (src, now, e)) = now /\
  LOG_HEADER <= zlen (logged (src, now, e)).
Proof.
  intros Hn. unfold logged, sourced, LOG_HEADER. simpl fst. simpl snd. destruct (record_of_header now e) as [body ->].
  split_and!.
  - unfold log_kind. rewrite slice_app_mid; [|by rewrite zlen_be_bytes|done]. simpl. lia.
  - unfold log_timestamp. rewrite app_assoc. rewrite slice_app_mid; [|rewrite zlen_app, zlen_be_bytes; done|by rewrite zlen_be_bytes].
    unfold ntoh64. rewrite bswap_val; [|apply be_bytes_are_bytes|done]. apply be_val_bytes_small. simpl. lia.
  - rewrite !zlen_app, !zlen_be_bytes. change (zlen [type_of e]) with 1. pose proof (zlen_nonneg body). lia.
Qed.

Lemma loggable_checkable x : loggable x -> checkable (logged x).
Proof.
  destruct x as [[src now] e]. intros (Hn&Hok&HB&Hty). destruct (logged_fields src now e) as (Hk&_&Hl); [lia|].
  split_and!.
  - done.
  - unfold logged, sourced. simpl fst. simpl snd. rewrite zlen_app, zlen_be_bytes.
    destruct e as [N parts|u h r lo t|id sn m]; unfold record_of in *; simpl in Hok;
      rewrite ?zlen_app, ?zlen_be_bytes, ?zlen_ztake; unfold BitcoinWire.SOCKADDR_STORAGE in *.
    + change (zlen [N]) with 1. lia.
    + change (zlen [BITCOIN]) with 1. lia.
    + change (zlen [BITCOIN_MSG]) with 1. change (zlen [if sn then 1 else 0]) with 1.
      unfold BitcoinWire.PACKED_MESSAGE in *. lia.
  - unfold logged, sourced. simpl fst. simpl snd. apply Forall_app_2; [apply be_bytes_are_bytes|done].
  - rewrite Hk. intros Ht. destruct e as [N parts|u h r lo t|id sn m]; simpl in Ht; [naive_solver|done|].
    change (logged (src, now, LMsg id sn m)) with (be_bytes 4 src ++ [BITCOIN_MSG] ++ be_bytes 8 now ++ be_bytes 4 id ++
      [if sn then 1 else 0] ++ ztake (BitcoinWire.PACKED_MESSAGE + BitcoinWire.msg_length m) m).
    cbv beta match in Hty. rewrite !app_assoc.
    assert (zlen ((((be_bytes 4 src ++ [BITCOIN_MSG]) ++ be_bytes 8 now) ++ be_bytes 4 id) ++ [if sn then 1 else 0]) = 18) as Hz
      by (rewrite !zlen_app, !zlen_be_bytes; done).
    rewrite zdrop_app_r, Hz by (rewrite Hz; done). change (MSG_COMMAND - 18) with 4.
    unfold slice, ztake, zdrop in *. rewrite skipn_firstn_comm.
    replace (Z.to_nat _ - _)%nat with (Z.to_nat (BitcoinWire.PACKED_MESSAGE + BitcoinWire.msg_length m - 4)); [exact Hty|].
    unfold BitcoinWire.PACKED_MESSAGE. simpl. lia.
Qed.

Lemma steady_passes last l :
  Forall loggable l -> 0 <= last < 2 ^ 63 -> steady last l = true -> log_passes last (map logged l) = true.
Proof.
  intros HL. revert last. induction HL as [|[[src now] e] l Hx HL IH]; intros last Hl Hs; [done|].
  simpl in Hs. apply andb_prop in Hs as [Ht Hs]. destruct Hx as (Hn&Hok&_&Hty).
  destruct (logged_fields src now e) as (Hk&Hts&_); [lia|]. cbn [map log_passes]. rewrite Hts, IH by (done || lia).
  rewrite andb_true_r. unfold record_passes. rewrite Hk, Hts.
  assert (known_type (type_of e) = true) as ->.
  { destruct e; [exact (proj1 Hty)|reflexivity..]. }
  simpl.
  unfold bad_time. destruct (Z.eqb_spec last 0); [done|]. simpl in Ht |- *. apply andb_prop in Ht as [Ha Hb]. zb.
  unfold u64. rewrite (Z.mod_small (now + 120)), Z.mod_small by lia.
  destruct (Z.ltb_spec (now + 120) last); [lia|]. change (86300 * 3) with 258900. destruct (Z.ltb_spec 258900 (now + 120 - last)); [lia|done].
Qed.

(** A log that the connector wrote through the log server passes: whatever
    was logged, by any number of sources, in the three forms of g_log, if the
    clock is steady the checker's exit code is 0, also when the file was cut off
    in the middle of a record. *)
Theorem connector_log_passes page l n :
  0 < page <= 2 ^ 62 -> Forall loggable l -> steady 0 l = true -> 0 <= n ->
  exists s', logchecker_main page (ztake n (frames (map logged l))) = Ret EXIT_SUCCESS s'.
Proof.
  intros Hp HL Hs Hn.
  assert (Forall checkable (map logged l)) as HC by (apply Forall_map; eapply Forall_impl; [exact HL|]; apply loggable_checkable).
  assert (Forall fits (map logged l)) as HF by (eapply Forall_impl; [exact HC|]; by intros ? ((_&?)&_)).
  assert (Forall is_byte (ztake n (frames (map logged l)))) as HB.
  { apply Forall_take, frames_bytes. eapply Forall_impl; [exact HC|]. by intros ? (_&?&_). }
  destruct (split_log_cut n (map logged l) HF Hn) as (k&tail&Heq&Ht&_). rewrite Heq in *.
  apply Forall_app in HB as [_ HB].
  destruct (logchecker_spec page (take k (map logged l)) tail) as [s' Hr]; [done|by apply Forall_take|done|done|].
  exists s'. rewrite Hr. rewrite firstn_map. rewrite steady_passes; [done|by apply Forall_take|lia|].
  clear -Hs. revert Hs k. generalize 0 as last. induction l as [|[[src now] e] l IH]; intros last Hs [|k]; try done.
  simpl in *. apply andb_prop in Hs as [-> Hs]. by apply IH.
Qed.

Lemma connector_log_passes_witness :
  exists s', logchecker_main 4096 (ztake 300 (frames (map logged
    [(7, 1000, LText DEBUG [[104; 105]]); (7, 1001, LConn CONNECT_SUCCESS 3 (zrep 128 0) (zrep 128 0) [])])))
    = Ret EXIT_SUCCESS s'.
Proof.
  apply connector_log_passes; [lia| |reflexivity|lia].
  repeat constructor; vm_compute; try done; try congruence.
Defined.

(** A log with a record of type CLIENT, which the clients of the connector do
    write (g_log<CLIENT> in getaddr.cpp), is reported as invalid. *)
Theorem client_log_rejected page rs r rs' :
  0 < page <= 2 ^ 62 -> Forall checkable (rs ++ r :: rs') -> log_kind r = CLIENT ->
  exists s', logchecker_main page (frames (rs ++ r :: rs')) = Ret 1 s'.
Proof.
  intros Hp HC Hk. destruct (logchecker_spec page (rs ++ r :: rs') []) as [s' Hr]; [done|done|done|constructor|].
  rewrite app_nil_r in Hr. exists s'. rewrite Hr.
  assert (forall last, log_passes last (rs ++ r :: rs') = false) as ->; [|done].
  clear -Hk. induction rs as [|r0 rs IH]; intros last; simpl.
  - unfold record_passes. by rewrite Hk.
  - rewrite IH. apply andb_false_r.
Qed.

(** ** logfixer: find the records of a log that has no length prefixes *)

Definition fixer_is_type (t : Z) : bool :=
  (t =? DEBUG) || (t =? CTRL) || (t =? ERROR) || (t =? BITCOIN) || (t =? BITCOIN_MSG) || (t =? CONNECTOR) || (t =? CLIENT).

Section LogFixer.
Context (page : Z).

(** [while(++mult * page_size < size);] *)
Fixpoint page_mult (fuel : nat) (mult size : Z) : Z :=
  match fuel with
  | O => mult
  | S fuel => if (mult + 1) * page <? size then page_mult fuel (mult + 1) size else mult + 1
  end.

(** get_bytes: the memory that can be read through the mapping (the file, and
    zeros to the end of its last page), and the length it was mapped with. *)
Definition get_bytes (content : list Z) : list Z * Z :=
  let size := zlen content in
  let mult := page_mult (S (Z.to_nat size)) 0 size in
  (content ++ zrep ((size + page - 1) / page * page - size) 0, mult * page).

(** The state of main: the output, [buf] and [last] as offsets in the mapping,
    [last_time]. *)
Record fixer := Fixer { x_out : sock; x_buf : Z; x_last : option Z; x_time : Z }.

(** [while(!is_type( *buf)) { ++buf; }], unbounded: it ends at a byte that is a
    type or leaves the memory. *)
Fixpoint skip_to_type (fuel : nat) (mem : list Z) (buf : Z) : prog fixer Z :=
  match fuel with
  | O => crash OutOfBounds
  | S fuel =>
      let! b := deref OutOfBounds (mem !! Z.to_nat buf) in
      if fixer_is_type b then ret buf else skip_to_type fuel mem (buf + 1)
  end.

Definition fix_write (bs : list Z) : prog fixer unit :=
  zoom x_out (fun k s => Fixer k (x_buf s) (x_last s) (x_time s)) (do_write bs).

(** One turn of the outer loop. *)
Definition fix_step (mem : list Z) : prog fixer unit :=
  let! s := get in
  let! buf := skip_to_type (S (length mem)) mem (x_buf s) in
  if zlen mem <? buf + 1 + 8 then crash OutOfBounds
  else
    let time := s64 (ntoh64 (le_val (slice (buf + 1) 8 mem))) in
    let near := (0 <=? s64 (time - x_time s)) && (s64 (time - x_time s) <? 5 * 60) in
    match x_last s with
    | None => modify (fun s => Fixer (x_out s) (buf + 1) (Some buf) time)
    | Some last =>
        if near then
          do! fix_write (le_bytes 4 (hton32 (u32 (buf - last)))) in
          do! fix_write (slice last (buf - last) mem) in
          modify (fun s => Fixer (x_out s) (buf + 1) (Some buf) time)
        else modify (fun s => Fixer (x_out s) (buf + 1) (x_last s) (x_time s))
    end.

Fixpoint fix_loop (fuel : nat) (mem : list Z) (mapped : Z) : prog fixer unit := fun s =>
  if x_buf s <? mapped then
    match fuel with
    | O => Ret tt s
    | S fuel => (do! fix_step mem in fix_loop fuel mem mapped) s
    end
  else Ret tt s.

(** main, from the mapping of verbatim.out on, with the output file [k]. *)
Definition logfixer_main (content : list Z) (k : sock) : out fixer unit :=
  let '(mem, mapped) := get_bytes content in
  fix_loop (S (length mem)) mem mapped (Fixer k 0 None 0).

(** *** What it does *)

Hypothesis Hpage : 0 < page.

Lemma page_mult_spec fuel mult size :
  0 <= mult -> size <= mult * page + Z.of_nat fuel -> mult * page < size \/ mult = 0 -> (0 < fuel)%nat ->
  let m := page_mult fuel mult size in size <= m * page /\ (m - 1) * page < Z.max 1 size /\ 1 <= m.
Proof.
  revert mult. induction fuel as [|fuel IH]; intros mult Hm Hs Hlt Hf; [lia|]. simpl.
  destruct (Z.ltb_spec ((mult + 1) * page) size) as [H|H].
  - destruct fuel as [|fuel']; [nia|]. apply IH; [lia|nia|by left|lia].
  - split_and!; [lia| |lia]. replace (mult + 1 - 1) with mult by lia. destruct Hlt as [?| ->]; lia.
Qed.

(** The mapping of a file that is not empty can be read to its end. *)
Lemma get_bytes_spec content :
  let '(mem, mapped) := get_bytes content in
  zlen mem <= mapped /\ 0 < mapped /\ (content <> [] -> zlen mem = mapped).
Proof.
  unfold get_bytes. pose proof (zlen_nonneg content) as Hn. set (size := zlen content) in *.
  destruct (page_mult_spec (S (Z.to_nat size)) 0 size) as (H1&H2&H3); [lia|lia|by right|lia|].
  set (m := page_mult _ _ _) in *. rewrite zlen_app, zlen_zrep. fold size.
  assert (size <= (size + page - 1) / page * page < size + page) as Hup.
  { pose proof (Z.div_mod (size + page - 1) page). pose proof (Z.mod_pos_bound (size + page - 1) page). nia. }
  rewrite Z.max_r by lia. replace (size + ((size + page - 1) / page * page - size)) with ((size + page - 1) / page * page) by lia.
  set (q := (size + page - 1) / page) in *.
  assert (q < m + 1) by (apply (Z.mul_lt_mono_pos_r page); lia). split_and!; [nia|nia|]. intros Hne.
  assert (0 < size). { unfold size. destruct content; [done|]. rewrite zlen_cons. pose proof (zlen_nonneg content). lia. }
  assert (m - 1 < q) by (apply (Z.mul_lt_mono_pos_r page); lia). f_equal. lia.
Qed.

Lemma skip_spec fuel mem buf s b s' :
  skip_to_type fuel mem buf s = Ret b s' -> s' = s /\ buf <= b.
Proof.
  revert buf. induction fuel as [|fuel IH]; intros buf; cbn [skip_to_type]; [done|].
  intros (x&s1&Hd&Hr)%bind_Ret_inv. destruct (mem !! Z.to_nat buf); [|done]. injection Hd as -> ->.
  destruct (fixer_is_type x); [injection Hr as <- <-; split; [done|lia]|].
  apply IH in Hr as [-> ?]. split; [done|lia].
Qed.

(** A turn that ends has looked at eight bytes behind the type it found. *)
Lemma fix_step_bound mem s s' :
  fix_step mem s = Ret tt s' -> x_buf s < x_buf s' /\ x_buf s' + 8 <= zlen mem.
Proof.
  unfold fix_step. intros (s0&s1&Hg&Hr)%bind_Ret_inv. injection Hg as <- <-.
  apply bind_Ret_inv in Hr as (buf&s2&Hs&Hr). apply skip_spec in Hs as [-> Hle].
  destruct (Z.ltb_spec (zlen mem) (buf + 1 + 8)); [done|].
  destruct (x_last s); [destruct (_ && _)|].
  - apply bind_Ret_inv in Hr as (?&?&_&Hr). apply bind_Ret_inv in Hr as (?&?&_&Hr). injection Hr as <-. simpl. lia.
  - injection Hr as <-. simpl. lia.
  - injection Hr as <-. simpl. lia.
Qed.

Lemma fix_loop_never fuel mem mapped s a s' :
  zlen mem <= mapped -> x_buf s < mapped -> x_buf s <= zlen mem < x_buf s + Z.of_nat fuel ->
  fix_loop fuel mem mapped s = Ret a s' -> False.
Proof.
  intros Hm. revert s. induction fuel as [|fuel IH]; intros s Hb Hf Hr; [lia|]. cbn [fix_loop] in Hr.
  destruct (Z.ltb_spec (x_buf s) mapped); [|lia]. apply bind_Ret_inv in Hr as ([]&s1&Hs&Hr).
  apply fix_step_bound in Hs as [H1 H2]. apply (IH s1); [lia|lia|done].
Qed.

(** The bytes written so far are whole records, and they are the bytes between
    the first type byte found and the last one taken for a record start. *)
Definition fix_inv (mem : list Z) (tx0 : list Z) (s : fixer) : Prop :=
  match x_last s with
  | None => tx (x_out s) = tx0
  | Some last => exists first pieces,
      tx (x_out s) = tx0 ++ frames pieces /\ concat pieces = slice first (last - first) mem /\
      0 <= first <= last /\ last < x_buf s
  end /\ 0 <= x_buf s.

Lemma fix_write_spec bs s s' :
  fix_write bs s = Ret tt s' ->
  tx (x_out s') = tx (x_out s) ++ bs /\ x_buf s' = x_buf s /\ x_last s' = x_last s /\ x_time s' = x_time s.
Proof.
  unfold fix_write, zoom. destruct (do_write bs (x_out s)) as [[] k'| |] eqn:Hw; [|done|done]. intros [= <-]. simpl.
  split; [|done]. by apply do_write_sent.
Qed.

Lemma fix_step_inv mem tx0 s s' :
  zlen mem < 2 ^ 32 -> fix_inv mem tx0 s -> fix_step mem s = Ret tt s' -> fix_inv mem tx0 s'.
Proof.
  intros Hm [Hi H0] Hr. pose proof (fix_step_bound mem s s' Hr) as [Hb1 Hb2].
  unfold fix_step in Hr. apply bind_Ret_inv in Hr as (s0&s1&Hg&Hr). injection Hg as <- <-.
  apply bind_Ret_inv in Hr as (buf&s2&Hs&Hr). apply skip_spec in Hs as [-> Hle].
  destruct (Z.ltb_spec (zlen mem) (buf + 1 + 8)) as [|Hfit]; [done|]. unfold fix_inv.
  destruct (x_last s) as [last|] eqn:Hl.
  - destruct Hi as (first&pieces&Htx&Hcat&Hfl&Hlb). destruct (_ && _).
    + apply bind_Ret_inv in Hr as ([]&s3&Hw1&Hr). apply fix_write_spec in Hw1 as (Ht1&_).
      apply bind_Ret_inv in Hr as ([]&s4&Hw2&Hr). apply fix_write_spec in Hw2 as (Ht2&_).
      injection Hr as <-. cbn [x_last x_out x_buf]. split; [|lia]. exists first, (pieces ++ [slice last (buf - last) mem]).
      assert (zlen (slice last (buf - last) mem) = buf - last) as Hz by (apply zlen_slice; lia).
      split_and!; [| |lia|lia|lia].
      * rewrite Ht2, Ht1, Htx, frames_app, <- !app_assoc. do 2 f_equal. rewrite frames_cons. change (frames []) with (@nil Z). rewrite app_nil_r.
        unfold frame. rewrite Hz, u32_small by lia. by rewrite bytes_hton32.
      * rewrite concat_app, Hcat. simpl. rewrite app_nil_r. unfold slice.
        replace (buf - first) with ((last - first) + (buf - last)) by lia. rewrite ztake_add by lia. f_equal.
        unfold slice. rewrite zdrop_zdrop by lia. f_equal. f_equal. lia.
    + injection Hr as <-. simpl. rewrite Hl. split; [|lia]. exists first, pieces. split_and!; try done; lia.
  - injection Hr as <-. simpl. split; [|lia]. exists buf, []. simpl. rewrite app_nil_r, Z.sub_diag. split_and!; try done; lia.
Qed.
End LogFixer.

(** logfixer never ends well: whatever the file holds, its scan for a type
    byte, or the eight bytes it reads behind one, leaves the mapping (or a write
    fails before that); main does not return, and the last record is never
    written. Up to that point the output is whole records whose bytes are those
    of the file, without gaps, from the first type byte on. *)
Theorem logfixer_overruns page content k :
  0 < page ->
  (forall a s', logfixer_main page content k <> Ret a s') /\
  (forall mem s s', zlen mem < 2 ^ 32 -> fix_inv mem (tx k) s -> fix_step mem s = Ret tt s' ->
     fix_inv mem (tx k) s').
Proof.
  intros Hp. split.
  - intros a s'. unfold logfixer_main. pose proof (get_bytes_spec page Hp content) as Hg.
    destruct (get_bytes page content) as [mem mapped]. destruct Hg as (H1&H2&_). intros Hr.
    apply (fix_loop_never (S (length mem)) mem mapped (Fixer k 0 None 0) a s'); [done|done| |done].
    simpl. pose proof (zlen_nonneg mem). unfold zlen in *. lia.
  - intros mem s s'. apply fix_step_inv.
Qed.

Lemma logfixer_overruns_witness :
  ~ exists a s', logfixer_main 4096 [8; 0; 0; 0; 0; 0; 0; 0; 1; 65; 66] (Sock [] [WAccept 9] [] 0) = Ret a s'.
Proof.
  assert (0 < 4096) as Hp by lia.
  destruct (logfixer_overruns 4096 [8; 0; 0; 0; 0; 0; 0; 0; 1; 65; 66] (Sock [] [WAccept 9] [] 0) Hp) as [H _].
  intros (a&s'&Hr). exact (H a s' Hr).
Defined.

