(* ===== verification/ClientReader.v ===== *)
(** * The read loop of the blocking clients

    verbatim.cpp, console.cpp and bcwatch's loop_once all read a log stream
    through a read_buffer on a blocking socket: one do_read at a time, and
    something done whenever an item is complete. The loop and its contract: the
    items are those of the byte stream ([feed] of [ReadBuffer]). *)

From S2P Require Import Prelude.
From S2P Require Import WrappedBuffer.
From S2P Require Import Net.
From S2P Require Import ReadBuffer.

(** How a client's loop ends: the peer closed, or recv failed; [Waiting] while
    recv has not returned. *)
Inductive client_end := Disconnected | ClientError (errno : Z) | Waiting.

(** On a blocking descriptor a script that has run out is a recv that waits. *)
Definition blocks (r : reader) : bool :=
  (rb_size_ (rb r) <=? rb_loc_ (rb r)) && match rx (sk r) with [] => true | _ => false end.

Section Loop.
Context {S : Type} `{HasReader S} (page : Z).
(** Errors after which the loop goes on; what it does after each read; what it
    does with a complete item. *)
Context (retry : Z -> bool) (after_read on_full : prog S unit).

Fixpoint client_loop (fuel : nat) : prog S client_end := fun s =>
  if blocks (rdr s) then Ret Waiting s else
  match fuel with
  | O => Ret Waiting s
  | Datatypes.S fuel =>
      (let! res := zoom rdr set_rdr (do_read page) in
       fun s =>
         let r := fst res in
         if r =? 0 then Ret Disconnected s
         else if (r <? 0) && negb (retry (errno (sk (rdr s)))) then Ret (ClientError (errno (sk (rdr s)))) s
         else
           (do! after_read in
            do! (fun s => if hungry (rdr s) then Ret tt s else on_full s) in
            client_loop fuel) s) s
  end.
End Loop.

(** Everything such a client will get: errors it retries do not end the stream. *)
Fixpoint avail_all (retry : Z -> bool) (r : list recv_event) : list Z :=
  match r with
  | RData bs :: r' => bs ++ avail_all retry r'
  | RErr e :: r' => if retry e then avail_all retry r' else []
  | _ => []
  end.

Fixpoint last_event (retry : Z -> bool) (r : list recv_event) : client_end :=
  match r with
  | [] => Waiting
  | RData bs :: r' => last_event retry r'
  | RErr e :: r' => if retry e then last_event retry r' else ClientError e
  | REof :: r' => Disconnected
  end.

Definition client_stream (retry : Z -> bool) (r : reader) : list Z := pending r ++ avail_all retry (rx (sk r)).

(** One turn takes a byte or an event. *)
Fixpoint events (r : list recv_event) : nat :=
  match r with
  | [] => 0
  | RData bs :: r' => length bs + events r'
  | _ :: r' => S (events r')
  end.

Definition turns (r : reader) : nat := S (length (pending r) + events (rx (sk r))).

Lemma avail_all_split retry r : avail_all retry r = avail r ++ avail_all retry (after r).
Proof. induction r as [|[bs| |e] r IH]; simpl; [done| |done|done]. by rewrite IH, app_assoc. Qed.

Lemma last_event_after retry r : last_event retry r = last_event retry (after r).
Proof. by induction r as [|[bs| |e] r IH]. Qed.

Lemma events_split r : events r = (length (avail r) + events (after r))%nat.
Proof. induction r as [|[bs| |e] r IH]; simpl; [done| |done|done]. rewrite length_app. lia. Qed.

Lemma client_stream_split retry r : client_stream retry r = stream r ++ avail_all retry (after (rx (sk r))).
Proof. unfold client_stream, stream. by rewrite avail_all_split, app_assoc. Qed.

Lemma turns_split r : turns r = S (length (stream r) + events (after (rx (sk r)))).
Proof. unfold turns, stream. rewrite events_split, length_app. lia. Qed.

Section Feeds.
Context {M : Type} (full : M -> list Z -> option (config (M := M))).
Context {S : Type} `{HasReader S} (page : Z) (Hpage : 0 < page <= 2 ^ 62).
Context (retry : Z -> bool) (after_read on_full : prog S unit).
Context (R : S -> M -> Prop) (P : config (M := M) -> Prop).
Context (R_reader : forall s m r, R s m -> R (set_rdr r s) m).
Context (P_more : forall m acc need bs,
  P (m, acc, need) -> zlen bs <= need -> P (m, acc ++ bs, need - zlen bs)).
Context (full_more : forall m acc m' acc' need', full m acc = Some (m', acc', need') -> 0 < need').
Context (after_read_ok : forall s c, at_config R P s c ->
  exists s', after_read s = Ret tt s' /\ at_config R P s' c /\ rdr s' = rdr s).
Context (on_full_ok : forall s m acc c,
  at_config R P s (m, acc, 0) -> acc <> [] -> full m acc = Some c ->
  exists s', on_full s = Ret tt s' /\ at_config R P s' c /\
             stream (rdr s') = stream (rdr s) /\ sk (rdr s') = sk (rdr s)).

(** After a read that made progress: the item goes on, or is complete. *)
Lemma client_turn s1 m acc need d c :
  at_config R P s1 (m, acc ++ d, need - zlen d) -> 0 < zlen d <= need ->
  feed full (m, acc, need) d = Some c ->
  exists s2, (do! after_read in fun s => if hungry (rdr s) then Ret tt s else on_full s) s1 = Ret tt s2 /\
    at_config R P s2 c /\ stream (rdr s2) = stream (rdr s1) /\ sk (rdr s2) = sk (rdr s1) /\ 0 < snd c.
Proof.
  intros Hat Hd Hf. destruct (after_read_ok s1 _ Hat) as (s2&Ha&Hat2&Hr2). run_step Ha.
  pose proof Hat2 as (_&_&_&_&Ht). unfold hungry. rewrite Ht.
  destruct (Z.ltb_spec 0 (need - zlen d)) as [Hlt|Hge].
  - rewrite feed_short in Hf by lia. injection Hf as <-. exists s2. rewrite Hr2. done.
  - assert (need = zlen d) as -> by lia. rewrite feed_full in Hf by lia. rewrite Z.sub_diag in *.
    destruct (on_full_ok s2 m (acc ++ d) c) as (s3&Ho&Hat3&Hs3&Hk3); [done| |done|].
    { intros [_ ->]%app_eq_nil. change (zlen []) with 0 in Hd. lia. }
    exists s3. rewrite Hs3, Hk3, Hr2. split_and!; try done. destruct c as [[m' acc'] need']. by apply full_more in Hf.
Qed.

(** The loop consumes the stream as the protocol does, and ends as the
    connection ends. *)
Lemma client_loop_feeds fuel s m0 acc0 need0 m acc need :
  at_config R P s (m0, acc0, need0) -> 0 < need0 -> (turns (rdr s) <= fuel)%nat ->
  feed full (m0, acc0, need0) (client_stream retry (rdr s)) = Some (m, acc, need) ->
  exists s', client_loop page retry after_read on_full fuel s = Ret (last_event retry (rx (sk (rdr s)))) s' /\
    at_config R P s' (m, acc, need).
Proof.
  revert s m0 acc0 need0. induction fuel as [|fuel IH]; intros s m0 acc0 need0 Hat Hn Hf Hfeed; [unfold turns in Hf; lia|].
  pose proof Hat as (HR&HW&HP&Hc&Ht). cbn [client_loop].
  destruct (decide (stream (rdr s) = [])) as [H0|H0].
  - pose proof (zlen_pending _ HW) as Hpl. apply app_eq_nil in H0 as [Hp Hav]. rewrite Hp in Hpl. change (zlen []) with 0 in Hpl.
    unfold blocks. destruct (Z.leb_spec (rb_size_ (rb (rdr s))) (rb_loc_ (rb (rdr s)))); [|lia]. cbn [andb].
    destruct (do_read_idle page Hpage (rdr s)) as (r1&Hr&(HW1&Hp1&Hc1&Ht1&_)&Hk); [done|lia|unfold stream; by rewrite Hp, Hav|].
    unfold client_stream in Hfeed. rewrite Hp in Hfeed. cbn [app] in Hfeed. unfold turns in Hf. rewrite Hp in Hf. cbn [length] in Hf.
    pose proof (rwf_segs _ HW) as Hsg. unfold no_data in *.
    destruct (rx (sk (rdr s))) as [|[[|b bs]| |e] rx'] eqn:Hrx; simpl in Hav, Hsg; try done; cbn [fst snd] in Hr, Hk.
    + simpl in Hfeed. injection Hfeed as <- <- <-. by exists s.
    + erewrite bind_ret by (eapply zoom_ret, Hr). simpl in Hfeed. injection Hfeed as <- <- <-. simpl.
      eexists. split; [done|]. unfold at_config. rewrite rdr_set, Hc1, Ht1. by split_and!; auto.
    + erewrite bind_ret by (eapply zoom_ret, Hr). rewrite rdr_set, Hk. cbn [fst errno].
      change (-1 =? 0) with false. change (-1 <? 0) with true. cbn [andb last_event]. simpl in Hfeed, Hf.
      assert (at_config R P (set_rdr r1 s) (m0, acc0, need0)) as Hat1.
      { unfold at_config. rewrite rdr_set, Hc1, Ht1. by split_and!; auto. }
      destruct (retry e) eqn:He; cbn [negb].
      * destruct (after_read_ok _ _ Hat1) as (s2&Ha&Hat2&Hr2). run_step Ha. rewrite rdr_set in Hr2.
        assert (hungry (rdr s2) = true) as Hh by (unfold hungry; rewrite Hr2, Ht1, Ht; by apply Z.ltb_lt).
        erewrite bind_ret by (rewrite Hh; done).
        destruct (IH s2 m0 acc0 need0) as (s3&Hl&Hat3); [done|done| | |].
        { unfold turns. rewrite Hr2, Hp1, Hk. simpl. lia. }
        { unfold client_stream. by rewrite Hr2, Hp1, Hk. }
        rewrite Hr2, Hk in Hl. simpl in Hl. eauto.
      * simpl in Hfeed. injection Hfeed as <- <- <-. eauto.
  - assert (blocks (rdr s) = false) as ->.
    { unfold blocks. destruct (Z.leb_spec (rb_size_ (rb (rdr s))) (rb_loc_ (rb (rdr s)))) as [Hle|]; [|done]. cbn [andb].
      pose proof (zlen_pending _ HW) as Hpl. destruct (rx (sk (rdr s))) eqn:Hrx; [|done]. exfalso. apply H0. unfold stream.
      rewrite Hrx. rewrite app_nil_r. apply zlen_0_nil. destruct HW. lia. }
    destruct (do_read_progress page Hpage (rdr s)) as (d&r1&Hr&HW1&Hd&Hs&Hc1&Ht1&_&Ha&_&_); [done|lia|done|].
    erewrite bind_ret by (eapply zoom_ret, Hr). cbn [fst].
    destruct (Z.eqb_spec (zlen d) 0); [lia|]. destruct (Z.ltb_spec (zlen d) 0); [lia|]. cbn [andb].
    rewrite client_stream_split, Hs, <- app_assoc, feed_app, <- Ha, <- client_stream_split in Hfeed.
    destruct (feed full (m0, acc0, need0) d) as [[[m1 acc1] need1]|] eqn:Hfd; [|done].
    destruct (client_turn (set_rdr r1 s) m0 acc0 need0 d (m1, acc1, need1)) as (s2&Htu&Hat2&Hs2&Hk2&Hn1); [|lia|done|].
    { unfold at_config. rewrite rdr_set, Hc1, Hc, Ht1, Ht. split_and!; auto. apply P_more; [done|lia]. }
    rewrite rdr_set in Hs2, Hk2.
    destruct (IH s2 m1 acc1 need1) as (s3&Hl&Hat3); [done|done| | |].
    { rewrite turns_split in Hf |- *. rewrite Hs, length_app in Hf. rewrite Hs2, Hk2, Ha.
      assert (0 < length d)%nat by (unfold zlen in Hd; lia). lia. }
    { rewrite client_stream_split, Hs2, Hk2, <- client_stream_split. done. }
    exists s3. split; [|done]. rewrite Hk2 in Hl.
    rewrite (last_event_after _ (rx (sk r1))), Ha, <- last_event_after in Hl.
    unfold bind in Htu |- *. destruct (after_read (set_rdr r1 s)) as [[] sx|e sx|f]; [|done|done]. rewrite Htu. done.
Qed.
End Feeds.
