(* ===== verification/Verbatim.v ===== *)
(** * verbatim: the log client that keeps the log in files

    logclient/verbatim.cpp. It copies what the log server sends into
    verbatim.log, each record with its length, and lets logrotate move the file:
    SIGUSR1 makes it close the file, SIGUSR2 makes it open the new one. Files
    are numbered in the order in which they were created; opening and writing
    them succeeds. *)

From S2P Require Import Prelude.
From S2P Require Import Bytes.
From S2P Require Import WrappedBuffer.
From S2P Require Import Net.
From S2P Require Import ReadBuffer.
From S2P Require Import LogServer.
From S2P Require Import LogFormat.
From S2P Require Import ClientReader.

(** The log directory: the contents of all files, the file verbatim.log names,
    and the one the stream [logout] has open. *)
Record logdir := LogDir { files : list (list Z); logname : option nat; logout : option nat }.

(** What happens outside: the two signals, the renaming of verbatim.log by
    logrotate; [Tick] separates what happens during one read from the next. *)
Inductive happening := Usr1 | Usr2 | Move | Tick.

Record verbatim := Verbatim {
  input_buf : reader;
  reading_len : bool;
  g_prerotate : bool;
  g_postrotate : bool;
  outside : list happening;
  dir : logdir }.

#[global] Instance verbatim_reader : HasReader verbatim := {
  rdr := input_buf;
  set_rdr r v := Verbatim r (reading_len v) (g_prerotate v) (g_postrotate v) (outside v) (dir v);
  rdr_set r v := eq_refl }.

Definition with_dir (d : logdir) (v : verbatim) : verbatim :=
  Verbatim (input_buf v) (reading_len v) (g_prerotate v) (g_postrotate v) (outside v) d.
Definition with_flags (pre post : bool) (v : verbatim) : verbatim :=
  Verbatim (input_buf v) (reading_len v) pre post (outside v) (dir v).
Definition with_outside (o : list happening) (v : verbatim) : verbatim :=
  Verbatim (input_buf v) (reading_len v) (g_prerotate v) (g_postrotate v) o (dir v).
Definition with_len (b : bool) (v : verbatim) : verbatim :=
  Verbatim (input_buf v) b (g_prerotate v) (g_postrotate v) (outside v) (dir v).

(** The handler of the signals, and the other program. *)
Definition sigusr (h : happening) (v : verbatim) : verbatim :=
  match h with
  | Usr1 => with_flags true (g_postrotate v) v
  | Usr2 => with_flags (g_prerotate v) true v
  | Move => with_dir (LogDir (files (dir v)) None (logout (dir v))) v
  | Tick => v
  end.

(** logout.flush(); logout.close() *)
Definition close_log : prog verbatim unit :=
  modify (fun v => with_dir (LogDir (files (dir v)) (logname (dir v)) None) v).

(** open_log: create the file if it is not there, and append to it. *)
Definition open_log : prog verbatim unit :=
  do! close_log in
  modify (fun v =>
    let d := dir v in
    match logname d with
    | Some i => with_dir (LogDir (files d) (Some i) (Some i)) v
    | None => with_dir (LogDir (files d ++ [[]]) (Some (length (files d))) (Some (length (files d)))) v
    end).

(** logout.write: on a stream that is not open the bytes are lost. *)
Definition log_write (bs : list Z) : prog verbatim unit :=
  modify (fun v =>
    let d := dir v in
    match logout d with
    | Some i => with_dir (LogDir (alter (fun c => c ++ bs) i (files d)) (logname d) (Some i)) v
    | None => v
    end).

(** print_message: the bytes read for the item, its length included. *)
Definition print_message : prog verbatim unit :=
  let! v := get in
  log_write (slice 0 (cursor (input_buf v)) (extract_buffer (input_buf v))).

(** What happened since the last read. *)
Fixpoint deliver_signals (o : list happening) (v : verbatim) : verbatim :=
  match o with
  | [] => with_outside [] v
  | Tick :: o => with_outside o v
  | h :: o => deliver_signals o (sigusr h v)
  end.

(** [while(!g_postrotate) sleep(1);] A client that sleeps for ever is shown as
    an exception. *)
Fixpoint wait_postrotate (o : list happening) : prog verbatim unit := fun v =>
  if g_postrotate v then Ret tt (with_outside o v)
  else match o with
       | [] => Raise (RuntimeError "sleeping") v
       | h :: o => wait_postrotate o (sigusr h v)
       end.

Definition rotate : prog verbatim unit :=
  let! v := get in
  if g_prerotate v then
    do! close_log in
    do! wait_postrotate (outside v) in
    do! open_log in
    modify (with_flags false false)
  else ret tt.

Definition verbatim_after_read : prog verbatim unit :=
  do! modify (fun v => deliver_signals (outside v) v) in rotate.

(** The branch of the loop taken when the item is complete. The length stays in
    the buffer: the record is read behind it. *)
Definition verbatim_full : prog verbatim unit :=
  let! v := get in
  if reading_len v then
    if zlen (extract_buffer (input_buf v)) <? 4 then crash OutOfBounds
    else
      let netlen := le_val (slice 0 4 (extract_buffer (input_buf v))) in
      do! zoom rdr set_rdr (set_to_read (ntoh32 netlen)) in
      modify (with_len false)
  else
    do! print_message in
    do! zoom rdr set_rdr (set_cursor 0) in
    do! zoom rdr set_rdr (set_to_read 4) in
    modify (with_len true).

Definition verbatim_retry (e : Z) : bool := e =? EINTR.

(** main from open_log on, on the socket [k]; the loop's end is the exit status:
    EXIT_SUCCESS when disconnected, EXIT_FAILURE on an error. *)
Definition verbatim_main (page : Z) (o : list happening) (d : logdir) (k : sock) : out verbatim client_end :=
  let v := Verbatim (Reader (read_buffer_ctor page 4) k) true false false o d in
  (do! open_log in
   fun v => client_loop page verbatim_retry verbatim_after_read verbatim_full (turns (input_buf v)) v) v.

(** ** The files hold the records *)

(** Every request to rotate is followed by the signal that ends it. *)
Fixpoint served (o : list happening) : bool :=
  match o with
  | [] => true
  | Usr1 :: o => existsb (fun h => match h with Usr2 => true | _ => false end) o && served o
  | _ :: o => served o
  end.

Definition has_usr2 (o : list happening) : bool := existsb (fun h => match h with Usr2 => true | _ => false end) o.

(** [gs] are the items in each file, after what the first file held before. *)
Definition layout (c0 : list Z) (gs : list (list (list Z))) : list (list Z) :=
  match gs with
  | [] => []
  | g :: gs => (c0 ++ concat g) :: map (@concat Z) gs
  end.

(** The newest file is the one that is written and, unless it was moved, named. *)
Definition dir_ok (c0 : list Z) (gs : list (list (list Z))) (open : bool) (d : logdir) : Prop :=
  files d = layout c0 gs /\ gs <> [] /\
  logout d = (if open then Some (length gs - 1)%nat else None) /\
  (logname d = None \/ logname d = Some (length gs - 1)%nat).

(** Signals that wait are served. *)
Definition waits_ok (v : verbatim) : Prop :=
  served (outside v) = true /\ (g_prerotate v = true -> g_postrotate v = true \/ has_usr2 (outside v) = true).

Definition vm : Type := bool * list (list Z).

Definition verbatim_protocol (m : vm) (acc : list Z) : option (config (M := vm)) :=
  if fst m then
    let n := ntoh32 (le_val acc) in
    if n =? 0 then None else Some ((false, snd m), acc, n)
  else Some ((true, snd m ++ [acc]), [], 4).

Definition vrel (c0 : list Z) (v : verbatim) (m : vm) : Prop :=
  reading_len v = fst m /\ waits_ok v /\ exists gs, dir_ok c0 gs true (dir v) /\ concat gs = snd m.

Definition vitem (c : config (M := vm)) : Prop :=
  let '(m, acc, need) := c in
  0 <= need /\ zlen acc + need < 2 ^ 33 /\ (fst m = true -> zlen acc + need = 4).

Lemma vrel_reader c0 v m r : vrel c0 v m -> vrel c0 (set_rdr r v) m.
Proof. done. Qed.

Lemma vitem_more m acc need bs :
  vitem (m, acc, need) -> zlen bs <= need -> vitem (m, acc ++ bs, need - zlen bs).
Proof. intros (?&?&Hl) ?. unfold vitem. rewrite zlen_app. split_and!; [lia|lia|]. intros Hm. specialize (Hl Hm). lia. Qed.

Lemma verbatim_more m acc m' acc' need' : verbatim_protocol m acc = Some (m', acc', need') -> 0 < need'.
Proof.
  unfold verbatim_protocol, ntoh32. destruct (fst m); [|by intros [= <- <- <-]]. cbv zeta.
  destruct (bswap_bound 4 (le_val acc)) as [H0 _]. zcase; [done|]. intros [= <- <- <-]. lia.
Qed.

(** Signals never lose a record: what they change of the directory is the name. *)
Definition moved_dir (c0 : list Z) (gs : list (list (list Z))) (open : bool) (v v' : verbatim) : Prop :=
  dir_ok c0 gs open (dir v') /\ input_buf v' = input_buf v /\ reading_len v' = reading_len v.

Lemma sigusr_ok c0 gs open h v : dir_ok c0 gs open (dir v) -> moved_dir c0 gs open v (sigusr h v).
Proof. intros (Hf&Hn&Ho&Hl). destruct h; unfold moved_dir, dir_ok; simpl; split_and!; auto. Qed.

Lemma moved_dir_trans c0 gs open v v1 v2 : moved_dir c0 gs open v v1 -> moved_dir c0 gs open v1 v2 -> moved_dir c0 gs open v v2.
Proof. intros (_&?&?) (?&?&?). unfold moved_dir. split_and!; congruence. Qed.

Lemma deliver_signals_ok c0 gs o v :
  dir_ok c0 gs true (dir v) -> served o = true -> (g_prerotate v = true -> g_postrotate v = true \/ has_usr2 o = true) ->
  moved_dir c0 gs true v (deliver_signals o v) /\ waits_ok (deliver_signals o v).
Proof.
  revert v. induction o as [|h o IH]; intros v Hd Hs Hw; simpl.
  - split; [by split_and!|]. by split.
  - assert (h = Tick \/ h <> Tick) as [->|Hh] by (destruct h; naive_solver); [split; [by split_and!|by split]|].
    destruct (IH (sigusr h v)) as [Hm Hw'].
    + by apply sigusr_ok.
    + destruct h; simpl in Hs; try done. by apply andb_prop in Hs as [_ ?].
    + destruct h; simpl in Hs, Hw |- *; try done; try (by intros; left). intros _. right. by apply andb_prop in Hs as [? _].
    + destruct h; try done; (split; [eapply moved_dir_trans; [by apply (sigusr_ok c0 gs true _ v)|done]|done]).
Qed.

Lemma wait_postrotate_ok c0 gs o v :
  dir_ok c0 gs false (dir v) -> served o = true -> g_postrotate v = true \/ has_usr2 o = true ->
  exists v', wait_postrotate o v = Ret tt v' /\ moved_dir c0 gs false v v' /\ served (outside v') = true.
Proof.
  revert v. induction o as [|h o IH]; intros v Hd Hs Hw; simpl.
  - destruct Hw as [->|?]; [|done]. eexists. split; [done|]. by split_and!.
  - destruct (g_postrotate v) eqn:Hp; [eexists; split; [done|]; by split_and!|]. destruct Hw as [?|Hw]; [done|].
    destruct (IH (sigusr h v)) as (v'&Hr&Hm&Hs').
    + by apply sigusr_ok.
    + destruct h; simpl in Hs; try done. by apply andb_prop in Hs as [_ ?].
    + destruct h; simpl in Hw |- *; auto.
    + exists v'. split; [done|]. split; [|done]. eapply moved_dir_trans; [by apply (sigusr_ok c0 gs false h v)|done].
Qed.

(** Opening the log continues the newest file or starts one. *)
Lemma open_log_ok c0 gs v open :
  dir_ok c0 gs open (dir v) ->
  exists gs' d', open_log v = Ret tt (with_dir d' v) /\ dir_ok c0 gs' true d' /\ concat gs' = concat gs.
Proof.
  intros (Hf&Hn&_&Hl). unfold open_log, close_log. erewrite bind_ret by done. unfold modify. simpl.
  destruct Hl as [->| ->].
  - exists (gs ++ [[]]). eexists. split; [done|]. split; [|rewrite concat_app; simpl; by rewrite app_nil_r].
    destruct gs as [|g gs]; [done|]. unfold dir_ok. simpl. rewrite Hf. simpl.
    rewrite length_map, length_app, map_app. simpl. split_and!; [done|done|f_equal; lia|right; f_equal; lia].
  - exists gs. eexists. split; [done|]. split; [|done]. by split_and!; auto.
Qed.

Lemma rotate_ok c0 gs v :
  dir_ok c0 gs true (dir v) -> waits_ok v ->
  exists gs' v', rotate v = Ret tt v' /\ dir_ok c0 gs' true (dir v') /\ concat gs' = concat gs /\ waits_ok v' /\
    input_buf v' = input_buf v /\ reading_len v' = reading_len v.
Proof.
  intros Hd [Hs Hw]. unfold rotate. erewrite bind_ret by done. destruct (g_prerotate v) eqn:Hp.
  - unfold close_log at 1. erewrite bind_ret by done.
    set (v1 := with_dir _ v). assert (dir_ok c0 gs false (dir v1)) as Hd1 by (destruct Hd as (?&?&_&?); by split_and!).
    destruct (wait_postrotate_ok c0 gs (outside v) v1) as (v2&Hr&(Hd2&Hi2&Hl2)&Hs2); [done|done|by apply Hw|]. run_step Hr.
    destruct (open_log_ok c0 gs v2 false Hd2) as (gs'&d'&Ho&Hd'&Hc). run_step Ho.
    exists gs'. eexists. split; [done|]. by split_and!.
  - exists gs, v. split_and!; try done; split; [done|]; intros; congruence.
Qed.

Lemma verbatim_after_read_ok c0 v c :
  at_config (vrel c0) vitem v c ->
  exists v', verbatim_after_read v = Ret tt v' /\ at_config (vrel c0) vitem v' c /\ rdr v' = rdr v.
Proof.
  destruct c as [[m acc] need]. intros ((Hl&(Hs&Hw)&gs&Hd&Hc)&HR). unfold verbatim_after_read. erewrite bind_ret by done.
  destruct (deliver_signals_ok c0 gs (outside v) v Hd Hs Hw) as [(Hd1&Hi1&Hl1) Hw1].
  destruct (rotate_ok c0 gs _ Hd1 Hw1) as (gs'&v'&Hr&Hd'&Hc'&Hw'&Hi'&Hl'). exists v'. split; [done|].
  assert (rdr v' = rdr v) as Hrd by (simpl; congruence). split; [|done]. unfold at_config. rewrite Hrd. split; [|exact HR].
  split; [congruence|]. split; [done|]. exists gs'. split; [done|congruence].
Qed.

(** A record goes to the newest file. *)
Lemma log_write_ok c0 gs v bs :
  dir_ok c0 gs true (dir v) ->
  exists gs' d', log_write bs v = Ret tt (with_dir d' v) /\ dir_ok c0 gs' true d' /\ concat gs' = concat gs ++ [bs].
Proof.
  intros (Hf&Hn&Ho&Hl). unfold log_write, modify. rewrite Ho.
  destruct (exists_last Hn) as (gs0&g&->). rewrite length_app in *. simpl in *.
  replace (length gs0 + 1 - 1)%nat with (length gs0) in * by lia.
  exists (gs0 ++ [g ++ [bs]]). eexists. split; [done|]. split.
  - unfold dir_ok. simpl. rewrite length_app. simpl. replace (length gs0 + 1 - 1)%nat with (length gs0) by lia.
    split_and!; [|by destruct gs0|done|done]. rewrite Hf. clear. destruct gs0 as [|g0 gs0]; simpl.
    + rewrite concat_app. simpl. by rewrite app_nil_r, app_assoc.
    + f_equal. rewrite !map_app. simpl. change (@list_alter (list Z)) with (@alter nat (list Z) (list (list Z)) _).
      rewrite alter_app_r_alt by (rewrite length_map; lia). rewrite length_map, Nat.sub_diag. simpl. rewrite concat_app. simpl. by rewrite app_nil_r.
  - rewrite !concat_app. simpl. by rewrite !app_nil_r, app_assoc.
Qed.

Lemma verbatim_full_ok c0 v m acc c :
  at_config (vrel c0) vitem v (m, acc, 0) -> acc <> [] -> verbatim_protocol m acc = Some c ->
  exists v', verbatim_full v = Ret tt v' /\ at_config (vrel c0) vitem v' c /\
             stream (rdr v') = stream (rdr v) /\ sk (rdr v') = sk (rdr v).
Proof.
  intros ((Hlen&Hw&gs&Hd&Hcat)&HW&(_&Hsz&Hhd)&Hc&Ht) Hne Hfull. rewrite Z.add_0_r in *.
  pose proof (consumed_fits _ HW) as Hfit. pose proof (zlen_consumed _ HW) as Hcz. rewrite Hc in Hfit, Hcz.
  unfold verbatim_full. erewrite bind_ret by done. rewrite Hlen. unfold verbatim_protocol in Hfull.
  destruct (fst m) eqn:Hm.
  - specialize (Hhd eq_refl). destruct (Z.ltb_spec (zlen (extract_buffer (input_buf v))) 4); [simpl in Hfit; lia|].
    assert (slice 0 4 (extract_buffer (input_buf v)) = acc) as ->.
    { rewrite slice_0, <- Hc. unfold consumed. f_equal. simpl in *. lia. }
    cbv zeta in Hfull. destruct (Z.eqb_spec (ntoh32 (le_val acc)) 0); [done|]. injection Hfull as <-.
    destruct (bswap_bound 4 (le_val acc)) as [Hb0 Hb1]. change (256 ^ Z.of_nat 4) with (2 ^ 32) in Hb1.
    fold (ntoh32 (le_val acc)) in Hb0, Hb1.
    destruct (extend_ok (ntoh32 (le_val acc)) (rdr v) HW) as [HW' Hc']; [done|lia|].
    erewrite bind_ret by (by eapply zoom_ret). eexists. split; [reflexivity|]. split; [|done].
    split_and!; try done; [by split_and!; [..|by exists gs]|by split_and!; [lia|lia|]].
  - injection Hfull as <-. unfold print_message. rewrite <- Hcat.
    assert (slice 0 (cursor (input_buf v)) (extract_buffer (input_buf v)) = acc) as Hsl.
    { rewrite slice_0. exact Hc. }
    destruct (log_write_ok c0 gs v acc Hd) as (gs'&d'&Hlw&Hd'&Hcat').
    assert ((let! v := get in log_write (slice 0 (cursor (input_buf v)) (extract_buffer (input_buf v)))) v =
      Ret tt (with_dir d' v)) as Hpm by (erewrite bind_ret by done; by rewrite Hsl).
    run_step Hpm. assert (0 < zlen acc) by (destruct acc; [done|rewrite zlen_cons; pose proof (zlen_nonneg acc); lia]).
    erewrite bind_ret by (eapply zoom_ret, set_cursor_0; change (0 < zlen (extract_buffer (rdr v))); lia).
    erewrite bind_ret by (by eapply zoom_ret).
    destruct (restart_ok 4 (rdr v) HW) as [HW' Hc']; [lia|].
    eexists. split; [reflexivity|]. split; [|done]. split_and!; try done; try by split_and!; [..|by exists gs'].
Qed.

(** ** The stream as records *)

Lemma verbatim_feed_length rs (r bs : list Z) :
  0 < zlen r < 2 ^ 32 ->
  feed verbatim_protocol ((true, rs), [], 4) (be_bytes 4 (zlen r) ++ bs) =
  feed verbatim_protocol ((false, rs), be_bytes 4 (zlen r), zlen r) bs.
Proof.
  intros Hr. rewrite feed_app.
  assert (feed verbatim_protocol ((true, rs), [], 4) (be_bytes 4 (zlen r)) =
          verbatim_protocol (true, rs) (be_bytes 4 (zlen r))) as ->.
  { pose proof (feed_full verbatim_protocol (true, rs) [] (be_bytes 4 (zlen r))) as Hff.
    rewrite zlen_be_bytes in Hff. by apply Hff. }
  assert (ntoh32 (le_val (be_bytes 4 (zlen r))) = zlen r) as Hn.
  { unfold ntoh32. rewrite bswap_val; [|apply be_bytes_are_bytes|done]. rewrite be_val_bytes_small; [done|]. simpl. lia. }
  unfold verbatim_protocol at 1. cbn [fst snd app]. rewrite Hn. by destruct (Z.eqb_spec (zlen r) 0); [lia|].
Qed.

Lemma verbatim_feed_frame rs r :
  0 < zlen r < 2 ^ 32 ->
  feed verbatim_protocol ((true, rs), [], 4) (frame r) = Some ((true, rs ++ [frame r]), [], 4).
Proof.
  intros Hr. unfold frame. rewrite verbatim_feed_length by done. by rewrite feed_full by lia.
Qed.

Lemma verbatim_feed_frames rs0 rs :
  Forall (fun r => 0 < zlen r < 2 ^ 32) rs ->
  feed verbatim_protocol ((true, rs0), [], 4) (frames rs) = Some ((true, rs0 ++ map frame rs), [], 4).
Proof.
  intros HF. revert rs0. induction HF as [|r rs Hr HF IH]; intros rs0; [by rewrite app_nil_r|].
  rewrite frames_cons, feed_app, verbatim_feed_frame by done. rewrite IH. by rewrite <- app_assoc.
Qed.

(** The start of a record is kept in the buffer. *)
Lemma verbatim_feed_partial rs r bs rest :
  0 < zlen r < 2 ^ 32 -> frame r = bs ++ rest -> rest <> [] ->
  exists m acc need, feed verbatim_protocol ((true, rs), [], 4) bs = Some (m, acc, need) /\ snd m = rs.
Proof.
  intros Hr Hf Hne. destruct (Z.le_gt_cases 4 (zlen bs)) as [Hl|Hl].
  - assert (ztake 4 bs = be_bytes 4 (zlen r)) as Ht.
    { transitivity (ztake 4 (frame r)); [rewrite Hf; by rewrite ztake_app_l|]. unfold frame. by apply ztake_app_exact; rewrite zlen_be_bytes. }
    rewrite <- (ztake_zdrop 4 bs), Ht, verbatim_feed_length by done.
    rewrite feed_short; [by eexists _, _, _|]. apply (f_equal zlen) in Hf. rewrite zlen_app, zlen_frame in Hf.
    assert (0 < zlen rest) by (destruct rest; [done|rewrite zlen_cons; pose proof (zlen_nonneg rest); lia]).
    rewrite zlen_zdrop. lia.
  - rewrite feed_short by lia. by eexists _, _, _.
Qed.

(** What arrived, cut anywhere, is the whole records and a start of the next. *)
Lemma verbatim_feed_cut n rs j tail :
  0 <= n -> Forall (fun r => 0 < zlen r < 2 ^ 32) rs ->
  ztake n (frames rs) = frames (take j rs) ++ tail ->
  (zlen (frames rs) <= n -> j = length rs) ->
  (forall i, zlen (frames (take i rs)) <= n -> (i <= j)%nat \/ take i rs = take j rs) ->
  exists m acc need, feed verbatim_protocol ((true, []), [], 4) (ztake n (frames rs)) = Some (m, acc, need) /\
    snd m = map frame (take j rs).
Proof.
  intros Hn HF Hcut Hall Hmax. rewrite Hcut, feed_app. rewrite verbatim_feed_frames by (by apply Forall_take). simpl app.
  destruct (decide (zlen (frames rs) <= n)) as [Hge|Hlt].
  - rewrite ztake_all in Hcut by done. rewrite (Hall Hge), take_ge in Hcut by done.
    assert (tail = []) as ->; [|by eexists _, _, _].
    apply (f_equal zlen) in Hcut. rewrite zlen_app in Hcut. apply zlen_0_nil. lia.
  - destruct (drop j rs) as [|r rs'] eqn:Hdr.
    + exfalso. apply Hlt. assert (length rs <= j)%nat as Hlj.
      { apply (f_equal length) in Hdr. rewrite length_drop in Hdr. simpl in Hdr. lia. }
      rewrite take_ge in Hcut by done. apply (f_equal zlen) in Hcut. rewrite zlen_app, zlen_ztake in Hcut.
      pose proof (zlen_nonneg tail). lia.
    + assert (frames rs = frames (take j rs) ++ frame r ++ frames rs') as Hfr.
      { rewrite <- (take_drop j rs) at 1. by rewrite Hdr, frames_app, frames_cons. }
      assert (zlen (frames (take j rs)) <= n) as Hle.
      { apply (f_equal zlen) in Hcut. rewrite zlen_app, zlen_ztake in Hcut. pose proof (zlen_nonneg tail). lia. }
      rewrite Hfr, ztake_app_r in Hcut by done. apply app_inv_head in Hcut.
      assert (0 < zlen r < 2 ^ 32) as Hr.
      { rewrite Forall_forall in HF. apply HF, (subseteq_drop j). rewrite Hdr. by left. }
      assert (n - zlen (frames (take j rs)) < zlen (frame r)) as Hrn.
      { destruct (Z.le_gt_cases (zlen (frame r)) (n - zlen (frames (take j rs)))) as [Hge|]; [|done]. exfalso.
        assert (take (S j) rs = take j rs ++ [r]) as HtS.
        { apply take_S_r. rewrite <- (Nat.add_0_r j), <- lookup_drop, Hdr. done. }
        destruct (Hmax (S j)) as [?|HeqS]; [|lia|].
        - rewrite HtS, frames_app, zlen_app. change (frames [r]) with (frame r ++ []). rewrite app_nil_r. lia.
        - rewrite HtS in HeqS. apply (f_equal length) in HeqS. rewrite length_app in HeqS. simpl in HeqS. lia. }
      rewrite ztake_app_l in Hcut by lia. rewrite <- Hcut.
      apply (verbatim_feed_partial _ r _ (zdrop (n - zlen (frames (take j rs))) (frame r))); [done|by rewrite ztake_zdrop|].
      intros E. apply (f_equal zlen) in E. rewrite zlen_zdrop in E. change (zlen []) with 0 in E. lia.
Qed.

(** verbatim on the records [rs], cut after [n] bytes. *)
Lemma verbatim_run page rs n o d c0 k :
  0 < page <= 2 ^ 62 -> Forall (fun r => 0 < zlen r < 2 ^ 32) rs -> 0 <= n ->
  served o = true -> dir_ok c0 [[]] false d -> segs_ok (rx k) = true ->
  avail_all verbatim_retry (rx k) = ztake n (frames rs) -> last_event verbatim_retry (rx k) = Disconnected ->
  exists v' gs j, verbatim_main page o d k = Ret Disconnected v' /\
    files (dir v') = layout c0 gs /\ concat gs = map frame (take j rs) /\ (j <= length rs)%nat /\
    zlen (frames (take j rs)) <= n /\ (zlen (frames rs) <= n -> j = length rs) /\
    (forall i, zlen (frames (take i rs)) <= n -> (i <= j)%nat \/ take i rs = take j rs).
Proof.
  intros Hp HF Hn Ho Hd Hsg Hav Hend.
  assert (Forall fits rs) as HFit by (eapply Forall_impl; [exact HF|]; intros ? [_ ?]; done).
  unfold verbatim_main. set (v0 := Verbatim _ _ _ _ _ _).
  destruct (open_log_ok c0 [[]] v0 false Hd) as (gs0&d0&Hol&Hd0&Hc0). run_step Hol.
  destruct (split_log_cut n rs HFit Hn) as (j&tail&Hcut&Htail&Hj&Hall&Hmax).
  set (v1 := with_dir d0 v0).
  destruct (verbatim_feed_cut n rs j tail Hn HF Hcut Hall Hmax) as (m&acc&need&Hfeed&Hm). rewrite <- Hav in Hfeed.
  destruct (client_loop_feeds verbatim_protocol page Hp verbatim_retry verbatim_after_read verbatim_full (vrel c0) vitem
    (vrel_reader c0) vitem_more verbatim_more (verbatim_after_read_ok c0) (verbatim_full_ok c0)
    (turns (rdr v1)) v1 (true, []) [] 4 m acc need) as (v'&Hr&((_&_&gs&(Hf&_)&Hcat)&_)); [|lia|lia|done|].
  { split_and!; try done; by split_and!; [..|by exists gs0]. }
  exists v', gs, j. split; [by rewrite <- Hend|]. split_and!; [done|by rewrite Hcat, Hm|done| |done|done].
  apply (f_equal zlen) in Hcut. rewrite zlen_app, zlen_ztake in Hcut. pose proof (zlen_nonneg tail). lia.
Qed.

(** Entries are framed records. *)
Lemma encode_map l : map frame (map sourced l) = map encode l.
Proof. rewrite map_map. apply map_ext. intros e. by rewrite encode_frame. Qed.

Lemma sourced_fit l :
  Forall (fun e => zlen (snd e) + 4 < 2 ^ 32) l -> Forall (fun r => 0 < zlen r < 2 ^ 32) (map sourced l).
Proof.
  intros Hl. apply Forall_map. eapply Forall_impl; [exact Hl|]. intros e He. unfold compose, sourced.
  rewrite zlen_app, zlen_be_bytes. pose proof (zlen_nonneg (snd e)). simpl in He. lia.
Qed.

(** C26. verbatim keeps the log: of a connection to the log server on which [n]
    bytes of the entries [l] arrive, in any segments and with interrupted reads,
    before it closes, every complete entry is in the files, with its length, in
    order and once, however often the log is rotated meanwhile (each SIGUSR1
    followed by a SIGUSR2, the renaming at any time); every file holds whole
    entries only. *)
Theorem verbatim_keeps page l n o d c0 k :
  0 < page <= 2 ^ 62 -> Forall (fun e => zlen (snd e) + 4 < 2 ^ 32) l -> 0 <= n ->
  served o = true -> dir_ok c0 [[]] false d -> segs_ok (rx k) = true ->
  avail_all verbatim_retry (rx k) = ztake n (concat (map encode l)) ->
  last_event verbatim_retry (rx k) = Disconnected ->
  exists v' gs j, verbatim_main page o d k = Ret Disconnected v' /\
    files (dir v') = layout c0 gs /\ concat gs = map encode (take j l) /\
    zlen (concat (map encode (take j l))) <= n /\
    (zlen (concat (map encode l)) <= n -> concat gs = map encode l) /\
    (forall i, zlen (concat (map encode (take i l))) <= n -> (i <= j)%nat \/ take i l = take j l).
Proof.
  intros Hp Hl Hn Ho Hd Hsg Hav Hend. rewrite encode_frames in Hav.
  destruct (verbatim_run page (map sourced l) n o d c0 k) as (v'&gs&j&Hr&Hf&Hcat&Hj&Hle&Hall&Hmax);
    [done|by apply sourced_fit|done..|].
  rewrite length_map in *. exists v', gs, j. split; [done|]. split; [done|].
  rewrite firstn_map, encode_map in Hcat. split; [done|]. split; [by rewrite encode_frames, <- firstn_map|]. split.
  - intros Hge. rewrite Hcat, Hall by (by rewrite <- encode_frames). by rewrite take_ge.
  - intros i Hi. rewrite encode_frames, <- firstn_map in Hi. destruct (Hmax i Hi) as [?|Heq]; [by left|].
    destruct (Nat.le_gt_cases i j) as [|Hgt]; [by left|]. right.
    apply (f_equal length) in Heq. rewrite !length_take, length_map in Heq. rewrite !take_ge; [done|lia|lia].
Qed.

(** Two entries, the log rotated between them: two files. *)
Lemma verbatim_keeps_witness :
  exists v' gs, verbatim_main 4096 [Usr1; Move; Usr2; Tick] (LogDir [[9]] (Some 0%nat) None)
      (Sock [RData (encode (5, [104; 105])); RErr EINTR; RData (encode (6, [106]) ++ [0; 0]); REof] [] [] 0) = Ret Disconnected v' /\
    files (dir v') = layout [9] gs /\ concat gs = map encode [(5, [104; 105]); (6, [106])].
Proof.
  destruct (verbatim_keeps 4096 [(5, [104; 105]); (6, [106]); (0, [])] 21 [Usr1; Move; Usr2; Tick] (LogDir [[9]] (Some 0%nat) None) [9]
    (Sock [RData (encode (5, [104; 105])); RErr EINTR; RData (encode (6, [106]) ++ [0; 0]); REof] [] [] 0)) as (v'&gs&j&Hr&Hf&Hc&Hj&_&Hm).
  - lia.
  - repeat constructor.
  - lia.
  - reflexivity.
  - split_and!; [done|done|done|by right].
  - reflexivity.
  - reflexivity.
  - reflexivity.
  - exists v', gs. split; [exact Hr|]. split; [exact Hf|].
    rewrite Hc. destruct j as [|[|[|j]]].
    + destruct (Hm 2%nat) as [H|H]; [vm_compute; discriminate|lia|discriminate H].
    + destruct (Hm 2%nat) as [H|H]; [vm_compute; discriminate|lia|discriminate H].
    + reflexivity.
    + exfalso. cbn [take] in Hj. rewrite take_nil in Hj. revert Hj. vm_compute. intros Hj. by apply Hj.
Defined.
