(* ===== verification/LogPath.v ===== *)
(** * The path of a log record

    The three programs a log record passes through, put together: the
    connector's g_log (Logger), the log server (LogServer) and the client that
    keeps the log (Verbatim). The operations are those of their files; here are
    the runs in which they work side by side and what holds from one end to the
    other. *)

From S2P Require Import Prelude.
From S2P Require Import Bytes.
From S2P Require Import WrappedBuffer.
From S2P Require Import Net.
From S2P Require Import ReadBuffer.
From S2P Require Import WriteBuffer.
From S2P Require Import LogServer.
From S2P Require Import BitcoinWire.
From S2P Require Import Logger.
From S2P Require Import LogFormat.
From S2P Require Import ClientReader.
From S2P Require Import Verbatim.

(** ** Source ids *)

(** Every input connection has an id of its own. *)
Record ids_ok (s : server) : Prop := {
  ids_taken : forall h i, ins s !! h = Some i -> i_id i ∈ taken_ids s;
  ids_inj : forall h1 h2 i1 i2, ins s !! h1 = Some i1 -> ins s !! h2 = Some i2 -> i_id i1 = i_id i2 -> h1 = h2 }.

Lemma ids_same s s' : ins s' = ins s -> taken_ids s' = taken_ids s -> ids_ok s -> ids_ok s'.
Proof. intros Hi Ht [H1 H2]. split; rewrite Hi, ?Ht; done. Qed.

Lemma ids_update s s' h i i' :
  ins s !! h = Some i -> i_id i' = i_id i -> ins s' = <[h := i']> (ins s) \/ ins s' = delete h (ins s) ->
  taken_ids s' = taken_ids s -> ids_ok s -> ids_ok s'.
Proof.
  intros Hi Hid Hins Ht [H1 H2].
  assert (forall h1 i1, ins s' !! h1 = Some i1 -> exists i0, ins s !! h1 = Some i0 /\ i_id i0 = i_id i1) as Hold.
  { intros h1 i1 Hl. destruct Hins as [E|E]; rewrite E in Hl.
    - apply lookup_insert_Some in Hl as [[<- <-]|[_ ?]]; eauto.
    - apply lookup_delete_Some in Hl as [_ ?]. eauto. }
  split.
  - intros h1 i1 (i0&Hl&<-)%Hold. rewrite Ht. eauto.
  - intros h1 h2 i1 i2 (j1&Hl1&<-)%Hold (j2&Hl2&<-)%Hold. eauto.
Qed.

Section Server.
Context (page max_size : Z) (Hpage : 0 < page <= 2 ^ 62) (Hmax : 0 <= max_size /\ max_size + 4 < 2 ^ 32).

(** What a read event on [h] does to the table of input connections. *)
Lemma in_event_table s h i new s' :
  server_inv max_size s -> ins s !! h = Some i -> segs_ok new = true ->
  in_io_cb page max_size h ev_READ (with_ins (<[h := arrive new i]> (ins s)) s) = Ret tt s' ->
  taken_ids s' = taken_ids s /\
  exists i', i_id i' = i_id i /\ (ins s' = <[h := i']> (ins s) \/ ins s' = delete h (ins s)).
Proof.
  intros [HW HI] Hi Hn Hr. set (i1 := arrive new i) in *.
  assert (IWF i1) as HI1 by (apply arrive_IWF; [by apply (HI h)|done]).
  destruct (log_feed_total max_size (i_id i) ((i_state i1, view s), consumed (read_queue i1), to_read (read_queue i1))
    (stream (read_queue i1))) as ([[[st v] acc] need]&Hf).
  destruct (in_io_cb_spec page max_size h ev_READ (with_ins (<[h := i1]> (ins s)) s) i1 st v acc need)
    as (s2&i'&Hr2&_&_&Haft&_&_&Hid&_&_&Ht&_); [done|done|simpl; by rewrite lookup_insert_eq|done|done|done|].
  assert (s2 = s') as -> by congruence. split; [done|]. exists i'. split; [done|].
  unfold in_after in Haft. simpl in Haft. rewrite insert_insert_eq, delete_insert_eq in Haft.
  destruct (if 0 <? need then _ else _); [left; exact Haft|left; exact Haft|right; exact (proj1 Haft)..].
Qed.

Lemma sstep_ids s l s' : sstep page max_size s l s' -> server_inv max_size s -> ids_ok s -> ids_ok s'.
Proof.
  intros Hst HI Hids. destruct Hst as [h i new s' Hi Hn Hr|h o ws s' Ho Hr|a h f s' Ho Hf Hr|h f s' Hi Hs Hr].
  - destruct (in_event_table s h i new s' HI Hi Hn Hr) as (Ht&i'&Hid&Hins). by eapply ids_update.
  - destruct HI as [HW _]. destruct (writable_SWF max_size s h o ws HW Ho) as [HW1 _]. simpl in HW1.
    destruct (out_io_cb_spec page max_size h ev_WRITE _ (writable ws o) Hpage (proj2 Hmax) HW1)
      as (s2&Hr2&(Hins&_&Ht&_)&_); [simpl; by rewrite lookup_insert_eq|done|].
    assert (s2 = s') as -> by congruence. exact (ids_same s s' Hins Ht Hids).
  - destruct HI as [HW _]. destruct (accept_out_spec max_size a h f s) as (s2&Hr2&(Hins&_&Ht&_)&_); [lia|done..|].
    assert (s2 = s') as -> by congruence. exact (ids_same s s' Hins Ht Hids).
  - destruct (in_ctor_spec page h f (Sock [] [] [] 0) s Hs) as (id&t&Hr2&Hfresh&_).
    unfold in_handle_accept in Hr. rewrite Hr2 in Hr. injection Hr as <-. destruct Hids as [H1 H2]. split; simpl.
    + intros h1 i1 [[<- <-]|[_ ?]]%lookup_insert_Some; [set_solver|]. apply elem_of_union_r. eauto.
    + intros h1 h2 i1 i2 [[<- <-]|[Hn1 Hl1]]%lookup_insert_Some [[<- <-]|[Hn2 Hl2]]%lookup_insert_Some; simpl; [done|..|eauto].
      * intros ->. destruct Hfresh. eauto.
      * intros <-. destruct Hfresh. eauto.
Qed.

(** ** Records that are delivered are small *)

Lemma deliver_small src rec c c' :
  deliver max_size src rec c = Some c' -> has (default 0 (head rec)) (c_int c) = true -> zlen rec <= max_size.
Proof.
  unfold deliver. intros Hd Hh. rewrite Hh in Hd. destruct (Z.ltb_spec max_size (backlog_size (Consumer (c_int c) (c_backlog c ++ [(src, rec)]) (c_out c)))) as [|Hle]; [done|].
  unfold backlog_size in Hle. simpl in Hle. rewrite foldr_app in Hle. simpl in Hle.
  assert (forall l n, 0 <= n -> n <= foldr (fun (e : Z * list Z) m => zlen (snd e) + m) n l) as Hge.
  { intros l n Hn. induction l as [|e l IH]; simpl; [done|]. pose proof (zlen_nonneg (snd e)). lia. }
  pose proof (zlen_nonneg rec). specialize (Hge (c_backlog c) (zlen rec + 0)). lia.
Qed.

Definition small (e : Z * list Z) : Prop := zlen (snd e) <= max_size.

Lemma deliver_all_small src rs v h c' :
  deliver_all max_size src v rs !! h = Some c' ->
  exists c, v !! h = Some c /\ c_int c' = c_int c /\ Forall small (wanted (c_int c) (map (pair src) rs)).
Proof.
  unfold deliver_all. revert v. induction rs as [|r rs IH]; intros v; simpl; [intros; exists c'; by repeat constructor|].
  intros (c1&H1&Hi1&Hw1)%IH. rewrite lookup_omap in H1. apply bind_Some in H1 as (c&Hc&Hd). exists c. split; [done|].
  destruct (deliver_wire _ _ _ _ _ Hd) as [Hi _]. split; [congruence|]. rewrite Hi in Hw1. unfold wanted. rewrite filter_cons. simpl.
  destruct (has (default 0 (head r)) (c_int c)) eqn:Hh; [|by rewrite decide_False].
  rewrite decide_True by done. constructor; [by eapply deliver_small|exact Hw1].
Qed.

Lemma sstep_small s l s' h c :
  sstep page max_size s l s' -> server_inv max_size s -> view s !! h = Some c -> is_Some (view s' !! h) ->
  Forall small (wanted (c_int c) l).
Proof.
  intros Hst HI Hc [c' Hc']. destruct Hst as [h0 i new s' Hi Hn Hr| | |]; [|by repeat constructor..].
  destruct (in_event_ok page max_size Hpage s h0 i new HI Hi Hn) as (s2&Hr2&_&Hv). assert (s2 = s') as -> by congruence.
  rewrite Hv in Hc'. apply deliver_all_small in Hc' as (c0&?&_&?). by simplify_eq.
Qed.

Lemma sruns_small h s l s' c :
  sruns page max_size h s l s' -> server_inv max_size s -> view s !! h = Some c -> Forall small (wanted (c_int c) l).
Proof.
  intros Hrs. revert c. induction Hrs as [s|s1 l1 s2 l2 s3 Hst Hs2 Hrs IH]; intros c HI Hc; [by repeat constructor|].
  destruct Hs2 as [c2 Hc2]. destruct (sstep_ok page max_size Hpage Hmax s1 l1 s2 Hst HI) as [HI2 Hw].
  destruct (Hw h c c2 Hc Hc2) as [Hi _]. rewrite wanted_app. apply Forall_app. split.
  - eapply sstep_small; eauto.
  - rewrite <- Hi. eauto.
Qed.
End Server.

(** ** One producer among others *)

(** Runs of the server in which the bytes [bs] arrive, in pieces, on the input
    connection [hi] and the consumer [ho] stays connected, while the other
    connections do what they like. *)
Inductive lrun (page max_size hi ho : Z) : server -> list Z -> list (Z * list Z) -> server -> Prop :=
  | lrun_refl s : lrun page max_size hi ho s [] [] s
  | lrun_own s1 i cs s2 bs l s3 :
      ins s1 !! hi = Some i -> Forall (fun c => 0 < zlen c) cs ->
      in_io_cb page max_size hi ev_READ (with_ins (<[hi := arrive (map RData cs) i]> (ins s1)) s1) = Ret tt s2 ->
      is_Some (view s2 !! ho) -> lrun page max_size hi ho s2 bs l s3 ->
      lrun page max_size hi ho s1 (concat cs ++ bs) (map (pair (i_id i)) (parsed (arrive (map RData cs) i)) ++ l) s3
  | lrun_in s1 h i new s2 bs l s3 :
      h <> hi -> ins s1 !! h = Some i -> segs_ok new = true ->
      in_io_cb page max_size h ev_READ (with_ins (<[h := arrive new i]> (ins s1)) s1) = Ret tt s2 ->
      is_Some (view s2 !! ho) -> lrun page max_size hi ho s2 bs l s3 ->
      lrun page max_size hi ho s1 bs (map (pair (i_id i)) (parsed (arrive new i)) ++ l) s3
  | lrun_rest s1 s2 bs l s3 :
      sstep page max_size s1 [] s2 -> ins s2 !! hi = ins s1 !! hi ->
      is_Some (view s2 !! ho) -> lrun page max_size hi ho s2 bs l s3 ->
      lrun page max_size hi ho s1 bs l s3.

Lemma data_segs cs : Forall (fun c => 0 < zlen c) cs -> segs_ok (map RData cs) = true.
Proof. induction 1; simpl; [done|]. apply andb_true_intro. split; [by apply Z.ltb_lt|done]. Qed.

Lemma lrun_sruns page max_size hi ho s bs l s' :
  lrun page max_size hi ho s bs l s' -> sruns page max_size ho s l s'.
Proof.
  induction 1 as [s|s1 i cs s2 bs l s3 Hi Hcs Hr Hv _ IH|s1 h i new s2 bs l s3 Hh Hi Hn Hr Hv _ IH|s1 s2 bs l s3 Hst _ Hv _ IH].
  - constructor.
  - eapply sruns_step; [|done|done]. apply (step_in _ _ _ hi); [done|by apply data_segs|done].
  - eapply sruns_step; [|done|done]. by apply (step_in _ _ _ h).
  - change l with ([] ++ l). by eapply sruns_step.
Qed.

(** The records in [l] that came from [id]. *)
Definition from (id : Z) (l : list (Z * list Z)) : list (Z * list Z) := filter (fun e => fst e = id) l.

Lemma from_own id rs : from id (map (pair id) rs) = map (pair id) rs.
Proof. unfold from. induction rs as [|r rs IH]; simpl; [done|]. rewrite filter_cons_True by done. by rewrite IH. Qed.

Lemma from_other id id' rs : id' <> id -> from id (map (pair id') rs) = [].
Proof. intros Hne. unfold from. induction rs as [|r rs IH]; simpl; [done|]. by rewrite filter_cons_False. Qed.

Lemma prefix_app_cases (bs a b : list Z) :
  bs `prefix_of` a ++ b -> zlen bs < zlen a \/ exists b', bs = a ++ b' /\ b' `prefix_of` b.
Proof.
  intros [rest Hr]. destruct (Z.lt_ge_cases (zlen bs) (zlen a)) as [|Hl]; [by left|right].
  apply (f_equal (ztake (zlen a))) in Hr as Ht. rewrite ztake_app_exact, ztake_app_l in Ht by done.
  rewrite <- (ztake_zdrop (zlen a) bs), <- Ht in Hr |- *. exists (zdrop (zlen a) bs). split; [done|].
  rewrite <- app_assoc in Hr. apply app_inv_head in Hr. by exists rest.
Qed.

Lemma parse_length dn (r b : list Z) :
  0 < zlen r < 2 ^ 32 ->
  feed parse_full ((RECV_HEADER, dn), [], 4) (be_bytes 4 (zlen r) ++ b) = feed parse_full ((RECV_LOG, dn), [], zlen r) b.
Proof.
  intros Hr. rewrite feed_app.
  assert (feed parse_full ((RECV_HEADER, dn), [], 4) (be_bytes 4 (zlen r)) =
          parse_full (RECV_HEADER, dn) (be_bytes 4 (zlen r))) as ->.
  { pose proof (feed_full parse_full (RECV_HEADER, dn) [] (be_bytes 4 (zlen r))) as Hff.
    rewrite zlen_be_bytes in Hff. by apply Hff. }
  change (parse_full (RECV_HEADER, dn) (be_bytes 4 (zlen r)))
    with (Some ((RECV_LOG, dn), @nil Z, ntoh32 (le_val (be_bytes 4 (zlen r))))).
  replace (ntoh32 (le_val (be_bytes 4 (zlen r)))) with (zlen r); [done|].
  unfold ntoh32. rewrite bswap_val; [|apply be_bytes_are_bytes|done]. rewrite be_val_bytes_small; [done|]. simpl. lia.
Qed.

(** Cut anywhere, a stream of records is parsed into whole records, and more is
    wanted. *)
Lemma parse_cut rs dn bs :
  Forall (fun r => 0 < zlen r < 2 ^ 32) rs -> bs `prefix_of` frames rs ->
  exists st j acc need, feed parse_full ((RECV_HEADER, dn), [], 4) bs = Some ((st, dn ++ take j rs), acc, need) /\
    0 < need /\ (bs = frames rs -> j = length rs).
Proof.
  intros HF. revert dn bs. induction HF as [|r rs Hr HF IH]; intros dn bs Hpre.
  { change (frames []) with (@nil Z) in Hpre. apply prefix_nil_inv in Hpre as ->.
    exists RECV_HEADER, 0%nat, [], 4. by rewrite app_nil_r. }
  rewrite frames_cons in Hpre. unfold frame in Hpre. rewrite <- app_assoc in Hpre.
  assert (forall st acc need, feed parse_full ((RECV_HEADER, dn), [], 4) bs = Some ((st, dn), acc, need) -> 0 < need ->
    zlen bs < 4 + zlen r -> exists st j acc need, feed parse_full ((RECV_HEADER, dn), [], 4) bs =
      Some ((st, dn ++ take j (r :: rs)), acc, need) /\ 0 < need /\ (bs = frames (r :: rs) -> j = length (r :: rs))) as Hpart.
  { intros st acc need Hf Hn Hl. exists st, 0%nat, acc, need. rewrite app_nil_r. split_and!; [done|done|].
    intros ->. rewrite frames_cons, zlen_app, zlen_frame in Hl. pose proof (zlen_nonneg (frames rs)). lia. }
  destruct (prefix_app_cases _ _ _ Hpre) as [Hl|(b1&->&Hb1)]; rewrite ?zlen_app, ?zlen_be_bytes in *.
  { eapply Hpart; [by rewrite feed_short by lia|lia|lia]. }
  destruct (prefix_app_cases _ _ _ Hb1) as [Hl|(b2&->&Hb2)].
  { eapply Hpart; [by rewrite parse_length, feed_short by lia|lia|lia]. }
  destruct (IH (dn ++ [r]) b2 Hb2) as (st&j&acc&need&Hf&Hn&Hall).
  exists st, (S j), acc, need. split_and!; [|done|].
  - rewrite parse_length, feed_app, feed_full by lia. etransitivity; [exact Hf|]. simpl. by rewrite <- app_assoc.
  - intros E. rewrite frames_cons in E. unfold frame in E. simpl. f_equal. apply Hall.
    rewrite <- !app_assoc in E. by apply app_inv_head, app_inv_head in E.
Qed.

Lemma parse_shift st dn rs acc need bs :
  feed parse_full ((st, dn ++ rs), acc, need) bs =
  match feed parse_full ((st, rs), acc, need) bs with
  | Some ((st', rs'), acc', need') => Some ((st', dn ++ rs'), acc', need')
  | None => None
  end.
Proof.
  revert st rs acc need. induction bs as [|b bs IH]; intros st rs acc need; simpl; [done|].
  destruct (need <=? 0); [apply IH|]. destruct (need =? 1); [|apply IH].
  unfold parse_full. simpl. destruct (st =? RECV_HEADER); [apply IH|]. rewrite <- app_assoc. apply IH.
Qed.

(** The handler [i] has read [bs], in which the records [dn] were complete. *)
Definition tracked (dn : list (list Z)) (bs : list Z) (i : in_handler) : Prop :=
  feed parse_full ((RECV_HEADER, []), [], 4) bs =
    Some ((i_state i, dn), consumed (read_queue i), to_read (read_queue i)) /\
  pending (read_queue i) = [] /\ rx (sk (read_queue i)) = [].

Section Tracks.
Context (page max_size hi ho : Z) (Hpage : 0 < page <= 2 ^ 62) (Hmax : 0 <= max_size /\ max_size + 4 < 2 ^ 32).
Context (rs : list (list Z)) (Hrs : Forall (fun r => 0 < zlen r < 2 ^ 32) rs).

Lemma own_tracks s i dn b0 cs s' :
  server_inv max_size s -> ins s !! hi = Some i -> tracked dn b0 i -> Forall (fun c => 0 < zlen c) cs ->
  (b0 ++ concat cs) `prefix_of` frames rs ->
  in_io_cb page max_size hi ev_READ (with_ins (<[hi := arrive (map RData cs) i]> (ins s)) s) = Ret tt s' ->
  exists i', ins s' !! hi = Some i' /\ i_id i' = i_id i /\
    tracked (dn ++ parsed (arrive (map RData cs) i)) (b0 ++ concat cs) i'.
Proof.
  intros [HW HI] Hi (Htr&Hpe&Hrx) Hcs Hpre Hr. set (i1 := arrive (map RData cs) i) in *.
  assert (IWF i1) as HI1 by (apply arrive_IWF; [by apply (HI hi)|by apply data_segs]).
  assert (stream (read_queue i1) = concat cs /\ after (rx (sk (read_queue i1))) = []) as [Hs1 Ha1].
  { change (stream (read_queue i1)) with (pending (read_queue i) ++ avail (rx (sk (read_queue i)) ++ map RData cs)).
    change (rx (sk (read_queue i1))) with (rx (sk (read_queue i)) ++ map RData cs).
    rewrite Hpe, Hrx, <- (app_nil_r (map RData cs)). simpl. rewrite avail_chunks, after_chunks. simpl. by rewrite app_nil_r. }
  destruct (feed_parse max_size (i_id i) (i_state i1) (view s) [] (consumed (read_queue i1)) (to_read (read_queue i1))
    (concat cs)) as (st&rs'&acc&need&Hp&Hf). cbn [app] in Hp.
  assert (feed parse_full ((RECV_HEADER, []), [], 4) (b0 ++ concat cs) = Some ((st, dn ++ rs'), acc, need)) as Hall.
  { rewrite feed_app, Htr. rewrite <- (app_nil_r dn) at 1. rewrite parse_shift.
    change (feed parse_full ((i_state i, []), consumed (read_queue i), to_read (read_queue i)) (concat cs) =
            Some ((st, rs'), acc, need)) in Hp. by rewrite Hp. }
  destruct (parse_cut rs [] _ Hrs Hpre) as (st1&j&acc1&need1&Hcut&Hneed&_). rewrite Hall in Hcut. simplify_eq.
  destruct (in_io_cb_spec page max_size hi ev_READ (with_ins (<[hi := i1]> (ins s)) s) i1 st1
    (deliver_all max_size (i_id i) (view s) rs') acc1 need1) as (s2&i'&Hr2&_&_&Haft&_&Hst&Hid&Hc&Ht&_&Hpend);
    [done|done|simpl; by rewrite lookup_insert_eq|done|done|by rewrite Hs1|].
  assert (s2 = s') as -> by congruence. rewrite Ha1 in Hpend. destruct (Hpend Hneed) as [Hpe' Hrx'].
  unfold round_end in Haft. rewrite Ha1 in Haft. assert (ins s' !! hi = Some i') as Hi'.
  { destruct (0 <? need1); simpl in Haft; rewrite Haft; by rewrite lookup_insert_eq. }
  exists i'. split_and!; [done|done|]. unfold parsed. rewrite Hs1, Hp. split; [|done]. by rewrite Hall, Hst, Hc, Ht.
Qed.

Lemma lrun_tracks s bs l s' :
  lrun page max_size hi ho s bs l s' -> server_inv max_size s -> ids_ok s ->
  forall i dn b0, ins s !! hi = Some i -> tracked dn b0 i -> (b0 ++ bs) `prefix_of` frames rs ->
  exists i', ins s' !! hi = Some i' /\ i_id i' = i_id i /\ tracked (dn ++ map snd (from (i_id i) l)) (b0 ++ bs) i'.
Proof.
  induction 1 as [s|s1 i1 cs s2 bs l s3 Hi Hcs Hr Hv _ IH|s1 h i1 new s2 bs l s3 Hh Hi1 Hn Hr Hv _ IH|s1 s2 bs l s3 Hst Heq Hv _ IH];
    intros HI Hids i dn b0 Hi0 Htr Hpre.
  - exists i. by rewrite !app_nil_r.
  - assert (i1 = i) as -> by congruence. rewrite app_assoc in Hpre.
    destruct (own_tracks s1 i dn b0 cs s2) as (i2&Hi2&Hid2&Htr2); [done..|by eapply prefix_app_l|done|].
    assert (sstep page max_size s1 (map (pair (i_id i)) (parsed (arrive (map RData cs) i))) s2) as Hst
      by (apply (step_in _ _ _ hi); [done|by apply data_segs|done]).
    destruct (IH ltac:(by eapply sstep_ok) ltac:(by eapply sstep_ids) i2 _ _ Hi2 Htr2 Hpre) as (i'&Hi'&Hid'&Htr').
    exists i'. split_and!; [done|congruence|]. unfold from in *. rewrite filter_app, map_app. fold (from (i_id i) (map (pair (i_id i)) (parsed (arrive (map RData cs) i)))).
    rewrite from_own, map_map. simpl. rewrite map_id. rewrite Hid2 in Htr'. by rewrite !app_assoc in *.
  - assert (sstep page max_size s1 (map (pair (i_id i1)) (parsed (arrive new i1))) s2) as Hst by by apply (step_in _ _ _ h).
    destruct (in_event_table page max_size Hpage s1 h i1 new s2 HI Hi1 Hn Hr) as (_&i2&_&Hins).
    assert (ins s2 !! hi = Some i) as Hi2.
    { destruct Hins as [->| ->]; [by rewrite lookup_insert_ne|by rewrite lookup_delete_ne]. }
    destruct (IH ltac:(by eapply sstep_ok) ltac:(by eapply sstep_ids) i _ _ Hi2 Htr Hpre) as (i'&Hi'&Hid'&Htr').
    exists i'. split_and!; [done|done|]. unfold from in *. rewrite filter_app, map_app. fold (from (i_id i) (map (pair (i_id i1)) (parsed (arrive new i1)))).
    rewrite from_other; [done|]. intros E. apply Hh. by eapply (ids_inj s1 Hids).
  - apply (IH ltac:(by eapply sstep_ok) ltac:(by eapply sstep_ids)); [congruence|done..].
Qed.
End Tracks.

(** ** From g_log to the files *)

(** The records of the calls of g_log in [sts]. *)
Definition logged (sts : list log_step) : list (list Z) :=
  flat_map (fun st => match st with Event now e => [record_of now e] | Writable _ => [] end) sts.

(** Those of the classes in [ints]. *)
Definition wants (ints : Z) (rs : list (list Z)) : list (list Z) :=
  filter (fun r => has (default 0 (head r)) ints = true) rs.

Lemma logged_bytes sts : concat (map step_bytes sts) = frames (logged sts).
Proof.
  induction sts as [|[now e|ws] sts IH]; [done| |exact IH]. cbn [map concat logged flat_map app].
  rewrite IH. by rewrite frames_cons.
Qed.

Lemma logged_fit sts : Forall step_ok sts -> Forall (fun r => 0 < zlen r < 2 ^ 32) (logged sts).
Proof.
  induction 1 as [|[now e|ws] sts Hok HF IH]; [constructor| |exact IH]. constructor; [|exact IH].
  destruct e as [N parts|u h r l t|id snd m]; unfold record_of; rewrite !zlen_app, ?zlen_be_bytes, ?zlen_cons; change (@zlen Z []) with 0.
  - destruct Hok as [_ Hz]. pose proof (zlen_nonneg (joined parts)). lia.
  - destruct Hok as (Hr&Hl&Ht). unfold SOCKADDR_STORAGE in *. pose proof (zlen_nonneg t). lia.
  - destruct Hok as (Hm&Hl). unfold PACKED_MESSAGE in *. rewrite zlen_ztake. lia.
Qed.

Lemma from_wanted id ints l : map snd (from id (wanted ints l)) = wants ints (map snd (from id l)).
Proof.
  unfold from, wanted, wants. induction l as [|[i r] l IH]; [done|]. rewrite !filter_cons. simpl.
  repeat case_decide; rewrite ?filter_cons; simpl; repeat case_decide; simpl in *; try done; try contradiction.
  - rewrite filter_cons_True by done. by rewrite IH.
  - by rewrite filter_cons_False.
Qed.

Lemma filter_prefix {A} (P : A -> Prop) `{!forall x, Decision (P x)} l1 l2 :
  l1 `prefix_of` l2 -> filter P l1 `prefix_of` filter P l2.
Proof. intros [k ->]. rewrite filter_app. by exists (filter P k). Qed.

Lemma prefix_ztake (bs full : list Z) : bs `prefix_of` full -> bs = ztake (zlen bs) full.
Proof. intros [k ->]. by rewrite ztake_app_exact. Qed.

Lemma prefix_map_snd {A B} (l1 l2 : list (A * B)) : l1 `prefix_of` l2 -> map snd l1 `prefix_of` map snd l2.
Proof. intros [k ->]. rewrite map_app. by exists (map snd k). Qed.

(** What a consumer has received is the beginning of what it is owed. *)
Lemma view_prefix s h o c : outs s !! h = Some o -> view s !! h = Some c -> tx (o_sock o) `prefix_of` wire c.
Proof.
  intros Ho Hc. unfold view in Hc. rewrite map_lookup_zip_with, Ho in Hc. destruct (queues s !! h) as [q|]; [|done].
  simpl in Hc. simplify_eq. unfold wire, cview. simpl. rewrite <- app_assoc. by apply prefix_app_r.
Qed.

(** A connection that was just accepted is at the start of the stream. *)
Lemma accepted_tracked page max_size hi f s0 s i :
  server_inv max_size s0 -> Z.of_nat (size (taken_ids s0)) + 1 < 2 ^ 32 ->
  in_handle_accept page hi f (Sock [] [] [] 0) s0 = Ret tt s -> ins s !! hi = Some i ->
  tracked [] [] i /\ view s = view s0.
Proof.
  intros HI Hs Hr Hi. destruct (in_ctor_spec page hi f (Sock [] [] [] 0) s0 Hs) as (id&t&Hr2&_).
  unfold in_handle_accept in Hr. rewrite Hr2 in Hr. injection Hr as <-. simpl in Hi. rewrite lookup_insert_eq in Hi.
  injection Hi as <-. split; [|done]. by split_and!.
Qed.

(** C1. From one end to the other. The connector logs (any calls of g_log and
    writes, in any order); the log server accepts its connection and serves it
    among other connections of any number and behaviour; verbatim has what it
    was sent, with rotations of the log. Then of the records in verbatim's files
    those that carry the connector's id are the records logged, of the classes
    verbatim asked for, unchanged, in order, without gaps or repetitions up to
    some point; and all of them once the bytes have arrived. *)
Theorem log_path page max_size sts lg lg' b s0 s hi ho f i ints bytes l s' o' o d c0 k :
  0 < page <= 2 ^ 62 -> 0 <= max_size /\ max_size + 4 < 2 ^ 32 ->
  LWF lg -> log_wire lg = [] -> Forall step_ok sts -> steps_exec page sts lg = Ret tt lg' -> g_log_buffer lg' = Some b ->
  server_inv max_size s0 -> ids_ok s0 -> ins s0 !! hi = None -> Z.of_nat (size (taken_ids s0)) + 1 < 2 ^ 32 ->
  view s0 !! ho = Some (Consumer ints [] []) ->
  in_handle_accept page hi f (Sock [] [] [] 0) s0 = Ret tt s -> ins s !! hi = Some i ->
  bytes `prefix_of` tx (lb_sock b) -> lrun page max_size hi ho s bytes l s' -> outs s' !! ho = Some o' ->
  served o = true -> dir_ok c0 [[]] false d -> segs_ok (rx k) = true ->
  avail_all verbatim_retry (rx k) `prefix_of` tx (o_sock o') -> last_event verbatim_retry (rx k) = Disconnected ->
  exists v' gs es, verbatim_main page o d k = Ret Disconnected v' /\
    files (dir v') = layout c0 gs /\ concat gs = map encode es /\
    map snd (from (i_id i) es) `prefix_of` wants ints (logged sts) /\
    (bytes = log_wire lg' -> option_map wire (view s' !! ho) = Some (avail_all verbatim_retry (rx k)) ->
     map snd (from (i_id i) es) = wants ints (logged sts)).
Proof.
  intros Hp Hm HL HL0 Hsts Hexec Hb HI Hids Hnone Hsz Hc Hacc Hi Hbytes Hrun Ho' Hsv Hd Hsg Hav Hend.
  destruct (steps_spec page sts lg Hp HL Hsts) as (lg2&Hex2&_&Hcase). assert (lg2 = lg') as -> by congruence.
  destruct Hcase as [Hn|[Hw _]]; [congruence|]. rewrite HL0, logged_bytes in Hw. simpl in Hw.
  assert (bytes `prefix_of` frames (logged sts)) as Hpre.
  { rewrite <- Hw. unfold log_wire. rewrite Hb. by apply prefix_app_r. }
  destruct (accepted_tracked page max_size hi f s0 s i HI Hsz Hacc Hi) as [Htr Hv]. rewrite <- Hv in Hc.
  assert (sstep page max_size s0 [] s) as Hst by by eapply step_accept_in.
  destruct (sstep_ok page max_size Hp Hm s0 [] s Hst HI) as [HIs _].
  destruct (lrun_tracks page max_size hi ho Hp Hm (logged sts) (logged_fit sts Hsts) s bytes l s' Hrun HIs
    ltac:(by eapply sstep_ids) i [] [] Hi Htr Hpre) as (i'&_&_&Htr'&_).
  destruct (parse_cut (logged sts) [] bytes (logged_fit sts Hsts) Hpre) as (st&j&acc&need&Hcut&_&Hj).
  simpl in Htr', Hcut. rewrite Htr' in Hcut. injection Hcut as _ Hdone _ _.
  pose proof (lrun_sruns _ _ _ _ _ _ _ _ Hrun) as Hrs.
  destruct (sruns_ok page max_size Hp Hm ho s l s' Hrs HIs _ Hc) as (_&c'&Hc'&_&Hwire). change (wire (Consumer ints [] [])) with (@nil Z) in Hwire.
  pose proof (sruns_small page max_size Hp Hm ho s l s' _ Hrs HIs Hc) as Hsm. simpl in Hwire, Hsm.
  assert (avail_all verbatim_retry (rx k) `prefix_of` frames (map sourced (wanted ints l))) as Hpw.
  { rewrite <- encode_frames, <- Hwire. etransitivity; [exact Hav|]. by eapply view_prefix. }
  destruct (verbatim_run page (map sourced (wanted ints l)) (zlen (avail_all verbatim_retry (rx k))) o d c0 k)
    as (v'&gs&jv&Hr&Hf&Hcat&_&_&Hall&_); [done| |apply zlen_nonneg|done..|by apply prefix_ztake|done|].
  { apply sourced_fit. eapply Forall_impl; [exact Hsm|]. intros e He. unfold small in He. lia. }
  exists v', gs, (take jv (wanted ints l)). rewrite firstn_map, encode_map in Hcat. split_and!; [done..| |].
  - etransitivity; [apply prefix_map_snd, filter_prefix, prefix_take|]. fold (from (i_id i) (wanted ints l)).
    rewrite from_wanted, Hdone. apply filter_prefix, prefix_take.
  - intros Hb1 Ha1. rewrite Hc' in Ha1. injection Ha1 as Ha1. rewrite Hall, length_map, take_ge.
    + rewrite from_wanted, Hdone, Hj by congruence. by rewrite take_ge.
    + done.
    + rewrite <- Ha1, Hwire, encode_frames. lia.
Qed.

(** The connector logs the text A as an error; the log server reads it in two
    pieces and writes it to verbatim. *)
Definition demo_sts : list log_step := [Event 1 (LText ERROR [[65]]); Writable [WAccept 100]].
Definition demo_record : list Z := [8; 0; 0; 0; 0; 0; 0; 0; 1; 65; 0].
Definition demo_cs : list (list Z) := [[0; 0; 0; 11; 8]; [0; 0; 0; 0; 0; 0; 0; 1; 65; 0]].
Definition accepts : list write_event := [WAccept 100; WAccept 100; WAccept 100].
Definition path1 : server :=
  run_to (in_io_cb 4096 100 2 ev_READ (with_ins (<[2 := arrive (map RData demo_cs) demo_in]> (ins demo2)) demo2)).
Definition out_turn (s : server) : server :=
  match outs s !! 1 with
  | Some o => run_to (out_io_cb 4096 1 ev_WRITE (with_outs (<[1 := writable accepts o]> (outs s)) s))
  | None => s
  end.
Definition path2 : server := out_turn path1.
Definition path3 : server := out_turn path2.

Lemma demo1_ids : ids_ok demo1.
Proof. split; intros *; change (ins demo1) with (∅ : gmap Z in_handler); by rewrite lookup_empty. Qed.

Lemma out_turn_step s :
  match outs s !! 1 with
  | Some o => match out_io_cb 4096 1 ev_WRITE (with_outs (<[1 := writable accepts o]> (outs s)) s) with Ret _ _ => true | _ => false end
  | None => false
  end = true -> sstep 4096 100 s [] (out_turn s).
Proof.
  unfold out_turn. destruct (outs s !! 1) as [o|] eqn:Ho; [|done]. intros Hr. apply (step_out _ _ _ 1 o accepts); [done|].
  by destruct (out_io_cb _ _ _ _) as [[] ?| |].
Qed.

Lemma demo_lrun : lrun 4096 100 2 1 demo2 (frame demo_record) [(1000, demo_record)] path3.
Proof.
  assert (frame demo_record = concat demo_cs ++ []) as -> by (vm_compute; reflexivity).
  assert ([(1000, demo_record)] = map (pair (i_id demo_in)) (parsed (arrive (map RData demo_cs) demo_in)) ++ []) as ->
    by (vm_compute; reflexivity).
  apply (lrun_own 4096 100 2 1 demo2 demo_in demo_cs path1 [] [] path3);
    [vm_compute; reflexivity|repeat constructor|vm_compute; reflexivity|eexists; vm_compute; reflexivity|].
  apply (lrun_rest 4096 100 2 1 path1 path2);
    [apply out_turn_step; vm_compute; reflexivity|vm_compute; reflexivity|eexists; vm_compute; reflexivity|].
  apply (lrun_rest 4096 100 2 1 path2 path3);
    [apply out_turn_step; vm_compute; reflexivity|vm_compute; reflexivity|eexists; vm_compute; reflexivity|constructor].
Qed.

Definition demo_lg : logger := match steps_exec 4096 demo_sts demo_log with Ret _ l => l | _ => demo_log end.
Definition demo_b : log_buffer := default (log_buffer_ctor 0 (Sock [] [] [] 0)) (g_log_buffer demo_lg).
Definition demo_o : out_handler := default demo_out (outs path3 !! 1).
Definition demo_k : sock := Sock [RData (encode (1000, demo_record)); REof] [] [] 0.

Lemma log_path_witness :
  exists v' gs es, verbatim_main 4096 [] (LogDir [[]] (Some 0%nat) None) demo_k = Ret Disconnected v' /\
    files (dir v') = layout [] gs /\ concat gs = map encode es /\ map snd (from 1000 es) = [demo_record].
Proof.
  destruct (log_path 4096 100 demo_sts demo_log demo_lg demo_b demo1 demo2 2 1 6 demo_in 255
    (frame demo_record) [(1000, demo_record)] path3 demo_o [] (LogDir [[]] (Some 0%nat) None) [] demo_k)
    as (v'&gs&es&Hr&Hf&Hc&_&Hall).
  - lia.
  - lia.
  - exact demo_log_LWF.
  - vm_compute. reflexivity.
  - repeat constructor; vm_compute; congruence.
  - vm_compute. reflexivity.
  - vm_compute. reflexivity.
  - exact demo1_inv.
  - exact demo1_ids.
  - vm_compute. reflexivity.
  - vm_compute. reflexivity.
  - vm_compute. reflexivity.
  - vm_compute. reflexivity.
  - vm_compute. reflexivity.
  - exists []. vm_compute. reflexivity.
  - exact demo_lrun.
  - vm_compute. reflexivity.
  - reflexivity.
  - split_and!; [done|done|done|by right].
  - reflexivity.
  - exists []. vm_compute. reflexivity.
  - reflexivity.
  - exists v', gs, es. split; [exact Hr|]. split; [exact Hf|]. split; [exact Hc|].
    change 1000 with (i_id demo_in). rewrite Hall; vm_compute; reflexivity.
Defined.
