(* ===== verification/LogReader.v ===== *)
(** * The stanza that reads a log

    bcwatch.cpp, getaddr.cpp and console.cpp read the log server with the same
    lines: four bytes of length, then as many bytes of a record, then something
    done with the record. The handler with those lines, for a client with the
    state [X], and its contract: whatever way the bytes arrive, the records are
    acted on one by one and in order. *)

From S2P Require Import Prelude.
From S2P Require Import Bytes.
From S2P Require Import WrappedBuffer.
From S2P Require Import Net.
From S2P Require Import ReadBuffer.
From S2P Require Import LogServer.
From S2P Require Import LogFormat.
From S2P Require Import ClientReader.

Record lreader {X : Type} := LReader { l_read : reader; l_len : bool; l_client : X }.
Arguments lreader : clear implicits.
Arguments LReader {X}.

#[global] Instance lreader_reader X : HasReader (lreader X) := {
  rdr := l_read;
  set_rdr r s := LReader r (l_len s) (l_client s);
  rdr_set r s := eq_refl }.

Section Stanza.
Context {X : Type}.

Definition with_l_len (b : bool) (s : lreader X) : lreader X := LReader (l_read s) b (l_client s).
Definition on_l_client {A} (c : prog X A) : prog (lreader X) A :=
  zoom l_client (fun x s => LReader (l_read s) (l_len s) x) c.

(** What is done with a record: it gets the memory of the buffer, which may be
    longer than the record, and the number of bytes read. *)
Context (on_record : list Z -> Z -> prog X unit).

Definition stanza : prog (lreader X) unit :=
  let! s := get in
  let buf := extract_buffer (l_read s) in
  if l_len s then
    if zlen buf <? 4 then crash OutOfBounds
    else
      let netlen := le_val (slice 0 4 buf) in
      do! zoom rdr set_rdr (set_cursor 0) in
      do! zoom rdr set_rdr (set_to_read (ntoh32 netlen)) in
      modify (with_l_len false)
  else
    do! on_l_client (on_record buf (cursor (l_read s))) in
    do! zoom rdr set_rdr (set_cursor 0) in
    do! zoom rdr set_rdr (set_to_read 4) in
    modify (with_l_len true).

(** ** What it means *)

(** The records, one after the other. *)
Fixpoint each_record (rs : list (list Z)) : prog X unit :=
  match rs with
  | [] => ret tt
  | r :: rs => do! on_record r (zlen r) in each_record rs
  end.

Lemma each_record_app rs1 rs2 x x1 :
  each_record rs1 x = Ret tt x1 -> each_record (rs1 ++ rs2) x = each_record rs2 x1.
Proof.
  revert x. induction rs1 as [|r rs1 IH]; intros x; simpl; [by intros [= ->]|].
  intros ([]&x2&Hr&Hx)%bind_Ret_inv. run_step Hr. by apply IH.
Qed.

(** A record that fits into a message and on which [on_record] looks at nothing
    behind its end. *)
Definition readable (r : list Z) : Prop :=
  0 < zlen r < 2 ^ 32 /\ forall mem x, ztake (zlen r) mem = r -> on_record mem (zlen r) x = on_record r (zlen r) x.

Definition lm : Type := bool * (X * list (list Z)).

(** The protocol: [rs] are the records still to come, so that what a record is
    known to satisfy can be used when it is complete. *)
Definition stanza_full (m : lm) (acc : list Z) : option (config (M := lm)) :=
  if fst m then
    let n := ntoh32 (le_val acc) in
    if n =? 0 then None else Some ((false, snd m), [], n)
  else
    match snd (snd m) with
    | r :: rs =>
        if decide (acc = r) then
          match on_record r (zlen r) (fst (snd m)) with
          | Ret _ x => Some ((true, (x, rs)), [], 4)
          | _ => None
          end
        else None
    | [] => None
    end.

Definition lrel (s : lreader X) (m : lm) : Prop :=
  l_len s = fst m /\ l_client s = fst (snd m) /\ Forall readable (snd (snd m)).

Definition litem (c : config (M := lm)) : Prop :=
  let '(m, acc, need) := c in
  0 <= need /\ zlen acc + need < 2 ^ 32 /\ (fst m = true -> zlen acc + need = 4).

Lemma lrel_reader s m r : lrel s m -> lrel (set_rdr r s) m.
Proof. done. Qed.

Lemma litem_more m acc need bs :
  litem (m, acc, need) -> zlen bs <= need -> litem (m, acc ++ bs, need - zlen bs).
Proof. intros (?&?&Hl) ?. unfold litem. rewrite zlen_app. split_and!; [lia|lia|]. intros Hm. specialize (Hl Hm). lia. Qed.

Lemma stanza_more m acc m' acc' need' : stanza_full m acc = Some (m', acc', need') -> 0 < need'.
Proof.
  unfold stanza_full, ntoh32. destruct (fst m).
  - cbv zeta. destruct (bswap_bound 4 (le_val acc)) as [H0 _]. zcase; [done|]. intros [= <- <- <-]. lia.
  - destruct (snd (snd m)); [done|]. destruct (decide _); [|done]. destruct (on_record _ _ _); [|done|done]. by intros [= <- <- <-].
Qed.

Lemma stanza_ok s m acc c :
  at_config lrel litem s (m, acc, 0) -> acc <> [] -> stanza_full m acc = Some c ->
  exists s', stanza s = Ret tt s' /\ at_config lrel litem s' c /\
             stream (rdr s') = stream (rdr s) /\ sk (rdr s') = sk (rdr s).
Proof.
  intros ((Hlen&Hx&HF)&HW&(_&Hsz&Hhd)&Hc&Ht) Hne Hfull. rewrite Z.add_0_r in *.
  assert (0 < zlen acc) as Hpos by (destruct acc; [done|rewrite zlen_cons; pose proof (zlen_nonneg acc); lia]).
  pose proof (consumed_fits _ HW) as Hfit. pose proof (zlen_consumed _ HW) as Hcz. rewrite Hc in Hfit, Hcz.
  unfold stanza. erewrite bind_ret by done. cbv zeta. rewrite Hlen. unfold stanza_full in Hfull.
  destruct (fst m) eqn:Hm.
  - specialize (Hhd eq_refl). destruct (Z.ltb_spec (zlen (extract_buffer (l_read s))) 4); [simpl in Hfit; lia|].
    assert (slice 0 4 (extract_buffer (l_read s)) = acc) as ->.
    { rewrite slice_0, <- Hc. unfold consumed. f_equal. simpl in *. lia. }
    cbv zeta in Hfull. destruct (Z.eqb_spec (ntoh32 (le_val acc)) 0); [done|]. injection Hfull as <-.
    destruct (bswap_bound 4 (le_val acc)) as [Hb0 Hb1]. change (256 ^ Z.of_nat 4) with (2 ^ 32) in Hb1.
    fold (ntoh32 (le_val acc)) in Hb0, Hb1.
    erewrite bind_ret by (eapply zoom_ret, set_cursor_0; change (0 < zlen (extract_buffer (rdr s))); lia).
    erewrite bind_ret by (by eapply zoom_ret).
    destruct (restart_ok (ntoh32 (le_val acc)) (rdr s) HW) as [HW' Hc']; [lia|].
    eexists. split; [reflexivity|]. split; [|done]. split_and!; done.
  - destruct (snd (snd m)) as [|r rs] eqn:Hrs; [done|]. destruct (decide (acc = r)) as [->|]; [|done].
    apply Forall_cons_1 in HF as [[Hr1 Hr2] HF].
    destruct (on_record r (zlen r) (fst (snd m))) as [[] x'| |] eqn:Hrec; [|done|done]. injection Hfull as <-.
    assert (on_record (extract_buffer (l_read s)) (cursor (l_read s)) (l_client s) = Ret tt x') as Hon.
    { simpl in Hcz. rewrite <- Hcz, Hx, Hr2; [done|]. rewrite <- Hc at 2. unfold consumed. simpl. f_equal. lia. }
    erewrite bind_ret by (by eapply zoom_ret).
    erewrite bind_ret by (eapply zoom_ret, set_cursor_0; simpl in *; lia).
    erewrite bind_ret by (by eapply zoom_ret).
    destruct (restart_ok 4 (rdr s) HW) as [HW' Hc']; [lia|].
    eexists. split; [reflexivity|]. split; [|done]. by split_and!.
Qed.

Lemma stanza_feed_length x rs (r bs : list Z) :
  0 < zlen r < 2 ^ 32 ->
  feed stanza_full ((true, (x, rs)), [], 4) (be_bytes 4 (zlen r) ++ bs) =
  feed stanza_full ((false, (x, rs)), [], zlen r) bs.
Proof.
  intros Hr. rewrite feed_app.
  assert (feed stanza_full ((true, (x, rs)), [], 4) (be_bytes 4 (zlen r)) =
          stanza_full (true, (x, rs)) (be_bytes 4 (zlen r))) as ->.
  { pose proof (feed_full stanza_full (true, (x, rs)) [] (be_bytes 4 (zlen r))) as Hff.
    rewrite zlen_be_bytes in Hff. by apply Hff. }
  assert (ntoh32 (le_val (be_bytes 4 (zlen r))) = zlen r) as Hn.
  { unfold ntoh32. rewrite bswap_val; [|apply be_bytes_are_bytes|done]. rewrite be_val_bytes_small; [done|]. simpl. lia. }
  unfold stanza_full at 1. cbn [fst snd]. rewrite Hn. by destruct (Z.eqb_spec (zlen r) 0); [lia|].
Qed.

Lemma stanza_feed x x' rs rest :
  Forall readable rs -> each_record rs x = Ret tt x' ->
  feed stanza_full ((true, (x, rs ++ rest)), [], 4) (frames rs) = Some ((true, (x', rest)), [], 4).
Proof.
  intros HF. revert x. induction HF as [|r rs [Hr1 Hr2] HF IH]; intros x Hx; [simpl in *; by injection Hx as ->|].
  cbn [each_record] in Hx. apply bind_Ret_inv in Hx as ([]&x1&Hr&Hx).
  rewrite frames_cons, feed_app. unfold frame at 1. rewrite stanza_feed_length by done.
  rewrite feed_full by lia. unfold stanza_full at 1. cbn [fst snd app]. rewrite decide_True by done. rewrite Hr. by apply IH.
Qed.

(** A reader between two records. *)
Definition l_ready (s : lreader X) : Prop :=
  l_len s = true /\ RWF (l_read s) /\ consumed (l_read s) = [] /\ to_read (l_read s) = 4.

Lemma l_ready_config s rs :
  l_ready s -> Forall readable rs -> at_config lrel litem s ((true, (l_client s, rs)), [], 4).
Proof. intros (?&?&?&?) HF. by split_and!; [split_and!|..]. Qed.

(** The callback of a watcher on a descriptor that does not block. *)
Lemma stanza_loop page transient rs s x' :
  0 < page <= 2 ^ 62 -> transient EAGAIN = true -> l_ready s -> Forall readable rs ->
  stream (l_read s) = frames rs -> each_record rs (l_client s) = Ret tt x' ->
  exists s', read_loop page transient stanza (1 + length (stream (l_read s))) s =
      Ret (round_end transient (sk (l_read s))) s' /\
    l_ready s' /\ l_client s' = x' /\ pending (l_read s') = [] /\
    rx (sk (l_read s')) = tail (after (rx (sk (l_read s)))).
Proof.
  intros Hp Ht Hs HF Hst Hx.
  destruct (read_loop_feeds stanza_full page Hp transient Ht stanza lrel litem lrel_reader litem_more stanza_ok
    (1 + length (stream (l_read s))) s ((true, (l_client s, rs)), [], 4) (true, (x', [])) [] 4)
    as (s'&Hr&((Hl&Hc&_)&HW&_&Hcon&Hto)&Hpend&_).
  - by apply l_ready_config.
  - simpl. lia.
  - simpl. rewrite Hst. rewrite <- (app_nil_r rs) at 1. by apply stanza_feed.
  - destruct (Hpend ltac:(lia)) as [Hp0 Hrx]. exists s'. by split_and!.
Qed.

(** A record that is not handled well ends it. *)
Lemma stanza_loop_fault page transient r rest s f :
  0 < page <= 2 ^ 62 -> l_ready s -> 0 < zlen r < 2 ^ 32 -> stream (l_read s) = frame r ++ rest ->
  (forall mem, ztake (zlen r) mem = r -> on_record mem (zlen r) (l_client s) = Fault f) ->
  read_loop page transient stanza (1 + length (stream (l_read s))) s = Fault f.
Proof.
  intros Hp Hrdy Hr Hst Hf. pose proof Hrdy as (Hlen&HW&Hcon&Hto). pose proof (zlen_nonneg rest) as Hrest.
  assert (length (stream (l_read s)) = S (3 + length (r ++ rest))) as Hl.
  { rewrite Hst. unfold frame. rewrite <- app_assoc, length_app. pose proof (zlen_be_bytes 4 (zlen r)) as Hz. unfold zlen at 1 in Hz. lia. }
  unfold frame in Hst. rewrite <- app_assoc in Hst.
  cbn [read_loop Nat.add]. change (rdr s) with (l_read s). unfold hungry at 1. rewrite Hto. change (negb (0 <? 4)) with false. cbn match.
  destruct (fill_full page Hp transient (S (length (stream (l_read s)))) (l_read s)) as (r1&Hf1&HW1&Ht1&Hc1&Hs1&_); [done| |lia|].
  { rewrite Hto, Hst, !zlen_app, zlen_be_bytes. lia. }
  erewrite bind_ret by (eapply zoom_ret, Hf1). cbn match.
  rewrite Hto, Hst in Hs1, Hc1. rewrite Hcon, app_nil_l, ztake_app_exact in Hc1 by (by rewrite zlen_be_bytes).
  rewrite zdrop_app_exact in Hs1 by (by rewrite zlen_be_bytes).
  destruct (stanza_ok (set_rdr r1 s) (true, (l_client s, [])) (be_bytes 4 (zlen r)) ((false, (l_client s, [])), [], zlen r))
    as (s2&Hst2&((Hl2&Hx2&_)&HW2&_&Hc2&Ht2)&Hs2&_).
  { by split_and!; [split_and!|..]. }
  { done. }
  { unfold stanza_full. cbn [fst snd]. unfold ntoh32. rewrite bswap_val by (done || apply be_bytes_are_bytes).
    rewrite be_val_bytes_small by (simpl; lia). by destruct (Z.eqb_spec (zlen r) 0); [lia|]. }
  run_step Hst2. rewrite Hl. cbn [read_loop]. unfold hungry. rewrite Ht2. destruct (Z.ltb_spec 0 (zlen r)); [|lia]. cbn [negb].
  change (stream (rdr s2) = stream r1) in Hs2. rewrite Hs1 in Hs2.
  destruct (fill_full page Hp transient (1 + length (stream (rdr s2))) (rdr s2)) as (r3&Hf3&HW3&Ht3&Hc3&Hs3&_); [done| |lia|].
  { rewrite Ht2, Hs2, zlen_app. lia. }
  erewrite bind_ret by (eapply zoom_ret, Hf3). cbn match. unfold bind at 1, stanza.
  rewrite Ht2, Hs2, Hc2, app_nil_l, ztake_app_exact in Hc3 by done. pose proof (zlen_consumed _ HW3) as Hz3.
  cbn [fst snd] in Hl2, Hx2. erewrite bind_ret by done. cbv zeta. change (l_len (set_rdr r3 s2)) with (l_len s2). rewrite Hl2.
  change (l_read (set_rdr r3 s2)) with r3. unfold bind, on_l_client, zoom. change (l_client (set_rdr r3 s2)) with (l_client s2).
  rewrite Hx2, <- Hz3, Hc3, Hf; [done|]. rewrite <- Hc3 at 2. unfold consumed. f_equal. by rewrite <- Hz3, Hc3.
Qed.

(** The loop of a program that blocks in recv. *)
Lemma stanza_client_loop page retry rs s x' :
  0 < page <= 2 ^ 62 -> l_ready s -> Forall readable rs ->
  client_stream retry (l_read s) = frames rs -> each_record rs (l_client s) = Ret tt x' ->
  exists s', client_loop page retry (ret tt) stanza (turns (l_read s)) s = Ret (last_event retry (rx (sk (l_read s)))) s' /\
    l_ready s' /\ l_client s' = x'.
Proof.
  intros Hp Hs HF Hst Hx.
  destruct (client_loop_feeds stanza_full page Hp retry (ret tt) stanza lrel litem lrel_reader litem_more stanza_more
    ltac:(intros s0 c H; by exists s0) stanza_ok
    (turns (l_read s)) s (true, (l_client s, rs)) [] 4 (true, (x', [])) [] 4) as (s'&Hr&((Hl&Hc&_)&HW&_&Hcon&Hto)).
  - by apply l_ready_config.
  - lia.
  - done.
  - simpl. rewrite Hst. rewrite <- (app_nil_r rs) at 1. by apply stanza_feed.
  - exists s'. by split_and!.
Qed.
End Stanza.

(** A new read_buffer of four bytes. *)
Lemma l_ready_new {X} page k (x : X) : 
  segs_ok (rx k) = true -> l_ready (LReader (Reader (read_buffer_ctor page 4) k) true x).
Proof. intros. split_and!; [done| |done|done]. by apply read_buffer_ctor_RWF. Qed.
