(* ===== verification/Printing.v ===== *)
(** * What the log's readers print

    The printed forms of logger.cpp: addresses and log types. Text is the bytes
    written; an address for which operator<< reads its uninitialised array has
    none. *)

From S2P Require Import Prelude.
From S2P Require Import Bytes.
From S2P Require Import WrappedBuffer.
From S2P Require Import Net.
From S2P Require Import ReadBuffer.
From S2P Require Import LogServer.
From S2P Require Import BitcoinWire.
From S2P Require Import Logger.
From S2P Require Import BitcoinHandler.
From S2P Require Import CommandHandler.
From S2P Require Import LogFormat.
From S2P Require Import FileIo.
From S2P Require Import ClientReader.
From S2P Require Import LogReader.

(** type_to_str *)
Definition type_to_str (type : Z) : list Z :=
  if type =? DEBUG then text "DEBUG"
  else if type =? CTRL then text "CTRL"
  else if type =? ERROR then text "ERROR"
  else if type =? BITCOIN then text "BITCOIN"
  else if type =? BITCOIN_MSG then text "BITCOIN_MSG"
  else if type =? CONNECTOR then text "CONNECTOR"
  else if type =? CLIENT then text "CLIENT"
  else text "UNKNOWN".

(** inet_ntop(AF_INET, ...) of the four bytes of an address *)
Definition dotted (a : list Z) : list Z :=
  number (nth 0 a 0) ++ text "." ++ number (nth 1 a 0) ++ text "." ++ number (nth 2 a 0) ++ text "." ++ number (nth 3 a 0).

Section Print.
(** The text form of an IPv6 address. *)
Context (inet_ntop6 : list Z -> list Z).

(** operator<< for a sockaddr. inet_ntop fails, and leaves the array [str] as it
    is, when the text and its NUL do not fit into its 24 bytes; nobody writes it
    for another family. [None] is the read of [str] without a value. *)
Definition sockaddr_text (addr : list Z) : option (list Z) :=
  let family := ss_family addr in
  let port := number (ntoh16 (le_val (ss_port addr))) in
  if family =? AF_INET then Some (dotted (sin_addr addr) ++ text ":" ++ port)
  else if family =? AF_INET6 then
    let t := inet_ntop6 (sin6_addr addr) in
    if zlen t + 1 <=? 24 then Some (t ++ text ":" ++ port) else None
  else None.

(** The same in a program. *)
Definition print_addr {S} (addr : list Z) : prog S (list Z) := deref Uninitialised (sockaddr_text addr).

Lemma print_addr_inet {S} addr (s : S) :
  ss_family addr = AF_INET ->
  exists t, sockaddr_text addr = Some t /\ print_addr addr s = Ret t s.
Proof. intros Hf. unfold print_addr, sockaddr_text. rewrite Hf, Z.eqb_refl. by eexists. Qed.
End Print.
