(* ===== verification/Console.v ===== *)
(** * The consoles

    logclient/src/console.cpp prints the log as the log server sends it,
    console_from_file.cpp prints a file that verbatim wrote. Both have the same
    print_message: one line per record. *)

From S2P Require Import Prelude.
From S2P Require Import Bytes.
From S2P Require Import WrappedBuffer.
From S2P Require Import Net.
From S2P Require Import ReadBuffer.
From S2P Require Import LogServer.
From S2P Require Import BitcoinWire.
From S2P Require Import Logger.
From S2P Require Import BitcoinHandler.
From S2P Require Import BitcoinPeer.
From S2P Require Import CommandHandler.
From S2P Require Import LogFormat.
From S2P Require Import FileIo.
From S2P Require Import ClientReader.
From S2P Require Import LogReader.
From S2P Require Import Printing.

(** What localtime gives: the fields of struct tm that are used. *)
Record tm := Tm { tm_year : Z; tm_mon : Z; tm_mday : Z; tm_hour : Z; tm_min : Z; tm_sec : Z; tm_gmtoff : Z }.

(** << setfill('0') << setw(2) << n *)
Definition two (n : Z) : list Z := zrep (2 - zlen (number n)) 48 ++ number n.

Section Console.
(** The time zone and the text form of IPv6 addresses. *)
Context (localtime : Z -> tm) (inet_ntop6 : list Z -> list Z).

(** time_to_str *)
Definition time_to_str (t : Z) : list Z :=
  let tm := localtime t in
  let date := number (1900 + tm_year tm) ++ text "-" ++ two (tm_mon tm + 1) ++ text "-" ++ two (tm_mday tm) ++
              text "T" ++ two (tm_hour tm) ++ text ":" ++ two (tm_min tm) ++ text ":" ++ two (tm_sec tm) in
  let offset := tm_gmtoff tm in
  if offset =? 0 then date ++ text "Z"
  else
    let sign := if offset <? 0 then text "-" else text "+" in
    let offset := Z.abs offset in
    let hours := Z.quot offset (60 * 60) in
    let offset := offset - hours * 60 * 60 in
    let minutes := Z.quot offset 60 in
    let seconds := offset - minutes * 60 in
    date ++ sign ++ two hours ++ text ":" ++ two minutes ++ text ":" ++ two seconds.

Definition update_text (u : Z) : list Z :=
  if u =? CONNECT_SUCCESS then text "CONNECT_SUCCESS"
  else if u =? ACCEPT_SUCCESS then text "ACCEPT_SUCCESS"
  else if u =? ORDERLY_DISCONNECT then text "ORDERLY_DISCONNECT"
  else if u =? WRITE_DISCONNECT then text "WRITE_DISCONNECT"
  else if u =? UNEXPECTED_ERROR then text "UNEXPECTED_ERROR"
  else if u =? CONNECT_FAILURE then text "CONNECT_FAILURE"
  else if u =? PEER_RESET then text "PEER_RESET"
  else if u =? CONNECTOR_DISCONNECT then text "CONNECTOR_DISCONNECT"
  else text "Unknown update type(" ++ number u ++ text ")".

(** *addr for a sockaddr at [off]; 24 bytes are looked at for IPv6, else 8.
    [None] when they are not all there or the address has no text. *)
Definition sockaddr_at (off : Z) (mem : list Z) : option (list Z) :=
  let a := zdrop off mem in
  if zlen a <? (if ss_family a =? AF_INET6 then 24 else 8) then None
  else sockaddr_text inet_ntop6 a.

(** The rest of the line, by type; [None] when memory outside is read, or an
    address is printed that operator<< reads its uninitialised array for. *)
Definition line_rest (kind : Z) (mem : list Z) : option (list Z) :=
  if kind =? BITCOIN_MSG then
    if zlen mem <? 13 + 5 + PACKED_MESSAGE then None
    else match packed_text (zdrop 18 mem) with
         | None => None
         | Some t =>
             Some (text " ID:" ++ number (ntoh32 (le_val (slice 13 4 mem))) ++
                   text " IS_SENDER:" ++ number (if le_val (slice 17 1 mem) =? 0 then 0 else 1) ++ text " " ++ t ++ [10])
         end
  else if kind =? BITCOIN then
    if zlen mem <? 57 then None
    else
      let update_type := ntoh32 (le_val (slice 17 4 mem)) in
      let text_len := ntoh32 (le_val (slice 53 4 mem)) in
      match sockaddr_at 21 mem, sockaddr_at 37 mem, (if text_len =? 0 then Some [] else option_map (app (text ", text: ")) (c_str_at 57 mem)) with
      | Some remote, Some local, Some t =>
          Some (text " ID:" ++ number (ntoh32 (le_val (slice 13 4 mem))) ++ text ", UPDATE_TYPE: " ++ update_text update_type ++
                text ", REMOTE: " ++ remote ++ text ", local: " ++ local ++ t ++ [10])
      | _, _, _ => None
      end
  else option_map (fun t => text " " ++ t ++ [10]) (c_str_at 13 mem).

(** The line of a record. *)
Definition line (mem : list Z) : option (list Z) :=
  if zlen mem <? 13 then None
  else
    option_map (app (time_to_str (log_timestamp mem) ++ text " (" ++ number (log_source mem) ++ text ") " ++ type_to_str (log_kind mem)))
      (line_rest (log_kind mem) mem).

(** print_message; the state is what cout has got. The fault stands for both
    kinds of [None]. *)
Definition print_message (mem : list Z) (len : Z) : prog (list Z) unit :=
  match line mem with
  | Some l => modify (fun out => out ++ l)
  | None => crash OutOfBounds
  end.

(** ** console *)

Definition never (e : Z) : bool := false.

(** main, on the socket [k]; the end of the loop is the exit status. *)
Definition console_main (page : Z) (k : sock) : out (lreader (list Z)) client_end :=
  let s := LReader (Reader (read_buffer_ctor page 4) k) true [] in
  client_loop page never (ret tt) (stanza print_message) (turns (l_read s)) s.

(** ** console_from_file *)

Definition PAGE_SIZE : Z := 4096.
Definition MULT : Z := 10000.

(** The locals of main: [cf_buf] is the part of the buffer that was written. *)
Record cfile := CFile { cf_file : file; cf_buf : list Z; cf_size : Z; cf_out : list Z }.

Definition cf_read (n : Z) : prog cfile Z := fun s =>
  match fread n (cf_file s) with
  | Ret (r, bs) f =>
      if cf_size s <? zlen bs then Fault OutOfBounds
      else Ret r (CFile f (bs ++ zdrop (zlen bs) (cf_buf s)) (cf_size s) (cf_out s))
  | Raise e f => Raise e (CFile f (cf_buf s) (cf_size s) (cf_out s))
  | Fault f => Fault f
  end.

(** The size the buffer grows to. [to_read * 2] is 32 bits wide. *)
Definition grown (to_read : Z) : Z := u32 ((u32 (to_read * 2) / PAGE_SIZE + 1) * PAGE_SIZE).

(** realloc: what does not fit any more is lost. *)
Definition grow_buf (sz : Z) : prog cfile unit :=
  modify (fun s => CFile (cf_file s) (ztake sz (cf_buf s)) sz (cf_out s)).

Definition cf_print : prog cfile unit := fun s =>
  match print_message (cf_buf s) 0 (cf_out s) with
  | Ret _ o => Ret tt (CFile (cf_file s) (cf_buf s) (cf_size s) o)
  | Raise e o => Raise e s
  | Fault f => Fault f
  end.

Fixpoint cf_loop (fuel : nat) (reading_len : bool) (to_read : Z) : prog cfile unit :=
  match fuel with
  | O => ret tt
  | S fuel =>
      if reading_len then
        let! r := cf_read 4 in
        if negb (r =? 4) then ret tt
        else
          let! s := get in
          cf_loop fuel false (ntoh32 (le_val (slice 0 4 (cf_buf s))))
      else
        let! s := get in
        do! (if cf_size s <? to_read then grow_buf (grown to_read) else ret tt) in
        let! r := cf_read to_read in
        if negb (u32 r =? to_read) then ret tt
        else
          do! cf_print in
          cf_loop fuel true to_read
  end.

(** main on a file with these bytes; every two turns take four bytes at least. *)
Definition console_from_file_main (data : list Z) : out cfile unit :=
  cf_loop (S (S (length data))) true 0 (CFile (File data 0 [] 0) [] (PAGE_SIZE * MULT) []).
End Console.

(** ** A record is printed as itself, whatever follows it in memory *)

Lemma c_str_at_more off p e t : c_str_at off p = Some t -> c_str_at off (p ++ e) = Some t.
Proof.
  unfold c_str_at. destruct (Z.le_gt_cases off (zlen p)) as [Hl|Hl]; [rewrite zdrop_app_l by done; apply until_nul_app|].
  by rewrite zdrop_all by lia.
Qed.

Lemma packed_text_more p e t : PACKED_MESSAGE <= zlen p -> packed_text p = Some t -> packed_text (p ++ e) = Some t.
Proof.
  unfold PACKED_MESSAGE. intros Hl. unfold packed_text. destruct (c_str_at 4 p) as [c|] eqn:Hc; [|done]. rewrite (c_str_at_more 4 p e c Hc).
  unfold msg_length, msg_magic, msg_checksum. by rewrite !slice_app_l by lia.
Qed.

Section More.
Context (localtime : Z -> tm) (inet_ntop6 : list Z -> list Z).

Lemma sockaddr_at_more off p e t : sockaddr_at inet_ntop6 off p = Some t -> sockaddr_at inet_ntop6 off (p ++ e) = Some t.
Proof.
  unfold sockaddr_at. intros Hs. pose proof (zlen_nonneg e).
  destruct (Z.le_gt_cases off (zlen p)) as [Hl|Hl]; [|rewrite zdrop_all in Hs by lia; done].
  rewrite zdrop_app_l by done. set (a := zdrop off p) in *.
  assert (8 <= zlen a) as H8.
  { destruct (ss_family a =? AF_INET6); [destruct (Z.ltb_spec (zlen a) 24)|destruct (Z.ltb_spec (zlen a) 8)]; (done || lia). }
  assert (ss_family (a ++ e) = ss_family a) as Hf by (unfold ss_family; by rewrite slice_app_l by lia).
  unfold sockaddr_text, ss_port, sin_addr, sin6_addr in *. rewrite Hf, zlen_app, !(slice_app_l _ 2), (slice_app_l _ 4) by lia.
  destruct (Z.eqb_spec (ss_family a) AF_INET6) as [E|E].
  - destruct (Z.ltb_spec (zlen a) 24); [done|]. destruct (Z.ltb_spec (zlen a + zlen e) 24); [lia|]. by rewrite slice_app_l by lia.
  - destruct (Z.ltb_spec (zlen a) 8); [done|]. by destruct (Z.ltb_spec (zlen a + zlen e) 8); [lia|].
Qed.

Lemma line_rest_more kind p e t :
  line_rest inet_ntop6 kind p = Some t -> line_rest inet_ntop6 kind (p ++ e) = Some t.
Proof.
  unfold line_rest. rewrite zlen_app. pose proof (zlen_nonneg e). destruct (kind =? BITCOIN_MSG).
  - unfold PACKED_MESSAGE. destruct (Z.ltb_spec (zlen p) (13 + 5 + 24)); [done|]. destruct (Z.ltb_spec (zlen p + zlen e) (13 + 5 + 24)); [lia|].
    rewrite zdrop_app_l by lia. destruct (packed_text (zdrop 18 p)) as [c|] eqn:Hc; [|done].
    rewrite (packed_text_more _ e c); [|unfold PACKED_MESSAGE; rewrite zlen_zdrop; lia|done]. by rewrite !slice_app_l by lia.
  - destruct (kind =? BITCOIN).
    + destruct (Z.ltb_spec (zlen p) 57); [done|]. destruct (Z.ltb_spec (zlen p + zlen e) 57); [lia|]. cbv zeta.
      rewrite !slice_app_l by lia. destruct (sockaddr_at inet_ntop6 21 p) as [r|] eqn:Hr; [|done].
      destruct (sockaddr_at inet_ntop6 37 p) as [l|] eqn:Hl; [|done].
      rewrite (sockaddr_at_more 21 p e r Hr), (sockaddr_at_more 37 p e l Hl).
      destruct (_ =? 0); [done|]. destruct (c_str_at 57 p) as [c|] eqn:Hc; [|done]. by rewrite (c_str_at_more 57 p e c Hc).
    + destruct (c_str_at 13 p) as [c|] eqn:Hc; [|done]. by rewrite (c_str_at_more 13 p e c Hc).
Qed.

Abbreviation the_line := (line localtime inet_ntop6).
Abbreviation printm := (print_message localtime inet_ntop6).

Lemma line_more p e t : the_line p = Some t -> the_line (p ++ e) = Some t.
Proof.
  unfold line. rewrite zlen_app. pose proof (zlen_nonneg e). destruct (Z.ltb_spec (zlen p) 13); [done|].
  destruct (Z.ltb_spec (zlen p + zlen e) 13); [lia|]. unfold log_timestamp, log_source, log_kind. rewrite !slice_app_l by lia.
  destruct (line_rest inet_ntop6 (le_val (slice 4 1 p)) p) as [c|] eqn:Hc; [|done]. by rewrite (line_rest_more _ p e c Hc).
Qed.

Definition printable (r : list Z) : Prop := zlen r < 2 ^ 32 /\ is_Some (the_line r).

Lemma printable_len r : printable r -> 13 <= zlen r.
Proof. intros [_ [l Hl]]. unfold line in Hl. destruct (Z.ltb_spec (zlen r) 13); [done|lia]. Qed.

Lemma printable_readable r : printable r -> readable printm r.
Proof.
  intros Hr. pose proof (printable_len r Hr). destruct Hr as [Hz [l Hl]]. split; [lia|]. intros mem x Hmem. unfold print_message.
  rewrite <- (ztake_zdrop (zlen r) mem), Hmem. by rewrite (line_more r _ l Hl), Hl.
Qed.

(** All lines. *)
Definition lines (rs : list (list Z)) : list Z := concat (map (fun r => default [] (the_line r)) rs).

Lemma each_record_lines rs out : Forall printable rs -> each_record printm rs out = Ret tt (out ++ lines rs).
Proof.
  intros HF. revert out. induction HF as [|r rs Hr HF IH]; intros out; [simpl; by rewrite app_nil_r|].
  cbn [each_record]. destruct Hr as [_ [l Hl]]. unfold bind, print_message. rewrite Hl. unfold modify. rewrite IH.
  unfold lines. cbn [map concat]. rewrite Hl. simpl. by rewrite <- app_assoc.
Qed.

(** One record of the file. *)
Lemma cf_read_ok n s :
  f_script (cf_file s) = [] -> 0 <= n <= MAX_RW -> n <= cf_size s ->
  let bs := ztake n (f_rest (cf_file s)) in
  cf_read n s = Ret (zlen bs) (CFile (File (f_data (cf_file s)) (f_pos (cf_file s) + zlen bs) [] (f_errno (cf_file s)))
                                (bs ++ zdrop (zlen bs) (cf_buf s)) (cf_size s) (cf_out s)).
Proof.
  intros Hs Hn Hsz bs. unfold cf_read, fread. rewrite Hs, Z.min_l by lia. fold bs.
  assert (zlen bs <= n) by (unfold bs; rewrite zlen_ztake; lia). by destruct (Z.ltb_spec (cf_size s) (zlen bs)); [lia|].
Qed.

Lemma grown_ok n : 0 <= n < 2 ^ 31 - 4096 -> n <= grown n.
Proof.
  intros Hn. unfold grown, PAGE_SIZE. rewrite (u32_small (n * 2)) by lia.
  pose proof (Z.div_mod (n * 2) 4096). pose proof (Z.mod_pos_bound (n * 2) 4096). rewrite u32_small by lia. lia.
Qed.

(** Sizes for which the buffer grows as it is meant to. *)
Definition CF_LIMIT : Z := 2 ^ 31 - 4096.

Lemma f_rest_moved f n e : 0 <= f_pos f -> 0 <= n -> f_rest (File (f_data f) (f_pos f + n) [] e) = zdrop n (f_rest f).
Proof. intros. unfold f_rest. simpl. by rewrite zdrop_zdrop by lia. Qed.

(** The state after [n] bytes were read. *)
Definition cf_after (n : Z) (size : Z) (buf : list Z) (s : cfile) : cfile :=
  CFile (File (f_data (cf_file s)) (f_pos (cf_file s) + n) [] (f_errno (cf_file s))) buf size (cf_out s).

(** The two steps of the loop. *)
Lemma cf_len_step fuel x s bs rest :
  f_script (cf_file s) = [] -> 4 <= cf_size s -> zlen bs = 4 -> f_rest (cf_file s) = bs ++ rest ->
  exists buf, cf_loop localtime inet_ntop6 (S fuel) true x s =
    cf_loop localtime inet_ntop6 fuel false (ntoh32 (le_val bs)) (cf_after 4 (cf_size s) buf s).
Proof.
  intros Hs Hz Hb Hr. cbn [cf_loop]. pose proof (cf_read_ok 4 s Hs) as Hrd. cbv zeta in Hrd.
  rewrite Hr, (ztake_app_exact 4) in Hrd by done. rewrite Hb in Hrd. unfold MAX_RW in Hrd. specialize (Hrd ltac:(lia) Hz). run_step Hrd.
  change (negb (4 =? 4)) with false. cbn match. erewrite bind_ret by done. cbn [cf_buf]. rewrite slice_0, ztake_app_exact by done. by eexists.
Qed.

Lemma cf_item_step n s :
  f_script (cf_file s) = [] -> 0 <= n < CF_LIMIT ->
  exists s0 buf size, let bs := ztake n (f_rest (cf_file s)) in
    (if cf_size s <? n then grow_buf (grown n) else ret tt) s = Ret tt s0 /\
    cf_read n s0 = Ret (zlen bs) (cf_after (zlen bs) size (bs ++ buf) s) /\
    (4 <= cf_size s -> 4 <= size).
Proof.
  intros Hs Hn. unfold CF_LIMIT in Hn. pose proof (grown_ok n Hn) as Hg. destruct (Z.ltb_spec (cf_size s) n) as [Hlt|Hge].
  - unfold grow_buf, modify. set (s1 := CFile _ _ _ _). pose proof (cf_read_ok n s1 Hs) as Hrd. unfold MAX_RW in Hrd. specialize (Hrd ltac:(lia) Hg).
    eexists s1, _, (grown n). cbv zeta. split; [done|]. split; [exact Hrd|lia].
  - pose proof (cf_read_ok n s Hs) as Hrd. unfold MAX_RW in Hrd. specialize (Hrd ltac:(lia) Hge).
    eexists s, _, (cf_size s). cbv zeta. split; [done|]. split; [exact Hrd|done].
Qed.

Lemma cf_loop_prints rs tail fuel s x :
  Forall (fun r => printable r /\ zlen r < CF_LIMIT) rs -> cut_record tail = None -> Forall is_byte tail ->
  be_val (ztake 4 tail) < CF_LIMIT ->
  f_script (cf_file s) = [] -> f_rest (cf_file s) = frames rs ++ tail -> 0 <= f_pos (cf_file s) -> 4 <= cf_size s ->
  (2 * length rs + 2 <= fuel)%nat ->
  exists s', cf_loop localtime inet_ntop6 fuel true x s = Ret tt s' /\ cf_out s' = cf_out s ++ lines rs.
Proof.
  intros HF Hcut HB Hbv. revert fuel s x. induction HF as [|r rs [Hp Hr] HF IH]; intros fuel s x Hs Hrest Hpos Hz Hf;
    (destruct fuel as [|[|fuel]]; [simpl in Hf; lia..|]).
  - change (frames [] ++ tail) with tail in Hrest. unfold lines. simpl concat. rewrite app_nil_r.
    unfold cut_record in Hcut. destruct (Z.ltb_spec (zlen tail) 4) as [Hl|Hl].
    + cbn [cf_loop]. pose proof (cf_read_ok 4 s Hs) as Hrd. cbv zeta in Hrd. unfold MAX_RW in Hrd. specialize (Hrd ltac:(lia) Hz).
      rewrite Hrest, ztake_all in Hrd by lia. run_step Hrd. destruct (Z.eqb_spec (zlen tail) 4); [lia|]. by eexists.
    + destruct (Z.ltb_spec (zlen tail) (4 + be_val (ztake 4 tail))) as [Hc|]; [|done].
      destruct (cf_len_step (S fuel) x s (ztake 4 tail) (zdrop 4 tail)) as (buf&->); [done|done|rewrite zlen_ztake; lia|by rewrite ztake_zdrop|].
      assert (ntoh32 (le_val (ztake 4 tail)) = be_val (ztake 4 tail)) as ->.
      { apply bswap_val; [by apply Forall_take|]. unfold ztake. rewrite length_take. unfold zlen in Hl. lia. }
      pose proof (be_val_bound (ztake 4 tail) (Forall_take _ _ _ HB)) as [Hb0 _].
      set (n := be_val (ztake 4 tail)) in *. set (s1 := cf_after 4 _ _ s).
      assert (f_rest (cf_file s1) = zdrop 4 tail) as Hr1 by (unfold s1, cf_after; cbn [cf_file]; rewrite f_rest_moved by lia; by rewrite Hrest).
      destruct (cf_item_step n s1) as (s0&buf2&size&Hg&Hit&_); [done|lia|]. rewrite Hr1 in Hit. cbn [cf_loop]. erewrite bind_ret by done.
      run_step Hg. run_step Hit. assert (zlen (ztake n (zdrop 4 tail)) < n) as Hlt by (rewrite zlen_ztake, zlen_zdrop; lia).
      pose proof (zlen_nonneg (ztake n (zdrop 4 tail))). unfold CF_LIMIT in Hbv. rewrite u32_small by lia.
      destruct (Z.eqb_spec (zlen (ztake n (zdrop 4 tail))) n); [lia|]. by eexists.
  - rewrite frames_cons in Hrest. unfold frame in Hrest. rewrite <- !app_assoc in Hrest. pose proof (printable_len r Hp) as H13.
    destruct (cf_len_step (S fuel) x s (be_bytes 4 (zlen r)) (r ++ frames rs ++ tail)) as (buf&->); [done|done|by rewrite zlen_be_bytes|done|].
    assert (ntoh32 (le_val (be_bytes 4 (zlen r))) = zlen r) as ->.
    { unfold ntoh32. rewrite bswap_val; [|apply be_bytes_are_bytes|done]. apply be_val_bytes_small. destruct Hp. simpl. lia. }
    set (s1 := cf_after 4 _ _ s).
    assert (f_rest (cf_file s1) = r ++ frames rs ++ tail) as Hr1.
    { unfold s1, cf_after. cbn [cf_file]. rewrite f_rest_moved by lia. rewrite Hrest. apply zdrop_app_exact. by rewrite zlen_be_bytes. }
    destruct (cf_item_step (zlen r) s1) as (s0&buf2&size&Hg&Hit&Hsz); [done|lia|]. rewrite Hr1, ztake_app_exact in Hit by done.
    cbn [cf_loop]. erewrite bind_ret by done. run_step Hg. run_step Hit. unfold CF_LIMIT in *. rewrite u32_small, Z.eqb_refl by lia. cbn [negb].
    destruct Hp as [_ [l Hl]].
    assert (cf_print localtime inet_ntop6 (cf_after (zlen r) size (r ++ buf2) s1) =
      Ret tt (CFile (cf_file (cf_after (zlen r) size (r ++ buf2) s1)) (r ++ buf2) size (cf_out s ++ l))) as Hpr.
    { unfold cf_print, print_message. cbn [cf_buf cf_after]. by rewrite (line_more r buf2 l Hl). }
    run_step Hpr. set (s2 := CFile _ _ _ _).
    destruct (IH fuel s2 (zlen r)) as (s'&Hr'&Ho).
    + done.
    + unfold s2. cbn [cf_file]. unfold cf_after at 1. cbn [cf_file]. rewrite f_rest_moved; [|unfold s1; simpl; lia|lia].
      rewrite Hr1. by apply zdrop_app_exact.
    + unfold s2. simpl. lia.
    + unfold s2. simpl. apply Hsz. exact Hz.
    + simpl in Hf. lia.
    + exists s'. split; [exact Hr'|]. rewrite Ho. unfold s2, lines. cbn [cf_out map concat]. rewrite Hl. simpl. by rewrite <- app_assoc.
Qed.
End More.

(** The records that have no line are among them those of the connector: it
    writes two sockaddr_storage where print_message has two sockaddr_in, so what
    is printed as the local address is the padding of the remote one, of no
    family, and operator<< reads an array nobody has written. *)
Lemma connector_record_unprintable localtime inet_ntop6 src now u id r l t :
  event_ok (LConn u id r l t) -> slice 16 2 r = [0; 0] ->
  line localtime inet_ntop6 (sourced (src, record_of now (LConn u id r l t))) = None.
Proof.
  intros (Hr&Hl&Ht) Hpad. set (rec := sourced _). unfold SOCKADDR_STORAGE in *. pose proof (zlen_nonneg t).
  assert (zlen rec = 281 + zlen t) as Hz by (unfold rec, sourced, record_of; cbn [fst snd]; autorewrite with zlist; lia).
  assert (slice 4 1 rec = [BITCOIN]) as H4 by (unfold rec, sourced, record_of; cbn [fst snd]; field_at).
  assert (slice 37 2 rec = [0; 0]) as H37.
  { unfold rec, sourced, record_of. cbn [fst snd]. do 5 (rewrite slice_app_r; [|autorewrite with zlist; lia]).
    autorewrite with zlist. change (_ - _) with 16. rewrite slice_app_l by lia. exact Hpad. }
  assert (sockaddr_at inet_ntop6 37 rec = None) as Hs.
  { unfold sockaddr_at, sockaddr_text, ss_family. cbv zeta. rewrite zlen_zdrop by lia.
    unfold slice at 1 2 3. rewrite !zdrop_neg by lia. fold (slice 37 2 rec). rewrite H37. by destruct (_ <? _). }
  unfold line, log_kind. rewrite H4. destruct (Z.ltb_spec (zlen rec) 13); [done|].
  unfold line_rest. change (le_val [BITCOIN]) with BITCOIN. rewrite Z.eqb_refl. change (BITCOIN =? BITCOIN_MSG) with false. cbn match.
  destruct (Z.ltb_spec (zlen rec) 57); [done|]. cbv zeta. rewrite Hs. by destruct (sockaddr_at inet_ntop6 21 rec).
Qed.

(** C28. The consoles print the log: one line for every record, in order, the
    same whether the records come from the log server, in whatever segments, or
    from a file that verbatim wrote and that may end within a record; the socket
    console ends when the server closes the connection. This is for records that
    have a line ([printable]): they hold all that their type announces, their
    strings end in them, and the two addresses of a BITCOIN record are of a
    family operator<< knows, with a text that fits into its 24 bytes (the
    connector's own records are not, see [connector_record_unprintable]); and
    the lengths in the file are below 2^31 - 4096, where the buffer of
    console_from_file grows as it is meant to. *)
Theorem consoles_print page localtime inet_ntop6 rs tail k :
  0 < page <= 2 ^ 62 ->
  Forall (fun r => printable localtime inet_ntop6 r /\ zlen r < CF_LIMIT) rs ->
  cut_record tail = None -> Forall is_byte tail -> be_val (ztake 4 tail) < CF_LIMIT ->
  segs_ok (rx k) = true -> avail_all never (rx k) = frames rs -> last_event never (rx k) = Disconnected ->
  (exists s, console_main localtime inet_ntop6 page k = Ret Disconnected s /\
     l_client s = lines localtime inet_ntop6 rs) /\
  (exists s, console_from_file_main localtime inet_ntop6 (frames rs ++ tail) = Ret tt s /\
     cf_out s = lines localtime inet_ntop6 rs).
Proof.
  intros Hp HF Hcut HB Hbv Hsg Hav Hend. split.
  - assert (Forall (printable localtime inet_ntop6) rs) as HP by (eapply Forall_impl; [exact HF|]; by intros ? []).
    destruct (stanza_client_loop (print_message localtime inet_ntop6) page never rs (LReader (Reader (read_buffer_ctor page 4) k) true [])
      (lines localtime inet_ntop6 rs)) as (s&Hr&_&Hc).
    + done.
    + by apply l_ready_new.
    + eapply Forall_impl; [exact HP|]. apply printable_readable.
    + exact Hav.
    + cbn [l_client]. rewrite each_record_lines by done. done.
    + exists s. split; [|done]. unfold console_main. cbv zeta. rewrite Hr. cbn [l_read sk]. by rewrite Hend.
  - unfold console_from_file_main. destruct (cf_loop_prints localtime inet_ntop6 rs tail (S (S (length (frames rs ++ tail))))
      (CFile (File (frames rs ++ tail) 0 [] 0) [] (PAGE_SIZE * MULT) []) 0) as (s&Hr&Ho); try done.
    + clear -HF. rewrite length_app. enough (2 * length rs <= length (frames rs))%nat by lia.
      induction rs as [|r rs IH]; [simpl; lia|]. apply Forall_cons_1 in HF as [_ HF]. specialize (IH HF). rewrite frames_cons, length_app.
      pose proof (zlen_frame r). pose proof (zlen_nonneg r). unfold zlen in *. simpl. lia.
    + by exists s.
Qed.

(** Two records, the second cut between two segments; the file ends within a
    length. *)
Definition demo_tm (t : Z) : tm := Tm 70 0 1 0 16 40 0.
Definition demo_records : list (list Z) :=
  [sourced (7, record_of 1000 (LText DEBUG [text "hi"])); sourced (7, record_of 1000 (LText DEBUG [text "there"]))].
Definition demo_console_sock : sock :=
  Sock [RData (ztake 30 (frames demo_records)); RData (zdrop 30 (frames demo_records)); REof] [] [] 0.

Lemma consoles_print_witness :
  (exists s, console_main demo_tm (fun _ => []) 4096 demo_console_sock = Ret Disconnected s /\
     l_client s = text "1970-01-01T00:16:40Z (7) DEBUG hi" ++ [10] ++ text "1970-01-01T00:16:40Z (7) DEBUG there" ++ [10]) /\
  (exists s, console_from_file_main demo_tm (fun _ => []) (frames demo_records ++ [0; 0]) = Ret tt s /\
     cf_out s = text "1970-01-01T00:16:40Z (7) DEBUG hi" ++ [10] ++ text "1970-01-01T00:16:40Z (7) DEBUG there" ++ [10]).
Proof.
  apply (consoles_print 4096 demo_tm (fun _ => []) demo_records [0; 0] demo_console_sock).
  - lia.
  - repeat constructor; try (vm_compute; reflexivity); eexists; vm_compute; reflexivity.
  - reflexivity.
  - repeat constructor; vm_compute; congruence.
  - reflexivity.
  - vm_compute. reflexivity.
  - vm_compute. reflexivity.
  - reflexivity.
Defined.
