(* ===== verification/BcWatch.v ===== *)
(** * bcwatch: what the connector says about its connections

    clients/bcwatch.cpp. The records of type BITCOIN, switched to host byte
    order and handed to two callbacks: [ev_handler] does it in an event loop,
    [bcwatch] on a blocking descriptor. The callbacks are the client's, programs
    on its state [X]. *)

From S2P Require Import Prelude.
From S2P Require Import Bytes.
From S2P Require Import WrappedBuffer.
From S2P Require Import Net.
From S2P Require Import ReadBuffer.
From S2P Require Import LogServer.
From S2P Require Import BitcoinWire.
From S2P Require Import Logger.
From S2P Require Import BitcoinHandler.
From S2P Require Import LogFormat.
From S2P Require Import ClientReader.
From S2P Require Import LogReader.

(** struct bitcoin_log_format, 57 bytes and the text; the fields in host byte
    order, the addresses as the 16 bytes of a sockaddr_in. *)
Definition BC_MSG : Z := 57.

Record bc_channel_msg := BcMsg {
  bm_source : Z; bm_type : Z; bm_timestamp : Z;
  bm_handle_id : Z; bm_update_type : Z;
  bm_remote : list Z; bm_local : list Z;
  bm_text_len : Z; bm_text : list Z }.

(** buf2msg: the first [len] bytes of the buffer are copied; the members are
    read and written in the copy, the assertions in the order of the source. *)
Definition buf2msg {S} (buf : list Z) (len : Z) : prog S bc_channel_msg :=
  let msg := ztake len buf in
  if zlen msg <? 5 then crash OutOfBounds
  else
    do! assert (log_kind msg =? BITCOIN) in
    if zlen msg <? BC_MSG then crash OutOfBounds
    else
      let m := BcMsg (log_source msg) (log_kind msg) (log_timestamp msg)
                 (ntoh32 (le_val (slice 13 4 msg))) (ntoh32 (le_val (slice 17 4 msg)))
                 (slice 21 16 msg) (slice 37 16 msg)
                 (ntoh32 (le_val (slice 53 4 msg))) (zdrop BC_MSG msg) in
      do! assert (BC_MSG + bm_text_len m =? len) in
      ret m.

(** [update_type & (CONNECT_SUCCESS | ACCEPT_SUCCESS)] *)
Definition is_connect (m : bc_channel_msg) : bool := has (bm_update_type m) (Z.lor CONNECT_SUCCESS ACCEPT_SUCCESS).

Section Watchers.
Context {X : Type} (page : Z) (strerror : Z -> list Z).
Context (on_connect on_disconnect : bc_channel_msg -> prog X unit) (on_fd_loss : prog X unit).

(** What both classes do with a complete message. *)
Definition dispatch (buf : list Z) (len : Z) : prog X unit :=
  let! msg := buf2msg buf len in
  if is_connect msg then on_connect msg else on_disconnect msg.

(** ** class ev_handler *)

Record ev_handler := EvHandler {
  e_in : lreader X;
  e_io : evio;
  e_log : list log_event;
  e_closed : list Z }.

Definition ev_handler_ctor (f : Z) (k : sock) (x : X) : ev_handler :=
  EvHandler (LReader (Reader (read_buffer_ctor page 4) k) true x) (io_start (EvIo f ev_READ false)) [] [].

Definition e_glog (e : log_event) : prog ev_handler unit :=
  modify (fun h => EvHandler (e_in h) (e_io h) (e_log h ++ [e]) (e_closed h)).
Definition on_e_in {A} (c : prog (lreader X) A) : prog ev_handler A :=
  zoom e_in (fun l h => EvHandler l (e_io h) (e_log h) (e_closed h)) c.

Definition ev_suicide : prog ev_handler unit :=
  do! modify (fun h => EvHandler (e_in h) (io_set_fd (-1) (io_stop (e_io h))) (e_log h) (e_closed h ++ [fd (e_io h)])) in
  on_e_in (on_l_client on_fd_loss).

Definition ev_dtor (h : ev_handler) : ev_handler :=
  if 0 <=? fd (e_io h) then EvHandler (e_in h) (io_stop (e_io h)) (e_log h) (e_closed h ++ [fd (e_io h)]) else h.

Definition watch_again (e : Z) : bool := (e =? EWOULDBLOCK) || (e =? EAGAIN).

Definition ev_io_cb (revents : Z) : prog ev_handler unit :=
  if has revents ev_READ then
    let! h := get in
    let! e := on_e_in (read_loop page watch_again (stanza dispatch) (1 + length (stream (l_read (e_in h))))) in
    match e with
    | Failed err => do! e_glog (LText ERROR [strerror err; text "(bcwatcher)"]) in ev_suicide
    | Eof => do! e_glog (LText ERROR [text "(bcwatcher)"]) in ev_suicide
    | _ => ret tt
    end
  else ret tt.

(** ** class bcwatch *)

(** bcwatch::bcwatch on a descriptor whose flags say whether it blocks *)
Definition bcwatch_ctor {S} (nonblock : bool) (k : sock) (x : X) : prog S (lreader X) :=
  do! assert (negb nonblock) in
  ret (LReader (Reader (read_buffer_ctor page 4) k) true x).

(** The loop of loop_once; [false] while recv has not returned. *)
Fixpoint once_loop (fuel : nat) : prog (lreader X) bool := fun s =>
  if blocks (l_read s) then Ret false s else
  match fuel with
  | O => Ret false s
  | S fuel =>
      (let! res := zoom rdr set_rdr (ReadBuffer.do_read page) in
       if fst res <=? 0 then raise (RuntimeError "Error reading: ")
       else
         let! s := get in
         if hungry (l_read s) then once_loop fuel
         else
           do! stanza dispatch in
           if l_len s then once_loop fuel else ret true) s
  end.

Definition loop_once : prog (lreader X) bool :=
  do! modify (with_l_len true) in
  fun s => once_loop (turns (l_read s)) s.

(** [n] turns of loop_forever, ended early by a recv that does not return. *)
Fixpoint loop_forever (n : nat) : prog (lreader X) unit :=
  match n with
  | O => ret tt
  | S n => let! b := loop_once in if b then loop_forever n else ret tt
  end.
End Watchers.
Arguments ev_handler : clear implicits.

(** ** Messages as they are documented *)

Definition bc_record (m : bc_channel_msg) : list Z :=
  be_bytes 4 (bm_source m) ++ [bm_type m] ++ be_bytes 8 (bm_timestamp m) ++
  be_bytes 4 (bm_handle_id m) ++ be_bytes 4 (bm_update_type m) ++ bm_remote m ++ bm_local m ++
  be_bytes 4 (bm_text_len m) ++ bm_text m.

Definition bc_ok (m : bc_channel_msg) : Prop :=
  0 <= bm_source m < 2 ^ 32 /\ bm_type m = BITCOIN /\ 0 <= bm_timestamp m < 2 ^ 64 /\
  0 <= bm_handle_id m < 2 ^ 32 /\ 0 <= bm_update_type m < 2 ^ 32 /\
  zlen (bm_remote m) = 16 /\ zlen (bm_local m) = 16 /\
  bm_text_len m = zlen (bm_text m) /\ zlen (bm_text m) < 2 ^ 31.

Lemma zlen_bc_record m : bc_ok m -> zlen (bc_record m) = BC_MSG + zlen (bm_text m).
Proof.
  intros (_&_&_&_&_&Hr&Hl&_). unfold bc_record. rewrite !zlen_app, !zlen_be_bytes, Hr, Hl, zlen_cons, zlen_nil. unfold BC_MSG. lia.
Qed.

Lemma ntoh32_be v : 0 <= v < 2 ^ 32 -> ntoh32 (le_val (be_bytes 4 v)) = v.
Proof. intros. unfold ntoh32. rewrite bswap_val; [|apply be_bytes_are_bytes|done]. by apply be_val_bytes_small. Qed.

Lemma ntoh64_be v : 0 <= v < 2 ^ 64 -> ntoh64 (le_val (be_bytes 8 v)) = v.
Proof. intros. unfold ntoh64. rewrite bswap_val; [|apply be_bytes_are_bytes|done]. by apply be_val_bytes_small. Qed.

(** Reading back what was laid out. *)
Lemma buf2msg_record {S} (m : bc_channel_msg) mem (s : S) :
  bc_ok m -> ztake (zlen (bc_record m)) mem = bc_record m -> buf2msg mem (zlen (bc_record m)) s = Ret m s.
Proof.
  intros Hm Hmem. pose proof (zlen_bc_record m Hm) as Hz. pose proof (zlen_nonneg (bm_text m)) as Ht.
  destruct Hm as (Hs&Hk&Hti&Hh&Hu&Hr&Hl&Htl&Htb). unfold buf2msg. rewrite Hmem.
  assert (slice 0 4 (bc_record m) = be_bytes 4 (bm_source m)) as F0 by (unfold bc_record; field_at).
  assert (slice 4 1 (bc_record m) = [bm_type m]) as F1 by (unfold bc_record; field_at).
  assert (slice 5 8 (bc_record m) = be_bytes 8 (bm_timestamp m)) as F2 by (unfold bc_record; field_at).
  assert (slice 13 4 (bc_record m) = be_bytes 4 (bm_handle_id m)) as F3 by (unfold bc_record; field_at).
  assert (slice 17 4 (bc_record m) = be_bytes 4 (bm_update_type m)) as F4 by (unfold bc_record; field_at).
  assert (slice 21 16 (bc_record m) = bm_remote m) as F5 by (unfold bc_record; field_at).
  assert (slice 37 16 (bc_record m) = bm_local m) as F6 by (unfold bc_record; field_at).
  assert (slice 53 4 (bc_record m) = be_bytes 4 (bm_text_len m)) as F7 by (unfold bc_record; field_at).
  assert (zdrop 57 (bc_record m) = bm_text m) as F8.
  { unfold bc_record. repeat (rewrite zdrop_app_r; [|autorewrite with zlist; lia]). apply zdrop_neg. autorewrite with zlist. lia. }
  unfold BC_MSG in *.
  destruct (Z.ltb_spec (zlen (bc_record m)) 5); [lia|]. unfold log_kind, log_source, log_timestamp.
  rewrite F0, F1, F2, F3, F4, F5, F6, F7, F8. rewrite !ntoh32_be, ntoh64_be by lia. cbn [le_val]. rewrite Z.add_0_r, Hk.
  erewrite bind_ret by done. destruct (Z.ltb_spec (zlen (bc_record m)) 57); [lia|].
  cbn [bm_text_len]. rewrite Htl, Hz, Z.eqb_refl. erewrite bind_ret by done. unfold ret. destruct m; simpl in *. by subst.
Qed.

Section Delivery.
Context {X : Type} (page : Z) (Hpage : 0 < page <= 2 ^ 62) (strerror : Z -> list Z).
Context (on_connect on_disconnect : bc_channel_msg -> prog X unit) (on_fd_loss : prog X unit).

(** The callbacks, message by message. *)
Fixpoint each_msg (ms : list bc_channel_msg) : prog X unit :=
  match ms with
  | [] => ret tt
  | m :: ms => do! (if is_connect m then on_connect m else on_disconnect m) in each_msg ms
  end.

Abbreviation act := (dispatch on_connect on_disconnect).

Lemma dispatch_record m mem x :
  bc_ok m -> ztake (zlen (bc_record m)) mem = bc_record m ->
  act mem (zlen (bc_record m)) x = (if is_connect m then on_connect m else on_disconnect m) x.
Proof. intros Hm Hmem. unfold dispatch. by erewrite bind_ret by (by apply buf2msg_record). Qed.

Lemma bc_record_readable m : bc_ok m -> readable act (bc_record m).
Proof.
  intros Hm. split.
  - rewrite zlen_bc_record by done. destruct Hm as (_&_&_&_&_&_&_&_&?). pose proof (zlen_nonneg (bm_text m)). unfold BC_MSG. lia.
  - intros mem x Hmem. rewrite !dispatch_record; [done|done| |done|done]. by apply ztake_all.
Qed.

Lemma bc_records_readable ms : Forall bc_ok ms -> Forall (readable act) (map bc_record ms).
Proof. intros HF. apply Forall_map. eapply Forall_impl; [exact HF|]. intros m. apply bc_record_readable. Qed.

Lemma each_record_msgs ms x : Forall bc_ok ms -> each_record act (map bc_record ms) x = each_msg ms x.
Proof.
  intros HF. revert x. induction HF as [|m ms Hm HF IH]; intros x; [done|]. cbn [each_record each_msg map]. unfold bind.
  rewrite dispatch_record by (done || by apply ztake_all). destruct (_ x); [apply IH|done|done].
Qed.

(** One item read by the blocking loop. *)
Lemma once_loop_item fuel (s : lreader X) :
  RWF (l_read s) -> 0 < to_read (l_read s) <= zlen (stream (l_read s)) -> (turns (l_read s) <= fuel)%nat ->
  exists fuel' r, once_loop page on_connect on_disconnect fuel s =
      (do! stanza act in if l_len s then once_loop page on_connect on_disconnect fuel' else ret true) (set_rdr r s) /\
    RWF r /\ to_read r = 0 /\ consumed r = consumed (l_read s) ++ ztake (to_read (l_read s)) (stream (l_read s)) /\
    stream r = zdrop (to_read (l_read s)) (stream (l_read s)) /\ (turns r <= fuel')%nat.
Proof.
  revert s. induction fuel as [|fuel IH]; intros s HW Hto Hf; [unfold turns in Hf; lia|]. cbn [once_loop].
  assert (stream (l_read s) <> []) as Hne by (intros E; rewrite E in Hto; change (zlen []) with 0 in Hto; lia).
  assert (blocks (l_read s) = false) as ->.
  { unfold blocks. destruct (Z.leb_spec (rb_size_ (rb (l_read s))) (rb_loc_ (rb (l_read s)))) as [Hle|]; [|done]. cbn [andb].
    pose proof (zlen_pending _ HW) as Hpl. destruct (rx (sk (l_read s))) eqn:Hrx; [|done]. exfalso. apply Hne. unfold stream.
    rewrite Hrx, app_nil_r. apply zlen_0_nil. destruct HW. lia. }
  destruct (do_read_progress page Hpage (l_read s)) as (d&r1&Hr&HW1&Hd&Hs&Hc1&Ht1&_&Ha&_&_); [done|lia|done|].
  erewrite bind_ret by (eapply zoom_ret, Hr). cbn [fst]. destruct (Z.leb_spec (zlen d) 0); [lia|].
  erewrite bind_ret by done. unfold hungry. change (l_read (set_rdr r1 s)) with r1. rewrite Ht1.
  assert (turns r1 <= fuel)%nat as Hf1.
  { rewrite turns_split in Hf |- *. rewrite Hs, length_app, <- Ha in Hf. assert (0 < length d)%nat by (unfold zlen in Hd; lia). lia. }
  assert (zlen (stream (l_read s)) = zlen d + zlen (stream r1)) as Hz by (by rewrite Hs, zlen_app).
  destruct (Z.ltb_spec 0 (to_read (l_read s) - zlen d)) as [Hlt|Hge].
  - destruct (IH (set_rdr r1 s)) as (fuel'&r&Hl&HWr&Htr&Hcr&Hsr&Hfr); change (l_read (set_rdr r1 s)) with r1 in *; [done|lia|done|].
    exists fuel', r. split; [exact Hl|]. rewrite Hcr, Hsr, Hc1, Ht1, Hs.
    rewrite ztake_app_r, zdrop_app_r, app_assoc by lia. by split_and!.
  - assert (to_read (l_read s) = zlen d) as Htd by lia. exists fuel, r1. split; [done|]. rewrite Hc1, Hs, Htd.
    rewrite ztake_app_exact, zdrop_app_exact by done. split_and!; try done. lia.
Qed.

(** loop_once reads one record and acts on it. *)
Lemma loop_once_record (s : lreader X) r rest x' :
  l_ready s -> readable act r -> stream (l_read s) = frame r ++ rest ->
  act r (zlen r) (l_client s) = Ret tt x' ->
  exists s', loop_once page on_connect on_disconnect s = Ret true s' /\ l_ready s' /\ l_client s' = x' /\ stream (l_read s') = rest.
Proof.
  intros Hrdy Hrd Hst Hact. pose proof Hrdy as (Hlen&HW&Hcon&Hto). pose proof Hrd as [Hz _].
  unfold loop_once. erewrite bind_ret by done.
  assert (with_l_len true s = s) as -> by (destruct s; simpl in *; by subst).
  unfold frame in Hst. rewrite <- app_assoc in Hst. pose proof (zlen_nonneg rest).
  destruct (once_loop_item (turns (l_read s)) s) as (f1&r1&Hl1&HW1&Ht1&Hc1&Hs1&Hf1); [done| |done|].
  { rewrite Hto, Hst, !zlen_app, zlen_be_bytes. lia. }
  rewrite Hl1, Hlen. rewrite Hcon, Hto, Hst in Hc1. rewrite Hto, Hst in Hs1. rewrite app_nil_l in Hc1.
  rewrite ztake_app_exact in Hc1 by (by rewrite zlen_be_bytes). rewrite zdrop_app_exact in Hs1 by (by rewrite zlen_be_bytes).
  destruct (stanza_ok act (set_rdr r1 s) (true, (l_client s, [r])) (be_bytes 4 (zlen r)) ((false, (l_client s, [r])), [], zlen r))
    as (s2&Hst2&((Hl2&Hx2&HF2)&HW2&HI2&Hc2&Ht2)&Hs2&Hk2).
  { by split_and!; [split_and!; [..|by constructor]|..]. }
  { done. }
  { unfold stanza_full. cbn [fst]. rewrite ntoh32_be by lia. by destruct (Z.eqb_spec (zlen r) 0); [lia|]. }
  run_step Hst2. change (stream (l_read s2) = stream r1) in Hs2. change (sk (l_read s2) = sk r1) in Hk2.
  change (to_read (l_read s2) = zlen r) in Ht2. change (consumed (l_read s2) = []) in Hc2.
  destruct (once_loop_item f1 s2) as (f3&r3&Hl3&HW3&Ht3&Hc3&Hs3&_); [done| | |].
  { rewrite Hs2, Hs1, zlen_app, Ht2. lia. }
  { rewrite turns_split in Hf1 |- *. by rewrite Hs2, Hk2. }
  rewrite Hl3. cbn [fst] in Hl2. rewrite Hl2. rewrite Hc2, Ht2, Hs2, Hs1, app_nil_l, ztake_app_exact in Hc3 by done.
  rewrite Ht2, Hs2, Hs1, zdrop_app_exact in Hs3 by done.
  destruct (stanza_ok act (set_rdr r3 s2) (false, (l_client s, [r])) r ((true, (x', [])), [], 4))
    as (s4&Hst4&((Hl4&Hx4&_)&HW4&_&Hc4&Ht4)&Hs4&_).
  { split_and!; try done. by split_and!; [lia|lia|]. }
  { intros ->. change (zlen []) with 0 in Hz. lia. }
  { unfold stanza_full. cbn [fst snd]. rewrite decide_True by done. by rewrite Hact. }
  run_step Hst4. exists s4. split; [done|]. split; [by split_and!|]. split; [done|]. by rewrite <- Hs3.
Qed.

(** Both watchers. *)
Lemma loop_forever_msgs ms (s : lreader X) x' :
  l_ready s -> Forall bc_ok ms -> stream (l_read s) = frames (map bc_record ms) -> each_msg ms (l_client s) = Ret tt x' ->
  exists s', loop_forever page on_connect on_disconnect (length ms) s = Ret tt s' /\
    l_ready s' /\ l_client s' = x' /\ stream (l_read s') = [].
Proof.
  intros Hs HF. revert s Hs. induction HF as [|m ms Hm HF IH]; intros s Hs Hst Hx.
  - injection Hx as <-. by exists s.
  - cbn [each_msg] in Hx. apply bind_Ret_inv in Hx as ([]&x1&Hm1&Hx). cbn [map] in Hst. rewrite frames_cons in Hst.
    destruct (loop_once_record s (bc_record m) (frames (map bc_record ms)) x1) as (s1&Hr1&Hs1&Hx1&Hst1).
    + done.
    + by apply bc_record_readable.
    + done.
    + by rewrite dispatch_record by (done || by apply ztake_all).
    + destruct (IH s1 Hs1 Hst1) as (s'&Hr&?); [by rewrite Hx1|]. exists s'. split; [|done].
      cbn [length loop_forever]. run_step Hr1. exact Hr.
Qed.

Lemma ev_io_cb_msgs ms (h : ev_handler X) x' :
  l_ready (e_in h) -> Forall bc_ok ms -> stream (l_read (e_in h)) = frames (map bc_record ms) ->
  each_msg ms (l_client (e_in h)) = Ret tt x' -> round_end watch_again (sk (l_read (e_in h))) = Blocked ->
  exists h', ev_io_cb page strerror on_connect on_disconnect on_fd_loss ev_READ h = Ret tt h' /\
    l_ready (e_in h') /\ l_client (e_in h') = x' /\ pending (l_read (e_in h')) = [] /\
    e_io h' = e_io h /\ e_log h' = e_log h /\ e_closed h' = e_closed h.
Proof.
  intros Hs HF Hst Hx Hend.
  destruct (stanza_loop act page watch_again (map bc_record ms) (e_in h) x') as (l&Hr&Hl&Hc&Hp&_);
    [done|done|done|by apply bc_records_readable|done|by rewrite each_record_msgs|].
  unfold ev_io_cb. change (has ev_READ ev_READ) with true. cbn match. erewrite bind_ret by done.
  erewrite bind_ret by (eapply zoom_ret, Hr). rewrite Hend. eexists. split; [reflexivity|]. by split_and!.
Qed.

(** The stream ends: the descriptor is closed, the client told, the loss logged. *)
Lemma ev_io_cb_eof ms (h : ev_handler X) x' x2 :
  l_ready (e_in h) -> Forall bc_ok ms -> stream (l_read (e_in h)) = frames (map bc_record ms) ->
  each_msg ms (l_client (e_in h)) = Ret tt x' -> round_end watch_again (sk (l_read (e_in h))) = Eof ->
  on_fd_loss x' = Ret tt x2 ->
  exists h', ev_io_cb page strerror on_connect on_disconnect on_fd_loss ev_READ h = Ret tt h' /\
    l_client (e_in h') = x2 /\ e_io h' = EvIo (-1) (io_ev (e_io h)) false /\
    e_log h' = e_log h ++ [LText ERROR [text "(bcwatcher)"]] /\ e_closed h' = e_closed h ++ [fd (e_io h)].
Proof.
  intros Hs HF Hst Hx Hend Hloss.
  destruct (stanza_loop act page watch_again (map bc_record ms) (e_in h) x') as (l&Hr&Hl&Hc&Hp&_);
    [done|done|done|by apply bc_records_readable|done|by rewrite each_record_msgs|].
  unfold ev_io_cb. change (has ev_READ ev_READ) with true. cbn match. erewrite bind_ret by done.
  erewrite bind_ret by (eapply zoom_ret, Hr). rewrite Hend. unfold ev_suicide. do 2 erewrite bind_ret by done.
  unfold on_e_in, on_l_client, zoom. cbn [e_in l_client]. rewrite Hc, Hloss.
  eexists. split; [reflexivity|]. by split_and!.
Qed.
End Delivery.

(** C27. The watchers hand every message over, once and in order: when the
    documented records of the messages [ms] arrive in whatever segments, the
    event handler has run the client's callbacks on exactly [ms] (the connect
    callback where the update says connected or accepted, else the other one)
    and waits for the next record; [length ms] turns of the blocking watcher do
    the same; and when the log server closes the connection, the descriptor is
    closed once and the client is told after the last message. *)
Theorem watcher_delivers {X} page strerror (on_connect on_disconnect : bc_channel_msg -> prog X unit) on_fd_loss
    ms x x' f k :
  0 < page <= 2 ^ 62 -> Forall bc_ok ms -> segs_ok (rx k) = true -> avail (rx k) = frames (map bc_record ms) ->
  each_msg on_connect on_disconnect ms x = Ret tt x' ->
  let h := ev_handler_ctor page f k x in
  (round_end watch_again k = Blocked ->
     exists h', ev_io_cb page strerror on_connect on_disconnect on_fd_loss ev_READ h = Ret tt h' /\
       l_ready (e_in h') /\ l_client (e_in h') = x' /\ e_io h' = e_io h /\ e_closed h' = []) /\
  (forall x2, round_end watch_again k = Eof -> on_fd_loss x' = Ret tt x2 ->
     exists h', ev_io_cb page strerror on_connect on_disconnect on_fd_loss ev_READ h = Ret tt h' /\
       l_client (e_in h') = x2 /\ fd (e_io h') = -1 /\ io_on (e_io h') = false /\ e_closed h' = [f]) /\
  (exists s s', bcwatch_ctor page false k x tt = Ret s tt /\
     loop_forever page on_connect on_disconnect (length ms) s = Ret tt s' /\ l_ready s' /\ l_client s' = x').
Proof.
  intros Hp HF Hsg Hav Hx h. pose proof (l_ready_new page k x Hsg) as Hrdy.
  assert (stream (l_read (e_in h)) = frames (map bc_record ms)) as Hst by exact Hav. split_and!.
  - intros Hend. destruct (ev_io_cb_msgs page Hp strerror on_connect on_disconnect on_fd_loss ms h x')
      as (h'&Hr&Hl&Hc&_&Hio&_&Hcl); [done..|]. by exists h'.
  - intros x2 Hend Hloss. destruct (ev_io_cb_eof page Hp strerror on_connect on_disconnect on_fd_loss ms h x' x2)
      as (h'&Hr&Hc&Hio&_&Hcl); [done..|]. exists h'. by rewrite Hio.
  - destruct (loop_forever_msgs page Hp on_connect on_disconnect ms (e_in h) x') as (s'&Hr&Hl&Hc&_); [done..|].
    by exists (e_in h), s'.
Qed.

Definition demo_msg (id u : Z) : bc_channel_msg := BcMsg 9 BITCOIN 1000 id u (zrep 16 1) (zrep 16 2) 2 [104; 105].

Lemma watcher_delivers_witness :
  exists h', ev_io_cb 4096 (fun _ => []) (fun m => modify (fun l => l ++ [bm_handle_id m])) (fun m => modify (fun l => l ++ [- bm_handle_id m]))
      (ret tt) ev_READ
      (ev_handler_ctor 4096 5 (Sock [RData (frames (map bc_record [demo_msg 1 CONNECT_SUCCESS; demo_msg 2 PEER_RESET; demo_msg 3 ACCEPT_SUCCESS]))] [] [] 0) []) =
    Ret tt h' /\ l_client (e_in h') = [1; -2; 3].
Proof.
  destruct (watcher_delivers 4096 (fun _ => []) (fun m => modify (fun l => l ++ [bm_handle_id m])) (fun m => modify (fun l => l ++ [- bm_handle_id m]))
      (ret tt) [demo_msg 1 CONNECT_SUCCESS; demo_msg 2 PEER_RESET; demo_msg 3 ACCEPT_SUCCESS] [] [1; -2; 3] 5
      (Sock [RData (frames (map bc_record [demo_msg 1 CONNECT_SUCCESS; demo_msg 2 PEER_RESET; demo_msg 3 ACCEPT_SUCCESS]))] [] [] 0)) as (H&_&_).
  - lia.
  - repeat constructor; vm_compute; congruence.
  - reflexivity.
  - reflexivity.
  - reflexivity.
  - destruct (H eq_refl) as (h'&Hr&_&Hc&_). exists h'. split; [exact Hr|exact Hc].
Defined.

(** C40. The connector's own records do not get through: g_log<BITCOIN> writes
    two sockaddr_storage where the watcher's struct has two sockaddr_in, so what
    the watcher takes for the text length lies in the padding of the remote
    address; when that is zero, the assertion on the length fails on the first
    record. *)
Theorem connector_record_aborts {X} page strerror (on_connect on_disconnect : bc_channel_msg -> prog X unit) on_fd_loss
    x f k src now u id r l t rest :
  0 < page <= 2 ^ 62 -> segs_ok (rx k) = true -> event_ok (LConn u id r l t) -> slice 32 4 r = [0; 0; 0; 0] ->
  avail (rx k) = frame (sourced (src, record_of now (LConn u id r l t))) ++ rest ->
  ev_io_cb page strerror on_connect on_disconnect on_fd_loss ev_READ (ev_handler_ctor page f k x) = Fault AssertFailed.
Proof.
  intros Hp Hsg (Hr&Hl&Ht) Hpad Hav. set (rec := sourced _) in Hav. unfold SOCKADDR_STORAGE in *.
  pose proof (zlen_nonneg t). assert (zlen rec = 281 + zlen t) as Hz.
  { unfold rec, sourced, record_of. cbn [fst snd]. autorewrite with zlist. lia. }
  assert (slice 53 4 rec = [0; 0; 0; 0]) as H53.
  { unfold rec, sourced, record_of. cbn [fst snd]. do 5 (rewrite slice_app_r; [|autorewrite with zlist; lia]).
    autorewrite with zlist. change (_ - _) with 32. rewrite slice_app_l by lia. exact Hpad. }
  assert (slice 4 1 rec = [BITCOIN]) as H4 by (unfold rec, sourced, record_of; cbn [fst snd]; field_at).
  unfold ev_io_cb. change (has ev_READ ev_READ) with true. cbn match. erewrite bind_ret by done. unfold bind at 1, on_e_in, zoom.
  erewrite (stanza_loop_fault (dispatch on_connect on_disconnect) page watch_again rec rest _ AssertFailed);
    [done|done|by apply l_ready_new|lia|exact Hav|].
  intros mem Hmem. unfold dispatch, bind at 1, buf2msg. rewrite Hmem.
  destruct (Z.ltb_spec (zlen rec) 5); [lia|]. unfold log_kind. rewrite H4.
  change (le_val [BITCOIN] =? BITCOIN) with true. erewrite bind_ret by done. unfold BC_MSG.
  destruct (Z.ltb_spec (zlen rec) 57); [lia|]. cbn [bm_text_len]. rewrite H53.
  change (ntoh32 (le_val [0; 0; 0; 0])) with 0. destruct (Z.eqb_spec (57 + 0) (zlen rec)); [lia|]. done.
Qed.

Lemma connector_record_aborts_witness :
  ev_io_cb 4096 (fun _ => []) (fun _ => ret tt) (fun _ => ret tt) (ret tt) ev_READ
    (ev_handler_ctor 4096 5 (Sock [RData (frame (sourced (7, record_of 1000 (LConn CONNECT_SUCCESS 3 ([2; 0; 32; 141; 1; 2; 3; 4] ++ zrep 120 0) (zrep 128 0) []))))] [] [] 0) tt) =
  Fault AssertFailed.
Proof.
  apply (connector_record_aborts 4096 (fun _ => []) (fun _ => ret tt) (fun _ => ret tt) (ret tt) tt 5
    (Sock [RData (frame (sourced (7, record_of 1000 (LConn CONNECT_SUCCESS 3 ([2; 0; 32; 141; 1; 2; 3; 4] ++ zrep 120 0) (zrep 128 0) []))))] [] [] 0)
    7 1000 CONNECT_SUCCESS 3 ([2; 0; 32; 141; 1; 2; 3; 4] ++ zrep 120 0) (zrep 128 0) [] []).
  - lia.
  - reflexivity.
  - repeat split; vm_compute; reflexivity.
  - reflexivity.
  - vm_compute. reflexivity.
Defined.
