(* ===== verification/Schedule.v ===== *)
(** * The schedule of getaddr

    next_getaddr(time_t) of clients/getaddr.cpp, which looks for the next time
    of the configured hours and minutes with localtime and mktime. The time zone
    is the environment's: both functions are parameters, and [LocalTime] says
    what their documentation promises. *)

From Stdlib Require Import Sorting.Sorted.
From S2P Require Import Prelude.

(** struct tm. The year, the month and the day of the month are carried along
    together, as the number of days since 1970-01-01. *)
Record btm := Btm { bt_day : Z; bt_hour : Z; bt_min : Z; bt_sec : Z; bt_isdst : Z }.

Definition set_hour (h : Z) (c : btm) : btm := Btm (bt_day c) h (bt_min c) (bt_sec c) (bt_isdst c).
Definition set_min (m : Z) (c : btm) : btm := Btm (bt_day c) (bt_hour c) m (bt_sec c) (bt_isdst c).

(** The reading of a clock in seconds, with fields in any range. *)
Definition civil (c : btm) : Z := 86400 * bt_day c + 3600 * bt_hour c + 60 * bt_min c + bt_sec c.

Section NextGetaddr.
(** mktime returns the time and what it leaves in the structure. *)
Context (localtime : Z -> btm) (mktime : btm -> Z * btm).

(** The loop over the minutes: a time later than [now], or the structure as
    the calls of mktime have left it. *)
Fixpoint first_minute (now : Z) (minutes : list Z) (timeinfo : btm) : Z + btm :=
  match minutes with
  | [] => inr timeinfo
  | m :: minutes =>
      let (when, timeinfo) := mktime (set_min m timeinfo) in
      if 0 <? when - now then inl when else first_minute now minutes timeinfo
  end.

Fixpoint first_time (now : Z) (hours minutes : list Z) (timeinfo : btm) : Z + btm :=
  match hours with
  | [] => inr timeinfo
  | h :: hours =>
      match first_minute now minutes (set_hour h timeinfo) with
      | inl t => inl t
      | inr timeinfo => first_time now hours minutes timeinfo
      end
  end.

(** The loop over the days, from [base], which is time(NULL); [None] when the
    fuel is used up. *)
Fixpoint next_getaddr (fuel : nat) (base now : Z) (hours minutes : list Z) : option Z :=
  match fuel with
  | O => None
  | S fuel =>
      match first_time now hours minutes (localtime base) with
      | inl t => Some t
      | inr _ => next_getaddr fuel (base + 86400) now hours minutes
      end
  end.
End NextGetaddr.

(** ** Time zones *)

(** What is documented of localtime and mktime, for the times of eight thousand
    years: the local clock is less than a day ahead of or behind UTC, its fields
    are in their ranges (a second may be a leap second), mktime takes off what
    the clock is ahead, for the reading it is given, and puts the fields of the
    result into the structure. *)
Class LocalTime (localtime : Z -> btm) (mktime : btm -> Z * btm) : Prop := {
  lt_ahead t : -86400 < civil (localtime t) - t < 86400;
  lt_ranges t : 0 <= bt_hour (localtime t) < 24 /\ 0 <= bt_min (localtime t) < 60 /\ 0 <= bt_sec (localtime t) <= 60;
  mk_ahead c : 0 <= civil c < 2 ^ 38 -> -86400 < civil c - fst (mktime c) < 86400;
  mk_writes c : 0 <= civil c < 2 ^ 38 -> snd (mktime c) = localtime (fst (mktime c)) }.

(** The reading at [t] of a clock that is [off] seconds ahead. *)
Definition reading (off dst t : Z) : btm :=
  let x := t + off in Btm (x / 86400) (x mod 86400 / 3600) (x mod 3600 / 60) (x mod 60) dst.

(** From [lo] to [hi] the clock is not changed. *)
Record steady (localtime : Z -> btm) (mktime : btm -> Z * btm) (off dst lo hi : Z) : Prop := {
  st_localtime t : lo <= t <= hi -> localtime t = reading off dst t;
  st_mktime c : bt_isdst c = dst -> lo <= civil c - off <= hi -> mktime c = (civil c - off, localtime (civil c - off)) }.

(** The time on the day of [base] at [h]:[m] and the second of [base]. *)
Definition at_clock (off base h m : Z) : Z :=
  let l := base + off in
  l / 86400 * 86400 + h * 3600 + m * 60 + l mod 60 - off.

(** All scheduled times of that day, in the order of the lists. *)
Definition day_times (off base : Z) (hours minutes : list Z) : list Z :=
  concat (map (fun h => map (at_clock off base h) minutes) hours).

Definition hours_ok (hs : list Z) : Prop := hs <> [] /\ Forall (fun h => 0 <= h < 24) hs.
Definition minutes_ok (ms : list Z) : Prop := ms <> [] /\ Forall (fun m => 0 <= m < 60) ms.

Lemma find_app {A} (f : A -> bool) l k : find f (l ++ k) = match find f l with Some x => Some x | None => find f k end.
Proof. induction l as [|x l IH]; [done|]. simpl. by destruct (f x). Qed.

(** In a sorted list the first element that is later is the earliest one. *)
Lemma find_least now l t :
  StronglySorted Z.le l -> find (fun t => now <? t) l = Some t -> forall x, In x l -> now < x -> t <= x.
Proof.
  induction 1 as [|y l Hs IH HF]; [done|]. cbn [find]. destruct (Z.ltb_spec now y).
  - intros [= <-] x [<-|Hx] _; [lia|]. rewrite List.Forall_forall in HF. by apply HF.
  - intros Ht x [<-|Hx] Hn; [lia|]. by apply IH.
Qed.

Lemma sorted_app {A} (R : A -> A -> Prop) l k :
  StronglySorted R l -> StronglySorted R k -> (forall x y, In x l -> In y k -> R x y) -> StronglySorted R (l ++ k).
Proof.
  induction 1 as [|x l Hs IH HF]; intros Hk HR; [done|]. simpl. constructor; [apply IH; [done|intros; apply HR; [by right|done]]|].
  apply Forall_app. split; [done|]. rewrite List.Forall_forall. intros y Hy. apply HR; [by left|done].
Qed.

Lemma in_day_times off base hs ms t :
  In t (day_times off base hs ms) <-> exists h m, In h hs /\ In m ms /\ t = at_clock off base h m.
Proof.
  unfold day_times. rewrite in_concat. split.
  - intros (x&(h&<-&Hh)%in_map_iff&(m&<-&Hm)%in_map_iff). by exists h, m.
  - intros (h&m&Hh&Hm&->). exists (map (at_clock off base h) ms). split; apply in_map_iff; eauto.
Qed.

Lemma day_times_sorted off base hs ms :
  Forall (fun m => 0 <= m < 60) ms -> StronglySorted Z.lt hs -> StronglySorted Z.lt ms -> StronglySorted Z.le (day_times off base hs ms).
Proof.
  intros HM Hs Hm. induction Hs as [|h hs Hs IH HF]; [constructor|]. unfold day_times. cbn [map concat]. apply sorted_app; [|exact IH|].
  - clear -Hm. induction Hm as [|m ms Hm IH HF]; [constructor|]. simpl. constructor; [done|]. rewrite List.Forall_forall in *.
    intros x (m'&<-&Hm')%in_map_iff. specialize (HF m' Hm'). unfold at_clock. lia.
  - intros x y (m&<-&Hm1)%in_map_iff (h2&m2&Hh2&Hm2&->)%in_day_times. rewrite List.Forall_forall in HF, HM.
    pose proof (HF h2 Hh2). pose proof (HM m Hm1). pose proof (HM m2 Hm2). unfold at_clock. lia.
Qed.

Lemma civil_reading off dst t : civil (reading off dst t) = t + off.
Proof. unfold civil, reading. cbn. Z.to_euclidean_division_equations. lia. Qed.

(** ** In any time zone *)

Section Found.
Context (localtime : Z -> btm) (mktime : btm -> Z * btm).

(** What is returned. *)
Lemma first_minute_later now ms ti t :
  first_minute mktime now ms ti = inl t -> now < t /\ exists c, fst (mktime c) = t /\ In (bt_min c) ms.
Proof.
  revert ti. induction ms as [|m ms IH]; intros ti; [done|]. cbn [first_minute].
  destruct (mktime (set_min m ti)) as [when ti'] eqn:E. destruct (Z.ltb_spec 0 (when - now)).
  - intros [= <-]. split; [lia|]. exists (set_min m ti). rewrite E. split; [done|by left].
  - intros (?&c&?&?)%IH. split; [done|]. exists c. split; [done|by right].
Qed.

Lemma first_time_later now hs ms ti t :
  first_time mktime now hs ms ti = inl t -> now < t /\ exists c, fst (mktime c) = t /\ In (bt_min c) ms.
Proof.
  revert ti. induction hs as [|h hs IH]; intros ti; [done|]. cbn [first_time].
  destruct (first_minute mktime now ms (set_hour h ti)) as [t'|ti'] eqn:E; [|apply IH].
  intros [= <-]. by eapply first_minute_later.
Qed.

Lemma next_getaddr_later fuel base now hs ms t :
  next_getaddr localtime mktime fuel base now hs ms = Some t -> now < t /\ exists c, fst (mktime c) = t /\ In (bt_min c) ms.
Proof.
  revert base. induction fuel as [|fuel IH]; intros base; [done|]. cbn [next_getaddr].
  destruct (first_time mktime now hs ms (localtime base)) as [t'|ti'] eqn:E; [|apply IH].
  intros [= <-]. by eapply first_time_later.
Qed.

(** Nothing is found without an hour and a minute. *)
Lemma first_time_empty now hs ms ti : hs = [] \/ ms = [] -> exists ti', first_time mktime now hs ms ti = inr ti'.
Proof.
  intros [->| ->]; [by eexists|]. revert ti. induction hs as [|h hs IH]; intros ti; [by eexists|]. cbn. apply IH.
Qed.

Lemma next_getaddr_empty fuel base now hs ms : hs = [] \/ ms = [] -> next_getaddr localtime mktime fuel base now hs ms = None.
Proof.
  intros He. revert base. induction fuel as [|fuel IH]; intros base; [done|]. cbn [next_getaddr].
  by destruct (first_time_empty now hs ms (localtime base) He) as [ti' ->].
Qed.

(** The loop ends as soon as the first time of a day is late enough. *)
Lemma next_getaddr_ends n fuel base now h hs m ms :
  (n < fuel)%nat -> now < fst (mktime (set_min m (set_hour h (localtime (base + 86400 * Z.of_nat n))))) ->
  is_Some (next_getaddr localtime mktime fuel base now (h :: hs) (m :: ms)).
Proof.
  revert fuel base. induction n as [|n IH]; intros [|fuel] base Hf Hn; [lia| |lia|]; cbn [next_getaddr].
  - rewrite Z.mul_0_r, Z.add_0_r in Hn. cbn [first_time first_minute].
    destruct (mktime _) as [when ti]. cbn [fst] in Hn. destruct (Z.ltb_spec 0 (when - now)); [by eexists|lia].
  - destruct (first_time mktime now _ _ _); [by eexists|]. apply IH; [lia|].
    by replace (base + 86400 + 86400 * Z.of_nat n) with (base + 86400 * Z.of_nat (S n)) by lia.
Qed.

(** Whatever the clock does, the first time of a day is at most three days
    before that day's base. *)
Lemma first_of_day `{!LocalTime localtime mktime} base h m :
  0 <= h < 24 -> 0 <= m < 60 -> 3 * 86400 <= base < 2 ^ 37 ->
  base - 3 * 86400 < fst (mktime (set_min m (set_hour h (localtime base)))).
Proof.
  intros Hh Hm Hb. pose proof (lt_ahead base) as H1. pose proof (lt_ranges base) as (H2&H3&H4).
  set (c := set_min m (set_hour h (localtime base))).
  assert (civil (localtime base) - 86400 <= civil c <= civil (localtime base) + 86400) as Hc by (unfold c, civil, set_min, set_hour in *; cbn; lia).
  pose proof (mk_ahead c ltac:(lia)). lia.
Qed.

Lemma next_getaddr_ends_in_four `{!LocalTime localtime mktime} base now hours minutes :
  now <= base -> 3 * 86400 <= base < 2 ^ 36 -> hours_ok hours -> minutes_ok minutes ->
  exists t, next_getaddr localtime mktime 4 base now hours minutes = Some t /\ now < t.
Proof.
  intros Hn Hb [Hh0 Hh] [Hm0 Hm]. destruct hours as [|h hs]; [done|]. destruct minutes as [|m ms]; [done|].
  apply Forall_cons_1 in Hh as [Hh _]. apply Forall_cons_1 in Hm as [Hm _].
  pose proof (first_of_day (base + 86400 * 3) h m Hh Hm ltac:(lia)).
  destruct (next_getaddr_ends 3 4 base now h hs m ms) as [t Ht]; [lia|change (Z.of_nat 3) with 3; lia|]. exists t. split; [done|].
  by apply (next_getaddr_later 4 base now (h :: hs) (m :: ms)).
Qed.
End Found.

(** ** While the clock is not changed *)

Section Steady.
Context (localtime : Z -> btm) (mktime : btm -> Z * btm) (off dst lo hi : Z).
Hypothesis Hst : steady localtime mktime off dst lo hi.

(** The structure on the day of [base], with its second. *)
Definition same_day (base : Z) (c : btm) : Prop :=
  bt_day c = (base + off) / 86400 /\ bt_sec c = (base + off) mod 60 /\ bt_isdst c = dst.

Lemma at_clock_day base h m : 0 <= h < 24 -> 0 <= m < 60 -> base - 86400 < at_clock off base h m < base + 86400.
Proof.
  intros. unfold at_clock. pose proof (Z.div_mod (base + off) 86400). pose proof (Z.mod_pos_bound (base + off) 86400).
  pose proof (Z.mod_pos_bound (base + off) 60). lia.
Qed.

Lemma at_clock_next base h m n : at_clock off (base + 86400 * n) h m = at_clock off base h m + 86400 * n.
Proof.
  unfold at_clock. replace (base + 86400 * n + off) with (base + off + n * 86400) by lia. rewrite Z.div_add by lia.
  replace (base + off + n * 86400) with (base + off + (1440 * n) * 60) by lia. rewrite Z.mod_add by lia. lia.
Qed.

(** The clock shows the hour and the minute at that time. *)
Lemma at_clock_shows base h m :
  0 <= h < 24 -> 0 <= m < 60 ->
  reading off dst (at_clock off base h m) = Btm ((base + off) / 86400) h m ((base + off) mod 60) dst.
Proof.
  intros Hh Hm. unfold reading, at_clock. cbv zeta. pose proof (Z.mod_pos_bound (base + off) 60 ltac:(lia)).
  set (d := (base + off) / 86400). set (s := (base + off) mod 60) in *.
  replace (d * 86400 + h * 3600 + m * 60 + s - off + off) with (86400 * d + 3600 * h + 60 * m + s) by lia.
  f_equal; Z.to_euclidean_division_equations; lia.
Qed.

Lemma mktime_steady base m c :
  same_day base c -> 0 <= bt_hour c < 24 -> 0 <= m < 60 -> lo + 86400 <= base <= hi - 86400 ->
  exists c', mktime (set_min m c) = (at_clock off base (bt_hour c) m, c') /\ same_day base c' /\ bt_hour c' = bt_hour c.
Proof.
  intros (Hd&Hs&Hi) Hh Hm Hb. pose proof (at_clock_day base (bt_hour c) m Hh Hm) as Hr.
  assert (civil (set_min m c) - off = at_clock off base (bt_hour c) m) as Hc
    by (unfold civil, set_min, at_clock; cbn; rewrite Hd, Hs; lia).
  rewrite (st_mktime _ _ _ _ _ _ Hst) by (done || lia). rewrite Hc. eexists. split; [done|].
  rewrite (st_localtime _ _ _ _ _ _ Hst), at_clock_shows by lia. done.
Qed.

Lemma first_minute_steady base now ms c :
  same_day base c -> 0 <= bt_hour c < 24 -> Forall (fun m => 0 <= m < 60) ms -> lo + 86400 <= base <= hi - 86400 ->
  match find (fun t => now <? t) (map (at_clock off base (bt_hour c)) ms) with
  | Some t => first_minute mktime now ms c = inl t
  | None => exists c', first_minute mktime now ms c = inr c' /\ same_day base c'
  end.
Proof.
  intros Hc Hh Hm Hb. revert c Hc Hh. induction Hm as [|m ms Hm Hms IH]; intros c Hc Hh; [by exists c|]. cbn [map find first_minute].
  destruct (mktime_steady base m c Hc Hh Hm Hb) as (c'&->&Hc'&Hh').
  destruct (Z.ltb_spec 0 (at_clock off base (bt_hour c) m - now)), (Z.ltb_spec now (at_clock off base (bt_hour c) m)); try lia; [done|].
  rewrite <- Hh'. apply IH; [done|by rewrite Hh'].
Qed.

Lemma first_time_steady base now hs ms c :
  same_day base c -> Forall (fun h => 0 <= h < 24) hs -> Forall (fun m => 0 <= m < 60) ms -> lo + 86400 <= base <= hi - 86400 ->
  match find (fun t => now <? t) (day_times off base hs ms) with
  | Some t => first_time mktime now hs ms c = inl t
  | None => exists c', first_time mktime now hs ms c = inr c'
  end.
Proof.
  intros Hc Hhs Hm Hb. revert c Hc. induction Hhs as [|h hs Hh Hhs IH]; intros c Hc; [by exists c|]. unfold day_times. cbn [map concat first_time].
  pose proof (first_minute_steady base now ms (set_hour h c) Hc Hh Hm Hb) as Hf. rewrite find_app. cbn [bt_hour set_hour] in Hf.
  destruct (find _ (map (at_clock off base h) ms)) as [t|]; [by rewrite Hf|]. destruct Hf as (c'&->&Hc'). by apply IH.
Qed.

(** The loop over the days takes the first time later than now out of all the
    scheduled times. *)
Lemma next_getaddr_steady base now hours minutes fuel :
  now <= base -> lo + 86400 <= base <= hi - 2 * 86400 -> hours_ok hours -> minutes_ok minutes -> (2 <= fuel)%nat ->
  exists t, next_getaddr localtime mktime fuel base now hours minutes = Some t /\
    find (fun t => now <? t) (day_times off base hours minutes ++ day_times off (base + 86400) hours minutes) = Some t.
Proof.
  intros Hn Hb [Hh0 Hh] [Hm0 Hm] Hf. destruct fuel as [|[|fuel]]; [lia..|]. cbn [next_getaddr]. rewrite find_app.
  assert (forall b, lo <= b <= hi -> same_day b (localtime b)) as Hsame by (intros; by rewrite (st_localtime _ _ _ _ _ _ Hst)).
  pose proof (first_time_steady base now hours minutes (localtime base) (Hsame base ltac:(lia)) Hh Hm ltac:(lia)) as H1.
  destruct (find _ (day_times off base hours minutes)) as [t|]; [exists t; by rewrite H1|]. destruct H1 as [c1 ->].
  pose proof (first_time_steady (base + 86400) now hours minutes (localtime (base + 86400)) (Hsame (base + 86400) ltac:(lia)) Hh Hm ltac:(lia)) as H2.
  destruct (find _ (day_times off (base + 86400) hours minutes)) as [t|] eqn:E; [exists t; by rewrite H2|]. exfalso.
  destruct hours as [|h hs]; [done|]. destruct minutes as [|m ms]; [done|]. unfold day_times in E. cbn [map concat app find] in E.
  apply Forall_cons_1 in Hh as [Hh _]. apply Forall_cons_1 in Hm as [Hm _]. pose proof (at_clock_day (base + 86400) h m Hh Hm).
  destruct (Z.ltb_spec now (at_clock off (base + 86400) h m)); [done|lia].
Qed.
End Steady.

(** The scheduled times from the day of [base] on. *)
Definition scheduled (off base : Z) (hours minutes : list Z) (t : Z) : Prop :=
  exists day h m, 0 <= day /\ In h hours /\ In m minutes /\ t = at_clock off (base + 86400 * day) h m.

(** The first one later than now is the earliest when the lists are sorted. *)
Lemma first_scheduled off base now hours minutes t :
  Forall (fun h => 0 <= h < 24) hours -> Forall (fun m => 0 <= m < 60) minutes ->
  find (fun t => now <? t) (day_times off base hours minutes ++ day_times off (base + 86400) hours minutes) = Some t ->
  scheduled off base hours minutes t /\ t < base + 2 * 86400 /\
  (StronglySorted Z.lt hours -> StronglySorted Z.lt minutes ->
   forall t', scheduled off base hours minutes t' -> now < t' -> t <= t').
Proof.
  intros Hh Hm Hf. pose proof Hh as Hh'. pose proof Hm as Hm'. rewrite List.Forall_forall in Hh', Hm'.
  assert (exists d h m, 0 <= d <= 1 /\ In h hours /\ In m minutes /\ t = at_clock off (base + 86400 * d) h m) as (d&h&m&Hd&Ih&Im&->).
  { apply find_some in Hf as [[(h&m&?&?&->)%in_day_times|(h&m&?&?&->)%in_day_times]%in_app_or _]; [exists 0, h, m|exists 1, h, m]; split_and!; try done.
    by rewrite Z.mul_0_r, Z.add_0_r. }
  pose proof (Hh' h Ih). pose proof (Hm' m Im). split; [exists d, h, m; split_and!; (done || lia)|].
  split; [pose proof (at_clock_day off (base + 86400 * d) h m); lia|]. intros Sh Sm t' (d'&h'&m'&Hd'&Ih'&Im'&->) Hn'.
  pose proof (Hh' h' Ih'). pose proof (Hm' m' Im'). destruct (Z.le_gt_cases d' 1).
  - apply (find_least now _ _) with (2 := Hf); [|apply in_app_iff|done].
    + apply sorted_app; [by apply day_times_sorted..|]. intros x y (h1&m1&Ih1&Im1&->)%in_day_times (h2&m2&Ih2&Im2&->)%in_day_times.
      pose proof (Hh' h1 Ih1). pose proof (Hm' m1 Im1). pose proof (Hh' h2 Ih2). pose proof (Hm' m2 Im2).
      pose proof (at_clock_next off base h2 m2 1) as E. rewrite Z.mul_1_r in E. rewrite E. unfold at_clock. lia.
    + rewrite !in_day_times. destruct (Z.eq_dec d' 0) as [->|]; [left; exists h', m'; by rewrite Z.mul_0_r, Z.add_0_r|].
      right. exists h', m'. by replace d' with 1 by lia.
  - rewrite !at_clock_next. unfold at_clock. nia.
Qed.

(** C37. The next round is found. In every time zone, clock changes included,
    next_getaddr returns within four days of its loop, with a time that is later
    than now and that mktime gives for a minute of the configuration. When the
    clock is not changed from a day before to two days after, that is a scheduled
    time (the clock shows an hour and a minute of the configuration), less than
    two days away, and the earliest such time when the lists are sorted. With an
    empty list of hours or minutes it never returns. *)
Theorem next_getaddr_found localtime mktime base now hours minutes :
  LocalTime localtime mktime -> now <= base -> 3 * 86400 <= base < 2 ^ 36 ->
  (hours_ok hours -> minutes_ok minutes ->
   exists t, next_getaddr localtime mktime 4 base now hours minutes = Some t /\ now < t /\
     (exists c, fst (mktime c) = t /\ In (bt_min c) minutes) /\
     forall off dst, steady localtime mktime off dst (base - 86400) (base + 2 * 86400) ->
       scheduled off base hours minutes t /\ t < base + 2 * 86400 /\
       In (bt_hour (reading off dst t)) hours /\ In (bt_min (reading off dst t)) minutes /\
       (StronglySorted Z.lt hours -> StronglySorted Z.lt minutes ->
        forall t', scheduled off base hours minutes t' -> now < t' -> t <= t')) /\
  (hours = [] \/ minutes = [] -> forall fuel, next_getaddr localtime mktime fuel base now hours minutes = None).
Proof.
  intros HL Hn Hb. split; [|intros He fuel; by apply next_getaddr_empty]. intros Hh Hm.
  destruct (next_getaddr_ends_in_four localtime mktime base now hours minutes Hn Hb Hh Hm) as (t&Ht&Hlt).
  exists t. split; [done|]. split; [done|]. split; [by apply (next_getaddr_later localtime mktime 4 base now hours)|]. intros off dst Hst.
  destruct (next_getaddr_steady localtime mktime off dst _ _ Hst base now hours minutes 4) as (t'&Ht'&Hf); [done|lia|done|done|lia|].
  rewrite Ht in Ht'. injection Ht' as <-. destruct Hh as [_ Hh], Hm as [_ Hm].
  destruct (first_scheduled off base now hours minutes t Hh Hm Hf) as (Hs&H2&Hleast). split_and!; try done;
    destruct Hs as (d&h&m&_&Ih&Im&->); rewrite List.Forall_forall in Hh, Hm; by rewrite at_clock_shows by auto.
Qed.

(** ** A zone with summer time *)

(** An hour ahead of UTC, two hours from [spring] to [autumn] (the year 2015 in
    Central Europe); mktime believes tm_isdst. *)
Definition spring : Z := 1427590800.
Definition autumn : Z := 1445734800.
Definition cet (t : Z) : btm := if (spring <=? t) && (t <? autumn) then reading 7200 1 t else reading 3600 0 t.
Definition mktime_cet (c : btm) : Z * btm :=
  let t := civil c - (if bt_isdst c =? 1 then 7200 else 3600) in (t, cet t).

Lemma reading_ranges off dst t :
  let c := reading off dst t in 0 <= bt_hour c < 24 /\ 0 <= bt_min c < 60 /\ 0 <= bt_sec c <= 60.
Proof. unfold reading. cbn. Z.to_euclidean_division_equations. lia. Qed.

#[export] Instance cet_LocalTime : LocalTime cet mktime_cet.
Proof.
  split.
  - intros t. unfold cet. destruct (_ && _); rewrite civil_reading; lia.
  - intros t. unfold cet. destruct (_ && _); apply reading_ranges.
  - intros c _. unfold mktime_cet. simpl. destruct (_ =? 1); lia.
  - done.
Qed.

Lemma cet_winter : steady cet mktime_cet 3600 0 0 (spring - 1).
Proof.
  split.
  - intros t Ht. unfold cet. destruct (Z.leb_spec spring t); [lia|done].
  - intros c Hc Ht. unfold mktime_cet. by rewrite Hc.
Qed.

(** At noon in winter, the next of 4:30 and 16:30 is the second. *)
Lemma next_getaddr_found_witness :
  next_getaddr cet mktime_cet 4 1420110000 1420110000 [4; 16] [30] = Some 1420126200 /\
  forall t', scheduled 3600 1420110000 [4; 16] [30] t' -> 1420110000 < t' -> 1420126200 <= t'.
Proof.
  destruct (next_getaddr_found cet mktime_cet 1420110000 1420110000 [4; 16] [30]) as [H _].
  - exact cet_LocalTime.
  - reflexivity.
  - lia.
  - destruct H as (t&Ht&_&_&Hs).
    + split; [discriminate|]. repeat constructor; lia.
    + split; [discriminate|]. repeat constructor; lia.
    + assert (next_getaddr cet mktime_cet 4 1420110000 1420110000 [4; 16] [30] = Some 1420126200) as E by (vm_compute; reflexivity).
      rewrite E in Ht. injection Ht as <-. split; [exact E|]. destruct (Hs 3600 0) as (_&_&_&_&Hl).
      * split; [intros t Ht; apply (st_localtime _ _ _ _ _ _ cet_winter); unfold spring; lia|].
        intros c Hc Ht. apply (st_mktime _ _ _ _ _ _ cet_winter); [done|unfold spring; lia].
      * apply Hl; repeat constructor; lia.
Defined.

(** On the day the clock is changed the search carries tm_isdst of the time it
    starts with over the change: at midnight of the day summer time ends, the
    round of 4:30 is scheduled for the time the clock shows 3:30. *)
Example autumn_round_early :
  next_getaddr cet mktime_cet 4 1445724000 1445724000 [4] [30] = Some 1445740200 /\
  cet 1445740200 = Btm 16733 3 30 0 0.
Proof. vm_compute. done. Qed.
