(* ===== verification/GetAddr.v ===== *)
(** * getaddr: the program that asks every peer for addresses

    clients/getaddr.cpp. It follows the connector's log, keeps a handler for
    every connection ([hid_handler]: when to send getaddr) and for every address
    ever seen ([cxn_handler]: when to reconnect), batches the getaddr commands
    ([getaddr_pusher]), harvests the addresses of addr messages
    ([bc_msg_handler]) and starts a new round at scheduled times.

    Time is in microseconds (ev_tstamp is a double; its rounding is not
    modelled). A timer is the time at which it is due, [None] while it is not
    active; the loop stops a timer before it calls its callback. *)

From S2P Require Import Prelude.
From S2P Require Import Bytes.
From S2P Require Import WrappedBuffer.
From S2P Require Import Net.
From S2P Require Import ReadBuffer.
From S2P Require Import LogServer.
From S2P Require Import BitcoinWire.
From S2P Require Import Logger.
From S2P Require Import BitcoinHandler.
From S2P Require Import CtrlMsg.
From S2P Require Import CommandHandler.
From S2P Require Import LogFormat.
From S2P Require Import ClientLib.
From S2P Require Import ClientReader.
From S2P Require Import LogReader.
From S2P Require Import Printing.
From S2P Require Import BcWatch.

Definition SEC : Z := 1000000.
Definition GETADDR_LIMIT : Z := 24.

(** The handle id of an address without a connection: ~0 *)
Definition NO_HID : Z := 4294967295.

(** ** State *)

Record hid_handler := HidHandler {
  hh_hid : Z;
  hh_remote : sockaddr_in;
  hh_local : sockaddr_in;
  hh_timer : option Z;
  last_enqueue : Z;
  getaddr_seq : Z;
  getaddr_cnt : Z }.

Inductive cxn_state := DISCONNECTED | CONNECTING | CONNECTED.

#[global] Instance cxn_state_eq_dec : EqDecision cxn_state.
Proof. solve_decision. Defined.

(** [sers] is the connect command of the address, and its length. *)
Record cxn_handler := CxnHandler {
  state_ : cxn_state;
  pending_time : Z;
  consecutive_fails : Z;
  sers : list Z * Z;
  cx_timer : option Z }.

(** The globals, the time of the event loop, what the random generators will
    draw, and what was logged. *)
Record getaddr := GetAddr {
  g_current_getaddr : Z;
  g_getaddr_start : Z;
  g_control : sock;
  g_pending_getaddrs : list Z;
  g_msg_id : Z;
  g_known_addrs : gmap sockaddr_in Z;
  g_known_hids : gmap Z hid_handler;
  g_cxns : gmap sockaddr_in cxn_handler;
  g_bound_addrs : list sockaddr_in;
  ev_now : Z;
  coins : list bool;
  dice : list Z;
  ga_log : list log_event }.

Definition with_round (n t : Z) (g : getaddr) : getaddr := GetAddr n t (g_control g) (g_pending_getaddrs g) (g_msg_id g)
  (g_known_addrs g) (g_known_hids g) (g_cxns g) (g_bound_addrs g) (ev_now g) (coins g) (dice g) (ga_log g).
Definition with_control (k : sock) (g : getaddr) : getaddr := GetAddr (g_current_getaddr g) (g_getaddr_start g) k (g_pending_getaddrs g) (g_msg_id g)
  (g_known_addrs g) (g_known_hids g) (g_cxns g) (g_bound_addrs g) (ev_now g) (coins g) (dice g) (ga_log g).
Definition with_pending (l : list Z) (g : getaddr) : getaddr := GetAddr (g_current_getaddr g) (g_getaddr_start g) (g_control g) l (g_msg_id g)
  (g_known_addrs g) (g_known_hids g) (g_cxns g) (g_bound_addrs g) (ev_now g) (coins g) (dice g) (ga_log g).
Definition with_msg_id (i : Z) (g : getaddr) : getaddr := GetAddr (g_current_getaddr g) (g_getaddr_start g) (g_control g) (g_pending_getaddrs g) i
  (g_known_addrs g) (g_known_hids g) (g_cxns g) (g_bound_addrs g) (ev_now g) (coins g) (dice g) (ga_log g).
Definition with_addrs (m : gmap sockaddr_in Z) (g : getaddr) : getaddr := GetAddr (g_current_getaddr g) (g_getaddr_start g) (g_control g) (g_pending_getaddrs g) (g_msg_id g)
  m (g_known_hids g) (g_cxns g) (g_bound_addrs g) (ev_now g) (coins g) (dice g) (ga_log g).
Definition with_hids (m : gmap Z hid_handler) (g : getaddr) : getaddr := GetAddr (g_current_getaddr g) (g_getaddr_start g) (g_control g) (g_pending_getaddrs g) (g_msg_id g)
  (g_known_addrs g) m (g_cxns g) (g_bound_addrs g) (ev_now g) (coins g) (dice g) (ga_log g).
Definition with_cxns (m : gmap sockaddr_in cxn_handler) (g : getaddr) : getaddr := GetAddr (g_current_getaddr g) (g_getaddr_start g) (g_control g) (g_pending_getaddrs g) (g_msg_id g)
  (g_known_addrs g) (g_known_hids g) m (g_bound_addrs g) (ev_now g) (coins g) (dice g) (ga_log g).
Definition with_now (t : Z) (g : getaddr) : getaddr := GetAddr (g_current_getaddr g) (g_getaddr_start g) (g_control g) (g_pending_getaddrs g) (g_msg_id g)
  (g_known_addrs g) (g_known_hids g) (g_cxns g) (g_bound_addrs g) t (coins g) (dice g) (ga_log g).
Definition with_random (c : list bool) (d : list Z) (g : getaddr) : getaddr := GetAddr (g_current_getaddr g) (g_getaddr_start g) (g_control g) (g_pending_getaddrs g) (g_msg_id g)
  (g_known_addrs g) (g_known_hids g) (g_cxns g) (g_bound_addrs g) (ev_now g) c d (ga_log g).
Definition with_ga_log (l : list log_event) (g : getaddr) : getaddr := GetAddr (g_current_getaddr g) (g_getaddr_start g) (g_control g) (g_pending_getaddrs g) (g_msg_id g)
  (g_known_addrs g) (g_known_hids g) (g_cxns g) (g_bound_addrs g) (ev_now g) (coins g) (dice g) l.

Definition ga_glog (e : log_event) : prog getaddr unit := modify (fun g => with_ga_log (ga_log g ++ [e]) g).

(** do_write(g_control, ...) *)
Definition control_write (bs : list Z) : prog getaddr unit := zoom g_control with_control (ClientLib.do_write bs).

(** p = msg.serialize(); do_write(g_control, p.first.const_ptr(), p.second) *)
Definition send_serialized (p : list Z * Z) : prog getaddr unit := control_write (ztake (snd p) (fst p)).

(** ** Sampling and commands *)

Section Program.
Context (page : Z).

(** do_sample; [coins] are the draws of the Bernoulli distribution. *)
Definition do_sample : prog getaddr bool := fun g =>
  if Z.of_nat (size (g_known_addrs g)) <? 1000 then Ret true g
  else match coins g with
       | c :: cs => Ret c (with_random cs (dice g) g)
       | [] => Ret false g
       end.

(** register_getaddr: the answer is the id of the message; abort() without one. *)
Definition register_getaddr (sha256 : list Z -> list Z) (magic : Z) : prog getaddr unit :=
  let getaddr := get_message sha256 magic (text "getaddr") [] in
  do! send_serialized (serialize (bitcoin_msg page (ztake (PACKED_MESSAGE + msg_length getaddr) getaddr))) in
  let! rv := zoom g_control with_control (recv_waitall 4) in
  if negb (fst rv =? 4) then crash AssertFailed
  else modify (with_msg_id (ntoh32 (le_val (snd rv)))).

Definition send_getaddrs (handle_ids : list Z) : prog getaddr unit :=
  if zlen handle_ids =? 0 then ret tt
  else
    let! g := get in
    send_serialized (serialize (command_msg page COMMAND_SEND_MSG (g_msg_id g) handle_ids)).

(** getaddr_pusher::timer_cb *)
Definition pusher_timer_cb : prog getaddr unit :=
  let! g := get in
  do! send_getaddrs (g_pending_getaddrs g) in
  modify (with_pending []).

(** ** class hid_handler *)

Definition hid_enqueue (now : Z) (h : hid_handler) : hid_handler :=
  HidHandler (hh_hid h) (hh_remote h) (hh_local h)
    (match hh_timer h with Some t => Some t | None => Some (now + 10 * SEC) end)
    now (getaddr_seq h) (getaddr_cnt h).

(** hid_handler::hid_handler; the first 10 minutes of a round take new
    connections in. *)
Definition hid_ctor (hid : Z) (remote local : sockaddr_in) (g : getaddr) : hid_handler :=
  let h := HidHandler hid remote local None 0 (g_current_getaddr g) 0 in
  if ev_now g - g_getaddr_start g <? 600 * SEC then hid_enqueue (ev_now g) h else h.

(** hid_handler::timer_cb of the handler at [i] *)
Definition hid_timer_cb (i : Z) (h : hid_handler) : prog getaddr unit :=
  let! g := get in
  let after := 10 * SEC + last_enqueue h - ev_now g in
  if after <=? 0 then
    if (getaddr_seq h =? g_current_getaddr g) && (getaddr_cnt h <? GETADDR_LIMIT) then
      do! modify (fun g => with_hids (<[i := HidHandler (hh_hid h) (hh_remote h) (hh_local h) (hh_timer h) (last_enqueue h)
                                         (getaddr_seq h) (u32 (getaddr_cnt h + 1))]> (g_known_hids g)) g) in
      modify (fun g => with_pending (g_pending_getaddrs g ++ [hh_hid h]) g)
    else ret tt
  else
    modify (fun g => with_hids (<[i := HidHandler (hh_hid h) (hh_remote h) (hh_local h) (Some (ev_now g + after)) (last_enqueue h)
                                       (getaddr_seq h) (getaddr_cnt h)]> (g_known_hids g)) g).

(** The loop calls it: the timer is not active any more. *)
Definition hid_fires (i : Z) : prog getaddr unit := fun g =>
  match g_known_hids g !! i with
  | None => Fault UseAfterFree
  | Some h =>
      let h := HidHandler (hh_hid h) (hh_remote h) (hh_local h) None (last_enqueue h) (getaddr_seq h) (getaddr_cnt h) in
      hid_timer_cb i h (with_hids (<[i := h]> (g_known_hids g)) g)
  end.

Definition set_sequence (s : Z) (h : hid_handler) : hid_handler :=
  if negb (s =? getaddr_seq h)
  then HidHandler (hh_hid h) (hh_remote h) (hh_local h) (hh_timer h) (last_enqueue h) s 0
  else h.

(** ** class cxn_handler *)

(** A handler and the rest of the program. *)
Record cxs := Cxs { cx : cxn_handler; cxg : getaddr }.

Definition cx_upd (f : cxn_handler -> cxn_handler) : prog cxs unit := modify (fun s => Cxs (f (cx s)) (cxg s)).
Definition with_state x c := CxnHandler x (pending_time c) (consecutive_fails c) (sers c) (cx_timer c).
Definition with_pending_time t c := CxnHandler (state_ c) t (consecutive_fails c) (sers c) (cx_timer c).
Definition with_fails n c := CxnHandler (state_ c) (pending_time c) n (sers c) (cx_timer c).
Definition with_cx_timer t c := CxnHandler (state_ c) (pending_time c) (consecutive_fails c) (sers c) t.

(** cxn_handler::set_reconnect_timer; [dice] are the draws, brought into the
    range of the distribution. *)
Definition set_reconnect_timer : prog cxs unit := fun s =>
  let g := cxg s in
  let '(d, ds) := match dice g with d :: ds => (d, ds) | [] => (0, []) end in
  let uid := d mod (consecutive_fails (cx s) + 1) in
  let when := 5 * (Z.shiftl 1 uid - 1) in
  Ret tt (Cxs (with_cx_timer (Some (ev_now g + when * SEC)) (cx s)) (with_random (coins g) ds g)).

(** The branch of timer_cb that connects. *)
Definition cxn_attempt : prog cxs unit :=
  let! s := get in
  do! cx_upd (with_state CONNECTING) in
  do! zoom cxg (fun g s => Cxs (cx s) g) (send_serialized (sers (cx s))) in
  do! cx_upd (with_pending_time (ev_now (cxg s))) in
  do! cx_upd (with_fails (Z.min 14 (consecutive_fails (cx s) + 1))) in
  set_reconnect_timer.

(** cxn_handler::timer_cb *)
Definition cxn_timer_cb : prog cxs unit :=
  let! s := get in
  do! (if 0 <? pending_time (cx s) then
         let after := (pending_time (cx s) + 60 * 15 * SEC) - ev_now (cxg s) in
         if after <? 0 then
           do! cx_upd (with_pending_time 0) in
           match state_ (cx s) with CONNECTING => cx_upd (with_state DISCONNECTED) | _ => ret tt end
         else cx_upd (with_cx_timer (Some (ev_now (cxg s) + after)))
       else ret tt) in
  let! s := get in
  if pending_time (cx s) =? 0 then
    match state_ (cx s) with
    | CONNECTING => assert (bool_decide (is_Some (cx_timer (cx s))))
    | CONNECTED =>
        if consecutive_fails (cx s) =? 0 then ret tt
        else
          do! cx_upd (with_fails (consecutive_fails (cx s) - 1)) in
          cx_upd (with_cx_timer (Some (ev_now (cxg s) + 10 * SEC)))
    | DISCONNECTED => cxn_attempt
    end
  else ret tt.

(** cxn_handler::cxn_handler; [remote] is the 16 bytes of the address. *)
Definition cxn_ctor (remote : list Z) (s : cxn_state) : prog getaddr cxn_handler := fun g =>
  let c := CxnHandler s 0 0 (serialize (connect_msg page remote (zrep SOCKADDR_IN 0))) None in
  match cxn_timer_cb (Cxs c g) with
  | Ret _ s => Ret (cx s) (cxg s)
  | Raise e s => Raise e (cxg s)
  | Fault f => Fault f
  end.

(** cxn_handler::state(State) *)
Definition cxn_set_state (x : cxn_state) : prog cxs unit :=
  do! cx_upd (with_state x) in
  let! s := get in
  do! (if bool_decide (x = DISCONNECTED) && negb (bool_decide (is_Some (cx_timer (cx s)))) then set_reconnect_timer else ret tt) in
  cx_upd (with_pending_time 0).

(** A member function of the handler of address [a]. *)
Definition on_cxn (a : sockaddr_in) (c : prog cxs unit) : prog getaddr unit := fun g =>
  match g_cxns g !! a with
  | None => Fault UseAfterFree
  | Some h =>
      let back s := with_cxns (<[a := cx s]> (g_cxns (cxg s))) (cxg s) in
      match c (Cxs h g) with
      | Ret u s => Ret u (back s)
      | Raise e s => Raise e (back s)
      | Fault f => Fault f
      end
  end.

(** The loop calls the timer callback. *)
Definition cxn_fires (a : sockaddr_in) : prog getaddr unit :=
  on_cxn a (do! cx_upd (with_cx_timer None) in cxn_timer_cb).

(** unordered_map::insert: an element that is there stays. *)
Definition insert_new {K} `{EqDecision K} `{Countable K} {A} (k : K) (x : A) (m : gmap K A) : gmap K A :=
  match m !! k with Some _ => m | None => <[k := x]> m end.

(** ** Addresses from peers *)

(** A sockaddr_in in memory; what the hash maps compare of it. *)
Definition sin_bytes (a : sockaddr_in) : list Z :=
  le_bytes 2 AF_INET ++ le_bytes 2 (sin_port a) ++ le_bytes 4 (s_addr a) ++ zrep 8 0.
Definition sin_key (bs : list Z) : sockaddr_in := SockaddrIn (le_val (slice 4 4 bs)) (le_val (slice 2 2 bs)).

(** An address that was not known gets a handler, which connects. *)
Definition learn (a : sockaddr_in) : prog getaddr unit :=
  let! g := get in
  match g_known_addrs g !! a with
  | Some _ => ret tt
  | None =>
      do! modify (fun g => with_addrs (<[a := NO_HID]> (g_known_addrs g)) g) in
      let! handler := cxn_ctor (sin_bytes a) DISCONNECTED in
      modify (fun g => with_cxns (insert_new a handler (g_cxns g)) g)
  end.

(** sizeof(full_packed_net_addr); the IPv4 address and the port of the entry [i]. *)
Definition FULL_ADDR : Z := 30.

(** The inner loop from entry [i] on; [addrs] is the memory at the entries. *)
Fixpoint harvest (n : nat) (i : Z) (addrs : list Z) : prog getaddr unit :=
  match n with
  | O => ret tt
  | S n =>
      let! ip := field (FULL_ADDR * i + 24) 4 addrs in
      do! (if is_private (le_val ip) then ret tt
           else
             let! x := do_sample in
             if x then
               let! port := field (FULL_ADDR * i + 28) 2 addrs in
               learn (SockaddrIn (le_val ip) (le_val port))
             else ret tt) in
      harvest n (i + 1) addrs
  end.

(** The outer loop. *)
Fixpoint harvests (m n : nat) (addrs : list Z) : prog getaddr unit :=
  match m with
  | O => ret tt
  | S m => do! harvest n 0 addrs in harvests m n addrs
  end.

(** strcmp(p, s) == 0 on memory that ends; [s] has its NUL. *)
Fixpoint strcmp_eq (s p : list Z) : option bool :=
  match s, p with
  | [], _ => Some true
  | _, [] => None
  | x :: s, y :: p => if x =? y then strcmp_eq s p else Some false
  end.

(** bc_msg_handler::io_cb on a complete record (struct bitcoin_msg_log_format:
    the id at 13, is_sender at 17, the message at 18). *)
Definition on_bc_msg (buf : list Z) (len : Z) : prog getaddr unit :=
  let! is_sender := field 17 1 buf in
  if negb (le_val is_sender =? 0) then ret tt
  else
    let! addr := deref OutOfBounds (strcmp_eq (cstring "addr") (zdrop 22 buf)) in
    if negb addr then ret tt
    else
      let! handle_id := field32 13 buf in
      let! g := get in
      do! match g_known_hids g !! handle_id with
          | None => ga_glog (LText ERROR [text "Got address from hid "; number handle_id; text " but could not find hid handler for it"])
          | Some h => modify (fun g => with_hids (<[handle_id := hid_enqueue (ev_now g) h]> (g_known_hids g)) g)
          end in
      match get_varint (zdrop 42 buf) with
      | None => crash OutOfBounds
      | Some (entries, bits) =>
          harvests (Z.to_nat entries) (Z.to_nat entries) (zdrop (42 + bits) buf)
      end.

Section BcMsg.
Context (strerror : Z -> list Z).

(** bc_msg_handler::bc_msg_handler and io_cb; the program is its client. *)
Definition bc_msg_ctor (k : sock) (g : getaddr) : lreader getaddr :=
  LReader (Reader (read_buffer_ctor page 4) k) true g.

Definition bc_msg_io_cb (revents : Z) : prog (lreader getaddr) unit :=
  if has revents ev_READ then
    let! s := get in
    let! e := read_loop page watch_again (stanza on_bc_msg) (1 + length (stream (l_read s))) in
    match e with
    | Failed err =>
        do! on_l_client (ga_glog (LText ERROR [strerror err; text "(getaddr)"])) in
        raise (RuntimeError "strerror")
    | Eof =>
        do! on_l_client (ga_glog (LText ERROR [text "(getaddr)"])) in
        raise (RuntimeError "Lost connection to bc_msg handler")
    | _ => ret tt
    end
  else ret tt.
End BcMsg.

(** ** Rounds *)

(** g_bound_addrs.find: an element that is neither less nor greater. *)
Definition is_bound (l : list sockaddr_in) (a : sockaddr_in) : bool :=
  existsb (fun b => negb (sockaddr_cmp a b) && negb (sockaddr_cmp b a)) l.

(** The handles whose local address is not one of a listener. *)
Definition outbound (g : getaddr) : list Z :=
  List.filter (fun i => match g_known_hids g !! i with Some h => negb (is_bound (g_bound_addrs g) (hh_local h)) | None => false end)
    (ids (g_known_hids g)).

(** clock_cb *)
Definition clock_cb : prog getaddr unit :=
  do! modify (fun g => with_round (u32 (g_current_getaddr g + 1)) (ev_now g) g) in
  do! ga_glog (LText CLIENT [text "Initiating GETADDR probe"]) in
  do! modify (fun g => with_hids (set_sequence (g_current_getaddr g) <$> g_known_hids g) g) in
  let! g := get in
  let hids := outbound g in
  if negb (zlen hids =? 0) then send_serialized (serialize (command_msg page COMMAND_DISCONNECT 0 hids))
  else ret tt.

(** ** What the connector says *)

Section Watch.
Context (inet_ntop6 : list Z -> list Z).

(** The two callbacks main gives to bcwatchers::ev_handler. *)
Definition on_connect (m : bc_channel_msg) : prog getaddr unit :=
  let remote := bm_remote m in
  let hid := bm_handle_id m in
  do! modify (fun g => with_addrs (<[sin_key remote := hid]> (g_known_addrs g)) g) in
  let! g := get in
  do! match g_cxns g !! sin_key remote with
      | None =>
          let! handler := cxn_ctor remote CONNECTED in
          modify (fun g => with_cxns (insert_new (sin_key remote) handler (g_cxns g)) g)
      | Some _ => on_cxn (sin_key remote) (cxn_set_state CONNECTED)
      end in
  let! g := get in
  do! match g_known_hids g !! hid with
      | Some _ =>
          do! modify (fun g => with_hids (delete hid (g_known_hids g)) g) in
          ga_glog (LText DEBUG [text "Received a hid more than once? "; number hid])
      | None => ret tt
      end in
  modify (fun g => with_hids (insert_new hid (hid_ctor hid (sin_key remote) (sin_key (bm_local m)) g) (g_known_hids g)) g).

Definition on_disconnect (m : bc_channel_msg) : prog getaddr unit :=
  let remote := bm_remote m in
  let hid := bm_handle_id m in
  do! modify (fun g => with_addrs (<[sin_key remote := NO_HID]> (g_known_addrs g)) g) in
  let! g := get in
  do! match g_cxns g !! sin_key remote with
      | None =>
          let! t := print_addr inet_ntop6 remote in
          do! ga_glog (LText DEBUG [text "Somehow we got a disconnect for a connection we did not know about to "; t]) in
          let! handler := cxn_ctor remote DISCONNECTED in
          modify (fun g => with_cxns (insert_new (sin_key remote) handler (g_cxns g)) g)
      | Some _ => on_cxn (sin_key remote) (cxn_set_state DISCONNECTED)
      end in
  modify (fun g => with_hids (delete hid (g_known_hids g)) g).
End Watch.
End Program.

(** ** The control connection *)

(** The kernel takes commands of this size whole. *)
Definition WHOLE : Z := 1048576.

(** How many whole writes the kernel will take; signals may interrupt them. *)
Fixpoint spare (ws : list write_event) : nat :=
  match ws with
  | [] => 0
  | WAccept m :: ws => if WHOLE <=? m then S (spare ws) else 0
  | WErr e :: ws => if e =? EINTR then spare ws else 0
  end.

Lemma do_write_spare bs k :
  0 < zlen bs <= WHOLE -> (0 < spare (wx k))%nat ->
  exists k', ClientLib.do_write bs k = Ret tt k' /\ tx k' = tx k ++ bs /\ rx k' = rx k /\ S (spare (wx k')) = spare (wx k).
Proof.
  intros Hb. unfold ClientLib.do_write. assert (length (wx k) < S (length (wx k)))%nat as Hf by lia. revert Hf.
  generalize (S (length (wx k))). intros fuel. revert k. induction fuel as [|fuel IH]; intros k Hf Hs; [lia|].
  destruct k as [r [|[m|e] ws] t en]; simpl in Hf, Hs; [lia|..]; cbn [do_write_loop].
  - destruct (Z.leb_spec WHOLE m) as [Hm|]; [|lia]. rewrite (zdrop_neg 0) by lia.
    assert (write bs (Sock r (WAccept m :: ws) t en) = Ret (zlen bs) (Sock r ws (t ++ bs) en)) as Hw.
    { unfold write. cbn [wx rx tx errno]. rewrite ztake_all by (unfold MAX_RW, WHOLE in *; lia). done. }
    run_step Hw. erewrite bind_ret by done. destruct (Z.ltb_spec (zlen bs) 0); [lia|].
    destruct (Z.ltb_spec (0 + zlen bs) (zlen bs)); [lia|]. eexists. split; [done|]. simpl. destruct (Z.leb_spec WHOLE m); [|lia]. done.
  - destruct (Z.eqb_spec e EINTR) as [->|]; [|lia].
    do 2 erewrite bind_ret by done. change (-1 <? 0) with true. cbn [errno].
    change ((EINTR =? EAGAIN) || (EINTR =? EWOULDBLOCK)) with false. change (negb (EINTR =? EINTR)) with false. cbn match.
    destruct (Z.ltb_spec 0 (zlen bs)); [|lia].
    destruct (IH (Sock r ws t EINTR)) as (k'&Hr&Hx&Hrx&Hsp); [simpl; lia|done|]. exists k'. split; [exact Hr|done].
Qed.

(** get_all_cxn on a socket with room for its request. *)
Lemma get_all_cxn_spare {S} (callback : list Z -> Z -> prog S unit) g (s s' : S) k rest :
  addrs_ok g -> Z.of_nat (size (BitcoinHandler.g_active_handlers g)) < 2 ^ 26 -> (0 < spare (wx k))%nat ->
  avail (rx k) = be_bytes 4 (CONNECTION_INFO * zlen (info_list g)) ++ connection_infos g ++ rest ->
  ClientLib.each_record callback (info_list g) 0 s = Ret tt s' ->
  exists k', get_all_cxn callback (s, k) = Ret (zlen (info_list g)) (s', k') /\
    tx k' = tx k ++ command_bytes COMMAND_GET_CXN 0 [] /\ avail (rx k') = rest /\ Datatypes.S (spare (wx k')) = spare (wx k).
Proof.
  intros Hg Hn Hs Ha He.
  assert (zlen (info_list g) < 2 ^ 26) as Hl by (unfold info_list, zlen; by rewrite length_map, length_ids).
  pose proof (zlen_nonneg (info_list g)). set (n := CONNECTION_INFO * zlen (info_list g)) in *.
  assert (exists k1, get_all_cxn_prefix k = Ret n k1 /\ tx k1 = tx k ++ command_bytes COMMAND_GET_CXN 0 [] /\
    avail (rx k1) = connection_infos g ++ rest /\ Datatypes.S (spare (wx k1)) = spare (wx k)) as (k1&Hp&Hx&Ha1&Hw).
  { unfold get_all_cxn_prefix. destruct (do_write_spare get_all_cxn_request k) as (k0&Hr0&Ht0&Hx0&Hs0); [done|done|]. run_step Hr0.
    destruct (recv_waitall_spec 4 k0) as (k1&Hv&Ha1&Hw1&Ht1).
    { rewrite Hx0, Ha, zlen_app, zlen_be_bytes. pose proof (zlen_nonneg (connection_infos g ++ rest)). lia. }
    run_step Hv. cbn [fst snd]. change (4 =? 0) with false. change (negb (4 =? 4)) with false. cbv iota. exists k1.
    rewrite Hx0, Ha in Ha1 |- *. rewrite ztake_app_exact by (by rewrite zlen_be_bytes). rewrite zdrop_app_exact in Ha1 by (by rewrite zlen_be_bytes).
    rewrite Ht1, Ht0, Hw1, get_all_cxn_request_bytes. split_and!; try done. unfold ret. f_equal. apply ntoh32_be. unfold n, CONNECTION_INFO. lia. }
  destruct (get_all_cxn_run callback (info_list g) s s' k k1 rest) as (k'&Hr&Ha'&Hx'&Hw'); [by apply info_list_sizes|done|done|done|].
  exists k'. by rewrite Hx', Hw', Hx.
Qed.

Lemma control_write_ok bs g :
  0 < zlen bs <= WHOLE -> (0 < spare (wx (g_control g)))%nat ->
  exists k', control_write bs g = Ret tt (with_control k' g) /\ tx k' = tx (g_control g) ++ bs /\
    rx k' = rx (g_control g) /\ S (spare (wx k')) = spare (wx (g_control g)).
Proof.
  intros Hb Hs. destruct (do_write_spare bs (g_control g) Hb Hs) as (k'&Hr&?). exists k'. split; [|done]. by eapply zoom_ret.
Qed.

(** The bytes that are sent. *)
Definition connect_bytes (remote : list Z) : list Z := [0] ++ be_bytes 4 32 ++ [CONNECT] ++ remote ++ zrep 16 0.

Lemma ctrl_length_at (l : list Z) rest : 
  zlen l = 4 -> ctrl_length ([0] ++ l ++ rest) = ntoh32 (le_val l).
Proof. intros. unfold ctrl_length. by rewrite (slice_app_mid 1 4 [0] l rest) by done. Qed.

Section Sent.
Context (page : Z) (Hpage : 0 < page <= 2 ^ 62).

Lemma connect_sent remote :
  zlen remote = 16 ->
  let p := serialize (connect_msg page remote (zrep SOCKADDR_IN 0)) in ztake (snd p) (fst p) = connect_bytes remote.
Proof.
  intros Hr. unfold serialize, connect_msg, SOCKADDR_IN. cbv zeta. cbn [fst snd].
  destruct (message_bytes page Hpage CONNECT (zrep (16 * 2) 0)) as (rest&Hm); [done|done|].
  change (zlen (zrep (16 * 2) 0)) with 32 in Hm. rewrite Hm. clear Hm.
  assert (splice (6 + 16) (zrep 16 0) (splice 6 remote ([0] ++ be_bytes 4 32 ++ [CONNECT] ++ zrep (16 * 2) 0 ++ rest)) =
          connect_bytes remote ++ rest) as ->.
  { unfold connect_bytes. explode Hr. reflexivity. }
  unfold connect_bytes at 1. rewrite <- !app_assoc, (ctrl_length_at (be_bytes 4 32)) by done.
  change (ntoh32 (le_val (be_bytes 4 32))) with 32. apply ztake_app_exact. unfold connect_bytes, MESSAGE. autorewrite with zlist. lia.
Qed.

Lemma zlen_connect_bytes remote : zlen remote = 16 -> zlen (connect_bytes remote) = 38.
Proof. intros Hr. unfold connect_bytes. autorewrite with zlist. lia. Qed.

Lemma command_sent c i ts :
  0 <= i < 2 ^ 32 -> zlen ts < 2 ^ 28 ->
  let p := serialize (command_msg page c i ts) in ztake (snd p) (fst p) = command_bytes c i ts.
Proof.
  intros Hi Hts. cbv zeta. unfold serialize. cbn [fst snd]. pose proof (zlen_nonneg ts).
  destruct (command_msg_bytes page Hpage c i ts Hi Hts) as (rest&->). apply ztake_app_exact.
  rewrite zlen_command_bytes. unfold command_bytes. rewrite <- !app_assoc, ctrl_length_at by (by rewrite zlen_be_bytes).
  rewrite ntoh_be by (unfold COMMAND_MSG; lia). lia.
Qed.
End Sent.
