(* ===== verification/GetAddrRun.v ===== *)
(** * getaddr as it runs

    The invariant of the program of [GetAddr] over everything that can happen to
    it: its timers, the messages of its peers, what the connector reports, the
    schedule. No address is forgotten, no peer is asked too often, and no
    assertion fails. *)

From S2P Require Import Prelude.
From S2P Require Import Bytes.
From S2P Require Import WrappedBuffer.
From S2P Require Import Net.
From S2P Require Import ReadBuffer.
From S2P Require Import LogServer.
From S2P Require Import BitcoinWire.
From S2P Require Import Logger.
From S2P Require Import BitcoinHandler.
From S2P Require Import CtrlMsg.
From S2P Require Import CommandHandler.
From S2P Require Import LogFormat.
From S2P Require Import ClientLib.
From S2P Require Import ClientReader.
From S2P Require Import LogReader.
From S2P Require Import BcWatch.
From S2P Require Import GetAddr.
From Stdlib Require Import Sorting.Sorted.

(** The longest delay of the reconnect timer: 5 * (2^14 - 1) seconds. *)
Definition MAX_DELAY : Z := 81915 * SEC.

Section Run.
Context (page : Z) (Hpage : 0 < page <= 2 ^ 62).

(** ** The handler of an address *)

(** What holds of it at time [now], except while its timer callback runs: it is
    CONNECTING exactly while an attempt is pending; without a timer it is
    connected and has no failures to forget. *)
Record cx_mid (a : sockaddr_in) (now : Z) (c : cxn_handler) : Prop := {
  cx_pending : 0 <= pending_time c <= now;
  cx_connecting : state_ c = CONNECTING <-> 0 < pending_time c;
  cx_fails : 0 <= consecutive_fails c <= 14;
  cx_due t : cx_timer c = Some t -> t <= now + MAX_DELAY;
  cx_sers : exists r, zlen r = 16 /\ sin_key r = a /\ sers c = serialize (connect_msg page r (zrep SOCKADDR_IN 0)) }.

Definition cx_ok (a : sockaddr_in) (now : Z) (c : cxn_handler) : Prop :=
  cx_mid a now c /\ (cx_timer c = None -> state_ c = CONNECTED /\ consecutive_fails c = 0).

(** Its timer callback will connect: it is down, or the last attempt was 15
    minutes ago. *)
Definition due_again (now : Z) (c : cxn_handler) : Prop :=
  state_ c = DISCONNECTED \/ (state_ c = CONNECTING /\ pending_time c + 60 * 15 * SEC < now).

(** What a handler changes of the program: the random generator and, when it
    connects, the control connection. *)
Definition cx_effect (wrote : list Z) (g g' : getaddr) : Prop :=
  exists k ds, g' = with_random (coins g) ds (with_control k g) /\ tx k = tx (g_control g) ++ wrote /\
    rx k = rx (g_control g) /\ (spare (wx (g_control g)) - match wrote with [] => 0 | _ => 1 end <= spare (wx k))%nat.

Lemma cx_effect_nil g : cx_effect [] g g.
Proof. exists (g_control g), (dice g). rewrite app_nil_r. destruct g; split_and!; [done..|simpl; lia]. Qed.

Lemma cx_ok_later a now now' c : cx_ok a now c -> now <= now' -> cx_ok a now' c.
Proof.
  intros [[H1 H2 H3 H4 H5] H6] Hn. split; [|done]. split; [lia|done|done| |done].
  intros t Ht. specialize (H4 t Ht). lia.
Qed.

(** set_reconnect_timer arms the timer within the longest delay. *)
Lemma set_reconnect_timer_ok c g :
  0 <= consecutive_fails c <= 14 ->
  exists t ds, set_reconnect_timer (Cxs c g) = Ret tt (Cxs (with_cx_timer (Some t) c) (with_random (coins g) ds g)) /\
    ev_now g <= t <= ev_now g + MAX_DELAY.
Proof.
  intros Hf. unfold set_reconnect_timer. cbn [cx cxg].
  set (d := match dice g with d :: _ => d | [] => 0 end). exists (ev_now g + 5 * (Z.shiftl 1 (d mod (consecutive_fails c + 1)) - 1) * SEC).
  exists (match dice g with _ :: ds => ds | [] => [] end). split; [unfold d; by destruct (dice g)|].
  pose proof (Z.mod_pos_bound d (consecutive_fails c + 1)) as Hm. rewrite Z.shiftl_mul_pow2, Z.mul_1_l by lia.
  assert (1 <= 2 ^ (d mod (consecutive_fails c + 1)) <= 2 ^ 14) as Hp.
  { split; [apply (Z.pow_le_mono_r 2 0); lia|apply Z.pow_le_mono_r; lia]. }
  unfold MAX_DELAY, SEC. change (2 ^ 14) with 16384 in Hp. lia.
Qed.

(** A connection attempt. *)
Lemma cxn_attempt_ok a c g :
  0 < ev_now g -> cx_mid a (ev_now g) c -> (0 < spare (wx (g_control g)))%nat ->
  exists c' g', cxn_attempt (Cxs c g) = Ret tt (Cxs c' g') /\ cx_ok a (ev_now g) c' /\ sers c' = sers c /\
    state_ c' = CONNECTING /\ pending_time c' = ev_now g /\ cx_effect (ztake (snd (sers c)) (fst (sers c))) g g' /\
    ztake (snd (sers c)) (fst (sers c)) <> [].
Proof.
  intros Hn [H1 H2 H3 H4 (r&Hr&Hk&Hse)] Hsp. unfold cxn_attempt. do 2 erewrite bind_ret by done.
  assert (ztake (snd (sers c)) (fst (sers c)) = connect_bytes r) as Hcb by (rewrite Hse; by apply connect_sent).
  pose proof (zlen_connect_bytes r Hr) as Hz.
  destruct (control_write_ok (connect_bytes r) g) as (k&Hw&Htx&Hrx&Hs); [unfold WHOLE; lia|done|].
  erewrite bind_ret; [|eapply zoom_ret; cbn [cx cxg]; unfold send_serialized; rewrite Hcb; exact Hw].
  do 2 erewrite bind_ret by done. cbn [cx cxg].
  destruct (set_reconnect_timer_ok (with_fails (Z.min 14 (consecutive_fails c + 1)) (with_pending_time (ev_now g) (with_state CONNECTING c)))
    (with_control k g)) as (t&ds&Ht&Hb); [simpl; lia|].
  eexists _, _. split; [exact Ht|]. rewrite Hcb. split_and!; try done.
  - split; [|done]. split; simpl; [lia|split; [lia|done]|lia|intros ? [= <-]; simpl in Hb; lia|by exists r].
  - exists k, ds. split_and!; [done|done|done|]. destruct (connect_bytes r) eqn:E; [done|lia].
Qed.

(** The timer callback: a pending attempt is waited for or given up, a failure
    forgotten, or a connection attempted. *)
Lemma cxn_timer_cb_ok a c g :
  0 < ev_now g -> cx_mid a (ev_now g) c -> (0 < spare (wx (g_control g)))%nat ->
  exists c' wrote g', cxn_timer_cb (Cxs c g) = Ret tt (Cxs c' g') /\ cx_ok a (ev_now g) c' /\ sers c' = sers c /\
    (state_ c' = CONNECTED <-> state_ c = CONNECTED) /\ cx_effect wrote g g' /\
    (wrote = [] \/ (wrote = ztake (snd (sers c)) (fst (sers c)) /\ state_ c' = CONNECTING /\ pending_time c' = ev_now g)) /\
    (due_again (ev_now g) c -> wrote <> []).
Proof.
  intros Hn HM Hsp. pose proof HM as [H1 H2 H3 H4 H5]. unfold cxn_timer_cb. erewrite bind_ret by done. cbn [cx cxg].
  destruct (Z.ltb_spec 0 (pending_time c)) as [Hp|Hp].
  - pose proof (proj2 H2 Hp) as Hst. cbv zeta. destruct (Z.ltb_spec (pending_time c + 60 * 15 * SEC - ev_now g) 0) as [Ha|Ha].
    + rewrite Hst. erewrite bind_ret by (by erewrite bind_ret by done). erewrite bind_ret by done. cbn [cx cxg]. simpl (pending_time _ =? 0).
      destruct (cxn_attempt_ok a (with_state DISCONNECTED (with_pending_time 0 c)) g) as (c'&g'&Hr&Hok&Hse&Hs&Hpt&He&Hne); [done| |done|].
      { split; simpl; [lia|split; [done|lia]|done|done|done]. }
      exists c', (ztake (snd (sers c)) (fst (sers c))), g'. split; [exact Hr|]. split_and!; try done; [|by right].
      by rewrite Hs.
    + erewrite bind_ret by done. erewrite bind_ret by done. cbn [cx cxg]. simpl (pending_time _).
      destruct (Z.eqb_spec (pending_time c) 0); [lia|]. eexists _, [], g. split; [done|].
      split_and!; try done; [|apply cx_effect_nil|by left|intros [?|[_ ?]]; [congruence|lia]].
      split; [|done]. split; simpl; [lia|done|done| |done]. intros t [= <-]. unfold MAX_DELAY, SEC. lia.
  - assert (pending_time c = 0) as Hp0 by lia. erewrite bind_ret by done. erewrite bind_ret by done. cbn [cx cxg].
    rewrite Hp0. cbn [Z.eqb]. destruct (state_ c) eqn:Hst.
    + destruct (cxn_attempt_ok a c g Hn HM Hsp) as (c'&g'&Hr&Hok&Hse&Hs&Hpt&He&Hne).
      exists c', (ztake (snd (sers c)) (fst (sers c))), g'. rewrite Hs. split_and!; try done. by right.
    + destruct H2 as [H2 _]. specialize (H2 eq_refl). lia.
    + destruct (Z.eqb_spec (consecutive_fails c) 0) as [Hf|Hf].
      * exists c, [], g. rewrite Hst. split_and!; try done; [apply cx_effect_nil|by left|intros [?|[? _]]; congruence].
      * erewrite bind_ret by done. eexists _, [], g. split; [done|]. simpl. rewrite Hst.
        split_and!; try done; [|apply cx_effect_nil|by left|intros [?|[? _]]; congruence].
        split; [|done]. split; simpl; [lia|by rewrite Hst, <- H2|lia| |done]. intros t [= <-]. unfold MAX_DELAY, SEC. lia.
Qed.

(** A new handler. *)
Lemma cxn_ctor_ok r x g :
  0 < ev_now g -> zlen r = 16 -> x <> CONNECTING -> (0 < spare (wx (g_control g)))%nat ->
  exists c' wrote g', cxn_ctor page r x g = Ret c' g' /\ cx_ok (sin_key r) (ev_now g) c' /\
    (state_ c' = CONNECTED <-> x = CONNECTED) /\ cx_effect wrote g g' /\
    wrote = (match x with CONNECTED => [] | _ => connect_bytes r end) /\
    (x = DISCONNECTED -> state_ c' = CONNECTING /\ pending_time c' = ev_now g).
Proof.
  intros Hn Hr Hx Hsp. unfold cxn_ctor. cbv zeta.
  destruct (cxn_timer_cb_ok (sin_key r) (CxnHandler x 0 0 (serialize (connect_msg page r (zrep SOCKADDR_IN 0))) None) g) as (c'&w&g'&Hcb&Hok&Hse&Hst&He&Hw&Hd).
  - done.
  - split; simpl; [lia|split; [done|lia]|lia|done|by exists r].
  - done.
  - rewrite Hcb. exists c', w, g'. cbn [cx cxg state_ sers] in *. split_and!; try done.
    + destruct x; [|done|].
      * destruct Hw as [->|(->&_)]; [by destruct (Hd (or_introl eq_refl))|]. by apply connect_sent.
      * destruct Hw as [->|(_&Hc&_)]; [done|]. rewrite Hc in Hst. destruct Hst as [_ Hst]. by specialize (Hst eq_refl).
    + intros ->. specialize (Hd (or_introl eq_refl)). by destruct Hw as [->|(_&?&?)].
Qed.

(** The log says that the connection is up or down. *)
Lemma cxn_set_state_ok a x c g :
  cx_ok a (ev_now g) c -> x <> CONNECTING -> 0 <= ev_now g ->
  exists c' ds, cxn_set_state x (Cxs c g) = Ret tt (Cxs c' (with_random (coins g) ds g)) /\ cx_ok a (ev_now g) c' /\
    state_ c' = x /\ consecutive_fails c' = consecutive_fails c /\ sers c' = sers c.
Proof.
  intros [[H1 H2 H3 H4 H5] H6] Hx Hn. unfold cxn_set_state. do 2 erewrite bind_ret by done. cbn [cx].
  change (cx_timer (with_state x c)) with (cx_timer c).
  destruct (bool_decide (x = DISCONNECTED) && negb (bool_decide (is_Some (cx_timer c)))) eqn:Hb.
  - destruct (set_reconnect_timer_ok (with_state x c) g) as (t&ds&Ht&Htb); [done|]. run_step Ht.
    eexists _, ds. split; [done|]. split_and!; try done. split; [|done].
    split; simpl; [lia|split; [done|lia]|done| |done]. intros ? [= <-]. lia.
  - erewrite bind_ret by done. exists (with_pending_time 0 (with_state x c)), (dice g). split; [by destruct g|].
    split_and!; try done. split; [split; simpl; [lia|split; [done|lia]|done|done|done]|]. simpl. intros Ht. rewrite Ht in Hb.
    destruct x; [done|done|]. split; [done|]. by apply H6.
Qed.

(** ** The program *)

Record hid_ok (now i : Z) (h : hid_handler) : Prop := {
  hid_self : hh_hid h = i;
  hid_cnt : 0 <= getaddr_cnt h <= GETADDR_LIMIT;
  hid_time : 0 <= last_enqueue h <= now;
  hid_due t : hh_timer h = Some t -> t <= last_enqueue h + 10 * SEC }.

(** Every known address has a handler, which is connected exactly when the
    address has a handle. *)
Record GWF (g : getaddr) : Prop := {
  gw_now : 0 < ev_now g;
  gw_msg : 0 <= g_msg_id g < 2 ^ 32;
  gw_dom a : is_Some (g_known_addrs g !! a) <-> is_Some (g_cxns g !! a);
  gw_cx a c : g_cxns g !! a = Some c -> cx_ok a (ev_now g) c;
  gw_conn a c h : g_cxns g !! a = Some c -> g_known_addrs g !! a = Some h -> (state_ c = CONNECTED <-> h <> NO_HID);
  gw_hid i h : g_known_hids g !! i = Some h -> hid_ok (ev_now g) i h }.

(** Changes that keep it: the handler and the handle of one address, together. *)
Lemma GWF_addr g g' a c h :
  GWF g -> cx_ok a (ev_now g) c -> (state_ c = CONNECTED <-> h <> NO_HID) ->
  ev_now g' = ev_now g -> g_msg_id g' = g_msg_id g -> g_known_hids g' = g_known_hids g ->
  g_known_addrs g' = <[a := h]> (g_known_addrs g) -> g_cxns g' = <[a := c]> (g_cxns g) -> GWF g'.
Proof.
  intros [H1 H2 H3 H4 H5 H6] Hc Hh En Em Eh Ea Ec. split; rewrite ?En, ?Em, ?Eh, ?Ea, ?Ec; [done|done|..].
  - intros b. destruct (decide (a = b)) as [->|Hne]; [by rewrite !lookup_insert_eq|by rewrite !lookup_insert_ne].
  - intros b c'. destruct (decide (a = b)) as [->|Hne]; [rewrite lookup_insert_eq; by intros [= <-]|rewrite lookup_insert_ne by done; apply H4].
  - intros b c' h'. destruct (decide (a = b)) as [->|Hne]; [rewrite !lookup_insert_eq; by intros [= <-] [= <-]|].
    rewrite !lookup_insert_ne by done. apply H5.
  - done.
Qed.

Lemma GWF_same_maps g g' :
  GWF g -> ev_now g' = ev_now g -> 0 <= g_msg_id g' < 2 ^ 32 -> g_known_hids g' = g_known_hids g ->
  g_known_addrs g' = g_known_addrs g -> g_cxns g' = g_cxns g -> GWF g'.
Proof. intros [H1 H2 H3 H4 H5 H6] En Em Eh Ea Ec. split; by rewrite ?En, ?Eh, ?Ea, ?Ec. Qed.

Lemma GWF_hids g m :
  GWF g -> (forall i h, m !! i = Some h -> hid_ok (ev_now g) i h) -> GWF (with_hids m g).
Proof. intros [] ?. by split. Qed.

Lemma GWF_hid_insert g i h : GWF g -> hid_ok (ev_now g) i h -> GWF (with_hids (<[i := h]> (g_known_hids g)) g).
Proof.
  intros HG Hh. apply GWF_hids; [done|]. intros j h'. destruct (decide (i = j)) as [->|Hne].
  - rewrite lookup_insert_eq. by intros [= <-].
  - rewrite lookup_insert_ne by done. apply HG.
Qed.

Lemma hid_enqueue_ok now i h : 0 <= now -> hid_ok now i h -> hid_ok now i (hid_enqueue now h).
Proof.
  intros Hn [H1 H2 H3 H4]. split; simpl; [done|done|lia|]. intros t. destruct (hh_timer h) as [t'|]; intros [= <-]; [|lia].
  specialize (H4 t' eq_refl). lia.
Qed.

Lemma hid_ctor_ok i r l g : GWF g -> hid_ok (ev_now g) i (hid_ctor i r l g).
Proof.
  intros HG. pose proof (gw_now g HG). unfold hid_ctor. cbv zeta.
  assert (hid_ok (ev_now g) i (HidHandler i r l None 0 (g_current_getaddr g) 0)) as H0 by (split; simpl; unfold GETADDR_LIMIT; (done || lia)).
  destruct (_ <? _); [apply hid_enqueue_ok; [lia|done]|done].
Qed.

(** ** Learning addresses *)

Lemma zlen_sin_bytes a : zlen (sin_bytes a) = 16.
Proof. unfold sin_bytes. by autorewrite with zlist. Qed.

(** An address a sockaddr_in can hold. *)
Definition key_ok (a : sockaddr_in) : Prop := 0 <= s_addr a < 2 ^ 32 /\ 0 <= sin_port a < 2 ^ 16.

Lemma sin_key_bytes a : key_ok a -> sin_key (sin_bytes a) = a.
Proof.
  intros [H1 H2]. unfold sin_key, sin_bytes.
  rewrite (slice_app_mid 2 2 (le_bytes 2 AF_INET)) by (by rewrite zlen_le_bytes).
  rewrite app_assoc, (slice_app_mid 4 4 (le_bytes 2 AF_INET ++ le_bytes 2 (sin_port a))) by (by autorewrite with zlist).
  rewrite !le_val_bytes_small by (simpl; lia). by destruct a.
Qed.

(** What learning changes: the two maps at the address, and the control
    connection. *)
Lemma learn_ok a g :
  GWF g -> key_ok a -> (g_known_addrs g !! a = None -> (0 < spare (wx (g_control g)))%nat) ->
  exists g', learn page a g = Ret tt g' /\ GWF g' /\
    g_known_hids g' = g_known_hids g /\ g_pending_getaddrs g' = g_pending_getaddrs g /\ ev_now g' = ev_now g /\ coins g' = coins g /\
    ((is_Some (g_known_addrs g !! a) /\ g' = g) \/
     (g_known_addrs g !! a = None /\ g_known_addrs g' = <[a := NO_HID]> (g_known_addrs g) /\
      (exists c, g_cxns g' = <[a := c]> (g_cxns g) /\ state_ c = CONNECTING /\ pending_time c = ev_now g) /\
      tx (g_control g') = tx (g_control g) ++ connect_bytes (sin_bytes a) /\
      (spare (wx (g_control g)) - 1 <= spare (wx (g_control g')))%nat)).
Proof.
  intros HG Hkey Hsp. unfold learn. erewrite bind_ret by done. destruct (g_known_addrs g !! a) as [h|] eqn:Hk.
  - exists g. split_and!; try done. left. by split.
  - specialize (Hsp eq_refl). erewrite bind_ret by done.
    assert (g_cxns g !! a = None) as Hcx.
    { destruct (g_cxns g !! a) eqn:E; [|done]. destruct (proj2 (gw_dom g HG a)) as [x Hx]; [by rewrite E|]. congruence. }
    destruct (cxn_ctor_ok (sin_bytes a) DISCONNECTED (with_addrs (<[a := NO_HID]> (g_known_addrs g)) g))
      as (c'&w&g1&Hc&Hok&Hst&(k&ds&->&Htx&_&Hs)&Hw&Hd); [apply HG|apply zlen_sin_bytes|done|done|].
    run_step Hc. eexists. split; [done|]. destruct (Hd eq_refl) as [Hcs Hcp]. simpl in Htx, Hs, Hok. rewrite sin_key_bytes in Hok by done.
    assert (insert_new a c' (g_cxns g) = <[a := c']> (g_cxns g)) as Hin by (unfold insert_new; by rewrite Hcx).
    split; [|split_and!; try done; right; split_and!; try done].
    + eapply (GWF_addr g _ a c' NO_HID HG Hok); try done. by rewrite Hcs.
    + exists c'. by split_and!.
    + simpl. by rewrite Htx, Hw.
    + simpl. etransitivity; [|exact Hs]. rewrite Hw. destruct (connect_bytes (sin_bytes a)); lia.
Qed.

(** The address of entry [i], and those of [n] entries from [i] on. *)
Definition entry_at (addrs : list Z) (i : Z) : sockaddr_in :=
  SockaddrIn (le_val (slice (FULL_ADDR * i + 24) 4 addrs)) (le_val (slice (FULL_ADDR * i + 28) 2 addrs)).
Fixpoint entries (n : nat) (i : Z) (addrs : list Z) : list sockaddr_in :=
  match n with
  | O => []
  | S n => entry_at addrs i :: entries n (i + 1) addrs
  end.

Lemma entry_key_ok addrs i :
  Forall is_byte addrs -> 0 <= i -> FULL_ADDR * i + 30 <= zlen addrs -> key_ok (entry_at addrs i).
Proof.
  intros HB Hi Hl. unfold FULL_ADDR in *.
  assert (forall off n, 0 <= off -> 0 <= n -> off + n <= zlen addrs -> 0 <= le_val (slice off n addrs) < 256 ^ n) as Hb.
  { intros off n ? ? ?. pose proof (le_val_bound (slice off n addrs)) as Hlv. rewrite zlen_slice in Hlv by done. apply Hlv.
    by apply Forall_take, Forall_drop. }
  split; simpl; [apply (Hb _ 4)|apply (Hb _ 2)]; unfold FULL_ADDR; lia.
Qed.

Lemma length_entries n i addrs : length (entries n i addrs) = n.
Proof. revert i. induction n as [|n IH]; intros i; simpl; [done|]. by rewrite IH. Qed.

(** How many of them are not known yet. *)
Definition unknown (m : gmap sockaddr_in Z) (a : sockaddr_in) : bool := bool_decide (m !! a = None).
Definition missing (es : list sockaddr_in) (g : getaddr) : nat := length (List.filter (unknown (g_known_addrs g)) es).

Lemma filter_le {A} (p q : A -> bool) l :
  (forall x, q x = true -> p x = true) -> (length (List.filter q l) <= length (List.filter p l))%nat.
Proof.
  intros Hpq. induction l as [|x l IH]; simpl; [lia|]. destruct (q x) eqn:Eq; [rewrite (Hpq _ Eq)|destruct (p x)]; simpl; lia.
Qed.

Lemma filter_lt {A} (p q : A -> bool) l x :
  (forall x, q x = true -> p x = true) -> In x l -> p x = true -> q x = false ->
  (length (List.filter q l) < length (List.filter p l))%nat.
Proof.
  intros Hpq Hin Hp Hq. induction l as [|y l IH]; [done|]. destruct Hin as [->|Hin]; simpl.
  - rewrite Hp, Hq. simpl. pose proof (filter_le p q l Hpq). lia.
  - specialize (IH Hin). destruct (q y) eqn:Eq; [rewrite (Hpq _ Eq)|destruct (p y)]; simpl; lia.
Qed.

Lemma missing_learned es a g g' :
  In a es -> g_known_addrs g !! a = None -> g_known_addrs g' = <[a := NO_HID]> (g_known_addrs g) ->
  (missing es g' < missing es g)%nat.
Proof.
  intros Hin Hk Hk'. unfold missing. rewrite Hk'. apply (filter_lt _ _ es a); [|done|by apply bool_decide_eq_true|].
  - unfold unknown. intros x. rewrite !bool_decide_eq_true. by intros [? _]%lookup_insert_None.
  - unfold unknown. rewrite lookup_insert_eq. by apply bool_decide_eq_false.
Qed.

(** What a harvest leaves as it was. *)
Definition harvest_frame (g g' : getaddr) : Prop :=
  g_known_hids g' = g_known_hids g /\ g_pending_getaddrs g' = g_pending_getaddrs g /\ ev_now g' = ev_now g.

Lemma do_sample_ok g : exists b cs, do_sample g = Ret b (with_random cs (dice g) g).
Proof.
  unfold do_sample. destruct (_ <? _); [exists true, (coins g); by destruct g|].
  destruct (coins g) as [|c cs] eqn:E; [exists false, []|by exists c, cs]. rewrite <- E. by destruct g.
Qed.

Lemma harvest_ok es n i addrs g :
  GWF g -> Forall is_byte addrs -> 0 <= i -> FULL_ADDR * (i + Z.of_nat n) <= zlen addrs -> incl (entries n i addrs) es ->
  (missing es g <= spare (wx (g_control g)))%nat ->
  exists g', harvest page n i addrs g = Ret tt g' /\ GWF g' /\ harvest_frame g g' /\
    (missing es g' <= spare (wx (g_control g')))%nat.
Proof.
  unfold FULL_ADDR. revert i g. induction n as [|n IH]; intros i g HG HB Hi Hl Hes Hm; [by exists g|]. cbn [harvest]. unfold field, FULL_ADDR.
  destruct (Z.ltb_spec (zlen addrs) (30 * i + 24 + 4)); [lia|]. erewrite bind_ret by done.
  cbn [entries] in Hes. apply incl_cons_inv in Hes as [Ha Hes].
  assert (forall g1, GWF g1 -> harvest_frame g g1 -> (missing es g1 <= spare (wx (g_control g1)))%nat ->
    exists g', harvest page n (i + 1) addrs g1 = Ret tt g' /\ GWF g' /\ harvest_frame g g' /\
      (missing es g' <= spare (wx (g_control g')))%nat) as Hnext.
  { intros g1 HG1 (E1&E2&E3) Hm1. destruct (IH (i + 1) g1) as (g'&Hr&HG'&(F1&F2&F3)&Hm'); [done|done|lia|lia|done|done|].
    exists g'. unfold harvest_frame. rewrite F1, F2, F3. by split_and!. }
  destruct (is_private _); [erewrite bind_ret by done; by apply Hnext|].
  destruct (do_sample_ok g) as (b&cs&Hs).
  assert (GWF (with_random cs (dice g) g)) as HG0 by (apply (GWF_same_maps g); try done; apply HG).
  destruct b.
  - destruct (Z.ltb_spec (zlen addrs) (30 * i + 28 + 2)); [lia|].
    destruct (learn_ok (entry_at addrs i) (with_random cs (dice g) g)) as (g1&Hr1&HG1&E1&E2&E3&_&Hc); [done|apply entry_key_ok; [done|lia|unfold FULL_ADDR; lia]| |].
    { simpl. intros Hk. assert (0 < missing es g)%nat; [|lia]. unfold missing.
      destruct (List.filter _ es) eqn:Ef; [|simpl; lia]. exfalso.
      assert (In (entry_at addrs i) (List.filter (unknown (g_known_addrs g)) es)) as Hin.
      { apply filter_In. split; [done|by apply bool_decide_eq_true]. }
      by rewrite Ef in Hin. }
    erewrite bind_ret; [|run_step Hs; cbn match; erewrite bind_ret by done; exact Hr1].
    apply Hnext; [done|done|]. destruct Hc as [[_ ->]|(Hk&Hk'&_&_&Hsp)]; [done|]. simpl in Hk', Hsp.
    pose proof (missing_learned es (entry_at addrs i) g g1) as Hml. specialize (Hml Ha Hk Hk'). lia.
  - erewrite bind_ret; [|by run_step Hs]. by apply Hnext.
Qed.

Lemma harvests_ok es m n addrs g :
  GWF g -> Forall is_byte addrs -> FULL_ADDR * Z.of_nat n <= zlen addrs -> incl (entries n 0 addrs) es ->
  (missing es g <= spare (wx (g_control g)))%nat ->
  exists g', harvests page m n addrs g = Ret tt g' /\ GWF g' /\ harvest_frame g g' /\
    (missing es g' <= spare (wx (g_control g')))%nat.
Proof.
  intros HG HB Hl Hes. revert g HG. induction m as [|m IH]; intros g HG Hm; [by exists g|]. cbn [harvests].
  destruct (harvest_ok es n 0 addrs g HG) as (g1&Hr&HG1&(E1&E2&E3)&Hm1); [done|lia|done|done|done|]. run_step Hr.
  destruct (IH g1 HG1 Hm1) as (g'&Hr'&HG'&(F1&F2&F3)&Hm'). exists g'. unfold harvest_frame. rewrite F1, F2, F3. by split_and!.
Qed.

(** ** Everything that happens *)

(** A record of the bitcoin_msg channel: when it is an addr message from a peer,
    its entries lie within it. *)
Definition is_addr (r : list Z) : bool :=
  (le_val (slice 17 1 r) =? 0) && bool_decide (strcmp_eq (cstring "addr") (zdrop 22 r) = Some true).
Definition entry_count (r : list Z) : Z := match get_varint (zdrop 42 r) with Some (n, _) => n | None => 0 end.
Definition entry_bytes (r : list Z) : list Z := match get_varint (zdrop 42 r) with Some (_, b) => zdrop (42 + b) r | None => [] end.

Definition bc_msg_ok (r : list Z) : Prop :=
  18 <= zlen r < 2 ^ 32 /\ Forall is_byte r /\
  (le_val (slice 17 1 r) = 0 -> is_Some (strcmp_eq (cstring "addr") (zdrop 22 r))) /\
  (is_addr r = true -> is_Some (get_varint (zdrop 42 r)) /\ 0 <= entry_count r /\ FULL_ADDR * entry_count r <= zlen (entry_bytes r)).

Definition msg_entries (r : list Z) : list sockaddr_in := entries (Z.to_nat (entry_count r)) 0 (entry_bytes r).

Lemma on_bc_msg_ok r g :
  GWF g -> bc_msg_ok r -> (Z.to_nat (entry_count r) <= spare (wx (g_control g)))%nat ->
  exists g', on_bc_msg page r (zlen r) g = Ret tt g' /\ GWF g' /\ g_pending_getaddrs g' = g_pending_getaddrs g /\ ev_now g' = ev_now g /\
    forall j, getaddr_cnt <$> g_known_hids g' !! j = getaddr_cnt <$> g_known_hids g !! j.
Proof.
  intros HG (Hz&HB&Hcmp&Had) Hsp. unfold on_bc_msg, field at 1. destruct (Z.ltb_spec (zlen r) (17 + 1)); [lia|]. erewrite bind_ret by done.
  unfold is_addr in Had. destruct (Z.eqb_spec (le_val (slice 17 1 r)) 0) as [E0|E0]; [|by exists g]. cbn [negb andb] in *.
  destruct (Hcmp E0) as [b Hb]. rewrite Hb in Had |- *. erewrite bind_ret by done. destruct b; [|by exists g]. cbn [negb].
  rewrite bool_decide_true in Had by done. destruct (Had eq_refl) as ((nb&Hv)&Hn&Hl). destruct nb as [n b].
  unfold entry_count, entry_bytes in Hn, Hl, Hsp. rewrite Hv in Hn, Hl, Hsp |- *.
  assert (exists h, field32 13 r g = Ret h g) as [i Hf].
  { unfold field32, field. destruct (Z.ltb_spec (zlen r) (13 + 4)); [lia|]. by eexists. }
  run_step Hf. erewrite bind_ret by done.
  assert (exists g1, match g_known_hids g !! i with
     | Some h => modify (fun g => with_hids (<[i := hid_enqueue (ev_now g) h]> (g_known_hids g)) g)
     | None => ga_glog (LText ERROR [text "Got address from hid "; number i; text " but could not find hid handler for it"])
     end g = Ret tt g1 /\ GWF g1 /\ g_control g1 = g_control g /\ g_known_addrs g1 = g_known_addrs g /\
     g_pending_getaddrs g1 = g_pending_getaddrs g /\ ev_now g1 = ev_now g /\
     forall j, getaddr_cnt <$> g_known_hids g1 !! j = getaddr_cnt <$> g_known_hids g !! j) as (g1&Hr1&HG1&Ek&Ea&Ep&En&Ec).
  { destruct (g_known_hids g !! i) as [h|] eqn:Hh; (eexists; split; [reflexivity|]; split).
    - apply GWF_hid_insert; [done|]. apply hid_enqueue_ok; [pose proof (gw_now g HG); lia|by apply HG].
    - split_and!; try done. intros j. simpl. destruct (decide (i = j)) as [->|]; [by rewrite lookup_insert_eq, Hh|by rewrite lookup_insert_ne].
    - apply (GWF_same_maps g); try done. apply HG.
    - done. }
  erewrite bind_ret by apply Hr1.
  destruct (harvests_ok (entries (Z.to_nat n) 0 (zdrop (42 + b) r)) (Z.to_nat n) (Z.to_nat n) (zdrop (42 + b) r) g1) as (g'&Hr&HG'&(F1&F2&F3)&_).
  - done.
  - by apply Forall_drop.
  - rewrite Z2Nat.id by done. exact Hl.
  - apply incl_refl.
  - rewrite Ek. etransitivity; [|exact Hsp]. unfold missing. etransitivity; [apply filter_length_le|].
    by rewrite length_entries.
  - exists g'. split; [exact Hr|]. split; [done|]. split_and!; [congruence|congruence|]. intros j. by rewrite F1, Ec.
Qed.

Context (inet_ntop6 : list Z -> list Z).

Inductive gevent :=
  | Elapse (d : Z)
  | Push
  | HidTimer (i : Z)
  | CxnTimer (a : sockaddr_in)
  | Clock
  | Inbound (r : list Z)
  | Up (m : bc_channel_msg)
  | Down (m : bc_channel_msg)
  | Ready (ws : list write_event).

Definition gexec (e : gevent) : prog getaddr unit :=
  match e with
  | Elapse d => modify (fun g => with_now (ev_now g + d) g)
  | Push => pusher_timer_cb page
  | HidTimer i => hid_fires i
  | CxnTimer a => cxn_fires a
  | Clock => clock_cb page
  | Inbound r => on_bc_msg page r (zlen r)
  | Up m => on_connect page m
  | Down m => on_disconnect page inet_ntop6 m
  | Ready ws => modify (fun g => let k := g_control g in with_control (Sock (rx k) (wx k ++ ws) (tx k) (errno k)) g)
  end.

(** When an event can happen: time does not go back, and a timer fires when it
    is active and due. *)
Definition happens (e : gevent) (g : getaddr) : Prop :=
  match e with
  | Elapse d => 0 <= d
  | HidTimer i => exists h t, g_known_hids g !! i = Some h /\ hh_timer h = Some t /\ t <= ev_now g
  | CxnTimer a => exists c t, g_cxns g !! a = Some c /\ cx_timer c = Some t /\ t <= ev_now g
  | _ => True
  end.

(** Input in the documented format: a record of a message is as long as its
    fields and an addr message has the entries it announces; what the watcher
    hands over has two sockaddr_in, a handle that is not ~0, and an address of
    IPv4 for a connection that is down (it may be printed). *)
Definition well_formed (e : gevent) : Prop :=
  match e with
  | Inbound r => bc_msg_ok r
  | Up m => bc_ok m /\ bm_handle_id m <> NO_HID
  | Down m => bc_ok m /\ ss_family (bm_remote m) = AF_INET
  | _ => True
  end.

(** The control connection takes the command whole: there is room for each
    write, and it is not longer than [WHOLE]. *)
Definition writable (e : gevent) (g : getaddr) : Prop :=
  let room n := (n <= spare (wx (g_control g)))%nat in
  match e with
  | Push => zlen (g_pending_getaddrs g) < 2 ^ 17 /\ room 1%nat
  | Clock => zlen (ids (g_known_hids g)) < 2 ^ 17 /\ room 1%nat
  | CxnTimer _ | Up _ | Down _ => room 1%nat
  | Inbound r => room (Z.to_nat (entry_count r))
  | _ => True
  end.

Definition enabled (e : gevent) (g : getaddr) : Prop := happens e g /\ well_formed e /\ writable e g.

Lemma elapse_ok d g : GWF g -> 0 <= d -> GWF (with_now (ev_now g + d) g).
Proof.
  intros [H1 H2 H3 H4 H5 H6] Hd. split; simpl; [lia|done|done| |done|].
  - intros a c Hc. eapply cx_ok_later; [by eapply H4|lia].
  - intros i h Hh. destruct (H6 i h Hh) as [? ? ? ?]. split; try done. lia.
Qed.

(** The command with all pending handles. *)
Lemma pusher_ok g :
  GWF g -> enabled Push g ->
  exists g', pusher_timer_cb page g = Ret tt g' /\ GWF g' /\ g_pending_getaddrs g' = [] /\
    tx (g_control g') = tx (g_control g) ++
      (if zlen (g_pending_getaddrs g) =? 0 then [] else command_bytes COMMAND_SEND_MSG (g_msg_id g) (g_pending_getaddrs g)).
Proof.
  intros HG (_&_&Hl&Hsp). unfold pusher_timer_cb, send_getaddrs. erewrite bind_ret by done. pose proof (gw_msg g HG) as Hi.
  destruct (Z.eqb_spec (zlen (g_pending_getaddrs g)) 0) as [E|E].
  - erewrite bind_ret by done. eexists. split; [reflexivity|]. rewrite app_nil_r. split; [|done]. apply (GWF_same_maps g); done.
  - destruct (control_write_ok (command_bytes COMMAND_SEND_MSG (g_msg_id g) (g_pending_getaddrs g)) g) as (k&Hw&Htx&_); [|done|].
    { rewrite zlen_command_bytes. pose proof (zlen_nonneg (g_pending_getaddrs g)). unfold MESSAGE, COMMAND_MSG, WHOLE. lia. }
    erewrite bind_ret; [|erewrite bind_ret by done; unfold send_serialized; rewrite command_sent by (done || lia); exact Hw].
    eexists. split; [reflexivity|]. split; [apply (GWF_same_maps g); done|]. split; [done|exact Htx].
Qed.

(** The timer of a connection: a getaddr after ten quiet seconds, and at most 24
    in a round. *)
Lemma hid_fires_ok i g :
  GWF g -> enabled (HidTimer i) g ->
  exists h g', g_known_hids g !! i = Some h /\ hid_fires i g = Ret tt g' /\ GWF g' /\
    g_pending_getaddrs g' = g_pending_getaddrs g ++
      (if (last_enqueue h + 10 * SEC <=? ev_now g) && (getaddr_seq h =? g_current_getaddr g) && (getaddr_cnt h <? GETADDR_LIMIT)
       then [i] else []) /\
    exists h', g_known_hids g' = <[i := h']> (g_known_hids g) /\ getaddr_seq h' = getaddr_seq h /\
      getaddr_cnt h' = getaddr_cnt h + zlen (g_pending_getaddrs g') - zlen (g_pending_getaddrs g).
Proof.
  intros HG ((h&t&Hh&Ht&Hdue)&_). exists h. pose proof (gw_hid g HG i h Hh) as [H1 H2 H3 H4]. unfold hid_fires. rewrite Hh.
  unfold hid_timer_cb. erewrite bind_ret by done. cbn [last_enqueue ev_now with_hids getaddr_seq getaddr_cnt g_current_getaddr hh_hid].
  assert ((10 * SEC + last_enqueue h - ev_now g <=? 0) = (last_enqueue h + 10 * SEC <=? ev_now g)) as ->.
  { destruct (Z.leb_spec (10 * SEC + last_enqueue h - ev_now g) 0), (Z.leb_spec (last_enqueue h + 10 * SEC) (ev_now g)); try done; lia. }
  destruct (Z.leb_spec (last_enqueue h + 10 * SEC) (ev_now g)) as [Hq|Hq]; cbn [andb].
  - destruct ((getaddr_seq h =? g_current_getaddr g) && (getaddr_cnt h <? GETADDR_LIMIT)) eqn:Hb.
    + apply andb_prop in Hb as [_ Hb]. zb. erewrite bind_ret by done. eexists. split; [done|]. split; [reflexivity|]. cbn [g_known_hids with_hids with_pending].
      rewrite insert_insert_eq. unfold GETADDR_LIMIT in *. rewrite u32_small by lia. split_and!.
      * apply (GWF_same_maps (with_hids (<[i := HidHandler (hh_hid h) (hh_remote h) (hh_local h) None (last_enqueue h) (getaddr_seq h) (getaddr_cnt h + 1)]> (g_known_hids g)) g)); try done; [|apply HG].
        apply GWF_hid_insert; [done|]. split; simpl; unfold GETADDR_LIMIT; [done|lia|lia|done].
      * simpl. by rewrite H1.
      * eexists. split; [done|]. simpl. rewrite zlen_app, zlen_cons, zlen_nil. split; [done|lia].
    + eexists. split; [done|]. split; [reflexivity|]. split_and!.
      * apply GWF_hid_insert; [done|]. by split.
      * by rewrite app_nil_r.
      * eexists. split; [done|]. simpl. split; [done|lia].
  - eexists. split; [done|]. split; [reflexivity|]. cbn [g_known_hids with_hids]. rewrite insert_insert_eq. split_and!.
    + apply (GWF_same_maps (with_hids (<[i := HidHandler (hh_hid h) (hh_remote h) (hh_local h) (Some (last_enqueue h + 10 * SEC)) (last_enqueue h) (getaddr_seq h) (getaddr_cnt h)]> (g_known_hids g)) g)); try done; [|apply HG|].
      * apply GWF_hid_insert; [done|]. split; simpl; [done|done|done|]. by intros ? [= <-].
      * simpl. do 3 f_equal. lia.
    + by rewrite app_nil_r.
    + eexists. split; [done|]. simpl. split; [done|lia].
Qed.

(** An address with a handler is known. *)
Lemma known_of_cxn g a c : GWF g -> g_cxns g !! a = Some c -> exists h, g_known_addrs g !! a = Some h.
Proof. intros HG Hc. destruct (proj2 (gw_dom g HG a)) as [h Hh]; [by rewrite Hc|]. by exists h. Qed.

Lemma cxn_fires_ok a g :
  GWF g -> enabled (CxnTimer a) g ->
  exists g' wrote, cxn_fires a g = Ret tt g' /\ GWF g' /\ g_known_addrs g' = g_known_addrs g /\
    g_known_hids g' = g_known_hids g /\ tx (g_control g') = tx (g_control g) ++ wrote /\
    exists c, g_cxns g !! a = Some c /\ (due_again (ev_now g) c -> exists r, sin_key r = a /\ wrote = connect_bytes r).
Proof.
  intros HG ((c&t&Hc&Ht&Hdue)&_&Hsp). pose proof (gw_cx g HG a c Hc) as [[H1 H2 H3 H4 H5] H6].
  destruct (known_of_cxn g a c HG Hc) as [h Hh]. unfold cxn_fires, on_cxn. rewrite Hc. erewrite bind_ret by done.
  destruct (cxn_timer_cb_ok a (with_cx_timer None c) g) as (c'&w&g'&Hcb&Hok&Hse&Hst&(k&ds&->&Htx&_)&Hw&Hd); [apply HG|by split|done|].
  cbn [cx cxg]. rewrite Hcb. eexists _, w. split; [reflexivity|]. cbn [cx cxg]. split_and!; try done.
  - eapply (GWF_addr g _ a c' h HG Hok); try done; [rewrite Hst; exact (gw_conn g HG a c h Hc Hh)|]. symmetry. by apply insert_id.
  - exists c. split; [done|]. intros Hds. destruct Hw as [->|(->&_)]; [by specialize (Hd Hds)|].
    destruct H5 as (r&Hr&Hk5&Hs5). exists r. split; [done|]. cbn [sers with_cx_timer]. rewrite Hs5. by apply connect_sent.
Qed.

Lemma set_sequence_ok now s i h : hid_ok now i h -> hid_ok now i (set_sequence s h).
Proof. intros [H1 H2 H3 H4]. unfold set_sequence. destruct (negb _); [|done]. split; simpl; unfold GETADDR_LIMIT; (done || lia). Qed.

Lemma set_sequence_local n h : hh_local (set_sequence n h) = hh_local h.
Proof. unfold set_sequence. by destruct (negb _). Qed.

Lemma zlen_outbound g : zlen (outbound g) <= zlen (ids (g_known_hids g)).
Proof. unfold outbound, zlen. apply Nat2Z.inj_le, filter_length_le. Qed.

(** A new round: every handler is part of it, and the connections we made are
    closed. *)
Lemma clock_ok g :
  GWF g -> enabled Clock g ->
  exists g', clock_cb page g = Ret tt g' /\ GWF g' /\
    g_current_getaddr g' = u32 (g_current_getaddr g + 1) /\ g_getaddr_start g' = ev_now g /\
    g_known_hids g' = set_sequence (g_current_getaddr g') <$> g_known_hids g /\
    tx (g_control g') = tx (g_control g) ++
      (if zlen (outbound g) =? 0 then [] else command_bytes COMMAND_DISCONNECT 0 (outbound g)).
Proof.
  intros HG (_&_&Hl&Hsp). unfold clock_cb. do 4 erewrite bind_ret by done. cbv zeta.
  set (g1 := with_hids _ _). assert (outbound g1 = outbound g) as Ho.
  { unfold outbound, g1, ids. cbn [g_known_hids with_hids with_ga_log with_round g_bound_addrs].
    replace ((map_to_list (set_sequence (g_current_getaddr (with_round (u32 (g_current_getaddr g + 1)) (ev_now g) g)) <$> g_known_hids g)).*1)
      with ((map_to_list (g_known_hids g)).*1).
    - apply filter_ext. intros i. rewrite lookup_fmap. destruct (g_known_hids g !! i) as [h|]; [|done]. cbn [fmap option_fmap option_map]. by rewrite set_sequence_local.
    - rewrite map_to_list_fmap, <- list_fmap_compose. apply list_fmap_ext. by intros ? []. }
  assert (GWF g1) as HG1.
  { apply GWF_hids; [by apply (GWF_same_maps g); try done; apply HG|]. intros i h. cbn [g_known_hids with_ga_log with_round]. rewrite lookup_fmap.
    destruct (g_known_hids g !! i) as [h0|] eqn:Hh; [|done]. intros [= <-]. by apply set_sequence_ok, HG. }
  rewrite Ho. destruct (Z.eqb_spec (zlen (outbound g)) 0) as [E|E]; cbn [negb].
  - exists g1. split; [reflexivity|]. rewrite app_nil_r. by split_and!.
  - destruct (control_write_ok (command_bytes COMMAND_DISCONNECT 0 (outbound g)) g1) as (k&Hw&Htx&_); [|done|].
    { rewrite zlen_command_bytes. pose proof (zlen_nonneg (outbound g)). unfold MESSAGE, COMMAND_MSG, WHOLE. pose proof (zlen_outbound g). lia. }
    unfold send_serialized. rewrite command_sent by (try done; pose proof (zlen_outbound g); lia). rewrite Hw. eexists. split; [reflexivity|].
    split_and!; try done. apply (GWF_same_maps g1); try done. apply HG1.
Qed.

(** The handle of a connection replaces any that was there. *)
Lemma hids_replaced_ok i r l g :
  GWF g ->
  exists g', (let! g := get in
     do! match g_known_hids g !! i with
         | Some _ =>
             do! modify (fun g => with_hids (delete i (g_known_hids g)) g) in
             ga_glog (LText DEBUG [text "Received a hid more than once? "; number i])
         | None => ret tt
         end in
     modify (fun g => with_hids (insert_new i (hid_ctor i r l g) (g_known_hids g)) g)) g = Ret tt g' /\ GWF g' /\
    g_known_addrs g' = g_known_addrs g /\ g_cxns g' = g_cxns g /\ tx (g_control g') = tx (g_control g) /\
    exists h, g_known_hids g' = <[i := h]> (g_known_hids g) /\ getaddr_cnt h = 0 /\ getaddr_seq h = g_current_getaddr g.
Proof.
  intros HG. erewrite bind_ret by done.
  assert (forall m, getaddr_cnt (hid_ctor i r l m) = 0 /\ getaddr_seq (hid_ctor i r l m) = g_current_getaddr m) as Hc0.
  { intros m. unfold hid_ctor. by destruct (_ <? _). }
  destruct (g_known_hids g !! i) as [h|] eqn:Hh.
  - erewrite bind_ret by (by erewrite bind_ret by done). eexists. split; [reflexivity|].
    cbn [g_known_hids with_hids with_ga_log]. unfold insert_new. rewrite lookup_delete_eq, insert_delete_eq.
    split; [|split_and!; try done; eexists; split; [done|]; match goal with |- getaddr_cnt (hid_ctor _ _ _ ?m) = _ /\ _ => exact (Hc0 m) end].
    match goal with |- GWF (with_hids (<[i := ?h']> _) ?g0) => set (h1 := h'); set (g1 := g0) end.
    assert (GWF (with_ga_log (ga_log g1) g)) as HG1 by (apply (GWF_same_maps g); try done; apply HG).
    apply (GWF_same_maps (with_hids (<[i := h1]> (g_known_hids g)) (with_ga_log (ga_log g1) g))); try done; [|apply HG].
    apply (GWF_hid_insert (with_ga_log (ga_log g1) g) i h1 HG1). exact (hid_ctor_ok i r l _ HG1).
  - erewrite bind_ret by done. eexists. split; [reflexivity|]. unfold insert_new. rewrite Hh.
    split; [|split_and!; try done; eexists; split; [done|]; match goal with |- getaddr_cnt (hid_ctor _ _ _ ?m) = _ /\ _ => exact (Hc0 m) end].
    apply GWF_hid_insert; [done|]. by apply hid_ctor_ok.
Qed.

(** The handler of an address whose connection is reported up or down. *)
Lemma on_cxn_state_ok a x c g :
  0 < ev_now g -> cx_ok a (ev_now g) c -> g_cxns g !! a = Some c -> x <> CONNECTING ->
  exists c' ds, on_cxn a (cxn_set_state x) g = Ret tt (with_cxns (<[a := c']> (g_cxns g)) (with_random (coins g) ds g)) /\
    cx_ok a (ev_now g) c' /\ state_ c' = x.
Proof.
  intros Hn Hok Hc Hx. unfold on_cxn. rewrite Hc. destruct (cxn_set_state_ok a x c g Hok Hx) as (c'&ds&Hr&Hok'&Hs&_); [lia|].
  rewrite Hr. by exists c', ds.
Qed.

Lemma up_ok m g :
  GWF g -> enabled (Up m) g ->
  exists g', on_connect page m g = Ret tt g' /\ GWF g' /\
    g_known_addrs g' = <[sin_key (bm_remote m) := bm_handle_id m]> (g_known_addrs g) /\
    tx (g_control g') = tx (g_control g) /\
    exists h, g_known_hids g' = <[bm_handle_id m := h]> (g_known_hids g) /\ getaddr_cnt h = 0 /\ getaddr_seq h = g_current_getaddr g.
Proof.
  intros HG (_&[Hm Hid]&Hsp). unfold on_connect. set (a := sin_key (bm_remote m)). do 2 erewrite bind_ret by done.
  set (g0 := with_addrs _ g). change (g_cxns g0) with (g_cxns g).
  assert (exists g1, match g_cxns g !! a with
     | Some _ => on_cxn a (cxn_set_state CONNECTED)
     | None => let! handler := cxn_ctor page (bm_remote m) CONNECTED in
               modify (fun g => with_cxns (insert_new a handler (g_cxns g)) g)
     end g0 = Ret tt g1 /\ GWF g1 /\ g_known_addrs g1 = <[a := bm_handle_id m]> (g_known_addrs g) /\
     g_known_hids g1 = g_known_hids g /\ tx (g_control g1) = tx (g_control g) /\ g_current_getaddr g1 = g_current_getaddr g)
    as (g1&Hr1&HG1&Ea&Eh&Et&Ec).
  { destruct (g_cxns g !! a) as [c|] eqn:Hc.
    - destruct (on_cxn_state_ok a CONNECTED c g0) as (c'&ds&Hr&Hok&Hs); [apply HG|by apply (gw_cx g HG a)|done|done|].
      rewrite Hr. eexists. split; [done|]. split; [|done].
      eapply (GWF_addr g _ a c' (bm_handle_id m) HG Hok); done.
    - destruct (cxn_ctor_ok (bm_remote m) CONNECTED g0) as (c'&w&g1&Hr&Hok&Hs&(k&ds&->&Htx&_)&Hw&_); [apply HG|apply Hm|done|done|].
      run_step Hr. eexists. split; [done|]. simpl in Htx. subst w. rewrite app_nil_r in Htx. split; [|done].
      eapply (GWF_addr g _ a c' (bm_handle_id m) HG Hok); try done; [by rewrite Hs|]. simpl. unfold insert_new. by rewrite Hc. }
  run_step Hr1.
  destruct (hids_replaced_ok (bm_handle_id m) a (sin_key (bm_local m)) g1 HG1) as (g'&Hr&HG'&Ea'&_&Et'&h&Hh&Hcnt&Hseq).
  exists g'. split; [exact Hr|]. split; [done|]. split; [congruence|]. split; [congruence|]. exists h. by rewrite Hh, Eh, Hseq, Ec.
Qed.

Lemma down_ok m g :
  GWF g -> enabled (Down m) g ->
  exists g', on_disconnect page inet_ntop6 m g = Ret tt g' /\ GWF g' /\
    g_known_addrs g' = <[sin_key (bm_remote m) := NO_HID]> (g_known_addrs g) /\
    g_known_hids g' = delete (bm_handle_id m) (g_known_hids g).
Proof.
  intros HG (_&[Hm Hf]&Hsp). unfold on_disconnect. set (a := sin_key (bm_remote m)). do 2 erewrite bind_ret by done.
  set (g0 := with_addrs _ g). change (g_cxns g0) with (g_cxns g).
  assert (forall g1, GWF g1 -> g_known_hids g1 = g_known_hids g -> g_known_addrs g1 = <[a := NO_HID]> (g_known_addrs g) ->
    GWF (with_hids (delete (bm_handle_id m) (g_known_hids g1)) g1) /\
    g_known_hids (with_hids (delete (bm_handle_id m) (g_known_hids g1)) g1) = delete (bm_handle_id m) (g_known_hids g)) as Hend.
  { intros g1 HG1 Eh Ea. split; [|by rewrite Eh]. apply GWF_hids; [done|]. intros i h [_ Hh]%lookup_delete_Some. by apply HG1. }
  destruct (g_cxns g !! a) as [c|] eqn:Hc.
  - destruct (on_cxn_state_ok a DISCONNECTED c g0) as (c'&ds&Hr&Hok&Hs); [apply HG|by apply (gw_cx g HG a)|done|done|].
    run_step Hr. set (g1 := with_cxns _ _). eexists. split; [reflexivity|]. destruct (Hend g1) as [? ?]; [|done|done|done].
    eapply (GWF_addr g _ a c' NO_HID HG Hok); try done. by rewrite Hs.
  - destruct (Printing.print_addr_inet inet_ntop6 (bm_remote m) g0 Hf) as (t&_&Ht).
    set (g2 := with_ga_log (ga_log g0 ++ [LText DEBUG [text "Somehow we got a disconnect for a connection we did not know about to "; t]]) g0).
    destruct (cxn_ctor_ok (bm_remote m) DISCONNECTED g2) as (c'&w&g1&Hr&Hok&Hs&(k&ds&->&Htx&_)&Hw&Hd); [apply HG|apply Hm|done|done|].
    erewrite bind_ret; [|erewrite bind_ret by exact Ht; erewrite bind_ret by done; erewrite bind_ret by apply Hr; reflexivity].
    match goal with |- context [modify _ ?x] => set (g3 := x) end. eexists. split; [reflexivity|]. destruct (Hend g3) as [? ?]; [|done|done|done].
    destruct (Hd eq_refl) as [Hcs _].
    eapply (GWF_addr g _ a c' NO_HID HG Hok); try done; [by rewrite Hcs|]. simpl. unfold insert_new. by rewrite Hc.
Qed.

Lemma gexec_ok e g : GWF g -> enabled e g -> exists g', gexec e g = Ret tt g' /\ GWF g'.
Proof.
  intros HG He. destruct e as [d| |i|a| |r|m|m|ws]; cbn [gexec].
  - eexists. split; [reflexivity|]. destruct He as [Hd _]. by apply elapse_ok.
  - destruct (pusher_ok g HG He) as (g'&?&?&_). eauto.
  - destruct (hid_fires_ok i g HG He) as (h&g'&_&?&?&_). eauto.
  - destruct (cxn_fires_ok a g HG He) as (g'&w&?&?&_). eauto.
  - destruct (clock_ok g HG He) as (g'&?&?&_). eauto.
  - destruct He as (_&Hr&Hs). destruct (on_bc_msg_ok r g HG Hr Hs) as (g'&?&?&_). eauto.
  - destruct (up_ok m g HG He) as (g'&?&?&_). eauto.
  - destruct (down_ok m g HG He) as (g'&?&?&_). eauto.
  - eexists. split; [reflexivity|]. apply (GWF_same_maps g); try done. apply HG.
Qed.

(** ** Runs *)

Fixpoint gexecs (es : list gevent) : prog getaddr unit :=
  match es with
  | [] => ret tt
  | e :: es => do! gexec e in gexecs es
  end.

(** Every event can happen when it happens. *)
Fixpoint possible (es : list gevent) (g : getaddr) : Prop :=
  match es with
  | [] => True
  | e :: es => enabled e g /\ forall g', gexec e g = Ret tt g' -> possible es g'
  end.

Lemma gexecs_ok es g : GWF g -> possible es g -> exists g', gexecs es g = Ret tt g' /\ GWF g'.
Proof.
  revert g. induction es as [|e es IH]; intros g HG; simpl; [intros _; by exists g|]. intros [He Hes].
  destruct (gexec_ok e g HG He) as (g1&Hr&HG1). run_step Hr. by apply IH, Hes.
Qed.

End Run.

(** ** How often a peer is asked *)

Section Asked.
Context (page : Z) (inet_ntop6 : list Z -> list Z).
Abbreviation gexec := (gexec page inet_ntop6).

(** The handles in the commands that the events of a run send with the getaddr
    message, as often as they are named. An event that throws or faults is the
    last one. *)
Definition asks (e : gevent) (g : getaddr) : list Z := match e with Push => g_pending_getaddrs g | _ => [] end.
Fixpoint asked (es : list gevent) (g : getaddr) : list Z :=
  match es with
  | [] => []
  | e :: es => asks e g ++ match gexec e g with Ret _ g' => asked es g' | _ => [] end
  end.

(** Events that neither start a round nor give the handle [i] away again. *)
Definition same_round (i : Z) (e : gevent) : bool :=
  match e with Clock => false | Up m => negb (bm_handle_id m =? i) | _ => true end.

(** What the handle [i] may still queue in this round. *)
Definition budget (i : Z) (g : getaddr) : nat :=
  match g_known_hids g !! i with Some h => Z.to_nat (GETADDR_LIMIT - getaddr_cnt h) | None => 0 end.

Definition count (i : Z) (l : list Z) : nat := length (List.filter (Z.eqb i) l).

Lemma count_app i l1 l2 : count i (l1 ++ l2) = (count i l1 + count i l2)%nat.
Proof. unfold count. by rewrite List.filter_app, length_app. Qed.

(** The part of the state that decides about it. *)
Definition books (g : getaddr) : list Z * gmap Z hid_handler := (g_pending_getaddrs g, g_known_hids g).

(** Everything about addresses leaves it alone, when it returns. *)
Lemma send_serialized_keeps p : keeps books (send_serialized p).
Proof. apply keeps_zoom. by intros []. Qed.
Lemma ga_glog_keeps e : keeps books (ga_glog e).
Proof. apply keeps_modify. done. Qed.
Lemma do_sample_keeps : keeps books do_sample.
Proof. intros g a g'. unfold do_sample. repeat case_match; naive_solver. Qed.
Lemma set_reconnect_timer_keeps : keeps (fun s => books (cxg s)) set_reconnect_timer.
Proof. intros s a s'. unfold set_reconnect_timer. case_match. intros [= _ <-]. done. Qed.
Lemma cx_upd_keeps f : keeps (fun s => books (cxg s)) (cx_upd f).
Proof. apply keeps_modify. done. Qed.
#[local] Hint Resolve send_serialized_keeps ga_glog_keeps do_sample_keeps set_reconnect_timer_keeps cx_upd_keeps : keeps.

Lemma cxn_attempt_keeps : keeps (fun s => books (cxg s)) cxn_attempt.
Proof.
  unfold cxn_attempt. keeps_tac. intros s [] s' H. unfold zoom in H. destruct (send_serialized _ (cxg s)) as [[] g1|?|?] eqn:E; [|done..].
  injection H as <-. exact (send_serialized_keeps _ _ _ _ E).
Qed.
#[local] Hint Resolve cxn_attempt_keeps : keeps.
Lemma cxn_timer_cb_keeps : keeps (fun s => books (cxg s)) cxn_timer_cb.
Proof. unfold cxn_timer_cb, assert. keeps_tac. Qed.
Lemma cxn_set_state_keeps x : keeps (fun s => books (cxg s)) (cxn_set_state x).
Proof. unfold cxn_set_state. keeps_tac. Qed.
Lemma cxn_ctor_keeps r x : keeps books (cxn_ctor page r x).
Proof.
  intros g c g'. unfold cxn_ctor. destruct (cxn_timer_cb _) as [[] s|?|?] eqn:E; [|done..]. intros [= _ <-].
  exact (cxn_timer_cb_keeps _ _ _ E).
Qed.
Lemma on_cxn_keeps a c : keeps (fun s => books (cxg s)) c -> keeps books (on_cxn a c).
Proof.
  intros Hc g u g'. unfold on_cxn. destruct (g_cxns g !! a) as [h|]; [|done]. destruct (c (Cxs h g)) as [v s|?|?] eqn:E; [|done..].
  intros [= _ <-]. specialize (Hc _ _ _ E). exact Hc.
Qed.
#[local] Hint Resolve cxn_timer_cb_keeps cxn_set_state_keeps cxn_ctor_keeps on_cxn_keeps : keeps.
Lemma learn_keeps a : keeps books (learn page a).
Proof. unfold learn. keeps_tac. Qed.
#[local] Hint Resolve learn_keeps : keeps.
Lemma harvest_keeps n i bs : keeps books (harvest page n i bs).
Proof. revert i. induction n as [|n IH]; intros i; cbn [harvest]; unfold field; keeps_tac. Qed.
Lemma harvests_keeps m n bs : keeps books (harvests page m n bs).
Proof. induction m as [|m IH]; cbn [harvests]; keeps_tac. apply harvest_keeps. Qed.

(** The handlers are those of their handles, and count up to the limit. *)
Definition handles_ok (g : getaddr) : Prop :=
  forall i h, g_known_hids g !! i = Some h -> hh_hid h = i /\ 0 <= getaddr_cnt h <= GETADDR_LIMIT.

(** What the callbacks do to it, when they return. *)
Lemma hid_fires_books j g g' :
  hid_fires j g = Ret tt g' ->
  exists h h', g_known_hids g !! j = Some h /\ g_known_hids g' = <[j := h']> (g_known_hids g) /\ hh_hid h' = hh_hid h /\
    (g_pending_getaddrs g' = g_pending_getaddrs g /\ getaddr_cnt h' = getaddr_cnt h \/
     g_pending_getaddrs g' = g_pending_getaddrs g ++ [hh_hid h] /\ getaddr_cnt h' = u32 (getaddr_cnt h + 1) /\
       getaddr_cnt h < GETADDR_LIMIT /\ getaddr_seq h = g_current_getaddr g /\ last_enqueue h + 10 * SEC <= ev_now g).
Proof.
  unfold hid_fires. destruct (g_known_hids g !! j) as [h|]; [|done]. unfold hid_timer_cb. erewrite bind_ret by done.
  cbn [last_enqueue ev_now with_hids getaddr_seq getaddr_cnt g_current_getaddr hh_hid]. intros Hr. exists h.
  destruct (Z.leb_spec (10 * SEC + last_enqueue h - ev_now g) 0).
  - destruct ((getaddr_seq h =? g_current_getaddr g) && (getaddr_cnt h <? GETADDR_LIMIT)) eqn:Hb.
    + erewrite bind_ret in Hr by done. injection Hr as <-. apply andb_prop in Hb as [Hq Hc]. zb.
      eexists. cbn [g_known_hids with_hids with_pending]. rewrite insert_insert_eq. split_and!; [done|reflexivity|done|]. right. split_and!; (done || lia).
    + injection Hr as <-. eexists. split_and!; [done|reflexivity|done|]. by left.
  - injection Hr as <-. eexists. cbn [g_known_hids with_hids]. rewrite insert_insert_eq. split_and!; [done|reflexivity|done|]. by left.
Qed.

Lemma pusher_books g g' : pusher_timer_cb page g = Ret tt g' -> books g' = ([], g_known_hids g).
Proof.
  unfold pusher_timer_cb. erewrite bind_ret by done. intros ([]&g1&Hs&Hm)%bind_Ret_inv. injection Hm as <-.
  enough (keeps books (send_getaddrs page (g_pending_getaddrs g))) as Hk by (specialize (Hk _ _ _ Hs); unfold books in *; simpl; congruence).
  unfold send_getaddrs. keeps_tac.
Qed.

Lemma on_bc_msg_books r len g g' :
  on_bc_msg page r len g = Ret tt g' ->
  books g' = books g \/
  exists k h, g_known_hids g !! k = Some h /\ books g' = (g_pending_getaddrs g, <[k := hid_enqueue (ev_now g) h]> (g_known_hids g)).
Proof.
  unfold on_bc_msg. intros (b&g1&H1&H)%bind_Ret_inv. unfold field at 1 in H1. destruct (_ <? _); [done|]. injection H1 as <- <-.
  destruct (negb _); [injection H as <-; by left|]. apply bind_Ret_inv in H as (b&g1&H1&H).
  destruct (strcmp_eq _ _); [|done]. injection H1 as <- <-. destruct (negb b0); [injection H as <-; by left|].
  apply bind_Ret_inv in H as (k&g1&H1&H). assert (g1 = g) as ->.
  { unfold field32, field in H1. apply bind_Ret_inv in H1 as (?&?&H1&H2). destruct (_ <? _); [done|]. injection H1 as _ <-. by injection H2 as _ <-. }
  erewrite bind_ret in H by done. apply bind_Ret_inv in H as ([]&g1&H2&H).
  destruct (get_varint _) as [[n bits]|]; [|done]. rewrite (harvests_keeps _ _ _ _ _ _ H).
  destruct (g_known_hids g !! k) as [h|] eqn:Hh; injection H2 as <-; [right; exists k, h; by split|by left].
Qed.

Lemma on_connect_books m g g' :
  on_connect page m g = Ret tt g' ->
  exists h, hh_hid h = bm_handle_id m /\ getaddr_cnt h = 0 /\
    books g' = (g_pending_getaddrs g, <[bm_handle_id m := h]> (g_known_hids g)).
Proof.
  unfold on_connect. do 2 erewrite bind_ret by done. set (g0 := with_addrs _ g). intros ([]&g1&H1&H)%bind_Ret_inv.
  assert (books g1 = books g) as E1.
  { transitivity (books g0); [|done]. revert H1. match goal with |- ?c g0 = _ -> _ => assert (keeps books c) as Hk by keeps_tac end. apply Hk. }
  erewrite bind_ret in H by done. apply bind_Ret_inv in H as ([]&g2&H2&H). injection H as <-. unfold books in *. injection E1 as Ep Eh.
  set (h := hid_ctor _ _ _ g2). assert (hh_hid h = bm_handle_id m /\ getaddr_cnt h = 0) as [Hi Hc] by (unfold h, hid_ctor; by destruct (_ <? _)).
  exists h. split_and!; [done|done|]. simpl. destruct (g_known_hids g1 !! bm_handle_id m) as [x|] eqn:Hx.
  - erewrite bind_ret in H2 by done. injection H2 as <-. simpl. unfold insert_new. by rewrite lookup_delete_eq, insert_delete_eq, Ep, Eh.
  - injection H2 as <-. unfold insert_new. by rewrite Hx, Ep, Eh.
Qed.

Lemma on_disconnect_books m g g' :
  on_disconnect page inet_ntop6 m g = Ret tt g' ->
  books g' = (g_pending_getaddrs g, delete (bm_handle_id m) (g_known_hids g)).
Proof.
  unfold on_disconnect. do 2 erewrite bind_ret by done. set (g0 := with_addrs _ g). intros ([]&g1&H1&H)%bind_Ret_inv. injection H as <-.
  enough (books g1 = books g0) as E by (unfold books in *; injection E as E1 E2; simpl; by rewrite E1, E2).
  destruct (g_cxns g0 !! sin_key (bm_remote m)).
  - by apply (on_cxn_keeps (sin_key (bm_remote m)) _ (cxn_set_state_keeps DISCONNECTED) _ _ _ H1).
  - revert H1. match goal with |- ?c g0 = _ -> _ => assert (keeps books c) as Hk end; [unfold Printing.print_addr; keeps_tac|apply Hk].
Qed.

(** Nothing is queued or sent beyond what is allowed. *)
Lemma handles_step i e g g' :
  handles_ok g -> same_round i e = true -> gexec e g = Ret tt g' ->
  handles_ok g' /\
  (count i (asks e g) + count i (g_pending_getaddrs g') + budget i g' <= count i (g_pending_getaddrs g) + budget i g)%nat.
Proof.
  intros HG Hsr Hr.
  assert (books g' = books g -> asks e g = [] -> handles_ok g' /\
    (count i (asks e g) + count i (g_pending_getaddrs g') + budget i g' <= count i (g_pending_getaddrs g) + budget i g)%nat) as Hsame.
  { intros [= E1 E2] ->. unfold handles_ok, budget. rewrite E1, E2. split; [exact HG|]. unfold count. simpl. lia. }
  assert (forall k h, hh_hid h = k -> 0 <= getaddr_cnt h <= GETADDR_LIMIT -> g_known_hids g' = <[k := h]> (g_known_hids g) -> handles_ok g') as Hins.
  { intros k h H1 H2 E j x. rewrite E. intros [[<- <-]|[_ Hx]]%lookup_insert_Some; [done|by apply HG]. }
  destruct e as [d| |j|a| |r|m|m|ws]; cbn [gexec same_round asks] in *; try change (count i []) with 0%nat.
  - apply Hsame; [by injection Hr as <-|done].
  - apply pusher_books in Hr as [= E1 E2]. unfold handles_ok, budget. rewrite E1, E2. split; [exact HG|]. unfold count at 2. simpl. lia.
  - apply hid_fires_books in Hr as (h&h'&Hh&Em&Ei&Hcase). destruct (HG j h Hh) as [Hj Hc]. unfold GETADDR_LIMIT in *.
    destruct Hcase as [[Ep Ec]|(Ep&Ec&Hlt&_)]; [|rewrite u32_small in Ec by lia]; (split; [eapply (Hins j h'); [by rewrite Ei|lia|done]|]);
      rewrite Ep; unfold budget, GETADDR_LIMIT; rewrite Em; (destruct (decide (j = i)) as [->|Hne]; [rewrite lookup_insert_eq, Hh|rewrite lookup_insert_ne by done]); try lia;
      rewrite count_app, Hj; unfold count at 2; simpl.
    + rewrite Z.eqb_refl. simpl. lia.
    + destruct (Z.eqb_spec i j); [congruence|]. simpl. lia.
  - apply Hsame; [|done]. refine (on_cxn_keeps a _ _ _ _ _ Hr). keeps_tac.
  - done.
  - apply on_bc_msg_books in Hr as [E|(k&h&Hh&[= E1 E2])]; [by apply Hsame|]. destruct (HG k h Hh) as [Hk Hc].
    split; [by eapply (Hins k (hid_enqueue (ev_now g) h))|]. unfold budget. rewrite E1, E2.
    destruct (decide (k = i)) as [->|]; [rewrite lookup_insert_eq, Hh; simpl; lia|rewrite lookup_insert_ne by done; lia].
  - apply on_connect_books in Hr as (h&Hi&Hc&[= E1 E2]). apply negb_true_iff in Hsr. zb.
    split; [eapply (Hins (bm_handle_id m) h); [done|rewrite Hc; done|done]|]. unfold budget. rewrite E1, E2, lookup_insert_ne by done. lia.
  - apply on_disconnect_books in Hr as [= E1 E2]. split; [intros j x; rewrite E2; intros [_ Hx]%lookup_delete_Some; by apply HG|].
    unfold budget. rewrite E1, E2. destruct (decide (bm_handle_id m = i)) as [->|]; [rewrite lookup_delete_eq; lia|rewrite lookup_delete_ne by done; lia].
  - apply Hsame; [by injection Hr as <-|done].
Qed.

Lemma asked_bound i es g :
  handles_ok g -> forallb (same_round i) es = true ->
  (count i (asked es g) <= count i (g_pending_getaddrs g) + budget i g)%nat.
Proof.
  revert g. induction es as [|e es IH]; intros g HG; simpl; [unfold count; simpl; lia|]. intros [Hs Hss]%andb_prop. rewrite count_app.
  destruct (gexec e g) as [[] g1|x g1|x] eqn:Hr.
  - destruct (handles_step i e g g1 HG Hs Hr) as [HG1 Hc]. specialize (IH g1 HG1 Hss). lia.
  - change (count i []) with 0%nat. destruct e; simpl; change (count i []) with 0%nat; lia.
  - change (count i []) with 0%nat. destruct e; simpl; change (count i []) with 0%nat; lia.
Qed.

(** Who puts a handle into the queue. *)
Lemma queued_by i e g g' :
  handles_ok g -> gexec e g = Ret tt g' -> (count i (g_pending_getaddrs g) < count i (g_pending_getaddrs g'))%nat ->
  e = HidTimer i /\ exists h, g_known_hids g !! i = Some h /\ getaddr_seq h = g_current_getaddr g /\ getaddr_cnt h < 24 /\
    last_enqueue h + 10 * SEC <= ev_now g.
Proof.
  intros HG Hr Hlt. assert (g_pending_getaddrs g' <> g_pending_getaddrs g) as Hne by (intros E; rewrite E in Hlt; lia).
  destruct e as [d| |j|a| |r|m|m|ws]; cbn [gexec] in *.
  - by injection Hr as <-.
  - apply pusher_books in Hr as [= E _]. rewrite E in Hlt. unfold count at 2 in Hlt. simpl in Hlt. lia.
  - apply hid_fires_books in Hr as (h&h'&Hh&_&_&[[E _]|(E&_&Hc&Hs&Ht)]); [done|]. destruct (HG j h Hh) as [Hj _]. unfold GETADDR_LIMIT in *.
    rewrite E, count_app, Hj in Hlt. unfold count at 3 in Hlt. simpl in Hlt. destruct (Z.eqb_spec i j) as [->|]; [|simpl in Hlt; lia].
    split; [done|]. by exists h.
  - exfalso. apply Hne. assert (books g' = books g) as [= E _]; [|done]. refine (on_cxn_keeps a _ _ _ _ _ Hr). keeps_tac.
  - exfalso. apply Hne. unfold clock_cb in Hr. do 4 erewrite bind_ret in Hr by done. cbv zeta in Hr.
    destruct (negb _); [|by injection Hr as <-]. by apply send_serialized_keeps in Hr as [= -> _].
  - apply on_bc_msg_books in Hr as [[= E _]|(k&h&_&[= E _])]; done.
  - apply on_connect_books in Hr as (h&_&_&[= E _]). done.
  - apply on_disconnect_books in Hr as [= E _]. done.
  - by injection Hr as <-.
Qed.
End Asked.

(** ** What an addr message adds *)

(** The addresses that are public, and of those the ones that are new, in the
    order in which they first appear. *)
Definition public (es : list sockaddr_in) : list sockaddr_in := List.filter (fun a => negb (is_private (s_addr a))) es.

Lemma public_cons a es : public (a :: es) = if is_private (s_addr a) then public es else a :: public es.
Proof. unfold public. simpl. by destruct (is_private (s_addr a)). Qed.

Fixpoint new_addrs (m : gmap sockaddr_in Z) (es : list sockaddr_in) : list sockaddr_in :=
  match es with
  | [] => []
  | a :: es => if unknown m a then a :: new_addrs (<[a := NO_HID]> m) es else new_addrs m es
  end.

Definition learned (m : gmap sockaddr_in Z) (es : list sockaddr_in) : gmap sockaddr_in Z :=
  foldl (fun m a => insert_new a NO_HID m) m es.

(** The connect commands that are sent for them. *)
Definition connects (l : list sockaddr_in) : list Z := concat (map (fun a => connect_bytes (sin_bytes a)) l).

Lemma learned_cons m a es :
  learned m (a :: es) = learned (if unknown m a then <[a := NO_HID]> m else m) es.
Proof. unfold learned, unknown, insert_new. simpl. by destruct (m !! a). Qed.

Lemma learned_size m es : size (learned m es) = (size m + length (new_addrs m es))%nat.
Proof.
  revert m. induction es as [|a es IH]; intros m; [simpl; lia|]. rewrite learned_cons. cbn [new_addrs]. unfold unknown.
  destruct (bool_decide_reflect (m !! a = None)) as [Hn|Hn]; rewrite IH; [|done]. rewrite map_size_insert_None by done. simpl. lia.
Qed.

Lemma learned_mono m es a : is_Some (m !! a) -> is_Some (learned m es !! a).
Proof.
  revert m. induction es as [|b es IH]; intros m Ha; [done|]. rewrite learned_cons. apply IH. destruct (unknown m b); [|done].
  destruct (decide (b = a)) as [->|]; [by rewrite lookup_insert_eq|by rewrite lookup_insert_ne].
Qed.

Lemma learned_all m es : Forall (fun a => is_Some (learned m es !! a)) es.
Proof.
  revert m. induction es as [|a es IH]; intros m; [done|]. rewrite learned_cons. constructor; [|apply IH].
  apply learned_mono. unfold unknown. destruct (bool_decide_reflect (m !! a = None)) as [Hn|Hn]; [by rewrite lookup_insert_eq|].
  by destruct (m !! a).
Qed.

(** Nothing is new the second time. *)
Lemma nothing_new m es : Forall (fun a => is_Some (m !! a)) es -> new_addrs m es = [] /\ learned m es = m.
Proof.
  induction 1 as [|a es [x Hx] HF IH]; [done|]. rewrite learned_cons. cbn [new_addrs]. unfold unknown. by rewrite Hx.
Qed.

Section Exact.
Context (page : Z) (Hpage : 0 < page <= 2 ^ 62).

(** What was added from [g] to [g']. *)
Definition added (es : list sockaddr_in) (g g' : getaddr) : Prop :=
  g_known_addrs g' = learned (g_known_addrs g) es /\
  tx (g_control g') = tx (g_control g) ++ connects (new_addrs (g_known_addrs g) es) /\
  (spare (wx (g_control g)) <= spare (wx (g_control g')) + length (new_addrs (g_known_addrs g) es))%nat.

Lemma added_nil g g' : g_known_addrs g' = g_known_addrs g -> g_control g' = g_control g -> added [] g g'.
Proof. intros E1 E2. unfold added. rewrite E1, E2. split_and!; [done|by rewrite app_nil_r|simpl; lia]. Qed.

Lemma added_cons a es g g1 g' : added [a] g g1 -> added es g1 g' -> added (a :: es) g g'.
Proof.
  intros (A1&A2&A3) (B1&B2&B3). unfold added. rewrite learned_cons in *. unfold learned in A1 at 1. cbn [foldl] in A1. cbn [new_addrs] in *.
  rewrite B1, B2, A1, A2. rewrite A1 in B3. destruct (unknown (g_known_addrs g) a); unfold connects; simpl in *; rewrite <- ?app_assoc, ?app_nil_r in *;
    split_and!; (done || lia).
Qed.

Lemma harvest_exact_ok n i addrs g :
  GWF page g -> Forall is_byte addrs -> 0 <= i -> FULL_ADDR * (i + Z.of_nat n) <= zlen addrs ->
  let es := public (entries n i addrs) in
  Z.of_nat (size (learned (g_known_addrs g) es)) < 1000 -> (length (new_addrs (g_known_addrs g) es) <= spare (wx (g_control g)))%nat ->
  exists g', harvest page n i addrs g = Ret tt g' /\ GWF page g' /\ added es g g'.
Proof.
  cbv zeta. unfold FULL_ADDR. revert i g. induction n as [|n IH]; intros i g HG HB Hi Hl Hsz Hsp.
  { exists g. split_and!; try done. by apply added_nil. }
  cbn [harvest]. unfold field, FULL_ADDR. destruct (Z.ltb_spec (zlen addrs) (30 * i + 24 + 4)); [lia|]. erewrite bind_ret by done.
  cbn [entries] in *. rewrite public_cons in *. set (a := entry_at addrs i) in *.
  change (is_private (le_val (slice (30 * i + 24) 4 addrs))) with (is_private (s_addr a)).
  destruct (is_private (s_addr a)) eqn:Hpr.
  - erewrite bind_ret by done. apply IH; [done|done|lia|lia|done|done].
  - rewrite learned_cons in Hsz. cbn [new_addrs] in Hsp.
    assert (Z.of_nat (size (g_known_addrs g)) < 1000) as Hsz0.
    { rewrite learned_size in Hsz. destruct (unknown (g_known_addrs g) a) eqn:Hu; [|lia].
      unfold unknown in Hu. rewrite bool_decide_eq_true in Hu. rewrite map_size_insert_None in Hsz by done. lia. }
    assert (do_sample g = Ret true g) as Hs by (unfold do_sample; by destruct (Z.ltb_spec (Z.of_nat (size (g_known_addrs g))) 1000); [|lia]).
    destruct (Z.ltb_spec (zlen addrs) (30 * i + 28 + 2)); [lia|].
    destruct (learn_ok page Hpage a g HG) as (g1&Hr1&HG1&_&_&_&_&Hc).
    { apply entry_key_ok; [done|lia|unfold FULL_ADDR; lia]. }
    { intros Hk. unfold unknown in Hsp. rewrite bool_decide_true in Hsp by done. simpl in Hsp. lia. }
    erewrite bind_ret; [|run_step Hs; cbn match; erewrite bind_ret by done; exact Hr1].
    assert (added [a] g g1) as Hadd.
    { unfold added. unfold learned, insert_new. cbn [foldl new_addrs]. unfold unknown, connects.
      destruct Hc as [[[x Hx] ->]|(Hk&Hk'&_&Htx&Hs1)].
      - rewrite Hx. cbn. rewrite app_nil_r. split_and!; [done|done|lia].
      - rewrite Hk. cbn. rewrite app_nil_r. split_and!; [done|done|lia]. }
    destruct Hadd as (A1&A2&A3). unfold learned in A1. cbn [foldl] in A1.
    assert (g_known_addrs g1 = if unknown (g_known_addrs g) a then <[a := NO_HID]> (g_known_addrs g) else g_known_addrs g) as A1'.
    { rewrite A1. unfold insert_new, unknown. by destruct (g_known_addrs g !! a). }
    destruct (IH (i + 1) g1) as (g'&Hr&HG'&Hadd'); [done|done|lia|lia|by rewrite A1'| |].
    { cbn [new_addrs] in A3. rewrite A1'. destruct (unknown (g_known_addrs g) a); simpl in *; lia. }
    exists g'. split; [exact Hr|]. split; [done|]. by apply (added_cons a _ g g1).
Qed.

Lemma harvests_exact_ok m n addrs g :
  GWF page g -> Forall is_byte addrs -> FULL_ADDR * Z.of_nat n <= zlen addrs -> (0 < m \/ n = 0)%nat ->
  let es := public (entries n 0 addrs) in
  Z.of_nat (size (learned (g_known_addrs g) es)) < 1000 -> (length (new_addrs (g_known_addrs g) es) <= spare (wx (g_control g)))%nat ->
  exists g', harvests page m n addrs g = Ret tt g' /\ GWF page g' /\ added es g g'.
Proof.
  intros HG HB Hl Hmn es. revert g HG Hmn. induction m as [|m IH]; intros g HG Hmn Hsz Hsp.
  - destruct Hmn as [?| ->]; [lia|]. exists g. split_and!; try done. by apply added_nil.
  - cbn [harvests]. destruct (harvest_exact_ok n 0 addrs g HG HB) as (g1&Hr&HG1&A1&A2&A3); [lia|done|done|done|]. run_step Hr.
    fold es in A1, A2, A3. destruct (nothing_new (g_known_addrs g1) es) as [N1 N2]; [rewrite A1; apply learned_all|].
    destruct m as [|m']; [exists g1; by split_and!|].
    destruct (IH g1 HG1 ltac:(lia)) as (g'&Hr'&HG'&B1&B2&B3); [by rewrite N2, A1|rewrite N1; simpl; lia|].
    exists g'. split; [exact Hr'|]. split; [done|]. unfold added. rewrite N1 in B2, B3. rewrite N2 in B1. simpl in B3. unfold connects in B2 at 1. simpl in B2.
    rewrite app_nil_r in B2. rewrite B1, B2. split_and!; [done|done|lia].
Qed.
End Exact.

(** ** Records in memory *)

Lemma strcmp_eq_app s p e b : strcmp_eq s p = Some b -> strcmp_eq s (p ++ e) = Some b.
Proof.
  revert p. induction s as [|x s IH]; intros p; simpl; [done|]. destruct p as [|y p]; simpl; [done|]. destruct (x =? y); [apply IH|done].
Qed.

Lemma get_varint_app p e v : get_varint p = Some v -> get_varint (p ++ e) = Some v.
Proof.
  destruct p as [|b0 p]; [done|]. unfold get_varint. change ((b0 :: p) ++ e) with (b0 :: p ++ e).
  rewrite !zlen_cons, zlen_app. pose proof (zlen_nonneg e). pose proof (zlen_nonneg p).
  destruct (Z.ltb_spec (1 + zlen p) (get_varint_size b0)); [done|]. destruct (Z.ltb_spec (1 + (zlen p + zlen e)) (get_varint_size b0)); [lia|].
  destruct (Z.eqb_spec (get_varint_size b0) 1); [done|]. intros [= <-]. do 3 f_equal.
  change (b0 :: p ++ e) with ((b0 :: p) ++ e). rewrite slice_app_l; [done|lia| |rewrite zlen_cons; lia].
  unfold get_varint_size in *. repeat case_match; lia.
Qed.

Lemma field_prefix {S} off n (p e : list Z) (s : S) : 0 <= off -> 0 <= n -> off + n <= zlen p -> field off n (p ++ e) s = field off n p s.
Proof.
  intros. unfold field. rewrite zlen_app. pose proof (zlen_nonneg e).
  destruct (Z.ltb_spec (zlen p + zlen e) (off + n)); [lia|]. destruct (Z.ltb_spec (zlen p) (off + n)); [lia|]. by rewrite slice_app_l by lia.
Qed.

(** Running the same program. *)
Lemma bind_same {S A B} (c c' : prog S A) (k k' : A -> prog S B) s :
  c s = c' s -> (forall a s', c' s = Ret a s' -> k a s' = k' a s') -> bind c k s = bind c' k' s.
Proof. intros Hc Hk. unfold bind. rewrite Hc. destruct (c' s); [by apply Hk|done|done]. Qed.

Lemma harvest_app page n i (p e : list Z) g :
  0 <= i -> FULL_ADDR * (i + Z.of_nat n) <= zlen p -> harvest page n i (p ++ e) g = harvest page n i p g.
Proof.
  unfold FULL_ADDR. revert i g. induction n as [|n IH]; intros i g Hi Hl; [done|]. cbn [harvest]. unfold FULL_ADDR.
  apply bind_same; [apply field_prefix; lia|]. intros ip s1 _. apply bind_same; [|intros _ s2 _; apply IH; lia].
  destruct (is_private _); [done|]. apply bind_same; [done|]. intros [] s3 _; [|done]. apply bind_same; [apply field_prefix; lia|done].
Qed.

Lemma harvests_app page m n (p e : list Z) g :
  FULL_ADDR * Z.of_nat n <= zlen p -> harvests page m n (p ++ e) g = harvests page m n p g.
Proof.
  intros Hl. revert g. induction m as [|m IH]; intros g; [done|]. cbn [harvests]. apply bind_same; [apply harvest_app; lia|]. intros _ s' _. apply IH.
Qed.

(** The record handler looks at nothing behind a well-formed record. *)
Lemma bc_msg_readable page r : bc_msg_ok r -> readable (on_bc_msg page) r.
Proof.
  intros (Hz&_&Hcmp&Had). split; [lia|]. intros mem g Hmem.
  assert (mem = r ++ zdrop (zlen r) mem) as Hm by (by rewrite <- Hmem at 1; rewrite ztake_zdrop). rewrite Hm. generalize (zdrop (zlen r) mem). intros e. clear Hm Hmem.
  unfold on_bc_msg. apply bind_same; [apply field_prefix; lia|]. intros b s1 Hb. unfold field in Hb.
  destruct (Z.ltb_spec (zlen r) (17 + 1)); [lia|]. injection Hb as <- <-.
  unfold is_addr in Had. destruct (Z.eqb_spec (le_val (slice 17 1 r)) 0) as [E0|E0]; [|done]. cbn [negb andb] in *.
  destruct (Hcmp E0) as [b Hb]. assert (22 <= zlen r) as H22.
  { destruct (Z.le_gt_cases 22 (zlen r)) as [|Hlt]; [done|]. rewrite zdrop_all in Hb by lia. done. }
  rewrite Hb in Had. rewrite zdrop_app_l by lia. rewrite Hb, (strcmp_eq_app _ _ _ _ Hb). do 2 erewrite bind_ret by done.
  destruct b; [|done]. cbn [negb]. rewrite bool_decide_true in Had by done. destruct (Had eq_refl) as ([[n b] Hv]&Hn&Hl).
  unfold entry_count, entry_bytes in Hn, Hl. rewrite Hv in Hn, Hl.
  assert (42 <= zlen r) as H42.
  { destruct (Z.le_gt_cases 42 (zlen r)) as [|Hlt]; [done|]. rewrite zdrop_all in Hv by lia. done. }
  apply bind_same; [unfold field32; apply bind_same; [apply field_prefix; lia|done]|]. intros i s1 _.
  apply bind_same; [done|]. intros g1 s2 _. apply bind_same; [done|]. intros _ s3 _.
  rewrite (zdrop_app_l 42) by lia. rewrite Hv, (get_varint_app _ _ _ Hv).
  assert (0 <= b) as Hb0.
  { unfold get_varint in Hv. destruct (zdrop 42 r) as [|b0 l]; [done|]. destruct (_ <? _); [done|].
    destruct (_ =? 1); injection Hv as _ <-; unfold get_varint_size; repeat case_match; lia. }
  destruct (Z.le_gt_cases (42 + b) (zlen r)) as [Hle|Hgt].
  - rewrite zdrop_app_l by lia. apply harvests_app. by rewrite Z2Nat.id.
  - rewrite zdrop_all in Hl by lia. change (zlen []) with 0 in Hl. unfold FULL_ADDR in Hl. assert (n = 0) as -> by lia. done.
Qed.

(** The program when main enters the loop, without connections. *)
Definition ga_start (now id : Z) (bound : list sockaddr_in) (k : sock) : getaddr :=
  GetAddr 1 0 k [] id ∅ ∅ ∅ bound now [] [] [].

Lemma ga_start_GWF page now id bound k : 0 < now -> 0 <= id < 2 ^ 32 -> GWF page (ga_start now id bound k).
Proof.
  intros Hn Hi. split; simpl; [done|done|..].
  - intros a. by rewrite !lookup_empty.
  - intros a c. by rewrite lookup_empty.
  - intros a c h. by rewrite lookup_empty.
  - intros i h. by rewrite lookup_empty.
Qed.


(** C9. An address that is not connected is tried again: its timer is active,
    and when it fires (at the latest in 23 hours) more than 15 minutes after the
    last attempt, or after the connection was reported down, the connect command
    for this address is sent to the connector. *)
Theorem getaddr_reconnects page inet_ntop6 g a :
  0 < page <= 2 ^ 62 -> GWF page g -> g_known_addrs g !! a = Some NO_HID -> (0 < spare (wx (g_control g)))%nat ->
  exists c t, g_cxns g !! a = Some c /\ cx_timer c = Some t /\ t <= ev_now g + MAX_DELAY /\
    forall d, 0 <= d -> t <= ev_now g + d -> (state_ c = CONNECTING -> pending_time c + 900 * SEC < ev_now g + d) ->
      exists g' r, gexecs page inet_ntop6 [Elapse d; CxnTimer a] g = Ret tt g' /\ sin_key r = a /\
        tx (g_control g') = tx (g_control g) ++ connect_bytes r.
Proof.
  intros Hp HG Hk Hsp. destruct (proj1 (gw_dom page g HG a)) as [c Hc]; [by rewrite Hk|].
  pose proof (gw_conn page g HG a c NO_HID Hc Hk) as Hcn. destruct (gw_cx page g HG a c Hc) as [[_ _ _ Hd _] Ht].
  assert (state_ c <> CONNECTED) as Hnc by (intros Hs; by apply Hcn in Hs).
  destruct (cx_timer c) as [t|] eqn:Htm; [|destruct (Ht eq_refl); done]. exists c, t. split_and!; [done|done|by apply Hd|].
  intros d Hd0 Htd Hpend. pose proof (elapse_ok page d g HG Hd0) as HG1. set (g1 := with_now (ev_now g + d) g) in *.
  destruct (cxn_fires_ok page Hp a g1 HG1) as (g'&w&Hr&_&_&_&Htx&c'&Hc'&Hw).
  { split; [exists c, t; by split_and!|by split]. }
  cbn [g_cxns g1 with_now] in Hc'. rewrite Hc in Hc'. injection Hc' as <-.
  destruct Hw as (r&Hkey&->).
  { destruct (state_ c) eqn:Hs; [by left| |done]. right. split; [done|]. specialize (Hpend eq_refl). unfold g1. simpl. lia. }
  exists g', r. split; [|by split]. cbn [gexecs gexec]. erewrite bind_ret by done. fold g1. by erewrite bind_ret by exact Hr.
Qed.

Lemma GWF_handles page g : GWF page g -> handles_ok g.
Proof. intros HG i h Hh. by destruct (gw_hid page g HG i h Hh). Qed.


(** A connection, asked after ten seconds, lost, and tried again. *)
Definition demo_addr : sockaddr_in := SockaddrIn 67305985 36128.
Definition demo_up : bc_channel_msg :=
  BcMsg 9 BITCOIN 1000 3 CONNECT_SUCCESS (sin_bytes demo_addr) (sin_bytes (SockaddrIn 16777343 7)) 0 [].
Definition demo_ctl : sock := Sock [] [WAccept WHOLE; WErr EINTR; WAccept WHOLE; WAccept WHOLE] [] 0.
Definition demo_run : list gevent :=
  [Up demo_up; Elapse (10 * SEC); HidTimer 3; Push; Down demo_up; Elapse SEC; CxnTimer demo_addr].
Definition demo_ga : getaddr := ga_start (100 * SEC) 7 [] demo_ctl.

#[global] Instance bc_ok_dec m : Decision (bc_ok m).
Proof. unfold bc_ok. apply _. Defined.
#[global] Instance bc_msg_ok_dec r : Decision (bc_msg_ok r).
Proof.
  assert (forall b, Decision (is_byte b)) by (intros b; unfold is_byte; apply _). unfold bc_msg_ok. apply _.
Defined.

(** [enabled] and [possible] as functions. *)
Definition happensb (e : gevent) (g : getaddr) : bool :=
  let due t := match t with Some t => t <=? ev_now g | None => false end in
  match e with
  | Elapse d => 0 <=? d
  | HidTimer i => match g_known_hids g !! i with Some h => due (hh_timer h) | None => false end
  | CxnTimer a => match g_cxns g !! a with Some c => due (cx_timer c) | None => false end
  | _ => true
  end.

#[global] Instance well_formed_dec e : Decision (well_formed e).
Proof. destruct e; simpl; apply _. Defined.
#[global] Instance writable_dec e g : Decision (writable e g).
Proof. destruct e; simpl; apply _. Defined.

Definition enabledb (e : gevent) (g : getaddr) : bool :=
  happensb e g && bool_decide (well_formed e) && bool_decide (writable e g).

Lemma enabledb_sound e g : enabledb e g = true -> enabled e g.
Proof.
  unfold enabledb. intros [[Hh Hf%bool_decide_eq_true]%andb_prop Hw%bool_decide_eq_true]%andb_prop. split; [|by split].
  destruct e as [d| |i|a| |r|m|m|ws]; simpl in *; try done.
  - lia.
  - destruct (g_known_hids g !! i) as [h|]; [|done]. destruct (hh_timer h) as [t|] eqn:Ht; [|done]. exists h, t. split_and!; [done|done|lia].
  - destruct (g_cxns g !! a) as [c|]; [|done]. destruct (cx_timer c) as [t|] eqn:Ht; [|done]. exists c, t. split_and!; [done|done|lia].
Qed.

Fixpoint possibleb page inet_ntop6 (es : list gevent) (g : getaddr) : bool :=
  match es with
  | [] => true
  | e :: es => enabledb e g && match gexec page inet_ntop6 e g with Ret _ g' => possibleb page inet_ntop6 es g' | _ => true end
  end.

Lemma possibleb_sound page inet_ntop6 es g : possibleb page inet_ntop6 es g = true -> possible page inet_ntop6 es g.
Proof.
  revert g. induction es as [|e es IH]; intros g; simpl; [done|]. intros [He Hes]%andb_prop. split; [by apply enabledb_sound|].
  intros g' Hr. rewrite Hr in Hes. by apply IH.
Qed.


(** One getaddr is sent; a record that is not a message is not in the way of the
    bound. *)
Definition demo_round : list gevent := [Elapse (10 * SEC); HidTimer 3; Push; Inbound (zrep 60 255)].
Definition demo_ga_up : getaddr := match gexec 4096 (fun _ => []) (Up demo_up) demo_ga with Ret _ g => g | _ => demo_ga end.


(** The address learnt from a peer that could not be reached. *)
Lemma getaddr_reconnects_witness :
  exists g c, learn 4096 demo_addr demo_ga = Ret tt g /\ g_cxns g !! demo_addr = Some c /\ is_Some (cx_timer c).
Proof.
  destruct (learn_ok 4096 ltac:(lia) demo_addr demo_ga) as (g&Hr&HG&_&_&_&_&Hc).
  { apply ga_start_GWF; [reflexivity|lia]. }
  { split; vm_compute; split; congruence. }
  { vm_compute. lia. }
  destruct (getaddr_reconnects 4096 (fun _ => []) g demo_addr) as (c&t&Hcx&Ht&_&_).
  - lia.
  - exact HG.
  - destruct Hc as [[[x Hx] _]|(_&Hk&_)]; [discriminate Hx|]. rewrite Hk. apply lookup_insert_eq.
  - destruct Hc as [[[x Hx] _]|(_&_&_&_&Hs)]; [discriminate Hx|]. revert Hs. vm_compute (spare (wx (g_control demo_ga))). lia.
  - exists g, c. split; [exact Hr|]. split; [exact Hcx|]. rewrite Ht. by exists t.
Defined.

(** C29. What a peer's addr message does: when its record arrives, in whatever
    segments, and the sampling is not on yet, exactly the public addresses of
    the message that were not known become known, in one pass although the loop
    over the entries is run once per entry; the connector is asked to connect to
    each of them, once and in the order of the message; the private addresses are
    left out, and known ones are left alone. *)
Theorem harvest_exact page strerror r k g :
  0 < page <= 2 ^ 62 -> GWF page g -> bc_msg_ok r -> is_addr r = true ->
  segs_ok (rx k) = true -> avail (rx k) = frame r -> round_end watch_again k = Blocked ->
  let es := public (msg_entries r) in
  Z.of_nat (size (learned (g_known_addrs g) es)) < 1000 ->
  (length (new_addrs (g_known_addrs g) es) <= spare (wx (g_control g)))%nat ->
  exists s', bc_msg_io_cb page strerror ev_READ (bc_msg_ctor page k g) = Ret tt s' /\ l_ready s' /\ GWF page (l_client s') /\
    g_known_addrs (l_client s') = learned (g_known_addrs g) es /\
    tx (g_control (l_client s')) = tx (g_control g) ++ connects (new_addrs (g_known_addrs g) es).
Proof.
  intros Hp HG Hok Ha Hsg Hav Hend es Hsz Hsp. pose proof Hok as (Hz&HB&Hcmp&Had).
  assert (exists g', on_bc_msg page r (zlen r) g = Ret tt g' /\ GWF page g' /\ added es g g') as (g'&Hr&HG'&E1&E2&_).
  { unfold on_bc_msg, field at 1. destruct (Z.ltb_spec (zlen r) (17 + 1)); [lia|]. erewrite bind_ret by done. destruct (Had Ha) as ([[n b] Hv]&Hn&Hl).
    unfold is_addr in Ha. apply andb_prop in Ha as [Ha1 Ha2]. rewrite Ha1. cbn [negb]. apply bool_decide_eq_true in Ha2. rewrite Ha2.
    erewrite bind_ret by done. cbn [negb]. unfold es, msg_entries, entry_count, entry_bytes in *. rewrite Hv in *.
    assert (exists h, field32 13 r g = Ret h g) as [i Hf].
    { unfold field32, field. destruct (Z.ltb_spec (zlen r) (13 + 4)); [lia|]. by eexists. }
    run_step Hf. erewrite bind_ret by done. set (first := match g_known_hids g !! i with Some _ => _ | None => _ end).
    assert (exists g1, first g = Ret tt g1 /\ GWF page g1 /\ g_control g1 = g_control g /\ g_known_addrs g1 = g_known_addrs g) as (g1&Hr1&HG1&Ek&Ea).
    { unfold first. destruct (g_known_hids g !! i) as [h|] eqn:Hh; (eexists; split; [reflexivity|]; split; [|done]).
      - apply GWF_hid_insert; [done|]. apply hid_enqueue_ok; [pose proof (gw_now page g HG); lia|by apply (gw_hid page g HG)].
      - apply (GWF_same_maps page g); try done. apply HG. }
    run_step Hr1. destruct (harvests_exact_ok page Hp (Z.to_nat n) (Z.to_nat n) (zdrop (42 + b) r) g1 HG1) as (g'&Hr&HG'&Hadd).
    - by apply Forall_drop.
    - by rewrite Z2Nat.id.
    - lia.
    - by rewrite Ea.
    - by rewrite Ea, Ek.
    - exists g'. split; [exact Hr|]. split; [done|]. unfold added in *. by rewrite Ea, Ek in Hadd. }
  destruct (stanza_loop (on_bc_msg page) page watch_again [r] (bc_msg_ctor page k g) g') as (s'&Hs&Hl&Hc&_).
  - done.
  - done.
  - by apply l_ready_new.
  - constructor; [by apply bc_msg_readable|done].
  - change (frames [r]) with (frame r ++ []). rewrite app_nil_r. exact Hav.
  - cbn [each_record]. by erewrite bind_ret by exact Hr.
  - exists s'. unfold bc_msg_io_cb. change (has ev_READ ev_READ) with true. cbn match. erewrite bind_ret by done.
    run_step Hs. change (sk (l_read (bc_msg_ctor page k g))) with k. rewrite Hend. rewrite Hc. by split_and!.
Qed.

(** An addr message with a new public address, twice, and a private one. *)
Definition demo_entry (a b c d : Z) : list Z := zrep 4 0 ++ zrep 8 0 ++ zrep 10 0 ++ [255; 255; a; b; c; d; 32; 141].
Definition demo_addr_record : list Z :=
  be_bytes 4 9 ++ [BITCOIN_MSG] ++ be_bytes 8 1000 ++ be_bytes 4 3 ++ [0] ++
  le_bytes 4 0 ++ resize 12 0 (text "addr") ++ le_bytes 4 91 ++ le_bytes 4 0 ++
  [3] ++ demo_entry 1 2 3 4 ++ demo_entry 10 0 0 1 ++ demo_entry 1 2 3 4.

Lemma harvest_exact_witness :
  exists s', bc_msg_io_cb 4096 (fun _ => []) ev_READ (bc_msg_ctor 4096 (Sock [RData (ztake 50 (frame demo_addr_record)); RData (zdrop 50 (frame demo_addr_record))] [] [] 0) demo_ga) = Ret tt s' /\
    tx (g_control (l_client s')) = connect_bytes (sin_bytes demo_addr).
Proof.
  destruct (harvest_exact 4096 (fun _ => []) demo_addr_record
    (Sock [RData (ztake 50 (frame demo_addr_record)); RData (zdrop 50 (frame demo_addr_record))] [] [] 0) demo_ga) as (s'&Hr&_&_&_&Htx).
  - lia.
  - apply ga_start_GWF; [reflexivity|lia].
  - apply (bool_decide_unpack _). vm_compute. exact I.
  - vm_compute. reflexivity.
  - vm_compute. reflexivity.
  - vm_compute. reflexivity.
  - vm_compute. reflexivity.
  - vm_compute. reflexivity.
  - vm_compute. lia.
  - exists s'. split; [exact Hr|]. rewrite Htx. vm_compute. reflexivity.
Defined.
