(* ===== verification/ControlPath.v ===== *)
(** * From getaddr to the peers

    getaddr (GetAddr) and the connector (CommandHandler) put together over the
    control socket: what the pusher writes, cut into any segments, is what the
    connector's control handler reads, and it ends in the write queues of the
    peers that were named. *)

From S2P Require Import Prelude.
From S2P Require Import Bytes.
From S2P Require Import WrappedBuffer.
From S2P Require Import Net.
From S2P Require Import ReadBuffer.
From S2P Require Import WriteBuffer.
From S2P Require Import BitcoinWire.
From S2P Require Import Logger.
From S2P Require Import BitcoinHandler.
From S2P Require Import BitcoinPeer.
From S2P Require Import CtrlMsg.
From S2P Require Import CommandHandler.
From S2P Require Import ClientLib.
From S2P Require Import GetAddr.
From S2P Require Import GetAddrRun.

(** ** The read loop, an item at a time *)

Section Items.
Context {S : Type} `{HasReader S} (page : Z) (Hpage : 0 < page <= 2 ^ 62).
Context (transient : Z -> bool) (Htr : transient EAGAIN = true) (on_full : prog S unit).

(** The item is there: it is read, and the handler acts. *)
Lemma read_loop_item fuel s d rest :
  RWF (rdr s) -> 0 < to_read (rdr s) -> to_read (rdr s) = zlen d -> stream (rdr s) = d ++ rest ->
  exists r, RWF r /\ to_read r = 0 /\ consumed r = consumed (rdr s) ++ d /\ stream r = rest /\
    after (rx (sk r)) = after (rx (sk (rdr s))) /\
    read_loop page transient on_full (Datatypes.S fuel) s =
      (do! on_full in read_loop page transient on_full fuel) (set_rdr r s).
Proof.
  intros HW Hn Hd Hs. pose proof (zlen_nonneg rest).
  destruct (fill_full page Hpage transient (1 + length (stream (rdr s))) (rdr s)) as (r&Hr&HW'&Ht&Hc&Hs'&Ha&_); [done| |lia|].
  { rewrite Hs, zlen_app. lia. }
  exists r. rewrite Hc, Hs', Hs, Hd, ztake_app_exact, zdrop_app_exact by done. split_and!; try done.
  cbn [read_loop]. assert (hungry (rdr s) = true) as -> by (apply Z.ltb_lt; lia). simpl negb. cbv iota.
  by erewrite bind_ret by (eapply zoom_ret; exact Hr).
Qed.

(** Nothing is there: the loop waits for the next event. *)
Lemma read_loop_idle fuel s :
  RWF (rdr s) -> 0 < to_read (rdr s) -> stream (rdr s) = [] -> after (rx (sk (rdr s))) = [] ->
  exists r, RWF r /\ to_read r = to_read (rdr s) /\ consumed r = consumed (rdr s) /\ pending r = [] /\ rx (sk r) = [] /\
    read_loop page transient on_full (Datatypes.S fuel) s = Ret Blocked (set_rdr r s).
Proof.
  intros HW Hn Hs Haf. destruct (fill_short page Hpage transient (1 + length (stream (rdr s))) (rdr s)) as (r&Hr&HW'&Ht&Hc&Hp&Ha&_);
    [done|rewrite Hs; change (@zlen Z []) with 0; lia|lia|done|].
  rewrite Hs in Ht, Hc. rewrite app_nil_r in Hc. rewrite Haf in Ha. change (@zlen Z []) with 0 in Ht.
  exists r. split_and!; [done|lia|done|done|done|]. cbn [read_loop].
  assert (hungry (rdr s) = true) as -> by (apply Z.ltb_lt; lia). simpl negb. cbv iota.
  erewrite bind_ret by (eapply zoom_ret; exact Hr). unfold round_end. by rewrite Haf.
Qed.
End Items.

(** ** A command on the control socket *)

(** The control handler is between messages and has read everything. *)
Definition at_start (h : ctrl_handler) : Prop :=
  RWF (ch_read h) /\ Z.land (ch_state h) RECV_MASK = RECV_HEADER /\ to_read (ch_read h) = MESSAGE /\
  consumed (ch_read h) = [] /\ pending (ch_read h) = [] /\ rx (sk (ch_read h)) = [].

(** Segments arrive. *)
Definition arrives (cs : list (list Z)) (s : cstate) : cstate :=
  let r := ch_read (self s) in
  set_rdr (Reader (rb r) (Sock (map RData cs) (wx (sk r)) (tx (sk r)) (errno (sk r)))) s.

Lemma arrives_ok cs s :
  at_start (self s) -> Forall (fun c => 0 < zlen c) cs ->
  let r := rdr (arrives cs s) in
  RWF r /\ to_read r = MESSAGE /\ consumed r = [] /\ stream r = concat cs /\ after (rx (sk r)) = [].
Proof.
  intros (HW&_&Ht&Hc&Hp&_) Hcs. split_and!; try done.
  - destruct HW as [? ? ? ? ? ? ?]. split; try done. simpl. clear -Hcs.
    induction Hcs; simpl; [done|]. apply andb_true_intro. split; [by apply Z.ltb_lt|done].
  - unfold stream. change (pending (rdr (arrives cs s))) with (pending (ch_read (self s))). rewrite Hp. simpl.
    rewrite <- (app_nil_r (map RData cs)), avail_chunks. simpl. by rewrite app_nil_r.
  - simpl. by rewrite <- (app_nil_r (map RData cs)), after_chunks.
Qed.

(** The header of a message, in whatever memory it lies. *)
Definition ctrl_head (type len : Z) : list Z := [0] ++ be_bytes 4 len ++ [type].

Lemma zlen_ctrl_head type len : zlen (ctrl_head type len) = 6.
Proof. unfold ctrl_head. by rewrite !zlen_app, zlen_be_bytes. Qed.

Lemma ctrl_header type len rest :
  0 <= len < 2 ^ 32 ->
  let msg := ctrl_head type len ++ rest in
  ctrl_version msg = 0 /\ ctrl_length msg = len /\ ctrl_type msg = type /\ ctrl_payload msg = rest /\
  forall S (s : S), field 0 MESSAGE msg s = Ret (ctrl_head type len) s.
Proof.
  intros Hl msg. pose proof (zlen_nonneg rest). pose proof (zlen_ctrl_head type len) as Hh. split_and!.
  - done.
  - unfold ctrl_length, msg, ctrl_head. rewrite <- !app_assoc, (slice_app_mid 1 4 [0] (be_bytes 4 _)); [by apply ntoh_be|done|by rewrite zlen_be_bytes].
  - unfold ctrl_type, msg, ctrl_head. pose proof (zlen_be_bytes 4 len) as H4.
    set (x := be_bytes 4 _) in *. clearbody x. change (zlen x = 4) in H4. explode H4. done.
  - unfold ctrl_payload, msg. by apply zdrop_app_exact.
  - intros S s. unfold field, MESSAGE, msg. rewrite slice_0, ztake_app_exact, zlen_app by done. zcase; [lia|done].
Qed.

Lemma command_bytes_split c id ts :
  command_bytes c id ts = ctrl_head COMMAND (COMMAND_MSG + 4 * zlen ts) ++ command_mem (u8 c) id ts [].
Proof. unfold command_bytes, ctrl_head, command_mem. rewrite app_nil_r. by rewrite <- !app_assoc. Qed.

Lemma command_mem_app c id ts rest : command_mem c id ts [] ++ rest = command_mem c id ts rest.
Proof. unfold command_mem. rewrite app_nil_r. by rewrite <- !app_assoc. Qed.

(** The buffer starts with what was read. *)
Lemma extract_consumed r : RWF r -> extract_buffer r = consumed r ++ zdrop (cursor r) (extract_buffer r).
Proof. intros _. unfold consumed. by rewrite ztake_zdrop. Qed.

Section Command.
Context (E : env) (strerror : Z -> list Z) (Hpage : 0 < page E <= 2 ^ 62).

(** The header asks for the payload. *)
Lemma ctrl_full_header s type len :
  RWF (rdr s) -> Z.land (ch_state (self s)) RECV_MASK = RECV_HEADER -> consumed (rdr s) = ctrl_head type len -> 0 < len < 2 ^ 32 ->
  ctrl_full E strerror s =
    Ret tt (CState (with_cstate (Z.lor (Z.land (ch_state (self s)) SEND_MASK) RECV_PAYLOAD) (self (set_rdr (extend len (rdr s)) s)))
              (listed s) (wld s)).
Proof.
  intros HW Hmask Hc Hl. unfold ctrl_full. erewrite (bind_ret get) by done. rewrite Hmask.
  change (RECV_HEADER =? RECV_HEADER) with true. cbv iota. unfold receive_header. erewrite (bind_ret get) by done. rewrite (extract_consumed (rdr s) HW), Hc.
  set (rest := zdrop _ _). destruct (ctrl_header type len rest ltac:(lia)) as (Hv&Hln&Hty&_&Hf). rewrite Hv, Hln.
  erewrite bind_ret by apply Hf. erewrite bind_ret by (by eapply zoom_ret). simpl negb. cbv iota. erewrite bind_ret by done.
  destruct (Z.eqb_spec len 0); [lia|]. done.
Qed.

Lemma next_message_ok s : 0 < zlen (extract_buffer (rdr s)) -> next_message s = Ret tt (set_rdr (restart MESSAGE (rdr s)) s).
Proof. intros. unfold next_message. erewrite bind_ret by (by eapply zoom_ret, set_cursor_0). reflexivity. Qed.

(** The payload is handled; then the next header is wanted. *)
Lemma ctrl_full_command s c id ts s1 :
  RWF (rdr s) -> Z.land (ch_state (self s)) RECV_MASK = RECV_PAYLOAD -> consumed (rdr s) = command_bytes c id ts -> zlen ts < 2 ^ 28 ->
  ctrl_handle_message_recv E (command_mem (u8 c) id ts (zdrop (cursor (rdr s)) (extract_buffer (rdr s)))) s = Ret tt s1 -> rdr s1 = rdr s ->
  ctrl_full E strerror s =
    Ret tt (CState (with_cstate (Z.lor (Z.land (Z.land (ch_state (self s1)) SEND_MASK) SEND_MASK) RECV_HEADER)
                      (self (set_rdr (restart MESSAGE (rdr s1)) s1))) (listed s1) (wld s1)).
Proof.
  intros HW Hmask Hc Hz Hh Hrd. pose proof (zlen_nonneg ts). unfold ctrl_full. erewrite (bind_ret get) by done. rewrite Hmask.
  change (RECV_PAYLOAD =? RECV_HEADER) with false. change (RECV_PAYLOAD =? RECV_PAYLOAD) with true. cbv iota.
  pose proof (consumed_fits _ HW) as Hfit. rewrite Hc, zlen_command_bytes in Hfit. unfold MESSAGE, COMMAND_MSG in Hfit.
  unfold receive_payload. erewrite (bind_ret get) by done. pose proof (extract_consumed (rdr s) HW) as Hx. set (rest := zdrop _ _) in *.
  rewrite Hx, Hc, command_bytes_split, <- app_assoc, command_mem_app.
  destruct (ctrl_header COMMAND (COMMAND_MSG + 4 * zlen ts) (command_mem (u8 c) id ts rest)) as (Hv&_&Hty&Hp&Hf); [unfold COMMAND_MSG; lia|].
  erewrite bind_ret by apply Hf. rewrite Hv, Hty, Hp. simpl negb. cbv iota. erewrite bind_ret by done.
  change (COMMAND =? BITCOIN_PACKED_MESSAGE) with false. change (COMMAND =? COMMAND) with true. cbv iota.
  erewrite bind_ret; [|erewrite bind_ret by exact Hh; reflexivity].
  rewrite <- Hrd in Hfit. set (s2 := CState _ _ _).
  assert (next_message s2 = Ret tt (set_rdr (restart MESSAGE (rdr s2)) s2)) as Hn by (apply next_message_ok; simpl in *; lia).
  by run_step Hn.
Qed.

Lemma mask_recv x r : Z.land r RECV_MASK = r -> Z.land (Z.lor (Z.land x SEND_MASK) r) RECV_MASK = r.
Proof.
  intros Hr. rewrite Z.land_lor_distr_l, <- Z.land_assoc, Hr. change (Z.land SEND_MASK RECV_MASK) with 0. by rewrite Z.land_0_r.
Qed.

(** The loop is about to read a header. *)
Definition ready (s : cstate) (rest : list Z) : Prop :=
  RWF (rdr s) /\ Z.land (ch_state (self s)) RECV_MASK = RECV_HEADER /\ to_read (rdr s) = MESSAGE /\ consumed (rdr s) = [] /\
  stream (rdr s) = rest /\ after (rx (sk (rdr s))) = [].

(** Two rounds of the loop read a message, up to a state [sp] that differs from
    [s] in the reader and the expectation only. *)
Lemma ctrl_loop_message fuel s type body rest :
  ready s (ctrl_head type (zlen body) ++ body ++ rest) -> 0 < zlen body < 2 ^ 32 ->
  exists sp, wld sp = wld s /\ ch_id (self sp) = ch_id (self s) /\ ch_write (self sp) = ch_write (self s) /\
    RWF (rdr sp) /\ Z.land (ch_state (self sp)) RECV_MASK = RECV_PAYLOAD /\ consumed (rdr sp) = ctrl_head type (zlen body) ++ body /\
    stream (rdr sp) = rest /\ after (rx (sk (rdr sp))) = [] /\
    forall s', ctrl_full E strerror sp = Ret tt s' ->
      read_loop (page E) ctrl_again (ctrl_full E strerror) (S (S fuel)) s = read_loop (page E) ctrl_again (ctrl_full E strerror) fuel s'.
Proof.
  intros (HW0&Hmask&Ht0&Hc0&Hs0&Ha0) Hlen. set (len := zlen body) in *.
  destruct (read_loop_item (page E) Hpage ctrl_again (ctrl_full E strerror) (S fuel) s (ctrl_head type len) (body ++ rest))
    as (r1&HW1&Ht1&Hc1&Hs1&Ha1&Hl1); [done|rewrite Ht0; done|by rewrite Ht0, zlen_ctrl_head|done|]. rewrite Hc0 in Hc1. simpl in Hc1.
  pose proof (ctrl_full_header (set_rdr r1 s) type len HW1 Hmask Hc1 Hlen) as Hf1. set (s2 := CState _ _ _) in Hf1.
  destruct (extend_ok len r1 HW1) as [HW2 Hc2]; [lia|rewrite <- (zlen_consumed r1 HW1), Hc1, zlen_ctrl_head; unfold MESSAGE; lia|].
  destruct (read_loop_item (page E) Hpage ctrl_again (ctrl_full E strerror) fuel s2 body rest)
    as (r2&HW3&Ht3&Hc3&Hs3&Ha3&Hl3); [done|apply Hlen|done|done|].
  exists (set_rdr r2 s2). split_and!; try done.
  - by apply mask_recv.
  - change (consumed r2 = ctrl_head type len ++ body). rewrite Hc3. change (rdr s2) with (extend len r1). by rewrite Hc2, Hc1.
  - change (after (rx (sk r2)) = []). rewrite Ha3. simpl. by rewrite Ha1.
  - intros s' Hf2. rewrite Hl1. erewrite bind_ret by exact Hf1. rewrite Hl3. by erewrite bind_ret by exact Hf2.
Qed.

(** After the message: the next header is wanted. *)
Lemma ready_again s r rest :
  RWF r -> stream r = rest -> after (rx (sk r)) = [] -> rdr s = restart MESSAGE r -> Z.land (ch_state (self s)) RECV_MASK = RECV_HEADER -> ready s rest.
Proof.
  intros HW Hs Ha Hr Hm. destruct (restart_ok MESSAGE r HW) as [HW5 Hc5]; [unfold MESSAGE; lia|]. unfold ready. rewrite Hr. by split_and!.
Qed.

(** A command is read and handled, in a state with the same world. *)
Lemma ctrl_loop_command fuel s c id ts rest :
  ready s (command_bytes c id ts ++ rest) -> zlen ts < 2 ^ 28 ->
  exists sp mem, wld sp = wld s /\ ch_id (self sp) = ch_id (self s) /\ ch_write (self sp) = ch_write (self s) /\
    forall s1, ctrl_handle_message_recv E (command_mem (u8 c) id ts mem) sp = Ret tt s1 -> self s1 = self sp ->
    exists s', read_loop (page E) ctrl_again (ctrl_full E strerror) (S (S fuel)) s = read_loop (page E) ctrl_again (ctrl_full E strerror) fuel s' /\
      ready s' rest /\ wld s' = wld s1 /\ ch_id (self s') = ch_id (self s) /\ ch_write (self s') = ch_write (self s).
Proof.
  intros Hr Hz. pose proof (zlen_nonneg ts).
  assert (zlen (command_mem (u8 c) id ts []) = COMMAND_MSG + 4 * zlen ts) as Hbody.
  { unfold command_mem. rewrite !zlen_app, !zlen_be_bytes, zlen_targets. unfold COMMAND_MSG. change (@zlen Z []) with 0. change (zlen [u8 c]) with 1. lia. }
  rewrite command_bytes_split, <- app_assoc, <- Hbody in Hr.
  destruct (ctrl_loop_message fuel s COMMAND _ rest Hr) as (sp&Hw&Hi&Hq&HW&Hm&Hc&Hs&Ha&Hl); [rewrite Hbody; unfold COMMAND_MSG; lia|].
  rewrite Hbody, <- command_bytes_split in Hc.
  exists sp, (zdrop (cursor (rdr sp)) (extract_buffer (rdr sp))). split_and!; try done. intros s4 Hh Hself.
  assert (rdr s4 = rdr sp) as Hrd by (change (ch_read (self s4) = ch_read (self sp)); by rewrite Hself).
  pose proof (ctrl_full_command sp c id ts s4 HW Hm Hc Hz Hh Hrd) as Hf2. set (s5 := CState _ _ _) in Hf2.
  exists s5. split_and!; [by apply Hl| |done|simpl; by rewrite Hself|simpl; by rewrite Hself].
  apply (ready_again s5 (rdr sp) rest); [done|done|done| |by apply mask_recv].
  change (restart MESSAGE (rdr s4) = restart MESSAGE (rdr sp)). by rewrite Hrd.
Qed.

(** ** Commands in a row *)

Record cmd := Cmd { c_command : Z; c_id : Z; c_targets : list Z }.
Definition cmd_bytes (k : cmd) : list Z := command_bytes (c_command k) (c_id k) (c_targets k).

(** The client [me]'s commands are handled one after the other, from the world
    [w] to one with [Q]. *)
Fixpoint handled (me : Z) (l : list cmd) (w : world) (Q : world -> Prop) : Prop :=
  match l with
  | [] => Q w
  | k :: l => zlen (c_targets k) < 2 ^ 28 /\
      forall s mem, wld s = w -> ch_id (self s) = me ->
      exists s1, ctrl_handle_message_recv E (command_mem (u8 (c_command k)) (c_id k) (c_targets k) mem) s = Ret tt s1 /\
        self s1 = self s /\ handled me l (wld s1) Q
  end.

Lemma handled_mono me l w (Q R : world -> Prop) : (forall w', Q w' -> R w') -> handled me l w Q -> handled me l w R.
Proof.
  intros HQR. revert w. induction l as [|k l IH]; intros w; cbn [handled]; [apply HQR|]. intros [Hz Hh]. split; [done|]. intros s mem Hw Hi.
  destruct (Hh s mem Hw Hi) as (s1&?&?&?). exists s1. auto.
Qed.

Lemma ctrl_loop_commands l fuel s Q :
  ready s (concat (map cmd_bytes l)) -> (2 * length l < fuel)%nat -> handled (ch_id (self s)) l (wld s) Q ->
  exists s', read_loop (page E) ctrl_again (ctrl_full E strerror) fuel s = Ret Blocked s' /\ at_start (self s') /\ Q (wld s') /\
    ch_id (self s') = ch_id (self s) /\ ch_write (self s') = ch_write (self s).
Proof.
  revert fuel s. induction l as [|[c id ts] l IH]; intros fuel s Hr Hf Hh.
  - destruct Hr as (HW&Hm&Ht&Hc&Hs&Ha). destruct fuel as [|fuel]; [simpl in Hf; lia|].
    destruct (read_loop_idle (page E) Hpage ctrl_again eq_refl (ctrl_full E strerror) fuel s) as (r&HW'&Ht'&Hc'&Hp'&Hx'&Hl); [done|by rewrite Ht|done|done|].
    exists (set_rdr r s). rewrite Ht in Ht'. rewrite Hc in Hc'. split; [done|]. split; [unfold at_start; by split_and!|done].
  - destruct Hh as [Hz Hh]. destruct fuel as [|[|fuel]]; [simpl in Hf; lia..|].
    destruct (ctrl_loop_command fuel s c id ts (concat (map cmd_bytes l)) Hr Hz) as (sp&mem&Hw&Hi&_&Hrun).
    destruct (Hh sp mem Hw Hi) as (s1&Hc&Hself&Hrest). destruct (Hrun s1 Hc Hself) as (s2&->&Hr2&Hw2&Hi2&Hq2).
    rewrite <- Hi2, <- Hq2. apply IH; [done|simpl in Hf; lia|]. by rewrite Hi2, Hw2.
Qed.

Lemma cmd_bytes_length l : (2 * length l <= length (concat (map cmd_bytes l)))%nat.
Proof.
  induction l as [|k l IH]; [simpl; lia|]. cbn [map concat length]. rewrite length_app. pose proof (zlen_nonneg (c_targets k)).
  pose proof (zlen_command_bytes (c_command k) (c_id k) (c_targets k)) as Hz. fold (cmd_bytes k) in Hz.
  unfold zlen, MESSAGE, COMMAND_MSG in *. lia.
Qed.

(** However the bytes of some commands are cut into segments, the handler reads
    and handles the commands in their order, and is ready for the next. *)
Lemma ctrl_reads_commands l cs s Q :
  at_start (self s) -> Forall (fun c => 0 < zlen c) cs -> concat cs = concat (map cmd_bytes l) -> handled (ch_id (self s)) l (wld s) Q ->
  exists s', ctrl_do_read E strerror (arrives cs s) = Ret tt s' /\ at_start (self s') /\ Q (wld s') /\
    ch_id (self s') = ch_id (self s) /\ ch_write (self s') = ch_write (self s).
Proof.
  intros Hst Hcs Hcat Hh. destruct (arrives_ok cs s Hst Hcs) as (HW0&Ht0&Hc0&Hs0&Ha0). pose proof Hst as (_&Hmask&_).
  destruct (ctrl_loop_commands l (1 + length (stream (rdr (arrives cs s)))) (arrives cs s) Q) as (s'&Hl&Hs'&HQ&Hi&Hq).
  - unfold ready. split_and!; try done. by rewrite Hs0.
  - rewrite Hs0, Hcat. pose proof (cmd_bytes_length l). lia.
  - done.
  - exists s'. split_and!; try done. unfold ctrl_do_read. erewrite (bind_ret get) by done. by erewrite bind_ret by exact Hl.
Qed.

(** ** A message to register *)

(** What a registration of [m] by the client of [s] leaves: the message under
    the next id, the id in the reply, the connections as they were. *)
Definition registered (m : list Z) (s s' : cstate) : Prop :=
  QWF (ch_write (self s')) /\ unsent (ch_write (self s')) = unsent (ch_write (self s)) ++ be_bytes 4 (g_message_ids (wld s)) /\
  (exists t, messages_of (ch_id (self s)) (wld s') = <[g_message_ids (wld s) := m ++ t]> (messages_of (ch_id (self s)) (wld s))) /\
  ch_id (self s') = ch_id (self s) /\
  BitcoinHandler.g_active_handlers (wgl (wld s')) = BitcoinHandler.g_active_handlers (wgl (wld s)).

(** The client may register: its queue is in order and the next id is free. *)
Definition may_register (s : cstate) : Prop :=
  QWF (ch_write (self s)) /\ 0 <= g_message_ids (wld s) < 2 ^ 32 /\ messages_of (ch_id (self s)) (wld s) !! g_message_ids (wld s) = None.

Lemma ctrl_full_register s m :
  RWF (rdr s) -> Z.land (ch_state (self s)) RECV_MASK = RECV_PAYLOAD -> consumed (rdr s) = ctrl_head BITCOIN_PACKED_MESSAGE (zlen m) ++ m ->
  whole m -> PACKED_MESSAGE <= zlen m < 2 ^ 32 -> c_str_at 4 m <> None -> may_register s ->
  exists s', ctrl_full E strerror s = Ret tt s' /\ rdr s' = restart MESSAGE (rdr s) /\ Z.land (ch_state (self s')) RECV_MASK = RECV_HEADER /\ registered m s s'.
Proof.
  intros HW Hmask Hc Hm Hz Hnul (HQ&Hid&Hfresh). unfold ctrl_full. erewrite (bind_ret get) by done. rewrite Hmask.
  change (RECV_PAYLOAD =? RECV_HEADER) with false. change (RECV_PAYLOAD =? RECV_PAYLOAD) with true. cbv iota.
  pose proof (consumed_fits _ HW) as Hfit. rewrite Hc, zlen_app, zlen_ctrl_head in Hfit.
  unfold receive_payload. erewrite (bind_ret get) by done. pose proof (extract_consumed (rdr s) HW) as Hx. set (mem := zdrop _ _) in Hx. clearbody mem. rewrite Hx, Hc, <- app_assoc.
  destruct (ctrl_header BITCOIN_PACKED_MESSAGE (zlen m) (m ++ mem)) as (Hv&Hln&Hty&Hp&Hf); [unfold PACKED_MESSAGE in *; lia|].
  set (msg := ctrl_head BITCOIN_PACKED_MESSAGE (zlen m) ++ m ++ mem) in *. erewrite bind_ret by apply Hf. rewrite Hv, Hty. simpl negb. cbv iota. erewrite bind_ret by done.
  change (BITCOIN_PACKED_MESSAGE =? BITCOIN_PACKED_MESSAGE) with true. cbv iota. pose proof (zlen_nonneg mem).
  destruct (register_run E s msg Hpage HQ) as (s1&H1&Hu&Hok&_&HQ1&Hr1&Hi1&Ha1).
  { rewrite Hln. unfold msg, MESSAGE. rewrite !zlen_app, zlen_ctrl_head. lia. } { rewrite Hln. unfold PACKED_MESSAGE in *. lia. } { done. }
  { rewrite Hp. unfold packed_text. assert (c_str_at 4 (m ++ mem) <> None); [|by destruct (c_str_at 4 (m ++ mem))].
    unfold c_str_at in *. rewrite zdrop_app_l by (unfold PACKED_MESSAGE in *; lia).
    destruct (until_nul (zdrop 4 m)) as [str|] eqn:Hs; [|done]. by rewrite (until_nul_app _ _ str). } { done. }
  rewrite Hln, Hp, msg_length_app, (proj2 (Z.leb_le PACKED_MESSAGE (zlen m))) in Hu, Hok by lia. unfold whole in Hm.
  rewrite <- Hm, Z.eqb_refl in Hu, Hok. cbn [andb] in Hu, Hok. destruct Hok as (t&Hmsgs&_).
  assert (slice MESSAGE (zlen m) msg = m) as Hsl by (unfold msg; apply slice_app_mid; [by rewrite zlen_ctrl_head|done]). rewrite Hsl in Hmsgs.
  run_step H1. assert (next_message s1 = Ret tt (set_rdr (restart MESSAGE (rdr s1)) s1)) as Hn.
  { apply next_message_ok. change (rdr s1) with (ch_read (self s1)). rewrite Hr1. change (ch_read (self s)) with (rdr s). pose proof (zlen_nonneg m). lia. }
  run_step Hn. eexists. split; [reflexivity|]. split; [|split; [by apply mask_recv|]].
  - change (restart MESSAGE (ch_read (self s1)) = restart MESSAGE (ch_read (self s))). by rewrite Hr1.
  - split_and!; [done|done|by exists t|done|done].
Qed.

(** A registration in any segments. *)
Lemma ctrl_reads_register m cs s :
  at_start (self s) -> Forall (fun c => 0 < zlen c) cs -> concat cs = ctrl_head BITCOIN_PACKED_MESSAGE (zlen m) ++ m ->
  whole m -> PACKED_MESSAGE <= zlen m < 2 ^ 32 -> c_str_at 4 m <> None -> may_register s ->
  exists s', ctrl_do_read E strerror (arrives cs s) = Ret tt s' /\ at_start (self s') /\ registered m s s'.
Proof.
  intros Hst Hcs Hcat Hm Hz Hnul Hmay. destruct (arrives_ok cs s Hst Hcs) as (HW0&Ht0&Hc0&Hs0&Ha0). pose proof Hst as (_&Hmask&_).
  set (s0 := arrives cs s) in *. rewrite Hcat in Hs0.
  assert (exists n, (1 + length (stream (rdr s0)) = S (S (S n)))%nat) as [n Hn].
  { rewrite Hs0, length_app. pose proof (zlen_ctrl_head BITCOIN_PACKED_MESSAGE (zlen m)) as Hh.
    generalize dependent (ctrl_head BITCOIN_PACKED_MESSAGE (zlen m)). intros hd _ _ Hh. exists (length hd + length m - 2)%nat. unfold zlen in Hh. lia. }
  destruct (ctrl_loop_message (S n) s0 BITCOIN_PACKED_MESSAGE m []) as (sp&Hw&Hi&Hq&HW&Hm1&Hc&Hs&Ha&Hl).
  { unfold ready. split_and!; try done. by rewrite app_nil_r. } { unfold PACKED_MESSAGE in *. lia. }
  destruct (ctrl_full_register sp m HW Hm1 Hc Hm Hz Hnul) as (s1&Hf&Hr1&Hmk&HQ1&Hu1&Hg1&Hi1&Ha1).
  { unfold may_register in *. by rewrite Hw, Hi, Hq. }
  pose proof (ready_again s1 (rdr sp) [] HW Hs Ha Hr1 Hmk) as Hrd.
  destruct (ctrl_loop_commands [] (S n) s1 (fun w => w = wld s1) Hrd) as (s2&Hl2&Hst2&Hw2&Hi2&Hq2); [simpl; lia|done|].
  exists s2. split; [|split; [done|]].
  - unfold ctrl_do_read. erewrite (bind_ret get) by done. rewrite (bind_ret (read_loop _ _ _ _) _ s0 Blocked s2); [done|]. rewrite Hn, (Hl s1 Hf). exact Hl2.
  - unfold registered. rewrite Hw2, Hi2, Hq2, Hi1. change (wld s0) with (wld s) in Hw. change (ch_id (self s0)) with (ch_id (self s)) in Hi. change (ch_write (self s0)) with (ch_write (self s)) in Hq.
    rewrite Hw, Hi, ?Hq in *. by split_and!.
Qed.
End Command.

(** ** getaddr and the connector *)

Lemma demo_at_start : at_start (self demo_state).
Proof.
  split; [apply read_buffer_ctor_RWF; [vm_compute; split; congruence|done]|vm_compute; done].
Qed.

(** The message getaddr registers. *)
Definition getaddr_message (sha256 : list Z -> list Z) (magic : Z) : list Z := get_message sha256 magic (text "getaddr") [].

Lemma getaddr_message_ok sha256 magic :
  0 <= magic < 2 ^ 32 ->
  let m := getaddr_message sha256 magic in zlen m = 24 /\ msg_length m = 0 /\ whole m /\ c_str_at 4 m <> None.
Proof.
  intros Hg m. assert (@zlen Z [] < 2 ^ 32) as H0 by done. destruct (get_message_fields sha256 magic (text "getaddr") [] Hg H0) as (Hz&_&_&Hl&_).
  fold (getaddr_message sha256 magic) in Hz, Hl. fold m in Hz, Hl. split_and!; [done|done|by apply get_message_whole|].
  assert (exists a b, m = a ++ text "getaddr" ++ [0] ++ b /\ zlen a = 4) as (a&b&->&Ha).
  { unfold m, getaddr_message, get_message. eexists (le_bytes 4 _), _. split; [|by rewrite zlen_le_bytes]. reflexivity. }
  unfold c_str_at. rewrite zdrop_app_exact by done. done.
Qed.

(** The bytes of a registration. *)
Lemma register_sent page m :
  0 < page <= 2 ^ 62 -> zlen m < 2 ^ 32 ->
  let p := serialize (bitcoin_msg page m) in ztake (snd p) (fst p) = ctrl_head BITCOIN_PACKED_MESSAGE (zlen m) ++ m.
Proof.
  intros Hp Hm. cbv zeta. pose proof (zlen_nonneg m). unfold serialize, bitcoin_msg. cbn [fst snd].
  destruct (message_bytes page Hp BITCOIN_PACKED_MESSAGE m Hm) as [rest ->]; [done|].
  replace ([0] ++ be_bytes 4 (zlen m) ++ [BITCOIN_PACKED_MESSAGE] ++ m ++ rest) with ((ctrl_head BITCOIN_PACKED_MESSAGE (zlen m) ++ m) ++ rest)
    by (unfold ctrl_head; by rewrite <- !app_assoc).
  apply ztake_app_exact. rewrite <- app_assoc. destruct (ctrl_header BITCOIN_PACKED_MESSAGE (zlen m) (m ++ rest)) as (_&->&_); [lia|].
  rewrite zlen_app, zlen_ctrl_head. unfold MESSAGE. lia.
Qed.

(** getaddr's side of the registration. *)
Lemma register_getaddr_ok page sha256 magic g id rest :
  0 < page <= 2 ^ 62 -> 0 <= magic < 2 ^ 32 -> (0 < spare (wx (g_control g)))%nat -> 0 <= id < 2 ^ 32 ->
  avail (rx (g_control g)) = be_bytes 4 id ++ rest ->
  let m := getaddr_message sha256 magic in
  exists k, register_getaddr page sha256 magic g = Ret tt (with_msg_id id (with_control k g)) /\
    tx k = tx (g_control g) ++ ctrl_head BITCOIN_PACKED_MESSAGE (zlen m) ++ m /\ avail (rx k) = rest /\ S (spare (wx k)) = spare (wx (g_control g)).
Proof.
  intros Hp Hg Hsp Hid Hav m. destruct (getaddr_message_ok sha256 magic Hg) as (Hz&Hl&Hw&Hnul). fold m in Hz, Hl, Hw, Hnul.
  assert (zlen m < 2 ^ 32) as Hz32 by lia. destruct (control_write_ok (ctrl_head BITCOIN_PACKED_MESSAGE (zlen m) ++ m) g) as (k&Hk&Htx&Hrx&Hs); [|done|].
  { rewrite zlen_app, zlen_ctrl_head, Hz. unfold WHOLE. lia. }
  destruct (recv_waitall_spec 4 k) as (k2&Hv&Ha2&Hw2&Hx2); [rewrite Hrx, Hav, zlen_app, zlen_be_bytes; pose proof (zlen_nonneg rest); lia|].
  rewrite Hrx, Hav in Hv, Ha2. rewrite ztake_app_exact in Hv by (by rewrite zlen_be_bytes). rewrite zdrop_app_exact in Ha2 by (by rewrite zlen_be_bytes).
  exists k2. rewrite Hx2, Hw2. split_and!; [|done|done|done].
  unfold register_getaddr. fold (getaddr_message sha256 magic). fold m. rewrite Hl, ztake_all by (rewrite Hz; done).
  unfold send_serialized. rewrite (register_sent page m Hp Hz32). run_step Hk.
  erewrite bind_ret by (eapply zoom_ret; exact Hv). cbn [fst snd]. change (negb (4 =? 4)) with false. cbv iota.
  rewrite ntoh_be by lia. reflexivity.
Qed.

(** C25. The two sides of a registration agree: getaddr sends its message, and
    when the connector, which reads it in whatever segments, answers with the id
    it stored it under, that is the id getaddr uses from then on; the message is
    kept byte for byte, the client's other messages and the connections stay. *)
Theorem registration_agrees page E strerror sha256 magic g s rest :
  0 < page <= 2 ^ 62 -> 0 < BitcoinHandler.page E <= 2 ^ 62 -> 0 <= magic < 2 ^ 32 -> (0 < spare (wx (g_control g)))%nat ->
  at_start (self s) -> may_register s -> avail (rx (g_control g)) = be_bytes 4 (g_message_ids (wld s)) ++ rest ->
  let m := getaddr_message sha256 magic in
  exists g' sent, register_getaddr page sha256 magic g = Ret tt g' /\ tx (g_control g') = tx (g_control g) ++ sent /\
    avail (rx (g_control g')) = rest /\ g_msg_id g' = g_message_ids (wld s) /\ whole m /\
    forall cs, Forall (fun c => 0 < zlen c) cs -> concat cs = sent ->
    exists s', ctrl_do_read E strerror (arrives cs s) = Ret tt s' /\ at_start (self s') /\ registered m s s'.
Proof.
  intros Hp HE Hg Hsp Hst Hmay Hav m. destruct (getaddr_message_ok sha256 magic Hg) as (Hz&Hl&Hw&Hnul). fold m in Hz, Hl, Hw, Hnul.
  pose proof Hmay as (_&Hid&_). destruct (register_getaddr_ok page sha256 magic g (g_message_ids (wld s)) rest) as (k&Hr&Htx&Ha&_); [done|done|done|lia|done|].
  eexists _, _. split_and!; [exact Hr|exact Htx|done|done|done|].
  intros cs Hcs Hcat. apply (ctrl_reads_register E strerror HE); done || (unfold PACKED_MESSAGE; lia).
Qed.

Lemma registration_agrees_witness :
  exists g' sent s', register_getaddr 4096 Sha256.sha256 3652501241 (ga_start (100 * SEC) 9 [] (Sock [RData (be_bytes 4 2)] [WAccept WHOLE] [] 0)) = Ret tt g' /\
    tx (g_control g') = sent /\ g_msg_id g' = 2 /\
    ctrl_do_read BitcoinPeer.demo_env (fun _ => []) (arrives [sent] demo_state) = Ret tt s' /\
    registered (getaddr_message Sha256.sha256 3652501241) demo_state s'.
Proof.
  destruct (registration_agrees 4096 BitcoinPeer.demo_env (fun _ => []) Sha256.sha256 3652501241
    (ga_start (100 * SEC) 9 [] (Sock [RData (be_bytes 4 2)] [WAccept WHOLE] [] 0)) demo_state []) as (g'&sent&Hr&Htx&_&Hi&_&Hrun).
  - lia.
  - vm_compute. split; congruence.
  - lia.
  - vm_compute. lia.
  - exact demo_at_start.
  - split; [apply write_buffer_ctor_QWF|]. vm_compute. repeat split; congruence.
  - reflexivity.
  - assert (zlen sent = 30) as Hl.
    { revert Hr. vm_compute (register_getaddr _ _ _ _). intros [= <-]. vm_compute in Htx. by rewrite <- Htx. }
    destruct (Hrun [sent]) as (s'&Hread&_&Hreg); [constructor; [lia|constructor]|cbn [concat]; apply app_nil_r|].
    exists g', sent, s'. split; [exact Hr|]. split; [exact Htx|]. split; [exact Hi|]. split; [exact Hread|exact Hreg].
Defined.


(** Two handles pending, one of them twice, the command in two segments. *)
Definition demo_pushing : getaddr := with_pending [3; 8; 3] (ga_start (100 * SEC) 1 [] demo_ctl).

