(* ===== verification/AddrMap.v ===== *)
(** * std::map and std::set keyed by addresses (clients/kill_dupes.cpp, cycle.cpp)

    The containers whose comparison is addr_cmp, as lists in the order in which
    they are iterated. The comparison has cycles (see sockaddr_cmp_cycles), and
    then the containers have no defined behaviour; the laws hold where it is an
    order, which is stated as a class on the keys in use and holds for addresses
    that differ by less than 2^31. *)

From S2P Require Import Prelude.
From S2P Require Import Bytes.
From S2P Require Import ClientLib.
From Stdlib Require Import Sorting.Sorted.

(** The addresses of [P] are ordered by addr_cmp. *)
Class KeyOrder (P : sockaddr_in -> Prop) : Prop := {
  key_irrefl a : P a -> sockaddr_cmp a a = false;
  key_trans a b c : P a -> P b -> P c -> sockaddr_cmp a b = true -> sockaddr_cmp b c = true -> sockaddr_cmp a c = true;
  key_total a b : P a -> P b -> sockaddr_cmp a b = false -> sockaddr_cmp b a = false -> a = b }.

(** Addresses in one half of the address space, as addr_cmp sees it. *)
Definition in_half (base : Z) (a : sockaddr_in) : Prop :=
  0 <= s_addr a < 2 ^ 32 /\ base <= s_addr a < base + 2 ^ 31.

Lemma half_cmp base a b :
  in_half base a -> in_half base b ->
  sockaddr_cmp a b = true <-> s_addr a < s_addr b \/ (s_addr a = s_addr b /\ sin_port a < sin_port b).
Proof.
  intros [Ha1 Ha2] [Hb1 Hb2]. unfold sockaddr_cmp. rewrite s32_u32, s32_small by lia.
  destruct (Z.eqb_spec (s_addr a - s_addr b) 0); rewrite Z.ltb_lt; lia.
Qed.

#[export] Instance half_order base : KeyOrder (in_half base).
Proof.
  split.
  - intros a Ha. apply not_true_is_false. rewrite (half_cmp base) by done. lia.
  - intros a b c Ha Hb Hc. rewrite !(half_cmp base) by done. lia.
  - intros [a p] [b q] Ha Hb H1%not_true_iff_false H2%not_true_iff_false. rewrite (half_cmp base) in H1, H2 by done. simpl in *.
    assert (a = b) as -> by lia. assert (p = q) as -> by lia. done.
Qed.

Section Map.
Context {A : Type}.
Abbreviation addr_map := (list (sockaddr_in * A)).

(** m[a] = f(m[a]), where operator[] makes an entry [d] if there is none *)
Fixpoint at_key (d : A) (f : A -> A) (a : sockaddr_in) (m : addr_map) : addr_map :=
  match m with
  | [] => [(a, f d)]
  | (b, x) :: m' =>
      if sockaddr_cmp a b then (a, f d) :: m
      else if sockaddr_cmp b a then (b, x) :: at_key d f a m'
      else (b, f x) :: m'
  end.

(** ** Laws *)

Definition am_get (a : sockaddr_in) (m : addr_map) : option A := snd <$> find (fun p => bool_decide (fst p = a)) m.

Context (P : sockaddr_in -> Prop) `{KeyOrder P}.

Record am_ok (m : addr_map) : Prop := {
  am_keys : Forall (fun p => P (fst p)) m;
  am_sorted : StronglySorted (fun p q => sockaddr_cmp (fst p) (fst q) = true) m }.

Lemma am_ok_cons p m : am_ok (p :: m) <-> P (fst p) /\ am_ok m /\ Forall (fun q => sockaddr_cmp (fst p) (fst q) = true) m.
Proof.
  split.
  - intros [Hk%Forall_cons Hs]. apply StronglySorted_inv in Hs as [Hs HF]. by destruct Hk.
  - intros (Hp&[Hk Hs]&HF). split; by constructor.
Qed.

Lemma am_get_cons a b x m : am_get a ((b, x) :: m) = if decide (b = a) then Some x else am_get a m.
Proof. unfold am_get. simpl. by case_decide; case_bool_decide. Qed.

(** A key before all keys is not in the map. *)
Lemma am_get_before a m : P a -> am_ok m -> Forall (fun q => sockaddr_cmp a (fst q) = true) m -> am_get a m = None.
Proof.
  intros Ha Hm HF. induction HF as [|[b x] m Hb HF IH]; [done|]. apply am_ok_cons in Hm as (Hp&Hm&_). rewrite am_get_cons.
  case_decide as E; [|by apply IH]. subst b. simpl in Hb. by rewrite key_irrefl in Hb.
Qed.

Lemma am_before_trans a b m :
  P a -> P b -> am_ok m -> sockaddr_cmp a b = true -> Forall (fun q => sockaddr_cmp b (fst q) = true) m ->
  Forall (fun q => sockaddr_cmp a (fst q) = true) m.
Proof.
  intros Ha Hb [Hk _] Hab HF. apply Forall_forall. intros q Hq. rewrite Forall_forall in HF, Hk. eapply (key_trans a b); eauto.
Qed.

Lemma at_key_before d f a b m :
  sockaddr_cmp b a = true -> Forall (fun q => sockaddr_cmp b (fst q) = true) m ->
  Forall (fun q => sockaddr_cmp b (fst q) = true) (at_key d f a m).
Proof.
  intros Hba HF. induction HF as [|[c x] m Hc HF IH]; cbn [at_key]; [by constructor|].
  destruct (sockaddr_cmp a c); [by repeat constructor|]. destruct (sockaddr_cmp c a); by constructor.
Qed.

Lemma at_key_ok d f a m :
  P a -> am_ok m ->
  am_ok (at_key d f a m) /\
  forall b, am_get b (at_key d f a m) = if decide (a = b) then Some (f (default d (am_get a m))) else am_get b m.
Proof.
  intros Ha. induction m as [|[c x] m IH]; intros Hm; cbn [at_key].
  { split; [apply am_ok_cons; done|]. intros b. by rewrite am_get_cons. }
  pose proof Hm as (Hc&Hm'&HF)%am_ok_cons. simpl in Hc, HF. destruct (sockaddr_cmp a c) eqn:Eac.
  - assert (Forall (fun q => sockaddr_cmp a (fst q) = true) ((c, x) :: m)) as HFa by (constructor; [done|by eapply am_before_trans]).
    split; [by apply am_ok_cons|]. intros b. rewrite am_get_cons. case_decide; [|done]. by rewrite am_get_before.
  - destruct (sockaddr_cmp c a) eqn:Eca.
    + destruct (IH Hm') as [IH1 IH2]. split; [apply am_ok_cons; split_and!; [done|done|by apply at_key_before]|].
      assert (c <> a) by (intros ->; by rewrite key_irrefl in Eca by done).
      intros b. rewrite !am_get_cons, IH2. repeat case_decide; subst; done.
    + assert (a = c) as <- by (by apply key_total). split; [by apply am_ok_cons|].
      intros b. rewrite !am_get_cons. by repeat case_decide.
Qed.

Lemma am_get_in a x m : am_ok m -> In (a, x) m <-> am_get a m = Some x.
Proof.
  induction m as [|[b y] m IH]; [done|]. intros (Hb&Hm&HF)%am_ok_cons. rewrite am_get_cons. simpl in *.
  rewrite IH by done. case_decide as E.
  - subst b. rewrite (am_get_before a m) by done. split; [by intros [[= ->]|?]|intros [= ->]; by left].
  - split; [by intros [[= -> ->]|?]|by right].
Qed.

Lemma am_nodup m : am_ok m -> NoDup (map fst m).
Proof.
  induction m as [|[b y] m IH]; [constructor|]. intros (Hb&Hm&HF)%am_ok_cons. cbn [map fst]. constructor; [|by apply IH].
  intros Hin. apply list_elem_of_In, in_map_iff in Hin as ([c z]&Hc&Hin). simpl in Hc. subst c.
  rewrite List.Forall_forall in HF. specialize (HF _ Hin). simpl in *. by rewrite key_irrefl in HF by done.
Qed.
End Map.
Arguments am_ok {A} P m.

(** ** Sorted lists of ids *)

Lemma sorted_filter (Q : Z -> Prop) `{forall x, Decision (Q x)} l : StronglySorted Z.le l -> StronglySorted Z.le (filter Q l).
Proof.
  induction 1 as [|x l Hs IH HF]; [constructor|]. rewrite filter_cons. destruct (decide (Q x)); [|done]. constructor; [done|].
  apply List.Forall_forall. intros y Hy%list_elem_of_In. apply list_elem_of_filter in Hy as [_ Hy%list_elem_of_In]. rewrite List.Forall_forall in HF. auto.
Qed.

Lemma sorted_last l i j : StronglySorted Z.le l -> last l = Some i -> j ∈ l -> j <= i.
Proof.
  intros Hs. revert i j. induction Hs as [|x l Hs IH HF]; intros i j; [done|]. rewrite last_cons. rewrite List.Forall_forall in HF.
  destruct (last l) as [k|] eqn:Hk; intros [= ->] [->|Hj]%elem_of_cons; [|by apply IH|done|].
  - apply HF, list_elem_of_In. by apply last_Some_elem_of.
  - apply last_None in Hk. subst l. set_solver.
Qed.

(** The last element with a property is the largest. *)
Lemma last_filter_max (Q : Z -> Prop) `{forall x, Decision (Q x)} l i :
  StronglySorted Z.le l -> last (filter Q l) = Some i <-> i ∈ l /\ Q i /\ forall j, j ∈ l -> Q j -> j <= i.
Proof.
  intros Hs%(sorted_filter Q). split.
  - intros Hl. pose proof (last_Some_elem_of _ _ Hl) as [HQ Hi]%list_elem_of_filter. split_and!; [done|done|].
    intros j Hj HQj. eapply sorted_last; [done|done|]. by apply list_elem_of_filter.
  - intros (Hi&HQ&Hmax). assert (i ∈ filter Q l) as Hin by (by apply list_elem_of_filter).
    destruct (last (filter Q l)) as [k|] eqn:Hk; [|apply last_None in Hk; rewrite Hk in Hin; set_solver].
    pose proof (last_Some_elem_of _ _ Hk) as [HQk Hkl]%list_elem_of_filter. f_equal.
    pose proof (Hmax k Hkl HQk). pose proof (sorted_last _ _ i Hs Hk Hin). lia.
Qed.
