(* ===== verification/KillDupes.v ===== *)
(** * kill_dupes (clients/kill_dupes.cpp)

    The program that closes all but the newest connection to every address, and
    what becomes of its commands in the connector. The callback that collects the
    connections uses the wire_addr of a connection_info where a sockaddr_in is
    needed and does not compile; the conversion that is missing, [sin_of], is a
    parameter. *)

From S2P Require Import Prelude.
From S2P Require Import Bytes.
From S2P Require Import Net.
From S2P Require Import ReadBuffer.
From S2P Require Import WriteBuffer.
From S2P Require Import BitcoinWire.
From S2P Require Import BitcoinHandler.
From S2P Require Import CtrlMsg.
From S2P Require Import CommandHandler.
From S2P Require Import ClientLib.
From S2P Require Import GetAddr.
From S2P Require Import ControlPath.
From S2P Require Import AddrMap.

(** The socket and [cnt]. *)
Record killer := Killer { k_sock : sock; k_cnt : Z }.

(** An address with its handle ids, as they came from the network, in the order
    in which std::map iterates. *)
Definition cxn_map : Type := list (sockaddr_in * list Z).

Section KillDupes.
Context (page : Z).

(** max_id *)
Definition max_id (ids : list Z) : Z := fold_left (fun m v => Z.max m (ntoh32 v)) ids 0.

(** The body of the second loop. *)
Definition kill_older (newest v : Z) : prog killer unit :=
  if ntoh32 v <? newest then
    do! modify (fun k => Killer (k_sock k) (u64 (k_cnt k + 1))) in
    let '(buffer, length) := disconnect_msg page (le_bytes 4 v) in
    zoom k_sock (fun s k => Killer s (k_cnt k)) (ClientLib.do_write (ztake length buffer))
  else ret tt.

Fixpoint kill_each (newest : Z) (ids : list Z) : prog killer unit :=
  match ids with
  | [] => ret tt
  | v :: ids => do! kill_older newest v in kill_each newest ids
  end.

(** The loop over the addresses. *)
Fixpoint kill_loop (cxn : cxn_map) : prog killer unit :=
  match cxn with
  | [] => ret tt
  | c :: cxn =>
      do! (if 1 <? zlen (snd c) then kill_each (max_id (snd c)) (snd c) else ret tt) in
      kill_loop cxn
  end.

(** main after the connections have been collected: what is printed and returned *)
Definition kill_dupes_main (cxn : cxn_map) : prog killer (list Z * Z) :=
  do! modify (fun k => Killer (k_sock k) 0) in
  do! kill_loop cxn in
  let! k := get in
  ret (text "disconnected " ++ number (k_cnt k) ++ text " handles" ++ [10], 0).

(** The address in the 19 bytes of a wire_addr. *)
Context (sin_of : list Z -> sockaddr_in).

(** The callback given to get_all_cxn. *)
Definition collect (info : list Z) (_ : Z) : prog cxn_map unit :=
  modify (at_key [] (fun ids => ids ++ [le_val (slice 0 4 info)]) (sin_of (slice 4 WIRE_ADDR info))).

(** main on the control socket *)
Definition kill_dupes_run : prog (cxn_map * sock) (list Z * Z) :=
  let! _ := get_all_cxn collect in
  let! s := get in
  zoom (fun s => Killer (snd s) 0) (fun k s => (fst s, k_sock k)) (kill_dupes_main (fst s)).
End KillDupes.

(** ** What is sent *)

(** The handles that are not the newest of their address, in order. *)
Definition older (ids : list Z) : list Z := filter (fun v => ntoh32 v < max_id ids) ids.
Definition stale (cxn : cxn_map) : list Z := concat (map (fun c => older (snd c)) cxn).

(** A connection is superseded when its address has a newer one. *)
Definition superseded (cxn : cxn_map) (i : Z) : Prop :=
  exists a ids v v', In (a, ids) cxn /\ In v ids /\ In v' ids /\ ntoh32 v = i /\ i < ntoh32 v'.

Lemma max_id_from ids m : fold_left (fun m v => Z.max m (ntoh32 v)) ids m = Z.max m (max_id ids) \/ m < 0.
Proof.
  unfold max_id. revert m. induction ids as [|v ids IH]; intros m; cbn [fold_left]; [lia|].
  pose proof (bswap_bound 4 v) as Hb. fold (ntoh32 v) in Hb. destruct (IH (Z.max m (ntoh32 v))), (IH (Z.max 0 (ntoh32 v))); lia.
Qed.

Lemma max_id_cons v ids : max_id (v :: ids) = Z.max (ntoh32 v) (max_id ids).
Proof.
  pose proof (bswap_bound 4 v) as Hb. fold (ntoh32 v) in Hb. unfold max_id at 1. cbn [fold_left].
  destruct (max_id_from ids (Z.max 0 (ntoh32 v))); lia.
Qed.

(** [max_id] is the largest id; it is one of them. *)
Lemma max_id_spec ids i : i < max_id ids -> 0 <= i -> exists v, In v ids /\ i < ntoh32 v.
Proof.
  induction ids as [|v ids IH]; [unfold max_id; simpl; lia|]. rewrite max_id_cons. intros Hi H0.
  destruct (decide (i < ntoh32 v)) as [H|H]; [exists v; simpl; auto|]. destruct IH as (v'&?&?); [lia|done|]. exists v'. simpl. auto.
Qed.

Lemma max_id_ge ids v : In v ids -> ntoh32 v <= max_id ids.
Proof.
  induction ids as [|x ids IH]; [done|]. rewrite max_id_cons. intros [->|Hin]; [lia|]. specialize (IH Hin). lia.
Qed.

Lemma in_stale cxn i : (exists v, In v (stale cxn) /\ ntoh32 v = i) <-> superseded cxn i.
Proof.
  unfold stale, superseded. split.
  - intros (v&Hv&<-). apply in_concat in Hv as (l&Hl&Hv). apply in_map_iff in Hl as ([a ids]&<-&Hc). simpl in Hv.
    apply list_elem_of_In, list_elem_of_filter in Hv as [Hlt Hv%list_elem_of_In]. pose proof (bswap_bound 4 v) as Hb. fold (ntoh32 v) in Hb.
    destruct (max_id_spec ids (ntoh32 v)) as (v'&?&?); [done|lia|]. by exists a, ids, v, v'.
  - intros (a&ids&v&v'&Hc&Hv&Hv'&Hi&Hlt). exists v. split; [|done]. apply in_concat. exists (older ids). split; [by apply (in_map (fun c => older (snd c)) _ (a, ids))|].
    apply list_elem_of_In, list_elem_of_filter. split; [|by apply list_elem_of_In]. pose proof (max_id_ge ids v' Hv'). lia.
Qed.

(** A single address is never superseded. *)
Lemma older_single ids : zlen ids <= 1 -> older ids = [].
Proof.
  destruct ids as [|v [|v' ids]]; [done| |intros; rewrite !zlen_cons in *; pose proof (zlen_nonneg ids); lia]. intros _.
  unfold older, max_id. cbn [fold_left]. rewrite filter_cons_False; [done|]. pose proof (bswap_bound 4 v) as Hb. fold (ntoh32 v) in Hb. lia.
Qed.

Definition disconnect_cmd (v : Z) : cmd := Cmd COMMAND_DISCONNECT 0 [ntoh32 v].

Lemma disconnect_cmd_bytes page v :
  0 < page <= 2 ^ 62 -> 0 <= v < 2 ^ 32 ->
  let '(b, n) := disconnect_msg page (le_bytes 4 v) in ztake n b = cmd_bytes (disconnect_cmd v).
Proof.
  intros Hp Hv. pose proof (disconnect_msg_bytes page (le_bytes 4 v) Hp (zlen_le_bytes 4 v)) as H. destruct (disconnect_msg page (le_bytes 4 v)) as [b n].
  rewrite H. unfold cmd_bytes, command_bytes. cbn [disconnect_cmd c_command c_id c_targets map concat]. rewrite app_nil_r.
  assert (be_bytes 4 (ntoh32 v) = le_bytes 4 v) as ->; [|done].
  rewrite <- hton_bytes. unfold hton32, ntoh32. rewrite bswap_involutive. change (256 ^ Z.of_nat 4) with (2 ^ 32). by rewrite Z.mod_small.
Qed.

Section Sent.
Context (page : Z) (Hpage : 0 < page <= 2 ^ 62).

Definition is_raw (v : Z) : Prop := 0 <= v < 2 ^ 32.

Lemma kill_each_ok newest ids k :
  Forall is_raw ids -> (length (filter (fun v => (ntoh32 v < newest)%Z) ids) <= spare (wx (k_sock k)))%nat ->
  let l := filter (fun v => ntoh32 v < newest) ids in
  exists k', kill_each page newest ids k = Ret tt k' /\ tx (k_sock k') = tx (k_sock k) ++ concat (map (fun v => cmd_bytes (disconnect_cmd v)) l) /\
    u64 (k_cnt k') = u64 (k_cnt k + zlen l) /\ (spare (wx (k_sock k)) <= length l + spare (wx (k_sock k')))%nat.
Proof.
  intros Hr. revert k. induction Hr as [|v ids Hv Hr IH]; intros k Hs; cbn [kill_each].
  { exists k. by rewrite app_nil_r, Z.add_0_r. }
  unfold kill_older. rewrite filter_cons in *. destruct (Z.ltb_spec (ntoh32 v) newest) as [Hlt|Hge].
  - rewrite decide_True in * by done. cbn [length] in Hs. pose proof (disconnect_cmd_bytes page v Hpage Hv) as Hb. destruct (disconnect_msg page (le_bytes 4 v)) as [b n].
    set (k1 := Killer (k_sock k) (u64 (k_cnt k + 1))).
    destruct (do_write_spare (ztake n b) (k_sock k1)) as (s'&Hw&Htx&_&Hsp); [|simpl; lia|].
    { rewrite Hb. unfold cmd_bytes, disconnect_cmd. cbn [c_command c_id c_targets]. rewrite zlen_command_bytes. done. }
    destruct (IH (Killer s' (k_cnt k1))) as (k'&Hr'&Htx'&Hc&Hsp'); [simpl in *; lia|]. exists k'. split.
    + erewrite bind_ret; [exact Hr'|]. erewrite bind_ret by reflexivity. exact (zoom_ret k_sock (fun s k => Killer s (k_cnt k)) _ k1 _ _ Hw).
    + cbn [map concat length]. rewrite zlen_cons. simpl in *. rewrite Htx', Htx, Hb, <- app_assoc. split_and!; [done| |lia].
      rewrite Hc. unfold u64. rewrite Zplus_mod_idemp_l. f_equal. lia.
  - rewrite decide_False in * by lia. destruct (IH k Hs) as (k'&Hr'&?). exists k'. split; [by erewrite bind_ret by reflexivity|done].
Qed.

Lemma kill_loop_ok cxn k :
  Forall (fun c => Forall is_raw (snd c)) cxn -> (length (stale cxn) <= spare (wx (k_sock k)))%nat ->
  exists k', kill_loop page cxn k = Ret tt k' /\ tx (k_sock k') = tx (k_sock k) ++ concat (map (fun v => cmd_bytes (disconnect_cmd v)) (stale cxn)) /\
    u64 (k_cnt k') = u64 (k_cnt k + zlen (stale cxn)).
Proof.
  intros Hr. revert k. induction Hr as [|[a ids] cxn Hv Hr IH]; intros k Hs; cbn [kill_loop].
  { exists k. by rewrite app_nil_r, Z.add_0_r. }
  change (stale ((a, ids) :: cxn)) with (older ids ++ stale cxn) in *. rewrite length_app in Hs. cbn [snd] in *.
  assert (exists k1, (if 1 <? zlen ids then kill_each page (max_id ids) ids else ret tt) k = Ret tt k1 /\
    tx (k_sock k1) = tx (k_sock k) ++ concat (map (fun v => cmd_bytes (disconnect_cmd v)) (older ids)) /\
    u64 (k_cnt k1) = u64 (k_cnt k + zlen (older ids)) /\ (spare (wx (k_sock k)) <= length (older ids) + spare (wx (k_sock k1)))%nat) as (k1&H1&Ht1&Hc1&Hs1).
  { destruct (Z.ltb_spec 1 (zlen ids)); [apply (kill_each_ok (max_id ids) ids k Hv); unfold older in Hs; lia|].
    rewrite older_single in * by lia. exists k. by rewrite app_nil_r, Z.add_0_r. }
  destruct (IH k1) as (k'&Hr'&Ht'&Hc'); [lia|]. exists k'. split; [by run_step H1|].
  rewrite map_app, concat_app, app_assoc, <- Ht1. split; [done|]. rewrite Hc', zlen_app.
  unfold u64 in *. rewrite Z.add_assoc, <- (Zplus_mod_idemp_l (k_cnt k + _)), <- Hc1, Zplus_mod_idemp_l. done.
Qed.
End Sent.

(** [cnt] is a size_t. *)
Lemma kill_each_cnt page newest ids k k' : 0 <= k_cnt k < 2 ^ 64 -> kill_each page newest ids k = Ret tt k' -> 0 <= k_cnt k' < 2 ^ 64.
Proof.
  revert k. induction ids as [|v ids IH]; intros k Hk; cbn [kill_each]; [by intros [= <-]|].
  intros (u&k1&H1&H2)%bind_Ret_inv. apply (IH k1); [|done]. unfold kill_older in H1. destruct (_ <? _); [|by injection H1 as _ <-].
  apply bind_Ret_inv in H1 as (u2&k2&Hm&H1). injection Hm as _ <-. destruct (disconnect_msg page _) as [b n]. unfold zoom in H1.
  destruct (ClientLib.do_write _ _); try done. injection H1 as _ <-. simpl. apply Z.mod_pos_bound. done.
Qed.

Lemma kill_cnt_range page cxn k k' : kill_loop page cxn k = Ret tt k' -> 0 <= k_cnt k < 2 ^ 64 -> 0 <= k_cnt k' < 2 ^ 64.
Proof.
  revert k. induction cxn as [|c cxn IH]; intros k; cbn [kill_loop]; [by intros [= <-]|].
  intros (u&k1&H1&H2)%bind_Ret_inv Hk. apply (IH k1); [done|]. destruct (1 <? _); [by destruct u; eapply kill_each_cnt|by injection H1 as _ <-].
Qed.

(** ** What becomes of it *)

(** The active connections of the connector's world. *)
Definition active (w : world) : gmap Z handler := BitcoinHandler.g_active_handlers (wgl w).

(** A disconnect command for one connection. *)
Lemma disconnect_run E s t mem :
  is_u32 t -> t <> BROADCAST_TARGET ->
  exists s1, ctrl_handle_message_recv E (command_mem (u8 COMMAND_DISCONNECT) 0 [t] mem) s = Ret tt s1 /\ self s1 = self s /\
    active (wld s1) = delete t (active (wld s)).
Proof.
  intros Ht Hb. change (u8 COMMAND_DISCONNECT) with COMMAND_DISCONNECT. assert (0 <= COMMAND_DISCONNECT < 256) as Hc by done.
  assert (is_u32 0) as Hi by done. assert (zlen [t] < 2 ^ 32) as Hz by done. assert (Forall is_u32 [t]) as Hf by (constructor; [done|constructor]).
  destruct (command_mem_fields COMMAND_DISCONNECT 0 [t] mem s Hc Hi Hz) as (H0&_). unfold ctrl_handle_message_recv.
  erewrite bind_ret by exact H0. erewrite (bind_ret get) by done. change (le_val [COMMAND_DISCONNECT]) with COMMAND_DISCONNECT. cbv zeta.
  change (COMMAND_DISCONNECT =? COMMAND_GET_CXN) with false. change (COMMAND_DISCONNECT =? COMMAND_SEND_MSG) with false.
  change (COMMAND_DISCONNECT =? COMMAND_DISCONNECT) with true. cbv iota. erewrite (bind_ret (clog _)) by reflexivity. set (s1 := CState _ _ _).
  assert (exists g', foreach_handlers (command_mem COMMAND_DISCONNECT 0 [t] mem) (fun i => on_active i disconnect) (wgl (wld s1)) = Ret tt g' /\
    BitcoinHandler.g_active_handlers g' = delete t (active (wld s))) as (g'&Hg&Ha).
  { destruct (foreach_run COMMAND_DISCONNECT 0 [t] mem (fun i => on_active i disconnect) (wgl (wld s1)) Hc Hi Hz Hf) as (g1&Ha1&_&->).
    rewrite bool_decide_eq_false_2 by congruence. cbn [length each_target]. change (BitcoinHandler.g_active_handlers g1 = active (wld s)) in Ha1.
    assert (forall S (g : S), field32 (COMMAND_MSG + 4 * 0) (command_mem COMMAND_DISCONNECT 0 [t] mem) g = Ret t g) as Hfld.
    { intros S g. unfold command_mem. cbn [map concat]. rewrite app_nil_r, !app_assoc, <- (app_assoc _ (be_bytes 4 t)). by apply field32_app. }
    erewrite bind_ret by apply Hfld. erewrite (bind_ret get) by done. destruct (BitcoinHandler.g_active_handlers g1 !! t) as [h|] eqn:Hh.
    - destruct (disconnect_one g1 t h Hh) as (g2&Hd&Hg2). exists g2. split; [by run_step Hd|]. by rewrite Hg2, Ha1.
    - eexists. split; [by erewrite bind_ret by reflexivity|]. change (BitcoinHandler.g_active_handlers g1 = delete t (active (wld s))).
      rewrite <- Ha1, delete_id by done. done. }
  eexists. split; [unfold on_world, on_wgl; eapply zoom_ret, zoom_ret; exact Hg|]. done.
Qed.

(** All the disconnect commands of a run. *)
Lemma disconnects_handled E me l w :
  Forall (fun v => ntoh32 v < BROADCAST_TARGET) l ->
  handled E me (map disconnect_cmd l) w (fun w' => forall i,
    (In i (map ntoh32 l) -> active w' !! i = None) /\ (~ In i (map ntoh32 l) -> active w' !! i = active w !! i)).
Proof.
  intros Hl. revert w. induction Hl as [|v l Hv Hl IH]; intros w; cbn [map handled]; [done|]. split; [done|]. intros s mem Hw _.
  pose proof (bswap_bound 4 v) as Hb. fold (ntoh32 v) in Hb. change (256 ^ Z.of_nat 4) with (2 ^ 32) in Hb. unfold BROADCAST_TARGET in *.
  destruct (disconnect_run E s (ntoh32 v) mem) as (s1&Hr&Hself&Ha); [done|unfold BROADCAST_TARGET; lia|]. rewrite Hw in Ha.
  exists s1. split_and!; [exact Hr|done|]. eapply handled_mono; [|apply IH]. simpl. intros w' Hw' i. destruct (Hw' i) as [H1 H2].
  destruct (in_dec Z.eq_dec i (map ntoh32 l)) as [Hin|Hnin]; [split; [auto|tauto]|]. rewrite H2, Ha by done. split.
  - intros [<-|?]; [apply lookup_delete_eq|done].
  - intros Hn. apply lookup_delete_ne. tauto.
Qed.

(** main sends a command for every connection that is superseded, in order. *)
Lemma kill_main_ok page cxn sock cnt :
  0 < page <= 2 ^ 62 -> Forall (fun c => Forall is_raw (snd c)) cxn -> (length (stale cxn) <= spare (wx sock))%nat -> zlen (stale cxn) < 2 ^ 64 ->
  exists k, kill_dupes_main page cxn (Killer sock cnt) = Ret (text "disconnected " ++ number (zlen (stale cxn)) ++ text " handles" ++ [10], 0) k /\
    tx (k_sock k) = tx sock ++ concat (map cmd_bytes (map disconnect_cmd (stale cxn))).
Proof.
  intros Hp Hraw Hroom Hz. pose proof (zlen_nonneg (stale cxn)).
  destruct (kill_loop_ok page Hp cxn (Killer sock 0) Hraw Hroom) as (k&Hr&Htx&Hcnt). simpl in Hcnt.
  exists k. rewrite map_map. split; [|exact Htx].
  unfold kill_dupes_main. erewrite bind_ret by reflexivity. run_step Hr. erewrite bind_ret by done.
  assert (k_cnt k = zlen (stale cxn)) as ->; [|done]. assert (0 <= k_cnt k < 2 ^ 64) by (eapply kill_cnt_range; [exact Hr|simpl; lia]). by rewrite !u64_small in Hcnt by lia.
Qed.

(** When the connector has read them, exactly these connections are gone. *)
Lemma stale_closed E strerror cxn s cs :
  0 < BitcoinHandler.page E <= 2 ^ 62 -> at_start (self s) ->
  Forall (fun c => 0 < zlen c) cs -> concat cs = concat (map cmd_bytes (map disconnect_cmd (stale cxn))) ->
  exists s', ctrl_do_read E strerror (arrives cs s) = Ret tt s' /\ at_start (self s') /\
    forall i, (superseded cxn i -> active (wld s') !! i = None) /\ (~ superseded cxn i -> active (wld s') !! i = active (wld s) !! i).
Proof.
  intros HE Hst Hcs Hcmds. assert (Forall (fun v => ntoh32 v < BROADCAST_TARGET) (stale cxn)) as Hb.
  { apply Forall_forall. intros v Hv%list_elem_of_In. destruct (proj1 (in_stale cxn (ntoh32 v))) as (a&ids&x&v'&_&_&_&_&Hlt); [by exists v|].
    pose proof (bswap_bound 4 v') as Hv'. fold (ntoh32 v') in Hv'. change (256 ^ Z.of_nat 4) with (2 ^ 32) in Hv'. unfold BROADCAST_TARGET. lia. }
  pose proof (disconnects_handled E (ch_id (self s)) (stale cxn) (wld s) Hb) as Hh.
  destruct (ctrl_reads_commands E strerror HE _ cs s _ Hst Hcs Hcmds Hh) as (s'&Hread&Hst'&HQ&_).
  exists s'. split_and!; [done|done|]. intros i. rewrite <- in_stale. destruct (HQ i) as [H1 H2]. split.
  + intros (v&Hv&<-). apply H1. by apply in_map.
  + intros Hn. apply H2. intros (v&<-&Hv)%in_map_iff. apply Hn. by exists v.
Qed.

(** ** What is collected *)

Section Collected.
Context (sin_of : list Z -> sockaddr_in) (g : globals) (Hg : addrs_ok g).
Abbreviation conns := (BitcoinHandler.g_active_handlers g).

(** The address of a connection, as the program sees it. *)
Definition peer_key (h : handler) : sockaddr_in := sin_of (sockaddr_to_wire (remote_addr h)).

Definition key_at (i : Z) : option sockaddr_in := peer_key <$> conns !! i.

Context (P : sockaddr_in -> Prop) `{KeyOrder P} (Hkey : forall i a, key_at i = Some a -> P a).
Context (Hids : forall i, is_Some (conns !! i) -> 0 <= i < 2 ^ 32).

Definition info_at (i : Z) : list Z := match conns !! i with Some h => connection_info i h | None => [] end.

(** The ids of the connections to [a]. *)
Definition ids_to (a : sockaddr_in) (l : list Z) : list Z := filter (fun i => key_at i = Some a) l.

Lemma info_fields i h : conns !! i = Some h -> le_val (slice 0 4 (info_at i)) = hton32 i /\ sin_of (slice 4 WIRE_ADDR (info_at i)) = peer_key h.
Proof.
  intros Hi. destruct (Hg i h Hi) as [Hr Hl]. unfold info_at. rewrite Hi. unfold connection_info, peer_key. split.
  - change (le_bytes 4 (hton32 i) ++ ?r) with ([] ++ le_bytes 4 (hton32 i) ++ r).
    rewrite (slice_app_mid 0 4 [] (le_bytes 4 (hton32 i))) by (by rewrite ?zlen_le_bytes). apply le_val_bytes_small, (bswap_bound 4).
  - by rewrite (slice_app_mid 4 WIRE_ADDR (le_bytes 4 (hton32 i))) by (by rewrite ?zlen_le_bytes, ?zlen_sockaddr_to_wire).
Qed.

Lemma collect_ok l : forall cxn n,
  Forall (fun i => is_Some (conns !! i)) l -> am_ok P cxn ->
  exists cxn', ClientLib.each_record (collect sin_of) (map info_at l) n cxn = Ret tt cxn' /\ am_ok P cxn' /\
    (forall a, default [] (am_get a cxn') = default [] (am_get a cxn) ++ map hton32 (ids_to a l)) /\
    (length (concat (map snd cxn')) = length (concat (map snd cxn)) + length l)%nat.
Proof.
  induction l as [|i l IH]; intros cxn n HF Hok; cbn [map ClientLib.each_record].
  { exists cxn. split_and!; [done|done|intros a; by rewrite app_nil_r|simpl; lia]. }
  apply Forall_cons in HF as [[h Hi] HF]. destruct (info_fields i h Hi) as [Hid Hk].
  assert (key_at i = Some (peer_key h)) as Hka by (unfold key_at; by rewrite Hi).
  set (cxn1 := at_key [] (fun ids => ids ++ [hton32 i]) (peer_key h) cxn).
  assert (collect sin_of (info_at i) n cxn = Ret tt cxn1) as Hc by (unfold collect, modify; by rewrite Hid, Hk).
  destruct (at_key_ok P [] (fun ids => ids ++ [hton32 i]) (peer_key h) cxn) as [Hok1 Hget1]; [by eapply Hkey|done|].
  destruct (IH cxn1 (n + 1) HF Hok1) as (cxn'&Hr&Hok'&Hget'&Hlen'). exists cxn'. split_and!; [by run_step Hc|done| |].
  - intros a. rewrite Hget'. fold cxn1 in Hget1. rewrite Hget1. unfold ids_to at 2. rewrite filter_cons, Hka. fold (ids_to a l).
    destruct (decide (peer_key h = a)) as [->|Hne]; [rewrite decide_True by done; simpl; by rewrite <- app_assoc|by rewrite decide_False by congruence].
  - rewrite Hlen'. enough (length (concat (map snd cxn1)) = S (length (concat (map snd cxn))))%nat by (simpl; lia).
    unfold cxn1. clear. induction cxn as [|[b x] m IH]; cbn [at_key map concat snd]; [done|].
    destruct (sockaddr_cmp _ b); [done|]. destruct (sockaddr_cmp b _); cbn [map concat snd]; rewrite !length_app; simpl; lia.
Qed.

(** A connection is superseded when another one to its address is newer. *)
Lemma superseded_iff cxn i :
  am_ok P cxn -> (forall a, default [] (am_get a cxn) = map hton32 (ids_to a (ids conns))) ->
  superseded cxn i <-> exists h j h', conns !! i = Some h /\ conns !! j = Some h' /\ peer_key h' = peer_key h /\ i < j.
Proof.
  intros Hok Hget.
  assert (forall j, is_Some (conns !! j) -> ntoh32 (hton32 j) = j) as Hrt.
  { intros j Hj. unfold ntoh32, hton32. rewrite bswap_involutive. apply Z.mod_small. by apply Hids. }
  split.
  - intros (a&l&v&v'&Hin&Hv&Hv'&<-&Hlt). apply (am_get_in P) in Hin; [|done]. specialize (Hget a). rewrite Hin in Hget. simpl in Hget. subst l.
    apply in_map_iff in Hv as (x&<-&Hx), Hv' as (y&<-&Hy). apply list_elem_of_In, list_elem_of_filter in Hx as [Hxa Hx], Hy as [Hya Hy].
    apply in_ids in Hx, Hy. rewrite (Hrt x Hx) in *. rewrite (Hrt y Hy) in Hlt. destruct Hx as [h Hh], Hy as [h' Hh'].
    unfold key_at in *. rewrite Hh in Hxa. rewrite Hh' in Hya. exists h, y, h'. simpl in *. split_and!; [done|done|congruence|done].
  - intros (h&j&h'&Hi&Hj&Hk&Hlt). set (a := peer_key h) in *. destruct (am_get a cxn) as [l|] eqn:Ha.
    2:{ specialize (Hget a). rewrite Ha in Hget. exfalso. assert (In (hton32 i) (map hton32 (ids_to a (ids conns)))) as Hin; [|by rewrite <- Hget in Hin].
        apply in_map, list_elem_of_In, list_elem_of_filter. unfold key_at. rewrite Hi, in_ids. by split. }
    specialize (Hget a). rewrite Ha in Hget. simpl in Hget. exists a, l, (hton32 i), (hton32 j).
    assert (forall x y, conns !! x = Some y -> peer_key y = a -> In (hton32 x) l) as Hall.
    { intros x y Hx Hy. rewrite Hget. apply in_map, list_elem_of_In, list_elem_of_filter. unfold key_at. rewrite Hx, in_ids, <- Hy. by split. }
    rewrite !Hrt by eauto. split_and!; [by apply (am_get_in P)|by eapply Hall|by eapply Hall|done|done].
Qed.
End Collected.

Lemma length_stale cxn : (length (stale cxn) <= length (concat (map snd cxn)))%nat.
Proof.
  induction cxn as [|[a l] cxn IH]; [simpl; lia|]. change (stale ((a, l) :: cxn)) with (older l ++ stale cxn). cbn [map concat snd].
  rewrite !length_app. pose proof (length_filter (fun v => ntoh32 v < max_id l) l) as Hf. unfold older. lia.
Qed.

(** C13. kill_dupes leaves the newest connection of every address: it asks the
    connector for its connections, sends one disconnect command for every one
    whose address has a connection with a larger id, and when the connector has
    read the commands, in whatever segments, a connection is active exactly if
    it was and none to the same address is newer. The addresses may differ by
    less than 2^31, where addr_cmp is an order. *)
Theorem newest_left page E strerror sin_of base sock s :
  let g := wgl (wld s) in
  0 < page <= 2 ^ 62 -> 0 < BitcoinHandler.page E <= 2 ^ 62 -> at_start (self s) ->
  addrs_ok g -> (forall i, is_Some (active (wld s) !! i) -> 0 <= i < 2 ^ 32) -> (forall i a, key_at sin_of g i = Some a -> in_half base a) ->
  Z.of_nat (size (active (wld s))) < 2 ^ 26 -> (size (active (wld s)) < spare (wx sock))%nat ->
  avail (rx sock) = be_bytes 4 (CONNECTION_INFO * zlen (info_list g)) ++ connection_infos g ->
  exists r t sent, kill_dupes_run page sin_of ([], sock) = Ret r t /\ snd r = 0 /\ tx (snd t) = tx sock ++ command_bytes COMMAND_GET_CXN 0 [] ++ sent /\
    forall cs, Forall (fun c => 0 < zlen c) cs -> concat cs = sent ->
    exists s', ctrl_do_read E strerror (arrives cs s) = Ret tt s' /\
      forall i h, active (wld s') !! i = Some h <->
        active (wld s) !! i = Some h /\
        forall j h', active (wld s) !! j = Some h' -> peer_key sin_of h' = peer_key sin_of h -> j <= i.
Proof.
  intros g Hp HE Hst Hg Hids Hkey Hsz Hsp Hav.
  destruct (collect_ok sin_of g Hg (in_half base) Hkey (ids (active (wld s))) [] 0) as (cxn&Hc&Hok&Hget&Hlen).
  { apply Forall_forall. intros i. by rewrite in_ids. }
  { split; constructor. }
  assert (length (ids (active (wld s))) = size (active (wld s))) as Hl by apply length_ids. simpl in Hlen. rewrite Hl in Hlen.
  destruct (get_all_cxn_spare (collect sin_of) g [] cxn sock []) as (k1&Hr1&Ht1&_&Hs1); [done|done|lia|by rewrite app_nil_r|exact Hc|].
  assert (Forall (fun c => Forall is_raw (snd c)) cxn) as Hraw.
  { apply Forall_forall. intros [a l] Hin%list_elem_of_In. apply (am_get_in (in_half base)) in Hin; [|done]. specialize (Hget a). rewrite Hin in Hget. simpl in Hget.
    subst l. apply Forall_map, Forall_forall. intros i _. exact (bswap_bound 4 i). }
  pose proof (length_stale cxn) as Hstale. assert (zlen (stale cxn) < 2 ^ 64) as Hz by (unfold zlen; lia).
  destruct (kill_main_ok page cxn k1 0 Hp Hraw) as (k2&Hr2&Ht2); [lia|done|].
  eexists _, _, _. split_and!; [unfold kill_dupes_run; run_step Hr1; erewrite bind_ret by done; eapply zoom_ret; exact Hr2|done|..].
  { cbn [snd fst]. by rewrite Ht2, Ht1, <- app_assoc. }
  intros cs Hcs Hcat. destruct (stale_closed E strerror cxn s cs HE Hst Hcs Hcat) as (s'&Hread&_&Hact). exists s'. split; [done|].
  assert (forall i, superseded cxn i <-> exists h j h', active (wld s) !! i = Some h /\ active (wld s) !! j = Some h' /\ peer_key sin_of h' = peer_key sin_of h /\ i < j) as Hsup
    by (intros i; by apply (superseded_iff sin_of g (in_half base) Hids)).
  intros i h. destruct (Hact i) as [Hgone Hkept]. split.
  - intros Hi. assert (~ superseded cxn i) as Hn by (intros ?%Hgone; congruence). rewrite (Hkept Hn) in Hi. split; [done|].
    intros j h' Hj Hk. apply Z.nlt_ge. intros Hlt. apply Hn, Hsup. by exists h, j, h'.
  - intros [Hi Hnew]. rewrite Hkept; [done|]. rewrite Hsup. intros (h0&j&h'&Hi0&Hj&Hk&Hlt). assert (h0 = h) as -> by congruence.
    specialize (Hnew j h' Hj Hk). lia.
Qed.

(** The address of an IPv4 wire_addr. *)
Definition demo_sin_of (w : list Z) : sockaddr_in := SockaddrIn (le_val (slice 1 4 w)) (le_val (slice 17 2 w)).

(** Connections 3 and 8 go to the same address. *)
Definition demo_same (i : Z) : handler :=
  Handler (Reader (read_buffer_ctor 4096 24) (Sock [] [] [] 0)) write_buffer_ctor (le_bytes 2 AF_INET ++ zrep 126 1) (zrep 128 0)
    1000 RECV_HEADER ev_READ (EvIo (10 + i) ev_READ true) None 1000 None i.
Definition demo_dupes : cstate := CState demo_client true
  (World (Net (Globals {[ 3 := demo_same 3; 8 := demo_same 8 ]} [] 9 0 0 300000 [] []) ∅ [] []) ∅ [] ∅ 2 ∅ ∅ 1 1 [] [77]).
Definition demo_answer : sock :=
  Sock [RData (be_bytes 4 (CONNECTION_INFO * zlen (info_list (wgl (wld demo_dupes)))) ++ connection_infos (wgl (wld demo_dupes)))]
       [WErr EINTR; WAccept WHOLE; WAccept WHOLE; WAccept WHOLE] [] 0.

Lemma newest_left_witness :
  exists r t sent s', kill_dupes_run 4096 demo_sin_of ([], demo_answer) = Ret r t /\
    ctrl_do_read BitcoinPeer.demo_env (fun _ => []) (arrives [sent] demo_dupes) = Ret tt s' /\
    active (wld s') !! 3 = None /\ is_Some (active (wld s') !! 8).
Proof.
  destruct (newest_left 4096 BitcoinPeer.demo_env (fun _ => []) demo_sin_of 0 demo_answer demo_dupes) as (r&t&sent&Hr&_&Htx&Hrun).
  - lia.
  - vm_compute. split; congruence.
  - exact demo_at_start.
  - intros i h Hi. change (({[ 3 := demo_same 3; 8 := demo_same 8 ]} : gmap Z handler) !! i = Some h) in Hi.
    apply lookup_insert_Some in Hi as [[_ <-]|[_ Hi]]; [split; reflexivity|]. apply lookup_singleton_Some in Hi as [_ <-]. split; reflexivity.
  - intros i [h Hi]. change (({[ 3 := demo_same 3; 8 := demo_same 8 ]} : gmap Z handler) !! i = Some h) in Hi.
    apply lookup_insert_Some in Hi as [[<- _]|[_ Hi]]; [lia|]. apply lookup_singleton_Some in Hi as [<- _]. lia.
  - intros i a. unfold key_at. destruct (_ !! i) as [h|] eqn:Hi; [|discriminate]. intros [= <-].
    change (({[ 3 := demo_same 3; 8 := demo_same 8 ]} : gmap Z handler) !! i = Some h) in Hi.
    apply lookup_insert_Some in Hi as [[_ <-]|[_ Hi]]; [repeat split; vm_compute; congruence|].
    apply lookup_singleton_Some in Hi as [_ <-]. repeat split; vm_compute; congruence.
  - vm_compute. reflexivity.
  - vm_compute. lia.
  - vm_compute. reflexivity.
  - assert (zlen sent = 19) as Hl.
    { apply (f_equal (drop 15)) in Htx. revert Hr Htx. vm_compute (kill_dupes_run 4096 demo_sin_of ([], demo_answer)).
      intros [= <- <-] Htx. vm_compute in Htx. rewrite <- Htx. reflexivity. }
    destruct (Hrun [sent]) as (s'&Hread&Hact); [constructor; [lia|constructor]|cbn [concat]; apply app_nil_r|].
    exists r, t, sent, s'. split; [exact Hr|]. split; [exact Hread|]. split.
    + destruct (active (wld s') !! 3) as [h|] eqn:H3; [|done]. apply Hact in H3 as [H3 Hnew].
      assert (8 <= 3); [|lia]. apply (Hnew 8 (demo_same 8)); [reflexivity|]. injection H3 as <-. vm_compute. reflexivity.
    + exists (demo_same 8). apply Hact. split; [reflexivity|]. intros j h' Hj _.
      change (({[ 3 := demo_same 3; 8 := demo_same 8 ]} : gmap Z handler) !! j = Some h') in Hj.
      apply lookup_insert_Some in Hj as [[<- _]|[_ Hj]]; [lia|]. apply lookup_singleton_Some in Hj as [<- _]. lia.
Defined.
