(* ===== verification/Descriptors.v ===== *)
(** * Descriptors: the socket calls of the set-up

    shared/includes/netwrap.hpp and shared/src/network.cpp on a kernel with a
    table of descriptors of a limited size, the names of sockets in the file
    system, and a script of what the calls will answer. *)

From S2P Require Import Prelude.
From S2P Require Import Bytes.
From S2P Require Import Net.

Definition EBADF : Z := 9.
Definition EMFILE : Z := 24.
Definition EADDRINUSE : Z := 98.
Definition AF_UNIX : Z := 1.

(** ** The kernel *)

(** What is known of a socket: its domain, its flags, the address it is bound
    to, its backlog when it listens, the address it is connected to. *)
Record ksocket := KSocket {
  ks_domain : Z;
  ks_nonblock : bool;
  ks_reuse : bool;
  ks_bound : option (list Z);
  ks_backlog : option Z;
  ks_peer : option (list Z) }.

(** The open descriptors and their limit (RLIMIT_NOFILE), the socket files and
    the directories that exist, the answers of the next calls ([Some e] is a
    failure; a script that has run out grants), and errno. *)
Record kernel := Kernel {
  fds : gmap Z ksocket;
  nofile : Z;
  sock_files : gset (list Z);
  dirs : gset (list Z);
  answers : list (option Z);
  kerrno : Z }.

Definition with_fds m k := Kernel m (nofile k) (sock_files k) (dirs k) (answers k) (kerrno k).
Definition with_files s k := Kernel (fds k) (nofile k) s (dirs k) (answers k) (kerrno k).
Definition with_dirs s k := Kernel (fds k) (nofile k) (sock_files k) s (answers k) (kerrno k).
Definition with_kerrno e k := Kernel (fds k) (nofile k) (sock_files k) (dirs k) (answers k) e.

(** The lowest descriptor that is free. *)
Fixpoint lowest_from (fuel : nat) (i : Z) (m : gmap Z ksocket) : Z :=
  match fuel with
  | O => i
  | S fuel => if bool_decide (is_Some (m !! i)) then lowest_from fuel (i + 1) m else i
  end.
Definition lowest (m : gmap Z ksocket) : Z := lowest_from (size m) 0 m.

Definition answer : prog kernel (option Z) := fun k =>
  match answers k with
  | [] => Ret None k
  | a :: r => Ret a (Kernel (fds k) (nofile k) (sock_files k) (dirs k) r (kerrno k))
  end.

Definition fails (e : Z) : prog kernel Z := do! modify (with_kerrno e) in ret (-1).

Definition sys_socket (domain : Z) : prog kernel Z :=
  let! a := answer in
  match a with
  | Some e => fails e
  | None =>
      let! k := get in
      let f := lowest (fds k) in
      if nofile k <=? f then fails EMFILE
      else
        do! modify (with_fds (<[f := KSocket domain false false None None None]> (fds k))) in
        ret f
  end.

(** A call on the open socket [f]. *)
Definition on_socket (f : Z) (c : ksocket -> prog kernel Z) : prog kernel Z :=
  let! k := get in
  match fds k !! f with
  | None => fails EBADF
  | Some s => c s
  end.

Definition set_socket (f : Z) (s : ksocket) : prog kernel unit := modify (fun k => with_fds (<[f := s]> (fds k)) k).

(** fcntl(f, F_SETFL, O_NONBLOCK) and setsockopt(f, SO_REUSEADDR); the callers
    do not look at the result. *)
Definition sys_nonblock (f : Z) : prog kernel Z :=
  on_socket f (fun s => do! set_socket f (KSocket (ks_domain s) true (ks_reuse s) (ks_bound s) (ks_backlog s) (ks_peer s)) in ret 0).
Definition sys_reuseaddr (f : Z) : prog kernel Z :=
  on_socket f (fun s => do! set_socket f (KSocket (ks_domain s) (ks_nonblock s) true (ks_bound s) (ks_backlog s) (ks_peer s)) in ret 0).

(** bind: a name in the file system must not exist yet. *)
Definition sys_bind (f : Z) (addr : list Z) : prog kernel Z :=
  on_socket f (fun s =>
    let! k := get in
    let unix := ks_domain s =? AF_UNIX in
    let! a := answer in
    match a with
    | Some e => fails e
    | None =>
        if unix && bool_decide (zdrop 2 addr ∈ sock_files k) then fails EADDRINUSE
        else
          do! (if unix then modify (fun k => with_files ({[zdrop 2 addr]} ∪ sock_files k) k) else ret tt) in
          do! set_socket f (KSocket (ks_domain s) (ks_nonblock s) (ks_reuse s) (Some addr) (ks_backlog s) (ks_peer s)) in
          ret 0
    end).

Definition sys_listen (f backlog : Z) : prog kernel Z :=
  on_socket f (fun s =>
    let! a := answer in
    match a with
    | Some e => fails e
    | None =>
        do! set_socket f (KSocket (ks_domain s) (ks_nonblock s) (ks_reuse s) (ks_bound s) (Some backlog) (ks_peer s)) in
        ret 0
    end).

Definition sys_connect (f : Z) (addr : list Z) : prog kernel Z :=
  on_socket f (fun s =>
    let! a := answer in
    match a with
    | Some e => fails e
    | None =>
        do! set_socket f (KSocket (ks_domain s) (ks_nonblock s) (ks_reuse s) (ks_bound s) (ks_backlog s) (Some addr)) in
        ret 0
    end).

(** close: a descriptor that is not open is an error, which no caller looks at. *)
Definition sys_close (f : Z) : prog kernel Z :=
  on_socket f (fun _ => do! modify (fun k => with_fds (delete f (fds k)) k) in ret 0).

Definition sys_unlink (path : list Z) : prog kernel unit := modify (fun k => with_files (sock_files k ∖ {[path]}) k).
Definition sys_mkdir (path : list Z) : prog kernel unit := modify (fun k => with_dirs ({[path]} ∪ dirs k) k).

(** ** netwrap.hpp *)

(** do_error: what() is [str], a colon and strerror(err). *)
Definition do_error {S} (is_error : bool) (str : string) (err : Z) : prog S unit :=
  if is_error then raise (NetworkError str err) else ret tt.

Definition wrapped_call (str : string) (c : prog kernel Z) : prog kernel Z :=
  let! rv := c in
  let! k := get in
  do! do_error (rv =? -1) str (kerrno k) in
  ret rv.

Definition Socket (domain : Z) : prog kernel Z := wrapped_call "socket failure" (sys_socket domain).
Definition Bind (f : Z) (addr : list Z) : prog kernel Z := wrapped_call "bind failure" (sys_bind f addr).
Definition Listen (f backlog : Z) : prog kernel Z := wrapped_call "listen failure" (sys_listen f backlog).
Definition Connect (f : Z) (addr : list Z) : prog kernel Z := wrapped_call "connect failure" (sys_connect f addr).

(** ** network.cpp *)

(** sizeof(sun_path) *)
Definition SUN_PATH : Z := 108.

(** The descriptor, and the first 2 + strlen(sun_path) bytes of the address:
    the part that the callers pass on. strcpy does not know the size of
    sun_path. *)
Definition unix_sock_setup (path : list Z) (nonblocking : bool) : prog kernel (Z * list Z) :=
  if SUN_PATH <? zlen (c_string path) + 1 then crash OutOfBounds
  else
    let addr := le_bytes 2 AF_UNIX ++ c_string path in
    let! sock := Socket AF_UNIX in
    do! (if nonblocking then sys_nonblock sock else ret 0) in
    ret (sock, addr).

Definition unix_sock_server (path : list Z) (listen : Z) (nonblocking : bool) : prog kernel Z :=
  do! sys_unlink (c_string path) in
  let! sa := unix_sock_setup path nonblocking in
  do! Bind (fst sa) (snd sa) in
  do! Listen (fst sa) listen in
  ret (fst sa).

Definition unix_sock_client (path : list Z) (nonblocking : bool) : prog kernel Z :=
  let! sa := unix_sock_setup path nonblocking in
  do! Connect (fst sa) (snd sa) in
  ret (fst sa).

(** ** The table of descriptors *)

Lemma map_size_bounded {A} (m : gmap Z A) (n : nat) :
  (forall f, is_Some (m !! f) -> 0 <= f < Z.of_nat n) -> (size m <= n)%nat.
Proof.
  intros Hm. rewrite <- size_dom.
  transitivity (size (list_to_set (seqZ 0 (Z.of_nat n)) : gset Z)).
  - apply subseteq_size. intros f Hf%elem_of_dom%Hm. apply elem_of_list_to_set, elem_of_seqZ. lia.
  - rewrite size_list_to_set by apply NoDup_seqZ. rewrite length_seqZ. lia.
Qed.

Lemma lowest_from_spec fuel i m :
  let j := lowest_from fuel i m in
  i <= j <= i + Z.of_nat fuel /\ (forall x, i <= x < j -> is_Some (m !! x)) /\ (j < i + Z.of_nat fuel -> m !! j = None).
Proof.
  revert i. induction fuel as [|fuel IH]; intros i; simpl; [split_and!; intros; lia|].
  case_bool_decide as Hi.
  - destruct (IH (i + 1)) as (Hj&Ha&Hn). split; [lia|]. split; [|intros; apply Hn; lia].
    intros x Hx. destruct (decide (x = i)) as [->|]; [done|]. apply Ha. lia.
  - split; [lia|]. split; [intros; lia|]. intros _. by apply eq_None_not_Some.
Qed.

Lemma lowest_spec m : 0 <= lowest m <= Z.of_nat (size m) /\ m !! lowest m = None.
Proof.
  unfold lowest. destruct (lowest_from_spec (size m) 0 m) as (Hj&Ha&Hn). set (j := lowest_from _ _ _) in *. split; [lia|].
  destruct (decide (j < Z.of_nat (size m))) as [Hlt|Hge]; [apply Hn; lia|].
  destruct (m !! j) as [s|] eqn:Hs; [|done]. exfalso.
  assert (list_to_set (seqZ 0 (1 + Z.of_nat (size m))) ⊆ dom m) as Hsub.
  { intros f Hf%elem_of_list_to_set%elem_of_seqZ. apply elem_of_dom. destruct (decide (f = j)) as [->|]; [by eexists|]. apply Ha. lia. }
  apply subseteq_size in Hsub. rewrite size_list_to_set, length_seqZ, size_dom in Hsub by apply NoDup_seqZ. lia.
Qed.

(** All descriptors are below the limit. *)
Definition kernel_ok (k : kernel) : Prop := forall f, is_Some (fds k !! f) -> 0 <= f < nofile k.

(** How many descriptors can still be opened. *)
Definition room (k : kernel) : Z := nofile k - Z.of_nat (size (fds k)).

Lemma room_lowest k : kernel_ok k -> 0 <= nofile k -> (nofile k <=? lowest (fds k)) = (room k <=? 0).
Proof.
  intros Hk Hn. destruct (lowest_spec (fds k)) as [Hl Hf]. unfold room. destruct (Z.leb_spec (nofile k) (lowest (fds k))).
  - symmetry. apply Z.leb_le. lia.
  - symmetry. apply Z.leb_gt. enough (size (<[lowest (fds k) := KSocket 0 false false None None None]> (fds k)) <= Z.to_nat (nofile k))%nat as Hs.
    { rewrite map_size_insert_None in Hs by done. lia. }
    apply map_size_bounded. intros f. destruct (decide (f = lowest (fds k))) as [->|]; [lia|]. rewrite lookup_insert_ne by done. intros ?%Hk. lia.
Qed.

(** The kernel after a socket [s] was opened. *)
Definition opened (s : ksocket) (k : kernel) : kernel := with_fds (<[lowest (fds k) := s]> (fds k)) k.

Lemma opened_ok s k : kernel_ok k -> 0 < room k -> kernel_ok (opened s k) /\ room (opened s k) = room k - 1 /\ nofile (opened s k) = nofile k.
Proof.
  intros Hk Hr. unfold room in *. destruct (lowest_spec (fds k)) as [Hl Hf]. split_and!; [|simpl; rewrite map_size_insert_None by done; lia|done].
  intros f. simpl. destruct (decide (f = lowest (fds k))) as [->|]; [lia|]. rewrite lookup_insert_ne by done. apply Hk.
Qed.

(** The next call is granted, or fails with [e]. *)
Definition granted (l l' : list (option Z)) : Prop := l = None :: l' \/ (l = [] /\ l' = []).

Definition with_answers l k := Kernel (fds k) (nofile k) (sock_files k) (dirs k) l (kerrno k).

Lemma answer_granted k l : granted (answers k) l -> answer k = Ret None (with_answers l k).
Proof. destruct k. unfold granted, answer, with_answers. simpl. by intros [->|[-> ->]]. Qed.

Lemma answer_fails k e l : answers k = Some e :: l -> answer k = Ret (Some e) (with_answers l k).
Proof. unfold answer, with_answers. by intros ->. Qed.

Lemma wrapped_ok str c k v k' : c k = Ret v k' -> v <> -1 -> wrapped_call str c k = Ret v k'.
Proof. intros Hc Hv. unfold wrapped_call. run_step Hc. erewrite bind_ret by done. by destruct (Z.eqb_spec v (-1)). Qed.

Lemma wrapped_fails str c k k' : c k = Ret (-1) k' -> wrapped_call str c k = Raise (NetworkError str (kerrno k')) k'.
Proof. intros Hc. unfold wrapped_call. by run_step Hc. Qed.

Lemma Socket_ok domain k l :
  kernel_ok k -> 0 < room k -> granted (answers k) l ->
  Socket domain k = Ret (lowest (fds k)) (with_answers l (opened (KSocket domain false false None None None) k)).
Proof.
  intros Hk Hr Hg. assert (0 <= nofile k) by (unfold room in Hr; lia). destruct (lowest_spec (fds k)) as [Hl _].
  apply wrapped_ok; [|lia]. unfold sys_socket. erewrite bind_ret by (by apply answer_granted). cbv beta iota. erewrite bind_ret by done. simpl.
  rewrite room_lowest by done. by destruct (Z.leb_spec (room k) 0); [lia|].
Qed.

(** Without room, no answer helps. *)
Lemma Socket_full domain k :
  kernel_ok k -> 0 <= nofile k -> room k <= 0 ->
  exists e k', Socket domain k = Raise (NetworkError "socket failure" e) k' /\ fds k' = fds k /\ nofile k' = nofile k.
Proof.
  intros Hk Hn Hr. unfold Socket.
  enough (exists k', sys_socket domain k = Ret (-1) k' /\ fds k' = fds k /\ nofile k' = nofile k) as (k'&Hc&?&?)
    by (eexists _, k'; split; [by apply wrapped_fails|done]).
  apply Z.leb_le in Hr. rewrite <- room_lowest in Hr by done. unfold sys_socket, bind, answer.
  destruct (answers k) as [|[e|] l]; simpl; rewrite ?Hr; by eexists.
Qed.

(** ** Client and server sockets *)

Definition path_ok (path : list Z) : bool := zlen (c_string path) <? SUN_PATH.
Definition unix_addr (path : list Z) : list Z := le_bytes 2 AF_UNIX ++ c_string path.

Lemma on_socket_last f s c k : fds k !! f = Some s -> on_socket f c k = c s k.
Proof. intros Hf. unfold on_socket. erewrite bind_ret by done. by rewrite Hf. Qed.

Lemma opened_last s k : fds (opened s k) !! lowest (fds k) = Some s.
Proof. unfold opened. simpl. by rewrite lookup_insert_eq. Qed.

Lemma unix_sock_setup_ok path nb k l :
  path_ok path = true -> kernel_ok k -> 0 < room k -> granted (answers k) l ->
  unix_sock_setup path nb k = Ret (lowest (fds k), unix_addr path) (with_answers l (opened (KSocket AF_UNIX nb false None None None) k)).
Proof.
  unfold path_ok. intros Hp%Z.ltb_lt Hk Hr Hg. unfold unix_sock_setup. destruct (Z.ltb_spec SUN_PATH (zlen (c_string path) + 1)); [lia|].
  erewrite bind_ret by (by apply Socket_ok). destruct nb; [|done].
  unfold sys_nonblock. erewrite bind_ret; [|erewrite on_socket_last by apply opened_last; reflexivity].
  unfold ret, set_socket, with_answers, opened, with_fds. simpl. by rewrite insert_insert_eq.
Qed.

(** A refused connection: the exception leaves the descriptor open. *)
Lemma unix_sock_client_refused path nb k l e l' :
  path_ok path = true -> kernel_ok k -> 0 < room k -> granted (answers k) l -> l = Some e :: l' ->
  unix_sock_client path nb k =
    Raise (NetworkError "connect failure" e) (with_kerrno e (with_answers l' (opened (KSocket AF_UNIX nb false None None None) k))).
Proof.
  intros Hp Hk Hr Hg ->. unfold unix_sock_client. erewrite bind_ret by (by apply unix_sock_setup_ok). apply bind_raise.
  refine (wrapped_fails "connect failure" _ _ (with_kerrno e _) _). unfold sys_connect.
  erewrite on_socket_last by apply opened_last. by erewrite bind_ret by (by apply answer_fails).
Qed.

Lemma unix_sock_client_ok path nb k l l' :
  path_ok path = true -> kernel_ok k -> 0 < room k -> granted (answers k) l -> granted l l' ->
  unix_sock_client path nb k =
    Ret (lowest (fds k)) (with_answers l' (opened (KSocket AF_UNIX nb false None None (Some (unix_addr path))) k)).
Proof.
  intros Hp Hk Hr Hg Hg'. unfold unix_sock_client. erewrite bind_ret by (by apply unix_sock_setup_ok).
  erewrite bind_ret; [|apply (wrapped_ok _ _ _ 0); [|done]; unfold sys_connect; erewrite on_socket_last by apply opened_last;
    erewrite bind_ret by (by apply answer_granted); reflexivity].
  unfold ret, with_answers, opened, with_fds. simpl. by rewrite insert_insert_eq.
Qed.

Lemma unix_sock_client_full path nb k :
  path_ok path = true -> kernel_ok k -> 0 <= nofile k -> room k <= 0 ->
  exists e k', unix_sock_client path nb k = Raise (NetworkError "socket failure" e) k' /\ fds k' = fds k /\ nofile k' = nofile k.
Proof.
  unfold path_ok. intros Hp%Z.ltb_lt Hk Hn Hr. unfold unix_sock_client, unix_sock_setup. destruct (Z.ltb_spec SUN_PATH (zlen (c_string path) + 1)); [lia|].
  destruct (Socket_full AF_UNIX k Hk Hn Hr) as (e&k'&Hs&Hf). exists e, k'. split; [|done]. by apply bind_raise, bind_raise.
Qed.

(** A server that restarts: the socket file of the last run is in nobody's way. *)
Lemma unix_sock_server_ok path n nb k l1 l2 l3 :
  path_ok path = true -> kernel_ok k -> 0 < room k -> granted (answers k) l1 -> granted l1 l2 -> granted l2 l3 ->
  unix_sock_server path n nb k =
    Ret (lowest (fds k)) (with_answers l3 (with_files ({[c_string path]} ∪ sock_files k)
      (opened (KSocket AF_UNIX nb false (Some (unix_addr path)) (Some n) None) k))).
Proof.
  intros Hp Hk Hr Hg Hg1 Hg2. unfold unix_sock_server, sys_unlink. erewrite bind_ret by done.
  erewrite bind_ret by (by apply unix_sock_setup_ok). cbn [fst snd].
  erewrite bind_ret; [|apply (wrapped_ok _ _ _ 0); [|done]; unfold sys_bind; erewrite on_socket_last by apply opened_last;
    erewrite bind_ret by done; erewrite bind_ret by (by apply answer_granted); unfold unix_addr;
    rewrite zdrop_app_exact by (by rewrite zlen_le_bytes); rewrite bool_decide_false by (simpl; set_solver); reflexivity].
  erewrite bind_ret; [|apply (wrapped_ok _ _ _ 0); [|done]; unfold sys_listen; erewrite on_socket_last by (simpl; by rewrite lookup_insert_eq);
    erewrite bind_ret by (by apply answer_granted); reflexivity].
  unfold ret, with_answers, with_files, opened, with_fds. simpl. f_equal. rewrite !insert_insert_eq. f_equal.
  apply set_eq. intros x. destruct (decide (x = c_string path)); set_solver.
Qed.
