(* ===== verification/Config.v ===== *)
(** * Start-up: permissions and configuration

    shared/src/config.cpp: drop_perms, load_config and startup_setup, which every
    program runs first. The ids of the process are those of Linux: the real,
    effective and saved user and group ids and the supplementary groups. *)

From S2P Require Import Prelude.
From S2P Require Import Bytes.
From S2P Require Import Net.
From S2P Require Import BitcoinHandler.
From S2P Require Import Logger.

(** ** The process *)

(** The ids, the umask, errno, and what the kernel will answer to the next
    setuid and setgid calls: [Some e] a refusal for want of resources (EAGAIN),
    [None] or the end of the list none. *)
Record creds := Creds {
  c_ruid : Z; c_euid : Z; c_suid : Z;
  c_rgid : Z; c_egid : Z; c_sgid : Z;
  c_groups : list Z;
  c_umask : Z;
  c_errno : Z;
  c_refusals : list (option Z) }.

Definition EPERM : Z := 1.

Definition with_uids (r e s : Z) (c : creds) : creds := Creds r e s (c_rgid c) (c_egid c) (c_sgid c) (c_groups c) (c_umask c) (c_errno c) (c_refusals c).
Definition with_gids (r e s : Z) (c : creds) : creds := Creds (c_ruid c) (c_euid c) (c_suid c) r e s (c_groups c) (c_umask c) (c_errno c) (c_refusals c).
Definition with_umask (m : Z) (c : creds) : creds := Creds (c_ruid c) (c_euid c) (c_suid c) (c_rgid c) (c_egid c) (c_sgid c) (c_groups c) m (c_errno c) (c_refusals c).
Definition with_cerrno (e : Z) (c : creds) : creds := Creds (c_ruid c) (c_euid c) (c_suid c) (c_rgid c) (c_egid c) (c_sgid c) (c_groups c) (c_umask c) e (c_refusals c).
Definition with_refusals (l : list (option Z)) (c : creds) : creds := Creds (c_ruid c) (c_euid c) (c_suid c) (c_rgid c) (c_egid c) (c_sgid c) (c_groups c) (c_umask c) (c_errno c) l.

(** A call the kernel may refuse. *)
Definition unless_refused (call : creds -> creds * Z) : prog creds Z := fun c =>
  match c_refusals c with
  | Some e :: l => Ret (-1) (with_cerrno e (with_refusals l c))
  | l => let '(c, r) := call (with_refusals (tail l) c) in Ret r c
  end.

(** setgid and setuid: with effective uid 0 all three ids are set; without, only
    the effective one, to the real or the saved one. The supplementary groups
    stay. *)
Definition sys_setgid (g : Z) : prog creds Z := unless_refused (fun c =>
  if c_euid c =? 0 then (with_gids g g g c, 0)
  else if (g =? c_rgid c) || (g =? c_sgid c) then (with_gids (c_rgid c) g (c_sgid c) c, 0)
  else (with_cerrno EPERM c, -1)).
Definition sys_setuid (u : Z) : prog creds Z := unless_refused (fun c =>
  if c_euid c =? 0 then (with_uids u u u c, 0)
  else if (u =? c_ruid c) || (u =? c_suid c) then (with_uids (c_ruid c) u (c_suid c) c, 0)
  else (with_cerrno EPERM c, -1)).

(** The process while it starts: its rights, and what it wrote to cerr. *)
Record startup := Startup { st_creds : creds; st_cerr : list Z }.
Definition st_print (t : list Z) : prog startup unit := modify (fun s => Startup (st_creds s) (st_cerr s ++ t)).
Definition on_creds {A} (c : prog creds A) : prog startup A := zoom st_creds (fun c s => Startup c (st_cerr s)) c.

Section Config.
(** getpwnam and getgrnam, strerror. *)
Context (pw_uid gr_gid : list Z -> option Z) (strerror : Z -> list Z).

(** What is printed when setgid or setuid fails, and the result. *)
Definition could_not (what : string) : prog startup Z :=
  let! s := get in
  do! st_print (text "Could not " ++ text what ++ text ": " ++ strerror (c_errno (st_creds s)) ++ [10]) in
  ret 8.

Definition drop_perms (username group : list Z) : prog startup Z :=
  match pw_uid username with
  | None => do! st_print (text "Username does not exist" ++ [10]) in ret 4
  | Some uid =>
      match gr_gid group with
      | None => do! st_print (text "Group does not exist" ++ [10]) in ret 4
      | Some gid =>
          let! s := get in
          let! g := (if negb (c_rgid (st_creds s) =? gid) then on_creds (sys_setgid gid) else ret 0) in
          if g <? 0 then could_not "setgid"
          else
            let! s := get in
            let! u := (if negb (c_ruid (st_creds s) =? uid) then on_creds (sys_setuid uid) else ret 0) in
            if u <? 0 then could_not "setuid"
            else
              do! on_creds (modify (with_umask 2)) in
              ret 0
      end
  end.

(** What libconfig's readFile does: the settings are read, or one of its
    exceptions. *)
Inductive read_file :=
  | FileRead
  | FileIOException (what : list Z)
  | ParseException (error file : list Z) (line : Z).

(** load_config: the exception goes on to the caller. *)
Definition load_config (file : read_file) : prog startup unit :=
  match file with
  | FileRead => ret tt
  | FileIOException what =>
      do! st_print (text "Error reading file: " ++ what ++ [10]) in
      raise (RuntimeError "FileIOException")
  | ParseException error name line =>
      do! st_print (text "Parsing Error: " ++ error ++ text " on " ++ name ++ text ":" ++ number line ++ [10]) in
      raise (RuntimeError "ParseException")
  end.

(** startup_setup, from the parsed command line on: whether --help was given,
    what reading the file of --configfile does, the user and the group it gives,
    --daemonize, and the errno if daemon() fails. *)
Definition startup_setup (help : bool) (file : read_file) (username group : list Z) (daemonize : Z)
    (daemon_fails : option Z) (do_perms : bool) : prog startup Z :=
  if help then ret 1
  else
    do! load_config file in
    let! err := (if do_perms then drop_perms username group else ret 0) in
    if negb (err =? 0) then ret err
    else if daemonize =? 1 then
      match daemon_fails with
      | Some e => do! st_print (text "Failed to daemonize: " ++ strerror e ++ [10]) in ret 2
      | None => ret 0
      end
    else ret 0.

(** ** Properties *)

(** A process that root has started: nothing is left of another id. *)
Definition root_started (c : creds) : Prop :=
  c_ruid c = 0 /\ c_euid c = 0 /\ c_suid c = 0 /\ c_egid c = c_rgid c /\ c_sgid c = c_rgid c.

(** All ids are those of the user and the group, and the groups those of before. *)
Definition became (u g : Z) (c c' : creds) : Prop :=
  c_ruid c' = u /\ c_euid c' = u /\ c_suid c' = u /\ c_rgid c' = g /\ c_egid c' = g /\ c_sgid c' = g /\ c_groups c' = c_groups c /\ c_umask c' = 2.

(** The ids and groups are those of before, but for the group ids if [g] is given. *)
Definition still_root (g : option Z) (c c' : creds) : Prop :=
  c_ruid c' = 0 /\ c_euid c' = 0 /\ c_suid c' = 0 /\ c_groups c' = c_groups c /\ c_umask c' = c_umask c /\
  c_rgid c' = default (c_rgid c) g /\ c_egid c' = default (c_egid c) g /\ c_sgid c' = default (c_sgid c) g.

(** What the kernel answers to the setgid call, if there is one, and to setuid. *)
Definition answers_of (g : Z) (c : creds) : option Z * option Z :=
  let at_ k := default None (c_refusals c !! k) in
  if c_rgid c =? g then (None, at_ 0%nat) else (at_ 0%nat, at_ 1%nat).

(** drop_perms of a process that root has started, on every branch. *)
Lemma drop_perms_root username group u g s :
  pw_uid username = Some u -> gr_gid group = Some g -> u <> 0 -> root_started (st_creds s) ->
  exists s', match answers_of g (st_creds s) with
  | (None, None) => drop_perms username group s = Ret 0 s' /\ became u g (st_creds s) (st_creds s') /\ st_cerr s' = st_cerr s
  | (Some e, _) => drop_perms username group s = Ret 8 s' /\ still_root None (st_creds s) (st_creds s') /\
      st_cerr s' = st_cerr s ++ text "Could not setgid: " ++ strerror e ++ [10]
  | (None, Some e) => drop_perms username group s = Ret 8 s' /\ still_root (Some g) (st_creds s) (st_creds s') /\
      st_cerr s' = st_cerr s ++ text "Could not setuid: " ++ strerror e ++ [10]
  end.
Proof.
  intros Hu Hg Hn. destruct s as [[ru eu su rg eg sg gr um er l] o]. unfold root_started. cbn [st_creds c_ruid c_euid c_suid c_rgid c_egid c_sgid].
  intros (->&->&->&->&->). unfold drop_perms, answers_of. rewrite Hu, Hg. cbn [c_rgid c_refusals].
  unfold bind, get, ret. cbn [st_creds c_rgid].
  destruct (Z.eqb_spec rg g) as [->|Hne]; cbn [negb]; [destruct l as [|[e|] l]|destruct l as [|[e|] [|[e'|] l]]]; 
    destruct u; try done; eexists; cbn; by split_and!.
Qed.

(** C19. Giving up root. A process that root has started (all user ids 0, one
    group id) gives it up for a user other than root: when both names exist and
    the kernel grants the calls, drop_perms returns 0, the real, effective and
    saved ids are those of the two names, the umask is 2, and no setuid gets root
    back; the supplementary groups are still those it was started with. When a
    name is missing it returns 4, when a call is refused 8, with a message, and
    the process is still root, in the second case with the new group. But a
    set-uid program that the user starts himself keeps its effective uid 0 and
    is told 0. *)
Theorem drop_perms_exact username group s :
  (pw_uid username = None \/ gr_gid group = None ->
     exists s', drop_perms username group s = Ret 4 s' /\ st_creds s' = st_creds s /\ st_cerr s' <> st_cerr s) /\
  (forall u g, pw_uid username = Some u -> gr_gid group = Some g -> u <> 0 -> root_started (st_creds s) ->
     exists s', match answers_of g (st_creds s) with
     | (None, None) => drop_perms username group s = Ret 0 s' /\ became u g (st_creds s) (st_creds s') /\ st_cerr s' = st_cerr s /\
         forall c', exists c'', sys_setuid 0 (with_refusals c' (st_creds s')) = Ret (-1) c'' /\ became u g (st_creds s) c''
     | (Some e, _) => drop_perms username group s = Ret 8 s' /\ still_root None (st_creds s) (st_creds s') /\
         st_cerr s' = st_cerr s ++ text "Could not setgid: " ++ strerror e ++ [10]
     | (None, Some e) => drop_perms username group s = Ret 8 s' /\ still_root (Some g) (st_creds s) (st_creds s') /\
         st_cerr s' = st_cerr s ++ text "Could not setuid: " ++ strerror e ++ [10]
     end) /\
  (pw_uid username = Some (c_ruid (st_creds s)) -> gr_gid group = Some (c_rgid (st_creds s)) -> c_euid (st_creds s) = 0 ->
     exists s', drop_perms username group s = Ret 0 s' /\ c_euid (st_creds s') = 0).
Proof.
  split_and!.
  - intros [E|E]; unfold drop_perms; rewrite E; [|destruct (pw_uid username)]; (eexists; split; [reflexivity|]; split; [reflexivity|]);
      cbn; intros Hx%(f_equal length); rewrite length_app in Hx; simpl in Hx; lia.
  - intros u g Hu Hg Hn Hr. destruct (drop_perms_root username group u g s Hu Hg Hn Hr) as (s'&Hd). exists s'.
    destruct (answers_of g (st_creds s)) as [[e|] [e'|]]; try done. destruct Hd as (Hd&Hb&Hc). split_and!; [done..|].
    intros l. destruct s' as [[ru eu su rg eg sg gr um er l0] o]. unfold became in *. cbn [st_creds c_ruid c_euid c_suid c_rgid c_egid c_sgid c_groups c_umask] in Hb.
    destruct Hb as (->&->&->&?&?&?&?&?). assert ((u =? 0) = false) as E1 by (by apply Z.eqb_neq). assert ((0 =? u) = false) as E0 by (by apply Z.eqb_neq; congruence).
    destruct l as [|[e|] l]; eexists; unfold sys_setuid, unless_refused; cbn -[Z.eqb]; rewrite ?E1, ?E0; cbn; by split_and!.
  - intros Hu Hg He. destruct s as [c o]. unfold drop_perms. rewrite Hu, Hg. unfold bind, get, ret. cbn [st_creds]. rewrite !Z.eqb_refl. cbn -[Z.eqb]. rewrite Z.eqb_refl. cbn.
    eexists. split; [reflexivity|exact He].
Qed.

(** No program of root starts with rights it should not have: startup_setup that
    is asked to drop them returns 0, or 2 when only daemon() failed, with the ids
    of the configured user and group; otherwise main ends. *)
Theorem startup_drops_root file username group u g daemonize fails s :
  pw_uid username = Some u -> gr_gid group = Some g -> u <> 0 -> root_started (st_creds s) ->
  match startup_setup false file username group daemonize fails true s with
  | Ret r s' => file = FileRead /\ (r = 0 \/ r = 2 -> became u g (st_creds s) (st_creds s'))
  | Raise _ s' => file <> FileRead /\ st_creds s' = st_creds s
  | Fault _ => False
  end.
Proof.
  intros Hu Hg Hn Hr. unfold startup_setup. destruct file as [|what|e n l]; [|by split..]. erewrite bind_ret by reflexivity.
  destruct (drop_perms_root username group u g s Hu Hg Hn Hr) as (s'&Hd). unfold bind.
  destruct (answers_of g (st_creds s)) as [[e|] [e'|]]; destruct Hd as (Hd&Hb&_); rewrite Hd; cbn; try (split; [done|intros [|]; done]).
  destruct (daemonize =? 1); [destruct fails|]; (split; [done|by intros _]).
Qed.
End Config.

(** root drops to user 33, group 33. *)
Definition demo_root : startup := Startup (Creds 0 0 0 0 0 0 [0; 4] 18 0 []) [].

Lemma drop_perms_exact_witness :
  exists s', drop_perms (fun _ => Some 33) (fun _ => Some 33) (fun _ => []) (text "www") (text "www") demo_root = Ret 0 s' /\
    became 33 33 (st_creds demo_root) (st_creds s').
Proof.
  destruct (drop_perms_exact (fun _ => Some 33) (fun _ => Some 33) (fun _ => []) (text "www") (text "www") demo_root) as (_&H&_).
  destruct (H 33 33 eq_refl eq_refl ltac:(discriminate) ltac:(repeat split)) as (s'&Hd&Hb&_). exists s'. split; [exact Hd|exact Hb].
Defined.
