(* ===== verification/LogServerMain.v ===== *)
(** * The log server's set-up

    main of logserver/src/main.cpp up to the event loop: the sockets consumers
    connect to, each with the types of records it gives, and the socket of the
    programs that log. *)

From S2P Require Import Prelude.
From S2P Require Import Bytes.
From S2P Require Import Net.
From S2P Require Import BitcoinHandler.
From S2P Require Import Logger.
From S2P Require Import LogFormat.
From S2P Require Import Descriptors.
From S2P Require Import WriteBuffer.
From S2P Require Import LogServer.

(** ** main *)

(** The objects main makes: the kernel, the server's tables, the accept
    handlers of the consumers by address, that of the inputs, SIGPIPE. *)
Record lsmain := LsMain {
  ls_kernel : kernel;
  ls_server : server;
  ls_outs : list (Z * evio);
  ls_in : option evio;
  ls_sigpipe : bool }.

Definition on_ls_kernel {A} (c : prog kernel A) : prog lsmain A :=
  zoom ls_kernel (fun k m => LsMain k (ls_server m) (ls_outs m) (ls_in m) (ls_sigpipe m)) c.
Definition on_ls_server {A} (c : prog server A) : prog lsmain A :=
  zoom ls_server (fun s m => LsMain (ls_kernel m) s (ls_outs m) (ls_in m) (ls_sigpipe m)) c.

(** accept_handler<T>::accept_handler *)
Definition accept_ctor (f : Z) : evio := io_start (EvIo f ev_READ false).

(** A socket for consumers, its accept handler at the address [a]. *)
Definition consumer_socket (client_dir : list Z) (a : Z) (name : string) (interest : Z) : prog lsmain unit :=
  let! f := on_ls_kernel (unix_sock_server (client_dir ++ text name) 5 true) in
  do! modify (fun m => LsMain (ls_kernel m) (ls_server m) (ls_outs m ++ [(a, accept_ctor f)]) (ls_in m) (ls_sigpipe m)) in
  on_ls_server (set_interest a interest).

Definition consumers : list (Z * string * Z) :=
  [(1, "debug", DEBUG); (2, "ctrl", CTRL); (3, "error", ERROR); (4, "bitcoin", BITCOIN); (5, "bitcoin_msg", BITCOIN_MSG);
   (6, "bitcoinx", Z.lor BITCOIN_MSG BITCOIN); (7, "all", 255)]%string.

Fixpoint consumer_sockets (client_dir : list Z) (l : list (Z * string * Z)) : prog lsmain unit :=
  match l with
  | [] => ret tt
  | (a, name, interest) :: l => do! consumer_socket client_dir a name interest in consumer_sockets client_dir l
  end.

(** main; [setup] is what startup_setup returned. [Some 1] is EXIT_FAILURE,
    [None] is the endless loop. *)
Definition log_server_main (setup : Z) (root : list Z) : prog lsmain (option Z) :=
  if negb (setup =? 0) then ret (Some 1)
  else
    do! modify (fun m => LsMain (ls_kernel m) (ls_server m) (ls_outs m) (ls_in m) true) in
    do! on_ls_kernel (sys_mkdir root) in
    let client_dir := root ++ text "clients/" in
    do! on_ls_kernel (sys_mkdir client_dir) in
    do! consumer_sockets client_dir consumers in
    let! f := on_ls_kernel (unix_sock_server (root ++ text "servers") 5 true) in
    do! modify (fun m => LsMain (ls_kernel m) (ls_server m) (ls_outs m) (Some (accept_ctor f)) (ls_sigpipe m)) in
    ret None.

(** ** The sockets *)

(** A listening socket at [path]. *)
Definition listening (path : list Z) : ksocket := KSocket AF_UNIX true false (Some (unix_addr path)) (Some 5) None.

Lemma c_string_id s : Forall (fun x => x <> 0) s -> c_string s = s.
Proof. induction 1 as [|x s Hx _ IH]; simpl; [done|]. destruct (Z.eqb_spec x 0); [done|]. by rewrite IH. Qed.

(** The kernel after a server socket was made. *)
Definition served (path : list Z) (k : kernel) : kernel :=
  with_files ({[c_string path]} ∪ sock_files k) (opened (listening path) k).

Lemma server_granted path k :
  path_ok path = true -> kernel_ok k -> 0 < room k -> answers k = [] ->
  unix_sock_server path 5 true k = Ret (lowest (fds k)) (served path k).
Proof.
  intros Hp Hk Hr Ha. erewrite unix_sock_server_ok; [|done..| | | ]; [|by right|by right|by right].
  unfold served, with_answers, with_files, opened, with_fds. simpl. by rewrite Ha.
Qed.

Lemma served_keeps path k :
  kernel_ok k -> 0 < room k -> answers k = [] ->
  kernel_ok (served path k) /\ room (served path k) = room k - 1 /\ answers (served path k) = [] /\
  fds (served path k) !! lowest (fds k) = Some (listening path) /\
  (forall f s, fds k !! f = Some s -> f <> lowest (fds k) /\ fds (served path k) !! f = Some s).
Proof.
  intros Hk Hr Ha. destruct (opened_ok (listening path) k Hk Hr) as (H1&H2&_). split_and!; [done..|by apply opened_last|].
  intros f s Hs. destruct (lowest_spec (fds k)) as [_ Hf]. assert (f <> lowest (fds k)) by congruence. split; [done|].
  simpl. by rewrite lookup_insert_ne.
Qed.

(** What the accept handlers of a list of sockets are. *)
Definition serving (client_dir : list Z) (m : lsmain) (c : Z * string * Z) (o : Z * evio) : Prop :=
  fst o = c.1.1 /\ io_on (snd o) = true /\ io_ev (snd o) = ev_READ /\
  fds (ls_kernel m) !! fd (snd o) = Some (listening (client_dir ++ text c.1.2)) /\
  get_interests c.1.1 (ls_server m) = c.2.

Definition consumer_ok (client_dir : list Z) (c : Z * string * Z) : Prop := path_ok (client_dir ++ text c.1.2) = true /\ 0 < c.2.

Lemma get_interests_set a i s : 0 < i -> forall s', set_interest a i s = Ret tt s' ->
  get_interests a s' = i /\ forall b, b <> a -> get_interests b s' = get_interests b s.
Proof.
  unfold set_interest, modify. intros Hi s' [= <-]. unfold get_interests. simpl. destruct (Z.eqb_spec i 0); [lia|].
  split; [by rewrite lookup_insert_eq|]. intros b Hb. by rewrite lookup_insert_ne.
Qed.

Lemma serving_keeps client_dir m m' c o :
  serving client_dir m c o -> (forall f s, fds (ls_kernel m) !! f = Some s -> fds (ls_kernel m') !! f = Some s) ->
  get_interests c.1.1 (ls_server m') = get_interests c.1.1 (ls_server m) -> serving client_dir m' c o.
Proof. intros (H1&H2&H3&H4&H5) Hf Hg. split_and!; [done..|by apply Hf|by rewrite Hg]. Qed.

Definition with_interests (i : gmap Z Z) (s : server) : server := Server (queues s) (outs s) (ins s) i (taken_ids s) (now s) (closed s).

Lemma consumer_socket_ok client_dir a name i m :
  path_ok (client_dir ++ text name) = true -> 0 < i -> kernel_ok (ls_kernel m) -> 0 < room (ls_kernel m) -> answers (ls_kernel m) = [] ->
  let f := lowest (fds (ls_kernel m)) in
  consumer_socket client_dir a name i m =
    Ret tt (LsMain (served (client_dir ++ text name) (ls_kernel m)) (with_interests (<[a := i]> (g_interests (ls_server m))) (ls_server m))
              (ls_outs m ++ [(a, accept_ctor f)]) (ls_in m) (ls_sigpipe m)).
Proof.
  intros Hp Hi Hk Hr Ha f. unfold consumer_socket, on_ls_kernel. erewrite bind_ret by (apply zoom_ret; by apply server_granted).
  erewrite bind_ret by done. unfold on_ls_server, zoom, set_interest, modify. simpl. by destruct (Z.eqb_spec i 0); [lia|].
Qed.

Lemma consumer_sockets_ok client_dir l : forall m,
  NoDup (map (fun c => c.1.1) l) -> Forall (consumer_ok client_dir) l ->
  kernel_ok (ls_kernel m) -> Z.of_nat (length l) <= room (ls_kernel m) -> answers (ls_kernel m) = [] ->
  exists m' os, consumer_sockets client_dir l m = Ret tt m' /\ ls_outs m' = ls_outs m ++ os /\ Forall2 (serving client_dir m') l os /\
    kernel_ok (ls_kernel m') /\ room (ls_kernel m') = room (ls_kernel m) - Z.of_nat (length l) /\ answers (ls_kernel m') = [] /\
    (forall f s, fds (ls_kernel m) !! f = Some s -> fds (ls_kernel m') !! f = Some s) /\
    (forall b, b ∉ map (fun c => c.1.1) l -> get_interests b (ls_server m') = get_interests b (ls_server m)) /\
    ls_sigpipe m' = ls_sigpipe m.
Proof.
  induction l as [|[[a name] i] l IH]; intros m Hnd HF Hk Hr Ha.
  - exists m, []. rewrite app_nil_r. split_and!; try done. simpl. lia.
  - apply NoDup_cons in Hnd as [Hna Hnd]. apply Forall_cons in HF as [[Hp Hi] HF]. simpl in Hp, Hi, Hr, Hna. cbn [consumer_sockets].
    erewrite bind_ret by (apply consumer_socket_ok; [done..|lia|done]).
    destruct (served_keeps (client_dir ++ text name) (ls_kernel m)) as (Hk1&Hr1&Ha1&Hf1&Hkeep); [done|lia|done|].
    set (m1 := LsMain _ _ _ _ _). destruct (IH m1) as (m'&os&Hrun&Ho&H2&Hk'&Hr'&Ha'&Hf'&Hg'&Hs'); [done|done|exact Hk1|unfold m1; cbn [ls_kernel]; lia|exact Ha1|].
    assert (get_interests a (ls_server m1) = i) as Hgi by (unfold get_interests; simpl; by rewrite lookup_insert_eq).
    exists m', ((a, accept_ctor (lowest (fds (ls_kernel m)))) :: os). split_and!; try done.
    + rewrite Ho. simpl. by rewrite <- app_assoc.
    + constructor; [|done]. unfold serving. simpl. split_and!; try done; [by apply Hf'|]. by rewrite Hg'.
    + rewrite Hr'. unfold m1. cbn [ls_kernel]. rewrite Hr1. simpl. lia.
    + intros f s Hs. apply Hf', (Hkeep f s Hs).
    + intros b [Hb Hnb]%not_elem_of_cons. rewrite Hg' by done. unfold get_interests. simpl. by rewrite lookup_insert_ne.
Qed.

(** ** Property *)

(** The records each socket is there for. *)
Definition log_types : list Z := [DEBUG; CTRL; ERROR; BITCOIN; BITCOIN_MSG; CONNECTOR; CLIENT].
Definition documented : list (string * list Z) :=
  [("debug", [DEBUG]); ("ctrl", [CTRL]); ("error", [ERROR]); ("bitcoin", [BITCOIN]); ("bitcoin_msg", [BITCOIN_MSG]);
   ("bitcoinx", [BITCOIN; BITCOIN_MSG]); ("all", log_types)]%string.

Lemma interests_documented :
  Forall2 (fun (c : Z * string * Z) (d : string * list Z) =>
    c.1.2 = d.1 /\ forallb (fun t => Bool.eqb (has t c.2) (bool_decide (t ∈ d.2))) log_types = true) consumers documented.
Proof. repeat constructor. Qed.

Lemma serving_documented client_dir m os name ts :
  Forall2 (serving client_dir m) consumers os -> In (name, ts) documented ->
  exists a w i, In (a, w) os /\ serving client_dir m (a, name, i) (a, w) /\ (forall t, In t log_types -> has t i = bool_decide (t ∈ ts)).
Proof.
  intros H2 Hin. pose proof interests_documented as Hd. revert os H2. induction Hd as [|[[a n] i] [n' ts'] cs ds [Hn Ht] Hd IH]; intros os H2; [done|].
  apply Forall2_cons_inv_l in H2 as ([a' w]&os'&Hs&H2&->). destruct Hin as [[= -> ->]|Hin].
  - simpl in Hn. subst n. assert (a' = a) as -> by exact (proj1 Hs). exists a, w, i. split; [by left|]. split; [exact Hs|]. intros t Hlt.
    rewrite forallb_forall in Ht. by apply Bool.eqb_prop, Ht.
  - destruct (IH Hin os' H2) as (a2&w2&i2&?&?). exists a2, w2, i2. split; [by right|done].
Qed.

Lemma consumers_ok root :
  Forall (fun x => x <> 0) root -> zlen root <= 88 -> Forall (consumer_ok (root ++ text "clients/")) consumers /\ path_ok (root ++ text "servers") = true.
Proof.
  intros H0 Hl. assert (forall s : string, Forall (fun x => x <> 0) (text s) -> zlen (text s) <= 19 -> path_ok (root ++ text s) = true) as Hok.
  { intros s Hs Hz. unfold path_ok, SUN_PATH. rewrite c_string_id by (by apply Forall_app). apply Z.ltb_lt. rewrite zlen_app. lia. }
  split; [|apply Hok; [repeat constructor; discriminate|vm_compute; congruence]].
  repeat constructor; unfold consumer_ok; cbn [fst snd]; rewrite <- app_assoc;
    match goal with |- context [text "clients/" ++ text ?n] => change (text "clients/" ++ text n) with (text ("clients/" ++ n)%string) end;
    apply Hok; (repeat constructor; discriminate) || (vm_compute; congruence).
Qed.

(** The log server after main. *)
Lemma log_server_up root k s :
  kernel_ok k -> 8 <= room k -> answers k = [] -> Forall (fun x => x <> 0) root -> zlen root <= 88 ->
  exists m', log_server_main 0 root (LsMain k s [] None false) = Ret None m' /\ ls_sigpipe m' = true /\
    (forall name ts, In (name, ts) documented -> exists a w, In (a, w) (ls_outs m') /\ io_on w = true /\ io_ev w = ev_READ /\
       fds (ls_kernel m') !! fd w = Some (listening (root ++ text "clients/" ++ text name)) /\
       forall h f c, exists s2 o, out_handle_accept a h f c (ls_server m') = Ret tt s2 /\ outs s2 !! h = Some o /\
         forall t, In t log_types -> interested o t = bool_decide (t ∈ ts)) /\
    (exists w, ls_in m' = Some w /\ io_on w = true /\ io_ev w = ev_READ /\
       fds (ls_kernel m') !! fd w = Some (listening (root ++ text "servers"))).
Proof.
  intros Hk Hr Ha H0 Hl. destruct (consumers_ok root H0 Hl) as [Hcs Hps]. unfold log_server_main. cbn [negb Z.eqb].
  erewrite !bind_ret by done. set (m0 := LsMain _ _ _ _ _).
  destruct (consumer_sockets_ok (root ++ text "clients/") consumers m0) as (m1&os&Hrun&Ho&H2&Hk1&Hr1&Ha1&Hf1&Hg1&Hs1);
    [apply (bool_decide_unpack _); vm_compute; exact I|done|exact Hk|unfold m0, room in *; simpl; lia|exact Ha|].
  run_step Hrun. unfold on_ls_kernel at 1. erewrite bind_ret; [|apply zoom_ret; apply server_granted; [done|done|rewrite Hr1; unfold m0, room in *; simpl; lia|done]].
  destruct (served_keeps (root ++ text "servers") (ls_kernel m1)) as (_&_&_&Hfs&Hkeep); [done|rewrite Hr1; unfold m0, room in *; simpl; lia|done|].
  eexists. split; [reflexivity|]. cbn [ls_sigpipe ls_outs ls_kernel ls_server ls_in]. split_and!; [by rewrite Hs1| |by eexists].
  intros name ts Hin. destruct (serving_documented _ _ _ name ts H2 Hin) as (a&w&i&Hw&(_&Hon&Hev&Hfd&Hgi)&Hi). exists a, w. cbn [fst snd] in *.
  split_and!; [by rewrite Ho|done|done|rewrite app_assoc; by apply Hkeep|].
  intros h f c. unfold out_handle_accept, out_ctor. erewrite bind_ret by done. rewrite Hgi. erewrite bind_ret by done. eexists _, (OutHandler i _ _ _ _).
  split; [reflexivity|]. split; [|exact Hi]. destruct (queues _ !! h); simpl; by rewrite lookup_insert_eq.
Qed.

(** The log server serves what its sockets are named for: with room for
    eight descriptors, main reaches the event loop, whatever socket files the
    last run has left; for each of the seven consumer sockets an accept handler
    watches a non-blocking listening socket of that name, and a client that
    connects to it gets a handler that is interested in exactly the record types
    of the name (all of them for "all"); programs that log find the socket
    "servers". *)
Theorem log_server_set_up root k s :
  kernel_ok k -> 8 <= room k -> answers k = [] -> Forall (fun x => x <> 0) root -> zlen root <= 88 ->
  exists m', log_server_main 0 root (LsMain k s [] None false) = Ret None m' /\ ls_sigpipe m' = true /\
    (forall name ts, In (name, ts) documented -> exists a w, In (a, w) (ls_outs m') /\ io_on w = true /\ io_ev w = ev_READ /\
       fds (ls_kernel m') !! fd w = Some (listening (root ++ text "clients/" ++ text name)) /\
       forall h f c, exists s2 o, out_handle_accept a h f c (ls_server m') = Ret tt s2 /\ outs s2 !! h = Some o /\
         forall t, In t log_types -> interested o t = bool_decide (t ∈ ts)) /\
    (exists w, ls_in m' = Some w /\ io_on w = true /\ io_ev w = ev_READ /\
       fds (ls_kernel m') !! fd w = Some (listening (root ++ text "servers"))).
Proof. apply log_server_up. Qed.

Lemma log_server_set_up_witness :
  exists m' a w, log_server_main 0 (text "/tmp/log/") (LsMain (Kernel ∅ 64 {[text "/tmp/log/clients/all"]} ∅ [] 0) demo0 [] None false) = Ret None m' /\
    In (a, w) (ls_outs m') /\
    fds (ls_kernel m') !! fd w = Some (listening (text "/tmp/log/" ++ text "clients/" ++ text "bitcoinx")).
Proof.
  destruct (log_server_set_up (text "/tmp/log/") (Kernel ∅ 64 {[text "/tmp/log/clients/all"]} ∅ [] 0) demo0) as (m'&Hr&_&Hs&_).
  - intros f [x Hx]. done.
  - reflexivity || (vm_compute; congruence).
  - reflexivity.
  - repeat constructor; discriminate.
  - vm_compute. congruence.
  - destruct (Hs "bitcoinx"%string [BITCOIN; BITCOIN_MSG]) as (a&w&Hw&_&_&Hf&_); [simpl; tauto|]. exists m', a, w. split; [exact Hr|]. split; [exact Hw|exact Hf].
Defined.
