(* ===== verification/ConnectorMain.v ===== *)
(** * The connector's set-up

    connector/src/main.cpp up to the event loop, and the callbacks that are
    defined there: log_watcher, which reconnects to the log server, and
    hup_watcher, which loads the blacklist again. *)

From S2P Require Import Prelude.
From S2P Require Import Bytes.
From S2P Require Import Net.
From S2P Require Import WriteBuffer.
From S2P Require Import BitcoinWire.
From S2P Require Import Logger.
From S2P Require Import Blacklist.
From S2P Require Import BitcoinHandler.
From S2P Require Import LogFormat.
From S2P Require Import Descriptors.

(** ** State *)

(** An entry of connector.bitcoin.listeners. *)
Record listener := Listener { l_family : list Z; l_addr : list Z; l_port : Z; l_backlog : Z }.

(** What main looks up: the settings, the lines of the configuration file, and
    the lines of the blacklist, if that file can be opened. *)
Record config := Config {
  c_root : list Z;
  c_control_path : list Z;
  c_control_listen : Z;
  c_listeners : list listener;
  c_lines : list (list Z);
  c_blacklist : option (list (list Z)) }.

(** The kernel, the logger, g_blacklist; the accept handlers with their
    local_addr, the accept handler of the control socket; whether logwatch and
    sigwatch are started and SIGPIPE is ignored. *)
Record cmain := CMain {
  m_kernel : kernel;
  m_log : logger;
  m_blacklist : list (list Z);
  m_accepts : list (evio * list Z);
  m_control : option evio;
  m_watches : bool;
  m_sigpipe : bool }.

Definition with_m_kernel k m := CMain k (m_log m) (m_blacklist m) (m_accepts m) (m_control m) (m_watches m) (m_sigpipe m).
Definition with_m_log l m := CMain (m_kernel m) l (m_blacklist m) (m_accepts m) (m_control m) (m_watches m) (m_sigpipe m).
Definition with_m_blacklist b m := CMain (m_kernel m) (m_log m) b (m_accepts m) (m_control m) (m_watches m) (m_sigpipe m).
Definition with_m_accepts a m := CMain (m_kernel m) (m_log m) (m_blacklist m) a (m_control m) (m_watches m) (m_sigpipe m).
Definition with_m_control c m := CMain (m_kernel m) (m_log m) (m_blacklist m) (m_accepts m) (Some c) (m_watches m) (m_sigpipe m).
Definition with_m_watches m := CMain (m_kernel m) (m_log m) (m_blacklist m) (m_accepts m) (m_control m) true (m_sigpipe m).
Definition with_m_sigpipe m := CMain (m_kernel m) (m_log m) (m_blacklist m) (m_accepts m) (m_control m) (m_watches m) true.

Definition on_mk {A} (c : prog kernel A) : prog cmain A := zoom m_kernel with_m_kernel c.

(** try { c } catch(const network_error &e) { h(e.what()) } *)
Definition try_network {S} (strerror : Z -> list Z) (c : prog S unit) (h : list Z -> prog S unit) : prog S unit := fun s =>
  match c s with
  | Raise (NetworkError str err) s => h (text str ++ text ": " ++ strerror err) s
  | o => o
  end.

Section Main.
(** The page size and the clock, strerror, inet_pton, the commit the program
    was built from; [peer] is the log server's side of a new connection. *)
Context (page now : Z) (strerror : Z -> list Z) (pton4 pton6 : list Z -> option (list Z)) (commit_hash : list Z) (peer : sock).

Definition mlog (N : Z) (parts : list (list Z)) : prog cmain unit := zoom m_log with_m_log (g_log_text page now N parts).

(** ** Callbacks *)

(** g_log_buffer = new log_buffer(unix_sock_client(logpath, true)) *)
Definition new_log_buffer (logpath : list Z) : prog cmain unit :=
  let! f := on_mk (unix_sock_client logpath true) in
  modify (fun m => with_m_log (with_lb (Some (log_buffer_ctor f peer)) (m_log m)) m).

Definition log_watcher (logpath : list Z) : prog cmain unit :=
  let! m := get in
  match g_log_buffer (m_log m) with
  | Some _ => ret tt
  | None =>
      try_network strerror (new_log_buffer logpath) (fun what =>
        do! modify (fun m => with_m_log (with_lb None (m_log m)) m) in
        mlog ERROR [what])
  end.

Fixpoint mlogs (l : list (Z * list (list Z))) : prog cmain unit :=
  match l with
  | [] => ret tt
  | (N, parts) :: l => do! mlog N parts in mlogs l
  end.

(** What load_blacklist logs. *)
Definition blacklist_logs (file : option (list (list Z))) : list (Z * list (list Z)) :=
  match file with
  | None => [(ERROR, [text "Could not open blacklist file"])]
  | Some lines =>
      let '(set, bad) := load_blacklist pton4 pton6 lines in
      map (fun line => (ERROR, [text "Invalid blacklist entry (not IPv4 or IPv6)"; line])) bad ++
      [(CONNECTOR, [text "Loading blacklist, received"; number (zlen set); text "unique entries"])]
  end.

(** load_blacklist; without the file the old entries stay. *)
Definition reload_blacklist (file : option (list (list Z))) : prog cmain unit :=
  do! match file with
      | None => ret tt
      | Some lines => modify (with_m_blacklist (fst (load_blacklist pton4 pton6 lines)))
      end in
  mlogs (blacklist_logs file).

Definition hup_watcher (file : option (list (list Z))) : prog cmain unit := reload_blacklist file.

(** ** main *)

Definition in6addr_any : list Z := zrep 16 0.

(** The domain, bitcoin_addr and addrlen of a listener; [None] when the address
    cannot be parsed. *)
Definition listener_addr (l : listener) : option (Z * list Z * Z) :=
  let port := u16 (l_port l) in
  let bitcoin_addr := zrep SOCKADDR_STORAGE 0 in
  if bool_decide (l_family l = text "AF_INET6") then
    let bitcoin_addr := splice 0 (le_bytes 2 AF_INET6) bitcoin_addr in
    let bitcoin_addr := splice 2 (le_bytes 2 (hton16 port)) bitcoin_addr in
    let bitcoin_addr := splice 8 in6addr_any bitcoin_addr in
    match pton6 (c_string (l_addr l)) with
    | None => None
    | Some a =>
        let bitcoin_addr := splice 8 a bitcoin_addr in
        Some (AF_INET6, splice 8 in6addr_any bitcoin_addr, 28)
    end
  else
    let bitcoin_addr := splice 0 (le_bytes 2 AF_INET) bitcoin_addr in
    let bitcoin_addr := splice 2 (le_bytes 2 (hton16 port)) bitcoin_addr in
    let bitcoin_addr := splice 4 (le_bytes 4 0) bitcoin_addr in
    match pton4 (c_string (l_addr l)) with
    | None => None
    | Some a =>
        let bitcoin_addr := splice 4 a bitcoin_addr in
        Some (AF_INET, splice 4 (le_bytes 4 0) bitcoin_addr, 16)
    end.

(** bitcoin::accept_handler::accept_handler *)
Definition bc_accept_ctor (f : Z) : prog cmain evio :=
  do! mlog DEBUG [text "bitcoin accept initializer initiated, awaiting incoming client connections"] in
  ret (io_start (EvIo f ev_READ false)).

(** ctrl::accept_handler::accept_handler *)
Definition ctrl_accept_ctor (f : Z) : evio := io_start (EvIo f ev_READ false).

Definition attempt_parts (l : listener) : list (list Z) :=
  [text "Attempting to instantiate listener on "; l_family l; l_addr l; number (u16 (l_port l)); text "with backlog"; number (l_backlog l)].

Definition bad_parts (index e : Z) (l : listener) : list (list Z) :=
  [if bool_decide (l_family l = text "AF_INET6") then text "Bad IPv6 address format on address" else text "Bad IPv4 address format on address";
   number index; strerror e].

Definition add_listener (index : Z) (l : listener) : prog cmain unit :=
  do! mlog DEBUG (attempt_parts l) in
  match listener_addr l with
  | None =>
      let! m := get in
      mlog ERROR (bad_parts index (kerrno (m_kernel m)) l)
  | Some (domain, bitcoin_addr, addrlen) =>
      let! bitcoin_sock := on_mk (Socket domain) in
      do! on_mk (sys_nonblock bitcoin_sock) in
      do! on_mk (sys_reuseaddr bitcoin_sock) in
      do! on_mk (Bind bitcoin_sock (ztake addrlen bitcoin_addr)) in
      do! on_mk (Listen bitcoin_sock (l_backlog l)) in
      let! io := bc_accept_ctor bitcoin_sock in
      modify (fun m => with_m_accepts (m_accepts m ++ [(io, bitcoin_addr)]) m)
  end.

Fixpoint add_listeners (index : Z) (ls : list listener) : prog cmain unit :=
  match ls with
  | [] => ret tt
  | l :: ls => do! add_listener index l in add_listeners (index + 1) ls
  end.

(** The control socket. *)
Definition control_socket (path : list Z) (backlog : Z) : prog kernel Z :=
  do! sys_unlink (c_string path) in
  if SUN_PATH <? zlen (c_string path) + 1 then crash OutOfBounds
  else
    let control_addr := le_bytes 2 AF_UNIX ++ c_string path in
    let! control_sock := Socket AF_UNIX in
    do! sys_nonblock control_sock in
    do! Bind control_sock control_addr in
    do! Listen control_sock backlog in
    ret control_sock.

(** What is logged of the configuration. *)
Definition config_logs (c : config) : list (Z * list (list Z)) :=
  [(CONNECTOR, [text "Initiating with commit: "; commit_hash]);
   (CONNECTOR, [text "Full config: "; concat (map (fun line => line ++ [10]) (c_lines c))])].

(** main: [limit] is what getrlimit gives, [setup] what startup_setup returned;
    [Some 1] is EXIT_FAILURE, [None] the endless loop. *)
Definition connector_main (limit : option Z) (setup : Z) (c : config) : prog cmain (option Z) :=
  match limit with
  | None => ret (Some 1)
  | Some rlim_cur =>
      if rlim_cur <? 999900 then ret (Some 1)
      else if negb (setup =? 0) then ret (Some 1)
      else
        do! modify with_m_sigpipe in
        do! try_network strerror (new_log_buffer (c_root c ++ text "servers")) (fun what => ret tt) in
        do! modify with_m_watches in
        let! control_sock := on_mk (control_socket (c_control_path c) (c_control_listen c)) in
        do! add_listeners 0 (c_listeners c) in
        do! modify (with_m_control (ctrl_accept_ctor control_sock)) in
        do! mlogs (config_logs c) in
        do! reload_blacklist (c_blacklist c) in
        ret None
  end.

(** ** The address that is announced *)

(** external_addr of bitcoin_handler.cpp: [out] is the static variable once it
    is set, [draw] the draw of the distribution. *)
Definition external_addr (out : option (list Z)) (draw : Z) (ls : list listener) : prog cmain (list Z) :=
  match out with
  | Some out => ret out
  | None =>
      let idx := if zlen ls =? 1 then 0 else draw in
      let! l := deref OutOfBounds (if idx <? 0 then None else ls !! Z.to_nat idx) in
      let port := u16 (l_port l) in
      let out := zrep SOCKADDR_STORAGE 0 in
      let v6 := bool_decide (l_family l = text "AF_INET6") in
      let out := splice 0 (le_bytes 2 (if v6 then AF_INET6 else AF_INET)) out in
      let out := splice 2 (le_bytes 2 (hton16 port)) out in
      match (if v6 then pton6 (c_string (l_addr l)) else pton4 (c_string (l_addr l))) with
      | Some a => ret (splice (if v6 then 8 else 4) a out)
      | None =>
          let! m := get in
          do! mlog ERROR (bad_parts idx (kerrno (m_kernel m)) l) in
          ret out
      end
  end.
End Main.

(** ** Lemmas *)

Lemma control_socket_server path n : forall k, control_socket path n k = unix_sock_server path n true k.
Proof.
  intros k. unfold control_socket, unix_sock_server, unix_sock_setup. erewrite !bind_ret by done.
  destruct (_ <? _); [done|]. unfold bind. destruct (Socket AF_UNIX _) as [f k1| |]; [|done..]. simpl.
  by destruct (sys_nonblock f k1) as [? k2| |].
Qed.

Section Spec.
Context (page now : Z) (strerror : Z -> list Z) (pton4 pton6 : list Z -> option (list Z)) (commit_hash : list Z) (peer : sock).
Context (Hpage : 0 < page <= 2 ^ 62).

(** The bytes of text records. *)
Definition text_bytes (l : list (Z * list (list Z))) : list Z := concat (map (fun e => framed (record_of now (LText (fst e) (snd e)))) l).
Definition parts_ok (e : Z * list (list Z)) : Prop := event_ok (LText (fst e) (snd e)).

Lemma mlog_ok N parts m :
  LWF (m_log m) -> parts_ok (N, parts) ->
  exists l, mlog page now N parts m = Ret tt (with_m_log l m) /\ LWF l /\
    (is_Some (g_log_buffer (m_log m)) -> is_Some (g_log_buffer l) /\ log_wire l = log_wire (m_log m) ++ text_bytes [(N, parts)]) /\
    (g_log_buffer (m_log m) = None -> g_log_buffer l = None).
Proof.
  intros HW Hok. unfold mlog. destruct (g_log_buffer (m_log m)) as [b|] eqn:Hb.
  - destruct (text_spec page now Hpage N parts (m_log m) b HW Hb Hok) as (b'&l&Hr&HW'&Hb'&Hw). exists l.
    split; [by apply zoom_ret|]. split; [done|]. split; [|done]. intros _. rewrite Hb'. unfold text_bytes. simpl. by rewrite app_nil_r.
  - destruct (exec_none page now Hpage (LText N parts) (m_log m) HW Hb Hok) as (l&Hr&HW'&Hb'). exists l.
    split; [by apply zoom_ret|]. split; [done|]. split; [by intros []|done].
Qed.

Lemma mlogs_ok es m :
  LWF (m_log m) -> is_Some (g_log_buffer (m_log m)) -> Forall parts_ok es ->
  exists l, mlogs page now es m = Ret tt (with_m_log l m) /\ LWF l /\ is_Some (g_log_buffer l) /\ log_wire l = log_wire (m_log m) ++ text_bytes es.
Proof.
  revert m. induction es as [|[N parts] es IH]; intros m HW Hb HF.
  - exists (m_log m). unfold text_bytes. simpl. rewrite app_nil_r. split_and!; try done. by destruct m.
  - apply Forall_cons in HF as [Hok HF]. simpl mlogs. destruct (mlog_ok N parts m HW Hok) as (l1&Hr1&HW1&Hb1&_).
    destruct (Hb1 Hb) as [Hs1 Hw1]. run_step Hr1. destruct (IH (with_m_log l1 m) HW1 Hs1 HF) as (l&Hr&HW'&Hs&Hw). exists l.
    split_and!; [exact Hr|done|done|]. rewrite Hw. simpl. rewrite Hw1. unfold text_bytes. simpl. by rewrite app_nil_r, <- app_assoc.
Qed.

(** ** The log watcher *)

Definition watch (logpath : list Z) : prog cmain unit := log_watcher page now strerror peer logpath.

Fixpoint watches (n : nat) (logpath : list Z) : prog cmain unit :=
  match n with
  | O => ret tt
  | S n => do! watch logpath in watches n logpath
  end.

Hypothesis strerror_len : forall e, zlen (strerror e) < 2 ^ 30.

Lemma what_ok str e : zlen (text str) < 2 ^ 30 - 8 -> parts_ok (ERROR, [text str ++ text ": " ++ strerror e]).
Proof.
  intros Hs. split; [done|]. cbn [joined fst snd]. rewrite !zlen_app. pose proof (strerror_len e).
  change (zlen (text ": ")) with 2. change (zlen [0]) with 1. lia.
Qed.

(** A connection attempt that fails. *)
Lemma watch_fails logpath m str e k :
  LWF (m_log m) -> g_log_buffer (m_log m) = None -> zlen (text str) < 2 ^ 30 - 8 ->
  unix_sock_client logpath true (m_kernel m) = Raise (NetworkError str e) k ->
  exists l, watch logpath m = Ret tt (with_m_log l (with_m_kernel k m)) /\ LWF l /\ g_log_buffer l = None.
Proof.
  intros HW Hb Hs Hc. unfold watch, log_watcher. erewrite bind_ret by done. rewrite Hb. unfold try_network, new_log_buffer, on_mk, bind, zoom. rewrite Hc.
  unfold modify. set (m1 := with_m_log _ _). assert (LWF (m_log m1)) as HW1 by (destruct HW as [HQ Hcu]; split; [by intros b|done]).
  destruct (mlog_ok ERROR [text str ++ text ": " ++ strerror e] m1 HW1 (what_ok str e Hs)) as (l&Hr&HWl&_&Hn).
  exists l. split; [|split; [done|by apply Hn]]. unfold mlog, zoom in Hr. unfold mlog, zoom. rewrite Hr. done.
Qed.

Lemma watch_full logpath m :
  path_ok logpath = true -> LWF (m_log m) -> g_log_buffer (m_log m) = None -> kernel_ok (m_kernel m) -> 0 <= nofile (m_kernel m) -> room (m_kernel m) <= 0 ->
  exists m', watch logpath m = Ret tt m' /\ LWF (m_log m') /\ g_log_buffer (m_log m') = None /\ fds (m_kernel m') = fds (m_kernel m) /\ nofile (m_kernel m') = nofile (m_kernel m).
Proof.
  intros Hp HW Hb Hk Hn Hr. destruct (unix_sock_client_full logpath true (m_kernel m) Hp Hk Hn Hr) as (e&k'&Hc&Hf&Hl).
  destruct (watch_fails logpath m "socket failure" e k' HW Hb ltac:(reflexivity) Hc) as (l&Hw&HWl&Hbl). eexists. split; [exact Hw|done].
Qed.

(** [n] attempts that the log server refuses. *)
Definition refusals (n : nat) (e : Z) : list (option Z) := concat (repeat [None; Some e] n).

Lemma watches_refused logpath e rest : forall n m,
  path_ok logpath = true -> LWF (m_log m) -> g_log_buffer (m_log m) = None -> kernel_ok (m_kernel m) -> Z.of_nat n <= room (m_kernel m) ->
  answers (m_kernel m) = refusals n e ++ rest ->
  exists m', watches n logpath m = Ret tt m' /\ LWF (m_log m') /\ g_log_buffer (m_log m') = None /\ kernel_ok (m_kernel m') /\
    room (m_kernel m') = room (m_kernel m) - Z.of_nat n /\ nofile (m_kernel m') = nofile (m_kernel m) /\ answers (m_kernel m') = rest.
Proof.
  induction n as [|n IH]; intros m Hp HW Hb Hk Hr Ha.
  - exists m. split_and!; try done. lia.
  - change (refusals (S n) e ++ rest) with (None :: Some e :: refusals n e ++ rest) in Ha.
    assert (0 < room (m_kernel m)) as Hr0 by lia.
    pose proof (unix_sock_client_refused logpath true (m_kernel m) (Some e :: refusals n e ++ rest) e _ Hp Hk Hr0 (or_introl Ha) eq_refl) as Hc.
    set (k1 := with_kerrno _ _) in Hc. destruct (watch_fails logpath m "connect failure" e k1 HW Hb ltac:(reflexivity) Hc) as (l&Hw&HWl&Hbl).
    set (s := KSocket AF_UNIX true false None None None) in k1. destruct (opened_ok s (m_kernel m) Hk Hr0) as (Hk1&Hr1&Hn1).
    simpl watches. run_step Hw. destruct (IH (with_m_log l (with_m_kernel k1 m))) as (m'&Hrun&HW'&Hb'&Hk'&Hr'&Hn'&Ha'); try done.
    + simpl. change (room k1) with (room (opened s (m_kernel m))). lia.
    + exists m'. split_and!; try done. rewrite Hr'. simpl. change (room k1) with (room (opened s (m_kernel m))). lia.
Qed.

Lemma watches_full logpath j : forall m,
  path_ok logpath = true -> LWF (m_log m) -> g_log_buffer (m_log m) = None -> kernel_ok (m_kernel m) -> 0 <= nofile (m_kernel m) -> room (m_kernel m) <= 0 ->
  exists m', watches j logpath m = Ret tt m' /\ g_log_buffer (m_log m') = None.
Proof.
  induction j as [|j IH]; intros m Hp HW Hb Hk Hn Hr; [by exists m|]. simpl watches.
  destruct (watch_full logpath m Hp HW Hb Hk Hn Hr) as (m1&Hw&HW1&Hb1&Hf1&Hn1). run_step Hw.
  apply IH; try done; unfold kernel_ok, room in *; rewrite ?Hf1, ?Hn1; done.
Qed.

Lemma watch_restores logpath m :
  path_ok logpath = true -> LWF (m_log m) -> g_log_buffer (m_log m) = None -> kernel_ok (m_kernel m) -> 0 < room (m_kernel m) -> answers (m_kernel m) = [] ->
  exists m' f, watch logpath m = Ret tt m' /\ LWF (m_log m') /\ g_log_buffer (m_log m') = Some (log_buffer_ctor f peer) /\
    fds (m_kernel m') !! f = Some (KSocket AF_UNIX true false None None (Some (unix_addr logpath))) /\ fds (m_kernel m) !! f = None.
Proof.
  intros Hp HW Hb Hk Hr Ha. unfold watch, log_watcher. erewrite bind_ret by done. rewrite Hb. unfold try_network, new_log_buffer, on_mk, bind, zoom.
  erewrite unix_sock_client_ok by (try done; by right). eexists _, _. split; [reflexivity|]. split_and!.
  - destruct HW as [HQ Hc]. split; [|done]. intros b [= <-]. apply write_buffer_ctor_QWF.
  - done.
  - simpl. by rewrite lookup_insert_eq.
  - apply lowest_spec.
Qed.
End Spec.

Definition give_answers (l : list (option Z)) (m : cmain) : cmain := with_m_kernel (with_answers l (m_kernel m)) m.

(** C39. The log watcher: when the log is lost, a firing of the timer while the
    log server answers restores it, on a new non-blocking connection. But every
    attempt that the server refuses leaves the descriptor of its socket open: as
    many refusals as there is room for descriptors, ten seconds apart, and the
    log never comes back, whatever the server does then. *)
Theorem log_watcher_leaks page now strerror peer logpath m n e rest :
  0 < page <= 2 ^ 62 -> (forall e, zlen (strerror e) < 2 ^ 30) -> path_ok logpath = true ->
  LWF (m_log m) -> g_log_buffer (m_log m) = None -> kernel_ok (m_kernel m) -> 0 <= nofile (m_kernel m) ->
  Z.of_nat n <= room (m_kernel m) -> answers (m_kernel m) = refusals n e ++ rest ->
  exists m', watches page now strerror peer n logpath m = Ret tt m' /\ g_log_buffer (m_log m') = None /\
    room (m_kernel m') = room (m_kernel m) - Z.of_nat n /\
    (0 < room (m_kernel m') -> exists m2 f, watches page now strerror peer 1 logpath (give_answers [] m') = Ret tt m2 /\
       g_log_buffer (m_log m2) = Some (log_buffer_ctor f peer) /\
       fds (m_kernel m2) !! f = Some (KSocket AF_UNIX true false None None (Some (unix_addr logpath)))) /\
    (room (m_kernel m') = 0 -> forall j l, exists m2, watches page now strerror peer j logpath (give_answers l m') = Ret tt m2 /\
       g_log_buffer (m_log m2) = None).
Proof.
  intros Hp Hs Hpath HW Hb Hk Hn Hr Ha.
  destruct (watches_refused page now strerror peer Hp Hs logpath e rest n m Hpath HW Hb Hk Hr Ha) as (m'&Hw&HW'&Hb'&Hk'&Hr'&Hn'&Ha').
  exists m'. split_and!; [exact Hw|done|done|..].
  - intros Hroom. destruct (watch_restores page now strerror peer logpath (give_answers [] m')) as (m2&f&Hw2&_&Hb2&Hf2&_); try done.
    exists m2, f. simpl watches. run_step Hw2. done.
  - intros Hroom j l. apply watches_full; try done; [|change (room (m_kernel m') <= 0)]; simpl; lia.
Qed.

Definition demo_main : cmain :=
  CMain (Kernel ∅ 2 ∅ ∅ (refusals 2 111) 0) (Logger None 0 [] [] []) [] [] None true true.

Lemma log_watcher_leaks_witness :
  exists m', watches 4096 0 (fun _ => []) (Sock [] [] [] 0) 2 (text "/tmp/log/servers") demo_main = Ret tt m' /\
    forall j l, exists m2, watches 4096 0 (fun _ => []) (Sock [] [] [] 0) j (text "/tmp/log/servers") (give_answers l m') = Ret tt m2 /\
       g_log_buffer (m_log m2) = None.
Proof.
  destruct (log_watcher_leaks 4096 0 (fun _ => []) (Sock [] [] [] 0) (text "/tmp/log/servers") demo_main 2 111 []) as (m'&Hw&_&Hr&_&Hfull).
  - lia.
  - intros. reflexivity.
  - reflexivity.
  - split; [by intros|vm_compute; split; congruence].
  - reflexivity.
  - intros f [x Hx]. done.
  - vm_compute. congruence.
  - vm_compute. congruence.
  - reflexivity.
  - exists m'. split; [exact Hw|]. apply Hfull. exact Hr.
Defined.

(** ** Listeners *)

Section Listeners.
Context (page now : Z) (strerror : Z -> list Z) (pton4 pton6 : list Z -> option (list Z)) (Hpage : 0 < page <= 2 ^ 62).
(** inet_pton writes an address of its family. *)
Hypothesis pton4_len : forall l a, pton4 l = Some a -> zlen a = 4.
Hypothesis pton6_len : forall l a, pton6 l = Some a -> zlen a = 16.

Definition is_v6 (l : listener) : bool := bool_decide (l_family l = text "AF_INET6").

(** Whether the address of a listener can be parsed. *)
Definition parses (l : listener) : bool :=
  bool_decide (is_Some (if is_v6 l then pton6 (c_string (l_addr l)) else pton4 (c_string (l_addr l)))).

(** The port of the listener at any address, as a sockaddr_storage. *)
Definition any_addr (l : listener) : list Z :=
  le_bytes 2 (if is_v6 l then AF_INET6 else AF_INET) ++ be_bytes 2 (u16 (l_port l)) ++ zrep 124 0.

Lemma splice_mid {A} off (a b c d : list A) : zlen a = off -> zlen d = zlen b -> splice off d (a ++ b ++ c) = a ++ d ++ c.
Proof.
  intros Ha Hd. unfold splice. rewrite ztake_app_exact by done. do 2 f_equal. rewrite app_assoc.
  apply zdrop_app_exact. rewrite zlen_app. lia.
Qed.

(** Both families fill in their address the same way. *)
Lemma any_sockaddr fam port off any x :
  zlen fam = 2 -> zlen port = 2 -> 4 <= off -> zlen x = zlen any -> zrep 124 0 = zrep (off - 4) 0 ++ any ++ zrep (128 - off - zlen any) 0 ->
  splice off any (splice off x (splice off any (splice 2 port (splice 0 fam (zrep SOCKADDR_STORAGE 0))))) = fam ++ port ++ zrep 124 0.
Proof.
  intros Hf Hp Ho Hx Hz. change (zrep SOCKADDR_STORAGE 0) with ([] ++ zrep 2 0 ++ zrep 126 0 : list Z). rewrite (splice_mid 0) by done.
  change (zrep 126 0) with (zrep 2 0 ++ zrep 124 0 : list Z). rewrite app_nil_l, (splice_mid 2) by done.
  replace (fam ++ port ++ zrep 124 0) with ((fam ++ port ++ zrep (off - 4) 0) ++ any ++ zrep (128 - off - zlen any) 0) by (by rewrite Hz, <- !app_assoc).
  assert (zlen (fam ++ port ++ zrep (off - 4) 0) = off) by (rewrite !zlen_app, zlen_zrep; lia). by rewrite !(splice_mid off) by done.
Qed.

Lemma listener_addr_any l :
  listener_addr pton4 pton6 l =
    if parses l then Some (if is_v6 l then AF_INET6 else AF_INET, any_addr l, if is_v6 l then 28 else 16) else None.
Proof.
  unfold listener_addr, parses, any_addr, hton16. rewrite bytes_bswap. change (bool_decide (l_family l = text "AF_INET6")) with (is_v6 l).
  destruct (is_v6 l).
  - destruct (pton6 _) as [x|] eqn:Hx; simpl bool_decide; [|done]. cbn match. do 3 f_equal. apply any_sockaddr; [done|done|done|by apply pton6_len in Hx|done].
  - destruct (pton4 _) as [x|] eqn:Hx; simpl bool_decide; [|done]. cbn match. do 3 f_equal. apply any_sockaddr; [done|done|done|by apply pton4_len in Hx|done].
Qed.

(** ** Adding them *)

(** What is logged for a listener. *)
Definition listener_logs (index e : Z) (l : listener) : list (Z * list (list Z)) :=
  (DEBUG, attempt_parts l) ::
  (if parses l then [(DEBUG, [text "bitcoin accept initializer initiated, awaiting incoming client connections"])]
   else [(ERROR, bad_parts strerror index e l)]).

Fixpoint listeners_logs (index e : Z) (ls : list listener) : list (Z * list (list Z)) :=
  match ls with
  | [] => []
  | l :: ls => listener_logs index e l ++ listeners_logs (index + 1) e ls
  end.

(** The socket of a listener. *)
Definition bound (l : listener) : ksocket :=
  KSocket (if is_v6 l then AF_INET6 else AF_INET) true true (Some (ztake (if is_v6 l then 28 else 16) (any_addr l))) (Some (l_backlog l)) None.

Definition listens (k : kernel) (l : listener) (o : evio * list Z) : Prop :=
  io_on (fst o) = true /\ io_ev (fst o) = ev_READ /\ fds k !! fd (fst o) = Some (bound l) /\ snd o = any_addr l.

(** The set-up goes on: the log is connected and the kernel grants. *)
Record going (m : cmain) : Prop := {
  go_log : LWF (m_log m);
  go_buf : is_Some (g_log_buffer (m_log m));
  go_kernel : kernel_ok (m_kernel m);
  go_granted : answers (m_kernel m) = [] }.

Lemma going_log m l : going m -> LWF l -> is_Some (g_log_buffer l) -> going (with_m_log l m).
Proof. by intros []. Qed.

(** Socket, fcntl, setsockopt, Bind and Listen in a row. *)
Lemma tcp_listen l k :
  kernel_ok k -> 0 < room k -> answers k = [] ->
  let f := lowest (fds k) in
  (let! f := Socket (if is_v6 l then AF_INET6 else AF_INET) in
   do! sys_nonblock f in
   do! sys_reuseaddr f in
   do! Bind f (ztake (if is_v6 l then 28 else 16) (any_addr l)) in
   do! Listen f (l_backlog l) in
   ret f) k = Ret f (opened (bound l) k).
Proof.
  intros Hk Hr Ha f. erewrite bind_ret by (apply Socket_ok; [done|done|right; by split]).
  unfold sys_nonblock. erewrite bind_ret by (erewrite on_socket_last by (simpl; by rewrite lookup_insert_eq); reflexivity).
  unfold sys_reuseaddr. erewrite bind_ret by (erewrite on_socket_last by (simpl; by rewrite lookup_insert_eq); reflexivity).
  erewrite bind_ret; [|apply (wrapped_ok _ _ _ 0); [|done]; unfold sys_bind; erewrite on_socket_last by (simpl; by rewrite lookup_insert_eq);
    erewrite bind_ret by done; erewrite bind_ret by (apply answer_granted; by right); cbn [ks_domain];
    replace ((if is_v6 l then AF_INET6 else AF_INET) =? AF_UNIX) with false by (by destruct (is_v6 l)); reflexivity].
  erewrite bind_ret; [|apply (wrapped_ok _ _ _ 0); [|done]; unfold sys_listen; erewrite on_socket_last by (simpl; by rewrite lookup_insert_eq);
    erewrite bind_ret by (apply answer_granted; by right); reflexivity].
  unfold ret, opened, with_answers, with_fds. simpl. by rewrite Ha, !insert_insert_eq.
Qed.
(** The same calls from main. *)
Lemma tcp_listen_main {A} (K : Z -> prog cmain A) l m :
  kernel_ok (m_kernel m) -> 0 < room (m_kernel m) -> answers (m_kernel m) = [] ->
  (let! f := on_mk (Socket (if is_v6 l then AF_INET6 else AF_INET)) in
   do! on_mk (sys_nonblock f) in
   do! on_mk (sys_reuseaddr f) in
   do! on_mk (Bind f (ztake (if is_v6 l then 28 else 16) (any_addr l))) in
   do! on_mk (Listen f (l_backlog l)) in
   K f) m = K (lowest (fds (m_kernel m))) (with_m_kernel (opened (bound l) (m_kernel m)) m).
Proof.
  intros Hk Hr Ha. pose proof (tcp_listen l (m_kernel m) Hk Hr Ha) as H. cbv zeta in H. revert H. unfold on_mk, zoom, bind.
  destruct (Socket _ _) as [f k1| |]; [|done..]. cbn [m_kernel with_m_kernel]. destruct (sys_nonblock f k1) as [? k2| |]; [|done..]. cbn [m_kernel with_m_kernel].
  destruct (sys_reuseaddr f k2) as [? k3| |]; [|done..]. cbn [m_kernel with_m_kernel]. destruct (Bind f _ k3) as [? k4| |]; [|done..]. cbn [m_kernel with_m_kernel].
  destruct (Listen f _ k4) as [? k5| |]; [|done..]. by intros [= <- <-].
Qed.

Lemma add_listener_ok index l m :
  going m -> (parses l = true -> 0 < room (m_kernel m)) -> Forall parts_ok (listener_logs index (kerrno (m_kernel m)) l) ->
  exists k lg os, add_listener page now strerror pton4 pton6 index l m = Ret tt (with_m_accepts (m_accepts m ++ os) (with_m_log lg (with_m_kernel k m))) /\
    going (with_m_log lg (with_m_kernel k m)) /\ kerrno k = kerrno (m_kernel m) /\
    log_wire lg = log_wire (m_log m) ++ text_bytes now (listener_logs index (kerrno (m_kernel m)) l) /\
    room k = room (m_kernel m) - Z.of_nat (length os) /\ Forall2 (listens k) (if parses l then [l] else []) os /\
    (forall f s, fds (m_kernel m) !! f = Some s -> fds k !! f = Some s).
Proof.
  intros [HW Hb Hk Ha] Hr HF. unfold listener_logs in *. apply Forall_cons in HF as [Hok HF]. unfold add_listener.
  destruct (mlog_ok page now Hpage DEBUG (attempt_parts l) m HW Hok) as (l1&Hr1&HW1&Hb1&_). destruct (Hb1 Hb) as [Hs1 Hw1]. run_step Hr1.
  rewrite listener_addr_any. destruct (parses l).
  - rewrite (tcp_listen_main _ l (with_m_log l1 m)) by (done || by apply Hr). cbn [m_kernel with_m_log]. unfold bc_accept_ctor.
    set (m1 := with_m_kernel _ _). apply Forall_cons in HF as [Hok2 _].
    destruct (mlog_ok page now Hpage DEBUG _ m1 HW1 Hok2) as (l2&Hr2&HW2&Hb2&_). destruct (Hb2 Hs1) as [Hs2 Hw2].
    destruct (opened_ok (bound l) (m_kernel m) Hk (Hr eq_refl)) as (Hk2&Hr2'&_). destruct (lowest_spec (fds (m_kernel m))) as [_ Hfree].
    exists (opened (bound l) (m_kernel m)), l2, [(io_start (EvIo (lowest (fds (m_kernel m))) ev_READ false), any_addr l)].
    split; [unfold bind at 1; erewrite bind_ret by exact Hr2; reflexivity|]. split_and!; try done.
    + rewrite Hw2. unfold m1. cbn [m_log with_m_kernel with_m_log]. rewrite Hw1, <- app_assoc. f_equal. unfold text_bytes. simpl. by rewrite app_nil_r.
    + constructor; [|done]. split_and!; try done. apply opened_last.
    + intros f s Hs. simpl. rewrite lookup_insert_ne by congruence. done.
  - apply Forall_cons in HF as [Hok2 _]. erewrite bind_ret by done. cbn [m_kernel with_m_log].
    destruct (mlog_ok page now Hpage ERROR _ (with_m_log l1 m) HW1 Hok2) as (l2&Hr2&HW2&Hb2&_). destruct (Hb2 Hs1) as [Hs2 Hw2].
    exists (m_kernel m), l2, []. split; [rewrite app_nil_r; etransitivity; [exact Hr2|]; by destruct m|]. split_and!; try done; [|simpl; lia].
    rewrite Hw2. cbn [m_log with_m_log]. rewrite Hw1, <- app_assoc. f_equal. unfold text_bytes. simpl. by rewrite app_nil_r.
Qed.

Lemma add_listeners_ok ls : forall index m,
  going m -> zlen (List.filter parses ls) <= room (m_kernel m) -> Forall parts_ok (listeners_logs index (kerrno (m_kernel m)) ls) ->
  exists k lg os, add_listeners page now strerror pton4 pton6 index ls m = Ret tt (with_m_accepts (m_accepts m ++ os) (with_m_log lg (with_m_kernel k m))) /\
    going (with_m_log lg (with_m_kernel k m)) /\
    log_wire lg = log_wire (m_log m) ++ text_bytes now (listeners_logs index (kerrno (m_kernel m)) ls) /\
    Forall2 (listens k) (List.filter parses ls) os /\
    (forall f s, fds (m_kernel m) !! f = Some s -> fds k !! f = Some s).
Proof.
  induction ls as [|l ls IH]; intros index m Hgo Hr HF.
  - exists (m_kernel m), (m_log m), []. rewrite !app_nil_r. split_and!; try done; [by destruct m|by destruct m].
  - cbn [listeners_logs] in HF. apply Forall_app in HF as [HF1 HF].
    destruct (add_listener_ok index l m Hgo) as (k1&l1&os1&Hrun&Hgo1&He1&Hw1&Hr1&H21&Hf1); [|done|].
    { intros Hp. cbn [List.filter] in Hr. rewrite Hp, zlen_cons in Hr. pose proof (zlen_nonneg (List.filter parses ls)). lia. }
    cbn [add_listeners]. run_step Hrun. set (m1 := with_m_accepts _ _). pose proof (Forall2_length _ _ _ H21) as Hlen.
    destruct (IH (index + 1) m1) as (k&lg&os&Hrun'&Hgo'&Hw'&H2&Hf'); [|unfold m1; cbn [m_kernel with_m_accepts with_m_log with_m_kernel]..|].
    { destruct Hgo1. by split. }
    { rewrite Hr1. cbn [List.filter] in Hr. destruct (parses l); [rewrite zlen_cons in Hr|]; simpl in Hlen; lia. }
    { by rewrite He1. }
    exists k, lg, (os1 ++ os). split; [etransitivity; [exact Hrun'|]; unfold m1; simpl; by rewrite app_assoc|].
    split; [destruct Hgo'; by split|]. split_and!.
    + rewrite Hw'. unfold m1. cbn [m_log m_kernel with_m_accepts with_m_log with_m_kernel]. rewrite Hw1, He1. cbn [listeners_logs].
      unfold text_bytes. by rewrite map_app, concat_app, <- app_assoc.
    + cbn [List.filter]. assert (List.filter parses (l :: ls) = (if parses l then [l] else []) ++ List.filter parses ls) as E by (simpl; by destruct (parses l)).
      cbn [List.filter] in E. rewrite E. apply Forall2_app; [|done]. eapply Forall2_impl; [exact H21|].
      intros x [w a] (?&?&Hx&?). split_and!; try done. by apply Hf'.
    + intros f s Hs. by apply Hf', Hf1.
Qed.

(** What is announced is the configured address with the port, once it parses;
    what is listened on is the port at any address. *)
Lemma external_addr_configured draw ls l a m :
  ls !! Z.to_nat (if zlen ls =? 1 then 0 else draw) = Some l -> 0 <= draw ->
  (if is_v6 l then pton6 (c_string (l_addr l)) else pton4 (c_string (l_addr l))) = Some a ->
  exists out, external_addr page now strerror pton4 pton6 None draw ls m = Ret out m /\ zlen out = SOCKADDR_STORAGE /\
    ztake 4 out = ztake 4 (any_addr l) /\ (if is_v6 l then sin6_addr out else BitcoinWire.sin_addr out) = a.
Proof.
  intros Hl Hd Hp. unfold external_addr. cbv zeta. assert (((if zlen ls =? 1 then 0 else draw) <? 0) = false) as -> by (apply Z.ltb_ge; destruct (zlen ls =? 1); lia).
  rewrite Hl. erewrite bind_ret by done. change (bool_decide (l_family l = text "AF_INET6")) with (is_v6 l). rewrite Hp. unfold any_addr, hton16. rewrite bytes_bswap.
  set (fam := le_bytes 2 (if is_v6 l then AF_INET6 else AF_INET)). set (port := be_bytes 2 _).
  assert (zlen fam = 2) as Hf by done. assert (zlen port = 2) as Hq by done.
  change (zrep SOCKADDR_STORAGE 0) with ([] ++ zrep 2 0 ++ zrep 126 0 : list Z). rewrite (splice_mid 0) by done.
  change (zrep 126 0) with (zrep 2 0 ++ zrep 124 0 : list Z). rewrite app_nil_l, (splice_mid 2) by done.
  assert (zlen (fam ++ port ++ zrep 124 0) = 128) as Hz by (by rewrite !zlen_app, Hf, Hq). eexists. split; [reflexivity|].
  assert (zlen a = if is_v6 l then 16 else 4) as Ha by (destruct (is_v6 l); [by eapply pton6_len|by eapply pton4_len]).
  destruct (is_v6 l); (split; [apply splice_len; [done|lia|unfold SOCKADDR_STORAGE; lia]|]); (split; [by rewrite splice_before by lia|]).
  - unfold sin6_addr. apply slice_splice_same; lia.
  - unfold BitcoinWire.sin_addr. apply slice_splice_same; lia.
Qed.
End Listeners.

(** Everything that is logged until the event loop runs. *)
Definition startup_logs (strerror : Z -> list Z) (pton4 pton6 : list Z -> option (list Z)) (commit_hash : list Z) (e : Z) (c : config) : list (Z * list (list Z)) :=
  listeners_logs strerror pton4 pton6 0 e (c_listeners c) ++ config_logs commit_hash c ++ blacklist_logs pton4 pton6 (c_blacklist c).

Definition control_sock_at (c : config) : ksocket :=
  KSocket AF_UNIX true false (Some (unix_addr (c_control_path c))) (Some (c_control_listen c)) None.

(** The steps of main, on a kernel that grants. *)
Lemma with_answers_nil k : answers k = [] -> with_answers [] k = k.
Proof. intros Ha. destruct k. simpl in Ha. by subst. Qed.

Lemma connect_log_ok strerror peer path h m :
  path_ok path = true -> kernel_ok (m_kernel m) -> 0 < room (m_kernel m) -> answers (m_kernel m) = [] ->
  try_network strerror (new_log_buffer peer path) h m =
    Ret tt (with_m_log (with_lb (Some (log_buffer_ctor (lowest (fds (m_kernel m))) peer)) (m_log m))
             (with_m_kernel (opened (KSocket AF_UNIX true false None None (Some (unix_addr path))) (m_kernel m)) m)).
Proof.
  intros Hp Hk Hr Ha. unfold try_network, new_log_buffer, on_mk, bind, zoom. rewrite (unix_sock_client_ok path true (m_kernel m) [] []) by (done || by right).
  by rewrite with_answers_nil.
Qed.

Lemma control_socket_run path n k :
  path_ok path = true -> kernel_ok k -> 0 < room k -> answers k = [] ->
  control_socket path n k =
    Ret (lowest (fds k)) (with_files ({[c_string path]} ∪ sock_files k) (opened (KSocket AF_UNIX true false (Some (unix_addr path)) (Some n) None) k)).
Proof.
  intros Hp Hk Hr Ha. rewrite control_socket_server. rewrite (unix_sock_server_ok path n true k [] [] []) by (done || by right).
  by rewrite with_answers_nil.
Qed.

Lemma control_socket_ok path n m :
  path_ok path = true -> kernel_ok (m_kernel m) -> 0 < room (m_kernel m) -> answers (m_kernel m) = [] ->
  on_mk (control_socket path n) m =
    Ret (lowest (fds (m_kernel m))) (with_m_kernel (with_files ({[c_string path]} ∪ sock_files (m_kernel m))
      (opened (KSocket AF_UNIX true false (Some (unix_addr path)) (Some n) None) (m_kernel m))) m).
Proof. intros Hp Hk Hr Ha. unfold on_mk. apply zoom_ret. by apply control_socket_run. Qed.

(** C23. The connector starts up: with enough descriptors and a kernel that
    grants what is asked for, main reaches the event loop. Then every listener
    of the configuration whose address parses has a non-blocking socket that
    accepts on its port at any address of its family (the configured address
    itself is not used), the others are left out, the control socket listens, an
    address is blacklisted exactly when a line of the blacklist names it, and
    the log server gets the records of all this, in order and nothing else. *)
Theorem connector_set_up page now strerror pton4 pton6 commit_hash peer limit c k l lines :
  0 < page <= 2 ^ 62 -> (forall x a, pton4 x = Some a -> zlen a = 4) -> (forall x a, pton6 x = Some a -> zlen a = 16) ->
  999900 <= limit -> kernel_ok k -> answers k = [] -> 2 + zlen (List.filter (parses pton4 pton6) (c_listeners c)) <= room k ->
  path_ok (c_root c ++ text "servers") = true -> path_ok (c_control_path c) = true -> c_blacklist c = Some lines ->
  LWF l -> g_log_cursor l = 0 -> tx peer = [] -> Forall parts_ok (startup_logs strerror pton4 pton6 commit_hash (kerrno k) c) ->
  exists m', connector_main page now strerror pton4 pton6 commit_hash peer (Some limit) 0 c (CMain k l [] [] None false false) = Ret None m' /\
    Forall2 (listens (m_kernel m')) (List.filter (parses pton4 pton6) (c_listeners c)) (m_accepts m') /\
    (exists w, m_control m' = Some w /\ io_on w = true /\ io_ev w = ev_READ /\ fds (m_kernel m') !! fd w = Some (control_sock_at c)) /\
    (forall a, Blacklist.count (m_blacklist m') a = existsb (fun x => names pton4 pton6 x a) lines) /\
    log_wire (m_log m') = text_bytes now (startup_logs strerror pton4 pton6 commit_hash (kerrno k) c) /\
    m_watches m' = true /\ m_sigpipe m' = true.
Proof.
  intros Hpage H4 H6 Hlim Hk Ha Hr Hps Hpc Hbl HW Hc0 Htx HF. pose proof (zlen_nonneg (List.filter (parses pton4 pton6) (c_listeners c))) as Hz.
  unfold startup_logs in *. apply Forall_app in HF as [HF1 HF2]. apply Forall_app in HF2 as [HF2 HF3].
  unfold connector_main. destruct (Z.ltb_spec limit 999900); [lia|]. cbn [negb Z.eqb]. erewrite bind_ret by done.
  erewrite bind_ret by (apply connect_log_ok; [exact Hps|exact Hk|change (0 < room k); lia|exact Ha]). erewrite bind_ret by done.
  set (sl := KSocket AF_UNIX true false None None (Some (unix_addr (c_root c ++ text "servers")))).
  set (m1 := CMain (opened sl k) (with_lb (Some (log_buffer_ctor (lowest (fds k)) peer)) l) [] [] None true true).
  match goal with |- context [bind (on_mk (control_socket _ _)) _ ?s] => change s with m1 end.
  destruct (opened_ok sl k Hk) as (Hk1&Hr1&_); [lia|].
  erewrite bind_ret by (apply control_socket_ok; [exact Hpc|exact Hk1|change (0 < room (opened sl k)); lia|exact Ha]).
  set (k2 := with_files _ _). destruct (opened_ok (control_sock_at c) (opened sl k) Hk1) as (Hk2&Hr2&_); [lia|].
  assert (going (with_m_kernel k2 m1)) as Hgo.
  { split; [|by eexists|exact Hk2|exact Ha]. destruct HW as [HQ Hcu]. split; [|done]. intros b [= <-]. apply write_buffer_ctor_QWF. }
  destruct (add_listeners_ok page now strerror pton4 pton6 Hpage H4 H6 (c_listeners c) 0 (with_m_kernel k2 m1) Hgo) as (k3&l3&os&Hrun&Hgo3&Hw3&H2&Hf3);
    [change (zlen (List.filter (parses pton4 pton6) (c_listeners c)) <= room (opened (control_sock_at c) (opened sl k))); lia|exact HF1|].
  run_step Hrun. erewrite bind_ret by done. set (m3 := with_m_control _ _). destruct Hgo3 as [HW3 Hb3 _ _].
  destruct (mlogs_ok page now Hpage (config_logs commit_hash c) m3 HW3 Hb3 HF2) as (l4&Hr4&HW4&Hb4&Hw4). run_step Hr4.
  unfold reload_blacklist. rewrite Hbl in *. set (m4 := with_m_blacklist (fst (load_blacklist pton4 pton6 lines)) (with_m_log l4 m3)).
  destruct (mlogs_ok page now Hpage (blacklist_logs pton4 pton6 (Some lines)) m4 HW4 Hb4 HF3) as (l5&Hr5&_&_&Hw5).
  erewrite bind_ret; [|erewrite bind_ret by done; exact Hr5]. eexists. split; [reflexivity|].
  cbn [m_kernel m_log m_blacklist m_accepts m_control m_watches m_sigpipe with_m_log with_m_blacklist with_m_control with_m_accepts with_m_kernel m4 m3 m1]. split_and!.
  - exact H2.
  - eexists. split_and!; [reflexivity|done|done|]. apply Hf3. apply opened_last.
  - intros a. unfold load_blacklist. rewrite load_lines_spec; [done|exact H4|exact H6|done].
  - rewrite Hw5. cbn [m_log m4 with_m_blacklist with_m_log]. rewrite Hw4. unfold m3. cbn [m_log with_m_control with_m_accepts with_m_log]. rewrite Hw3.
    assert (log_wire (m_log (with_m_kernel k2 m1)) = []) as -> by (unfold log_wire; simpl; rewrite Htx, Hc0; by rewrite ztake_neg).
    unfold text_bytes. rewrite !map_app, !concat_app. by rewrite <- !app_assoc.
  - done.
  - done.
Qed.

Definition demo_pton4 (x : list Z) : option (list Z) := if bool_decide (x = text "127.0.0.1") then Some [127; 0; 0; 1] else None.
Definition demo_config : config :=
  Config (text "/tmp/log/") (text "/tmp/control") 5
    [Listener (text "AF_INET") (text "127.0.0.1") 8333 10; Listener (text "AF_INET6") (text "nowhere") 8333 10]
    [text "version = 1"] (Some [text "127.0.0.1"; text "x"]).

Lemma connector_set_up_witness :
  exists m' w, connector_main 4096 0 (fun _ => text "error") demo_pton4 (fun _ => None) (text "abc") (Sock [] [] [] 0) (Some 999900) 0 demo_config
      (CMain (Kernel ∅ 999900 ∅ ∅ [] 0) (Logger None 0 [] [] []) [] [] None false false) = Ret None m' /\
    m_accepts m' = [w] /\ snd w = [2; 0; 32; 141] ++ zrep 124 0 /\ Blacklist.count (m_blacklist m') ([2; 0; 0; 0; 127; 0; 0; 1] ++ zrep 120 0) = true.
Proof.
  destruct (connector_set_up 4096 0 (fun _ => text "error") demo_pton4 (fun _ => None) (text "abc") (Sock [] [] [] 0) 999900 demo_config
    (Kernel ∅ 999900 ∅ ∅ [] 0) (Logger None 0 [] [] []) [text "127.0.0.1"; text "x"]) as (m'&Hr&H2&_&Hb&_).
  - lia.
  - intros x a. unfold demo_pton4. case_bool_decide; [|discriminate]. intros E. injection E as <-. reflexivity.
  - intros x a H. discriminate H.
  - lia.
  - intros f [x Hx]. done.
  - reflexivity.
  - vm_compute. congruence.
  - reflexivity.
  - reflexivity.
  - reflexivity.
  - split; [by intros|vm_compute; split; congruence].
  - reflexivity.
  - reflexivity.
  - repeat constructor; try discriminate; vm_compute; reflexivity.
  - change (List.filter (parses demo_pton4 (fun _ => None)) (c_listeners demo_config)) with [Listener (text "AF_INET") (text "127.0.0.1") 8333 10] in H2.
    apply Forall2_cons_inv_l in H2 as (w&os&(_&_&_&Hw)&Hn%Forall2_nil_inv_l&He). exists m', w. split; [exact Hr|]. split; [rewrite He, Hn; reflexivity|].
    split; [rewrite Hw; reflexivity|]. rewrite Hb. reflexivity.
Defined.
