(* ===== verification/ConnectorParts.v ===== *)
(** * Function statics and destructors of the connector

    user_agent and get_randping of connector/src/bitcoin_handler.cpp with their
    static variables, and the destructors of the three accept handlers
    (bitcoin_handler.cpp, command_handler.cpp, shared/includes/accept_handler.hpp)
    on the table of descriptors. *)

From S2P Require Import Prelude.
From S2P Require Import Bytes.
From S2P Require Import Net.
From S2P Require Import Logger.
From S2P Require Import BitcoinHandler.
From S2P Require Import Descriptors.
From S2P Require Import LogServerMain.
From S2P Require Import ConnectorMain.

(** ** user_agent *)

(** The statics and cout. *)
Record agent_state := AgentState { ua_loaded : bool; ua_agent : list Z; ua_cout : list Z }.

(** user_agent; [setting] is connector.user_agent at the time of the call. *)
Definition user_agent (setting : list Z) : prog agent_state (list Z) :=
  let! s := get in
  do! (if negb (ua_loaded s) then modify (fun s => AgentState (ua_loaded s) setting (ua_cout s)) else ret tt) in
  do! modify (fun s => AgentState (ua_loaded s) (ua_agent s) (ua_cout s ++ text "agent set to " ++ ua_agent s ++ [10])) in
  let! s := get in
  ret (ua_agent s).

(** The calls of a run, each with the setting at its time. *)
Fixpoint user_agents (settings : list (list Z)) : prog agent_state (list (list Z)) :=
  match settings with
  | [] => ret []
  | x :: settings => let! a := user_agent x in let! l := user_agents settings in ret (a :: l)
  end.

(** ** get_randping *)

Section Randping.
(** double, the state of the generator, its seeding, and a draw of the normal
    distribution with a mean and a deviation. *)
Context {double gen : Type} (seed : Z -> gen) (draw : double * double -> gen -> double * gen).

(** [gen] and [dist] once they are made, and g_active_ping_iv. *)
Record ping_state := PingState { rp_gen : option gen; rp_dist : option (double * double); rp_iv : double }.

(** get_randping: the time and the pid of the first call seed the generator;
    [cfg] is the mean and the deviation of the configuration. *)
Definition get_randping (time pid : Z) (cfg : double * double) : prog ping_state double := fun s =>
  let g := default (seed (time + pid)) (rp_gen s) in
  let '(dist, iv) := match rp_dist s with Some d => (d, rp_iv s) | None => (cfg, fst cfg) end in
  let '(rv, g) := draw dist g in
  Ret rv (PingState (Some g) (Some dist) iv).

Fixpoint randpings (pid : Z) (calls : list (Z * (double * double))) : prog ping_state (list double) :=
  match calls with
  | [] => ret []
  | c :: calls => let! x := get_randping (fst c) pid (snd c) in let! l := randpings pid calls in ret (x :: l)
  end.

(** [n] draws from one distribution. *)
Fixpoint sample (d : double * double) (n : nat) (g : gen) : list double :=
  match n with
  | O => []
  | S n => let '(x, g) := draw d g in x :: sample d n g
  end.
End Randping.

(** ** Destructors *)

(** bitcoin::accept_handler::~accept_handler *)
Definition bc_accept_dtor (page now : Z) (w : evio) : prog cmain evio :=
  do! mlog page now DEBUG [text "bitcoin accept handler destroyed"] in
  do! on_mk (sys_close (fd w)) in
  ret (io_set_fd (-1) (io_stop w)).

(** ctrl::accept_handler::~accept_handler *)
Definition ctrl_accept_dtor (w : evio) : prog kernel evio :=
  do! sys_close (fd w) in
  ret (io_stop w).

(** handlers::accept_handler<T>::~accept_handler *)
Definition accept_dtor (w : evio) : prog kernel evio :=
  let w := io_stop w in
  do! sys_close (fd w) in
  ret w.

(** ** Properties *)

(** Each call gives the setting at its time, because [loaded] is never set, and
    says so on cout. *)
Theorem user_agent_reads_again settings s :
  ua_loaded s = false ->
  exists s', user_agents settings s = Ret settings s' /\ ua_loaded s' = false /\
    ua_cout s' = ua_cout s ++ concat (map (fun x => text "agent set to " ++ x ++ [10]) settings).
Proof.
  revert s. induction settings as [|x l IH]; intros [b a o] Hb; cbn in Hb; subst b.
  - exists (AgentState false a o). by rewrite app_nil_r.
  - destruct (IH (AgentState false x (o ++ text "agent set to " ++ x ++ [10]))) as (s'&Hr&Hl&Ho); [done|].
    exists s'. split_and!; [|done|].
    + cbn [user_agents]. erewrite bind_ret by reflexivity. by run_step Hr.
    + rewrite Ho. cbn [ua_cout map concat]. by rewrite <- app_assoc.
Qed.

Lemma user_agent_reads_again_witness :
  exists s', user_agents [text "a"; text "b"] (AgentState false [] []) = Ret [text "a"; text "b"] s' /\ ua_loaded s' = false.
Proof.
  destruct (user_agent_reads_again [text "a"; text "b"] (AgentState false [] [])) as (s'&Hr&Hl&_); [reflexivity|].
  exists s'. split; [exact Hr|exact Hl].
Defined.

(** The distribution is made once: whatever the configuration says later, all
    intervals are draws of one generator, seeded at the first call, from the mean
    and the deviation of the first call, and the mean is the status flag. *)
Theorem randpings_fixed {double gen} (seed : Z -> gen) (draw : double * double -> gen -> double * gen) pid t cfg calls iv :
  exists s, randpings seed draw pid ((t, cfg) :: calls) (PingState None None iv) =
      Ret (sample draw cfg (S (length calls)) (seed (t + pid))) s /\ rp_dist s = Some cfg /\ rp_iv s = fst cfg.
Proof.
  assert (forall calls g, exists s, randpings seed draw pid calls (PingState (Some g) (Some cfg) (fst cfg)) = Ret (sample draw cfg (length calls) g) s /\
    rp_dist s = Some cfg /\ rp_iv s = fst cfg) as Hrest.
  { clear. induction calls as [|c calls IH]; intros g; [by eexists|]. cbn [randpings length sample]. destruct (draw cfg g) as [x g'] eqn:Hd.
    destruct (IH g') as (s&Hr&?). exists s. split; [|done]. unfold get_randping. erewrite bind_ret by (simpl; rewrite Hd; reflexivity). by run_step Hr. }
  cbn [randpings sample fst snd]. destruct (draw cfg (seed (t + pid))) as [x g'] eqn:Hd. destruct (Hrest calls g') as (s&Hr&?). exists s. split; [|done].
  unfold get_randping. erewrite bind_ret by (simpl; rewrite Hd; reflexivity). by run_step Hr.
Qed.

(** A closed descriptor is free again, the others are left alone. *)
Lemma sys_close_ok f s k :
  fds k !! f = Some s -> sys_close f k = Ret 0 (with_fds (delete f (fds k)) k).
Proof. intros Hf. unfold sys_close. by erewrite on_socket_last by exact Hf. Qed.

(** The accept handlers give back what they were made with: constructed on an open
    descriptor and destroyed, they leave the watcher stopped and the table
    without this descriptor and otherwise as it was. *)
Theorem accept_handlers_release page now f s k m :
  0 < page <= 2 ^ 62 -> fds k !! f = Some s -> m_kernel m = k -> LWF (m_log m) ->
  (exists w, ctrl_accept_dtor (ctrl_accept_ctor f) k = Ret w (with_fds (delete f (fds k)) k) /\ io_on w = false) /\
  (exists w, accept_dtor (accept_ctor f) k = Ret w (with_fds (delete f (fds k)) k) /\ io_on w = false) /\
  (exists w1 m1 w m', bc_accept_ctor page now f m = Ret w1 m1 /\ bc_accept_dtor page now w1 m1 = Ret w m' /\
     io_on w = false /\ fd w = -1 /\ fds (m_kernel m') = delete f (fds k)).
Proof.
  intros Hp Hf Hm HW. pose proof (sys_close_ok f s k Hf) as Hc. split_and!.
  - eexists. split; [unfold ctrl_accept_dtor, ctrl_accept_ctor; by run_step Hc|done].
  - eexists. split; [unfold accept_dtor, accept_ctor; by run_step Hc|done].
  - assert (forall t : string, parts_ok (DEBUG, [text t]) -> forall m, LWF (m_log m) -> exists l, mlog page now DEBUG [text t] m = Ret tt (with_m_log l m) /\ LWF l) as Hlog.
    { intros t Ht m0 HW0. destruct (mlog_ok page now Hp DEBUG [text t] m0 HW0 Ht) as (l&?&?&_). by exists l. }
    destruct (Hlog "bitcoin accept initializer initiated, awaiting incoming client connections"%string) with (m := m) as (l1&Hr1&HW1); [|done|].
    { vm_compute. split; congruence. }
    destruct (Hlog "bitcoin accept handler destroyed"%string) with (m := with_m_log l1 m) as (l2&Hr2&HW2); [|done|].
    { vm_compute. split; congruence. }
    eexists _, _, _, _. split; [unfold bc_accept_ctor; by run_step Hr1|]. split.
    + unfold bc_accept_dtor. run_step Hr2. rewrite <- Hm in Hc. erewrite bind_ret by (unfold on_mk; eapply zoom_ret; exact Hc). reflexivity.
    + simpl. by rewrite Hm.
Qed.
