(* ===== verification/Programs.v ===== *)
(** * Small programs: get_nodes and connect, and getaddr's own addresses

    clients/get_nodes.cpp prints the connections and writes their addresses to a
    file that is mapped into memory; clients/connect.cpp asks for one connection
    and prints what becomes of it; main of clients/getaddr.cpp collects the
    addresses of the listeners, from which it tells which connections are
    inbound. *)

From S2P Require Import Prelude.
From S2P Require Import Bytes.
From S2P Require Import WrappedBuffer.
From S2P Require Import Net.
From S2P Require Import ReadBuffer.
From S2P Require Import BitcoinWire.
From S2P Require Import Logger.
From S2P Require Import BitcoinHandler.
From S2P Require Import CtrlMsg.
From S2P Require Import CommandHandler.
From S2P Require Import LogFormat.
From S2P Require Import ClientReader.
From S2P Require Import LogReader.
From S2P Require Import Printing.
From S2P Require Import Console.
From S2P Require Import BcWatch.
From S2P Require Import ClientLib.
From S2P Require Import GetAddr.
From S2P Require Import Descriptors.
From S2P Require Import ConnectorMain.

(** ** get_nodes *)

(** The locals of main: the mapping, if there is one, and what was printed. *)
Record nodes := Nodes { n_data : option (list Z); n_out : list Z }.

(** while(++mult * page_size < need); *)
Fixpoint node_pages (fuel : nat) (page_size need mult : Z) : Z :=
  let mult := u64 (mult + 1) in
  match fuel with
  | O => mult
  | S fuel => if u64 (mult * page_size) <? need then node_pages fuel page_size need mult else mult
  end.

Section GetNodes.
(** The page size; what mkstemp, ftruncate and mmap answer ([Some e] is a
    failure); the text form of IPv6 addresses. *)
Context (page_size : Z) (answer : option Z) (inet_ntop6 : list Z -> list Z).

Definition rule : list Z := zrep 72 45.

(** cout << *addr, where the structure at [off] is taken for a sockaddr. *)
Definition print_addr_at (off : Z) (mem : list Z) : prog nodes (list Z) :=
  let a := zdrop off mem in
  if zlen a <? (if ss_family a =? AF_INET6 then 24 else 8) then crash OutOfBounds
  else print_addr inet_ntop6 a.

(** memcpy(data + elt, &info->remote_addr, sizeof(info->remote_addr)): the 19
    bytes of a wire_addr to an element of an array of sockaddr_in. *)
Definition node_copy (info : list Z) (elt : Z) : prog nodes unit :=
  let! n := get in
  let! data := deref NullDeref (n_data n) in
  let off := SOCKADDR_IN * elt in
  if zlen data <? off + WIRE_ADDR then crash OutOfBounds
  else put (Nodes (Some (splice off (slice 4 WIRE_ADDR info) data)) (n_out n)).

Definition nodes_say (t : list Z) : prog nodes unit := modify (fun n => Nodes (n_data n) (n_out n ++ t)).

(** The callback: the record is printed, and its address copied. *)
Definition node_cb (info : list Z) (elt : Z) : prog nodes unit :=
  do! nodes_say (text "handle_id: " ++ number (ntoh32 (le_val (slice 0 4 info))) ++ [10]) in
  let! remote := print_addr_at 4 info in
  do! nodes_say (text "remote: " ++ remote ++ [10]) in
  let! local := print_addr_at 23 info in
  do! nodes_say (text "local: " ++ local ++ [10]) in
  do! nodes_say (rule ++ [10]) in
  node_copy info elt.

(** callgen: a file of whole pages for that many sockaddr_in. *)
Definition node_callgen (addresses : Z) : prog nodes (list Z -> Z -> prog nodes unit) :=
  if addresses =? 0 then ret (fun _ _ => ret tt)
  else
    let need := u64 (addresses * SOCKADDR_IN) in
    let mult := node_pages (Z.to_nat need) page_size need 0 in
    match answer with
    | Some _ => raise (RuntimeError "strerror")
    | None =>
        do! modify (fun n => Nodes (Some (zrep (u64 (mult * page_size)) 0)) (n_out n)) in
        ret node_cb
    end.

Definition get_nodes_main : prog (nodes * sock) Z := get_all_cxn_gen node_callgen.
End GetNodes.

(** ** connect *)

Section Connect.
Context (page : Z) (pton4 : list Z -> option (list Z)) (inet_ntop6 : list Z -> list Z).

(** cout << msg->text: up to the NUL. *)
Definition msg_text (m : bc_channel_msg) : prog (list Z) (list Z) :=
  if bm_text_len m =? 0 then ret []
  else let! t := deref OutOfBounds (until_nul (bm_text m)) in ret ([9] ++ text "text: " ++ t ++ [10]).

(** The two callbacks; the state is what cout has got. *)
Definition connect_report (m : bc_channel_msg) : prog (list Z) unit :=
  let! remote := print_addr inet_ntop6 (bm_remote m) in
  let! local := print_addr inet_ntop6 (bm_local m) in
  let! t := msg_text m in
  modify (fun out => out ++ text "Successful connect. Details follow: " ++ [10] ++
    [9] ++ text "source: " ++ number (bm_source m) ++ [10] ++
    [9] ++ text "time: " ++ number (bm_timestamp m) ++ [10] ++
    [9] ++ text "handle_id: " ++ number (bm_handle_id m) ++ [10] ++
    [9] ++ text "update_type: " ++ number (bm_update_type m) ++ [10] ++
    [9] ++ text "remote: " ++ remote ++ [10] ++
    [9] ++ text "local: " ++ local ++ [10] ++
    [9] ++ text "text_length: " ++ number (bm_text_len m) ++ [10] ++ t).

Definition failure_report (m : bc_channel_msg) : prog (list Z) unit :=
  let! remote := print_addr inet_ntop6 (bm_remote m) in
  let! t := msg_text m in
  modify (fun out => out ++ text "Unsuccessful connect. Details follow: " ++ [10] ++
    [9] ++ text "source: " ++ number (bm_source m) ++ [10] ++
    [9] ++ text "time: " ++ number (bm_timestamp m) ++ [10] ++
    [9] ++ text "update_type: " ++ number (bm_update_type m) ++ [10] ++
    [9] ++ text "remote: " ++ remote ++ [10] ++
    [9] ++ text "text_length: " ++ number (bm_text_len m) ++ [10] ++ t).

(** A sockaddr_in with this address and port. *)
Definition sockaddr_for (a : list Z) (port : Z) : list Z :=
  let s := splice 0 (le_bytes 2 AF_INET) (zrep SOCKADDR_IN 0) in
  splice 2 (le_bytes 2 (hton16 port)) (splice 4 a s).

(** main on the control socket and the watcher; the value is the exit status,
    [None] while the watcher waits. *)
Definition connect_main : prog (sock * lreader (list Z)) (option Z) :=
  match pton4 (text "xxx173.69.49.106") with
  | None => ret (Some 1)
  | Some remote =>
      match pton4 (text "127.0.0.1") with
      | None => ret (Some 1)
      | Some local =>
          let p := serialize (connect_msg page (sockaddr_for remote 8333) (sockaddr_for local 57005)) in
          let! r := zoom fst (fun k s => (k, snd s)) (write (ztake (snd p) (fst p))) in
          if negb (r =? snd p) then ret (Some 1)
          else
            let! done := zoom snd (fun w s => (fst s, w)) (loop_once page connect_report failure_report) in
            ret (if done then Some 0 else None)
      end
  end.
End Connect.

(** ** What get_nodes writes *)

(** A callback that faults takes the loop with it. *)
Lemma cxn_loop_fault {S} (callback : list Z -> Z -> prog S unit) l fuel i (s : S) k rest f :
  Forall (fun x => zlen x = CONNECTION_INFO) l -> (length l < fuel)%nat ->
  avail (rx k) = concat l ++ rest -> ClientLib.each_record callback l i s = Fault f ->
  cxn_loop callback fuel (CONNECTION_INFO * zlen l) i (s, k) = Fault f.
Proof.
  intros HF. revert fuel i s k. induction HF as [|x l Hx HF IH]; intros fuel i s k Hf Ha He; [done|].
  destruct fuel as [|fuel]; [simpl in Hf; lia|]. cbn [cxn_loop ClientLib.each_record concat] in *. rewrite <- app_assoc in Ha.
  rewrite zlen_cons. pose proof (zlen_nonneg l). unfold CONNECTION_INFO in *. destruct (Z.ltb_spec 0 (42 * (1 + zlen l))); [|lia].
  destruct (recv_waitall_spec 42 k) as (k1&Hv&Ha1&_&Hx1); [rewrite Ha, zlen_app; pose proof (zlen_nonneg (concat l ++ rest)); lia|].
  erewrite bind_ret by (unfold on_sock; eapply zoom_ret, Hv). cbn [fst snd]. rewrite Z.eqb_refl. cbn [negb].
  rewrite Ha in *. rewrite (ztake_app_exact 42), (zdrop_app_exact 42) in * by lia. unfold bind, on_fst, zoom in *. cbn [fst snd].
  destruct (callback x i s) as [[] s1|e s1|f1]; [|done|by injection He as ->].
  rewrite <- (IH fuel (i + 1) s1 k1); [f_equal; lia|simpl in Hf; lia|done|done].
Qed.

(** The answer of the connector arrives. *)
Lemma get_all_cxn_gen_run {S} (callgen : Z -> prog S (list Z -> Z -> prog S unit)) callback l (s s1 : S) k rest :
  Forall (fun x => zlen x = CONNECTION_INFO) l -> 0 < zlen l < 2 ^ 26 -> takes (wx k) (MESSAGE + COMMAND_MSG) = true ->
  avail (rx k) = be_bytes 4 (CONNECTION_INFO * zlen l) ++ concat l ++ rest -> callgen (zlen l) s = Ret callback s1 ->
  (forall s', ClientLib.each_record callback l 0 s1 = Ret tt s' -> exists k', get_all_cxn_gen callgen (s, k) = Ret (zlen l) (s', k')) /\
  (forall f, ClientLib.each_record callback l 0 s1 = Fault f -> get_all_cxn_gen callgen (s, k) = Fault f).
Proof.
  intros HF Hn Ht Ha Hc. unfold get_all_cxn_gen, CONNECTION_INFO in *.
  destruct (get_all_cxn_prefix_spec k (42 * zlen l) (concat l ++ rest)) as (k1&Hp&_&Ha1); [done|lia|done|].
  assert (forall X (K : Z -> prog (S * sock) X), (let! len := on_sock get_all_cxn_prefix in K len) (s, k) = K (42 * zlen l) (s, k1)) as Hstep
    by (intros; erewrite bind_ret by (unfold on_sock; eapply zoom_ret; exact Hp); done).
  rewrite !Hstep. cbv beta. rewrite Z.mul_comm, Z_mod_mult, Z_div_mult by lia. destruct (Z.eqb_spec (zlen l) 0); [lia|].
  assert (forall X (K : _ -> prog (S * sock) X), (let! cb := zoom fst (fun (x : S) (s : S * sock) => (x, snd s)) (callgen (zlen l)) in K cb) (s, k1) = K callback (s1, k1)) as Hgen
    by (intros; erewrite bind_ret by (eapply zoom_ret; exact Hc); done).
  split; intros; erewrite bind_ret by done; cbv zeta; rewrite Hgen.
  - destruct (cxn_loop_spec callback l (Datatypes.S (Z.to_nat (zlen l))) 0 s1 s' k1 rest) as (k2&Hr&_); [done|unfold zlen; lia|done|done|].
    unfold CONNECTION_INFO in Hr. rewrite Z.mul_comm in Hr. run_step Hr. by eexists.
  - unfold bind. rewrite (Z.mul_comm (zlen l)). fold CONNECTION_INFO. erewrite (cxn_loop_fault callback l); [done|done|unfold zlen; lia|done|done].
Qed.

Section Nodelist.
Context (page_size : Z) (inet_ntop6 : list Z -> list Z).
Hypothesis Hpage : 0 < page_size <= 2 ^ 30.

Lemma node_pages_ok fuel need mult :
  0 <= mult -> 0 < need < 2 ^ 32 -> mult * page_size < need -> need <= mult + Z.of_nat fuel ->
  let r := node_pages fuel page_size need mult in need <= r * page_size /\ (r - 1) * page_size < need /\ 0 < r.
Proof.
  revert mult. induction fuel as [|fuel IH]; intros mult Hm Hn Hlt Hf; [nia|].
  assert (mult <= need) by nia. cbn [node_pages]. cbv zeta.
  rewrite (u64_small (mult + 1)) by nia. rewrite (u64_small ((mult + 1) * page_size)) by nia.
  destruct (Z.ltb_spec ((mult + 1) * page_size) need); [apply IH; nia|]. nia.
Qed.

(** The bytes of the mapping for all pages that [n] addresses need. *)
Definition map_size (n : Z) : Z := node_pages (Z.to_nat (n * 16)) page_size (n * 16) 0 * page_size.

Lemma map_size_ok n : 0 < n < 2 ^ 26 -> n * 16 <= map_size n /\ map_size n < n * 16 + page_size /\ map_size n mod page_size = 0.
Proof.
  intros Hn. destruct (node_pages_ok (Z.to_nat (n * 16)) (n * 16) 0) as (H1&H2&H3); [lia..|]. unfold map_size. split_and!; [lia|nia|].
  apply Z_mod_mult.
Qed.

(** There is room behind the last address unless the pages are full. *)
Lemma map_size_room n :
  0 < n < 2 ^ 26 -> page_size mod 16 = 0 ->
  ((16 * n) mod page_size = 0 -> map_size n = 16 * n) /\ ((16 * n) mod page_size <> 0 -> 16 * n + 16 <= map_size n).
Proof.
  intros Hn H16. destruct (map_size_ok n Hn) as (H1&H2&H3). assert (map_size n mod 16 = 0) as Hd.
  { apply Z.mod_divide; [lia|]. apply Z.mod_divide in H3; [|lia]. apply Z.mod_divide in H16; [|lia]. by etransitivity. }
  pose proof (Z.div_mod (map_size n) 16 ltac:(lia)). split; intros E.
  - apply Z.mod_divide in E as [q Hq]; [|lia]. apply Z.mod_divide in H3 as [q2 Hq2]; [|lia].
    assert (q <= q2) by (apply (Z.mul_le_mono_pos_r _ _ page_size); lia). assert (q2 < q + 1) by (apply (Z.mul_lt_mono_pos_r page_size); lia).
    by replace q2 with q in Hq2 by lia; rewrite Hq2.
  - destruct (Z.eq_dec (n * 16) (map_size n)) as [E2|E2]; [rewrite Z.mul_comm, E2 in E; done|]. lia.
Qed.

(** Sixteen bytes of every address; the last three of the last one. *)
Fixpoint nodelist (l : list (list Z)) : list Z :=
  match l with
  | [] => []
  | [x] => slice 4 WIRE_ADDR x
  | x :: l => slice 4 SOCKADDR_IN x ++ nodelist l
  end.

Lemma node_copy_ok info elt n data :
  n_data n = Some data ->
  node_copy info elt n = if zlen data <? 16 * elt + 19 then Fault OutOfBounds
                         else Ret tt (Nodes (Some (splice (16 * elt) (slice 4 19 info) data)) (n_out n)).
Proof. intros Hd. unfold node_copy, bind, get, SOCKADDR_IN, WIRE_ADDR. rewrite Hd. simpl. by destruct (zlen data <? _). Qed.

Lemma splice_overlap {A} off a (d1 d2 l : list A) :
  0 <= off -> 0 <= a <= zlen d1 -> zlen d1 <= a + zlen d2 -> off + a + zlen d2 <= zlen l ->
  splice (off + a) d2 (splice off d1 l) = splice off (ztake a d1 ++ d2) l.
Proof.
  intros Ho Ha Hd Hl. unfold splice. assert (zlen (ztake off l) = off) as Hz by (rewrite zlen_ztake; lia).
  rewrite (ztake_app_r (off + a)) by lia. rewrite Hz, (ztake_app_l (off + a - off)) by lia. replace (off + a - off) with a by lia.
  rewrite <- !app_assoc. do 3 f_equal. rewrite zdrop_app_r, zdrop_app_r, zdrop_zdrop by lia. f_equal. rewrite zlen_app, !zlen_ztake. lia.
Qed.

Lemma zlen_nodelist l : l <> [] -> Forall (fun x => zlen x = CONNECTION_INFO) l -> zlen (nodelist l) = 16 * zlen l + 3.
Proof.
  unfold CONNECTION_INFO. intros Hne HF. induction HF as [|x l Hx HF IH]; [done|]. destruct l as [|y l].
  - cbn [nodelist]. rewrite zlen_slice by (unfold WIRE_ADDR; lia). done.
  - change (nodelist (x :: y :: l)) with (slice 4 SOCKADDR_IN x ++ nodelist (y :: l)). rewrite zlen_app, IH by done.
    unfold SOCKADDR_IN. rewrite zlen_slice, (zlen_cons x) by lia. lia.
Qed.

Lemma nodes_written l : forall i n data,
  l <> [] -> Forall (fun x => zlen x = CONNECTION_INFO) l -> n_data n = Some data -> 0 <= i -> 16 * (i + zlen l) <= zlen data ->
  ClientLib.each_record node_copy l i n =
    if zlen data <? 16 * (i + zlen l) + 3 then Fault OutOfBounds
    else Ret tt (Nodes (Some (splice (16 * i) (nodelist l) data)) (n_out n)).
Proof.
  induction l as [|x l IH]; intros i n data Hne HF Hd Hi Hl; [done|]. apply Forall_cons in HF as [Hx HF].
  pose proof (node_copy_ok x i n data Hd) as Hcb. cbn [ClientLib.each_record]. rewrite zlen_cons in *. pose proof (zlen_nonneg l).
  destruct l as [|y l].
  - rewrite zlen_nil in *. replace (16 * (i + (1 + 0)) + 3) with (16 * i + 19) by lia. unfold bind. rewrite Hcb.
    by destruct (zlen data <? 16 * i + 19).
  - rewrite zlen_cons in *. pose proof (zlen_nonneg l). destruct (Z.ltb_spec (zlen data) (16 * i + 19)); [lia|].
    set (data1 := splice _ _ _) in Hcb. unfold CONNECTION_INFO in Hx.
    assert (zlen (slice 4 19 x) = 19) as Hs by (apply zlen_slice; lia).
    assert (zlen data1 = zlen data) as Hz by (unfold data1; apply zlen_splice; lia).
    specialize (IH (i + 1) (Nodes (Some data1) (n_out n)) data1 ltac:(done) HF eq_refl). rewrite Hz in IH.
    replace (16 * (i + 1 + (1 + zlen l)) + 3) with (16 * (i + (1 + (1 + zlen l))) + 3) in IH by lia.
    specialize (IH ltac:(lia) ltac:(lia)). run_step Hcb. rewrite IH. cbn [n_out].
    destruct (Z.ltb_spec (zlen data) (16 * (i + (1 + (1 + zlen l))) + 3)) as [E|E]; [done|]. do 3 f_equal. unfold data1.
    replace (16 * (i + 1)) with (16 * i + 16) by lia.
    rewrite splice_overlap by (rewrite ?zlen_nodelist, ?zlen_cons, ?Hs by done; lia).
    change (nodelist (x :: y :: l)) with (slice 4 SOCKADDR_IN x ++ nodelist (y :: l)). unfold slice, SOCKADDR_IN. by rewrite ztake_ztake.
Qed.
End Nodelist.

(** The list of nodes is not usable as the array of sockaddr_in it is meant
    to be: the 19 bytes of each wire_addr go to an element of 16, so that every
    address but the last loses its port and the last bytes of an IPv6 address to
    the next one; and when the addresses fill their pages exactly, the last copy
    runs out of the mapping. *)
Theorem get_nodes_garbles page_size l out :
  0 < page_size <= 2 ^ 30 -> page_size mod 16 = 0 -> Forall (fun x => zlen x = CONNECTION_INFO) l -> 0 < zlen l < 2 ^ 26 ->
  let n := Nodes (Some (zrep (map_size page_size (zlen l)) 0)) out in
  if (16 * zlen l) mod page_size =? 0
  then ClientLib.each_record node_copy l 0 n = Fault OutOfBounds
  else exists data, ClientLib.each_record node_copy l 0 n = Ret tt (Nodes (Some data) out) /\
    zlen data = map_size page_size (zlen l) /\ ztake (16 * zlen l + 3) data = nodelist l.
Proof.
  intros Hp Hp16 HF Hn n. destruct (map_size_ok page_size Hp (zlen l) Hn) as (Hm1&Hm2&Hm3).
  destruct (map_size_room page_size Hp (zlen l) Hn Hp16) as [Hfull Hroom].
  assert (l <> []) as Hne by (intros ->; unfold zlen in Hn; simpl in Hn; lia).
  set (sz := map_size page_size (zlen l)) in *.
  rewrite (nodes_written l 0 n (zrep sz 0)), zlen_zrep by (done || rewrite ?zlen_zrep; lia).
  destruct (Z.eqb_spec ((16 * zlen l) mod page_size) 0) as [E|E]; [specialize (Hfull E)|specialize (Hroom E)];
    (destruct (Z.ltb_spec (Z.max 0 sz) (16 * (0 + zlen l) + 3)); [done || lia|]); [lia|].
  eexists. split; [done|]. pose proof (zlen_nodelist l Hne HF) as Hz.
  split; [rewrite zlen_splice; rewrite ?zlen_zrep, ?Hz; lia|].
  rewrite <- Hz. change (16 * 0) with 0. etransitivity; [apply (splice_take 0); rewrite zlen_zrep; lia|]. by rewrite ztake_neg.
Qed.

(** ** get_nodes and the connector *)

(** The first two bytes of a wire_addr are never a family of sockets. *)
Lemma wire_no_family a rest :
  zlen a = SOCKADDR_STORAGE ->
  ss_family (sockaddr_to_wire a ++ rest) <> AF_INET /\ ss_family (sockaddr_to_wire a ++ rest) <> AF_INET6.
Proof.
  intros Ha. unfold SOCKADDR_STORAGE in Ha. enough (exists f b, slice 0 2 (sockaddr_to_wire a ++ rest) = [f; b] /\ (f = 0 \/ f = ADDR_FAMILY_IPV4 \/ f = ADDR_FAMILY_IPV6)) as (f&b&H&Hf).
  { unfold ss_family. rewrite H. unfold AF_INET, AF_INET6, ADDR_FAMILY_IPV4, ADDR_FAMILY_IPV6 in *. simpl. lia. }
  unfold sockaddr_to_wire. destruct (_ =? AF_INET); [|destruct (_ =? AF_INET6)].
  - assert (zlen (sin_addr a) = 4) as Hq by (unfold sin_addr; rewrite zlen_slice; lia).
    destruct (sin_addr a) as [|b q]; [done|]. eexists _, b. split; [reflexivity|auto].
  - assert (zlen (sin6_addr a) = 16) as Hq by (unfold sin6_addr; rewrite zlen_slice; lia).
    destruct (sin6_addr a) as [|b q]; [done|]. eexists _, b. split; [reflexivity|auto].
  - eexists _, _. split; [reflexivity|auto].
Qed.

(** get_nodes never gets that far with the connector of this repository: the
    first address it prints is a wire_addr taken for a sockaddr, of no family
    that operator<< knows, and its uninitialised array is read. *)
Theorem get_nodes_undefined page_size inet_ntop6 i h l out k rest :
  0 < page_size <= 2 ^ 30 -> zlen (remote_addr h) = SOCKADDR_STORAGE -> zlen (local_addr h) = SOCKADDR_STORAGE ->
  Forall (fun x => zlen x = CONNECTION_INFO) l -> 1 + zlen l < 2 ^ 26 -> takes (wx k) (MESSAGE + COMMAND_MSG) = true ->
  avail (rx k) = be_bytes 4 (CONNECTION_INFO * (1 + zlen l)) ++ (connection_info i h ++ concat l) ++ rest ->
  get_nodes_main page_size None inet_ntop6 (Nodes None out, k) = Fault Uninitialised.
Proof.
  intros Hp Hr Hl HF Hn Ht Ha. pose proof (zlen_nonneg l). pose proof (zlen_connection_info i h Hr Hl) as Hz.
  set (sz := u64 (node_pages (Z.to_nat (u64 ((1 + zlen l) * 16))) page_size (u64 ((1 + zlen l) * 16)) 0 * page_size)).
  destruct (get_all_cxn_gen_run (node_callgen page_size None inet_ntop6) (node_cb inet_ntop6) (connection_info i h :: l)
    (Nodes None out) (Nodes (Some (zrep sz 0)) out) k rest) as [_ Hf].
  - by constructor.
  - rewrite zlen_cons. lia.
  - done.
  - rewrite zlen_cons. exact Ha.
  - unfold node_callgen. rewrite zlen_cons. destruct (Z.eqb_spec (1 + zlen l) 0); [lia|]. done.
  - apply Hf. cbn [ClientLib.each_record]. unfold bind at 1, node_cb, bind at 1, nodes_say at 1, modify. unfold bind at 1, print_addr_at.
    assert (zdrop 4 (connection_info i h) = sockaddr_to_wire (remote_addr h) ++ sockaddr_to_wire (local_addr h)) as ->
      by (unfold connection_info; apply zdrop_app_exact; by rewrite zlen_le_bytes).
    destruct (wire_no_family (remote_addr h) (sockaddr_to_wire (local_addr h)) Hr) as [H4%Z.eqb_neq H6%Z.eqb_neq].
    rewrite zlen_app, !zlen_sockaddr_to_wire by done. rewrite H6. change (_ <? 8) with false. cbn match.
    unfold print_addr, sockaddr_text. by rewrite H4, H6.
Qed.

(** The connections of an example, in IPv4. *)
Definition demo_info (h : Z) : list Z := be_bytes 4 h ++ ([4; 10; 0; 0; 1] ++ zrep 12 0 ++ [32; 141]) ++ ([4; 10; 0; 0; 2] ++ zrep 12 0 ++ [32; 141]).

Lemma get_nodes_garbles_witness :
  exists data, ClientLib.each_record node_copy [demo_info 3; demo_info 4] 0 (Nodes (Some (zrep (map_size 4096 2) 0)) []) =
      Ret tt (Nodes (Some data) []) /\ zlen data = 4096 /\ ztake 35 data = ([4; 10; 0; 0; 1] ++ zrep 11 0) ++ [4; 10; 0; 0; 1] ++ zrep 12 0 ++ [32; 141].
Proof.
  pose proof (get_nodes_garbles 4096 [demo_info 3; demo_info 4] []) as H. cbv zeta in H.
  assert (((16 * zlen [demo_info 3; demo_info 4]) mod 4096 =? 0) = false) as E by reflexivity. rewrite E in H.
  destruct H as (data&Hr&Hz&Hd).
  - lia.
  - reflexivity.
  - repeat constructor; vm_compute; reflexivity.
  - vm_compute. split; congruence.
  - exists data. split; [exact Hr|]. split; [exact Hz|exact Hd].
Defined.

(** ** The addresses of the listeners *)

Section Bound.
Context (pton4 : list Z -> option (list Z)).

(** The address of an entry of connector.bitcoin.listeners. *)
Definition listener_sin (l : listener) : option sockaddr_in :=
  option_map (fun a => SockaddrIn (le_val a) (hton16 (u16 (l_port l)))) (pton4 (c_string (l_addr l))).

(** The loop of main over the listeners; abort() for an address that does not
    parse. g_bound_addrs is a set under sockaddr_cmp. *)
Fixpoint load_bound (ls : list listener) : prog (list sockaddr_in) unit :=
  match ls with
  | [] => ret tt
  | l :: ls =>
      let! a := deref AssertFailed (listener_sin l) in
      do! modify (fun set => if is_bound set a then set else a :: set) in
      load_bound ls
  end.

(** Addresses are 32 bits wide; then the order, although it has cycles, tells
    different addresses apart. *)
Lemma sockaddr_cmp_neither a b :
  0 <= s_addr a < 2 ^ 32 -> 0 <= s_addr b < 2 ^ 32 -> negb (sockaddr_cmp a b) && negb (sockaddr_cmp b a) = bool_decide (a = b).
Proof.
  intros Ha Hb. unfold sockaddr_cmp. rewrite !s32_u32. assert (s32 (s_addr a - s_addr b) = 0 -> s_addr a = s_addr b) as H0.
  { unfold s32. intros H. Z.div_mod_to_equations. lia. }
  assert (s32 (s_addr b - s_addr a) = 0 \/ 0 <= s32 (s_addr b - s_addr a) -> 0 <= s32 (s_addr a - s_addr b) -> s_addr a = s_addr b) as H1.
  { intros Hx Hy. unfold s32 in *. Z.div_mod_to_equations. lia. }
  destruct a as [aa ap], b as [ba bp]. simpl in *. destruct (decide (aa = ba)) as [->|Hne].
  - rewrite Z.sub_diag, s32_small by lia. simpl. destruct (Z.ltb_spec (ap - bp) 0), (Z.ltb_spec (bp - ap) 0); simpl; symmetry.
    + lia.
    + apply bool_decide_eq_false. intros E. injection E. lia.
    + apply bool_decide_eq_false. intros E. injection E. lia.
    + apply bool_decide_eq_true. f_equal. lia.
  - rewrite bool_decide_eq_false_2 by congruence. apply andb_false_iff. rewrite !negb_false_iff.
    destruct (Z.eqb_spec (s32 (aa - ba)) 0) as [E|E]; [by apply H0 in E|]. rewrite Z.ltb_lt.
    destruct (Z.eqb_spec (s32 (ba - aa)) 0) as [E2|E2]; [left|rewrite Z.ltb_lt]; destruct (Z.le_gt_cases 0 (s32 (aa - ba))) as [Hc|Hc]; try tauto.
    right. apply Z.nle_gt. intros Hc2. apply Hne, H1; [by right|done].
Qed.

Lemma is_bound_in set a :
  Forall (fun b => 0 <= s_addr b < 2 ^ 32) set -> 0 <= s_addr a < 2 ^ 32 -> is_bound set a = bool_decide (a ∈ set).
Proof.
  intros HF Ha. unfold is_bound. induction HF as [|b set Hb HF IH]; [done|]. cbn [existsb]. rewrite IH, sockaddr_cmp_neither by done.
  repeat case_bool_decide; set_solver.
Qed.

(** inet_pton writes four bytes. *)
Hypothesis pton4_bytes : forall x a, pton4 x = Some a -> length a = 4%nat /\ Forall is_byte a.

Lemma listener_sin_range l a : listener_sin l = Some a -> 0 <= s_addr a < 2 ^ 32.
Proof.
  unfold listener_sin. destruct (pton4 _) as [x|] eqn:Hx; [|done]. intros [= <-]. destruct (pton4_bytes _ _ Hx) as [Hl Hb].
  pose proof (le_val_bound x Hb) as H. unfold zlen in H. rewrite Hl in H. exact H.
Qed.

(** When all addresses parse, exactly they are the bound ones. *)
Lemma load_bound_exact ls set0 :
  Forall (fun l => is_Some (listener_sin l)) ls -> Forall (fun b => 0 <= s_addr b < 2 ^ 32) set0 ->
  exists set, load_bound ls set0 = Ret tt set /\
    forall a, 0 <= s_addr a < 2 ^ 32 -> is_bound set a = is_bound set0 a || existsb (fun l => bool_decide (listener_sin l = Some a)) ls.
Proof.
  intros HF. revert set0. induction HF as [|l ls [x Hx] HF IH]; intros set0 H0.
  - exists set0. split; [done|]. intros a _. by rewrite orb_false_r.
  - cbn [load_bound existsb]. rewrite Hx. erewrite bind_ret by done. erewrite bind_ret by done. pose proof (listener_sin_range l x Hx) as Hr.
    destruct (IH (if is_bound set0 x then set0 else x :: set0)) as (set&Hs&Ha); [destruct (is_bound set0 x); [done|by constructor]|].
    exists set. split; [exact Hs|]. intros a Hra. rewrite Ha, orb_assoc by done. f_equal. destruct (is_bound set0 x) eqn:E.
    + rewrite !is_bound_in in * by done. apply bool_decide_eq_true in E. repeat case_bool_decide; simpl; try done. congruence.
    + cbn [is_bound existsb]. rewrite sockaddr_cmp_neither by done. fold (is_bound set0 a).
      rewrite orb_comm. f_equal. apply bool_decide_ext. split; congruence.
Qed.
End Bound.
