(* ===== verification/Cycle.v ===== *)
(** * cycle (clients/cycle.cpp)

    The program that opens every connection anew: one that the connector opened
    is closed and asked for again at once; one that the peer opened is closed
    when a connection to the peer's address has succeeded. What does not compile
    is a parameter: the conversion of the wire_addr of a connection_info to the
    sockaddr_in that is needed ([sin_of], [sin_key] of its bytes), and
    connect_msg, which fills a wire_addr as a sockaddr_in. *)

From S2P Require Import Prelude.
From S2P Require Import Bytes.
From S2P Require Import Net.
From S2P Require Import ReadBuffer.
From S2P Require Import WriteBuffer.
From S2P Require Import BitcoinWire.
From S2P Require Import Logger.
From S2P Require Import BitcoinHandler.
From S2P Require Import CtrlMsg.
From S2P Require Import CommandHandler.
From S2P Require Import LogFormat.
From S2P Require Import LogReader.
From S2P Require Import Printing.
From S2P Require Import BcWatch.
From S2P Require Import ClientLib.
From S2P Require Import GetAddr.
From S2P Require Import ControlPath.
From S2P Require Import KillDupes.
From S2P Require Import AddrMap.
From S2P Require Import ConnectorMain.
From S2P Require Import Programs.
From Stdlib Require Import Sorting.Sorted.

(** A handle id per address, as it came from the network. *)
Definition addr_handle_map_t : Type := list (sockaddr_in * Z).

(** The control socket, [incoming_cxn], [remaining] and what was printed. *)
Record cycler := Cycler {
  y_sock : sock;
  y_incoming : addr_handle_map_t;
  y_remaining : list sockaddr_in;
  y_out : list Z }.

Definition with_sock (k : sock) (y : cycler) : cycler := Cycler k (y_incoming y) (y_remaining y) (y_out y).
Definition with_incoming (m : addr_handle_map_t) (y : cycler) : cycler := Cycler (y_sock y) m (y_remaining y) (y_out y).
Definition with_remaining (r : list sockaddr_in) (y : cycler) : cycler := Cycler (y_sock y) (y_incoming y) r (y_out y).
Definition say (t : list Z) : prog cycler unit :=
  modify (fun y => Cycler (y_sock y) (y_incoming y) (y_remaining y) (y_out y ++ t)).

(** Keys are the same when neither comes before the other. *)
Definition same_key (a b : sockaddr_in) : bool := negb (sockaddr_cmp a b) && negb (sockaddr_cmp b a).

(** remaining.insert and remaining.erase, which returns how many there were *)
Definition remaining_insert (a : sockaddr_in) : prog cycler unit :=
  modify (fun y => if is_bound (y_remaining y) a then y else with_remaining (a :: y_remaining y) y).
Definition remaining_erase (a : sockaddr_in) : prog cycler Z :=
  let! y := get in
  let r := List.filter (fun b => negb (same_key a b)) (y_remaining y) in
  do! modify (with_remaining r) in
  ret (zlen (y_remaining y) - zlen r).

(** incoming_cxn[a], which makes an entry where there is none *)
Definition incoming_at (a : sockaddr_in) : prog cycler Z :=
  let! y := get in
  match find (fun p => same_key a (fst p)) (y_incoming y) with
  | Some p => ret (snd p)
  | None => do! modify (with_incoming (y_incoming y ++ [(a, 0)])) in ret 0
  end.

Section Cycle.
Context (page : Z) (inet_ntop6 : list Z -> list Z).
Context (connect_msg : sockaddr_in -> list Z * Z).

(** do_write of an outgoing_message *)
Definition send_out (p : list Z * Z) : prog cycler unit :=
  zoom y_sock with_sock (ClientLib.do_write (ztake (snd p) (fst p))).

Definition disconnect_out (id : Z) : prog cycler unit := send_out (disconnect_msg page (le_bytes 4 id)).

(** The loop over outgoing_cxn: [cnt]. *)
Fixpoint cycle_outgoing (l : addr_handle_map_t) (cnt : Z) : prog cycler Z :=
  match l with
  | [] => ret cnt
  | p :: l =>
      do! disconnect_out (snd p) in
      do! send_out (connect_msg (fst p)) in
      cycle_outgoing l (u64 (cnt + 1))
  end.

(** The loop over incoming_cxn. *)
Fixpoint double_connect (l : addr_handle_map_t) : prog cycler unit :=
  match l with
  | [] => ret tt
  | p :: l =>
      do! send_out (connect_msg (fst p)) in
      do! remaining_insert (fst p) in
      double_connect l
  end.

(** The callbacks of the watcher. *)
Definition on_reached (m : bc_channel_msg) : prog cycler unit :=
  let a := sin_key (bm_remote m) in
  let! cnt := remaining_erase a in
  if 0 <? cnt then
    let! t := print_addr inet_ntop6 (bm_remote m) in
    do! say (text "Denatted " ++ t ++ [10]) in
    let! id := incoming_at a in
    disconnect_out id
  else ret tt.

Definition on_unreached (m : bc_channel_msg) : prog cycler unit :=
  let! t := print_addr inet_ntop6 (bm_remote m) in
  do! say (text "Could not reach " ++ t ++ [10]) in
  let! _ := remaining_erase (sin_key (bm_remote m)) in
  ret tt.

(** The loop that waits; [false] while recv has not returned. *)
Fixpoint wait (fuel : nat) : prog (lreader cycler) bool :=
  match fuel with
  | O => ret false
  | S fuel =>
      let! s := get in
      if zlen (y_remaining (l_client s)) =? 0 then ret true
      else
        let! b := loop_once page on_reached on_unreached in
        if b then wait fuel else ret false
  end.

(** main after the connections have been collected; [watch] is the descriptor
    of the bitcoin channel. The exit code, or [None] while main still waits. *)
Definition cycle_main (outgoing : addr_handle_map_t) (watch : sock) : prog cycler (option Z) :=
  let! cnt := cycle_outgoing outgoing 0 in
  do! say (text "cycled " ++ number cnt ++ text " handles" ++ [10]) in
  do! modify (with_remaining []) in
  let! y := get in
  do! double_connect (y_incoming y) in
  let! y := get in
  let! w := bcwatch_ctor page false watch y in
  let! b := zoom (fun _ => w) (fun w _ => l_client w) (wait (S (length (stream (l_read w))))) in
  ret (if b then Some 0 else None).

(** ** Collecting the connections *)

(** incoming_cxn, outgoing_cxn and what was printed *)
Record collected := Collected { cy_in : addr_handle_map_t; cy_out : addr_handle_map_t; cy_print : list Z }.

(** The address in the 19 bytes of a wire_addr. *)
Context (sin_of : list Z -> sockaddr_in).

Definition cycle_collect (bound_addrs : list sockaddr_in) (info : list Z) (_ : Z) : prog collected unit :=
  let remote := sin_of (slice 4 WIRE_ADDR info) in
  let local := sin_of (slice 23 WIRE_ADDR info) in
  let handle_id := le_val (slice 0 4 info) in
  if is_bound bound_addrs local then
    let! r := print_addr inet_ntop6 (sin_bytes remote) in
    let! l := print_addr inet_ntop6 (sin_bytes local) in
    modify (fun c =>
      Collected (at_key 0 (fun _ => handle_id) remote (cy_in c)) (cy_out c)
        (cy_print c ++ text "Locally connected to " ++ r ++ text " inferred from " ++ l ++ [10]))
  else modify (fun c => Collected (cy_in c) (at_key 0 (fun _ => handle_id) remote (cy_out c)) (cy_print c)).

(** main on its two sockets; the listeners are those of the configuration *)
Definition cycle_run (pton4 : list Z -> option (list Z)) (listeners : list listener) (watch : sock) : prog (collected * sock) (option Z) := fun s =>
  match load_bound pton4 listeners [] with
  | Ret _ bound_addrs =>
      (let! _ := get_all_cxn (cycle_collect bound_addrs) in
       let! s := get in
       zoom (fun s => Cycler (snd s) (cy_in (fst s)) [] (cy_print (fst s)))
            (fun y s => (Collected (y_incoming y) (cy_out (fst s)) (y_out y), y_sock y))
            (cycle_main (cy_out (fst s)) watch)) s
  | Raise e _ => Raise e s
  | Fault f => Fault f
  end.
End Cycle.

(** ** The policy *)

Definition is_addr (a : sockaddr_in) : Prop := 0 <= s_addr a < 2 ^ 32.

(** The address a message of the watcher is about. *)
Definition about (m : bc_channel_msg) : sockaddr_in := sin_key (bm_remote m).

(** What the first message about an address says: whether it was reached. *)
Definition verdict (ms : list bc_channel_msg) (a : sockaddr_in) : option bool :=
  option_map is_connect (find (fun m => bool_decide (about m = a)) ms).

(** The addresses that are reached, in the order of the messages. *)
Fixpoint reached (rem : list sockaddr_in) (ms : list bc_channel_msg) : list sockaddr_in :=
  match ms with
  | [] => []
  | m :: ms =>
      let rem' := filter (fun b => b <> about m) rem in
      if decide (about m ∈ rem /\ is_connect m = true) then about m :: reached rem' ms else reached rem' ms
  end.

Lemma verdict_cons m ms a : verdict (m :: ms) a = if decide (about m = a) then Some (is_connect m) else verdict ms a.
Proof. unfold verdict. simpl. by repeat case_decide; case_bool_decide. Qed.

Lemma elem_of_reached rem ms a : a ∈ reached rem ms <-> a ∈ rem /\ verdict ms a = Some true.
Proof.
  revert rem. induction ms as [|m ms IH]; intros rem; [set_solver|]. rewrite verdict_cons. cbn [reached].
  destruct (decide (about m = a)) as [<-|Hne].
  - assert (about m ∉ reached (filter (fun b => b <> about m) rem) ms) as Hno by (rewrite IH, list_elem_of_filter; tauto).
    destruct (decide _) as [[??]|Hd]; [rewrite elem_of_cons; intuition congruence|]. split; [done|]. intros [? [= Hc]]. tauto.
  - assert (a ∈ reached (filter (fun b => b <> about m) rem) ms <-> a ∈ rem /\ verdict ms a = Some true) as Hi.
    { rewrite IH, list_elem_of_filter. intuition congruence. }
    destruct (decide _); [rewrite elem_of_cons|]; rewrite Hi; intuition congruence.
Qed.

Lemma reached_nodup rem ms : NoDup (reached rem ms).
Proof.
  revert rem. induction ms as [|m ms IH]; intros rem; [constructor|]. cbn [reached]. destruct (decide _); [|apply IH].
  constructor; [|apply IH]. rewrite elem_of_reached, list_elem_of_filter. tauto.
Qed.

Lemma reached_nil ms : reached [] ms = [].
Proof. destruct (reached [] ms) as [|a l] eqn:E; [done|]. assert (a ∈ reached [] ms) as H by (rewrite E; left). apply elem_of_reached in H. set_solver. Qed.

(** ** The sets of addresses *)

Lemma same_key_eq a b : is_addr a -> is_addr b -> same_key a b = bool_decide (a = b).
Proof. apply sockaddr_cmp_neither. Qed.

Lemma erase_run a y :
  is_addr a -> Forall is_addr (y_remaining y) -> NoDup (y_remaining y) ->
  remaining_erase a y = Ret (if decide (a ∈ y_remaining y) then 1 else 0) (with_remaining (filter (fun b => b <> a) (y_remaining y)) y).
Proof.
  intros Ha HF HN. unfold remaining_erase. erewrite bind_ret by done. erewrite bind_ret by done.
  assert (List.filter (fun b => negb (same_key a b)) (y_remaining y) = filter (fun b => b <> a) (y_remaining y) /\
    zlen (y_remaining y) - zlen (filter (fun b => b <> a) (y_remaining y)) = if decide (a ∈ y_remaining y) then 1 else 0) as [-> Hz]; [|unfold ret; by rewrite Hz].
  revert HN. induction HF as [|b r Hb HF IH]; intros HN; [split; [done|]; by rewrite decide_False by set_solver|].
  apply NoDup_cons in HN as [Hnin HN]. destruct (IH HN) as [IH1 IH2]. cbn [List.filter]. rewrite same_key_eq, filter_cons, IH1 by done.
  destruct (decide (b <> a)) as [Hne|Heq].
  - rewrite bool_decide_eq_false_2 by congruence. split; [done|]. rewrite !zlen_cons.
    replace (1 + zlen r - (1 + zlen (filter (fun b0 => b0 <> a) r))) with (zlen r - zlen (filter (fun b0 => b0 <> a) r)) by lia.
    rewrite IH2. by destruct (decide (a ∈ r)), (decide (a ∈ b :: r)); set_solver.
  - assert (b = a) as -> by (by destruct (decide (b = a))). rewrite bool_decide_eq_true_2 by done. split; [done|].
    rewrite decide_False in IH2 by done. rewrite decide_True by set_solver. rewrite zlen_cons. lia.
Qed.

Lemma incoming_run a id y :
  is_addr a -> Forall (fun p => is_addr (fst p)) (y_incoming y) -> NoDup (map fst (y_incoming y)) -> In (a, id) (y_incoming y) ->
  incoming_at a y = Ret id y.
Proof.
  intros Ha HF HN Hin. unfold incoming_at. erewrite bind_ret by done.
  assert (find (fun p => same_key a (fst p)) (y_incoming y) = Some (a, id)) as ->; [|done].
  revert HN Hin. induction HF as [|[b i] l Hb HF IH]; intros HN Hin; [done|]. cbn [find fst]. rewrite same_key_eq by done.
  apply NoDup_cons in HN as [Hnin HN]. destruct Hin as [[= -> ->]|Hin]; [by rewrite bool_decide_eq_true_2|].
  rewrite bool_decide_eq_false_2; [by apply IH|]. intros ->. apply Hnin. apply list_elem_of_In. by apply (in_map fst _ (b, id)).
Qed.

Section Handles.
Context (inc : addr_handle_map_t).

(** The id of the connection a peer opened from an address. *)
Definition handle_of (a : sockaddr_in) : Z := from_option snd 0 (find (fun p => bool_decide (fst p = a)) inc).

Lemma handle_of_in a :
  NoDup (map fst inc) -> a ∈ map fst inc -> In (a, handle_of a) inc.
Proof.
  unfold handle_of. induction inc as [|[b i] l IH]; [set_solver|]. intros [_ HN]%NoDup_cons.
  cbn [map fst find]. intros [->|Hin]%elem_of_cons; [rewrite bool_decide_eq_true_2 by done; by left|].
  case_bool_decide as E; [subst b; by left|right; by apply IH].
Qed.

Lemma handle_of_unique a id :
  NoDup (map fst inc) -> In (a, id) inc -> handle_of a = id.
Proof.
  unfold handle_of. induction inc as [|[b i] l IH]; [done|]. intros [Hnin HN]%NoDup_cons.
  cbn [find fst]. intros [[= -> ->]|Hin]; [by rewrite bool_decide_eq_true_2|]. rewrite bool_decide_eq_false_2; [by apply IH|].
  intros ->. apply Hnin, list_elem_of_In. by apply (in_map fst _ (a, id)).
Qed.
End Handles.

(** ** What is sent *)

Section Sent.
Context (page : Z) (Hpage : 0 < page <= 2 ^ 62) (inet_ntop6 : list Z -> list Z).
Context (connect_msg : sockaddr_in -> list Z * Z).

Definition connect_out (a : sockaddr_in) : list Z := ztake (snd (connect_msg a)) (fst (connect_msg a)).

Context (Hconn : forall a, 0 < zlen (connect_out a) <= WHOLE).

Definition disconnect_out_bytes (id : Z) : list Z := cmd_bytes (disconnect_cmd id).

Lemma send_out_ok p y :
  0 < zlen (ztake (snd p) (fst p)) <= WHOLE -> (0 < spare (wx (y_sock y)))%nat ->
  exists k, send_out p y = Ret tt (with_sock k y) /\ tx k = tx (y_sock y) ++ ztake (snd p) (fst p) /\ S (spare (wx k)) = spare (wx (y_sock y)).
Proof.
  intros Hz Hs. destruct (do_write_spare _ _ Hz Hs) as (k&Hr&Htx&_&Hsp). exists k. split; [|done].
  exact (zoom_ret y_sock with_sock _ y _ _ Hr).
Qed.

Lemma disconnect_out_ok id y :
  is_raw id -> (0 < spare (wx (y_sock y)))%nat ->
  exists k, disconnect_out page id y = Ret tt (with_sock k y) /\ tx k = tx (y_sock y) ++ disconnect_out_bytes id /\ S (spare (wx k)) = spare (wx (y_sock y)).
Proof.
  intros Hid Hs. pose proof (disconnect_cmd_bytes page id Hpage Hid) as Hb. unfold disconnect_out, disconnect_out_bytes.
  destruct (disconnect_msg page (le_bytes 4 id)) as [b n]. rewrite <- Hb. apply (send_out_ok (b, n)); [|done]. cbn [fst snd]. rewrite Hb.
  unfold cmd_bytes, disconnect_cmd. cbn [c_command c_id c_targets]. by rewrite zlen_command_bytes.
Qed.

(** Close and open again. *)
Definition reopen_bytes (p : sockaddr_in * Z) : list Z := disconnect_out_bytes (snd p) ++ connect_out (fst p).

Lemma cycle_outgoing_ok l cnt y :
  Forall (fun p => is_raw (snd p)) l -> 0 <= cnt < 2 ^ 64 -> (2 * length l <= spare (wx (y_sock y)))%nat ->
  exists k, cycle_outgoing page connect_msg l cnt y = Ret (u64 (cnt + zlen l)) (with_sock k y) /\
    tx k = tx (y_sock y) ++ concat (map reopen_bytes l) /\ (spare (wx (y_sock y)) = 2 * length l + spare (wx k))%nat.
Proof.
  intros HF. revert cnt y. induction HF as [|p l Hp HF IH]; intros cnt y Hc Hs; cbn [cycle_outgoing].
  { exists (y_sock y). rewrite zlen_nil, Z.add_0_r, u64_small, app_nil_r by done. by destruct y. }
  cbn [length] in Hs. destruct (disconnect_out_ok (snd p) y) as (k1&H1&Ht1&Hs1); [done|lia|]. run_step H1.
  destruct (send_out_ok (connect_msg (fst p)) (with_sock k1 y)) as (k2&H2&Ht2&Hs2); [apply Hconn|cbn [with_sock y_sock]; lia|]. run_step H2. cbn [with_sock y_sock] in *.
  destruct (IH (u64 (cnt + 1)) (with_sock k2 y)) as (k&Hr&Ht&Hsk); [apply Z.mod_pos_bound; done|cbn [with_sock y_sock]; lia|]. cbn [with_sock y_sock] in *.
  exists k. split_and!; [|by rewrite Ht, Ht2, Ht1; cbn [map concat]; unfold reopen_bytes; rewrite !app_assoc|cbn [length]; lia].
  etransitivity; [exact Hr|]. rewrite zlen_cons. unfold u64. rewrite Zplus_mod_idemp_l. do 2 f_equal. lia.
Qed.

Lemma double_connect_ok l y :
  Forall is_addr (map fst l) -> Forall is_addr (y_remaining y) -> NoDup (map fst l ++ y_remaining y) -> (length l <= spare (wx (y_sock y)))%nat ->
  exists k, double_connect connect_msg l y = Ret tt (with_remaining (reverse (map fst l) ++ y_remaining y) (with_sock k y)) /\
    tx k = tx (y_sock y) ++ concat (map (fun p => connect_out (fst p)) l) /\ (spare (wx (y_sock y)) = length l + spare (wx k))%nat.
Proof.
  revert y. induction l as [|p l IH]; intros y HF HR HN Hs; cbn [double_connect].
  { exists (y_sock y). rewrite app_nil_r. by destruct y. }
  cbn [map app length] in *. apply Forall_cons in HF as [Ha HF]. apply NoDup_cons in HN as [Hnin HN].
  destruct (send_out_ok (connect_msg (fst p)) y) as (k1&H1&Ht1&Hs1); [apply Hconn|lia|]. run_step H1.
  assert (is_bound (y_remaining y) (fst p) = false) as Hno by (rewrite is_bound_in by done; apply bool_decide_eq_false; set_solver).
  assert (remaining_insert (fst p) (with_sock k1 y) = Ret tt (with_remaining (fst p :: y_remaining y) (with_sock k1 y))) as Hi.
  { unfold remaining_insert, modify. cbn [with_sock y_remaining]. by rewrite Hno. }
  run_step Hi. set (y1 := with_remaining _ _).
  destruct (IH y1) as (k&Hr&Ht&Hsk); [done|by constructor| |cbn; lia|].
  { apply NoDup_app in HN as (N1&N2&N3). apply NoDup_app. split_and!; [done|set_solver|]. constructor; set_solver. }
  exists k. split_and!; [|by rewrite Ht; cbn [y1 with_remaining with_sock y_sock]; rewrite Ht1; cbn [map concat]; rewrite app_assoc|cbn [y1 with_remaining with_sock y_sock] in Hsk; lia].
  etransitivity; [exact Hr|]. rewrite reverse_cons, <- app_assoc. done.
Qed.

(** ** What is waited for *)

Context (inc : addr_handle_map_t) (Hinc : Forall (fun p => is_addr (fst p) /\ is_raw (snd p)) inc) (Hkeys : NoDup (map fst inc)).

(** While main waits. *)
Record waiting (y : cycler) : Prop := {
  wt_inc : y_incoming y = inc;
  wt_addrs : Forall is_addr (y_remaining y);
  wt_nodup : NoDup (y_remaining y);
  wt_keys : forall a, a ∈ y_remaining y -> a ∈ map fst inc }.

Abbreviation callback m := (if is_connect m then on_reached page inet_ntop6 m else on_unreached inet_ntop6 m).

(** The connection to close after a message. *)
Definition close_now (rem : list sockaddr_in) (m : bc_channel_msg) : list sockaddr_in :=
  if decide (about m ∈ rem /\ is_connect m = true) then [about m] else [].

Lemma waiting_step y m out k :
  waiting y -> waiting (Cycler k (y_incoming y) (filter (fun b => b <> about m) (y_remaining y)) out).
Proof.
  intros [H1 H2 H3 H4]. split; cbn [y_incoming y_remaining]; [done| |by apply NoDup_filter|].
  { apply Forall_forall. intros a [_ Hin]%list_elem_of_filter. rewrite Forall_forall in H2. auto. }
  intros a [_ ?]%list_elem_of_filter. auto.
Qed.

Lemma callback_ok m y :
  is_addr (about m) -> ss_family (bm_remote m) = AF_INET -> waiting y -> (length (close_now (y_remaining y) m) <= spare (wx (y_sock y)))%nat ->
  exists y', callback m y = Ret tt y' /\ waiting y' /\ y_remaining y' = filter (fun b => b <> about m) (y_remaining y) /\
    tx (y_sock y') = tx (y_sock y) ++ concat (map (fun a => disconnect_out_bytes (handle_of inc a)) (close_now (y_remaining y) m)) /\
    (spare (wx (y_sock y)) = length (close_now (y_remaining y) m) + spare (wx (y_sock y')))%nat.
Proof.
  intros Ha Hfam HW Hs. pose proof (wt_addrs y HW) as HF. pose proof (wt_nodup y HW) as HN. revert Hs. unfold close_now.
  destruct (is_connect m); intros Hs.
  - unfold on_reached. fold (about m). cbv zeta. erewrite bind_ret by (by apply erase_run). destruct (decide (about m ∈ y_remaining y)) as [Hin|Hnin].
    + rewrite decide_True in Hs by done. change (0 <? 1) with true. cbv iota.
      destruct (print_addr_inet inet_ntop6 (bm_remote m) (with_remaining (filter (fun b => b <> about m) (y_remaining y)) y) Hfam) as (t&_&Ht). run_step Ht. erewrite (bind_ret (say _)) by reflexivity.
      assert (In (about m, handle_of inc (about m)) inc) as Hhm by (apply handle_of_in; [done|]; apply (wt_keys y HW), Hin).
      erewrite bind_ret.
      2:{ apply incoming_run; cbn [y_incoming with_remaining]; rewrite ?(wt_inc y HW); [done| |done|exact Hhm].
          eapply Forall_impl; [exact Hinc|]. by intros ? []. }
      set (y1 := Cycler _ _ _ _). destruct (disconnect_out_ok (handle_of inc (about m)) y1) as (k&Hr&Htx&Hsp); [|cbn in *; lia|].
      { rewrite Forall_forall in Hinc. by apply (Hinc (about m, handle_of inc (about m))), list_elem_of_In. }
      exists (with_sock k y1). split; [exact Hr|]. split; [exact (waiting_step y m _ k HW)|]. split; [done|].
      rewrite !decide_True by done. cbn [map concat length]. rewrite app_nil_r. split; [exact Htx|]. cbn in *. lia.
    + rewrite !decide_False by tauto. change (0 <? 0) with false. cbv iota. eexists. split; [done|]. split; [exact (waiting_step y m _ _ HW)|]. by rewrite app_nil_r.
  - rewrite decide_False by (intros [_ ?]; done). unfold on_unreached.
    destruct (print_addr_inet inet_ntop6 (bm_remote m) y Hfam) as (t&_&Ht). run_step Ht. erewrite bind_ret by reflexivity.
    set (y1 := Cycler _ _ _ _). erewrite bind_ret by (by apply (erase_run (about m) y1)). eexists. split; [done|]. split; [exact (waiting_step y m _ _ HW)|]. by rewrite app_nil_r.
Qed.

Lemma reached_cons rem m ms : reached rem (m :: ms) = close_now rem m ++ reached (filter (fun b => b <> about m) rem) ms.
Proof. unfold close_now. cbn [reached]. by destruct (decide _). Qed.

Lemma wait_ok ms fuel (s : lreader cycler) :
  l_ready s -> Forall bc_ok ms -> Forall (fun m => is_addr (about m) /\ ss_family (bm_remote m) = AF_INET) ms -> stream (l_read s) = frames (map bc_record ms) -> (length ms < fuel)%nat ->
  let rem := y_remaining (l_client s) in
  waiting (l_client s) -> (forall a, a ∈ rem -> is_Some (verdict ms a)) -> (length (reached rem ms) <= spare (wx (y_sock (l_client s))))%nat ->
  exists s', wait page inet_ntop6 fuel s = Ret true s' /\ y_incoming (l_client s') = inc /\ y_remaining (l_client s') = [] /\
    tx (y_sock (l_client s')) = tx (y_sock (l_client s)) ++ concat (map (fun a => disconnect_out_bytes (handle_of inc a)) (reached rem ms)).
Proof.
  intros Hs HF. revert fuel s Hs. induction HF as [|m ms Hm HF IH]; intros fuel s Hs HA Hst Hfu rem HW Hv Hsp;
    (destruct fuel as [|fuel]; [lia|]); cbn [wait]; (erewrite bind_ret by done).
  { destruct (y_remaining (l_client s)) as [|a r] eqn:E; [|destruct (Hv a); [set_solver|done]].
    change (zlen [] =? 0) with true. exists s. rewrite E, app_nil_r. split_and!; try done. apply HW. }
  destruct (Z.eqb_spec (zlen (y_remaining (l_client s))) 0) as [H0|H0].
  { exists s. subst rem. apply zlen_0_nil in H0. rewrite H0, reached_nil, app_nil_r. split_and!; try done. apply HW. }
  cbn [map] in Hst. rewrite frames_cons in Hst. apply Forall_cons in HA as [[Ha Hfam] HA]. rewrite reached_cons, length_app in Hsp. rewrite reached_cons.
  destruct (callback_ok m (l_client s) Ha Hfam HW) as (y'&Hc&HW'&Hrem&Htx&Hs'); [fold rem; lia|]. fold rem in Hrem, Htx, Hs'.
  destruct (loop_once_record page Hpage (on_reached page inet_ntop6) (on_unreached inet_ntop6) s (bc_record m) (frames (map bc_record ms)) y') as (s1&Hr1&Hs1&Hx1&Hst1);
    [done|by apply bc_record_readable|done|rewrite dispatch_record by (done || by apply ztake_all); exact Hc|].
  run_step Hr1. destruct (IH fuel s1 Hs1) as (s'&Hr&Hi'&Hrem'&Htx'); rewrite ?Hx1, ?Hrem; try done; [simpl in Hfu; lia| |lia|].
  { intros a [Hne Hin]%list_elem_of_filter. destruct (Hv a Hin) as [b Hb]. rewrite verdict_cons, decide_False in Hb by congruence. by exists b. }
  exists s'. split; [exact Hr|]. rewrite Htx', Hx1, Hrem, Htx, map_app, concat_app, app_assoc. done.
Qed.
End Sent.

(** Handle [i] is a connection a peer opened whose address was reached. *)
Definition superseded_by_ours (inc : addr_handle_map_t) (ms : list bc_channel_msg) (i : Z) : Prop :=
  exists a id, In (a, id) inc /\ ntoh32 id = i /\ verdict ms a = Some true.

Section Closed.
Context (inc : addr_handle_map_t) (Hkeys : NoDup (map fst inc)).

(** The ids that are sent are those of the connections whose address was reached. *)
Lemma reached_ids rem ms i :
  (forall a, a ∈ rem <-> a ∈ map fst inc) ->
  In i (map ntoh32 (map (handle_of inc) (reached rem ms))) <-> superseded_by_ours inc ms i.
Proof.
  intros Hrem. rewrite map_map, in_map_iff. split.
  - intros (a&<-&[Ha Hv]%list_elem_of_In%elem_of_reached). exists a, (handle_of inc a). split; [|done].
    apply (handle_of_in inc); [done|]. by apply Hrem.
  - intros (a&id&Hin&<-&Hv). exists a. rewrite (handle_of_unique inc a id Hkeys Hin). split; [done|].
    apply list_elem_of_In, elem_of_reached. split; [|done]. apply Hrem, list_elem_of_In. by apply (in_map fst _ (a, id)).
Qed.

Lemma reached_few rem ms : (length (reached rem ms) <= length rem)%nat.
Proof. apply submseteq_length, NoDup_submseteq; [apply reached_nodup|]. intros a. rewrite elem_of_reached. tauto. Qed.

Lemma reached_targets rem ms :
  (forall a, a ∈ rem -> a ∈ map fst inc) -> Forall (fun p => ntoh32 (snd p) < BROADCAST_TARGET) inc ->
  Forall (fun v => ntoh32 v < BROADCAST_TARGET) (map (handle_of inc) (reached rem ms)).
Proof.
  intros Hrem HB. apply Forall_map, Forall_forall. intros a [Ha _]%elem_of_reached. rewrite Forall_forall in HB. cbn.
  apply (HB (a, handle_of inc a)), list_elem_of_In, handle_of_in; [done|]. apply Hrem, Ha.
Qed.

Lemma frames_few ms : Forall bc_ok ms -> (length ms <= length (frames (map bc_record ms)))%nat.
Proof.
  induction 1 as [|m ms Hm HF IH]; [simpl; lia|]. cbn [map]. rewrite frames_cons, length_app.
  pose proof (zlen_frame (bc_record m)). pose proof (zlen_nonneg (bc_record m)). unfold zlen in *. simpl. lia.
Qed.
End Closed.

(** Any of the commands that close connections, read together by the connector
    in whatever state it is: exactly these connections are gone. *)
Definition closes_exactly (E : env) (strerror : Z -> list Z) (raws : list Z) : Prop :=
  forall part cs s, incl part raws -> at_start (self s) -> Forall (fun c => 0 < zlen c) cs ->
    concat cs = concat (map disconnect_out_bytes part) ->
    exists s', ctrl_do_read E strerror (arrives cs s) = Ret tt s' /\ at_start (self s') /\
      forall i h, active (wld s') !! i = Some h <-> active (wld s) !! i = Some h /\ ~ In i (map ntoh32 part).

Lemma closes_targets E strerror raws :
  0 < BitcoinHandler.page E <= 2 ^ 62 -> Forall (fun v => ntoh32 v < BROADCAST_TARGET) raws -> closes_exactly E strerror raws.
Proof.
  intros HE HB part cs s Hpart Hst Hcs Hcat. assert (Forall (fun v => ntoh32 v < BROADCAST_TARGET) part) as HB'.
  { rewrite List.Forall_forall in *. auto. }
  pose proof (disconnects_handled E (ch_id (self s)) part (wld s) HB') as Hh. rewrite <- (map_map disconnect_cmd cmd_bytes) in Hcat.
  destruct (ctrl_reads_commands E strerror HE _ cs s _ Hst Hcs Hcat Hh) as (s'&Hread&Hst'&HQ&_).
  exists s'. split_and!; [done|done|]. intros i h. destruct (HQ i) as [Hgone Hkept]. split.
  - intros Hi. assert (~ In i (map ntoh32 part)) as Hn by (intros ?%Hgone; congruence). by rewrite (Hkept Hn) in Hi.
  - intros [Hi Hn]. by rewrite (Hkept Hn).
Qed.

(** The policy on the collected maps. The commands that close connections come
    last, for exactly the peers of which the first message said that they were
    reached. *)
Lemma cycle_policy page E strerror inet_ntop6 connect_msg outgoing inc sock out watch ms :
  0 < page <= 2 ^ 62 -> 0 < BitcoinHandler.page E <= 2 ^ 62 -> (forall a, 0 < zlen (connect_out connect_msg a) <= WHOLE) ->
  Forall (fun p => is_raw (snd p)) outgoing -> Forall (fun p => is_addr (fst p) /\ is_raw (snd p)) inc -> NoDup (map fst inc) ->
  Forall (fun p => ntoh32 (snd p) < BROADCAST_TARGET) inc -> (2 * length outgoing + 2 * length inc <= spare (wx sock))%nat ->
  Forall bc_ok ms -> Forall (fun m => is_addr (about m) /\ ss_family (bm_remote m) = AF_INET) ms ->
  segs_ok (rx watch) = true -> avail (rx watch) = frames (map bc_record ms) ->
  Forall (fun p => is_Some (verdict ms (fst p))) inc ->
  exists y raws, cycle_main page inet_ntop6 connect_msg outgoing watch (Cycler sock inc [] out) = Ret (Some 0) y /\
    tx (y_sock y) = tx sock ++ concat (map (reopen_bytes connect_msg) outgoing) ++ concat (map (fun p => connect_out connect_msg (fst p)) inc) ++
      concat (map disconnect_out_bytes raws) /\
    (forall i, In i (map ntoh32 raws) <-> superseded_by_ours inc ms i) /\ closes_exactly E strerror raws.
Proof.
  intros Hp HE Hconn Hout Hinc Hkeys HB Hroom Hms Hma Hsg Hav Hver.
  destruct (cycle_outgoing_ok page Hp connect_msg Hconn outgoing 0 (Cycler sock inc [] out)) as (k1&H1&Ht1&Hs1); [done|lia|simpl; lia|].
  unfold cycle_main. run_step H1. erewrite (bind_ret (say _)) by reflexivity. erewrite bind_ret by reflexivity. erewrite bind_ret by done.
  cbn [with_sock with_remaining y_sock y_incoming y_out y_remaining] in *. set (y1 := Cycler _ _ _ _).
  destruct (double_connect_ok page Hp connect_msg Hconn inc y1) as (k2&H2&Ht2&Hs2); [|constructor|by rewrite app_nil_r|cbn; lia|].
  { apply Forall_map. eapply Forall_impl; [exact Hinc|]. by intros ? []. }
  cbn [y1 y_remaining y_sock] in H2, Ht2, Hs2. rewrite app_nil_r in H2.
  run_step H2. erewrite bind_ret by done. set (y2 := with_remaining _ _). erewrite bind_ret by reflexivity. set (w := LReader _ _ _). set (rem := reverse (map fst inc)) in *.
  assert (forall a, a ∈ rem <-> a ∈ map fst inc) as Hrem by (intros a; apply elem_of_reverse).
  pose proof (reached_few rem ms) as Hfew. unfold rem in Hfew at 2. rewrite length_reverse, length_map in Hfew.
  destruct (wait_ok page Hp inet_ntop6 connect_msg Hconn inc Hinc Hkeys ms (S (length (stream (l_read w)))) w) as (w'&Hw&_&_&Htx).
  - by apply l_ready_new.
  - done.
  - done.
  - exact Hav.
  - change (stream (l_read w)) with (avail (rx watch)). rewrite Hav. pose proof (frames_few ms Hms). lia.
  - split; cbn [w l_client y2 with_remaining with_sock y1 y_incoming y_remaining]; [done| |by unfold rem; rewrite reverse_Permutation|intros a; apply Hrem].
    apply Forall_forall. intros a Ha%Hrem. apply list_elem_of_In, in_map_iff in Ha as (p&<-&Hin). rewrite Forall_forall in Hinc. by apply Hinc, list_elem_of_In.
  - intros a Ha%Hrem. apply list_elem_of_In, in_map_iff in Ha as (p&<-&Hin). rewrite Forall_forall in Hver. by apply Hver, list_elem_of_In.
  - cbn [w l_client y2 with_remaining with_sock y1 y_sock y_remaining]. fold rem. lia.
  - exists (l_client w'), (map (handle_of inc) (reached rem ms)). split_and!.
    + erewrite bind_ret by (eapply zoom_ret, Hw). done.
    + rewrite Htx. cbn [w l_client y2 with_remaining with_sock y1 y_sock y_remaining]. by rewrite Ht2, Ht1, !map_map, <- !app_assoc.
    + intros i. exact (reached_ids inc Hkeys rem ms i Hrem).
    + apply closes_targets; [done|]. exact (reached_targets inc Hkeys rem ms (fun a => proj1 (Hrem a)) HB).
Qed.

(** ** Which connections are collected *)

Section Goes.
Context (sin_of : list Z -> sockaddr_in) (bound : list sockaddr_in) (g : globals).
Abbreviation conns := (BitcoinHandler.g_active_handlers g).

(** A connection that a peer opened: its local address is that of a listener. *)
Definition opened_by_peer (h : handler) : bool := is_bound bound (sin_of (sockaddr_to_wire (local_addr h))).

(** Connection [i] goes to [a] and was opened by a peer ([b]) or not. *)
Definition goes (b : bool) (a : sockaddr_in) (i : Z) : Prop :=
  exists h, conns !! i = Some h /\ peer_key sin_of h = a /\ opened_by_peer h = b.

#[global] Instance goes_dec b a i : Decision (goes b a i).
Proof.
  destruct (conns !! i) as [h|] eqn:Hi; [|right; intros (h&?&_); congruence].
  destruct (decide (peer_key sin_of h = a /\ opened_by_peer h = b)) as [Hd|Hd]; [left; exists h; tauto|].
  right. intros (h'&?&?). assert (h' = h) as -> by congruence. tauto.
Defined.

(** The last connection of each kind to each address. *)
Definition keeps_last (b : bool) (l : list Z) (m m' : addr_handle_map_t) : Prop :=
  forall a, am_get a m' = match last (filter (goes b a) l) with Some i => Some (hton32 i) | None => am_get a m end.
End Goes.

Section Collecting.
Context (inet_ntop6 : list Z -> list Z) (sin_of : list Z -> sockaddr_in) (bound : list sockaddr_in).
Context (g : globals) (Hg : addrs_ok g) (P : sockaddr_in -> Prop) `{KeyOrder P} (Hkey : forall i a, key_at sin_of g i = Some a -> P a).
Abbreviation conns := (BitcoinHandler.g_active_handlers g).
Abbreviation opened_by_peer := (opened_by_peer sin_of bound).
Abbreviation goes := (goes sin_of bound g).
Abbreviation keeps_last := (keeps_last sin_of bound g).

Lemma keeps_last_step b i h l m m' (m1 : addr_handle_map_t) :
  conns !! i = Some h -> P (peer_key sin_of h) -> am_ok P m ->
  m1 = (if Bool.eqb b (opened_by_peer h) then at_key 0 (fun _ => hton32 i) (peer_key sin_of h) m else m) ->
  keeps_last b l m1 m' -> keeps_last b (i :: l) m m'.
Proof.
  intros Hi HP Hm -> Hl a. rewrite (Hl a), filter_cons. destruct (decide (goes b a i)) as [(h'&Hi'&Ha&Hb)|Hn].
  - assert (h' = h) as -> by congruence. subst b a. rewrite Bool.eqb_reflx, last_cons. destruct (last _); [done|].
    destruct (at_key_ok P 0 (fun _ => hton32 i) (peer_key sin_of h) m HP Hm) as [_ ->]. by rewrite decide_True.
  - destruct (last _); [done|]. destruct (Bool.eqb b (opened_by_peer h)) eqn:Eb; [|done]. apply Bool.eqb_prop in Eb.
    destruct (at_key_ok P 0 (fun _ => hton32 i) (peer_key sin_of h) m HP Hm) as [_ ->]. rewrite decide_False; [done|].
    intros E. apply Hn. exists h. by split_and!.
Qed.

Lemma local_field i h : conns !! i = Some h -> sin_of (slice 23 WIRE_ADDR (info_at g i)) = sin_of (sockaddr_to_wire (local_addr h)).
Proof.
  intros Hi. destruct (Hg i h Hi) as [Hr Hl]. unfold info_at. rewrite Hi. unfold connection_info. rewrite app_assoc.
  assert (zlen (sockaddr_to_wire (local_addr h)) = WIRE_ADDR) as Hz by (by apply zlen_sockaddr_to_wire).
  rewrite <- (app_nil_r (sockaddr_to_wire (local_addr h))) at 1.
  by rewrite (slice_app_mid 23 WIRE_ADDR (le_bytes 4 (hton32 i) ++ sockaddr_to_wire (remote_addr h))) by (by rewrite ?zlen_app, ?zlen_le_bytes, ?zlen_sockaddr_to_wire).
Qed.

Lemma cycle_collect_ok l : forall c n,
  Forall (fun i => is_Some (conns !! i)) l -> am_ok P (cy_in c) -> am_ok P (cy_out c) ->
  exists c', ClientLib.each_record (cycle_collect inet_ntop6 sin_of bound) (map (info_at g) l) n c = Ret tt c' /\
    am_ok P (cy_in c') /\ am_ok P (cy_out c') /\ keeps_last true l (cy_in c) (cy_in c') /\ keeps_last false l (cy_out c) (cy_out c') /\
    (length (cy_in c') + length (cy_out c') <= length (cy_in c) + length (cy_out c) + length l)%nat.
Proof.
  assert (forall m a (v : Z), (length (at_key 0%Z (fun _ => v) a m) <= S (length m))%nat) as Hlen.
  { intros m a v. induction m as [|[b x] m IH]; cbn [at_key]; [simpl; lia|]. destruct (sockaddr_cmp a b); [simpl; lia|]. destruct (sockaddr_cmp b a); simpl in *; lia. }
  induction l as [|i l IH]; intros c n HF Hin Hout; cbn [map ClientLib.each_record].
  { exists c. split_and!; try done. simpl. lia. }
  apply Forall_cons in HF as [[h Hi] HF]. destruct (info_fields sin_of g Hg i h Hi) as [Hid Hk]. pose proof (local_field i h Hi) as Hl.
  assert (P (peer_key sin_of h)) as HP by (apply (Hkey i); unfold key_at; by rewrite Hi).
  destruct (at_key_ok P 0 (fun _ => hton32 i) (peer_key sin_of h) (cy_in c) HP Hin) as [Hin1 _].
  destruct (at_key_ok P 0 (fun _ => hton32 i) (peer_key sin_of h) (cy_out c) HP Hout) as [Hout1 _].
  assert (exists c1, cycle_collect inet_ntop6 sin_of bound (info_at g i) n c = Ret tt c1 /\
    cy_in c1 = (if opened_by_peer h then at_key 0 (fun _ => hton32 i) (peer_key sin_of h) (cy_in c) else cy_in c) /\
    cy_out c1 = (if opened_by_peer h then cy_out c else at_key 0 (fun _ => hton32 i) (peer_key sin_of h) (cy_out c))) as (c1&Hc1&E1&E2).
  { unfold cycle_collect. rewrite Hid, Hk, Hl. fold (opened_by_peer h). destruct (opened_by_peer h); by eexists. }
  destruct (IH c1 (n + 1) HF) as (c'&Hr&H1&H2&H3&H4&H5); [rewrite E1; by destruct (opened_by_peer h)|rewrite E2; by destruct (opened_by_peer h)|].
  exists c'. split_and!; [by run_step Hc1|done|done|..].
  - eapply (keeps_last_step true i h); [done|done|done| |exact H3]. rewrite E1. by destruct (opened_by_peer h).
  - eapply (keeps_last_step false i h); [done|done|done| |exact H4]. rewrite E2. by destruct (opened_by_peer h).
  - rewrite E1, E2 in H5. pose proof (Hlen (cy_in c) (peer_key sin_of h) (hton32 i)). pose proof (Hlen (cy_out c) (peer_key sin_of h) (hton32 i)).
    destruct (opened_by_peer h); simpl; lia.
Qed.
End Collecting.

(** The newest of the connections to [a] that were opened by a peer, or not. *)
Definition newest (sin_of : list Z -> sockaddr_in) (bound : list sockaddr_in) (g : globals) (b : bool) (a : sockaddr_in) (i : Z) : Prop :=
  goes sin_of bound g b a i /\ forall j, goes sin_of bound g b a j -> j <= i.

Section Newest.
Context (sin_of : list Z -> sockaddr_in) (bound : list sockaddr_in) (g : globals) (P : sockaddr_in -> Prop) `{KeyOrder P}.
Context (Hids : forall i, is_Some (BitcoinHandler.g_active_handlers g !! i) -> 0 <= i < BROADCAST_TARGET).

Lemma kept_newest b m a id :
  am_ok P m -> keeps_last sin_of bound g b (ids (BitcoinHandler.g_active_handlers g)) [] m ->
  In (a, id) m <-> exists i, id = hton32 i /\ newest sin_of bound g b a i.
Proof.
  intros Hm Hl. rewrite (am_get_in P) by done. rewrite (Hl a). set (L := ids _).
  assert (forall i, goes sin_of bound g b a i -> i ∈ L) as Hin by (intros i (h&Hi&_); apply in_ids; by rewrite Hi).
  assert (forall i, last (filter (goes sin_of bound g b a) L) = Some i <-> newest sin_of bound g b a i) as Hlast.
  { intros i. rewrite (last_filter_max _ L i) by apply ids_sorted. unfold newest. split; [intros (?&?&?); split; [done|]; intros j Hj; auto|].
    intros [Hi Hmax]. split_and!; [by apply Hin|done|auto]. }
  destruct (last _) as [k|] eqn:Hk.
  - split; [intros [= <-]; exists k; split; [done|]; by apply Hlast|]. intros (i&->&Hi%Hlast). by injection Hi as ->.
  - split; [done|]. intros (i&->&Hi%Hlast). done.
Qed.

Lemma newest_id b a i : newest sin_of bound g b a i -> ntoh32 (hton32 i) = i /\ i < BROADCAST_TARGET.
Proof.
  intros [(h&Hi&_) _]. assert (0 <= i < BROADCAST_TARGET) as Hb by (apply Hids; by rewrite Hi). unfold BROADCAST_TARGET in *. split; [|lia].
  unfold ntoh32, hton32. rewrite bswap_involutive. apply Z.mod_small. change (256 ^ Z.of_nat 4) with (2 ^ 32). lia.
Qed.

Lemma newest_raw b m : am_ok P m -> keeps_last sin_of bound g b (ids (BitcoinHandler.g_active_handlers g)) [] m ->
  Forall (fun p => P (fst p) /\ is_raw (snd p) /\ ntoh32 (snd p) < BROADCAST_TARGET) m.
Proof.
  intros Hm Hl. apply Forall_forall. intros [a id] Hin. pose proof (am_keys P m Hm) as HP. rewrite Forall_forall in HP. specialize (HP _ Hin). split; [done|].
  apply list_elem_of_In, (kept_newest b m a id Hm Hl) in Hin as (i&->&Hn). simpl. split; [exact (bswap_bound 4 i)|].
  by destruct (newest_id b a i Hn) as [-> ?].
Qed.

(** What the policy closes, in terms of the connections. *)
Lemma replaced_iff m ms i :
  am_ok P m -> keeps_last sin_of bound g true (ids (BitcoinHandler.g_active_handlers g)) [] m ->
  superseded_by_ours m ms i <-> exists a, newest sin_of bound g true a i /\ verdict ms a = Some true.
Proof.
  intros Hm Hl. unfold superseded_by_ours.
  split.
  - intros (a&id&Hin&<-&Hv). apply (kept_newest true m a id Hm Hl) in Hin as (j&->&Hj). exists a. split; [|done]. by rewrite (proj1 (newest_id true a j Hj)).
  - intros (a&Hn&Hv). exists a, (hton32 i). split_and!; [|by apply (newest_id true a)|done]. apply (kept_newest true m a _ Hm Hl). by exists i.
Qed.
End Newest.


(** Peers 1 and 2 connected to us, peer 1 can be reached; connection 5 is ours. *)
Definition demo_connect (a : sockaddr_in) : list Z * Z := ([0] ++ be_bytes 4 38 ++ [CONNECT] ++ zrep 38 0, 44).
Definition demo_peer (i : Z) : list Z := [2; 0; 32; 141; 10; 0; 0; i] ++ zrep 8 0.
Definition demo_report (i u : Z) : bc_channel_msg := BcMsg 9 BITCOIN 1000 i u (demo_peer i) (zrep 16 2) 2 [104; 105].
Definition demo_reports : list bc_channel_msg := [demo_report 9 PEER_RESET; demo_report 1 CONNECT_SUCCESS; demo_report 2 CONNECT_FAILURE].
Definition demo_watch : sock := Sock [RData (frames (map bc_record demo_reports))] [] [] 0.
Definition demo_listeners : list listener := [Listener (text "ipv4") (text "127.0.0.1") 8333 5].
Definition demo_here (x : list Z) : option (list Z) := Some [127; 0; 0; 1].
Definition demo_bound : list sockaddr_in := [SockaddrIn (le_val [127; 0; 0; 1]) (hton16 8333)].

Definition demo_cxn_of (i peer port : Z) : handler :=
  Handler (Reader (read_buffer_ctor 4096 24) (Sock [] [] [] 0)) write_buffer_ctor (demo_peer peer ++ zrep 112 0)
    (le_bytes 2 AF_INET ++ le_bytes 2 (hton16 port) ++ [127; 0; 0; 1] ++ zrep 120 0)
    1000 RECV_HEADER ev_READ (EvIo (10 + i) ev_READ true) None 1000 None i.
Definition demo_conns : gmap Z handler := {[ 3 := demo_cxn_of 3 1 8333; 5 := demo_cxn_of 5 7 40000; 8 := demo_cxn_of 8 2 8333 ]}.
Definition demo_before : cstate := CState demo_client true
  (World (Net (Globals demo_conns [] 9 0 0 300000 [] []) ∅ [] []) ∅ [] ∅ 2 ∅ ∅ 1 1 [] [77]).
Definition demo_cycle_sock : sock :=
  Sock [RData (be_bytes 4 (CONNECTION_INFO * zlen (info_list (wgl (wld demo_before)))) ++ connection_infos (wgl (wld demo_before)))]
       (WErr EINTR :: replicate 7 (WAccept WHOLE)) [] 0.

Lemma demo_conns_in i h :
  demo_conns !! i = Some h -> (i = 3 /\ h = demo_cxn_of 3 1 8333) \/ (i = 5 /\ h = demo_cxn_of 5 7 40000) \/ (i = 8 /\ h = demo_cxn_of 8 2 8333).
Proof.
  unfold demo_conns. intros [[<- <-]|[_ Hi]]%lookup_insert_Some; [tauto|].
  apply lookup_insert_Some in Hi as [[<- <-]|[_ Hi]]; [tauto|]. apply lookup_singleton_Some in Hi as [<- <-]. tauto.
Qed.

Lemma demo_replaced i a :
  newest demo_sin_of demo_bound (wgl (wld demo_before)) true a i -> verdict demo_reports a = Some true -> i = 3.
Proof.
  intros [(h&Hi&Ha&Hb) _] Hv. apply demo_conns_in in Hi as [[-> _]|[[-> ->]|[-> ->]]]; [done|vm_compute in Hb; discriminate|].
  subst a. vm_compute in Hv. discriminate.
Qed.

