(* ===== verification/GetAddrMain.v ===== *)
(** * getaddr from its start

    main of clients/getaddr.cpp up to the event loop: the listeners, the log,
    the three connections, the registration of the getaddr message, the
    connections that exist already, the watchers and timers. The callback that
    takes the existing connections over uses the wire_addr of a connection_info
    as a sockaddr_in and does not compile; the conversion that is missing is the
    parameter [as_sin]. *)

From S2P Require Import Prelude.
From S2P Require Import Bytes.
From S2P Require Import Net.
From S2P Require Import ReadBuffer.
From S2P Require Import BitcoinWire.
From S2P Require Import Logger.
From S2P Require Import BitcoinHandler.
From S2P Require Import CtrlMsg.
From S2P Require Import CommandHandler.
From S2P Require Import ClientLib.
From S2P Require Import GetAddr.
From S2P Require Import GetAddrRun.
From S2P Require Import ControlPath.
From S2P Require Import KillDupes.
From S2P Require Import Descriptors.
From S2P Require Import Schedule.
From S2P Require Import LogServerMain.
From S2P Require Import ConnectorMain.
From S2P Require Import Programs.

(** The kernel, cerr and cout, g_log_buffer, the globals, the watchers of the
    two log connections, the next time of the pusher's timer with its interval,
    the next round, SIGPIPE. *)
Record gmain := GMain {
  gm_kernel : kernel;
  gm_cerr : list Z;
  gm_cout : list Z;
  gm_log : option log_buffer;
  gm_ga : getaddr;
  gm_watcher : option evio;
  gm_addr_handler : option evio;
  gm_pusher : option (Z * Z);
  gm_timer : option Z;
  gm_sigpipe : bool }.

(** main returns a code, reaches the event loop, or is stuck in next_getaddr. *)
Inductive main_end := Exited (code : Z) | Looping | Stuck.

Definition on_gk {A} (c : prog kernel A) : prog gmain A :=
  zoom gm_kernel (fun k m => GMain k (gm_cerr m) (gm_cout m) (gm_log m) (gm_ga m) (gm_watcher m) (gm_addr_handler m) (gm_pusher m) (gm_timer m) (gm_sigpipe m)) c.
Definition with_gm_ga (g : getaddr) (m : gmain) : gmain :=
  GMain (gm_kernel m) (gm_cerr m) (gm_cout m) (gm_log m) g (gm_watcher m) (gm_addr_handler m) (gm_pusher m) (gm_timer m) (gm_sigpipe m).
Definition on_ga {A} (c : prog getaddr A) : prog gmain A := zoom gm_ga with_gm_ga c.
Definition with_bound (l : list sockaddr_in) (g : getaddr) : getaddr := GetAddr (g_current_getaddr g) (g_getaddr_start g) (g_control g) (g_pending_getaddrs g) (g_msg_id g)
  (g_known_addrs g) (g_known_hids g) (g_cxns g) l (ev_now g) (coins g) (dice g) (ga_log g).

(** getaddr_pusher::getaddr_pusher: a timer of two seconds *)
Definition pusher_ctor (now : Z) : Z * Z := (now + 2 * SEC, 2 * SEC).

Section Main.
(** The page size, strerror, inet_pton, asctime(localtime()); sha256 and the
    magic of the network; what the log server and the connector answer. *)
Context (page : Z) (strerror : Z -> list Z) (pton4 : list Z -> option (list Z)) (asctime : Z -> list Z).
Context (sha256 : list Z -> list Z) (magic : Z) (log_peer control_peer : sock).

(** The sockaddr_in, 16 bytes, in the 19 bytes of a wire_addr. *)
Context (as_sin : list Z -> list Z).

(** The callback of get_all_cxn. *)
Definition on_known (info : list Z) (_ : Z) : prog getaddr unit :=
  let hid := ntoh32 (le_val (slice 0 4 info)) in
  let remote := as_sin (slice 4 WIRE_ADDR info) in
  let local := as_sin (slice 23 WIRE_ADDR info) in
  do! modify (fun g => with_addrs (insert_new (sin_key remote) hid (g_known_addrs g)) g) in
  let! handler := cxn_ctor page remote CONNECTED in
  do! modify (fun g => with_cxns (insert_new (sin_key remote) handler (g_cxns g)) g) in
  modify (fun g => with_hids (insert_new hid (hid_ctor hid (sin_key remote) (sin_key local) g) (g_known_hids g)) g).

(** get_all_cxn(g_control, ...); a handler that is CONNECTED from the start does
    not write to g_control. *)
Definition take_over : prog getaddr Z :=
  zoom (fun g => (g, g_control g)) (fun p _ => with_control (snd p) (fst p)) (get_all_cxn on_known).

(** The time zone. *)
Context (localtime : Z -> btm) (mktime : btm -> Z * btm).

(** next_getaddr(ev_periodic*, ev_tstamp) with four days of its loop as fuel;
    [wall] is time(NULL), [hours] and [minutes] are those of the configuration. *)
Definition reschedule (wall now : Z) (hours minutes : list Z) : prog gmain (option Z) :=
  match next_getaddr localtime mktime 4 wall now hours minutes with
  | None => ret None
  | Some t =>
      do! modify (fun m => GMain (gm_kernel m) (gm_cerr m) (gm_cout m ++ text "Scheduling next event for " ++ asctime t)
                             (gm_log m) (gm_ga m) (gm_watcher m) (gm_addr_handler m) (gm_pusher m) (gm_timer m) (gm_sigpipe m)) in
      ret (Some t)
  end.

(** The log server may be down; then there is only a warning. *)
Definition start_logging (logpath : list Z) : prog gmain unit :=
  try_network strerror
    (let! f := on_gk (unix_sock_client logpath true) in
     modify (fun m => GMain (gm_kernel m) (gm_cerr m) (gm_cout m) (Some (log_buffer_ctor f log_peer)) (gm_ga m)
                        (gm_watcher m) (gm_addr_handler m) (gm_pusher m) (gm_timer m) (gm_sigpipe m)))
    (fun what =>
       modify (fun m => GMain (gm_kernel m) (gm_cerr m ++ text "WARNING: Could not connect to log server! " ++ what ++ [10]) (gm_cout m) (gm_log m) (gm_ga m)
                          (gm_watcher m) (gm_addr_handler m) (gm_pusher m) (gm_timer m) (gm_sigpipe m))).

(** main; [setup] is what startup_setup returned. *)
Definition getaddr_main (setup : Z) (listeners : list listener) (root control_path : list Z) (wall : Z) (hours minutes : list Z) : prog gmain main_end :=
  if negb (setup =? 0) then ret (Exited 1)
  else
    do! on_ga (zoom g_bound_addrs with_bound (load_bound pton4 listeners)) in
    let client_dir := root ++ text "clients/" in
    let logpath := root ++ text "servers" in
    do! start_logging logpath in
    let! bc_msg_client := on_gk (unix_sock_client (client_dir ++ text "bitcoin_msg") true) in
    let! bc_client := on_gk (unix_sock_client (client_dir ++ text "bitcoin") true) in
    let! _ := on_gk (unix_sock_client control_path false) in
    do! on_ga (modify (with_control control_peer)) in
    do! on_ga (register_getaddr page sha256 magic) in
    let! _ := on_ga take_over in
    do! modify (fun m =>
      GMain (gm_kernel m) (gm_cerr m) (gm_cout m) (gm_log m) (gm_ga m) (Some (io_start (EvIo bc_client ev_READ false)))
        (Some (io_start (EvIo bc_msg_client ev_READ false))) (Some (pusher_ctor (ev_now (gm_ga m)))) (gm_timer m) true) in
    let! m := get in
    let! t := reschedule wall (ev_now (gm_ga m) / SEC) hours minutes in
    match t with
    | None => ret Stuck
    | Some t =>
        do! modify (fun m => GMain (gm_kernel m) (gm_cerr m) (gm_cout m ++ text "Starting loop" ++ [10]) (gm_log m) (gm_ga m) (gm_watcher m)
                               (gm_addr_handler m) (gm_pusher m) (Some (t * SEC)) (gm_sigpipe m)) in
        ret Looping
    end.
End Main.

(** ** Taking the connections over *)

Lemma lookup_insert_new {K} `{Countable K} {A} (k j : K) (x : A) m :
  insert_new k x m !! j = match m !! j with Some y => Some y | None => if decide (k = j) then Some x else None end.
Proof.
  unfold insert_new. destruct (m !! k) as [y|] eqn:Hk.
  - destruct (m !! j) eqn:Hj; [done|]. by rewrite decide_False by congruence.
  - destruct (decide (k = j)) as [->|Hne]; [by rewrite lookup_insert_eq, Hk|]. rewrite lookup_insert_ne by done. by destruct (m !! j).
Qed.

Section TakeOver.
Context (page : Z) (as_sin : list Z -> list Z) (Hsin : forall w, zlen w = WIRE_ADDR -> zlen (as_sin w) = 16).
Context (gl : globals) (Hgl : addrs_ok gl) (Hids : forall i, is_Some (BitcoinHandler.g_active_handlers gl !! i) -> 0 <= i < NO_HID).
Abbreviation conns := (BitcoinHandler.g_active_handlers gl).
Abbreviation sin_of := (fun w => sin_key (as_sin w)).

Lemma ctor_connected r g : cxn_ctor page r CONNECTED g = Ret (CxnHandler CONNECTED 0 0 (serialize (connect_msg page r (zrep SOCKADDR_IN 0))) None) g.
Proof. reflexivity. Qed.

(** Nothing but the three maps changes. *)
Definition only_maps (g g' : getaddr) : Prop :=
  g' = with_hids (g_known_hids g') (with_cxns (g_cxns g') (with_addrs (g_known_addrs g') g)).

Lemma only_maps_trans g1 g2 g3 : only_maps g1 g2 -> only_maps g2 g3 -> only_maps g1 g3.
Proof. unfold only_maps. intros H12 H23. rewrite H23, H12. by destruct g1. Qed.

Lemma on_known_ok i h n g :
  GWF page g -> conns !! i = Some h ->
  exists g', on_known page as_sin (info_at gl i) n g = Ret tt g' /\ GWF page g' /\ only_maps g g' /\
    g_known_addrs g' = insert_new (peer_key sin_of h) i (g_known_addrs g) /\
    (forall j, is_Some (g_known_hids g' !! j) <-> is_Some (g_known_hids g !! j) \/ j = i).
Proof.
  intros HG Hi. pose proof (gw_now page g HG) as Hn. destruct (info_fields sin_of gl Hgl i h Hi) as [Hid Hk]. destruct (Hgl i h Hi) as [Hr Hl].
  assert (0 <= i < NO_HID) as Hb by (apply Hids; by rewrite Hi). unfold NO_HID in Hb.
  assert (ntoh32 (hton32 i) = i) as Hrt by (unfold ntoh32, hton32; rewrite bswap_involutive; apply Z.mod_small; change (256 ^ Z.of_nat 4) with (2 ^ 32); lia).
  assert (slice 4 WIRE_ADDR (info_at gl i) = sockaddr_to_wire (remote_addr h)) as Hs.
  { unfold info_at. rewrite Hi. unfold connection_info. by rewrite (slice_app_mid 4 WIRE_ADDR (le_bytes 4 (hton32 i))) by (by rewrite ?zlen_le_bytes, ?zlen_sockaddr_to_wire). }
  unfold on_known. cbv zeta. rewrite Hid, Hrt, Hs. set (r := as_sin (sockaddr_to_wire (remote_addr h))). set (lo := as_sin (slice 23 _ _)).
  fold (peer_key sin_of h). change (sin_key r) with (peer_key sin_of h). set (a := peer_key sin_of h).
  assert (zlen r = 16) as Hz by (by apply Hsin, zlen_sockaddr_to_wire).
  erewrite bind_ret by reflexivity. erewrite bind_ret by apply ctor_connected. erewrite bind_ret by reflexivity.
  set (c := CxnHandler _ _ _ _ _). set (g1 := with_cxns _ _).
  assert (cx_ok page a (ev_now g) c) as Hc.
  { unfold c. split; [|done]. split; simpl; [lia|split; [done|lia]|lia|done|by exists r]. }
  assert (GWF page g1) as HG1.
  { destruct (g_known_addrs g !! a) as [x|] eqn:Ha.
    - destruct (proj1 (gw_dom page g HG a)) as [y Hy]; [by rewrite Ha|].
      apply (GWF_same_maps page g); try done; [apply HG|..]; simpl; unfold insert_new; [by rewrite Ha|by rewrite Hy].
    - assert (g_cxns g !! a = None) as Hy by (apply eq_None_not_Some; intros Hy%(gw_dom page g HG); rewrite Ha in Hy; by destruct Hy).
      apply (GWF_addr page g g1 a c i); try done; [split; [intros _; unfold NO_HID; lia|done]|..]; simpl; unfold insert_new; [by rewrite Ha|by rewrite Hy]. }
  eexists. split; [reflexivity|]. split_and!.
  - destruct (g_known_hids g1 !! i) as [x|] eqn:Hx; unfold insert_new; rewrite Hx; [by destruct g1|]. apply GWF_hid_insert; [done|]. by apply (hid_ctor_ok page).
  - reflexivity.
  - reflexivity.
  - intros j. cbn [g_known_hids with_hids]. rewrite lookup_insert_new. change (g_known_hids g1) with (g_known_hids g).
    destruct (g_known_hids g !! j); [split; eauto|]. destruct (decide (i = j)) as [->|Hne]; [split; eauto|]. split; [intros [? [=]]|intros [[? [=]]| ->]; done].
Qed.

(** Each address is known under the first of its connections. *)
Lemma take_over_ok l : forall n g,
  GWF page g -> Forall (fun i => is_Some (conns !! i)) l ->
  exists g', ClientLib.each_record (on_known page as_sin) (map (info_at gl) l) n g = Ret tt g' /\ GWF page g' /\ only_maps g g' /\
    (forall a, g_known_addrs g' !! a = match g_known_addrs g !! a with Some x => Some x | None => head (ids_to sin_of gl a l) end) /\
    (forall j, is_Some (g_known_hids g' !! j) <-> is_Some (g_known_hids g !! j) \/ j ∈ l).
Proof.
  induction l as [|i l IH]; intros n g HG HF; cbn [map ClientLib.each_record].
  { exists g. split_and!; [done|done|by destruct g|intros a; by destruct (_ !! a)|intros j; set_solver]. }
  apply Forall_cons in HF as [[h Hi] HF]. destruct (on_known_ok i h n g HG Hi) as (g1&Hr1&HG1&Hm1&Ha1&Hh1).
  destruct (IH (n + 1) g1 HG1 HF) as (g'&Hr&HG'&Hm&Ha&Hh). exists g'. split_and!; [by run_step Hr1|done|by eapply only_maps_trans|..].
  - intros a. rewrite Ha, Ha1, lookup_insert_new. destruct (g_known_addrs g !! a); [done|]. unfold ids_to at 2. rewrite filter_cons. fold (ids_to sin_of gl a l).
    assert (key_at sin_of gl i = Some (peer_key sin_of h)) as Hka by (unfold key_at; by rewrite Hi).
    destruct (decide (peer_key sin_of h = a)) as [E|E]; [rewrite (decide_True (P := key_at _ _ _ = _)) by congruence; done|].
    by rewrite (decide_False (P := key_at _ _ _ = _)) by congruence.
  - intros j. rewrite Hh, Hh1. set_solver.
Qed.
End TakeOver.

(** ** The connections *)

(** A socket that is connected to [path]. *)
Definition client_socket (path : list Z) (nb : bool) : ksocket := KSocket AF_UNIX nb false None None (Some (unix_addr path)).

Lemma client_granted path nb k :
  path_ok path = true -> kernel_ok k -> 0 < room k -> answers k = [] ->
  unix_sock_client path nb k = Ret (lowest (fds k)) (opened (client_socket path nb) k).
Proof. intros Hp Hk Hr Ha. rewrite (unix_sock_client_ok path nb k [] []) by (done || by right). by rewrite with_answers_nil. Qed.

(** [k'] is [k] with another open socket. *)
Definition with_socket (k k' : kernel) (f : Z) (s : ksocket) : Prop :=
  kernel_ok k' /\ room k' = room k - 1 /\ answers k' = [] /\ fds k' !! f = Some s /\ forall x y, fds k !! x = Some y -> fds k' !! x = Some y.

Lemma opened_with_socket s k : kernel_ok k -> 0 < room k -> answers k = [] -> with_socket k (opened s k) (lowest (fds k)) s.
Proof.
  intros Hk Hr Ha. destruct (opened_ok s k Hk Hr) as (H1&H2&_). split_and!; [done..|apply opened_last|].
  intros x y Hx. destruct (lowest_spec (fds k)) as [_ Hf]. simpl. rewrite lookup_insert_ne; [done|]. congruence.
Qed.

(** The connection to the log server, which may be down: the exception is caught,
    the descriptor stays open. *)
Definition log_answers (down : option Z) : list (option Z) := match down with None => [] | Some e => [None; Some e] end.

Section Start.
Context (strerror : Z -> list Z) (log_peer : sock).

(** What main does with the answer of the log server. *)
Definition log_started (down : option Z) (m : gmain) : Prop :=
  match down with
  | None => exists f, gm_log m = Some (log_buffer_ctor f log_peer)
  | Some e => gm_log m = None /\ gm_cerr m = text "WARNING: Could not connect to log server! " ++ (text "connect failure" ++ text ": " ++ strerror e) ++ [10]
  end.

Lemma start_log down path k ga :
  path_ok path = true -> kernel_ok k -> 0 < room k -> answers k = log_answers down ->
  exists m1 f s, start_logging strerror log_peer path
      (GMain k [] [] None ga None None None None false) = Ret tt m1 /\
    m1 = GMain (gm_kernel m1) (gm_cerr m1) [] (gm_log m1) ga None None None None false /\ log_started down m1 /\
    with_socket k (gm_kernel m1) f s /\ (down = None -> s = client_socket path true /\ gm_log m1 = Some (log_buffer_ctor f log_peer)).
Proof.
  intros Hp Hk Hr Ha. destruct down as [e|]; simpl in Ha.
  - pose proof (unix_sock_client_refused path true k [Some e] e [] Hp Hk Hr (or_introl Ha) eq_refl) as Href. set (s := KSocket AF_UNIX true false None None None) in Href.
    destruct (opened_ok s k Hk Hr) as (H1&H2&_).
    eexists _, (lowest (fds k)), s. split; [unfold start_logging, try_network, on_gk, bind, zoom; cbn [gm_kernel]; rewrite Href; reflexivity|].
    split; [reflexivity|]. split; [done|]. split; [|done]. split_and!; [done|done|done|apply opened_last|].
    intros x y Hx. destruct (lowest_spec (fds k)) as [_ Hf]. simpl. rewrite lookup_insert_ne; [done|]. congruence.
  - pose proof (client_granted path true k Hp Hk Hr Ha) as Hc.
    eexists _, (lowest (fds k)), _. split; [unfold start_logging, try_network, on_gk, bind, zoom; cbn [gm_kernel]; rewrite Hc; reflexivity|].
    split; [reflexivity|]. split; [by eexists|]. split; [by apply opened_with_socket|done].
Qed.

(** The three connections that main cannot do without. *)
Lemma client_with_socket path nb m :
  path_ok path = true -> kernel_ok (gm_kernel m) -> 0 < room (gm_kernel m) -> answers (gm_kernel m) = [] ->
  exists f k, on_gk (unix_sock_client path nb) m =
      Ret f (GMain k (gm_cerr m) (gm_cout m) (gm_log m) (gm_ga m) (gm_watcher m) (gm_addr_handler m) (gm_pusher m) (gm_timer m) (gm_sigpipe m)) /\
    with_socket (gm_kernel m) k f (client_socket path nb).
Proof.
  intros Hp Hk Hr Ha. exists (lowest (fds (gm_kernel m))), (opened (client_socket path nb) (gm_kernel m)). split; [|by apply opened_with_socket].
  unfold on_gk, zoom. by rewrite client_granted.
Qed.

Definition with_gm_kernel (k : kernel) (m : gmain) : gmain :=
  GMain k (gm_cerr m) (gm_cout m) (gm_log m) (gm_ga m) (gm_watcher m) (gm_addr_handler m) (gm_pusher m) (gm_timer m) (gm_sigpipe m).

Lemma clients_with_sockets p1 p2 p3 m :
  path_ok p1 = true -> path_ok p2 = true -> path_ok p3 = true -> kernel_ok (gm_kernel m) -> 3 <= room (gm_kernel m) -> answers (gm_kernel m) = [] ->
  exists f1 k1 f2 k2 f3 k3,
    on_gk (unix_sock_client p1 true) m = Ret f1 (with_gm_kernel k1 m) /\
    on_gk (unix_sock_client p2 true) (with_gm_kernel k1 m) = Ret f2 (with_gm_kernel k2 m) /\
    on_gk (unix_sock_client p3 false) (with_gm_kernel k2 m) = Ret f3 (with_gm_kernel k3 m) /\
    fds k3 !! f1 = Some (client_socket p1 true) /\ fds k3 !! f2 = Some (client_socket p2 true) /\ fds k3 !! f3 = Some (client_socket p3 false).
Proof.
  intros H1 H2 H3 Hk Hr Ha. destruct (client_with_socket p1 true m) as (f1&k1&Hr1&Hk1&Hroom1&Ha1&Hf1&_); [done|done|lia|done|].
  destruct (client_with_socket p2 true (with_gm_kernel k1 m)) as (f2&k2&Hr2&Hk2&Hroom2&Ha2&Hf2&Hkeep2); [done|done|simpl; lia|done|].
  destruct (client_with_socket p3 false (with_gm_kernel k2 m)) as (f3&k3&Hr3&_&_&_&Hf3&Hkeep3); [done|done|simpl in *; lia|done|].
  exists f1, k1, f2, k2, f3, k3. split_and!; [exact Hr1|exact Hr2|exact Hr3|by apply Hkeep3, Hkeep2|by apply Hkeep3|done].
Qed.
End Start.

(** The registration and the connections that are there. *)
Lemma join_connector page sha256 magic as_sin gl ga id rest :
  0 < page <= 2 ^ 62 -> 0 <= magic < 2 ^ 32 -> (forall w, zlen w = WIRE_ADDR -> zlen (as_sin w) = 16) ->
  addrs_ok gl -> (forall i, is_Some (BitcoinHandler.g_active_handlers gl !! i) -> 0 <= i < NO_HID) -> Z.of_nat (size (BitcoinHandler.g_active_handlers gl)) < 2 ^ 26 ->
  0 <= id < 2 ^ 32 -> (2 <= spare (wx (g_control ga)))%nat -> GWF page ga -> g_known_addrs ga = ∅ -> g_known_hids ga = ∅ ->
  avail (rx (g_control ga)) = be_bytes 4 id ++ be_bytes 4 (CONNECTION_INFO * zlen (info_list gl)) ++ connection_infos gl ++ rest ->
  let msg := getaddr_message sha256 magic in
  exists ga1 n ga2, register_getaddr page sha256 magic ga = Ret tt ga1 /\ take_over page as_sin ga1 = Ret n ga2 /\ GWF page ga2 /\
    tx (g_control ga2) = tx (g_control ga) ++ (ctrl_head BITCOIN_PACKED_MESSAGE (zlen msg) ++ msg) ++ command_bytes COMMAND_GET_CXN 0 [] /\
    g_msg_id ga2 = id /\ g_bound_addrs ga2 = g_bound_addrs ga /\ ev_now ga2 = ev_now ga /\
    (forall i, is_Some (g_known_hids ga2 !! i) <-> is_Some (BitcoinHandler.g_active_handlers gl !! i)) /\
    (forall a, g_known_addrs ga2 !! a = head (ids_to (fun w => sin_key (as_sin w)) gl a (ids (BitcoinHandler.g_active_handlers gl)))).
Proof.
  intros Hp Hmg Hsin Hgl Hids Hsz Hid Hsp HG Ea Eh Hav msg.
  destruct (register_getaddr_ok page sha256 magic ga id (be_bytes 4 (CONNECTION_INFO * zlen (info_list gl)) ++ connection_infos gl ++ rest)) as (kc&Hreg&Htx&Havc&Hsc);
    [done|done|lia|done|exact Hav|]. set (ga1 := with_msg_id id (with_control kc ga)) in *.
  assert (GWF page ga1) as HG1 by (by apply (GWF_same_maps page ga)).
  destruct (take_over_ok page as_sin Hsin gl Hgl Hids (ids (BitcoinHandler.g_active_handlers gl)) 0 ga1 HG1) as (ga4&Hta&HG4&Hom&Haddr&Hhid);
    [apply Forall_forall; intros i; by rewrite in_ids|].
  destruct (get_all_cxn_spare (on_known page as_sin) gl ga1 ga4 kc rest) as (kd&Hall&Htxd&_&_); [done|done|lia|exact Havc|exact Hta|].
  eexists ga1, _, (with_control kd ga4). split_and!; [exact Hreg|unfold take_over, zoom; change (g_control ga1) with kc; rewrite Hall; reflexivity|..].
  - apply (GWF_same_maps page ga4); try done. apply HG4.
  - cbn [g_control with_control]. by rewrite Htxd, Htx, <- !app_assoc.
  - rewrite Hom. reflexivity.
  - rewrite Hom. reflexivity.
  - rewrite Hom. reflexivity.
  - intros i. cbn [g_known_hids with_control]. rewrite Hhid. change (g_known_hids ga1) with (g_known_hids ga). rewrite Eh, lookup_empty, in_ids. split; [by intros [[? [=]]|?]|by right].
  - intros a. cbn [g_known_addrs with_control]. rewrite Haddr. change (g_known_addrs ga1) with (g_known_addrs ga). by rewrite Ea, lookup_empty.
Qed.

(** A descriptor of the kernel that is watched for input. *)
Definition watches_input (k : kernel) (w : option evio) (s : ksocket) : Prop :=
  exists v, w = Some v /\ io_on v = true /\ io_ev v = ev_READ /\ fds k !! fd v = Some s.

(** C11. getaddr starts with its books in order: with four descriptors, a connector
    that answers and a schedule, main reaches the event loop, with or without the
    log server. It is connected to the sockets "bitcoin_msg" and "bitcoin" of the
    log server and watches them, and to the control socket; it has registered
    its message and uses the id it was given; it knows exactly the connections
    the connector has, and each address under the oldest of its connections; the
    next round is later than now. The invariant of the program holds, and every
    sequence of events for which [enabled] holds (timers that are due, input in
    the documented format, writes that are taken whole, see getaddr_keeps) keeps it. *)
Theorem getaddr_set_up page strerror pton4 asctime sha256 magic log_peer control_peer as_sin localtime mktime listeners bound root control_path wall hours minutes now k down gl id rest :
  0 < page <= 2 ^ 62 -> 0 <= magic < 2 ^ 32 -> (forall w, zlen w = WIRE_ADDR -> zlen (as_sin w) = 16) ->
  load_bound pton4 listeners [] = Ret tt bound -> LocalTime localtime mktime -> hours_ok hours -> minutes_ok minutes -> 0 < now -> now / SEC <= wall -> 3 * 86400 <= wall < 2 ^ 36 ->
  kernel_ok k -> 4 <= room k -> answers k = log_answers down ->
  Forall (fun x => x <> 0) root -> zlen root <= 88 -> path_ok control_path = true ->
  addrs_ok gl -> (forall i, is_Some (BitcoinHandler.g_active_handlers gl !! i) -> 0 <= i < NO_HID) -> Z.of_nat (size (BitcoinHandler.g_active_handlers gl)) < 2 ^ 26 ->
  0 <= id < 2 ^ 32 -> (2 <= spare (wx control_peer))%nat ->
  avail (rx control_peer) = be_bytes 4 id ++ be_bytes 4 (CONNECTION_INFO * zlen (info_list gl)) ++ connection_infos gl ++ rest ->
  let sin_of w := sin_key (as_sin w) in
  let msg := getaddr_message sha256 magic in
  exists m, getaddr_main page strerror pton4 asctime sha256 magic log_peer control_peer as_sin localtime mktime 0 listeners root control_path wall hours minutes
      (GMain k [] [] None (ga_start now 0 [] control_peer) None None None None false) = Ret Looping m /\
    log_started strerror log_peer down m /\
    watches_input (gm_kernel m) (gm_addr_handler m) (client_socket (root ++ text "clients/" ++ text "bitcoin_msg") true) /\
    watches_input (gm_kernel m) (gm_watcher m) (client_socket (root ++ text "clients/" ++ text "bitcoin") true) /\
    (exists f, fds (gm_kernel m) !! f = Some (client_socket control_path false)) /\
    tx (g_control (gm_ga m)) = tx control_peer ++ (ctrl_head BITCOIN_PACKED_MESSAGE (zlen msg) ++ msg) ++ command_bytes COMMAND_GET_CXN 0 [] /\
    g_msg_id (gm_ga m) = id /\ g_bound_addrs (gm_ga m) = bound /\
    (forall i, is_Some (g_known_hids (gm_ga m) !! i) <-> is_Some (BitcoinHandler.g_active_handlers gl !! i)) /\
    (forall a, g_known_addrs (gm_ga m) !! a = head (ids_to sin_of gl a (ids (BitcoinHandler.g_active_handlers gl)))) /\
    (exists t, gm_timer m = Some (t * SEC) /\ now / SEC < t) /\ gm_pusher m = Some (now + 2 * SEC, 2 * SEC) /\ gm_sigpipe m = true /\
    forall inet_ntop6 es, possible page inet_ntop6 es (gm_ga m) ->
      exists g', gexecs page inet_ntop6 es (gm_ga m) = Ret tt g' /\ GWF page g'.
Proof.
  intros Hp Hmg Hsin Hbound HLT Hh Hmi Hnow Hwall Hw2 Hk Hr Ha H0 Hl Hpc Hgl Hids Hsz Hid Hsp Hav sin_of msg. destruct (consumers_ok root H0 Hl) as [Hcs Hps].
  assert (forall c, In c consumers -> path_ok ((root ++ text "clients/") ++ text c.1.2) = true) as Hpath by (rewrite List.Forall_forall in Hcs; intros c Hc; by apply Hcs).
  unfold getaddr_main. cbn [negb Z.eqb]. set (ga0 := ga_start now 0 [] control_peer).
  erewrite bind_ret by (unfold on_ga; eapply zoom_ret, zoom_ret; exact Hbound).
  change (with_gm_ga _ _) with (GMain k [] [] None (with_bound bound ga0) None None None None false). set (ga1 := with_bound bound ga0). cbv zeta.
  destruct (start_log strerror log_peer down (root ++ text "servers") k ga1) as (m1&f0&s0&Hr1&Em1&Hlog&(Hk1&Hroom1&Ha1&_&_)&_); [done|done|lia|done|]. run_step Hr1.
  destruct (clients_with_sockets ((root ++ text "clients/") ++ text "bitcoin_msg") ((root ++ text "clients/") ++ text "bitcoin") control_path m1) as (f1&k1&f2&k2&f3&k3&Hr2&Hr3&Hr4&Hf1&Hf2&Hf3);
    [apply (Hpath (5, "bitcoin_msg"%string, BITCOIN_MSG)); simpl; tauto|apply (Hpath (4, "bitcoin"%string, BITCOIN)); simpl; tauto|done|done|lia|done|].
  run_step Hr2. run_step Hr3. run_step Hr4. erewrite bind_ret by (unfold on_ga; eapply zoom_ret; reflexivity). rewrite <- app_assoc in Hf1, Hf2.
  destruct (join_connector page sha256 magic as_sin gl (with_control control_peer ga1) id rest) as (ga3&n&ga4&Hreg&Hall&HG&Htx&Hmid&Hbd&Hnw&Hhid&Haddr); try done;
    [apply (GWF_same_maps page (ga_start now 0 [] control_peer)); try done; apply ga_start_GWF; [done|lia]|].
  assert (gm_ga (with_gm_kernel k3 m1) = ga1) as Eg by (rewrite Em1; reflexivity). rewrite Eg.
  erewrite bind_ret by (unfold on_ga; eapply zoom_ret; exact Hreg). erewrite bind_ret by (unfold on_ga; eapply zoom_ret; exact Hall).
  erewrite bind_ret by reflexivity. erewrite bind_ret by done. cbn [gm_ga with_gm_ga]. rewrite Hnw. change (ev_now (with_control control_peer ga1)) with now.
  destruct (next_getaddr_ends_in_four localtime mktime wall (now / SEC) hours minutes) as (t&Hnext&Hlt); [done..|].
  unfold reschedule. rewrite Hnext. cbv iota. erewrite bind_ret by (erewrite bind_ret by reflexivity; reflexivity). cbv iota. erewrite bind_ret by reflexivity.
  eexists. split; [reflexivity|]. cbn [gm_ga with_gm_ga with_gm_kernel gm_kernel gm_cerr gm_cout gm_log gm_watcher gm_addr_handler gm_pusher gm_timer gm_sigpipe]. split_and!; try done.
  - by eexists.
  - by eexists.
  - by eexists.
  - by eexists.
  - intros inet_ntop6 es Hpos. by apply gexecs_ok.
Qed.

(** A connector with the connections 3 and 8. *)
Definition demo_as_sin (w : list Z) : list Z := le_bytes 2 AF_INET ++ slice 17 2 w ++ slice 1 4 w ++ zrep 8 0.
Definition demo_control_peer : sock :=
  Sock [RData (be_bytes 4 2 ++ be_bytes 4 (CONNECTION_INFO * zlen (info_list (wgl demo_world))) ++ connection_infos (wgl demo_world))]
       [WAccept WHOLE; WErr EINTR; WAccept WHOLE] [] 0.
Definition demo_getaddr : prog gmain main_end :=
  getaddr_main 4096 (fun _ => []) (fun _ => Some [127; 0; 0; 1]) (fun _ => []) Sha256.sha256 3652501241 (Sock [] [] [] 0) demo_control_peer demo_as_sin
    cet mktime_cet 0 [Listener (text "ipv4") (text "127.0.0.1") 8333 5] (text "/tmp/log/") (text "/tmp/control") 1420110000 [4; 16] [30].

Lemma getaddr_set_up_witness :
  exists m, demo_getaddr (GMain (Kernel ∅ 64 ∅ ∅ [] 0) [] [] None (ga_start (100 * SEC) 0 [] demo_control_peer) None None None None false) = Ret Looping m /\
    g_msg_id (gm_ga m) = 2 /\ is_Some (g_known_hids (gm_ga m) !! 8).
Proof.
  destruct (getaddr_set_up 4096 (fun _ => []) (fun _ => Some [127; 0; 0; 1]) (fun _ => []) Sha256.sha256 3652501241 (Sock [] [] [] 0) demo_control_peer demo_as_sin cet mktime_cet
    [Listener (text "ipv4") (text "127.0.0.1") 8333 5] [SockaddrIn (le_val [127; 0; 0; 1]) (hton16 8333)] (text "/tmp/log/") (text "/tmp/control") 1420110000 [4; 16] [30]
    (100 * SEC) (Kernel ∅ 64 ∅ ∅ [] 0) None (wgl demo_world) 2 []) as (m&Hr&_&_&_&_&_&Hid&_&Hh&_).
  - lia.
  - lia.
  - intros w Hw. unfold demo_as_sin. unfold WIRE_ADDR in Hw. rewrite !zlen_app, !zlen_slice by lia. reflexivity.
  - vm_compute. reflexivity.
  - exact cet_LocalTime.
  - split; [discriminate|]. repeat constructor; lia.
  - split; [discriminate|]. repeat constructor; lia.
  - reflexivity.
  - vm_compute. congruence.
  - lia.
  - intros f [x Hx]. done.
  - vm_compute. congruence.
  - reflexivity.
  - repeat constructor; discriminate.
  - vm_compute. congruence.
  - reflexivity.
  - intros i h Hi. change (({[ 3 := demo_conn 3; 8 := demo_conn 8 ]} : gmap Z handler) !! i = Some h) in Hi.
    apply lookup_insert_Some in Hi as [[_ <-]|[_ Hi]]; [split; reflexivity|]. apply lookup_singleton_Some in Hi as [_ <-]. split; reflexivity.
  - intros i [h Hi]. change (({[ 3 := demo_conn 3; 8 := demo_conn 8 ]} : gmap Z handler) !! i = Some h) in Hi. unfold NO_HID.
    apply lookup_insert_Some in Hi as [[<- _]|[_ Hi]]; [lia|]. apply lookup_singleton_Some in Hi as [<- _]. lia.
  - vm_compute. reflexivity.
  - lia.
  - vm_compute. lia.
  - vm_compute. reflexivity.
  - exists m. split; [exact Hr|]. split; [exact Hid|]. apply Hh. vm_compute. eauto.
Defined.
