(* ===== verification/ClientMains.v ===== *)
(** * How the clients start

    The beginning of main of logclient/src/console.cpp, logclient/verbatim.cpp,
    clients/connect.cpp, get_nodes.cpp, kill_dupes.cpp and cycle.cpp: the
    configuration and the sockets; and where these sockets lead. What the
    programs do then is in Console, Verbatim, Programs, KillDupes and Cycle. *)

From S2P Require Import Prelude.
From S2P Require Import Bytes.
From S2P Require Import Net.
From S2P Require Import LogServer.
From S2P Require Import BitcoinWire.
From S2P Require Import Logger.
From S2P Require Import LogFormat.
From S2P Require Import BitcoinHandler.
From S2P Require Import Descriptors.
From S2P Require Import Config.
From S2P Require Import LogServerMain.
From S2P Require Import ConnectorMain.
From S2P Require Import GetAddrMain.

(** The settings the clients look up. *)
Record client_settings := ClientSettings { cs_root : list Z; cs_control : list Z }.

(** The kernel, and the process as load_config sees it. *)
Record process := Process { pr_kernel : kernel; pr_startup : startup }.

Definition on_pk {A} (c : prog kernel A) : prog process A := zoom pr_kernel (fun k p => Process k (pr_startup p)) c.

Section Clients.
(** What libconfig makes of each file. *)
Context (files : list Z -> read_file) (settings : list Z -> client_settings).

(** if (argc == 2) load_config(argv[1]); else load_config("../netmine.cfg"); *)
Definition client_config (argv : list (list Z)) : prog process client_settings :=
  let file := match argv with [_; name] => name | _ => text "../netmine.cfg" end in
  do! zoom pr_startup (fun s p => Process (pr_kernel p) s) (load_config (files file)) in
  ret (settings file).

(** A socket in the directory of the consumers. *)
Definition consumer_client (root : list Z) (name : string) (nonblocking : bool) : prog process Z :=
  let client_dir := root ++ text "clients/" in
  on_pk (unix_sock_client (client_dir ++ text name) nonblocking).

(** console.cpp: the descriptor of "all" *)
Definition console_start (argv : list (list Z)) : prog process Z :=
  let! cfg := client_config argv in
  do! on_pk (sys_mkdir (cs_root cfg)) in
  consumer_client (cs_root cfg) "all" false.

(** verbatim.cpp: [setup] is what startup_setup returned; [None] is EXIT_FAILURE *)
Definition verbatim_start (setup : Z) (cfg : client_settings) : prog process (option Z) :=
  if negb (setup =? 0) then ret None
  else
    do! on_pk (sys_mkdir (cs_root cfg)) in
    let! client := consumer_client (cs_root cfg) "all" false in
    ret (Some client).

(** connect.cpp: the control socket and the descriptor of "bitcoin" *)
Definition connect_start (argv : list (list Z)) : prog process (Z * Z) :=
  let! cfg := client_config argv in
  let! sock := on_pk (unix_sock_client (cs_control cfg) false) in
  do! on_pk (sys_mkdir (cs_root cfg)) in
  let! bitcoin_client := consumer_client (cs_root cfg) "bitcoin" false in
  ret (sock, bitcoin_client).

(** get_nodes.cpp and kill_dupes.cpp: the control socket *)
Definition get_nodes_start (argv : list (list Z)) : prog process Z :=
  let! cfg := client_config argv in
  on_pk (unix_sock_client (cs_control cfg) false).

Definition kill_dupes_start (argv : list (list Z)) : prog process Z :=
  let! cfg := client_config argv in
  on_pk (unix_sock_client (cs_control cfg) false).

(** cycle.cpp: the control socket, and later the descriptor of "bitcoin" *)
Definition cycle_start (argv : list (list Z)) : prog process (Z * client_settings) :=
  let! cfg := client_config argv in
  let! sock := on_pk (unix_sock_client (cs_control cfg) false) in
  ret (sock, cfg).

Definition cycle_watch (cfg : client_settings) : prog process Z := consumer_client (cs_root cfg) "bitcoin" false.
End Clients.

(** ** Where the sockets lead *)

(** Descriptor [f] of the process is connected to the socket of the connector. *)
Definition to_connector (control : ksocket) (p : process) (f : Z) : Prop :=
  exists s, fds (pr_kernel p) !! f = Some s /\ ks_nonblock s = false /\ ks_peer s = ks_bound control /\ is_Some (ks_peer s) /\ is_Some (ks_backlog control).

(** Descriptor [f] is connected to a socket of the log server behind which a
    consumer gets exactly the records of the types [ts]. *)
Definition to_log_server (m : lsmain) (p : process) (f : Z) (ts : list Z) : Prop :=
  exists s a w l, fds (pr_kernel p) !! f = Some s /\ ks_nonblock s = false /\ is_Some (ks_peer s) /\
    In (a, w) (ls_outs m) /\ io_on w = true /\ fds (ls_kernel m) !! fd w = Some l /\ ks_bound l = ks_peer s /\ is_Some (ks_backlog l) /\
    forall h x c, exists s2 o, out_handle_accept a h x c (ls_server m) = Ret tt s2 /\ outs s2 !! h = Some o /\
      forall t, In t log_types -> interested o t = bool_decide (t ∈ ts).

Section Meet.
Context (files : list Z -> read_file) (settings : list Z -> client_settings) (argv : list (list Z)) (root control_path : list Z).
Context (Hfile : files (match argv with [_; name] => name | _ => text "../netmine.cfg" end) = FileRead).
Context (Hset : settings (match argv with [_; name] => name | _ => text "../netmine.cfg" end) = ClientSettings root control_path).

Lemma client_config_ok p : client_config files settings argv p = Ret (ClientSettings root control_path) p.
Proof. unfold client_config. rewrite Hfile. erewrite bind_ret by (eapply zoom_ret; reflexivity). rewrite Hset. by destruct p. Qed.

(** A connection of a process. *)
Lemma client_opens path p :
  path_ok path = true -> kernel_ok (pr_kernel p) -> 0 < room (pr_kernel p) -> answers (pr_kernel p) = [] ->
  exists f k, on_pk (unix_sock_client path false) p = Ret f (Process k (pr_startup p)) /\ with_socket (pr_kernel p) k f (client_socket path false).
Proof.
  intros Hp Hk Hr Ha. exists (lowest (fds (pr_kernel p))), (opened (client_socket path false) (pr_kernel p)). split; [|by apply opened_with_socket].
  unfold on_pk, zoom. by rewrite client_granted.
Qed.

Context (Hroot : Forall (fun x => x <> 0) root) (Hlen : zlen root <= 88) (Hcp : path_ok control_path = true).

Lemma consumer_path (name : string) ts : In (name, ts) documented -> path_ok ((root ++ text "clients/") ++ text name) = true.
Proof.
  intros Hin. destruct (consumers_ok root Hroot Hlen) as [HF _]. rewrite List.Forall_forall in HF.
  pose proof interests_documented as Hd. remember consumers as cs eqn:E. clear E. induction Hd as [|c d cs ds [Hn _] Hd IH]; [done|].
  destruct Hin as [->|Hin]; [|apply IH; [done|]; intros x Hx; apply HF; by right]. simpl in Hn. rewrite <- Hn. apply HF. by left.
Qed.

(** A consumer of the log server. *)
Lemma consumer_opens name ts p :
  In (name, ts) documented -> kernel_ok (pr_kernel p) -> 0 < room (pr_kernel p) -> answers (pr_kernel p) = [] ->
  exists f k, consumer_client root name false p = Ret f (Process k (pr_startup p)) /\
    with_socket (pr_kernel p) k f (client_socket (root ++ text "clients/" ++ text name) false).
Proof.
  intros Hin Hk Hr Ha. unfold consumer_client. cbv zeta. destruct (client_opens ((root ++ text "clients/") ++ text name) p) as (f&k&Hrun&Hg);
    [by apply (consumer_path name ts)|done|done|done|]. exists f, k. by rewrite <- app_assoc in Hg.
Qed.

(** Making a directory leaves the descriptors. *)
Lemma mkdir_run p : on_pk (sys_mkdir root) p = Ret tt (Process (with_dirs ({[root]} ∪ dirs (pr_kernel p)) (pr_kernel p)) (pr_startup p)).
Proof. by destruct p. Qed.

Context (m : lsmain) (control : ksocket).
Context (Hm : forall name ts, In (name, ts) documented -> exists a w, In (a, w) (ls_outs m) /\ io_on w = true /\ io_ev w = ev_READ /\
       fds (ls_kernel m) !! fd w = Some (listening (root ++ text "clients/" ++ text name)) /\
       forall h f c, exists s2 o, out_handle_accept a h f c (ls_server m) = Ret tt s2 /\ outs s2 !! h = Some o /\
         forall t, In t log_types -> interested o t = bool_decide (t ∈ ts)).
Context (Hbound : ks_bound control = Some (unix_addr control_path)) (Hbacklog : is_Some (ks_backlog control)).

Lemma meets_log_server name ts k st f :
  In (name, ts) documented -> fds k !! f = Some (client_socket (root ++ text "clients/" ++ text name) false) -> to_log_server m (Process k st) f ts.
Proof.
  intros Hin Hf. destruct (Hm name ts Hin) as (a&w&Hw&Hon&_&Hl&Hacc). exists (client_socket (root ++ text "clients/" ++ text name) false), a, w, (listening (root ++ text "clients/" ++ text name)).
  split_and!; try done; by eexists.
Qed.

Lemma meets_connector k st f : fds k !! f = Some (client_socket control_path false) -> to_connector control (Process k st) f.
Proof. intros Hf. eexists. split_and!; [exact Hf|done|by rewrite Hbound|by eexists|done]. Qed.

(** The control socket and then a consumer. *)
Lemma opens_both name ts p :
  In (name, ts) documented -> kernel_ok (pr_kernel p) -> 2 <= room (pr_kernel p) -> answers (pr_kernel p) = [] ->
  exists f p1, on_pk (unix_sock_client control_path false) p = Ret f p1 /\
    (exists b p2, consumer_client root name false p1 = Ret b p2 /\ to_connector control p2 f /\ to_log_server m p2 b ts) /\
    (exists b p2, consumer_client root name false (Process (with_dirs ({[root]} ∪ dirs (pr_kernel p1)) (pr_kernel p1)) (pr_startup p1)) = Ret b p2 /\
       to_connector control p2 f /\ to_log_server m p2 b ts) /\ to_connector control p1 f.
Proof.
  intros Hin Hk Hr Ha. destruct (client_opens control_path p) as (f&k1&Hr1&Hk1&Hroom1&Ha1&Hf1&_); [done|done|lia|done|].
  exists f, (Process k1 (pr_startup p)). split; [done|]. split_and!; [| |by apply meets_connector].
  - destruct (consumer_opens name ts (Process k1 (pr_startup p))) as (b&k2&Hr2&_&_&_&Hf2&Hkeep); [done|done|simpl; lia|done|].
    exists b, (Process k2 (pr_startup p)). split_and!; [done|by apply meets_connector, Hkeep|by apply (meets_log_server name)].
  - destruct (consumer_opens name ts (Process (with_dirs ({[root]} ∪ dirs k1) k1) (pr_startup p))) as (b&k2&Hr2&_&_&_&Hf2&Hkeep); [done|done|unfold room in *; simpl; lia|done|].
    exists b, (Process k2 (pr_startup p)). split_and!; [done|by apply meets_connector, Hkeep|by apply (meets_log_server name)].
Qed.
End Meet.

(** C24. Clients and servers meet: when the log server and the connector have
    started with the same settings, every client that can read its configuration
    gets the connections it needs, all of them blocking: console and verbatim to
    the socket behind which every record is delivered, connect and cycle to the
    one with the records of type BITCOIN alone, connect, cycle, get_nodes and
    kill_dupes to the listening socket of the connector. *)
Theorem clients_meet_servers files settings argv root control_path kl sl kc n p :
  let file := match argv with [_; name] => name | _ => text "../netmine.cfg" end in
  let cfg := ClientSettings root control_path in
  files file = FileRead -> settings file = cfg -> Forall (fun x => x <> 0) root -> zlen root <= 88 -> path_ok control_path = true ->
  kernel_ok kl -> 8 <= room kl -> answers kl = [] -> kernel_ok kc -> 0 < room kc -> answers kc = [] ->
  kernel_ok (pr_kernel p) -> 2 <= room (pr_kernel p) -> answers (pr_kernel p) = [] ->
  exists m fc kc' control, log_server_main 0 root (LsMain kl sl [] None false) = Ret None m /\
    control_socket control_path n kc = Ret fc kc' /\ fds kc' !! fc = Some control /\
    (exists f p', console_start files settings argv p = Ret f p' /\ to_log_server m p' f log_types) /\
    (exists f p', verbatim_start 0 cfg p = Ret (Some f) p' /\ to_log_server m p' f log_types) /\
    (exists f b p', connect_start files settings argv p = Ret (f, b) p' /\ to_connector control p' f /\ to_log_server m p' b [BITCOIN]) /\
    (exists f p', get_nodes_start files settings argv p = Ret f p' /\ to_connector control p' f) /\
    (exists f p', kill_dupes_start files settings argv p = Ret f p' /\ to_connector control p' f) /\
    (exists f b p1 p', cycle_start files settings argv p = Ret (f, cfg) p1 /\ cycle_watch cfg p1 = Ret b p' /\
       to_connector control p' f /\ to_log_server m p' b [BITCOIN]).
Proof.
  intros file cfg Hfile Hset H0 Hl Hcp Hkl Hrl Hal Hkc Hrc Hac Hk Hr Ha.
  destruct (log_server_up root kl sl Hkl Hrl Hal H0 Hl) as (m&Hls&_&Hm&_). pose proof (control_socket_run control_path n kc Hcp Hkc Hrc Hac) as Hcs.
  set (control := KSocket AF_UNIX true false (Some (unix_addr control_path)) (Some n) None) in Hcs.
  eexists m, (lowest (fds kc)), _, control. split; [exact Hls|]. split; [exact Hcs|]. split; [apply opened_last|].
  assert (In ("all"%string, log_types) documented) as Hall by (simpl; tauto). assert (In ("bitcoin"%string, [BITCOIN]) documented) as Hbc by (simpl; tauto).
  pose proof (client_config_ok files settings argv root control_path Hfile Hset) as Hcfg. assert (is_Some (ks_backlog control)) as Hbk by by eexists.
  set (pd := Process (with_dirs ({[root]} ∪ dirs (pr_kernel p)) (pr_kernel p)) (pr_startup p)).
  destruct (consumer_opens root H0 Hl "all" log_types pd Hall) as (fa&ka&Hra&_&_&_&Hfa&_); [done|change (0 < room (pr_kernel p)); lia|done|].
  destruct (opens_both root control_path H0 Hl Hcp m control Hm eq_refl Hbk "bitcoin" [BITCOIN] p Hbc Hk Hr Ha) as (f&p1&Hr1&(b&p2&Hr2&Hc2&Hl2)&(b'&p2'&Hr2'&Hc2'&Hl2')&Hc1).
  split_and!.
  - exists fa, (Process ka (pr_startup p)). split; [|by apply (meets_log_server root m Hm "all")]. unfold console_start. erewrite bind_ret by apply Hcfg. erewrite bind_ret by apply mkdir_run. exact Hra.
  - exists fa, (Process ka (pr_startup p)). split; [|by apply (meets_log_server root m Hm "all")]. unfold verbatim_start. cbn [negb Z.eqb]. erewrite bind_ret by apply mkdir_run. by run_step Hra.
  - exists f, b', p2'. split; [|done]. unfold connect_start. erewrite bind_ret by apply Hcfg. cbn [cs_control cs_root]. run_step Hr1. erewrite bind_ret by apply mkdir_run. by run_step Hr2'.
  - exists f, p1. split; [|done]. unfold get_nodes_start. erewrite bind_ret by apply Hcfg. exact Hr1.
  - exists f, p1. split; [|done]. unfold kill_dupes_start. erewrite bind_ret by apply Hcfg. exact Hr1.
  - exists f, b, p1, p2. split; [|done]. unfold cycle_start. erewrite bind_ret by apply Hcfg. cbn [cs_control]. by run_step Hr1.
Qed.

Definition demo_files (name : list Z) : read_file := FileRead.
Definition demo_settings (name : list Z) : client_settings := ClientSettings (text "/tmp/log/") (text "/tmp/control").
Definition demo_empty_kernel : kernel := Kernel ∅ 64 ∅ ∅ [] 0.
Definition demo_process : process := Process demo_empty_kernel (Startup (Creds 1 1 1 1 1 1 [] 2 0 []) []).

Lemma clients_meet_servers_witness :
  exists m f p', log_server_main 0 (text "/tmp/log/") (LsMain demo_empty_kernel demo0 [] None false) = Ret None m /\
    console_start demo_files demo_settings [text "console"] demo_process = Ret f p' /\ to_log_server m p' f log_types.
Proof.
  destruct (clients_meet_servers demo_files demo_settings [text "console"] (text "/tmp/log/") (text "/tmp/control") demo_empty_kernel demo0 demo_empty_kernel 5 demo_process)
    as (m&fc&kc'&control&Hls&_&_&(f&p'&Hr&Hto)&_).
  - reflexivity.
  - reflexivity.
  - repeat constructor; discriminate.
  - vm_compute. congruence.
  - reflexivity.
  - intros f [x Hx]. done.
  - vm_compute. congruence.
  - reflexivity.
  - intros f [x Hx]. done.
  - vm_compute. congruence.
  - reflexivity.
  - intros f [x Hx]. done.
  - vm_compute. congruence.
  - reflexivity.
  - exists m, f, p'. split; [exact Hls|]. split; [exact Hr|exact Hto].
Defined.

(** A client that cannot read its configuration says so and opens nothing. *)
Theorem unreadable_config files settings argv p :
  files (match argv with [_; name] => name | _ => text "../netmine.cfg" end) <> FileRead ->
  exists e p', pr_kernel p' = pr_kernel p /\ st_cerr (pr_startup p') <> st_cerr (pr_startup p) /\
    console_start files settings argv p = Raise e p' /\ connect_start files settings argv p = Raise e p' /\
    get_nodes_start files settings argv p = Raise e p' /\ kill_dupes_start files settings argv p = Raise e p' /\
    cycle_start files settings argv p = Raise e p'.
Proof.
  intros Hf. assert (exists e p', client_config files settings argv p = Raise e p' /\ pr_kernel p' = pr_kernel p /\ st_cerr (pr_startup p') <> st_cerr (pr_startup p)) as (e&p'&Hc&Hk&Hs).
  { unfold client_config. destruct (files _) as [|what|er name line]; [done|..]; (eexists _, _; split; [reflexivity|split; [reflexivity|]]);
      simpl; intros E; apply (f_equal length) in E; rewrite length_app in E; simpl in E; lia. }
  exists e, p'. split; [done|]. split; [done|]. split_and!; by apply bind_raise.
Qed.
